(* ===== verification/_CoqProject ===== *)
-Q . S2P
Prelude.v
PyFloat.v
FloatFacts.v
Json.v
JsonFacts.v
JsonText.v
UuidText.v
Calendar.v
Models.v
Session.v
Schema.v
WebApi.v
Sha256.v
Engines.v
Base64.v
Resources.v
Cluster.v
Placement.v
Scheduler.v
NodeHealth.v
Failover.v
Metering.v
Billing.v
Catalog.v
Contracts.v
Approvals.v
AuditChain.v
FinanceModels.v
FinanceWork.v
FinanceLedger.v
FinanceBooks.v
FinanceDelivery.v
IdentityModels.v
IdentityCore.v
IdentityLogin.v
IdentityAccount.v
IdentityAdmin.v
IdentityOutbox.v
IdentityFacts.v
IdentityEvents.v
IdentityRelay.v
IdentityDemo.v
IdentitySafety.v
IdentitySignIn.v
IdentityRecovery.v
IdentityLockout.v
PushModels.v
PushAuth.v
PushService.v
PushProviders.v
PushWorker.v
PushFacts.v
PushLifecycle.v
PushDevices.v
PushMessages.v
PushBatch.v
PushSafety.v
PushGuarantees.v
PushProgress.v
PushDemo.v
IdentityPush.v
IdentityPushDemo.v
RealtimeModels.v
RealtimeCore.v
RealtimeHub.v
RealtimeEvents.v
RealtimeSchemas.v
RealtimeService.v
RealtimeServer.v
RealtimeFacts.v
RealtimeDelivery.v
RealtimeLife.v
RealtimeDemo.v
RealtimeProcess.v
RealtimeWorker.v
RealtimeFanout.v
RealtimeTypes.v
RealtimeTyping.v
