(* ===== verification/Prelude.v ===== *)
(** Verification of the Ithute control plane.

    The repository is the platform of a hosting provider: a FastAPI backend
    ([src/apps/backend/app]) with a relational database behind SQLAlchemy, native
    engines, node agents and a web frontend.  This library models the core of the
    backend: capacity of hosting nodes, placement, node health and failover, the
    queue of node operations, plans, entitlements, billing and contracts, the
    finance ledger, and the security bookkeeping around them; and of the separate
    services of the platform, the identity server, the notification service and the
    realtime service.

    * How the program is modelled

    - [Prelude]: scalars, errors, record update, sums, stable sorting.  A UUID is
      an integer, a timestamp a number of microseconds, a date a number of days.
      A function that may raise returns [result]; the exceptions are the
      constructors of [exn] with the message of the code.
    - [PyFloat]: Python's float as IEEE binary64 ([SpecFloat]), with [sum],
      [round], [max] and the comparisons the code uses.
      [FloatFacts]: the quotient of two integers is within half a unit of its
      last place, and [round(n / d)] rounds the exact quotient once.
    - [Json]: [json.loads] and [json.dumps] on decoded values, the conversions
      [int], [float], [bool], [str], [repr] and [UUID] of a decoded value, and
      the string methods the services call.
    - [Calendar]: dates and periods.
    - [Models]: a record per SQLAlchemy class with all its columns and defaults
      ([app/models]), and the record [Db] of all tables.
    - [Session]: the session of [app/db/session.py].  It does not autoflush: a
      query selects by the last flushed rows ([sql]) and returns the objects of
      the identity map with whatever was assigned since ([mem]).  [put] is an
      attribute assignment, [add] a pending object, [flush] and [commit] make
      both sides equal.  Several findings below are about this difference.
    - An operation takes the session, [now], the identifiers of the rows it may
      create and its arguments, and returns its result and the new session.

    * Components, each with the theorems at the end of its file

    - [Resources] ([services/resource_manager.py]): commitments of a node,
      reservations.  Over any sequence of reserve, release and expire no node
      promises more than it has.
    - [Cluster] ([services/cluster_engine.py]): the Python fallbacks of the native
      cluster engine and the checks around it.  The dependency order is a
      topological order exactly when there is one (fuel: the number of nodes,
      proved enough), reachability is the reflexive transitive closure, the native
      answers are only used when they pass validation.  The ranking of the C++
      library of the repository ([engines/cpp-cluster]) is modelled too
      ([cpp_rank_candidates]); the rest of a native library is an argument.
    - [Placement] ([services/hosting_placement.py]): scoring, ranking and selecting
      hosting nodes, and the cost allocation of tenants.  Uses [Resources] for the
      commitments and [Cluster] for the ranking.
    - [Scheduler] ([services/hosting_operation_scheduler.py],
      [api/v1/hosting_project_operations.py]): queueing, claiming and reporting
      node operations.  Admission is bounded over all interleavings, operations
      only move along their life cycle, a retirement never hits the active node.
    - [NodeHealth] ([services/hosting_node_health.py]): health evaluation, automatic
      draining, recovery and activation, each after an uninterrupted streak as
      long as its own threshold.
    - [Failover] ([services/hosting_failover.py]): relocating projects of drained
      nodes, from the attempt to the retirement of the source, on the interface
      [EdgeService] for the public route.
    - [Metering] ([services/hosting_metering.py]) and [Billing]
      ([services/billing.py], the webhook of [api/v1/billing.py]): usage, limits,
      entitlements as a refinement of an abstract rule, overage, invoices, payment
      events (each applied at most once).
    - [Catalog] ([services/catalog_entitlements.py]) and [Contracts]
      ([services/commercial_ops_v2.py]): the effective plan of a tenant, contract
      invoices, package changes and the billing cycle as a step relation.
    - [Approvals] ([services/security_approvals.py] and its endpoints): the
      four-eyes rule and the life cycle of an approval over any run.
    - [Sha256] and [Engines] ([services/engine_runtime.py],
      [services/engine_router.py], [engines/rust-core/src/lib.rs],
      [engines/cpp-native]): each byte operation's Python reference and native
      implementation, proved equal on every input, so that no answer depends on
      which libraries a deployment has.
    - [JsonFacts]: printing and parsing JSON are inverse on values without floats.
      On top of it [AuditChain] ([services/audit_integrity.py],
      [services/security_operations.py]): the HMAC chain of audit rows.  A signed
      row verifies, an altered one does not (unless the two signed payloads
      collide under HMAC-SHA256), and a log grown one flush at a time, each row
      newer than the others, passes the check over every window.

    - [FinanceModels], [FinanceWork], [FinanceLedger], [FinanceBooks]
      ([services/finance_ledger.py], [finance_periods.py], [finance_audit.py] and
      the endpoints of [api/v1/finance*.py] that post to the ledger).  A finance
      request is a [Work]: a session on [FinanceDb] together with the accounting
      dates and the Integer columns of the objects it made new, dirty or deleted.
      A flush first runs the [before_flush] guard on locked periods, then checks
      the unique columns, the foreign keys and the range of Integer columns, as
      the database does; primary keys need no freshness hypothesis.  Over any
      sequence of requests the books balance and a locked period is read-only
      (but for the link of a bank transaction to a row that is deleted);
      the stored status agrees with the computed one; document numbers are new
      (up to 9999 a year); the tax computed in floating point is exact.
    - [FinanceDelivery] ([services/finance_governance.py], [finance_delivery.py],
      [finance_recurring.py] and their endpoints): approvals above a threshold,
      sending, the monthly scheduler.  Each accepted mail of a month is that of
      one schedule that became sent, to its recipient and about its invoice; no
      run fails.  The renderer and the mail server are arguments.

    - The identity server ([src/platform/ithute-auth/app]).  [IdentityModels] has
      the classes of [models.py], the record of all tables and the schema a flush
      checks.  [IdentityCore] has its database session as a state and error monad
      (a connection is the committed database with the session on it), the
      [before_flush] event that queues lifecycle events, [security.py] and
      [security_service.py]; third-party code ([passlib], [pyotp], [PyJWT],
      [cryptography], [ipaddress], the mail and SMS gateways) is the class
      [Providers].  [IdentityLogin] ([main.py], [oauth.py],
      [platform_admin_authorize.py], [zero_trust.py]), [IdentityAccount]
      ([account.py]) and [IdentityAdmin] ([admin.py], the redirect policy, the
      application registry, [system_owner.py]) have the endpoints; [serve]
      answers a request on its own connection, [serve_all] a sequence of them.
      [IdentityFacts] is the program logic: preorders on databases that every
      endpoint respects ([grows]), and the steps of a computation that succeeded.
      On it: [IdentitySafety] (a revocation is final, a code is redeemed once),
      [IdentitySignIn] (what a sign-in and a redirect need), [IdentityRecovery]
      (password reset and refresh rotation), [IdentityLockout] (a bound on
      guesses at the sign-in, whatever else is served but what lifts the lock or
      has the right password), with the concrete server of
      [IdentityDemo] for the witnesses.  [Base64]: the URL-safe text of
      [security.py] and [passkeys.py] and its round trip.

    - The notification service ([src/platform/ithute-push/app]).  [PushModels] has
      the classes of [models.py] with the constraints a flush checks (the common
      ones are in [Schema]), [PushAuth] the central tokens, the request bodies and
      the endpoint cipher, [PushService] the endpoints of [main.py],
      [platform_api.py] and [admin.py] with [serve], [PushProviders] what is sent
      to FCM, APNs and Web Push ([providers.py]), [PushWorker] the delivery worker
      ([worker.py]).  HTTP, PyJWT, pywebpush and Fernet are the class [Providers].
      A request is one transaction, except that queueing a notification is cut at
      the flush that can meet a key committed meanwhile ([begin_message],
      [finish_message]); a worker batch is one transaction, as in the code.
      [PushSafety] has the step relation of requests, notifications in flight and
      batches with its invariant, made of [PushLifecycle] (each status is the
      latest event received about it), [PushDevices] (an active device has a live
      owner) and [PushMessages]; [PushBatch] is the batch.  [PushGuarantees]:
      notifications reach live devices of their recipient only, deliveries keep
      their life cycle, a repeated request is answered with the first
      notification or refused, the order of the lifecycle events matters for
      events at the same time only.  [PushProgress]: every delivery is settled
      within [max_attempts] cycles, if the identifiers of the providers fit.
      [PushDemo] is the concrete service of the witnesses.

    - The two services together.  [IdentityOutbox] is the worker that posts the
      queued lifecycle events ([push_event_worker.py]): claiming, settling and the
      cycle, on whatever answers the posts.  [IdentityEvents]: every session the
      identity server revokes through its mapped objects has an event in the
      outbox.  [IdentityRelay]: what the worker's transactions do, and that a
      cycle whose posts succeed delivers what is due.  [IdentityPush] joins the
      services in one step relation with any number of workers, crashes and
      expired leases, and any requests to both; only the workers post with a
      token of the identity server's own service ([foreign]), and the requests
      without one are proved to leave the log of events alone.  What the
      framework reads from the JSON of an event is the interface [Wire].  The
      outbox is a reliable channel, and a revocation ends with no active device,
      except for the sessions the owner synchronisation revokes in bulk
      ([unannounced]); [IdentityPushDemo] has the witnesses.

    - The realtime service ([src/platform/ithute-realtime/app]).  [RealtimeModels]
      has the classes of [models.py] and their constraints, [RealtimeCore] the
      settings, the central tokens ([auth.py]) and the monad of the service: its
      state ([World]) is the committed database, the session, the sockets of the
      process, the frames sent, the cached token and the servers outside, Redis
      (the class [RedisServer], a command each) and the notification service with
      the token endpoint ([PushGateway]).  Every call outside and every commit
      uses one unit of [credit]; without it the process is killed there.
      [RealtimeHub] is the hub ([hub.py]: presence, sockets, fan-out) and
      [rate_limit.py]; [RealtimeEvents] the durable events ([events.py]) and the
      bridge ([push.py]); [RealtimeSchemas] the bodies; [RealtimeService] the user
      endpoints and [RealtimeServer] the product endpoints, the socket and the
      worker, all as the jobs of a process ([job], [serve]).  [WebApi] has what
      the services share of the framework.
      [RealtimeFacts] is the program logic, with the schema as an invariant;
      [RealtimeDelivery] the states of an event and what [deliver_event] does to
      them; [RealtimeLife] that every job keeps the life of the events;
      [RealtimeProcess] the step relation of jobs, each killed at any write, with
      [event_life] and [publishing_final].  [RealtimeWorker] is a total logic
      ([runs], [ends_in]) on which the rounds of the worker settle what is
      pending, whatever the servers answer ([worker_settles]).  [RealtimeFanout]:
      the text of an event, printed, published and parsed again, reaches the
      sockets of its recipients and no other.  [RealtimeTypes] and
      [RealtimeTyping]: a typing discipline for databases and its preservation by
      every job, with the facts about rows a request has read as the context of
      a computation ([typed K], [moves K K']); hence the history and the
      audit always render and references stay within a conversation and an
      application.  [JsonText] and [UuidText]: what [json.dumps] prints as ASCII
      and [str(uuid)] are read back.  [RealtimeDemo] has the concrete servers.

    * Assumptions

    - Strings are byte strings: UTF-8 where the code has text; [len], [lower],
      [strip] and slices coincide with Python's on ASCII.
    - One call sees one [now]; [onupdate] stamps are not modelled.
    - Row locks ([with_for_update]) have no effect in a single session; the
      interleavings of the theorems are those of whole transactions.
    - The native cluster library and the edge are arguments; where a theorem
      needs a law of one it is a field of an interface or a hypothesis.  SHA-256
      and HMAC are executable definitions.
    - The signature that [AuditChain] adds to an audit row when it is flushed is not
      added by the other components, which insert the rows unsigned.
    - ORDER BY without a unique key keeps the order of the rows; text sorts by
      code point.
    - Unique constraints appear as [NoDup] hypotheses on keys, in the finance files
      as checks of the flush; the foreign keys of a payment event are not checked.
      A batch of the delivery worker is one step.  The server's local date is the UTC date.

    - The jobs of a process of the realtime service run one after the other,
      where the code may switch between requests while it waits for Redis, and
      its worker is a second process that takes no row locks; the
      frames of one fan-out, which the code gathers, are sent in order.
    - In the identity server one request reads the clock once and runs in one
      transaction at a time; a message stands for its secret, and the redirect for
      its URI, code and state; request validation by the framework is not modelled.

    * What the development found

    The code does not always do what it means to; each of these is computed on a
    concrete run or follows from a theorem.  An immediate package upgrade and an
    add-on cancellation at the end of a period rebuild the effective plan from
    rows that have not been flushed ([Contracts]); two pending relocations can be
    placed on capacity for one, and a failed relocation is audited twice
    ([Failover]); a failed payment event is never retried and a refused one keeps
    what it had assigned ([Billing]); the two database limit checks disagree on
    plans with a limit of zero ([Billing]); audit rows flushed together fork the
    signature chain, and of two rows of one instant the second may sort before the
    first, which the check reports as a broken link ([AuditChain]).  In the finance part: deleting a payment of an
    open month erases its refunds of a locked month; a refunded invoice cannot be
    paid again; the bank reconciliation pays cancelled invoices; two equal lines
    fail a bank import; numbers repeat after 9999; totals may overflow their
    column; a schedule at the approval threshold is never sent; and editing a
    draft keeps its approval ([FinanceBooks], [FinanceDelivery]).  In the identity
    server an identifier without digits matches every account without a phone
    number, the login endpoint lets administrators in by password, step-up
    passwords are guessed without limit, and a bulk update passes the lifecycle
    event by.  In the realtime service an event whose publication is interrupted
    is never delivered nor reported ([publishing_final]), deleted bodies leave with
    the deletion event and by forwarding, and a message stored by an interrupted
    request is never announced; a room key shows its members to anybody in the product;
    a notice retried for two offline users is refused as a different one.

    * What is not modelled

    The web frontend, the engine workers reached over HTTP, mail, DNS and agent
    I/O and rendering of documents.  Of the identity server: pages, passkeys, the
    browser portal and service clients.  Of the notification service: the health
    probes, and a registration that races with a revocation inside one
    transaction.  Of the realtime service: the health probes, the polling loop around
    a worker's round and the unused [notify_chat_message].  The finance reminders and
    quotations and the edge routes are left for later. *)
From Stdlib Require Export ZArith Lia Bool String Ascii.
From stdpp Require Export base tactics list option strings sorting relations.
#[export] Set Default Goal Selector "!".
#[global] Open Scope Z_scope.

(** * Scalars *)

(** [uuid.UUID] columns, [DateTime(timezone=True)] columns (microseconds since
    the epoch, UTC) and [Date] columns (days since the epoch). *)
Definition uuid := Z.
Definition time := Z.
Definition date := Z.

(** The double quote. *)
Definition dq : string := String (ascii_of_nat 34) EmptyString.

Declare Scope py_scope.
Delimit Scope py_scope with py.
#[global] Open Scope py_scope.

(** [a == b], [a in (..)] and [a not in (..)] on hashable Python values. *)
Notation "a ==? b" := (bool_decide (a = b)) (at level 70, no associativity) : py_scope.
Notation "a !=? b" := (negb (bool_decide (a = b))) (at level 70, no associativity) : py_scope.
Notation "a 'in?' l" := (existsb (fun x => bool_decide (a = x)) l)
  (at level 70, no associativity) : py_scope.
Notation "a 'notin?' l" := (negb (existsb (fun x => bool_decide (a = x)) l))
  (at level 70, no associativity) : py_scope.

(** * Errors: the exceptions the services raise *)
Inductive exn : Type :=
| ValueError (msg : string)
| LookupError (msg : string)
| RuntimeError (msg : string)
| TypeError (msg : string)
| PermissionError (msg : string)
| OverflowError (msg : string)
| AssertionError
| AttributeError (msg : string)
| HTTPException (status_code : Z) (detail : string)
| IntegrityError (constraint : string)
| DataError (msg : string)
| ApprovalRequiredError (msg : string)
| EventConflict (msg : string).

Inductive result (A : Type) : Type :=
| Ok (a : A)
| Err (e : exn).
Arguments Ok {A} a.
Arguments Err {A} e.

#[export] Instance exn_eq_dec : EqDecision exn.
Proof. solve_decision. Defined.
#[export] Instance result_eq_dec A `{EqDecision A} : EqDecision (result A).
Proof. solve_decision. Defined.

Definition rbind {A B} (m : result A) (k : A -> result B) : result B :=
  match m with Ok a => k a | Err e => Err e end.
Notation "'let*' x := m 'in' k" := (rbind m (fun x => k))
  (at level 10, x pattern, m at level 100, k at level 200) : py_scope.
(** [if not c: raise e] *)
Notation "'ensure' c 'else_raise' e ; k" := (if c then k else Err e)
  (at level 10, c at level 100, e at level 100, k at level 200) : py_scope.

Definition is_some {A} (o : option A) : bool := match o with Some _ => true | None => false end.
Definition is_ok {A} (r : result A) : bool := match r with Ok _ => true | Err _ => false end.

Lemma rbind_ok {A B} (m : result A) (k : A -> result B) b :
  rbind m k = Ok b <-> exists a, m = Ok a /\ k a = Ok b.
Proof. destruct m; simpl; naive_solver. Qed.

(** * Record update *)
Class Eta (R : Type) := eta : R -> R.
Class Setter {R T : Type} (f : R -> T) := set : (T -> T) -> R -> R.
Arguments set {R T} f {_} _ _.

Ltac solve_setter :=
  match goal with
  | |- @Setter ?R ?T ?f =>
      let i := constr:(_ : Eta R) in
      let e := eval hnf in (i : R -> R) in
      let p := eval pattern f in e in
      match p with
      | ?g _ =>
          let t := eval cbv beta in
            (fun (u : T -> T) (r : R) => g (fun r' : R => u (f r')) r) in
          exact t
      end
  end.
#[export] Hint Extern 1 (Setter _) => solve_setter : typeclass_instances.

Notation "r <| f := v |>" := (set f (fun _ => v) r)
  (at level 12, f at next level, v at level 200, left associativity,
   format "r  <| f  :=  v |>") : py_scope.
Notation "r <| f ::= g |>" := (set f g r)
  (at level 12, f at next level, g at level 200, left associativity,
   format "r  <| f  ::=  g |>") : py_scope.

(** * Rows and tables *)

(** A row has its primary key. *)
Class Keyed (R : Type) := key : R -> uuid.

(** * Sums, maxima *)
Definition zsum (l : list Z) : Z := fold_right Z.add 0 l.
Definition sum_by {A} (f : A -> Z) (l : list A) : Z := zsum (map f l).
Definition zlen {A} (l : list A) : Z := Z.of_nat (length l).

Section Sums.
Context {A : Type}.
Implicit Types (f g : A -> Z) (l : list A).

Lemma zsum_app k1 k2 : zsum (k1 ++ k2) = zsum k1 + zsum k2.
Proof. induction k1; simpl; lia. Qed.

Lemma sum_by_app f l k : sum_by f (l ++ k) = sum_by f l + sum_by f k.
Proof. unfold sum_by. by rewrite map_app, zsum_app. Qed.

Lemma sum_by_nonneg f l : Forall (fun x => 0 <= f x) l -> 0 <= sum_by f l.
Proof. unfold sum_by; induction 1; simpl; lia. Qed.

Lemma sum_by_ext f g l : Forall (fun x => f x = g x) l -> sum_by f l = sum_by g l.
Proof. unfold sum_by; induction 1; simpl; lia. Qed.

Lemma sum_by_le f g l : Forall (fun x => f x <= g x) l -> sum_by f l <= sum_by g l.
Proof. unfold sum_by; induction 1; simpl; lia. Qed.

Lemma sum_by_add f g l : sum_by (fun x => f x + g x) l = sum_by f l + sum_by g l.
Proof. unfold sum_by; induction l; simpl; lia. Qed.

Lemma sum_by_filter_le (p : A -> bool) f l :
  Forall (fun x => 0 <= f x) l -> sum_by f (List.filter p l) <= sum_by f l.
Proof. unfold sum_by; induction 1; simpl; [done|]. destruct (p x); simpl; lia. Qed.

Lemma sum_by_const c l : sum_by (fun _ => c) l = c * zlen l.
Proof. unfold sum_by, zlen; induction l; simpl; lia. Qed.

Lemma sum_by_perm f l k : l ≡ₚ k -> sum_by f l = sum_by f k.
Proof. unfold sum_by; induction 1; simpl; lia. Qed.
End Sums.

Lemma head_filter {A} (p : A -> bool) l x :
  head (List.filter p l) = Some x -> x ∈ l /\ p x = true.
Proof.
  intros Hh. destruct (List.filter p l) as [|y k] eqn:E; simplify_eq/=.
  assert (In x (x :: k)) as Hx by by left. rewrite <- E, filter_In in Hx. by rewrite list_elem_of_In.
Qed.

(** * Stable insertion sort: Python's [sorted] and SQL's [ORDER BY] *)
Section Sort.
Context {A : Type} (leb : A -> A -> bool).

Fixpoint insert_sorted (x : A) (l : list A) : list A :=
  match l with
  | [] => [x]
  | y :: l' => if leb x y then x :: l else y :: insert_sorted x l'
  end.
Definition sort_by (l : list A) : list A := fold_right insert_sorted [] l.

Lemma insert_sorted_perm x l : insert_sorted x l ≡ₚ x :: l.
Proof.
  induction l as [|y l IH]; simpl; [done|]. destruct (leb x y); [done|].
  rewrite IH. apply perm_swap.
Qed.

Lemma sort_by_perm l : sort_by l ≡ₚ l.
Proof. induction l; simpl; [done|]. by rewrite insert_sorted_perm, IHl. Qed.

Lemma sort_by_elem x l : x ∈ sort_by l <-> x ∈ l.
Proof. by rewrite sort_by_perm. Qed.

Context (total : forall x y, leb x y = true \/ leb y x = true)
        (trans : forall x y z, leb x y = true -> leb y z = true -> leb x z = true).

Lemma insert_sorted_sorted x l :
  StronglySorted (fun a b => leb a b = true) l ->
  StronglySorted (fun a b => leb a b = true) (insert_sorted x l).
Proof.
  induction 1 as [|y l Hl IH Hy]; simpl; [repeat constructor|].
  destruct (leb x y) eqn:E.
  - constructor; [by constructor|]. constructor; [done|].
    eapply Forall_impl; [exact Hy|]. eauto.
  - constructor; [done|]. rewrite insert_sorted_perm. constructor; [|done].
    destruct (total x y); congruence.
Qed.

Lemma sort_by_sorted l : StronglySorted (fun a b => leb a b = true) (sort_by l).
Proof. induction l; simpl; [constructor|]. by apply insert_sorted_sorted. Qed.
End Sort.

(** * Comparisons: total preorders by a [comparison], closed under
    lexicographic product and inverse image *)
Record cmp_order {A} (c : A -> A -> comparison) : Prop := {
  cmp_sym : forall a b, c b a = CompOpp (c a b);
  cmp_trans : forall x y z, c x y <> Gt -> c y z <> Gt -> c x z <> Gt
}.
Definition lex_cmp {A} (c1 c2 : A -> A -> comparison) (a b : A) : comparison :=
  match c1 a b with Eq => c2 a b | r => r end.
(** [a <= b] *)
Definition cmp_leb {A} (c : A -> A -> comparison) (a b : A) : bool :=
  match c a b with Gt => false | _ => true end.

Section Cmp.
Context {A : Type}.

Lemma cmp_leb_le (c : A -> A -> comparison) a b : cmp_leb c a b = true <-> c a b <> Gt.
Proof. unfold cmp_leb. destruct (c a b); split; congruence. Qed.

Lemma cmp_leb_total c : cmp_order c -> forall a b : A, cmp_leb c a b = true \/ cmp_leb c b a = true.
Proof.
  intros [Hs _] a b. rewrite !cmp_leb_le, (Hs a b). destruct (c a b); simpl; [left|left|right]; congruence.
Qed.

Lemma cmp_leb_trans c : cmp_order c -> forall x y z : A,
  cmp_leb c x y = true -> cmp_leb c y z = true -> cmp_leb c x z = true.
Proof. intros [_ Ht] x y z. rewrite !cmp_leb_le. apply Ht. Qed.

Lemma lex_cmp_order (c1 c2 : A -> A -> comparison) :
  cmp_order c1 -> cmp_order c2 -> cmp_order (lex_cmp c1 c2).
Proof.
  intros [S1 T1] [S2 T2]. split.
  - intros a b. unfold lex_cmp. rewrite (S1 a b). by destruct (c1 a b); simpl.
  - intros x y z. unfold lex_cmp. pose proof (T1 x y z) as Hxz.
    pose proof (T1 z x y) as Hzy. pose proof (T1 y z x) as Hyx. rewrite (S1 y z) in Hzy.
    rewrite (S1 x y) in Hyx. rewrite (S1 x z) in Hzy, Hyx.
    destruct (c1 x y), (c1 y z), (c1 x z); simpl in *; try congruence; try apply T2; intros; exfalso;
      first [apply Hxz; congruence|apply Hzy; congruence|apply Hyx; congruence].
Qed.

Lemma map_cmp_order {B} (f : B -> A) c : cmp_order c -> cmp_order (fun a b => c (f a) (f b)).
Proof. intros [S T]. split; eauto. Qed.
End Cmp.

Lemma Z_cmp_order : cmp_order Z.compare.
Proof.
  split; [intros; apply Z.compare_antisym|].
  intros x y z.
  destruct (Z.compare_spec x y), (Z.compare_spec y z), (Z.compare_spec x z); intros; try congruence; lia.
Qed.

Lemma string_cmp_order : cmp_order String.compare.
Proof.
  split.
  - intros a b. apply String.compare_antisym.
  - induction x as [|a x IH]; intros [|b y] [|c z]; simpl; try congruence.
    unfold Ascii.compare.
    destruct (N.compare_spec (N_of_ascii a) (N_of_ascii b)), (N.compare_spec (N_of_ascii b) (N_of_ascii c)),
      (N.compare_spec (N_of_ascii a) (N_of_ascii c)); try congruence; try lia. apply IH.
Qed.
#[export] Hint Resolve Z_cmp_order string_cmp_order lex_cmp_order map_cmp_order : cmp.

(** Sorting with a comparison. *)
Definition sort_cmp {A} (c : A -> A -> comparison) : list A -> list A := sort_by (cmp_leb c).
Lemma sort_cmp_sorted {A} (c : A -> A -> comparison) l :
  cmp_order c -> StronglySorted (fun a b => c a b <> Gt) (sort_cmp c l).
Proof.
  intros Hc. pose proof (sort_by_sorted (cmp_leb c) (cmp_leb_total c Hc) (cmp_leb_trans c Hc) l) as Hs.
  fold (sort_cmp c l) in Hs. induction Hs as [|x l' _ IH Hx]; constructor; [done|].
  eapply Forall_impl; [exact Hx|]. intros y. simpl. by rewrite cmp_leb_le.
Qed.

Lemma head_sort_filter {A} (c : A -> A -> comparison) (q : A -> bool) l x :
  head (sort_cmp c (List.filter q l)) = Some x -> x ∈ l /\ q x = true.
Proof.
  intros Hh. rewrite list_elem_of_In, <- filter_In, <- list_elem_of_In, <- (sort_by_elem (cmp_leb c)).
  unfold sort_cmp in Hh. destruct (sort_by _ _); simplify_eq/=. left.
Qed.

(** Python's [min(l, key=..)]: the first of the least elements. *)
Definition min_by {A} (c : A -> A -> comparison) (l : list A) : option A :=
  match l with
  | [] => None
  | x :: l => Some (fold_left (fun m y => match c y m with Lt => y | _ => m end) l x)
  end.
Lemma min_by_spec {A} (c : A -> A -> comparison) l x :
  cmp_order c -> min_by c l = Some x -> x ∈ l /\ forall y, y ∈ l -> c x y <> Gt.
Proof.
  intros Hc. destruct l as [|a l]; [done|]. simpl. intros [= <-].
  assert (forall (l : list A) m (seen : list A), (forall y, y ∈ seen -> c m y <> Gt) -> m ∈ seen ->
    let r := fold_left (fun m y => match c y m with Lt => y | _ => m end) l m in
    (r ∈ seen \/ r ∈ l) /\ (forall y, y ∈ seen \/ y ∈ l -> c r y <> Gt)) as Hf.
  { clear a l. induction l as [|b l IH]; intros m seen Hm Hin; simpl.
    - split; [by left|]. intros y [?|?%not_elem_of_nil]; auto.
    - assert (forall m', m' = match c b m with Lt => b | _ => m end ->
        (forall y, y ∈ b :: seen -> c m' y <> Gt) /\ m' ∈ b :: seen) as Hstep.
      { pose proof (cmp_sym _ Hc m b) as Hs. pose proof (cmp_sym _ Hc b b) as Hbb.
        intros m' ->. destruct (c b m) eqn:E; (split; [|by repeat constructor]);
          intros y [->|Hy]%elem_of_cons; auto; try (destruct (c m b); done); try (destruct (c b b); done).
        apply (cmp_trans _ Hc b m y); [by rewrite E|auto]. }
      destruct (Hstep _ eq_refl) as [H1 H2]. destruct (IH _ _ H1 H2) as [Hr Hall]. split.
      + rewrite !elem_of_cons in *. naive_solver.
      + intros y Hy. apply Hall. rewrite !elem_of_cons in *. naive_solver. }
  destruct (Hf l a [a]) as [Hr Hall].
  - intros y ->%list_elem_of_singleton. pose proof (cmp_sym _ Hc a a). by destruct (c a a).
  - by left.
  - split; [rewrite elem_of_cons; rewrite list_elem_of_singleton in Hr; tauto|].
    intros y Hy. apply Hall. rewrite elem_of_cons in Hy. rewrite list_elem_of_singleton. tauto.
Qed.

(** * Booleans and case analysis *)
Ltac bdestruct c :=
  let H := fresh "E" in destruct c eqn:H;
  repeat match goal with
  | H : bool_decide _ = true |- _ => apply bool_decide_eq_true in H
  | H : bool_decide _ = false |- _ => apply bool_decide_eq_false in H
  | H : negb _ = true |- _ => apply negb_true_iff in H
  | H : negb _ = false |- _ => apply negb_false_iff in H
  | H : (_ && _) = true |- _ => apply andb_true_iff in H; destruct H
  | H : (_ || _) = false |- _ => apply orb_false_iff in H; destruct H
  | H : (_ <? _) = true |- _ => apply Z.ltb_lt in H
  | H : (_ <? _) = false |- _ => apply Z.ltb_ge in H
  | H : (_ <=? _) = true |- _ => apply Z.leb_le in H
  | H : (_ <=? _) = false |- _ => apply Z.leb_gt in H
  | H : (_ =? _) = true |- _ => apply Z.eqb_eq in H
  | H : (_ =? _) = false |- _ => apply Z.eqb_neq in H
  end.
