(* ===== verification/PyFloat.v ===== *)
(** Python's [float]: IEEE 754 binary64 as the Standard Library's executable
    [spec_float], with the conversions, comparisons and roundings that the
    services use.  Division of two Python integers is the correctly rounded
    quotient; [round] is round-half-even on the exact value. *)
From Stdlib Require Export SpecFloat.
From S2P Require Import Prelude.

Definition float := spec_float.
Definition prec : Z := 53.
Definition emax : Z := 1024.
Definition fzero : float := S754_zero false.
Definition finf : float := S754_infinity false.

#[export] Instance spec_float_eq_dec : EqDecision spec_float.
Proof. solve_decision. Defined.

(** [float(z)] for an integer in range. *)
Definition of_Z (z : Z) : float := binary_normalize prec emax z 0 false.

(** [n / d] on Python integers, [d <> 0]: one rounding of the exact quotient. *)
Definition of_ratio (n d : Z) : float :=
  if n =? 0 then fzero
  else
    let '(q, e, l) := SFdiv_core_binary prec emax (Z.abs n) 0 (Z.abs d) 0 in
    binary_round_aux prec emax (xorb (n <? 0) (d <? 0)) q e l.

Definition fadd : float -> float -> float := SFadd prec emax.
Definition fsub : float -> float -> float := SFsub prec emax.
Definition fmul : float -> float -> float := SFmul prec emax.
Definition fdiv : float -> float -> float := SFdiv prec emax.
Definition flt : float -> float -> bool := SFltb.
Definition fle : float -> float -> bool := SFleb.
Definition feq : float -> float -> bool := SFeqb.

(** [sum] of floats as CPython 3.12 computes it: compensated summation. *)
Definition sum_step (acc : float * float) (x : float) : float * float :=
  let '(hi, lo) := acc in
  let t := fadd hi x in
  if fle (SFabs x) (SFabs hi)
  then (t, fadd lo (fadd (fsub hi t) x))
  else (t, fadd lo (fadd (fsub x t) hi)).
Definition fsum (l : list float) : float :=
  match l with
  | [] => fzero
  | _ =>
      let '(hi, lo) := fold_left sum_step l (fzero, fzero) in
      match lo with
      | S754_finite _ _ _ => fadd hi lo
      | _ => hi
      end
  end.

(** [min(a, b)] and [max(a, b)] keep the first argument on ties. *)
Definition fmin (a b : float) : float := if flt b a then b else a.
Definition fmax (a b : float) : float := if flt a b then b else a.

Definition is_nan (x : float) : bool := match x with S754_nan => true | _ => false end.
Definition is_finite (x : float) : bool :=
  match x with S754_nan | S754_infinity _ => false | _ => true end.
(** [bool(x)] *)
Definition float_truthy (x : float) : bool :=
  match x with S754_zero _ => false | _ => true end.

(** [max] of a list: the first of the greatest elements. *)
Definition fmax_list (l : list float) : option float :=
  match l with [] => None | x :: l => Some (fold_left (fun m y => if flt m y then y else m) l x) end.

(** The integer nearest to [n / d], ties to even, [d > 0]. *)
Definition div_half_even (n d : Z) : Z :=
  let q := n / d in
  let r := n mod d in
  match Z.compare (2 * r) d with
  | Lt => q
  | Gt => q + 1
  | Eq => if Z.even q then q else q + 1
  end.

(** The exact value of a finite float as a ratio. *)
Definition to_ratio (x : float) : Z * Z :=
  match x with
  | S754_finite s m e =>
      let m := if s then Z.neg m else Z.pos m in
      if 0 <=? e then (m * 2 ^ e, 1) else (m, 2 ^ (- e))
  | _ => (0, 1)
  end.

(** [round(x)] of a finite float. *)
Definition round_int (x : float) : Z := let '(n, d) := to_ratio x in div_half_even n d.

(** [round(x, k)], [k >= 0]: the nearest decimal with [k] digits, as a float. *)
Definition round_digits (k : Z) (x : float) : float :=
  match x with
  | S754_finite s _ _ =>
      let '(n, d) := to_ratio x in
      match of_ratio (div_half_even (n * 10 ^ k) d) (10 ^ k) with
      | S754_zero _ => S754_zero s
      | r => r
      end
  | _ => x
  end.

(** [int(x)]: truncation towards zero; inf and nan raise. *)
Definition int_of_float (x : float) : result Z :=
  match x with
  | S754_nan => Err (ValueError "cannot convert float NaN to integer")
  | S754_infinity _ => Err (OverflowError "cannot convert float infinity to integer")
  | _ => let '(n, d) := to_ratio x in Ok (Z.quot n d)
  end.

#[global] Arguments of_Z : simpl never.
#[global] Arguments of_ratio : simpl never.
#[global] Arguments fadd : simpl never.
#[global] Arguments fsub : simpl never.
#[global] Arguments fmul : simpl never.
#[global] Arguments fdiv : simpl never.
#[global] Arguments fsum : simpl never.
#[global] Arguments round_digits : simpl never.
#[global] Arguments round_int : simpl never.

(** ** Comparison is a total preorder on the numbers *)
Definition zcmp_lex (a b : Z * Z) : comparison :=
  match Z.compare (fst a) (fst b) with Eq => Z.compare (snd a) (snd b) | c => c end.

(** The place of a float in the order: an exponent-like rank, then a mantissa. *)
Definition frank (x : float) : Z * (Z * Z) :=
  match x with
  | S754_nan => (3, (0, 0))
  | S754_infinity true => (-2, (0, 0))
  | S754_finite true m e => (-1, (- e, Z.neg m))
  | S754_zero _ => (0, (0, 0))
  | S754_finite false m e => (1, (e, Z.pos m))
  | S754_infinity false => (2, (0, 0))
  end.
Definition rank_cmp (a b : Z * (Z * Z)) : comparison :=
  match Z.compare (fst a) (fst b) with Eq => zcmp_lex (snd a) (snd b) | c => c end.

Lemma SFcompare_rank x y :
  is_nan x = false -> is_nan y = false -> SFcompare x y = Some (rank_cmp (frank x) (frank y)).
Proof.
  intros Hx Hy.
  destruct x as [sx|[]| |[] mx ex]; try done; destruct y as [sy|[]| |[] my ey]; try done;
    unfold rank_cmp, zcmp_lex; simpl.
  destruct (Z.compare_spec ex ey), (Z.compare_spec (- ex) (- ey)); try lia; done.
Qed.

Lemma rank_cmp_refl a : rank_cmp a a = Eq.
Proof. unfold rank_cmp, zcmp_lex. by rewrite !Z.compare_refl. Qed.

Lemma rank_cmp_total a b : rank_cmp a b <> Gt \/ rank_cmp b a <> Gt.
Proof.
  unfold rank_cmp, zcmp_lex.
  destruct (Z.compare_spec (fst a) (fst b)), (Z.compare_spec (fst b) (fst a)),
    (Z.compare_spec (fst a.2) (fst b.2)), (Z.compare_spec (fst b.2) (fst a.2)),
    (Z.compare_spec (snd a.2) (snd b.2)), (Z.compare_spec (snd b.2) (snd a.2));
    (left; discriminate) || (right; discriminate) || lia.
Qed.

Lemma rank_cmp_le a b :
  rank_cmp a b <> Gt <->
  a.1 < b.1 \/ a.1 = b.1 /\ (a.2.1 < b.2.1 \/ a.2.1 = b.2.1 /\ a.2.2 <= b.2.2).
Proof.
  unfold rank_cmp, zcmp_lex.
  destruct (Z.compare_spec (fst a) (fst b)), (Z.compare_spec (fst a.2) (fst b.2)),
    (Z.compare_spec (snd a.2) (snd b.2)); split; intros; try discriminate; try lia; congruence.
Qed.

Lemma rank_cmp_trans a b c : rank_cmp a b <> Gt -> rank_cmp b c <> Gt -> rank_cmp a c <> Gt.
Proof. rewrite !rank_cmp_le. lia. Qed.

Lemma fle_rank x y : is_nan x = false -> is_nan y = false ->
  fle x y = true <-> rank_cmp (frank x) (frank y) <> Gt.
Proof.
  intros Hx Hy. unfold fle, SFleb. rewrite SFcompare_rank by done.
  by destruct (rank_cmp _ _).
Qed.

(** The order as a comparison, for lexicographic keys. *)
Lemma rank_cmp_order : cmp_order rank_cmp.
Proof.
  split; [|apply rank_cmp_trans].
  intros a b. unfold rank_cmp, zcmp_lex.
  rewrite (Z.compare_antisym (fst a)). destruct (fst a ?= fst b); try done; simpl.
  rewrite (Z.compare_antisym (fst a.2)). destruct (fst a.2 ?= fst b.2); try done; simpl.
  by rewrite (Z.compare_antisym (snd a.2)).
Qed.

Lemma flt_fle x y : is_nan x = false -> is_nan y = false -> flt x y = negb (fle y x).
Proof.
  intros Hx Hy. unfold flt, fle, SFltb, SFleb. rewrite !SFcompare_rank by done.
  rewrite (cmp_sym _ rank_cmp_order (frank x) (frank y)). by destruct (rank_cmp _ _).
Qed.

Lemma fle_total x y : is_nan x = false -> is_nan y = false -> fle x y = true \/ fle y x = true.
Proof. intros Hx Hy. rewrite !fle_rank by done. apply rank_cmp_total. Qed.

Lemma fle_trans x y z : is_nan x = false -> is_nan y = false -> is_nan z = false ->
  fle x y = true -> fle y z = true -> fle x z = true.
Proof. intros Hx Hy Hz. rewrite !fle_rank by done. apply rank_cmp_trans. Qed.

Lemma div_half_even_bounds n d : 0 < d -> 2 * Z.abs (div_half_even n d * d - n) <= d.
Proof.
  intros Hd. unfold div_half_even.
  pose proof (Z.div_mod n d ltac:(lia)). pose proof (Z.mod_pos_bound n d Hd).
  destruct (Z.compare_spec (2 * (n mod d)) d); [destruct (Z.even _)|..]; nia.
Qed.
