(* ===== verification/FloatFacts.v ===== *)
(** Division of integers as Python rounds it: the quotient of two integers below
    2^50 is a binary64 within half a unit in the last place, and [round(n / d)]
    is the nearest integer to the exact quotient, ties to even, despite its two
    roundings, whenever the quotient leaves enough fractional bits. *)
From S2P Require Import Prelude PyFloat.
#[local] Open Scope Z_scope.

(** The number of bits. *)
Lemma digits2_bound p : 2 ^ (Z.pos (digits2_pos p) - 1) <= Z.pos p < 2 ^ Z.pos (digits2_pos p).
Proof.
  induction p as [p IH|p IH|]; [| |simpl; lia]; cbn [digits2_pos]; rewrite Pos2Z.inj_succ.
  - replace (Z.succ (Z.pos (digits2_pos p)) - 1) with (Z.pos (digits2_pos p) - 1 + 1) by lia.
    rewrite Z.pow_succ_r, Z.pow_add_r by lia. lia.
  - replace (Z.succ (Z.pos (digits2_pos p)) - 1) with (Z.pos (digits2_pos p) - 1 + 1) by lia.
    rewrite Z.pow_succ_r, Z.pow_add_r by lia. lia.
Qed.
Lemma digits2_unique p k : 0 < k -> 2 ^ (k - 1) <= Z.pos p < 2 ^ k -> Z.pos (digits2_pos p) = k.
Proof.
  intros Hk [H1 H2]. destruct (digits2_bound p) as [H3 H4].
  destruct (Z.lt_trichotomy (Z.pos (digits2_pos p)) k) as [H|[H|H]]; [|done|]; exfalso.
  - assert (2 ^ Z.pos (digits2_pos p) <= 2 ^ (k - 1)) by (apply Z.pow_le_mono_r; lia). lia.
  - assert (2 ^ k <= 2 ^ (Z.pos (digits2_pos p) - 1)) by (apply Z.pow_le_mono_r; lia). lia.
Qed.

(** The remainder as a location. *)
Inductive located (d r : Z) : location -> Prop :=
| at_exact : r = 0 -> located d r loc_Exact
| at_low : 0 < r -> 2 * r < d -> located d r (loc_Inexact Lt)
| at_half : 2 * r = d -> located d r (loc_Inexact Eq)
| at_high : d < 2 * r -> located d r (loc_Inexact Gt).
Lemma new_location_spec d r : 0 <= r < d -> located d r (new_location d r).
Proof.
  intros Hr. unfold new_location, new_location_even, new_location_odd.
  destruct (Z.even d) eqn:He; destruct (Z.eqb_spec r 0); try (by constructor); change (Zpos 2) with 2; change (Zpos 1) with 1.
  - destruct (Z.compare_spec (2 * r) d); constructor; lia.
  - assert (2 * r <> d). { intros E. rewrite <- E, Z.even_mul in He. done. }
    destruct (Z.compare_spec (2 * r + 1) d); constructor; lia.
Qed.

Lemma fexp_in_range z : -1000 < z -> fexp prec emax z = z - 53.
Proof. intros H. unfold fexp, emin, prec, emax. lia. Qed.

Definition finish (m1 e : Z) : spec_float :=
  let '(mrs, e) := shr_fexp prec emax m1 e loc_Exact in
  match shr_m mrs with
  | Z0 => S754_zero false
  | Zpos m => if e <=? emax - prec then S754_finite false m e else S754_infinity false
  | Zneg _ => S754_nan
  end.
Lemma finish_spec p e : 2 ^ 52 <= Z.pos p <= 2 ^ 53 -> -1000 < e <= 0 ->
  finish (Z.pos p) e = if Z.pos p =? 2 ^ 53 then S754_finite false (2 ^ 52) (e + 1) else S754_finite false p e.
Proof.
  intros Hp He. unfold finish, shr_fexp. cbn [Zdigits2]. destruct (Z.eqb_spec (Z.pos p) (2 ^ 53)) as [E|E].
  - rewrite (digits2_unique p 54) by lia. injection E as ->. rewrite fexp_in_range by lia.
    replace (54 + e - 53 - e) with 1 by lia. cbn -[Z.leb Z.add]. rewrite (proj2 (Z.leb_le _ _)); [done|unfold emax, prec; lia].
  - rewrite (digits2_unique p 53), fexp_in_range by lia. replace (53 + e - 53 - e) with 0 by lia. cbn -[Z.leb].
    rewrite (proj2 (Z.leb_le _ _)); [done|unfold emax, prec; lia].
Qed.

Lemma nearest_cases q l :
  (round_nearest_even q l = q /\ l <> loc_Inexact Gt) \/
  (round_nearest_even q l = q + 1 /\ (l = loc_Inexact Eq \/ l = loc_Inexact Gt)).
Proof. destruct l as [|[]]; simpl; [by left|destruct (Z.even q); [by left|by right; eauto]|by left|by right; eauto]. Qed.
(** The location after a shift of one bit, with the bit lost. *)
Definition bit_of (p : positive) : Z := match p with xI _ => 1 | _ => 0 end.
Lemma shifted_location p p' l d r : p = xI p' \/ p = xO p' -> located d r l -> 0 < d -> 0 <= r < d ->
  shr_m (shr_1 (shr_record_of_loc (Z.pos p) l)) = Z.pos p' /\ Z.pos p = 2 * Z.pos p' + bit_of p /\
  located (2 * d) (bit_of p * d + r) (loc_of_shr_record (shr_1 (shr_record_of_loc (Z.pos p) l))).
Proof.
  intros [-> | ->] Hl Hd Hr; (split; [by destruct l as [|[]]|split; [done|]]); inversion Hl; subst; simpl;
    try (constructor; lia).
Qed.

(** Rounding a located quotient of 53 or 54 bits at exponent [-k]. *)
Lemma round_aux_spec (q d r k : Z) l :
  0 < d -> 0 <= r < d -> located d r l -> 2 ^ 52 <= q < 2 ^ 54 -> 2 < k < 900 ->
  exists m j, binary_round_aux prec emax false q (- k) l = S754_finite false m (- j) /\ k - 2 <= j <= k /\
    2 * Z.abs (Z.pos m * d * 2 ^ (k - j) - (q * d + r)) <= d * 2 ^ (k - j).
Proof.
  intros Hd Hr Hl Hq Hk. destruct q as [|p|p]; [lia| |lia].
  assert (forall m1 j0, 2 ^ 52 <= m1 <= 2 ^ 53 -> k - 1 <= j0 <= k ->
    2 * Z.abs (m1 * d * 2 ^ (k - j0) - (Z.pos p * d + r)) <= d * 2 ^ (k - j0) ->
    exists m j, finish m1 (- j0) = S754_finite false m (- j) /\ k - 2 <= j <= k /\
      2 * Z.abs (Z.pos m * d * 2 ^ (k - j) - (Z.pos p * d + r)) <= d * 2 ^ (k - j)) as Hfin.
  { intros m1 j0 Hm1 Hj0 He. destruct m1 as [|p1|p1]; [lia| |lia]. rewrite finish_spec by lia.
    destruct (Z.eqb_spec (Z.pos p1) (2 ^ 53)) as [E|E]; [exists (2 ^ 52)%positive, (j0 - 1)|by exists p1, j0; split_and!; [|lia..|]].
    split_and!; [f_equal; lia|lia|lia|]. replace (k - (j0 - 1)) with (k - j0 + 1) by lia.
    rewrite Z.pow_add_r by lia. rewrite E in He. change (Z.pos (2 ^ 52)) with (2 ^ 52).
    replace (2 ^ 52 * d * (2 ^ (k - j0) * 2 ^ 1)) with (2 ^ 53 * d * 2 ^ (k - j0)) by lia.
    assert (0 < 2 ^ (k - j0)) by (apply Z.pow_pos_nonneg; lia). nia. }
  destruct (Z.lt_ge_cases (Z.pos p) (2 ^ 53)) as [H53|H53].
  - assert (binary_round_aux prec emax false (Z.pos p) (- k) l =
      finish (round_nearest_even (Z.pos p) (loc_of_shr_record (shr_record_of_loc (Z.pos p) l))) (- k)) as ->.
    { unfold binary_round_aux. unfold shr_fexp at 1. cbn [Zdigits2]. rewrite (digits2_unique p 53), fexp_in_range by lia.
      replace (53 + - k - 53 - - k) with 0 by lia. by destruct l as [|[]]. }
    apply Hfin; [|lia|]; replace (k - k) with 0 by lia; change (2 ^ 0) with 1.
    + replace (loc_of_shr_record _) with l by (by destruct l as [|[]]). destruct (nearest_cases (Z.pos p) l) as [[-> _]|[-> _]]; lia.
    + replace (loc_of_shr_record _) with l by (by destruct l as [|[]]).
      destruct (nearest_cases (Z.pos p) l) as [[-> Hn]|[-> [-> | ->]]]; [|inversion Hl; lia..].
      inversion Hl; subst; try done; lia.
  - assert (exists p', (p = xI p' \/ p = xO p') /\ 2 ^ 52 <= Z.pos p' < 2 ^ 53) as (p' & Hp & Hp').
    { destruct p as [p'|p'|]; [exists p'; split; [by left|lia]|exists p'; split; [by right|lia]|lia]. }
    assert (binary_round_aux prec emax false (Z.pos p) (- k) l =
      finish (round_nearest_even (shr_m (shr_1 (shr_record_of_loc (Z.pos p) l)))
        (loc_of_shr_record (shr_1 (shr_record_of_loc (Z.pos p) l)))) (- (k - 1))) as ->.
    { unfold binary_round_aux. unfold shr_fexp at 1. cbn [Zdigits2]. rewrite (digits2_unique p 54), fexp_in_range by lia.
      replace (54 + - k - 53 - - k) with 1 by lia. cbn [shr iter_pos]. by replace (- k + 1) with (- (k - 1)) by lia. }
    apply Hfin; [|lia|]; replace (k - (k - 1)) with 1 by lia; change (2 ^ 1) with 2.
    + destruct (shifted_location p p' l d r Hp Hl Hd Hr) as (-> & _ & _).
      destruct (nearest_cases (Z.pos p') (loc_of_shr_record (shr_1 (shr_record_of_loc (Z.pos p) l)))) as [[-> _]|[-> _]]; lia.
    + destruct (shifted_location p p' l d r Hp Hl Hd Hr) as (-> & Ep & Hl').
      assert (bit_of p = 0 \/ bit_of p = 1) as Hbit by (destruct Hp as [-> | ->]; simpl; lia).
      revert Hl'. generalize (loc_of_shr_record (shr_1 (shr_record_of_loc (Z.pos p) l))). intros l' Hl'. rewrite Ep.
      destruct (nearest_cases (Z.pos p') l') as [[-> Hn]|[-> Hn]];
        inversion Hl'; subst l'; try congruence; try (by destruct Hn); destruct Hbit as [Eb|Eb]; rewrite Eb in *; lia.
Qed.

(** [n / d] is a float within half a unit of its last place [2^-k]; a quotient
    below [2^a] leaves at least [51 - a] fractional bits. *)
Lemma of_ratio_spec n d a : 0 < n < 2 ^ 50 -> 0 < d < 2 ^ 50 -> 0 <= a <= 48 -> n < d * 2 ^ a ->
  exists m k, of_ratio n d = S754_finite false m (- k) /\ 51 - a <= k /\ 2 * Z.abs (Z.pos m * d - n * 2 ^ k) <= d.
Proof.
  intros Hn Hd Ha Hq. destruct n as [|n|n]; [lia| |lia]. destruct d as [|d|d]; [lia| |lia].
  destruct (digits2_bound n) as [Hn1 Hn2]. destruct (digits2_bound d) as [Hd1 Hd2].
  set (d1 := Z.pos (digits2_pos n)) in *. set (d2 := Z.pos (digits2_pos d)) in *.
  assert (0 < d1 <= 50 /\ 0 < d2 <= 50) as [Hd1' Hd2'].
  { assert (d1 - 1 < 50) by (apply (Z.pow_lt_mono_r_iff 2); lia).
    assert (d2 - 1 < 50) by (apply (Z.pow_lt_mono_r_iff 2); lia). lia. }
  set (s := 53 - (d1 - d2)).
  assert (of_ratio (Z.pos n) (Z.pos d) = let '(q, r) := Z.div_eucl (Z.pos n * 2 ^ s) (Z.pos d) in
    binary_round_aux prec emax false q (- s) (new_location (Z.pos d) r)) as ->.
  { unfold of_ratio. cbn [Z.eqb]. unfold SFdiv_core_binary. change (Z.abs (Z.pos n)) with (Z.pos n). change (Z.abs (Z.pos d)) with (Z.pos d).
    change (Zdigits2 (Z.pos n)) with d1. change (Zdigits2 (Z.pos d)) with d2.
    rewrite fexp_in_range by lia. replace (Z.min (d1 + 0 - (d2 + 0) - 53) (0 - 0)) with (- s) by lia.
    replace (0 - 0 - - s) with s by lia. assert (0 < s) by lia.
    destruct s as [|s'|s'] eqn:Es; [lia| |lia]. rewrite Z.shiftl_mul_pow2 by lia. by destruct (Z.div_eucl _ _). }
  pose proof (Z_div_mod (Z.pos n * 2 ^ s) (Z.pos d) ltac:(lia)) as Hdm. destruct (Z.div_eucl _ _) as [q r]. destruct Hdm as [Edm Hr].
  assert (2 ^ 52 <= q < 2 ^ 54) as Hqr.
  { assert (2 ^ (d1 - 1) * 2 ^ s = 2 ^ 52 * 2 ^ d2) as E1 by (rewrite <- !Z.pow_add_r by lia; f_equal; lia).
    assert (2 ^ d1 * 2 ^ s = 2 ^ 54 * 2 ^ (d2 - 1)) as E2 by (rewrite <- !Z.pow_add_r by lia; f_equal; lia).
    assert (0 < 2 ^ s) by (apply Z.pow_pos_nonneg; lia). split.
    - assert (2 ^ 52 * Z.pos d < Z.pos d * (q + 1)); [|nia]. nia.
    - assert (Z.pos d * q < 2 ^ 54 * Z.pos d); [|nia]. nia. }
  destruct (round_aux_spec q (Z.pos d) r s _ ltac:(lia) Hr (new_location_spec _ _ Hr) Hqr ltac:(lia)) as (m & j & -> & Hj & He).
  exists m, j. split; [done|]. split.
  - assert (d1 - 1 < d2 + a); [|lia]. apply (Z.pow_lt_mono_r_iff 2); [lia..|]. rewrite Z.pow_add_r by lia.
    assert (0 < 2 ^ a) by (apply Z.pow_pos_nonneg; lia). nia.
  - assert (2 ^ s = 2 ^ (s - j) * 2 ^ j) as Es by (rewrite <- Z.pow_add_r by lia; f_equal; lia).
    rewrite (Z.mul_comm q), <- Edm, Es in He. assert (0 < 2 ^ (s - j)) as Hp by (apply Z.pow_pos_nonneg; lia).
    revert He Hp. generalize (2 ^ (s - j)) (2 ^ j). intros u v He Hp. nia.
Qed.

(** The nearest integer, ties to even. *)
Definition nearest_even (n d q : Z) : Prop := 2 * Z.abs (q * d - n) < d \/ (2 * Z.abs (q * d - n) = d /\ Z.even q = true).
Lemma div_half_even_nearest n d : 0 < d -> nearest_even n d (div_half_even n d).
Proof.
  intros Hd. unfold nearest_even, div_half_even. pose proof (Z.div_mod n d ltac:(lia)). pose proof (Z.mod_pos_bound n d Hd).
  destruct (Z.compare_spec (2 * (n mod d)) d); [destruct (Z.even (n / d)) eqn:He|..].
  - right. split; [nia|done].
  - right. split; [nia|]. rewrite Z.add_1_r, Z.even_succ, <- Z.negb_even, He. done.
  - left. nia.
  - left. nia.
Qed.
Lemma nearest_even_unique n d q q' : 0 < d -> nearest_even n d q -> nearest_even n d q' -> q = q'.
Proof.
  intros Hd H H'. assert (Z.abs (q - q') <= 1) as Hq by (destruct H as [H|[H _]], H' as [H'|[H' _]]; nia).
  destruct (Z.eq_dec q q') as [|Hne]; [done|exfalso].
  assert (2 * Z.abs (q * d - n) = d /\ 2 * Z.abs (q' * d - n) = d) as [E E'] by (destruct H as [H|[H _]], H' as [H'|[H' _]]; nia).
  destruct H as [?|[_ Ev]], H' as [?|[_ Ev']]; [lia..|].
  assert (q = q' + 1 \/ q' = q + 1) as [-> | ->] by lia; rewrite Z.add_1_r, Z.even_succ, <- Z.negb_even in *;
    [rewrite Ev' in Ev|rewrite Ev in Ev']; done.
Qed.
Lemma nearest_even_close n d m D N : 0 < d < D -> (2 | D) -> 2 * Z.abs (m * d - n * D) <= d ->
  nearest_even n d N -> nearest_even m D N.
Proof.
  intros Hd [h ->] Hm [HN|[HN Hev]]; [left; nia|right].
  assert (2 * (N * d - n) = d \/ 2 * (N * d - n) = - d) as HN' by lia.
  assert (m = N * (h * 2) - h \/ m = N * (h * 2) + h) as Em.
  { destruct HN' as [E|E]; [left|right].
    - assert (m * d - n * (h * 2) = d * (m - N * (h * 2) + h)) as E' by nia. rewrite E', Z.abs_mul in Hm.
      assert (Z.abs (m - N * (h * 2) + h) = 0) by nia. lia.
    - assert (m * d - n * (h * 2) = d * (m - N * (h * 2) - h)) as E' by nia. rewrite E', Z.abs_mul in Hm.
      assert (Z.abs (m - N * (h * 2) - h) = 0) by nia. lia. }
  split; [destruct Em as [-> | ->]; lia|done].
Qed.

(** Python's [round(n / d)] for a divisor below [2^15] and a quotient below [2^31]. *)
Lemma round_div_exact n d : 0 <= n -> 0 < d < 2 ^ 15 -> n < d * 2 ^ 31 -> round_int (of_ratio n d) = div_half_even n d.
Proof.
  intros Hn Hd Hq. destruct (Z.eqb_spec n 0) as [->|Hne].
  { change (round_int (of_ratio 0 d)) with 0. symmetry. apply (nearest_even_unique 0 d); [lia|by apply div_half_even_nearest; lia|left; simpl; lia]. }
  destruct (of_ratio_spec n d 31) as (m & k & -> & Hk & He); [nia|lia|lia|done|].
  assert (2 ^ 20 <= 2 ^ k) by (apply Z.pow_le_mono_r; lia).
  unfold round_int, to_ratio. rewrite (proj2 (Z.leb_gt 0 (- k))) by lia. replace (- - k) with k by lia.
  symmetry. apply (nearest_even_unique (Z.pos m) (2 ^ k)); [lia| |apply div_half_even_nearest; lia].
  apply (nearest_even_close n d); [lia| |done|apply div_half_even_nearest; lia].
  exists (2 ^ (k - 1)). replace k with (k - 1 + 1) at 1 by lia. rewrite Z.pow_add_r by lia. done.
Qed.
