(* ===== verification/Json.v ===== *)
(** Python's [json] values and [json.loads], with the conversions ([int],
    [float], [str], truth, [dict.get]) that the services apply to them.
    A Python [str] is the sequence of its UTF-8 bytes; [lower] and [strip] act
    on the ASCII letters and blanks. *)
From S2P Require Import Prelude PyFloat.
From Stdlib Require Import DecimalString.

Inductive Json : Type :=
| JNull
| JBool (b : bool)
| JInt (z : Z)
| JFloat (f : float)
| JStr (s : string)
| JArr (l : list Json)
| JObj (l : list (string * Json)).

(** ** Strings *)
Definition ord (c : ascii) : Z := Z.of_N (N_of_ascii c).
Definition chr (n : Z) : ascii := ascii_of_N (Z.to_N n).
Definition lower_char (c : ascii) : ascii :=
  if (65 <=? ord c) && (ord c <=? 90) then chr (ord c + 32) else c.
(** [s.lower()] *)
Fixpoint lower (s : string) : string :=
  match s with EmptyString => EmptyString | String c s' => String (lower_char c) (lower s') end.
(** [s.upper()] on ASCII letters. *)
Definition upper_char (c : ascii) : ascii := if (97 <=? ord c) && (ord c <=? 122) then chr (ord c - 32) else c.
Fixpoint upper (s : string) : string :=
  match s with EmptyString => EmptyString | String c s => String (upper_char c) (upper s) end.
Definition is_blank (c : ascii) : bool :=
  ((9 <=? ord c) && (ord c <=? 13)) || ((28 <=? ord c) && (ord c <=? 32)).
Fixpoint lstrip (s : string) : string :=
  match s with String c s' => if is_blank c then lstrip s' else s | _ => s end.
Fixpoint rstrip (s : string) : string :=
  match s with
  | EmptyString => EmptyString
  | String c s' =>
      match rstrip s' with
      | EmptyString => if is_blank c then EmptyString else String c EmptyString
      | r => String c r
      end
  end.
(** [s.strip()] *)
Definition strip (s : string) : string := rstrip (lstrip s).
(** [s[:n]] *)
Definition str_take (n : nat) (s : string) : string := String.substring 0 n s.
(** [sep.join(l)] *)
Definition join (sep : string) (l : list string) : string := String.concat sep l.
(** [s or d] on strings *)
Definition str_or (s d : string) : string := match s with EmptyString => d | _ => s end.
Definition opt_str (s : option string) : string := match s with Some x => x | None => EmptyString end.
Definition str_truthy (s : string) : bool := match s with EmptyString => false | _ => true end.

(** [str(z)] *)
Fixpoint digits_of (fuel : nat) (n : Z) (acc : string) : string :=
  match fuel with
  | O => acc
  | S fuel =>
      let acc := String (chr (48 + n mod 10)) acc in
      if n <? 10 then acc else digits_of fuel (n / 10) acc
  end.
Definition str_of_Z (z : Z) : string :=
  let n := Z.abs z in
  let ds := digits_of (S (Z.to_nat (Z.log2 n))) n EmptyString in
  if z <? 0 then String "-" ds else ds.
Definition hex_char (n : Z) : ascii := if n <? 10 then chr (48 + n) else chr (87 + n).
(** The [k] low hexadecimal digits of [n]. *)
Fixpoint hex_digits (k : nat) (n : Z) (acc : string) : string :=
  match k with O => acc | S k => hex_digits k (n / 16) (String (hex_char (n mod 16)) acc) end.
(** [str(u)] of a UUID *)
Definition str_of_uuid (u : uuid) : string :=
  (hex_digits 8 (u / 2 ^ 96) EmptyString ++ "-" ++ hex_digits 4 (u / 2 ^ 80) EmptyString ++ "-" ++
   hex_digits 4 (u / 2 ^ 64) EmptyString ++ "-" ++ hex_digits 4 (u / 2 ^ 48) EmptyString ++ "-" ++
   hex_digits 12 u EmptyString)%string.
(** [f"{z:0kd}"] for [z >= 0]: zero padding on the left. *)
Definition zero_pad (k : nat) (s : string) : string :=
  (fix go n := match n with O => s | S n => String "0" (go n) end) (k - String.length s)%nat.
(** [f"{x:.1f}"] of a finite float *)
Definition format_1f (x : float) : string :=
  match x with
  | S754_nan => "nan"
  | S754_infinity s => if s then "-inf" else "inf"
  | _ =>
      let '(n, d) := to_ratio x in
      let k := div_half_even (Z.abs n * 10) d in
      let s := (str_of_Z (k / 10) ++ "." ++ str_of_Z (k mod 10))%string in
      match x with
      | S754_zero true | S754_finite true _ _ => String "-" s
      | _ => s
      end
  end.

(** ** Numbers *)
Definition is_digit (c : ascii) : bool := (48 <=? ord c) && (ord c <=? 57).
Fixpoint scan_digits (s : string) (acc n : Z) : Z * Z * string :=
  match s with
  | String c s' => if is_digit c then scan_digits s' (10 * acc + (ord c - 48)) (n + 1) else (acc, n, s)
  | _ => (acc, n, s)
  end.
(** The float nearest to [m * 10^e]. *)
Definition decimal_float (neg : bool) (m e : Z) : float :=
  let f := if 0 <=? e then of_Z (m * 10 ^ e) else of_ratio m (10 ^ (- e)) in
  if neg then SFopp f else f.

(** An optional exponent: its value and the rest. *)
Definition scan_exponent (s : string) : option (Z * string) :=
  match s with
  | String c s' =>
      if (ord c =? 101) || (ord c =? 69) then
        let '(neg, s2) := match s' with
          | String d s2 => if ord d =? 45 then (true, s2) else if ord d =? 43 then (false, s2) else (false, s')
          | _ => (false, s') end in
        let '(v, n, s3) := scan_digits s2 0 0 in
        if n =? 0 then None else Some (if neg then - v else v, s3)
      else None
  | _ => None
  end.
(** An optional fraction: its digits as an integer, their number, the rest. *)
Definition scan_fraction (s : string) : option (Z * Z * string) :=
  match s with
  | String c s' =>
      if ord c =? 46 then
        let '(v, n, s2) := scan_digits s' 0 0 in if n =? 0 then None else Some (v, n, s2)
      else None
  | _ => None
  end.
(** The scanner's number (optional sign, an integer without leading zeros,
    optional fraction, optional exponent); an integer
    of more than 4300 digits is a [ValueError]. *)
Definition scan_number (s : string) : option (Json * string) :=
  let '(neg, s1) := match s with
    | String c s' => if ord c =? 45 then (true, s') else (false, s) | _ => (false, s) end in
  let '(v, n, s2) := match s1 with
    | String c s' => if ord c =? 48 then (0, 1, s') else scan_digits s1 0 0
    | _ => (0, 0, s1) end in
  if n =? 0 then None
  else match scan_fraction s2, scan_exponent s2 with
  | None, None =>
      if 4300 <? n then None else Some (JInt (if neg then - v else v), s2)
  | Some (fv, fn, s3), _ =>
      let '(ev, s4) := match scan_exponent s3 with Some p => p | None => (0, s3) end in
      Some (JFloat (decimal_float neg (v * 10 ^ fn + fv) (ev - fn)), s4)
  | None, Some (ev, s3) => Some (JFloat (decimal_float neg v ev), s3)
  end.

(** ** [json.loads] *)
Definition hex_val (c : ascii) : option Z :=
  let n := ord c in
  if is_digit c then Some (n - 48)
  else if (97 <=? n) && (n <=? 102) then Some (n - 87)
  else if (65 <=? n) && (n <=? 70) then Some (n - 55) else None.
Definition scan_hex4 (s : string) : option (Z * string) :=
  match s with
  | String a (String b (String c (String d s'))) =>
      match hex_val a, hex_val b, hex_val c, hex_val d with
      | Some a, Some b, Some c, Some d => Some (((a * 16 + b) * 16 + c) * 16 + d, s')
      | _, _, _, _ => None
      end
  | _ => None
  end.
Definition utf8 (n : Z) (rest : string) : string :=
  if n <? 128 then String (chr n) rest
  else if n <? 2048 then String (chr (192 + n / 64)) (String (chr (128 + n mod 64)) rest)
  else if n <? 65536 then
    String (chr (224 + n / 4096)) (String (chr (128 + n / 64 mod 64)) (String (chr (128 + n mod 64)) rest))
  else String (chr (240 + n / 262144)) (String (chr (128 + n / 4096 mod 64))
         (String (chr (128 + n / 64 mod 64)) (String (chr (128 + n mod 64)) rest))).

(** The body of a string literal, after the opening quote. *)
Fixpoint scan_string (fuel : nat) (s : string) : option (string * string) :=
  match fuel with
  | O => None
  | S fuel =>
    match s with
    | EmptyString => None
    | String c s' =>
      if ord c =? 34 then Some (EmptyString, s')
      else if ord c <? 32 then None
      else if negb (ord c =? 92) then
        match scan_string fuel s' with Some (t, r) => Some (String c t, r) | None => None end
      else
        match s' with
        | EmptyString => None
        | String e s2 =>
          let simple n :=
            match scan_string fuel s2 with Some (t, r) => Some (String (chr n) t, r) | None => None end in
          if ord e =? 34 then simple 34 else if ord e =? 92 then simple 92
          else if ord e =? 47 then simple 47 else if ord e =? 98 then simple 8
          else if ord e =? 102 then simple 12 else if ord e =? 110 then simple 10
          else if ord e =? 114 then simple 13 else if ord e =? 116 then simple 9
          else if ord e =? 117 then
            match scan_hex4 s2 with
            | None => None
            | Some (u, s3) =>
              let plain := match scan_string fuel s3 with
                           | Some (t, r) => Some (utf8 u t, r) | None => None end in
              match s3 with
              | String b (String v s4) =>
                if (55296 <=? u) && (u <=? 56319) && (ord b =? 92) && (ord v =? 117) then
                  match scan_hex4 s4 with
                  | None => None
                  | Some (u2, s5) =>
                    if (56320 <=? u2) && (u2 <=? 57343) then
                      match scan_string fuel s5 with
                      | Some (t, r) => Some (utf8 (65536 + (u - 55296) * 1024 + (u2 - 56320)) t, r)
                      | None => None
                      end
                    else plain
                  end
                else plain
              | _ => plain
              end
            end
          else None
        end
    end
  end.

Definition json_blank (c : ascii) : bool :=
  (ord c =? 32) || (ord c =? 9) || (ord c =? 10) || (ord c =? 13).
Fixpoint skip_ws (s : string) : string :=
  match s with String c s' => if json_blank c then skip_ws s' else s | _ => s end.
Fixpoint after_prefix (p s : string) : option string :=
  match p, s with
  | EmptyString, _ => Some s
  | String a p', String b s' => if Ascii.eqb a b then after_prefix p' s' else None
  | _, _ => None
  end.

(** [d[k] = v]: the first position of a key, its last value. *)
Fixpoint dict_set {V} (k : string) (v : V) (l : list (string * V)) : list (string * V) :=
  match l with
  | [] => [(k, v)]
  | (k', v') :: l' => if String.eqb k k' then (k', v) :: l' else (k', v') :: dict_set k v l'
  end.
Fixpoint dict_get {V} (k : string) (l : list (string * V)) : option V :=
  match l with
  | [] => None
  | (k', v) :: l' => if String.eqb k k' then Some v else dict_get k l'
  end.

Definition literals : list (string * Json) :=
  [("null"%string, JNull); ("true"%string, JBool true); ("false"%string, JBool false);
   ("NaN"%string, JFloat S754_nan); ("Infinity"%string, JFloat (S754_infinity false));
   ("-Infinity"%string, JFloat (S754_infinity true))].
Fixpoint scan_literal (l : list (string * Json)) (s : string) : option (Json * string) :=
  match l with
  | [] => None
  | (p, v) :: l' => match after_prefix p s with Some r => Some (v, r) | None => scan_literal l' s end
  end.

Fixpoint scan_value (fuel : nat) (s : string) {struct fuel} : option (Json * string) :=
  match fuel with
  | O => None
  | S fuel =>
    match s with
    | EmptyString => None
    | String c s' =>
      if ord c =? 34 then
        match scan_string (S (String.length s')) s' with
        | Some (t, r) => Some (JStr t, r) | None => None end
      else if ord c =? 91 then
        match skip_ws s' with
        | String d r => if ord d =? 93 then Some (JArr [], r) else scan_items fuel (skip_ws s') []
        | _ => None
        end
      else if ord c =? 123 then
        match skip_ws s' with
        | String d r => if ord d =? 125 then Some (JObj [], r) else scan_members fuel (skip_ws s') []
        | _ => None
        end
      else match scan_literal literals s with
           | Some p => Some p
           | None => scan_number s
           end
    end
  end
with scan_items (fuel : nat) (s : string) (acc : list Json) {struct fuel} : option (Json * string) :=
  match fuel with
  | O => None
  | S fuel =>
    match scan_value fuel s with
    | None => None
    | Some (v, r) =>
      match skip_ws r with
      | String c r' =>
        if ord c =? 44 then scan_items fuel (skip_ws r') (acc ++ [v])
        else if ord c =? 93 then Some (JArr (acc ++ [v]), r') else None
      | _ => None
      end
    end
  end
with scan_members (fuel : nat) (s : string) (acc : list (string * Json)) {struct fuel} : option (Json * string) :=
  match fuel with
  | O => None
  | S fuel =>
    match s with
    | String q s1 =>
      if negb (ord q =? 34) then None else
      match scan_string (S (String.length s1)) s1 with
      | None => None
      | Some (k, r) =>
        match skip_ws r with
        | String c r1 =>
          if negb (ord c =? 58) then None else
          match scan_value fuel (skip_ws r1) with
          | None => None
          | Some (v, r2) =>
            match skip_ws r2 with
            | String c r3 =>
              if ord c =? 44 then scan_members fuel (skip_ws r3) (dict_set k v acc)
              else if ord c =? 125 then Some (JObj (dict_set k v acc), r3) else None
            | _ => None
            end
          end
        | _ => None
        end
      end
    | _ => None
    end
  end.

(** [json.loads(s)]; [None] stands for [JSONDecodeError] (a [ValueError]). *)
Definition json_loads (s : string) : option Json :=
  let n := (2 * String.length s + 2)%nat in
  match scan_value n (skip_ws s) with
  | Some (v, r) => match skip_ws r with EmptyString => Some v | _ => None end
  | None => None
  end.

(** ** Conversions *)

(** [bool(v)] *)
Definition truthy (v : Json) : bool :=
  match v with
  | JNull => false
  | JBool b => b
  | JInt z => negb (z =? 0)
  | JFloat f => float_truthy f
  | JStr s => str_truthy s
  | JArr l => match l with [] => false | _ => true end
  | JObj l => match l with [] => false | _ => true end
  end.
(** [v.get(k)] on a dict; [None] when the key is missing. *)
Definition jget (k : string) (d : list (string * Json)) : Json :=
  match dict_get k d with Some v => v | None => JNull end.
(** [v if isinstance(v, dict) else {}] *)
Definition as_dict (v : Json) : list (string * Json) := match v with JObj l => l | _ => [] end.
Definition as_list (v : Json) : list Json := match v with JArr l => l | _ => [] end.

(** The integer literal accepted by [int(str)]: blanks, sign, digits with
    single underscores between them. *)
Fixpoint int_digits (s : string) (acc : Z) (prev : bool) : option Z :=
  match s with
  | EmptyString => if prev then Some acc else None
  | String c s' =>
      if is_digit c then int_digits s' (10 * acc + (ord c - 48)) true
      else if (ord c =? 95) && prev then int_digits s' acc false else None
  end.
Definition int_of_str (s : string) : option Z :=
  match strip s with
  | String c s' =>
      if ord c =? 45 then option_map Z.opp (int_digits s' 0 false)
      else if ord c =? 43 then int_digits s' 0 false
      else int_digits (String c s') 0 false
  | EmptyString => None
  end.
(** [int(s, 16)] *)
Definition hex_digit (c : ascii) : option Z :=
  let n := ord c in
  if is_digit c then Some (n - 48)
  else if (97 <=? n) && (n <=? 102) then Some (n - 87)
  else if (65 <=? n) && (n <=? 70) then Some (n - 55) else None.
Fixpoint hex_int_digits (s : string) (acc : Z) (prev : bool) : option Z :=
  match s with
  | EmptyString => if prev then Some acc else None
  | String c s' =>
      match hex_digit c with
      | Some d => hex_int_digits s' (16 * acc + d) true
      | None => if (ord c =? 95) && prev then hex_int_digits s' acc false else None
      end
  end.
Definition hex_unsigned (s : string) : option Z :=
  match s with
  | String "0" (String x (String c s')) =>
      if (ord x =? 120) || (ord x =? 88)
      then if ord c =? 95 then hex_int_digits s' 0 false else hex_int_digits (String c s') 0 false
      else hex_int_digits s 0 false
  | _ => hex_int_digits s 0 false
  end.
Definition hex_int_of_str (s : string) : option Z :=
  match strip s with
  | String c s' =>
      if ord c =? 45 then option_map Z.opp (hex_unsigned s')
      else if ord c =? 43 then hex_unsigned s' else hex_unsigned (String c s')
  | EmptyString => None
  end.

(** [s.replace(p, "")] for a non-empty [p], and [s.strip("{}")]. *)
Fixpoint str_remove (fuel : nat) (p s : string) : string :=
  match fuel, s with
  | S fuel, String c s' =>
      match after_prefix p s with
      | Some rest => str_remove fuel p rest
      | None => String c (str_remove fuel p s')
      end
  | _, _ => EmptyString
  end.
Definition remove (p s : string) : string := str_remove (String.length s) p s.
Definition is_brace (c : ascii) : bool := (ord c =? 123) || (ord c =? 125).
Fixpoint lstrip_braces (s : string) : string :=
  match s with String c s' => if is_brace c then lstrip_braces s' else s | _ => s end.
Fixpoint rstrip_braces (s : string) : string :=
  match s with
  | EmptyString => EmptyString
  | String c s' => match rstrip_braces s' with
    | EmptyString => if is_brace c then EmptyString else String c EmptyString
    | r => String c r end
  end.

(** [int(v)] *)
Definition py_int (v : Json) : result Z :=
  match v with
  | JInt z => Ok z
  | JBool b => Ok (if b then 1 else 0)
  | JFloat f => int_of_float f
  | JStr s => match int_of_str s with Some z => Ok z | None => Err (ValueError "invalid literal for int()") end
  | _ => Err (TypeError "int() argument must be a string, a bytes-like object or a real number")
  end.

(** The decimal literals of [float(str)]. *)
Definition float_of_str (s : string) : option float :=
  let body := strip s in
  let '(neg, b) := match body with
    | String c r => if ord c =? 45 then (true, r) else if ord c =? 43 then (false, r) else (false, body)
    | _ => (false, body) end in
  let sign f := if neg : bool then SFopp f else f in
  let w := lower b in
  if (w ==? "inf"%string) || (w ==? "infinity"%string) then Some (sign finf)
  else if w ==? "nan"%string then Some S754_nan
  else
    let '(v, n, s2) := scan_digits b 0 0 in
    let '(fv, fn, s3) := match s2 with
      | String c r => if ord c =? 46 then scan_digits r 0 0 else (0, 0, s2)
      | _ => (0, 0, s2) end in
    if n + fn =? 0 then None
    else match scan_exponent s3 with
    | Some (ev, EmptyString) => Some (decimal_float neg (v * 10 ^ fn + fv) (ev - fn))
    | Some _ => None
    | None => match s3 with
              | EmptyString => Some (decimal_float neg (v * 10 ^ fn + fv) (- fn))
              | _ => None end
    end.
(** [float(z)] raises [OverflowError] when the integer rounds to infinity. *)
Definition float_of_Z (z : Z) : result float :=
  match of_Z z with
  | S754_infinity _ => Err (OverflowError "int too large to convert to float")
  | f => Ok f
  end.
(** [float(v)] *)
Definition py_float (v : Json) : result float :=
  match v with
  | JInt z => float_of_Z z
  | JBool b => Ok (of_Z (if b then 1 else 0))
  | JFloat f => Ok f
  | JStr s => match float_of_str s with Some f => Ok f | None => Err (ValueError "could not convert string to float") end
  | _ => Err (TypeError "float() argument must be a string or a real number")
  end.
(** [v or d] *)
Definition jor (v d : Json) : Json := if truthy v then v else d.

(** ** [json.dumps] (ASCII output) *)

(** [repr(f)]: the shortest decimal that reads back as the same float. *)
Definition digits_count (n : Z) : Z := Z.of_nat (String.length (str_of_Z n)).
(** The [k]-digit decimal [m * 10^e] nearest to [n / d > 0]. *)
Definition nearest_decimal (k n d : Z) : Z * Z :=
  let e0 := digits_count (n / d) - k in
  let e := if n / d =? 0 then - (k - 1) - (digits_count (d / n) - 1) - 1 else e0 in
  let m := if 0 <=? e then div_half_even n (d * 10 ^ e) else div_half_even (n * 10 ^ (- e)) d in
  if 10 ^ k <=? m then (div_half_even m 10, e + 1)
  else if m <? 10 ^ (k - 1) then
    ((if 0 <=? e - 1 then div_half_even n (d * 10 ^ (e - 1)) else div_half_even (n * 10 ^ (1 - e)) d), e - 1)
  else (m, e).
Fixpoint shortest_decimal (fuel : nat) (k n d : Z) : Z * Z :=
  let '(m, e) := nearest_decimal k n d in
  match fuel with
  | O => (m, e)
  | S fuel => if feq (decimal_float false m e) (of_ratio n d) then (m, e) else shortest_decimal fuel (k + 1) n d
  end.
Fixpoint str_zeros (n : nat) : string := match n with O => EmptyString | S n => String "0" (str_zeros n) end.
Definition float_repr (x : float) : string :=
  match x with
  | S754_nan => "nan"
  | S754_infinity s => if s then "-inf" else "inf"
  | S754_zero s => if s then "-0.0" else "0.0"
  | S754_finite s _ _ =>
      let '(n, d) := to_ratio (SFabs x) in
      let '(m, e) := shortest_decimal 16 1 n d in
      let ds := str_of_Z m in
      let len := Z.of_nat (String.length ds) in
      let point := len + e in
      let body :=
        if (-4 <? point) && (point <=? 16) then
          if point <=? 0 then ("0." ++ str_zeros (Z.to_nat (- point)) ++ ds)%string
          else if len <=? point then (ds ++ str_zeros (Z.to_nat (point - len)) ++ ".0")%string
          else (String.substring 0 (Z.to_nat point) ds ++ "." ++
                String.substring (Z.to_nat point) (String.length ds) ds)%string
        else
          let x := point - 1 in
          let mant := match ds with
            | String c EmptyString => ds
            | String c r => String c (String "." r)
            | _ => ds end in
          let sign := if x <? 0 then "-" else "+" in
          (mant ++ "e" ++ sign ++ zero_pad 2 (str_of_Z (Z.abs x)))%string
      in if s then String "-" body else body
  end.

(** The [n] continuation bytes that follow a leading byte of value [acc]. *)
Fixpoint utf8_tail (n : nat) (acc : Z) (s : string) : Z * string :=
  match n, s with
  | S n, String c s' => utf8_tail n (acc * 64 + ord c mod 64) s'
  | _, _ => (acc, s)
  end.
Definition u_escape (n : Z) (rest : string) : string :=
  String (chr 92) (String "u" (hex_digits 4 n EmptyString ++ rest)).
Definition escape_code (n : Z) (rest : string) : string :=
  let short c := String (chr 92) (String c rest) in
  if n =? 34 then short (chr 34) else if n =? 92 then short (chr 92)
  else if n =? 10 then short "n"%char else if n =? 13 then short "r"%char else if n =? 9 then short "t"%char
  else if n =? 8 then short "b"%char else if n =? 12 then short "f"%char
  else if (32 <=? n) && (n <? 127) then String (chr n) rest
  else if n <? 65536 then u_escape n rest
  else u_escape (55296 + (n - 65536) / 1024) (u_escape (56320 + (n - 65536) mod 1024) rest).
Fixpoint escape_string (fuel : nat) (s : string) : string :=
  match fuel, s with
  | S fuel, String c s' =>
      let n := ord c in
      let '(code, r) :=
        if n <? 192 then (n, s')
        else if n <? 224 then utf8_tail 1 (n mod 32) s'
        else if n <? 240 then utf8_tail 2 (n mod 16) s'
        else utf8_tail 3 (n mod 8) s' in
      escape_code code (escape_string fuel r)
  | _, _ => EmptyString
  end.
Definition json_string (s : string) : string :=
  (dq ++ escape_string (String.length s) s ++ dq)%string.

(** The same with [ensure_ascii=False]: only what JSON demands is escaped. *)
Fixpoint escape_raw (s : string) : string :=
  match s with
  | EmptyString => EmptyString
  | String c s' =>
      let n := ord c in
      let rest := escape_raw s' in
      let short c := String (chr 92) (String c rest) in
      if n =? 34 then short (chr 34) else if n =? 92 then short (chr 92)
      else if n =? 10 then short "n"%char else if n =? 13 then short "r"%char else if n =? 9 then short "t"%char
      else if n =? 8 then short "b"%char else if n =? 12 then short "f"%char
      else if n <? 32 then u_escape n rest else String c rest
  end.
Definition json_string_raw (s : string) : string := (dq ++ escape_raw s ++ dq)%string.

(** [json.dumps(v, sort_keys=sorted, separators=(item_sep, key_sep))]; [quote]
    renders a string. *)
Section Dumps.
Context (sorted : bool) (item_sep key_sep : string) (quote : string -> string).
Fixpoint dumps_with (v : Json) : string :=
  match v with
  | JNull => "null"
  | JBool b => if b then "true" else "false"
  | JInt z => str_of_Z z
  | JFloat f =>
      match f with
      | S754_nan => "NaN"
      | S754_infinity s => if s then "-Infinity" else "Infinity"
      | _ => float_repr f
      end
  | JStr s => quote s
  | JArr l => ("[" ++ join item_sep (map dumps_with l) ++ "]")%string
  | JObj l =>
      let items := map (fun '(k, v) => (k, (quote k ++ key_sep ++ dumps_with v)%string)) l in
      let items := if sorted then sort_cmp (fun a b => String.compare (fst a) (fst b)) items else items in
      ("{" ++ join item_sep (map snd items) ++ "}")%string
  end.
End Dumps.
Definition dumps (sorted : bool) (item_sep key_sep : string) : Json -> string :=
  dumps_with sorted item_sep key_sep json_string.
Definition json_dumps : Json -> string := dumps false ", " ": ".
Definition json_dumps_sorted : Json -> string := dumps true ", " ": ".
(** [json.dumps(v, sort_keys=True, separators=(",", ":"), ensure_ascii=False)] *)
Definition json_dumps_canonical : Json -> string := dumps_with true "," ":" json_string_raw.

(** [str(exc)] *)
Definition exn_str (e : exn) : string :=
  match e with
  | ValueError m | LookupError m | RuntimeError m | TypeError m | PermissionError m | OverflowError m
  | IntegrityError m | DataError m | AttributeError m | ApprovalRequiredError m | EventConflict m => m
  | AssertionError => EmptyString
  | HTTPException c m => (str_of_Z c ++ ": " ++ m)%string
  end.

(** [hmac.compare_digest] on strings refuses non-ASCII ones. *)
Fixpoint is_ascii (s : string) : bool := match s with EmptyString => true | String c s => (ord c <? 128) && is_ascii s end.
Definition compare_digest (a b : string) : result bool :=
  ensure is_ascii a && is_ascii b else_raise TypeError "comparing strings with non-ASCII characters is not supported";
  Ok (String.eqb a b).

#[global] Arguments decimal_float : simpl never.
#[global] Arguments json_loads : simpl never.
#[global] Arguments dumps : simpl never.
#[global] Arguments str_of_Z : simpl never.
#[global] Arguments str_of_uuid : simpl never.

Lemma dict_get_set_same {V} k (v : V) l : dict_get k (dict_set k v l) = Some v.
Proof.
  induction l as [|[k' v'] l IH]; simpl; [by rewrite String.eqb_refl|].
  destruct (String.eqb k k') eqn:E; simpl; by rewrite E.
Qed.
Lemma dict_get_set_other {V} k k2 (v : V) l :
  k <> k2 -> dict_get k2 (dict_set k v l) = dict_get k2 l.
Proof.
  intros Hk. induction l as [|[k' v'] l IH]; simpl.
  - by rewrite (proj2 (String.eqb_neq k2 k)).
  - destruct (String.eqb k k') eqn:E; simpl.
    + apply String.eqb_eq in E as <-. by rewrite (proj2 (String.eqb_neq k2 k)).
    + by destruct (String.eqb k2 k').
Qed.

(** A JSON text written with single quotes. *)
Fixpoint quoted (s : string) : string :=
  match s with
  | EmptyString => EmptyString
  | String c s' => String (if ord c =? 39 then chr 34 else c) (quoted s')
  end.

(** [repr(s)]: single quotes, unless the string has some and no double ones. *)
Fixpoint repr_body (quote : Z) (s : string) : string :=
  match s with
  | EmptyString => EmptyString
  | String c s' =>
      let n := ord c in
      let rest := repr_body quote s' in
      if (n =? quote) || (n =? 92) then String (chr 92) (String c rest)
      else if n =? 10 then String (chr 92) (String "n" rest)
      else if n =? 13 then String (chr 92) (String "r" rest)
      else if n =? 9 then String (chr 92) (String "t" rest)
      else if (n <? 32) || (n =? 127) then String (chr 92) (String "x" (hex_digits 2 n rest))
      else String c rest
  end.
Fixpoint has_char (n : Z) (s : string) : bool :=
  match s with EmptyString => false | String c s' => (ord c =? n) || has_char n s' end.
Definition py_repr_str (s : string) : string :=
  let quote := if has_char 39 s && negb (has_char 34 s) then 34 else 39 in
  (String (chr quote) (repr_body quote s) ++ String (chr quote) EmptyString)%string.
(** [repr(v)] and [str(v)] of a decoded value *)
Fixpoint py_repr (v : Json) : string :=
  match v with
  | JNull => "None"
  | JBool b => if b then "True" else "False"
  | JInt z => str_of_Z z
  | JFloat f => float_repr f
  | JStr s => py_repr_str s
  | JArr l => ("[" ++ join ", " (map py_repr l) ++ "]")%string
  | JObj l => ("{" ++ join ", " (map (fun kv => py_repr_str (fst kv) ++ ": " ++ py_repr (snd kv)) l) ++ "}")%string
  end.
Definition py_str (v : Json) : string := match v with JStr s => s | _ => py_repr v end.

(** [len(s)] of a string held in UTF-8: continuation bytes do not count. *)
Fixpoint str_len (s : string) : Z :=
  match s with EmptyString => 0 | String c s => (if ord c / 64 =? 2 then 0 else 1) + str_len s end.
(** [s.rstrip('/')] and [s.split(c)] on one character; [str_split] cuts at every
    blank, and [s.split()] keeps its non-empty pieces. *)
Fixpoint rstrip_slash (s : string) : string :=
  match s with
  | EmptyString => EmptyString
  | String c s => match rstrip_slash s with EmptyString => if ord c =? 47 then EmptyString else String c EmptyString | r => String c r end
  end.
Fixpoint split_char (n : Z) (s : string) : list string :=
  match s with
  | EmptyString => [EmptyString]
  | String c s =>
      match split_char n s with
      | [] => [String c EmptyString]
      | x :: l => if ord c =? n then EmptyString :: x :: l else String c x :: l
      end
  end.
Fixpoint str_split (s : string) : list string :=
  match s with
  | EmptyString => [EmptyString]
  | String c s =>
      match str_split s with
      | [] => [String c EmptyString]
      | x :: l => if is_blank c then EmptyString :: x :: l else String c x :: l
      end
  end.

(** A string or [None]. *)
Definition opt_json (o : option string) : Json := match o with Some s => JStr s | None => JNull end.

(** [UUID(s)] *)
Definition uuid_of_str (s : string) : result uuid :=
  let hex := remove "-" (rstrip_braces (lstrip_braces (remove "uuid:" (remove "urn:" s)))) in
  if negb (Z.of_nat (String.length hex) =? 32) then Err (ValueError "badly formed hexadecimal UUID string")
  else
    match hex_int_of_str hex with
    | None => Err (ValueError ("invalid literal for int() with base 16: " ++ py_repr_str hex)%string)
    | Some n => if (0 <=? n) && (n <? 2 ^ 128) then Ok n
                else Err (ValueError "int is out of range (need a 128-bit value)")
    end.

Example uuid_examples :
  (uuid_of_str (str_of_uuid 1311768467463790320), uuid_of_str "{urn:uuid:00000000-0000-0000-0000-0000000000FF}",
   uuid_of_str "12", py_repr (JArr [JStr "it's"; JObj [("a", JNull)]; JBool true])) =
  (Ok 1311768467463790320, Ok 255, Err (ValueError "badly formed hexadecimal UUID string"),
   ("[" ++ dq ++ "it's" ++ dq ++ ", {'a': None}, True]"))%string.
Proof. vm_compute. reflexivity. Qed.

Example json_loads_example :
  json_loads (quoted "{ 'cpu': {'used_percent': 12.5}, 'l': [1, -2, true, null, 'a\u00e9\n'] }")
  = Some (JObj [("cpu"%string, JObj [("used_percent"%string, JFloat (of_ratio 25 2))]);
                ("l"%string, JArr [JInt 1; JInt (-2); JBool true; JNull;
                   JStr (String "a" (utf8 233 (String (chr 10) EmptyString)))])]).
Proof. vm_compute. reflexivity. Qed.

Example json_dumps_example :
  map json_dumps_sorted
    [JObj [("b"%string, JFloat (of_ratio 1 10)); ("a"%string, JArr [JInt (-3); JNull; JBool true])];
     JFloat (of_ratio 1 3); JFloat (of_Z (10 ^ 22)); JFloat (of_ratio 123456789 1000); JFloat (of_ratio 15 (10 ^ 7))]
  = [quoted "{'a': [-3, null, true], 'b': 0.1}"; "0.3333333333333333"; "1e+22"; "123456.789"; "1.5e-06"]%string.
Proof. vm_compute. reflexivity. Qed.
