(* ===== verification/JsonFacts.v ===== *)
(** Printing and parsing JSON: [json_loads] inverts [json_dumps_canonical] on
    values without floats, up to the order of the keys. *)
From S2P Require Import Prelude PyFloat Json.
#[local] Open Scope string_scope.
#[local] Open Scope list_scope.
#[local] Open Scope Z_scope.

Definition JsonList_ind (P : Json -> Prop)
  (Hnull : P JNull) (Hbool : forall b, P (JBool b)) (Hint_ : forall z, P (JInt z)) (Hfloat : forall f, P (JFloat f))
  (Hstr : forall s, P (JStr s)) (Harr : forall l, Forall P l -> P (JArr l))
  (Hobj : forall l, Forall (fun kv => P (snd kv)) l -> P (JObj l)) : forall v, P v :=
  fix go v :=
    match v with
    | JNull => Hnull
    | JBool b => Hbool b
    | JInt z => Hint_ z
    | JFloat f => Hfloat f
    | JStr s => Hstr s
    | JArr l => Harr l ((fix all l : Forall P l :=
        match l with [] => Forall_nil_2 _ | v :: l => Forall_cons_2 _ _ _ (go v) (all l) end) l)
    | JObj l => Hobj l ((fix all l : Forall (fun kv => P (snd kv)) l :=
        match l with [] => Forall_nil_2 _ | kv :: l => Forall_cons_2 _ _ _ (go (snd kv)) (all l) end) l)
    end.

(** Values that print and parse exactly: no floats, integers within the limit of
    4300 digits, objects with distinct keys. *)
Definition nodup_keys (l : list string) : bool := bool_decide (NoDup l).
Fixpoint plain (v : Json) : bool :=
  match v with
  | JFloat _ => false
  | JInt z => digits_count (Z.abs z) <=? 4300
  | JArr l => forallb plain l
  | JObj l => forallb (fun kv => plain (snd kv)) l && nodup_keys (map fst l)
  | _ => true
  end.
Definition by_key {A} (a b : string * A) : comparison := String.compare (fst a) (fst b).
(** The value with the keys of its objects in order. *)
Fixpoint sort_json (v : Json) : Json :=
  match v with
  | JArr l => JArr (map sort_json l)
  | JObj l => JObj (sort_cmp by_key (map (fun kv => (fst kv, sort_json (snd kv))) l))
  | _ => v
  end.

(** ** Strings *)
#[local] Arguments String.append : simpl nomatch.
Lemma append_assoc (a b c : string) : ((a ++ b) ++ c = a ++ (b ++ c))%string.
Proof. induction a as [|x a IH]; [done|]. cbn. by f_equal. Qed.
Lemma append_nil_r s : (s ++ EmptyString = s)%string.
Proof. induction s as [|c s IH]; [done|]. cbn. by f_equal. Qed.
Lemma length_append (a b : string) : String.length (a ++ b) = (String.length a + String.length b)%nat.
Proof. induction a as [|x a IH]; [done|]. cbn. by f_equal. Qed.
Lemma ord_chr n : 0 <= n < 256 -> ord (chr n) = n.
Proof. intros Hn. unfold ord, chr. rewrite N_ascii_embedding by lia. lia. Qed.
Lemma ord_range c : 0 <= ord c < 256.
Proof. unfold ord. pose proof (N_ascii_bounded c). lia. Qed.
Lemma chr_ord c : chr (ord c) = c.
Proof. unfold ord, chr. by rewrite N2Z.id, ascii_N_embedding. Qed.

Lemma scan_hex_control n rest : 0 <= n < 32 -> scan_hex4 (hex_digits 4 n EmptyString ++ rest) = Some (n, rest).
Proof.
  intros Hn. assert (exists k, (k < 32)%nat /\ n = Z.of_nat k) as (k & Hk & ->) by (exists (Z.to_nat n); lia).
  clear Hn. do 32 (destruct k as [|k]; [reflexivity|]). lia.
Qed.

(** One step of the scanner on each kind of escape. *)
Lemma scan_string_short e n fuel r t rest :
  (e, n) ∈ [(chr 34, 34); (chr 92, 92); ("n"%char, 10); ("r"%char, 13); ("t"%char, 9); ("b"%char, 8); ("f"%char, 12)] ->
  scan_string fuel r = Some (t, rest) -> scan_string (S fuel) (String (chr 92) (String e r)) = Some (String (chr n) t, rest).
Proof.
  rewrite list_elem_of_In. intros Hin Hs. cbn in Hin.
  destruct Hin as [[= <- <-]|[[= <- <-]|[[= <- <-]|[[= <- <-]|[[= <- <-]|[[= <- <-]|[[= <- <-]|[]]]]]]]];
    cbn -[scan_string]; cbn [scan_string]; cbn -[scan_string]; by rewrite Hs.
Qed.
Lemma scan_string_control n fuel r t rest : 0 <= n < 32 ->
  scan_string fuel r = Some (t, rest) -> scan_string (S fuel) (u_escape n r) = Some (String (chr n) t, rest).
Proof.
  intros Hn Hs. unfold u_escape. cbn [scan_string].
  change (ord (chr 92)) with 92. change (ord "u") with 117. cbn -[scan_string scan_hex4 hex_digits String.append utf8].
  rewrite scan_hex_control by done. rewrite Hs.
  assert (utf8 n t = String (chr n) t) as -> by (unfold utf8; by rewrite (proj2 (Z.ltb_lt n 128)) by lia).
  assert (55296 <=? n = false) as -> by (apply Z.leb_gt; lia).
  by repeat case_match.
Qed.
Lemma scan_string_plain n fuel r t rest : 32 <= n < 256 -> n <> 34 -> n <> 92 ->
  scan_string fuel r = Some (t, rest) -> scan_string (S fuel) (String (chr n) r) = Some (String (chr n) t, rest).
Proof.
  intros Hn H1 H2 Hs. cbn [scan_string]. rewrite ord_chr by lia.
  rewrite (proj2 (Z.eqb_neq n 34)), (proj2 (Z.ltb_ge n 32)), (proj2 (Z.eqb_neq n 92)) by lia. cbn [negb]. by rewrite Hs.
Qed.

(** Scanning gives back what was escaped. *)
Lemma scan_string_escape s fuel rest :
  (String.length (escape_raw s) < fuel)%nat -> scan_string fuel (escape_raw s ++ String (chr 34) rest) = Some (s, rest).
Proof.
  revert fuel. induction s as [|c s IH]; intros [|fuel] Hf; try (simpl in Hf; lia); [reflexivity|].
  assert (exists n, 0 <= n < 256 /\ c = chr n) as (n & Hr & ->) by (exists (ord c); by rewrite chr_ord; split; [apply ord_range|]).
  cbn [escape_raw] in *. rewrite !ord_chr in Hf by done. rewrite !ord_chr by done. cbv zeta in *.
  repeat (match goal with |- context [if n =? ?k then _ else _] =>
      let E := fresh "E" in destruct (n =? k) eqn:E in *;
      [apply Z.eqb_eq in E; subst n; clear Hr | apply Z.eqb_neq in E] end;
    [cbn in Hf; cbn [String.append]; eapply scan_string_short; [|apply IH; lia]; apply list_elem_of_In; cbn; auto 10|]).
  destruct (n <? 32) eqn:L in *.
  - apply Z.ltb_lt in L. unfold u_escape in Hf. cbn [String.length] in Hf. rewrite length_append in Hf.
    change (u_escape n (escape_raw s) ++ String (chr 34) rest)%string
      with (String (chr 92) (String "u" ((hex_digits 4 n EmptyString ++ escape_raw s) ++ String (chr 34) rest)))%string.
    rewrite append_assoc. apply scan_string_control; [lia|]. apply IH. lia.
  - apply Z.ltb_ge in L. cbn [String.length String.append] in *. apply scan_string_plain; [lia..|]. apply IH. lia.
Qed.

(** ** Integers *)
Lemma digits_append fuel n acc rest : (digits_of fuel n acc ++ rest = digits_of fuel n (acc ++ rest))%string.
Proof.
  revert n acc. induction fuel as [|fuel IH]; intros n acc; cbn [digits_of]; [done|].
  destruct (n <? 10); [done|]. by rewrite IH.
Qed.
Lemma scan_digits_of fuel n acc a c : 0 <= n < 10 ^ Z.of_nat fuel -> fuel <> O ->
  exists k, 1 <= k /\ Z.of_nat (String.length (digits_of fuel n acc)) = k + Z.of_nat (String.length acc) /\
    scan_digits (digits_of fuel n acc) a c = scan_digits acc (a * 10 ^ k + n) (c + k).
Proof.
  revert n acc. induction fuel as [|fuel IH]; intros n acc Hn Hf; [done|]. cbn [digits_of].
  assert (forall d, 0 <= d < 10 -> is_digit (chr (48 + d)) = true /\ ord (chr (48 + d)) - 48 = d) as Hd.
  { intros d Hd. unfold is_digit. rewrite ord_chr by lia. split; [|lia]. apply andb_true_iff. rewrite !Z.leb_le. lia. }
  rewrite Nat2Z.inj_succ, Z.pow_succ_r in Hn by lia.
  destruct (Z.ltb_spec n 10).
  - exists 1. split; [lia|]. split; [cbn [String.length]; lia|]. rewrite Z.mod_small by lia.
    cbn [scan_digits]. destruct (Hd n) as [-> ->]; [lia|]. f_equal. lia.
  - destruct (Hd (n mod 10)) as [H1 H2]; [apply Z.mod_pos_bound; lia|].
    destruct (IH (n / 10) (String (chr (48 + n mod 10)) acc)) as (k & Hk & Hl & He).
    { split; [apply Z.div_pos; lia|]. apply Z.div_lt_upper_bound; lia. }
    { intros ->. cbn in Hn. lia. }
    exists (k + 1). split; [lia|]. split; [rewrite Hl; cbn [String.length]; lia|]. rewrite He. cbn [scan_digits]. rewrite H1, H2.
    f_equal; [|lia]. rewrite Z.pow_add_r by lia. pose proof (Z.div_mod n 10). lia.
Qed.
(** A positive number has no leading zero, and zero is one digit. *)
Lemma digits_head fuel n acc : 0 <= n < 10 ^ Z.of_nat fuel -> fuel <> O ->
  exists d r, digits_of fuel n acc = String (chr (48 + d)) r /\ 0 <= d <= 9 /\ (d = 0 -> n = 0 /\ r = acc).
Proof.
  revert n acc. induction fuel as [|fuel IH]; intros n acc Hn Hf; [done|]. cbn [digits_of].
  rewrite Nat2Z.inj_succ, Z.pow_succ_r in Hn by lia.
  destruct (Z.ltb_spec n 10).
  - rewrite Z.mod_small by lia. exists n, acc. repeat split; lia.
  - destruct (IH (n / 10) (String (chr (48 + n mod 10)) acc)) as (d & r & -> & Hd & H0).
    { split; [apply Z.div_pos; lia|]. apply Z.div_lt_upper_bound; lia. }
    { intros ->. cbn in Hn. lia. }
    exists d, r. split; [done|]. split; [done|]. intros [H1 _]%H0.
    assert (10 / 10 <= n / 10) by (apply Z.div_le_mono; lia). rewrite Z.div_same in * by lia. lia.
Qed.
Lemma str_fuel z : 0 <= Z.abs z < 10 ^ Z.of_nat (S (Z.to_nat (Z.log2 (Z.abs z)))).
Proof.
  split; [lia|]. rewrite Nat2Z.inj_succ, Z2Nat.id by apply Z.log2_nonneg.
  destruct (Z.eq_dec (Z.abs z) 0) as [->|Hz]; [done|]. pose proof (Z.log2_spec (Z.abs z)).
  eapply Z.lt_le_trans; [apply H; lia|]. apply Z.pow_le_mono_l. lia.
Qed.

(** What may follow a value inside a document. *)
Definition ends (s : string) : bool :=
  match s with EmptyString => true | String c _ => (ord c =? 44) || (ord c =? 93) || (ord c =? 125) end.
Lemma ends_not_number rest : ends rest = true ->
  (forall a c, scan_digits rest a c = (a, c, rest)) /\ scan_fraction rest = None /\ scan_exponent rest = None.
Proof.
  destruct rest as [|c rest]; [done|]. cbn [ends]. intros Hc. cbn [scan_digits scan_fraction scan_exponent]. unfold is_digit.
  assert (ord c = 44 \/ ord c = 93 \/ ord c = 125) as Ho by lia. by destruct Ho as [->|[->| ->]].
Qed.
Lemma scan_digits_pos fuel n rest : 0 < n < 10 ^ Z.of_nat fuel -> fuel <> O -> ends rest = true ->
  exists k, 1 <= k /\ Z.of_nat (String.length (digits_of fuel n EmptyString)) = k /\
    scan_digits (digits_of fuel n rest) 0 0 = (n, k, rest).
Proof.
  intros Hn Hf He. destruct (scan_digits_of fuel n rest 0 0) as (k & Hk & Hl & Hs); [lia|done|]. exists k. split; [done|].
  destruct (ends_not_number rest He) as [Hd _]. rewrite Hs, Hd. split; [|f_equal; f_equal; lia].
  change rest with (EmptyString ++ rest)%string in Hl. rewrite <- digits_append, length_append in Hl. cbn [String.append] in Hl. lia.
Qed.
Lemma scan_nat n rest (neg : bool) : 0 <= n -> ends rest = true ->
  digits_count n <= 4300 ->
  let '(v, k, s2) := match digits_of (S (Z.to_nat (Z.log2 n))) n rest with
    | String c s' => if ord c =? 48 then (0, 1, s') else scan_digits (digits_of (S (Z.to_nat (Z.log2 n))) n rest) 0 0
    | _ => (0, 0, digits_of (S (Z.to_nat (Z.log2 n))) n rest) end in v = n /\ 1 <= k <= 4300 /\ s2 = rest.
Proof.
  intros Hn He Hc. unfold digits_count, str_of_Z in Hc. pose proof (str_fuel n) as Hf. rewrite Z.abs_eq in Hf, Hc by lia.
  rewrite (proj2 (Z.ltb_ge n 0)) in Hc by lia. set (fuel := S (Z.to_nat (Z.log2 n))) in *.
  destruct (digits_head fuel n rest Hf ltac:(done)) as (d & r & Hd & Hr & H0). rewrite Hd, ord_chr by lia.
  destruct (Z.eqb_spec (48 + d) 48).
  - destruct H0 as [-> ->]; [lia|]. split; [done|]. split; [lia|done].
  - destruct (Z.eq_dec n 0) as [->|Hn0].
    { exfalso. subst fuel. cbn in Hd. injection Hd as Hd _. apply (f_equal ord) in Hd. rewrite (ord_chr (48 + d)) in Hd by lia. change (48 = 48 + d) in Hd. lia. }
    destruct (scan_digits_pos fuel n rest) as (k & Hk & Hl & Hs); [lia|done|done|]. rewrite <- Hd, Hs. split; [done|]. split; [lia|done].
Qed.
Lemma scan_number_of z rest : digits_count (Z.abs z) <= 4300 -> ends rest = true ->
  scan_number (str_of_Z z ++ rest) = Some (JInt z, rest).
Proof.
  intros Hc He. destruct (ends_not_number rest He) as (_ & H1 & H2).
  pose proof (scan_nat (Z.abs z) rest (z <? 0) ltac:(lia) He Hc) as Hs. unfold scan_number, str_of_Z.
  set (fuel := S (Z.to_nat (Z.log2 (Z.abs z)))) in *.
  destruct (Z.ltb_spec z 0).
  - cbn [String.append]. change (ord "-" =? 45) with true. cbv iota. rewrite digits_append. cbn [String.append].
    destruct (match digits_of _ _ _ with EmptyString => _ | String _ _ => _ end) as [[v k] s2]. destruct Hs as (-> & Hk & ->).
    rewrite (proj2 (Z.eqb_neq k 0)), H1, H2, (proj2 (Z.ltb_ge 4300 k)) by lia. do 3 f_equal. lia.
  - rewrite digits_append. cbn [String.append]. destruct (digits_head fuel (Z.abs z) rest (str_fuel z) ltac:(done)) as (d & r & Hd & Hr & H0).
    rewrite Hd in *. rewrite (ord_chr (48 + d)) in * by lia. rewrite (proj2 (Z.eqb_neq (48 + d) 45)) by lia.
    rewrite (ord_chr (48 + d)) by lia.
    destruct (if 48 + d =? 48 then _ else _) as [[v k] s2]. destruct Hs as (-> & Hk & ->).
    rewrite (proj2 (Z.eqb_neq k 0)), H1, H2, (proj2 (Z.ltb_ge 4300 k)) by lia. do 3 f_equal. lia.
Qed.
(** The first character of an integer, and that no literal starts like one. *)
Lemma int_head z rest : exists c r, (str_of_Z z ++ rest = String c r)%string /\ (ord c = 45 \/ 48 <= ord c <= 57) /\
  scan_literal literals (str_of_Z z ++ rest) = None.
Proof.
  unfold str_of_Z. set (fuel := S _).
  destruct (digits_head fuel (Z.abs z) rest (str_fuel z) ltac:(done)) as (d & r & Hd & Hr & _).
  assert (d = 0 \/ d = 1 \/ d = 2 \/ d = 3 \/ d = 4 \/ d = 5 \/ d = 6 \/ d = 7 \/ d = 8 \/ d = 9) as Hdd by lia.
  destruct (z <? 0); cbn [String.append]; rewrite digits_append; cbn [String.append]; rewrite Hd.
  - eexists _, _. split; [done|]. split; [by left|]. by repeat (destruct Hdd as [->|Hdd]; [reflexivity|]); rewrite Hdd.
  - eexists _, _. split; [done|]. split; [right; rewrite ord_chr; lia|].
    by repeat (destruct Hdd as [->|Hdd]; [reflexivity|]); rewrite Hdd.
Qed.

(** ** Objects and arrays *)
Lemma insert_sorted_map {A B} (f : A -> B) leA leB x l : (forall x y, leB (f x) (f y) = leA x y) ->
  insert_sorted leB (f x) (map f l) = map f (insert_sorted leA x l).
Proof. intros Hf. induction l as [|y l IH]; cbn; [done|]. rewrite Hf. destruct (leA x y); [done|]. cbn. by rewrite IH. Qed.
Lemma sort_cmp_map {A B} (f : A -> B) cA cB l : (forall x y, cB (f x) (f y) = cA x y) ->
  sort_cmp cB (map f l) = map f (sort_cmp cA l).
Proof.
  intros Hf. unfold sort_cmp, sort_by. induction l as [|x l IH]; cbn; [done|]. rewrite IH. apply insert_sorted_map.
  intros a b. unfold cmp_leb. by rewrite Hf.
Qed.
Lemma sort_cmp_perm {A} (c : A -> A -> comparison) l : sort_cmp c l ≡ₚ l.
Proof. apply sort_by_perm. Qed.

Notation sorted_member := (fun kv : string * Json => (fst kv, sort_json (snd kv))).
Lemma sort_json_obj l : sort_json (JObj l) = JObj (map sorted_member (sort_cmp by_key l)).
Proof. cbn [sort_json]. f_equal. by apply sort_cmp_map. Qed.
Lemma dict_set_fresh {V} k (v : V) l : k ∉ map fst l -> dict_set k v l = l ++ [(k, v)].
Proof.
  induction l as [|[k' v'] l IH]; cbn; [done|]. rewrite not_elem_of_cons. intros [H1 H2].
  rewrite (proj2 (String.eqb_neq _ _)) by done. by rewrite IH.
Qed.
Lemma skip_ws_ends rest : ends rest = true -> skip_ws rest = rest.
Proof. destruct rest as [|c r]; [done|]. cbn. unfold json_blank. intros Hc. repeat (rewrite (proj2 (Z.eqb_neq _ _)) by lia). done. Qed.
Lemma join_cons2 sep x y l : join sep (x :: y :: l) = (x ++ sep ++ join sep (y :: l))%string.
Proof. done. Qed.
Lemma join_head sep x l : exists r, join sep (x :: l) = (x ++ r)%string.
Proof. destruct l; [exists EmptyString; by rewrite append_nil_r|eexists; apply join_cons2]. Qed.

(** The strings of a value, keys included, satisfy [good]. *)
Fixpoint texts_ok (good : string -> bool) (v : Json) : bool :=
  match v with
  | JStr s => good s
  | JArr l => forallb (texts_ok good) l
  | JObj l => forallb (fun kv => good (fst kv) && texts_ok good (snd kv)) l
  | _ => true
  end.
Lemma texts_ok_all v : texts_ok (fun _ => true) v = true.
Proof.
  induction v as [|b|z|f|s|l IH|l IH] using JsonList_ind; try done; cbn; apply forallb_forall; intros x Hx%list_elem_of_In;
    rewrite Forall_forall in IH; auto.
Qed.

(** ** The round trip, whatever the options of [json.dumps] *)

(** The separators may be followed by a blank; a string is quoted by [quote], and
    those that are [good] are read back. *)
Section Printed.
Context (sorted : bool) (gap : string) (escape : string -> string) (good : string -> bool).
Context (Hgap : forall s, skip_ws (gap ++ s) = skip_ws s).
Context (Hescape : forall s rest, good s = true ->
  scan_string (S (String.length (escape s ++ String (chr 34) rest))) (escape s ++ String (chr 34) rest) = Some (s, rest)).
Definition quoted_by (s : string) : string := (dq ++ escape s ++ dq)%string.
Definition print (v : Json) : string := dumps_with sorted ("," ++ gap)%string (":" ++ gap)%string quoted_by v.
(** What is read back. *)
Definition arranged (v : Json) : Json := if sorted then sort_json v else v.
Definition in_order (l : list (string * Json)) : list (string * Json) := if sorted then sort_cmp by_key l else l.
Definition member (kv : string * Json) : string := (quoted_by (fst kv) ++ (":" ++ gap) ++ print (snd kv))%string.
#[local] Notation arranged_member := (fun kv : string * Json => (fst kv, arranged (snd kv))).

Lemma print_arr l : print (JArr l) = ("[" ++ join ("," ++ gap) (map print l) ++ "]")%string.
Proof. done. Qed.
Lemma print_obj l : print (JObj l) = ("{" ++ join ("," ++ gap) (map member (in_order l)) ++ "}")%string.
Proof.
  assert (forall (b : bool) (f : string * Json -> string),
    map snd (if b then sort_cmp (fun x y => String.compare (fst x) (fst y)) (map (fun kv => (fst kv, f kv)) l) else map (fun kv => (fst kv, f kv)) l) =
    map f (if b then sort_cmp by_key l else l)) as Ho.
  { intros [] f; [rewrite (sort_cmp_map (fun kv => (fst kv, f kv)) by_key) by done|]; rewrite map_map; by apply map_ext. }
  unfold in_order. rewrite <- (Ho sorted member). unfold print. cbn [dumps_with]. do 3 f_equal.
  by rewrite (map_ext (fun '(k, v) => (k, (quoted_by k ++ (":" ++ gap) ++ dumps_with sorted ("," ++ gap) (":" ++ gap) quoted_by v)%string))
    (fun kv => (fst kv, member kv))) by (by intros []).
Qed.
Lemma arranged_arr l : arranged (JArr l) = JArr (map arranged l).
Proof. unfold arranged. destruct sorted; [done|]. by rewrite map_id. Qed.
Lemma arranged_obj l : arranged (JObj l) = JObj (map arranged_member (in_order l)).
Proof. unfold arranged, in_order. destruct sorted; [apply sort_json_obj|]. by rewrite (map_ext _ id), map_id by (by intros []). Qed.
Lemma in_order_perm l : in_order l ≡ₚ l.
Proof. unfold in_order. destruct sorted; [apply sort_cmp_perm|done]. Qed.

(** A value never starts with a blank or a closing bracket. *)
Lemma print_head v : plain v = true -> exists c r, print v = String c r /\ json_blank c = false /\ ord c <> 93.
Proof.
  destruct v as [|[]|z| |s|l|l]; cbn [plain]; intros Hp; try done; try (by eexists _, _).
  change (print (JInt z)) with (str_of_Z z).
  destruct (int_head z EmptyString) as (c & r & Hs & Hc & _). exists c, r.
  assert (str_of_Z z = String c r) as -> by (by rewrite <- Hs, append_nil_r).
  unfold json_blank. split; [done|]. split; [|lia]. repeat (rewrite (proj2 (Z.eqb_neq _ _)) by lia). done.
Qed.
Lemma skip_ws_print v rest : plain v = true -> skip_ws (print v ++ rest) = (print v ++ rest)%string.
Proof. intros Hp. destruct (print_head v Hp) as (c & r & -> & Hb & _). cbn [String.append skip_ws]. by rewrite Hb. Qed.
Lemma quoted_append s rest : (quoted_by s ++ rest = String (chr 34) (escape s ++ String (chr 34) rest))%string.
Proof. unfold quoted_by. change dq with (String (chr 34) EmptyString). cbn [String.append]. f_equal. by rewrite append_assoc. Qed.
Lemma length_quoted s : (2 <= String.length (quoted_by s))%nat.
Proof. unfold quoted_by. change dq with (String (chr 34) EmptyString). cbn [String.append String.length]. rewrite length_append. cbn. lia. Qed.
Lemma scan_value_string fuel s rest : good s = true -> scan_value (S fuel) (quoted_by s ++ rest) = Some (JStr s, rest).
Proof. intros Hg. rewrite quoted_append. cbn [scan_value]. change (ord (chr 34) =? 34) with true. cbv iota. by rewrite Hescape. Qed.

Definition writable (v : Json) : bool := plain v && texts_ok good v.
Definition scans (v : Json) : Prop := forall fuel rest, writable v = true -> ends rest = true ->
  (2 * String.length (print v) <= fuel)%nat -> scan_value fuel (print v ++ rest) = Some (arranged v, rest).
Lemma writable_plain v : writable v = true -> plain v = true.
Proof. by intros [? _]%andb_true_iff. Qed.
Lemma writable_arr l : writable (JArr l) = forallb writable l.
Proof. unfold writable. cbn. induction l as [|v l IH]; [done|]. cbn. rewrite <- IH. destruct (plain v), (texts_ok good v), (forallb plain l); done. Qed.

Lemma scan_items_print v l fuel acc rest : Forall scans (v :: l) -> forallb writable (v :: l) = true ->
  (2 * String.length (join ("," ++ gap) (map print (v :: l))) + 1 <= fuel)%nat ->
  scan_items fuel (join ("," ++ gap) (map print (v :: l)) ++ String "]" rest) acc = Some (JArr (acc ++ map arranged (v :: l)), rest).
Proof.
  revert v fuel acc. induction l as [|w l IH]; intros v [|fuel] acc HP Hp Hf; try lia;
    apply Forall_cons in HP as [Hv HP]; cbn [forallb] in Hp; apply andb_true_iff in Hp as [Hpv Hpl]; cbn [map] in *.
  - cbn [join String.concat] in *. cbn [scan_items]. rewrite (Hv fuel (String "]" rest)); [done..|lia].
  - rewrite join_cons2, !length_append in Hf. cbn [String.append String.length] in Hf.
    rewrite join_cons2, append_assoc. cbn [String.append]. cbn [scan_items].
    rewrite (Hv fuel (String "," _)); [|done..|lia]. change (skip_ws (String "," ?s)) with (String "," s). cbv iota beta.
    change (ord "," =? 44) with true. cbv iota.
    destruct (join_head ("," ++ gap) (print w) (map print l)) as [r Hr].
    rewrite Hr at 1. rewrite !append_assoc, Hgap, skip_ws_print, <- append_assoc, <- Hr
      by (cbn [forallb] in Hpl; apply andb_true_iff in Hpl as [? _]; by apply writable_plain).
    rewrite (IH w); [|done|done|cbn [map String.append] in *; lia]. by rewrite <- app_assoc.
Qed.
Lemma length_member kv : (String.length (print (snd kv)) + 3 <= String.length (member kv))%nat.
Proof. unfold member. rewrite !length_append. cbn [String.append String.length]. pose proof (length_quoted (fst kv)). lia. Qed.
Lemma skip_ws_member kv rest : skip_ws (member kv ++ rest) = (member kv ++ rest)%string.
Proof. unfold member. by rewrite append_assoc, quoted_append. Qed.
(** One member: its key is read, then its value. *)
Lemma scan_members_step kv fuel acc c s : scans (snd kv) -> good (fst kv) = true -> writable (snd kv) = true -> ends (String c s) = true ->
  (2 * String.length (member kv) <= S fuel)%nat ->
  scan_members (S fuel) (member kv ++ String c s) acc =
  if ord c =? 44 then scan_members fuel (skip_ws s) (dict_set (fst kv) (arranged (snd kv)) acc)
  else if ord c =? 125 then Some (JObj (dict_set (fst kv) (arranged (snd kv)) acc), s) else None.
Proof.
  intros Hs Hg Hp He Hf. pose proof (length_member kv). unfold member. rewrite append_assoc, quoted_append.
  cbn [scan_members]. change (ord (chr 34) =? 34) with true. cbn [negb]. rewrite Hescape by done.
  cbn [String.append]. change (skip_ws (String ":" ?s)) with (String ":" s). cbv iota beta. change (ord ":" =? 58) with true. cbn [negb].
  rewrite append_assoc, Hgap, skip_ws_print by by apply writable_plain. rewrite (Hs fuel (String c s)) by (done || lia). by rewrite skip_ws_ends.
Qed.
Definition writable_member (kv : string * Json) : bool := good (fst kv) && writable (snd kv).
Lemma scan_members_print kv m fuel acc rest : Forall (fun kv => scans (snd kv)) (kv :: m) ->
  forallb writable_member (kv :: m) = true -> NoDup (map fst acc ++ map fst (kv :: m)) ->
  (2 * String.length (join ("," ++ gap) (map member (kv :: m))) + 1 <= fuel)%nat ->
  scan_members fuel (join ("," ++ gap) (map member (kv :: m)) ++ String "}" rest) acc =
  Some (JObj (acc ++ map arranged_member (kv :: m)), rest).
Proof.
  revert kv fuel acc. induction m as [|w m IH]; intros kv [|fuel] acc HP Hp Hnd Hf; try lia;
    apply Forall_cons in HP as [Hv HP]; cbn [forallb] in Hp; apply andb_true_iff in Hp as [Hpv Hpl]; cbn [map] in *;
    apply andb_true_iff in Hpv as [Hg Hpv];
    assert (fst kv ∉ map fst acc) as Hfresh by (intros Hin; apply NoDup_app in Hnd as (_ & Hd & _); by eapply Hd, list_elem_of_here).
  - cbn [join String.concat] in *. rewrite (scan_members_step kv fuel acc "}" _ Hv Hg Hpv eq_refl) by lia.
    by rewrite dict_set_fresh.
  - rewrite join_cons2, !length_append in Hf. cbn [String.append String.length] in Hf.
    rewrite join_cons2, append_assoc. cbn [String.append].
    rewrite (scan_members_step kv fuel acc "," _ Hv Hg Hpv eq_refl) by lia.
    change (ord "," =? 44) with true. cbv iota. rewrite dict_set_fresh by done.
    destruct (join_head ("," ++ gap) (member w) (map member m)) as [r Hr].
    rewrite Hr at 1. rewrite !append_assoc, Hgap, skip_ws_member, <- append_assoc, <- Hr.
    rewrite (IH w); [by rewrite <- app_assoc|done|done| |cbn [map String.append] in *; lia]. rewrite map_app, <- app_assoc. done.
Qed.
Lemma print_nonempty v fuel : plain v = true -> (2 * String.length (print v) <= fuel)%nat -> exists n, fuel = S n.
Proof.
  intros Hp Hf. destruct (print_head v Hp) as (c & r & Hc & _). rewrite Hc in Hf. cbn [String.length] in Hf.
  destruct fuel as [|n]; [lia|by exists n].
Qed.
Lemma scans_arr l : Forall scans l -> scans (JArr l).
Proof.
  intros IH fuel rest Hp He Hf. destruct (print_nonempty _ _ (writable_plain _ Hp) Hf) as [n ->].
  rewrite writable_arr in Hp. rewrite print_arr, arranged_arr in *. cbn [String.append String.length] in *. rewrite length_append in Hf. cbn [String.length] in Hf.
  rewrite append_assoc. cbn [String.append scan_value]. change (ord "[" =? 34) with false. change (ord "[" =? 91) with true. cbv iota.
  destruct l as [|v l]; [done|]. assert (plain v = true) as Hpv by (cbn [forallb] in Hp; apply andb_true_iff in Hp as [? _]; by apply writable_plain).
  destruct (print_head v Hpv) as (c & r & Hv & Hb & Hc).
  destruct (join_head ("," ++ gap) (print v) (map print l)) as [r' Hj]. cbn [map String.append] in Hj |- *. rewrite Hj, Hv.
  cbn [String.append skip_ws]. rewrite Hb, (proj2 (Z.eqb_neq _ _)) by done.
  change (String c ((r ++ r') ++ String "]" rest)) with ((String c r ++ r') ++ String "]" rest)%string. rewrite <- Hv, <- Hj.
  apply (scan_items_print v l n [] rest IH Hp). cbn [map String.append] in *. lia.
Qed.
Lemma scans_obj l : Forall (fun kv => scans (snd kv)) l -> scans (JObj l).
Proof.
  intros IH fuel rest Hp He Hf. destruct (print_nonempty _ _ (writable_plain _ Hp) Hf) as [n ->].
  rewrite print_obj, arranged_obj in *. unfold writable in Hp. cbn [plain texts_ok] in Hp. rewrite !andb_true_iff, !forallb_forall in Hp.
  destruct Hp as [[Hp Hn] Ht]. apply bool_decide_eq_true in Hn.
  cbn [String.append String.length] in *. rewrite length_append in Hf. cbn [String.length] in Hf.
  rewrite append_assoc. cbn [String.append scan_value].
  change (ord "{" =? 34) with false. change (ord "{" =? 91) with false. change (ord "{" =? 123) with true. cbv iota.
  pose proof (in_order_perm l) as Hperm. rewrite <- Hperm in IH.
  assert (forallb writable_member (in_order l) = true) as Hps.
  { apply forallb_forall. intros x Hx%list_elem_of_In. rewrite Hperm in Hx. apply list_elem_of_In in Hx. specialize (Hp x Hx). specialize (Ht x Hx).
    apply andb_true_iff in Ht as [Hg Ht]. unfold writable_member, writable. by rewrite Hg, Hp, Ht. }
  assert (NoDup (map fst (in_order l))) as Hnd.
  { change (@map (string * Json) string) with (@fmap list _ (string * Json) string). by rewrite Hperm. }
  destruct (in_order l) as [|kv m]; [done|].
  assert (exists r, join ("," ++ gap) (map member (kv :: m)) = String (chr 34) r)%string as (r & Hj).
  { cbn [map]. destruct (join_head ("," ++ gap) (member kv) (map member m)) as [r ->]. unfold member. rewrite !append_assoc, quoted_append. by eexists. }
  cbn [String.append] in Hj |- *. rewrite Hj. cbn [String.append]. change (skip_ws (String (chr 34) ?s)) with (String (chr 34) s). cbv iota beta.
  change (ord (chr 34) =? 125) with false. cbv iota.
  change (String (chr 34) (r ++ String "}" rest)) with (String (chr 34) r ++ String "}" rest)%string. rewrite <- Hj.
  apply (scan_members_print kv m n [] rest IH Hps); [done|]. cbn [String.append] in *. lia.
Qed.
Lemma scans_all v : scans v.
Proof.
  induction v as [|b|z|f|s|l IH|l IH] using JsonList_ind; [..|by apply scans_arr|by apply scans_obj];
    intros fuel rest Hw He Hf; pose proof (writable_plain _ Hw) as Hp; destruct (print_nonempty _ _ Hp Hf) as [n ->].
  - unfold arranged. by destruct sorted.
  - unfold arranged. by destruct b, sorted.
  - cbn [plain] in Hp. change (print (JInt z)) with (str_of_Z z). assert (arranged (JInt z) = JInt z) as -> by (unfold arranged; by destruct sorted).
    destruct (int_head z rest) as (c & r & Hs & Hc & Hl). cbn [scan_value]. rewrite Hs.
    repeat (rewrite (proj2 (Z.eqb_neq _ _)) by lia). rewrite <- Hs, Hl. apply scan_number_of; [lia|done].
  - done.
  - assert (arranged (JStr s) = JStr s) as -> by (unfold arranged; by destruct sorted). apply scan_value_string.
    unfold writable in Hw. by apply andb_true_iff in Hw as [_ Hw].
Qed.
Lemma json_loads_print v : writable v = true -> json_loads (print v) = Some (arranged v).
Proof.
  intros Hp. unfold json_loads. pose proof (skip_ws_print v EmptyString (writable_plain _ Hp)) as Hs. rewrite append_nil_r in Hs. rewrite Hs.
  rewrite <- (append_nil_r (print v)) at 2. by rewrite scans_all by (done || lia).
Qed.
End Printed.

(** *** Without escapes beyond what JSON demands: every text is read back. *)
Lemma scan_quoted s rest :
  scan_string (S (String.length (escape_raw s ++ String (chr 34) rest))) (escape_raw s ++ String (chr 34) rest) = Some (s, rest).
Proof. apply scan_string_escape. rewrite length_append. lia. Qed.
Lemma json_loads_raw sorted v : plain v = true ->
  json_loads (dumps_with sorted "," ":" json_string_raw v) = Some (if sorted then sort_json v else v).
Proof.
  intros Hp. apply (json_loads_print sorted EmptyString escape_raw (fun _ => true) (fun s => eq_refl) (fun s rest _ => scan_quoted s rest)).
  unfold writable. by rewrite Hp, texts_ok_all.
Qed.
Lemma json_loads_canonical v : plain v = true -> json_loads (json_dumps_canonical v) = Some (sort_json v).
Proof. apply (json_loads_raw true). Qed.
Lemma canonical_arr l : json_dumps_canonical (JArr l) = ("[" ++ join "," (map json_dumps_canonical l) ++ "]")%string.
Proof. done. Qed.
Lemma canonical_obj l :
  json_dumps_canonical (JObj l) = ("{" ++ join "," (map (member true EmptyString escape_raw) (sort_cmp by_key l)) ++ "}")%string.
Proof. apply (print_obj true EmptyString escape_raw). Qed.
Lemma canonical_head v : plain v = true ->
  exists c r, json_dumps_canonical v = String c r /\ json_blank c = false /\ ord c <> 93.
Proof. apply (print_head true EmptyString escape_raw). Qed.

(** ** Sorting the keys is idempotent and does not change the text *)
Lemma by_key_order {A} : cmp_order (@by_key A).
Proof. apply (map_cmp_order fst). apply string_cmp_order. Qed.
Lemma insert_sorted_first {A} (leb : A -> A -> bool) x l :
  (forall y, y ∈ l -> leb x y = true) -> insert_sorted leb x l = x :: l.
Proof. intros Hl. destruct l as [|y l]; [done|]. cbn. by rewrite Hl by left. Qed.
Lemma sort_by_id {A} (leb : A -> A -> bool) l :
  StronglySorted (fun a b => leb a b = true) l -> sort_by leb l = l.
Proof.
  induction 1 as [|x l Hl IH Hx]; [done|]. change (sort_by leb (x :: l)) with (insert_sorted leb x (sort_by leb l)).
  rewrite IH. apply insert_sorted_first. by rewrite <- Forall_forall.
Qed.
Lemma sort_cmp_idem {A} (c : A -> A -> comparison) l : cmp_order c -> sort_cmp c (sort_cmp c l) = sort_cmp c l.
Proof. intros Hc. apply sort_by_id, sort_by_sorted; [by apply cmp_leb_total|by apply cmp_leb_trans]. Qed.
Lemma insert_sorted_filter {A} (leb : A -> A -> bool) (p : A -> bool) x l :
  (forall x y z, leb x y = true -> leb y z = true -> leb x z = true) -> StronglySorted (fun a b => leb a b = true) l ->
  List.filter p (insert_sorted leb x l) = if p x then insert_sorted leb x (List.filter p l) else List.filter p l.
Proof.
  intros Ht. induction 1 as [|y l Hl IH Hy]; cbn; [by destruct (p x)|]. destruct (leb x y) eqn:E; cbn.
  - destruct (p x) eqn:Ep; [|done]. rewrite insert_sorted_first; [done|]. intros z Hz. destruct (p y); [|].
    + apply elem_of_cons in Hz as [->|Hz]; [done|]. apply list_elem_of_In, filter_In in Hz as [Hz _].
      rewrite Forall_forall in Hy. apply list_elem_of_In in Hz. eauto.
    + apply list_elem_of_In, filter_In in Hz as [Hz _]. rewrite Forall_forall in Hy. apply list_elem_of_In in Hz. eauto.
  - rewrite IH. destruct (p y) eqn:Ey, (p x) eqn:Ex; cbn; by rewrite ?E.
Qed.
Lemma sort_cmp_filter {A} (c : A -> A -> comparison) (p : A -> bool) l : cmp_order c ->
  List.filter p (sort_cmp c l) = sort_cmp c (List.filter p l).
Proof.
  intros Hc. unfold sort_cmp. induction l as [|x l IH]; [done|].
  change (sort_by (cmp_leb c) (x :: l)) with (insert_sorted (cmp_leb c) x (sort_by (cmp_leb c) l)).
  rewrite insert_sorted_filter, IH; [by cbn; destruct (p x)|by apply cmp_leb_trans|].
  apply sort_by_sorted; [by apply cmp_leb_total|by apply cmp_leb_trans].
Qed.
Lemma sort_json_idem v : sort_json (sort_json v) = sort_json v.
Proof.
  induction v as [|b|z|f|s|l IH|l IH] using JsonList_ind; try done.
  - cbn [sort_json]. f_equal. rewrite map_map. apply map_ext_in. intros x Hx. rewrite Forall_forall in IH. apply IH. by apply list_elem_of_In.
  - rewrite !sort_json_obj. f_equal. rewrite (sort_cmp_map sorted_member by_key) by done. rewrite sort_cmp_idem by apply by_key_order.
    rewrite map_map. apply map_ext_in. intros x Hx. cbn [fst snd]. f_equal. rewrite Forall_forall in IH. apply IH.
    apply list_elem_of_In in Hx. by rewrite (sort_cmp_perm by_key l) in Hx.
Qed.
Lemma dumps_sort v : json_dumps_canonical (sort_json v) = json_dumps_canonical v.
Proof.
  induction v as [|b|z|f|s|l IH|l IH] using JsonList_ind; try done.
  - cbn [sort_json]. rewrite !canonical_arr, map_map. do 2 f_equal. f_equal. apply map_ext_in. intros x Hx.
    rewrite Forall_forall in IH. apply IH. by apply list_elem_of_In.
  - rewrite sort_json_obj, !canonical_obj, (sort_cmp_map sorted_member by_key) by done. rewrite sort_cmp_idem by apply by_key_order.
    rewrite map_map. do 2 f_equal. f_equal. apply map_ext_in. intros x Hx. unfold member. cbn [fst snd]. do 2 f_equal.
    rewrite Forall_forall in IH. apply (IH x). apply list_elem_of_In in Hx. by rewrite (sort_cmp_perm by_key l) in Hx.
Qed.
(** Two values with one text differ only in the order of keys. *)
Lemma dumps_inj v w : plain v = true -> plain w = true -> json_dumps_canonical v = json_dumps_canonical w -> sort_json v = sort_json w.
Proof. intros Hv Hw He. apply json_loads_canonical in Hv, Hw. rewrite He in Hv. congruence. Qed.

(** ** Reading a sorted object *)
Lemma dict_get_elem {V} k (v : V) l : NoDup (map fst l) -> dict_get k l = Some v <-> (k, v) ∈ l.
Proof.
  induction l as [|[k' v'] l IH]; cbn; [by intros _; split; [done|intros ?%not_elem_of_nil]|].
  intros [Hk Hl]%NoDup_cons. rewrite elem_of_cons, <- (IH Hl). destruct (String.eqb_spec k k') as [->|Hne].
  - split; [intros [= ->]; by left|intros [[= ->]|He]; [done|]]. exfalso. apply Hk. apply (IH Hl) in He.
    by apply (list_elem_of_fmap_2 fst) in He.
  - split; [by right|intros [[= -> ->]|]; done].
Qed.
Lemma dict_get_perm {V} k (l1 l2 : list (string * V)) : NoDup (map fst l1) -> l1 ≡ₚ l2 -> dict_get k l1 = dict_get k l2.
Proof.
  intros Hn Hp. assert (NoDup (map fst l2)) as Hn2.
  { change (NoDup (fst <$> l2)). by rewrite <- Hp. }
  destruct (dict_get k l2) as [v|] eqn:E.
  - apply dict_get_elem in E; [|done]. apply dict_get_elem; [done|]. by rewrite Hp.
  - destruct (dict_get k l1) as [v|] eqn:E1; [|done]. apply dict_get_elem in E1; [|done]. rewrite Hp in E1.
    apply dict_get_elem in E1; [|done]. congruence.
Qed.
Lemma dict_get_map {V W} (f : V -> W) k l : dict_get k (map (fun kv => (fst kv, f (snd kv))) l) = option_map f (dict_get k l).
Proof. induction l as [|[k' v'] l IH]; cbn; [done|]. by destruct (String.eqb k k'). Qed.
Lemma jget_sorted k l : NoDup (map fst l) -> jget k (map sorted_member (sort_cmp by_key l)) = sort_json (jget k l).
Proof.
  intros Hn. unfold jget. rewrite (dict_get_map sort_json), (dict_get_perm k _ l); [by destruct (dict_get k l)| |apply sort_cmp_perm].
  change (NoDup (fst <$> sort_cmp by_key l)). by rewrite sort_cmp_perm.
Qed.

(** * Lengths *)
Lemma str_len_nonneg s : 0 <= str_len s.
Proof. induction s as [|c s IH]; cbn [str_len]; [lia|]. destruct (_ =? _); lia. Qed.
Lemma str_len_length s : str_len s <= Z.of_nat (String.length s).
Proof. induction s as [|c s IH]; cbn [str_len String.length]; [lia|]. destruct (_ =? _); lia. Qed.
Lemma str_take_length n s : (String.length (str_take n s) <= n)%nat.
Proof. unfold str_take. revert s. induction n as [|n IH]; intros [|c s]; simpl; try lia. specialize (IH s). lia. Qed.
Lemma str_take_len n s : str_len (str_take n s) <= Z.of_nat n.
Proof. pose proof (str_len_length (str_take n s)). pose proof (str_take_length n s). lia. Qed.

(** The text of a UUID determines it. *)
Lemma hex_char_inj a b : 0 <= a < 16 -> 0 <= b < 16 -> hex_char a = hex_char b -> a = b.
Proof.
  intros Ha Hb E. apply (f_equal ord) in E. unfold hex_char in E.
  destruct (Z.ltb_spec a 10), (Z.ltb_spec b 10); rewrite !ord_chr in E by lia; lia.
Qed.
Lemma hex_digits_inj k n m a b : hex_digits k n a = hex_digits k m b -> n mod 16 ^ Z.of_nat k = m mod 16 ^ Z.of_nat k /\ a = b.
Proof.
  revert n m a b. induction k as [|k IH]; intros n m a b; cbn [hex_digits].
  - intros ->. change (16 ^ Z.of_nat 0) with 1. by rewrite !Z.mod_1_r.
  - intros [E [= Hc ->]]%IH. split; [|done]. rewrite Nat2Z.inj_succ, Z.pow_succ_r by lia.
    apply hex_char_inj in Hc; [|apply Z.mod_pos_bound; lia..]. rewrite !Z.rem_mul_r by lia. lia.
Qed.
Lemma hex_digits_append k n a : hex_digits k n a = (hex_digits k n EmptyString ++ a)%string.
Proof.
  revert n a. induction k as [|k IH]; intros n a; cbn [hex_digits]; [done|]. rewrite IH, (IH _ (String _ EmptyString)).
  by rewrite append_assoc.
Qed.
Lemma str_of_uuid_digits u : str_of_uuid u =
  hex_digits 8 (u / 2 ^ 96) (String "-" (hex_digits 4 (u / 2 ^ 80) (String "-" (hex_digits 4 (u / 2 ^ 64)
    (String "-" (hex_digits 4 (u / 2 ^ 48) (String "-" (hex_digits 12 u EmptyString)))))))).
Proof.
  unfold str_of_uuid. symmetry. do 4 (rewrite hex_digits_append; do 2 f_equal).
Qed.
Lemma string_tail c a b : String c a = String c b -> a = b.
Proof. by intros [= ->]. Qed.
Lemma quotient_step u v b c : 0 < b -> 0 < c -> u / (b * c) = v / (b * c) -> (u / b) mod c = (v / b) mod c -> u / b = v / b.
Proof. intros Hb Hc. rewrite <- !Z.div_div by lia. intros E Em. by rewrite (Z.div_mod (u / b) c), (Z.div_mod (v / b) c), E, Em by lia. Qed.
Lemma str_of_uuid_inj u v : 0 <= u < 2 ^ 128 -> 0 <= v < 2 ^ 128 -> str_of_uuid u = str_of_uuid v -> u = v.
Proof.
  intros Hu Hv. rewrite !str_of_uuid_digits. intros [E1 H]%hex_digits_inj.
  apply string_tail, hex_digits_inj in H as [E2 H]. apply string_tail, hex_digits_inj in H as [E3 H].
  apply string_tail, hex_digits_inj in H as [E4 H]. apply string_tail, hex_digits_inj in H as [E5 _].
  change (16 ^ Z.of_nat 8) with (2 ^ 32) in *. change (16 ^ Z.of_nat 4) with (2 ^ 16) in *. change (16 ^ Z.of_nat 12) with (2 ^ 48) in *.
  rewrite !Z.mod_small in E1 by (split; [apply Z.div_pos; lia|apply Z.div_lt_upper_bound; lia]).
  apply (quotient_step u v (2 ^ 80) (2 ^ 16)) in E2; [|lia..|exact E1]. apply (quotient_step u v (2 ^ 64) (2 ^ 16)) in E3; [|lia..|exact E2].
  apply (quotient_step u v (2 ^ 48) (2 ^ 16)) in E4; [|lia..|exact E3].
  rewrite (Z.div_mod u (2 ^ 48)), (Z.div_mod v (2 ^ 48)), E4, E5 by lia. done.
Qed.
