(* ===== verification/JsonText.v ===== *)
(** JSON text in ASCII: what [json.dumps] writes with its default escapes is read
    back by [json_loads], for texts in UTF-8. *)
From S2P Require Import Prelude PyFloat Json JsonFacts.
#[local] Open Scope string_scope.
#[local] Open Scope list_scope.
#[local] Open Scope Z_scope.

(** Well-formed UTF-8: no overlong form, no surrogate, nothing past U+10FFFF. *)
Definition continues (c : ascii) : bool := (128 <=? ord c) && (ord c <? 192).
Fixpoint utf8_text (s : string) : bool :=
  match s with
  | EmptyString => true
  | String a s1 =>
      let n := ord a in
      if n <? 128 then utf8_text s1
      else match s1 with
      | EmptyString => false
      | String b s2 =>
          if (194 <=? n) && (n <? 224) then continues b && utf8_text s2
          else match s2 with
          | EmptyString => false
          | String c s3 =>
              if (224 <=? n) && (n <? 240) then
                continues b && continues c && negb ((n =? 224) && (ord b <? 160)) && negb ((n =? 237) && (160 <=? ord b)) && utf8_text s3
              else match s3 with
              | EmptyString => false
              | String d s4 =>
                  (240 <=? n) && (n <? 245) && continues b && continues c && continues d &&
                  negb ((n =? 240) && (ord b <? 144)) && negb ((n =? 244) && (144 <=? ord b)) && utf8_text s4
              end
          end
      end
  end.

(** ** Escapes *)
#[local] Arguments String.append : simpl nomatch.
Lemma hex_val_char d : 0 <= d < 16 -> hex_val (hex_char d) = Some d.
Proof.
  intros Hd. assert (exists k, (k < 16)%nat /\ d = Z.of_nat k) as (k & Hk & ->) by (exists (Z.to_nat d); lia).
  clear Hd. do 16 (destruct k as [|k]; [reflexivity|]). lia.
Qed.
Lemma scan_hex n rest : 0 <= n < 65536 -> scan_hex4 (hex_digits 4 n EmptyString ++ rest) = Some (n, rest).
Proof.
  intros Hn. cbn [hex_digits String.append scan_hex4].
  rewrite !hex_val_char by (apply Z.mod_pos_bound; lia). do 2 f_equal.
  pose proof (Z.div_mod n 16). pose proof (Z.div_mod (n / 16) 16). pose proof (Z.div_mod (n / 16 / 16) 16).
  assert (0 <= n / 16 / 16 / 16 < 16).
  { rewrite !Z.div_div by lia. split; [apply Z.div_pos; lia|apply Z.div_lt_upper_bound; lia]. }
  rewrite (Z.mod_small (n / 16 / 16 / 16)) by done. lia.
Qed.
(** An escaped code point outside the high surrogates. *)
Lemma scan_string_u n fuel r t rest : 0 <= n < 65536 -> ~ 55296 <= n <= 56319 ->
  scan_string fuel r = Some (t, rest) -> scan_string (S fuel) (u_escape n r) = Some (utf8 n t, rest).
Proof.
  intros Hn Hs Hr. unfold u_escape. cbn [scan_string].
  change (ord (chr 92)) with 92. change (ord "u") with 117. cbn -[scan_string scan_hex4 hex_digits String.append utf8].
  rewrite scan_hex, Hr by done.
  assert ((55296 <=? n) && (n <=? 56319) = false) as -> by (apply andb_false_iff; rewrite !Z.leb_gt; lia).
  cbn [andb]. by repeat case_match.
Qed.
(** A pair of surrogates. *)
Lemma scan_string_pair n fuel r t rest : 65536 <= n < 1114112 ->
  scan_string fuel r = Some (t, rest) ->
  scan_string (S fuel) (u_escape (55296 + (n - 65536) / 1024) (u_escape (56320 + (n - 65536) mod 1024) r)) = Some (utf8 n t, rest).
Proof.
  intros Hn Hr. pose proof (Z.div_mod (n - 65536) 1024). pose proof (Z.mod_pos_bound (n - 65536) 1024).
  assert (0 <= (n - 65536) / 1024 < 1024) by (split; [apply Z.div_pos; lia|apply Z.div_lt_upper_bound; lia]).
  set (hi := (n - 65536) / 1024) in *. set (lo := (n - 65536) mod 1024) in *.
  unfold u_escape at 1. cbn [scan_string].
  change (ord (chr 92)) with 92. change (ord "u") with 117. cbn -[scan_string scan_hex4 hex_digits String.append utf8 Z.add Z.sub Z.mul Z.leb u_escape].
  rewrite scan_hex by lia. unfold u_escape.
  assert ((55296 <=? 55296 + hi) && (55296 + hi <=? 56319) = true) as -> by (apply andb_true_iff; rewrite !Z.leb_le; lia).
  change (ord (chr 92)) with 92. change (ord "u") with 117. cbn -[scan_string scan_hex4 hex_digits String.append utf8 Z.add Z.sub Z.mul Z.leb].
  rewrite scan_hex by lia.
  assert ((56320 <=? 56320 + lo) && (56320 + lo <=? 57343) = true) as -> by (apply andb_true_iff; rewrite !Z.leb_le; lia).
  rewrite Hr. do 3 f_equal. lia.
Qed.
(** Any code point that is not a surrogate. *)
Lemma scan_string_code n fuel r t rest : 0 <= n < 1114112 -> ~ 55296 <= n < 57344 ->
  scan_string fuel r = Some (t, rest) -> scan_string (S fuel) (escape_code n r) = Some (utf8 n t, rest).
Proof.
  intros Hn Hs Hr. unfold escape_code. cbv zeta.
  assert (n < 128 -> utf8 n t = String (chr n) t) as Hlow by (intros; unfold utf8; by rewrite (proj2 (Z.ltb_lt n 128))).
  repeat (match goal with |- context [if n =? ?k then _ else _] => bdestruct (n =? k);
    [subst n; change (utf8 k t) with (String (chr k) t); eapply scan_string_short; [|exact Hr]; apply list_elem_of_In; cbn; auto 10|] end).
  destruct ((32 <=? n) && (n <? 127)) eqn:Hplain.
  - rewrite andb_true_iff in Hplain. rewrite Hlow by lia. by apply scan_string_plain; [lia..|].
  - bdestruct (n <? 65536); [by apply scan_string_u; [lia|lia|]|]. apply scan_string_pair; [lia|done].
Qed.

(** ** Texts *)
Lemma base64_step q d : 0 <= d < 64 -> (q * 64 + d) mod 64 = d /\ (q * 64 + d) / 64 = q.
Proof.
  intros. split; [rewrite Z.add_comm, Z.mod_add, Z.mod_small by lia; done|]. by rewrite Z.div_add_l, Z.div_small, Z.add_0_r by lia.
Qed.
Lemma continues_val b : continues b = true -> exists d, 0 <= d < 64 /\ ord b mod 64 = d /\ b = chr (128 + d).
Proof.
  unfold continues. rewrite andb_true_iff. intros Hb. exists (ord b - 128). split; [lia|].
  split; [symmetry; apply Z.mod_unique with 2; lia|]. rewrite <- (chr_ord b) at 1. f_equal. lia.
Qed.
Lemma lead_val a base q : base <= ord a < base + q -> base mod q = 0 -> 0 < q -> exists d, 0 <= d < q /\ ord a mod q = d /\ a = chr (base + d).
Proof.
  intros Ha Hb Hq. exists (ord a - base). split; [lia|]. split; [|rewrite <- (chr_ord a) at 1; f_equal; lia].
  symmetry. apply Z.mod_unique with (base / q); [lia|]. pose proof (Z.div_mod base q). lia.
Qed.
Lemma utf8_two a b t : 194 <= ord a < 224 -> continues b = true ->
  utf8 (ord a mod 32 * 64 + ord b mod 64) t = String a (String b t).
Proof.
  intros Ha (y & Hy & -> & ->)%continues_val. destruct (lead_val a 192 32) as (x & Hx & -> & ->); [lia|done|lia|].
  rewrite ord_chr in Ha by lia. destruct (base64_step x y Hy) as [E1 E2].
  unfold utf8. rewrite (proj2 (Z.ltb_ge _ 128)), (proj2 (Z.ltb_lt _ 2048)) by lia. by rewrite E1, E2.
Qed.
Lemma utf8_three a b c t : 224 <= ord a < 240 -> continues b = true -> continues c = true ->
  (ord a = 224 -> 160 <= ord b) -> utf8 ((ord a mod 16 * 64 + ord b mod 64) * 64 + ord c mod 64) t = String a (String b (String c t)).
Proof.
  intros Ha (y & Hy & -> & ->)%continues_val (z & Hz & -> & ->)%continues_val Ho. destruct (lead_val a 224 16) as (x & Hx & -> & ->); [lia|done|lia|].
  rewrite !ord_chr in Ho by lia. destruct (base64_step x y Hy) as [E1 E2]. destruct (base64_step (x * 64 + y) z Hz) as [E3 E4].
  unfold utf8. rewrite (proj2 (Z.ltb_ge _ 128)), (proj2 (Z.ltb_ge _ 2048)), (proj2 (Z.ltb_lt _ 65536)) by lia.
  rewrite E3, E4, E1. replace (((x * 64 + y) * 64 + z) / 4096) with x; [done|].
  change 4096 with (64 * 64). by rewrite <- Z.div_div, E4, E2 by lia.
Qed.
Lemma utf8_four a b c d t : 240 <= ord a < 245 -> continues b = true -> continues c = true -> continues d = true ->
  (ord a = 240 -> 144 <= ord b) ->
  utf8 (((ord a mod 8 * 64 + ord b mod 64) * 64 + ord c mod 64) * 64 + ord d mod 64) t = String a (String b (String c (String d t))).
Proof.
  intros Ha (y & Hy & -> & ->)%continues_val (z & Hz & -> & ->)%continues_val (w & Hw & -> & ->)%continues_val Ho.
  destruct (lead_val a 240 8) as (x & Hx & -> & ->); [lia|done|lia|].
  rewrite !ord_chr in Ho by lia. destruct (base64_step x y Hy) as [E1 E2]. destruct (base64_step (x * 64 + y) z Hz) as [E3 E4].
  destruct (base64_step ((x * 64 + y) * 64 + z) w Hw) as [E5 E6]. set (n := ((x * 64 + y) * 64 + z) * 64 + w) in *.
  unfold utf8. rewrite (proj2 (Z.ltb_ge _ 128)), (proj2 (Z.ltb_ge _ 2048)), (proj2 (Z.ltb_ge _ 65536)) by lia.
  change 262144 with (64 * 64 * 64). change 4096 with (64 * 64). rewrite <- !(Z.div_div n), E6, E4, E2 by lia. by rewrite E5, E3, E1.
Qed.

Lemma u_escape_append n r x : (u_escape n r ++ x = u_escape n (r ++ x))%string.
Proof. unfold u_escape. cbn -[hex_digits]. by rewrite append_assoc. Qed.
Lemma escape_code_append n r x : (escape_code n r ++ x = escape_code n (r ++ x))%string.
Proof. unfold escape_code. cbv zeta. repeat case_match; try done; by rewrite !u_escape_append. Qed.
Lemma length_u_escape n r : (String.length r < String.length (u_escape n r))%nat.
Proof. unfold u_escape. cbn -[hex_digits]. rewrite length_append. lia. Qed.
Lemma length_escape_code n r : (String.length r < String.length (escape_code n r))%nat.
Proof.
  unfold escape_code. cbv zeta. repeat case_match; cbn [String.length]; try lia; try apply length_u_escape.
  etrans; [apply (length_u_escape (56320 + (n - 65536) mod 1024))|apply length_u_escape].
Qed.
(** One character: its code point is escaped, and read back as its bytes. *)
Lemma scan_one n r k fuel rest s t :
  0 <= n < 1114112 -> ~ 55296 <= n < 57344 -> utf8 n s = t ->
  (String.length (escape_code n (escape_string k r)) < S fuel)%nat ->
  ((String.length (escape_string k r) < fuel)%nat -> scan_string fuel (escape_string k r ++ String (chr 34) rest) = Some (s, rest)) ->
  scan_string (S fuel) (escape_code n (escape_string k r) ++ String (chr 34) rest) = Some (t, rest).
Proof.
  intros Hn Hs <- Hf IH. rewrite escape_code_append. apply scan_string_code; [done..|]. apply IH.
  pose proof (length_escape_code n (escape_string k r)). lia.
Qed.
(** Scanning gives back what was escaped. *)
Lemma scan_escape_string k : forall s fuel rest, utf8_text s = true -> (String.length s <= k)%nat ->
  (String.length (escape_string k s) < fuel)%nat -> scan_string fuel (escape_string k s ++ String (chr 34) rest) = Some (s, rest).
Proof.
  induction k as [|k IH]; intros [|a s] [|fuel] rest Hu Hk Hf; try (cbn in Hk, Hf; lia); try done.
  cbn [escape_string utf8_text String.length] in *. cbv zeta in *. pose proof (ord_range a) as Ha.
  bdestruct (ord a <? 128).
  { rewrite (proj2 (Z.ltb_lt _ 192)) in * by lia. eapply scan_one; [lia|lia| |done|intros Hl; apply IH; [done|lia|done]].
    unfold utf8. rewrite (proj2 (Z.ltb_lt _ 128)) by lia. by rewrite chr_ord. }
  destruct s as [|b s]; [done|]. cbn [String.length] in Hk. pose proof (ord_range b) as Hb.
  destruct ((194 <=? ord a) && (ord a <? 224)) eqn:E2.
  { assert (194 <= ord a < 224) by lia. clear E2. rewrite (proj2 (Z.ltb_ge _ 192)), (proj2 (Z.ltb_lt _ 224)) in * by lia. apply andb_true_iff in Hu as [Hb' Hu]. cbn [utf8_tail] in *.
    assert (0 <= ord b mod 64 < 64) by (apply Z.mod_pos_bound; lia). assert (2 <= ord a mod 32 < 32).
    { split; [|apply Z.mod_pos_bound; lia]. replace (ord a mod 32) with (ord a - 192); [lia|]. apply Z.mod_unique with 6; lia. }
    eapply scan_one; [lia|lia| |done|intros Hl; apply IH; [done|lia|done]]. by apply utf8_two; [lia|]. }
  destruct s as [|c s]; [done|]. cbn [String.length] in Hk.
  destruct ((224 <=? ord a) && (ord a <? 240)) eqn:E3.
  { assert (224 <= ord a < 240) by lia. clear E2 E3. rewrite (proj2 (Z.ltb_ge _ 192)), (proj2 (Z.ltb_ge _ 224)), (proj2 (Z.ltb_lt _ 240)) in * by lia. rewrite !andb_true_iff, !negb_true_iff in Hu.
    destruct Hu as [[[[Hb' Hc'] H1] H2] Hu]. cbn [utf8_tail] in *.
    destruct (continues_val b Hb') as (y & Hy & Ey & Eb). destruct (continues_val c Hc') as (z & Hz & Ez & _).
    assert (ord b = 128 + y) as Ob by (rewrite Eb, ord_chr; lia).
    assert (ord a mod 16 = ord a - 224) as Ea by (symmetry; apply Z.mod_unique with 14; lia).
    eapply scan_one; [rewrite Ea, Ey, Ez; lia|rewrite Ea, Ey, Ez; lia| |done|intros Hl; apply IH; [done|lia|done]].
    apply utf8_three; [lia|done|done|]. intros Eq. rewrite Eq in H1. cbn in H1. lia. }
  destruct s as [|d s]; [done|]. cbn [String.length] in Hk.
  rewrite !andb_true_iff, !negb_true_iff in Hu. destruct Hu as [[[[[[[H0 H1] Hb'] Hc'] Hd'] H2] H3] Hu].
  assert (240 <= ord a < 245) by lia. clear E2 E3 H0 H1.
  rewrite (proj2 (Z.ltb_ge _ 192)), (proj2 (Z.ltb_ge _ 224)), (proj2 (Z.ltb_ge _ 240)) in * by lia. cbn [utf8_tail] in *.
  destruct (continues_val b Hb') as (y & Hy & Ey & Eb). destruct (continues_val c Hc') as (z & Hz & Ez & _). destruct (continues_val d Hd') as (w & Hw & Ew & _).
  assert (ord b = 128 + y) as Ob by (rewrite Eb, ord_chr; lia).
  assert (ord a mod 8 = ord a - 240) as Ea by (symmetry; apply Z.mod_unique with 30; lia).
  eapply scan_one; [rewrite Ea, Ey, Ez, Ew; lia|rewrite Ea, Ey, Ez, Ew; lia| |done|intros Hl; apply IH; [done|lia|done]].
  apply utf8_four; [lia|done|done|done|]. intros Eq. rewrite Eq in H2. cbn in H2. lia.
Qed.

(** ** The round trip *)
Lemma scan_ascii s rest : utf8_text s = true ->
  scan_string (S (String.length (escape_string (String.length s) s ++ String (chr 34) rest))) (escape_string (String.length s) s ++ String (chr 34) rest) =
  Some (s, rest).
Proof. intros Hs. apply scan_escape_string; [done|lia|]. rewrite length_append. lia. Qed.
(** [json.loads(json.dumps(v, separators=(',' + gap, ':' + gap)))] is [v] *)
Lemma json_loads_dumps gap v : gap = EmptyString \/ gap = " " -> plain v = true -> texts_ok utf8_text v = true ->
  json_loads (dumps false ("," ++ gap) (":" ++ gap) v) = Some v.
Proof.
  intros Hg Hp Ht. apply (json_loads_print false gap (fun s => escape_string (String.length s) s) utf8_text).
  - by destruct Hg as [-> | ->].
  - apply scan_ascii.
  - unfold writable. by rewrite Hp, Ht.
Qed.
