(* ===== verification/UuidText.v ===== *)
(** The text of a UUID is read back: [uuid.UUID(str(u)) == u]. *)
From S2P Require Import Prelude PyFloat Json JsonFacts JsonText.
#[local] Open Scope string_scope.
#[local] Open Scope list_scope.
#[local] Open Scope Z_scope.
#[local] Arguments String.append : simpl nomatch.

Fixpoint every (p : ascii -> bool) (s : string) : bool := match s with EmptyString => true | String c s => p c && every p s end.
Lemma every_append p a b : every p (a ++ b) = every p a && every p b.
Proof. induction a as [|c a IH]; [done|]. cbn. by rewrite IH, andb_assoc. Qed.
Lemma every_weaken (p q : ascii -> bool) s : (forall c, p c = true -> q c = true) -> every p s = true -> every q s = true.
Proof. intros Hpq. induction s as [|c s IH]; [done|]. cbn. rewrite !andb_true_iff. intros [Hc Hs]. auto. Qed.

(** Lower-case hexadecimal digits, and the dash. *)
Definition hex_lower (c : ascii) : bool := ((48 <=? ord c) && (ord c <=? 57)) || ((97 <=? ord c) && (ord c <=? 102)).
Definition uuid_char (c : ascii) : bool := hex_lower c || (ord c =? 45).
Lemma hex_char_lower d : 0 <= d < 16 -> hex_lower (hex_char d) = true.
Proof.
  intros Hd. assert (exists k, (k < 16)%nat /\ d = Z.of_nat k) as (k & Hk & ->) by (exists (Z.to_nat d); lia).
  clear Hd. do 16 (destruct k as [|k]; [reflexivity|]). lia.
Qed.
Lemma hex_digits_every k n a : every hex_lower (hex_digits k n a) = every hex_lower a.
Proof.
  revert n a. induction k as [|k IH]; intros n a; cbn [hex_digits]; [done|]. rewrite IH. cbn [every].
  by rewrite hex_char_lower by (apply Z.mod_pos_bound; lia).
Qed.
Lemma hex_digits_length k n a : String.length (hex_digits k n a) = (k + String.length a)%nat.
Proof. revert n a. induction k as [|k IH]; intros n a; cbn [hex_digits]; [done|]. rewrite IH. cbn. lia. Qed.
Lemma uuid_text_chars u : every uuid_char (str_of_uuid u) = true.
Proof.
  unfold str_of_uuid. rewrite !every_append. cbn [every].
  assert (forall k n, every uuid_char (hex_digits k n EmptyString) = true) as Hh.
  { intros k n. apply (every_weaken hex_lower); [intros c Hc; unfold uuid_char; by rewrite Hc|]. by rewrite hex_digits_every. }
  by rewrite !Hh.
Qed.
Lemma ascii_utf8 s : every (fun c => ord c <? 128) s = true -> utf8_text s = true.
Proof. induction s as [|c s IH]; [done|]. cbn. rewrite andb_true_iff. intros [-> Hs]. auto. Qed.
Lemma uuid_char_bounds c : uuid_char c = true -> ord c = 45 \/ 48 <= ord c <= 57 \/ 97 <= ord c <= 102.
Proof. unfold uuid_char, hex_lower. lia. Qed.
Lemma uuid_text_utf8 u : utf8_text (str_of_uuid u) = true.
Proof. apply ascii_utf8, (every_weaken uuid_char); [|apply uuid_text_chars]. intros c Hc%uuid_char_bounds. lia. Qed.

(** ** Removals that change nothing, and the dashes *)
Lemma remove_absent p0 p s fuel : (String.length s <= fuel)%nat -> every (fun c => negb (Ascii.eqb p0 c)) s = true -> str_remove fuel (String p0 p) s = s.
Proof.
  revert fuel. induction s as [|c s IH]; intros [|fuel] Hf Hs; try done; [cbn in Hf; lia|]. cbn [every String.length] in *.
  apply andb_true_iff in Hs as [Hc Hs]. apply negb_true_iff in Hc. cbn [str_remove after_prefix]. rewrite Hc. f_equal. apply IH; [lia|done].
Qed.
Lemma uuid_not c0 s : ord c0 <> 45 -> ~ 48 <= ord c0 <= 57 -> ~ 97 <= ord c0 <= 102 -> every uuid_char s = true ->
  every (fun c => negb (Ascii.eqb c0 c)) s = true.
Proof.
  intros H1 H2 H3. apply every_weaken. intros c Hc%uuid_char_bounds. apply negb_true_iff. destruct (Ascii.eqb_spec c0 c); [subst; lia|done].
Qed.
Lemma lstrip_braces_id s : every uuid_char s = true -> lstrip_braces s = s.
Proof.
  destruct s as [|c s]; [done|]. cbn. rewrite andb_true_iff. intros [Hc%uuid_char_bounds _]. unfold is_brace.
  by rewrite !(proj2 (Z.eqb_neq _ _)) by lia.
Qed.
Lemma rstrip_braces_id s : every uuid_char s = true -> rstrip_braces s = s.
Proof.
  induction s as [|c s IH]; [done|]. cbn. rewrite andb_true_iff. intros [Hc%uuid_char_bounds Hs]. rewrite (IH Hs). destruct s; [|done].
  unfold is_brace. by rewrite !(proj2 (Z.eqb_neq _ _)) by lia.
Qed.
Lemma remove_dash_digits x s fuel : every hex_lower x = true -> (String.length (x ++ s) <= fuel)%nat ->
  str_remove fuel "-" (x ++ s) = (x ++ str_remove (fuel - String.length x) "-" s)%string.
Proof.
  revert fuel. induction x as [|c x IH]; intros fuel Hx Hf; [cbn; by rewrite Nat.sub_0_r|]. destruct fuel as [|fuel]; [cbn in Hf; lia|].
  cbn [every String.append String.length] in *. apply andb_true_iff in Hx as [Hc Hx]. cbn [str_remove after_prefix].
  destruct (Ascii.eqb_spec "-" c) as [<-|_]; [done|]. f_equal. rewrite IH by (done || lia). done.
Qed.
Lemma remove_dash s fuel : (String.length s < fuel)%nat -> str_remove fuel "-" (String "-" s) = str_remove (pred fuel) "-" s.
Proof. destruct fuel; [lia|done]. Qed.
Definition uuid_hex_text (u : uuid) : string :=
  (hex_digits 8 (u / 2 ^ 96) EmptyString ++ hex_digits 4 (u / 2 ^ 80) EmptyString ++ hex_digits 4 (u / 2 ^ 64) EmptyString ++
   hex_digits 4 (u / 2 ^ 48) EmptyString ++ hex_digits 12 u EmptyString)%string.
Lemma remove_dashes u : remove "-" (str_of_uuid u) = uuid_hex_text u.
Proof.
  assert (forall k n s fuel, (String.length (hex_digits k n EmptyString ++ s) <= fuel)%nat ->
    str_remove fuel "-" (hex_digits k n EmptyString ++ s) = (hex_digits k n EmptyString ++ str_remove (fuel - k) "-" s)%string) as Hd.
  { intros k n s fuel Hf. rewrite remove_dash_digits; [|by rewrite hex_digits_every|done]. by rewrite hex_digits_length, Nat.add_0_r. }
  assert (String.length (str_of_uuid u) = 36%nat) as Hl.
  { unfold str_of_uuid. rewrite !length_append, !hex_digits_length. done. }
  unfold remove. rewrite Hl. unfold str_of_uuid, uuid_hex_text. rewrite Hd; [|rewrite !length_append, !hex_digits_length; cbn; lia].
  do 3 (f_equal; cbn [String.append]; rewrite remove_dash by (rewrite !length_append, !hex_digits_length; cbn; lia);
    rewrite Hd; [|rewrite !length_append, !hex_digits_length; cbn; lia]).
  f_equal. cbn [String.append]. rewrite remove_dash by (rewrite hex_digits_length; cbn; lia). rewrite <- (append_nil_r (hex_digits 12 u EmptyString)) at 1.
  rewrite Hd by (rewrite length_append, hex_digits_length; cbn; lia). by rewrite append_nil_r.
Qed.

(** ** The number *)
Lemma strip_id s : every hex_lower s = true -> strip s = s.
Proof.
  intros Hs. assert (forall c, hex_lower c = true -> is_blank c = false) as Hb.
  { intros c Hc. assert (uuid_char c = true) as Hu%uuid_char_bounds by (unfold uuid_char; by rewrite Hc). unfold is_blank. lia. }
  unfold strip. assert (lstrip s = s) as -> by (destruct s as [|c s]; [done|]; cbn in *; apply andb_true_iff in Hs as [Hc _]; by rewrite Hb).
  induction s as [|c s IH]; [done|]. cbn in *. apply andb_true_iff in Hs as [Hc Hs]. rewrite IH by done. destruct s; [by rewrite Hb|done].
Qed.
Lemma hex_digit_char d : 0 <= d < 16 -> hex_digit (hex_char d) = Some d.
Proof. apply hex_val_char. Qed.
Lemma hex_int_step s d acc prev : 0 <= d < 16 -> hex_int_digits (String (hex_char d) s) acc prev = hex_int_digits s (16 * acc + d) true.
Proof. intros Hd. cbn [hex_int_digits]. by rewrite hex_digit_char. Qed.
Lemma hex_int_value k n s acc prev : k <> O ->
  hex_int_digits (hex_digits k n s) acc prev = hex_int_digits s (acc * 16 ^ Z.of_nat k + n mod 16 ^ Z.of_nat k) true.
Proof.
  revert n s prev. induction k as [|k IH]; intros n s prev Hk; [done|]. cbn [hex_digits].
  assert (0 <= n mod 16 < 16) as Hd by (apply Z.mod_pos_bound; lia).
  rewrite Nat2Z.inj_succ, Z.pow_succ_r by lia. rewrite Z.rem_mul_r by lia. destruct k as [|k].
  - cbn [hex_digits]. rewrite hex_int_step by done. f_equal. change (16 ^ Z.of_nat 0) with 1. rewrite Z.mod_1_r. lia.
  - rewrite IH by done. rewrite hex_int_step by done. f_equal. lia.
Qed.
Lemma hex_unsigned_digits s : every hex_lower s = true -> hex_unsigned s = hex_int_digits s 0 false.
Proof.
  intros Hs. destruct s as [|a [|x [|c s]]]; [done|by destruct a as [[] [] [] [] [] [] [] []]|by destruct a as [[] [] [] [] [] [] [] []]|].
  cbn [every] in Hs. rewrite !andb_true_iff in Hs. destruct Hs as (_ & Hx & _).
  assert (uuid_char x = true) as Hu%uuid_char_bounds by (unfold uuid_char; by rewrite Hx).
  assert ((ord x =? 120) || (ord x =? 88) = false) as E by (unfold hex_lower in Hx; lia).
  unfold hex_unsigned. destruct a as [[] [] [] [] [] [] [] []]; try reflexivity. by rewrite E.
Qed.
Lemma remove_id p s : every uuid_char s = true -> remove (String "u" p) s = s.
Proof. intros Hs. apply remove_absent; [done|]. apply uuid_not; [change (ord "u") with 117; lia..|done]. Qed.
Lemma uuid_hex_nested u : uuid_hex_text u =
  hex_digits 8 (u / 2 ^ 96) (hex_digits 4 (u / 2 ^ 80) (hex_digits 4 (u / 2 ^ 64) (hex_digits 4 (u / 2 ^ 48) (hex_digits 12 u EmptyString)))).
Proof. unfold uuid_hex_text. by rewrite <- !hex_digits_append. Qed.
Lemma next_digits u a b : 0 < a -> 0 < b -> u / (a * b) * b + (u / a) mod b = u / a.
Proof. intros Ha Hb. rewrite <- Z.div_div by lia. rewrite Z.mul_comm. symmetry. apply Z.div_mod. lia. Qed.
Lemma uuid_of_str_of_uuid u : 0 <= u < 2 ^ 128 -> uuid_of_str (str_of_uuid u) = Ok u.
Proof.
  intros Hu. pose proof (uuid_text_chars u) as Hc. unfold uuid_of_str.
  rewrite !remove_id, lstrip_braces_id, rstrip_braces_id, remove_dashes, uuid_hex_nested by (done || by rewrite remove_id).
  set (t := hex_digits 8 _ _).
  assert (String.length t = 32%nat) as -> by (unfold t; by rewrite !hex_digits_length).
  assert (every hex_lower t = true) as Ht by (unfold t; by rewrite !hex_digits_every).
  assert (hex_int_of_str t = hex_int_digits t 0 false) as ->.
  { unfold hex_int_of_str. rewrite strip_id by done. rewrite <- (hex_unsigned_digits t Ht). destruct t as [|c t']; [done|]. cbn [every] in Ht.
    apply andb_true_iff in Ht as [Hl _]. assert (uuid_char c = true) as Hb%uuid_char_bounds by (unfold uuid_char; by rewrite Hl).
    unfold hex_lower in Hl. rewrite (proj2 (Z.eqb_neq _ 45)), (proj2 (Z.eqb_neq _ 43)) by lia. done. }
  cbn [Z.of_nat]. change (Z.of_nat 32 =? 32) with true. cbn [negb].
  unfold t. rewrite !hex_int_value by done. cbn [hex_int_digits].
  change (16 ^ Z.of_nat 8) with (2 ^ 32). change (16 ^ Z.of_nat 4) with (2 ^ 16). change (16 ^ Z.of_nat 12) with (2 ^ 48).
  rewrite (Z.mod_small (u / 2 ^ 96)) by (split; [apply Z.div_pos; lia|apply Z.div_lt_upper_bound; lia]).
  rewrite Z.mul_0_l, Z.add_0_l.
  change (2 ^ 96) with (2 ^ 80 * 2 ^ 16). rewrite next_digits by done.
  change (2 ^ 80) with (2 ^ 64 * 2 ^ 16). rewrite next_digits by done.
  change (2 ^ 64) with (2 ^ 48 * 2 ^ 16). rewrite next_digits by done.
  assert (u / 2 ^ 48 * 2 ^ 48 + u mod 2 ^ 48 = u) as -> by (rewrite Z.mul_comm; symmetry; apply Z.div_mod; lia).
  assert ((0 <=? u) && (u <? 2 ^ 128) = true) as -> by lia. done.
Qed.
