(* ===== verification/Calendar.v ===== *)
(** Dates of the proleptic Gregorian calendar: what the code uses of Python's
    [datetime] and [calendar].  A [date] is a number of days since 1970-01-01,
    a [time] a number of microseconds. *)
From S2P Require Import Prelude PyFloat Json.
#[local] Open Scope string_scope.
#[local] Open Scope Z_scope.

Definition seconds (n : Z) : Z := n * 1000000.
Definition days (n : Z) : Z := seconds (n * 86400).
(** [moment.date()] for a UTC moment. *)
Definition date_of_time (t : time) : date := t / days 1.

Definition is_leap (y : Z) : bool := (y mod 4 =? 0) && (negb (y mod 100 =? 0) || (y mod 400 =? 0)).
(** [calendar.monthrange(y, m)[1]] *)
Definition days_in_month (y m : Z) : Z :=
  match m with
  | 2 => if is_leap y then 29 else 28
  | 4 | 6 | 9 | 11 => 30
  | _ => 31
  end.
Definition days_before_year (y : Z) : Z := let y := y - 1 in y * 365 + y / 4 - y / 100 + y / 400.
Definition days_before_month (y m : Z) : Z :=
  zsum (map (fun i => days_in_month y (Z.of_nat i)) (seq 1 (Z.to_nat m - 1))).
(** [date(y, m, d)] *)
Definition date_of (y m d : Z) : date := days_before_year y + days_before_month y m + (d - 1) - 719162.

(** Year, month and day of a date: the greatest year, then the greatest month
    that has begun. *)
Definition year_of (z : date) : Z :=
  let n := z + 719162 in
  let y := n * 400 / 146097 + 1 in
  if days_before_year (y + 1) <=? n then y + 1 else if n <? days_before_year y then y - 1 else y.
Fixpoint month_from (fuel : nat) (y m rest : Z) : Z * Z :=
  match fuel with
  | O => (m, rest)
  | S fuel => if rest <? days_in_month y m then (m, rest) else month_from fuel y (m + 1) (rest - days_in_month y m)
  end.
Definition civil_of (z : date) : Z * Z * Z :=
  let y := year_of z in
  let '(m, rest) := month_from 11 y 1 (z + 719162 - days_before_year y) in
  (y, m, rest + 1).

(** [f"{moment:%Y%m%d}"] and [date.isoformat()] *)
Definition format_ymd (z : date) : string :=
  let '(y, m, d) := civil_of z in
  (zero_pad 4 (str_of_Z y) ++ zero_pad 2 (str_of_Z m) ++ zero_pad 2 (str_of_Z d))%string.
Definition isoformat (z : date) : string :=
  let '(y, m, d) := civil_of z in
  (zero_pad 4 (str_of_Z y) ++ "-" ++ zero_pad 2 (str_of_Z m) ++ "-" ++ zero_pad 2 (str_of_Z d))%string.

(** [datetime.isoformat(sep)] of a moment without offset, and of a time in UTC;
    [str] uses a blank. *)
Definition clock_text (sep : string) (t : time) : string :=
  let d := date_of_time t in
  let us := t - days d in
  let sec := us / 1000000 in
  let fraction := us mod 1000000 in
  (isoformat d ++ sep ++ zero_pad 2 (str_of_Z (sec / 3600)) ++ ":" ++ zero_pad 2 (str_of_Z (sec / 60 mod 60)) ++ ":" ++
   zero_pad 2 (str_of_Z (sec mod 60)) ++ (if Z.eqb fraction 0 then EmptyString else "." ++ zero_pad 6 (str_of_Z fraction)))%string.
Definition iso_time (t : time) : string := (clock_text "T" t ++ "+00:00")%string.
Definition str_time (t : time) : string := (clock_text " " t ++ "+00:00")%string.
(** Pydantic's JSON form of a time in UTC. *)
Definition json_time (t : time) : string := (clock_text "T" t ++ "Z")%string.

Example calendar_examples :
  (date_of 1970 1 1, date_of 2024 2 29, date_of 2000 12 31, civil_of 19782, civil_of (-719162), civil_of 11322,
   format_ymd 19782, isoformat (date_of 999 3 5), zsum (map (fun k => let z := 400 * Z.of_nat k in
     let '(y, m, d) := civil_of z in date_of y m d - z) (seq 0 500)))
  = (0, 19782, 11322, (2024, 2, 29), (1, 1, 1), (2000, 12, 31), "20240229", "0999-03-05", 0).
Proof. vm_compute. reflexivity. Qed.
