(* ===== verification/Models.v ===== *)
(** The relational data model of the control plane: a record per SQLAlchemy
    class with all its columns, and the record [Db] of the tables the modelled
    services read and write.  A nullable column is an [option]; [Float] is
    binary64; a timestamp is a number of microseconds. *)
From S2P Require Import Prelude PyFloat Json.
#[local] Open Scope string_scope.
#[local] Open Scope Z_scope.

(** ** [apps/backend/app/models/billing.py] *)

Module SubscriptionStatus.
Inductive SubscriptionStatus : Type :=
| trialing
| active
| past_due
| canceled.

#[export] Instance SubscriptionStatus_eq_dec : EqDecision SubscriptionStatus.
Proof. solve_decision. Defined.

Definition value_SubscriptionStatus (x : SubscriptionStatus) : string :=
  match x with
  | trialing => "trialing"
  | active => "active"
  | past_due => "past_due"
  | canceled => "canceled"
  end.
End SubscriptionStatus.
Export (hints) SubscriptionStatus.
Notation SubscriptionStatus := SubscriptionStatus.SubscriptionStatus.

Module InvoiceStatus.
Inductive InvoiceStatus : Type :=
| draft
| open
| paid
| void
| uncollectible.

#[export] Instance InvoiceStatus_eq_dec : EqDecision InvoiceStatus.
Proof. solve_decision. Defined.

Definition value_InvoiceStatus (x : InvoiceStatus) : string :=
  match x with
  | draft => "draft"
  | open => "open"
  | paid => "paid"
  | void => "void"
  | uncollectible => "uncollectible"
  end.
End InvoiceStatus.
Export (hints) InvoiceStatus.
Notation InvoiceStatus := InvoiceStatus.InvoiceStatus.

(** [billing.py]: [class BillingPlan], every column. *)
Module BillingPlan.
Record BillingPlan : Type := mk {
  id : uuid;
  code : string;
  name : string;
  currency : string;
  monthly_price_minor : Z;
  annual_price_minor : option Z;
  setup_fee_minor : Z;
  included_mailboxes : Z;
  included_domains : Z;
  included_storage_mb : Z;
  max_api_keys : Z;
  allow_metered_overages : bool;
  overage_mailbox_minor : Z;
  overage_domain_minor : Z;
  overage_storage_gb_minor : Z;
  overage_api_key_minor : Z;
  overage_hosted_project_minor : Z;
  overage_hosting_storage_gb_minor : Z;
  overage_database_minor : Z;
  overage_database_storage_gb_minor : Z;
  overage_source_storage_gb_minor : Z;
  included_hosted_projects : Z;
  hosting_storage_mb : Z;
  hosting_memory_mb_per_project : Z;
  hosting_cpu_millicores_per_project : Z;
  hosting_pids_per_project : Z;
  hosting_database_limit : Z;
  hosting_database_storage_mb : Z;
  hosting_source_storage_mb : Z;
  product_category : string;
  description : string;
  website_pages : Z;
  includes_website_design : bool;
  includes_logo_design : bool;
  includes_brand_guide : bool;
  includes_company_profile : bool;
  includes_letterhead : bool;
  includes_page_headers_footers : bool;
  includes_business_templates : bool;
  included_revisions : Z;
  content_updates_per_month : Z;
  support_level : string;
  minimum_term_months : Z;
  price_from : bool;
  customer_visible : bool;
  featured : bool;
  sort_order : Z;
  is_active : bool;
  lifecycle_state : string;
  retired_at : option time;
  created_at : time;
  updated_at : time
}.
(** A row with its column defaults, as the first flush writes it. *)
Definition new_BillingPlan (new_id : uuid) (now : time) : BillingPlan := {|
  id := new_id;
  code := EmptyString;
  name := EmptyString;
  currency := "LSL"%string;
  monthly_price_minor := 0;
  annual_price_minor := None;
  setup_fee_minor := 0;
  included_mailboxes := 0;
  included_domains := 0;
  included_storage_mb := 0;
  max_api_keys := 0;
  allow_metered_overages := false;
  overage_mailbox_minor := 0;
  overage_domain_minor := 0;
  overage_storage_gb_minor := 0;
  overage_api_key_minor := 0;
  overage_hosted_project_minor := 0;
  overage_hosting_storage_gb_minor := 0;
  overage_database_minor := 0;
  overage_database_storage_gb_minor := 0;
  overage_source_storage_gb_minor := 0;
  included_hosted_projects := 0;
  hosting_storage_mb := 0;
  hosting_memory_mb_per_project := 0;
  hosting_cpu_millicores_per_project := 0;
  hosting_pids_per_project := 0;
  hosting_database_limit := 0;
  hosting_database_storage_mb := 0;
  hosting_source_storage_mb := 0;
  product_category := "Website & Hosting"%string;
  description := EmptyString;
  website_pages := 0;
  includes_website_design := false;
  includes_logo_design := false;
  includes_brand_guide := false;
  includes_company_profile := false;
  includes_letterhead := false;
  includes_page_headers_footers := false;
  includes_business_templates := false;
  included_revisions := 0;
  content_updates_per_month := 0;
  support_level := "standard"%string;
  minimum_term_months := 1;
  price_from := false;
  customer_visible := true;
  featured := false;
  sort_order := 100;
  is_active := true;
  lifecycle_state := "sellable"%string;
  retired_at := None;
  created_at := now;
  updated_at := now
|}.
End BillingPlan.
Notation BillingPlan := BillingPlan.BillingPlan.
#[export] Instance eta_BillingPlan : Eta BillingPlan := fun r =>
  BillingPlan.mk (BillingPlan.id r) (BillingPlan.code r) (BillingPlan.name r) (BillingPlan.currency r) (BillingPlan.monthly_price_minor r) (BillingPlan.annual_price_minor r) (BillingPlan.setup_fee_minor r) (BillingPlan.included_mailboxes r) (BillingPlan.included_domains r) (BillingPlan.included_storage_mb r) (BillingPlan.max_api_keys r) (BillingPlan.allow_metered_overages r) (BillingPlan.overage_mailbox_minor r) (BillingPlan.overage_domain_minor r) (BillingPlan.overage_storage_gb_minor r) (BillingPlan.overage_api_key_minor r) (BillingPlan.overage_hosted_project_minor r) (BillingPlan.overage_hosting_storage_gb_minor r) (BillingPlan.overage_database_minor r) (BillingPlan.overage_database_storage_gb_minor r) (BillingPlan.overage_source_storage_gb_minor r) (BillingPlan.included_hosted_projects r) (BillingPlan.hosting_storage_mb r) (BillingPlan.hosting_memory_mb_per_project r) (BillingPlan.hosting_cpu_millicores_per_project r) (BillingPlan.hosting_pids_per_project r) (BillingPlan.hosting_database_limit r) (BillingPlan.hosting_database_storage_mb r) (BillingPlan.hosting_source_storage_mb r) (BillingPlan.product_category r) (BillingPlan.description r) (BillingPlan.website_pages r) (BillingPlan.includes_website_design r) (BillingPlan.includes_logo_design r) (BillingPlan.includes_brand_guide r) (BillingPlan.includes_company_profile r) (BillingPlan.includes_letterhead r) (BillingPlan.includes_page_headers_footers r) (BillingPlan.includes_business_templates r) (BillingPlan.included_revisions r) (BillingPlan.content_updates_per_month r) (BillingPlan.support_level r) (BillingPlan.minimum_term_months r) (BillingPlan.price_from r) (BillingPlan.customer_visible r) (BillingPlan.featured r) (BillingPlan.sort_order r) (BillingPlan.is_active r) (BillingPlan.lifecycle_state r) (BillingPlan.retired_at r) (BillingPlan.created_at r) (BillingPlan.updated_at r).
#[export] Instance keyed_BillingPlan : Keyed BillingPlan := BillingPlan.id.

(** [billing.py]: [class TenantSubscription], every column. *)
Module TenantSubscription.
Record TenantSubscription : Type := mk {
  id : uuid;
  tenant_id : uuid;
  plan_id : uuid;
  base_plan_id : option uuid;
  pending_plan_id : option uuid;
  pending_plan_effective_at : option time;
  status : SubscriptionStatus;
  current_period_start : time;
  current_period_end : time;
  cancel_at_period_end : bool;
  provider : string;
  provider_customer_id : option string;
  provider_subscription_id : option string;
  past_due_since : option time;
  grace_ends_at : option time;
  created_at : time;
  updated_at : time
}.
(** A row with its column defaults, as the first flush writes it. *)
Definition new_TenantSubscription (new_id : uuid) (now : time) : TenantSubscription := {|
  id := new_id;
  tenant_id := 0;
  plan_id := 0;
  base_plan_id := None;
  pending_plan_id := None;
  pending_plan_effective_at := None;
  status := SubscriptionStatus.trialing;
  current_period_start := 0;
  current_period_end := 0;
  cancel_at_period_end := false;
  provider := "manual"%string;
  provider_customer_id := None;
  provider_subscription_id := None;
  past_due_since := None;
  grace_ends_at := None;
  created_at := now;
  updated_at := now
|}.
End TenantSubscription.
Notation TenantSubscription := TenantSubscription.TenantSubscription.
#[export] Instance eta_TenantSubscription : Eta TenantSubscription := fun r =>
  TenantSubscription.mk (TenantSubscription.id r) (TenantSubscription.tenant_id r) (TenantSubscription.plan_id r) (TenantSubscription.base_plan_id r) (TenantSubscription.pending_plan_id r) (TenantSubscription.pending_plan_effective_at r) (TenantSubscription.status r) (TenantSubscription.current_period_start r) (TenantSubscription.current_period_end r) (TenantSubscription.cancel_at_period_end r) (TenantSubscription.provider r) (TenantSubscription.provider_customer_id r) (TenantSubscription.provider_subscription_id r) (TenantSubscription.past_due_since r) (TenantSubscription.grace_ends_at r) (TenantSubscription.created_at r) (TenantSubscription.updated_at r).
#[export] Instance keyed_TenantSubscription : Keyed TenantSubscription := TenantSubscription.id.

(** [billing.py]: [class UsageSnapshot], every column. *)
Module UsageSnapshot.
Record UsageSnapshot : Type := mk {
  id : uuid;
  tenant_id : uuid;
  mailboxes : Z;
  domains : Z;
  storage_bytes : Z;
  api_keys : Z;
  hosted_projects : Z;
  hosting_storage_bytes : Z;
  hosting_database_count : Z;
  hosting_database_storage_bytes : Z;
  hosting_source_storage_bytes : Z;
  period_start : option time;
  period_end : option time;
  captured_at : time
}.
(** A row with its column defaults, as the first flush writes it. *)
Definition new_UsageSnapshot (new_id : uuid) (now : time) : UsageSnapshot := {|
  id := new_id;
  tenant_id := 0;
  mailboxes := 0;
  domains := 0;
  storage_bytes := 0;
  api_keys := 0;
  hosted_projects := 0;
  hosting_storage_bytes := 0;
  hosting_database_count := 0;
  hosting_database_storage_bytes := 0;
  hosting_source_storage_bytes := 0;
  period_start := None;
  period_end := None;
  captured_at := now
|}.
End UsageSnapshot.
Notation UsageSnapshot := UsageSnapshot.UsageSnapshot.
#[export] Instance eta_UsageSnapshot : Eta UsageSnapshot := fun r =>
  UsageSnapshot.mk (UsageSnapshot.id r) (UsageSnapshot.tenant_id r) (UsageSnapshot.mailboxes r) (UsageSnapshot.domains r) (UsageSnapshot.storage_bytes r) (UsageSnapshot.api_keys r) (UsageSnapshot.hosted_projects r) (UsageSnapshot.hosting_storage_bytes r) (UsageSnapshot.hosting_database_count r) (UsageSnapshot.hosting_database_storage_bytes r) (UsageSnapshot.hosting_source_storage_bytes r) (UsageSnapshot.period_start r) (UsageSnapshot.period_end r) (UsageSnapshot.captured_at r).
#[export] Instance keyed_UsageSnapshot : Keyed UsageSnapshot := UsageSnapshot.id.

(** [billing.py]: [class BillingInvoice], every column. *)
Module BillingInvoice.
Record BillingInvoice : Type := mk {
  id : uuid;
  tenant_id : uuid;
  subscription_id : option uuid;
  usage_snapshot_id : option uuid;
  invoice_number : string;
  currency : string;
  base_amount_minor : Z;
  overage_amount_minor : Z;
  usage_breakdown_json : string;
  subtotal_minor : Z;
  total_minor : Z;
  status : InvoiceStatus;
  period_start : option time;
  period_end : option time;
  due_at : option time;
  paid_at : option time;
  finalized_at : option time;
  provider_invoice_id : option string;
  created_at : time
}.
(** A row with its column defaults, as the first flush writes it. *)
Definition new_BillingInvoice (new_id : uuid) (now : time) : BillingInvoice := {|
  id := new_id;
  tenant_id := 0;
  subscription_id := None;
  usage_snapshot_id := None;
  invoice_number := EmptyString;
  currency := EmptyString;
  base_amount_minor := 0;
  overage_amount_minor := 0;
  usage_breakdown_json := "{}"%string;
  subtotal_minor := 0;
  total_minor := 0;
  status := InvoiceStatus.draft;
  period_start := None;
  period_end := None;
  due_at := None;
  paid_at := None;
  finalized_at := None;
  provider_invoice_id := None;
  created_at := now
|}.
End BillingInvoice.
Notation BillingInvoice := BillingInvoice.BillingInvoice.
#[export] Instance eta_BillingInvoice : Eta BillingInvoice := fun r =>
  BillingInvoice.mk (BillingInvoice.id r) (BillingInvoice.tenant_id r) (BillingInvoice.subscription_id r) (BillingInvoice.usage_snapshot_id r) (BillingInvoice.invoice_number r) (BillingInvoice.currency r) (BillingInvoice.base_amount_minor r) (BillingInvoice.overage_amount_minor r) (BillingInvoice.usage_breakdown_json r) (BillingInvoice.subtotal_minor r) (BillingInvoice.total_minor r) (BillingInvoice.status r) (BillingInvoice.period_start r) (BillingInvoice.period_end r) (BillingInvoice.due_at r) (BillingInvoice.paid_at r) (BillingInvoice.finalized_at r) (BillingInvoice.provider_invoice_id r) (BillingInvoice.created_at r).
#[export] Instance keyed_BillingInvoice : Keyed BillingInvoice := BillingInvoice.id.

(** [billing.py]: [class BillingPaymentEvent], every column. *)
Module BillingPaymentEvent.
Record BillingPaymentEvent : Type := mk {
  id : uuid;
  provider : string;
  event_id : string;
  event_type : string;
  payload_hash : string;
  signature_valid : bool;
  processed : bool;
  tenant_id : option uuid;
  invoice_id : option uuid;
  received_at : time;
  processed_at : option time;
  error_message : option string
}.
(** A row with its column defaults, as the first flush writes it. *)
Definition new_BillingPaymentEvent (new_id : uuid) (now : time) : BillingPaymentEvent := {|
  id := new_id;
  provider := EmptyString;
  event_id := EmptyString;
  event_type := EmptyString;
  payload_hash := EmptyString;
  signature_valid := false;
  processed := false;
  tenant_id := None;
  invoice_id := None;
  received_at := now;
  processed_at := None;
  error_message := None
|}.
End BillingPaymentEvent.
Notation BillingPaymentEvent := BillingPaymentEvent.BillingPaymentEvent.
#[export] Instance eta_BillingPaymentEvent : Eta BillingPaymentEvent := fun r =>
  BillingPaymentEvent.mk (BillingPaymentEvent.id r) (BillingPaymentEvent.provider r) (BillingPaymentEvent.event_id r) (BillingPaymentEvent.event_type r) (BillingPaymentEvent.payload_hash r) (BillingPaymentEvent.signature_valid r) (BillingPaymentEvent.processed r) (BillingPaymentEvent.tenant_id r) (BillingPaymentEvent.invoice_id r) (BillingPaymentEvent.received_at r) (BillingPaymentEvent.processed_at r) (BillingPaymentEvent.error_message r).
#[export] Instance keyed_BillingPaymentEvent : Keyed BillingPaymentEvent := BillingPaymentEvent.id.

(** ** [apps/backend/app/models/catalog_extensions.py] *)

(** [catalog_extensions.py]: [class BillingAddon], every column. *)
Module BillingAddon.
Record BillingAddon : Type := mk {
  id : uuid;
  code : string;
  name : string;
  description : string;
  currency : string;
  monthly_price_minor : Z;
  annual_price_minor : option Z;
  setup_fee_minor : Z;
  resource_key : string;
  amount_per_quantity : Z;
  unit_label : string;
  max_quantity : Z;
  customer_visible : bool;
  is_active : bool;
  sort_order : Z;
  created_at : time;
  updated_at : time
}.
(** A row with its column defaults, as the first flush writes it. *)
Definition new_BillingAddon (new_id : uuid) (now : time) : BillingAddon := {|
  id := new_id;
  code := EmptyString;
  name := EmptyString;
  description := EmptyString;
  currency := "LSL"%string;
  monthly_price_minor := 0;
  annual_price_minor := None;
  setup_fee_minor := 0;
  resource_key := EmptyString;
  amount_per_quantity := 0;
  unit_label := EmptyString;
  max_quantity := 100;
  customer_visible := true;
  is_active := true;
  sort_order := 100;
  created_at := now;
  updated_at := now
|}.
End BillingAddon.
Notation BillingAddon := BillingAddon.BillingAddon.
#[export] Instance eta_BillingAddon : Eta BillingAddon := fun r =>
  BillingAddon.mk (BillingAddon.id r) (BillingAddon.code r) (BillingAddon.name r) (BillingAddon.description r) (BillingAddon.currency r) (BillingAddon.monthly_price_minor r) (BillingAddon.annual_price_minor r) (BillingAddon.setup_fee_minor r) (BillingAddon.resource_key r) (BillingAddon.amount_per_quantity r) (BillingAddon.unit_label r) (BillingAddon.max_quantity r) (BillingAddon.customer_visible r) (BillingAddon.is_active r) (BillingAddon.sort_order r) (BillingAddon.created_at r) (BillingAddon.updated_at r).
#[export] Instance keyed_BillingAddon : Keyed BillingAddon := BillingAddon.id.

(** [catalog_extensions.py]: [class TenantAddon], every column. *)
Module TenantAddon.
Record TenantAddon : Type := mk {
  id : uuid;
  tenant_id : uuid;
  addon_id : uuid;
  quantity : Z;
  status : string;
  requested_by_user_id : option uuid;
  approved_by_user_id : option uuid;
  requested_at : time;
  activated_at : option time;
  canceled_at : option time;
  cancel_at_period_end : bool;
  setup_fee_applied : bool;
  current_period_start : option time;
  current_period_end : option time;
  updated_at : time
}.
(** A row with its column defaults, as the first flush writes it. *)
Definition new_TenantAddon (new_id : uuid) (now : time) : TenantAddon := {|
  id := new_id;
  tenant_id := 0;
  addon_id := 0;
  quantity := 1;
  status := "pending"%string;
  requested_by_user_id := None;
  approved_by_user_id := None;
  requested_at := now;
  activated_at := None;
  canceled_at := None;
  cancel_at_period_end := false;
  setup_fee_applied := false;
  current_period_start := None;
  current_period_end := None;
  updated_at := now
|}.
End TenantAddon.
Notation TenantAddon := TenantAddon.TenantAddon.
#[export] Instance eta_TenantAddon : Eta TenantAddon := fun r =>
  TenantAddon.mk (TenantAddon.id r) (TenantAddon.tenant_id r) (TenantAddon.addon_id r) (TenantAddon.quantity r) (TenantAddon.status r) (TenantAddon.requested_by_user_id r) (TenantAddon.approved_by_user_id r) (TenantAddon.requested_at r) (TenantAddon.activated_at r) (TenantAddon.canceled_at r) (TenantAddon.cancel_at_period_end r) (TenantAddon.setup_fee_applied r) (TenantAddon.current_period_start r) (TenantAddon.current_period_end r) (TenantAddon.updated_at r).
#[export] Instance keyed_TenantAddon : Keyed TenantAddon := TenantAddon.id.

(** ** [apps/backend/app/models/commercial_ops_v2.py] *)

(** [commercial_ops_v2.py]: [class BillingContract], every column. *)
Module BillingContract.
Record BillingContract : Type := mk {
  id : uuid;
  tenant_id : uuid;
  billing_interval : string;
  auto_renew : bool;
  invoice_lead_days : Z;
  grace_days : Z;
  discount_percent : Z;
  credit_balance_minor : Z;
  setup_fee_applied : bool;
  next_invoice_at : option time;
  created_at : time;
  updated_at : time
}.
(** A row with its column defaults, as the first flush writes it. *)
Definition new_BillingContract (new_id : uuid) (now : time) : BillingContract := {|
  id := new_id;
  tenant_id := 0;
  billing_interval := "annual"%string;
  auto_renew := true;
  invoice_lead_days := 14;
  grace_days := 7;
  discount_percent := 0;
  credit_balance_minor := 0;
  setup_fee_applied := false;
  next_invoice_at := None;
  created_at := now;
  updated_at := now
|}.
End BillingContract.
Notation BillingContract := BillingContract.BillingContract.
#[export] Instance eta_BillingContract : Eta BillingContract := fun r =>
  BillingContract.mk (BillingContract.id r) (BillingContract.tenant_id r) (BillingContract.billing_interval r) (BillingContract.auto_renew r) (BillingContract.invoice_lead_days r) (BillingContract.grace_days r) (BillingContract.discount_percent r) (BillingContract.credit_balance_minor r) (BillingContract.setup_fee_applied r) (BillingContract.next_invoice_at r) (BillingContract.created_at r) (BillingContract.updated_at r).
#[export] Instance keyed_BillingContract : Keyed BillingContract := BillingContract.id.

(** ** [apps/backend/app/models/commercial_profitability.py] *)

(** [commercial_profitability.py]: [class InfrastructureCommercialProfile], every column. *)
Module InfrastructureCommercialProfile.
Record InfrastructureCommercialProfile : Type := mk {
  id : uuid;
  server_id : uuid;
  currency : string;
  provider_cost_minor : Z;
  backup_cost_minor : Z;
  bandwidth_cost_minor : Z;
  other_cost_minor : Z;
  total_cpu_millicores : Z;
  total_memory_mb : Z;
  total_storage_mb : Z;
  included_bandwidth_gb : Z;
  target_margin_bps : Z;
  notes : option string;
  created_by_user_id : uuid;
  updated_by_user_id : uuid;
  created_at : time;
  updated_at : time
}.
(** A row with its column defaults, as the first flush writes it. *)
Definition new_InfrastructureCommercialProfile (new_id : uuid) (now : time) : InfrastructureCommercialProfile := {|
  id := new_id;
  server_id := 0;
  currency := "LSL"%string;
  provider_cost_minor := 0;
  backup_cost_minor := 0;
  bandwidth_cost_minor := 0;
  other_cost_minor := 0;
  total_cpu_millicores := 0;
  total_memory_mb := 0;
  total_storage_mb := 0;
  included_bandwidth_gb := 0;
  target_margin_bps := 3000;
  notes := None;
  created_by_user_id := 0;
  updated_by_user_id := 0;
  created_at := now;
  updated_at := now
|}.
End InfrastructureCommercialProfile.
Notation InfrastructureCommercialProfile := InfrastructureCommercialProfile.InfrastructureCommercialProfile.
#[export] Instance eta_InfrastructureCommercialProfile : Eta InfrastructureCommercialProfile := fun r =>
  InfrastructureCommercialProfile.mk (InfrastructureCommercialProfile.id r) (InfrastructureCommercialProfile.server_id r) (InfrastructureCommercialProfile.currency r) (InfrastructureCommercialProfile.provider_cost_minor r) (InfrastructureCommercialProfile.backup_cost_minor r) (InfrastructureCommercialProfile.bandwidth_cost_minor r) (InfrastructureCommercialProfile.other_cost_minor r) (InfrastructureCommercialProfile.total_cpu_millicores r) (InfrastructureCommercialProfile.total_memory_mb r) (InfrastructureCommercialProfile.total_storage_mb r) (InfrastructureCommercialProfile.included_bandwidth_gb r) (InfrastructureCommercialProfile.target_margin_bps r) (InfrastructureCommercialProfile.notes r) (InfrastructureCommercialProfile.created_by_user_id r) (InfrastructureCommercialProfile.updated_by_user_id r) (InfrastructureCommercialProfile.created_at r) (InfrastructureCommercialProfile.updated_at r).
#[export] Instance keyed_InfrastructureCommercialProfile : Keyed InfrastructureCommercialProfile := InfrastructureCommercialProfile.id.

(** [commercial_profitability.py]: [class TenantInfrastructureAllocation], every column. *)
Module TenantInfrastructureAllocation.
Record TenantInfrastructureAllocation : Type := mk {
  id : uuid;
  tenant_id : uuid;
  server_id : uuid;
  allocation_weight : Z;
  cpu_millicores : Z;
  memory_mb : Z;
  storage_mb : Z;
  bandwidth_gb : Z;
  active : bool;
  source : string;
  notes : option string;
  created_by_user_id : uuid;
  updated_by_user_id : uuid;
  created_at : time;
  updated_at : time
}.
(** A row with its column defaults, as the first flush writes it. *)
Definition new_TenantInfrastructureAllocation (new_id : uuid) (now : time) : TenantInfrastructureAllocation := {|
  id := new_id;
  tenant_id := 0;
  server_id := 0;
  allocation_weight := 1;
  cpu_millicores := 0;
  memory_mb := 0;
  storage_mb := 0;
  bandwidth_gb := 0;
  active := true;
  source := "manual"%string;
  notes := None;
  created_by_user_id := 0;
  updated_by_user_id := 0;
  created_at := now;
  updated_at := now
|}.
End TenantInfrastructureAllocation.
Notation TenantInfrastructureAllocation := TenantInfrastructureAllocation.TenantInfrastructureAllocation.
#[export] Instance eta_TenantInfrastructureAllocation : Eta TenantInfrastructureAllocation := fun r =>
  TenantInfrastructureAllocation.mk (TenantInfrastructureAllocation.id r) (TenantInfrastructureAllocation.tenant_id r) (TenantInfrastructureAllocation.server_id r) (TenantInfrastructureAllocation.allocation_weight r) (TenantInfrastructureAllocation.cpu_millicores r) (TenantInfrastructureAllocation.memory_mb r) (TenantInfrastructureAllocation.storage_mb r) (TenantInfrastructureAllocation.bandwidth_gb r) (TenantInfrastructureAllocation.active r) (TenantInfrastructureAllocation.source r) (TenantInfrastructureAllocation.notes r) (TenantInfrastructureAllocation.created_by_user_id r) (TenantInfrastructureAllocation.updated_by_user_id r) (TenantInfrastructureAllocation.created_at r) (TenantInfrastructureAllocation.updated_at r).
#[export] Instance keyed_TenantInfrastructureAllocation : Keyed TenantInfrastructureAllocation := TenantInfrastructureAllocation.id.

(** ** [apps/backend/app/models/entities.py] *)

(** [entities.py]: [class ApiKey], every column. *)
Module ApiKey.
Record ApiKey : Type := mk {
  id : uuid;
  tenant_id : option uuid;
  owner_user_id : uuid;
  name : string;
  prefix : string;
  key_hash : string;
  scopes : string;
  expires_at : option time;
  revoked_at : option time;
  created_at : time
}.
(** A row with its column defaults, as the first flush writes it. *)
Definition new_ApiKey (new_id : uuid) (now : time) : ApiKey := {|
  id := new_id;
  tenant_id := None;
  owner_user_id := 0;
  name := EmptyString;
  prefix := EmptyString;
  key_hash := EmptyString;
  scopes := "[]"%string;
  expires_at := None;
  revoked_at := None;
  created_at := now
|}.
End ApiKey.
Notation ApiKey := ApiKey.ApiKey.
#[export] Instance eta_ApiKey : Eta ApiKey := fun r =>
  ApiKey.mk (ApiKey.id r) (ApiKey.tenant_id r) (ApiKey.owner_user_id r) (ApiKey.name r) (ApiKey.prefix r) (ApiKey.key_hash r) (ApiKey.scopes r) (ApiKey.expires_at r) (ApiKey.revoked_at r) (ApiKey.created_at r).
#[export] Instance keyed_ApiKey : Keyed ApiKey := ApiKey.id.

(** [entities.py]: [class AuditLog], every column. *)
Module AuditLog.
Record AuditLog : Type := mk {
  id : uuid;
  tenant_id : option uuid;
  actor_user_id : option uuid;
  action : string;
  resource_type : string;
  resource_id : option string;
  metadata_json : option string;
  created_at : time
}.
(** A row with its column defaults, as the first flush writes it. *)
Definition new_AuditLog (new_id : uuid) (now : time) : AuditLog := {|
  id := new_id;
  tenant_id := None;
  actor_user_id := None;
  action := EmptyString;
  resource_type := EmptyString;
  resource_id := None;
  metadata_json := None;
  created_at := now
|}.
End AuditLog.
Notation AuditLog := AuditLog.AuditLog.
#[export] Instance eta_AuditLog : Eta AuditLog := fun r =>
  AuditLog.mk (AuditLog.id r) (AuditLog.tenant_id r) (AuditLog.actor_user_id r) (AuditLog.action r) (AuditLog.resource_type r) (AuditLog.resource_id r) (AuditLog.metadata_json r) (AuditLog.created_at r).
#[export] Instance keyed_AuditLog : Keyed AuditLog := AuditLog.id.

(** ** [apps/backend/app/models/mail.py] *)

Module MailboxStatus.
Inductive MailboxStatus : Type :=
| active
| suspended
| archived.

#[export] Instance MailboxStatus_eq_dec : EqDecision MailboxStatus.
Proof. solve_decision. Defined.

Definition value_MailboxStatus (x : MailboxStatus) : string :=
  match x with
  | active => "active"
  | suspended => "suspended"
  | archived => "archived"
  end.
End MailboxStatus.
Export (hints) MailboxStatus.
Notation MailboxStatus := MailboxStatus.MailboxStatus.

Module MailboxStorageType.
Inductive MailboxStorageType : Type :=
| internal
| external.

#[export] Instance MailboxStorageType_eq_dec : EqDecision MailboxStorageType.
Proof. solve_decision. Defined.

Definition value_MailboxStorageType (x : MailboxStorageType) : string :=
  match x with
  | internal => "internal"
  | external => "external"
  end.
End MailboxStorageType.
Export (hints) MailboxStorageType.
Notation MailboxStorageType := MailboxStorageType.MailboxStorageType.

(** [mail.py]: [class Mailbox], every column. *)
Module Mailbox.
Record Mailbox : Type := mk {
  id : uuid;
  tenant_id : uuid;
  domain_id : uuid;
  local_part : string;
  address : string;
  display_name : option string;
  password_hash : string;
  quota_bytes : Z;
  storage_type : MailboxStorageType;
  mail_node_id : option uuid;
  storage_path : option string;
  status : MailboxStatus;
  created_by_user_id : uuid;
  password_changed_at : time;
  created_at : time;
  updated_at : time
}.
(** A row with its column defaults, as the first flush writes it. *)
Definition new_Mailbox (new_id : uuid) (now : time) : Mailbox := {|
  id := new_id;
  tenant_id := 0;
  domain_id := 0;
  local_part := EmptyString;
  address := EmptyString;
  display_name := None;
  password_hash := EmptyString;
  quota_bytes := 5368709120;
  storage_type := MailboxStorageType.internal;
  mail_node_id := None;
  storage_path := None;
  status := MailboxStatus.active;
  created_by_user_id := 0;
  password_changed_at := now;
  created_at := now;
  updated_at := now
|}.
End Mailbox.
Notation Mailbox := Mailbox.Mailbox.
#[export] Instance eta_Mailbox : Eta Mailbox := fun r =>
  Mailbox.mk (Mailbox.id r) (Mailbox.tenant_id r) (Mailbox.domain_id r) (Mailbox.local_part r) (Mailbox.address r) (Mailbox.display_name r) (Mailbox.password_hash r) (Mailbox.quota_bytes r) (Mailbox.storage_type r) (Mailbox.mail_node_id r) (Mailbox.storage_path r) (Mailbox.status r) (Mailbox.created_by_user_id r) (Mailbox.password_changed_at r) (Mailbox.created_at r) (Mailbox.updated_at r).
#[export] Instance keyed_Mailbox : Keyed Mailbox := Mailbox.id.

(** ** [apps/backend/app/models/domains.py] *)

Module DomainStatus.
Inductive DomainStatus : Type :=
| pending_verification
| verified
| suspended
| archived.

#[export] Instance DomainStatus_eq_dec : EqDecision DomainStatus.
Proof. solve_decision. Defined.

Definition value_DomainStatus (x : DomainStatus) : string :=
  match x with
  | pending_verification => "pending_verification"
  | verified => "verified"
  | suspended => "suspended"
  | archived => "archived"
  end.
End DomainStatus.
Export (hints) DomainStatus.
Notation DomainStatus := DomainStatus.DomainStatus.

Module DomainDnsMode.
Inductive DomainDnsMode : Type :=
| external
| platform.

#[export] Instance DomainDnsMode_eq_dec : EqDecision DomainDnsMode.
Proof. solve_decision. Defined.

Definition value_DomainDnsMode (x : DomainDnsMode) : string :=
  match x with
  | external => "external"
  | platform => "platform"
  end.
End DomainDnsMode.
Export (hints) DomainDnsMode.
Notation DomainDnsMode := DomainDnsMode.DomainDnsMode.

Module DomainVerificationMethod.
Inductive DomainVerificationMethod : Type :=
| txt
| nameserver.

#[export] Instance DomainVerificationMethod_eq_dec : EqDecision DomainVerificationMethod.
Proof. solve_decision. Defined.

Definition value_DomainVerificationMethod (x : DomainVerificationMethod) : string :=
  match x with
  | txt => "txt"
  | nameserver => "nameserver"
  end.
End DomainVerificationMethod.
Export (hints) DomainVerificationMethod.
Notation DomainVerificationMethod := DomainVerificationMethod.DomainVerificationMethod.

(** [domains.py]: [class Domain], every column. *)
Module Domain.
Record Domain : Type := mk {
  id : uuid;
  tenant_id : uuid;
  ascii_name : string;
  unicode_name : string;
  status : DomainStatus;
  dns_mode : DomainDnsMode;
  mail_enabled : bool;
  notes : option string;
  verification_method : string;
  verification_token_hash : string;
  verification_token_hint : string;
  verification_record_name : string;
  ownership_verified_at : option time;
  created_by_user_id : uuid;
  created_at : time;
  updated_at : time
}.
(** A row with its column defaults, as the first flush writes it. *)
Definition new_Domain (new_id : uuid) (now : time) : Domain := {|
  id := new_id;
  tenant_id := 0;
  ascii_name := EmptyString;
  unicode_name := EmptyString;
  status := DomainStatus.pending_verification;
  dns_mode := DomainDnsMode.platform;
  mail_enabled := true;
  notes := None;
  verification_method := (DomainVerificationMethod.value_DomainVerificationMethod DomainVerificationMethod.txt);
  verification_token_hash := EmptyString;
  verification_token_hint := EmptyString;
  verification_record_name := EmptyString;
  ownership_verified_at := None;
  created_by_user_id := 0;
  created_at := now;
  updated_at := now
|}.
End Domain.
Notation Domain := Domain.Domain.
#[export] Instance eta_Domain : Eta Domain := fun r =>
  Domain.mk (Domain.id r) (Domain.tenant_id r) (Domain.ascii_name r) (Domain.unicode_name r) (Domain.status r) (Domain.dns_mode r) (Domain.mail_enabled r) (Domain.notes r) (Domain.verification_method r) (Domain.verification_token_hash r) (Domain.verification_token_hint r) (Domain.verification_record_name r) (Domain.ownership_verified_at r) (Domain.created_by_user_id r) (Domain.created_at r) (Domain.updated_at r).
#[export] Instance keyed_Domain : Keyed Domain := Domain.id.

(** ** [apps/backend/app/models/hosting.py] *)

(** [hosting.py]: [class HostingNode], every column. *)
Module HostingNode.
Record HostingNode : Type := mk {
  id : uuid;
  name : string;
  hostname : string;
  public_ip : option string;
  allocatable_storage_mb : Z;
  allocatable_memory_mb : Z;
  allocatable_cpu_millicores : Z;
  status : string;
  accepts_new_projects : bool;
  created_by_user_id : uuid;
  created_at : time;
  updated_at : time
}.
(** A row with its column defaults, as the first flush writes it. *)
Definition new_HostingNode (new_id : uuid) (now : time) : HostingNode := {|
  id := new_id;
  name := EmptyString;
  hostname := EmptyString;
  public_ip := None;
  allocatable_storage_mb := 0;
  allocatable_memory_mb := 0;
  allocatable_cpu_millicores := 0;
  status := "active"%string;
  accepts_new_projects := true;
  created_by_user_id := 0;
  created_at := now;
  updated_at := now
|}.
End HostingNode.
Notation HostingNode := HostingNode.HostingNode.
#[export] Instance eta_HostingNode : Eta HostingNode := fun r =>
  HostingNode.mk (HostingNode.id r) (HostingNode.name r) (HostingNode.hostname r) (HostingNode.public_ip r) (HostingNode.allocatable_storage_mb r) (HostingNode.allocatable_memory_mb r) (HostingNode.allocatable_cpu_millicores r) (HostingNode.status r) (HostingNode.accepts_new_projects r) (HostingNode.created_by_user_id r) (HostingNode.created_at r) (HostingNode.updated_at r).
#[export] Instance keyed_HostingNode : Keyed HostingNode := HostingNode.id.

(** [hosting.py]: [class HostingProject], every column. *)
Module HostingProject.
Record HostingProject : Type := mk {
  id : uuid;
  tenant_id : uuid;
  node_id : option uuid;
  domain_id : option uuid;
  name : string;
  slug : string;
  hostname : option string;
  runtime : string;
  source_repository : option string;
  source_branch : string;
  build_command : option string;
  start_command : option string;
  image_ref : option string;
  container_port : Z;
  health_path : string;
  storage_mb : Z;
  memory_mb : Z;
  cpu_millicores : Z;
  pid_limit : Z;
  status : string;
  failover_policy : string;
  rules_version : string;
  rules_accepted_at : time;
  rules_accepted_by_user_id : uuid;
  created_by_user_id : uuid;
  created_at : time;
  updated_at : time
}.
(** A row with its column defaults, as the first flush writes it. *)
Definition new_HostingProject (new_id : uuid) (now : time) : HostingProject := {|
  id := new_id;
  tenant_id := 0;
  node_id := None;
  domain_id := None;
  name := EmptyString;
  slug := EmptyString;
  hostname := None;
  runtime := EmptyString;
  source_repository := None;
  source_branch := "main"%string;
  build_command := None;
  start_command := None;
  image_ref := None;
  container_port := 8080;
  health_path := "/"%string;
  storage_mb := 0;
  memory_mb := 0;
  cpu_millicores := 0;
  pid_limit := 0;
  status := "configured"%string;
  failover_policy := "manual"%string;
  rules_version := "2026-09-13"%string;
  rules_accepted_at := 0;
  rules_accepted_by_user_id := 0;
  created_by_user_id := 0;
  created_at := now;
  updated_at := now
|}.
End HostingProject.
Notation HostingProject := HostingProject.HostingProject.
#[export] Instance eta_HostingProject : Eta HostingProject := fun r =>
  HostingProject.mk (HostingProject.id r) (HostingProject.tenant_id r) (HostingProject.node_id r) (HostingProject.domain_id r) (HostingProject.name r) (HostingProject.slug r) (HostingProject.hostname r) (HostingProject.runtime r) (HostingProject.source_repository r) (HostingProject.source_branch r) (HostingProject.build_command r) (HostingProject.start_command r) (HostingProject.image_ref r) (HostingProject.container_port r) (HostingProject.health_path r) (HostingProject.storage_mb r) (HostingProject.memory_mb r) (HostingProject.cpu_millicores r) (HostingProject.pid_limit r) (HostingProject.status r) (HostingProject.failover_policy r) (HostingProject.rules_version r) (HostingProject.rules_accepted_at r) (HostingProject.rules_accepted_by_user_id r) (HostingProject.created_by_user_id r) (HostingProject.created_at r) (HostingProject.updated_at r).
#[export] Instance keyed_HostingProject : Keyed HostingProject := HostingProject.id.

(** [hosting.py]: [class HostingResourceReservation], every column. *)
Module HostingResourceReservation.
Record HostingResourceReservation : Type := mk {
  id : uuid;
  node_id : uuid;
  project_id : option uuid;
  purpose : string;
  cpu_millicores : Z;
  memory_mb : Z;
  storage_mb : Z;
  status : string;
  expires_at : time;
  released_at : option time;
  created_by_user_id : uuid;
  created_at : time
}.
(** A row with its column defaults, as the first flush writes it. *)
Definition new_HostingResourceReservation (new_id : uuid) (now : time) : HostingResourceReservation := {|
  id := new_id;
  node_id := 0;
  project_id := None;
  purpose := "placement"%string;
  cpu_millicores := 0;
  memory_mb := 0;
  storage_mb := 0;
  status := "active"%string;
  expires_at := 0;
  released_at := None;
  created_by_user_id := 0;
  created_at := now
|}.
End HostingResourceReservation.
Notation HostingResourceReservation := HostingResourceReservation.HostingResourceReservation.
#[export] Instance eta_HostingResourceReservation : Eta HostingResourceReservation := fun r =>
  HostingResourceReservation.mk (HostingResourceReservation.id r) (HostingResourceReservation.node_id r) (HostingResourceReservation.project_id r) (HostingResourceReservation.purpose r) (HostingResourceReservation.cpu_millicores r) (HostingResourceReservation.memory_mb r) (HostingResourceReservation.storage_mb r) (HostingResourceReservation.status r) (HostingResourceReservation.expires_at r) (HostingResourceReservation.released_at r) (HostingResourceReservation.created_by_user_id r) (HostingResourceReservation.created_at r).
#[export] Instance keyed_HostingResourceReservation : Keyed HostingResourceReservation := HostingResourceReservation.id.

(** ** [apps/backend/app/models/hosting_operations.py] *)

(** [hosting_operations.py]: [class HostingNodeAgent], every column. *)
Module HostingNodeAgent.
Record HostingNodeAgent : Type := mk {
  node_id : uuid;
  token_hash : string;
  token_hint : string;
  agent_version : option string;
  last_seen_at : option time;
  origin_bind_ip : option string;
  rotated_at : time;
  rotated_by_user_id : uuid
}.
(** A row with its column defaults, as the first flush writes it. *)
Definition new_HostingNodeAgent (new_id : uuid) (now : time) : HostingNodeAgent := {|
  node_id := new_id;
  token_hash := EmptyString;
  token_hint := EmptyString;
  agent_version := None;
  last_seen_at := None;
  origin_bind_ip := None;
  rotated_at := 0;
  rotated_by_user_id := 0
|}.
End HostingNodeAgent.
Notation HostingNodeAgent := HostingNodeAgent.HostingNodeAgent.
#[export] Instance eta_HostingNodeAgent : Eta HostingNodeAgent := fun r =>
  HostingNodeAgent.mk (HostingNodeAgent.node_id r) (HostingNodeAgent.token_hash r) (HostingNodeAgent.token_hint r) (HostingNodeAgent.agent_version r) (HostingNodeAgent.last_seen_at r) (HostingNodeAgent.origin_bind_ip r) (HostingNodeAgent.rotated_at r) (HostingNodeAgent.rotated_by_user_id r).
#[export] Instance keyed_HostingNodeAgent : Keyed HostingNodeAgent := HostingNodeAgent.node_id.

(** [hosting_operations.py]: [class HostingDeployment], every column. *)
Module HostingDeployment.
Record HostingDeployment : Type := mk {
  id : uuid;
  tenant_id : uuid;
  project_id : uuid;
  node_id : option uuid;
  previous_deployment_id : option uuid;
  release_number : Z;
  image_ref : string;
  image_digest : string;
  source_commit : option string;
  reset_data_volume : bool;
  runtime_manifest_version : string;
  status : string;
  failure_message : option string;
  requested_by_user_id : uuid;
  created_at : time;
  claimed_at : option time;
  started_at : option time;
  completed_at : option time;
  last_health_at : option time;
  origin_url : option string;
  origin_reported_at : option time
}.
(** A row with its column defaults, as the first flush writes it. *)
Definition new_HostingDeployment (new_id : uuid) (now : time) : HostingDeployment := {|
  id := new_id;
  tenant_id := 0;
  project_id := 0;
  node_id := None;
  previous_deployment_id := None;
  release_number := 0;
  image_ref := EmptyString;
  image_digest := EmptyString;
  source_commit := None;
  reset_data_volume := false;
  runtime_manifest_version := "1"%string;
  status := "queued"%string;
  failure_message := None;
  requested_by_user_id := 0;
  created_at := now;
  claimed_at := None;
  started_at := None;
  completed_at := None;
  last_health_at := None;
  origin_url := None;
  origin_reported_at := None
|}.
End HostingDeployment.
Notation HostingDeployment := HostingDeployment.HostingDeployment.
#[export] Instance eta_HostingDeployment : Eta HostingDeployment := fun r =>
  HostingDeployment.mk (HostingDeployment.id r) (HostingDeployment.tenant_id r) (HostingDeployment.project_id r) (HostingDeployment.node_id r) (HostingDeployment.previous_deployment_id r) (HostingDeployment.release_number r) (HostingDeployment.image_ref r) (HostingDeployment.image_digest r) (HostingDeployment.source_commit r) (HostingDeployment.reset_data_volume r) (HostingDeployment.runtime_manifest_version r) (HostingDeployment.status r) (HostingDeployment.failure_message r) (HostingDeployment.requested_by_user_id r) (HostingDeployment.created_at r) (HostingDeployment.claimed_at r) (HostingDeployment.started_at r) (HostingDeployment.completed_at r) (HostingDeployment.last_health_at r) (HostingDeployment.origin_url r) (HostingDeployment.origin_reported_at r).
#[export] Instance keyed_HostingDeployment : Keyed HostingDeployment := HostingDeployment.id.

(** [hosting_operations.py]: [class HostingProjectOperation], every column. *)
Module HostingProjectOperation.
Record HostingProjectOperation : Type := mk {
  id : uuid;
  tenant_id : uuid;
  project_id : uuid;
  node_id : uuid;
  operation : string;
  status : string;
  requested_lines : option Z;
  output_text : option string;
  failure_message : option string;
  requested_by_user_id : uuid;
  created_at : time;
  claimed_at : option time;
  completed_at : option time
}.
(** A row with its column defaults, as the first flush writes it. *)
Definition new_HostingProjectOperation (new_id : uuid) (now : time) : HostingProjectOperation := {|
  id := new_id;
  tenant_id := 0;
  project_id := 0;
  node_id := 0;
  operation := EmptyString;
  status := "queued"%string;
  requested_lines := None;
  output_text := None;
  failure_message := None;
  requested_by_user_id := 0;
  created_at := now;
  claimed_at := None;
  completed_at := None
|}.
End HostingProjectOperation.
Notation HostingProjectOperation := HostingProjectOperation.HostingProjectOperation.
#[export] Instance eta_HostingProjectOperation : Eta HostingProjectOperation := fun r =>
  HostingProjectOperation.mk (HostingProjectOperation.id r) (HostingProjectOperation.tenant_id r) (HostingProjectOperation.project_id r) (HostingProjectOperation.node_id r) (HostingProjectOperation.operation r) (HostingProjectOperation.status r) (HostingProjectOperation.requested_lines r) (HostingProjectOperation.output_text r) (HostingProjectOperation.failure_message r) (HostingProjectOperation.requested_by_user_id r) (HostingProjectOperation.created_at r) (HostingProjectOperation.claimed_at r) (HostingProjectOperation.completed_at r).
#[export] Instance keyed_HostingProjectOperation : Keyed HostingProjectOperation := HostingProjectOperation.id.

(** [hosting_operations.py]: [class HostingNodeHealthState], every column. *)
Module HostingNodeHealthState.
Record HostingNodeHealthState : Type := mk {
  node_id : uuid;
  automation_enabled : bool;
  health_status : string;
  healthy_since : option time;
  unhealthy_since : option time;
  last_evaluated_at : option time;
  last_transition_at : option time;
  last_transition : option string;
  last_reason : option string
}.
(** A row with its column defaults, as the first flush writes it. *)
Definition new_HostingNodeHealthState (new_id : uuid) (now : time) : HostingNodeHealthState := {|
  node_id := new_id;
  automation_enabled := true;
  health_status := "unknown"%string;
  healthy_since := None;
  unhealthy_since := None;
  last_evaluated_at := None;
  last_transition_at := None;
  last_transition := None;
  last_reason := None
|}.
End HostingNodeHealthState.
Notation HostingNodeHealthState := HostingNodeHealthState.HostingNodeHealthState.
#[export] Instance eta_HostingNodeHealthState : Eta HostingNodeHealthState := fun r =>
  HostingNodeHealthState.mk (HostingNodeHealthState.node_id r) (HostingNodeHealthState.automation_enabled r) (HostingNodeHealthState.health_status r) (HostingNodeHealthState.healthy_since r) (HostingNodeHealthState.unhealthy_since r) (HostingNodeHealthState.last_evaluated_at r) (HostingNodeHealthState.last_transition_at r) (HostingNodeHealthState.last_transition r) (HostingNodeHealthState.last_reason r).
#[export] Instance keyed_HostingNodeHealthState : Keyed HostingNodeHealthState := HostingNodeHealthState.node_id.

(** [hosting_operations.py]: [class HostingFailoverAttempt], every column. *)
Module HostingFailoverAttempt.
Record HostingFailoverAttempt : Type := mk {
  id : uuid;
  project_id : uuid;
  source_node_id : uuid;
  target_node_id : option uuid;
  deployment_id : option uuid;
  status : string;
  reason : option string;
  edge_status : option string;
  created_at : time;
  started_at : option time;
  completed_at : option time;
  updated_at : time
}.
(** A row with its column defaults, as the first flush writes it. *)
Definition new_HostingFailoverAttempt (new_id : uuid) (now : time) : HostingFailoverAttempt := {|
  id := new_id;
  project_id := 0;
  source_node_id := 0;
  target_node_id := None;
  deployment_id := None;
  status := "pending"%string;
  reason := None;
  edge_status := None;
  created_at := now;
  started_at := None;
  completed_at := None;
  updated_at := now
|}.
End HostingFailoverAttempt.
Notation HostingFailoverAttempt := HostingFailoverAttempt.HostingFailoverAttempt.
#[export] Instance eta_HostingFailoverAttempt : Eta HostingFailoverAttempt := fun r =>
  HostingFailoverAttempt.mk (HostingFailoverAttempt.id r) (HostingFailoverAttempt.project_id r) (HostingFailoverAttempt.source_node_id r) (HostingFailoverAttempt.target_node_id r) (HostingFailoverAttempt.deployment_id r) (HostingFailoverAttempt.status r) (HostingFailoverAttempt.reason r) (HostingFailoverAttempt.edge_status r) (HostingFailoverAttempt.created_at r) (HostingFailoverAttempt.started_at r) (HostingFailoverAttempt.completed_at r) (HostingFailoverAttempt.updated_at r).
#[export] Instance keyed_HostingFailoverAttempt : Keyed HostingFailoverAttempt := HostingFailoverAttempt.id.

(** ** [apps/backend/app/models/shared_hosting.py] *)

(** [shared_hosting.py]: [class HostingDatabase], every column. *)
Module HostingDatabase.
Record HostingDatabase : Type := mk {
  id : uuid;
  tenant_id : uuid;
  project_id : option uuid;
  node_id : option uuid;
  engine : string;
  engine_version : option string;
  database_name : string;
  username : string;
  encrypted_password : string;
  pending_encrypted_password : option string;
  internal_host : option string;
  internal_port : Z;
  storage_mb : Z;
  status : string;
  operation : string;
  claimed_at : option time;
  completed_at : option time;
  failure_message : option string;
  created_by_user_id : uuid;
  created_at : time;
  updated_at : time
}.
(** A row with its column defaults, as the first flush writes it. *)
Definition new_HostingDatabase (new_id : uuid) (now : time) : HostingDatabase := {|
  id := new_id;
  tenant_id := 0;
  project_id := None;
  node_id := None;
  engine := EmptyString;
  engine_version := None;
  database_name := EmptyString;
  username := EmptyString;
  encrypted_password := EmptyString;
  pending_encrypted_password := None;
  internal_host := None;
  internal_port := 0;
  storage_mb := 1024;
  status := "queued"%string;
  operation := "provision"%string;
  claimed_at := None;
  completed_at := None;
  failure_message := None;
  created_by_user_id := 0;
  created_at := now;
  updated_at := now
|}.
End HostingDatabase.
Notation HostingDatabase := HostingDatabase.HostingDatabase.
#[export] Instance eta_HostingDatabase : Eta HostingDatabase := fun r =>
  HostingDatabase.mk (HostingDatabase.id r) (HostingDatabase.tenant_id r) (HostingDatabase.project_id r) (HostingDatabase.node_id r) (HostingDatabase.engine r) (HostingDatabase.engine_version r) (HostingDatabase.database_name r) (HostingDatabase.username r) (HostingDatabase.encrypted_password r) (HostingDatabase.pending_encrypted_password r) (HostingDatabase.internal_host r) (HostingDatabase.internal_port r) (HostingDatabase.storage_mb r) (HostingDatabase.status r) (HostingDatabase.operation r) (HostingDatabase.claimed_at r) (HostingDatabase.completed_at r) (HostingDatabase.failure_message r) (HostingDatabase.created_by_user_id r) (HostingDatabase.created_at r) (HostingDatabase.updated_at r).
#[export] Instance keyed_HostingDatabase : Keyed HostingDatabase := HostingDatabase.id.

(** [shared_hosting.py]: [class HostingSource], every column. *)
Module HostingSource.
Record HostingSource : Type := mk {
  id : uuid;
  tenant_id : uuid;
  project_id : option uuid;
  credential_id : option uuid;
  source_type : string;
  repository_url : option string;
  repository_branch : option string;
  repository_commit : option string;
  upload_object_key : option string;
  upload_token_hash : option string;
  upload_expires_at : option time;
  original_filename : option string;
  sha256 : option string;
  size_bytes : option Z;
  unpacked_size_bytes : option Z;
  file_count : option Z;
  verified_at : option time;
  status : string;
  failure_message : option string;
  created_by_user_id : uuid;
  created_at : time;
  updated_at : time
}.
(** A row with its column defaults, as the first flush writes it. *)
Definition new_HostingSource (new_id : uuid) (now : time) : HostingSource := {|
  id := new_id;
  tenant_id := 0;
  project_id := None;
  credential_id := None;
  source_type := EmptyString;
  repository_url := None;
  repository_branch := None;
  repository_commit := None;
  upload_object_key := None;
  upload_token_hash := None;
  upload_expires_at := None;
  original_filename := None;
  sha256 := None;
  size_bytes := None;
  unpacked_size_bytes := None;
  file_count := None;
  verified_at := None;
  status := "registered"%string;
  failure_message := None;
  created_by_user_id := 0;
  created_at := now;
  updated_at := now
|}.
End HostingSource.
Notation HostingSource := HostingSource.HostingSource.
#[export] Instance eta_HostingSource : Eta HostingSource := fun r =>
  HostingSource.mk (HostingSource.id r) (HostingSource.tenant_id r) (HostingSource.project_id r) (HostingSource.credential_id r) (HostingSource.source_type r) (HostingSource.repository_url r) (HostingSource.repository_branch r) (HostingSource.repository_commit r) (HostingSource.upload_object_key r) (HostingSource.upload_token_hash r) (HostingSource.upload_expires_at r) (HostingSource.original_filename r) (HostingSource.sha256 r) (HostingSource.size_bytes r) (HostingSource.unpacked_size_bytes r) (HostingSource.file_count r) (HostingSource.verified_at r) (HostingSource.status r) (HostingSource.failure_message r) (HostingSource.created_by_user_id r) (HostingSource.created_at r) (HostingSource.updated_at r).
#[export] Instance keyed_HostingSource : Keyed HostingSource := HostingSource.id.

(** ** [apps/backend/app/models/infrastructure.py] *)

(** [infrastructure.py]: [class InfrastructureServer], every column. *)
Module InfrastructureServer.
Record InfrastructureServer : Type := mk {
  id : uuid;
  name : string;
  hostname : string;
  public_ip : option string;
  region : string;
  provider : option string;
  roles_json : string;
  status : string;
  notes : option string;
  cpu_alert_percent : Z;
  memory_alert_percent : Z;
  disk_alert_percent : Z;
  offline_alert_minutes : Z;
  mail_node_id : option uuid;
  hosting_node_id : option uuid;
  created_by_user_id : uuid;
  created_at : time;
  updated_at : time
}.
(** A row with its column defaults, as the first flush writes it. *)
Definition new_InfrastructureServer (new_id : uuid) (now : time) : InfrastructureServer := {|
  id := new_id;
  name := EmptyString;
  hostname := EmptyString;
  public_ip := None;
  region := "lesotho"%string;
  provider := None;
  roles_json := (String.concat dq ["["%string; "application"%string; "]"%string]);
  status := "active"%string;
  notes := None;
  cpu_alert_percent := 90;
  memory_alert_percent := 90;
  disk_alert_percent := 85;
  offline_alert_minutes := 5;
  mail_node_id := None;
  hosting_node_id := None;
  created_by_user_id := 0;
  created_at := now;
  updated_at := now
|}.
End InfrastructureServer.
Notation InfrastructureServer := InfrastructureServer.InfrastructureServer.
#[export] Instance eta_InfrastructureServer : Eta InfrastructureServer := fun r =>
  InfrastructureServer.mk (InfrastructureServer.id r) (InfrastructureServer.name r) (InfrastructureServer.hostname r) (InfrastructureServer.public_ip r) (InfrastructureServer.region r) (InfrastructureServer.provider r) (InfrastructureServer.roles_json r) (InfrastructureServer.status r) (InfrastructureServer.notes r) (InfrastructureServer.cpu_alert_percent r) (InfrastructureServer.memory_alert_percent r) (InfrastructureServer.disk_alert_percent r) (InfrastructureServer.offline_alert_minutes r) (InfrastructureServer.mail_node_id r) (InfrastructureServer.hosting_node_id r) (InfrastructureServer.created_by_user_id r) (InfrastructureServer.created_at r) (InfrastructureServer.updated_at r).
#[export] Instance keyed_InfrastructureServer : Keyed InfrastructureServer := InfrastructureServer.id.

(** [infrastructure.py]: [class InfrastructureServerAgent], every column. *)
Module InfrastructureServerAgent.
Record InfrastructureServerAgent : Type := mk {
  server_id : uuid;
  token_hash : string;
  token_hint : string;
  agent_version : option string;
  last_seen_at : option time;
  os_name : option string;
  kernel_version : option string;
  uptime_seconds : option Z;
  telemetry_json : string;
  capabilities_json : string;
  rotated_at : time;
  rotated_by_user_id : uuid
}.
(** A row with its column defaults, as the first flush writes it. *)
Definition new_InfrastructureServerAgent (new_id : uuid) (now : time) : InfrastructureServerAgent := {|
  server_id := new_id;
  token_hash := EmptyString;
  token_hint := EmptyString;
  agent_version := None;
  last_seen_at := None;
  os_name := None;
  kernel_version := None;
  uptime_seconds := None;
  telemetry_json := "{}"%string;
  capabilities_json := "{}"%string;
  rotated_at := 0;
  rotated_by_user_id := 0
|}.
End InfrastructureServerAgent.
Notation InfrastructureServerAgent := InfrastructureServerAgent.InfrastructureServerAgent.
#[export] Instance eta_InfrastructureServerAgent : Eta InfrastructureServerAgent := fun r =>
  InfrastructureServerAgent.mk (InfrastructureServerAgent.server_id r) (InfrastructureServerAgent.token_hash r) (InfrastructureServerAgent.token_hint r) (InfrastructureServerAgent.agent_version r) (InfrastructureServerAgent.last_seen_at r) (InfrastructureServerAgent.os_name r) (InfrastructureServerAgent.kernel_version r) (InfrastructureServerAgent.uptime_seconds r) (InfrastructureServerAgent.telemetry_json r) (InfrastructureServerAgent.capabilities_json r) (InfrastructureServerAgent.rotated_at r) (InfrastructureServerAgent.rotated_by_user_id r).
#[export] Instance keyed_InfrastructureServerAgent : Keyed InfrastructureServerAgent := InfrastructureServerAgent.server_id.

(** [infrastructure.py]: [class InfrastructureWireGuardPeer], every column. *)
Module InfrastructureWireGuardPeer.
Record InfrastructureWireGuardPeer : Type := mk {
  id : uuid;
  server_id : uuid;
  public_key : string;
  assigned_ipv4 : string;
  status : string;
  last_handshake_at : option time;
  latest_rx_bytes : option Z;
  latest_tx_bytes : option Z;
  created_at : time;
  updated_at : time
}.
(** A row with its column defaults, as the first flush writes it. *)
Definition new_InfrastructureWireGuardPeer (new_id : uuid) (now : time) : InfrastructureWireGuardPeer := {|
  id := new_id;
  server_id := 0;
  public_key := EmptyString;
  assigned_ipv4 := EmptyString;
  status := "active"%string;
  last_handshake_at := None;
  latest_rx_bytes := None;
  latest_tx_bytes := None;
  created_at := now;
  updated_at := now
|}.
End InfrastructureWireGuardPeer.
Notation InfrastructureWireGuardPeer := InfrastructureWireGuardPeer.InfrastructureWireGuardPeer.
#[export] Instance eta_InfrastructureWireGuardPeer : Eta InfrastructureWireGuardPeer := fun r =>
  InfrastructureWireGuardPeer.mk (InfrastructureWireGuardPeer.id r) (InfrastructureWireGuardPeer.server_id r) (InfrastructureWireGuardPeer.public_key r) (InfrastructureWireGuardPeer.assigned_ipv4 r) (InfrastructureWireGuardPeer.status r) (InfrastructureWireGuardPeer.last_handshake_at r) (InfrastructureWireGuardPeer.latest_rx_bytes r) (InfrastructureWireGuardPeer.latest_tx_bytes r) (InfrastructureWireGuardPeer.created_at r) (InfrastructureWireGuardPeer.updated_at r).
#[export] Instance keyed_InfrastructureWireGuardPeer : Keyed InfrastructureWireGuardPeer := InfrastructureWireGuardPeer.id.

(** [infrastructure.py]: [class InfrastructureSecuritySnapshot], every column. *)
Module InfrastructureSecuritySnapshot.
Record InfrastructureSecuritySnapshot : Type := mk {
  id : uuid;
  server_id : uuid;
  score : Z;
  posture : string;
  findings_json : string;
  fingerprint_sha256 : string;
  created_at : time
}.
(** A row with its column defaults, as the first flush writes it. *)
Definition new_InfrastructureSecuritySnapshot (new_id : uuid) (now : time) : InfrastructureSecuritySnapshot := {|
  id := new_id;
  server_id := 0;
  score := 0;
  posture := EmptyString;
  findings_json := "[]"%string;
  fingerprint_sha256 := EmptyString;
  created_at := now
|}.
End InfrastructureSecuritySnapshot.
Notation InfrastructureSecuritySnapshot := InfrastructureSecuritySnapshot.InfrastructureSecuritySnapshot.
#[export] Instance eta_InfrastructureSecuritySnapshot : Eta InfrastructureSecuritySnapshot := fun r =>
  InfrastructureSecuritySnapshot.mk (InfrastructureSecuritySnapshot.id r) (InfrastructureSecuritySnapshot.server_id r) (InfrastructureSecuritySnapshot.score r) (InfrastructureSecuritySnapshot.posture r) (InfrastructureSecuritySnapshot.findings_json r) (InfrastructureSecuritySnapshot.fingerprint_sha256 r) (InfrastructureSecuritySnapshot.created_at r).
#[export] Instance keyed_InfrastructureSecuritySnapshot : Keyed InfrastructureSecuritySnapshot := InfrastructureSecuritySnapshot.id.

(** ** [apps/backend/app/models/hardware_intelligence.py] *)

(** [hardware_intelligence.py]: [class HardwareTelemetrySnapshot], every column. *)
Module HardwareTelemetrySnapshot.
Record HardwareTelemetrySnapshot : Type := mk {
  id : uuid;
  server_id : uuid;
  agent_id : string;
  issued_at : time;
  nonce : string;
  signature : string;
  payload_json : string;
  health_score : Z;
  health_status : string;
  temperature_celsius : option float;
  memory_pressure_avg10 : option float;
  io_pressure_avg10 : option float;
  filesystem_used_percent : option float;
  storage_warning_count : Z;
  predictive_risk_score : option Z;
  predictive_state : option string;
  predictive_confidence : option float;
  predictive_evidence_json : string;
  predictive_models_json : string;
  created_at : time
}.
(** A row with its column defaults, as the first flush writes it. *)
Definition new_HardwareTelemetrySnapshot (new_id : uuid) (now : time) : HardwareTelemetrySnapshot := {|
  id := new_id;
  server_id := 0;
  agent_id := EmptyString;
  issued_at := 0;
  nonce := EmptyString;
  signature := EmptyString;
  payload_json := EmptyString;
  health_score := 0;
  health_status := EmptyString;
  temperature_celsius := None;
  memory_pressure_avg10 := None;
  io_pressure_avg10 := None;
  filesystem_used_percent := None;
  storage_warning_count := 0;
  predictive_risk_score := None;
  predictive_state := None;
  predictive_confidence := None;
  predictive_evidence_json := "[]"%string;
  predictive_models_json := "{}"%string;
  created_at := now
|}.
End HardwareTelemetrySnapshot.
Notation HardwareTelemetrySnapshot := HardwareTelemetrySnapshot.HardwareTelemetrySnapshot.
#[export] Instance eta_HardwareTelemetrySnapshot : Eta HardwareTelemetrySnapshot := fun r =>
  HardwareTelemetrySnapshot.mk (HardwareTelemetrySnapshot.id r) (HardwareTelemetrySnapshot.server_id r) (HardwareTelemetrySnapshot.agent_id r) (HardwareTelemetrySnapshot.issued_at r) (HardwareTelemetrySnapshot.nonce r) (HardwareTelemetrySnapshot.signature r) (HardwareTelemetrySnapshot.payload_json r) (HardwareTelemetrySnapshot.health_score r) (HardwareTelemetrySnapshot.health_status r) (HardwareTelemetrySnapshot.temperature_celsius r) (HardwareTelemetrySnapshot.memory_pressure_avg10 r) (HardwareTelemetrySnapshot.io_pressure_avg10 r) (HardwareTelemetrySnapshot.filesystem_used_percent r) (HardwareTelemetrySnapshot.storage_warning_count r) (HardwareTelemetrySnapshot.predictive_risk_score r) (HardwareTelemetrySnapshot.predictive_state r) (HardwareTelemetrySnapshot.predictive_confidence r) (HardwareTelemetrySnapshot.predictive_evidence_json r) (HardwareTelemetrySnapshot.predictive_models_json r) (HardwareTelemetrySnapshot.created_at r).
#[export] Instance keyed_HardwareTelemetrySnapshot : Keyed HardwareTelemetrySnapshot := HardwareTelemetrySnapshot.id.

(** ** [apps/backend/app/models/security_governance.py] *)

(** [security_governance.py]: [class SecurityApprovalRequest], every column. *)
Module SecurityApprovalRequest.
Record SecurityApprovalRequest : Type := mk {
  id : uuid;
  action : string;
  resource_type : string;
  resource_id : string;
  payload_json : string;
  status : string;
  requested_by_user_id : uuid;
  approved_by_user_id : option uuid;
  expires_at : time;
  approved_at : option time;
  consumed_at : option time;
  created_at : time
}.
(** A row with its column defaults, as the first flush writes it. *)
Definition new_SecurityApprovalRequest (new_id : uuid) (now : time) : SecurityApprovalRequest := {|
  id := new_id;
  action := EmptyString;
  resource_type := EmptyString;
  resource_id := EmptyString;
  payload_json := "{}"%string;
  status := "pending"%string;
  requested_by_user_id := 0;
  approved_by_user_id := None;
  expires_at := 0;
  approved_at := None;
  consumed_at := None;
  created_at := now
|}.
End SecurityApprovalRequest.
Notation SecurityApprovalRequest := SecurityApprovalRequest.SecurityApprovalRequest.
#[export] Instance eta_SecurityApprovalRequest : Eta SecurityApprovalRequest := fun r =>
  SecurityApprovalRequest.mk (SecurityApprovalRequest.id r) (SecurityApprovalRequest.action r) (SecurityApprovalRequest.resource_type r) (SecurityApprovalRequest.resource_id r) (SecurityApprovalRequest.payload_json r) (SecurityApprovalRequest.status r) (SecurityApprovalRequest.requested_by_user_id r) (SecurityApprovalRequest.approved_by_user_id r) (SecurityApprovalRequest.expires_at r) (SecurityApprovalRequest.approved_at r) (SecurityApprovalRequest.consumed_at r) (SecurityApprovalRequest.created_at r).
#[export] Instance keyed_SecurityApprovalRequest : Keyed SecurityApprovalRequest := SecurityApprovalRequest.id.

(** ** [apps/backend/app/models/ithute_operating.py] *)

Module SecuritySeverity.
Inductive SecuritySeverity : Type :=
| info
| low
| medium
| high
| critical.

#[export] Instance SecuritySeverity_eq_dec : EqDecision SecuritySeverity.
Proof. solve_decision. Defined.

Definition value_SecuritySeverity (x : SecuritySeverity) : string :=
  match x with
  | info => "info"
  | low => "low"
  | medium => "medium"
  | high => "high"
  | critical => "critical"
  end.
End SecuritySeverity.
Export (hints) SecuritySeverity.
Notation SecuritySeverity := SecuritySeverity.SecuritySeverity.

(** [ithute_operating.py]: [class IthuteSecurityEvent], every column. *)
Module IthuteSecurityEvent.
Record IthuteSecurityEvent : Type := mk {
  id : uuid;
  product_id : option string;
  severity : SecuritySeverity;
  event_type : string;
  actor_ref : option string;
  subject_ref : option string;
  source_ip : option string;
  details_json : Json;
  resolved_at : option time;
  created_at : time
}.
(** A row with its column defaults, as the first flush writes it. *)
Definition new_IthuteSecurityEvent (new_id : uuid) (now : time) : IthuteSecurityEvent := {|
  id := new_id;
  product_id := None;
  severity := SecuritySeverity.info;
  event_type := EmptyString;
  actor_ref := None;
  subject_ref := None;
  source_ip := None;
  details_json := JObj [];
  resolved_at := None;
  created_at := now
|}.
End IthuteSecurityEvent.
Notation IthuteSecurityEvent := IthuteSecurityEvent.IthuteSecurityEvent.
#[export] Instance eta_IthuteSecurityEvent : Eta IthuteSecurityEvent := fun r =>
  IthuteSecurityEvent.mk (IthuteSecurityEvent.id r) (IthuteSecurityEvent.product_id r) (IthuteSecurityEvent.severity r) (IthuteSecurityEvent.event_type r) (IthuteSecurityEvent.actor_ref r) (IthuteSecurityEvent.subject_ref r) (IthuteSecurityEvent.source_ip r) (IthuteSecurityEvent.details_json r) (IthuteSecurityEvent.resolved_at r) (IthuteSecurityEvent.created_at r).
#[export] Instance keyed_IthuteSecurityEvent : Keyed IthuteSecurityEvent := IthuteSecurityEvent.id.

(** * The database: one list of rows per table *)

Record Db : Type := mk_Db {
  billing_plans : list BillingPlan;
  tenant_subscriptions : list TenantSubscription;
  usage_snapshots : list UsageSnapshot;
  billing_invoices : list BillingInvoice;
  billing_payment_events : list BillingPaymentEvent;
  billing_addons : list BillingAddon;
  tenant_addons : list TenantAddon;
  billing_contracts : list BillingContract;
  infrastructure_commercial_profiles : list InfrastructureCommercialProfile;
  tenant_infrastructure_allocations : list TenantInfrastructureAllocation;
  api_keys : list ApiKey;
  audit_logs : list AuditLog;
  mailboxes : list Mailbox;
  domains : list Domain;
  hosting_nodes : list HostingNode;
  hosting_projects : list HostingProject;
  hosting_resource_reservations : list HostingResourceReservation;
  hosting_node_agents : list HostingNodeAgent;
  hosting_deployments : list HostingDeployment;
  hosting_project_operations : list HostingProjectOperation;
  hosting_node_health_states : list HostingNodeHealthState;
  hosting_failover_attempts : list HostingFailoverAttempt;
  hosting_databases : list HostingDatabase;
  hosting_sources : list HostingSource;
  infrastructure_servers : list InfrastructureServer;
  infrastructure_server_agents : list InfrastructureServerAgent;
  infrastructure_wireguard_peers : list InfrastructureWireGuardPeer;
  infrastructure_security_snapshots : list InfrastructureSecuritySnapshot;
  hardware_telemetry_snapshots : list HardwareTelemetrySnapshot;
  security_approval_requests : list SecurityApprovalRequest;
  ithute_security_events : list IthuteSecurityEvent
}.
#[export] Instance eta_Db : Eta Db := fun r =>
  mk_Db (billing_plans r) (tenant_subscriptions r) (usage_snapshots r) (billing_invoices r) (billing_payment_events r) (billing_addons r) (tenant_addons r) (billing_contracts r) (infrastructure_commercial_profiles r) (tenant_infrastructure_allocations r) (api_keys r) (audit_logs r) (mailboxes r) (domains r) (hosting_nodes r) (hosting_projects r) (hosting_resource_reservations r) (hosting_node_agents r) (hosting_deployments r) (hosting_project_operations r) (hosting_node_health_states r) (hosting_failover_attempts r) (hosting_databases r) (hosting_sources r) (infrastructure_servers r) (infrastructure_server_agents r) (infrastructure_wireguard_peers r) (infrastructure_security_snapshots r) (hardware_telemetry_snapshots r) (security_approval_requests r) (ithute_security_events r).
Definition empty_Db : Db := mk_Db [] [] [] [] [] [] [] [] [] [] [] [] [] [] [] [] [] [] [] [] [] [] [] [] [] [] [] [] [] [] [].

