(* ===== verification/Session.v ===== *)
(** The SQLAlchemy session of [app/db/session.py].

    The factory is built with [autoflush=False]: a query sees the rows of the
    last flush, while the objects it returns are the ones of the session's
    identity map, with whatever attributes have been assigned since.  A session
    is therefore a pair of databases: [sql], what a WHERE clause or an aggregate
    reads, and [mem], the mapped objects.  An added object is pending (not
    visible to queries) until [flush].  Row locks ([with_for_update]) have no
    effect on a single session. *)
From S2P Require Import Prelude.

Record Session (D : Type) : Type := mk_Session { sql : D; mem : D }.
Arguments mk_Session {D} _ _.
Arguments sql {D} _.
Arguments mem {D} _.
#[export] Instance eta_Session D : Eta (Session D) := fun s => mk_Session (sql s) (mem s).

(** ** Tables as lists of keyed rows *)
Section Table.
Context {R : Type} `{Keyed R}.
Implicit Types (t : list R) (r : R) (k : uuid).

Fixpoint find_row k t : option R :=
  match t with
  | [] => None
  | r :: t' => if key r =? k then Some r else find_row k t'
  end.
(** Assigning attributes of the mapped object with the row's key. *)
Definition put_row r t : list R := map (fun x => if key x =? key r then r else x) t.
Definition keys t : list uuid := map key t.
(** The mapped object of a selected row. *)
Definition live t r : R := match find_row (key r) t with Some x => x | None => r end.

Lemma find_row_key k t r : find_row k t = Some r -> key r = k.
Proof. induction t; simpl; [done|]. bdestruct (key a =? k); naive_solver. Qed.

Lemma find_row_elem k t r : find_row k t = Some r -> r ∈ t.
Proof.
  induction t as [|a t IH]; simpl; [done|]. bdestruct (key a =? k); intros.
  - simplify_eq. left.
  - right. by apply IH.
Qed.

Lemma find_row_none k t : find_row k t = None <-> k ∉ keys t.
Proof.
  induction t as [|a t IH]; simpl; [split; [intros _; apply not_elem_of_nil | done]|].
  rewrite not_elem_of_cons. bdestruct (key a =? k); naive_solver.
Qed.

Lemma find_row_nodup t r : NoDup (keys t) -> r ∈ t -> find_row (key r) t = Some r.
Proof.
  induction t as [|a t IH]; simpl; [intros _ ?%not_elem_of_nil; done|].
  intros [Ha Ht]%NoDup_cons [->|Hr]%elem_of_cons.
  - by rewrite Z.eqb_refl.
  - bdestruct (key a =? key r); [|by apply IH].
    exfalso. apply Ha. rewrite E. by apply list_elem_of_fmap_2.
Qed.

Lemma key_inj t r1 r2 : NoDup (keys t) -> r1 ∈ t -> r2 ∈ t -> key r1 = key r2 -> r1 = r2.
Proof.
  intros Ht H1 H2 E. apply find_row_nodup in H1, H2; [|done..]. rewrite E in H1. congruence.
Qed.

Lemma keys_put r t : keys (put_row r t) = keys t.
Proof.
  unfold keys, put_row. rewrite map_map. apply map_ext.
  intros a. bdestruct (key a =? key r); congruence.
Qed.

Lemma find_put_same r t : key r ∈ keys t -> find_row (key r) (put_row r t) = Some r.
Proof.
  induction t as [|a t IH]; simpl; [by intros ?%not_elem_of_nil|].
  intros [E|?]%elem_of_cons.
  - rewrite <- E, Z.eqb_refl; simpl. by rewrite Z.eqb_refl.
  - bdestruct (key a =? key r); [by rewrite Z.eqb_refl|].
    rewrite (proj2 (Z.eqb_neq _ _)); auto.
Qed.

Lemma find_put_other r k t : k <> key r -> find_row k (put_row r t) = find_row k t.
Proof.
  intros Hk. induction t as [|a t IH]; simpl; [done|].
  bdestruct (key a =? key r).
  - rewrite !(proj2 (Z.eqb_neq _ _)); [done|congruence..].
  - by rewrite IH.
Qed.

Lemma find_app k t1 t2 :
  find_row k (t1 ++ t2) =
  match find_row k t1 with Some r => Some r | None => find_row k t2 end.
Proof. induction t1; simpl; [done|]. by destruct (key a =? k). Qed.

Lemma put_row_elem r x t : x ∈ put_row r t -> x = r \/ x ∈ t.
Proof.
  unfold put_row. rewrite list_elem_of_fmap. intros (y & -> & Hy).
  bdestruct (key y =? key r); auto.
Qed.

Lemma put_row_same r t : NoDup (keys t) -> r ∈ t -> put_row r t = t.
Proof.
  intros Hn Hr. unfold put_row. rewrite <- (map_id t) at 2. apply map_ext_in. intros x Hx%list_elem_of_In.
  bdestruct (key x =? key r); [|done]. by apply (key_inj t).
Qed.

(** Updating the first selected row keeps it the first selected row. *)
Lemma head_filter_put (p : R -> bool) r0 r t :
  NoDup (keys t) -> head (List.filter p t) = Some r0 -> key r = key r0 -> p r = true ->
  head (List.filter p (put_row r t)) = Some r.
Proof.
  intros Hn Hh Hk Hp. induction t as [|a t IH]; simpl in *; [done|].
  apply NoDup_cons in Hn as [Ha Hn]. destruct (p a) eqn:Epa; simpl in *.
  - simplify_eq. rewrite Hk, Z.eqb_refl, Hp. done.
  - bdestruct (key a =? key r); [|by rewrite Epa; apply IH].
    exfalso. apply Ha. rewrite E, Hk.
    assert (r0 ∈ List.filter p t) as Hin by (destruct (List.filter p t); simpl in Hh; simplify_eq; left).
    apply list_elem_of_In, filter_In in Hin as [Hin _]. by apply list_elem_of_fmap_2, list_elem_of_In.
Qed.

Lemma put_row_in r t : key r ∈ keys t -> r ∈ put_row r t.
Proof.
  unfold keys. rewrite list_elem_of_fmap. intros (x & Hx & Hin).
  unfold put_row. apply list_elem_of_fmap. exists x. by rewrite Hx, Z.eqb_refl.
Qed.

Lemma put_row_Forall (P : R -> Prop) r t : P r -> Forall P t -> Forall P (put_row r t).
Proof. rewrite !Forall_forall. intros Hr Ht x [->|?]%put_row_elem; auto. Qed.

(** A series of such assignments. *)
Definition put_rows (rs : list R) t : list R := fold_left (fun t r => put_row r t) rs t.

Lemma keys_put_rows rs t : keys (put_rows rs t) = keys t.
Proof. revert t. induction rs; intros; simpl; [done|]. by rewrite IHrs, keys_put. Qed.

Lemma put_row_notin r t : key r ∉ keys t -> put_row r t = t.
Proof.
  induction t as [|a t IH]; simpl; [done|]. rewrite not_elem_of_cons. intros [Ha Ht].
  rewrite (proj2 (Z.eqb_neq _ _)), IH; [done|done|congruence].
Qed.

Lemma put_rows_cons rs a t :
  key a ∉ keys rs -> put_rows rs (a :: t) = a :: put_rows rs t.
Proof.
  revert a t. induction rs as [|r rs IH]; intros a t; simpl; [done|].
  rewrite not_elem_of_cons. intros [Ha Hrs].
  rewrite (proj2 (Z.eqb_neq _ _)) by congruence. by apply IH.
Qed.

(** Updating every selected row is a map over the table. *)
Lemma put_rows_filter (p : R -> bool) (f : R -> R) t :
  NoDup (keys t) -> (forall x, key (f x) = key x) ->
  put_rows (map f (List.filter p t)) t = map (fun x => if p x then f x else x) t.
Proof.
  intros Hn Hf. induction t as [|a t IH]; simpl; [done|].
  apply NoDup_cons in Hn as [Ha Hn].
  assert (key a ∉ keys (map f (List.filter p t))) as Hk.
  { intros Hin. apply Ha. unfold keys in *. rewrite map_map, list_elem_of_fmap in Hin.
    destruct Hin as (x & Hx & Hin). rewrite Hf in Hx. rewrite Hx.
    apply list_elem_of_fmap_2. apply list_elem_of_In, filter_In in Hin as [Hin _]. by apply list_elem_of_In. }
  destruct (p a).
  - simpl. rewrite Hf, Z.eqb_refl. rewrite put_row_notin by by rewrite Hf.
    change (fold_left (fun t r => put_row r t) ?l ?k) with (put_rows l k).
    rewrite put_rows_cons by by rewrite Hf. by rewrite IH.
  - rewrite put_rows_cons by done. by rewrite IH.
Qed.

Lemma sum_filter_put (p : R -> bool) (f : R -> Z) r r0 t :
  NoDup (keys t) -> find_row (key r) t = Some r0 ->
  sum_by f (List.filter p (put_row r t)) =
  sum_by f (List.filter p t) - (if p r0 then f r0 else 0) + (if p r then f r else 0).
Proof.
  unfold sum_by. induction t as [|a t IH]; simpl; [done|].
  intros [Ha Hn]%NoDup_cons. bdestruct (key a =? key r).
  - intros. simplify_eq. rewrite put_row_notin by congruence.
    destruct (p r0), (p r); simpl; lia.
  - intros Hf. specialize (IH Hn Hf). destruct (p a); simpl; lia.
Qed.

Lemma live_self t r : NoDup (keys t) -> r ∈ t -> live t r = r.
Proof. intros. unfold live. by rewrite find_row_nodup. Qed.

Lemma live_map_self t l : NoDup (keys t) -> l ⊆ t -> map (live t) l = l.
Proof.
  intros Ht. induction l as [|a l IH]; simpl; [done|]. intros Hl.
  rewrite live_self; [|done|apply Hl; left]. f_equal. apply IH. intros x Hx. apply Hl. by right.
Qed.
End Table.

(** [order_by(f.asc())], [order_by(f.desc())] *)
Definition asc {R} (f : R -> Z) (a b : R) : comparison := Z.compare (f a) (f b).
Definition desc {R} (f : R -> Z) (a b : R) : comparison := Z.compare (f b) (f a).
Definition asc_str {R} (f : R -> string) (a b : R) : comparison := String.compare (f a) (f b).

(** ** Operations of the session *)
Section Ops.
Context {D R : Type} `{Keyed R} (T : D -> list R) `{!Setter T}.
Implicit Types (s : Session D) (r : R).

(** [db.scalars(select(T).where(p)).all()] *)
Definition select (p : R -> bool) s : list R :=
  map (live (T (mem s))) (List.filter p (T (sql s))).
(** [db.scalar(select(T).where(p))]: the first row or [None]. *)
Definition scalar (p : R -> bool) s : option R := head (select p s).
(** [select(T).where(p).order_by(c)]: the order is the one of the rows. *)
Definition select_ordered (c : R -> R -> comparison) (p : R -> bool) s : list R :=
  map (live (T (mem s))) (sort_cmp c (List.filter p (T (sql s)))).
Definition scalar_ordered (c : R -> R -> comparison) (p : R -> bool) s : option R :=
  head (select_ordered c p s).
(** [db.get(T, k)] *)
Definition get (k : uuid) s : option R :=
  match find_row k (T (sql s)) with
  | Some r => Some (live (T (mem s)) r)
  | None => None
  end.
(** [select(func.coalesce(func.sum(f), 0)).where(p)] and [func.count]. *)
Definition sql_sum (p : R -> bool) (f : R -> Z) s : Z := sum_by f (List.filter p (T (sql s))).
Definition sql_count (p : R -> bool) s : Z := zlen (List.filter p (T (sql s))).

(** Attribute assignment on a mapped object. *)
Definition put r s : Session D := s <| mem := (mem s) <| T ::= put_row r |> |>.
Definition put_all (rs : list R) s : Session D := s <| mem := (mem s) <| T ::= put_rows rs |> |>.
(** [db.add(r)] *)
Definition add r s : Session D := s <| mem := (mem s) <| T ::= (fun t => t ++ [r]) |> |>.
End Ops.

(** [db.flush()] and [db.commit()]. *)
Definition flush {D} (s : Session D) : Session D := mk_Session (mem s) (mem s).
Definition commit {D} : Session D -> Session D := flush.
(** A session just opened on a database. *)
Definition open_session {D} (d : D) : Session D := mk_Session d d.

(** A table whose objects carry no unflushed assignment. *)
Definition synced {D R} (T : D -> list R) (s : Session D) : Prop := T (sql s) = T (mem s).

Section OpsFacts.
Context {D R : Type} `{Keyed R} (T : D -> list R).
Implicit Types (s : Session D) (r : R).

Lemma select_synced p s : synced T s -> NoDup (keys (T (mem s))) ->
  select T p s = List.filter p (T (mem s)).
Proof.
  intros Hs Hn. unfold select. rewrite Hs. apply live_map_self; [done|].
  intros x. rewrite !list_elem_of_In, filter_In. naive_solver.
Qed.

Lemma get_key k s r : get T k s = Some r -> key r = k.
Proof.
  unfold get, live. destruct (find_row k (T (sql s))) as [x|] eqn:E; [|done].
  apply find_row_key in E as Hx.
  destruct (find_row (key x) (T (mem s))) eqn:E2; intros; simplify_eq; [|done].
  by apply find_row_key in E2.
Qed.

Lemma get_synced k s : synced T s -> get T k s = find_row k (T (mem s)).
Proof.
  intros Hs. unfold get, live. rewrite Hs.
  destruct (find_row k (T (mem s))) eqn:E; [|done].
  by rewrite (find_row_key _ _ _ E), E.
Qed.

Lemma select_key_in p s r : r ∈ select T p s -> key r ∈ keys (T (sql s)).
Proof.
  unfold select. rewrite list_elem_of_fmap. intros (x & -> & Hx).
  rewrite list_elem_of_In, filter_In in Hx. destruct Hx as [Hx _].
  apply list_elem_of_In in Hx.
  assert (key (live (T (mem s)) x) = key x) as ->; [|by apply list_elem_of_fmap_2].
  unfold live. destruct (find_row _ _) eqn:E; [|done]. by apply find_row_key in E.
Qed.

Lemma scalar_some p s r : synced T s -> NoDup (keys (T (mem s))) ->
  scalar T p s = Some r -> r ∈ T (mem s) /\ p r = true.
Proof.
  intros Hs Hn. unfold scalar. rewrite select_synced by done.
  destruct (List.filter p _) as [|x l] eqn:E; [done|]. simpl. intros. simplify_eq.
  assert (In r (List.filter p (T (mem s)))) as Hin by (rewrite E; by left).
  by rewrite filter_In, <- list_elem_of_In in Hin.
Qed.

Lemma scalar_none p s : synced T s -> NoDup (keys (T (mem s))) ->
  scalar T p s = None <-> forall r, r ∈ T (mem s) -> p r = false.
Proof.
  intros Hs Hn. unfold scalar. rewrite select_synced by done. split.
  - destruct (List.filter p _) as [|x l] eqn:E; [|done]. intros _ r Hr.
    destruct (p r) eqn:Hp; [|done].
    assert (In r (List.filter p (T (mem s)))) as Hin by by rewrite filter_In, <- list_elem_of_In.
    by rewrite E in Hin.
  - intros Hall. destruct (List.filter p _) as [|x l] eqn:E; [done|].
    assert (In x (List.filter p (T (mem s)))) as Hin by (rewrite E; by left).
    rewrite filter_In, <- list_elem_of_In in Hin. destruct Hin as [Hin Hp].
    by rewrite Hall in Hp.
Qed.

Lemma scalar_by_key p s r : synced T s -> NoDup (keys (T (mem s))) ->
  r ∈ T (mem s) -> (forall x, p x = (key x =? key r)) -> scalar T p s = Some r.
Proof.
  intros Hs Hn Hr Hp. destruct (scalar T p s) as [x|] eqn:E.
  - apply scalar_some in E as [Hx Hpx]; [|done..].
    rewrite Hp in Hpx. apply Z.eqb_eq in Hpx. f_equal. by apply (key_inj (T (mem s))).
  - rewrite scalar_none in E by done. specialize (E r Hr). by rewrite Hp, Z.eqb_refl in E.
Qed.

Lemma scalar_head p s : synced T s -> NoDup (keys (T (mem s))) ->
  scalar T p s = head (List.filter p (T (mem s))).
Proof. intros. unfold scalar. by rewrite select_synced. Qed.

Lemma select_ordered_synced c p s : synced T s -> NoDup (keys (T (mem s))) ->
  select_ordered T c p s = sort_cmp c (List.filter p (T (mem s))).
Proof.
  intros Hs Hn. unfold select_ordered. rewrite Hs. apply live_map_self; [done|].
  intros x. unfold sort_cmp. rewrite sort_by_elem, !list_elem_of_In, filter_In. naive_solver.
Qed.

Lemma scalar_select p s r : scalar T p s = Some r -> r ∈ select T p s.
Proof. unfold scalar. destruct (select T p s); simpl; intros; simplify_eq. left. Qed.
End OpsFacts.

(** Rows that satisfy a condition. *)
Lemma elem_of_filter {A} (p : A -> bool) l x : x ∈ List.filter p l <-> x ∈ l /\ p x = true.
Proof. rewrite !list_elem_of_In. apply filter_In. Qed.

Lemma NoDup_map_filter {A B} (f : A -> B) (p : A -> bool) l : NoDup (map f l) -> NoDup (map f (List.filter p l)).
Proof.
  induction l as [|x l IH]; simpl; [done|]. intros [Hx Hn]%NoDup_cons. destruct (p x); simpl; [|auto].
  apply NoDup_cons. split; [|auto]. intros (y & E & Hy)%list_elem_of_fmap. apply Hx. rewrite E.
  apply list_elem_of_fmap_2. by apply elem_of_filter in Hy as [? _].
Qed.

Create HintDb session.
#[export] Hint Rewrite @keys_put : session.
#[export] Hint Resolve find_row_key find_row_elem get_key scalar_select : session.
