(* ===== verification/Schema.v ===== *)
(** The constraints that column declarations put on a database, checked when a
    session is flushed: identifier, text and integer ranges, unique columns, foreign keys. *)
From S2P Require Import Prelude Json Session.

Definition opt_list {A} (o : option A) : list A := match o with Some x => [x] | None => [] end.
(** [Uuid], [String(n)] and [Integer] columns; a length is in characters. *)
Definition uuid_column (value : uuid) : bool := (0 <=? value) && (value <? 2 ^ 128).
Definition text_column (n : Z) (value : string) : bool := str_len value <=? n.
Definition int_column (value : Z) : bool := (-2147483648 <=? value) && (value <=? 2147483647).
(** [unique=True], [UniqueConstraint] and primary keys; NULLs are left out by the caller. *)
Definition unique_column {A} `{EqDecision A} (name : string) (column : list A) : result unit :=
  ensure bool_decide (NoDup column) else_raise IntegrityError name; Ok tt.
Definition foreign_key (name : string) (column target : list uuid) : result unit :=
  ensure forallb (fun k => k in? target) column else_raise IntegrityError name; Ok tt.

Lemma in_elem {A} `{EqDecision A} (x : A) l : (x in? l) = true -> x ∈ l.
Proof. intros (y & Hy%list_elem_of_In & ->%bool_decide_eq_true)%existsb_exists. done. Qed.
Lemma elem_in {A} `{EqDecision A} (x : A) l : x ∈ l -> (x in? l) = true.
Proof. intros Hx%list_elem_of_In. apply existsb_exists. exists x. split; [done|by apply bool_decide_eq_true]. Qed.
Lemma unique_column_ok {A} `{EqDecision A} name (l : list A) u : unique_column name l = Ok u -> NoDup l.
Proof. unfold unique_column. case_bool_decide; done. Qed.
Lemma foreign_key_ok name l t u : foreign_key name l t = Ok u -> forall k, k ∈ l -> k ∈ t.
Proof.
  unfold foreign_key. destruct (forallb _ l) eqn:E; [|done]. intros _ k Hk.
  rewrite forallb_forall in E. by apply in_elem, E, list_elem_of_In.
Qed.

(** The errors of a database, and that a failed check raises one of them. *)
Definition database_error (x : exn) : bool := match x with IntegrityError _ | DataError _ => true | _ => false end.
Lemma rbind_err {A B} (m : result A) (k : A -> result B) x :
  rbind m k = Err x -> m = Err x \/ exists a, m = Ok a /\ k a = Err x.
Proof. destruct m; simpl; naive_solver. Qed.
Lemma unique_column_integrity {A} `{EqDecision A} name (l : list A) x : unique_column name l = Err x -> exists c, x = IntegrityError c.
Proof. unfold unique_column. case_bool_decide; [done|]. intros [= <-]. eauto. Qed.
Lemma foreign_key_integrity name l t x : foreign_key name l t = Err x -> exists c, x = IntegrityError c.
Proof. unfold foreign_key. case_match; [done|]. intros [= <-]. eauto. Qed.
Lemma unique_column_err {A} `{EqDecision A} name (l : list A) x : unique_column name l = Err x -> database_error x = true.
Proof. by intros [c ->]%unique_column_integrity. Qed.
Lemma foreign_key_err name l t x : foreign_key name l t = Err x -> database_error x = true.
Proof. by intros [c ->]%foreign_key_integrity. Qed.

(** A map injective on the rows of a list without duplicates. *)
Lemma map_inj_elem {A B} (f : A -> B) l x y : NoDup (map f l) -> x ∈ l -> y ∈ l -> f x = f y -> x = y.
Proof.
  induction l as [|a l IH]; simpl; [by intros _ ?%not_elem_of_nil|].
  intros [Ha Hn]%NoDup_cons [->|Hx]%elem_of_cons [->|Hy]%elem_of_cons E; auto; exfalso; apply Ha;
    [rewrite E|rewrite <- E]; by apply list_elem_of_fmap_2.
Qed.
Lemma unique_column_intro {A} `{EqDecision A} name (l : list A) : NoDup l -> unique_column name l = Ok tt.
Proof. intros. unfold unique_column. by rewrite bool_decide_eq_true_2. Qed.
Lemma foreign_key_intro name l t : (forall k, k ∈ l -> k ∈ t) -> foreign_key name l t = Ok tt.
Proof.
  intros H. unfold foreign_key. rewrite (proj2 (forallb_forall _ _)); [done|].
  intros k Hk%list_elem_of_In. by apply elem_in, H.
Qed.
