(* ===== verification/WebApi.v ===== *)
(** What the platform's FastAPI services share: comma-separated settings, the
    errors of a token verifier and of a request body, the bearer token, and the
    bounds of pydantic fields. *)
From S2P Require Import Prelude Json Schema.
#[local] Open Scope string_scope.
#[local] Open Scope list_scope.
#[local] Open Scope Z_scope.

(** [{item.strip() for item in value.split(',') if item.strip()}] *)
Definition csv_items (value : string) : list string := List.filter str_truthy (map strip (split_char 44 value)).

(** * Tokens *)
(** [AuthError] is a [ValueError]. *)
Definition AuthError {A} (msg : string) : result A := Err (ValueError msg).
Definition is_str (s : string) (v : Json) : bool := match v with JStr t => t ==? s | _ => false end.
(** [except AuthError as exc: raise HTTPException(401, str(exc))] *)
Definition unauthorized {A} (r : result A) : result A :=
  match r with Err (ValueError msg) => Err (HTTPException 401 msg) | r => r end.
Definition bearer_token (missing : string) (credentials : option string) : result string :=
  match credentials with None => Err (HTTPException 401 missing) | Some token => Ok token end.

(** * Request bodies *)
(** [RequestValidationError] *)
Definition validated (b : bool) : result unit := ensure b else_raise HTTPException 422 "validation error"; Ok tt.
(** [json.dumps(value, separators=(',', ':'), ensure_ascii=False)] *)
Definition compact_raw (v : Json) : string := dumps_with false "," ":" json_string_raw v.
Definition encoded_size (value : list (string * Json)) : Z := Z.of_nat (String.length (compact_raw (JObj value))).
Definition between (lo hi n : Z) : bool := (lo <=? n) && (n <=? hi).
Definition opt_max (n : Z) (o : option string) : bool := forallb (fun s => str_len s <=? n) (opt_list o).
