(* ===== verification/Sha256.v ===== *)
(** SHA-256 and HMAC-SHA256 over bytes: the standard functions behind Python's
    [hashlib.sha256] and [hmac.new], and the Rust engine's implementation
    ([engines/rust-core/src/lib.rs]) with its proof of equality. *)
From S2P Require Import Prelude.

Definition byte_list := list Z.
Definition mask32 : Z := 2 ^ 32 - 1.
Definition wrapping_add (a b : Z) : Z := (a + b) mod 2 ^ 32.
Definition rotate_right (a n : Z) : Z := Z.lor (Z.shiftr a n) (Z.land (Z.shiftl a (32 - n)) mask32).
Definition from_be_bytes (l : list Z) : Z := fold_left (fun acc b => acc * 256 + b) l 0.
(** The [n] bytes of a number, most significant first. *)
Fixpoint to_be_bytes (n : nat) (v : Z) : list Z :=
  match n with O => [] | S n => to_be_bytes n (v / 256) ++ [v mod 256] end.

(** The tables of the standard, in decimal. *)
Definition SHA256_INITIAL : list Z := [
   1779033703; 3144134277; 1013904242; 2773480762; 1359893119; 2600822924; 528734635; 1541459225].
Definition SHA256_K : list Z := [
   1116352408; 1899447441; 3049323471; 3921009573; 961987163; 1508970993; 2453635748; 2870763221; 3624381080; 310598401;
   607225278; 1426881987; 1925078388; 2162078206; 2614888103; 3248222580; 3835390401; 4022224774; 264347078; 604807628;
   770255983; 1249150122; 1555081692; 1996064986; 2554220882; 2821834349; 2952996808; 3210313671; 3336571891; 3584528711;
   113926993; 338241895; 666307205; 773529912; 1294757372; 1396182291; 1695183700; 1986661051; 2177026350; 2456956037;
   2730485921; 2820302411; 3259730800; 3345764771; 3516065817; 3600352804; 4094571909; 275423344; 430227734; 506948616;
   659060556; 883997877; 958139571; 1322822218; 1537002063; 1747873779; 1955562222; 2024104815; 2227730452; 2361852424;
   2428436474; 2756734187; 3204031479; 3329325298].

(** The message schedule [w]. *)
Definition word (block : list Z) (index : nat) : Z := from_be_bytes (take 4 (drop (index * 4) block)).
Definition schedule_word (w : list Z) (index : nat) : Z :=
  let at_ k := nth (index - k) w 0 in
  let s0 := Z.lxor (Z.lxor (rotate_right (at_ 15%nat) 7) (rotate_right (at_ 15%nat) 18)) (Z.shiftr (at_ 15%nat) 3) in
  let s1 := Z.lxor (Z.lxor (rotate_right (at_ 2%nat) 17) (rotate_right (at_ 2%nat) 19)) (Z.shiftr (at_ 2%nat) 10) in
  wrapping_add (wrapping_add (wrapping_add (at_ 16%nat) s0) (at_ 7%nat)) s1.
Definition schedule (block : list Z) : list Z :=
  fold_left (fun w index => w ++ [schedule_word w index]) (seq 16 48) (map (word block) (seq 0 16)).

Definition Vars : Type := Z * Z * Z * Z * Z * Z * Z * Z.
Definition round (w : list Z) (v : Vars) (index : nat) : Vars :=
  let '(a, b, c, d, e, f, g, h) := v in
  let big_s1 := Z.lxor (Z.lxor (rotate_right e 6) (rotate_right e 11)) (rotate_right e 25) in
  let choose := Z.lxor (Z.land e f) (Z.land (Z.lxor e mask32) g) in
  let temp1 := wrapping_add (wrapping_add (wrapping_add (wrapping_add h big_s1) choose) (nth index SHA256_K 0)) (nth index w 0) in
  let big_s0 := Z.lxor (Z.lxor (rotate_right a 2) (rotate_right a 13)) (rotate_right a 22) in
  let majority := Z.lxor (Z.lxor (Z.land a b) (Z.land a c)) (Z.land b c) in
  let temp2 := wrapping_add big_s0 majority in
  (wrapping_add temp1 temp2, a, b, c, wrapping_add d temp1, e, f, g).
Definition rounds (state : list Z) (block : list Z) : Vars :=
  let s k := nth k state 0 in
  fold_left (round (schedule block)) (seq 0 64)
    (s 0%nat, s 1%nat, s 2%nat, s 3%nat, s 4%nat, s 5%nat, s 6%nat, s 7%nat).
Definition add_vars (state : list Z) (v : Vars) : list Z :=
  let '(a, b, c, d, e, f, g, h) := v in zip_with wrapping_add state [a; b; c; d; e; f; g; h].
Definition sha256_compress (state : list Z) (block : list Z) : list Z := add_vars state (rounds state block).

(** ** The standard: padding to blocks of 64 bytes, then the compression of each *)
Definition pad (bytes : list Z) : list Z :=
  let len := length bytes in
  bytes ++ [128] ++ replicate ((119 - len mod 64) mod 64) 0 ++ to_be_bytes 8 (Z.of_nat len * 8 mod 2 ^ 64).
Fixpoint compress_blocks (compress : list Z -> list Z -> list Z) (n : nat) (state bytes : list Z) : list Z :=
  match n with O => state | S n => compress_blocks compress n (compress state (take 64 bytes)) (drop 64 bytes) end.
Definition digest_bytes (state : list Z) : list Z := flat_map (to_be_bytes 4) state.
Definition sha256 (bytes : list Z) : list Z :=
  digest_bytes (compress_blocks sha256_compress (length (pad bytes) / 64) SHA256_INITIAL (pad bytes)).
(** [hmac.new(key, data, hashlib.sha256).digest()] *)
Definition hmac_key (key : list Z) : list Z :=
  let key := if (64 <? length key)%nat then sha256 key else key in key ++ replicate (64 - length key) 0.
Definition hmac_sha256 (key data : list Z) : list Z :=
  sha256 (map (Z.lxor 0x5c) (hmac_key key) ++ sha256 (map (Z.lxor 0x36) (hmac_key key) ++ data)).

(** ** The Rust engine *)
Module Rust.
(** [dst[off..off + src.len()].copy_from_slice(src)] *)
Definition copy_into (dst : list Z) (off : nat) (src : list Z) : list Z :=
  take off dst ++ src ++ drop (off + length src) dst.
Definition slice (bytes : list Z) (off n : nat) : list Z := take n (drop off bytes).
(** [for index in 0..n { compress(&mut state, &bytes[index * 64..index * 64 + 64]) }] *)
Definition compress_loop (compress : list Z -> list Z -> list Z) (n : nat) (bytes state : list Z) : list Z :=
  fold_left (fun st index => compress st (slice bytes (index * 64) 64)) (seq 0 n) state.
Definition tail_of (bytes : list Z) : list Z :=
  let remainder := (length bytes mod 64)%nat in
  let tail := replicate 128 0 in
  let tail := copy_into tail 0 (drop (length bytes - remainder) bytes) in
  let tail := <[remainder := 128]> tail in
  let bit_len := Z.of_nat (length bytes) * 8 mod 2 ^ 64 in
  let padded_len := if (remainder <? 56)%nat then 64%nat else 128%nat in
  copy_into tail (padded_len - 8) (to_be_bytes 8 bit_len).
Definition sha256_digest (bytes : list Z) : list Z :=
  let full_blocks := (length bytes / 64)%nat in
  let remainder := (length bytes mod 64)%nat in
  let padded_len := if (remainder <? 56)%nat then 64%nat else 128%nat in
  let state := compress_loop sha256_compress full_blocks bytes SHA256_INITIAL in
  let state := compress_loop sha256_compress (padded_len / 64) (tail_of bytes) state in
  fold_left (fun digest '(index, value) => copy_into digest (index * 4) (to_be_bytes 4 value))
    (combine (seq 0 8) state) (replicate 32 0).
Definition hmac_sha256 (key data : list Z) : list Z :=
  let key_block := copy_into (replicate 64 0) 0 (if (64 <? length key)%nat then sha256_digest key else key) in
  let inner_pad := map (fun index => Z.lxor (nth index key_block 0) 0x36) (seq 0 64) in
  let outer_pad := map (fun index => Z.lxor (nth index key_block 0) 0x5c) (seq 0 64) in
  let inner_digest := sha256_digest (inner_pad ++ data) in
  sha256_digest (outer_pad ++ inner_digest).
End Rust.

Definition bytes_of (s : string) : list Z := map (fun c => Z.of_N (N_of_ascii c)) (list_ascii_of_string s).
(** The standard's vectors. *)
Example sha256_abc : sha256 (bytes_of "abc") =
  [0xba; 0x78; 0x16; 0xbf; 0x8f; 0x01; 0xcf; 0xea; 0x41; 0x41; 0x40; 0xde; 0x5d; 0xae; 0x22; 0x23;
   0xb0; 0x03; 0x61; 0xa3; 0x96; 0x17; 0x7a; 0x9c; 0xb4; 0x10; 0xff; 0x61; 0xf2; 0x00; 0x15; 0xad].
Proof. vm_compute. reflexivity. Qed.
Example hmac_vector : Rust.hmac_sha256 (bytes_of "key") (bytes_of "The quick brown fox jumps over the lazy dog") =
  [0xf7; 0xbc; 0x83; 0xf4; 0x30; 0x53; 0x84; 0x24; 0xb1; 0x32; 0x98; 0xe6; 0xaa; 0x6f; 0xb1; 0x43;
   0xef; 0x4d; 0x59; 0xa1; 0x49; 0x46; 0x17; 0x59; 0x97; 0x47; 0x9d; 0xbc; 0x2d; 0x1a; 0x3c; 0xd8].
Proof. vm_compute. reflexivity. Qed.

(** ** The Rust loops compute the standard's digest *)
Section Blocks.
Context (compress : list Z -> list Z -> list Z).
Lemma compress_loop_from bytes n k st :
  fold_left (fun st index => compress st (Rust.slice bytes (index * 64) 64)) (seq k n) st =
  compress_blocks compress n st (drop (k * 64) bytes).
Proof.
  revert k st. induction n as [|n IH]; intros k st; cbn [seq fold_left compress_blocks]; [done|].
  rewrite IH, drop_drop. do 2 f_equal. lia.
Qed.
Lemma compress_loop_blocks n bytes st : Rust.compress_loop compress n bytes st = compress_blocks compress n st bytes.
Proof. apply (compress_loop_from bytes n 0). Qed.
Lemma compress_blocks_add n m st a :
  compress_blocks compress (n + m) st a = compress_blocks compress m (compress_blocks compress n st a) (drop (n * 64) a).
Proof.
  revert st a. induction n as [|n IH]; intros st a; cbn [Nat.add compress_blocks]; [done|].
  rewrite IH, drop_drop. f_equal.
Qed.
Lemma compress_blocks_prefix n st a b : (n * 64 <= length a)%nat ->
  compress_blocks compress n st (a ++ b) = compress_blocks compress n st a.
Proof.
  revert st a. induction n as [|n IH]; intros st a Hl; cbn [compress_blocks]; [done|].
  rewrite take_app_le, drop_app_le by lia. apply IH. rewrite length_drop. lia.
Qed.
Lemma length_blocks n st bytes : (forall st block, length st = 8%nat -> length (compress st block) = 8%nat) ->
  length st = 8%nat -> length (compress_blocks compress n st bytes) = 8%nat.
Proof. intros Hc. revert st bytes. induction n as [|n IH]; intros; cbn [compress_blocks]; auto. Qed.
End Blocks.
Lemma length_compress st block : length st = 8%nat -> length (sha256_compress st block) = 8%nat.
Proof.
  unfold sha256_compress. generalize (rounds st block). intros [[[[[[[a b] c] d] e] f] g] h] Hl.
  cbn [add_vars]. by rewrite length_zip_with, Hl.
Qed.
Lemma length_be n v : length (to_be_bytes n v) = n.
Proof. revert v. induction n as [|n IH]; intros v; cbn; [done|]. rewrite length_app, IH. cbn. lia. Qed.

(** The end of the padded message: what the last incomplete block becomes. *)
Definition padding (len : nat) : list Z :=
  [128] ++ replicate ((119 - len mod 64) mod 64) 0 ++ to_be_bytes 8 (Z.of_nat len * 8 mod 2 ^ 64).
Lemma length_padding len :
  (length (padding len) + len mod 64 = if len mod 64 <? 56 then 64 else 128)%nat.
Proof.
  unfold padding. rewrite !length_app, length_replicate, length_be. cbn [length].
  pose proof (Nat.mod_upper_bound len 64). set (r := (len mod 64)%nat) in *. destruct (Nat.ltb_spec r 56).
  - replace (119 - r)%nat with (55 - r + 1 * 64)%nat by lia. rewrite Nat.Div0.mod_add, Nat.mod_small; lia.
  - rewrite Nat.mod_small; lia.
Qed.
Lemma rust_tail bytes :
  let r := (length bytes mod 64)%nat in
  exists rest, Rust.tail_of bytes = drop (length bytes - r) bytes ++ padding (length bytes) ++ rest.
Proof.
  intros r. pose proof (length_padding (length bytes)) as Hp. unfold padding in *. fold r in Hp |- *. unfold Rust.tail_of. fold r.
  assert (r < 64)%nat as Hr by (apply Nat.mod_upper_bound; lia).
  assert (r <= length bytes)%nat as Hle by (apply Nat.Div0.mod_le).
  set (m := drop (length bytes - r) bytes). assert (length m = r) as Hm by (unfold m; rewrite length_drop; lia).
  set (P := if (r <? 56)%nat then 64%nat else 128%nat) in *. set (be := to_be_bytes 8 _) in *.
  assert (length be = 8%nat) as Hb by apply length_be. clearbody be m.
  rewrite !length_app, length_replicate, Hb in Hp. cbn [length] in Hp. set (z := ((119 - r) mod 64)%nat) in *.
  unfold Rust.copy_into at 2. rewrite take_0, Hm, drop_replicate. cbn [app Nat.add].
  replace (128 - r)%nat with (S (127 - r)) by lia. cbn [replicate].
  rewrite insert_app_r_alt by lia. replace (r - length m)%nat with 0%nat by lia. cbn [insert list_insert].
  unfold Rust.copy_into. exists (drop (P - 8 + length be) (m ++ 128 :: replicate (127 - r) 0)).
  replace (127 - r)%nat with (z + (127 - r - z))%nat by (destruct (r <? 56)%nat eqn:E; [|apply Nat.ltb_ge in E]; subst P; lia).
  rewrite replicate_add. rewrite <- !app_assoc. cbn [app].
  change (m ++ 128 :: ?l) with (m ++ ([128] ++ l)). rewrite (app_assoc [128]), (app_assoc m).
  rewrite take_app_length' by (rewrite !length_app, length_replicate; cbn [length]; lia). by rewrite <- !app_assoc.
Qed.
Lemma rust_write_digest st : length st = 8%nat ->
  fold_left (fun digest '(index, value) => Rust.copy_into digest (index * 4) (to_be_bytes 4 value))
    (combine (seq 0 8) st) (replicate 32 0) = digest_bytes st.
Proof. intros Hl. do 9 (destruct st as [|? st]; try done). Qed.
Section Padded.
Context (compress : list Z -> list Z -> list Z) (bytes : list Z).
Let q := (length bytes / 64)%nat.
Let r := (length bytes mod 64)%nat.
Let P := if (r <? 56)%nat then 64%nat else 128%nat.
Lemma rust_compress st :
  Rust.compress_loop compress (P / 64) (Rust.tail_of bytes) (Rust.compress_loop compress q bytes st) =
  compress_blocks compress (length (pad bytes) / 64) st (pad bytes).
Proof.
  rewrite !compress_loop_blocks.
  pose proof (Nat.div_mod_eq (length bytes) 64) as Hd. fold q r in Hd. pose proof (length_padding (length bytes)) as Hp. fold r P in Hp.
  assert (length bytes - r = q * 64)%nat as Hq by lia.
  destruct (rust_tail bytes) as [rest Ht]. fold r in Ht. rewrite Hq in Ht.
  assert (pad bytes = take (q * 64) bytes ++ (drop (q * 64) bytes ++ padding (length bytes))) as Hpad.
  { rewrite app_assoc, take_drop. done. }
  assert (length (pad bytes) / 64 = q + P / 64)%nat as ->.
  { change (pad bytes) with (bytes ++ padding (length bytes)). rewrite length_app.
    replace (length bytes + length (padding (length bytes)))%nat with (P + q * 64)%nat by lia.
    rewrite Nat.div_add by lia. lia. }
  assert (length (take (q * 64) bytes) = q * 64)%nat as Hlq by (rewrite length_take; lia).
  rewrite compress_blocks_add, Hpad, drop_app_length' by lia.
  assert (compress_blocks compress q st bytes = compress_blocks compress q st (take (q * 64) bytes)) as ->.
  { rewrite <- (take_drop (q * 64) bytes) at 1. apply compress_blocks_prefix. lia. }
  rewrite (compress_blocks_prefix _ q) by lia.
  rewrite Ht, app_assoc, compress_blocks_prefix; [done|]. rewrite length_app, length_drop.
  assert (P / 64 * 64 = P)%nat by (unfold P; by destruct (r <? 56)%nat). lia.
Qed.
End Padded.
Lemma rust_sha256 bytes : Rust.sha256_digest bytes = sha256 bytes.
Proof.
  unfold Rust.sha256_digest, sha256. rewrite rust_compress. apply rust_write_digest.
  apply length_blocks; [apply length_compress|done].
Qed.
Lemma length_sha256 bytes : length (sha256 bytes) = 32%nat.
Proof.
  unfold sha256. assert (length (compress_blocks sha256_compress (length (pad bytes) / 64) SHA256_INITIAL (pad bytes)) = 8%nat) as Hl
    by (apply length_blocks; [apply length_compress|done]).
  destruct (compress_blocks _ _ _ _) as [|? l]; [done|]. do 8 (destruct l as [|? l]; try done).
Qed.
Lemma rust_hmac key data : Rust.hmac_sha256 key data = hmac_sha256 key data.
Proof.
  unfold Rust.hmac_sha256, hmac_sha256. rewrite !rust_sha256.
  assert (Rust.copy_into (replicate 64 0) 0 (if (64 <? length key)%nat then sha256 key else key) = hmac_key key) as ->.
  { unfold Rust.copy_into, hmac_key. rewrite take_0, drop_replicate. cbn [app Nat.add]. done. }
  assert (length (hmac_key key) = 64%nat) as Hl.
  { unfold hmac_key. destruct (Nat.ltb_spec 64 (length key)); rewrite length_app, length_replicate, ?length_sha256; lia. }
  assert (forall x, map (fun index => Z.lxor (nth index (hmac_key key) 0) x) (seq 0 64) = map (Z.lxor x) (hmac_key key)) as Hm.
  { intros x. rewrite <- Hl. clear Hl. set (f := Z.lxor x). induction (hmac_key key) as [|k l IH]; [done|].
    cbn [length seq map nth]. rewrite <- seq_shift, map_map. cbn [nth]. rewrite <- IH. unfold f. by rewrite Z.lxor_comm. }
  by rewrite !Hm.
Qed.
(** Digests are bytes. *)
Definition is_byte (b : Z) : bool := (0 <=? b) && (b <? 256).
Lemma be_is_byte n v : forallb is_byte (to_be_bytes n v) = true.
Proof.
  revert v. induction n as [|n IH]; intros v; [done|]. cbn [to_be_bytes]. rewrite forallb_app, IH. cbn.
  unfold is_byte. pose proof (Z.mod_pos_bound v 256). lia.
Qed.
Lemma sha256_is_byte bytes : forallb is_byte (sha256 bytes) = true.
Proof.
  unfold sha256, digest_bytes. induction (compress_blocks _ _ _ _) as [|v l IH]; [done|].
  cbn [flat_map]. by rewrite forallb_app, be_is_byte, IH.
Qed.
