(* ===== verification/Engines.v ===== *)
(** The byte-oriented engines ([services/engine_runtime.py] and
    [services/engine_router.py]): each operation's Python reference, the native
    implementation behind its C interface ([engines/rust-core/src/lib.rs],
    [engines/cpp-native/src]), and the dispatch between them. *)
From S2P Require Import Prelude Json Sha256.
#[local] Open Scope Z_scope.

(** ** Python's [bytes] *)
Definition count_if (p : Z -> bool) (data : list Z) : Z := Z.of_nat (length (List.filter p data)).
Fixpoint starts_with (needle data : list Z) : bool :=
  match needle, data with
  | [], _ => true
  | n :: needle, d :: data => (n =? d) && starts_with needle data
  | _, [] => false
  end.
(** [data.find(needle)]: the first index, or [-1]. *)
Fixpoint find_at (needle data : list Z) (index : Z) : Z :=
  if starts_with needle data then index
  else match data with [] => -1 | _ :: data => find_at needle data (index + 1) end.
Definition bytes_find (needle data : list Z) : Z := find_at needle data 0.
(** [needle in data] *)
Fixpoint bytes_contains (needle data : list Z) : bool :=
  starts_with needle data || match data with [] => false | _ :: data => bytes_contains needle data end.
(** [data.count(needle)]: occurrences that do not overlap. *)
Fixpoint count_sub (fuel : nat) (needle data : list Z) : Z :=
  match fuel, data with
  | S fuel, _ :: rest =>
      if starts_with needle data then 1 + count_sub fuel needle (drop (length needle) data)
      else count_sub fuel needle rest
  | _, _ => 0
  end.
Definition bytes_count (needle data : list Z) : Z := count_sub (length data) needle data.
Definition lower_byte (b : Z) : Z := if (65 <=? b) && (b <=? 90) then b + 32 else b.
Definition bytes_lower (data : list Z) : list Z := map lower_byte data.
(** [data.split(bytes([sep]))] *)
Fixpoint bytes_split (sep : Z) (data : list Z) : list (list Z) :=
  match data with
  | [] => [[]]
  | b :: data =>
      if b =? sep then [] :: bytes_split sep data
      else match bytes_split sep data with line :: lines => (b :: line) :: lines | [] => [[b]] end
  end.
Fixpoint lstrip_byte (b : Z) (data : list Z) : list Z :=
  match data with d :: rest => if d =? b then lstrip_byte b rest else data | [] => [] end.
(** [data.hex()] *)
Definition hex_of (data : list Z) : string := fold_right (fun b rest => hex_digits 2 b rest) EmptyString data.
(** [bytes.fromhex(s)], blanks between the bytes skipped. *)
Definition fromhex_blank (c : ascii) : bool := ((9 <=? ord c) && (ord c <=? 13)) || (ord c =? 32).
Fixpoint fromhex (s : string) : result (list Z) :=
  match s with
  | EmptyString => Ok []
  | String a s1 =>
      if fromhex_blank a then fromhex s1
      else match s1 with
      | String b s2 =>
          match hex_val a, hex_val b with
          | Some x, Some y => let* rest := fromhex s2 in Ok (x * 16 + y :: rest)
          | _, _ => Err (ValueError "non-hexadecimal number found in fromhex() arg")
          end
      | EmptyString => Err (ValueError "non-hexadecimal number found in fromhex() arg")
      end
  end.

(** ** Results *)
Record ByteStats : Type := { bs_bytes : Z; bs_lines : Z; bs_ascii : Z; bs_non_ascii : Z }.
Record MimeScan : Type := {
  ms_bytes : Z; ms_header_bytes : Z; ms_body_bytes : Z; ms_lines : Z; ms_crlf_lines : Z;
  ms_non_ascii : Z; ms_nul_bytes : Z; ms_boundary_markers : Z; ms_attachment_signals : Z }.
Record BlobProfile : Type := {
  bp_bytes : Z; bp_nul_bytes : Z; bp_control_bytes : Z; bp_high_bytes : Z; bp_fnv1a64 : Z }.

Definition zlength (data : list Z) : Z := Z.of_nat (length data).
Definition line_count (data : list Z) : Z :=
  match data with [] => 0 | _ => bytes_count [10] data + 1 end.
Definition header_break : list Z := [13; 10; 13; 10].
Definition bare_break : list Z := [10; 10].
Definition crlf : list Z := [13; 10].
Definition dashes : list Z := [45; 45].

(** ** The Python references *)
Definition python_byte_stats (data : list Z) : ByteStats := {|
  bs_bytes := zlength data; bs_lines := line_count data;
  bs_ascii := count_if (fun value => value <? 128) data;
  bs_non_ascii := count_if (fun value => 128 <=? value) data |}.
Definition python_mime_scan (data : list Z) : MimeScan :=
  let split_at := bytes_find header_break data in
  let separator := 4 in
  let '(split_at, separator) := if split_at <? 0 then (bytes_find bare_break data, 2) else (split_at, separator) in
  let header_bytes := if split_at <? 0 then zlength data else split_at + separator in
  let lower := bytes_lower data in
  let attachment_signals := if bytes_contains (bytes_of "content-disposition") lower ||
    bytes_contains (bytes_of "filename") lower || bytes_contains (bytes_of "name") lower then 1 else 0 in
  {| ms_bytes := zlength data; ms_header_bytes := header_bytes;
     ms_body_bytes := Z.max 0 (zlength data - header_bytes);
     ms_lines := line_count data; ms_crlf_lines := bytes_count crlf data;
     ms_non_ascii := count_if (fun value => 128 <=? value) data; ms_nul_bytes := bytes_count [0] data;
     ms_boundary_markers := Z.of_nat (length (List.filter (fun line => starts_with dashes (lstrip_byte 13 line)) (bytes_split 10 data)));
     ms_attachment_signals := attachment_signals |}.
Definition fnv_offset : Z := 14695981039346656037.
Definition fnv_prime : Z := 1099511628211.
Definition python_fnv1a64 (data : list Z) : Z :=
  fold_left (fun value byte => Z.land (Z.lxor value byte * fnv_prime) (2 ^ 64 - 1)) data fnv_offset.
Definition is_control (value : Z) : bool := (value <? 32) && negb ((value =? 9) || (value =? 10) || (value =? 13)).
Definition python_blob_profile (data : list Z) : BlobProfile := {|
  bp_bytes := zlength data; bp_nul_bytes := bytes_count [0] data;
  bp_control_bytes := count_if is_control data; bp_high_bytes := count_if (fun value => 128 <=? value) data;
  bp_fnv1a64 := python_fnv1a64 data |}.
Definition python_sha256 (data : list Z) : string := hex_of (sha256 data).
Definition python_hmac_sha256 (key data : list Z) : string := hex_of (hmac_sha256 key data).

(** ** The native implementations *)
Module Native.
(** [slice.windows(n)]: every run of [n] consecutive bytes ([n > 0]). *)
Definition windows (n : nat) (data : list Z) : list (list Z) :=
  map (fun i => take n (drop i data)) (seq 0 (length data + 1 - n)).
(** [iter.position(p)] *)
Fixpoint position {A} (p : A -> bool) (l : list A) : option Z :=
  match l with [] => None | x :: l => if p x then Some 0 else option_map (Z.add 1) (position p l) end.
Definition count_lines (bytes : list Z) : Z :=
  match bytes with [] => 0 | _ => count_if (fun value => value =? 10) bytes + 1 end.
Definition byte_stats (bytes : list Z) : ByteStats :=
  let ascii := count_if (fun value => value <? 128) bytes in
  {| bs_bytes := zlength bytes; bs_lines := count_lines bytes; bs_ascii := ascii;
     bs_non_ascii := Z.max 0 (zlength bytes - ascii) |}.
Definition contains_ascii_case_insensitive (haystack needle : list Z) : bool :=
  match needle with
  | [] => true
  | _ =>
      if zlength haystack <? zlength needle then false
      else existsb (fun window => forallb (fun p => lower_byte (fst p) =? lower_byte (snd p)) (combine window needle))
             (windows (length needle) haystack)
  end.
Definition split_position (bytes : list Z) : option Z :=
  let split := if 4 <=? zlength bytes
    then option_map (fun index => index + 4) (position (fun window => bool_decide (window = header_break)) (windows 4 bytes))
    else None in
  match split with
  | None => if 2 <=? zlength bytes
    then option_map (fun index => index + 2) (position (fun window => bool_decide (window = bare_break)) (windows 2 bytes))
    else None
  | s => s
  end.
Definition trim_line (line : list Z) : list Z :=
  match position (fun value => negb (value =? 13)) line with Some index => drop (Z.to_nat index) line | None => [] end.
Definition mime_scan (bytes : list Z) : MimeScan :=
  let header_bytes := match split_position bytes with Some index => index | None => zlength bytes end in
  {| ms_bytes := zlength bytes; ms_header_bytes := header_bytes;
     ms_body_bytes := Z.max 0 (zlength bytes - header_bytes); ms_lines := count_lines bytes;
     ms_crlf_lines := Z.of_nat (length (List.filter (fun window => bool_decide (window = crlf)) (windows 2 bytes)));
     ms_non_ascii := count_if (fun value => negb (value <? 128)) bytes;
     ms_nul_bytes := count_if (fun value => value =? 0) bytes;
     ms_boundary_markers := Z.of_nat (length (List.filter (fun line => starts_with dashes (trim_line line)) (bytes_split 10 bytes)));
     ms_attachment_signals :=
       if contains_ascii_case_insensitive bytes (bytes_of "content-disposition") ||
          contains_ascii_case_insensitive bytes (bytes_of "filename") ||
          contains_ascii_case_insensitive bytes (bytes_of "name") then 1 else 0 |}.
(** The C++ engine: unsigned 64-bit multiplication, one pass. *)
Definition fnv_step (hash value : Z) : Z := (Z.lxor hash value * fnv_prime) mod 2 ^ 64.
Definition fnv1a64 (data : list Z) : Z := fold_left fnv_step data fnv_offset.
Definition profile_step (r : BlobProfile) (value : Z) : BlobProfile := {|
  bp_bytes := bp_bytes r;
  bp_nul_bytes := if value =? 0 then bp_nul_bytes r + 1 else bp_nul_bytes r;
  bp_control_bytes := if (value <? 32) && negb (value =? 9) && negb (value =? 10) && negb (value =? 13)
    then bp_control_bytes r + 1 else bp_control_bytes r;
  bp_high_bytes := if 128 <=? value then bp_high_bytes r + 1 else bp_high_bytes r;
  bp_fnv1a64 := fnv_step (bp_fnv1a64 r) value |}.
Definition blob_profile_scan (data : list Z) : BlobProfile :=
  fold_left profile_step data
    {| bp_bytes := zlength data; bp_nul_bytes := 0; bp_control_bytes := 0; bp_high_bytes := 0; bp_fnv1a64 := fnv_offset |}.

(** The C interface: a null pointer with a length is refused with code 1, and
    the output is written only with code 0. *)
Definition call {A} (f : list Z -> A) (pointer : option (list Z)) (len : Z) : Z * option A :=
  match pointer with
  | None => if len =? 0 then (0, Some (f [])) else (1, None)
  | Some data => (0, Some (f (if len =? 0 then [] else take (Z.to_nat len) data)))
  end.
Definition call2 {A} (f : list Z -> list Z -> A) (kp : option (list Z)) (klen : Z) (dp : option (list Z)) (dlen : Z) : Z * option A :=
  match call (fun k => k) kp klen, call (fun d => d) dp dlen with
  | (0, Some k), (0, Some d) => (0, Some (f k d))
  | _, _ => (1, None)
  end.
End Native.

(** ** The dispatch *)

(** Which libraries [_load_rust] and [_load_cpp] find. *)
Record Libraries : Type := { rust : bool; cpp : bool }.
Definition pointer_of (data : list Z) : option (list Z) := match data with [] => None | _ => Some data end.
(** A native call whose failure code selects the reference. *)
Definition dispatch {A} (loaded : bool) (engine : string) (reply : Z * option A) (fallback : A) : A * string :=
  if negb loaded then (fallback, "python-fallback"%string)
  else match reply with
  | (0, Some out) => (out, engine)
  | _ => (fallback, "python-fallback"%string)
  end.
Section Dispatch.
Context (libs : Libraries).
Definition byte_stats (data : list Z) : ByteStats * string :=
  dispatch (rust libs) "rust" (Native.call Native.byte_stats (pointer_of data) (zlength data)) (python_byte_stats data).
Definition mime_scan (data : list Z) : MimeScan * string :=
  dispatch (rust libs) "rust" (Native.call Native.mime_scan (pointer_of data) (zlength data)) (python_mime_scan data).
Definition sha256_digest (data : list Z) : string * string :=
  dispatch (rust libs) "rust" (Native.call (fun d => hex_of (Rust.sha256_digest d)) (pointer_of data) (zlength data)) (python_sha256 data).
Definition engine_hmac_sha256 (key data : list Z) : string * string :=
  dispatch (rust libs) "rust"
    (Native.call2 (fun k d => hex_of (Rust.hmac_sha256 k d)) (pointer_of key) (zlength key) (pointer_of data) (zlength data))
    (python_hmac_sha256 key data).
(** The fingerprint has no failure code: the C function answers 0 for a null pointer. *)
Definition fast_fingerprint (data : list Z) : Z * string :=
  if negb (cpp libs) then (python_fnv1a64 data, "python-fallback"%string)
  else (match Native.call Native.fnv1a64 (pointer_of data) (zlength data) with (_, Some h) => h | _ => 0 end, "cpp"%string).
Definition blob_profile (data : list Z) : BlobProfile * string :=
  dispatch (cpp libs) "cpp" (Native.call Native.blob_profile_scan (pointer_of data) (zlength data)) (python_blob_profile data).

(** [execute_binary(operation, data)] of the router. *)
Inductive BinaryValue : Type :=
| VByteStats (v : ByteStats)
| VMimeScan (v : MimeScan)
| VDigest (v : string)
| VFingerprint (v : Z)
| VBlobProfile (v : BlobProfile).
Definition tag {A} (f : A -> BinaryValue) (r : A * string) : BinaryValue * string := (f (fst r), snd r).
Definition BINARY_OPERATIONS : list (string * (list Z -> BinaryValue * string)) := [
  ("mail.byte_stats"%string, fun data => tag VByteStats (byte_stats data));
  ("mail.mime_scan"%string, fun data => tag VMimeScan (mime_scan data));
  ("mail.sha256"%string, fun data => tag VDigest (sha256_digest data));
  ("crypto.sha256"%string, fun data => tag VDigest (sha256_digest data));
  ("native.fingerprint"%string, fun data => tag VFingerprint (fast_fingerprint data));
  ("native.blob_profile"%string, fun data => tag VBlobProfile (blob_profile data))].
Definition execute_binary (operation : string) (data : list Z) : result (BinaryValue * string) :=
  match dict_get operation BINARY_OPERATIONS with
  | None => Err (ValueError ("Unsupported binary engine operation: " ++ operation)%string)
  | Some handler => Ok (handler data)
  end.
Definition execute_hmac_sha256 (key data : list Z) : string * string := engine_hmac_sha256 key data.
End Dispatch.

(** ** Lemmas on bytes *)
Lemma starts_with_take needle data : starts_with needle data = bool_decide (take (length needle) data = needle).
Proof.
  revert data. induction needle as [|n needle IH]; intros [|d data]; cbn; try done.
  destruct (Z.eqb_spec n d) as [->|Hd]; cbn; [rewrite IH; apply bool_decide_ext; by split; [intros ->|intros [= ?]]|].
  by rewrite bool_decide_eq_false_2 by congruence.
Qed.
Lemma starts_with_short needle data : (length data < length needle)%nat -> starts_with needle data = false.
Proof.
  revert data. induction needle as [|n needle IH]; intros [|d data] Hl; cbn in *; try done; try lia.
  rewrite IH by lia. by rewrite andb_false_r.
Qed.
Lemma windows_cons n b data : (0 < n)%nat -> (n <= S (length data))%nat ->
  Native.windows n (b :: data) = take n (b :: data) :: Native.windows n data.
Proof.
  intros Hn Hl. unfold Native.windows. cbn [length]. replace (S (length data) + 1 - n)%nat with (S (length data + 1 - n)) by lia.
  cbn [seq map]. f_equal. rewrite <- seq_shift, map_map. done.
Qed.
Lemma windows_short n data : (length data < n)%nat -> Native.windows n data = [].
Proof. intros Hl. unfold Native.windows. by replace (length data + 1 - n)%nat with 0%nat by lia. Qed.
(** Scanning the windows is scanning the suffixes. *)
Lemma position_find needle data index : needle <> [] -> 0 <= index ->
  find_at needle data index =
  match Native.position (fun window => bool_decide (window = needle)) (Native.windows (length needle) data) with
  | Some i => index + i | None => -1 end.
Proof.
  intros Hn. assert (0 < length needle)%nat by (destruct needle; cbn; [done|lia]).
  revert index. induction data as [|b data IH]; intros index Hi; cbn [find_at].
  - rewrite starts_with_short by (cbn; lia). by rewrite windows_short by (cbn; lia).
  - destruct (decide (length needle <= S (length data))%nat).
    + rewrite windows_cons, starts_with_take by done. cbn [Native.position]. rewrite IH by lia.
      case_bool_decide; [lia|]. destruct (Native.position _ _); cbn; lia.
    + rewrite starts_with_short by (cbn; lia). rewrite windows_short by (cbn; lia). cbn [Native.position].
      rewrite IH by lia. by rewrite windows_short by lia.
Qed.
Lemma position_nonneg {A} (p : A -> bool) l i : Native.position p l = Some i -> 0 <= i.
Proof.
  revert i. induction l as [|x l IH]; intros i; cbn; [done|]. destruct (p x); [intros [= <-]; lia|].
  destruct (Native.position p l); cbn; [intros [= <-]|done]. specialize (IH _ eq_refl). lia.
Qed.
Lemma count_byte fuel b data : (length data <= fuel)%nat -> count_sub fuel [b] data = count_if (fun value => value =? b) data.
Proof.
  revert data. induction fuel as [|fuel IH]; intros [|d data] Hl; cbn [length] in Hl; try done; [lia|].
  cbn [count_sub starts_with length drop]. rewrite andb_true_r. unfold count_if. cbn [List.filter].
  rewrite drop_0, IH by lia. rewrite (Z.eqb_sym d b). unfold count_if. destruct (b =? d); cbn [length]; lia.
Qed.
Lemma bytes_count_byte b data : bytes_count [b] data = count_if (fun value => value =? b) data.
Proof. by apply count_byte. Qed.
(** Two different bytes never overlap, so counting windows counts occurrences. *)
Lemma count_pair fuel a b data : a <> b -> (length data <= fuel)%nat ->
  count_sub fuel [a; b] data = Z.of_nat (length (List.filter (fun window => bool_decide (window = [a; b])) (Native.windows 2 data))).
Proof.
  intros Hab. revert data. induction fuel as [fuel IH] using lt_wf_ind. intros data Hl.
  destruct data as [|x [|y data]]; destruct fuel as [|fuel]; try (cbn in Hl; lia).
  - done.
  - done.
  - cbn [count_sub starts_with]. rewrite andb_false_r. destruct fuel; done.
  - rewrite windows_cons by (cbn; lia). cbn [take]. cbn [count_sub length drop List.filter]. rewrite drop_0.
    rewrite starts_with_take. cbn [length take]. case_bool_decide as E.
    + injection E as -> ->. cbn [length]. destruct fuel as [|fuel]; [cbn in Hl; lia|].
      assert (Native.windows 2 (b :: data) = [] \/ exists w l, Native.windows 2 (b :: data) = (b :: w) :: l /\ l = Native.windows 2 data) as Hw.
      { destruct data as [|z data]; [by left|]. right. exists [z], (Native.windows 2 (z :: data)). by rewrite windows_cons by (cbn; lia). }
      rewrite (IH (S fuel)) by (cbn in Hl |- *; lia). destruct Hw as [Hw|(w & l & Hw & ->)]; rewrite Hw.
      * destruct data as [|z data]; [done|]. by rewrite windows_cons in Hw by (cbn; lia).
      * cbn [List.filter]. rewrite bool_decide_eq_false_2 by congruence. lia.
    + by apply IH; cbn in Hl |- *; lia.
Qed.
Lemma bytes_count_pair a b data : a <> b ->
  bytes_count [a; b] data = Z.of_nat (length (List.filter (fun window => bool_decide (window = [a; b])) (Native.windows 2 data))).
Proof. intros Hab. by apply count_pair. Qed.
Lemma count_if_negb p data : count_if (fun v => negb (p v)) data = zlength data - count_if p data.
Proof.
  unfold count_if, zlength. induction data as [|d data IH]; [done|]. cbn [List.filter]. destruct (p d); cbn [negb length]; lia.
Qed.
Lemma count_if_ext p q data : (forall v, p v = q v) -> count_if p data = count_if q data.
Proof. intros He. unfold count_if. induction data as [|d data IH]; [done|]. cbn. rewrite He. destruct (q d); cbn [length]; lia. Qed.
Lemma trim_lstrip line : Native.trim_line line = lstrip_byte 13 line.
Proof.
  unfold Native.trim_line. induction line as [|b line IH]; [done|]. cbn. destruct (b =? 13); cbn; [|done].
  rewrite <- IH. destruct (Native.position _ _) eqn:E; cbn; [|done].
  apply position_nonneg in E. by replace (Z.to_nat (1 + z)) with (S (Z.to_nat z)) by lia.
Qed.
(** A window compared byte by byte after lowering both sides. *)
Lemma window_matches needle data : (length needle <= length data)%nat -> bytes_lower needle = needle ->
  forallb (fun p => lower_byte (fst p) =? lower_byte (snd p)) (combine (take (length needle) data) needle) = starts_with needle (bytes_lower data).
Proof.
  revert data. induction needle as [|n needle IH]; intros [|d data] Hl Hn; cbn in *; try done; [lia|].
  injection Hn as Hn1 Hn. rewrite IH by (done || lia). by rewrite Hn1, Z.eqb_sym.
Qed.
Lemma contains_windows needle data : needle <> [] -> bytes_lower needle = needle ->
  Native.contains_ascii_case_insensitive data needle = bytes_contains needle (bytes_lower data).
Proof.
  intros Hne Hn. assert (0 < length needle)%nat by (destruct needle; cbn; [done|lia]).
  assert (Native.contains_ascii_case_insensitive data needle =
    existsb (fun window => forallb (fun p => lower_byte (fst p) =? lower_byte (snd p)) (combine window needle))
      (Native.windows (length needle) data)) as ->.
  { unfold Native.contains_ascii_case_insensitive. destruct needle as [|n needle]; [done|]. unfold zlength.
    destruct (Z.ltb_spec (Z.of_nat (length data)) (Z.of_nat (length (n :: needle)))); [|done]. by rewrite windows_short by lia. }
  induction data as [|b data IH].
  - rewrite windows_short by (cbn; lia). cbn. by rewrite starts_with_short by (cbn; lia).
  - destruct (decide (length needle <= S (length data))%nat).
    + rewrite windows_cons by done. cbn [existsb bytes_lower map bytes_contains]. fold (bytes_lower data).
      rewrite IH, window_matches by (done || cbn; lia). done.
    + rewrite windows_short in * by (cbn; lia). cbn [existsb bytes_lower map bytes_contains] in *. fold (bytes_lower data).
      rewrite <- IH. rewrite starts_with_short by (unfold bytes_lower; cbn; rewrite length_map; lia). done.
Qed.

(** ** The engines agree with their references *)
Lemma call_pointer {A} (f : list Z -> A) data : Native.call f (pointer_of data) (zlength data) = (0, Some (f data)).
Proof.
  destruct data as [|b data]; [done|]. unfold Native.call, pointer_of, zlength. rewrite Nat2Z.id, firstn_all.
  by rewrite (proj2 (Z.eqb_neq _ 0)) by (cbn; lia).
Qed.
Lemma call2_pointer {A} (f : list Z -> list Z -> A) key data :
  Native.call2 f (pointer_of key) (zlength key) (pointer_of data) (zlength data) = (0, Some (f key data)).
Proof. unfold Native.call2. by rewrite !call_pointer. Qed.
Lemma native_lines data : Native.count_lines data = line_count data.
Proof. unfold line_count. by rewrite bytes_count_byte. Qed.
Lemma native_byte_stats data : Native.byte_stats data = python_byte_stats data.
Proof.
  unfold Native.byte_stats, python_byte_stats. f_equal; [apply native_lines|].
  rewrite <- count_if_negb, (count_if_ext _ (fun v => 128 <=? v)); [|intros v; lia]. unfold count_if. lia.
Qed.
Lemma native_split data :
  match Native.split_position data with Some index => index | None => zlength data end =
  let '(split_at, separator) := if bytes_find header_break data <? 0 then (bytes_find bare_break data, 2) else (bytes_find header_break data, 4) in
  if split_at <? 0 then zlength data else split_at + separator.
Proof.
  unfold Native.split_position, bytes_find. rewrite !position_find by done. cbn [length header_break bare_break].
  assert (forall n, zlength data < Z.of_nat n -> Native.windows n data = []) as Hw by (unfold zlength; intros; apply windows_short; lia).
  assert (forall n (p : list Z -> bool), (if Z.of_nat n <=? zlength data then option_map (fun i => i + Z.of_nat n) (Native.position p (Native.windows n data)) else None) =
    option_map (fun i => i + Z.of_nat n) (Native.position p (Native.windows n data))) as Hif.
  { intros n p. destruct (Z.leb_spec (Z.of_nat n) (zlength data)); [done|]. by rewrite Hw. }
  rewrite (Hif 4%nat), (Hif 2%nat).
  destruct (Native.position _ (Native.windows 4 data)) as [i|] eqn:E4; [apply position_nonneg in E4|];
    destruct (Native.position _ (Native.windows 2 data)) as [j|] eqn:E2; try apply position_nonneg in E2;
    cbn [option_map]; repeat (match goal with |- context [if ?a <? 0 then _ else _] => destruct (Z.ltb_spec a 0); try lia end); done.
Qed.
Lemma native_mime_scan data : Native.mime_scan data = python_mime_scan data.
Proof.
  unfold Native.mime_scan, python_mime_scan. rewrite native_split, native_lines.
  destruct (if bytes_find _ _ <? 0 then _ else _) as [split_at separator]. f_equal.
  - symmetry. by apply (bytes_count_pair 13 10).
  - apply count_if_ext. intros v. lia.
  - by rewrite bytes_count_byte.
  - do 2 f_equal. apply List.filter_ext. intros line. by rewrite trim_lstrip.
  - by rewrite !contains_windows.
Qed.
Lemma native_fnv data : Native.fnv1a64 data = python_fnv1a64 data.
Proof.
  unfold Native.fnv1a64, python_fnv1a64. generalize fnv_offset. induction data as [|b data IH]; intros h; [done|].
  cbn [fold_left]. rewrite <- IH. f_equal. unfold Native.fnv_step. symmetry. apply (Z.land_ones _ 64). lia.
Qed.
Lemma profile_loop data r :
  fold_left Native.profile_step data r = {|
    bp_bytes := bp_bytes r; bp_nul_bytes := bp_nul_bytes r + count_if (fun v => v =? 0) data;
    bp_control_bytes := bp_control_bytes r + count_if is_control data;
    bp_high_bytes := bp_high_bytes r + count_if (fun v => 128 <=? v) data;
    bp_fnv1a64 := fold_left Native.fnv_step data (bp_fnv1a64 r) |}.
Proof.
  revert r. induction data as [|b data IH]; intros r; cbn [fold_left].
  - unfold count_if. cbn. destruct r; cbn. f_equal; lia.
  - rewrite IH. unfold Native.profile_step at 1 2 3 4 5. cbn [bp_bytes bp_nul_bytes bp_control_bytes bp_high_bytes bp_fnv1a64].
    unfold count_if. cbn [List.filter]. f_equal; try done.
    + destruct (b =? 0); cbn [length]; lia.
    + assert (is_control b = (b <? 32) && negb (b =? 9) && negb (b =? 10) && negb (b =? 13)) as ->.
      { unfold is_control. by rewrite !negb_orb, !andb_assoc. }
      destruct (_ && negb (b =? 13)); cbn [length]; lia.
    + destruct (128 <=? b); cbn [length]; lia.
Qed.
Lemma native_blob_profile data : Native.blob_profile_scan data = python_blob_profile data.
Proof.
  unfold Native.blob_profile_scan. rewrite profile_loop. cbn [bp_bytes bp_nul_bytes bp_control_bytes bp_high_bytes bp_fnv1a64].
  unfold python_blob_profile. by rewrite bytes_count_byte, <- native_fnv.
Qed.

Definition engine_name (loaded : bool) (engine : string) : string := if loaded then engine else "python-fallback"%string.
Lemma dispatch_exact {A} loaded engine (out fallback : A) :
  out = fallback -> dispatch loaded engine (0, Some out) fallback = (fallback, engine_name loaded engine).
Proof. intros ->. by destruct loaded. Qed.
Lemma sha256_digest_exact libs data : sha256_digest libs data = (python_sha256 data, engine_name (rust libs) "rust").
Proof. unfold sha256_digest. rewrite call_pointer. apply dispatch_exact. by rewrite rust_sha256. Qed.
Lemma hmac_sha256_exact libs key data :
  execute_hmac_sha256 libs key data = (python_hmac_sha256 key data, engine_name (rust libs) "rust").
Proof. unfold execute_hmac_sha256, engine_hmac_sha256. rewrite call2_pointer. apply dispatch_exact. by rewrite rust_hmac. Qed.

(** ** Hexadecimal digests *)
Definition hex_pair_ok (b : nat) : bool :=
  match hex_of [Z.of_nat b] with
  | String x (String y EmptyString) =>
      bool_decide (hex_val x = Some (Z.of_nat b / 16)) && bool_decide (hex_val y = Some (Z.of_nat b mod 16)) &&
      negb (fromhex_blank x) && is_ascii (String x (String y EmptyString))
  | _ => false
  end.
Lemma hex_pair b : is_byte b = true -> hex_pair_ok (Z.to_nat b) = true.
Proof.
  intros Hb. assert (forallb hex_pair_ok (seq 0 256) = true) as Hall by (vm_compute; reflexivity).
  rewrite forallb_forall in Hall. apply Hall, in_seq. unfold is_byte in Hb. lia.
Qed.
Lemma hex_cons b data : is_byte b = true -> exists x y, hex_of (b :: data) = String x (String y (hex_of data)) /\
  hex_val x = Some (b / 16) /\ hex_val y = Some (b mod 16) /\ fromhex_blank x = false /\ ord x < 128 /\ ord y < 128.
Proof.
  intros Hb. pose proof (hex_pair b Hb) as Hp. unfold hex_pair_ok in Hp. rewrite Z2Nat.id in Hp by (unfold is_byte in Hb; lia).
  unfold hex_of in Hp. cbn [fold_right] in Hp. cbn [hex_digits] in Hp. rewrite !andb_true_iff, negb_true_iff in Hp. cbn [is_ascii] in Hp.
  destruct Hp as [[[Hx Hy] Hbl] Ha]. apply bool_decide_eq_true in Hx, Hy.
  eexists _, _. split; [reflexivity|]. rewrite !andb_true_iff, !Z.ltb_lt in Ha. naive_solver.
Qed.
Lemma fromhex_hex data : forallb is_byte data = true -> fromhex (hex_of data) = Ok data.
Proof.
  induction data as [|b data IH]; [done|]. cbn [forallb]. rewrite andb_true_iff. intros [Hb Hd].
  destruct (hex_cons b data Hb) as (x & y & -> & Hx & Hy & Hbl & _). cbn [fromhex]. rewrite Hbl, Hx, Hy, IH by done. cbn.
  do 2 f_equal. pose proof (Z.div_mod b 16). lia.
Qed.
Lemma hex_ascii data : forallb is_byte data = true -> is_ascii (hex_of data) = true.
Proof.
  induction data as [|b data IH]; [done|]. cbn [forallb]. rewrite andb_true_iff. intros [Hb Hd].
  destruct (hex_cons b data Hb) as (x & y & -> & _ & _ & _ & H1 & H2). cbn [is_ascii]. rewrite IH by done. lia.
Qed.
Lemma hex_inj d1 d2 : forallb is_byte d1 = true -> forallb is_byte d2 = true -> hex_of d1 = hex_of d2 -> d1 = d2.
Proof. intros H1 H2 He. apply (f_equal fromhex) in He. rewrite !fromhex_hex in He by done. congruence. Qed.

(** C33. Whichever native libraries are present, every byte operation of the
    engine runtime returns exactly the value of its Python reference (byte
    statistics, MIME scan, SHA-256, HMAC-SHA256, FNV-1a fingerprint, blob
    profile), labelled with the engine that computed it; so the router's answer
    does not depend on the deployment, and it refuses exactly the unknown
    operations. *)
Theorem engines_exact libs operation key data :
  byte_stats libs data = (python_byte_stats data, engine_name (rust libs) "rust") /\
  mime_scan libs data = (python_mime_scan data, engine_name (rust libs) "rust") /\
  sha256_digest libs data = (python_sha256 data, engine_name (rust libs) "rust") /\
  execute_hmac_sha256 libs key data = (python_hmac_sha256 key data, engine_name (rust libs) "rust") /\
  fast_fingerprint libs data = (python_fnv1a64 data, engine_name (cpp libs) "cpp") /\
  blob_profile libs data = (python_blob_profile data, engine_name (cpp libs) "cpp") /\
  match execute_binary libs operation data, execute_binary {| rust := false; cpp := false |} operation data with
  | Ok (v, _), Ok (w, engine) => v = w /\ engine = "python-fallback"%string
  | Err e, Err e' => e = e' /\ operation ∉ map fst (BINARY_OPERATIONS libs)
  | _, _ => False
  end.
Proof.
  assert (byte_stats libs data = (python_byte_stats data, engine_name (rust libs) "rust")) as H1.
  { unfold byte_stats. rewrite call_pointer. apply dispatch_exact, native_byte_stats. }
  assert (mime_scan libs data = (python_mime_scan data, engine_name (rust libs) "rust")) as H2.
  { unfold mime_scan. rewrite call_pointer. apply dispatch_exact, native_mime_scan. }
  assert (fast_fingerprint libs data = (python_fnv1a64 data, engine_name (cpp libs) "cpp")) as H5.
  { unfold fast_fingerprint. rewrite call_pointer, native_fnv. by destruct (cpp libs). }
  assert (blob_profile libs data = (python_blob_profile data, engine_name (cpp libs) "cpp")) as H6.
  { unfold blob_profile. rewrite call_pointer. apply dispatch_exact, native_blob_profile. }
  repeat (split; [first [assumption|apply sha256_digest_exact|apply hmac_sha256_exact]|]).
  unfold execute_binary, BINARY_OPERATIONS. cbn [dict_get map fst].
  repeat (match goal with |- context [String.eqb operation ?s] => destruct (String.eqb_spec operation s) as [->|?] end;
    [cbv beta iota; rewrite ?H1, ?H2, ?sha256_digest_exact, ?H5, ?H6; done|]).
  split; [done|]. set_solver.
Qed.
