(* ===== verification/Base64.v ===== *)
(** [base64.urlsafe_b64encode] and [urlsafe_b64decode] as the identity server
    uses them: without padding in the encoding, with the padding restored
    before the decoding ([app/security.py], [app/passkeys.py]). *)
From S2P Require Import Prelude Json Sha256.
#[local] Open Scope string_scope.
#[local] Open Scope list_scope.
#[local] Open Scope Z_scope.

(** ** The alphabet: [A-Z a-z 0-9 - _] *)
Definition b64_char (n : Z) : ascii :=
  if n <? 26 then chr (65 + n) else if n <? 52 then chr (71 + n) else if n <? 62 then chr (n - 4)
  else if n =? 62 then "-"%char else "_"%char.
(** [urlsafe_b64decode] translates ["-_"] to ["+/"] and keeps ["+/"] itself. *)
Definition b64_val (c : ascii) : option Z :=
  let n := ord c in
  if (65 <=? n) && (n <=? 90) then Some (n - 65)
  else if (97 <=? n) && (n <=? 122) then Some (n - 71)
  else if (48 <=? n) && (n <=? 57) then Some (n + 4)
  else if (n =? 45) || (n =? 43) then Some 62
  else if (n =? 95) || (n =? 47) then Some 63 else None.

(** [urlsafe_b64encode(raw).rstrip(b"=").decode("ascii")] *)
Fixpoint b64url (raw : list Z) : string :=
  match raw with
  | a :: b :: c :: rest =>
      String (b64_char (Z.shiftr a 2)) (String (b64_char (Z.lor (Z.shiftl (Z.land a 3) 4) (Z.shiftr b 4)))
        (String (b64_char (Z.lor (Z.shiftl (Z.land b 15) 2) (Z.shiftr c 6))) (String (b64_char (Z.land c 63)) (b64url rest))))
  | [a; b] =>
      String (b64_char (Z.shiftr a 2)) (String (b64_char (Z.lor (Z.shiftl (Z.land a 3) 4) (Z.shiftr b 4)))
        (String (b64_char (Z.shiftl (Z.land b 15) 2)) EmptyString))
  | [a] => String (b64_char (Z.shiftr a 2)) (String (b64_char (Z.shiftl (Z.land a 3) 4)) EmptyString)
  | [] => EmptyString
  end.

(** [binascii.a2b_base64] (not strict): characters outside the alphabet are
    skipped, a completed padding ends the data, an incomplete quad is an error. *)
Fixpoint a2b (s : string) (quad pads left : Z) : result (list Z) :=
  match s with
  | EmptyString => if quad =? 0 then Ok [] else Err (ValueError "Incorrect padding")
  | String ch rest =>
      if ord ch =? 61 then
        if (2 <=? quad) && (4 <=? quad + (pads + 1)) then Ok []
        else a2b rest quad (if 2 <=? quad then pads + 1 else pads) left
      else
        match b64_val ch with
        | None => a2b rest quad pads left
        | Some this =>
            if quad =? 0 then a2b rest 1 0 this
            else if quad =? 1 then
              let* l := a2b rest 2 0 (Z.land this 15) in Ok (Z.lor (Z.shiftl left 2) (Z.shiftr this 4) :: l)
            else if quad =? 2 then
              let* l := a2b rest 3 0 (Z.land this 3) in Ok (Z.lor (Z.shiftl left 4) (Z.shiftr this 2) :: l)
            else let* l := a2b rest 0 0 0 in Ok (Z.lor (Z.shiftl left 6) this :: l)
        end
  end.
(** [_from_b64url]: [padding = "=" * ((4 - len(value) % 4) % 4)] *)
Fixpoint pad_signs (n : nat) : string := match n with O => EmptyString | S n => String "=" (pad_signs n) end.
Definition from_b64url (value : string) : result (list Z) :=
  let n := Z.of_nat (String.length value) in
  a2b (value ++ pad_signs (Z.to_nat ((4 - n mod 4) mod 4)))%string 0 0 0.

Example b64_examples :
  (b64url (bytes_of "any carnal pleas"), b64url [255; 254; 253], from_b64url "_-79", from_b64url "YQ", from_b64url "Y")
  = ("YW55IGNhcm5hbCBwbGVhcw", "__79", Ok [255; 238; 253], Ok [97], Err (ValueError "Incorrect padding")).
Proof. vm_compute. reflexivity. Qed.

(** * The round trip *)
Lemma forallb_range (p : Z -> bool) n : forallb (fun k => p (Z.of_nat k)) (seq 0 n) = true ->
  forall z, 0 <= z < Z.of_nat n -> p z = true.
Proof.
  intros H z Hz. rewrite forallb_forall in H. specialize (H (Z.to_nat z)).
  rewrite Z2Nat.id in H by lia. apply H, in_seq. lia.
Qed.
Definition char_ok (n : Z) : bool :=
  negb (ord (b64_char n) =? 61) && match b64_val (b64_char n) with Some m => m =? n | None => false end.
Lemma b64_val_char n : 0 <= n < 64 -> b64_val (b64_char n) = Some n /\ (ord (b64_char n) =? 61) = false.
Proof.
  intros Hn. assert (char_ok n = true) as H by (apply (forallb_range char_ok 64); [vm_compute; reflexivity|lia]).
  unfold char_ok in H. destruct (ord (b64_char n) =? 61); [done|].
  destruct (b64_val (b64_char n)); [|done]. apply Z.eqb_eq in H. by subst.
Qed.

(** The middle digits of three bytes, and what the decoder takes from them. *)
Definition digit2 (a b : Z) : Z := Z.lor (Z.shiftl (Z.land a 3) 4) (Z.shiftr b 4).
Definition digit3 (b c : Z) : Z := Z.lor (Z.shiftl (Z.land b 15) 2) (Z.shiftr c 6).
Definition byte_ok (a : Z) : bool :=
  (0 <=? Z.shiftr a 2) && (Z.shiftr a 2 <? 64) && (0 <=? Z.land a 63) && (Z.land a 63 <? 64) &&
  (Z.lor (Z.shiftl (Z.shiftr a 2) 2) (Z.land a 3) =? a) && (Z.lor (Z.shiftl (Z.shiftr a 4) 4) (Z.land a 15) =? a) &&
  (Z.lor (Z.shiftl (Z.shiftr a 6) 6) (Z.land a 63) =? a).
Definition pair_ok (a b : Z) : bool :=
  (0 <=? digit2 a b) && (digit2 a b <? 64) && (Z.shiftr (digit2 a b) 4 =? Z.land a 3) && (Z.land (digit2 a b) 15 =? Z.shiftr b 4) &&
  (0 <=? digit3 a b) && (digit3 a b <? 64) && (Z.shiftr (digit3 a b) 2 =? Z.land a 15) && (Z.land (digit3 a b) 3 =? Z.shiftr b 6).
Lemma is_byte_range a : is_byte a = true -> 0 <= a < 256.
Proof. unfold is_byte. intros [?%Z.leb_le ?%Z.ltb_lt]%andb_true_iff. done. Qed.
Lemma byte_all a : is_byte a = true -> byte_ok a = true.
Proof. intros ?%is_byte_range. apply (forallb_range byte_ok 256); [vm_compute; reflexivity|lia]. Qed.
Lemma pair_all a b : is_byte a = true -> is_byte b = true -> pair_ok a b = true.
Proof.
  intros ?%is_byte_range ?%is_byte_range. apply (forallb_range (pair_ok a) 256); [|lia].
  apply (forallb_range (fun a => forallb (fun k => pair_ok a (Z.of_nat k)) (seq 0 256)) 256); [vm_compute; reflexivity|lia].
Qed.
Ltac byte_facts :=
  repeat match goal with
  | H : is_byte ?a = true |- _ => lazymatch goal with Hk : byte_ok a = true |- _ => fail | _ => pose proof (byte_all a H) end
  | Ha : is_byte ?a = true, Hb : is_byte ?b = true |- _ =>
      lazymatch goal with Hk : pair_ok a b = true |- _ => fail | _ => pose proof (pair_all a b Ha Hb) end
  end;
  repeat match goal with
  | H : byte_ok _ = true |- _ => unfold byte_ok in H
  | H : pair_ok _ _ = true |- _ => unfold pair_ok in H
  | H : _ && _ = true |- _ => apply andb_true_iff in H as [? ?]
  | H : (_ <=? _) = true |- _ => apply Z.leb_le in H
  | H : (_ <? _) = true |- _ => apply Z.ltb_lt in H
  | H : (_ =? _) = true |- _ => apply Z.eqb_eq in H
  end.

(** One digit. *)
Lemma a2b_digit n rest quad pads left : 0 <= n < 64 ->
  a2b (String (b64_char n) rest) quad pads left =
  if quad =? 0 then a2b rest 1 0 n
  else if quad =? 1 then let* l := a2b rest 2 0 (Z.land n 15) in Ok (Z.lor (Z.shiftl left 2) (Z.shiftr n 4) :: l)
  else if quad =? 2 then let* l := a2b rest 3 0 (Z.land n 3) in Ok (Z.lor (Z.shiftl left 4) (Z.shiftr n 2) :: l)
  else let* l := a2b rest 0 0 0 in Ok (Z.lor (Z.shiftl left 6) n :: l).
Proof. intros [Hv He]%b64_val_char. cbn [a2b]. by rewrite He, Hv. Qed.

Lemma b64url_3 a b c rest :
  b64url (a :: b :: c :: rest) = String (b64_char (Z.shiftr a 2)) (String (b64_char (digit2 a b))
    (String (b64_char (digit3 b c)) (String (b64_char (Z.land c 63)) (b64url rest)))).
Proof. reflexivity. Qed.
Lemma b64url_2 a b :
  b64url [a; b] = String (b64_char (Z.shiftr a 2)) (String (b64_char (digit2 a b)) (String (b64_char (digit3 b 0)) EmptyString)).
Proof. unfold digit3. rewrite Z.shiftr_0_l, Z.lor_0_r. reflexivity. Qed.
Lemma b64url_1 a : b64url [a] = String (b64_char (Z.shiftr a 2)) (String (b64_char (digit2 a 0)) EmptyString).
Proof. unfold digit2. rewrite Z.shiftr_0_l, Z.lor_0_r. reflexivity. Qed.

(** Three bytes at a time. *)
Lemma triple_ind (P : list Z -> Prop) :
  P [] -> (forall a, P [a]) -> (forall a b, P [a; b]) -> (forall a b c rest, P rest -> P (a :: b :: c :: rest)) -> forall l, P l.
Proof.
  intros H0 H1 H2 H3 l. induction l as [l IH] using (well_founded_induction (Wf_nat.well_founded_ltof _ (@length Z))).
  destruct l as [|a [|b [|c rest]]]; auto. apply H3, IH. unfold Wf_nat.ltof. simpl. lia.
Qed.

Definition missing (value : string) : nat := Z.to_nat ((4 - Z.of_nat (String.length value) mod 4) mod 4).
Lemma missing_quad a b c d s : missing (String a (String b (String c (String d s)))) = missing s.
Proof.
  unfold missing. cbn [String.length]. do 3 f_equal.
  replace (Z.of_nat (S (S (S (S (String.length s)))))) with (Z.of_nat (String.length s) + 1 * 4) by lia.
  by rewrite Z.mod_add by lia.
Qed.

Lemma append_cons c s t : (String c s ++ t)%string = String c (s ++ t)%string.
Proof. reflexivity. Qed.
Lemma a2b_end2 left : a2b (EmptyString ++ pad_signs 2)%string 2 0 left = Ok [].
Proof. reflexivity. Qed.
Lemma a2b_end1 left : a2b (EmptyString ++ pad_signs 1)%string 3 0 left = Ok [].
Proof. reflexivity. Qed.
Lemma a2b_b64url raw : forallb is_byte raw = true -> a2b (b64url raw ++ pad_signs (missing (b64url raw)))%string 0 0 0 = Ok raw.
Proof.
  induction raw as [|a|a b|a b c rest IH] using triple_ind; cbn [forallb]; rewrite ?andb_true_iff.
  - done.
  - assert (is_byte 0 = true) as H0 by done. intros [Ha _]. byte_facts. rewrite b64url_1. change (missing _) with 2%nat.
    rewrite !append_cons. do 2 (rewrite a2b_digit by lia; cbn [Z.eqb Pos.eqb]).
    rewrite a2b_end2. cbn [rbind]. congruence.
  - assert (is_byte 0 = true) as H0 by done. intros (Ha & Hb & _). byte_facts. rewrite b64url_2. change (missing _) with 1%nat.
    rewrite !append_cons. do 3 (rewrite a2b_digit by lia; cbn [Z.eqb Pos.eqb]).
    rewrite a2b_end1. cbn [rbind]. congruence.
  - intros (Ha & Hb & Hc & Hr). specialize (IH Hr). byte_facts. rewrite b64url_3, missing_quad, !append_cons.
    do 4 (rewrite a2b_digit by lia; cbn [Z.eqb Pos.eqb]). rewrite IH. cbn [rbind]. congruence.
Qed.

(** Decoding an encoded byte string returns it. *)
Lemma b64url_inj x y : forallb is_byte x = true -> forallb is_byte y = true -> b64url x = b64url y -> x = y.
Proof. intros Hx Hy E. apply a2b_b64url in Hx, Hy. rewrite E in Hx. congruence. Qed.

(** C38. Decoding an encoded byte string gives it back, whatever its length. *)
Theorem from_b64url_b64url raw : forallb is_byte raw = true -> from_b64url (b64url raw) = Ok raw.
Proof. exact (a2b_b64url raw). Qed.
Lemma from_b64url_b64url_witness : from_b64url (b64url [255; 0; 7; 61]) = Ok [255; 0; 7; 61].
Proof. exact (from_b64url_b64url [255; 0; 7; 61] eq_refl). Defined.
