(* ===== verification/Resources.v ===== *)
(** [app/services/resource_manager.py]: the commitments of a hosting node
    (allocations, temporary reservations, failovers under way) and the
    operations on capacity reservations. *)
From S2P Require Import Prelude PyFloat Json Models Session.
#[local] Open Scope string_scope.
#[local] Open Scope Z_scope.

Definition ACTIVE_PROJECT_EXCLUSIONS : list string := ["suspended"].
Definition ACTIVE_RESERVATION_STATUS : string := "active".
Definition FAILOVER_RESERVING : list string := ["pending"; "deploying"; "edge_pending"].

(** The dicts with keys [cpu_millicores], [memory_mb], [storage_mb]. *)
Module Resources.
Record Resources : Type := mk { cpu_millicores : Z; memory_mb : Z; storage_mb : Z }.
Definition map2 (f : Z -> Z -> Z) (a b : Resources) : Resources :=
  mk (f (cpu_millicores a) (cpu_millicores b)) (f (memory_mb a) (memory_mb b))
     (f (storage_mb a) (storage_mb b)).
Definition add : Resources -> Resources -> Resources := map2 Z.add.
Definition le (a b : Resources) : Prop :=
  cpu_millicores a <= cpu_millicores b /\ memory_mb a <= memory_mb b /\ storage_mb a <= storage_mb b.
Definition zero : Resources := mk 0 0 0.
End Resources.
Notation Resources := Resources.Resources.
#[export] Instance eta_Resources : Eta Resources := fun r =>
  Resources.mk (Resources.cpu_millicores r) (Resources.memory_mb r) (Resources.storage_mb r).

Module CommitmentDetails.
Record CommitmentDetails : Type := mk {
  app_storage_mb : Z;
  database_storage_mb : Z;
  project_count : Z;
  explicit_reserved : Resources;
  failover_reserved : Resources;
  failover_reserved_projects : Z
}.
End CommitmentDetails.
Notation CommitmentDetails := CommitmentDetails.CommitmentDetails.

Module Commitments.
Record Commitments : Type := mk {
  allocated : Resources;
  reserved : Resources;
  details : CommitmentDetails
}.
End Commitments.
Notation Commitments := Commitments.Commitments.

(** ** [expire_reservations] *)
Definition reservation_due (now : time) (node_id : option uuid) (r : HostingResourceReservation) : bool :=
  (HostingResourceReservation.status r ==? ACTIVE_RESERVATION_STATUS) &&
  (HostingResourceReservation.expires_at r <=? now) &&
  match node_id with Some n => HostingResourceReservation.node_id r =? n | None => true end.

Definition expire_row (now : time) (r : HostingResourceReservation) : HostingResourceReservation :=
  r <| HostingResourceReservation.status := "expired" |>
    <| HostingResourceReservation.released_at := Some now |>.

Definition expire_reservations (db : Session Db) (now : time) (node_id : option uuid) : Z * Session Db :=
  let rows := select hosting_resource_reservations (reservation_due now node_id) db in
  (zlen rows, put_all hosting_resource_reservations (map (expire_row now) rows) db).

(** ** [node_commitments] *)
Definition allocated_project (node_id : uuid) (p : HostingProject) : bool :=
  (HostingProject.node_id p ==? Some node_id) &&
  (HostingProject.status p notin? ACTIVE_PROJECT_EXCLUSIONS).
Definition allocated_database (node_id : uuid) (d : HostingDatabase) : bool :=
  (HostingDatabase.node_id d ==? Some node_id) && (HostingDatabase.status d !=? "deleting").
Definition reservation_holds (now : time) (node_id : uuid) (r : HostingResourceReservation) : bool :=
  (HostingResourceReservation.node_id r =? node_id) &&
  (HostingResourceReservation.status r ==? ACTIVE_RESERVATION_STATUS) &&
  (now <? HostingResourceReservation.expires_at r).

(** The join of failover attempts with their projects; a NULL [node_id] is
    not different from anything. *)
Definition failover_rows (node_id : uuid) (d : Db) : list HostingProject :=
  flat_map (fun a =>
    List.filter (fun p =>
      (HostingFailoverAttempt.project_id a =? HostingProject.id p) &&
      (HostingFailoverAttempt.target_node_id a ==? Some node_id) &&
      (HostingFailoverAttempt.status a in? FAILOVER_RESERVING) &&
      match HostingProject.node_id p with Some n => negb (n =? node_id) | None => false end)
      (hosting_projects d))
    (hosting_failover_attempts d).

Definition project_resources (l : list HostingProject) : Resources :=
  Resources.mk (sum_by HostingProject.cpu_millicores l) (sum_by HostingProject.memory_mb l)
    (sum_by HostingProject.storage_mb l).
Definition reservation_resources (l : list HostingResourceReservation) : Resources :=
  Resources.mk (sum_by HostingResourceReservation.cpu_millicores l)
    (sum_by HostingResourceReservation.memory_mb l) (sum_by HostingResourceReservation.storage_mb l).

(** The aggregate queries of [node_commitments] on the flushed rows. *)
Definition commitments_of (d : Db) (node_id : uuid) (now : time) : Commitments :=
  let projects := List.filter (allocated_project node_id) (hosting_projects d) in
  let project_row := project_resources projects in
  let database_storage :=
    sum_by HostingDatabase.storage_mb (List.filter (allocated_database node_id) (hosting_databases d)) in
  let reservation_row := reservation_resources
    (List.filter (reservation_holds now node_id) (hosting_resource_reservations d)) in
  let legacy_failover := project_resources (failover_rows node_id d) in
  {| Commitments.allocated := project_row <| Resources.storage_mb ::= (fun x => x + database_storage) |>;
     Commitments.reserved := Resources.add reservation_row legacy_failover;
     Commitments.details :=
       {| CommitmentDetails.app_storage_mb := Resources.storage_mb project_row;
          CommitmentDetails.database_storage_mb := database_storage;
          CommitmentDetails.project_count := zlen projects;
          CommitmentDetails.explicit_reserved := reservation_row;
          CommitmentDetails.failover_reserved := legacy_failover;
          CommitmentDetails.failover_reserved_projects := zlen (failover_rows node_id d) |} |}.

Definition node_commitments (db : Session Db) (node_id : uuid) (now : time) : Commitments * Session Db :=
  let '(_, db) := expire_reservations db now (Some node_id) in
  (commitments_of (sql db) node_id now, db).

(** ** [_live_usage] *)
Module LiveUsage.
Record LiveUsage : Type := mk {
  cpu_used_percent : float;
  memory_used_bytes : Z;
  storage_used_bytes : Z;
  storage_total_bytes : Z;
  telemetry_available : bool
}.
End LiveUsage.
Notation LiveUsage := LiveUsage.LiveUsage.

(** One disk row: [used_bytes] is added even when [total_bytes] then fails. *)
Definition add_disk (acc : Z * Z) (disk : Json) : Z * Z :=
  let '(used, total) := acc in
  match disk with
  | JObj d =>
      match py_int (jor (jget "used_bytes" d) (JInt 0)) with
      | Err _ => (used, total)
      | Ok u =>
          let used := used + Z.max 0 u in
          match py_int (jor (jget "total_bytes" d) (JInt 0)) with
          | Err _ => (used, total)
          | Ok t => (used, total + Z.max 0 t)
          end
      end
  | _ => (used, total)
  end.

Definition live_usage (db : Session Db) (node_id : uuid) : result LiveUsage :=
  let server := scalar infrastructure_servers
    (fun s => InfrastructureServer.hosting_node_id s ==? Some node_id) db in
  let agent := match server with
    | Some s => get infrastructure_server_agents (InfrastructureServer.id s) db
    | None => None end in
  let telemetry := match agent with
    | Some a =>
        match json_loads (str_or (InfrastructureServerAgent.telemetry_json a) "{}") with
        | Some v => as_dict v
        | None => [] end
    | None => [] end in
  let cpu := as_dict (jget "cpu" telemetry) in
  let memory := as_dict (jget "memory" telemetry) in
  let disks := as_list (jget "disks" telemetry) in
  let* cpu_percent :=
    match py_float (jor (jget "used_percent" cpu) (JFloat fzero)) with
    | Ok f => Ok (fmax fzero (fmin f (of_Z 100)))
    | Err (OverflowError m) => Err (OverflowError m)
    | Err _ => Ok fzero
    end in
  let memory_used_bytes :=
    match py_int (jor (jget "used_bytes" memory) (JInt 0)) with Ok z => Z.max 0 z | Err _ => 0 end in
  let '(storage_used_bytes, storage_total_bytes) :=
    fold_left add_disk (firstn 128 disks) (0, 0) in
  Ok {| LiveUsage.cpu_used_percent := round_digits 2 cpu_percent;
        LiveUsage.memory_used_bytes := memory_used_bytes;
        LiveUsage.storage_used_bytes := storage_used_bytes;
        LiveUsage.storage_total_bytes := storage_total_bytes;
        LiveUsage.telemetry_available := match agent with Some _ => true | None => false end |}.

(** ** [node_resource_snapshot] *)
Module ResourceSnapshot.
Record ResourceSnapshot : Type := mk {
  node_id : string;
  node_name : string;
  capacity : Resources;
  allocated : Resources;
  reserved : Resources;
  committed : Resources;
  available : Resources;
  overcommitted : bool * bool * bool;
  used : LiveUsage;
  details : CommitmentDetails;
  as_of : time
}.
End ResourceSnapshot.
Notation ResourceSnapshot := ResourceSnapshot.ResourceSnapshot.

Definition node_capacity (node : HostingNode) : Resources :=
  Resources.mk (HostingNode.allocatable_cpu_millicores node) (HostingNode.allocatable_memory_mb node)
    (HostingNode.allocatable_storage_mb node).
Definition available_of (capacity allocated reserved : Resources) : Resources :=
  Resources.map2 (fun c x => Z.max 0 (c - x)) capacity (Resources.add allocated reserved).

Definition node_resource_snapshot (db : Session Db) (node : HostingNode) (now : time)
    : result (ResourceSnapshot * Session Db) :=
  let capacity := node_capacity node in
  let '(commitments, db) := node_commitments db (HostingNode.id node) now in
  let allocated := Commitments.allocated commitments in
  let reserved := Commitments.reserved commitments in
  let available := available_of capacity allocated reserved in
  let committed := Resources.add allocated reserved in
  let* used := live_usage db (HostingNode.id node) in
  Ok ({| ResourceSnapshot.node_id := str_of_uuid (HostingNode.id node);
         ResourceSnapshot.node_name := HostingNode.name node;
         ResourceSnapshot.capacity := capacity;
         ResourceSnapshot.allocated := allocated;
         ResourceSnapshot.reserved := reserved;
         ResourceSnapshot.committed := committed;
         ResourceSnapshot.available := available;
         ResourceSnapshot.overcommitted :=
           (Resources.cpu_millicores capacity <? Resources.cpu_millicores committed,
            Resources.memory_mb capacity <? Resources.memory_mb committed,
            Resources.storage_mb capacity <? Resources.storage_mb committed);
         ResourceSnapshot.used := used;
         ResourceSnapshot.details := Commitments.details commitments;
         ResourceSnapshot.as_of := now |}, db).

(** ** [reserve_capacity] *)
Definition insufficient_keys (request available : Resources) : list string :=
  (if Resources.cpu_millicores available <? Resources.cpu_millicores request then ["cpu_millicores"] else []) ++
  (if Resources.memory_mb available <? Resources.memory_mb request then ["memory_mb"] else []) ++
  (if Resources.storage_mb available <? Resources.storage_mb request then ["storage_mb"] else []).

Definition project_reservation (now : time) (project_id : uuid) (r : HostingResourceReservation) : bool :=
  (HostingResourceReservation.project_id r ==? Some project_id) &&
  (HostingResourceReservation.status r ==? ACTIVE_RESERVATION_STATUS) &&
  (now <? HostingResourceReservation.expires_at r).

Definition reservation_request (cpu_millicores memory_mb storage_mb : Z) : Resources :=
  Resources.mk (Z.max 0 cpu_millicores) (Z.max 0 memory_mb) (Z.max 0 storage_mb).

Definition new_reservation (new_id : uuid) (now : time) (node_id : uuid) (project_id : option uuid)
    (purpose : string) (request : Resources) (expires_at : time) (created_by_user_id : uuid)
    : HostingResourceReservation :=
  HostingResourceReservation.new_HostingResourceReservation new_id now
    <| HostingResourceReservation.node_id := node_id |>
    <| HostingResourceReservation.project_id := project_id |>
    <| HostingResourceReservation.purpose := str_or (str_take 80 (strip purpose)) "placement" |>
    <| HostingResourceReservation.cpu_millicores := Resources.cpu_millicores request |>
    <| HostingResourceReservation.memory_mb := Resources.memory_mb request |>
    <| HostingResourceReservation.storage_mb := Resources.storage_mb request |>
    <| HostingResourceReservation.status := ACTIVE_RESERVATION_STATUS |>
    <| HostingResourceReservation.expires_at := expires_at |>
    <| HostingResourceReservation.created_by_user_id := created_by_user_id |>.

Definition reserve_capacity (db : Session Db) (new_id : uuid) (now : time)
    (node_id : uuid) (cpu_millicores memory_mb storage_mb : Z) (expires_at : time)
    (created_by_user_id : uuid) (project_id : option uuid) (purpose : string)
    : result (HostingResourceReservation * Session Db) :=
  match scalar hosting_nodes (fun n => HostingNode.id n =? node_id) db with
  | None => Err (ValueError "hosting node not found")
  | Some node =>
    ensure (HostingNode.status node ==? "active") && HostingNode.accepts_new_projects node
      else_raise ValueError "hosting node is not accepting new projects";
    ensure now <? expires_at else_raise ValueError "reservation expiry must be in the future";
    let request := reservation_request cpu_millicores memory_mb storage_mb in
    ensure (0 <? Resources.cpu_millicores request) || (0 <? Resources.memory_mb request)
           || (0 <? Resources.storage_mb request)
      else_raise ValueError "reservation must request at least one resource";
    let existing := match project_id with
      | Some p => scalar hosting_resource_reservations (project_reservation now p) db
      | None => None end in
    match existing with
    | Some _ => Err (ValueError "project already has an active resource reservation")
    | None =>
      let* (snapshot, db) := node_resource_snapshot db node now in
      let insufficient := insufficient_keys request (ResourceSnapshot.available snapshot) in
      match insufficient with
      | [] =>
          let reservation := new_reservation new_id now (HostingNode.id node) project_id purpose
            request expires_at created_by_user_id in
          Ok (reservation, flush (add hosting_resource_reservations reservation db))
      | _ => Err (ValueError ("insufficient available capacity: " ++ join ", " insufficient))
      end
    end
  end.

(** ** [release_reservation] *)
Definition release_row (now : time) (r : HostingResourceReservation) : HostingResourceReservation :=
  r <| HostingResourceReservation.status := "released" |>
    <| HostingResourceReservation.released_at := Some now |>.

Definition release_reservation (db : Session Db) (reservation_id : uuid) (now : time)
    : option HostingResourceReservation * Session Db :=
  match scalar hosting_resource_reservations
          (fun r => HostingResourceReservation.id r =? reservation_id) db with
  | None => (None, db)
  | Some reservation =>
      if HostingResourceReservation.status reservation ==? ACTIVE_RESERVATION_STATUS then
        let reservation := release_row now reservation in
        (Some reservation, put hosting_resource_reservations reservation db)
      else (Some reservation, db)
  end.

(** * Properties *)

(** A resource by its key in the dicts. *)
Inductive ResourceKey : Type := Cpu | Memory | Storage.
Definition resource (k : ResourceKey) (r : Resources) : Z :=
  match k with
  | Cpu => Resources.cpu_millicores r
  | Memory => Resources.memory_mb r
  | Storage => Resources.storage_mb r
  end.
Definition reservation_amount (k : ResourceKey) : HostingResourceReservation -> Z :=
  match k with
  | Cpu => HostingResourceReservation.cpu_millicores
  | Memory => HostingResourceReservation.memory_mb
  | Storage => HostingResourceReservation.storage_mb
  end.

(** What a node has promised at an instant: allocations plus reservations. *)
Definition committed (k : ResourceKey) (d : Db) (n : uuid) (now : time) : Z :=
  let c := commitments_of d n now in
  resource k (Commitments.allocated c) + resource k (Commitments.reserved c).
Definition reserved_amount (k : ResourceKey) (l : list HostingResourceReservation) (n : uuid) (now : time) : Z :=
  sum_by (reservation_amount k) (List.filter (reservation_holds now n) l).

(** Keys are unique and, as the CHECK constraints demand, amounts are not negative. *)
Record wf_reservations (d : Db) : Prop := {
  wf_res_keys : NoDup (keys (hosting_resource_reservations d));
  wf_node_keys : NoDup (keys (hosting_nodes d));
  wf_res_nonneg : Forall (fun r => forall k, 0 <= reservation_amount k r) (hosting_resource_reservations d)
}.
(** No node of the table has promised more than it may sell. *)
Definition fits (d : Db) (now : time) : Prop :=
  forall node k, node ∈ hosting_nodes d ->
    committed k d (HostingNode.id node) now <= resource k (node_capacity node).

Definition with_reservations (d : Db) (l : list HostingResourceReservation) : Db :=
  d <| hosting_resource_reservations := l |>.
Definition expire_due (now : time) (n : option uuid) (l : list HostingResourceReservation) :=
  map (fun r => if reservation_due now n r then expire_row now r else r) l.

Section ReservationFacts.
Implicit Types (d : Db) (n : uuid) (k : ResourceKey) (now : time).

(** Only the reservation part of the commitments depends on the reservations. *)
Lemma committed_split k d l n now :
  committed k (with_reservations d l) n now + reserved_amount k (hosting_resource_reservations d) n now
  = committed k d n now + reserved_amount k l n now.
Proof. destruct k; unfold committed, reserved_amount; simpl; unfold failover_rows; simpl; lia. Qed.

Lemma holds_not_due now now' n m r :
  now <= now' -> reservation_due now m r = true -> reservation_holds now' n r = false.
Proof.
  unfold reservation_due, reservation_holds. intros Hle.
  bdestruct (HostingResourceReservation.expires_at r <=? now); [|by rewrite andb_false_r].
  intros _. rewrite (proj2 (Z.ltb_ge _ _)) by lia. apply andb_false_r.
Qed.

Lemma holds_expire_row now now' n r : reservation_holds now' n (expire_row now r) = false.
Proof. unfold reservation_holds. simpl. by rewrite andb_false_r. Qed.

Lemma holds_release_row now now' n r : reservation_holds now' n (release_row now r) = false.
Proof. unfold reservation_holds. simpl. by rewrite andb_false_r. Qed.

Lemma reserved_expire_due k now now' n m l :
  now <= now' -> reserved_amount k (expire_due now m l) n now' = reserved_amount k l n now'.
Proof.
  intros Hle. unfold reserved_amount, expire_due, sum_by.
  induction l as [|r l IH]; simpl; [done|].
  destruct (reservation_due now m r) eqn:E.
  - rewrite holds_expire_row, (holds_not_due _ _ _ _ _ Hle E). done.
  - destruct (reservation_holds now' n r); simpl; lia.
Qed.

Lemma reserved_app k l1 l2 n now :
  reserved_amount k (l1 ++ l2) n now = reserved_amount k l1 n now + reserved_amount k l2 n now.
Proof. unfold reserved_amount. by rewrite List.filter_app, sum_by_app. Qed.

Lemma holds_mono now now' n r :
  now <= now' -> reservation_holds now' n r = true -> reservation_holds now n r = true.
Proof.
  unfold reservation_holds. intros Hle. rewrite !andb_true_iff, !Z.ltb_lt. intuition lia.
Qed.

Lemma reserved_mono k l n now now' :
  now <= now' -> Forall (fun r => forall k, 0 <= reservation_amount k r) l ->
  reserved_amount k l n now' <= reserved_amount k l n now.
Proof.
  intros Hle. unfold reserved_amount, sum_by. induction 1 as [|r l Hr _ IH]; simpl; [done|].
  specialize (Hr k). pose proof (holds_mono now now' n r Hle) as Hm.
  destruct (reservation_holds now' n r); [rewrite Hm by done; simpl; lia|].
  destruct (reservation_holds now n r); simpl; lia.
Qed.

Lemma keys_expire_due now m l : keys (expire_due now m l) = keys l.
Proof.
  unfold keys, expire_due. rewrite map_map. apply map_ext. intros r.
  by destruct (reservation_due now m r).
Qed.

Lemma amount_expire_due now m l :
  Forall (fun r => forall k, 0 <= reservation_amount k r) l ->
  Forall (fun r => forall k, 0 <= reservation_amount k r) (expire_due now m l).
Proof.
  unfold expire_due. rewrite Forall_map. intros Hl. eapply Forall_impl; [exact Hl|].
  intros r Hr k. destruct (reservation_due now m r); [destruct k; [apply (Hr Cpu)|apply (Hr Memory)|apply (Hr Storage)]|apply Hr].
Qed.

Lemma expire_reservations_open d now m :
  wf_reservations d ->
  expire_reservations (open_session d) now m =
  (zlen (List.filter (reservation_due now m) (hosting_resource_reservations d)),
   mk_Session d (with_reservations d (expire_due now m (hosting_resource_reservations d)))).
Proof.
  intros [Hk _ _]. unfold expire_reservations.
  rewrite select_synced by done. f_equal. unfold put_all. simpl.
  unfold open_session, with_reservations, set, expire_due; simpl. f_equal.
  by rewrite put_rows_filter.
Qed.

Lemma node_commitments_open d n now :
  wf_reservations d ->
  node_commitments (open_session d) n now =
  (commitments_of d n now,
   mk_Session d (with_reservations d (expire_due now (Some n) (hosting_resource_reservations d)))).
Proof. intros. unfold node_commitments. by rewrite expire_reservations_open. Qed.

Lemma scalar_node d n node :
  NoDup (keys (hosting_nodes d)) ->
  scalar hosting_nodes (fun x => HostingNode.id x =? n) (open_session d) = Some node ->
  node ∈ hosting_nodes d /\ HostingNode.id node = n.
Proof.
  intros Hn Hs. apply scalar_some in Hs as [? ?%Z.eqb_eq]; done.
Qed.

Lemma insufficient_nil request available :
  insufficient_keys request available = [] <-> Resources.le request available.
Proof.
  unfold insufficient_keys, Resources.le. destruct request, available; simpl.
  repeat match goal with |- context [?a <? ?b] => bdestruct (a <? b) end; simpl;
    split; intros; try discriminate; try done; lia.
Qed.
Lemma request_nonneg k a b c : 0 <= resource k (reservation_request a b c).
Proof. destruct k; simpl; lia. Qed.
End ReservationFacts.

(** ** The outcome of [reserve_capacity] *)

(** The checks of [reserve_capacity] that do not look at capacity, in order. *)
Definition reserve_precondition (d : Db) (node : HostingNode) (now : time)
    (request : Resources) (expires_at : time) (project_id : option uuid) : Prop :=
  HostingNode.status node = "active" /\ HostingNode.accepts_new_projects node = true /\
  now < expires_at /\
  (exists k, 0 < resource k request) /\
  (forall p, project_id = Some p ->
     forall r, r ∈ hosting_resource_reservations d -> project_reservation now p r = false).

Section ReserveFacts.
Context (d : Db) (Hwf : wf_reservations d).
Context (new_id : uuid) (now : time) (node_id : uuid) (cpu mem_mb sto : Z) (expires_at : time)
        (user : uuid) (project_id : option uuid) (purpose : string).
Let request := reservation_request cpu mem_mb sto.
Let reserve := reserve_capacity (open_session d) new_id now node_id cpu mem_mb sto expires_at
                 user project_id purpose.

Lemma reserve_capacity_ok r s :
  reserve = Ok (r, s) ->
  exists node, node ∈ hosting_nodes d /\ HostingNode.id node = node_id /\
    reserve_precondition d node now request expires_at project_id /\
    r = new_reservation new_id now node_id project_id purpose request expires_at user /\
    s = open_session (with_reservations d
          (expire_due now (Some node_id) (hosting_resource_reservations d) ++ [r])) /\
    forall k, 0 < resource k request ->
      committed k d node_id now + resource k request <= resource k (node_capacity node).
Proof using Hwf.
  unfold reserve, reserve_capacity.
  destruct (scalar hosting_nodes _ _) as [node|] eqn:En; [|done].
  apply scalar_node in En as [Hnode Hid]; [|apply Hwf].
  bdestruct ((HostingNode.status node ==? "active") && HostingNode.accepts_new_projects node); [|done].
  bdestruct (now <? expires_at); [|done].
  fold request. destruct (_ || _ || _) eqn:Ereq; [|done].
  destruct (match project_id with Some _ => _ | None => _ end) eqn:Eex; [done|].
  unfold node_resource_snapshot. rewrite node_commitments_open by done.
  rewrite Hid. intros Hr. apply rbind_ok in Hr as ((snap & db') & Hs & Hr).
  apply rbind_ok in Hs as (used & _ & Hs). simplify_eq/=.
  destruct (insufficient_keys _ _) eqn:Ei; [|done]. simplify_eq/=.
  apply insufficient_nil in Ei.
  exists node. split_and!; try done.
  - unfold reserve_precondition. split_and!; try done.
    + rewrite !orb_true_iff, !Z.ltb_lt in Ereq.
      destruct Ereq as [[?|?]|?]; [exists Cpu|exists Memory|exists Storage]; done.
    + intros p -> r Hr. by apply (scalar_none _ _ (open_session d) eq_refl (wf_res_keys _ Hwf)) with r in Eex.
  - destruct Ei as (H1 & H2 & H3). intros k Hk. unfold available_of in *. unfold committed.
    destruct k; simpl in *; lia.
Qed.

Let db' := mk_Session d (with_reservations d
             (expire_due now (Some node_id) (hosting_resource_reservations d))).

Lemma live_usage_of_granted r s : reserve = Ok (r, s) -> exists used, live_usage db' node_id = Ok used.
Proof using Hwf.
  unfold reserve, reserve_capacity.
  destruct (scalar hosting_nodes _ _) as [node|] eqn:En; [|done].
  apply scalar_node in En as [Hnode Hid]; [|apply Hwf].
  destruct (_ && _); [|done]. destruct (now <? expires_at); [|done]. destruct (_ || _ || _); [|done].
  destruct (match project_id with Some _ => _ | None => _ end); [done|].
  unfold node_resource_snapshot. rewrite node_commitments_open, Hid by done. fold db'.
  destruct (live_usage db' node_id); [by eexists|done].
Qed.

Lemma reserve_capacity_grants node used :
  node ∈ hosting_nodes d -> HostingNode.id node = node_id ->
  reserve_precondition d node now request expires_at project_id ->
  (forall k, 0 < resource k request ->
     committed k d node_id now + resource k request <= resource k (node_capacity node)) ->
  live_usage db' node_id = Ok used ->
  let r := new_reservation new_id now node_id project_id purpose request expires_at user in
  reserve = Ok (r, open_session (with_reservations d
    (expire_due now (Some node_id) (hosting_resource_reservations d) ++ [r]))).
Proof using Hwf.
  intros Hnode Hid (Hst & Hacc & Hexp & Hsome & Hproj) Hcap Hused. unfold reserve, reserve_capacity.
  destruct (scalar hosting_nodes _ _) as [node'|] eqn:En.
  2:{ apply (scalar_none _ _ (open_session d) eq_refl (wf_node_keys _ Hwf)) with node in En; [|done].
      by apply Z.eqb_neq in En. }
  apply scalar_node in En as [Hnode' Hid']; [|apply Hwf].
  assert (node' = node) as -> by (apply (key_inj _ _ _ (wf_node_keys _ Hwf) Hnode' Hnode); unfold key, keyed_HostingNode; congruence).
  rewrite Hst, Hacc, bool_decide_eq_true_2 by done. simpl. rewrite (proj2 (Z.ltb_lt _ _) Hexp).
  fold request. rewrite (proj2 (orb_true_iff _ _)) by
    (rewrite orb_true_iff, !Z.ltb_lt; destruct Hsome as [[] ?]; auto).
  destruct (match project_id with Some _ => _ | None => _ end) as [x|] eqn:Ep.
  { destruct project_id as [p|]; [|done].
    apply scalar_some in Ep as [Hx Hpx]; [|done|apply Hwf]. by rewrite (Hproj p eq_refl x Hx) in Hpx. }
  unfold node_resource_snapshot. rewrite node_commitments_open, Hid by done. fold db'. rewrite Hused. simpl.
  rewrite (proj2 (insufficient_nil _ _)); [done|].
  pose proof (Hcap Cpu). pose proof (Hcap Memory). pose proof (Hcap Storage).
  pose proof (request_nonneg Cpu cpu mem_mb sto). unfold committed, available_of in *.
  unfold Resources.le. unfold request in *. simpl in *. lia.
Qed.
End ReserveFacts.

(** ** Reservations over time *)

(** One committed transaction on the reservations, or the passing of time. *)
Inductive reservation_step : Db * time -> Db * time -> Prop :=
| step_tick d t t' : t <= t' -> reservation_step (d, t) (d, t')
| step_reserve d t new_id node_id cpu mem_mb sto expires_at user project_id purpose r s :
    reserve_capacity (open_session d) new_id t node_id cpu mem_mb sto expires_at user project_id purpose
      = Ok (r, s) ->
    new_id ∉ keys (hosting_resource_reservations d) ->
    reservation_step (d, t) (mem (commit s), t)
| step_release d t rid o s :
    release_reservation (open_session d) rid t = (o, s) ->
    reservation_step (d, t) (mem (commit s), t)
| step_expire d t n c s :
    expire_reservations (open_session d) t n = (c, s) ->
    reservation_step (d, t) (mem (commit s), t).

Section Steps.
Implicit Types (d : Db) (k : ResourceKey) (t now : time).

Lemma reservation_amount_new k id now n p pu req e u :
  reservation_amount k (new_reservation id now n p pu req e u) = resource k req.
Proof. by destruct k. Qed.

Lemma wf_with_reservations d l :
  wf_reservations d -> NoDup (keys l) ->
  Forall (fun r => forall k, 0 <= reservation_amount k r) l ->
  wf_reservations (with_reservations d l).
Proof. intros [] ??. by constructor. Qed.

(** Fewer promises keep every node within its capacity. *)
Lemma fits_with_reservations d l t :
  fits d t ->
  (forall k n, reserved_amount k l n t <= reserved_amount k (hosting_resource_reservations d) n t) ->
  fits (with_reservations d l) t.
Proof.
  intros Hf Hl node k Hnode. specialize (Hf node k Hnode).
  pose proof (committed_split k d l (HostingNode.id node) t).
  specialize (Hl k (HostingNode.id node)). lia.
Qed.

Lemma release_reservation_open d rid t o s :
  wf_reservations d -> release_reservation (open_session d) rid t = (o, s) ->
  s = open_session d \/
  exists r, find_row rid (hosting_resource_reservations d) = Some r /\
    HostingResourceReservation.status r = ACTIVE_RESERVATION_STATUS /\
    s = mk_Session d (with_reservations d (put_row (release_row t r) (hosting_resource_reservations d))).
Proof.
  intros [Hk _ _]. unfold release_reservation.
  destruct (scalar hosting_resource_reservations _ _) as [r|] eqn:Er; [|intros; simplify_eq; by left].
  apply scalar_some in Er as [Hr Hid%Z.eqb_eq]; [|done..].
  bdestruct (HostingResourceReservation.status r ==? ACTIVE_RESERVATION_STATUS);
    intros; simplify_eq; [right|by left].
  exists r. split_and!; [by apply find_row_nodup|done|done].
Qed.

Lemma reserved_put_released k n t t' r l :
  NoDup (keys l) -> r ∈ l -> 0 <= reservation_amount k r ->
  reserved_amount k (put_row (release_row t r) l) n t'
  = reserved_amount k l n t' - (if reservation_holds t' n r then reservation_amount k r else 0).
Proof.
  intros Hn Hr Hp. unfold reserved_amount. rewrite (sum_filter_put _ _ _ r) by (done || by apply (find_row_nodup l r)).
  rewrite holds_release_row. lia.
Qed.

(** A granted reservation keeps the table well-formed and every node within
    its capacity. *)
Lemma reserve_invariant d node (m : option uuid) cpu mem_mb sto t r :
  wf_reservations d -> fits d t -> node ∈ hosting_nodes d ->
  HostingResourceReservation.node_id r = HostingNode.id node ->
  (forall k, reservation_amount k r = resource k (reservation_request cpu mem_mb sto)) ->
  key r ∉ keys (hosting_resource_reservations d) ->
  (forall k, 0 < reservation_amount k r ->
     committed k d (HostingNode.id node) t + reservation_amount k r <= resource k (node_capacity node)) ->
  let d' := with_reservations d (expire_due t m (hosting_resource_reservations d) ++ [r]) in
  wf_reservations d' /\ fits d' t.
Proof.
  intros Hwf Hf Hnode Hrn Hamt Hid Hcap. pose proof Hwf as [Hk Hnk Hnn].
  assert (forall k, 0 <= reservation_amount k r) as Hnn'.
  { intros k. rewrite Hamt. apply request_nonneg. }
  split.
  - apply wf_with_reservations; [done|..].
    + unfold keys. rewrite map_app. fold (keys (expire_due t m (hosting_resource_reservations d))).
      rewrite keys_expire_due. apply NoDup_app. split_and!; [done| |apply NoDup_singleton].
      by intros x Hx ->%list_elem_of_singleton.
    + apply Forall_app. split; [by apply amount_expire_due|by repeat constructor].
  - intros node' k Hnode'. change (node' ∈ hosting_nodes d) in Hnode'.
    pose proof (committed_split k d (expire_due t m (hosting_resource_reservations d) ++ [r])
                  (HostingNode.id node') t) as Hs.
    rewrite reserved_app, reserved_expire_due in Hs by lia.
    specialize (Hf node' k Hnode'). specialize (Hcap k). specialize (Hnn' k).
    unfold reserved_amount at 3, sum_by in Hs. simpl in Hs.
    destruct (reservation_holds t (HostingNode.id node') r) eqn:Eh; simpl in Hs; [|lia].
    unfold reservation_holds in Eh.
    bdestruct (HostingResourceReservation.node_id r =? HostingNode.id node'); [|done].
    assert (node' = node) as ->; [|lia].
    apply (key_inj _ _ _ Hnk Hnode' Hnode). unfold key, keyed_HostingNode. congruence.
Qed.

Lemma reservation_step_invariant d t d' t' :
  reservation_step (d, t) (d', t') -> wf_reservations d -> fits d t ->
  wf_reservations d' /\ fits d' t'.
Proof.
  intros Hstep Hwf Hf. pose proof Hwf as [Hk Hnk Hnn].
  inversion Hstep as [? ? ? Hle|? ? ? ? ? ? ? ? ? ? ? ? ? Hres Hid|? ? rid ? ? Hrel|? ? n ? ? Hexp]; subst.
  - split; [done|]. intros node k Hnode.
    specialize (Hf node k Hnode). unfold committed in *.
    pose proof (reserved_mono k _ (HostingNode.id node) t t' Hle Hnn) as Hm.
    unfold reserved_amount in Hm. destruct k; simpl in *; lia.
  - apply reserve_capacity_ok in Hres as (node & Hnode & <- & _ & -> & -> & Hcap); [|done].
    apply (reserve_invariant d node _ cpu mem_mb sto); try done; intros k.
    + apply reservation_amount_new.
    + rewrite reservation_amount_new. apply Hcap.
  - apply release_reservation_open in Hrel as [->|(r & Hr & _ & ->)]; [done| |done].
    apply find_row_elem in Hr as Hin. simpl. rewrite Forall_forall in Hnn. split.
    + apply wf_with_reservations; [done|by rewrite keys_put|].
      apply put_row_Forall; [|by rewrite Forall_forall].
      intros k. specialize (Hnn r Hin k). by destruct k.
    + apply fits_with_reservations; [done|]. intros k n.
      specialize (Hnn r Hin k). rewrite reserved_put_released by done.
      destruct (reservation_holds _ _ _); lia.
  - rewrite expire_reservations_open in Hexp by done. simplify_eq. simpl. split.
    + apply wf_with_reservations; [done|by rewrite keys_expire_due|by apply amount_expire_due].
    + apply fits_with_reservations; [done|]. intros k m. by rewrite reserved_expire_due by lia.
Qed.
End Steps.

(** ** The theorems *)

(** C1.  Whatever sequence of reservations, releases and expiries is committed,
    and however time passes between them, no hosting node ever has more CPU,
    memory or storage promised (allocations, active reservations and failovers
    under way) than it may sell, provided it started that way. *)
Theorem reservations_never_overcommit d0 t0 d t :
  wf_reservations d0 -> fits d0 t0 ->
  rtc reservation_step (d0, t0) (d, t) ->
  wf_reservations d /\ fits d t.
Proof.
  intros Hwf Hf Hsteps.
  remember (d0, t0) as s0 eqn:E0. remember (d, t) as s1 eqn:E1.
  revert d0 t0 Hwf Hf E0 d t E1.
  induction Hsteps as [s|s0 [d1 t1] s2 Hstep _ IH]; intros; simplify_eq.
  - done.
  - apply reservation_step_invariant in Hstep as [Hw1 Hf1]; [|done..]. exact (IH _ _ Hw1 Hf1 eq_refl _ _ eq_refl).
Qed.

(**  A reservation is granted exactly when the node exists, is active and
    accepts projects, the expiry is in the future, something is requested, the
    project holds no other active reservation, every requested resource fits
    beside what is committed, and the node's telemetry can be read; the granted
    row holds the request and is visible to the next query. *)
Theorem reserve_capacity_granted d new_id now node_id cpu mem_mb sto expires_at user project_id purpose r s :
  wf_reservations d ->
  let request := reservation_request cpu mem_mb sto in
  reserve_capacity (open_session d) new_id now node_id cpu mem_mb sto expires_at user project_id purpose
    = Ok (r, s)
  <->
  (exists node used, node ∈ hosting_nodes d /\ HostingNode.id node = node_id /\
    reserve_precondition d node now request expires_at project_id /\
    (forall k, 0 < resource k request ->
       committed k d node_id now + resource k request <= resource k (node_capacity node)) /\
    live_usage (mk_Session d (with_reservations d
      (expire_due now (Some node_id) (hosting_resource_reservations d)))) node_id = Ok used) /\
  r = new_reservation new_id now node_id project_id purpose request expires_at user /\
  s = open_session (with_reservations d
        (expire_due now (Some node_id) (hosting_resource_reservations d) ++ [r])).
Proof.
  intros Hwf request. split.
  - intros Hr. pose proof Hr as Hok.
    apply reserve_capacity_ok in Hok as (node & ? & ? & ? & ? & ? & ?); [|done].
    split; [|done]. exists node.
    destruct (live_usage_of_granted _ Hwf _ _ _ _ _ _ _ _ _ _ _ _ Hr) as [used Hu].
    by exists used.
  - intros ((node & used & ? & ? & ? & ? & ?) & -> & ->). by apply (reserve_capacity_grants _ Hwf) with node used.
Qed.

(**  Releasing an active reservation returns exactly its resources to its
    node and nothing else, and releasing it again changes nothing. *)
Theorem release_reservation_frees d r t t2 :
  wf_reservations d -> r ∈ hosting_resource_reservations d ->
  HostingResourceReservation.status r = ACTIVE_RESERVATION_STATUS ->
  exists s, release_reservation (open_session d) (HostingResourceReservation.id r) t
              = (Some (release_row t r), s) /\
    (forall k n now, committed k (mem s) n now =
       committed k d n now - (if reservation_holds now n r then reservation_amount k r else 0)) /\
    release_reservation (commit s) (HostingResourceReservation.id r) t2 = (Some (release_row t r), commit s).
Proof.
  intros Hwf Hr Hst. pose proof Hwf as [Hk _ Hnn].
  assert (scalar hosting_resource_reservations
    (fun x => HostingResourceReservation.id x =? HostingResourceReservation.id r) (open_session d) = Some r) as Hs.
  { by apply (scalar_by_key hosting_resource_reservations). }
  exists (mk_Session d (with_reservations d (put_row (release_row t r) (hosting_resource_reservations d)))).
  split_and!.
  - unfold release_reservation. rewrite Hs, bool_decide_eq_true_2; done.
  - intros k n now. simpl. rewrite Forall_forall in Hnn.
    pose proof (committed_split k d (put_row (release_row t r) (hosting_resource_reservations d)) n now).
    rewrite reserved_put_released in H by (done || apply (Hnn r Hr)). lia.
  - unfold release_reservation.
    assert (scalar hosting_resource_reservations
      (fun x => HostingResourceReservation.id x =? HostingResourceReservation.id r)
      (commit (mk_Session d (with_reservations d (put_row (release_row t r) (hosting_resource_reservations d)))))
      = Some (release_row t r)) as ->; [|done].
    apply (scalar_by_key hosting_resource_reservations _ _ (release_row t r));
      [done|simpl; by rewrite keys_put| |done].
    apply put_row_in. change (key (release_row t r)) with (key r). by apply list_elem_of_fmap_2.
Qed.

(** ** A concrete node *)
Definition demo_node : HostingNode :=
  HostingNode.new_HostingNode 1 0 <| HostingNode.allocatable_storage_mb := 1000 |>
    <| HostingNode.allocatable_memory_mb := 2048 |> <| HostingNode.allocatable_cpu_millicores := 4000 |>.
Definition demo_hosting_db : Db :=
  empty_Db <| hosting_nodes := [demo_node] |>
    <| hosting_resource_reservations :=
         [new_reservation 10 0 1 (Some 7) "placement" (Resources.mk 1000 512 100) 500 2] |>.

Lemma demo_wf : wf_reservations demo_hosting_db.
Proof.
  split; [by apply NoDup_singleton|by apply NoDup_singleton|].
  constructor; [|done]. intros []; vm_compute; discriminate.
Defined.
Lemma demo_fits : fits demo_hosting_db 0.
Proof. intros node k ->%list_elem_of_singleton. destruct k; vm_compute; discriminate. Defined.

Lemma reservations_never_overcommit_witness :
  exists d, rtc reservation_step (demo_hosting_db, 0) (d, 100) /\
    length (hosting_resource_reservations d) = 2%nat /\ fits d 100.
Proof.
  destruct (reserve_capacity (open_session demo_hosting_db) 11 100 1 3000 1024 900 400 2 (Some 8) " build ")
    as [[r s]|e] eqn:E; [|exfalso; vm_compute in E; discriminate].
  assert (rtc reservation_step (demo_hosting_db, 0) (mem (commit s), 100)) as Hsteps.
  { eapply rtc_l; [apply (step_tick _ _ 100); lia|].
    eapply rtc_l; [|apply rtc_refl]. eapply step_reserve; [exact E|].
    vm_compute. intros H. inversion H as [|? ? ? H2]; subst; inversion H2. }
  exists (mem (commit s)). split; [exact Hsteps|]. split; [vm_compute in E; simplify_eq; reflexivity|].
  exact (proj2 (reservations_never_overcommit _ _ _ _ demo_wf demo_fits Hsteps)).
Defined.

Lemma reserve_capacity_granted_witness :
  reserve_capacity (open_session demo_hosting_db) 11 100 1 3000 1024 901 400 2 (Some 8) "" =
    Err (ValueError "insufficient available capacity: storage_mb") /\
  exists r s, reserve_capacity (open_session demo_hosting_db) 11 100 1 3000 1024 900 400 2 (Some 8) "" = Ok (r, s) /\
    r = new_reservation 11 100 1 (Some 8) "" (Resources.mk 3000 1024 900) 400 2.
Proof.
  split; [vm_compute; reflexivity|].
  destruct (reserve_capacity (open_session demo_hosting_db) 11 100 1 3000 1024 900 400 2 (Some 8) "")
    as [[r s]|e] eqn:E; [|exfalso; vm_compute in E; discriminate].
  exists r, s. split; [reflexivity|].
  exact (proj1 (proj2 (proj1 (reserve_capacity_granted _ 11 100 1 3000 1024 900 400 2 (Some 8) "" r s demo_wf) E))).
Defined.

Lemma release_reservation_frees_witness :
  exists s, committed Cpu (mem s) 1 100 = committed Cpu demo_hosting_db 1 100 - 1000.
Proof.
  set (r := new_reservation 10 0 1 (Some 7) "placement" (Resources.mk 1000 512 100) 500 2).
  destruct (release_reservation_frees demo_hosting_db r 100 200 demo_wf) as (s & _ & Hc & _);
    [apply list_elem_of_singleton; reflexivity|reflexivity|].
  exists s. rewrite (Hc Cpu 1 100). vm_compute. reflexivity.
Defined.
