(* ===== verification/Cluster.v ===== *)
(** [app/services/cluster_engine.py]: ranking of placement candidates, the
    dependency order of a deployment graph, reachability and the cluster
    summary.  The native C++ library is a record of functions ([NativeLibrary]);
    the Python fallbacks are modelled in full. *)
From S2P Require Import Prelude PyFloat Json.
From stdpp Require Import gmap.
#[local] Open Scope string_scope.
#[local] Open Scope list_scope.
#[local] Open Scope Z_scope.

(** ** Nodes and edges of a sanitized topology snapshot *)
Module ClusterNode.
Record ClusterNode : Type := mk {
  id : option string; name : option string; private_ip : option string; status : option string;
  online : bool; healthy : bool;
  cpu_used_percent : Json;
  memory_total_bytes : Json; memory_used_bytes : Json;
  storage_total_bytes : Json; storage_used_bytes : Json
}.
End ClusterNode.
Notation ClusterNode := ClusterNode.ClusterNode.

Module ClusterEdge.
Record ClusterEdge : Type := mk {
  source : option string; target : option string; relation : option string;
  service : option string; protocol : option string; port : Json
}.
End ClusterEdge.
Notation ClusterEdge := ClusterEdge.ClusterEdge.

Module ClusterSummary.
Record ClusterSummary : Type := mk {
  nodes : Z; edges : Z; online_nodes : Z; healthy_nodes : Z;
  memory_total_bytes : Z; memory_used_bytes : Z; storage_total_bytes : Z; storage_used_bytes : Z
}.
End ClusterSummary.
Notation ClusterSummary := ClusterSummary.ClusterSummary.

(** ** Conversions *)
Definition u64 (value : Json) : Z :=
  match py_int (jor value (JInt 0)) with Ok z => Z.max 0 z | Err _ => 0 end.
Definition f64 (value : Json) : float :=
  match py_float (jor value (JFloat fzero)) with
  | Ok f => fmax fzero (fmin f (of_Z 100))
  | Err _ => fzero
  end.
Definition status_code (value : option string) (online : bool) : Z :=
  if online then 1
  else
    let normalized := lower (opt_str value) in
    if normalized ==? "maintenance" then 3
    else if normalized in? ["disabled"; "offline"] then 2 else 0.
Definition RELATIONS : list (string * Z) :=
  [("communicates_with", 0); ("hosts", 1); ("depends_on", 2); ("backs_up_to", 3); ("replicates_to", 4)].

(** ** [_python_summary] *)
Definition python_summary (nodes : list ClusterNode) (edges : list ClusterEdge) : ClusterSummary :=
  {| ClusterSummary.nodes := zlen nodes;
     ClusterSummary.edges := zlen edges;
     ClusterSummary.online_nodes := zlen (List.filter ClusterNode.online nodes);
     ClusterSummary.healthy_nodes := zlen (List.filter ClusterNode.healthy nodes);
     ClusterSummary.memory_total_bytes := sum_by (fun n => u64 (ClusterNode.memory_total_bytes n)) nodes;
     ClusterSummary.memory_used_bytes := sum_by (fun n => u64 (ClusterNode.memory_used_bytes n)) nodes;
     ClusterSummary.storage_total_bytes := sum_by (fun n => u64 (ClusterNode.storage_total_bytes n)) nodes;
     ClusterSummary.storage_used_bytes := sum_by (fun n => u64 (ClusterNode.storage_used_bytes n)) nodes |}.

(** ** [_python_reachable] *)
Definition node_ids (nodes : list ClusterNode) : list string :=
  map (fun n => opt_str (ClusterNode.id n)) nodes.
(** The adjacency of the edges between known nodes, self-loops dropped. *)
Definition usable_edges (ids : list string) (edges : list ClusterEdge) : list (string * string) :=
  List.filter (fun '(l, r) => (l in? ids) && (r in? ids) && (l !=? r))
    (map (fun e => (opt_str (ClusterEdge.source e), opt_str (ClusterEdge.target e))) edges).
Definition neighbors (adjacency : list (string * string)) (current : string) : list string :=
  map snd (List.filter (fun e => fst e ==? current) adjacency).

(** The inner loop over the neighbours: [None] when the target is met. *)
Fixpoint visit (target : string) (l : list string) (pending seen : list string)
    : option (list string * list string) :=
  match l with
  | [] => Some (pending, seen)
  | neighbor :: l =>
      if neighbor ==? target then None
      else if neighbor in? seen then visit target l pending seen
      else visit target l (pending ++ [neighbor]) (neighbor :: seen)
  end.
(** The breadth-first loop; a node enters [pending] at most once, so the fuel
    is the number of nodes. *)
Fixpoint bfs (fuel : nat) (adjacency : list (string * string)) (target : string)
    (pending seen : list string) : bool :=
  match pending with
  | [] => false
  | current :: pending =>
      match fuel with
      | O => false
      | S fuel =>
          match visit target (neighbors adjacency current) pending seen with
          | None => true
          | Some (pending, seen) => bfs fuel adjacency target pending seen
          end
      end
  end.
Definition python_reachable (nodes : list ClusterNode) (edges : list ClusterEdge) (source target : string) : bool :=
  let ids := node_ids nodes in
  if (source notin? ids) || (target notin? ids) then false
  else if source ==? target then true
  else bfs (length ids) (usable_edges ids edges) target [source] [source].

(** ** Ranking of placement candidates *)

(** What a candidate row offers: the keys read by [_placement_sort_key]. *)
Class PlacementRow (R : Type) := {
  row_eligible : R -> bool;
  row_score : R -> Json;
  row_name : R -> option string;
  row_node_id : R -> option string
}.

Module SortKey.
Record SortKey : Type := mk { ineligible : bool; score : float; name : string; node_id : string }.
End SortKey.
Notation SortKey := SortKey.SortKey.

Definition placement_sort_key {R} `{PlacementRow R} (row : R) : SortKey :=
  let score := match py_float (row_score row) with Ok f => f | Err _ => finf end in
  let score := if is_finite score then score else finf in
  SortKey.mk (negb (row_eligible row)) score (lower (opt_str (row_name row))) (opt_str (row_node_id row)).

(** Comparison of the key tuples: the first differing component decides. *)
Definition key_lt (a b : SortKey) : bool :=
  match SortKey.ineligible a, SortKey.ineligible b with
  | false, true => true
  | true, false => false
  | _, _ =>
      if negb (feq (SortKey.score a) (SortKey.score b)) then flt (SortKey.score a) (SortKey.score b)
      else if SortKey.name a !=? SortKey.name b then String.ltb (SortKey.name a) (SortKey.name b)
      else String.ltb (SortKey.node_id a) (SortKey.node_id b)
  end.
Definition row_leb {R} `{PlacementRow R} (a b : R) : bool :=
  negb (key_lt (placement_sort_key b) (placement_sort_key a)).
Definition python_rank_candidates {R} `{PlacementRow R} (rows : list R) : list R := sort_by row_leb rows.

(** ** The native library: a table of functions over an opaque handle.  A call
    can also raise [OSError] or [ArgumentError] ([None]). *)
Record NativeLibrary : Type := {
  handle : Type;
  cluster_create : option handle;
  cluster_upsert_node : handle -> string -> string -> string -> Z -> bool -> float -> Z -> Z -> Z -> Z
                        -> option (Z * handle);
  cluster_upsert_edge : handle -> string -> string -> Z -> string -> string -> Z -> option (Z * handle);
  cluster_reachable : handle -> string -> string -> option Z;
  cluster_summary_read : handle -> option (Z * ClusterSummary);
  cluster_rank_candidates : list (string * float * bool) -> option (Z * list Z);
  cluster_dependency_order : list string -> list (string * string) -> option (Z * list Z)
}.

(** [sorted(l) == list(range(n))] *)
Definition is_permutation_of_range (l : list Z) (n : nat) : bool :=
  sort_by Z.leb l ==? map Z.of_nat (seq 0 n).
(** [[rows[i] for i in l]] for indices in range *)
Definition take_indices {A} (rows : list A) (l : list Z) : list A :=
  omap (fun i => rows !! Z.to_nat i) l.

Definition rank_placement_candidates {R} `{PlacementRow R} (library : option NativeLibrary) (rows : list R) : list R :=
  if (length rows <=? 1)%nat then rows
  else match library with
  | None => python_rank_candidates rows
  | Some lib =>
      let entry row :=
        let k := placement_sort_key row in
        ((SortKey.name k ++ String (chr 31) (SortKey.node_id k))%string, SortKey.score k, row_eligible row) in
      match cluster_rank_candidates lib (map entry rows) with
      | Some (code, order) =>
          let ranked_indices := firstn (length rows) order in
          if (code =? 0) && is_permutation_of_range ranked_indices (length rows)
          then take_indices rows ranked_indices
          else python_rank_candidates rows
      | None => python_rank_candidates rows
      end
  end.

(** ** The ranking of the repository's library, [engines/cpp-cluster]
    ([c_api.cpp], [placement_scheduler.cpp]) *)
Module PlacementCandidate.
Record PlacementCandidate : Type := mk { key : string; score : float; eligible : bool; original_index : Z }.
End PlacementCandidate.
Notation PlacementCandidate := PlacementCandidate.PlacementCandidate.
(** A C string ends at its first NUL. *)
Fixpoint safe_string (s : string) : string :=
  match s with String c s => if ord c =? 0 then EmptyString else String c (safe_string s) | EmptyString => EmptyString end.
Definition normalized_score (value : float) : float := if is_finite value then value else finf.
(** [CandidatePriority]: whether [left] leaves the queue after [right]. *)
Definition CandidatePriority (left right : PlacementCandidate) : bool :=
  if xorb (PlacementCandidate.eligible left) (PlacementCandidate.eligible right)
  then negb (PlacementCandidate.eligible left) && PlacementCandidate.eligible right
  else
    let left_score := normalized_score (PlacementCandidate.score left) in
    let right_score := normalized_score (PlacementCandidate.score right) in
    if negb (feq left_score right_score) then flt right_score left_score
    else if PlacementCandidate.key left !=? PlacementCandidate.key right
    then String.ltb (PlacementCandidate.key right) (PlacementCandidate.key left)
    else PlacementCandidate.original_index right <? PlacementCandidate.original_index left.
(** What a [std::priority_queue] yields, from [top] to the last [pop]. *)
Definition priority_queue (l : list PlacementCandidate) : list PlacementCandidate :=
  sort_by (fun a b => negb (CandidatePriority a b)) l.
Definition cpp_rank_candidates (entries : list (string * float * bool)) : Z * list Z :=
  let candidate index (entry : string * float * bool) :=
    PlacementCandidate.mk (safe_string (fst (fst entry))) (snd (fst entry)) (snd entry) (Z.of_nat index) in
  (0, map PlacementCandidate.original_index (priority_queue (imap candidate entries))).
(** There is no library, or it is that of the repository, a call of which may fail. *)
Definition repository_library (library : option NativeLibrary) : Prop :=
  forall lib, library = Some lib -> forall entries,
    match cluster_rank_candidates lib entries with
    | Some (code, order) => code = 0 -> (code, order) = cpp_rank_candidates entries
    | None => True
    end.

(** ** Dependency order *)
Definition dependency_edges (edges : list ClusterEdge) : list (string * string) :=
  map (fun e => (opt_str (ClusterEdge.source e), opt_str (ClusterEdge.target e)))
    (List.filter (fun e => lower (opt_str (ClusterEdge.relation e)) ==? "depends_on") edges).

Module OrderResult.
Record OrderResult : Type := mk {
  engine : string; acyclic : bool; order : list string; error : option string
}.
End OrderResult.
Notation OrderResult := OrderResult.OrderResult.
Definition fallback_result (acyclic : bool) (order : list string) (error : option string) : OrderResult :=
  OrderResult.mk "python-fallback" acyclic order error.

(** The tables [remaining] and [dependents] while the edges are read: the
    number of open dependencies of a node, and the nodes that wait for it. *)
Fixpoint read_edges (known : list string) (edges : list (string * string))
    (remaining : string -> Z) (dependents : string -> list string)
    : option ((string -> Z) * (string -> list string)) :=
  match edges with
  | [] => Some (remaining, dependents)
  | (dependent, dependency) :: edges =>
      if (dependent notin? known) || (dependency notin? known) || (dependent ==? dependency) then None
      else if dependent in? dependents dependency then read_edges known edges remaining dependents
      else read_edges known edges
        (fun v => if v ==? dependent then remaining v + 1 else remaining v)
        (fun v => if v ==? dependency then dependents v ++ [dependent] else dependents v)
  end.

(** Decrementing the dependents of a scheduled node; [ready] is a heap, kept
    as the sorted list of its elements. *)
Definition heappush (x : string) (heap : list string) : list string := insert_sorted String.leb x heap.
Fixpoint release_dependents (l : list string) (remaining : string -> Z) (ready : list string)
    : (string -> Z) * list string :=
  match l with
  | [] => (remaining, ready)
  | dependent :: l =>
      let n := remaining dependent - 1 in
      let remaining := fun v => if v ==? dependent then n else remaining v in
      release_dependents l remaining (if n =? 0 then heappush dependent ready else ready)
  end.
Fixpoint kahn (fuel : nat) (dependents : string -> list string) (remaining : string -> Z)
    (ready order : list string) : list string :=
  match fuel, ready with
  | S fuel, current :: ready =>
      let '(remaining, ready) := release_dependents (sort_by String.leb (dependents current)) remaining ready in
      kahn fuel dependents remaining ready (order ++ [current])
  | _, _ => order
  end.

Definition python_dependency_order (nodes : list ClusterNode) (edges : list ClusterEdge) : OrderResult :=
  let ids := node_ids nodes in
  match ids with
  | [] => fallback_result true [] None
  | _ =>
    if existsb (fun i => negb (str_truthy i)) ids || negb (bool_decide (NoDup ids))
    then fallback_result false [] (Some "invalid node ids")
    else match read_edges ids (dependency_edges edges) (fun _ => 0) (fun _ => []) with
    | None => fallback_result false [] (Some "invalid dependency edge")
    | Some (remaining, dependents) =>
        let ready := sort_by String.leb (List.filter (fun i => remaining i =? 0) ids) in
        let order := kahn (length ids) dependents remaining ready [] in
        let complete := Nat.eqb (length order) (length ids) in
        fallback_result complete (if complete then order else []) None
    end
  end.

Definition dependency_order (library : option NativeLibrary) (nodes : list ClusterNode) (edges : list ClusterEdge)
    : OrderResult :=
  let ids := node_ids nodes in
  match ids with
  | [] => OrderResult.mk (match library with Some _ => "cpp" | None => "python-fallback" end) true [] None
  | _ =>
    let fallback := python_dependency_order nodes edges in
    match OrderResult.acyclic fallback, OrderResult.error fallback, library with
    | false, Some _, _ => fallback
    | _, _, None => fallback
    | _, _, Some lib =>
        match cluster_dependency_order lib ids (dependency_edges edges) with
        | None => fallback
        | Some (code, order) =>
            if code =? 3 then OrderResult.mk "cpp" false [] None
            else
              let ranked_indices := firstn (length ids) order in
              if (code =? 0) && is_permutation_of_range ranked_indices (length ids)
              then OrderResult.mk "cpp" true (take_indices ids ranked_indices) None
              else fallback
        end
    end
  end.

(** ** [cluster_graph_analysis] *)
Module GraphAnalysis.
Record GraphAnalysis : Type := mk {
  engine : string; summary : ClusterSummary; reachable : option bool
}.
End GraphAnalysis.
Notation GraphAnalysis := GraphAnalysis.GraphAnalysis.

(** Ingestion: a node that fails raises; an edge that fails is skipped. *)
Fixpoint ingest_nodes (lib : NativeLibrary) (h : handle lib) (nodes : list ClusterNode) : option (handle lib) :=
  match nodes with
  | [] => Some h
  | n :: nodes =>
      match cluster_upsert_node lib h (opt_str (ClusterNode.id n)) (opt_str (ClusterNode.name n))
              (opt_str (ClusterNode.private_ip n)) (status_code (ClusterNode.status n) (ClusterNode.online n))
              (ClusterNode.healthy n) (f64 (ClusterNode.cpu_used_percent n))
              (u64 (ClusterNode.memory_total_bytes n)) (u64 (ClusterNode.memory_used_bytes n))
              (u64 (ClusterNode.storage_total_bytes n)) (u64 (ClusterNode.storage_used_bytes n)) with
      | Some (0, h) => ingest_nodes lib h nodes
      | _ => None
      end
  end.
Fixpoint ingest_edges (lib : NativeLibrary) (h : handle lib) (edges : list ClusterEdge) : option (handle lib) :=
  match edges with
  | [] => Some h
  | e :: edges =>
      let protocol := lower (opt_str (ClusterEdge.protocol e)) in
      let port := Z.max 0 (Z.min (u64 (ClusterEdge.port e)) 65535) in
      let relation := match dict_get (lower (opt_str (ClusterEdge.relation e))) RELATIONS with
                      | Some r => r | None => 0 end in
      match cluster_upsert_edge lib h (opt_str (ClusterEdge.source e)) (opt_str (ClusterEdge.target e))
              relation (opt_str (ClusterEdge.service e)) protocol port with
      | Some (_, h) => ingest_edges lib h edges
      | None => None
      end
  end.

Definition cluster_graph_analysis (library : option NativeLibrary) (nodes : list ClusterNode)
    (edges : list ClusterEdge) (source target : option string) : GraphAnalysis :=
  let endpoints := match source, target with Some s, Some t => Some (s, t) | _, _ => None end in
  let fallback := GraphAnalysis.mk "python-fallback" (python_summary nodes edges)
    (option_map (fun '(s, t) => python_reachable nodes edges s t) endpoints) in
  match library with
  | None => fallback
  | Some lib =>
    match cluster_create lib with
    | None => GraphAnalysis.mk "python-fallback" (python_summary nodes edges) None
    | Some h =>
      match ingest_nodes lib h nodes with
      | None => fallback
      | Some h =>
        match ingest_edges lib h edges with
        | None => fallback
        | Some h =>
          match cluster_summary_read lib h with
          | Some (0, summary) =>
              match endpoints with
              | None => GraphAnalysis.mk "cpp" summary None
              | Some (s, t) =>
                  match cluster_reachable lib h s t with
                  | Some r => GraphAnalysis.mk "cpp" summary (Some (r =? 1))
                  | None => fallback
                  end
              end
          | _ => fallback
          end
        end
      end
    end
  end.

(** * Ranking *)
Definition key_cmp : SortKey -> SortKey -> comparison :=
  lex_cmp (fun a b => Z.compare (Z.b2z (SortKey.ineligible a)) (Z.b2z (SortKey.ineligible b)))
 (lex_cmp (fun a b => rank_cmp (frank (SortKey.score a)) (frank (SortKey.score b)))
 (lex_cmp (fun a b => String.compare (SortKey.name a) (SortKey.name b))
          (fun a b => String.compare (SortKey.node_id a) (SortKey.node_id b)))).

Lemma key_cmp_order : cmp_order key_cmp.
Proof.
  apply lex_cmp_order; [|apply lex_cmp_order; [|apply lex_cmp_order]].
  - apply (map_cmp_order (fun a => Z.b2z (SortKey.ineligible a))), Z_cmp_order.
  - apply (map_cmp_order (fun a => frank (SortKey.score a))), rank_cmp_order.
  - apply (map_cmp_order SortKey.name), string_cmp_order.
  - apply (map_cmp_order SortKey.node_id), string_cmp_order.
Qed.

Lemma string_compare_refl s : String.compare s s = Eq.
Proof. destruct (String.compare s s) eqn:E; [done|..]; pose proof (String.compare_antisym s s); rewrite E in *; done. Qed.

(** On numbers the tuple comparison is the lexicographic one. *)
Lemma key_lt_cmp a b :
  is_nan (SortKey.score a) = false -> is_nan (SortKey.score b) = false ->
  key_lt a b = match key_cmp a b with Lt => true | _ => false end.
Proof.
  intros Ha Hb. unfold key_lt, key_cmp, lex_cmp, feq, flt, SFeqb, SFltb.
  rewrite !SFcompare_rank by done.
  destruct (SortKey.ineligible a), (SortKey.ineligible b); simpl; try done;
  destruct (rank_cmp _ _); simpl; try done;
  bdestruct (SortKey.name a !=? SortKey.name b); unfold String.ltb;
    (rewrite E, string_compare_refl; by destruct (String.compare _ _)) ||
    (destruct (String.compare (SortKey.name a) (SortKey.name b)) eqn:En; try done;
     by apply String.compare_eq_iff in En).
Qed.

Lemma sort_by_ext {A} (f g : A -> A -> bool) l : (forall a b, f a b = g a b) -> sort_by f l = sort_by g l.
Proof.
  intros Hf. unfold sort_by. induction l as [|r l IH]; simpl; [done|]. rewrite IH. generalize (fold_right (insert_sorted g) [] l).
  intros l'. induction l' as [|a l' IHl]; simpl; [done|]. by rewrite Hf, IHl.
Qed.

Section Ranking.
Context {R : Type} `{PlacementRow R}.
Implicit Types (rows : list R).

Lemma placement_score_num (r : R) : is_nan (SortKey.score (placement_sort_key r)) = false.
Proof.
  unfold placement_sort_key. simpl.
  destruct (match py_float (row_score r) with Ok _ => _ | Err _ => _ end) as [| | |]; done.
Qed.

Lemma row_leb_cmp (a b : R) :
  row_leb a b = cmp_leb (fun x y => key_cmp (placement_sort_key x) (placement_sort_key y)) a b.
Proof.
  unfold row_leb, cmp_leb. rewrite key_lt_cmp by apply placement_score_num.
  rewrite (cmp_sym _ key_cmp_order (placement_sort_key a)). by destruct (key_cmp _ _).
Qed.

Lemma python_rank_sort rows :
  python_rank_candidates rows =
  sort_cmp (fun x y => key_cmp (placement_sort_key x) (placement_sort_key y)) rows.
Proof.
  apply sort_by_ext, row_leb_cmp.
Qed.

Lemma take_indices_seq {A} (rows : list A) n k :
  (k + n <= length rows)%nat ->
  take_indices rows (map Z.of_nat (seq k n)) = take n (drop k rows).
Proof.
  revert k. induction n as [|n IH]; intros k Hk; [done|].
  destruct (lookup_lt_is_Some_2 rows k) as [x Hx]; [lia|].
  rewrite (drop_S _ _ _ Hx). unfold take_indices in *. cbn [seq map omap list_omap].
  rewrite Nat2Z.id, Hx. cbn. f_equal. apply IH. lia.
Qed.

Lemma take_indices_range {A} (rows : list A) : take_indices rows (map Z.of_nat (seq 0 (length rows))) = rows.
Proof. by rewrite take_indices_seq, firstn_all. Qed.

Lemma take_indices_perm {A} (rows : list A) l :
  is_permutation_of_range l (length rows) = true -> take_indices rows l ≡ₚ rows.
Proof.
  unfold is_permutation_of_range. intros Hl%bool_decide_eq_true.
  rewrite <- (take_indices_range rows) at 2. rewrite <- Hl. unfold take_indices.
  apply omap_Permutation. by rewrite sort_by_perm.
Qed.
End Ranking.

(** * Reachability *)
Definition edge_rel (l : list (string * string)) : relation string := fun a b => (a, b) ∈ l.

Lemma closed_rtc {A} (E : relation A) (l : list A) x y :
  (forall x y, x ∈ l -> E x y -> y ∈ l) -> x ∈ l -> rtc E x y -> y ∈ l.
Proof. intros Hc Hx Hr. induction Hr; eauto. Qed.

Section Reachability.
Context (ids : list string) (adj : list (string * string)) (source target : string).
Context (Hadj : forall a b, (a, b) ∈ adj -> b ∈ ids).
Let E := edge_rel adj.

Lemma neighbors_spec a b : b ∈ neighbors adj a <-> E a b.
Proof using Type.
  unfold neighbors, E, edge_rel. rewrite list_elem_of_fmap. split.
  - intros ([x y] & -> & Hin). apply list_elem_of_In, filter_In in Hin as [Hin Hb%bool_decide_eq_true].
    simpl in Hb; subst. by apply list_elem_of_In.
  - intros Hin. exists (a, b). split; [done|]. apply list_elem_of_In, filter_In.
    rewrite <- list_elem_of_In. split; [done|]. by apply bool_decide_eq_true.
Qed.

Lemma in_spec {A} `{EqDecision A} (x : A) l : (x in? l) = true <-> x ∈ l.
Proof using Type.
  rewrite existsb_exists. split.
  - intros (y & Hy & Hb%bool_decide_eq_true); subst. by apply list_elem_of_In.
  - intros Hx. exists x. rewrite <- list_elem_of_In. split; [done|]. by apply bool_decide_eq_true.
Qed.

(** Known nodes that were not seen yet. *)
Definition unseen (seen : list string) : nat := length (List.filter (fun i => i notin? seen) ids).

Lemma unseen_cons n seen : n ∈ ids -> n ∉ seen -> (unseen (n :: seen) < unseen seen)%nat.
Proof using Type.
  clear Hadj E. unfold unseen. intros Hin Hn. induction ids as [|i l IH]; [by apply not_elem_of_nil in Hin|].
  assert (length (List.filter (fun i => i notin? (n :: seen)) l)
          <= length (List.filter (fun i => i notin? seen) l))%nat as Hle.
  { clear. induction l as [|j l IH]; simpl; [done|].
    destruct (bool_decide (j = n)), (j in? seen); simpl in *; lia. }
  simpl in *. apply elem_of_cons in Hin as [->|Hin].
  - rewrite bool_decide_eq_true_2 by done. simpl.
    destruct (i in? seen) eqn:Ei; [by apply in_spec in Ei|]. simpl. lia.
  - specialize (IH Hin). destruct (bool_decide (i = n)), (i in? seen); simpl in *; lia.
Qed.

(** The loop invariant: everything seen is reachable, the target is not seen,
    and the nodes seen but not pending have all their neighbours seen. *)
Record bfs_inv (pending seen : list string) : Prop := {
  inv_reach : forall x, x ∈ seen -> rtc E source x;
  inv_pending : forall x, x ∈ pending -> x ∈ seen;
  inv_target : target ∉ seen;
  inv_closed : forall x y, x ∈ seen -> E x y -> x ∈ pending \/ y ∈ seen
}.

Lemma visit_none l pending seen : visit target l pending seen = None <-> target ∈ l.
Proof using Type.
  revert pending seen. induction l as [|n l IH]; intros; simpl.
  - split; [done|by intros ?%not_elem_of_nil].
  - rewrite elem_of_cons. bdestruct (n ==? target); [naive_solver|].
    destruct (n in? seen); rewrite IH; naive_solver.
Qed.

Lemma visit_some l pending seen pending' seen' :
  visit target l pending seen = Some (pending', seen') ->
  (forall x, x ∈ l -> x ∈ ids) ->
  (forall x, x ∈ seen' <-> x ∈ seen \/ x ∈ l) /\
  (forall x, x ∈ pending' -> x ∈ pending \/ x ∈ seen') /\
  (forall x, x ∈ pending -> x ∈ pending') /\
  (forall x, x ∈ seen' -> x ∈ seen \/ x ∈ pending') /\
  (unseen seen' + length pending' <= unseen seen + length pending)%nat.
Proof using Type.
  revert pending seen. induction l as [|n l IH]; intros pending seen; simpl.
  - intros ? _. simplify_eq. split_and!; [|by auto..].
    intros x. split; [auto|intros [?|?%not_elem_of_nil]; done].
  - bdestruct (n ==? target); [done|]. intros Hv Hids.
    assert (forall x, x ∈ l -> x ∈ ids) as Hl by (intros; apply Hids; by right).
    destruct (n in? seen) eqn:Ein.
    + apply in_spec in Ein. destruct (IH _ _ Hv Hl) as (H1 & H2 & H3 & H4 & H5).
      split_and!; try done. intros x. rewrite H1, elem_of_cons. naive_solver.
    + assert (n ∉ seen) as Hn by (by rewrite <- in_spec, Ein).
      destruct (IH _ _ Hv Hl) as (H1 & H2 & H3 & H4 & H5).
      pose proof (unseen_cons n seen (Hids n (list_elem_of_here _ _)) Hn).
      rewrite length_app in H5. simpl in H5.
      split_and!.
      * intros x. rewrite H1, !elem_of_cons. naive_solver.
      * intros x Hx. apply H2 in Hx as [Hx|Hx]; [|by right].
        apply elem_of_app in Hx as [?|Hx]; [by left|]. apply list_elem_of_singleton in Hx as ->.
        right. rewrite H1. left. by left.
      * intros x Hx. apply H3, elem_of_app. by left.
      * intros x Hx. apply H4 in Hx as [Hx|?]; [apply elem_of_cons in Hx as [->|?]; [|by left]|by right].
        right. apply H3, elem_of_app. right. by left.
      * lia.
Qed.

Lemma bfs_inv_step current pending seen pending' seen' :
  bfs_inv (current :: pending) seen -> target ∉ neighbors adj current ->
  visit target (neighbors adj current) pending seen = Some (pending', seen') ->
  bfs_inv pending' seen' /\ (unseen seen' + length pending' <= unseen seen + length pending)%nat.
Proof using Hadj.
  intros [Hr Hp Ht Hc] Hn Hv.
  destruct (visit_some _ _ _ _ _ Hv) as (H1 & H2 & H3 & H4 & H5).
  { intros x Hx%neighbors_spec. by apply (Hadj current). }
  split; [|done]. split.
  - intros x [Hx|Hx%neighbors_spec]%H1; [by apply Hr|].
    eapply rtc_r; [|exact Hx]. apply Hr, Hp. by left.
  - intros x [Hx|Hx]%H2; [|done]. apply H1. left. apply Hp. by right.
  - rewrite H1. intros [?|?]; done.
  - intros x y Hx Hxy. destruct (decide (x = current)) as [->|Hne].
    + right. apply H1. right. by apply neighbors_spec.
    + destruct (H4 x Hx) as [Hs|?]; [|by left].
      destruct (Hc x y Hs Hxy) as [Hx'|?]; [|right; apply H1; by left].
      apply elem_of_cons in Hx' as [?|?]; [done|left; by apply H3].
Qed.

Lemma bfs_correct fuel pending seen :
  bfs_inv pending seen -> source ∈ seen -> (unseen seen + length pending <= fuel)%nat ->
  bfs fuel adj target pending seen = true <-> rtc E source target.
Proof using Hadj.
  revert pending seen. induction fuel as [|fuel IH]; intros [|current pending] seen Hinv Hs Hf; simpl in *; try lia.
  1,2: split; [done|]; intros Hst; exfalso; apply (inv_target _ _ Hinv);
    apply (closed_rtc E seen source target); [|done..]; intros x y Hx Hxy;
    destruct (inv_closed _ _ Hinv _ _ Hx Hxy) as [Hy|?]; [by apply not_elem_of_nil in Hy|done].
  destruct (visit target (neighbors adj current) pending seen) as [[pending' seen']|] eqn:Hv.
  - assert (target ∉ neighbors adj current) as Hn by (rewrite <- (visit_none _ pending seen); by rewrite Hv).
    destruct (bfs_inv_step _ _ _ _ _ Hinv Hn Hv) as [Hinv' Hle].
    apply IH; [done| |lia].
    destruct (visit_some _ _ _ _ _ Hv) as (H1 & _); [|apply H1; by left].
    intros x Hx%neighbors_spec. by apply (Hadj current).
  - split; [|done]. intros _. apply visit_none in Hv. apply neighbors_spec in Hv.
    eapply rtc_r; [|exact Hv]. apply (inv_reach _ _ Hinv), (inv_pending _ _ Hinv). by left.
Qed.
End Reachability.

(** * Dependency order *)

(** ** A finite relation in which every element has a successor has a cycle *)
Fixpoint chain {A} (R : relation A) (x : A) (l : list A) : Prop :=
  match l with [] => True | y :: l => R x y /\ chain R y l end.

Lemma chain_tc {A} (R : relation A) x l y : chain R x l -> y ∈ l -> tc R x y.
Proof.
  revert x. induction l as [|z l IH]; intros x; simpl; [by intros _ ?%not_elem_of_nil|].
  intros [Hxz Hl] [->|Hy]%elem_of_cons; [by apply tc_once|].
  eapply tc_l; [exact Hxz|]. by apply IH.
Qed.

Lemma chain_dup {A} `{EqDecision A} (R : relation A) x l :
  chain R x l -> ~ NoDup (x :: l) -> exists y, tc R y y.
Proof.
  revert x. induction l as [|z l IH]; intros x Hc Hn.
  - exfalso. apply Hn, NoDup_singleton.
  - destruct (decide (x ∈ z :: l)) as [Hin|Hin].
    + exists x. by eapply chain_tc.
    + apply (IH z); [by destruct Hc|]. intros Hz. apply Hn. by constructor.
Qed.

Lemma chain_exists {A} (R : relation A) (s : list A) n x :
  (forall x, x ∈ s -> exists y, y ∈ s /\ R x y) -> x ∈ s ->
  exists l, length l = n /\ (forall y, y ∈ l -> y ∈ s) /\ chain R x l.
Proof.
  intros Hs. revert x. induction n as [|n IH]; intros x Hx.
  - exists []. split_and!; [done|by intros y ?%not_elem_of_nil|done].
  - destruct (Hs x Hx) as (y & Hy & Hxy). destruct (IH y Hy) as (l & Hl & Hin & Hc).
    exists (y :: l). split_and!; [by rewrite <- Hl| |done].
    by intros z [->|Hz]%elem_of_cons; [|apply Hin].
Qed.

Lemma finite_cycle {A} `{EqDecision A} (R : relation A) (s : list A) x :
  (forall x, x ∈ s -> exists y, y ∈ s /\ R x y) -> x ∈ s -> exists y, tc R y y.
Proof.
  intros Hs Hx. destruct (chain_exists R s (length s) x Hs Hx) as (l & Hl & Hin & Hc).
  apply (chain_dup R x l Hc). intros Hn.
  assert (x :: l ⊆+ s) as Hsub%submseteq_length.
  { apply NoDup_submseteq; [done|]. by intros y [->|Hy]%elem_of_cons; [|apply Hin]. }
  simpl in Hsub. lia.
Qed.

(** ** Kahn's algorithm *)

(** [u] comes before [v]. *)
Definition before (order : list string) (u v : string) : Prop :=
  exists l1 l2, order = l1 ++ v :: l2 /\ u ∈ l1.

Section Kahn.
Context (ids : list string) (dependents : string -> list string).
Context (Hids : NoDup ids) (Hnd : forall u, NoDup (dependents u)).
Context (Hself : forall u, u ∉ dependents u) (Hin : forall u v, v ∈ dependents u -> v ∈ ids /\ u ∈ ids).

(** The dependencies of [v] that are not scheduled yet. *)
Definition open_deps (order : list string) (v : string) : Z :=
  zlen (List.filter (fun u => (v in? dependents u) && (u notin? order)) ids).

Record kahn_inv (remaining : string -> Z) (ready order : list string) : Prop := {
  kahn_nodup : NoDup (order ++ ready);
  kahn_ids : forall v, v ∈ order ++ ready -> v ∈ ids;
  kahn_remaining : forall v, v ∈ ids -> v ∉ order -> remaining v = open_deps order v;
  kahn_ready : forall v, v ∈ ids -> v ∉ order -> v ∈ ready <-> remaining v = 0;
  kahn_topo : forall l1 v l2, order = l1 ++ v :: l2 -> forall u, v ∈ dependents u -> u ∈ l1
}.

Lemma zlen_filter_zero {A} (p : A -> bool) l :
  zlen (List.filter p l) = 0 <-> forall x, x ∈ l -> p x = false.
Proof using Type.
  unfold zlen. induction l as [|a l IH]; simpl.
  - split; [by intros _ x ?%not_elem_of_nil|done].
  - destruct (p a) eqn:Ep; simpl.
    + split; [lia|]. intros Ha. specialize (Ha a (list_elem_of_here _ _)). congruence.
    + rewrite IH. split; intros Ha x; [|intros; apply Ha; by right].
      intros [->|?]%elem_of_cons; [done|by apply Ha].
Qed.

Lemma open_deps_snoc order c v :
  c ∈ ids -> c ∉ order ->
  open_deps (order ++ [c]) v = open_deps order v - (if v in? dependents c then 1 else 0).
Proof using Hids.
  clear Hnd Hself Hin. unfold open_deps, zlen. intros Hc Hn. induction Hids as [|i l Hi Hl IH]; [by apply not_elem_of_nil in Hc|].
  assert (forall u, u notin? (order ++ [c]) = (u notin? order) && negb (u ==? c)) as Happ.
  { intros u. rewrite existsb_app. simpl. by rewrite orb_false_r, negb_orb. }
  simpl. rewrite Happ. apply elem_of_cons in Hc as [->|Hc].
  - rewrite bool_decide_eq_true_2, !andb_false_r by done.
    assert ((i notin? order) = true) as -> by (apply negb_true_iff, not_true_iff_false; by rewrite in_spec).
    rewrite andb_true_r.
    assert (List.filter (fun u => (v in? dependents u) && (u notin? (order ++ [i]))) l =
            List.filter (fun u => (v in? dependents u) && (u notin? order)) l) as ->.
    { apply List.filter_ext_in. intros u Hu%list_elem_of_In. rewrite Happ.
      rewrite bool_decide_eq_false_2 by (intros ->; done). by rewrite andb_true_r. }
    destruct (v in? dependents i); simpl; lia.
  - specialize (IH Hl Hc). rewrite (bool_decide_eq_false_2 (i = c)) by (intros ->; done). rewrite andb_true_r.
    destruct ((v in? dependents i) && (i notin? order)); simpl; lia.
Qed.

Lemma release_dependents_spec l remaining ready remaining' ready' :
  NoDup l -> release_dependents l remaining ready = (remaining', ready') ->
  (forall v, remaining' v = remaining v - (if v in? l then 1 else 0)) /\
  ready' ≡ₚ ready ++ List.filter (fun v => remaining v - 1 =? 0) l.
Proof using Type.
  intros Hl. revert remaining ready. induction Hl as [|d l Hd Hl IH]; intros remaining ready; simpl.
  - intros. simplify_eq. rewrite app_nil_r. split; [intros; lia|done].
  - intros Hr. apply IH in Hr as [H1 H2]. split.
    + intros v. rewrite H1. bdestruct (v ==? d); simpl; [subst|done].
      destruct (d in? l) eqn:Ed; [by apply in_spec in Ed|lia].
    + rewrite H2. assert (List.filter (fun v => (if v ==? d then remaining d - 1 else remaining v) - 1 =? 0) l =
        List.filter (fun v => remaining v - 1 =? 0) l) as ->.
      { apply List.filter_ext_in. intros v Hv%list_elem_of_In.
        by rewrite bool_decide_eq_false_2 by (intros ->; done). }
      destruct (remaining d - 1 =? 0); [|done]. unfold heappush. rewrite insert_sorted_perm.
      by rewrite <- Permutation_middle.
Qed.

(** A node without open dependencies has all of them scheduled. *)
Lemma closed_deps remaining ready order v u :
  kahn_inv remaining ready order -> v ∈ ids -> v ∉ order -> remaining v = 0 ->
  v ∈ dependents u -> u ∈ order.
Proof using Hin.
  intros Hinv Hv Hvo Hz Hu. rewrite (kahn_remaining _ _ _ Hinv) in Hz by done.
  unfold open_deps in Hz. rewrite zlen_filter_zero in Hz.
  specialize (Hz u (proj2 (Hin _ _ Hu))). rewrite andb_false_iff, negb_false_iff, in_spec in Hz.
  destruct Hz as [Hz|Hz]; [|done]. by apply not_true_iff_false in Hz; rewrite in_spec in Hz.
Qed.

Lemma pending_dependents remaining current ready order v :
  kahn_inv remaining (current :: ready) order -> v ∈ dependents current ->
  v ∉ order /\ v <> current /\ v ∉ ready.
Proof using Hself Hin.
  intros Hinv Hv. pose proof (kahn_nodup _ _ _ Hinv) as Hn.
  apply NoDup_app in Hn as (Hno & Hdisj & [Hcr Hnr]%NoDup_cons).
  assert (current ∉ order) as Hco by (intros Hx; apply (Hdisj _ Hx); by left).
  assert (v ∉ order) as Hvo.
  { intros Hvo. apply list_elem_of_split in Hvo as (l1 & l2 & Heq). apply Hco.
    rewrite Heq. apply elem_of_app. left. by apply (kahn_topo _ _ _ Hinv l1 v l2 Heq). }
  split_and!; [done|intros ->; by apply (Hself current)|].
  intros Hvr. destruct (Hin _ _ Hv) as [Hvi _]. apply Hco.
  apply (closed_deps _ _ _ v _ Hinv); [done..| |done].
  apply (kahn_ready _ _ _ Hinv); [done..|by right].
Qed.

Lemma snoc_eq_split {A} (order : list A) c l1 v l2 :
  order ++ [c] = l1 ++ v :: l2 ->
  order = l1 /\ c = v \/ exists l2', order = l1 ++ v :: l2'.
Proof using Type.
  destruct l2 as [|x l2 _] using rev_ind; intros Heq.
  - apply app_inj_tail in Heq as [-> ->]. by left.
  - right. exists l2. rewrite app_comm_cons, app_assoc in Heq. by apply app_inj_tail in Heq as [-> _].
Qed.

Lemma kahn_step remaining current ready order remaining' ready' :
  kahn_inv remaining (current :: ready) order ->
  release_dependents (sort_by String.leb (dependents current)) remaining ready = (remaining', ready') ->
  kahn_inv remaining' ready' (order ++ [current]).
Proof using Hids Hnd Hself Hin.
  intros Hinv Hrel. pose proof Hinv as [Hn Hi Hrem Hready Htopo].
  assert (NoDup (sort_by String.leb (dependents current))) as Hsn by (rewrite sort_by_perm; apply Hnd).
  destruct (release_dependents_spec _ _ _ _ _ Hsn Hrel) as [H1 H2].
  assert (forall v, (v in? sort_by String.leb (dependents current)) = (v in? dependents current)) as Hs.
  { intros v. apply eq_true_iff_eq. by rewrite !in_spec, sort_by_perm. }
  assert (NoDup ((order ++ [current]) ++ ready)) as Hn' by by rewrite <- app_assoc.
  assert (current ∈ ids) as Hc by (apply Hi, elem_of_app; right; by left).
  assert (current ∉ order) as Hco.
  { apply NoDup_app in Hn as (_ & Hdisj & _). intros Hx. apply (Hdisj _ Hx). by left. }
  pose proof (fun v => pending_dependents remaining current ready order v Hinv) as Hdep.
  set (opened := List.filter (fun v => remaining v - 1 =? 0) (sort_by String.leb (dependents current))) in *.
  assert (forall v, v ∈ opened <-> v ∈ dependents current /\ remaining v = 1) as Ho.
  { intros v. unfold opened. rewrite list_elem_of_In, filter_In, <- list_elem_of_In, sort_by_perm, Z.eqb_eq.
    intuition lia. }
  split.
  - rewrite H2, app_assoc. apply NoDup_app. split_and!; [done| |].
    2:{ unfold opened. by apply NoDup_ListNoDup, List.NoDup_filter, NoDup_ListNoDup. }
    intros v Hv [Hvd _]%Ho. destruct (Hdep v Hvd) as (? & ? & ?). apply elem_of_app in Hv as [Hv|?]; [|done].
    by apply elem_of_app in Hv as [?|?%list_elem_of_singleton].
  - intros v. rewrite H2, app_assoc, elem_of_app. intros [Hv|[Hv _]%Ho]; [|by apply Hin in Hv as [? _]].
    apply Hi. by rewrite <- app_assoc in Hv.
  - intros v Hv Hvo. rewrite not_elem_of_app in Hvo. destruct Hvo as [Hvo _].
    rewrite H1, Hs, open_deps_snoc by done. by rewrite Hrem.
  - intros v Hv Hvo. rewrite not_elem_of_app, list_elem_of_singleton in Hvo. destruct Hvo as [Hvo Hvc].
    rewrite H2, elem_of_app, Ho, H1, Hs. specialize (Hready v Hv Hvo). rewrite elem_of_cons in Hready.
    destruct (v in? dependents current) eqn:Ed.
    + apply in_spec in Ed. destruct (Hdep v Ed) as (_ & _ & Hvr). intuition lia.
    + assert (v ∉ dependents current) by (by rewrite <- in_spec, Ed). rewrite Z.sub_0_r. naive_solver.
  - intros l1 v l2 Heq u Hu. destruct (snoc_eq_split _ _ _ _ _ Heq) as [[-> ->]|(l2' & ->)].
    + apply (closed_deps _ _ _ v _ Hinv); [done..| |done]. apply Hready; [done..|by left].
    + by apply (Htopo l1 v l2').
Qed.

Lemma kahn_length remaining ready order :
  kahn_inv remaining ready order -> (length order + length ready <= length ids)%nat.
Proof using Type.
  intros Hinv. rewrite <- length_app. apply submseteq_length, NoDup_submseteq; apply Hinv.
Qed.

(** The loop ends with nothing ready. *)
Lemma kahn_end fuel remaining ready order :
  kahn_inv remaining ready order -> (length ids <= fuel + length order)%nat ->
  exists remaining', kahn_inv remaining' [] (kahn fuel dependents remaining ready order).
Proof using Hids Hnd Hself Hin.
  revert remaining ready order. induction fuel as [|fuel IH]; intros remaining ready order Hinv Hf; simpl.
  - pose proof (kahn_length _ _ _ Hinv). destruct ready; [by eexists|simpl in *; lia].
  - destruct ready as [|current ready]; [by eexists|].
    destruct (release_dependents _ _ _) as [remaining' ready'] eqn:Hrel.
    eapply IH; [by eapply kahn_step|]. rewrite length_app. simpl. lia.
Qed.

Let depends : relation string := fun v u => v ∈ dependents u.

Lemma topo_no_cycle order :
  NoDup order -> (forall l1 v l2, order = l1 ++ v :: l2 -> forall u, v ∈ dependents u -> u ∈ l1) ->
  forall x, x ∈ order -> ~ tc depends x x.
Proof using Type.
  intros Hn Htopo.
  assert (forall v u, tc depends v u -> forall l1 l2, order = l1 ++ v :: l2 -> u ∈ l1) as Hb.
  { induction 1 as [v u Hvu|v w u Hvw _ IH]; intros l1 l2 Heq; [by eapply Htopo|].
    assert (w ∈ l1) as Hw by (by eapply Htopo).
    apply list_elem_of_split in Hw as (a & b & ->). rewrite <- app_assoc in Heq. simpl in Heq.
    apply elem_of_app. left. by eapply IH. }
  intros x Hx Hc. apply list_elem_of_split in Hx as (l1 & l2 & Heq).
  specialize (Hb x x Hc l1 l2 Heq). rewrite Heq in Hn. apply NoDup_app in Hn as (_ & Hd & _).
  apply (Hd x Hb). by left.
Qed.

Lemma tc_source v u : tc depends v u -> v ∈ ids.
Proof using Hin. by destruct 1 as [v u H|v w u H _]; apply Hin in H as [? _]. Qed.

(** Every node is scheduled, or there is a cycle; not both. *)
Lemma kahn_complete_iff remaining order :
  kahn_inv remaining [] order ->
  length order = length ids <-> forall x, ~ tc depends x x.
Proof using Hids Hin.
  intros Hinv. pose proof Hinv as [Hn Hi Hrem Hready Htopo]. rewrite app_nil_r in Hn.
  assert (forall v, v ∈ order -> v ∈ ids) as Hi' by (intros; apply Hi; by rewrite app_nil_r).
  split.
  - intros Hlen x Hc. assert (x ∈ ids) as Hx by by eapply tc_source.
    apply (topo_no_cycle order Hn Htopo x); [|done].
    assert (order ≡ₚ ids) as Hp; [|by rewrite Hp].
    apply submseteq_length_Permutation; [by apply NoDup_submseteq|lia].
  - intros Hac. destruct (decide (length order = length ids)) as [|Hne]; [done|exfalso].
    assert (exists x, x ∈ List.filter (fun v => v notin? order) ids) as [x Hx].
    { destruct (List.filter (fun v => v notin? order) ids) as [|x l] eqn:Ef; [|exists x; by left].
      exfalso. apply Hne. apply Permutation_length, (anti_symm submseteq); (apply NoDup_submseteq; [done|]); [done|].
      intros v Hv. destruct (v in? order) eqn:Ev; [by apply in_spec|].
      assert (In v (List.filter (fun v => v notin? order) ids)) as Hf by (rewrite filter_In, <- list_elem_of_In, Ev; done).
      by rewrite Ef in Hf. }
    destruct (finite_cycle depends (List.filter (fun v => v notin? order) ids) x) as [y Hy]; [|done|by apply (Hac y)].
    intros v. rewrite list_elem_of_In, filter_In, <- list_elem_of_In, negb_true_iff, <- not_true_iff_false, in_spec.
    intros [Hv Hvo].
    destruct (List.filter (fun u => (v in? dependents u) && (u notin? order)) ids) as [|u l] eqn:Ef.
    + exfalso. assert (remaining v = 0) as Hz by (rewrite Hrem by done; unfold open_deps; by rewrite Ef).
      apply Hready in Hz; [|done..]. by apply not_elem_of_nil in Hz.
    + exists u. assert (In u (u :: l)) as Hu by by left. rewrite <- Ef, filter_In, andb_true_iff in Hu.
      destruct Hu as (Hui & Hvu%in_spec & Huo).
      split; [|done]. by rewrite list_elem_of_In, filter_In.
Qed.
End Kahn.

(** ** Reading the edges *)
Section ReadEdges.
Context (ids : list string) (Hids : NoDup ids).
Implicit Types (remaining : string -> Z) (dependents : string -> list string).

Record graph_tables remaining dependents : Prop := {
  table_count : forall v, remaining v = zlen (List.filter (fun u => v in? dependents u) ids);
  table_nodup : forall u, NoDup (dependents u);
  table_self : forall u, u ∉ dependents u;
  table_known : forall u v, v ∈ dependents u -> v ∈ ids /\ u ∈ ids
}.

Lemma zlen_filter_flip (p q : string -> bool) u :
  u ∈ ids -> p u = false -> q u = true -> (forall x, x <> u -> p x = q x) ->
  zlen (List.filter q ids) = zlen (List.filter p ids) + 1.
Proof using Hids.
  unfold zlen. intros Hu Hp Hq Hpq. induction Hids as [|i l Hi Hl IH]; [by apply not_elem_of_nil in Hu|].
  simpl. apply elem_of_cons in Hu as [->|Hu].
  - rewrite Hp, Hq. simpl. rewrite (List.filter_ext_in q p); [lia|].
    intros x Hx%list_elem_of_In. symmetry. apply Hpq. by intros ->.
  - rewrite (Hpq i) by (by intros ->). specialize (IH Hl Hu). destruct (q i); simpl; lia.
Qed.

Lemma graph_tables_add remaining dependents v u :
  graph_tables remaining dependents -> v ∈ ids -> u ∈ ids -> v <> u -> v ∉ dependents u ->
  graph_tables (fun x => if x ==? v then remaining x + 1 else remaining x)
    (fun x => if x ==? u then dependents x ++ [v] else dependents x).
Proof using Hids.
  intros [Hc Hn Hs Hk] Hv Hu Hne Hnot. split.
  - intros x. bdestruct (x ==? v).
    + subst x. rewrite Hc. symmetry. apply (zlen_filter_flip _ _ u Hu).
      * apply not_true_iff_false. by rewrite in_spec.
      * rewrite bool_decide_eq_true_2 by done. apply in_spec, elem_of_app. right. by left.
      * intros y Hy. by rewrite bool_decide_eq_false_2.
    + rewrite Hc. f_equal. apply List.filter_ext. intros y. bdestruct (y ==? u); [|done].
      apply eq_true_iff_eq. rewrite !in_spec, elem_of_app, list_elem_of_singleton. naive_solver.
  - intros y. bdestruct (y ==? u); [|apply Hn]. subst. apply NoDup_app. split_and!; [apply Hn| |apply NoDup_singleton].
    intros x Hx Hx2%list_elem_of_singleton. by subst.
  - intros y. bdestruct (y ==? u); [|apply Hs]. rewrite elem_of_app, list_elem_of_singleton. subst.
    intros [?|?]; [by eapply Hs|by apply Hne].
  - intros y x. bdestruct (y ==? u); [|apply Hk]. subst. rewrite elem_of_app, list_elem_of_singleton.
    intros [?|Hx]; [by apply Hk|by subst].
Qed.

Lemma read_edges_spec edges remaining dependents remaining' dependents' :
  graph_tables remaining dependents ->
  read_edges ids edges remaining dependents = Some (remaining', dependents') ->
  graph_tables remaining' dependents' /\
  forall u v, v ∈ dependents' u <-> v ∈ dependents u \/ (v, u) ∈ edges.
Proof using Hids.
  revert remaining dependents. induction edges as [|[v u] edges IH]; intros remaining dependents Ht; simpl.
  - intros. simplify_eq. split; [done|]. intros. split; [by left|]. intros [?|?%not_elem_of_nil]; done.
  - destruct ((v notin? ids) || _ || _) eqn:Ev; [done|].
    rewrite !orb_false_iff, !negb_false_iff, !in_spec, bool_decide_eq_false in Ev. destruct Ev as [[Hv Hu] Hne].
    destruct (v in? dependents u) eqn:Ed; intros Hr; apply IH in Hr as [Ht' Hr]; try done.
    + split; [done|]. intros x y. rewrite Hr, elem_of_cons. apply in_spec in Ed. naive_solver.
    + split; [done|]. intros x y. rewrite Hr, elem_of_cons. bdestruct (x ==? u).
      * subst. rewrite elem_of_app, list_elem_of_singleton. naive_solver.
      * naive_solver.
    + apply graph_tables_add; try done. by rewrite <- in_spec, Ed.
Qed.

Lemma read_edges_none edges remaining dependents :
  read_edges ids edges remaining dependents = None <->
  exists v u, (v, u) ∈ edges /\ ~ (v ∈ ids /\ u ∈ ids /\ v <> u).
Proof using Type.
  revert remaining dependents. induction edges as [|[v u] edges IH]; intros remaining dependents; simpl.
  - split; [done|]. by intros (? & ? & ?%not_elem_of_nil & _).
  - destruct ((v notin? ids) || _ || _) eqn:Ev.
    + split; [|done]. intros _. exists v, u. split; [by left|]. intros (Hv & Hu & Hne).
      apply in_spec in Hv, Hu. rewrite Hv, Hu, bool_decide_eq_false_2 in Ev; done.
    + rewrite !orb_false_iff, !negb_false_iff, !in_spec, bool_decide_eq_false in Ev.
      assert ((exists v' u', (v', u') ∈ edges /\ ~ (v' ∈ ids /\ u' ∈ ids /\ v' <> u')) <->
              (exists v' u', (v', u') ∈ (v, u) :: edges /\ ~ (v' ∈ ids /\ u' ∈ ids /\ v' <> u'))) as <-.
      { split; intros (v' & u' & Hin & Hn); exists v', u'; (split; [|done]); [by right|].
        apply elem_of_cons in Hin as [?|?]; [|done]. simplify_eq. tauto. }
      destruct (v in? dependents u); apply IH.
Qed.

Lemma graph_tables_empty : graph_tables (fun _ => 0) (fun _ => []).
Proof using Type.
  split; intros; [|apply NoDup_nil_2|by apply not_elem_of_nil|by apply not_elem_of_nil in H].
  symmetry. apply zlen_filter_zero. done.
Qed.

Lemma kahn_init remaining dependents :
  graph_tables remaining dependents ->
  kahn_inv ids dependents remaining (sort_by String.leb (List.filter (fun i => remaining i =? 0) ids)) [].
Proof using Hids.
  intros [Hc Hn Hs Hk]. split; simpl.
  - rewrite sort_by_perm. by apply NoDup_ListNoDup, List.NoDup_filter, NoDup_ListNoDup.
  - intros v. rewrite sort_by_perm, list_elem_of_In, filter_In, <- list_elem_of_In. tauto.
  - intros v _ _. rewrite Hc. unfold open_deps. f_equal. apply List.filter_ext. intros u. by rewrite andb_true_r.
  - intros v Hv _. rewrite sort_by_perm, list_elem_of_In, filter_In, <- list_elem_of_In, Z.eqb_eq. tauto.
  - intros l1 v l2 Heq. by destruct l1.
Qed.
End ReadEdges.

(** ** The graph is accepted *)
Definition valid_graph (ids : list string) (edges : list (string * string)) : Prop :=
  (forall i, i ∈ ids -> i <> "") /\ NoDup ids /\
  forall v u, (v, u) ∈ edges -> v ∈ ids /\ u ∈ ids /\ v <> u.

Section Order.
Context (nodes : list ClusterNode) (edges : list ClusterEdge).
Let ids := node_ids nodes.
Let deps := edge_rel (dependency_edges edges).

Lemma python_order_error :
  node_ids nodes <> [] ->
  OrderResult.error (python_dependency_order nodes edges) = None <-> valid_graph ids (dependency_edges edges).
Proof using Type.
  intros Hne. unfold python_dependency_order, valid_graph. fold ids.
  destruct ids as [|i0 l] eqn:Ei; [done|]. rewrite <- Ei. clear i0 l Ei.
  destruct (existsb _ ids || _) eqn:Eb.
  - split; [done|]. intros (Hnon & Hnd & _). apply orb_true_iff in Eb as [Eb|Eb].
    + apply existsb_exists in Eb as (i & Hi & Hs). apply list_elem_of_In in Hi.
      specialize (Hnon i Hi). by destruct i.
    + by rewrite bool_decide_eq_true_2 in Eb.
  - apply orb_false_iff in Eb as [Hnon Hnd%negb_false_iff%bool_decide_eq_true].
    assert (forall i, i ∈ ids -> i <> "") as Hnon'.
    { intros i Hi ->. apply not_true_iff_false in Hnon. apply Hnon, existsb_exists. exists "".
      by rewrite <- list_elem_of_In. }
    destruct (read_edges ids _ _ _) as [[remaining dependents]|] eqn:Er; simpl.
    + split; [|done]. intros _. split_and!; [done..|]. intros v u Hvu.
      destruct (decide (v ∈ ids /\ u ∈ ids /\ v <> u)) as [|Hn]; [done|].
      assert (read_edges ids (dependency_edges edges) (fun _ => 0) (fun _ => []) = None) as Hx; [|congruence].
      apply read_edges_none. by exists v, u.
    + apply read_edges_none in Er as (v & u & Hvu & Hn). split; [done|]. intros (_ & _ & Hall).
      exfalso. by apply Hn, Hall.
Qed.

Lemma python_order_run :
  node_ids nodes <> [] -> valid_graph ids (dependency_edges edges) ->
  exists dependents remaining order,
    graph_tables ids remaining dependents /\ (forall u v, v ∈ dependents u <-> deps v u) /\
    (exists r', kahn_inv ids dependents r' [] order) /\
    python_dependency_order nodes edges =
      (let complete := Nat.eqb (length order) (length ids) in
       fallback_result complete (if complete then order else []) None).
Proof using Type.
  intros Hne (Hnon & Hnd & Hedges).
  destruct (read_edges ids (dependency_edges edges) (fun _ => 0) (fun _ => [])) as [[remaining dependents]|] eqn:Er.
  - destruct (read_edges_spec ids Hnd _ _ _ _ _ (graph_tables_empty ids) Er) as [Ht Hd].
    pose proof (kahn_init ids Hnd _ _ Ht) as Hinit.
    destruct (kahn_end ids dependents Hnd (table_nodup _ _ _ Ht) (table_self _ _ _ Ht) (table_known _ _ _ Ht)
                (length ids) _ _ _ Hinit) as [r' Hend]; [simpl; lia|].
    exists dependents, remaining. eexists. split_and!; [done| |by exists r'|].
    + intros u v. rewrite Hd. unfold deps, edge_rel. rewrite elem_of_nil. tauto.
    + unfold python_dependency_order. fold ids. rewrite Er.
      destruct ids as [|i0 l] eqn:Ei; [done|]. rewrite <- Ei in *.
      destruct (existsb _ ids) eqn:Eb.
      { apply existsb_exists in Eb as (i & Hi & Hs). apply list_elem_of_In in Hi.
        specialize (Hnon i Hi). by destruct i. }
      by rewrite bool_decide_eq_true_2.
  - apply read_edges_none in Er as (v & u & Hvu & Hn). exfalso. by apply Hn, Hedges.
Qed.
End Order.

(** The order of the fallback is all the nodes, or nothing. *)
Lemma python_order_cases nodes edges :
  node_ids nodes <> [] ->
  let r := python_dependency_order nodes edges in
  (OrderResult.acyclic r = true -> OrderResult.error r = None /\ OrderResult.order r ≡ₚ node_ids nodes) /\
  (OrderResult.acyclic r = false -> OrderResult.order r = []).
Proof.
  intros Hne. cbv zeta. destruct (OrderResult.error (python_dependency_order nodes edges)) eqn:Ee.
  - revert Ee. unfold python_dependency_order. destruct (node_ids nodes) eqn:Ei; [done|]. rewrite <- Ei.
    destruct (_ || _); [done|]. by destruct (read_edges _ _ _ _) as [[]|].
  - apply python_order_error in Ee as Hv; [|done].
    destruct (python_order_run _ _ Hne Hv) as (dependents & remaining & order & _ & _ & [r' Hend] & Hr).
    rewrite Hr. pose proof Hend as [Hn Hi _ _ _]. rewrite app_nil_r in Hn, Hi. simpl.
    destruct (Nat.eqb_spec (length order) (length (node_ids nodes))); [|done]. split; [|done].
    intros _. split; [done|]. apply submseteq_length_Permutation; [by apply NoDup_submseteq|lia].
Qed.

Lemma rank_candidates {R} `{PlacementRow R} (library : option NativeLibrary) (rows : list R) :
  rank_placement_candidates library rows ≡ₚ rows /\
  StronglySorted (fun a b => key_cmp (placement_sort_key a) (placement_sort_key b) <> Gt)
    (rank_placement_candidates None rows).
Proof.
  unfold rank_placement_candidates. destruct (length rows <=? 1)%nat eqn:El.
  - split; [done|]. destruct rows as [|a [|b l]]; [constructor|repeat constructor|done].
  - assert (python_rank_candidates rows ≡ₚ rows) as Hp by apply sort_by_perm. split.
    + destruct library as [lib|]; [|done].
      destruct (cluster_rank_candidates lib _) as [[code order]|]; [|done].
      destruct (code =? 0); simpl; [|done].
      destruct (is_permutation_of_range _ _) eqn:Ei; [|done]. by apply take_indices_perm.
    + rewrite python_rank_sort.
      apply (sort_cmp_sorted (fun x y => key_cmp (placement_sort_key x) (placement_sort_key y))).
      apply map_cmp_order, key_cmp_order.
Qed.

(** *** With the library of the repository: by eligibility and score *)
Definition merit_cmp : SortKey -> SortKey -> comparison :=
  lex_cmp (fun a b => Z.compare (Z.b2z (SortKey.ineligible a)) (Z.b2z (SortKey.ineligible b)))
          (fun a b => rank_cmp (frank (SortKey.score a)) (frank (SortKey.score b))).
Lemma merit_key a b : key_cmp a b <> Gt -> merit_cmp a b <> Gt.
Proof. unfold key_cmp, merit_cmp, lex_cmp. repeat case_match; done. Qed.
Lemma merit_refl a : merit_cmp a a <> Gt.
Proof. unfold merit_cmp, lex_cmp. by rewrite Z.compare_refl, rank_cmp_refl. Qed.
(** Of two rows of equal eligibility the one with the better score comes first. *)
Lemma merit_score {R} `{PlacementRow R} (a b : R) : row_eligible a = row_eligible b ->
  merit_cmp (placement_sort_key a) (placement_sort_key b) <> Gt ->
  flt (SortKey.score (placement_sort_key b)) (SortKey.score (placement_sort_key a)) = false.
Proof.
  intros He Hm. unfold flt, SFltb. rewrite SFcompare_rank by apply placement_score_num. revert Hm. unfold merit_cmp, lex_cmp.
  change (SortKey.ineligible (placement_sort_key a)) with (negb (row_eligible a)). change (SortKey.ineligible (placement_sort_key b)) with (negb (row_eligible b)).
  rewrite He, Z.compare_refl, (cmp_sym _ rank_cmp_order (frank (SortKey.score (placement_sort_key b)))). by destruct (rank_cmp _ _).
Qed.
Definition candidate_cmp : PlacementCandidate -> PlacementCandidate -> comparison :=
  lex_cmp (fun a b => Z.compare (Z.b2z (negb (PlacementCandidate.eligible a))) (Z.b2z (negb (PlacementCandidate.eligible b))))
 (lex_cmp (fun a b => rank_cmp (frank (normalized_score (PlacementCandidate.score a))) (frank (normalized_score (PlacementCandidate.score b))))
 (lex_cmp (fun a b => String.compare (PlacementCandidate.key a) (PlacementCandidate.key b))
          (fun a b => Z.compare (PlacementCandidate.original_index a) (PlacementCandidate.original_index b)))).
Lemma candidate_cmp_order : cmp_order candidate_cmp.
Proof.
  apply lex_cmp_order; [|apply lex_cmp_order; [|apply lex_cmp_order]].
  - apply (map_cmp_order (fun a => Z.b2z (negb (PlacementCandidate.eligible a)))), Z_cmp_order.
  - apply (map_cmp_order (fun a => frank (normalized_score (PlacementCandidate.score a)))), rank_cmp_order.
  - apply (map_cmp_order PlacementCandidate.key), string_cmp_order.
  - apply (map_cmp_order PlacementCandidate.original_index), Z_cmp_order.
Qed.
Lemma normalized_num v : is_nan (normalized_score v) = false.
Proof. by destruct v. Qed.
Lemma key_tail a b :
  negb (if PlacementCandidate.key a !=? PlacementCandidate.key b then (PlacementCandidate.key b <? PlacementCandidate.key a)%string
        else PlacementCandidate.original_index b <? PlacementCandidate.original_index a) =
  match lex_cmp (fun a b => String.compare (PlacementCandidate.key a) (PlacementCandidate.key b))
          (fun a b => Z.compare (PlacementCandidate.original_index a) (PlacementCandidate.original_index b)) a b with Gt => false | _ => true end.
Proof.
  unfold lex_cmp, String.ltb. rewrite (String.compare_antisym (PlacementCandidate.key a)), Z.ltb_compare, (Z.compare_antisym (PlacementCandidate.original_index a)).
  bdestruct (PlacementCandidate.key a !=? PlacementCandidate.key b).
  - destruct (String.compare (PlacementCandidate.key b) (PlacementCandidate.key a)) eqn:En; try done. by apply String.compare_eq_iff in En.
  - rewrite E, string_compare_refl. by destruct (Z.compare _ _).
Qed.
Lemma candidate_priority_cmp a b : negb (CandidatePriority a b) = cmp_leb candidate_cmp a b.
Proof.
  unfold CandidatePriority, cmp_leb, candidate_cmp, lex_cmp, feq, flt, SFeqb, SFltb.
  rewrite !SFcompare_rank by apply normalized_num.
  rewrite (cmp_sym _ rank_cmp_order (frank (normalized_score (PlacementCandidate.score a)))).
  destruct (PlacementCandidate.eligible a), (PlacementCandidate.eligible b); simpl; try done;
  destruct (rank_cmp _ _); simpl; try done; apply key_tail.
Qed.
Lemma sorted_omap {A B} (R : A -> A -> Prop) (S : B -> B -> Prop) (f : A -> option B) l :
  (forall x y a b, x ∈ l -> y ∈ l -> R x y -> f x = Some a -> f y = Some b -> S a b) -> StronglySorted R l -> StronglySorted S (omap f l).
Proof.
  intros Hf. induction 1 as [|x l _ IH Hx]; [constructor|]. rewrite Forall_forall in Hx.
  assert (StronglySorted S (omap f l)) as Hs by (apply IH; intros; eapply Hf; eauto; by right).
  cbn. destruct (f x) as [a|] eqn:Ea; [|done]. constructor; [done|]. apply Forall_forall. intros b (y & Hy & Eb)%list_elem_of_omap.
  eapply (Hf x y); [by left|by right|by apply Hx|done..].
Qed.
Lemma sorted_firstn {A} (R : A -> A -> Prop) n l : StronglySorted R l -> StronglySorted R (firstn n l).
Proof. intros Hs. revert n. induction Hs as [|x l _ IH Hx]; intros [|n]; constructor; [done|]. by apply Forall_take. Qed.
(** The queue yields the rows by eligibility and score. *)
Lemma cpp_rank_sorted {R} `{PlacementRow R} (rows : list R) (entry : R -> string * float * bool) n :
  (forall r, snd (fst (entry r)) = SortKey.score (placement_sort_key r) /\ snd (entry r) = row_eligible r) ->
  StronglySorted (fun a b => merit_cmp (placement_sort_key a) (placement_sort_key b) <> Gt)
    (take_indices rows (firstn n (snd (cpp_rank_candidates (map entry rows))))).
Proof.
  intros He. unfold cpp_rank_candidates. cbn [snd]. set (cands := imap _ _). rewrite firstn_map. unfold take_indices.
  assert (forall c r, c ∈ firstn n (priority_queue cands) -> rows !! Z.to_nat (PlacementCandidate.original_index c) = Some r ->
    PlacementCandidate.eligible c = row_eligible r /\ PlacementCandidate.score c = SortKey.score (placement_sort_key r)) as Hc.
  { intros c r Hin Hr. assert (c ∈ priority_queue cands) as Hin' by (apply (subseteq_take n), Hin).
    unfold priority_queue in Hin'. rewrite sort_by_elem in Hin'. apply elem_of_lookup_imap in Hin' as (i & x & -> & Hx).
    cbn in Hr |- *. rewrite Nat2Z.id in Hr. rewrite list_lookup_fmap, Hr in Hx. injection Hx as <-. by destruct (He r). }
  assert (StronglySorted (fun a b => candidate_cmp a b <> Gt) (firstn n (priority_queue cands))) as Hs.
  { apply sorted_firstn. unfold priority_queue. rewrite (sort_by_ext _ (cmp_leb candidate_cmp)) by apply candidate_priority_cmp.
    apply sort_cmp_sorted, candidate_cmp_order. }
  revert Hc Hs. generalize (firstn n (priority_queue cands)). intros l Hc Hs.
  replace (omap _ (map PlacementCandidate.original_index l)) with (omap (fun c => rows !! Z.to_nat (PlacementCandidate.original_index c)) l)
    by (clear; induction l as [|c l IH]; [done|]; cbn; by rewrite IH).
  eapply sorted_omap; [|exact Hs]. intros x y a b Hx Hy Hxy Ha Hb. destruct (Hc x a Hx Ha) as [E1 E2], (Hc y b Hy Hb) as [E3 E4].
  assert (forall r, normalized_score (SortKey.score (placement_sort_key r)) = SortKey.score (placement_sort_key r)) as Hn.
  { intros r. unfold placement_sort_key. cbn. destruct (match py_float (row_score r) with Ok f => f | Err _ => finf end); by cbn. }
  unfold candidate_cmp, lex_cmp in Hxy. cbv beta in Hxy. rewrite E1, E2, E3, E4, !Hn in Hxy. unfold merit_cmp, lex_cmp in *. cbn [placement_sort_key SortKey.ineligible] in *.
  repeat case_match; done.
Qed.
Lemma repository_rank_sorted {R} `{PlacementRow R} (library : option NativeLibrary) (rows : list R) : repository_library library ->
  StronglySorted (fun a b => merit_cmp (placement_sort_key a) (placement_sort_key b) <> Gt) (rank_placement_candidates library rows).
Proof.
  intros Hl. assert (forall rows : list R, StronglySorted (fun a b => merit_cmp (placement_sort_key a) (placement_sort_key b) <> Gt)
    (rank_placement_candidates None rows)) as Hpy.
  { intros l. destruct (rank_candidates None l) as [_ Hs]. induction Hs; constructor; [done|]. eapply Forall_impl; [done|]. intros y. apply merit_key. }
  specialize (Hpy rows). unfold rank_placement_candidates in *. destruct (length rows <=? 1)%nat; [done|].
  destruct library as [lib|]; [|done]. specialize (Hl lib eq_refl). match goal with |- context [map ?f rows] => set (entry := f) end.
  specialize (Hl (map entry rows)). destruct (cluster_rank_candidates lib (map entry rows)) as [[code order]|]; [|done].
  destruct ((code =? 0) && _) eqn:E; [|done]. apply andb_true_iff in E as [E%Z.eqb_eq _].
  replace order with (snd (cpp_rank_candidates (map entry rows))) by by rewrite <- (Hl E).
  by apply cpp_rank_sorted.
Qed.

(** * The theorems *)

(**  Whatever the native library answers, the ranking is a permutation of
    the candidate rows; without the library it is sorted by eligibility, score,
    lower-cased name and node id. *)
Theorem rank_placement_candidates_correct {R} `{PlacementRow R} (library : option NativeLibrary) (rows : list R) :
  rank_placement_candidates library rows ≡ₚ rows /\
  StronglySorted (fun a b => key_cmp (placement_sort_key a) (placement_sort_key b) <> Gt)
    (rank_placement_candidates None rows).
Proof. apply rank_candidates. Qed.

(**  The breadth-first search answers true exactly when both nodes are in
    the snapshot and a path of edges between known nodes joins them. *)
Theorem python_reachable_correct nodes edges source target :
  python_reachable nodes edges source target = true <->
  source ∈ node_ids nodes /\ target ∈ node_ids nodes /\
  rtc (edge_rel (usable_edges (node_ids nodes) edges)) source target.
Proof.
  unfold python_reachable. rewrite <- !(in_spec _ (node_ids nodes)).
  destruct (source in? node_ids nodes) eqn:Es, (target in? node_ids nodes) eqn:Et; simpl; try naive_solver.
  bdestruct (source ==? target); [subst; split; [intros; split_and!; [done..|apply rtc_refl]|done]|].
  apply in_spec in Es.
  rewrite (bfs_correct (node_ids nodes) (usable_edges (node_ids nodes) edges) source target).
  - naive_solver.
  - intros a b. unfold usable_edges. rewrite list_elem_of_In, filter_In. intros [_ Hb].
    rewrite !andb_true_iff, !in_spec in Hb. tauto.
  - split.
    + intros x ->%list_elem_of_singleton. apply rtc_refl.
    + done.
    + intros Ht%list_elem_of_singleton. by subst.
    + intros x y ->%list_elem_of_singleton _. left. by left.
  - by left.
  - pose proof (unseen_cons (node_ids nodes) source [] Es (not_elem_of_nil _)).
    assert (unseen (node_ids nodes) [] <= length (node_ids nodes))%nat by apply List.filter_length_le.
    simpl. lia.
Qed.

(** C9.  The Python dependency order: an invalid graph (empty or repeated ids,
    an edge to an unknown node or a self-edge) is reported as an error; a valid
    one is acyclic exactly when no node depends on itself through edges, and
    then every node is scheduled once, after everything it depends on. *)
Theorem python_dependency_order_correct nodes edges :
  node_ids nodes <> [] ->
  let r := python_dependency_order nodes edges in
  let deps := edge_rel (dependency_edges edges) in
  (OrderResult.error r = None <-> valid_graph (node_ids nodes) (dependency_edges edges)) /\
  (OrderResult.error r = None ->
     (OrderResult.acyclic r = true <-> forall x, ~ tc deps x x) /\
     (OrderResult.acyclic r = true -> OrderResult.order r ≡ₚ node_ids nodes /\
        forall v u, deps v u -> before (OrderResult.order r) u v)).
Proof.
  intros Hne r deps. split; [by apply python_order_error|]. intros Herr.
  apply python_order_error in Herr as Hv; [|done].
  destruct (python_order_run _ _ Hne Hv) as (dependents & remaining & order & Ht & Hd & [r' Hend] & Hr).
  unfold r. rewrite Hr. pose proof Hend as [Hn Hi _ _ Htopo]. rewrite app_nil_r in Hn, Hi.
  assert (forall x, tc deps x x <-> tc (fun v u => v ∈ dependents u) x x) as Htc.
  { intros x. split; apply tc_congruence with (f := id); intros; by apply Hd. }
  pose proof (kahn_complete_iff _ _ (proj1 (proj2 Hv)) (table_known _ _ _ Ht) _ _ Hend) as Hc.
  simpl. rewrite Nat.eqb_eq. split.
  - rewrite Hc. split; intros Ha x Hx; apply (Ha x); by apply Htc.
  - intros Hlen. rewrite Hlen, Nat.eqb_refl.
    assert (order ≡ₚ node_ids nodes) as Hp.
    { apply submseteq_length_Permutation; [by apply NoDup_submseteq|lia]. }
    split; [done|]. intros v u Hvu. assert (v ∈ order) as Hvo.
    { rewrite Hp. by apply (proj2 (proj2 Hv) v u). }
    apply list_elem_of_split in Hvo as (l1 & l2 & Heq). exists l1, l2. split; [done|].
    eapply Htopo; [done|]. by apply Hd.
Qed.

(**  Whatever the native library answers, [dependency_order] either
    schedules every node exactly once or returns no order at all, and an
    invalid graph is still the fallback's error. *)
Theorem dependency_order_native_safe library nodes edges :
  let r := dependency_order library nodes edges in
  (OrderResult.acyclic r = true -> OrderResult.order r ≡ₚ node_ids nodes) /\
  (OrderResult.acyclic r = false -> OrderResult.order r = []) /\
  (OrderResult.error (python_dependency_order nodes edges) <> None -> r = python_dependency_order nodes edges).
Proof.
  unfold dependency_order. destruct (node_ids nodes) as [|i0 l] eqn:Ei.
  { simpl. split_and!; [done..|]. unfold python_dependency_order. by rewrite Ei. }
  rewrite <- Ei. assert (node_ids nodes <> []) as Hne by by rewrite Ei. clear i0 l Ei.
  destruct (python_order_cases nodes edges Hne) as [Hac Hnac].
  set (fb := python_dependency_order nodes edges) in *.
  assert ((OrderResult.acyclic fb = true -> OrderResult.order fb ≡ₚ node_ids nodes) /\
          (OrderResult.acyclic fb = false -> OrderResult.order fb = []) /\
          (OrderResult.error fb <> None -> fb = fb)) as Hfb.
  { split_and!; [intros Ha; by apply Hac|done|done]. }
  destruct (OrderResult.acyclic fb) eqn:Ea, (OrderResult.error fb) eqn:Ee, library as [lib|];
    simpl; rewrite ?Ea; try done; [by destruct (Hac eq_refl)| |];
  (destruct (cluster_dependency_order lib _ _) as [[code order]|]; simpl; rewrite ?Ea; [|done];
   destruct (code =? 3); [by split_and!|];
   destruct (code =? 0); simpl; rewrite ?Ea; [|done];
   destruct (is_permutation_of_range _ _) eqn:Eperm; simpl; rewrite ?Ea; [|done];
   split_and!; [intros _; by apply take_indices_perm|done|done]).
Qed.

(** ** A small deployment graph *)
Definition demo_cluster_node (i : string) : ClusterNode :=
  ClusterNode.mk (Some i) (Some i) None (Some "active") true true JNull JNull JNull JNull JNull.
Definition depends_on (v u : string) : ClusterEdge :=
  ClusterEdge.mk (Some v) (Some u) (Some "depends_on") None None JNull.

Lemma python_dependency_order_correct_witness :
  let nodes := map demo_cluster_node ["web"; "db"; "cache"] in
  let edges := [depends_on "web" "db"; depends_on "web" "cache"; depends_on "cache" "db"] in
  OrderResult.order (python_dependency_order nodes edges) = ["db"; "cache"; "web"] /\
  before (OrderResult.order (python_dependency_order nodes edges)) "cache" "web" /\
  OrderResult.acyclic (python_dependency_order nodes (depends_on "db" "web" :: edges)) = false.
Proof.
  intros nodes edges.
  split; [vm_compute; reflexivity|]. split; [|vm_compute; reflexivity].
  destruct (python_dependency_order_correct nodes edges) as [_ H]; [discriminate|].
  apply (proj2 (proj2 (H eq_refl) eq_refl)). apply list_elem_of_In. vm_compute. tauto.
Defined.
