(* ===== verification/Placement.v ===== *)
(** [app/services/hosting_placement.py]: scoring a hosting node for a workload
    and selecting the node that takes it.  Timestamps of one call are a single
    [now]. *)
From S2P Require Import Prelude PyFloat Json Models Session Resources Cluster.
#[local] Open Scope string_scope.
#[local] Open Scope list_scope.
#[local] Open Scope Z_scope.

(** [timedelta(minutes=3)] in microseconds. *)
Definition HEARTBEAT_GRACE : Z := 3 * 60 * 1000000.

Definition fresh (now : time) (value : option time) : bool :=
  match value with Some v => now - HEARTBEAT_GRACE <=? v | None => false end.

(** [_json]: a dict, or the empty one. *)
Definition json_dict (raw : string) : list (string * Json) :=
  match json_loads (str_or raw "{}") with Some v => as_dict v | None => [] end.

(** [a * 10^e] as a float literal. *)
Definition flit (m e : Z) : float := decimal_float false m e.
(** [x or 0.0] *)
Definition or_zero (x : option float) : float :=
  match x with Some f => if float_truthy f then f else fzero | None => fzero end.

(** ** [_allocated] *)
Module Allocated.
Record Allocated : Type := mk {
  app_storage_mb : Z;
  database_storage_mb : Z;
  failover_reserved_storage_mb : Z;
  explicit_reserved_storage_mb : Z;
  total : Resources;
  projects : Z;
  allocated : Resources;
  reserved : Resources
}.
End Allocated.
Notation Allocated := Allocated.Allocated.

Definition allocated_of (c : Commitments) : Allocated :=
  let details := Commitments.details c in
  {| Allocated.app_storage_mb := CommitmentDetails.app_storage_mb details;
     Allocated.database_storage_mb := CommitmentDetails.database_storage_mb details;
     Allocated.failover_reserved_storage_mb := Resources.storage_mb (CommitmentDetails.failover_reserved details);
     Allocated.explicit_reserved_storage_mb := Resources.storage_mb (CommitmentDetails.explicit_reserved details);
     Allocated.total := Resources.add (Commitments.allocated c) (Commitments.reserved c);
     Allocated.projects := CommitmentDetails.project_count details + CommitmentDetails.failover_reserved_projects details;
     Allocated.allocated := Commitments.allocated c;
     Allocated.reserved := Commitments.reserved c |}.
Definition allocated (db : Session Db) (node_id : uuid) (now : time) : Allocated * Session Db :=
  let '(commitments, db) := node_commitments db node_id now in (allocated_of commitments, db).

(** ** Lookups *)
Definition infrastructure_for_hosting_node (db : Session Db) (node_id : uuid)
    : option InfrastructureServer * option InfrastructureServerAgent :=
  match scalar infrastructure_servers (fun s => InfrastructureServer.hosting_node_id s ==? Some node_id) db with
  | None => (None, None)
  | Some server => (Some server, get infrastructure_server_agents (InfrastructureServer.id server) db)
  end.

(** [float(value)] with [TypeError] and [ValueError] caught. *)
Definition float_or_none (v : Json) : result (option float) :=
  match py_float v with
  | Ok f => Ok (Some f)
  | Err (OverflowError m) => Err (OverflowError m)
  | Err _ => Ok None
  end.
Definition percent (telemetry : list (string * Json)) (group field : string) : result (option float) :=
  match jget group telemetry with
  | JObj section => match jget field section with JNull => Ok None | v => float_or_none v end
  | _ => Ok None
  end.
Fixpoint disk_values (rows : list Json) : result (list float) :=
  match rows with
  | [] => Ok []
  | row :: rows =>
      let* value := match row with
        | JObj d => match jget "used_percent" d with JNull => Ok None | v => float_or_none v end
        | _ => Ok None
        end in
      let* rest := disk_values rows in
      Ok (match value with Some f => f :: rest | None => rest end)
  end.
Definition disk_percent (telemetry : list (string * Json)) : result (option float) :=
  match jget "disks" telemetry with
  | JArr rows => let* values := disk_values rows in Ok (fmax_list values)
  | _ => Ok None
  end.

Definition commercial_profile (db : Session Db) (server_id : option uuid) : option InfrastructureCommercialProfile :=
  match server_id with
  | None => None
  | Some s => scalar infrastructure_commercial_profiles (fun p => InfrastructureCommercialProfile.server_id p =? s) db
  end.
Definition latest_hardware (db : Session Db) (server_id : option uuid) : option HardwareTelemetrySnapshot :=
  match server_id with
  | None => None
  | Some s => scalar_ordered hardware_telemetry_snapshots (desc HardwareTelemetrySnapshot.created_at)
                (fun h => HardwareTelemetrySnapshot.server_id h =? s) db
  end.
Definition hardware_fresh (now : time) (row : option HardwareTelemetrySnapshot) : bool :=
  match row with
  | None => false
  | Some r => fresh now (Some (HardwareTelemetrySnapshot.issued_at r))
  end.
Definition latest_security (db : Session Db) (server_id : option uuid) : option InfrastructureSecuritySnapshot :=
  match server_id with
  | None => None
  | Some s => scalar_ordered infrastructure_security_snapshots (desc InfrastructureSecuritySnapshot.created_at)
                (fun r => InfrastructureSecuritySnapshot.server_id r =? s) db
  end.
Definition tenant_monthly_revenue (db : Session Db) (tenant_id : option uuid) : Z :=
  match tenant_id with
  | None => 0
  | Some t =>
      match scalar tenant_subscriptions (fun s => TenantSubscription.tenant_id s =? t) db with
      | None => 0
      | Some subscription =>
          match get billing_plans (TenantSubscription.plan_id subscription) db with
          | Some plan => Z.max 0 (BillingPlan.monthly_price_minor plan)
          | None => 0
          end
      end
  end.

(** ** [_estimated_incremental_cost] *)
Definition estimated_incremental_cost (profile : option InfrastructureCommercialProfile)
    (storage_mb memory_mb cpu_millicores : Z) : Z :=
  match profile with
  | None => 0
  | Some p =>
      let monthly_cost := sum_by (fun v => Z.max 0 v)
        [InfrastructureCommercialProfile.provider_cost_minor p; InfrastructureCommercialProfile.backup_cost_minor p;
         InfrastructureCommercialProfile.bandwidth_cost_minor p; InfrastructureCommercialProfile.other_cost_minor p] in
      if monthly_cost <=? 0 then 0
      else
        let share total want weight :=
          if (0 <? total) && (0 <? want) then [fmul (of_ratio want total) weight] else [] in
        let shares :=
          share (InfrastructureCommercialProfile.total_cpu_millicores p) cpu_millicores (flit 40 (-2)) ++
          share (InfrastructureCommercialProfile.total_memory_mb p) memory_mb (flit 30 (-2)) ++
          share (InfrastructureCommercialProfile.total_storage_mb p) storage_mb (flit 30 (-2)) in
        let weighted_share := fmin (of_Z 1) (fsum shares) in
        Z.max 0 (round_int (fmul (of_Z monthly_cost) weighted_share))
  end.

(** ** [sync_tenant_infrastructure_allocation] *)
Definition weight_components (profile : InfrastructureCommercialProfile) (cpu memory storage : Z) : list float :=
  let component total have factor := if 0 <? total then [fmul (of_ratio have total) (of_Z factor)] else [] in
  component (InfrastructureCommercialProfile.total_cpu_millicores profile) cpu 4000 ++
  component (InfrastructureCommercialProfile.total_memory_mb profile) memory 3000 ++
  component (InfrastructureCommercialProfile.total_storage_mb profile) storage 3000.

(** What the tenant has placed on the node: resources and number of workloads. *)
Definition placed_totals (db : Session Db) (tenant_id hosting_node_id : uuid) : Resources * Z :=
  let projects p := (HostingProject.tenant_id p =? tenant_id) &&
    (HostingProject.node_id p ==? Some hosting_node_id) && (HostingProject.status p !=? "suspended") in
  let databases d := (HostingDatabase.tenant_id d =? tenant_id) &&
    (HostingDatabase.node_id d ==? Some hosting_node_id) && (HostingDatabase.status d !=? "deleting") in
  (Resources.mk
     (sql_sum hosting_projects projects HostingProject.cpu_millicores db)
     (sql_sum hosting_projects projects HostingProject.memory_mb db)
     (sql_sum hosting_projects projects HostingProject.storage_mb db +
      sql_sum hosting_databases databases HostingDatabase.storage_mb db),
   sql_count hosting_projects projects db + sql_count hosting_databases databases db).

Definition allocation_weight (profile : option InfrastructureCommercialProfile) (t : Resources) (workload_count : Z) : Z :=
  let components := match profile with
    | Some p => weight_components p (Resources.cpu_millicores t) (Resources.memory_mb t) (Resources.storage_mb t)
    | None => [] end in
  match components with
  | [] => Z.max 1 workload_count
  | _ => Z.max 1 (round_int (fsum components))
  end.

(** The row recalculated from those totals. *)
Definition placed_row (totals : Resources * Z) (weight : Z) (actor_user_id : uuid)
    (r : TenantInfrastructureAllocation) : TenantInfrastructureAllocation :=
  let '(t, workload_count) := totals in
  r <| TenantInfrastructureAllocation.cpu_millicores := Resources.cpu_millicores t |>
    <| TenantInfrastructureAllocation.memory_mb := Resources.memory_mb t |>
    <| TenantInfrastructureAllocation.storage_mb := Resources.storage_mb t |>
    <| TenantInfrastructureAllocation.bandwidth_gb ::= Z.max 0 |>
    <| TenantInfrastructureAllocation.allocation_weight := weight |>
    <| TenantInfrastructureAllocation.active := 0 <? workload_count |>
    <| TenantInfrastructureAllocation.source := "placement" |>
    <| TenantInfrastructureAllocation.updated_by_user_id := actor_user_id |>.
Definition placed_allocation (db : Session Db) (tenant_id sid hosting_node_id actor_user_id : uuid)
    (r : TenantInfrastructureAllocation) : TenantInfrastructureAllocation :=
  let totals := placed_totals db tenant_id hosting_node_id in
  placed_row totals (allocation_weight (commercial_profile db (Some sid)) (fst totals) (snd totals)) actor_user_id r.

Definition sync_tenant_infrastructure_allocation (db : Session Db) (new_id : uuid) (now : time)
    (tenant_id : uuid) (server_id : option uuid) (actor_user_id : uuid)
    : option TenantInfrastructureAllocation * Session Db :=
  match server_id with
  | None => (None, db)
  | Some sid =>
    match get infrastructure_servers sid db with
    | None => (None, db)
    | Some server =>
      match InfrastructureServer.hosting_node_id server with
      | None => (None, db)
      | Some hosting_node_id =>
        let row := scalar tenant_infrastructure_allocations
          (fun a => (TenantInfrastructureAllocation.tenant_id a =? tenant_id) &&
                    (TenantInfrastructureAllocation.server_id a =? sid)) db in
        let manual := match row with
          | Some r => TenantInfrastructureAllocation.source r ==? "manual" | None => false end in
        if manual then (row, db)
        else
          let update := placed_allocation db tenant_id sid hosting_node_id actor_user_id in
          match row with
          | Some r => (Some (update r), flush (put tenant_infrastructure_allocations (update r) db))
          | None =>
              let r := TenantInfrastructureAllocation.new_TenantInfrastructureAllocation new_id now
                <| TenantInfrastructureAllocation.tenant_id := tenant_id |>
                <| TenantInfrastructureAllocation.server_id := sid |>
                <| TenantInfrastructureAllocation.created_by_user_id := actor_user_id |>
                <| TenantInfrastructureAllocation.bandwidth_gb := 0 |> in
              (Some (update r), flush (add tenant_infrastructure_allocations (update r) db))
          end
      end
    end
  end.

(** ** [score_node] *)

(** Why a node cannot take the workload, in the order of the checks. *)
Module Verdict.
Record Verdict : Type := mk { eligible : bool; reasons : list string }.
End Verdict.
Notation Verdict := Verdict.Verdict.
Definition reject (c : bool) (reason : string) (v : Verdict) : Verdict :=
  if c then Verdict.mk false (Verdict.reasons v ++ [reason]) else v.
Definition remark (c : bool) (reason : string) (v : Verdict) : Verdict :=
  if c then Verdict.mk (Verdict.eligible v) (Verdict.reasons v ++ [reason]) else v.

Definition available_for (node : HostingNode) (a : Allocated) : Resources :=
  Resources.map2 (fun c x => Z.max 0 (c - x)) (node_capacity node) (Allocated.total a).

Definition agent_offline (now : time) (agent : option HostingNodeAgent) : bool :=
  match agent with None => true | Some a => negb (fresh now (HostingNodeAgent.last_seen_at a)) end.

(** Node status, agent heartbeat, capacity. *)
Definition check_node (now : time) (node : HostingNode) (agent : option HostingNodeAgent)
    (server : option InfrastructureServer) (workload : string) (request available : Resources) : Verdict :=
  let linked := match server with Some _ => true | None => false end in
  let v := Verdict.mk true [] in
  let v := reject (HostingNode.status node !=? "active")
             ("hosting node status is " ++ HostingNode.status node)%string v in
  let v := reject (negb (HostingNode.accepts_new_projects node)) "node is not accepting new workloads" v in
  let v := reject (((workload ==? "database") || linked) && agent_offline now agent) "hosting agent is offline" v in
  let v := reject (Resources.storage_mb available <? Resources.storage_mb request) "insufficient storage" v in
  let v := reject (Resources.memory_mb available <? Resources.memory_mb request) "insufficient memory" v in
  reject (Resources.cpu_millicores available <? Resources.cpu_millicores request) "insufficient CPU" v.

(** [set(json.loads(roles_json or "[]"))]: the strings of the set. *)
Fixpoint role_set (l : list Json) : result (list string) :=
  match l with
  | [] => Ok []
  | v :: l =>
      let* rest := role_set l in
      match v with
      | JStr s => Ok (s :: rest)
      | JArr _ | JObj _ => Err (TypeError "unhashable type")
      | _ => Ok rest
      end
  end.
Definition server_roles (raw : string) : result (list string) :=
  match json_loads (str_or raw "[]") with
  | None => Err (ValueError "invalid JSON")
  | Some (JArr l) => role_set l
  | Some (JObj l) => Ok (map fst l)
  | Some (JStr s) => Ok (map (fun c => String c EmptyString) (list_ascii_of_string s))
  | Some _ => Err (TypeError "object is not iterable")
  end.

(** [value is not None and value >= limit] *)
Definition at_least (value : option float) (limit : Z) : bool :=
  match value with Some f => fle (of_Z limit) f | None => false end.
Definition shown (value : option float) : string := match value with Some f => format_1f f | None => EmptyString end.

(** The linked server: roles, status, telemetry pressure, Docker or database
    engine.  Returns the telemetry that was read. *)
Definition check_server (now : time) (server : option InfrastructureServer)
    (server_agent : option InfrastructureServerAgent) (workload : string) (database_engine : option string)
    (v : Verdict) : result (list (string * Json) * Verdict) :=
  match server with
  | None => Ok ([], v)
  | Some server =>
    let* roles := server_roles (InfrastructureServer.roles_json server) in
    let required_role := if workload ==? "database" then "database" else "application" in
    let v := reject (required_role notin? roles) ("physical server lacks " ++ required_role ++ " role")%string v in
    let v := reject (InfrastructureServer.status server !=? "active")
               ("physical server status is " ++ InfrastructureServer.status server)%string v in
    let online := match server_agent with
      | Some a => if fresh now (InfrastructureServerAgent.last_seen_at a) then Some a else None
      | None => None end in
    match online with
    | None => Ok ([], reject true "physical server telemetry agent is offline" v)
    | Some agent =>
      let telemetry := json_dict (InfrastructureServerAgent.telemetry_json agent) in
      let capabilities := json_dict (InfrastructureServerAgent.capabilities_json agent) in
      let* cpu := percent telemetry "cpu" "used_percent" in
      let* memory := percent telemetry "memory" "used_percent" in
      let* disk := disk_percent telemetry in
      let v := reject (at_least cpu (InfrastructureServer.cpu_alert_percent server))
                 ("CPU pressure " ++ shown cpu ++ "%")%string v in
      let v := reject (at_least memory (InfrastructureServer.memory_alert_percent server))
                 ("memory pressure " ++ shown memory ++ "%")%string v in
      let v := reject (at_least disk (InfrastructureServer.disk_alert_percent server))
                 ("disk pressure " ++ shown disk ++ "%")%string v in
      let v :=
        if workload ==? "application" then
          reject (negb (truthy (jget "reachable" (as_dict (jget "docker" telemetry))))) "Docker is unavailable" v
        else if (workload ==? "database") && str_truthy (opt_str database_engine) then
          let engine := opt_str database_engine in
          let capability_name := if engine ==? "postgresql" then "postgresql" else "mysql" in
          reject (negb (truthy (jget capability_name capabilities)))
            (engine ++ " capability is unavailable")%string v
        else v in
      Ok (telemetry, v)
    end
  end.

(** Hardware Intelligence: rejection or penalty. *)
Definition check_hardware (now : time) (server : option InfrastructureServer)
    (hardware : option HardwareTelemetrySnapshot) (v : Verdict) : float * Verdict :=
  match server, hardware with
  | Some _, Some h =>
      if negb (hardware_fresh now hardware) then (fzero, v)
      else
        let hardware_state := lower (strip (str_or (opt_str (HardwareTelemetrySnapshot.predictive_state h)) "learning")) in
        let status := HardwareTelemetrySnapshot.health_status h in
        let v := reject (status ==? "critical") "Hardware Intelligence reports critical health" v in
        let penalty := if status ==? "critical" then fzero
          else if status ==? "warning" then fadd fzero (of_Z 12) else fzero in
        let v := reject (hardware_state ==? "high") "Hardware Intelligence predicts high failure risk" v in
        let v := remark (hardware_state ==? "elevated") "Hardware Intelligence predicts elevated failure risk" v in
        let penalty := if hardware_state ==? "elevated" then fadd penalty (of_Z 20)
          else if hardware_state ==? "watch" then fadd penalty (of_Z 8) else penalty in
        (penalty, v)
  | _, _ => (fzero, v)
  end.

(** Security posture. *)
Definition check_security (server : option InfrastructureServer)
    (security : option InfrastructureSecuritySnapshot) (v : Verdict) : float * Verdict :=
  match server with
  | None => (fzero, v)
  | Some _ =>
    match security with
    | None => (fadd fzero (of_Z 12), remark true "security posture has not been measured" v)
    | Some s =>
        let score := InfrastructureSecuritySnapshot.score s in
        if (InfrastructureSecuritySnapshot.posture s ==? "critical") || (score <? 70) then
          (fzero, reject true ("security posture is " ++ InfrastructureSecuritySnapshot.posture s ++ " (" ++
                               str_of_Z score ++ "/100)")%string v)
        else if score <? 85 then
          (fadd fzero (fmax fzero (fmul (of_Z (85 - score)) (flit 6 (-1)))), v)
        else (fzero, v)
    end
  end.

(** Margin of the tenant on this server: penalty, cost and margin. *)
Definition commercial_terms (db : Session Db) (server : option InfrastructureServer)
    (profile : option InfrastructureCommercialProfile) (tenant_id : option uuid) (request : Resources)
    (target_margin_bps : Z) (penalty : float) : float * Z * option Z :=
  match server with
  | None => (penalty, 0, None)
  | Some _ =>
    match profile with
    | None => (fadd penalty (of_Z 10), 0, None)
    | Some _ =>
      let cost := estimated_incremental_cost profile (Resources.storage_mb request)
                    (Resources.memory_mb request) (Resources.cpu_millicores request) in
      let revenue := tenant_monthly_revenue db tenant_id in
      if 0 <? revenue then
        let margin := round_int (fmul (of_ratio (revenue - cost) revenue) (of_Z 10000)) in
        let penalty := if margin <? target_margin_bps then
            fadd penalty (fmin (of_Z 35) (fmax (of_Z 5) (of_ratio (target_margin_bps - margin) 100)))
          else penalty in
        (penalty, cost, Some margin)
      else (penalty, cost, None)
    end
  end.

Definition region_terms (server : option InfrastructureServer) (preferred_region : option string) : bool * float :=
  let requested_region := lower (strip (opt_str preferred_region)) in
  let server_region := match server with
    | Some s => lower (strip (InfrastructureServer.region s)) | None => EmptyString end in
  let region_match := str_truthy requested_region && str_truthy server_region && (requested_region ==? server_region) in
  let penalty :=
    if str_truthy requested_region then
      if match server with None => true | Some _ => negb (str_truthy server_region) end then of_Z 12
      else if negb region_match then of_Z 18 else fzero
    else fzero in
  (region_match, penalty).

(** [used / allocatable * 100.0 if allocatable else 100.0] *)
Definition utilisation (used allocatable : Z) : float :=
  if allocatable =? 0 then of_Z 100 else fmul (of_ratio used allocatable) (of_Z 100).

Module ScoreRow.
Record ScoreRow : Type := mk {
  node : HostingNode;
  node_id : string;
  name : string;
  eligible : bool;
  score : float;
  reasons : list string;
  available : Resources;
  allocated : Allocated;
  cpu_percent : option float;
  memory_percent : option float;
  disk_percent : option float;
  requested_region : option string;
  region_match : bool;
  region_penalty : float;
  server : option InfrastructureServer;
  infrastructure_server_id : option string;
  security : option InfrastructureSecuritySnapshot;
  hardware : option HardwareTelemetrySnapshot;
  hardware_is_fresh : bool;
  hardware_penalty : float;
  profile_configured : bool;
  estimated_incremental_cost_minor : Z;
  estimated_margin_bps : option Z;
  target_margin_bps : Z;
  commercial_penalty : float
}.
End ScoreRow.
Notation ScoreRow := ScoreRow.ScoreRow.

#[export] Instance score_row_placement : PlacementRow ScoreRow := {|
  row_eligible := ScoreRow.eligible;
  row_score := fun r => JFloat (ScoreRow.score r);
  row_name := fun r => Some (ScoreRow.name r);
  row_node_id := fun r => Some (ScoreRow.node_id r)
|}.

(** What the caller of the placement asks for. *)
Module Workload.
Record Workload : Type := mk {
  workload : string;
  storage_mb : Z;
  memory_mb : Z;
  cpu_millicores : Z;
  database_engine : option string;
  preferred_region : option string;
  tenant_id : option uuid
}.
Definition request (w : Workload) : Resources := Resources.mk (cpu_millicores w) (memory_mb w) (storage_mb w).
End Workload.
Notation Workload := Workload.Workload.

(** The weighted score; lower is better. *)
Definition score_value (cpu memory disk : option float) (used : Resources) (node : HostingNode)
    (telemetry_penalty region_penalty commercial_penalty hardware_penalty : float) : float :=
  fold_left fadd
    [fmul (or_zero memory) (flit 25 (-2)); fmul (or_zero disk) (flit 15 (-2));
     fmul (utilisation (Resources.storage_mb used) (HostingNode.allocatable_storage_mb node)) (flit 15 (-2));
     fmul (utilisation (Resources.memory_mb used) (HostingNode.allocatable_memory_mb node)) (flit 10 (-2));
     fmul (utilisation (Resources.cpu_millicores used) (HostingNode.allocatable_cpu_millicores node)) (flit 10 (-2));
     telemetry_penalty; region_penalty; commercial_penalty; hardware_penalty]
    (fmul (or_zero cpu) (flit 25 (-2))).

Definition score_node (db : Session Db) (now : time) (node : HostingNode) (w : Workload)
    : result (ScoreRow * Session Db) :=
  let '(allocated, db) := allocated db (HostingNode.id node) now in
  let request := Workload.request w in
  let available := available_for node allocated in
  let agent := get hosting_node_agents (HostingNode.id node) db in
  let '(server, server_agent) := infrastructure_for_hosting_node db (HostingNode.id node) in
  let v := check_node now node agent server (Workload.workload w) request available in
  let* (telemetry, v) := check_server now server server_agent (Workload.workload w) (Workload.database_engine w) v in
  let server_id := option_map InfrastructureServer.id server in
  let profile := commercial_profile db server_id in
  let security := latest_security db server_id in
  let hardware := latest_hardware db server_id in
  let '(hardware_penalty, v) := check_hardware now server hardware v in
  let target_margin_bps := match profile with
    | Some p => let t := InfrastructureCommercialProfile.target_margin_bps p in if t =? 0 then 3000 else t
    | None => 3000 end in
  let '(penalty, v) := check_security server security v in
  let '(commercial_penalty, cost, margin) :=
    commercial_terms db server profile (Workload.tenant_id w) request target_margin_bps penalty in
  let telemetry_penalty := match server with
    | Some _ => fzero
    | None => match agent with None => fadd (of_Z 25) (of_Z 10) | Some _ => of_Z 25 end end in
  let '(region_match, region_penalty) := region_terms server (Workload.preferred_region w) in
  let* cpu := percent telemetry "cpu" "used_percent" in
  let* memory := percent telemetry "memory" "used_percent" in
  let* disk := disk_percent telemetry in
  let score := score_value cpu memory disk (Allocated.total allocated) node
    telemetry_penalty region_penalty commercial_penalty hardware_penalty in
  Ok ({| ScoreRow.node := node;
         ScoreRow.node_id := str_of_uuid (HostingNode.id node);
         ScoreRow.name := HostingNode.name node;
         ScoreRow.eligible := Verdict.eligible v;
         ScoreRow.score := round_digits 2 score;
         ScoreRow.reasons := Verdict.reasons v;
         ScoreRow.available := available;
         ScoreRow.allocated := allocated;
         ScoreRow.cpu_percent := cpu;
         ScoreRow.memory_percent := memory;
         ScoreRow.disk_percent := disk;
         ScoreRow.requested_region := Workload.preferred_region w;
         ScoreRow.region_match := region_match;
         ScoreRow.region_penalty := region_penalty;
         ScoreRow.server := server;
         ScoreRow.infrastructure_server_id := option_map str_of_uuid server_id;
         ScoreRow.security := security;
         ScoreRow.hardware := hardware;
         ScoreRow.hardware_is_fresh := hardware_fresh now hardware;
         ScoreRow.hardware_penalty := round_digits 2 hardware_penalty;
         ScoreRow.profile_configured := match profile with Some _ => true | None => false end;
         ScoreRow.estimated_incremental_cost_minor := cost;
         ScoreRow.estimated_margin_bps := margin;
         ScoreRow.target_margin_bps := target_margin_bps;
         ScoreRow.commercial_penalty := round_digits 2 commercial_penalty |}, db).

(** ** [rank_nodes] and [select_node] *)
Fixpoint score_nodes (db : Session Db) (now : time) (nodes : list HostingNode) (w : Workload)
    : result (list ScoreRow * Session Db) :=
  match nodes with
  | [] => Ok ([], db)
  | node :: nodes =>
      let* (row, db) := score_node db now node w in
      let* (rows, db) := score_nodes db now nodes w in
      Ok (row :: rows, db)
  end.
Definition rank_nodes (library : option NativeLibrary) (db : Session Db) (now : time) (w : Workload)
    : result (list ScoreRow * Session Db) :=
  let nodes := select_ordered hosting_nodes (asc_str HostingNode.name) (fun _ => true) db in
  let* (ranked, db) := score_nodes db now nodes w in
  Ok (rank_placement_candidates library ranked, db).

(** [f"{name}: {', '.join(reasons) or 'not eligible'}"] *)
Definition node_explanation (row : ScoreRow) : string :=
  (ScoreRow.name row ++ ": " ++ str_or (join ", " (ScoreRow.reasons row)) "not eligible")%string.

Definition select_node (library : option NativeLibrary) (db : Session Db) (now : time) (w : Workload)
    (preferred_node_id : option uuid) : result (HostingNode * ScoreRow * Session Db) :=
  let* (ranked, db) := rank_nodes library db now w in
  match preferred_node_id with
  | Some p =>
      match List.find (fun row => HostingNode.id (ScoreRow.node row) =? p) ranked with
      | None => Err (HTTPException 404 "Selected hosting node not found")
      | Some row =>
          ensure ScoreRow.eligible row else_raise HTTPException 409
            ("Selected hosting node is not safe for this workload: " ++ join "; " (ScoreRow.reasons row));
          Ok (ScoreRow.node row, row, db)
      end
  | None =>
      match List.find ScoreRow.eligible ranked with
      | Some row => Ok (ScoreRow.node row, row, db)
      | None =>
          let details := map node_explanation (firstn 5 ranked) in
          let suffix := match details with [] => EmptyString | _ => (" Checked nodes: " ++ join " | " details)%string end in
          Err (HTTPException 409 ("No healthy hosting node can safely accept this workload." ++ suffix))
      end
  end.

(** * Properties *)
Lemma reject_eligible c r v : Verdict.eligible (reject c r v) = true <-> c = false /\ Verdict.eligible v = true.
Proof. unfold reject. destruct c; simpl; naive_solver. Qed.
Lemma remark_eligible c r v : Verdict.eligible (remark c r v) = Verdict.eligible v.
Proof. unfold remark. by destruct c. Qed.

(** The static part of eligibility: status, acceptance, heartbeat, capacity. *)
Lemma check_node_eligible now node agent server workload request available :
  Verdict.eligible (check_node now node agent server workload request available) = true <->
  HostingNode.status node = "active" /\ HostingNode.accepts_new_projects node = true /\
  (workload = "database" \/ server <> None -> agent_offline now agent = false) /\
  Resources.le request available.
Proof.
  unfold check_node. rewrite !reject_eligible. simpl.
  rewrite !negb_false_iff, !Z.ltb_ge, bool_decide_eq_true. unfold Resources.le.
  split.
  - intros (Hc & Hm & Hs & Ho & Ha & Hst & _). split_and!; try done.
    intros Hw. apply not_true_iff_false. intros Hoff. rewrite Hoff, andb_true_r in Ho.
    apply orb_false_iff in Ho as [Hd Hl]. apply bool_decide_eq_false in Hd.
    destruct Hw; [done|]. by destruct server.
  - intros (Hst & Ha & Ho & Hc & Hm & Hs). split_and!; try done.
    destruct (agent_offline now agent); [|apply andb_false_r]. rewrite andb_true_r.
    bdestruct (workload ==? "database"); simpl; [exfalso; by discriminate Ho; left|].
    destruct server; [|done]. exfalso. discriminate Ho. by right.
Qed.

Lemma check_server_eligible now server server_agent workload engine v telemetry v' :
  check_server now (Some server) server_agent workload engine v = Ok (telemetry, v') ->
  Verdict.eligible v' = true ->
  Verdict.eligible v = true /\ InfrastructureServer.status server = "active" /\
  (exists a, server_agent = Some a /\ fresh now (InfrastructureServerAgent.last_seen_at a) = true /\
     telemetry = json_dict (InfrastructureServerAgent.telemetry_json a)) /\
  (exists cpu, percent telemetry "cpu" "used_percent" = Ok cpu /\
     at_least cpu (InfrastructureServer.cpu_alert_percent server) = false) /\
  (exists memory, percent telemetry "memory" "used_percent" = Ok memory /\
     at_least memory (InfrastructureServer.memory_alert_percent server) = false) /\
  (exists disk, disk_percent telemetry = Ok disk /\
     at_least disk (InfrastructureServer.disk_alert_percent server) = false).
Proof.
  unfold check_server. intros Hs Hv. apply rbind_ok in Hs as (roles & _ & Hs).
  destruct server_agent as [a|]; [|simplify_eq; by apply reject_eligible in Hv as [? _]].
  destruct (fresh now (InfrastructureServerAgent.last_seen_at a)) eqn:Ef;
    [|simplify_eq; by apply reject_eligible in Hv as [? _]].
  apply rbind_ok in Hs as (cpu & Hcpu & Hs). apply rbind_ok in Hs as (mm & Hmm & Hs).
  apply rbind_ok in Hs as (disk & Hdisk & Hs). simplify_eq.
  set (w := reject (at_least disk _) _ _) in Hv.
  assert (Verdict.eligible w = true) as Hw.
  { destruct (workload ==? "application"); [by apply reject_eligible in Hv as [_ ?]|].
    destruct ((workload ==? "database") && _); [by apply reject_eligible in Hv as [_ ?]|done]. }
  unfold w in Hw. rewrite !reject_eligible in Hw.
  destruct Hw as (Hd & Hm & Hc & Hst & _ & Hv0). apply negb_false_iff, bool_decide_eq_true in Hst.
  split_and!; try done; [by exists a|by exists cpu|by exists mm|by exists disk].
Qed.

Lemma check_hardware_eligible now server hardware v :
  Verdict.eligible (check_hardware now server hardware v).2 = true -> Verdict.eligible v = true.
Proof.
  unfold check_hardware. destruct server, hardware; simpl; try done.
  destruct (negb _); simpl; [done|]. rewrite remark_eligible, !reject_eligible. tauto.
Qed.

Lemma check_security_eligible server security v :
  Verdict.eligible (check_security server security v).2 = true ->
  Verdict.eligible v = true /\
  forall s, server <> None -> security = Some s ->
    70 <= InfrastructureSecuritySnapshot.score s /\ InfrastructureSecuritySnapshot.posture s <> "critical".
Proof.
  unfold check_security. destruct server; simpl; [|naive_solver].
  destruct security as [s|]; simpl; [|naive_solver].
  destruct (_ || _) eqn:E; simpl; [done|]. apply orb_false_iff in E as [Hp Hs].
  apply bool_decide_eq_false in Hp. apply Z.ltb_ge in Hs.
  destruct (_ <? 85); simpl; intros; split; auto; intros; simplify_eq; auto.
Qed.

(** What an eligible score means. *)
Record placement_safe (d : Db) (now : time) (w : Workload) (node : HostingNode) : Prop := {
  safe_status : HostingNode.status node = "active";
  safe_accepts : HostingNode.accepts_new_projects node = true;
  safe_capacity : forall k, 0 < resource k (Workload.request w) ->
    committed k d (HostingNode.id node) now + resource k (Workload.request w) <= resource k (node_capacity node)
}.

Lemma allocated_spec db node_id now a db' :
  allocated db node_id now = (a, db') ->
  a = allocated_of (commitments_of (sql db) node_id now) /\ sql db' = sql db.
Proof. unfold allocated, node_commitments, expire_reservations. intros. by simplify_eq. Qed.

Lemma score_node_eligible db now node w row db' :
  score_node db now node w = Ok (row, db') ->
  ScoreRow.node row = node /\ sql db' = sql db /\
  (ScoreRow.eligible row = true -> placement_safe (sql db) now w node).
Proof.
  unfold score_node. destruct (allocated _ _ _) as [a db1] eqn:Ea. apply allocated_spec in Ea as [Ha Hsql].
  destruct (infrastructure_for_hosting_node _ _) as [server server_agent].
  intros Hs. apply rbind_ok in Hs as ([telemetry v] & Hcs & Hs).
  destruct (check_hardware _ _ _ _) as [hp v1] eqn:Eh. destruct (check_security _ _ _) as [sp v2] eqn:Es.
  destruct (commercial_terms _ _ _ _ _ _ _) as [[cp cost] margin]. destruct (region_terms _ _) as [rm rp].
  apply rbind_ok in Hs as (cpu & _ & Hs). apply rbind_ok in Hs as (mm & _ & Hs).
  apply rbind_ok in Hs as (disk & _ & Hs). injection Hs as <- <-.
  cbn [ScoreRow.node ScoreRow.eligible]. split_and!; [done..|].
  intros Hv. apply (f_equal snd) in Es. cbn [snd] in Es. rewrite <- Es in Hv.
  apply check_security_eligible in Hv as [Hv _].
  apply (f_equal snd) in Eh. cbn [snd] in Eh. rewrite <- Eh in Hv. apply check_hardware_eligible in Hv.
  match type of Hcs with check_server _ _ _ _ _ ?v0 = _ => assert (Verdict.eligible v0 = true) as Hn end.
  { destruct server; [by eapply check_server_eligible in Hcs as [? _]|]. cbn in Hcs. by injection Hcs as _ ->. }
  apply check_node_eligible in Hn as (Hst & Hac & _ & Hc & Hm & Hsto).
  split; [done|done|]. intros k. subst a. unfold committed, available_for, allocated_of in *.
  destruct k; cbn -[commitments_of] in *; lia.
Qed.

Lemma score_nodes_spec db now nodes w rows db' :
  score_nodes db now nodes w = Ok (rows, db') ->
  map ScoreRow.node rows = nodes /\ sql db' = sql db /\
  forall row, row ∈ rows -> ScoreRow.eligible row = true -> placement_safe (sql db) now w (ScoreRow.node row).
Proof.
  revert db rows db'. induction nodes as [|node nodes IH]; intros db rows db'; simpl.
  - intros. simplify_eq. split_and!; [done..|]. by intros row ?%not_elem_of_nil.
  - intros Hs. apply rbind_ok in Hs as ([row db1] & Hrow & Hs).
    apply rbind_ok in Hs as ([rows1 db2] & Hrows & Hs). simplify_eq.
    apply score_node_eligible in Hrow as (Hn & Hsql & He).
    apply IH in Hrows as (Hns & Hsql' & Hes). simpl. split_and!; [congruence..|].
    intros r [->|Hr]%elem_of_cons Hel; [rewrite Hn; auto|]. rewrite <- Hsql. by apply Hes.
Qed.

Lemma rank_nodes_spec library db now w rows db' :
  rank_nodes library db now w = Ok (rows, db') ->
  map ScoreRow.node rows ≡ₚ select hosting_nodes (fun _ => true) db /\ sql db' = sql db /\
  (forall row, row ∈ rows -> ScoreRow.eligible row = true -> placement_safe (sql db) now w (ScoreRow.node row)) /\
  (library = None ->
   StronglySorted (fun a b => key_cmp (placement_sort_key a) (placement_sort_key b) <> Gt) rows) /\
  (repository_library library ->
   StronglySorted (fun a b => merit_cmp (placement_sort_key a) (placement_sort_key b) <> Gt) rows).
Proof.
  unfold rank_nodes. intros Hr. apply rbind_ok in Hr as ([ranked db1] & Hs & Hr). simplify_eq.
  apply score_nodes_spec in Hs as (Hn & Hsql & He).
  destruct (rank_candidates library ranked) as [Hp Hsort].
  split_and!; [|done| |by intros ->|by apply repository_rank_sorted].
  - rewrite (fmap_Permutation ScoreRow.node _ _ Hp). change (ScoreRow.node <$> ranked) with (map ScoreRow.node ranked).
    rewrite Hn. unfold select_ordered, select, sort_cmp.
    apply (fmap_Permutation (live (hosting_nodes (mem db)))), sort_by_perm.
  - intros row Hrow. apply He. by rewrite <- Hp.
Qed.

(** Ranking changes nothing but the reservations it expires. *)
Lemma score_nodes_keeps {A} (T : Db -> A) db now nodes w rows db' :
  (forall d l, T (with_reservations d l) = T d) ->
  score_nodes db now nodes w = Ok (rows, db') -> T (mem db') = T (mem db).
Proof.
  intros HT. revert db rows db'. induction nodes as [|node nodes IH]; intros db rows db'; simpl.
  - intros. by simplify_eq.
  - intros Hs. apply rbind_ok in Hs as ([row db1] & Hrow & Hs).
    apply rbind_ok in Hs as ([rows1 db2] & Hrows & Hs). injection Hs as _ <-.
    rewrite (IH _ _ _ Hrows). unfold score_node in Hrow.
    destruct (allocated _ _ _) as [a db3] eqn:Ea.
    assert (T (mem db3) = T (mem db)) as <-.
    { unfold allocated, node_commitments, expire_reservations in Ea. injection Ea as _ <-.
      cbn [mem put_all]. exact (HT (mem db) _). }
    destruct (infrastructure_for_hosting_node _ _) as [server server_agent].
    apply rbind_ok in Hrow as ([telemetry v] & _ & Hs).
    destruct (check_hardware _ _ _ _) as [hp v1]. destruct (check_security _ _ _) as [sp v2].
    destruct (commercial_terms _ _ _ _ _ _ _) as [[cp cost] margin]. destruct (region_terms _ _) as [rm rp].
    apply rbind_ok in Hs as (cpu & _ & Hs). apply rbind_ok in Hs as (mm & _ & Hs).
    apply rbind_ok in Hs as (disk & _ & Hs). by injection Hs as _ <-.
Qed.
Lemma rank_nodes_keeps {A} (T : Db -> A) library db now w rows db' :
  (forall d l, T (with_reservations d l) = T d) ->
  rank_nodes library db now w = Ok (rows, db') -> T (mem db') = T (mem db).
Proof.
  intros HT. unfold rank_nodes. intros Hr. apply rbind_ok in Hr as ([ranked db1] & Hs & Hr).
  injection Hr as _ <-. by apply (score_nodes_keeps T) in Hs.
Qed.

(** ** The cost ledger *)
Definition allocation_of (tenant_id sid : uuid) (a : TenantInfrastructureAllocation) : bool :=
  (TenantInfrastructureAllocation.tenant_id a =? tenant_id) && (TenantInfrastructureAllocation.server_id a =? sid).
Definition with_allocations (d : Db) (l : list TenantInfrastructureAllocation) : Db :=
  d <| tenant_infrastructure_allocations := l |>.

Lemma placed_row_twice totals w actor r :
  placed_row totals w actor (placed_row totals w actor r) = placed_row totals w actor r.
Proof.
  destruct totals as [t n], r. cbv -[Z.max Z.ltb]. f_equal. lia.
Qed.

Lemma placed_allocation_twice d l tenant_id sid nid actor r :
  placed_allocation (open_session (with_allocations d l)) tenant_id sid nid actor
    (placed_allocation (open_session d) tenant_id sid nid actor r)
  = placed_allocation (open_session d) tenant_id sid nid actor r.
Proof.
  unfold placed_allocation.
  change (placed_totals (open_session (with_allocations d l))) with (placed_totals (open_session d)).
  change (commercial_profile (open_session (with_allocations d l))) with (commercial_profile (open_session d)).
  apply placed_row_twice.
Qed.

Lemma with_allocations_same d : with_allocations d (tenant_infrastructure_allocations d) = d.
Proof. by destruct d. Qed.

(** The two ways in which the synchronisation writes. *)
Lemma sync_writes d new_id now tenant_id sid actor server nid :
  NoDup (keys (tenant_infrastructure_allocations d)) ->
  get infrastructure_servers sid (open_session d) = Some server ->
  InfrastructureServer.hosting_node_id server = Some nid ->
  let l := tenant_infrastructure_allocations d in
  let row r := placed_allocation (open_session d) tenant_id sid nid actor r in
  sync_tenant_infrastructure_allocation (open_session d) new_id now tenant_id (Some sid) actor =
  match head (List.filter (allocation_of tenant_id sid) l) with
  | Some r0 =>
      if TenantInfrastructureAllocation.source r0 ==? "manual" then (Some r0, open_session d)
      else (Some (row r0), open_session (with_allocations d (put_row (row r0) l)))
  | None =>
      let r := row (TenantInfrastructureAllocation.new_TenantInfrastructureAllocation new_id now
        <| TenantInfrastructureAllocation.tenant_id := tenant_id |>
        <| TenantInfrastructureAllocation.server_id := sid |>
        <| TenantInfrastructureAllocation.created_by_user_id := actor |>
        <| TenantInfrastructureAllocation.bandwidth_gb := 0 |>) in
      (Some r, open_session (with_allocations d (l ++ [r])))
  end.
Proof.
  intros Hnd Hserver Hnid. unfold sync_tenant_infrastructure_allocation.
  rewrite Hserver, Hnid, scalar_head by done. fold (allocation_of tenant_id sid).
  change (tenant_infrastructure_allocations (mem (open_session d))) with (tenant_infrastructure_allocations d).
  unfold allocation_of. destruct (head _) as [r0|]; [|done].
  by destruct (TenantInfrastructureAllocation.source r0 ==? "manual").
Qed.

(** Running the synchronisation on a database whose row is up to date. *)
Lemma sync_fixpoint d new_id now tenant_id sid actor server nid r :
  NoDup (keys (tenant_infrastructure_allocations d)) ->
  get infrastructure_servers sid (open_session d) = Some server ->
  InfrastructureServer.hosting_node_id server = Some nid ->
  head (List.filter (allocation_of tenant_id sid) (tenant_infrastructure_allocations d)) = Some r ->
  TenantInfrastructureAllocation.source r = "manual" \/
  placed_allocation (open_session d) tenant_id sid nid actor r = r ->
  sync_tenant_infrastructure_allocation (open_session d) new_id now tenant_id (Some sid) actor
    = (Some r, open_session d).
Proof.
  intros Hnd Hserver Hnid Hr Hfix. rewrite (sync_writes d _ _ _ _ _ server nid) by done. cbv zeta. rewrite Hr.
  destruct Hfix as [->|Hfix]; [by rewrite bool_decide_eq_true_2|].
  bdestruct (TenantInfrastructureAllocation.source r ==? "manual"); [done|]. rewrite Hfix.
  apply head_filter in Hr as [Hin _].
  by rewrite put_row_same, with_allocations_same.
Qed.

Lemma find_sorted {A} (p : A -> bool) (R : relation A) l x :
  StronglySorted R l -> List.find p l = Some x ->
  forall y, y ∈ l -> p y = true -> y = x \/ R x y.
Proof.
  induction 1 as [|a l _ IH Ha]; simpl; [done|]. rewrite Forall_forall in Ha.
  destruct (p a) eqn:Ep; intros Hf y [->|Hy]%elem_of_cons Hp; simplify_eq; try congruence; auto.
Qed.

(** ** The theorems *)

(** C4.  A node chosen by [select_node] is a node of the table, active and
    accepting, with room for the whole request beside everything committed on
    it; a preferred node is respected; otherwise no eligible candidate has a
    better score, whether the ranking is that of Python or of the repository's C++
    library (an arbitrary library in its place is only held to return the
    candidates), and with the Python ranking none has a better key, the name and
    the identifier included. *)
Theorem select_node_safe library db now w preferred node row db' :
  select_node library db now w preferred = Ok (node, row, db') ->
  node ∈ select hosting_nodes (fun _ => true) db /\
  ScoreRow.eligible row = true /\ ScoreRow.node row = node /\
  placement_safe (sql db) now w node /\
  (forall p, preferred = Some p -> HostingNode.id node = p) /\
  (library = None -> preferred = None -> forall ranked db2 row',
     rank_nodes None db now w = Ok (ranked, db2) -> row' ∈ ranked -> ScoreRow.eligible row' = true ->
     row' = row \/ key_cmp (placement_sort_key row) (placement_sort_key row') <> Gt) /\
  (repository_library library -> preferred = None -> forall ranked db2 row',
     rank_nodes library db now w = Ok (ranked, db2) -> row' ∈ ranked -> ScoreRow.eligible row' = true ->
     flt (SortKey.score (placement_sort_key row')) (SortKey.score (placement_sort_key row)) = false).
Proof.
  unfold select_node. intros Hs. apply rbind_ok in Hs as ([ranked db1] & Hr & Hs).
  apply rank_nodes_spec in Hr as Hspec. destruct Hspec as (Hp & Hsql & He & Hsort & Hmerit).
  assert (row ∈ ranked -> ScoreRow.eligible row = true -> node = ScoreRow.node row ->
    node ∈ select hosting_nodes (fun _ => true) db /\ placement_safe (sql db) now w node) as Hin.
  { intros Hrow Hel ->. split; [|by apply He]. rewrite <- Hp. by apply list_elem_of_fmap_2. }
  destruct preferred as [p|].
  - destruct (List.find _ ranked) as [r|] eqn:Ef; [|done]. apply find_some in Ef as [Hr2 Hid%Z.eqb_eq].
    destruct (ScoreRow.eligible r) eqn:Hel; [|done]. simplify_eq. apply list_elem_of_In in Hr2.
    destruct Hin; [done..|]. split_and!; try done. by intros ? [= <-].
  - destruct (List.find _ ranked) as [r|] eqn:Ef; [|done]. simplify_eq.
    apply find_some in Ef as Hr2. destruct Hr2 as [Hr2 Hel]. apply list_elem_of_In in Hr2.
    destruct Hin; [done..|]. split_and!; try done.
    + intros -> _ ranked2 db2 row' Hr3 Hrow' Hel'. rewrite Hr in Hr3. simplify_eq.
      by apply (find_sorted _ _ _ _ (Hsort eq_refl) Ef row').
    + intros Hl _ ranked2 db2 row' Hr3 Hrow' Hel'. rewrite Hr in Hr3. simplify_eq. apply merit_score; [by cbn; rewrite Hel, Hel'|].
      destruct (find_sorted _ _ _ _ (Hmerit Hl) Ef row') as [->|?]; [done..|by apply merit_refl|done].
Qed.

(**  Without a preferred node the selection fails only with HTTP 409, and
    exactly when the ranking has no eligible row. *)
Theorem select_node_conflict_iff library db now w ranked db1 :
  rank_nodes library db now w = Ok (ranked, db1) ->
  (exists detail, select_node library db now w None = Err (HTTPException 409 detail)) <->
  forall row, row ∈ ranked -> ScoreRow.eligible row = false.
Proof.
  intros Hr. unfold select_node. rewrite Hr. simpl.
  destruct (List.find ScoreRow.eligible ranked) as [r|] eqn:Ef.
  - split; [by intros [? ?]|]. apply find_some in Ef as [Hin Hel]. intros Hall.
    apply list_elem_of_In in Hin. by rewrite Hall in Hel.
  - split; [|by eexists]. intros _ row Hrow. apply list_elem_of_In in Hrow.
    by apply (find_none ScoreRow.eligible ranked Ef).
Qed.

(**  Synchronising the cost ledger never changes a manual allocation, and
    doing it again right away changes nothing: retries do not inflate shares. *)
Theorem sync_allocation_idempotent d new_id new_id2 now now2 tenant_id server_id actor r s :
  NoDup (keys (tenant_infrastructure_allocations d)) -> new_id ∉ keys (tenant_infrastructure_allocations d) ->
  sync_tenant_infrastructure_allocation (open_session d) new_id now tenant_id server_id actor = (Some r, s) ->
  (TenantInfrastructureAllocation.source r = "manual" -> s = open_session d) /\
  sync_tenant_infrastructure_allocation s new_id2 now2 tenant_id server_id actor = (Some r, s).
Proof.
  intros Hnd Hid.
  destruct server_id as [sid|]; [|done].
  destruct (get infrastructure_servers sid (open_session d)) as [server|] eqn:Eserver;
    [|by unfold sync_tenant_infrastructure_allocation; rewrite Eserver].
  destruct (InfrastructureServer.hosting_node_id server) as [nid|] eqn:Enid;
    [|by unfold sync_tenant_infrastructure_allocation; rewrite Eserver, Enid].
  destruct (head (List.filter (allocation_of tenant_id sid) (tenant_infrastructure_allocations d))) as [r0|] eqn:Er0.
  - destruct (decide (TenantInfrastructureAllocation.source r0 = "manual")) as [Hm|Hm].
    + rewrite (sync_fixpoint d _ _ _ _ _ server nid r0) by auto. intros [= <- <-].
      split; [done|]. by apply (sync_fixpoint d _ _ _ _ _ server nid); auto.
    + rewrite (sync_writes d _ _ _ _ _ server nid) by done. cbv zeta.
      rewrite Er0, bool_decide_eq_false_2 by done. intros [= <- <-].
      split; [by intros ?|].
      apply (sync_fixpoint _ _ _ _ _ _ server nid); try done.
      * simpl. by rewrite keys_put.
      * apply (head_filter_put _ r0); [done..|]. by apply head_filter in Er0 as [_ ?].
      * right. apply placed_allocation_twice.
  - rewrite (sync_writes d _ _ _ _ _ server nid) by done. cbv zeta. rewrite Er0. intros [= <- <-].
    split; [by intros ?|].
    apply (sync_fixpoint _ _ _ _ _ _ server nid); try done.
    + simpl. unfold keys. rewrite map_app. apply NoDup_app. split_and!; [done| |apply NoDup_singleton].
      by intros x Hx ->%list_elem_of_singleton.
    + simpl. rewrite List.filter_app. destruct (List.filter _ _); [|done]. simpl.
      unfold allocation_of. simpl. by rewrite !Z.eqb_refl.
    + right. apply placed_allocation_twice.
Qed.

(** ** Concrete placements *)
Definition demo_workload (storage_mb : Z) : Workload :=
  Workload.mk "application" storage_mb 512 500 None (Some " Lesotho ") (Some 9).
Definition demo_placement_db : Db :=
  demo_hosting_db <| hosting_nodes := [demo_node <| HostingNode.name := "b" |>;
      demo_node <| HostingNode.id := 2 |> <| HostingNode.name := "a" |>] |>
    <| infrastructure_servers := [InfrastructureServer.new_InfrastructureServer 5 0
         <| InfrastructureServer.hosting_node_id := Some 2 |>] |>
    <| hosting_projects := [HostingProject.new_HostingProject 3 0 <| HostingProject.tenant_id := 9 |>
         <| HostingProject.node_id := Some 2 |> <| HostingProject.cpu_millicores := 250 |>] |>.

Lemma select_node_safe_witness :
  exists node row db, select_node None (open_session demo_placement_db) 100 (demo_workload 900) None = Ok (node, row, db) /\
    HostingNode.id node = 1 /\ placement_safe demo_placement_db 100 (demo_workload 900) node.
Proof.
  destruct (select_node None (open_session demo_placement_db) 100 (demo_workload 900) None) as [[[node row] db]|e] eqn:E;
    [|exfalso; vm_compute in E; discriminate].
  exists node, row, db. split; [reflexivity|].
  pose proof (select_node_safe _ _ _ _ _ _ _ _ E) as (_ & _ & _ & Hsafe & _).
  split; [|exact Hsafe]. vm_compute in E. injection E as <- _ _. reflexivity.
Defined.

Lemma select_node_conflict_iff_witness :
  exists detail, select_node None (open_session demo_placement_db) 100 (demo_workload 901) None
    = Err (HTTPException 409 detail).
Proof.
  destruct (rank_nodes None (open_session demo_placement_db) 100 (demo_workload 901)) as [[ranked db]|e] eqn:E;
    [|exfalso; vm_compute in E; discriminate].
  apply (select_node_conflict_iff None _ _ _ ranked db E).
  vm_compute in E. injection E as <- _. intros row Hrow. apply list_elem_of_In in Hrow.
  destruct Hrow as [<-|[<-|[]]]; reflexivity.
Defined.

Lemma sync_allocation_idempotent_witness :
  exists r s, sync_tenant_infrastructure_allocation (open_session demo_placement_db) 77 100 9 (Some 5) 2 = (Some r, s) /\
    TenantInfrastructureAllocation.cpu_millicores r = 250 /\
    sync_tenant_infrastructure_allocation s 78 200 9 (Some 5) 2 = (Some r, s).
Proof.
  destruct (sync_tenant_infrastructure_allocation (open_session demo_placement_db) 77 100 9 (Some 5) 2) as [[r|] s] eqn:E;
    [|exfalso; vm_compute in E; discriminate].
  exists r, s. split; [reflexivity|]. split; [vm_compute in E; injection E as <- _; reflexivity|].
  refine (proj2 (sync_allocation_idempotent demo_placement_db 77 78 100 200 9 (Some 5) 2 r s _ _ E)).
  - apply NoDup_nil_2.
  - apply not_elem_of_nil.
Defined.
