(* ===== verification/Scheduler.v ===== *)
(** [app/services/hosting_operation_scheduler.py] and
    [app/api/v1/hosting_project_operations.py]: queueing project operations,
    admitting them to a node by aging priority, and the agent's reports.  The
    endpoints are modelled after the permission check of their caller; one
    request has one [now]; [hash_token] (SHA-256) is an argument. *)
From S2P Require Import Prelude PyFloat Json Models Session.
#[local] Open Scope string_scope.
#[local] Open Scope list_scope.
#[local] Open Scope Z_scope.

Definition DEFAULT_NODE_OPERATION_CONCURRENCY : Z := 2.
Definition MAX_NODE_OPERATION_CONCURRENCY : Z := 16.
Definition AGING_INTERVAL_SECONDS : Z := 300.
Definition MAX_AGING_BONUS : Z := 40.
Definition BASE_PRIORITY : list (string * Z) := [("retire", 10); ("restart", 20); ("logs", 60)].

(** [raw] is the environment variable, when it is set. *)
Definition node_operation_concurrency_limit (raw : option string) : Z :=
  let value := match raw with
    | None => DEFAULT_NODE_OPERATION_CONCURRENCY
    | Some s => match int_of_str s with Some z => z | None => DEFAULT_NODE_OPERATION_CONCURRENCY end end in
  Z.max 1 (Z.min value MAX_NODE_OPERATION_CONCURRENCY).

Definition operation_effective_priority (operation : string) (created_at now : time) : Z :=
  let waited_seconds := Z.max 0 (Z.quot (now - created_at) 1000000) in
  let aging_bonus := Z.min MAX_AGING_BONUS (waited_seconds / AGING_INTERVAL_SECONDS) in
  let base := match dict_get (lower (strip operation)) BASE_PRIORITY with Some b => b | None => 50 end in
  Z.max 0 (base - aging_bonus).

(** The tuples of [_claim_sort_key], compared component by component. *)
Definition claim_cmp (now : time) : HostingProjectOperation -> HostingProjectOperation -> comparison :=
  let priority r := operation_effective_priority (HostingProjectOperation.operation r)
                      (HostingProjectOperation.created_at r) now in
  lex_cmp (fun a b => Z.compare (priority a) (priority b))
  (lex_cmp (fun a b => Z.compare (HostingProjectOperation.created_at a) (HostingProjectOperation.created_at b))
           (fun a b => String.compare (str_of_uuid (HostingProjectOperation.id a)) (str_of_uuid (HostingProjectOperation.id b)))).

Definition queue_order : HostingProjectOperation -> HostingProjectOperation -> comparison :=
  lex_cmp (asc HostingProjectOperation.created_at) (asc HostingProjectOperation.id).
Definition claimed_on (node_id : uuid) (r : HostingProjectOperation) : bool :=
  (HostingProjectOperation.node_id r =? node_id) && (HostingProjectOperation.status r ==? "claimed").
Definition queued_on (node_id : uuid) (r : HostingProjectOperation) : bool :=
  (HostingProjectOperation.node_id r =? node_id) && (HostingProjectOperation.status r ==? "queued").

Definition claim_row (now : time) (r : HostingProjectOperation) : HostingProjectOperation :=
  r <| HostingProjectOperation.status := "claimed" |> <| HostingProjectOperation.claimed_at := Some now |>.

(** [concurrency_limit or node_operation_concurrency_limit()], clamped. *)
Definition effective_limit (concurrency_limit : option Z) (raw : option string) : Z :=
  let limit := match concurrency_limit with
    | Some l => if l =? 0 then node_operation_concurrency_limit raw else l
    | None => node_operation_concurrency_limit raw end in
  Z.max 1 (Z.min limit MAX_NODE_OPERATION_CONCURRENCY).

Definition claim_next_project_operation (db : Session Db) (node_id : uuid) (now : time)
    (concurrency_limit : option Z) (raw : option string) : option HostingProjectOperation * Session Db :=
  let limit := effective_limit concurrency_limit raw in
  match scalar hosting_nodes (fun n => HostingNode.id n =? node_id) db with
  | None => (None, db)
  | Some _ =>
      let claimed_count := sql_count hosting_project_operations (claimed_on node_id) db in
      if limit <=? claimed_count then (None, db)
      else
        let queued := firstn 128 (select_ordered hosting_project_operations queue_order (queued_on node_id) db) in
        match min_by (claim_cmp now) queued with
        | None => (None, db)
        | Some row =>
            let row := claim_row now row in
            (Some row, flush (put hosting_project_operations row db))
        end
  end.

(** ** The API *)
Definition ACTIVE_STATUSES : list string := ["queued"; "claimed"].
Definition MAX_LOG_OUTPUT : Z := 256000.

(** [s[-n:]] *)
Definition str_last (n : Z) (s : string) : string :=
  let len := String.length s in
  String.substring (len - Z.to_nat n) len s.

Definition audit_row (new_id : uuid) (now : time) (actor : option uuid) (row : HostingProjectOperation)
    (action : string) (metadata : Json) : AuditLog :=
  AuditLog.new_AuditLog new_id now
    <| AuditLog.tenant_id := Some (HostingProjectOperation.tenant_id row) |>
    <| AuditLog.actor_user_id := actor |>
    <| AuditLog.action := action |>
    <| AuditLog.resource_type := "hosting_project_operation" |>
    <| AuditLog.resource_id := Some (str_of_uuid (HostingProjectOperation.id row)) |>
    <| AuditLog.metadata_json := Some (json_dumps_sorted metadata) |>.

Definition active_operation (db : Session Db) (project_id : uuid) (operation : option string)
    : option HostingProjectOperation :=
  scalar_ordered hosting_project_operations (desc HostingProjectOperation.created_at)
    (fun r => (HostingProjectOperation.project_id r =? project_id) &&
              (HostingProjectOperation.status r in? ACTIVE_STATUSES) &&
              match operation with Some o => HostingProjectOperation.operation r ==? o | None => true end) db.

Definition queue_operation (db : Session Db) (new_id audit_id : uuid) (now : time) (project : HostingProject)
    (current : uuid) (operation : string) (requested_lines : option Z)
    : result (HostingProjectOperation * Session Db) :=
  match HostingProject.node_id project with
  | None => Err (HTTPException 409 "Project is not assigned to a hosting node")
  | Some node_id =>
    match active_operation db (HostingProject.id project) (Some operation) with
    | Some _ => Err (HTTPException 409 ("A " ++ operation ++ " operation is already in progress for this project"))
    | None =>
        let row := HostingProjectOperation.new_HostingProjectOperation new_id now
          <| HostingProjectOperation.tenant_id := HostingProject.tenant_id project |>
          <| HostingProjectOperation.project_id := HostingProject.id project |>
          <| HostingProjectOperation.node_id := node_id |>
          <| HostingProjectOperation.operation := operation |>
          <| HostingProjectOperation.status := "queued" |>
          <| HostingProjectOperation.requested_lines := requested_lines |>
          <| HostingProjectOperation.requested_by_user_id := current |> in
        let db := flush (add hosting_project_operations row db) in
        let metadata := JObj [("requested_lines", match requested_lines with Some n => JInt n | None => JNull end)] in
        Ok (row, add audit_logs (audit_row audit_id now (Some current) row
                                   ("hosting.project." ++ operation ++ ".queue") metadata) db)
    end
  end.

Definition project_of_tenant (db : Session Db) (tenant_id project_id : uuid) : result HostingProject :=
  match scalar hosting_projects (fun p => (HostingProject.id p =? project_id) && (HostingProject.tenant_id p =? tenant_id)) db with
  | Some p => Ok p
  | None => Err (HTTPException 404 "Hosted project not found")
  end.

Definition restart_project (db : Session Db) (new_id audit_id : uuid) (now : time)
    (tenant_id project_id current : uuid) : result (HostingProjectOperation * Session Db) :=
  let* project := project_of_tenant db tenant_id project_id in
  ensure HostingProject.status project ==? "running"
    else_raise HTTPException 409 "Only a running hosted project can be restarted";
  match active_operation db (HostingProject.id project) None with
  | Some _ => Err (HTTPException 409 "Wait for the current project operation to finish before restarting")
  | None =>
      let* (row, db) := queue_operation db new_id audit_id now project current "restart" None in
      Ok (row, commit db)
  end.

Definition request_project_logs (db : Session Db) (new_id audit_id : uuid) (now : time)
    (tenant_id project_id current : uuid) (lines : Z) : result (HostingProjectOperation * Session Db) :=
  ensure (1 <=? lines) && (lines <=? 2000) else_raise HTTPException 422 "lines";
  let* project := project_of_tenant db tenant_id project_id in
  ensure HostingProject.status project in? ["running"; "deploying"; "failed"]
    else_raise HTTPException 409 "Logs are available only for a deployed or deploying project";
  let* (row, db) := queue_operation db new_id audit_id now project current "logs" (Some lines) in
  Ok (row, commit db).

Definition agent_from_token (hash_token : string -> string) (db : Session Db) (token : option string)
    : result (HostingNodeAgent * HostingNode) :=
  let raw := strip (opt_str token) in
  ensure str_truthy raw && String.prefix "ith_host_" raw
    else_raise HTTPException 401 "Hosting node agent credential required";
  match scalar hosting_node_agents (fun a => HostingNodeAgent.token_hash a ==? hash_token raw) db with
  | None => Err (HTTPException 401 "Invalid hosting node agent credential")
  | Some agent =>
    match get hosting_nodes (HostingNodeAgent.node_id agent) db with
    | None => Err (HTTPException 403 "Hosting node is unavailable")
    | Some node =>
        ensure HostingNode.status node !=? "offline" else_raise HTTPException 403 "Hosting node is unavailable";
        Ok (agent, node)
    end
  end.

Definition fail_row (now : time) (message : string) (r : HostingProjectOperation) : HostingProjectOperation :=
  r <| HostingProjectOperation.status := "failed" |>
    <| HostingProjectOperation.failure_message := Some message |>
    <| HostingProjectOperation.completed_at := Some now |>.

(** The claim response: the operation and the project given to the agent. *)
Definition claim_project_operation (hash_token : string -> string) (db : Session Db) (now : time)
    (token : option string) (raw : option string)
    : result (option (HostingProjectOperation * HostingProject) * Session Db) :=
  let* (agent, node) := agent_from_token hash_token db token in
  let db := put hosting_node_agents (agent <| HostingNodeAgent.last_seen_at := Some now |>) db in
  match claim_next_project_operation db (HostingNode.id node) now None raw with
  | (None, db) => Ok (None, commit db)
  | (Some row, db) =>
      let refuse message := Ok (None, commit (put hosting_project_operations (fail_row now message row) db)) in
      match get hosting_projects (HostingProjectOperation.project_id row) db with
      | None => refuse "Project is unavailable"
      | Some project =>
          let here := HostingProject.node_id project ==? Some (HostingNode.id node) in
          if HostingProjectOperation.operation row ==? "retire" then
            if here then refuse "Refusing to retire the project's active placement"
            else Ok (Some (row, project), commit db)
          else if negb here then refuse "Project is unavailable on this hosting node"
          else Ok (Some (row, project), commit db)
      end
  end.

(** The row after an agent's report. *)
Definition reported_row (now : time) (success : bool) (output message : option string) (r : HostingProjectOperation)
    : HostingProjectOperation :=
  let r := r <| HostingProjectOperation.completed_at := Some now |> in
  if success then
    r <| HostingProjectOperation.status := "succeeded" |>
      <| HostingProjectOperation.failure_message := None |>
      <| HostingProjectOperation.output_text :=
           (if HostingProjectOperation.operation r ==? "logs" then Some (str_last MAX_LOG_OUTPUT (opt_str output)) else None) |>
  else
    r <| HostingProjectOperation.status := "failed" |>
      <| HostingProjectOperation.output_text := None |>
      <| HostingProjectOperation.failure_message :=
           Some (str_take 2000 (strip (str_or (opt_str message) "Hosting node reported project operation failure"))) |>.
Definition report_audit (success : bool) (r : HostingProjectOperation) : string * Json :=
  let name := ("hosting.project." ++ HostingProjectOperation.operation r)%string in
  if success then
    ((name ++ ".complete")%string,
     JObj [("output_chars", JInt (Z.of_nat (String.length (opt_str (HostingProjectOperation.output_text r)))))])
  else ((name ++ ".failed")%string, JObj [("message", JStr (opt_str (HostingProjectOperation.failure_message r)))]).

Definition report_project_operation (hash_token : string -> string) (db : Session Db) (audit_id : uuid) (now : time)
    (token : option string) (operation_id : uuid) (success : bool) (output message : option string)
    : result (HostingProjectOperation * Session Db) :=
  let* (agent, node) := agent_from_token hash_token db token in
  let db := put hosting_node_agents (agent <| HostingNodeAgent.last_seen_at := Some now |>) db in
  match scalar hosting_project_operations
          (fun r => (HostingProjectOperation.id r =? operation_id) && claimed_on (HostingNode.id node) r) db with
  | None => Err (HTTPException 404 "Claimed project operation not found for this hosting node")
  | Some row =>
      let row := reported_row now success output message row in
      let '(action, metadata) := report_audit success row in
      let db := put hosting_project_operations row db in
      Ok (row, commit (add audit_logs (audit_row audit_id now None row action metadata) db))
  end.

(** * Properties *)
Lemma claim_cmp_order now : cmp_order (claim_cmp now).
Proof.
  unfold claim_cmp. apply lex_cmp_order; [|apply lex_cmp_order].
  - apply (map_cmp_order (fun r => operation_effective_priority (HostingProjectOperation.operation r)
      (HostingProjectOperation.created_at r) now)), Z_cmp_order.
  - apply (map_cmp_order HostingProjectOperation.created_at), Z_cmp_order.
  - apply (map_cmp_order (fun r => str_of_uuid (HostingProjectOperation.id r))), string_cmp_order.
Qed.

(** Active operations on a node, and the limit that admission keeps. *)
Definition claimed_count (d : Db) (node_id : uuid) : Z :=
  zlen (List.filter (claimed_on node_id) (hosting_project_operations d)).
Definition with_operations (d : Db) (l : list HostingProjectOperation) : Db :=
  d <| hosting_project_operations := l |>.

Lemma zlen_filter_put {R} `{Keyed R} (p : R -> bool) r r0 t :
  NoDup (keys t) -> find_row (key r) t = Some r0 ->
  zlen (List.filter p (put_row r t)) = zlen (List.filter p t) - Z.b2z (p r0) + Z.b2z (p r).
Proof.
  intros Hn Hf. pose proof (sum_filter_put p (fun _ => 1) r r0 t Hn Hf) as Hs.
  rewrite !sum_by_const in Hs. destruct (p r0), (p r); simpl in *; lia.
Qed.

(** The queue as the scheduler reads it: the 128 oldest operations of the node. *)
Definition queue_window (d : Db) (node_id : uuid) : list HostingProjectOperation :=
  firstn 128 (sort_cmp queue_order (List.filter (queued_on node_id) (hosting_project_operations d))).

Lemma claim_next_cases db node_id now climit raw o s :
  synced hosting_project_operations db -> NoDup (keys (hosting_project_operations (mem db))) ->
  claim_next_project_operation db node_id now climit raw = (o, s) ->
  (o = None /\ s = db) \/
  exists row, o = Some (claim_row now row) /\ row ∈ hosting_project_operations (mem db) /\ queued_on node_id row = true /\
    claimed_count (mem db) node_id < effective_limit climit raw /\
    (forall other, other ∈ queue_window (mem db) node_id -> claim_cmp now row other <> Gt) /\
    s = flush (put hosting_project_operations (claim_row now row) db).
Proof.
  intros Hs Hn. unfold claim_next_project_operation. rewrite select_ordered_synced by done.
  destruct (scalar hosting_nodes _ _); [|intros; simplify_eq; by left].
  assert (sql_count hosting_project_operations (claimed_on node_id) db = claimed_count (mem db) node_id) as ->.
  { unfold sql_count, claimed_count. by rewrite Hs. }
  bdestruct (effective_limit climit raw <=? claimed_count (mem db) node_id); [intros; simplify_eq; by left|].
  destruct (min_by _ _) as [row|] eqn:Em; [|intros; simplify_eq; by left].
  intros [= <- <-]. right. exists row. apply min_by_spec in Em as [Hin Hmin]; [|apply claim_cmp_order].
  apply elem_of_take in Hin as (i & Hi & _). apply list_elem_of_lookup_2 in Hi.
  unfold sort_cmp in Hi. rewrite sort_by_elem, list_elem_of_In, filter_In in Hi. destruct Hi as [Hi Hq].
  split_and!; try done. by apply list_elem_of_In.
Qed.

(** The effect of one claim on the number of admitted operations of any node. *)
Lemma claimed_count_claim d node_id now row m :
  NoDup (keys (hosting_project_operations d)) -> row ∈ hosting_project_operations d -> queued_on node_id row = true ->
  claimed_count (with_operations d (put_row (claim_row now row) (hosting_project_operations d))) m
  = claimed_count d m + Z.b2z (node_id =? m).
Proof.
  intros Hn Hrow Hq. unfold claimed_count. simpl.
  rewrite (zlen_filter_put _ (claim_row now row) row) by (done || by apply (find_row_nodup _ row)).
  unfold queued_on in Hq. apply andb_true_iff in Hq as [Hq1%Z.eqb_eq Hq2%bool_decide_eq_true].
  unfold claimed_on. rewrite Hq2. simpl. rewrite andb_true_r, andb_false_r, Hq1. simpl. lia.
Qed.

(** ** What one request does to the operations *)
Definition status_step (a b : string) : Prop :=
  (a = "queued" /\ (b = "claimed" \/ b = "failed")) \/ (a = "claimed" /\ (b = "succeeded" \/ b = "failed")).

Inductive ops_change (d d' : Db) : Prop :=
| ops_same : hosting_project_operations d' = hosting_project_operations d -> ops_change d d'
| ops_queue r :
    hosting_project_operations d' = hosting_project_operations d ++ [r] ->
    HostingProjectOperation.status r = "queued" ->
    key r ∉ keys (hosting_project_operations d) -> ops_change d d'
| ops_update r r' :
    hosting_project_operations d' = put_row r' (hosting_project_operations d) ->
    r ∈ hosting_project_operations d -> key r' = key r ->
    HostingProjectOperation.node_id r' = HostingProjectOperation.node_id r ->
    status_step (HostingProjectOperation.status r) (HostingProjectOperation.status r') ->
    (HostingProjectOperation.status r' = "claimed" ->
       claimed_count d (HostingProjectOperation.node_id r) < MAX_NODE_OPERATION_CONCURRENCY) ->
    ops_change d d'.

(** A committed request of the API on the project operations. *)
Inductive operation_step (hash_token : string -> string) : Db -> Db -> Prop :=
| step_restart d new_id audit_id now tenant project current row s :
    restart_project (open_session d) new_id audit_id now tenant project current = Ok (row, s) ->
    new_id ∉ keys (hosting_project_operations d) -> operation_step hash_token d (mem s)
| step_logs d new_id audit_id now tenant project current lines row s :
    request_project_logs (open_session d) new_id audit_id now tenant project current lines = Ok (row, s) ->
    new_id ∉ keys (hosting_project_operations d) -> operation_step hash_token d (mem s)
| step_claim d now token raw o s :
    claim_project_operation hash_token (open_session d) now token raw = Ok (o, s) ->
    operation_step hash_token d (mem s)
| step_report d audit_id now token op_id success output message row s :
    report_project_operation hash_token (open_session d) audit_id now token op_id success output message = Ok (row, s) ->
    operation_step hash_token d (mem s).

Lemma effective_limit_max climit raw : effective_limit climit raw <= MAX_NODE_OPERATION_CONCURRENCY.
Proof. unfold effective_limit, MAX_NODE_OPERATION_CONCURRENCY. lia. Qed.

Lemma queue_operation_change d new_id audit_id now project current op lines row s :
  queue_operation (open_session d) new_id audit_id now project current op lines = Ok (row, s) ->
  new_id ∉ keys (hosting_project_operations d) -> ops_change d (mem s).
Proof.
  unfold queue_operation. intros Hq Hid. destruct (HostingProject.node_id project); [|done].
  destruct (active_operation _ _ _); [done|]. injection Hq as <- <-.
  eapply ops_queue; [reflexivity|reflexivity|done].
Qed.

Lemma put_put_row {R} `{Keyed R} (r1 r2 : R) t : key r1 = key r2 -> put_row r2 (put_row r1 t) = put_row r2 t.
Proof.
  intros Hk. unfold put_row. rewrite map_map. apply map_ext. intros x.
  rewrite Hk. destruct (key x =? key r2) eqn:E; [|by rewrite E]. by rewrite Hk, Z.eqb_refl.
Qed.

(** What the claim endpoint leaves behind, and what it hands to the agent. *)
Lemma claim_project_operation_cases hash_token d now token raw o s :
  NoDup (keys (hosting_project_operations d)) ->
  claim_project_operation hash_token (open_session d) now token raw = Ok (o, s) ->
  ops_change d (mem s) /\
  forall row project, o = Some (row, project) ->
    HostingProjectOperation.status row = "claimed" /\ HostingProject.id project = HostingProjectOperation.project_id row /\
    (HostingProjectOperation.operation row = "retire" ->
       HostingProject.node_id project <> Some (HostingProjectOperation.node_id row)) /\
    (HostingProjectOperation.operation row <> "retire" ->
       HostingProject.node_id project = Some (HostingProjectOperation.node_id row)).
Proof.
  intros Hn. unfold claim_project_operation. intros Hc. apply rbind_ok in Hc as ([agent node] & _ & Hc).
  set (db := put hosting_node_agents _ _) in Hc.
  destruct (claim_next_project_operation db (HostingNode.id node) now None raw) as [o1 s1] eqn:Ec.
  apply claim_next_cases in Ec; [|done..].
  destruct Ec as [[-> ->]|(row & -> & Hrow & Hq & Hlim & _ & ->)].
  { injection Hc as <- <-. split; [by apply ops_same|done]. }
  unfold queued_on in Hq. apply andb_true_iff in Hq as [Hnode%Z.eqb_eq Hst%bool_decide_eq_true].
  assert (forall m, ops_change d (mem (commit (put hosting_project_operations (fail_row now m (claim_row now row))
    (flush (put hosting_project_operations (claim_row now row) db)))))) as Hfail.
  { intros m. apply (ops_update _ _ row (fail_row now m (claim_row now row))); try done.
    - apply put_put_row. done.
    - rewrite Hst. left. split; [done|by right]. }
  assert (ops_change d (mem (commit (flush (put hosting_project_operations (claim_row now row) db))))) as Hok.
  { apply (ops_update _ _ row (claim_row now row)); try done.
    - rewrite Hst. left. split; [done|by left].
    - intros _. rewrite Hnode. pose proof (effective_limit_max None raw). change (mem db) with (mem db) in Hlim.
      change (claimed_count (mem db) (HostingNode.id node)) with (claimed_count d (HostingNode.id node)) in Hlim. lia. }
  destruct (get hosting_projects _ _) as [project|] eqn:Ep; [|by injection Hc as <- <-].
  apply get_key in Ep. change (HostingProject.id project = HostingProjectOperation.project_id row) in Ep.
  change (HostingProjectOperation.operation (claim_row now row)) with (HostingProjectOperation.operation row) in Hc.
  bdestruct (HostingProjectOperation.operation row ==? "retire");
    bdestruct (HostingProject.node_id project ==? Some (HostingNode.id node)); simpl in Hc;
    injection Hc as <- <-; (split; [done|]); intros r p [= <- <-]; simpl; rewrite ?Hnode; naive_solver.
Qed.

Lemma report_change hash_token d audit_id now token op_id success output message row s :
  NoDup (keys (hosting_project_operations d)) ->
  report_project_operation hash_token (open_session d) audit_id now token op_id success output message = Ok (row, s) ->
  ops_change d (mem s).
Proof.
  intros Hn. unfold report_project_operation. intros Hc. apply rbind_ok in Hc as ([agent node] & _ & Hc).
  destruct (scalar hosting_project_operations _ _) as [r|] eqn:Er; [|done].
  apply scalar_some in Er as [Hr Hp]; [|done..].
  apply andb_true_iff in Hp as [_ Hp]. unfold claimed_on in Hp.
  apply andb_true_iff in Hp as [_ Hst%bool_decide_eq_true].
  destruct (report_audit success (reported_row now success output message r)) as [action metadata]. injection Hc as <- <-.
  apply (ops_update _ _ r (reported_row now success output message r)); try done.
  - by destruct success.
  - by destruct success.
  - rewrite Hst. right. split; [done|]. destruct success; [by left|by right].
  - by destruct success.
Qed.

Lemma operation_step_change hash_token d d' :
  NoDup (keys (hosting_project_operations d)) -> operation_step hash_token d d' -> ops_change d d'.
Proof.
  intros Hn Hs. destruct Hs as [d new_id audit_id now tenant project current row s Hr Hid
    |d new_id audit_id now tenant project current lines row s Hr Hid|d now token raw o s Hr
    |d audit_id now token op_id success output message row s Hr].
  - unfold restart_project in Hr. apply rbind_ok in Hr as (p & _ & Hr).
    destruct (_ ==? _); [|done]. destruct (active_operation _ _ _); [done|].
    apply rbind_ok in Hr as ([row' db] & Hq & Hr). injection Hr as <- <-. by eapply queue_operation_change in Hq.
  - unfold request_project_logs in Hr. destruct (_ && _); [|done]. apply rbind_ok in Hr as (p & _ & Hr).
    destruct (existsb _ _); [|done].
    apply rbind_ok in Hr as ([row' db] & Hq & Hr). injection Hr as <- <-. by eapply queue_operation_change in Hq.
  - by eapply claim_project_operation_cases.
  - by eapply report_change.
Qed.

(** The limit is kept by every change. *)
Definition within_limits (d : Db) : Prop :=
  NoDup (keys (hosting_project_operations d)) /\
  forall node_id, claimed_count d node_id <= MAX_NODE_OPERATION_CONCURRENCY.

Lemma ops_change_limits d d' : ops_change d d' -> within_limits d -> within_limits d'.
Proof.
  intros Hc [Hn Hl]. destruct Hc as [He|r He Hst Hid|r r' He Hr Hk Hnode Hst Hlim]; unfold within_limits, claimed_count; rewrite He.
  - done.
  - split.
    + unfold keys. rewrite map_app. apply NoDup_app. split_and!; [done| |apply NoDup_singleton].
      by intros x Hx ->%list_elem_of_singleton.
    + intros m. rewrite List.filter_app. unfold zlen. rewrite length_app. simpl. unfold claimed_on at 2.
      rewrite Hst, andb_false_r. simpl. specialize (Hl m). unfold claimed_count, zlen in Hl. lia.
  - split; [by rewrite keys_put|]. intros m.
    assert (find_row (key r') (hosting_project_operations d) = Some r) as Hf by (rewrite Hk; by apply find_row_nodup).
    rewrite (zlen_filter_put _ r' r) by done. specialize (Hl m) as Hlm. unfold claimed_count in *.
    unfold claimed_on at 2 3. rewrite Hnode.
    bdestruct (HostingProjectOperation.node_id r =? m); simpl; [subst m|lia].
    bdestruct (HostingProjectOperation.status r' ==? "claimed"); simpl.
    + specialize (Hlim E). destruct (bool_decide _); simpl; lia.
    + destruct (bool_decide _); simpl; lia.
Qed.

(** ** The theorems *)

(** C2.  However requests to queue, claim and report operations are
    interleaved, no hosting node ever has more than sixteen operations admitted
    at once. *)
Theorem admitted_operations_bounded hash_token d0 d :
  within_limits d0 -> rtc (operation_step hash_token) d0 d -> within_limits d.
Proof.
  intros Hw Hs. induction Hs as [|d0 d1 d2 Hstep _ IH]; [done|]. apply IH.
  eapply ops_change_limits; [|done]. by apply operation_step_change in Hstep; [|apply Hw].
Qed.

(**  One request moves an operation at most one step along
    queued, claimed, succeeded or failed; a finished operation never changes
    again, and no operation disappears. *)
Theorem operation_lifecycle hash_token d d' r :
  NoDup (keys (hosting_project_operations d)) -> operation_step hash_token d d' -> r ∈ hosting_project_operations d ->
  exists r', r' ∈ hosting_project_operations d' /\ HostingProjectOperation.id r' = HostingProjectOperation.id r /\
    (r' = r \/ status_step (HostingProjectOperation.status r) (HostingProjectOperation.status r')).
Proof.
  intros Hn Hs Hr. apply operation_step_change in Hs; [|done].
  destruct Hs as [He|q He _ _|q q' He Hq Hk _ Hst _]; rewrite He.
  - exists r. auto.
  - exists r. split; [apply elem_of_app; by left|auto].
  - destruct (decide (key r = key q)) as [Heq|Hne].
    + assert (r = q) as -> by by apply (key_inj _ _ _ Hn).
      exists q'. split; [|auto]. apply put_row_in. rewrite Hk. by apply list_elem_of_fmap_2.
    + exists r. split; [|auto]. unfold put_row. apply list_elem_of_fmap. exists r. split; [|done].
      rewrite (proj2 (Z.eqb_neq _ _)); [done|]. by rewrite Hk.
Qed.

(** C10.  An agent is only handed an operation it may run: a retirement never
    touches the node that serves the project, and any other operation is for a
    project placed on that very node. *)
Theorem claimed_operation_is_safe hash_token d now token raw row project s :
  NoDup (keys (hosting_project_operations d)) ->
  claim_project_operation hash_token (open_session d) now token raw = Ok (Some (row, project), s) ->
  HostingProjectOperation.status row = "claimed" /\
  HostingProject.id project = HostingProjectOperation.project_id row /\
  (HostingProjectOperation.operation row = "retire" ->
     HostingProject.node_id project <> Some (HostingProjectOperation.node_id row)) /\
  (HostingProjectOperation.operation row <> "retire" ->
     HostingProject.node_id project = Some (HostingProjectOperation.node_id row)).
Proof. intros Hn Hc. by apply claim_project_operation_cases in Hc as [_ Hc]; [apply Hc|]. Qed.

(**  The scheduler admits an operation only below the node's limit and it
    is the best of the node's queue: no waiting operation in the window of 128
    has a smaller aged priority, or the same and an earlier creation. *)
Theorem claim_next_is_best d node_id now climit raw row s :
  NoDup (keys (hosting_project_operations d)) ->
  claim_next_project_operation (open_session d) node_id now climit raw = (Some row, s) ->
  exists r, r ∈ hosting_project_operations d /\ queued_on node_id r = true /\ row = claim_row now r /\
    claimed_count d node_id < effective_limit climit raw <= MAX_NODE_OPERATION_CONCURRENCY /\
    claimed_count (mem s) node_id = claimed_count d node_id + 1 /\
    forall other, other ∈ queue_window d node_id ->
      operation_effective_priority (HostingProjectOperation.operation r) (HostingProjectOperation.created_at r) now
      <= operation_effective_priority (HostingProjectOperation.operation other) (HostingProjectOperation.created_at other) now.
Proof.
  intros Hn Hc. apply claim_next_cases in Hc as [[? _]|(r & Hrow & Hr & Hq & Hlim & Hmin & ->)]; [done| |done..].
  exists r. injection Hrow as ->. split_and!; try done.
  - apply effective_limit_max.
  - change (mem (flush _)) with (with_operations d (put_row (claim_row now r) (hosting_project_operations d))).
    rewrite (claimed_count_claim d node_id) by done. by rewrite Z.eqb_refl.
  - intros other Ho. specialize (Hmin other Ho). unfold claim_cmp, lex_cmp in Hmin.
    destruct (Z.compare_spec (operation_effective_priority (HostingProjectOperation.operation r) (HostingProjectOperation.created_at r) now)
      (operation_effective_priority (HostingProjectOperation.operation other) (HostingProjectOperation.created_at other) now)); [lia..|done].
Qed.

(**  The priority of an operation lies between 0 and 60 and never gets
    worse with waiting; waiting gains at most forty points. *)
Theorem effective_priority_ages operation created_at now now' :
  now <= now' ->
  let p := operation_effective_priority operation created_at in
  0 <= p now' <= p now /\ p now <= 60 /\ p now <= p now' + MAX_AGING_BONUS.
Proof.
  intros Hle. cbv zeta. unfold operation_effective_priority, MAX_AGING_BONUS, AGING_INTERVAL_SECONDS.
  assert (forall o, match dict_get (lower (strip o)) BASE_PRIORITY with Some b => b | None => 50 end <= 60) as Hb.
  { intros o. unfold BASE_PRIORITY, dict_get. repeat destruct (String.eqb _ _); lia. }
  specialize (Hb operation). set (base := match dict_get _ _ with Some b => b | None => 50 end) in *.
  assert (0 <= Z.max 0 (Z.quot (now - created_at) 1000000) / 300 <= Z.max 0 (Z.quot (now' - created_at) 1000000) / 300).
  { split; [apply Z.div_pos; lia|]. apply Z.div_le_mono; [lia|].
    pose proof (Z.quot_le_mono (now - created_at) (now' - created_at) 1000000). lia. }
  lia.
Qed.

(** ** A concrete node *)
Definition demo_operation (i : uuid) (op status : string) (created : time) : HostingProjectOperation :=
  HostingProjectOperation.new_HostingProjectOperation i created
    <| HostingProjectOperation.node_id := 1 |> <| HostingProjectOperation.project_id := 3 |>
    <| HostingProjectOperation.operation := op |> <| HostingProjectOperation.status := status |>.
Definition demo_operations_db : Db :=
  empty_Db <| hosting_nodes := [HostingNode.new_HostingNode 1 0] |>
    <| hosting_node_agents := [HostingNodeAgent.new_HostingNodeAgent 1 0 <| HostingNodeAgent.token_hash := "h" |>] |>
    <| hosting_projects := [HostingProject.new_HostingProject 3 0 <| HostingProject.node_id := Some 1 |>] |>
    <| hosting_project_operations := [demo_operation 20 "logs" "queued" 0; demo_operation 21 "restart" "queued" 5;
         demo_operation 22 "logs" "claimed" 0] |>.
Definition demo_hash (s : string) : string := "h".

Lemma demo_operations_nodup : NoDup (keys (hosting_project_operations demo_operations_db)).
Proof. apply (bool_decide_unpack _). vm_compute. exact I. Defined.
Lemma demo_operations_limits : within_limits demo_operations_db.
Proof.
  split; [exact demo_operations_nodup|]. intros m. unfold claimed_count, MAX_NODE_OPERATION_CONCURRENCY, zlen. simpl.
  unfold claimed_on. simpl. destruct m as [|[]|]; simpl; lia.
Defined.
Lemma demo_claim : exists row project s,
  claim_project_operation demo_hash (open_session demo_operations_db) 100 (Some "ith_host_x") None = Ok (Some (row, project), s).
Proof. vm_compute. repeat eexists. Defined.

Lemma admitted_operations_bounded_witness : exists d, claimed_count d 1 = 2 /\ within_limits d.
Proof.
  destruct demo_claim as (row & project & s & E). exists (mem s). split.
  - vm_compute in E. injection E as _ _ <-. reflexivity.
  - apply (admitted_operations_bounded demo_hash demo_operations_db); [exact demo_operations_limits|].
    eapply rtc_l; [eapply step_claim; exact E|apply rtc_refl].
Defined.
Lemma operation_lifecycle_witness :
  exists d r', operation_step demo_hash demo_operations_db d /\ r' ∈ hosting_project_operations d /\
    HostingProjectOperation.id r' = 21.
Proof.
  destruct demo_claim as (row & project & s & E).
  destruct (operation_lifecycle demo_hash demo_operations_db (mem s) (demo_operation 21 "restart" "queued" 5)
    demo_operations_nodup) as (r' & Hr & Hid & _).
  - eapply step_claim. exact E.
  - right. left.
  - exists (mem s), r'. split; [eapply step_claim; exact E|]. split; [exact Hr|exact Hid].
Defined.
Lemma claimed_operation_is_safe_witness :
  exists row project, HostingProjectOperation.operation row = "restart" /\ HostingProject.node_id project = Some 1 /\
    HostingProjectOperation.status row = "claimed".
Proof.
  destruct demo_claim as (row & project & s & E). exists row, project.
  pose proof (claimed_operation_is_safe _ _ _ _ _ _ _ _ demo_operations_nodup E) as (Hs & _).
  vm_compute in E. injection E as <- <- _. split; [reflexivity|]. split; [reflexivity|exact Hs].
Defined.
Lemma claim_next_is_best_witness :
  exists row s, claim_next_project_operation (open_session demo_operations_db) 1 100 None (Some "2") = (Some row, s) /\
    HostingProjectOperation.id row = 21 /\ claimed_count (mem s) 1 = 2.
Proof.
  destruct (claim_next_project_operation (open_session demo_operations_db) 1 100 None (Some "2")) as [[row|] s] eqn:E;
    [|exfalso; vm_compute in E; discriminate].
  exists row, s. split; [reflexivity|].
  destruct (claim_next_is_best demo_operations_db 1 100 None (Some "2") row s demo_operations_nodup E)
    as (r & _ & _ & _ & _ & Hc & _).
  split; [vm_compute in E; injection E as <- _; reflexivity|]. rewrite Hc. vm_compute. reflexivity.
Defined.
Lemma effective_priority_ages_witness :
  operation_effective_priority " Logs" 0 0 = 60 /\ operation_effective_priority " Logs" 0 (12000 * 1000000) = 20 /\
  operation_effective_priority " Logs" 0 (12000 * 1000000) <= operation_effective_priority " Logs" 0 0.
Proof.
  split; [vm_compute; reflexivity|]. split; [vm_compute; reflexivity|].
  apply (effective_priority_ages " Logs" 0 0 (12000 * 1000000)). lia.
Defined.
