(* ===== verification/NodeHealth.v ===== *)
(** [app/services/hosting_node_health.py]: evaluating the health of a hosting
    node and draining, activating or recovering it automatically.  The
    thresholds, read from the environment, are a record; one call has one [now]. *)
From S2P Require Import Prelude PyFloat Json Calendar Models Session Placement.
#[local] Open Scope string_scope.
#[local] Open Scope list_scope.
#[local] Open Scope Z_scope.

Module HealthThresholds.
Record HealthThresholds : Type := mk {
  HEARTBEAT_GRACE_SECONDS : Z;
  AUTO_ACTIVATE_SECONDS : Z;
  AUTO_DRAIN_SECONDS : Z;
  AUTO_RECOVER_SECONDS : Z
}.
Definition defaults : HealthThresholds := mk 180 120 60 180.
End HealthThresholds.
Notation HealthThresholds := HealthThresholds.HealthThresholds.

(** [int((b - a).total_seconds())] *)
Definition whole_seconds (a b : time) : Z := Z.quot (b - a) 1000000.

Definition heartbeat_fresh (th : HealthThresholds) (value : option time) (now : time) : bool :=
  match value with
  | Some v => now - seconds (HealthThresholds.HEARTBEAT_GRACE_SECONDS th) <=? v
  | None => false
  end.
Definition agent_telemetry (agent : option InfrastructureServerAgent) : list (string * Json) :=
  match agent with None => [] | Some a => json_dict (InfrastructureServerAgent.telemetry_json a) end.
Definition max_disk_percent (telemetry : list (string * Json)) : result (option float) :=
  let* values := disk_values (as_list (jget "disks" telemetry)) in Ok (fmax_list values).

(** ** [ensure_health_state] *)
Definition ensure_health_state (db : Session Db) (now : time) (node : HostingNode) (enable : option bool) (reset : bool)
    : HostingNodeHealthState * Session Db :=
  let '(state, db) :=
    match get hosting_node_health_states (HostingNode.id node) db with
    | None =>
        let state := HostingNodeHealthState.new_HostingNodeHealthState (HostingNode.id node) now
          <| HostingNodeHealthState.automation_enabled := match enable with None => true | Some e => e end |> in
        (state, flush (add hosting_node_health_states state db))
    | Some state =>
        match enable with
        | Some e =>
            let state := state <| HostingNodeHealthState.automation_enabled := e |> in
            (state, put hosting_node_health_states state db)
        | None => (state, db)
        end
    end in
  if reset then
    let state := state
      <| HostingNodeHealthState.health_status := "unknown" |>
      <| HostingNodeHealthState.healthy_since := None |>
      <| HostingNodeHealthState.unhealthy_since := None |>
      <| HostingNodeHealthState.last_evaluated_at := None |>
      <| HostingNodeHealthState.last_reason := None |> in
    (state, put hosting_node_health_states state db)
  else (state, db).

(** ** [evaluate_node_health] *)
Module NodeHealth.
Record NodeHealth : Type := mk {
  healthy : bool;
  checks : list (string * bool);
  reasons : list string;
  server_id : option string;
  managed_network_ip : option string;
  last_handshake_at : option time;
  disk_percent : option float;
  hardware : option HardwareTelemetrySnapshot;
  hardware_is_fresh : bool;
  hardware_reason : option string
}.
End NodeHealth.
Notation NodeHealth := NodeHealth.NodeHealth.


(** The managed network of the server: no registered peer counts as connected. *)
Definition network_connected (th : HealthThresholds) (now : time) (peer : option InfrastructureWireGuardPeer)
    (wireguard : list (string * Json)) : bool :=
  match peer with
  | None => true
  | Some p =>
      let address_matches := match jget "address" wireguard with
        | JStr a => a ==? InfrastructureWireGuardPeer.assigned_ipv4 p | _ => false end in
      let handshake_fresh := heartbeat_fresh th (InfrastructureWireGuardPeer.last_handshake_at p) now in
      truthy (jget "connected" wireguard) && address_matches && handshake_fresh
  end.

(** Hardware Intelligence: snapshot, freshness and the reason of a refusal. *)
Definition hardware_state (th : HealthThresholds) (db : Session Db) (now : time) (server : option InfrastructureServer)
    : option HardwareTelemetrySnapshot * bool * option string :=
  match latest_hardware db (option_map InfrastructureServer.id server) with
  | None => (None, false, None)
  | Some h =>
      let fresh := heartbeat_fresh th (Some (HardwareTelemetrySnapshot.issued_at h)) now in
      let predictive_state := lower (strip (str_or (opt_str (HardwareTelemetrySnapshot.predictive_state h)) "learning")) in
      let critical := HardwareTelemetrySnapshot.health_status h ==? "critical" in
      (Some h, fresh,
       if fresh && (critical || (predictive_state ==? "high"))
       then Some (if critical then "critical hardware health" else "high predictive hardware failure risk")
       else None)
  end.

Definition evaluate_node_health (th : HealthThresholds) (db : Session Db) (node : HostingNode) (now : time)
    : result NodeHealth :=
  let hosting_agent := get hosting_node_agents (HostingNode.id node) db in
  let '(server, server_agent) := infrastructure_for_hosting_node db (HostingNode.id node) in
  let peer := match server with
    | Some s => scalar infrastructure_wireguard_peers
                  (fun p => InfrastructureWireGuardPeer.server_id p =? InfrastructureServer.id s) db
    | None => None end in
  let telemetry := agent_telemetry server_agent in
  let wireguard := as_dict (jget "wireguard" telemetry) in
  let docker := as_dict (jget "docker" telemetry) in
  let* disk_percent := max_disk_percent telemetry in
  let stale_retirements := sql_count hosting_project_operations
    (fun o => (HostingProjectOperation.node_id o =? HostingNode.id node) &&
              (HostingProjectOperation.operation o ==? "retire") &&
              (HostingProjectOperation.status o in? ["queued"; "claimed"])) db in
  let '(hardware, hardware_fresh, hardware_reason) := hardware_state th db now server in
  let checks :=
    [("hosting_agent_online", match hosting_agent with
        | Some a => heartbeat_fresh th (HostingNodeAgent.last_seen_at a) now | None => false end);
     ("server_agent_online", match server_agent with
        | Some a => heartbeat_fresh th (InfrastructureServerAgent.last_seen_at a) now | None => false end);
     ("infrastructure_linked", is_some server);
     ("infrastructure_active", match server with
        | Some s => InfrastructureServer.status s ==? "active" | None => false end);
     ("private_origin_configured", match hosting_agent with
        | Some a => str_truthy (opt_str (HostingNodeAgent.origin_bind_ip a)) | None => false end);
     ("managed_network_connected", network_connected th now peer wireguard);
     ("docker_ready", truthy (jget "installed" docker) && truthy (jget "reachable" docker));
     ("disk_safe", match server with
        | Some s => match disk_percent with
                    | None => true
                    | Some f => flt f (of_Z (InfrastructureServer.disk_alert_percent s)) end
        | None => false end);
     ("stale_retirements_cleared", stale_retirements =? 0);
     ("hardware_intelligence_safe", negb (is_some hardware_reason))] in
  Ok {| NodeHealth.healthy := forallb snd checks;
        NodeHealth.checks := checks;
        NodeHealth.reasons := map fst (List.filter (fun c => negb (snd c)) checks);
        NodeHealth.server_id := option_map (fun s => str_of_uuid (InfrastructureServer.id s)) server;
        NodeHealth.managed_network_ip := option_map InfrastructureWireGuardPeer.assigned_ipv4 peer;
        NodeHealth.last_handshake_at := match peer with
          | Some p => InfrastructureWireGuardPeer.last_handshake_at p | None => None end;
        NodeHealth.disk_percent := disk_percent;
        NodeHealth.hardware := hardware;
        NodeHealth.hardware_is_fresh := hardware_fresh;
        NodeHealth.hardware_reason := hardware_reason |}.

(** ** [reconcile_node_health] *)

(** What a reconciliation decides for the node, besides the bookkeeping. *)
Inductive Transition : Type :=
| NoTransition
| Activate (name : string) (healthy_for : Z)
| Drain (unhealthy_for : Z).

Definition or_now (value : option time) (now : time) : time := match value with Some v => v | None => now end.

(** The state and the decision, from one evaluation. *)
Definition health_decision (th : HealthThresholds) (state : HostingNodeHealthState) (node : HostingNode)
    (healthy : bool) (reasons : list string) (now : time) : HostingNodeHealthState * Transition :=
  let state := state <| HostingNodeHealthState.last_evaluated_at := Some now |> in
  if healthy then
    let state := state
      <| HostingNodeHealthState.health_status := "healthy" |>
      <| HostingNodeHealthState.unhealthy_since := None |>
      <| HostingNodeHealthState.last_reason := None |>
      <| HostingNodeHealthState.healthy_since ::= fun s => Some (or_now s now) |> in
    if HostingNodeHealthState.automation_enabled state &&
       ((HostingNode.status node !=? "active") || negb (HostingNode.accepts_new_projects node)) then
      let drained := HostingNodeHealthState.last_transition state ==? Some "auto_drained" in
      let threshold := if drained then HealthThresholds.AUTO_RECOVER_SECONDS th
                       else HealthThresholds.AUTO_ACTIVATE_SECONDS th in
      let healthy_since := or_now (HostingNodeHealthState.healthy_since state) now in
      if seconds threshold <=? now - healthy_since then
        let transition := if drained then "auto_recovered" else "auto_activated" in
        (state <| HostingNodeHealthState.last_transition := Some transition |>
               <| HostingNodeHealthState.last_transition_at := Some now |>,
         Activate transition (whole_seconds healthy_since now))
      else (state, NoTransition)
    else (state, NoTransition)
  else
    let state := state
      <| HostingNodeHealthState.health_status := "unhealthy" |>
      <| HostingNodeHealthState.healthy_since := None |>
      <| HostingNodeHealthState.last_reason := Some (join ", " reasons) |>
      <| HostingNodeHealthState.unhealthy_since ::= fun s => Some (or_now s now) |> in
    if HostingNodeHealthState.automation_enabled state && (HostingNode.status node ==? "active") &&
       HostingNode.accepts_new_projects node then
      let unhealthy_since := or_now (HostingNodeHealthState.unhealthy_since state) now in
      if seconds (HealthThresholds.AUTO_DRAIN_SECONDS th) <=? now - unhealthy_since then
        (state <| HostingNodeHealthState.last_transition := Some "auto_drained" |>
               <| HostingNodeHealthState.last_transition_at := Some now |>,
         Drain (whole_seconds unhealthy_since now))
      else (state, NoTransition)
    else (state, NoTransition).

Definition apply_transition (t : Transition) (node : HostingNode) : HostingNode :=
  match t with
  | NoTransition => node
  | Activate _ _ => node <| HostingNode.status := "active" |> <| HostingNode.accepts_new_projects := true |>
  | Drain _ => node <| HostingNode.status := "draining" |> <| HostingNode.accepts_new_projects := false |>
  end.

Definition json_checks (checks : list (string * bool)) : Json := JObj (map (fun '(k, b) => (k, JBool b)) checks).
Definition health_audit (new_id : uuid) (now : time) (node : HostingNode) (action : string) (metadata : Json) : AuditLog :=
  AuditLog.new_AuditLog new_id now
    <| AuditLog.actor_user_id := None |>
    <| AuditLog.action := action |>
    <| AuditLog.resource_type := "hosting_node" |>
    <| AuditLog.resource_id := Some (str_of_uuid (HostingNode.id node)) |>
    <| AuditLog.metadata_json := Some (json_dumps_sorted metadata) |>.
Definition transition_audit (new_id : uuid) (now : time) (node : HostingNode) (health : NodeHealth) (t : Transition)
    : option AuditLog :=
  match t with
  | NoTransition => None
  | Activate transition healthy_for => Some (health_audit new_id now node ("hosting.node_health." ++ transition)%string
      (JObj [("healthy_for_seconds", JInt healthy_for); ("checks", json_checks (NodeHealth.checks health))]))
  | Drain unhealthy_for => Some (health_audit new_id now node "hosting.node_health.auto_drained"
      (JObj [("unhealthy_for_seconds", JInt unhealthy_for);
             ("reasons", JArr (map JStr (NodeHealth.reasons health)));
             ("checks", json_checks (NodeHealth.checks health))]))
  end.

(** The report of a node: evaluation, state row and node row. *)
Module HealthReport.
Record HealthReport : Type := mk {
  health : NodeHealth; state : HostingNodeHealthState; node : HostingNode
}.
End HealthReport.
Notation HealthReport := HealthReport.HealthReport.

Definition reconcile_node_health (th : HealthThresholds) (db : Session Db) (audit_id : uuid) (node : HostingNode)
    (now : time) : result (HealthReport * Session Db) :=
  let '(state, db) := ensure_health_state db now node None false in
  let* health := evaluate_node_health th db node now in
  let '(state, t) := health_decision th state node (NodeHealth.healthy health) (NodeHealth.reasons health) now in
  let node := apply_transition t node in
  let db := put hosting_node_health_states state db in
  let db := put hosting_nodes node db in
  let db := match transition_audit audit_id now node health t with
    | Some row => add audit_logs row db | None => db end in
  Ok (HealthReport.mk health state node, db).

(** ** [node_health_snapshot]: the read-only report. *)
Module HealthSnapshot.
Record HealthSnapshot : Type := mk {
  node_id : string;
  automation_enabled : bool;
  health_status : string;
  health : NodeHealth;
  node_status : string;
  accepts_new_projects : bool;
  state : option HostingNodeHealthState
}.
End HealthSnapshot.
Notation HealthSnapshot := HealthSnapshot.HealthSnapshot.
Definition node_health_snapshot (th : HealthThresholds) (db : Session Db) (node : HostingNode) (now : time)
    : result HealthSnapshot :=
  let state := get hosting_node_health_states (HostingNode.id node) db in
  let* health := evaluate_node_health th db node now in
  Ok {| HealthSnapshot.node_id := str_of_uuid (HostingNode.id node);
        HealthSnapshot.automation_enabled := match state with
          | Some s => HostingNodeHealthState.automation_enabled s | None => false end;
        HealthSnapshot.health_status := match state with
          | Some s => HostingNodeHealthState.health_status s
          | None => if NodeHealth.healthy health then "healthy" else "unhealthy" end;
        HealthSnapshot.health := health;
        HealthSnapshot.node_status := HostingNode.status node;
        HealthSnapshot.accepts_new_projects := HostingNode.accepts_new_projects node;
        HealthSnapshot.state := state |}.

(** ** [run_hosting_node_health_reconcile] *)
Module HealthCounts.
Record HealthCounts : Type := mk {
  checked : Z; healthy : Z; unhealthy : Z; activated : Z; drained : Z; recovered : Z
}.
End HealthCounts.
Notation HealthCounts := HealthCounts.HealthCounts.

Definition count_result (before : option string) (r : HealthReport) (c : HealthCounts) : HealthCounts :=
  let h := NodeHealth.healthy (HealthReport.health r) in
  let after := HostingNodeHealthState.last_transition (HealthReport.state r) in
  let moved := after !=? before in
  {| HealthCounts.checked := HealthCounts.checked c + 1;
     HealthCounts.healthy := HealthCounts.healthy c + Z.b2z h;
     HealthCounts.unhealthy := HealthCounts.unhealthy c + Z.b2z (negb h);
     HealthCounts.activated := HealthCounts.activated c + Z.b2z (moved && (after ==? Some "auto_activated"));
     HealthCounts.drained := HealthCounts.drained c + Z.b2z (moved && (after ==? Some "auto_drained"));
     HealthCounts.recovered := HealthCounts.recovered c + Z.b2z (moved && (after ==? Some "auto_recovered")) |}.

(** [audit_id i] is the id of the audit row the [i]-th node may write. *)
Fixpoint reconcile_states (th : HealthThresholds) (db : Session Db) (audit_id : nat -> uuid) (now : time)
    (states : list HostingNodeHealthState) (c : HealthCounts) : result (HealthCounts * Session Db) :=
  match states with
  | [] => Ok (c, db)
  | state :: states =>
      match get hosting_nodes (HostingNodeHealthState.node_id state) db with
      | None => reconcile_states th db (fun i => audit_id (S i)) now states c
      | Some node =>
          let before := HostingNodeHealthState.last_transition state in
          let* (r, db) := reconcile_node_health th db (audit_id 0%nat) node now in
          reconcile_states th db (fun i => audit_id (S i)) now states (count_result before r c)
      end
  end.
Definition run_hosting_node_health_reconcile (th : HealthThresholds) (db : Session Db) (audit_id : nat -> uuid)
    (now : time) (limit : Z) : result (HealthCounts * Session Db) :=
  let states := firstn (Z.to_nat (Z.max 1 (Z.min limit 2000)))
    (select hosting_node_health_states HostingNodeHealthState.automation_enabled db) in
  let* (c, db) := reconcile_states th db audit_id now states (HealthCounts.mk 0 0 0 0 0 0) in
  Ok (c, commit db).

(** * Properties *)

(** One evaluation of a node, and what a series of them does. *)
Record Observation : Type := observe { obs_time : time; obs_healthy : bool; obs_reasons : list string }.
Definition health_step (th : HealthThresholds) (s : HostingNodeHealthState * HostingNode) (o : Observation)
    : HostingNodeHealthState * HostingNode :=
  let '(state, node) := s in
  let '(state, t) := health_decision th state node (obs_healthy o) (obs_reasons o) (obs_time o) in
  (state, apply_transition t node).
Definition health_run (th : HealthThresholds) (s : HostingNodeHealthState * HostingNode) (l : list Observation)
    : HostingNodeHealthState * HostingNode := fold_left (health_step th) l s.

(** The node evaluated the same way at every observation since [since]. *)
Definition streak (h : bool) (since : option time) (l : list Observation) : Prop :=
  match since with
  | None => True
  | Some u => exists l1 o l2, l = l1 ++ o :: l2 /\ obs_time o = u /\ Forall (fun x => obs_healthy x = h) (o :: l2)
  end.

Lemma streak_snoc h since l o :
  streak h since l -> obs_healthy o = h -> streak h (Some (or_now since (obs_time o))) (l ++ [o]).
Proof.
  intros Hs Ho. destruct since as [u|]; simpl in *.
  - destruct Hs as (l1 & x & l2 & -> & Hx & Hall). exists l1, x, (l2 ++ [o]).
    rewrite <- app_assoc. split_and!; [done..|]. rewrite app_comm_cons. apply Forall_app. split; [done|by repeat constructor].
  - exists l, o, []. split_and!; [done..|by repeat constructor].
Qed.

(** What a decision can be, and the bookkeeping that goes with it. *)
Lemma health_decision_cases th state node h reasons now state' t :
  health_decision th state node h reasons now = (state', t) ->
  HostingNodeHealthState.automation_enabled state' = HostingNodeHealthState.automation_enabled state /\
  HostingNodeHealthState.healthy_since state' =
    (if h then Some (or_now (HostingNodeHealthState.healthy_since state) now) else None) /\
  HostingNodeHealthState.unhealthy_since state' =
    (if h then None else Some (or_now (HostingNodeHealthState.unhealthy_since state) now)) /\
  match t with
  | NoTransition => True
  | Activate name _ => h = true /\ HostingNodeHealthState.automation_enabled state = true /\
      (HostingNode.status node <> "active" \/ HostingNode.accepts_new_projects node = false) /\
      (name, true) = (if HostingNodeHealthState.last_transition state ==? Some "auto_drained"
        then ("auto_recovered", seconds (HealthThresholds.AUTO_RECOVER_SECONDS th)
               <=? now - or_now (HostingNodeHealthState.healthy_since state) now)
        else ("auto_activated", seconds (HealthThresholds.AUTO_ACTIVATE_SECONDS th)
               <=? now - or_now (HostingNodeHealthState.healthy_since state) now))
  | Drain _ => h = false /\ HostingNodeHealthState.automation_enabled state = true /\
      HostingNode.status node = "active" /\ HostingNode.accepts_new_projects node = true /\
      seconds (HealthThresholds.AUTO_DRAIN_SECONDS th)
        <= now - or_now (HostingNodeHealthState.unhealthy_since state) now
  end.
Proof.
  unfold health_decision, seconds. destruct h; cbn [HostingNodeHealthState.automation_enabled set].
  - match goal with |- (if ?c then _ else _) = _ -> _ => destruct c eqn:Ec end; [|intros; by simplify_eq/=].
    apply andb_true_iff in Ec as [Ea Es]. rewrite orb_true_iff, !negb_true_iff, bool_decide_eq_false in Es.
    change (HostingNodeHealthState.last_transition (_ <| HostingNodeHealthState.healthy_since ::= _ |>))
      with (HostingNodeHealthState.last_transition state).
    destruct (HostingNodeHealthState.last_transition state ==? Some "auto_drained").
    all: match goal with |- (if ?c then _ else _) = _ -> _ => destruct c eqn:El end; [|intros; by simplify_eq/=].
    all: intros; simplify_eq/=; split_and!; try done; by rewrite <- El.
  - match goal with |- (if ?c then _ else _) = _ -> _ => destruct c eqn:Ec end; [|intros; by simplify_eq/=].
    apply andb_true_iff in Ec as [Ea Eacc]. apply andb_true_iff in Ea as [Ea Est%bool_decide_eq_true].
    match goal with |- (if ?c then _ else _) = _ -> _ => destruct c eqn:El end; [|intros; by simplify_eq/=].
    apply Z.leb_le in El. intros; simplify_eq/=; split_and!; done.
Qed.

Lemma health_run_streaks th state node l state' node' :
  HostingNodeHealthState.healthy_since state = None -> HostingNodeHealthState.unhealthy_since state = None ->
  health_run th (state, node) l = (state', node') ->
  streak true (HostingNodeHealthState.healthy_since state') l /\
  streak false (HostingNodeHealthState.unhealthy_since state') l.
Proof.
  intros Hh Hu. revert state' node'. induction l as [|o l IH] using rev_ind; intros state' node'.
  - simpl. intros. simplify_eq. by rewrite Hh, Hu.
  - unfold health_run. rewrite fold_left_app. simpl.
    destruct (fold_left (health_step th) l (state, node)) as [s1 n1] eqn:E1. destruct (IH _ _ E1) as [I1 I2].
    unfold health_step. destruct (health_decision _ _ _ _ _ _) as [s2 t] eqn:Ed. intros [= <- _].
    apply health_decision_cases in Ed as (_ & -> & -> & _).
    destruct (obs_healthy o) eqn:Eo; split; try done; by apply streak_snoc.
Qed.

Lemma evaluate_healthy th db node now h :
  evaluate_node_health th db node now = Ok h -> NodeHealth.healthy h = forallb snd (NodeHealth.checks h).
Proof.
  unfold evaluate_node_health. destruct (infrastructure_for_hosting_node _ _) as [server sagent].
  intros Hh. apply rbind_ok in Hh as (disk & _ & Hh). destruct (hardware_state _ _ _ _) as [[hw fr] re].
  apply (f_equal (fun r => match r with Ok x => Some x | Err _ => None end)) in Hh. cbv beta iota in Hh.
  assert (forall x y : NodeHealth, Some x = Some y -> NodeHealth.healthy x = forallb snd (NodeHealth.checks x) ->
    NodeHealth.healthy y = forallb snd (NodeHealth.checks y)) as Hxy by (by intros x y [= ->]).
  by apply (Hxy _ _ Hh).
Qed.

(** ** The theorems *)

(** C8.  A node is drained only after it has been found unhealthy at every
    evaluation for at least the drain threshold, recovered (if its last automatic
    transition drained it) only after a healthy streak of the recovery threshold,
    and otherwise activated only after one of the activation threshold; only with
    the automation on, and from the state the transition is for: one contrary
    evaluation restarts the clock.  The streak is a suffix of the evaluations since
    the last reset. *)
Theorem transitions_need_streak th state node l o state1 node1 state2 t :
  HostingNodeHealthState.healthy_since state = None -> HostingNodeHealthState.unhealthy_since state = None ->
  health_run th (state, node) l = (state1, node1) ->
  health_decision th state1 node1 (obs_healthy o) (obs_reasons o) (obs_time o) = (state2, t) ->
  t <> NoTransition ->
  exists l1 first l2, l ++ [o] = l1 ++ first :: l2 /\
    Forall (fun x => obs_healthy x = obs_healthy o) (first :: l2) /\
    HostingNodeHealthState.automation_enabled state1 = true /\
    match t with
    | NoTransition => False
    | Drain _ => obs_healthy o = false /\ HostingNode.status node1 = "active" /\ HostingNode.accepts_new_projects node1 = true /\
        seconds (HealthThresholds.AUTO_DRAIN_SECONDS th) <= obs_time o - obs_time first
    | Activate name _ => obs_healthy o = true /\
        (HostingNode.status node1 <> "active" \/ HostingNode.accepts_new_projects node1 = false) /\
        if HostingNodeHealthState.last_transition state1 ==? Some "auto_drained"
        then name = "auto_recovered" /\ seconds (HealthThresholds.AUTO_RECOVER_SECONDS th) <= obs_time o - obs_time first
        else name = "auto_activated" /\ seconds (HealthThresholds.AUTO_ACTIVATE_SECONDS th) <= obs_time o - obs_time first
    end.
Proof.
  intros Hh Hu Hrun Hd Ht. apply health_run_streaks in Hrun as [I1 I2]; [|done..].
  apply health_decision_cases in Hd as (_ & _ & _ & Hc). destruct t as [|name k|k]; [done|..].
  - destruct Hc as (Ho & Ha & Hn & Hle). apply (streak_snoc _ _ _ o) in I1; [|done].
    destruct I1 as (l1 & x & l2 & Heq & Hx & Hall). exists l1, x, l2. rewrite Ho, Hx. split_and!; try done.
    destruct (_ ==? Some "auto_drained"); injection Hle as -> Hle%eq_sym%Z.leb_le; done.
  - destruct Hc as (Ho & Ha & Hn1 & Hn2 & Hle). apply (streak_snoc _ _ _ o) in I2; [|done].
    destruct I2 as (l1 & x & l2 & Heq & Hx & Hall). exists l1, x, l2. rewrite Ho, Hx. by split_and!.
Qed.

(**  A reconciliation changes nothing of a node but its status and whether
    it accepts projects, changes neither when automation is off, never drains
    a node it finds healthy nor activates one it finds unhealthy, and leaves
    the node and state rows of its report in the session. *)
Theorem reconcile_node_health_safe th db audit_id node now r db' :
  reconcile_node_health th db audit_id node now = Ok (r, db') ->
  let node' := HealthReport.node r in
  let healthy := NodeHealth.healthy (HealthReport.health r) in
  node' = node <| HostingNode.status := HostingNode.status node' |>
               <| HostingNode.accepts_new_projects := HostingNode.accepts_new_projects node' |> /\
  (HostingNodeHealthState.automation_enabled (HealthReport.state r) = false -> node' = node) /\
  (healthy = true -> node' = node \/
     HostingNode.status node' = "active" /\ HostingNode.accepts_new_projects node' = true) /\
  (healthy = false -> node' = node \/
     HostingNode.status node' = "draining" /\ HostingNode.accepts_new_projects node' = false) /\
  (healthy = true <-> Forall (fun c => snd c = true) (NodeHealth.checks (HealthReport.health r))) /\
  (key node' ∈ keys (hosting_nodes (mem db)) -> find_row (key node') (hosting_nodes (mem db')) = Some node').
Proof.
  unfold reconcile_node_health. destruct (ensure_health_state _ _ _ _ _) as [state db1] eqn:Ee. intros Hr.
  apply rbind_ok in Hr as (health & Hh & Hr).
  destruct (health_decision _ _ _ _ _ _) as [state2 t] eqn:Ed.
  apply health_decision_cases in Ed as (Ha & _ & _ & Hc). injection Hr as <- <-.
  cbn [HealthReport.node HealthReport.health HealthReport.state]. cbv zeta.
  assert (hosting_nodes (mem db1) = hosting_nodes (mem db)) as Hnodes.
  { unfold ensure_health_state in Ee. destruct (get _ _ _); by injection Ee as <- <-. }
  split_and!.
  - destruct t; by destruct node.
  - intros Hoff. rewrite Ha in Hoff. destruct t; [done|..]; destruct Hc as (_ & Hon & _); congruence.
  - intros Hhl. destruct t; [by left|right; by split|]. destruct Hc as (Hc & _). congruence.
  - intros Hhl. destruct t; [by left| |right; by split]. destruct Hc as (Hc & _). congruence.
  - apply evaluate_healthy in Hh as ->. rewrite forallb_forall, Forall_forall. by setoid_rewrite list_elem_of_In.
  - intros Hk. rewrite <- Hnodes in Hk.
    destruct (transition_audit _ _ _ _ _); by apply (find_put_same (apply_transition t node)).
Qed.

(** ** A node that fails, is drained and recovers *)
Definition demo_health_state : HostingNodeHealthState := HostingNodeHealthState.new_HostingNodeHealthState 1 0.
Definition demo_health_node : HostingNode := HostingNode.new_HostingNode 1 0.
Definition demo_health_db : Db :=
  empty_Db <| hosting_nodes := [demo_health_node] |>
    <| hosting_node_health_states :=
         [demo_health_state <| HostingNodeHealthState.unhealthy_since := Some (seconds 10) |>] |>.

Lemma transitions_need_streak_witness :
  let run := health_run HealthThresholds.defaults (demo_health_state, demo_health_node) in
  let bad t := observe (seconds t) false ["docker_ready"] in
  let good t := observe (seconds t) true [] in
  HostingNode.status (snd (run [bad 0; good 30; bad 40; bad 80])) = "active" /\
  exists l1 first l2, [bad 0; good 30; bad 40; bad 80] ++ [bad 100] = l1 ++ first :: l2 /\
    seconds 60 <= seconds 100 - obs_time first.
Proof.
  intros run bad good. split; [vm_compute; reflexivity|].
  set (l := [bad 0; good 30; bad 40; bad 80]).
  destruct (run l) as [s n] eqn:Er.
  destruct (health_decision HealthThresholds.defaults s n false ["docker_ready"] (seconds 100)) as [s2 t] eqn:Ed.
  assert (t = Drain 60) as -> by (vm_compute in Er; injection Er as <- <-; vm_compute in Ed; injection Ed as _ <-; reflexivity).
  destruct (transitions_need_streak HealthThresholds.defaults demo_health_state demo_health_node l (bad 100) s n s2 (Drain 60)
    eq_refl eq_refl Er Ed ltac:(discriminate)) as (l1 & first & l2 & Heq & _ & _ & _ & _ & _ & Hle).
  exists l1, first, l2. split; [exact Heq|exact Hle].
Defined.

Lemma reconcile_node_health_safe_witness :
  exists r db, reconcile_node_health HealthThresholds.defaults (open_session demo_health_db) 50 demo_health_node (seconds 70)
    = Ok (r, db) /\ HostingNode.status (HealthReport.node r) = "draining" /\
    find_row 1 (hosting_nodes (mem db)) = Some (HealthReport.node r).
Proof.
  destruct (reconcile_node_health HealthThresholds.defaults (open_session demo_health_db) 50 demo_health_node (seconds 70))
    as [[r db]|e] eqn:E; [|exfalso; vm_compute in E; discriminate].
  exists r, db. split; [reflexivity|].
  pose proof (reconcile_node_health_safe _ _ _ _ _ _ _ E) as (_ & _ & _ & _ & _ & Hf).
  assert (HostingNode.id (HealthReport.node r) = 1 /\ HostingNode.status (HealthReport.node r) = "draining") as [Hid Hst]
    by (vm_compute in E; injection E as <- _; split; reflexivity).
  split; [exact Hst|]. unfold key, keyed_HostingNode in Hf. rewrite Hid in Hf. apply Hf.
  apply list_elem_of_In. left. reflexivity.
Defined.
