(* ===== verification/Failover.v ===== *)
(** [app/services/hosting_failover.py]: relocating the projects of a node that
    health automation has drained.  The edge handoff is an interface
    ([EdgeService]); identifiers of new rows and [now] are arguments. *)
From S2P Require Import Prelude PyFloat Json Models Session Resources Cluster Placement.
#[local] Open Scope string_scope.
#[local] Open Scope list_scope.
#[local] Open Scope Z_scope.

Definition ACTIVE_ATTEMPT_STATUSES : list string := ["pending"; "deploying"; "edge_pending"].
Definition ACTIVE_DEPLOYMENT_STATUSES : list string := ["queued"; "claimed"; "running"].

(** ** The edge handoff, as the failover uses it *)

(** The dict returned by [reconcile_project_edge], or its [HostingOriginError]. *)
Inductive EdgeOutcome : Type :=
| EdgeStatus (status : string) (error : option string)
| HostingOriginError (message : string).

(** The tables the failover itself owns. *)
Definition hosting_tables (d : Db) :=
  (hosting_projects d, hosting_failover_attempts d, hosting_deployments d, hosting_project_operations d, hosting_nodes d).

(** Reconciling the route of a project changes none of the hosting tables; it
    may flush them. *)
Class EdgeService := {
  reconcile_project_edge : Session Db -> time -> HostingProject -> string -> result (EdgeOutcome * Session Db);
  edge_keeps_hosting db now p url o db' :
    reconcile_project_edge db now p url = Ok (o, db') ->
    hosting_tables (mem db') = hosting_tables (mem db) /\
    (hosting_tables (sql db') = hosting_tables (sql db) \/ hosting_tables (sql db') = hosting_tables (mem db))
}.

(** The identifiers one project may use up in a reconciliation. *)
Record Ids : Type := mk_Ids {
  id_attempt : uuid; id_deployment : uuid; id_operation : uuid; id_audit1 : uuid; id_audit2 : uuid
}.

Definition failover_audit (new_id : uuid) (now : time) (project : HostingProject) (action : string) (metadata : Json)
    : AuditLog :=
  AuditLog.new_AuditLog new_id now
    <| AuditLog.tenant_id := Some (HostingProject.tenant_id project) |>
    <| AuditLog.actor_user_id := None |>
    <| AuditLog.action := action |>
    <| AuditLog.resource_type := "hosting_project" |>
    <| AuditLog.resource_id := Some (str_of_uuid (HostingProject.id project)) |>
    <| AuditLog.metadata_json := Some (json_dumps_sorted metadata) |>.
Definition json_uuid (u : uuid) : Json := JStr (str_of_uuid u).
Definition json_opt_uuid (u : option uuid) : Json := match u with Some u => json_uuid u | None => JNull end.

(** ** Lookups *)
Definition last_healthy (db : Session Db) (project_id : uuid) : option HostingDeployment :=
  scalar_ordered hosting_deployments (desc HostingDeployment.release_number)
    (fun d => (HostingDeployment.project_id d =? project_id) && (HostingDeployment.status d ==? "healthy")) db.
Definition active_deployment (db : Session Db) (project_id : uuid) : option HostingDeployment :=
  scalar_ordered hosting_deployments (desc HostingDeployment.created_at)
    (fun d => (HostingDeployment.project_id d =? project_id) &&
              (HostingDeployment.status d in? ACTIVE_DEPLOYMENT_STATUSES)) db.
Definition failover_attempt (db : Session Db) (project_id source_node_id : uuid) : option HostingFailoverAttempt :=
  scalar_ordered hosting_failover_attempts (desc HostingFailoverAttempt.created_at)
    (fun a => (HostingFailoverAttempt.project_id a =? project_id) &&
              (HostingFailoverAttempt.source_node_id a =? source_node_id) &&
              (HostingFailoverAttempt.status a in? (ACTIVE_ATTEMPT_STATUSES ++ ["recovery_required"; "failed"]))) db.
Definition managed_database_dependency (db : Session Db) (project : HostingProject) : option HostingDatabase :=
  scalar_ordered hosting_databases (asc HostingDatabase.created_at)
    (fun d => (HostingDatabase.project_id d ==? Some (HostingProject.id project)) &&
              (HostingDatabase.status d notin? ["deleting"; "deleted"; "failed"])) db.
Definition next_release_number (db : Session Db) (project_id : uuid) : Z :=
  fold_left Z.max (map HostingDeployment.release_number
    (List.filter (fun d => HostingDeployment.project_id d =? project_id) (hosting_deployments (sql db)))) 0 + 1.

(** ** [_eligible_target]: a node, or the reason why there is none *)
Definition relocation_workload (project : HostingProject) : Workload :=
  Workload.mk "application" (HostingProject.storage_mb project) (HostingProject.memory_mb project)
    (HostingProject.cpu_millicores project) None None None.
Definition eligible_target (library : option NativeLibrary) (db : Session Db) (now : time) (project : HostingProject)
    (source_node_id : uuid) (preferred_target_node_id : option uuid)
    : result ((HostingNode + string) * Session Db) :=
  let* (ranked, db) := rank_nodes library db now (relocation_workload project) in
  let row_id row := HostingNode.id (ScoreRow.node row) in
  match preferred_target_node_id with
  | Some p =>
      match List.find (fun row => row_id row =? p) ranked with
      | None => Ok (inr "Requested replacement node does not exist.", db)
      | Some row =>
          if row_id row =? source_node_id then Ok (inr "Replacement node must be different from the current node.", db)
          else if negb (ScoreRow.eligible row) then
            Ok (inr ("Requested replacement node is not eligible: " ++ join "; " (ScoreRow.reasons row))%string, db)
          else Ok (inl (ScoreRow.node row), db)
      end
  | None =>
      let others := List.filter (fun row => negb (row_id row =? source_node_id)) ranked in
      match List.find ScoreRow.eligible others with
      | Some row => Ok (inl (ScoreRow.node row), db)
      | None =>
          let details := firstn 5 (map node_explanation others) in
          let checked := match details with [] => EmptyString | _ => (" Checked: " ++ join " | " details)%string end in
          Ok (inr ("No healthy replacement node has enough safe capacity." ++ checked)%string, db)
      end
  end.

(** ** Attempts *)
Definition new_attempt (new_id : uuid) (now : time) (project : HostingProject) (source_node_id : uuid)
    (status : string) (reason : option string) : HostingFailoverAttempt :=
  HostingFailoverAttempt.new_HostingFailoverAttempt new_id now
    <| HostingFailoverAttempt.project_id := HostingProject.id project |>
    <| HostingFailoverAttempt.source_node_id := source_node_id |>
    <| HostingFailoverAttempt.status := status |>
    <| HostingFailoverAttempt.reason := reason |>.
Definition create_attempt (db : Session Db) (new_id : uuid) (now : time) (project : HostingProject)
    (source_node_id : uuid) (status : string) (reason : option string) : HostingFailoverAttempt * Session Db :=
  let row := new_attempt new_id now project source_node_id status reason in
  (row, flush (add hosting_failover_attempts row db)).

Definition NO_HEALTHY_DEPLOYMENT : string :=
  "No previously healthy immutable deployment is available for relocation.".

Definition prepare_attempt (db : Session Db) (new_id : uuid) (project : HostingProject) (source_node_id : uuid) (now : time)
    : HostingFailoverAttempt * Session Db :=
  match failover_attempt db (HostingProject.id project) source_node_id with
  | Some existing => (existing, db)
  | None =>
    let required reason := create_attempt db new_id now project source_node_id "recovery_required" (Some reason) in
    if HostingProject.failover_policy project !=? "stateless_auto" then
      required "Automatic relocation is disabled. Project local /data may contain state."
    else match managed_database_dependency db project with
    | Some local_database =>
        required ("Managed " ++ HostingDatabase.engine local_database ++ " database is attached to this project. Database replication/failover must be resolved before application relocation.")%string
    | None =>
      match last_healthy db (HostingProject.id project) with
      | None => required NO_HEALTHY_DEPLOYMENT
      | Some _ =>
          let '(row, db) := create_attempt db new_id now project source_node_id "pending" None in
          let row := row <| HostingFailoverAttempt.started_at := Some now |> in
          (row, put hosting_failover_attempts row db)
      end
    end
  end.

(** ** [_queue_replacement] *)
Definition replacement_deployment (new_id : uuid) (now : time) (project : HostingProject) (target : HostingNode)
    (previous : HostingDeployment) (release_number : Z) : HostingDeployment :=
  HostingDeployment.new_HostingDeployment new_id now
    <| HostingDeployment.tenant_id := HostingProject.tenant_id project |>
    <| HostingDeployment.project_id := HostingProject.id project |>
    <| HostingDeployment.node_id := Some (HostingNode.id target) |>
    <| HostingDeployment.previous_deployment_id := Some (HostingDeployment.id previous) |>
    <| HostingDeployment.release_number := release_number |>
    <| HostingDeployment.image_ref := HostingDeployment.image_ref previous |>
    <| HostingDeployment.image_digest := HostingDeployment.image_digest previous |>
    <| HostingDeployment.source_commit := HostingDeployment.source_commit previous |>
    <| HostingDeployment.reset_data_volume := true |>
    <| HostingDeployment.status := "queued" |>
    <| HostingDeployment.requested_by_user_id := HostingProject.created_by_user_id project |>.

Definition queue_replacement (library : option NativeLibrary) (db : Session Db) (ids : Ids)
    (attempt : HostingFailoverAttempt) (project : HostingProject) (now : time) (preferred : option uuid)
    : result (HostingFailoverAttempt * HostingProject * Session Db) :=
  let keep (attempt : HostingFailoverAttempt) db := Ok (attempt, project, put hosting_failover_attempts attempt db) in
  let because reason := attempt <| HostingFailoverAttempt.reason := Some reason |> in
  match active_deployment db (HostingProject.id project) with
  | Some _ => keep (because "Waiting for the project's current deployment operation to finish.") db
  | None =>
    match last_healthy db (HostingProject.id project) with
    | None => keep (because NO_HEALTHY_DEPLOYMENT <| HostingFailoverAttempt.status := "recovery_required" |>) db
    | Some previous =>
      let* (choice, db) := eligible_target library db now project
        (HostingFailoverAttempt.source_node_id attempt) preferred in
      match choice with
      | inr error => keep (because error) db
      | inl target =>
        match get hosting_node_agents (HostingNode.id target) db with
        | None => keep (because "Selected replacement node has no hosting agent credential.") db
        | Some _ =>
          let deployment := replacement_deployment (id_deployment ids) now project target previous
            (next_release_number db (HostingProject.id project)) in
          let db := flush (add hosting_deployments deployment db) in
          let attempt := attempt
            <| HostingFailoverAttempt.target_node_id := Some (HostingNode.id target) |>
            <| HostingFailoverAttempt.deployment_id := Some (HostingDeployment.id deployment) |>
            <| HostingFailoverAttempt.status := "deploying" |>
            <| HostingFailoverAttempt.reason := None |> in
          let project := project <| HostingProject.status := "deploying" |> in
          let db := put hosting_failover_attempts attempt db in
          let db := put hosting_projects project db in
          let metadata := JObj
            [("attempt_id", json_uuid (HostingFailoverAttempt.id attempt));
             ("source_node_id", json_uuid (HostingFailoverAttempt.source_node_id attempt));
             ("target_node_id", json_uuid (HostingNode.id target));
             ("deployment_id", json_uuid (HostingDeployment.id deployment));
             ("release_number", JInt (HostingDeployment.release_number deployment))] in
          Ok (attempt, project,
              add audit_logs (failover_audit (id_audit1 ids) now project "hosting.failover.replacement_queued" metadata) db)
        end
      end
    end
  end.

(** ** [_queue_source_retirement] *)
Definition queue_source_retirement (db : Session Db) (new_id : uuid) (now : time) (project : HostingProject)
    (source_node_id : uuid) : HostingProjectOperation * Session Db :=
  match scalar_ordered hosting_project_operations (desc HostingProjectOperation.created_at)
    (fun o => (HostingProjectOperation.project_id o =? HostingProject.id project) &&
              (HostingProjectOperation.node_id o =? source_node_id) &&
              (HostingProjectOperation.operation o ==? "retire") &&
              (HostingProjectOperation.status o in? ["queued"; "claimed"])) db with
  | Some existing => (existing, db)
  | None =>
      let row := HostingProjectOperation.new_HostingProjectOperation new_id now
        <| HostingProjectOperation.tenant_id := HostingProject.tenant_id project |>
        <| HostingProjectOperation.project_id := HostingProject.id project |>
        <| HostingProjectOperation.node_id := source_node_id |>
        <| HostingProjectOperation.operation := "retire" |>
        <| HostingProjectOperation.status := "queued" |>
        <| HostingProjectOperation.requested_by_user_id := HostingProject.created_by_user_id project |> in
      (row, flush (add hosting_project_operations row db))
  end.

(** ** [_finalize_attempt] *)
Definition fail_attempt (now : time) (reason : string) (attempt : HostingFailoverAttempt) : HostingFailoverAttempt :=
  attempt <| HostingFailoverAttempt.status := "failed" |>
          <| HostingFailoverAttempt.reason := Some reason |>
          <| HostingFailoverAttempt.completed_at := Some now |>.

Section Failover.
Context `{EdgeService}.

Definition finalize_attempt (db : Session Db) (ids : Ids) (attempt : HostingFailoverAttempt) (project : HostingProject)
    (now : time) : result (HostingFailoverAttempt * HostingProject * Session Db) :=
  let keep (attempt : HostingFailoverAttempt) db := Ok (attempt, project, put hosting_failover_attempts attempt db) in
  let deployment := match HostingFailoverAttempt.deployment_id attempt with
    | Some d => get hosting_deployments d db | None => None end in
  match deployment with
  | None => keep (fail_attempt now "Replacement deployment record is missing." attempt) db
  | Some deployment =>
    if HostingDeployment.status deployment ==? "failed" then
      let attempt := fail_attempt now
        (str_or (opt_str (HostingDeployment.failure_message deployment)) "Replacement deployment failed.") attempt in
      let source := get hosting_nodes (HostingFailoverAttempt.source_node_id attempt) db in
      let project := project <| HostingProject.status :=
        match source with
        | Some s => if HostingNode.status s ==? "active" then "running" else "failed"
        | None => "failed" end |> in
      let db := put hosting_projects project (put hosting_failover_attempts attempt db) in
      let metadata := JObj
        [("attempt_id", json_uuid (HostingFailoverAttempt.id attempt));
         ("target_node_id", json_opt_uuid (HostingFailoverAttempt.target_node_id attempt));
         ("reason", JStr (opt_str (HostingFailoverAttempt.reason attempt)))] in
      Ok (attempt, project, add audit_logs (failover_audit (id_audit2 ids) now project "hosting.failover.failed" metadata) db)
    else
      let origin_url := opt_str (HostingDeployment.origin_url deployment) in
      if (HostingDeployment.status deployment !=? "healthy") || negb (str_truthy origin_url)
      then Ok (attempt, project, db)
      else
        let* (outcome, db) := reconcile_project_edge db now project origin_url in
        match outcome with
        | HostingOriginError message =>
            keep (attempt <| HostingFailoverAttempt.status := "edge_pending" |>
                          <| HostingFailoverAttempt.edge_status := Some "pending_origin" |>
                          <| HostingFailoverAttempt.reason := Some message |>) db
        | EdgeStatus status error =>
            let edge_status := str_or status "unknown" in
            let attempt := attempt <| HostingFailoverAttempt.edge_status := Some edge_status |> in
            if edge_status notin? ["active"; "not_requested"] then
              keep (attempt <| HostingFailoverAttempt.status := "edge_pending" |>
                            <| HostingFailoverAttempt.reason :=
                                 Some (str_or (opt_str error) ("Waiting for edge state: " ++ edge_status)%string) |>) db
            else
              let old_node_id := HostingProject.node_id project in
              let project := project
                <| HostingProject.node_id := HostingFailoverAttempt.target_node_id attempt |>
                <| HostingProject.image_ref := Some (HostingDeployment.image_ref deployment) |>
                <| HostingProject.status := "running" |> in
              let attempt := attempt
                <| HostingFailoverAttempt.status := "completed" |>
                <| HostingFailoverAttempt.reason := None |>
                <| HostingFailoverAttempt.completed_at := Some now |> in
              let db := put hosting_projects project (put hosting_failover_attempts attempt db) in
              let '(retirement, db) := queue_source_retirement db (id_operation ids) now project
                (HostingFailoverAttempt.source_node_id attempt) in
              let metadata := JObj
                [("attempt_id", json_uuid (HostingFailoverAttempt.id attempt));
                 ("source_node_id", json_uuid (HostingFailoverAttempt.source_node_id attempt));
                 ("target_node_id", match HostingFailoverAttempt.target_node_id attempt with
                    | Some t => json_uuid t | None => JStr "None" end);
                 ("previous_project_node_id", json_opt_uuid old_node_id);
                 ("deployment_id", json_uuid (HostingDeployment.id deployment));
                 ("edge_status", JStr edge_status);
                 ("source_retirement_operation_id", json_uuid (HostingProjectOperation.id retirement))] in
              Ok (attempt, project,
                  add audit_logs (failover_audit (id_audit2 ids) now project "hosting.failover.completed" metadata) db)
        end
  end.

(** ** [run_application_failover_reconcile] *)
Record FailoverCounts : Type := mk_FailoverCounts {
  sources : Z; attempts_created : Z; replacements_queued : Z; completed : Z; failed : Z; recovery_required : Z; pending : Z
}.

(** One project of a drained source. *)
Definition relocate_project (library : option NativeLibrary) (db : Session Db) (ids : Ids) (source_id : uuid)
    (project : HostingProject) (now : time) (c : Z * Z * Z * Z * Z * Z)
    : result ((Z * Z * Z * Z * Z * Z) * Session Db) :=
  let '(created, queued, completed, failed, required, pending) := c in
  let '(existing, created, db) :=
    match failover_attempt db (HostingProject.id project) source_id with
    | Some a => (a, created, db)
    | None => let '(a, db) := prepare_attempt db (id_attempt ids) project source_id now in (a, created + 1, db)
    end in
  let* (existing, project, queued, db) :=
    if HostingFailoverAttempt.status existing ==? "pending" then
      let before := HostingFailoverAttempt.deployment_id existing in
      let* (a, project, db) := queue_replacement library db ids existing project now None in
      let moved := match HostingFailoverAttempt.deployment_id a with
        | Some _ => HostingFailoverAttempt.deployment_id a !=? before | None => false end in
      Ok (a, project, queued + Z.b2z moved, db)
    else Ok (existing, project, queued, db) in
  let* (existing, completed, failed, db) :=
    if HostingFailoverAttempt.status existing in? ["deploying"; "edge_pending"] then
      let* (a, _, db) := finalize_attempt db ids existing project now in
      let s := HostingFailoverAttempt.status a in
      Ok (a, completed + Z.b2z (s ==? "completed"), failed + Z.b2z ((s !=? "completed") && (s ==? "failed")), db)
    else Ok (existing, completed, failed, db) in
  let s := HostingFailoverAttempt.status existing in
  let required' := required + Z.b2z (s ==? "recovery_required") in
  let pending' := pending + Z.b2z ((s !=? "recovery_required") && (s in? ACTIVE_ATTEMPT_STATUSES)) in
  Ok ((created, queued, completed, failed, required', pending'), db).

Fixpoint relocate_projects (library : option NativeLibrary) (db : Session Db) (ids : nat -> Ids) (source_id : uuid)
    (projects : list HostingProject) (now : time) (c : Z * Z * Z * Z * Z * Z)
    : result ((Z * Z * Z * Z * Z * Z) * Session Db) :=
  match projects with
  | [] => Ok (c, db)
  | project :: projects =>
      let* (c, db) := relocate_project library db (ids 0%nat) source_id project now c in
      relocate_projects library db (fun i => ids (S i)) source_id projects now c
  end.

(** [ids k i] are the identifiers for the [i]-th project of the [k]-th source. *)
Fixpoint relocate_sources (library : option NativeLibrary) (db : Session Db) (ids : nat -> nat -> Ids)
    (states : list HostingNodeHealthState) (now : time) (c : Z * Z * Z * Z * Z * Z)
    : result ((Z * Z * Z * Z * Z * Z) * Session Db) :=
  match states with
  | [] => Ok (c, db)
  | state :: states =>
      let skip := relocate_sources library db (fun k => ids (S k)) states now c in
      match get hosting_nodes (HostingNodeHealthState.node_id state) db with
      | None => skip
      | Some source =>
          if (HostingNode.status source !=? "draining") || HostingNode.accepts_new_projects source then skip
          else
            let projects := select_ordered hosting_projects (asc HostingProject.created_at)
              (fun p => (HostingProject.node_id p ==? Some (HostingNode.id source)) &&
                        (HostingProject.status p !=? "suspended")) db in
            let* (c, db) := relocate_projects library db (ids 0%nat) (HostingNode.id source) projects now c in
            relocate_sources library db (fun k => ids (S k)) states now c
      end
  end.

(** Attempts without a staged deployment whose source has recovered. *)
Definition still_failed (db : Session Db) (attempt : HostingFailoverAttempt) : bool :=
  match get hosting_nodes (HostingFailoverAttempt.source_node_id attempt) db,
        get hosting_node_health_states (HostingFailoverAttempt.source_node_id attempt) db with
  | Some source, Some state =>
      (HostingNode.status source ==? "draining") && negb (HostingNode.accepts_new_projects source) &&
      HostingNodeHealthState.automation_enabled state &&
      (HostingNodeHealthState.health_status state ==? "unhealthy") &&
      (HostingNodeHealthState.last_transition state ==? Some "auto_drained")
  | _, _ => false
  end.
Definition resolve_row (now : time) (a : HostingFailoverAttempt) : HostingFailoverAttempt :=
  a <| HostingFailoverAttempt.status := "resolved_by_source_recovery" |>
    <| HostingFailoverAttempt.reason := Some "Source node recovered before a replacement deployment was staged." |>
    <| HostingFailoverAttempt.completed_at := Some now |>.
Definition resolve_attempts (db : Session Db) (now : time) (limit : nat) : Session Db :=
  let unresolved := firstn limit (select hosting_failover_attempts
    (fun a => (HostingFailoverAttempt.status a in? ["pending"; "recovery_required"]) &&
              (HostingFailoverAttempt.deployment_id a ==? None)) db) in
  fold_left (fun db a => if still_failed db a then db else put hosting_failover_attempts (resolve_row now a) db)
    unresolved db.

(** Started relocations continue even when their source has recovered. *)
Fixpoint continue_attempts (db : Session Db) (ids : nat -> Ids) (attempts : list HostingFailoverAttempt) (now : time)
    (completed failed : Z) : result (Z * Z * Session Db) :=
  match attempts with
  | [] => Ok (completed, failed, db)
  | attempt :: attempts =>
      let attempt := live (hosting_failover_attempts (mem db)) attempt in
      match get hosting_projects (HostingFailoverAttempt.project_id attempt) db with
      | None =>
          continue_attempts (put hosting_failover_attempts (fail_attempt now "Hosted project no longer exists." attempt) db)
            (fun i => ids (S i)) attempts now completed failed
      | Some project =>
          if HostingProject.node_id project ==? HostingFailoverAttempt.target_node_id attempt then
            continue_attempts db (fun i => ids (S i)) attempts now completed failed
          else
            let before := HostingFailoverAttempt.status attempt in
            let* (a, _, db) := finalize_attempt db (ids 0%nat) attempt project now in
            let s := HostingFailoverAttempt.status a in
            continue_attempts db (fun i => ids (S i)) attempts now
              (completed + Z.b2z ((before !=? s) && (s ==? "completed")))
              (failed + Z.b2z ((before !=? s) && (s ==? "failed")))
      end
  end.

Definition run_application_failover_reconcile (library : option NativeLibrary) (db : Session Db)
    (ids : nat -> nat -> Ids) (ids2 : nat -> Ids) (now : time) (failover_after_seconds limit : Z)
    : result (FailoverCounts * Session Db) :=
  let cutoff := now - Z.max failover_after_seconds 60 * 1000000 in
  let n := Z.to_nat (Z.max 1 (Z.min limit 1000)) in
  let unhealthy_states := firstn n (select hosting_node_health_states
    (fun s => HostingNodeHealthState.automation_enabled s &&
              (HostingNodeHealthState.health_status s ==? "unhealthy") &&
              match HostingNodeHealthState.unhealthy_since s with Some u => u <=? cutoff | None => false end &&
              (HostingNodeHealthState.last_transition s ==? Some "auto_drained")) db) in
  let* (c, db) := relocate_sources library db ids unhealthy_states now (0, 0, 0, 0, 0, 0) in
  let '(created, queued, completed, failed, required, pending) := c in
  let db := resolve_attempts db now n in
  let active := firstn n (select hosting_failover_attempts
    (fun a => HostingFailoverAttempt.status a in? ["deploying"; "edge_pending"]) db) in
  let* (completed, failed, db) := continue_attempts db ids2 active now completed failed in
  Ok (mk_FailoverCounts (zlen unhealthy_states) created queued completed failed required pending, commit db).

End Failover.

(** ** [request_project_relocation] *)
Definition request_project_relocation (library : option NativeLibrary) (db : Session Db) (ids : Ids)
    (project : HostingProject) (now : time) (preferred : option uuid) (reason : string)
    : result (HostingFailoverAttempt * Session Db) :=
  match HostingProject.node_id project with
  | None => Err (ValueError "Project is not assigned to a hosting node")
  | Some node_id =>
    ensure HostingProject.failover_policy project ==? "stateless_auto"
      else_raise ValueError "Project must explicitly use stateless_auto before it can be relocated";
    ensure HostingProject.status project !=? "suspended" else_raise ValueError "Suspended projects cannot be relocated";
    let* db :=
      match failover_attempt db (HostingProject.id project) node_id with
      | None => Ok db
      | Some existing =>
          ensure HostingFailoverAttempt.status existing in? ["recovery_required"; "failed"]
            else_raise ValueError "A failover or recovery action already exists for this project";
          Ok (put hosting_failover_attempts
               (existing <| HostingFailoverAttempt.status := "superseded" |>
                         <| HostingFailoverAttempt.completed_at := Some now |>
                         <| HostingFailoverAttempt.reason := Some "Superseded by an explicit stateless relocation request." |>) db)
      end in
    match managed_database_dependency db project with
    | Some _ => Err (ValueError "Project has an Ithute-managed database and cannot use application-only relocation until database failover is available")
    | None =>
      match last_healthy db (HostingProject.id project) with
      | None => Err (ValueError "Project has no healthy immutable deployment to relocate")
      | Some _ =>
          let '(attempt, db) := create_attempt db (id_attempt ids) now project node_id "pending" (Some reason) in
          let attempt := attempt <| HostingFailoverAttempt.started_at := Some now |> in
          let db := put hosting_failover_attempts attempt db in
          let* (attempt, _, db) := queue_replacement library db ids attempt project now preferred in
          match HostingFailoverAttempt.deployment_id attempt with
          | Some _ => Ok (attempt, db)
          | None =>
              let r := opt_str (HostingFailoverAttempt.reason attempt) in
              Err (ValueError (str_or r "Replacement deployment could not be queued"))
          end
      end
    end
  end.

(** ** Facts *)

(** A replacement has been staged for [project] by an attempt from [source]. *)
Record staged (db : Session Db) (now : time) (deployment_id : uuid) (project : HostingProject) (source : uuid)
    (preferred : option uuid) (a : HostingFailoverAttempt) (db' : Session Db) (target : HostingNode)
    (previous : HostingDeployment) : Prop := {
  staged_previous : last_healthy db (HostingProject.id project) = Some previous;
  staged_idle : active_deployment db (HostingProject.id project) = None;
  staged_target : target ∈ select hosting_nodes (fun _ => true) db;
  staged_other : HostingNode.id target <> source;
  staged_preferred : forall n, preferred = Some n -> HostingNode.id target = n;
  staged_safe : placement_safe (sql db) now (relocation_workload project) target;
  staged_agent : get hosting_node_agents (HostingNode.id target) db <> None;
  staged_status : HostingFailoverAttempt.status a = "deploying";
  staged_target_id : HostingFailoverAttempt.target_node_id a = Some (HostingNode.id target);
  staged_deployment_id : HostingFailoverAttempt.deployment_id a = Some deployment_id;
  staged_flushed : find_row deployment_id (hosting_deployments (sql db')) =
    Some (replacement_deployment deployment_id now project target previous
            (next_release_number db (HostingProject.id project)));
  staged_project : HostingProject.id project ∈ keys (hosting_projects (mem db)) ->
    find_row (HostingProject.id project) (hosting_projects (mem db')) =
    Some (project <| HostingProject.status := "deploying" |>)
}.

Lemma eligible_target_spec library db now project source preferred target db' :
  eligible_target library db now project source preferred = Ok (inl target, db') ->
  target ∈ select hosting_nodes (fun _ => true) db /\ HostingNode.id target <> source /\
  (forall n, preferred = Some n -> HostingNode.id target = n) /\
  placement_safe (sql db) now (relocation_workload project) target /\ sql db' = sql db.
Proof.
  unfold eligible_target. intros Ht. apply rbind_ok in Ht as ([ranked db1] & Hr & Ht).
  apply rank_nodes_spec in Hr as (Hp & Hsql & He & _).
  assert (forall row, row ∈ ranked -> ScoreRow.eligible row = true ->
    ScoreRow.node row ∈ select hosting_nodes (fun _ => true) db /\
    placement_safe (sql db) now (relocation_workload project) (ScoreRow.node row)) as Hrow.
  { intros row Hin Hel. split; [|by apply He]. rewrite <- Hp. by apply list_elem_of_fmap_2. }
  destruct preferred as [n|].
  - destruct (List.find _ ranked) as [row|] eqn:Ef; [|done].
    apply find_some in Ef as [Hin%list_elem_of_In Hid%Z.eqb_eq].
    bdestruct (HostingNode.id (ScoreRow.node row) =? source); [done|].
    destruct (ScoreRow.eligible row) eqn:Hel; [|done]. injection Ht as <- <-.
    destruct (Hrow row Hin Hel). split_and!; try done. by intros ? [= <-].
  - destruct (List.find _ _) as [row|] eqn:Ef; [|done]. injection Ht as <- <-.
    apply find_some in Ef as [[Hin%list_elem_of_In Hn%negb_true_iff%Z.eqb_neq]%filter_In Hel].
    destruct (Hrow row Hin Hel). split_and!; done.
Qed.

Lemma eligible_target_keeps {A} (T : Db -> A) library db now project source preferred r db' :
  (forall d l, T (with_reservations d l) = T d) ->
  eligible_target library db now project source preferred = Ok (r, db') -> T (mem db') = T (mem db).
Proof.
  intros HT. unfold eligible_target. intros Ht. apply rbind_ok in Ht as ([ranked db1] & Hr & Ht).
  rewrite <- (rank_nodes_keeps T _ _ _ _ _ _ HT Hr). f_equal. f_equal.
  repeat case_match; congruence.
Qed.

Lemma fold_max_le l a : a <= fold_left Z.max l a /\ Forall (fun x => x <= fold_left Z.max l a) l.
Proof.
  revert a. induction l as [|x l IH]; intros a; simpl; [split; [lia|done]|].
  destruct (IH (Z.max a x)) as [H1 H2]. split; [lia|]. constructor; [lia|done].
Qed.
(** The release number of a replacement is greater than all earlier ones. *)
Lemma next_release_number_fresh db pid d :
  d ∈ hosting_deployments (sql db) -> HostingDeployment.project_id d = pid ->
  HostingDeployment.release_number d < next_release_number db pid.
Proof.
  intros Hd <-. unfold next_release_number.
  match goal with |- context [fold_left Z.max ?l 0] => destruct (fold_max_le l 0) as [_ Hall] end.
  rewrite Forall_forall in Hall.
  match type of Hall with forall x, _ -> x <= ?m => cut (HostingDeployment.release_number d <= m); [lia|] end.
  apply Hall, list_elem_of_fmap_2, list_elem_of_In, filter_In. rewrite <- list_elem_of_In. split; [done|apply Z.eqb_refl].
Qed.

Lemma get_none_sql {D R} `{Keyed R} (T : D -> list R) k s s' :
  sql s' = sql s -> get T k s' = None <-> get T k s = None.
Proof. intros Hs. unfold get. rewrite Hs. by destruct (find_row k (T (sql s))). Qed.

(** Either the replacement is staged, or the attempt says what it waits for. *)
Lemma queue_replacement_cases library db ids attempt project now preferred a p db' :
  queue_replacement library db ids attempt project now preferred = Ok (a, p, db') ->
  id_deployment ids ∉ keys (hosting_deployments (mem db)) ->
  (HostingFailoverAttempt.deployment_id a = HostingFailoverAttempt.deployment_id attempt /\ p = project /\
   (HostingFailoverAttempt.status a = HostingFailoverAttempt.status attempt \/
    HostingFailoverAttempt.status a = "recovery_required") /\
   HostingFailoverAttempt.reason a <> None /\
   hosting_deployments (mem db') = hosting_deployments (mem db) /\
   hosting_projects (mem db') = hosting_projects (mem db)) \/
  exists target previous,
    staged db now (id_deployment ids) project (HostingFailoverAttempt.source_node_id attempt) preferred a db' target previous.
Proof.
  unfold queue_replacement. intros Hq Hfresh.
  destruct (active_deployment db _) eqn:Ha; [injection Hq as <- <- <-; left; cbn; auto 10|].
  destruct (last_healthy db _) as [previous|] eqn:Hh; [|injection Hq as <- <- <-; left; cbn; auto 10].
  apply rbind_ok in Hq as ([choice db1] & Ht & Hq).
  pose proof (eligible_target_keeps hosting_deployments _ _ _ _ _ _ _ _ (fun _ _ => eq_refl) Ht) as Hd.
  pose proof (eligible_target_keeps hosting_projects _ _ _ _ _ _ _ _ (fun _ _ => eq_refl) Ht) as Hp.
  destruct choice as [target|error]; [|injection Hq as <- <- <-; left; cbn; auto 10].
  apply eligible_target_spec in Ht as (Hin & Hne & Hpref & Hsafe & Hsql).
  destruct (get hosting_node_agents _ db1) as [agent|] eqn:Hag; [|injection Hq as <- <- <-; left; cbn; auto 10].
  injection Hq as <- <- <-. right. exists target, previous.
  assert (next_release_number db1 (HostingProject.id project) = next_release_number db (HostingProject.id project)) as Hnext
    by (unfold next_release_number; by rewrite Hsql).
  split; try done.
  - rewrite <- (get_none_sql hosting_node_agents _ _ _ Hsql). by rewrite Hag.
  - cbn [sql flush put add]. cbn -[replacement_deployment next_release_number]. rewrite Hd, find_app.
    rewrite (proj2 (find_row_none _ _) Hfresh). rewrite Hnext.
    cbn -[replacement_deployment next_release_number]. unfold key, keyed_HostingDeployment. cbn -[next_release_number].
    by rewrite Z.eqb_refl.
  - intros Hk. cbn -[replacement_deployment next_release_number]. rewrite Hp.
    set (p := project <| HostingProject.status := "deploying" |>).
    exact (find_put_same p (hosting_projects (mem db)) Hk).
Qed.

(** C5.  Queueing the replacement of an attempt that has no deployment yet: a
    replacement is staged only on another node that has room for the project
    next to everything committed there and that carries an agent, when no other
    deployment of the project is in progress; it reuses the last healthy image
    under a fresh release number and marks the project as deploying.  In every
    other case nothing is deployed, the project is untouched and the attempt
    records a reason. *)
Theorem queue_replacement_safe library db ids attempt project now preferred a p db' :
  queue_replacement library db ids attempt project now preferred = Ok (a, p, db') ->
  id_deployment ids ∉ keys (hosting_deployments (mem db)) ->
  HostingFailoverAttempt.deployment_id attempt = None ->
  if HostingFailoverAttempt.deployment_id a ==? None then
    p = project /\ HostingFailoverAttempt.reason a <> None /\
    hosting_deployments (mem db') = hosting_deployments (mem db) /\
    hosting_projects (mem db') = hosting_projects (mem db)
  else exists target previous,
    staged db now (id_deployment ids) project (HostingFailoverAttempt.source_node_id attempt) preferred a db' target previous /\
    forall d, d ∈ hosting_deployments (sql db) -> HostingDeployment.project_id d = HostingProject.id project ->
      HostingDeployment.release_number d < next_release_number db (HostingProject.id project).
Proof.
  intros Hq Hfresh Hnone. destruct (queue_replacement_cases _ _ _ _ _ _ _ _ _ _ Hq Hfresh) as
    [(Hd & ? & _ & ? & ? & ?)|(target & previous & Hs)].
  - rewrite Hd, Hnone. by rewrite bool_decide_eq_true_2.
  - rewrite bool_decide_eq_false_2 by (rewrite (staged_deployment_id _ _ _ _ _ _ _ _ _ _ Hs); done).
    exists target, previous. split; [done|]. intros. by apply next_release_number_fresh.
Qed.

(**  A relocation on request succeeds only for a placed, unsuspended project
    that has opted into stateless relocation, depends on no managed database and
    has a healthy deployment; the attempt is then deploying on another node with
    room for the project. *)
Theorem request_project_relocation_safe library db ids project now preferred reason a db' :
  request_project_relocation library db ids project now preferred reason = Ok (a, db') ->
  id_deployment ids ∉ keys (hosting_deployments (mem db)) ->
  exists source target previous db1,
    HostingProject.node_id project = Some source /\
    HostingProject.failover_policy project = "stateless_auto" /\ HostingProject.status project <> "suspended" /\
    managed_database_dependency db project = None /\
    (forall old, failover_attempt db (HostingProject.id project) source = Some old ->
       HostingFailoverAttempt.status old = "recovery_required" \/ HostingFailoverAttempt.status old = "failed") /\
    staged db1 now (id_deployment ids) project source preferred a db' target previous.
Proof.
  unfold request_project_relocation. destruct (HostingProject.node_id project) as [source|]; [|done].
  intros Hr Hfresh. bdestruct (HostingProject.failover_policy project ==? "stateless_auto"); [|done].
  bdestruct (HostingProject.status project !=? "suspended"); [|done].
  apply rbind_ok in Hr as (db1 & Hold & Hr).
  assert (managed_database_dependency db1 project = managed_database_dependency db project /\
    hosting_deployments (mem db1) = hosting_deployments (mem db) /\
    (forall old, failover_attempt db (HostingProject.id project) source = Some old ->
       HostingFailoverAttempt.status old = "recovery_required" \/ HostingFailoverAttempt.status old = "failed")) as (Hdep & Hd & Hst).
  { destruct (failover_attempt db _ source) as [old|] eqn:Ef; [|injection Hold as <-; naive_solver].
    destruct (_ in? _) eqn:Es; [|done]. injection Hold as <-. split_and!; [done..|].
    intros ? [= <-]. simpl in Es. rewrite !orb_true_iff, !bool_decide_eq_true in Es. naive_solver. }
  destruct (managed_database_dependency db1 project) eqn:Em; [done|].
  destruct (last_healthy db1 _) eqn:El; [|done].
  destruct (create_attempt db1 _ _ _ _ _ _) as [a0 db2] eqn:Ec.
  assert (hosting_deployments (mem db2) = hosting_deployments (mem db) /\
    HostingFailoverAttempt.source_node_id a0 = source /\ HostingFailoverAttempt.deployment_id a0 = None) as (Hd2 & Hs & Hn).
  { unfold create_attempt in Ec. injection Ec as <- <-. by rewrite <- Hd. }
  apply rbind_ok in Hr as ([[a1 p1] db3] & Hq & Hr).
  destruct (HostingFailoverAttempt.deployment_id a1) eqn:Ed; [|done]. injection Hr as <- <-.
  apply queue_replacement_cases in Hq; [|by cbn; rewrite Hd2].
  destruct Hq as [(Hx & _)|(target & previous & Hstaged)].
  - cbn in Hx. congruence.
  - cbn in Hstaged. rewrite Hs in Hstaged. eexists _, _, _, _. split_and!; eauto.
Qed.

(** The retirement of the source is on the queue. *)
Lemma queue_source_retirement_queued db new_id now project source op db' :
  synced hosting_project_operations db -> NoDup (keys (hosting_project_operations (mem db))) ->
  queue_source_retirement db new_id now project source = (op, db') ->
  op ∈ hosting_project_operations (mem db') /\
  HostingProjectOperation.project_id op = HostingProject.id project /\
  HostingProjectOperation.node_id op = source /\ HostingProjectOperation.operation op = "retire" /\
  (HostingProjectOperation.status op = "queued" \/ HostingProjectOperation.status op = "claimed").
Proof.
  intros Hs Hn. unfold queue_source_retirement, scalar_ordered. rewrite select_ordered_synced by done.
  destruct (head _) as [r|] eqn:Eh; intros [= <- <-].
  - apply head_sort_filter in Eh as [Hin Hp]. split; [done|]. simpl in Hp.
    rewrite !andb_true_iff, !orb_true_iff, !bool_decide_eq_true, !Z.eqb_eq in Hp. naive_solver.
  - split_and!; [|by auto..]. simpl. apply elem_of_app. right. by apply list_elem_of_singleton.
Qed.

(** The replacement serves: its deployment is healthy with an origin, and the edge
    serves it or needs no route. *)
Definition replacement_ready `{EdgeService} (db : Session Db) (attempt : HostingFailoverAttempt) (project : HostingProject) (now : time)
    (dep : HostingDeployment) : Prop :=
  exists d url edge error db1,
    HostingFailoverAttempt.deployment_id attempt = Some d /\ get hosting_deployments d db = Some dep /\
    HostingDeployment.status dep = "healthy" /\ HostingDeployment.origin_url dep = Some url /\ url <> EmptyString /\
    reconcile_project_edge db now project url = Ok (EdgeStatus edge error, db1) /\ (edge = "active" \/ edge = "not_requested").
(** C6.  An attempt completes exactly when its deployment is healthy with an
    origin and the edge serves it or needs no route; then the project runs on the
    target with the deployed image and the retirement of the source is on the
    queue.  Until then, failures included, the project stays on its node with
    its image and nothing is retired. *)
Theorem finalize_attempt_safe `{EdgeService} db ids attempt project now a p db' :
  finalize_attempt db ids attempt project now = Ok (a, p, db') ->
  HostingFailoverAttempt.status attempt <> "completed" ->
  synced hosting_project_operations db -> NoDup (keys (hosting_project_operations (mem db))) ->
  (HostingFailoverAttempt.status a = "completed" <-> exists dep, replacement_ready db attempt project now dep) /\
  if HostingFailoverAttempt.status a ==? "completed" then
    exists dep, replacement_ready db attempt project now dep /\
      p = project <| HostingProject.node_id := HostingFailoverAttempt.target_node_id attempt |>
                  <| HostingProject.image_ref := Some (HostingDeployment.image_ref dep) |>
                  <| HostingProject.status := "running" |> /\
      exists op, op ∈ hosting_project_operations (mem db') /\
        HostingProjectOperation.project_id op = HostingProject.id project /\
        HostingProjectOperation.node_id op = HostingFailoverAttempt.source_node_id attempt /\
        HostingProjectOperation.operation op = "retire" /\
        (HostingProjectOperation.status op = "queued" \/ HostingProjectOperation.status op = "claimed")
  else
    HostingProject.node_id p = HostingProject.node_id project /\
    HostingProject.image_ref p = HostingProject.image_ref project /\
    hosting_project_operations (mem db') = hosting_project_operations (mem db).
Proof.
  intros Hf Hnc Hs Hn. unfold finalize_attempt in Hf.
  destruct (HostingFailoverAttempt.deployment_id attempt) as [d|] eqn:Ed; [|injection Hf as <- <- <-; split; [split; [done|intros (? & ? & ? & ? & ? & ? & ? & _); congruence]|done]].
  destruct (get hosting_deployments d db) as [dep|] eqn:Eg; [|injection Hf as <- <- <-; split; [split; [done|intros (? & ? & ? & ? & ? & ? & ? & ? & _); congruence]|done]].
  assert (forall dep', replacement_ready db attempt project now dep' -> dep' = dep) as Hdep by (intros ? (? & ? & ? & ? & ? & ? & ? & _); congruence).
  bdestruct (HostingDeployment.status dep ==? "failed").
  { injection Hf as <- <- <-. split; [|done]. split; [done|]. intros (dep' & Hr). rewrite (Hdep _ Hr) in Hr. destruct Hr as (? & ? & ? & ? & ? & _ & _ & ? & _). congruence. }
  destruct ((HostingDeployment.status dep !=? "healthy") || _) eqn:Eh.
  { injection Hf as <- <- <-. rewrite bool_decide_eq_false_2 by done. split; [|done]. split; [done|].
    intros (dep' & Hr). rewrite (Hdep _ Hr) in Hr. destruct Hr as (d' & url & edge & error & db1 & _ & _ & E1 & E2 & E3 & _).
    rewrite E1, E2, bool_decide_eq_true_2 in Eh by done. cbn in Eh. by destruct url. }
  apply orb_false_iff in Eh as [Eh%negb_false_iff%bool_decide_eq_true Eu%negb_false_iff].
  destruct (HostingDeployment.origin_url dep) as [url|] eqn:Eo; [|done]. cbn [opt_str] in Hf, Eu.
  assert (url <> EmptyString) as Hne by by intros ->.
  apply rbind_ok in Hf as ([o db1] & Hedge & Hf).
  assert ((exists dep', replacement_ready db attempt project now dep') <-> exists edge error, o = EdgeStatus edge error /\ (edge = "active" \/ edge = "not_requested")) as Hready.
  { split.
    - intros (dep' & Hr). rewrite (Hdep _ Hr) in Hr. destruct Hr as (d' & url' & edge & error & db2 & _ & _ & _ & E2 & _ & E3 & E4).
      rewrite Eo in E2. injection E2 as <-. rewrite Hedge in E3. injection E3 as -> _. by exists edge, error.
    - intros (edge & error & -> & Hs'). exists dep, d, url, edge, error, db1. done. }
  rewrite Hready.
  apply edge_keeps_hosting in Hedge as Hkeep. destruct Hkeep as [Hmem Hsql].
  assert (hosting_project_operations (mem db1) = hosting_project_operations (mem db)) as Hops
    by (unfold hosting_tables in Hmem; congruence).
  destruct o as [edge error|message]; [|injection Hf as <- <- <-; split; [split; [done|by intros (? & ? & [=] & _)]|done]].
  destruct (str_or edge "unknown" notin? _) eqn:Ee.
  { injection Hf as <- <- <-. split; [|done]. split; [done|]. intros (edge' & error' & [= -> ->] & [-> | ->]); done. }
  assert (hosting_project_operations (sql db1) = hosting_project_operations (mem db1)) as Hs1.
  { unfold synced in Hs. unfold hosting_tables in *. destruct Hsql; congruence. }
  destruct (queue_source_retirement _ _ _ _ _) as [op db2] eqn:Er. injection Hf as <- <- <-.
  apply queue_source_retirement_queued in Er; [|exact Hs1|by cbn; rewrite Hops].
  apply negb_false_iff in Ee. simpl in Ee. rewrite !orb_true_iff, !bool_decide_eq_true in Ee.
  assert (edge = "active" \/ edge = "not_requested") as Hs' by (destruct edge; [naive_solver|cbn in Ee; naive_solver]).
  split; [split; [|done]; intros _; by exists edge, error|]. rewrite bool_decide_eq_true_2 by done.
  assert (exists dep', replacement_ready db attempt project now dep') as (dep' & Hr) by (apply Hready; by exists edge, error).
  rewrite (Hdep _ Hr) in Hr. exists dep. split_and!; eauto.
Qed.

(** ** A node whose projects are relocated *)
Definition demo_failover_project (id : uuid) : HostingProject :=
  HostingProject.new_HostingProject id 0 <| HostingProject.node_id := Some 1 |>
    <| HostingProject.failover_policy := "stateless_auto" |> <| HostingProject.status := "running" |>
    <| HostingProject.storage_mb := 600 |> <| HostingProject.memory_mb := 512 |> <| HostingProject.cpu_millicores := 500 |>.
Definition demo_release (id project : uuid) : HostingDeployment :=
  HostingDeployment.new_HostingDeployment id 0 <| HostingDeployment.project_id := project |>
    <| HostingDeployment.node_id := Some 1 |> <| HostingDeployment.release_number := 3 |>
    <| HostingDeployment.image_ref := "registry/app@sha256:1" |> <| HostingDeployment.status := "healthy" |>.
Definition demo_failover_db : Db :=
  demo_hosting_db
    <| hosting_resource_reservations := [] |>
    <| hosting_nodes := [demo_node <| HostingNode.status := "draining" |> <| HostingNode.accepts_new_projects := false |>;
         demo_node <| HostingNode.id := 2 |>] |>
    <| hosting_node_agents := [HostingNodeAgent.new_HostingNodeAgent 2 0] |>
    <| hosting_node_health_states := [HostingNodeHealthState.new_HostingNodeHealthState 1 0
         <| HostingNodeHealthState.health_status := "unhealthy" |>
         <| HostingNodeHealthState.unhealthy_since := Some 0 |>
         <| HostingNodeHealthState.last_transition := Some "auto_drained" |>] |>
    <| hosting_projects := [demo_failover_project 3; demo_failover_project 4] |>
    <| hosting_deployments := [demo_release 21 3; demo_release 22 4] |>.
Definition demo_ids (k : Z) : Ids := mk_Ids (100 + k) (200 + k) (300 + k) (400 + k) (500 + k).
Definition demo_now : time := 400 * 1000000.

Lemma demo_deployment_fresh k : 0 <= k -> id_deployment (demo_ids k) ∉ keys (hosting_deployments demo_failover_db).
Proof. intros Hk. cbn. rewrite !not_elem_of_cons, list_elem_of_In. unfold key, keyed_HostingDeployment. cbn. intuition lia. Qed.

(** A pending attempt for one of the projects. *)
Definition demo_attempt (id project : uuid) : HostingFailoverAttempt :=
  new_attempt id 0 (demo_failover_project project) 1 "pending" None.

Lemma queue_replacement_safe_witness :
  exists a p db target previous,
    queue_replacement None (open_session demo_failover_db) (demo_ids 0) (demo_attempt 31 3) (demo_failover_project 3)
      demo_now None = Ok (a, p, db) /\
    staged (open_session demo_failover_db) demo_now 200 (demo_failover_project 3) 1 None a db target previous.
Proof.
  destruct (queue_replacement None (open_session demo_failover_db) (demo_ids 0) (demo_attempt 31 3) (demo_failover_project 3)
    demo_now None) as [[[a p] db]|e] eqn:E; [|exfalso; vm_compute in E; discriminate].
  pose proof (queue_replacement_safe _ _ _ _ _ _ _ _ _ _ E (demo_deployment_fresh 0 ltac:(lia)) eq_refl) as Hq.
  assert (HostingFailoverAttempt.deployment_id a = Some 200) as Hd by (vm_compute in E; injection E as <- _ _; reflexivity).
  rewrite Hd in Hq. destruct Hq as (target & previous & Hs & _).
  exists a, p, db, target, previous. split; [reflexivity|exact Hs].
Defined.

Lemma request_project_relocation_safe_witness :
  exists a db target, request_project_relocation None (open_session demo_failover_db) (demo_ids 0) (demo_failover_project 3)
    demo_now (Some 2) "manual_rebalance" = Ok (a, db) /\
    HostingFailoverAttempt.target_node_id a = Some (HostingNode.id target) /\ HostingNode.id target = 2.
Proof.
  destruct (request_project_relocation None (open_session demo_failover_db) (demo_ids 0) (demo_failover_project 3)
    demo_now (Some 2) "manual_rebalance") as [[a db]|e] eqn:E; [|exfalso; vm_compute in E; discriminate].
  destruct (request_project_relocation_safe _ _ _ _ _ _ _ _ _ E (demo_deployment_fresh 0 ltac:(lia)))
    as (source & target & previous & db1 & _ & _ & _ & _ & _ & Hs).
  exists a, db, target. split; [reflexivity|]. destruct Hs. split; [assumption|]. apply staged_preferred0. reflexivity.
Defined.

(** An edge on which the project has requested no route. *)
#[local] Program Instance no_route : EdgeService := {
  reconcile_project_edge db now p url := Ok (EdgeStatus "not_requested" None, db)
}.
Next Obligation. simpl. intros. simplify_eq. auto. Qed.

Lemma finalize_attempt_safe_witness :
  let attempt := demo_attempt 31 3 <| HostingFailoverAttempt.status := "deploying" |>
    <| HostingFailoverAttempt.target_node_id := Some 2 |> <| HostingFailoverAttempt.deployment_id := Some 21 |> in
  let d := demo_failover_db <| hosting_failover_attempts := [attempt] |>
    <| hosting_deployments := [demo_release 21 3 <| HostingDeployment.origin_url := Some "http://10.0.0.2:8080" |>] |> in
  exists a p db op, finalize_attempt (open_session d) (demo_ids 0) attempt (demo_failover_project 3) demo_now = Ok (a, p, db) /\
    HostingFailoverAttempt.status a = "completed" /\ HostingProject.node_id p = Some 2 /\
    op ∈ hosting_project_operations (mem db) /\ HostingProjectOperation.operation op = "retire".
Proof.
  intros attempt d.
  destruct (finalize_attempt (open_session d) (demo_ids 0) attempt (demo_failover_project 3) demo_now)
    as [[[a p] db]|e] eqn:E; [|exfalso; vm_compute in E; discriminate].
  pose proof (finalize_attempt_safe _ _ _ _ _ _ _ _ E ltac:(discriminate) eq_refl ltac:(apply NoDup_nil_2)) as Hf.
  assert (HostingFailoverAttempt.status a = "completed") as Hc by (vm_compute in E; injection E as <- _ _; reflexivity).
  rewrite Hc in Hf. destruct Hf as (_ & dep & _ & -> & op & Hop & _ & _ & Hr & _).
  exists a, (demo_failover_project 3 <| HostingProject.node_id := Some 2 |>
    <| HostingProject.image_ref := Some (HostingDeployment.image_ref dep) |> <| HostingProject.status := "running" |>), db, op.
  split_and!; try assumption; reflexivity.
Defined.

(** ** Two relocations on capacity for one

    The target of an attempt is assigned after the flush of its deployment, and
    queries do not flush: when both attempts are already pending, the second
    ranking does not see the first relocation.  Node 2 can take 1000 MB, and
    1200 MB are promised to it. *)
Definition demo_double_db : Db :=
  demo_failover_db <| hosting_failover_attempts := [demo_attempt 31 3; demo_attempt 32 4] |>.
Lemma failover_overcommits_target :
  match run_application_failover_reconcile None (open_session demo_double_db) (fun _ i => demo_ids (Z.of_nat i))
          (fun i => demo_ids (50 + Z.of_nat i)) demo_now 300 200 with
  | Ok (counts, db) => replacements_queued counts = 2 /\ 1000 < committed Storage (sql db) 2 demo_now
  | Err _ => False
  end.
Proof. vm_compute. split; reflexivity. Qed.

(** ** A failure reported twice

    An attempt that fails while its source is processed is still deploying for
    the query of the second loop, which finalizes it again. *)
Definition demo_failing_db : Db :=
  demo_failover_db
    <| hosting_failover_attempts := [demo_attempt 31 3 <| HostingFailoverAttempt.status := "deploying" |>
         <| HostingFailoverAttempt.target_node_id := Some 2 |> <| HostingFailoverAttempt.deployment_id := Some 23 |>] |>
    <| hosting_deployments := [demo_release 23 3 <| HostingDeployment.status := "failed" |>] |>
    <| hosting_projects := [demo_failover_project 3] |>.
Lemma failure_audited_twice :
  match run_application_failover_reconcile None (open_session demo_failing_db) (fun _ i => demo_ids (Z.of_nat i))
          (fun i => demo_ids (50 + Z.of_nat i)) demo_now 300 200 with
  | Ok (counts, db) =>
      failed counts = 1 /\ map AuditLog.action (audit_logs (sql db)) = ["hosting.failover.failed"; "hosting.failover.failed"]
  | Err _ => False
  end.
Proof. vm_compute. split; reflexivity. Qed.
