(* ===== verification/Metering.v ===== *)
(** [app/services/hosting_metering.py]: what a tenant uses of shared hosting
    databases and sources, and whether its plan allows one more allocation. *)
From S2P Require Import Prelude PyFloat Json Models Session.
#[local] Open Scope string_scope.
#[local] Open Scope list_scope.
#[local] Open Scope Z_scope.

Definition ACTIVE_SOURCE_STATUSES : list string := ["uploading"; "ready"; "building"].

(** [x or d] on integers. *)
Definition int_or (x d : Z) : Z := if x =? 0 then d else x.

(** The dict of limits and the dict of usage have the same keys. *)
Module Shared.
Record Shared : Type := mk {
  database_count : Z;
  database_storage_bytes : Z;
  source_storage_bytes : Z
}.
End Shared.
Notation Shared := Shared.Shared.

(** [_effective_limits] *)
Definition effective_limits (plan : BillingPlan) : Shared :=
  let projects := BillingPlan.included_hosted_projects plan in
  if projects <=? 0 then Shared.mk 0 0 0
  else
    let database_limit := int_or (BillingPlan.hosting_database_limit plan) (Z.max 1 (projects * 2)) in
    let database_storage_mb := int_or (BillingPlan.hosting_database_storage_mb plan) (BillingPlan.hosting_storage_mb plan) in
    let source_storage_mb := int_or (BillingPlan.hosting_source_storage_mb plan) (BillingPlan.hosting_storage_mb plan) in
    Shared.mk (Z.max 0 database_limit) (Z.max 0 database_storage_mb * 1024 * 1024)
      (Z.max 0 source_storage_mb * 1024 * 1024).

Definition counted_source (tenant_id : uuid) (s : HostingSource) : bool :=
  (HostingSource.tenant_id s =? tenant_id) && (HostingSource.source_type s ==? "zip") &&
  (HostingSource.status s in? ACTIVE_SOURCE_STATUSES).
(** SQL's [sum] skips NULL. *)
Definition opt_Z (x : option Z) : Z := match x with Some z => z | None => 0 end.

Definition hosting_resource_usage (db : Session Db) (tenant_id : uuid) : Shared :=
  let of_tenant d := HostingDatabase.tenant_id d =? tenant_id in
  let database_count := sql_count hosting_databases of_tenant db in
  let database_storage_mb := sql_sum hosting_databases of_tenant HostingDatabase.storage_mb db in
  let source_storage_bytes := sql_sum hosting_sources (counted_source tenant_id)
    (fun s => opt_Z (HostingSource.size_bytes s)) db in
  Shared.mk database_count (database_storage_mb * 1024 * 1024) source_storage_bytes.

(** The dict of [hosting_resource_meter]; it has limits and a plan, or neither. *)
Module Meter.
Record Meter : Type := mk {
  usage : Shared;
  limits : option (Shared * BillingPlan);
  subscription_status : option string
}.
End Meter.
Notation Meter := Meter.Meter.

Definition subscription_of (tenant_id : uuid) (s : TenantSubscription) : bool := TenantSubscription.tenant_id s =? tenant_id.

Definition hosting_resource_meter (db : Session Db) (tenant_id : uuid) : Meter :=
  let subscription := scalar tenant_subscriptions (subscription_of tenant_id) db in
  let usage := hosting_resource_usage db tenant_id in
  match subscription with
  | None => Meter.mk usage None None
  | Some subscription =>
      let status := Some (SubscriptionStatus.value_SubscriptionStatus (TenantSubscription.status subscription)) in
      match get billing_plans (TenantSubscription.plan_id subscription) db with
      | Some plan =>
          if negb (BillingPlan.is_active plan) then Meter.mk usage None status
          else Meter.mk usage (Some (effective_limits plan, plan)) status
      | None => Meter.mk usage None status
      end
  end.

Definition database_allocation_allowed (db : Session Db) (tenant_id : uuid) (requested_storage_mb : Z)
    : bool * string * Meter :=
  let meter := hosting_resource_meter db tenant_id in
  match Meter.limits meter with
  | None => (false, "Organization has no active hosting package", meter)
  | Some (limits, plan) =>
    let usage := Meter.usage meter in
    let requested_bytes := requested_storage_mb * 1024 * 1024 in
    let count_over := Shared.database_count limits <? Shared.database_count usage + 1 in
    let storage_over := Shared.database_storage_bytes limits <? Shared.database_storage_bytes usage + requested_bytes in
    if negb count_over && negb storage_over then (true, "within plan", meter)
    else
      let metered := BillingPlan.allow_metered_overages plan in
      let count_priced := negb count_over || (0 <? BillingPlan.overage_database_minor plan) in
      let storage_priced := negb storage_over || (0 <? BillingPlan.overage_database_storage_gb_minor plan) in
      if metered && count_priced && storage_priced then (true, "metered overage", meter)
      else if count_over then (false, "Hosted database count limit reached", meter)
      else (false, "Hosted database storage limit reached", meter)
  end.

Definition source_allocation_allowed (db : Session Db) (tenant_id : uuid) (requested_bytes : Z) : bool * string * Meter :=
  let meter := hosting_resource_meter db tenant_id in
  match Meter.limits meter with
  | None => (false, "Organization has no active hosting package", meter)
  | Some (limits, plan) =>
    let usage := Meter.usage meter in
    let over := Shared.source_storage_bytes limits <? Shared.source_storage_bytes usage + requested_bytes in
    if negb over then (true, "within plan", meter)
    else if BillingPlan.allow_metered_overages plan && (0 <? BillingPlan.overage_source_storage_gb_minor plan)
    then (true, "metered overage", meter)
    else (false, "Hosted source storage limit reached", meter)
  end.

(** ** Facts *)

(** One more database, or more source bytes, within the limits or at a price. *)
Definition fits_or_priced (metered : bool) (wanted limit rate : Z) : Prop := wanted <= limit \/ metered = true /\ 0 < rate.

Lemma over_or_priced metered wanted limit rate :
  fits_or_priced metered wanted limit rate <-> negb (limit <? wanted) || (metered && (0 <? rate)) = true.
Proof.
  unfold fits_or_priced. rewrite orb_true_iff, negb_true_iff, andb_true_iff, Z.ltb_ge, Z.ltb_lt. tauto.
Qed.

(**  A database or source allocation is allowed exactly when the tenant has a
    subscription on an active plan and what it asks for either fits the limits
    of the plan or is metered at a positive price; "within plan" is only said of
    allocations that keep the usage within the limits. *)
Theorem allocation_allowed_iff db tenant_id amount :
  let meter := hosting_resource_meter db tenant_id in
  let usage := Meter.usage meter in
  (fst (fst (database_allocation_allowed db tenant_id amount)) = true <->
   exists limits plan, Meter.limits meter = Some (limits, plan) /\ BillingPlan.is_active plan = true /\
     fits_or_priced (BillingPlan.allow_metered_overages plan) (Shared.database_count usage + 1)
       (Shared.database_count limits) (BillingPlan.overage_database_minor plan) /\
     fits_or_priced (BillingPlan.allow_metered_overages plan) (Shared.database_storage_bytes usage + amount * 1024 * 1024)
       (Shared.database_storage_bytes limits) (BillingPlan.overage_database_storage_gb_minor plan)) /\
  (fst (fst (source_allocation_allowed db tenant_id amount)) = true <->
   exists limits plan, Meter.limits meter = Some (limits, plan) /\ BillingPlan.is_active plan = true /\
     fits_or_priced (BillingPlan.allow_metered_overages plan) (Shared.source_storage_bytes usage + amount)
       (Shared.source_storage_bytes limits) (BillingPlan.overage_source_storage_gb_minor plan)) /\
  (forall limits plan, Meter.limits meter = Some (limits, plan) ->
     snd (fst (database_allocation_allowed db tenant_id amount)) = "within plan" ->
     Shared.database_count usage < Shared.database_count limits /\
     Shared.database_storage_bytes usage + amount * 1024 * 1024 <= Shared.database_storage_bytes limits).
Proof.
  intros meter usage.
  assert (Hact : forall l p, Meter.limits meter = Some (l, p) -> BillingPlan.is_active p = true).
  { intros l p. unfold meter, hosting_resource_meter. destruct (scalar _ _ _); [|done].
    destruct (get _ _ _) as [q|]; [|done]. destruct (BillingPlan.is_active q) eqn:Eq; cbn; [|done]. by intros [= _ <-]. }
  unfold database_allocation_allowed, source_allocation_allowed. fold meter. fold usage.
  destruct (Meter.limits meter) as [[l p]|] eqn:El; [|by split_and!; [naive_solver..|]].
  specialize (Hact l p eq_refl). split_and!.
  - transitivity (fits_or_priced (BillingPlan.allow_metered_overages p) (Shared.database_count usage + 1)
      (Shared.database_count l) (BillingPlan.overage_database_minor p) /\
      fits_or_priced (BillingPlan.allow_metered_overages p) (Shared.database_storage_bytes usage + amount * 1024 * 1024)
        (Shared.database_storage_bytes l) (BillingPlan.overage_database_storage_gb_minor p)); [|naive_solver].
    rewrite !over_or_priced. repeat case_match; simpl in *; simplify_eq/=;
      repeat match goal with H : context [?a <? ?b] |- _ => destruct (a <? b); simpl in * end;
      destruct (BillingPlan.allow_metered_overages p); simpl in *; naive_solver.
  - transitivity (fits_or_priced (BillingPlan.allow_metered_overages p) (Shared.source_storage_bytes usage + amount)
      (Shared.source_storage_bytes l) (BillingPlan.overage_source_storage_gb_minor p)); [|naive_solver].
    rewrite over_or_priced. repeat case_match; simpl in *; simplify_eq/=; naive_solver.
  - intros ? ? [= <- <-]. destruct (negb _ && negb _) eqn:Ef; [|repeat case_match; done].
    rewrite andb_true_iff, !negb_true_iff, !Z.ltb_ge in Ef. lia.
Qed.
