(* ===== verification/Billing.v ===== *)
(** [app/services/billing.py]: plans, usage, entitlements, overage, invoices and
    the payment webhook.  SHA-256 and HMAC are arguments; random identifiers and
    [now] are inputs of an operation. *)
From S2P Require Import Prelude PyFloat Json Calendar Models Session Metering.
#[local] Open Scope string_scope.
#[local] Open Scope list_scope.
#[local] Open Scope Z_scope.

(** ** Default plans *)
Definition plan_starter (new_id : uuid) (now : time) : BillingPlan :=
  BillingPlan.new_BillingPlan new_id now
    <| BillingPlan.code := "starter" |> <| BillingPlan.name := "Ithute Start" |> <| BillingPlan.currency := "LSL" |>
    <| BillingPlan.monthly_price_minor := 18500 |> <| BillingPlan.included_mailboxes := 10 |>
    <| BillingPlan.included_domains := 2 |> <| BillingPlan.included_storage_mb := 50000 |>
    <| BillingPlan.max_api_keys := 3 |> <| BillingPlan.included_hosted_projects := 1 |>
    <| BillingPlan.hosting_storage_mb := 1024 |> <| BillingPlan.hosting_memory_mb_per_project := 512 |>
    <| BillingPlan.hosting_cpu_millicores_per_project := 500 |> <| BillingPlan.hosting_pids_per_project := 128 |>
    <| BillingPlan.hosting_database_limit := 2 |> <| BillingPlan.hosting_database_storage_mb := 1024 |>
    <| BillingPlan.hosting_source_storage_mb := 1024 |> <| BillingPlan.product_category := "Website & Hosting" |>
    <| BillingPlan.description := "Professional starter website, hosting, business email and essential brand setup." |>
    <| BillingPlan.website_pages := 1 |> <| BillingPlan.includes_website_design := true |>
    <| BillingPlan.includes_logo_design := true |> <| BillingPlan.includes_brand_guide := false |>
    <| BillingPlan.includes_company_profile := false |> <| BillingPlan.includes_letterhead := false |>
    <| BillingPlan.includes_page_headers_footers := true |> <| BillingPlan.includes_business_templates := false |>
    <| BillingPlan.included_revisions := 1 |> <| BillingPlan.content_updates_per_month := 0 |>
    <| BillingPlan.support_level := "standard" |> <| BillingPlan.minimum_term_months := 12 |>
    <| BillingPlan.price_from := false |>.
Definition plan_grow (new_id : uuid) (now : time) : BillingPlan :=
  BillingPlan.new_BillingPlan new_id now
    <| BillingPlan.code := "grow" |> <| BillingPlan.name := "Ithute Grow" |> <| BillingPlan.currency := "LSL" |>
    <| BillingPlan.monthly_price_minor := 29500 |> <| BillingPlan.included_mailboxes := 15 |>
    <| BillingPlan.included_domains := 3 |> <| BillingPlan.included_storage_mb := 76800 |>
    <| BillingPlan.max_api_keys := 5 |> <| BillingPlan.included_hosted_projects := 1 |>
    <| BillingPlan.hosting_storage_mb := 2048 |> <| BillingPlan.hosting_memory_mb_per_project := 768 |>
    <| BillingPlan.hosting_cpu_millicores_per_project := 750 |> <| BillingPlan.hosting_pids_per_project := 192 |>
    <| BillingPlan.hosting_database_limit := 2 |> <| BillingPlan.hosting_database_storage_mb := 2048 |>
    <| BillingPlan.hosting_source_storage_mb := 2048 |> <| BillingPlan.product_category := "Website & Hosting" |>
    <| BillingPlan.description := "Growing-business website and brand package with professional documents and light monthly content support." |>
    <| BillingPlan.website_pages := 5 |> <| BillingPlan.includes_website_design := true |>
    <| BillingPlan.includes_logo_design := true |> <| BillingPlan.includes_brand_guide := true |>
    <| BillingPlan.includes_company_profile := false |> <| BillingPlan.includes_letterhead := true |>
    <| BillingPlan.includes_page_headers_footers := true |> <| BillingPlan.includes_business_templates := false |>
    <| BillingPlan.included_revisions := 2 |> <| BillingPlan.content_updates_per_month := 1 |>
    <| BillingPlan.support_level := "standard" |> <| BillingPlan.minimum_term_months := 12 |>
    <| BillingPlan.price_from := false |>.
Definition plan_business (new_id : uuid) (now : time) : BillingPlan :=
  BillingPlan.new_BillingPlan new_id now
    <| BillingPlan.code := "business" |> <| BillingPlan.name := "Ithute Business" |>
    <| BillingPlan.currency := "LSL" |> <| BillingPlan.monthly_price_minor := 49500 |>
    <| BillingPlan.included_mailboxes := 50 |> <| BillingPlan.included_domains := 10 |>
    <| BillingPlan.included_storage_mb := 250000 |> <| BillingPlan.max_api_keys := 10 |>
    <| BillingPlan.included_hosted_projects := 3 |> <| BillingPlan.hosting_storage_mb := 5120 |>
    <| BillingPlan.hosting_memory_mb_per_project := 1024 |>
    <| BillingPlan.hosting_cpu_millicores_per_project := 1000 |> <| BillingPlan.hosting_pids_per_project := 256 |>
    <| BillingPlan.hosting_database_limit := 6 |> <| BillingPlan.hosting_database_storage_mb := 5120 |>
    <| BillingPlan.hosting_source_storage_mb := 5120 |> <| BillingPlan.product_category := "Website & Hosting" |>
    <| BillingPlan.description := "Complete SME website, hosting and corporate identity package with business document templates." |>
    <| BillingPlan.website_pages := 8 |> <| BillingPlan.includes_website_design := true |>
    <| BillingPlan.includes_logo_design := true |> <| BillingPlan.includes_brand_guide := true |>
    <| BillingPlan.includes_company_profile := true |> <| BillingPlan.includes_letterhead := true |>
    <| BillingPlan.includes_page_headers_footers := true |> <| BillingPlan.includes_business_templates := true |>
    <| BillingPlan.included_revisions := 3 |> <| BillingPlan.content_updates_per_month := 2 |>
    <| BillingPlan.support_level := "priority" |> <| BillingPlan.minimum_term_months := 12 |>
    <| BillingPlan.price_from := false |>.
Definition plan_professional (new_id : uuid) (now : time) : BillingPlan :=
  BillingPlan.new_BillingPlan new_id now
    <| BillingPlan.code := "professional" |> <| BillingPlan.name := "Ithute Professional" |>
    <| BillingPlan.currency := "LSL" |> <| BillingPlan.monthly_price_minor := 79500 |>
    <| BillingPlan.included_mailboxes := 75 |> <| BillingPlan.included_domains := 15 |>
    <| BillingPlan.included_storage_mb := 384000 |> <| BillingPlan.max_api_keys := 15 |>
    <| BillingPlan.included_hosted_projects := 5 |> <| BillingPlan.hosting_storage_mb := 8192 |>
    <| BillingPlan.hosting_memory_mb_per_project := 1536 |>
    <| BillingPlan.hosting_cpu_millicores_per_project := 1500 |> <| BillingPlan.hosting_pids_per_project := 384 |>
    <| BillingPlan.hosting_database_limit := 10 |> <| BillingPlan.hosting_database_storage_mb := 8192 |>
    <| BillingPlan.hosting_source_storage_mb := 8192 |> <| BillingPlan.product_category := "Website & Hosting" |>
    <| BillingPlan.description := "Advanced website and managed-system package with full brand identity, company profile and priority support." |>
    <| BillingPlan.website_pages := 12 |> <| BillingPlan.includes_website_design := true |>
    <| BillingPlan.includes_logo_design := true |> <| BillingPlan.includes_brand_guide := true |>
    <| BillingPlan.includes_company_profile := true |> <| BillingPlan.includes_letterhead := true |>
    <| BillingPlan.includes_page_headers_footers := true |> <| BillingPlan.includes_business_templates := true |>
    <| BillingPlan.included_revisions := 5 |> <| BillingPlan.content_updates_per_month := 4 |>
    <| BillingPlan.support_level := "priority" |> <| BillingPlan.minimum_term_months := 12 |>
    <| BillingPlan.price_from := false |>.
Definition plan_enterprise (new_id : uuid) (now : time) : BillingPlan :=
  BillingPlan.new_BillingPlan new_id now
    <| BillingPlan.code := "enterprise" |> <| BillingPlan.name := "Ithute Enterprise" |>
    <| BillingPlan.currency := "LSL" |> <| BillingPlan.monthly_price_minor := 150000 |>
    <| BillingPlan.included_mailboxes := 200 |> <| BillingPlan.included_domains := 50 |>
    <| BillingPlan.included_storage_mb := 1000000 |> <| BillingPlan.max_api_keys := 50 |>
    <| BillingPlan.included_hosted_projects := 10 |> <| BillingPlan.hosting_storage_mb := 10240 |>
    <| BillingPlan.hosting_memory_mb_per_project := 2048 |>
    <| BillingPlan.hosting_cpu_millicores_per_project := 2000 |> <| BillingPlan.hosting_pids_per_project := 512 |>
    <| BillingPlan.hosting_database_limit := 20 |> <| BillingPlan.hosting_database_storage_mb := 10240 |>
    <| BillingPlan.hosting_source_storage_mb := 10240 |> <| BillingPlan.product_category := "Website & Hosting" |>
    <| BillingPlan.description := "Custom digital presence, managed systems, hosting and full corporate branding for larger organizations." |>
    <| BillingPlan.website_pages := 20 |> <| BillingPlan.includes_website_design := true |>
    <| BillingPlan.includes_logo_design := true |> <| BillingPlan.includes_brand_guide := true |>
    <| BillingPlan.includes_company_profile := true |> <| BillingPlan.includes_letterhead := true |>
    <| BillingPlan.includes_page_headers_footers := true |> <| BillingPlan.includes_business_templates := true |>
    <| BillingPlan.included_revisions := 8 |> <| BillingPlan.content_updates_per_month := 8 |>
    <| BillingPlan.support_level := "dedicated" |> <| BillingPlan.minimum_term_months := 12 |>
    <| BillingPlan.price_from := true |>.
Definition DEFAULT_PLANS : list (uuid -> time -> BillingPlan) :=
  [plan_starter; plan_grow; plan_business; plan_professional; plan_enterprise].

(** [existing] is read once, before the loop. *)
Fixpoint add_missing_plans (existing : list string) (db : Session Db) (ids : nat -> uuid) (now : time)
    (plans : list (uuid -> time -> BillingPlan)) (changed : bool) : bool * Session Db :=
  match plans with
  | [] => (changed, db)
  | values :: plans =>
      let row := values (ids 0%nat) now in
      let next := add_missing_plans existing in
      if BillingPlan.code row in? existing then next db (fun i => ids (S i)) now plans changed
      else next (add billing_plans row db) (fun i => ids (S i)) now plans true
  end.
Definition ensure_default_plans (db : Session Db) (ids : nat -> uuid) (now : time) : Session Db :=
  let existing := map BillingPlan.code (billing_plans (sql db)) in
  let '(changed, db) := add_missing_plans existing db ids now DEFAULT_PLANS false in
  if changed then commit db else db.

(** ** Usage *)
Module Usage.
Record Usage : Type := mk {
  mailboxes : Z;
  domains : Z;
  allocated_storage_bytes : Z;
  api_keys : Z;
  hosted_projects : Z;
  hosting_storage_bytes : Z;
  hosting_database_count : Z;
  hosting_database_storage_bytes : Z;
  hosting_source_storage_bytes : Z
}.
End Usage.
Notation Usage := Usage.Usage.

Definition tenant_usage (db : Session Db) (tenant_id : uuid) : Usage :=
  let counted_mailbox m :=
    (Mailbox.tenant_id m =? tenant_id) && (Mailbox.status m !=? MailboxStatus.archived) in
  let mailboxes := sql_count mailboxes counted_mailbox db in
  let domains := sql_count domains
    (fun d => (Domain.tenant_id d =? tenant_id) && (Domain.status d !=? DomainStatus.archived)) db in
  let allocated_storage_bytes := sql_sum Models.mailboxes counted_mailbox Mailbox.quota_bytes db in
  let api_keys := sql_count api_keys
    (fun k => (ApiKey.tenant_id k ==? Some tenant_id) && (ApiKey.revoked_at k ==? None)) db in
  let of_tenant p := HostingProject.tenant_id p =? tenant_id in
  let hosted_projects := sql_count hosting_projects of_tenant db in
  let hosting_storage_mb := sql_sum hosting_projects of_tenant HostingProject.storage_mb db in
  let shared_usage := hosting_resource_usage db tenant_id in
  Usage.mk mailboxes domains allocated_storage_bytes api_keys hosted_projects (hosting_storage_mb * 1024 * 1024)
    (Shared.database_count shared_usage) (Shared.database_storage_bytes shared_usage)
    (Shared.source_storage_bytes shared_usage).

Definition usage_snapshot (new_id : uuid) (now : time) (tenant_id : uuid) (usage : Usage)
    (period_start period_end : option time) : UsageSnapshot :=
  UsageSnapshot.new_UsageSnapshot new_id now
    <| UsageSnapshot.tenant_id := tenant_id |>
    <| UsageSnapshot.mailboxes := Usage.mailboxes usage |>
    <| UsageSnapshot.domains := Usage.domains usage |>
    <| UsageSnapshot.storage_bytes := Usage.allocated_storage_bytes usage |>
    <| UsageSnapshot.api_keys := Usage.api_keys usage |>
    <| UsageSnapshot.hosted_projects := Usage.hosted_projects usage |>
    <| UsageSnapshot.hosting_storage_bytes := Usage.hosting_storage_bytes usage |>
    <| UsageSnapshot.hosting_database_count := Usage.hosting_database_count usage |>
    <| UsageSnapshot.hosting_database_storage_bytes := Usage.hosting_database_storage_bytes usage |>
    <| UsageSnapshot.hosting_source_storage_bytes := Usage.hosting_source_storage_bytes usage |>
    <| UsageSnapshot.period_start := period_start |>
    <| UsageSnapshot.period_end := period_end |>.
Definition capture_usage (db : Session Db) (new_id : uuid) (now : time) (tenant_id : uuid)
    (period_start period_end : option time) : UsageSnapshot * Session Db :=
  let snapshot := usage_snapshot new_id now tenant_id (tenant_usage db tenant_id) period_start period_end in
  (snapshot, commit (add usage_snapshots snapshot db)).

(** ** Subscriptions *)
Definition get_subscription (db : Session Db) (tenant_id : uuid) : option TenantSubscription :=
  scalar tenant_subscriptions (subscription_of tenant_id) db.

(** Leaving [past_due] clears the dunning columns. *)
Definition clear_past_due (s : TenantSubscription) : TenantSubscription :=
  s <| TenantSubscription.past_due_since := None |> <| TenantSubscription.grace_ends_at := None |>.

Definition assign_subscription (db : Session Db) (new_id : uuid) (now : time) (tenant_id : uuid) (plan : BillingPlan)
    (status : SubscriptionStatus) (period_days : Z) : TenantSubscription * Session Db :=
  let '(subscription, is_new) :=
    match get_subscription db tenant_id with
    | None => (TenantSubscription.new_TenantSubscription new_id now
                 <| TenantSubscription.tenant_id := tenant_id |>
                 <| TenantSubscription.provider := "manual" |>, true)
    | Some s => (s <| TenantSubscription.cancel_at_period_end := false |>, false)
    end in
  let subscription := subscription
    <| TenantSubscription.plan_id := BillingPlan.id plan |>
    <| TenantSubscription.status := status |>
    <| TenantSubscription.current_period_start := now |>
    <| TenantSubscription.current_period_end := now + days period_days |> in
  let subscription := if status !=? SubscriptionStatus.past_due then clear_past_due subscription else subscription in
  (subscription, commit (if is_new : bool then add tenant_subscriptions subscription db
                         else put tenant_subscriptions subscription db)).

Definition past_due_row (now : time) (grace_days : Z) (s : TenantSubscription) : TenantSubscription :=
  s <| TenantSubscription.status := SubscriptionStatus.past_due |>
    <| TenantSubscription.past_due_since ::= (fun x => match x with Some t => Some t | None => Some now end) |>
    <| TenantSubscription.grace_ends_at := Some (now + days grace_days) |>.
Definition active_row (s : TenantSubscription) : TenantSubscription :=
  clear_past_due (s <| TenantSubscription.status := SubscriptionStatus.active |>).
Definition mark_past_due (db : Session Db) (now : time) (subscription : TenantSubscription) (grace_days : Z)
    : TenantSubscription * Session Db :=
  let subscription := past_due_row now grace_days subscription in
  (subscription, commit (put tenant_subscriptions subscription db)).
Definition mark_subscription_active (db : Session Db) (subscription : TenantSubscription)
    : TenantSubscription * Session Db :=
  let subscription := active_row subscription in
  (subscription, commit (put tenant_subscriptions subscription db)).

(** ** Limits and overage *)
Module Limits.
Record Limits : Type := mk {
  mailboxes : Z;
  domains : Z;
  storage_bytes : Z;
  api_keys : Z;
  hosted_projects : Z;
  hosting_storage_bytes : Z;
  hosting_memory_mb_per_project : Z;
  hosting_cpu_millicores_per_project : Z;
  hosting_pids_per_project : Z;
  hosting_database_count : Z;
  hosting_database_storage_bytes : Z;
  hosting_source_storage_bytes : Z
}.
End Limits.
Notation Limits := Limits.Limits.

Definition limits_of (plan : BillingPlan) : Limits := {|
  Limits.mailboxes := BillingPlan.included_mailboxes plan;
  Limits.domains := BillingPlan.included_domains plan;
  Limits.storage_bytes := BillingPlan.included_storage_mb plan * 1024 * 1024;
  Limits.api_keys := BillingPlan.max_api_keys plan;
  Limits.hosted_projects := BillingPlan.included_hosted_projects plan;
  Limits.hosting_storage_bytes := BillingPlan.hosting_storage_mb plan * 1024 * 1024;
  Limits.hosting_memory_mb_per_project := BillingPlan.hosting_memory_mb_per_project plan;
  Limits.hosting_cpu_millicores_per_project := BillingPlan.hosting_cpu_millicores_per_project plan;
  Limits.hosting_pids_per_project := BillingPlan.hosting_pids_per_project plan;
  Limits.hosting_database_count := BillingPlan.hosting_database_limit plan;
  Limits.hosting_database_storage_bytes := BillingPlan.hosting_database_storage_mb plan * 1024 * 1024;
  Limits.hosting_source_storage_bytes := BillingPlan.hosting_source_storage_mb plan * 1024 * 1024
|}.

Definition GIB : Z := 1024 * 1024 * 1024.

(** The dict of rates, in minor units. *)
Module Rates.
Record Rates : Type := mk {
  mailboxes : Z;
  domains : Z;
  storage_gb : Z;
  api_keys : Z;
  hosted_projects : Z;
  hosting_storage_gb : Z;
  hosting_database_count : Z;
  hosting_database_storage_gb : Z;
  hosting_source_storage_gb : Z
}.
End Rates.
Notation Rates := Rates.Rates.
Definition overage_rates (plan : BillingPlan) : Rates := {|
  Rates.mailboxes := BillingPlan.overage_mailbox_minor plan;
  Rates.domains := BillingPlan.overage_domain_minor plan;
  Rates.storage_gb := BillingPlan.overage_storage_gb_minor plan;
  Rates.api_keys := BillingPlan.overage_api_key_minor plan;
  Rates.hosted_projects := BillingPlan.overage_hosted_project_minor plan;
  Rates.hosting_storage_gb := BillingPlan.overage_hosting_storage_gb_minor plan;
  Rates.hosting_database_count := BillingPlan.overage_database_minor plan;
  Rates.hosting_database_storage_gb := BillingPlan.overage_database_storage_gb_minor plan;
  Rates.hosting_source_storage_gb := BillingPlan.overage_source_storage_gb_minor plan
|}.

Definition billable_units (used included : Z) (bytes_to_gb : bool) : Z :=
  let extra := Z.max 0 (used - included) in
  if negb bytes_to_gb then extra
  else if negb (extra =? 0) then (extra + GIB - 1) / GIB else 0.

(** A row of [specs]. *)
Module Spec.
Record Spec : Type := mk { metric : string; used : Z; included : Z; rate_minor : Z; bytes_to_gb : bool }.
End Spec.
Notation Spec := Spec.Spec.
Definition overage_specs (plan : BillingPlan) (usage : Usage) : list Spec :=
  let limits := limits_of plan in
  let rates := overage_rates plan in
  [Spec.mk "mailboxes" (Usage.mailboxes usage) (Limits.mailboxes limits) (Rates.mailboxes rates) false;
   Spec.mk "domains" (Usage.domains usage) (Limits.domains limits) (Rates.domains rates) false;
   Spec.mk "storage_gb" (Usage.allocated_storage_bytes usage) (Limits.storage_bytes limits) (Rates.storage_gb rates) true;
   Spec.mk "api_keys" (Usage.api_keys usage) (Limits.api_keys limits) (Rates.api_keys rates) false;
   Spec.mk "hosted_projects" (Usage.hosted_projects usage) (Limits.hosted_projects limits) (Rates.hosted_projects rates) false;
   Spec.mk "hosting_storage_gb" (Usage.hosting_storage_bytes usage) (Limits.hosting_storage_bytes limits)
     (Rates.hosting_storage_gb rates) true;
   Spec.mk "hosting_database_count" (Usage.hosting_database_count usage) (Limits.hosting_database_count limits)
     (Rates.hosting_database_count rates) false;
   Spec.mk "hosting_database_storage_gb" (Usage.hosting_database_storage_bytes usage)
     (Limits.hosting_database_storage_bytes limits) (Rates.hosting_database_storage_gb rates) true;
   Spec.mk "hosting_source_storage_gb" (Usage.hosting_source_storage_bytes usage)
     (Limits.hosting_source_storage_bytes limits) (Rates.hosting_source_storage_gb rates) true].

Module OverageItem.
Record OverageItem : Type := mk { metric : string; units : Z; rate_minor : Z; amount_minor : Z }.
End OverageItem.
Notation OverageItem := OverageItem.OverageItem.

Module Overage.
Record Overage : Type := mk {
  enabled : bool;
  fully_priced : bool;
  currency : string;
  estimated_minor : Z;
  items : list OverageItem;
  unpriced_metrics : list string;
  rates : Rates
}.
End Overage.
Notation Overage := Overage.Overage.

(** One turn of the loop over [specs]. *)
Definition add_overage (metered : bool) (acc : list OverageItem * list string * Z) (s : Spec)
    : list OverageItem * list string * Z :=
  let '(items, unpriced_metrics, total_minor) := acc in
  let units := billable_units (Spec.used s) (Spec.included s) (Spec.bytes_to_gb s) in
  let amount_minor := if metered then units * Spec.rate_minor s else 0 in
  if units =? 0 then acc
  else (items ++ [OverageItem.mk (Spec.metric s) units (Spec.rate_minor s) amount_minor],
        if metered && (Spec.rate_minor s <=? 0) then unpriced_metrics ++ [Spec.metric s] else unpriced_metrics,
        total_minor + amount_minor).

Definition calculate_overage (plan : BillingPlan) (usage : Usage) : Overage :=
  let metered := BillingPlan.allow_metered_overages plan in
  let '(items, unpriced_metrics, total_minor) :=
    fold_left (add_overage metered) (overage_specs plan usage) ([], [], 0) in
  Overage.mk metered (metered && (unpriced_metrics ==? [])) (BillingPlan.currency plan) total_minor
    items unpriced_metrics (overage_rates plan).

Definition rates_json (r : Rates) : Json :=
  JObj [("mailboxes", JInt (Rates.mailboxes r)); ("domains", JInt (Rates.domains r));
        ("storage_gb", JInt (Rates.storage_gb r)); ("api_keys", JInt (Rates.api_keys r));
        ("hosted_projects", JInt (Rates.hosted_projects r)); ("hosting_storage_gb", JInt (Rates.hosting_storage_gb r));
        ("hosting_database_count", JInt (Rates.hosting_database_count r));
        ("hosting_database_storage_gb", JInt (Rates.hosting_database_storage_gb r));
        ("hosting_source_storage_gb", JInt (Rates.hosting_source_storage_gb r))].
Definition item_json (i : OverageItem) : Json :=
  JObj [("metric", JStr (OverageItem.metric i)); ("units", JInt (OverageItem.units i));
        ("rate_minor", JInt (OverageItem.rate_minor i)); ("amount_minor", JInt (OverageItem.amount_minor i))].
Definition overage_json (o : Overage) : Json :=
  JObj [("enabled", JBool (Overage.enabled o)); ("fully_priced", JBool (Overage.fully_priced o));
        ("currency", JStr (Overage.currency o)); ("estimated_minor", JInt (Overage.estimated_minor o));
        ("items", JArr (map item_json (Overage.items o)));
        ("unpriced_metrics", JArr (map JStr (Overage.unpriced_metrics o))); ("rates", rates_json (Overage.rates o))].

(** ** Entitlements *)
Definition can_meter_resource (plan : BillingPlan) (resource : string) (usage : Usage) (limits : Limits)
    (requested_storage_bytes : Z) : bool :=
  if negb (BillingPlan.allow_metered_overages plan) then false
  else
    let rates := overage_rates plan in
    let both (count_over storage_over : bool) count_rate storage_rate :=
      (negb count_over || (0 <? count_rate)) && (negb storage_over || (0 <? storage_rate)) in
    if resource ==? "domain" then 0 <? Rates.domains rates
    else if resource ==? "api_key" then 0 <? Rates.api_keys rates
    else if resource ==? "storage" then 0 <? Rates.storage_gb rates
    else if resource ==? "hosting_storage" then 0 <? Rates.hosting_storage_gb rates
    else if resource ==? "hosting_database_storage" then 0 <? Rates.hosting_database_storage_gb rates
    else if resource ==? "hosting_source_storage" then 0 <? Rates.hosting_source_storage_gb rates
    else if resource ==? "mailbox" then
      both (Limits.mailboxes limits <? Usage.mailboxes usage + 1)
        (Limits.storage_bytes limits <? Usage.allocated_storage_bytes usage + requested_storage_bytes)
        (Rates.mailboxes rates) (Rates.storage_gb rates)
    else if resource ==? "hosting_project" then
      both (Limits.hosted_projects limits <? Usage.hosted_projects usage + 1)
        (Limits.hosting_storage_bytes limits <? Usage.hosting_storage_bytes usage + requested_storage_bytes)
        (Rates.hosted_projects rates) (Rates.hosting_storage_gb rates)
    else if resource ==? "hosting_database" then
      both (Limits.hosting_database_count limits <? Usage.hosting_database_count usage + 1)
        (Limits.hosting_database_storage_bytes limits <? Usage.hosting_database_storage_bytes usage + requested_storage_bytes)
        (Rates.hosting_database_count rates) (Rates.hosting_database_storage_gb rates)
    else false.

(** The dict [checks]. *)
Definition entitlement_checks (usage : Usage) (limits : Limits) (requested_storage_bytes : Z) : list (string * bool) :=
  let storage used limit := used + requested_storage_bytes <=? limit in
  [("domain", Usage.domains usage + 1 <=? Limits.domains limits);
   ("mailbox", (Usage.mailboxes usage + 1 <=? Limits.mailboxes limits) &&
               storage (Usage.allocated_storage_bytes usage) (Limits.storage_bytes limits));
   ("storage", storage (Usage.allocated_storage_bytes usage) (Limits.storage_bytes limits));
   ("api_key", Usage.api_keys usage + 1 <=? Limits.api_keys limits);
   ("hosting_project", (0 <? Limits.hosted_projects limits) &&
                       (Usage.hosted_projects usage + 1 <=? Limits.hosted_projects limits) &&
                       storage (Usage.hosting_storage_bytes usage) (Limits.hosting_storage_bytes limits));
   ("hosting_storage", storage (Usage.hosting_storage_bytes usage) (Limits.hosting_storage_bytes limits));
   ("hosting_database", (Usage.hosting_database_count usage + 1 <=? Limits.hosting_database_count limits) &&
                        storage (Usage.hosting_database_storage_bytes usage) (Limits.hosting_database_storage_bytes limits));
   ("hosting_database_storage",
      storage (Usage.hosting_database_storage_bytes usage) (Limits.hosting_database_storage_bytes limits));
   ("hosting_source_storage",
      storage (Usage.hosting_source_storage_bytes usage) (Limits.hosting_source_storage_bytes limits))].

(** The dict of [entitlement_decision]; the last four keys are only present when
    the plan has been consulted. *)
Module Decision.
Record Decision : Type := mk {
  allowed : bool;
  reason : string;
  usage : Usage;
  limits : option Limits;
  metered : option (SubscriptionStatus * option time * bool * Overage)
}.
Definition denied (reason : string) (usage : Usage) (limits : option Limits) : Decision :=
  mk false reason usage limits None.
End Decision.
Notation Decision := Decision.Decision.

(** Why the subscription gives no right to new resources. *)
Definition subscription_block (s : TenantSubscription) (now : time) : option string :=
  let status := TenantSubscription.status s in
  if status ==? SubscriptionStatus.canceled then Some "Subscription is canceled"
  else if (status ==? SubscriptionStatus.past_due) &&
          match TenantSubscription.grace_ends_at s with None => true | Some g => g <=? now end
  then Some "Payment grace period has expired"
  else if status notin? [SubscriptionStatus.trialing; SubscriptionStatus.active; SubscriptionStatus.past_due]
  then Some "Subscription does not allow new resources"
  else None.

Definition entitlement_decision (db : Session Db) (tenant_id : uuid) (resource : string)
    (requested_storage_bytes : Z) (now : time) : result Decision :=
  let usage := tenant_usage db tenant_id in
  match get_subscription db tenant_id with
  | None => Ok (Decision.denied "No active subscription" usage None)
  | Some subscription =>
    let plan := match get billing_plans (TenantSubscription.plan_id subscription) db with
      | Some p => if BillingPlan.is_active p then Some p else None | None => None end in
    match plan with
    | None => Ok (Decision.denied "Billing plan is unavailable" usage None)
    | Some plan =>
      let limits := limits_of plan in
      match subscription_block subscription now with
      | Some reason => Ok (Decision.denied reason usage (Some limits))
      | None =>
        match dict_get resource (entitlement_checks usage limits requested_storage_bytes) with
        | None => Err (ValueError ("Unknown entitlement resource: " ++ resource)%string)
        | Some within_plan =>
            let metered := if within_plan then false
              else can_meter_resource plan resource usage limits requested_storage_bytes in
            let reason := if within_plan then "within plan"
              else if metered then "metered overage" else (resource ++ " entitlement limit reached")%string in
            Ok (Decision.mk (within_plan || metered) reason usage (Some limits)
                  (Some (TenantSubscription.status subscription, TenantSubscription.grace_ends_at subscription, metered,
                         calculate_overage plan usage)))
        end
      end
    end
  end.

(** [environment] is [settings.environment]. *)
Definition require_entitlement (environment : string) (db : Session Db) (tenant_id : uuid) (resource : string)
    (requested_storage_bytes : Z) (now : time) : result unit :=
  if lower environment !=? "production" then Ok tt
  else
    let* decision := entitlement_decision db tenant_id resource requested_storage_bytes now in
    ensure Decision.allowed decision else_raise ValueError (Decision.reason decision); Ok tt.

(** ** Invoices *)
Definition period_invoice (tenant_id : uuid) (s : TenantSubscription) (i : BillingInvoice) : bool :=
  (BillingInvoice.tenant_id i =? tenant_id) &&
  (BillingInvoice.period_start i ==? Some (TenantSubscription.current_period_start s)) &&
  (BillingInvoice.period_end i ==? Some (TenantSubscription.current_period_end s)) &&
  (BillingInvoice.status i !=? InvoiceStatus.void).

(** [serial] is [uuid4().hex[:10].upper()]. *)
Definition new_invoice (new_id : uuid) (serial : string) (now : time) (due_days : Z) (tenant_id : uuid)
    (subscription : TenantSubscription) (plan : BillingPlan) (snapshot : UsageSnapshot) (overage : Overage) : BillingInvoice :=
  let base_amount := BillingPlan.monthly_price_minor plan in
  let overage_amount := Overage.estimated_minor overage in
  let total := base_amount + overage_amount in
  BillingInvoice.new_BillingInvoice new_id now
    <| BillingInvoice.tenant_id := tenant_id |>
    <| BillingInvoice.subscription_id := Some (TenantSubscription.id subscription) |>
    <| BillingInvoice.usage_snapshot_id := Some (UsageSnapshot.id snapshot) |>
    <| BillingInvoice.invoice_number := ("MDNS-" ++ format_ymd (date_of_time now) ++ "-" ++ serial)%string |>
    <| BillingInvoice.currency := BillingPlan.currency plan |>
    <| BillingInvoice.base_amount_minor := base_amount |>
    <| BillingInvoice.overage_amount_minor := overage_amount |>
    <| BillingInvoice.usage_breakdown_json := json_dumps_sorted (overage_json overage) |>
    <| BillingInvoice.subtotal_minor := total |>
    <| BillingInvoice.total_minor := total |>
    <| BillingInvoice.status := InvoiceStatus.open |>
    <| BillingInvoice.period_start := Some (TenantSubscription.current_period_start subscription) |>
    <| BillingInvoice.period_end := Some (TenantSubscription.current_period_end subscription) |>
    <| BillingInvoice.due_at := Some (now + days due_days) |>
    <| BillingInvoice.finalized_at := Some now |>.

Definition generate_invoice (db : Session Db) (snapshot_id invoice_id : uuid) (serial : string) (now : time)
    (tenant_id : uuid) (due_days : Z) : result (BillingInvoice * Session Db) :=
  match get_subscription db tenant_id with
  | None => Err (ValueError "Tenant has no subscription")
  | Some subscription =>
    match get billing_plans (TenantSubscription.plan_id subscription) db with
    | None => Err (ValueError "Subscription billing plan is unavailable")
    | Some plan =>
      match scalar billing_invoices (period_invoice tenant_id subscription) db with
      | Some existing => Ok (existing, db)
      | None =>
          let overage := calculate_overage plan (tenant_usage db tenant_id) in
          let '(snapshot, db) := capture_usage db snapshot_id now tenant_id
            (Some (TenantSubscription.current_period_start subscription))
            (Some (TenantSubscription.current_period_end subscription)) in
          let invoice := new_invoice invoice_id serial now due_days tenant_id subscription plan snapshot overage in
          Ok (invoice, commit (add billing_invoices invoice db))
      end
    end
  end.

(** ** The payment webhook *)
Section Webhook.
Context (sha256 : string -> string) (hmac_sha256 : string -> string -> string).

Definition verify_webhook_signature (raw_body : string) (signature : option string) (secret : string) : result bool :=
  let signature := opt_str signature in
  if negb (str_truthy signature) || negb (str_truthy secret) then Ok false
  else
    let supplied := strip signature in
    let supplied := match after_prefix "sha256=" supplied with Some s => s | None => supplied end in
    compare_digest (hmac_sha256 secret raw_body) supplied.

(** [payload.get(k)] as an optional UUID *)
Definition payload_uuid (payload : list (string * Json)) (k : string) : result (option uuid) :=
  let v := jget k payload in
  if truthy v then let* u := uuid_of_str (py_str v) in Ok (Some u) else Ok None.

(** The body of the [try]: the session keeps what was assigned before an error. *)
Definition apply_payment_event (db : Session Db) (now : time) (event : BillingPaymentEvent) (grace_days : Z)
    : result unit * Session Db :=
  let raise msg db := (Err (ValueError msg), db) in
  let event_type := BillingPaymentEvent.event_type event in
  if negb (BillingPaymentEvent.signature_valid event) then raise "Invalid webhook signature" db
  else
    let invoice := match BillingPaymentEvent.invoice_id event with Some i => get billing_invoices i db | None => None end in
    let subscription := match BillingPaymentEvent.tenant_id event with Some t => get_subscription db t | None => None end in
    let save s db := put tenant_subscriptions s db in
    if match invoice, BillingPaymentEvent.tenant_id event with
       | Some i, Some t => negb (BillingInvoice.tenant_id i =? t) | _, _ => false end
    then raise "Invoice does not belong to webhook tenant" db
    else if event_type ==? "invoice.paid" then
      match invoice with
      | None => raise "Invoice not found" db
      | Some invoice =>
          let db := put billing_invoices (invoice <| BillingInvoice.status := InvoiceStatus.paid |>
                                                  <| BillingInvoice.paid_at := Some now |>) db in
          (Ok tt, match subscription with Some s => save (active_row s) db | None => db end)
      end
    else if event_type in? ["invoice.payment_failed"; "invoice.past_due"] then
      let db := match invoice with
        | Some i => if BillingInvoice.status i !=? InvoiceStatus.paid
                    then put billing_invoices (i <| BillingInvoice.status := InvoiceStatus.open |>) db else db
        | None => db end in
      match subscription with
      | None => raise "Subscription not found" db
      | Some s => (Ok tt, save (past_due_row now grace_days s) db)
      end
    else if event_type ==? "subscription.canceled" then
      match subscription with
      | None => raise "Subscription not found" db
      | Some s => (Ok tt, save (s <| TenantSubscription.status := SubscriptionStatus.canceled |>
                                  <| TenantSubscription.grace_ends_at := None |>) db)
      end
    else if event_type ==? "subscription.active" then
      match subscription with
      | None => raise "Subscription not found" db
      | Some s => (Ok tt, save (active_row s) db)
      end
    else raise ("Unsupported billing event type: " ++ event_type)%string db.

Definition exn_message (e : exn) : string :=
  match e with
  | ValueError m | LookupError m | RuntimeError m | TypeError m | PermissionError m | OverflowError m
  | HTTPException _ m | IntegrityError m | DataError m | AttributeError m | ApprovalRequiredError m | EventConflict m => m
  | AssertionError => EmptyString
  end.

Definition payment_event (new_id : uuid) (now : time) (provider event_id event_type payload_hash : string)
    (tenant_id invoice_id : option uuid) (signature_valid : bool) : BillingPaymentEvent :=
  BillingPaymentEvent.new_BillingPaymentEvent new_id now
    <| BillingPaymentEvent.provider := provider |> <| BillingPaymentEvent.event_id := event_id |>
    <| BillingPaymentEvent.event_type := event_type |> <| BillingPaymentEvent.tenant_id := tenant_id |>
    <| BillingPaymentEvent.invoice_id := invoice_id |> <| BillingPaymentEvent.payload_hash := payload_hash |>
    <| BillingPaymentEvent.signature_valid := signature_valid |> <| BillingPaymentEvent.processed := false |>.

Definition same_event (provider event_id : string) (e : BillingPaymentEvent) : bool :=
  (BillingPaymentEvent.provider e ==? provider) && (BillingPaymentEvent.event_id e ==? event_id).

Definition process_payment_event (db : Session Db) (new_id : uuid) (now : time) (provider event_id event_type : string)
    (payload : list (string * Json)) (raw_body : string) (signature_valid : bool) (grace_days : Z)
    : result (BillingPaymentEvent * bool) * Session Db :=
  let provider := lower (strip provider) in
  let payload_hash := sha256 raw_body in
  match scalar billing_payment_events (same_event provider event_id) db with
  | Some existing =>
      if (BillingPaymentEvent.payload_hash existing !=? payload_hash) ||
         (BillingPaymentEvent.event_type existing !=? event_type)
      then (Err (ValueError "Webhook event_id was reused with different content"), db)
      else (Ok (existing, true), db)
  | None =>
    match payload_uuid payload "tenant_id", payload_uuid payload "invoice_id" with
    | Err e, _ => (Err e, db)
    | _, Err e => (Err e, db)
    | Ok tenant_id, Ok invoice_id =>
        let event := payment_event new_id now provider event_id event_type payload_hash tenant_id invoice_id signature_valid in
        let db := flush (add billing_payment_events event db) in
        match apply_payment_event db now event grace_days with
        | (Ok _, db) =>
            let event := event <| BillingPaymentEvent.processed := true |>
              <| BillingPaymentEvent.processed_at := Some now |> <| BillingPaymentEvent.error_message := None |> in
            (Ok (event, false), commit (put billing_payment_events event db))
        | (Err e, db) =>
            let event := event <| BillingPaymentEvent.processed := false |>
              <| BillingPaymentEvent.error_message := Some (str_take 500 (exn_message e)) |> in
            (Err e, commit (put billing_payment_events event db))
        end
    end
  end.

(** [provider.replace("-", "").replace("_", "").isalnum()] *)
Definition is_alnum (c : ascii) : bool :=
  let n := ord (lower_char c) in is_digit c || ((97 <=? n) && (n <=? 122)).
Definition provider_name (provider : string) : bool :=
  let s := list_ascii_of_string (remove "_" (remove "-" provider)) in
  match s with [] => false | _ => forallb is_alnum s end.
Definition slen (s : string) : Z := Z.of_nat (String.length s).

(** [billing_webhook] of [app/api/v1/billing.py]; [secret] and [grace_days] are settings. *)
Definition billing_webhook (secret : string) (grace_days : Z) (db : Session Db) (new_id : uuid) (now : time)
    (provider raw_body : string) (signature : option string) : result (BillingPaymentEvent * bool) * Session Db :=
  let raise code detail := (Err (HTTPException code detail), db) in
  let provider := lower (strip provider) in
  if negb (str_truthy provider) || (40 <? slen provider) || negb (provider_name provider)
  then raise 422 "Invalid billing provider"
  else if negb (str_truthy secret) then raise 503 "Billing webhook secret is not configured"
  else
    match verify_webhook_signature raw_body signature secret with
    | Err e => (Err e, db)
    | Ok false => raise 401 "Invalid billing webhook signature"
    | Ok true =>
      match json_loads raw_body with
      | None => raise 400 "Webhook body must be valid JSON"
      | Some (JObj payload) =>
          let event_id := strip (py_str (jor (jget "event_id" payload) (JStr EmptyString))) in
          let event_type := strip (py_str (jor (jget "event_type" payload) (JStr EmptyString))) in
          if negb (str_truthy event_id) || (180 <? slen event_id)
          then raise 422 "event_id is required and must be at most 180 characters"
          else if negb (str_truthy event_type) || (120 <? slen event_type)
          then raise 422 "event_type is required and must be at most 120 characters"
          else
            match process_payment_event db new_id now provider event_id event_type payload raw_body true grace_days with
            | (Err (ValueError m), db) => (Err (HTTPException 409 m), db)
            | r => r
            end
      | Some _ => raise 400 "Webhook body must be a JSON object"
      end
    end.
End Webhook.

(** ** [billing_summary] *)
Definition within_plan (usage : Usage) (limits : Limits) : bool :=
  (Usage.mailboxes usage <=? Limits.mailboxes limits) && (Usage.domains usage <=? Limits.domains limits) &&
  (Usage.allocated_storage_bytes usage <=? Limits.storage_bytes limits) && (Usage.api_keys usage <=? Limits.api_keys limits) &&
  (Usage.hosted_projects usage <=? Limits.hosted_projects limits) &&
  (Usage.hosting_storage_bytes usage <=? Limits.hosting_storage_bytes limits) &&
  (Usage.hosting_database_count usage <=? Limits.hosting_database_count limits) &&
  (Usage.hosting_database_storage_bytes usage <=? Limits.hosting_database_storage_bytes limits) &&
  (Usage.hosting_source_storage_bytes usage <=? Limits.hosting_source_storage_bytes limits).

(** The plans of the summary: entitlement, base and pending plan. *)
Module Summary.
Record Summary : Type := mk {
  subscription : option TenantSubscription;
  plans : option (BillingPlan * BillingPlan * option BillingPlan);
  usage : Usage;
  entitlements : option Limits;
  within_plan : bool;
  commercial_capacity_status : option string;
  overage : option Overage
}.
End Summary.
Notation Summary := Summary.Summary.

Definition billing_summary (db : Session Db) (tenant_id : uuid) : Summary :=
  let usage := tenant_usage db tenant_id in
  match get_subscription db tenant_id with
  | None => Summary.mk None None usage None false None None
  | Some subscription =>
    match get billing_plans (TenantSubscription.plan_id subscription) db with
    | None => Summary.mk (Some subscription) None usage None false None None
    | Some entitlement_plan =>
      let base_id := match TenantSubscription.base_plan_id subscription with
        | Some b => b | None => TenantSubscription.plan_id subscription end in
      let base_plan := match get billing_plans base_id db with Some p => p | None => entitlement_plan end in
      let pending_plan := match TenantSubscription.pending_plan_id subscription with
        | Some p => get billing_plans p db | None => None end in
      let limits := limits_of entitlement_plan in
      let within := within_plan usage limits in
      let overage := calculate_overage entitlement_plan usage in
      let status := if within then "within_plan"
        else if Overage.fully_priced overage then "metered_overage" else "over_limit" in
      Summary.mk (Some subscription) (Some (entitlement_plan, base_plan, pending_plan)) usage (Some limits) within
        (Some status) (Some overage)
    end
  end.

(** ** Overage *)
#[local] Arguments overage_specs : simpl never.
Definition exceeds (s : Spec) : bool := Spec.included s <? Spec.used s.
Definition charged_units (s : Spec) : Z := billable_units (Spec.used s) (Spec.included s) (Spec.bytes_to_gb s).
Definition item_of (metered : bool) (s : Spec) : OverageItem :=
  OverageItem.mk (Spec.metric s) (charged_units s) (Spec.rate_minor s)
    (if metered then charged_units s * Spec.rate_minor s else 0).

(** Gigabytes are rounded up: the least number of units that covers the excess. *)
Lemma billable_units_spec used included gb :
  let n := billable_units used included gb in
  let extra := Z.max 0 (used - included) in
  if gb : bool then 0 <= n /\ (n - 1) * GIB < extra <= n * GIB \/ n = 0 /\ extra = 0 else n = extra.
Proof.
  unfold billable_units, GIB. destruct gb; [|done]. simpl.
  bdestruct (Z.max 0 (used - included) =? 0); simpl; [by right|left].
  Z.to_euclidean_division_equations. lia.
Qed.
Lemma charged_units_zero s : charged_units s = 0 <-> exceeds s = false.
Proof.
  unfold charged_units, exceeds. pose proof (billable_units_spec (Spec.used s) (Spec.included s) (Spec.bytes_to_gb s)) as H.
  rewrite Z.ltb_ge. unfold GIB in H. destruct (Spec.bytes_to_gb s); lia.
Qed.

Lemma fold_overage metered specs items unpriced total :
  fold_left (add_overage metered) specs (items, unpriced, total) =
  (items ++ map (item_of metered) (List.filter exceeds specs),
   unpriced ++ map Spec.metric (List.filter (fun s => metered && exceeds s && (Spec.rate_minor s <=? 0)) specs),
   total + sum_by OverageItem.amount_minor (map (item_of metered) (List.filter exceeds specs))).
Proof.
  revert items unpriced total. induction specs as [|s specs IH]; intros items unpriced total; simpl.
  - unfold sum_by. simpl. by rewrite !app_nil_r, Z.add_0_r.
  - fold (charged_units s). destruct (exceeds s) eqn:Ex.
    + bdestruct (charged_units s =? 0); [by apply charged_units_zero in E; congruence|].
      rewrite IH. rewrite andb_true_r.  destruct (metered && _) eqn:Em; simpl;
        rewrite <- ?app_assoc; apply pair_eq; (split; [done|]); unfold sum_by, item_of, charged_units; simpl; lia.
    + apply charged_units_zero in Ex. rewrite Ex. simpl. rewrite andb_false_r. simpl. apply IH.
Qed.

Lemma calculate_overage_items plan usage :
  let o := calculate_overage plan usage in
  let metered := BillingPlan.allow_metered_overages plan in
  Overage.items o = map (item_of metered) (List.filter exceeds (overage_specs plan usage)) /\
  Overage.estimated_minor o = sum_by OverageItem.amount_minor (Overage.items o) /\
  (Overage.fully_priced o = true <->
   metered = true /\ forall s, s ∈ overage_specs plan usage -> exceeds s = true -> 0 < Spec.rate_minor s).
Proof.
  unfold calculate_overage. rewrite fold_overage. cbn [Overage.items Overage.estimated_minor Overage.fully_priced].
  rewrite !app_nil_l. generalize (overage_specs plan usage). intros specs. split_and!; [done|done|].
  rewrite andb_true_iff, bool_decide_eq_true. destruct (BillingPlan.allow_metered_overages plan); [|by split; intros [? ?]]. simpl.
  split; intros [_ Hn]; (split; [done|]).
  - intros s Hs Hex. destruct (Z.leb_spec (Spec.rate_minor s) 0); [|done]. exfalso.
    apply map_eq_nil in Hn. assert (In s (List.filter (fun s => exceeds s && (Spec.rate_minor s <=? 0)) specs)) as Hin.
    { apply filter_In. rewrite <- list_elem_of_In, Hex. split; [done|]. simpl. by apply Z.leb_le. }
    by rewrite Hn in Hin.
  - destruct (List.filter _ specs) as [|s l] eqn:E; [done|]. exfalso.
    assert (In s (s :: l)) as Hin by by left. rewrite <- E, filter_In, andb_true_iff, <- list_elem_of_In, Z.leb_le in Hin.
    destruct Hin as (Hin & Hex & Hr). specialize (Hn s Hin Hex). lia.
Qed.

(** [within_plan] of the summary is the absence of billable overage. *)
Lemma within_plan_specs plan usage :
  within_plan usage (limits_of plan) = true <-> List.filter exceeds (overage_specs plan usage) = [].
Proof.
  transitivity (Forall (fun s => Spec.used s <= Spec.included s) (overage_specs plan usage)).
  - unfold within_plan, overage_specs. rewrite !andb_true_iff, !Z.leb_le, !Forall_cons, Forall_nil.
    cbn [Spec.used Spec.included]. tauto.
  - generalize (overage_specs plan usage). induction l as [|s l IH]; simpl; [done|].
    rewrite Forall_cons, IH. unfold exceeds at 2. bdestruct (Spec.included s <? Spec.used s).
    + split; [lia|done].
    + intuition lia.
Qed.

(** C12.  The overage of a plan lists exactly the metrics whose usage exceeds the
    plan, with the excess in units (for storage the least number of whole
    gigabytes that covers it); the estimate is the sum of the amounts, nothing
    when the plan does not meter overage and units times rate when it does; it
    is fully priced when every exceeded metric has a positive rate; and it is
    empty exactly when the billing summary says "within plan". *)
Theorem calculate_overage_correct plan usage :
  let o := calculate_overage plan usage in
  let metered := BillingPlan.allow_metered_overages plan in
  Overage.items o = map (item_of metered) (List.filter exceeds (overage_specs plan usage)) /\
  (forall s, s ∈ overage_specs plan usage -> exceeds s = true ->
     let extra := Spec.used s - Spec.included s in
     if Spec.bytes_to_gb s then (charged_units s - 1) * GIB < extra <= charged_units s * GIB
     else charged_units s = extra) /\
  Overage.estimated_minor o = sum_by OverageItem.amount_minor (Overage.items o) /\
  (metered = false -> Overage.estimated_minor o = 0) /\
  (Overage.fully_priced o = true -> 0 < Overage.estimated_minor o \/ Overage.items o = []) /\
  (Overage.items o = [] <-> within_plan usage (limits_of plan) = true).
Proof.
  intros o metered. destruct (calculate_overage_items plan usage) as (Hi & He & Hp). split_and!.
  - done.
  - intros s _ Hex extra. pose proof (billable_units_spec (Spec.used s) (Spec.included s) (Spec.bytes_to_gb s)) as H.
    fold (charged_units s) in H. apply Z.ltb_lt in Hex. subst extra. unfold GIB in *. destruct (Spec.bytes_to_gb s); lia.
  - done.
  - intros Hm. unfold o. rewrite He, Hi. fold metered. rewrite Hm. generalize (List.filter exceeds (overage_specs plan usage)).
    intros l. unfold sum_by. rewrite map_map. induction l; simpl in *; [done|lia].
  - intros [Hm Hall]%Hp. unfold o. rewrite He, Hi, Hm.
    assert (forall s, s ∈ List.filter exceeds (overage_specs plan usage) -> 0 < OverageItem.amount_minor (item_of true s)) as Hpos.
    { intros s Hs. rewrite list_elem_of_In, filter_In, <- list_elem_of_In in Hs. destruct Hs as [Hs Hex].
      specialize (Hall s Hs Hex). simpl. apply Z.mul_pos_pos; [|done].
      pose proof (billable_units_spec (Spec.used s) (Spec.included s) (Spec.bytes_to_gb s)) as H.
      fold (charged_units s) in H. apply Z.ltb_lt in Hex. unfold GIB in *. destruct (Spec.bytes_to_gb s); lia. }
    revert Hpos. generalize (List.filter exceeds (overage_specs plan usage)). intros [|s l] Hpos; [by right|left].
    unfold sum_by. simpl.
    pose proof (Hpos s ltac:(apply elem_of_cons; by left)) as H0. assert (0 <= zsum (map OverageItem.amount_minor (map (item_of true) l))); [|simpl in *; lia].
    apply sum_by_nonneg, Forall_map, Forall_forall. intros x Hx. apply Z.lt_le_incl, Hpos, elem_of_cons. by right.
  - rewrite within_plan_specs. unfold o. rewrite Hi. split; [apply map_eq_nil|by intros ->].
Qed.

(** ** Entitlements: the abstract rule *)

(** What a request asks of each dimension: the usage it leads to, the limit and
    the overage rate. *)
Module Demand.
Record Demand : Type := mk { wanted : Z; limit : Z; rate : Z }.
End Demand.
Notation Demand := Demand.Demand.

Definition demands (plan : BillingPlan) (usage : Usage) (resource : string) (requested : Z) : option (list Demand) :=
  let limits := limits_of plan in
  let rates := overage_rates plan in
  let mailboxes := Demand.mk (Usage.mailboxes usage + 1) (Limits.mailboxes limits) (Rates.mailboxes rates) in
  let storage := Demand.mk (Usage.allocated_storage_bytes usage + requested) (Limits.storage_bytes limits) (Rates.storage_gb rates) in
  let projects := Demand.mk (Usage.hosted_projects usage + 1) (Limits.hosted_projects limits) (Rates.hosted_projects rates) in
  let hosting := Demand.mk (Usage.hosting_storage_bytes usage + requested) (Limits.hosting_storage_bytes limits)
    (Rates.hosting_storage_gb rates) in
  let databases := Demand.mk (Usage.hosting_database_count usage + 1) (Limits.hosting_database_count limits)
    (Rates.hosting_database_count rates) in
  let database_storage := Demand.mk (Usage.hosting_database_storage_bytes usage + requested)
    (Limits.hosting_database_storage_bytes limits) (Rates.hosting_database_storage_gb rates) in
  let source_storage := Demand.mk (Usage.hosting_source_storage_bytes usage + requested)
    (Limits.hosting_source_storage_bytes limits) (Rates.hosting_source_storage_gb rates) in
  dict_get resource
    [("domain", [Demand.mk (Usage.domains usage + 1) (Limits.domains limits) (Rates.domains rates)]);
     ("mailbox", [mailboxes; storage]); ("storage", [storage]);
     ("api_key", [Demand.mk (Usage.api_keys usage + 1) (Limits.api_keys limits) (Rates.api_keys rates)]);
     ("hosting_project", [projects; hosting]); ("hosting_storage", [hosting]);
     ("hosting_database", [databases; database_storage]); ("hosting_database_storage", [database_storage]);
     ("hosting_source_storage", [source_storage])].

Definition demand_fits (d : Demand) : bool := Demand.wanted d <=? Demand.limit d.
(** A dimension fits, or its overage is metered at a price. *)
Definition demand_granted (metered : bool) (d : Demand) : bool := demand_fits d || (metered && (0 <? Demand.rate d)).

(** The subscription is trialing, active, or past due within its grace period. *)
Definition in_good_standing (s : TenantSubscription) (now : time) : Prop :=
  TenantSubscription.status s = SubscriptionStatus.trialing \/ TenantSubscription.status s = SubscriptionStatus.active \/
  TenantSubscription.status s = SubscriptionStatus.past_due /\
    exists g, TenantSubscription.grace_ends_at s = Some g /\ now < g.

Lemma subscription_block_none s now : subscription_block s now = None <-> in_good_standing s now.
Proof.
  unfold subscription_block, in_good_standing.
  destruct (TenantSubscription.status s); cbn; try naive_solver.
  destruct (TenantSubscription.grace_ends_at s) as [g|]; cbn; [|naive_solver].
  bdestruct (g <=? now); cbn; split; intros; try done.
  - destruct H as [?|[?|(_ & g' & [= <-] & ?)]]; [done..|lia].
  - right; right. by eauto.
Qed.

Lemma tenant_usage_nonneg db t : 0 <= Usage.hosted_projects (tenant_usage db t).
Proof. unfold tenant_usage, sql_count, zlen. simpl. lia. Qed.

(** The [checks] of the code and its metering rules are the abstract rule. *)
Lemma entitlement_checks_demands plan usage resource requested :
  0 <= Usage.hosted_projects usage ->
  match demands plan usage resource requested with
  | None => dict_get resource (entitlement_checks usage (limits_of plan) requested) = None
  | Some ds => exists b, dict_get resource (entitlement_checks usage (limits_of plan) requested) = Some b /\
      b = forallb demand_fits ds /\
      (b = false -> can_meter_resource plan resource usage (limits_of plan) requested =
         forallb (demand_granted (BillingPlan.allow_metered_overages plan)) ds)
  end.
Proof.
  intros Hp. assert (Hpos : forall l, (0 <? l) && (Usage.hosted_projects usage + 1 <=? l) = (Usage.hosted_projects usage + 1 <=? l)).
  { intros l. destruct (Z.leb_spec (Usage.hosted_projects usage + 1) l); [|by rewrite andb_false_r].
    rewrite andb_true_r. apply Z.ltb_lt. lia. }
  unfold demands, entitlement_checks, can_meter_resource. cbn [dict_get].
  repeat match goal with |- context [String.eqb resource ?k] =>
    destruct (String.eqb_spec resource k) as [->|_] end; [..|reflexivity].
  all: eexists; split; [reflexivity|].
  all: cbn -[Z.add Z.leb Z.ltb limits_of]; unfold demand_granted, demand_fits; cbn -[Z.add Z.leb Z.ltb].
  all: rewrite ?andb_true_r, ?Hpos; split; [done|].
  all: destruct (BillingPlan.allow_metered_overages plan); cbn -[Z.add Z.leb Z.ltb];
    rewrite ?orb_false_r; [|by intros ->].
  all: repeat (rewrite bool_decide_eq_false_2 by done); rewrite ?bool_decide_eq_true_2 by done;
    rewrite <- ?Z.leb_antisym; first [done|by intros ->].
Qed.

(** C7.  An entitlement request for a known resource is granted exactly when the
    tenant's subscription is in good standing with an active plan and every
    dimension the resource needs fits the plan or is metered at a positive price;
    the reason says which of the two it was. *)
Theorem entitlement_allowed_iff db tenant_id resource requested now d :
  entitlement_decision db tenant_id resource requested now = Ok d ->
  (Decision.allowed d = true <->
   exists s plan ds, get_subscription db tenant_id = Some s /\
     get billing_plans (TenantSubscription.plan_id s) db = Some plan /\ BillingPlan.is_active plan = true /\
     in_good_standing s now /\
     demands plan (tenant_usage db tenant_id) resource requested = Some ds /\
     Forall (fun d => demand_granted (BillingPlan.allow_metered_overages plan) d = true) ds /\
     (Decision.reason d = "within plan" <-> Forall (fun d => demand_fits d = true) ds)).
Proof.
  unfold entitlement_decision. set (usage := tenant_usage db tenant_id).
  destruct (get_subscription db tenant_id) as [s|] eqn:Es; [|intros [= <-]; simpl; naive_solver].
  destruct (get billing_plans _ db) as [plan|] eqn:Ep; [|intros [= <-]; simpl; naive_solver].
  destruct (BillingPlan.is_active plan) eqn:Ea; [|intros [= <-]; simpl; naive_solver].
  destruct (subscription_block s now) eqn:Eb.
  { intros [= <-]. simpl. split; [done|]. intros (? & ? & ? & [= <-] & ? & ? & Hg & _).
    apply subscription_block_none in Hg. congruence. }
  apply subscription_block_none in Eb.
  pose proof (entitlement_checks_demands plan usage resource requested (tenant_usage_nonneg db tenant_id)) as Hc.
  destruct (demands plan usage resource requested) as [ds|] eqn:Ed; [|by rewrite Hc].
  destruct Hc as (b & -> & Hb & Hm). intros [= <-]. cbn [Decision.allowed Decision.reason].
  assert (Hfits : b = true <-> Forall (fun d => demand_fits d = true) ds)
    by (rewrite Hb, forallb_forall, Forall_forall; by setoid_rewrite list_elem_of_In).
  assert (Hgrant : b || (if b then false else can_meter_resource plan resource usage (limits_of plan) requested) = true <->
    Forall (fun d => demand_granted (BillingPlan.allow_metered_overages plan) d = true) ds).
  { destruct b; simpl.
    - split; [intros _|done]. eapply Forall_impl; [by apply Hfits|]. intros x Hx. unfold demand_granted. by rewrite Hx.
    - rewrite Hm, forallb_forall, Forall_forall by done. by setoid_rewrite list_elem_of_In. }
  rewrite Hgrant. split; [|naive_solver]. intros Hall. exists s, plan, ds. split_and!; try done.
  rewrite <- Hfits. destruct b; simpl; [done|]. destruct (can_meter_resource _ _ _ _ _); [done|].
  split; [|done]. intros Hr. exfalso. apply Hgrant in Hall. done.
Qed.

(**  The allocation check for databases agrees with the entitlement decision
    for "hosting_database", verdict and reason, for a subscription in good
    standing on a plan that sets both database limits. *)
Theorem database_checks_agree db tenant_id requested_mb now s plan d ok reason meter :
  get_subscription db tenant_id = Some s -> get billing_plans (TenantSubscription.plan_id s) db = Some plan ->
  BillingPlan.is_active plan = true -> in_good_standing s now ->
  0 < BillingPlan.included_hosted_projects plan -> 0 < BillingPlan.hosting_database_limit plan ->
  0 < BillingPlan.hosting_database_storage_mb plan ->
  entitlement_decision db tenant_id "hosting_database" (requested_mb * 1024 * 1024) now = Ok d ->
  database_allocation_allowed db tenant_id requested_mb = (ok, reason, meter) ->
  Decision.allowed d = ok /\ (ok = true -> Decision.reason d = reason).
Proof.
  intros Hs Hp Ha Hg%subscription_block_none Hn Hl Hst Hd Hdb.
  unfold database_allocation_allowed, hosting_resource_meter in Hdb.
  unfold entitlement_decision in Hd. fold (get_subscription db tenant_id) in Hdb.
  rewrite Hs, Hp, Ha, Hg in Hd. rewrite Hs, Hp, Ha in Hdb.
  cbn [negb Meter.limits Meter.usage] in Hdb. unfold effective_limits in Hdb.
  rewrite (proj2 (Z.leb_gt _ _) Hn) in Hdb. unfold int_or in Hdb.
  rewrite (proj2 (Z.eqb_neq _ _)) in Hdb by lia. rewrite (proj2 (Z.eqb_neq (BillingPlan.hosting_database_storage_mb plan) 0)) in Hdb by lia.
  rewrite !Z.max_r in Hdb by lia. cbn [Shared.database_count Shared.database_storage_bytes] in Hdb.
  set (count := Shared.database_count _) in Hdb. set (bytes := Shared.database_storage_bytes _) in Hdb.
  pose proof (entitlement_checks_demands plan (tenant_usage db tenant_id) "hosting_database" (requested_mb * 1024 * 1024)
    (tenant_usage_nonneg db tenant_id)) as Hc.
  cbn -[Z.add Z.mul Z.leb Z.ltb tenant_usage entitlement_checks can_meter_resource limits_of] in Hc.
  destruct Hc as (b & Hb1 & Hb & Hm). rewrite Hb1 in Hd. injection Hd as <-.
  change (Usage.hosting_database_count (tenant_usage db tenant_id)) with count in *.
  change (Usage.hosting_database_storage_bytes (tenant_usage db tenant_id)) with bytes in *.
  cbn [Decision.allowed Decision.reason]. unfold demand_granted, demand_fits in *.
  cbn -[Z.add Z.mul Z.leb Z.ltb tenant_usage can_meter_resource] in *.
  rewrite !andb_true_r in *. rewrite !(Z.ltb_antisym (_ + _)), !negb_involutive in Hdb.
  match type of Hdb with (if ?x && ?y then _ else _) = _ => destruct x, y end; simpl in *; subst b;
    simplify_eq/=; try done; rewrite Hm by done; rewrite ?andb_true_r, ?orb_false_r in *;
    destruct (BillingPlan.allow_metered_overages plan); simpl in *; simplify_eq/=; try done;
    destruct (0 <? BillingPlan.overage_database_minor plan); simpl in *; simplify_eq/=; try done;
    destruct (0 <? BillingPlan.overage_database_storage_gb_minor plan); simpl in *; simplify_eq/=; done.
Qed.

(** ** Invoices *)
Lemma get_subscription_open d t :
  NoDup (keys (tenant_subscriptions d)) ->
  get_subscription (open_session d) t = head (List.filter (subscription_of t) (tenant_subscriptions d)).
Proof. intros. by apply scalar_head. Qed.

(** C11.  Generating the invoice of a billing period bills the monthly price plus
    the overage, and is idempotent: generating it again, whenever, with whatever
    identifiers and terms, returns the same invoice and changes nothing, so a
    period is never billed twice. *)
Theorem generate_invoice_once d snapshot_id invoice_id serial now due snapshot_id2 invoice_id2 serial2 now2 due2 t i s :
  NoDup (keys (billing_invoices d)) -> NoDup (keys (tenant_subscriptions d)) ->
  invoice_id ∉ keys (billing_invoices d) ->
  generate_invoice (open_session d) snapshot_id invoice_id serial now t due = Ok (i, s) ->
  generate_invoice s snapshot_id2 invoice_id2 serial2 now2 t due2 = Ok (i, s) /\
  (i ∈ billing_invoices d /\ s = open_session d \/
   exists sub plan, get_subscription (open_session d) t = Some sub /\
     get billing_plans (TenantSubscription.plan_id sub) (open_session d) = Some plan /\
     BillingInvoice.total_minor i = BillingPlan.monthly_price_minor plan +
       Overage.estimated_minor (calculate_overage plan (tenant_usage (open_session d) t)) /\
     billing_invoices (sql s) = billing_invoices d ++ [i] /\ mem s = sql s).
Proof.
  intros Hn Hns Hfresh Hg. unfold generate_invoice in Hg.
  destruct (get_subscription (open_session d) t) as [sub|] eqn:Es; [|done].
  destruct (get billing_plans _ _) as [plan|] eqn:Ep; [|done].
  destruct (scalar billing_invoices _ _) as [existing|] eqn:Ee.
  - injection Hg as <- <-. apply scalar_some in Ee as Hin; [|done..]. split.
    + unfold generate_invoice. by rewrite Es, Ep, Ee.
    + left. by destruct Hin.
  - destruct (capture_usage _ _ _ _ _ _) as [snapshot db1] eqn:Ec. unfold capture_usage in Ec. injection Ec as <- <-.
    injection Hg as <- <-. rewrite scalar_head in Ee by done.
    set (i := new_invoice _ _ _ _ _ _ _ _ _). set (s := commit _).
    assert (billing_invoices (sql s) = billing_invoices d ++ [i] /\ mem s = sql s) as [Hi Hsync] by done.
    split; [|right; exists sub, plan; split_and!; done].
    unfold generate_invoice.
    assert (get_subscription s t = Some sub) as -> by (rewrite <- Es; done).
    assert (get billing_plans (TenantSubscription.plan_id sub) s = Some plan) as -> by (rewrite <- Ep; done).
    assert (scalar billing_invoices (period_invoice t sub) s = Some i) as ->; [|done].
    rewrite scalar_head.
    + rewrite Hsync, Hi, List.filter_app. cbn [mem open_session] in Ee. destruct (List.filter _ (billing_invoices d)); [|done].
      simpl. unfold period_invoice. unfold i, new_invoice. cbn. rewrite Z.eqb_refl, !bool_decide_eq_true_2 by done. done.
    + unfold synced. by rewrite Hsync.
    + rewrite Hsync, Hi. unfold keys. rewrite map_app. apply NoDup_app. split_and!; [done| |apply NoDup_singleton].
      by intros x Hx ->%list_elem_of_singleton.
Qed.

(** ** The webhook *)
Lemma put_row_other {R} `{Keyed R} (t : list R) r x : x ∈ t -> key x <> key r -> x ∈ put_row r t.
Proof.
  intros Hx Hk. unfold put_row. apply list_elem_of_fmap. exists x. by rewrite (proj2 (Z.eqb_neq _ _) Hk).
Qed.

(** What the body of the [try] may have changed when it returns or raises. *)
Record event_effect (db : Session Db) (event : BillingPaymentEvent) (db' : Session Db) : Prop := {
  effect_sql : sql db' = sql db;
  effect_events : billing_payment_events (mem db') = billing_payment_events (mem db);
  effect_invoices : billing_invoices (mem db') = billing_invoices (mem db) \/
    exists i i', BillingPaymentEvent.signature_valid event = true /\
      BillingPaymentEvent.invoice_id event = Some (key i) /\ get billing_invoices (key i) db = Some i /\ key i' = key i /\
      (forall t, BillingPaymentEvent.tenant_id event = Some t -> BillingInvoice.tenant_id i = t) /\
      billing_invoices (mem db') = put_row i' (billing_invoices (mem db));
  effect_subscriptions : tenant_subscriptions (mem db') = tenant_subscriptions (mem db) \/
    exists t s s', BillingPaymentEvent.signature_valid event = true /\
      BillingPaymentEvent.tenant_id event = Some t /\ get_subscription db t = Some s /\ key s' = key s /\
      tenant_subscriptions (mem db') = put_row s' (tenant_subscriptions (mem db))
}.

Lemma apply_payment_event_effect db now event grace r db' :
  apply_payment_event db now event grace = (r, db') -> event_effect db event db'.
Proof.
  unfold apply_payment_event.
  destruct (BillingPaymentEvent.signature_valid event) eqn:Esig; cbn [negb]; [|intros [= _ <-]; by split; auto].
  set (invoice := match BillingPaymentEvent.invoice_id event with Some i => _ | None => None end).
  set (subscription := match BillingPaymentEvent.tenant_id event with Some t => _ | None => None end).
  destruct (match invoice, BillingPaymentEvent.tenant_id event with Some _, Some _ => _ | _, _ => _ end) eqn:Eown;
    [intros [= _ <-]; by split; auto|].
  assert (Hi : forall i, invoice = Some i -> exists k, BillingPaymentEvent.invoice_id event = Some k /\ k = key i /\
    get billing_invoices (key i) db = Some i /\
    forall t, BillingPaymentEvent.tenant_id event = Some t -> BillingInvoice.tenant_id i = t).
  { intros i Ei. rewrite Ei in Eown. unfold invoice in Ei.
    destruct (BillingPaymentEvent.invoice_id event) as [k|]; [|done]. exists k.
    apply get_key in Ei as Hk. split_and!; [done..|by rewrite Hk|].
    intros t Ht. rewrite Ht in Eown. by apply negb_false_iff, Z.eqb_eq in Eown. }
  assert (Hs : forall s, subscription = Some s -> exists t, BillingPaymentEvent.tenant_id event = Some t /\
    get_subscription db t = Some s).
  { intros s Es. unfold subscription in Es. destruct (BillingPaymentEvent.tenant_id event) as [t|]; [|done]. by exists t. }
  clearbody invoice subscription. clear Eown.
  assert (Hput : forall s s' db1, subscription = Some s -> key s' = key s -> sql db1 = sql db ->
    billing_payment_events (mem db1) = billing_payment_events (mem db) ->
    tenant_subscriptions (mem db1) = tenant_subscriptions (mem db) ->
    (billing_invoices (mem db1) = billing_invoices (mem db) \/ exists i i', invoice = Some i /\ key i' = key i /\
      billing_invoices (mem db1) = put_row i' (billing_invoices (mem db))) ->
    event_effect db event (put tenant_subscriptions s' db1)).
  { intros s s' db1 Es Hk Hsql Hev Hsubs Hinv. split; [done|done| |].
    - destruct Hinv as [?|(i & i' & Ei & Hki & Hinv)]; [by left|right]. destruct (Hi i Ei) as (k & Hk1 & -> & Hg & Ht).
      by exists i, i'.
    - right. destruct (Hs s Es) as (t & Ht & Hg). exists t, s, s'. split_and!; try done. simpl. by rewrite Hsubs. }
  assert (Hinv : forall i i' db1, invoice = Some i -> key i' = key i -> db1 = put billing_invoices i' db ->
    event_effect db event db1).
  { intros i i' db1 Ei Hk ->. destruct (Hi i Ei) as (k & Hk1 & -> & Hg & Ht). split; [done|done|right|by left].
    by exists i, i'. }
  cbv zeta. destruct (_ ==? "invoice.paid").
  { destruct invoice as [i|]; [|intros [= _ <-]; by split; auto].
    destruct subscription as [s|]; intros [= _ <-]; [|by eapply (Hinv i _ _ eq_refl); [|reflexivity]].
    eapply Hput; try done. right. eexists i, _. by split_and!; [|..|reflexivity]. }
  destruct (_ in? _).
  { set (db1 := match invoice with Some i => _ | None => db end).
    assert (db1 = db \/ exists i i', invoice = Some i /\ key i' = key i /\ db1 = put billing_invoices i' db) as Hdb1.
    { unfold db1. destruct invoice as [i|]; [|by left]. destruct (_ !=? _); [right|by left].
      eexists i, _. by split_and!; [|..|reflexivity]. }
    clearbody db1. destruct subscription as [s|]; intros [= _ <-].
    - destruct Hdb1 as [->|(i & i' & Ei & Hk & ->)]; eapply Hput; try done; [by left|right]. by exists i, i'.
    - destruct Hdb1 as [->|(i & i' & Ei & Hk & ->)]; [by split; auto|by eapply Hinv]. }
  destruct (_ ==? "subscription.canceled"), subscription as [s|]; try (intros [= _ <-]; by split; auto);
    try (destruct (_ ==? "subscription.active")); intros [= _ <-]; try (by split; auto);
    eapply Hput; try done; by left.
Qed.

(** Deliveries that record a new event. *)
Lemma process_payment_event_new sha256 d new_id now provider event_id event_type payload raw sig grace tenant invoice r s :
  let e0 := payment_event new_id now (lower (strip provider)) event_id event_type (sha256 raw) tenant invoice sig in
  scalar billing_payment_events (same_event (lower (strip provider)) event_id) (open_session d) = None ->
  payload_uuid payload "tenant_id" = Ok tenant -> payload_uuid payload "invoice_id" = Ok invoice ->
  process_payment_event sha256 (open_session d) new_id now provider event_id event_type payload raw sig grace = (r, s) ->
  exists e db, event_effect (flush (add billing_payment_events e0 (open_session d))) e0 db /\
    s = commit (put billing_payment_events e db) /\ key e = key e0 /\
    BillingPaymentEvent.provider e = lower (strip provider) /\ BillingPaymentEvent.event_id e = event_id /\
    BillingPaymentEvent.event_type e = event_type /\ BillingPaymentEvent.payload_hash e = sha256 raw /\
    BillingPaymentEvent.processed e = is_ok r.
Proof.
  intros e0 Hno Ht Hi. unfold process_payment_event. rewrite Hno, Ht, Hi. fold e0.
  destruct (apply_payment_event _ _ _ _) as [[u|x] db] eqn:Ea; apply apply_payment_event_effect in Ea;
    intros [= <- <-]; eexists _, db; split_and!; try exact Ea; reflexivity.
Qed.

(** C3.  A webhook event is applied at most once.  Once a delivery has been
    recorded, whatever became of it, a redelivery with the same content is
    answered as a duplicate carrying the recorded outcome, and one with another
    type or another content is refused; neither changes the database. *)
Theorem payment_event_once sha256 d new_id now provider event_id event_type payload raw sig grace tenant invoice r s :
  NoDup (keys (billing_payment_events d)) -> new_id ∉ keys (billing_payment_events d) ->
  scalar billing_payment_events (same_event (lower (strip provider)) event_id) (open_session d) = None ->
  payload_uuid payload "tenant_id" = Ok tenant -> payload_uuid payload "invoice_id" = Ok invoice ->
  process_payment_event sha256 (open_session d) new_id now provider event_id event_type payload raw sig grace = (r, s) ->
  forall new_id2 now2 event_type2 payload2 raw2 sig2 grace2,
  exists r2, process_payment_event sha256 s new_id2 now2 provider event_id event_type2 payload2 raw2 sig2 grace2 = (r2, s) /\
    if (sha256 raw2 ==? sha256 raw) && (event_type2 ==? event_type)
    then exists e, r2 = Ok (e, true) /\ BillingPaymentEvent.processed e = is_ok r
    else r2 = Err (ValueError "Webhook event_id was reused with different content").
Proof.
  intros Hn Hf Hno Ht Hi Hp new_id2 now2 event_type2 payload2 raw2 sig2 grace2.
  destruct (process_payment_event_new _ _ _ _ _ _ _ _ _ _ _ _ _ _ _ Hno Ht Hi Hp)
    as (e & db & Heff & -> & Hk & Hprov & Hid & Htype & Hhash & Hproc).
  set (s := commit _). set (e0 := payment_event _ _ _ _ _ _ _ _ _) in *.
  assert (billing_payment_events (mem s) = put_row e (billing_payment_events d ++ [e0])) as Hev.
  { unfold s. cbn. by rewrite (effect_events _ _ _ Heff). }
  assert (NoDup (keys (billing_payment_events d ++ [e0]))) as Hn2.
  { unfold keys. rewrite map_app. apply NoDup_app. split_and!; [done| |apply NoDup_singleton].
    by intros x Hx ->%list_elem_of_singleton. }
  assert (scalar billing_payment_events (same_event (lower (strip provider)) event_id) s = Some e) as Hsc.
  { rewrite scalar_head; [|reflexivity|by rewrite Hev, keys_put]. rewrite Hev. apply (head_filter_put _ e0); [done| |done|].
    - rewrite scalar_head in Hno by done. cbn [mem open_session] in Hno. rewrite List.filter_app.
      destruct (List.filter _ (billing_payment_events d)); [|done]. simpl. unfold same_event.
      cbn. by rewrite !bool_decide_eq_true_2.
    - unfold same_event. by rewrite Hprov, Hid, !bool_decide_eq_true_2. }
  unfold process_payment_event. rewrite Hsc, Hhash, Htype.
  bdestruct (sha256 raw2 ==? sha256 raw); bdestruct (event_type2 ==? event_type).
  - rewrite E, E0, !(bool_decide_eq_true_2 _ eq_refl). eexists. split; [reflexivity|]. by exists e.
  - rewrite E, (bool_decide_eq_true_2 _ eq_refl), (bool_decide_eq_false_2 (event_type = _)) by congruence. by eexists.
  - rewrite (bool_decide_eq_false_2 (sha256 raw = _)) by congruence. by eexists.
  - rewrite (bool_decide_eq_false_2 (sha256 raw = _)) by congruence. by eexists.
Qed.

(**  A delivery touches only what it names: an invoice changes only if the
    payload names it, the signature is valid and the invoice belongs to the
    tenant of the payload, when there is one; a subscription changes only if the
    signature is valid and the payload names its tenant. *)
Theorem payment_event_isolation sha256 d new_id now provider event_id event_type payload raw sig grace tenant invoice r s :
  NoDup (keys (billing_invoices d)) -> NoDup (keys (tenant_subscriptions d)) ->
  scalar billing_payment_events (same_event (lower (strip provider)) event_id) (open_session d) = None ->
  payload_uuid payload "tenant_id" = Ok tenant -> payload_uuid payload "invoice_id" = Ok invoice ->
  process_payment_event sha256 (open_session d) new_id now provider event_id event_type payload raw sig grace = (r, s) ->
  (forall i, i ∈ billing_invoices d ->
     sig = false \/ invoice <> Some (BillingInvoice.id i) \/ (exists t, tenant = Some t /\ BillingInvoice.tenant_id i <> t) ->
     i ∈ billing_invoices (sql s)) /\
  (forall u, u ∈ tenant_subscriptions d -> sig = false \/ tenant <> Some (TenantSubscription.tenant_id u) ->
     u ∈ tenant_subscriptions (sql s)).
Proof.
  intros Hni Hns Hno Ht Hi Hp.
  destruct (process_payment_event_new _ _ _ _ _ _ _ _ _ _ _ _ _ _ _ Hno Ht Hi Hp)
    as (e & db & [Hsql _ Hinv Hsub] & -> & _). cbn [sql commit flush put] in *. split.
  - intros i Hin Hwhy. cbn. destruct Hinv as [->|(i0 & i' & Hsig & Hid & Hget & Hk & Hown & ->)]; [done|].
    apply put_row_other; [done|]. rewrite Hk. intros Heq.
    rewrite get_synced in Hget by done. apply find_row_elem in Hget.
    assert (i = i0) as -> by by apply (key_inj (billing_invoices d)).
    cbn in Hsig, Hid, Hown. destruct Hwhy as [->|[Hne|(t & -> & Hne)]]; [done|by rewrite Hid in Hne|by apply Hne, Hown].
  - intros u Hin Hwhy. cbn. destruct Hsub as [->|(t & u0 & u' & Hsig & Hten & Hget & Hk & ->)]; [done|].
    apply put_row_other; [done|]. rewrite Hk. intros Heq. unfold get_subscription in Hget.
    apply scalar_some in Hget as [Hget Hof%Z.eqb_eq]; [|done..].
    assert (u = u0) as -> by by apply (key_inj (tenant_subscriptions d)).
    cbn in Hsig, Hten. destruct Hwhy as [->|Hne]; [done|]. by rewrite Hten, Hof in Hne.
Qed.

(** ** Default plans *)
Lemma add_missing_plans_spec existing db ids now plans changed changed' db' :
  add_missing_plans existing db ids now plans changed = (changed', db') ->
  exists added, mem db' = (mem db) <| billing_plans := billing_plans (mem db) ++ added |> /\ sql db' = sql db /\
    (changed' = false -> changed = false /\ added = []) /\
    (forall p, p ∈ added -> BillingPlan.code p ∉ existing) /\
    (forall values, values ∈ plans -> exists k, (BillingPlan.code (values (ids k) now) ∈ existing \/ values (ids k) now ∈ added)).
Proof.
  revert db ids changed. induction plans as [|values plans IH]; intros db ids changed; cbn [add_missing_plans].
  - intros [= <- <-]. exists []. rewrite app_nil_r. split_and!; try done; [by destruct db as [? []]|..].
    + by intros p ?%not_elem_of_nil.
    + by intros p ?%not_elem_of_nil.
  - cbv zeta. destruct (_ in? existing) eqn:Ee; intros Hr.
    + apply IH in Hr as (added & Hm & Hs & Hc & Ha & Hall). exists added. split_and!; try done.
      intros v [->|Hv]%elem_of_cons.
      * exists 0%nat. left. apply existsb_exists in Ee as (c & Hc1%list_elem_of_In & Hc2%bool_decide_eq_true). by rewrite Hc2.
      * destruct (Hall v Hv) as [k ?]. by exists (S k).
    + apply IH in Hr as (added & Hm & Hs & Hc & Ha & Hall). exists (values (ids 0%nat) now :: added). split_and!.
      * rewrite Hm. destruct db as [? []]. cbn. by rewrite <- app_assoc.
      * done.
      * by intros [? ?]%Hc.
      * intros p [->|Hp]%elem_of_cons; [|by apply Ha]. intros Hin.
        assert (BillingPlan.code (values (ids 0%nat) now) in? existing = true); [|congruence].
        apply existsb_exists. exists (BillingPlan.code (values (ids 0%nat) now)). rewrite <- list_elem_of_In.
        split; [done|by apply bool_decide_eq_true].
      * intros v [->|Hv]%elem_of_cons; [exists 0%nat; right; apply elem_of_cons; by left|].
        destruct (Hall v Hv) as [k [?|?]]; exists (S k); [by left|right; apply elem_of_cons; by right].
Qed.

Lemma add_missing_plans_none existing db ids now plans :
  (forall values k, values ∈ plans -> BillingPlan.code (values (ids k) now) ∈ existing) ->
  add_missing_plans existing db ids now plans false = (false, db).
Proof.
  revert ids. induction plans as [|values plans IH]; intros ids Hall; simpl; [done|].
  assert (BillingPlan.code (values (ids 0%nat) now) in? existing = true) as ->.
  { apply existsb_exists. exists (BillingPlan.code (values (ids 0%nat) now)). rewrite <- list_elem_of_In.
    split; [apply Hall; left|by apply bool_decide_eq_true]. }
  apply (IH (fun i => ids (S i))). intros v k Hv. apply Hall. by right.
Qed.

(** The code of a default plan does not depend on its identifier. *)
Lemma default_plan_code values id now id2 now2 :
  values ∈ DEFAULT_PLANS -> BillingPlan.code (values id now) = BillingPlan.code (values id2 now2).
Proof. intros H. repeat (apply elem_of_cons in H as [->|H]; [reflexivity|]). by apply not_elem_of_nil in H. Qed.

(**  Seeding keeps every plan of the catalogue as it is, adds only plans whose
    code was missing, leaves every default plan available, and does nothing the
    second time. *)
Theorem ensure_default_plans_seeds d ids now ids2 now2 :
  let s := ensure_default_plans (open_session d) ids now in
  (exists added, billing_plans (sql s) = billing_plans d ++ added /\
     forall p, p ∈ added -> BillingPlan.code p ∉ map BillingPlan.code (billing_plans d)) /\
  (forall code, code ∈ ["starter"; "grow"; "business"; "professional"; "enterprise"] ->
     code ∈ map BillingPlan.code (billing_plans (sql s))) /\
  ensure_default_plans s ids2 now2 = s.
Proof.
  unfold ensure_default_plans at 1. destruct (add_missing_plans _ _ _ _ _ _) as [changed db] eqn:Ea. cbv zeta.
  apply add_missing_plans_spec in Ea as (added & Hm & Hs & Hc & Ha & Hall).
  set (s := if changed then commit db else db).
  assert (billing_plans (sql s) = billing_plans d ++ added) as Hplans.
  { unfold s. destruct changed; cbn; [by rewrite Hm|]. destruct (Hc eq_refl) as [_ ->]. by rewrite Hs, app_nil_r. }
  assert (Hcodes : forall values id now, values ∈ DEFAULT_PLANS ->
    BillingPlan.code (values id now) ∈ map BillingPlan.code (billing_plans (sql s))).
  { intros v id t Hv. destruct (Hall v Hv) as [k Hk]. rewrite (default_plan_code _ _ _ (ids k) now Hv), Hplans, map_app.
    apply elem_of_app. destruct Hk as [?|?]; [by left|right]. by apply list_elem_of_fmap_2. }
  split_and!.
  - by exists added.
  - intros code Hcode.
    change (code ∈ map (fun v => BillingPlan.code (v 0 0)) DEFAULT_PLANS) in Hcode.
    apply list_elem_of_fmap in Hcode as (v & -> & Hv). by apply Hcodes.
  - unfold ensure_default_plans. rewrite add_missing_plans_none; [done|]. intros v k Hv. by apply Hcodes.
Qed.

(** ** A tenant on the starter plan *)
Definition demo_plan : BillingPlan :=
  plan_starter 1 0 <| BillingPlan.allow_metered_overages := true |> <| BillingPlan.overage_database_minor := 700 |>.
Definition demo_subscription : TenantSubscription :=
  TenantSubscription.new_TenantSubscription 5 0 <| TenantSubscription.tenant_id := 9 |> <| TenantSubscription.plan_id := 1 |>
    <| TenantSubscription.status := SubscriptionStatus.active |>.
Definition demo_database (id : uuid) : HostingDatabase :=
  HostingDatabase.new_HostingDatabase id 0 <| HostingDatabase.tenant_id := 9 |> <| HostingDatabase.storage_mb := 100 |>.
Definition demo_open_invoice (id tenant : uuid) : BillingInvoice :=
  BillingInvoice.new_BillingInvoice id 0 <| BillingInvoice.tenant_id := tenant |> <| BillingInvoice.status := InvoiceStatus.open |>.
Definition demo_billing_db : Db :=
  empty_Db <| billing_plans := [demo_plan] |> <| tenant_subscriptions := [demo_subscription] |>
    <| hosting_databases := [demo_database 21; demo_database 22] |>
    <| billing_invoices := [demo_open_invoice 31 9; demo_open_invoice 32 8] |>.
Definition no_hash (s : string) : string := s.
Definition demo_payload (tenant invoice : uuid) : list (string * Json) :=
  [("tenant_id", JStr (str_of_uuid tenant)); ("invoice_id", JStr (str_of_uuid invoice))].

Lemma entitlement_allowed_iff_witness :
  exists d, entitlement_decision (open_session demo_billing_db) 9 "hosting_database" 1024 100 = Ok d /\
    Decision.allowed d = true /\ Decision.reason d = "metered overage" /\
    exists ds, demands demo_plan (tenant_usage (open_session demo_billing_db) 9) "hosting_database" 1024 = Some ds /\
      Forall (fun d => demand_granted true d = true) ds.
Proof.
  destruct (entitlement_decision (open_session demo_billing_db) 9 "hosting_database" 1024 100) as [d|e] eqn:E;
    [|exfalso; vm_compute in E; discriminate].
  assert (Decision.allowed d = true /\ Decision.reason d = "metered overage") as [Ha Hr]
    by (vm_compute in E; injection E as <-; split; reflexivity).
  destruct (proj1 (entitlement_allowed_iff _ _ _ _ _ _ E) Ha) as (s & plan & ds & Hs & Hp & _ & _ & Hd & Hg & _).
  vm_compute in Hs. injection Hs as <-. vm_compute in Hp. injection Hp as <-.
  exists d. split; [reflexivity|]. split; [exact Ha|]. split; [exact Hr|]. exists ds. split; [exact Hd|exact Hg].
Defined.

Lemma database_checks_agree_witness :
  exists d, entitlement_decision (open_session demo_billing_db) 9 "hosting_database" (3 * 1024 * 1024) 100 = Ok d /\
    database_allocation_allowed (open_session demo_billing_db) 9 3 =
      (Decision.allowed d, "metered overage", hosting_resource_meter (open_session demo_billing_db) 9).
Proof.
  destruct (entitlement_decision (open_session demo_billing_db) 9 "hosting_database" (3 * 1024 * 1024) 100) as [d|e] eqn:E;
    [|exfalso; vm_compute in E; discriminate].
  destruct (database_allocation_allowed (open_session demo_billing_db) 9 3) as [[ok reason] meter] eqn:Edb.
  destruct (database_checks_agree (open_session demo_billing_db) 9 3 100 demo_subscription demo_plan d ok reason meter
    ltac:(vm_compute; reflexivity) ltac:(vm_compute; reflexivity) ltac:(vm_compute; reflexivity)
    ltac:(right; left; reflexivity) ltac:(vm_compute; reflexivity) ltac:(vm_compute; reflexivity)
    ltac:(vm_compute; reflexivity) E Edb) as [Ha _].
  exists d. split; [reflexivity|]. rewrite Ha. vm_compute in Edb. vm_compute. congruence.
Defined.

Lemma demo_invoice_keys : NoDup (keys (billing_invoices demo_billing_db)).
Proof. apply NoDup_cons. split; [intros [=]%list_elem_of_singleton|apply NoDup_singleton]. Qed.

Lemma generate_invoice_once_witness :
  exists i s, generate_invoice (open_session demo_billing_db) 41 42 "AB" 86400000000 9 14 = Ok (i, s) /\
    BillingInvoice.total_minor i = 18500 /\ BillingInvoice.invoice_number i = "MDNS-19700102-AB" /\
    generate_invoice s 43 44 "CD" 100000000000 9 7 = Ok (i, s).
Proof.
  destruct (generate_invoice (open_session demo_billing_db) 41 42 "AB" 86400000000 9 14) as [[i s]|e] eqn:E;
    [|exfalso; vm_compute in E; discriminate].
  exists i, s. split; [reflexivity|].
  assert (BillingInvoice.total_minor i = 18500 /\ BillingInvoice.invoice_number i = "MDNS-19700102-AB") as [H1 H2]
    by (vm_compute in E; injection E as <- _; split; reflexivity).
  split; [exact H1|]. split; [exact H2|].
  refine (proj1 (generate_invoice_once demo_billing_db 41 42 "AB" 86400000000 14 43 44 "CD" 100000000000 7 9 i s
    demo_invoice_keys ltac:(apply NoDup_singleton) _ E)).
  rewrite list_elem_of_In. intros [|[|]]; [discriminate..|assumption].
Defined.

Lemma payment_event_once_witness :
  let deliver s := process_payment_event no_hash s 51 100 " Stripe " "evt" "invoice.paid" (demo_payload 9 31) "body" true 7 in
  exists r s, deliver (open_session demo_billing_db) = (r, s) /\ is_ok r = true /\ exists e, deliver s = (Ok (e, true), s).
Proof.
  intros deliver. destruct (deliver (open_session demo_billing_db)) as [r s] eqn:E.
  assert (is_ok r = true) as Hok by (vm_compute in E; injection E as <- _; reflexivity).
  exists r, s. split; [reflexivity|]. split; [exact Hok|].
  destruct (payment_event_once no_hash demo_billing_db 51 100 " Stripe " "evt" "invoice.paid" (demo_payload 9 31) "body" true 7
    (Some 9) (Some 31) r s ltac:(apply NoDup_nil_2) ltac:(apply not_elem_of_nil) ltac:(vm_compute; reflexivity)
    ltac:(vm_compute; reflexivity) ltac:(vm_compute; reflexivity) E
    51 100 "invoice.paid" (demo_payload 9 31) "body" true 7) as (r2 & H2 & e & He & _).
  exists e. unfold deliver. rewrite H2, He. reflexivity.
Defined.

Lemma payment_event_isolation_witness :
  exists r s, process_payment_event no_hash (open_session demo_billing_db) 51 100 "stripe" "evt" "invoice.paid"
      (demo_payload 9 32) "body" true 7 = (r, s) /\ demo_open_invoice 32 8 ∈ billing_invoices (sql s).
Proof.
  destruct (process_payment_event no_hash (open_session demo_billing_db) 51 100 "stripe" "evt" "invoice.paid"
    (demo_payload 9 32) "body" true 7) as [r s] eqn:E.
  exists r, s. split; [reflexivity|].
  refine (proj1 (payment_event_isolation no_hash demo_billing_db 51 100 "stripe" "evt" "invoice.paid" (demo_payload 9 32)
    "body" true 7 (Some 9) (Some 32) r s demo_invoice_keys ltac:(apply NoDup_singleton) ltac:(vm_compute; reflexivity)
    ltac:(vm_compute; reflexivity) ltac:(vm_compute; reflexivity) E) (demo_open_invoice 32 8) _ _).
  - apply list_elem_of_In. right. left. reflexivity.
  - right. right. exists 9. split; [reflexivity|discriminate].
Defined.

(** ** Two surprises of the webhook *)

(** A refused event keeps what was assigned before the refusal: a failed payment
    for a tenant without a subscription reopens a void invoice. *)
Lemma refused_event_reopens_void_invoice :
  let void := demo_open_invoice 31 7 <| BillingInvoice.status := InvoiceStatus.void |> in
  let '(r, s) := process_payment_event no_hash (open_session (empty_Db <| billing_invoices := [void] |>)) 51 100 "stripe" "evt"
    "invoice.payment_failed" (demo_payload 7 31) "body" true 7 in
  r = Err (ValueError "Subscription not found") /\
  map BillingInvoice.status (billing_invoices (sql s)) = [InvoiceStatus.open].
Proof. vm_compute. split; reflexivity. Qed.

(** The two database checks disagree when the plan leaves a limit at zero. *)
Lemma database_checks_disagree :
  let plan := demo_plan <| BillingPlan.hosting_database_limit := 0 |> <| BillingPlan.included_hosted_projects := 2 |>
                        <| BillingPlan.allow_metered_overages := false |> in
  let s := open_session (demo_billing_db <| billing_plans := [plan] |>) in
  fst (fst (database_allocation_allowed s 9 3)) = true /\
  exists d, entitlement_decision s 9 "hosting_database" (3 * 1024 * 1024) 100 = Ok d /\ Decision.allowed d = false.
Proof. vm_compute. split; [reflexivity|]. eexists. split; reflexivity. Qed.
