(* ===== verification/Catalog.v ===== *)
(** [app/services/catalog_entitlements.py]: the effective plan of a tenant, its
    base package plus its active add-ons. *)
From S2P Require Import Prelude PyFloat Json Models Session Metering Billing.
#[local] Open Scope string_scope.
#[local] Open Scope list_scope.
#[local] Open Scope Z_scope.

(** An entry of [RESOURCE_FIELDS]: the resource key and the column it feeds,
    with its [getattr] and [setattr]. *)
Module ResourceField.
Record ResourceField : Type := mk {
  resource : string;
  getattr : BillingPlan -> Z;
  setattr : Z -> BillingPlan -> BillingPlan
}.
End ResourceField.
Notation ResourceField := ResourceField.ResourceField.

Definition RESOURCE_FIELDS : list ResourceField :=
  [ResourceField.mk "mailboxes" BillingPlan.included_mailboxes (fun v p => p <| BillingPlan.included_mailboxes := v |>);
   ResourceField.mk "domains" BillingPlan.included_domains (fun v p => p <| BillingPlan.included_domains := v |>);
   ResourceField.mk "mail_storage_mb" BillingPlan.included_storage_mb (fun v p => p <| BillingPlan.included_storage_mb := v |>);
   ResourceField.mk "api_keys" BillingPlan.max_api_keys (fun v p => p <| BillingPlan.max_api_keys := v |>);
   ResourceField.mk "hosted_projects" BillingPlan.included_hosted_projects
     (fun v p => p <| BillingPlan.included_hosted_projects := v |>);
   ResourceField.mk "hosting_storage_mb" BillingPlan.hosting_storage_mb (fun v p => p <| BillingPlan.hosting_storage_mb := v |>);
   ResourceField.mk "database_count" BillingPlan.hosting_database_limit
     (fun v p => p <| BillingPlan.hosting_database_limit := v |>);
   ResourceField.mk "database_storage_mb" BillingPlan.hosting_database_storage_mb
     (fun v p => p <| BillingPlan.hosting_database_storage_mb := v |>);
   ResourceField.mk "source_storage_mb" BillingPlan.hosting_source_storage_mb
     (fun v p => p <| BillingPlan.hosting_source_storage_mb := v |>)].

(** The assignments of [_COPY_FIELDS]. *)
Definition copy_fields (base effective : BillingPlan) : BillingPlan :=
  BillingPlan.mk
    (BillingPlan.id effective) (BillingPlan.code effective) (BillingPlan.name effective) (BillingPlan.currency base)
    (BillingPlan.monthly_price_minor effective) (BillingPlan.annual_price_minor effective)
    (BillingPlan.setup_fee_minor effective) (BillingPlan.included_mailboxes base)
    (BillingPlan.included_domains base) (BillingPlan.included_storage_mb base) (BillingPlan.max_api_keys base)
    (BillingPlan.allow_metered_overages base) (BillingPlan.overage_mailbox_minor base)
    (BillingPlan.overage_domain_minor base) (BillingPlan.overage_storage_gb_minor base)
    (BillingPlan.overage_api_key_minor base) (BillingPlan.overage_hosted_project_minor base)
    (BillingPlan.overage_hosting_storage_gb_minor base) (BillingPlan.overage_database_minor base)
    (BillingPlan.overage_database_storage_gb_minor base) (BillingPlan.overage_source_storage_gb_minor base)
    (BillingPlan.included_hosted_projects base) (BillingPlan.hosting_storage_mb base)
    (BillingPlan.hosting_memory_mb_per_project base) (BillingPlan.hosting_cpu_millicores_per_project base)
    (BillingPlan.hosting_pids_per_project base) (BillingPlan.hosting_database_limit base)
    (BillingPlan.hosting_database_storage_mb base) (BillingPlan.hosting_source_storage_mb base)
    (BillingPlan.product_category base) (BillingPlan.description base) (BillingPlan.website_pages base)
    (BillingPlan.includes_website_design base) (BillingPlan.includes_logo_design base)
    (BillingPlan.includes_brand_guide base) (BillingPlan.includes_company_profile base)
    (BillingPlan.includes_letterhead base) (BillingPlan.includes_page_headers_footers base)
    (BillingPlan.includes_business_templates base) (BillingPlan.included_revisions base)
    (BillingPlan.content_updates_per_month base) (BillingPlan.support_level base)
    (BillingPlan.minimum_term_months base) (BillingPlan.price_from base) (BillingPlan.customer_visible effective)
    (BillingPlan.featured effective) (BillingPlan.sort_order effective) (BillingPlan.is_active effective)
    (BillingPlan.lifecycle_state effective) (BillingPlan.retired_at effective) (BillingPlan.created_at effective)
    (BillingPlan.updated_at effective).
Definition new_effective (new_id : uuid) (now : time) (code : string) (base : BillingPlan) : BillingPlan :=
  BillingPlan.new_BillingPlan new_id now
    <| BillingPlan.code := code |> <| BillingPlan.name := (BillingPlan.name base ++ " + add-ons")%string |>
    <| BillingPlan.currency := BillingPlan.currency base |>
    <| BillingPlan.monthly_price_minor := BillingPlan.monthly_price_minor base |>
    <| BillingPlan.annual_price_minor := BillingPlan.annual_price_minor base |>
    <| BillingPlan.setup_fee_minor := BillingPlan.setup_fee_minor base |>
    <| BillingPlan.included_mailboxes := BillingPlan.included_mailboxes base |>
    <| BillingPlan.included_domains := BillingPlan.included_domains base |>
    <| BillingPlan.included_storage_mb := BillingPlan.included_storage_mb base |>
    <| BillingPlan.max_api_keys := BillingPlan.max_api_keys base |>
    <| BillingPlan.allow_metered_overages := BillingPlan.allow_metered_overages base |>
    <| BillingPlan.overage_mailbox_minor := BillingPlan.overage_mailbox_minor base |>
    <| BillingPlan.overage_domain_minor := BillingPlan.overage_domain_minor base |>
    <| BillingPlan.overage_storage_gb_minor := BillingPlan.overage_storage_gb_minor base |>
    <| BillingPlan.overage_api_key_minor := BillingPlan.overage_api_key_minor base |>
    <| BillingPlan.overage_hosted_project_minor := BillingPlan.overage_hosted_project_minor base |>
    <| BillingPlan.overage_hosting_storage_gb_minor := BillingPlan.overage_hosting_storage_gb_minor base |>
    <| BillingPlan.overage_database_minor := BillingPlan.overage_database_minor base |>
    <| BillingPlan.overage_database_storage_gb_minor := BillingPlan.overage_database_storage_gb_minor base |>
    <| BillingPlan.overage_source_storage_gb_minor := BillingPlan.overage_source_storage_gb_minor base |>
    <| BillingPlan.included_hosted_projects := BillingPlan.included_hosted_projects base |>
    <| BillingPlan.hosting_storage_mb := BillingPlan.hosting_storage_mb base |>
    <| BillingPlan.hosting_memory_mb_per_project := BillingPlan.hosting_memory_mb_per_project base |>
    <| BillingPlan.hosting_cpu_millicores_per_project := BillingPlan.hosting_cpu_millicores_per_project base |>
    <| BillingPlan.hosting_pids_per_project := BillingPlan.hosting_pids_per_project base |>
    <| BillingPlan.hosting_database_limit := BillingPlan.hosting_database_limit base |>
    <| BillingPlan.hosting_database_storage_mb := BillingPlan.hosting_database_storage_mb base |>
    <| BillingPlan.hosting_source_storage_mb := BillingPlan.hosting_source_storage_mb base |>
    <| BillingPlan.product_category := BillingPlan.product_category base |>
    <| BillingPlan.description := BillingPlan.description base |>
    <| BillingPlan.website_pages := BillingPlan.website_pages base |>
    <| BillingPlan.includes_website_design := BillingPlan.includes_website_design base |>
    <| BillingPlan.includes_logo_design := BillingPlan.includes_logo_design base |>
    <| BillingPlan.includes_brand_guide := BillingPlan.includes_brand_guide base |>
    <| BillingPlan.includes_company_profile := BillingPlan.includes_company_profile base |>
    <| BillingPlan.includes_letterhead := BillingPlan.includes_letterhead base |>
    <| BillingPlan.includes_page_headers_footers := BillingPlan.includes_page_headers_footers base |>
    <| BillingPlan.includes_business_templates := BillingPlan.includes_business_templates base |>
    <| BillingPlan.included_revisions := BillingPlan.included_revisions base |>
    <| BillingPlan.content_updates_per_month := BillingPlan.content_updates_per_month base |>
    <| BillingPlan.support_level := BillingPlan.support_level base |>
    <| BillingPlan.minimum_term_months := BillingPlan.minimum_term_months base |>
    <| BillingPlan.price_from := BillingPlan.price_from base |> <| BillingPlan.customer_visible := false |>
    <| BillingPlan.featured := false |> <| BillingPlan.sort_order := 9999 |> <| BillingPlan.is_active := true |>.

(** [_base_plan_id]: raw SQL on the flushed row.  The UPDATE reaches the mapped
    object unless the attribute has an unflushed assignment, which then wins. *)
Definition base_plan_id (db : Session Db) (subscription : TenantSubscription) : uuid * Session Db :=
  match find_row (TenantSubscription.id subscription) (tenant_subscriptions (sql db)) with
  | None => (TenantSubscription.plan_id subscription, db)
  | Some row =>
      match TenantSubscription.base_plan_id row with
      | Some value => (value, db)
      | None =>
          let value := TenantSubscription.plan_id subscription in
          let assign s := match TenantSubscription.base_plan_id s with
            | None => s <| TenantSubscription.base_plan_id := Some value |> | Some _ => s end in
          let object := assign (live (tenant_subscriptions (mem db)) subscription) in
          let db := db <| sql ::= (fun d => d <| tenant_subscriptions ::= put_row (assign row) |>) |> in
          (value, put tenant_subscriptions object db)
      end
  end.

(** [subscription.base_plan_id or subscription.plan_id] *)
Definition base_of (s : TenantSubscription) : uuid :=
  match TenantSubscription.base_plan_id s with Some b => b | None => TenantSubscription.plan_id s end.

(** The join of the tenant's active assignments with the active add-ons. *)
Definition active_addons (db : Session Db) (tenant_id : uuid) (extra : TenantAddon -> bool)
    : list (TenantAddon * BillingAddon) :=
  let assigned a := (TenantAddon.tenant_id a =? tenant_id) && (TenantAddon.status a ==? "active") && extra a in
  flat_map (fun a =>
    map (fun b => (live (tenant_addons (mem db)) a, live (billing_addons (mem db)) b))
      (List.filter (fun b => (BillingAddon.id b =? TenantAddon.addon_id a) && BillingAddon.is_active b)
         (billing_addons (sql db))))
    (List.filter assigned (tenant_addons (sql db))).

(** The four results of [active_addon_totals]; the details as the rows. *)
Module AddonTotals.
Record AddonTotals : Type := mk {
  totals : list (string * Z);
  monthly : Z;
  annual : option Z;
  details : list (TenantAddon * BillingAddon)
}.
End AddonTotals.
Notation AddonTotals := AddonTotals.AddonTotals.

Definition addon_amount (row : TenantAddon * BillingAddon) : Z :=
  BillingAddon.amount_per_quantity (snd row) * TenantAddon.quantity (fst row).
(** [totals[key] += amount] on a [defaultdict(int)] *)
Definition add_total (totals : list (string * Z)) (row : TenantAddon * BillingAddon) : list (string * Z) :=
  let key := BillingAddon.resource_key (snd row) in
  let before := match dict_get key totals with Some v => v | None => 0 end in
  dict_set key (before + addon_amount row) totals.
Definition add_annual (annual : option Z) (row : TenantAddon * BillingAddon) : option Z :=
  match BillingAddon.annual_price_minor (snd row), annual with
  | Some price, Some a => Some (a + price * TenantAddon.quantity (fst row))
  | _, _ => None
  end.
Definition active_addon_totals (db : Session Db) (tenant_id : uuid) : AddonTotals :=
  let rows := active_addons db tenant_id (fun _ => true) in
  AddonTotals.mk (fold_left add_total rows [])
    (fold_left (fun m row => m + BillingAddon.monthly_price_minor (snd row) * TenantAddon.quantity (fst row)) rows 0)
    (fold_left add_annual rows (Some 0)) rows.

(** [f"effective-{tenant_id.hex[:32]}"] *)
Definition effective_code (tenant_id : uuid) : string := ("effective-" ++ hex_digits 32 tenant_id EmptyString)%string.

(** [RESOURCE_FIELDS.get(resource_key)] *)
Definition resource_field (resource_key : string) : option ResourceField :=
  List.find (fun f => String.eqb (ResourceField.resource f) resource_key) RESOURCE_FIELDS.

(** The loop over [totals]. *)
Definition add_resource (base : BillingPlan) (effective : BillingPlan) (total : string * Z) : BillingPlan :=
  let '(resource_key, amount) := total in
  match resource_field resource_key with
  | Some field => ResourceField.setattr field (ResourceField.getattr field base + amount) effective
  | None => effective
  end.

(** The assignments to the effective plan. *)
Definition refresh_effective (base : BillingPlan) (t : AddonTotals) (effective : BillingPlan) : BillingPlan :=
  let effective := copy_fields base (effective <| BillingPlan.name := (BillingPlan.name base ++ " + add-ons")%string |>) in
  let effective := effective
    <| BillingPlan.monthly_price_minor := BillingPlan.monthly_price_minor base + AddonTotals.monthly t |>
    <| BillingPlan.annual_price_minor :=
         match BillingPlan.annual_price_minor base, AddonTotals.annual t with
         | Some b, Some a => Some (b + a) | _, _ => None end |>
    <| BillingPlan.setup_fee_minor := BillingPlan.setup_fee_minor base |>
    <| BillingPlan.customer_visible := false |> <| BillingPlan.featured := false |> <| BillingPlan.is_active := true |> in
  fold_left (add_resource base) (AddonTotals.totals t) effective.

(** The effective plan row of the tenant, created on first use. *)
Definition ensure_effective (db : Session Db) (new_id : uuid) (now : time) (tenant_id : uuid) (base : BillingPlan)
    : BillingPlan * Session Db :=
  let code := effective_code tenant_id in
  match scalar billing_plans (fun p => BillingPlan.code p ==? code) db with
  | Some effective => (effective, db)
  | None => let effective := new_effective new_id now code base in (effective, flush (add billing_plans effective db))
  end.

Definition rebuild_effective_plan (db : Session Db) (new_id : uuid) (now : time) (tenant_id : uuid)
    : result (option BillingPlan * Session Db) :=
  match get_subscription db tenant_id with
  | None => Ok (None, db)
  | Some subscription =>
      let '(base_id, db) := base_plan_id db subscription in
      let subscription := live (tenant_subscriptions (mem db)) subscription in
      match get billing_plans base_id db with
      | None => Err (RuntimeError "Subscription base package no longer exists")
      | Some base =>
          let t := active_addon_totals db tenant_id in
          let assign plan_id db :=
            flush (put tenant_subscriptions (subscription <| TenantSubscription.plan_id := plan_id |>) db) in
          match AddonTotals.totals t with
          | [] => Ok (Some base, assign (BillingPlan.id base) db)
          | _ =>
              let '(effective, db) := ensure_effective db new_id now tenant_id base in
              let effective := refresh_effective base t effective in
              Ok (Some effective, assign (BillingPlan.id effective) (put billing_plans effective db))
          end
      end
  end.

(** [entitlement_summary]; the plans instead of their rendering. *)
Module EntitlementSummary.
Record EntitlementSummary : Type := mk {
  subscription : option TenantSubscription;
  base_plan : option BillingPlan;
  effective_plan : option BillingPlan;
  active_addons : list (TenantAddon * BillingAddon)
}.
End EntitlementSummary.
Notation EntitlementSummary := EntitlementSummary.EntitlementSummary.
Definition entitlement_summary (db : Session Db) (tenant_id : uuid) : EntitlementSummary * Session Db :=
  match get_subscription db tenant_id with
  | None => (EntitlementSummary.mk None None None [], db)
  | Some subscription =>
      let '(base_id, db) := base_plan_id db subscription in
      (EntitlementSummary.mk (Some subscription) (get billing_plans base_id db)
         (get billing_plans (TenantSubscription.plan_id subscription) db)
         (AddonTotals.details (active_addon_totals db tenant_id)), db)
  end.

(** ** Facts *)
Lemma dict_get_set {V} k k' (v : V) l : dict_get k (dict_set k' v l) = if String.eqb k k' then Some v else dict_get k l.
Proof.
  induction l as [|[a b] l IH]; simpl; [done|].
  destruct (String.eqb_spec k' a) as [<-|Ha]; simpl; [by destruct (String.eqb k k')|].
  rewrite IH. destruct (String.eqb_spec k a) as [->|]; [|done]. by rewrite (proj2 (String.eqb_neq a k')) by congruence.
Qed.
Lemma dict_set_keys {V} k (v : V) l : NoDup (map fst l) -> NoDup (map fst (dict_set k v l)) /\
  forall x, x ∈ map fst (dict_set k v l) -> x = k \/ x ∈ map fst l.
Proof.
  induction l as [|[a b] l IH]; simpl.
  - intros _. split; [apply NoDup_singleton|]. intros x ->%list_elem_of_singleton. by left.
  - intros [Ha Hl]%NoDup_cons. destruct (String.eqb_spec k a) as [<-|Hk]; simpl.
    + split; [by apply NoDup_cons|]. intros x. rewrite elem_of_cons. tauto.
    + destruct (IH Hl) as [H1 H2]. split.
      * apply NoDup_cons. split; [|done]. intros [?|?]%H2; [congruence|done].
      * intros x [->|[?|?]%H2]%elem_of_cons; [right; left|by left|right; by right].
Qed.

Definition total_of (k : string) (totals : list (string * Z)) : Z :=
  match dict_get k totals with Some v => v | None => 0 end.
Definition feeds (k : string) (row : TenantAddon * BillingAddon) : bool := String.eqb k (BillingAddon.resource_key (snd row)).

Lemma total_of_add k acc row :
  total_of k (add_total acc row) = total_of k acc + if feeds k row then addon_amount row else 0.
Proof.
  unfold total_of, add_total, feeds. rewrite dict_get_set.
  destruct (String.eqb_spec k (BillingAddon.resource_key (snd row))) as [->|]; [done|]. by rewrite Z.add_0_r.
Qed.
Lemma addon_totals_sum rows acc k :
  total_of k (fold_left add_total rows acc) = total_of k acc + sum_by addon_amount (List.filter (feeds k) rows).
Proof.
  revert acc. induction rows as [|row rows IH]; intros acc; simpl; [unfold sum_by; simpl; lia|].
  rewrite IH, total_of_add. unfold sum_by. destruct (feeds k row); simpl; lia.
Qed.
Lemma addon_totals_keys rows acc : NoDup (map fst acc) -> NoDup (map fst (fold_left add_total rows acc)).
Proof. revert acc. induction rows as [|row rows IH]; intros acc Ha; simpl; [done|]. by apply IH, dict_set_keys. Qed.
Lemma addon_totals_nil rows : fold_left add_total rows [] = [] -> rows = [].
Proof.
  assert (forall l acc, acc <> [] -> fold_left add_total l acc <> []) as Hne.
  { induction l as [|row l IH]; simpl; intros acc Ha; [done|]. apply IH. unfold add_total.
    destruct acc as [|[a b] acc]; cbn; [done|]. by destruct (String.eqb _ _). }
  destruct rows as [|row rows]; [done|]. simpl. intros Hf. exfalso. by eapply (Hne rows), Hf.
Qed.

(** The columns of [RESOURCE_FIELDS] are distinct. *)
Lemma resource_field_laws f g v p : f ∈ RESOURCE_FIELDS -> g ∈ RESOURCE_FIELDS ->
  ResourceField.getattr f (ResourceField.setattr g v p) =
  if String.eqb (ResourceField.resource f) (ResourceField.resource g) then v else ResourceField.getattr f p.
Proof.
  intros Hf Hg. rewrite list_elem_of_In in Hf, Hg. cbn in Hf, Hg.
  destruct Hf as [<-|[<-|[<-|[<-|[<-|[<-|[<-|[<-|[<-|[]]]]]]]]]];
    destruct Hg as [<-|[<-|[<-|[<-|[<-|[<-|[<-|[<-|[<-|[]]]]]]]]]]; reflexivity.
Qed.
Lemma resource_field_inj f g : f ∈ RESOURCE_FIELDS -> g ∈ RESOURCE_FIELDS ->
  ResourceField.resource f = ResourceField.resource g -> f = g.
Proof.
  intros Hf Hg. rewrite list_elem_of_In in Hf, Hg. cbn in Hf, Hg.
  destruct Hf as [<-|[<-|[<-|[<-|[<-|[<-|[<-|[<-|[<-|[]]]]]]]]]];
    destruct Hg as [<-|[<-|[<-|[<-|[<-|[<-|[<-|[<-|[<-|[]]]]]]]]]]; done.
Qed.
Lemma find_resource key f :
  resource_field key = Some f ->
  f ∈ RESOURCE_FIELDS /\ ResourceField.resource f = key.
Proof. intros [Hin%list_elem_of_In Hk%String.eqb_eq]%find_some. done. Qed.

Lemma add_resources_field base f totals e : f ∈ RESOURCE_FIELDS -> NoDup (map fst totals) ->
  ResourceField.getattr f (fold_left (add_resource base) totals e) =
  match dict_get (ResourceField.resource f) totals with
  | Some a => ResourceField.getattr f base + a
  | None => ResourceField.getattr f e
  end.
Proof.
  intros Hf. revert e. induction totals as [|[key a] totals IH]; intros e; simpl; [done|].
  intros [Hk Hn]%NoDup_cons. rewrite IH by done.
  assert (dict_get key totals = None) as Hnone.
  { clear -Hk. induction totals as [|[a b] l IH]; simpl in *; [done|]. rewrite not_elem_of_cons in Hk. destruct Hk as [Hk Hl].
    rewrite (proj2 (String.eqb_neq key a)) by done. by apply IH. }
  unfold add_resource. destruct (resource_field key) as [g|] eqn:Eg.
  - apply find_resource in Eg as [Hg <-]. rewrite resource_field_laws by done.
    destruct (String.eqb_spec (ResourceField.resource f) (ResourceField.resource g)) as [Heq|]; [|done].
    rewrite Heq, Hnone. by rewrite (resource_field_inj f g).
  - destruct (String.eqb_spec (ResourceField.resource f) key) as [<-|]; [|done].
    exfalso. apply list_elem_of_In, (find_none _ _ Eg) in Hf. by rewrite String.eqb_refl in Hf.
Qed.

(** Feeding the resources leaves every other column alone. *)
Lemma add_resources_keep {A} (col : BillingPlan -> A) base totals e :
  (forall f v p, f ∈ RESOURCE_FIELDS -> col (ResourceField.setattr f v p) = col p) ->
  col (fold_left (add_resource base) totals e) = col e.
Proof.
  intros Hcol. revert e. induction totals as [|[key a] totals IH]; intros e; simpl; [done|]. rewrite IH.
  unfold add_resource. destruct (resource_field key) as [g|] eqn:Eg; [|done].
  apply find_resource in Eg as [Hg _]. by apply Hcol.
Qed.
Ltac keep_column := intros f v p Hf; rewrite list_elem_of_In in Hf; cbn in Hf;
  destruct Hf as [<-|[<-|[<-|[<-|[<-|[<-|[<-|[<-|[<-|[]]]]]]]]]]; reflexivity.

(** What the effective plan of a base package and its add-on rows must be. *)
Record effective_of (base : BillingPlan) (rows : list (TenantAddon * BillingAddon)) (e : BillingPlan) : Prop := {
  effective_capacity : forall f, f ∈ RESOURCE_FIELDS -> ResourceField.getattr f e =
    ResourceField.getattr f base + sum_by addon_amount (List.filter (feeds (ResourceField.resource f)) rows);
  effective_monthly : BillingPlan.monthly_price_minor e = BillingPlan.monthly_price_minor base +
    sum_by (fun row => BillingAddon.monthly_price_minor (snd row) * TenantAddon.quantity (fst row)) rows;
  effective_rates : overage_rates e = overage_rates base /\
    BillingPlan.allow_metered_overages e = BillingPlan.allow_metered_overages base;
  effective_currency : BillingPlan.currency e = BillingPlan.currency base
}.

Lemma fold_sum {A} (g : A -> Z) l m : fold_left (fun m x => m + g x) l m = m + sum_by g l.
Proof. unfold sum_by. revert m. induction l as [|x l IH]; intros m; simpl; [lia|]. rewrite IH. lia. Qed.

Lemma refresh_effective_of base db tenant_id e :
  effective_of base (active_addons db tenant_id (fun _ => true)) (refresh_effective base (active_addon_totals db tenant_id) e).
Proof.
  unfold refresh_effective, active_addon_totals. cbn [AddonTotals.totals AddonTotals.monthly AddonTotals.annual].
  set (rows := active_addons db tenant_id _). set (annual := fold_left add_annual rows _).
  set (e1 := _ <| BillingPlan.is_active := true |>).
  split.
  - intros f Hf. rewrite add_resources_field; [|done|apply addon_totals_keys, NoDup_nil_2].
    pose proof (addon_totals_sum rows [] (ResourceField.resource f)) as Hs.
    change (total_of (ResourceField.resource f) []) with 0 in Hs. rewrite Z.add_0_l in Hs.
    rewrite <- Hs. unfold total_of. destruct (dict_get _ _); [done|]. rewrite Z.add_0_r.
    rewrite list_elem_of_In in Hf. cbn in Hf.
    destruct Hf as [<-|[<-|[<-|[<-|[<-|[<-|[<-|[<-|[<-|[]]]]]]]]]]; reflexivity.
  - rewrite (add_resources_keep BillingPlan.monthly_price_minor) by keep_column. cbn. by rewrite fold_sum.
  - rewrite (add_resources_keep overage_rates), (add_resources_keep BillingPlan.allow_metered_overages) by keep_column.
    by split.
  - by rewrite (add_resources_keep BillingPlan.currency) by keep_column.
Qed.
Lemma refresh_effective_id base t e : BillingPlan.id (refresh_effective base t e) = BillingPlan.id e /\
  BillingPlan.code (refresh_effective base t e) = BillingPlan.code e.
Proof.
  unfold refresh_effective. rewrite (add_resources_keep BillingPlan.id), (add_resources_keep BillingPlan.code) by keep_column.
  done.
Qed.

Definition with_subscription (s : TenantSubscription) (d : Db) : Db := d <| tenant_subscriptions ::= put_row s |>.

Lemma base_plan_id_open d s :
  NoDup (keys (tenant_subscriptions d)) -> s ∈ tenant_subscriptions d ->
  base_plan_id (open_session d) s =
  (base_of s, open_session (with_subscription (s <| TenantSubscription.base_plan_id := Some (base_of s) |>) d)).
Proof.
  intros Hn Hs. unfold base_plan_id, base_of. cbn [sql mem open_session].
  change (TenantSubscription.id s) with (key s). rewrite (find_row_nodup _ _ Hn Hs), (live_self _ _ Hn Hs).
  destruct (TenantSubscription.base_plan_id s) as [b|] eqn:Eb; [|reflexivity].
  assert (with_subscription (s <| TenantSubscription.base_plan_id := Some b |>) d = d) as ->; [|done].
  assert (s <| TenantSubscription.base_plan_id := Some b |> = s) as -> by (destruct s; cbn in *; by rewrite Eb).
  unfold with_subscription. assert (put_row s (tenant_subscriptions d) = tenant_subscriptions d) as Hp by by apply put_row_same.
  destruct d. unfold set. cbn -[put_row] in *. f_equal. exact Hp.
Qed.

Lemma plan_row_added l new_id now code base :
  NoDup (keys l) -> new_id ∉ keys l ->
  NoDup (keys (l ++ [new_effective new_id now code base])) /\
  key (new_effective new_id now code base) ∈ keys (l ++ [new_effective new_id now code base]).
Proof.
  intros Hn Hf. unfold keys. rewrite map_app. split.
  - apply NoDup_app. split_and!; [done| |apply NoDup_singleton]. by intros x Hx ->%list_elem_of_singleton.
  - apply elem_of_app. right. by apply list_elem_of_singleton.
Qed.

(** [ensure_effective] returns a plan row with the code of the tenant. *)
Lemma ensure_effective_open d new_id now t base e db :
  NoDup (keys (billing_plans d)) -> new_id ∉ keys (billing_plans d) ->
  ensure_effective (open_session d) new_id now t base = (e, db) ->
  exists added, db = open_session (d <| billing_plans ::= (fun l => l ++ added) |>) /\
    NoDup (keys (billing_plans d ++ added)) /\ key e ∈ keys (billing_plans d ++ added) /\
    BillingPlan.code e = effective_code t /\ e ∈ billing_plans d ++ added.
Proof.
  intros Hn Hf. unfold ensure_effective. destruct (scalar _ _ _) as [r|] eqn:Er; intros [= <- <-].
  - apply scalar_some in Er as [Hin Hc%bool_decide_eq_true]; [|done..]. cbn in Hin. exists [].
    rewrite app_nil_r. split_and!; try done; [|by apply list_elem_of_fmap_2].
    destruct d. unfold open_session, set. cbn -[app]. by rewrite app_nil_r.
  - destruct (plan_row_added (billing_plans d) new_id now (effective_code t) base Hn Hf).
    exists [new_effective new_id now (effective_code t) base]. split_and!; try done.
    apply elem_of_app. right. by apply list_elem_of_singleton.
Qed.

Lemma effective_of_base base : effective_of base [] base.
Proof. split; try done; intros; unfold sum_by; simpl; by rewrite Z.add_0_r. Qed.

(** C39.  Rebuilding gives the tenant its base package plus its active add-ons:
    every capacity is the one of the base package plus amount times quantity over
    the add-ons that feed it, the price likewise, rates and currency are those of
    the base; the subscription then points to that plan and remembers its base
    package, which is itself untouched. *)
Theorem rebuild_effective_plan_correct d new_id now t e s :
  NoDup (keys (tenant_subscriptions d)) -> NoDup (keys (billing_plans d)) -> new_id ∉ keys (billing_plans d) ->
  rebuild_effective_plan (open_session d) new_id now t = Ok (Some e, s) ->
  exists sub base,
    get_subscription (open_session d) t = Some sub /\ find_row (base_of sub) (billing_plans d) = Some base /\
    (BillingPlan.code base <> effective_code t ->
       effective_of base (active_addons (open_session d) t (fun _ => true)) e /\
       find_row (BillingPlan.id base) (billing_plans (sql s)) = Some base /\
       find_row (BillingPlan.id e) (billing_plans (sql s)) = Some e) /\
    find_row (TenantSubscription.id sub) (tenant_subscriptions (sql s)) =
      Some (sub <| TenantSubscription.base_plan_id := Some (base_of sub) |> <| TenantSubscription.plan_id := BillingPlan.id e |>) /\
    mem s = sql s.
Proof.
  intros Hns Hnp Hf Hr. unfold rebuild_effective_plan in Hr.
  destruct (get_subscription (open_session d) t) as [sub|] eqn:Es; [|done].
  assert (sub ∈ tenant_subscriptions d) as Hsub by (by eapply (scalar_some tenant_subscriptions) in Es as [? _]).
  rewrite base_plan_id_open in Hr by done. cbn beta iota zeta in Hr.
  set (sub' := sub <| TenantSubscription.base_plan_id := Some (base_of sub) |>) in *.
  set (d1 := with_subscription sub' d) in *.
  assert (key sub' ∈ keys (tenant_subscriptions d)) as Hk by (by apply (list_elem_of_fmap_2 key _ sub)).
  assert (live (tenant_subscriptions (mem (open_session d1))) sub = sub') as Hlive.
  { unfold live. change (tenant_subscriptions (mem (open_session d1))) with (put_row sub' (tenant_subscriptions d)).
    assert (find_row (key sub) (put_row sub' (tenant_subscriptions d)) = Some sub') as -> by exact (find_put_same sub' _ Hk).
    done. }
  rewrite Hlive in Hr. rewrite get_synced in Hr by done. change (billing_plans (mem (open_session d1))) with (billing_plans d) in Hr.
  destruct (find_row (base_of sub) (billing_plans d)) as [base|] eqn:Eb; [|done].
  change (active_addon_totals (open_session d1) t) with (active_addon_totals (open_session d) t) in Hr.
  assert (Hput : forall (p : uuid), find_row (TenantSubscription.id sub)
    (put_row (sub' <| TenantSubscription.plan_id := p |>) (put_row sub' (tenant_subscriptions d))) =
    Some (sub' <| TenantSubscription.plan_id := p |>)).
  { intros p. set (sub2 := sub' <| TenantSubscription.plan_id := p |>). 
    assert (key sub2 ∈ keys (put_row sub' (tenant_subscriptions d))) as H2 by (rewrite keys_put; exact Hk).
    exact (find_put_same sub2 _ H2). }
  exists sub, base. split; [done|]. split; [done|].
  destruct (AddonTotals.totals (active_addon_totals (open_session d) t)) as [|tot l] eqn:Et.
  - injection Hr as <- <-. apply addon_totals_nil in Et. rewrite Et. apply find_row_key in Eb as Hkb.
    split_and!; try done; [|exact (Hput (BillingPlan.id base))].
    intros _. split; [apply effective_of_base|]. cbn. unfold key, keyed_BillingPlan in Hkb. rewrite Hkb. done.
  - destruct (ensure_effective (open_session d1) new_id now t base) as [e0 db] eqn:Ee.
    apply ensure_effective_open in Ee as (added & -> & Hn2 & Hk0 & Hcode & Hin); [|done..].
    injection Hr as <- <-. destruct (refresh_effective_id base (active_addon_totals (open_session d) t) e0) as [Hid _].
    split_and!; [|rewrite Hid; exact (Hput _)|done].
    intros Hne. split; [apply refresh_effective_of|].
    change (billing_plans (sql (flush _))) with
      (put_row (refresh_effective base (active_addon_totals (open_session d) t) e0) (billing_plans d ++ added)).
    set (e := refresh_effective _ _ e0) in *. assert (key e = key e0) as Hke by exact Hid.
    split; [|apply (find_put_same e); by rewrite Hke].
    apply find_row_key in Eb as Hkb. unfold key at 1, keyed_BillingPlan in Hkb. rewrite Hkb.
    rewrite find_put_other; [by rewrite find_app, Eb|]. rewrite Hke, <- Hkb. intros Heq.
    apply Hne. rewrite <- Hcode. f_equal. apply (key_inj (billing_plans d ++ added)); [done| |done|done].
    apply elem_of_app. left. by eapply find_row_elem.
Qed.

(** ** A tenant with two add-ons *)
Definition demo_addon (id : uuid) (key : string) (amount price : Z) : BillingAddon :=
  BillingAddon.new_BillingAddon id 0 <| BillingAddon.resource_key := key |>
    <| BillingAddon.amount_per_quantity := amount |> <| BillingAddon.monthly_price_minor := price |>.
Definition demo_assignment (id addon quantity : Z) : TenantAddon :=
  TenantAddon.new_TenantAddon id 0 <| TenantAddon.tenant_id := 9 |> <| TenantAddon.addon_id := addon |>
    <| TenantAddon.quantity := quantity |> <| TenantAddon.status := "active" |>.
Definition demo_catalog_db : Db :=
  demo_billing_db <| billing_addons := [demo_addon 61 "mailboxes" 5 1000; demo_addon 62 "domains" 1 500] |>
    <| tenant_addons := [demo_assignment 71 61 2; demo_assignment 72 62 3; demo_assignment 73 61 1] |>.

Lemma rebuild_effective_plan_correct_witness :
  exists e s, rebuild_effective_plan (open_session demo_catalog_db) 81 100 9 = Ok (Some e, s) /\
    BillingPlan.included_mailboxes e = 10 + 15 /\ BillingPlan.monthly_price_minor e = 18500 + 3 * 1000 + 3 * 500 /\
    option_map TenantSubscription.plan_id (find_row 5 (tenant_subscriptions (sql s))) = Some 81.
Proof.
  destruct (rebuild_effective_plan (open_session demo_catalog_db) 81 100 9) as [[[e|] s]|x] eqn:E;
    [|exfalso; vm_compute in E; discriminate..].
  assert (BillingPlan.id e = 81) as Hid by (vm_compute in E; injection E as <- _; reflexivity).
  destruct (rebuild_effective_plan_correct demo_catalog_db 81 100 9 e s
    ltac:(apply NoDup_singleton) ltac:(apply NoDup_singleton) ltac:(intros [=]%list_elem_of_singleton) E)
    as (sub & base & Hs & Hb & He & Hrow & _).
  vm_compute in Hs. injection Hs as <-. vm_compute in Hb. injection Hb as <-.
  destruct He as ([Hcap Hprice _ _] & _ & _); [discriminate|].
  specialize (Hcap (ResourceField.mk "mailboxes" BillingPlan.included_mailboxes
    (fun v p => p <| BillingPlan.included_mailboxes := v |>)) ltac:(left)).
  exists e, s. split; [reflexivity|]. split; [exact Hcap|]. split; [exact Hprice|].
  cbn [TenantSubscription.id] in Hrow. rewrite Hrow. cbn. f_equal. exact Hid.
Defined.
