(* ===== verification/Contracts.v ===== *)
(** [app/services/commercial_ops_v2.py]: contracts, package changes and the
    billing cycle.  Identifiers of new rows and [now] are arguments. *)
From S2P Require Import Prelude PyFloat Json Calendar Models Session Metering Billing Catalog.
#[local] Open Scope string_scope.
#[local] Open Scope list_scope.
#[local] Open Scope Z_scope.

Definition CAPACITY_FIELDS : list (BillingPlan -> Z) :=
  [BillingPlan.included_mailboxes; BillingPlan.included_domains; BillingPlan.included_storage_mb; BillingPlan.max_api_keys;
   BillingPlan.included_hosted_projects; BillingPlan.hosting_storage_mb; BillingPlan.hosting_memory_mb_per_project;
   BillingPlan.hosting_cpu_millicores_per_project; BillingPlan.hosting_pids_per_project; BillingPlan.hosting_database_limit;
   BillingPlan.hosting_database_storage_mb; BillingPlan.hosting_source_storage_mb].

Definition get_or_create_contract (db : Session Db) (new_id : uuid) (now : time) (tenant_id : uuid)
    : BillingContract * Session Db :=
  match scalar billing_contracts (fun c => BillingContract.tenant_id c =? tenant_id) db with
  | Some row => (row, db)
  | None =>
      let row := BillingContract.new_BillingContract new_id now
        <| BillingContract.tenant_id := tenant_id |> <| BillingContract.billing_interval := "annual" |>
        <| BillingContract.auto_renew := true |> <| BillingContract.invoice_lead_days := 14 |>
        <| BillingContract.grace_days := 7 |> in
      (row, flush (add billing_contracts row db))
  end.

Definition period_delta (interval : string) : time := days (if interval ==? "annual" then 365 else 30).
Definition base_price (plan : BillingPlan) (interval : string) : Z :=
  if interval ==? "annual" then
    match BillingPlan.annual_price_minor plan with Some p => p | None => BillingPlan.monthly_price_minor plan * 12 end
  else BillingPlan.monthly_price_minor plan.

(** [_base_plan], which fills in a missing base plan of the mapped subscription. *)
Definition base_plan (db : Session Db) (subscription : TenantSubscription)
    : result (BillingPlan * TenantSubscription * Session Db) :=
  match get billing_plans (base_of subscription) db with
  | None => Err (ValueError "Subscription base plan is unavailable")
  | Some plan =>
      match TenantSubscription.base_plan_id subscription with
      | Some _ => Ok (plan, subscription, db)
      | None =>
          let subscription := subscription <| TenantSubscription.base_plan_id := Some (BillingPlan.id plan) |> in
          Ok (plan, subscription, put tenant_subscriptions subscription db)
      end
  end.

Definition is_capacity_upgrade (current target : BillingPlan) : bool :=
  forallb (fun field => field current <=? field target) CAPACITY_FIELDS.

(** The dict [checks] of [target_plan_fits_current_usage]. *)
Definition usage_checks (usage : Usage) (target : BillingPlan) : list (string * (Z * Z)) :=
  [("mailboxes", (Usage.mailboxes usage, BillingPlan.included_mailboxes target));
   ("domains", (Usage.domains usage, BillingPlan.included_domains target));
   ("mail storage", (Usage.allocated_storage_bytes usage, BillingPlan.included_storage_mb target * 1024 * 1024));
   ("API keys", (Usage.api_keys usage, BillingPlan.max_api_keys target));
   ("hosted projects", (Usage.hosted_projects usage, BillingPlan.included_hosted_projects target));
   ("application storage", (Usage.hosting_storage_bytes usage, BillingPlan.hosting_storage_mb target * 1024 * 1024));
   ("databases", (Usage.hosting_database_count usage, BillingPlan.hosting_database_limit target));
   ("database storage", (Usage.hosting_database_storage_bytes usage, BillingPlan.hosting_database_storage_mb target * 1024 * 1024));
   ("source storage", (Usage.hosting_source_storage_bytes usage, BillingPlan.hosting_source_storage_mb target * 1024 * 1024))].
Definition target_plan_fits_current_usage (db : Session Db) (tenant_id : uuid) (target : BillingPlan) : bool * list string :=
  let usage := tenant_usage db tenant_id in
  let failures := flat_map (fun check =>
    let '(label, (used, limit)) := check in
    if limit <? used
    then [(label ++ ": " ++ str_of_Z used ++ " used exceeds target limit " ++ str_of_Z limit)%string] else [])
    (usage_checks usage target) in
  (match failures with [] => true | _ => false end, failures).

(** The mode of a package change and when it takes effect. *)
Inductive ChangeMode : Type := Unchanged | Immediate (at_ : time) | PeriodEnd (at_ : time).

Definition clear_pending (s : TenantSubscription) : TenantSubscription :=
  s <| TenantSubscription.pending_plan_id := None |> <| TenantSubscription.pending_plan_effective_at := None |>.

Definition request_plan_change (db : Session Db) (plan_id : uuid) (subscription : TenantSubscription) (target : BillingPlan)
    (now : time) : result (ChangeMode * Session Db) :=
  let status := TenantSubscription.status subscription in
  if status notin? [SubscriptionStatus.active; SubscriptionStatus.trialing] then
    if status ==? SubscriptionStatus.past_due then Err (ValueError "Pay the outstanding invoice before changing packages")
    else if status ==? SubscriptionStatus.canceled
    then Err (ValueError "Canceled subscriptions cannot change packages; reactivate the subscription first")
    else Err (ValueError "Subscription is not eligible for package changes")
  else if (BillingPlan.lifecycle_state target !=? "sellable") || negb (BillingPlan.is_active target) ||
          negb (BillingPlan.customer_visible target)
  then Err (ValueError "Target package is not available for new plan changes")
  else
    let* (current, subscription, db) := base_plan db subscription in
    if BillingPlan.id current =? BillingPlan.id target then
      Ok (Unchanged, put tenant_subscriptions (clear_pending subscription) db)
    else
      let '(fits, failures) := target_plan_fits_current_usage db (TenantSubscription.tenant_id subscription) target in
      ensure fits else_raise ValueError ("Target package is below current usage: " ++ join "; " failures)%string;
      if is_capacity_upgrade current target then
        let subscription := clear_pending (subscription <| TenantSubscription.base_plan_id := Some (BillingPlan.id target) |>) in
        let db := put tenant_subscriptions subscription db in
        let* (_, db) := rebuild_effective_plan db plan_id now (TenantSubscription.tenant_id subscription) in
        Ok (Immediate now, db)
      else
        let at_ := TenantSubscription.current_period_end subscription in
        let subscription := subscription
          <| TenantSubscription.pending_plan_id := Some (BillingPlan.id target) |>
          <| TenantSubscription.pending_plan_effective_at := Some at_ |> in
        Ok (PeriodEnd at_, put tenant_subscriptions subscription db).

(** ** Contract invoices *)
Definition addon_setup_fees (db : Session Db) (tenant_id : uuid) : Z * list TenantAddon :=
  let rows := active_addons db tenant_id (fun a => negb (TenantAddon.setup_fee_applied a)) in
  (sum_by (fun row => BillingAddon.setup_fee_minor (snd row) * TenantAddon.quantity (fst row)) rows, map fst rows).

Definition subscription_invoice (s : TenantSubscription) (i : BillingInvoice) : bool :=
  (BillingInvoice.subscription_id i ==? Some (TenantSubscription.id s)) &&
  (BillingInvoice.period_start i ==? Some (TenantSubscription.current_period_start s)) &&
  (BillingInvoice.period_end i ==? Some (TenantSubscription.current_period_end s)) &&
  (BillingInvoice.status i !=? InvoiceStatus.void).

(** The amounts of a contract invoice. *)
Module Amounts.
Record Amounts : Type := mk {
  fixed_subtotal : Z;
  overage : Z;
  subtotal : Z;
  discount : Z;
  credit_used : Z;
  total : Z
}.
End Amounts.
Notation Amounts := Amounts.Amounts.
Definition contract_amounts (plan : BillingPlan) (contract : BillingContract) (addon_setup overage_amount : Z) : Amounts :=
  let base := base_price plan (BillingContract.billing_interval contract) in
  let plan_setup := if BillingContract.setup_fee_applied contract then 0 else BillingPlan.setup_fee_minor plan in
  let fixed_subtotal := base + plan_setup + addon_setup in
  let subtotal := fixed_subtotal + overage_amount in
  let discount := Z.min subtotal (subtotal * Z.max 0 (Z.min 100 (BillingContract.discount_percent contract)) / 100) in
  let after_discount := Z.max 0 (subtotal - discount) in
  let credit_used := Z.min after_discount (Z.max 0 (BillingContract.credit_balance_minor contract)) in
  Amounts.mk fixed_subtotal overage_amount subtotal discount credit_used (Z.max 0 (after_discount - credit_used)).

Definition breakdown_json (overage : Overage) (a : Amounts) : Json :=
  JObj (as_dict (overage_json overage) ++
    [("fixed_subtotal_minor", JInt (Amounts.fixed_subtotal a)); ("discount_minor", JInt (Amounts.discount a));
     ("credit_used_minor", JInt (Amounts.credit_used a))]).

Definition contract_invoice (new_id : uuid) (serial : string) (now : time) (subscription : TenantSubscription)
    (contract : BillingContract) (plan : BillingPlan) (snapshot : UsageSnapshot) (overage : Overage) (a : Amounts)
    : BillingInvoice :=
  BillingInvoice.new_BillingInvoice new_id now
    <| BillingInvoice.tenant_id := TenantSubscription.tenant_id subscription |>
    <| BillingInvoice.subscription_id := Some (TenantSubscription.id subscription) |>
    <| BillingInvoice.usage_snapshot_id := Some (UsageSnapshot.id snapshot) |>
    <| BillingInvoice.invoice_number := ("ITH-" ++ format_ymd (date_of_time now) ++ "-" ++ serial)%string |>
    <| BillingInvoice.currency := BillingPlan.currency plan |>
    <| BillingInvoice.base_amount_minor := Amounts.fixed_subtotal a |>
    <| BillingInvoice.overage_amount_minor := Amounts.overage a |>
    <| BillingInvoice.usage_breakdown_json := json_dumps_sorted (breakdown_json overage a) |>
    <| BillingInvoice.subtotal_minor := Amounts.subtotal a |>
    <| BillingInvoice.total_minor := Amounts.total a |>
    <| BillingInvoice.status := (if 0 <? Amounts.total a then InvoiceStatus.open else InvoiceStatus.paid) |>
    <| BillingInvoice.period_start := Some (TenantSubscription.current_period_start subscription) |>
    <| BillingInvoice.period_end := Some (TenantSubscription.current_period_end subscription) |>
    <| BillingInvoice.due_at := Some (TenantSubscription.current_period_end subscription + days (BillingContract.grace_days contract)) |>
    <| BillingInvoice.finalized_at := Some now |>
    <| BillingInvoice.paid_at := (if Amounts.total a =? 0 then Some now else None) |>.

(** The contract after its invoice. *)
Definition invoiced_contract (subscription : TenantSubscription) (a : Amounts) (contract : BillingContract) : BillingContract :=
  let contract := contract <| BillingContract.setup_fee_applied := true |> in
  let contract := if negb (Amounts.credit_used a =? 0)
    then contract <| BillingContract.credit_balance_minor ::= (fun b => b - Amounts.credit_used a) |> else contract in
  contract <| BillingContract.next_invoice_at :=
    Some (TenantSubscription.current_period_end subscription - days (BillingContract.invoice_lead_days contract)) |>.

Definition generate_contract_invoice (db : Session Db) (snapshot_id invoice_id : uuid) (serial : string) (now : time)
    (subscription : TenantSubscription) (contract : BillingContract)
    : result (BillingInvoice * BillingContract * Session Db) :=
  match scalar billing_invoices (subscription_invoice subscription) db with
  | Some existing => Ok (existing, contract, db)
  | None =>
    match get billing_plans (TenantSubscription.plan_id subscription) db with
    | None => Err (ValueError "Subscription billing plan is unavailable")
    | Some plan =>
        let tenant_id := TenantSubscription.tenant_id subscription in
        let '(addon_setup, addon_assignments) := addon_setup_fees db tenant_id in
        let overage := calculate_overage plan (tenant_usage db tenant_id) in
        let a := contract_amounts plan contract addon_setup (Overage.estimated_minor overage) in
        let '(snapshot, db) := capture_usage db snapshot_id now tenant_id
          (Some (TenantSubscription.current_period_start subscription))
          (Some (TenantSubscription.current_period_end subscription)) in
        let invoice := contract_invoice invoice_id serial now subscription contract plan snapshot overage a in
        let contract := invoiced_contract subscription a contract in
        let db := add billing_invoices invoice db in
        let db := put_all tenant_addons (map (fun r => r <| TenantAddon.setup_fee_applied := true |>) addon_assignments) db in
        let db := put billing_contracts contract db in
        Ok (invoice, contract, flush db)
    end
  end.

(** ** The billing cycle *)
Definition cancel_addon (now : time) (a : TenantAddon) : TenantAddon :=
  a <| TenantAddon.status := "canceled" |> <| TenantAddon.canceled_at := Some now |>
    <| TenantAddon.cancel_at_period_end := false |> <| TenantAddon.current_period_end := Some now |>.

(** The package change that is due and still possible. *)
Definition due_plan_change (db : Session Db) (subscription : TenantSubscription) (now : time) : option BillingPlan :=
  match TenantSubscription.pending_plan_id subscription with
  | None => None
  | Some p =>
      if match TenantSubscription.pending_plan_effective_at subscription with None => true | Some at_ => at_ <=? now end then
        match get billing_plans p db with
        | Some target =>
            if (BillingPlan.lifecycle_state target ==? "sellable") && BillingPlan.is_active target &&
               fst (target_plan_fits_current_usage db (TenantSubscription.tenant_id subscription) target)
            then Some target else None
        | None => None
        end
      else None
  end.

Definition apply_period_end_changes (db : Session Db) (plan_id : uuid) (subscription : TenantSubscription) (now : time)
    : result (bool * Z * Session Db) :=
  let addons := select tenant_addons (fun a => (TenantAddon.tenant_id a =? TenantSubscription.tenant_id subscription) &&
    (TenantAddon.status a ==? "active") && TenantAddon.cancel_at_period_end a) db in
  let db := put_all tenant_addons (map (cancel_addon now) addons) db in
  let '(plan_changed, db) :=
    match due_plan_change db subscription now with
    | Some target =>
        (true, put tenant_subscriptions
          (clear_pending (subscription <| TenantSubscription.base_plan_id := Some (BillingPlan.id target) |>)) db)
    | None => (false, db)
    end in
  if plan_changed || negb (zlen addons =? 0) then
    let* (_, db) := rebuild_effective_plan db plan_id now (TenantSubscription.tenant_id subscription) in
    Ok (plan_changed, zlen addons, db)
  else Ok (plan_changed, zlen addons, db).

Record CycleCounters : Type := mk_CycleCounters {
  scanned : Z; invoices_created : Z; renewed : Z; past_due : Z; canceled : Z; plan_changes_applied : Z; addons_canceled : Z
}.
#[export] Instance eta_CycleCounters : Eta CycleCounters := fun r =>
  mk_CycleCounters (scanned r) (invoices_created r) (renewed r) (past_due r) (canceled r) (plan_changes_applied r) (addons_canceled r).

(** The identifiers one subscription may use up in a cycle. *)
Record CycleIds : Type := mk_CycleIds { id_contract : uuid; id_snapshot : uuid; id_invoice : uuid; serial : string; id_plan : uuid }.

(** Moving on to the next period. *)
Definition renewed_subscription (interval : string) (s : TenantSubscription) : TenantSubscription :=
  active_row (s <| TenantSubscription.current_period_start := TenantSubscription.current_period_end s |>
                <| TenantSubscription.current_period_end ::= (fun e => e + period_delta interval) |>).
Definition renewed_addon (s : TenantSubscription) (a : TenantAddon) : TenantAddon :=
  a <| TenantAddon.current_period_start := Some (TenantSubscription.current_period_start s) |>
    <| TenantAddon.current_period_end := Some (TenantSubscription.current_period_end s) |>.

Definition renew (db : Session Db) (ids : CycleIds) (subscription : TenantSubscription) (contract : BillingContract)
    (now : time) (c : CycleCounters) : result (CycleCounters * Session Db) :=
  let* (plan_changed, addons, db) := apply_period_end_changes db (id_plan ids) subscription now in
  let subscription := renewed_subscription (BillingContract.billing_interval contract)
    (live (tenant_subscriptions (mem db)) subscription) in
  let db := put tenant_subscriptions subscription db in
  let active := select tenant_addons (fun a => (TenantAddon.tenant_id a =? TenantSubscription.tenant_id subscription) &&
    (TenantAddon.status a ==? "active")) db in
  let db := put_all tenant_addons (map (renewed_addon subscription) active) db in
  let db := put billing_contracts (contract <| BillingContract.next_invoice_at :=
    Some (TenantSubscription.current_period_end subscription - days (Z.max 0 (BillingContract.invoice_lead_days contract))) |>) db in
  Ok (c <| plan_changes_applied ::= Z.add (Z.b2z plan_changed) |> <| addons_canceled ::= Z.add addons |>
        <| renewed ::= Z.add 1 |>, db).

(** One turn of the loop. *)
Definition bill_subscription (db : Session Db) (ids : CycleIds) (subscription : TenantSubscription) (now : time)
    (c : CycleCounters) : result (CycleCounters * Session Db) :=
  let c := c <| scanned ::= Z.add 1 |> in
  let '(contract, db) := get_or_create_contract db (id_contract ids) now (TenantSubscription.tenant_id subscription) in
  let contract := if BillingContract.billing_interval contract notin? ["monthly"; "annual"]
    then contract <| BillingContract.billing_interval := "annual" |> else contract in
  let db := put billing_contracts contract db in
  let invoice := scalar billing_invoices (subscription_invoice subscription) db in
  let lead_at := TenantSubscription.current_period_end subscription - days (Z.max 0 (BillingContract.invoice_lead_days contract)) in
  let due := BillingContract.auto_renew contract && (lead_at <=? now) &&
    (TenantSubscription.status subscription in? [SubscriptionStatus.trialing; SubscriptionStatus.active; SubscriptionStatus.past_due]) in
  let* (invoice, contract, c, db) :=
    match invoice with
    | Some i => Ok (Some i, contract, c, db)
    | None =>
        if due then
          let* (i, contract, db) := generate_contract_invoice db (id_snapshot ids) (id_invoice ids) (serial ids) now
            subscription contract in
          Ok (Some i, contract, c <| invoices_created ::= Z.add 1 |>, db)
        else Ok (None, contract, c, db)
    end in
  if now <? TenantSubscription.current_period_end subscription then Ok (c, db)
  else if TenantSubscription.cancel_at_period_end subscription || negb (BillingContract.auto_renew contract) then
    Ok (c <| canceled ::= Z.add 1 |>,
        put tenant_subscriptions (subscription <| TenantSubscription.status := SubscriptionStatus.canceled |>) db)
  else if match invoice with Some i => BillingInvoice.status i ==? InvoiceStatus.paid | None => false end then
    renew db ids subscription contract now c
  else if TenantSubscription.status subscription !=? SubscriptionStatus.past_due then
    Ok (c <| past_due ::= Z.add 1 |>,
        put tenant_subscriptions (subscription
          <| TenantSubscription.status := SubscriptionStatus.past_due |>
          <| TenantSubscription.past_due_since := Some now |>
          <| TenantSubscription.grace_ends_at := Some (now + days (Z.max 0 (BillingContract.grace_days contract))) |>) db)
  else Ok (c, db).

Fixpoint bill_subscriptions (db : Session Db) (ids : nat -> CycleIds) (l : list TenantSubscription) (now : time)
    (c : CycleCounters) : result (CycleCounters * Session Db) :=
  match l with
  | [] => Ok (c, db)
  | subscription :: l =>
      let* (c, db) := bill_subscription db (ids 0%nat) (live (tenant_subscriptions (mem db)) subscription) now c in
      bill_subscriptions db (fun i => ids (S i)) l now c
  end.

Definition run_billing_cycle (db : Session Db) (ids : nat -> CycleIds) (now : time) : result (CycleCounters * Session Db) :=
  let subscriptions := select_ordered tenant_subscriptions (asc TenantSubscription.current_period_end) (fun _ => true) db in
  let* (c, db) := bill_subscriptions db ids subscriptions now (mk_CycleCounters 0 0 0 0 0 0 0) in
  Ok (c, commit db).

(** ** Amounts *)

(** Nothing is billed twice or below zero: discount and credit are bounded by
    what they reduce. *)
Lemma contract_amounts_spec plan contract setup overage :
  let a := contract_amounts plan contract setup overage in
  0 <= Amounts.subtotal a ->
  0 <= Amounts.discount a <= Amounts.subtotal a /\
  0 <= Amounts.credit_used a <= Z.max 0 (BillingContract.credit_balance_minor contract) /\
  0 <= Amounts.total a /\
  Amounts.total a = Amounts.subtotal a - Amounts.discount a - Amounts.credit_used a /\
  (100 <= BillingContract.discount_percent contract -> Amounts.total a = 0).
Proof.
  intros a Hs. unfold a, contract_amounts in *.
  cbn [Amounts.subtotal Amounts.discount Amounts.credit_used Amounts.total] in *.
  set (subtotal := _ + overage) in *. set (percent := Z.max 0 (Z.min 100 (BillingContract.discount_percent contract))).
  assert (0 <= percent <= 100) by (unfold percent; lia).
  assert (0 <= subtotal * percent / 100 <= subtotal) by (Z.to_euclidean_division_equations; nia).
  set (credit := Z.max 0 (BillingContract.credit_balance_minor contract)).
  assert (0 <= credit) by (unfold credit; lia). split_and!; try lia.
  intros Hp. assert (percent = 100) as Hp100 by (unfold percent; lia).
  rewrite Hp100, Z.div_mul by lia. lia.
Qed.

Lemma invoiced_contract_spec sub a contract :
  let c := invoiced_contract sub a contract in
  BillingContract.setup_fee_applied c = true /\ key c = key contract /\
  BillingContract.credit_balance_minor c = BillingContract.credit_balance_minor contract - Amounts.credit_used a /\
  BillingContract.billing_interval c = BillingContract.billing_interval contract.
Proof. unfold invoiced_contract. bdestruct (Amounts.credit_used a =? 0); cbn; split_and!; try done. lia. Qed.

Lemma keys_snoc {R} `{Keyed R} (l : list R) r : NoDup (keys l) -> key r ∉ keys l -> NoDup (keys (l ++ [r])).
Proof.
  intros Hn Hf. unfold keys. rewrite map_app. apply NoDup_app. split_and!; [done| |apply NoDup_singleton].
  by intros x Hx ->%list_elem_of_singleton.
Qed.

(**  The invoice of a contract period bills the fixed fees plus the overage
    less discount and credit, each within its bounds; the credit used is taken
    from the balance, which never becomes negative by it, and the setup fee is
    marked as charged.  Invoicing the period again returns the same invoice and
    neither charges nor credits anything more. *)
Theorem contract_invoice_sound d snapshot_id invoice_id serial now sub contract i c s :
  NoDup (keys (billing_invoices d)) -> invoice_id ∉ keys (billing_invoices d) ->
  scalar billing_invoices (subscription_invoice sub) (open_session d) = None ->
  generate_contract_invoice (open_session d) snapshot_id invoice_id serial now sub contract = Ok (i, c, s) ->
  (exists plan setup, let a := contract_amounts plan contract setup
        (Overage.estimated_minor (calculate_overage plan (tenant_usage (open_session d) (TenantSubscription.tenant_id sub)))) in
     get billing_plans (TenantSubscription.plan_id sub) (open_session d) = Some plan /\
     setup = fst (addon_setup_fees (open_session d) (TenantSubscription.tenant_id sub)) /\
     BillingInvoice.total_minor i = Amounts.total a /\
     BillingContract.credit_balance_minor c = BillingContract.credit_balance_minor contract - Amounts.credit_used a /\
     BillingContract.setup_fee_applied c = true /\
     (0 <= Amounts.subtotal a ->
        0 <= BillingInvoice.total_minor i <= Amounts.subtotal a /\
        (0 <= BillingContract.credit_balance_minor contract -> 0 <= BillingContract.credit_balance_minor c) /\
        (BillingInvoice.status i = InvoiceStatus.open <-> 0 < BillingInvoice.total_minor i))) /\
  forall snapshot_id2 invoice_id2 serial2 now2,
    generate_contract_invoice s snapshot_id2 invoice_id2 serial2 now2 sub c = Ok (i, c, s).
Proof.
  intros Hn Hf Hno Hg. unfold generate_contract_invoice in Hg. rewrite Hno in Hg.
  destruct (get billing_plans _ _) as [plan|] eqn:Ep; [|done].
  destruct (addon_setup_fees _ _) as [setup assignments] eqn:Es.
  unfold capture_usage in Hg. set (overage := calculate_overage _ _) in Hg.
  set (a := contract_amounts _ _ _ _) in Hg. set (snapshot := usage_snapshot _ _ _ _ _ _) in Hg.
  cbv zeta in Hg. injection Hg as <- <- <-.
  set (i := contract_invoice _ _ _ _ _ _ _ _ _). set (c := invoiced_contract _ _ _).
  destruct (invoiced_contract_spec sub a contract) as (Hfee & _ & Hcredit & _).
  split.
  - exists plan, setup. fold overage. fold a. split_and!; try done. intros Hsub.
    destruct (contract_amounts_spec plan contract setup (Overage.estimated_minor overage) Hsub) as (Hd & Hcr & Ht & Heq & _).
    fold a in Hd, Hcr, Ht, Heq. change (BillingInvoice.total_minor i) with (Amounts.total a).
    change (BillingInvoice.status i) with (if 0 <? Amounts.total a then InvoiceStatus.open else InvoiceStatus.paid).
    split_and!; [lia..| |].
    + intros Hbal. unfold c. rewrite Hcredit. lia.
    + destruct (Z.ltb_spec 0 (Amounts.total a)); split; intros; try done; lia.
  - intros snapshot_id2 invoice_id2 serial2 now2. unfold generate_contract_invoice.
    set (s := flush _). assert (billing_invoices (mem s) = billing_invoices d ++ [i]) as Hi by done.
    assert (scalar billing_invoices (subscription_invoice sub) s = Some i) as ->; [|done].
    rewrite scalar_head; [|reflexivity|rewrite Hi; by apply keys_snoc]. rewrite Hi, List.filter_app.
    rewrite scalar_head in Hno by done. cbn [mem open_session] in Hno. destruct (List.filter _ (billing_invoices d)); [|done].
    cbn [app List.filter]. assert (subscription_invoice sub i = true) as ->; [|done].
    unfold subscription_invoice. rewrite !andb_true_iff. split_and!; try by apply bool_decide_eq_true.
    change (BillingInvoice.status i) with (if 0 <? Amounts.total a then InvoiceStatus.open else InvoiceStatus.paid).
    by destruct (0 <? _).
Qed.

(** ** Package changes *)
Lemma fits_current_usage db t target :
  fst (target_plan_fits_current_usage db t target) = true <-> within_plan (tenant_usage db t) (limits_of target) = true.
Proof.
  unfold target_plan_fits_current_usage, within_plan. set (u := tenant_usage db t). unfold usage_checks. cbn [flat_map].
  cbn [limits_of Limits.mailboxes Limits.domains Limits.storage_bytes Limits.api_keys Limits.hosted_projects
    Limits.hosting_storage_bytes Limits.hosting_database_count Limits.hosting_database_storage_bytes
    Limits.hosting_source_storage_bytes].
  rewrite !Z.leb_antisym.
  repeat match goal with |- context [?a <? ?b] => destruct (a <? b); cbn; [done|] end. done.
Qed.

Lemma capacity_upgrade_fields current target :
  is_capacity_upgrade current target = true <-> forall f, f ∈ CAPACITY_FIELDS -> f current <= f target.
Proof.
  unfold is_capacity_upgrade. rewrite forallb_forall. setoid_rewrite list_elem_of_In. by setoid_rewrite Z.leb_le.
Qed.

Lemma base_plan_ok db s plan s' db' : base_plan db s = Ok (plan, s', db') ->
  get billing_plans (base_of s) db = Some plan /\ TenantSubscription.plan_id s' = TenantSubscription.plan_id s /\
  TenantSubscription.base_plan_id s' = Some (base_of s) /\ key s' = key s /\ sql db' = sql db /\
  TenantSubscription.tenant_id s' = TenantSubscription.tenant_id s /\
  TenantSubscription.current_period_end s' = TenantSubscription.current_period_end s /\
  keys (tenant_subscriptions (mem db')) = keys (tenant_subscriptions (mem db)).
Proof.
  unfold base_plan, base_of. destruct (get _ _ _) as [p|] eqn:Eg; [|done]. apply get_key in Eg as Hk.
  destruct (TenantSubscription.base_plan_id s) eqn:Eb; intros [= <- <- <-]; [by rewrite Eb|].
  split_and!; try done; cbn; [by f_equal|apply (keys_put (s <| TenantSubscription.base_plan_id := Some (BillingPlan.id p) |>))].
Qed.

(**  A package change is accepted only for an active or trialing
    subscription, for a package on sale that holds the current usage.  It is
    immediate only when no capacity decreases; any other change waits for the
    end of the period, leaving the package the tenant has untouched; asking for
    the current package withdraws a pending change. *)
Theorem request_plan_change_sound db plan_id sub target now mode db' :
  key sub ∈ keys (tenant_subscriptions (mem db)) ->
  request_plan_change db plan_id sub target now = Ok (mode, db') ->
  (TenantSubscription.status sub = SubscriptionStatus.active \/ TenantSubscription.status sub = SubscriptionStatus.trialing) /\
  BillingPlan.lifecycle_state target = "sellable" /\ BillingPlan.is_active target = true /\
  exists current, get billing_plans (base_of sub) db = Some current /\
  match mode with
  | Unchanged => BillingPlan.id current = BillingPlan.id target /\
      exists sub', find_row (key sub) (tenant_subscriptions (mem db')) = Some sub' /\
        TenantSubscription.pending_plan_id sub' = None /\ TenantSubscription.plan_id sub' = TenantSubscription.plan_id sub
  | Immediate _ =>
      within_plan (tenant_usage db (TenantSubscription.tenant_id sub)) (limits_of target) = true /\
      (forall f, f ∈ CAPACITY_FIELDS -> f current <= f target)
  | PeriodEnd at_ =>
      within_plan (tenant_usage db (TenantSubscription.tenant_id sub)) (limits_of target) = true /\
      ~ (forall f, f ∈ CAPACITY_FIELDS -> f current <= f target) /\ at_ = TenantSubscription.current_period_end sub /\
      exists sub', find_row (key sub) (tenant_subscriptions (mem db')) = Some sub' /\
        TenantSubscription.plan_id sub' = TenantSubscription.plan_id sub /\
        TenantSubscription.base_plan_id sub' = Some (base_of sub) /\
        TenantSubscription.pending_plan_id sub' = Some (BillingPlan.id target) /\
        TenantSubscription.pending_plan_effective_at sub' = Some at_
  end.
Proof.
  intros Hin Hr. unfold request_plan_change in Hr.
  destruct (TenantSubscription.status sub notin? _) eqn:Est; [by repeat case_match|].
  apply negb_false_iff in Est. simpl in Est. rewrite !orb_true_iff, !bool_decide_eq_true in Est.
  destruct (_ || _ || _) eqn:Esale in Hr; [done|]. rewrite !orb_false_iff, !negb_false_iff, bool_decide_eq_true in Esale.
  destruct Esale as [[Hsell Hact] _].
  apply rbind_ok in Hr as ([[current s1] db1] & Hb & Hr).
  apply base_plan_ok in Hb as (Hget & Hplan & Hbase & Hkey & Hsql & Hten & Hend & Hkeys).
  split; [naive_solver|]. split; [done|]. split; [done|]. exists current. split; [done|].
  assert (Hfind : forall s2, key s2 = key s1 ->
    find_row (key sub) (tenant_subscriptions (mem (put tenant_subscriptions s2 db1))) = Some s2).
  { intros s2 Hk. rewrite <- Hkey, <- Hk. apply (find_put_same s2). rewrite Hkeys. congruence. }
  bdestruct (BillingPlan.id current =? BillingPlan.id target).
  { injection Hr as <- <-. split; [done|]. exists (clear_pending s1). rewrite Hfind by done. by split_and!. }
  destruct (target_plan_fits_current_usage _ _ _) as [fits failures] eqn:Ef. destruct fits; [|done].
  assert (within_plan (tenant_usage db (TenantSubscription.tenant_id sub)) (limits_of target) = true) as Hfits.
  { apply (f_equal fst) in Ef. apply fits_current_usage in Ef. rewrite Hten in Ef. unfold tenant_usage, hosting_resource_usage in *.
    unfold sql_count, sql_sum in *. by rewrite Hsql in Ef. }
  destruct (is_capacity_upgrade current target) eqn:Eup.
  - apply rbind_ok in Hr as ([p db2] & _ & Hr). injection Hr as <- _. split; [done|]. by apply capacity_upgrade_fields.
  - injection Hr as <- <-. split_and!; try done.
    + intros Hall. apply capacity_upgrade_fields in Hall. congruence.
    + eexists. rewrite Hfind by done. split_and!; try done.
Qed.

(** ** The billing cycle *)

(** The billing period of a subscription; rebuilding plans does not touch it. *)
Definition period (s : TenantSubscription) : uuid * time * time :=
  (TenantSubscription.id s, TenantSubscription.current_period_start s, TenantSubscription.current_period_end s).

Lemma put_row_map {R A} `{Keyed R} (f : R -> A) r t :
  (forall x, x ∈ t -> key x = key r -> f x = f r) -> map f (put_row r t) = map f t.
Proof.
  intros Hr. unfold put_row. rewrite map_map. apply map_ext_in. intros x Hx%list_elem_of_In.
  bdestruct (key x =? key r); [|done]. symmetry. by apply Hr.
Qed.
Lemma put_row_period t s s0 : NoDup (keys t) -> s0 = live t s0 -> period s = period s0 ->
  map period (put_row s t) = map period t.
Proof.
  intros Hn Hl Hp. apply put_row_map. intros x Hx Hk. rewrite Hp. f_equal. rewrite Hl. unfold live.
  assert (key s0 = key x) as -> by (rewrite Hk; unfold period in Hp; unfold key, keyed_TenantSubscription; congruence).
  by rewrite (find_row_nodup _ _ Hn Hx).
Qed.
Lemma live_idem {R} `{Keyed R} (t : list R) r : live t (live t r) = live t r.
Proof.
  unfold live. destruct (find_row (key r) t) as [x|] eqn:E; [|by rewrite E].
  by rewrite (find_row_key _ _ _ E), E.
Qed.
Lemma find_row_map (t t' : list TenantSubscription) k s :
  map period t' = map period t -> find_row k t = Some s -> exists s', find_row k t' = Some s' /\ period s' = period s.
Proof.
  revert t'. induction t as [|a t IH]; intros [|a' t'] Hm; simpl in *; try done.
  injection Hm as Hid Hst Hen Hm. change (key a') with (TenantSubscription.id a').
  change (key a) with (TenantSubscription.id a). rewrite Hid. destruct (_ =? k); [|by apply IH].
  intros [= <-]. exists a'. unfold period. by rewrite Hid, Hst, Hen.
Qed.
Lemma map_period_keys t t' : map period t' = map period t -> keys t' = keys t.
Proof.
  intros Hm. change (keys t') with (map (fun s => fst (fst (period s))) t').
  change (keys t) with (map (fun s => fst (fst (period s))) t).
  rewrite <- (map_map period (fun x => fst (fst x))), Hm. apply map_map.
Qed.

Lemma rebuild_keeps db new_id now t r db' :
  NoDup (keys (tenant_subscriptions (mem db))) ->
  rebuild_effective_plan db new_id now t = Ok (r, db') ->
  map period (tenant_subscriptions (mem db')) = map period (tenant_subscriptions (mem db)) /\
  billing_invoices (mem db') = billing_invoices (mem db).
Proof.
  intros Hn. unfold rebuild_effective_plan.
  destruct (get_subscription db t) as [sub|] eqn:Es; [|intros [= _ <-]; done].
  assert (exists x, sub = live (tenant_subscriptions (mem db)) x) as [x0 ->].
  { unfold get_subscription, scalar, select in Es. destruct (List.filter _ _) as [|x l]; simpl in Es; [done|].
    injection Es as <-. by exists x. }
  set (sub := live _ x0). assert (live (tenant_subscriptions (mem db)) sub = sub) as Hlive by apply live_idem.
  clearbody sub. clear x0 Es.
  destruct (base_plan_id db sub) as [base_id db1] eqn:Eb.
  assert (map period (tenant_subscriptions (mem db1)) = map period (tenant_subscriptions (mem db)) /\
    billing_invoices (mem db1) = billing_invoices (mem db)) as [Hp1 Hi1].
  { unfold base_plan_id in Eb. destruct (find_row _ _) as [row|]; [|by injection Eb as _ <-].
    destruct (TenantSubscription.base_plan_id row); [by injection Eb as _ <-|]. injection Eb as _ <-.
    split; [|done]. cbn [mem put]. rewrite Hlive. apply (put_row_period _ _ sub); [done|done|].
    by destruct (TenantSubscription.base_plan_id sub). }
  assert (Hassign : forall db2 p, map period (tenant_subscriptions (mem db2)) = map period (tenant_subscriptions (mem db)) ->
    tenant_subscriptions (mem db2) = tenant_subscriptions (mem db1) ->
    map period (tenant_subscriptions (mem (put tenant_subscriptions
      (live (tenant_subscriptions (mem db1)) sub <| TenantSubscription.plan_id := p |>) db2))) =
    map period (tenant_subscriptions (mem db))).
  { intros db2 p H2 Heq. rewrite <- H2. cbn [mem put]. rewrite <- Heq.
    apply (put_row_period _ _ (live (tenant_subscriptions (mem db2)) sub)); [|by rewrite live_idem|done].
    rewrite (map_period_keys _ _ H2). done. }
  cbv zeta. destruct (get billing_plans _ _) as [base|]; [|done].
  destruct (AddonTotals.totals _).
  - intros [= _ <-]. split; [by apply Hassign|done].
  - destruct (ensure_effective db1 new_id now t base) as [e db2] eqn:Ee.
    assert (tenant_subscriptions (mem db2) = tenant_subscriptions (mem db1) /\
      billing_invoices (mem db2) = billing_invoices (mem db1)) as [Hp2 Hi2].
    { unfold ensure_effective in Ee. destruct (scalar _ _ _); by injection Ee as _ <-. }
    intros [= _ <-]. split; [|cbn; congruence]. cbn [mem flush].
    apply Hassign; [|done]. cbn. by rewrite Hp2.
Qed.

Lemma apply_period_end_changes_keeps db plan_id sub now changed n db' :
  NoDup (keys (tenant_subscriptions (mem db))) -> find_row (key sub) (tenant_subscriptions (mem db)) = Some sub ->
  apply_period_end_changes db plan_id sub now = Ok (changed, n, db') ->
  map period (tenant_subscriptions (mem db')) = map period (tenant_subscriptions (mem db)) /\
  billing_invoices (mem db') = billing_invoices (mem db).
Proof.
  intros Hn Hs. unfold apply_period_end_changes. set (db1 := put_all _ _ _).
  assert (tenant_subscriptions (mem db1) = tenant_subscriptions (mem db) /\
    billing_invoices (mem db1) = billing_invoices (mem db)) as [Hp1 Hi1] by done.
  destruct (match due_plan_change db1 sub now with Some _ => _ | None => _ end) as [plan_changed db2] eqn:Ed.
  assert (map period (tenant_subscriptions (mem db2)) = map period (tenant_subscriptions (mem db)) /\
    billing_invoices (mem db2) = billing_invoices (mem db)) as [Hp2 Hi2].
  { destruct (due_plan_change db1 sub now); injection Ed as _ <-; [|by rewrite Hp1]. split; [|done].
    rewrite <- Hp1. cbn [mem put]. apply (put_row_period _ _ sub); [by rewrite Hp1| |done].
    rewrite Hp1. unfold live. by rewrite Hs. }
  destruct (plan_changed || _).
  - intros Hr. apply rbind_ok in Hr as ([p db3] & Hr & [= _ _ <-]). apply rebuild_keeps in Hr as [Hp3 Hi3].
    + by rewrite Hp3, Hi3, Hp2, Hi2.
    + by rewrite (map_period_keys _ _ Hp2).
  - by intros [= _ _ <-].
Qed.

(** What one turn of the cycle makes of a subscription: [i] is the invoice of
    its period, when there is one. *)
Inductive cycle_step (now : time) (contract : BillingContract) (i : option BillingInvoice) (s : TenantSubscription)
    : TenantSubscription -> Prop :=
| Step_running : now < TenantSubscription.current_period_end s -> cycle_step now contract i s s
| Step_canceled :
    TenantSubscription.current_period_end s <= now ->
    TenantSubscription.cancel_at_period_end s = true \/ BillingContract.auto_renew contract = false ->
    cycle_step now contract i s (s <| TenantSubscription.status := SubscriptionStatus.canceled |>)
| Step_renewed s' inv :
    TenantSubscription.current_period_end s <= now ->
    TenantSubscription.cancel_at_period_end s = false -> BillingContract.auto_renew contract = true ->
    i = Some inv -> BillingInvoice.status inv = InvoiceStatus.paid ->
    TenantSubscription.current_period_start s' = TenantSubscription.current_period_end s ->
    TenantSubscription.current_period_end s' =
      TenantSubscription.current_period_end s + period_delta (BillingContract.billing_interval contract) ->
    TenantSubscription.status s' = SubscriptionStatus.active -> TenantSubscription.grace_ends_at s' = None ->
    cycle_step now contract i s s'
| Step_past_due :
    TenantSubscription.current_period_end s <= now ->
    (forall inv, i = Some inv -> BillingInvoice.status inv <> InvoiceStatus.paid) ->
    TenantSubscription.status s <> SubscriptionStatus.past_due ->
    cycle_step now contract i s (s <| TenantSubscription.status := SubscriptionStatus.past_due |>
      <| TenantSubscription.past_due_since := Some now |>
      <| TenantSubscription.grace_ends_at := Some (now + days (Z.max 0 (BillingContract.grace_days contract))) |>)
| Step_unpaid :
    TenantSubscription.current_period_end s <= now ->
    (forall inv, i = Some inv -> BillingInvoice.status inv <> InvoiceStatus.paid) ->
    TenantSubscription.status s = SubscriptionStatus.past_due -> cycle_step now contract i s s.

Lemma renew_step db ids s contract now c c' db' :
  NoDup (keys (tenant_subscriptions (mem db))) -> find_row (key s) (tenant_subscriptions (mem db)) = Some s ->
  renew db ids s contract now c = Ok (c', db') ->
  exists s', find_row (key s) (tenant_subscriptions (mem db')) = Some s' /\
    TenantSubscription.current_period_start s' = TenantSubscription.current_period_end s /\
    TenantSubscription.current_period_end s' =
      TenantSubscription.current_period_end s + period_delta (BillingContract.billing_interval contract) /\
    TenantSubscription.status s' = SubscriptionStatus.active /\ TenantSubscription.grace_ends_at s' = None /\
    billing_invoices (mem db') = billing_invoices (mem db).
Proof.
  intros Hn Hs Hr. unfold renew in Hr. apply rbind_ok in Hr as ([[changed n] db1] & Ha & Hr).
  apply apply_period_end_changes_keeps in Ha as [Hp Hi]; [|done..]. injection Hr as _ <-.
  destruct (find_row_map _ _ (key s) s Hp Hs) as (s1 & Hs1 & Hper).
  assert (live (tenant_subscriptions (mem db1)) s = s1) as Hl by (unfold live; by rewrite Hs1).
  unfold period in Hper. injection Hper as Hid Hst Hen.
  set (s2 := renewed_subscription (BillingContract.billing_interval contract) (live (tenant_subscriptions (mem db1)) s)).
  exists s2. split_and!; try done.
  - assert (key s2 = key s) as Hk by (unfold s2; rewrite Hl; exact Hid).
    assert (find_row (key s2) (put_row s2 (tenant_subscriptions (mem db1))) = Some s2) as Hf.
    { apply find_put_same. rewrite Hk. change (key s2) with (TenantSubscription.id s2) in Hk.
      rewrite (map_period_keys _ _ Hp). apply find_row_elem in Hs. by apply list_elem_of_fmap_2. }
    rewrite <- Hk. exact Hf.
  - unfold s2. rewrite Hl. cbn. exact Hen.
  - unfold s2. rewrite Hl. cbn. by rewrite Hen.
Qed.

Lemma generate_contract_invoice_keeps db sid iid serial now s contract i c db' :
  generate_contract_invoice db sid iid serial now s contract = Ok (i, c, db') ->
  scalar billing_invoices (subscription_invoice s) db = None ->
  tenant_subscriptions (mem db') = tenant_subscriptions (mem db) /\
  billing_invoices (mem db') = billing_invoices (mem db) ++ [i] /\
  BillingContract.auto_renew c = BillingContract.auto_renew contract /\
  BillingContract.billing_interval c = BillingContract.billing_interval contract /\
  BillingContract.grace_days c = BillingContract.grace_days contract /\ subscription_invoice s i = true.
Proof.
  intros Hg Hno. unfold generate_contract_invoice in Hg. rewrite Hno in Hg. destruct (get _ _ _) as [plan|]; [|done].
  destruct (addon_setup_fees _ _) as [setup assignments]. unfold capture_usage in Hg. cbv zeta in Hg.
  injection Hg as <- <- <-. unfold invoiced_contract. split_and!; try done;
    [by destruct (negb _)..|].
  unfold subscription_invoice. rewrite !andb_true_iff. split_and!; try by apply bool_decide_eq_true.
  set (a := contract_amounts _ _ _ _).
  change (BillingInvoice.status _) with (if 0 <? Amounts.total a then InvoiceStatus.open else InvoiceStatus.paid).
  by destruct (0 <? _).
Qed.

(**  One turn of the billing cycle moves a subscription along [cycle_step]:
    nothing happens before the end of the period; after it the subscription is
    canceled if it does not renew, moves on to exactly the next period if the
    invoice of the period is paid, and is otherwise past due with a grace period
    running from the first time.  A period is never renewed without a paid
    invoice of that very period. *)
Theorem bill_subscription_step d ids s now c c' db' :
  NoDup (keys (tenant_subscriptions d)) -> NoDup (keys (billing_invoices d)) -> s ∈ tenant_subscriptions d ->
  bill_subscription (open_session d) ids s now c = Ok (c', db') ->
  exists contract i s', cycle_step now contract i s s' /\
    find_row (key s) (tenant_subscriptions (mem db')) = Some s' /\
    (forall inv, i = Some inv -> inv ∈ billing_invoices (mem db') /\ subscription_invoice s inv = true).
Proof.
  intros Hn Hni Hs Hr. unfold bill_subscription in Hr.
  destruct (get_or_create_contract _ _ _ _) as [contract0 db0] eqn:Ec.
  assert (tenant_subscriptions (mem db0) = tenant_subscriptions d /\ billing_invoices (mem db0) = billing_invoices d /\
    billing_invoices (sql db0) = billing_invoices d) as (Hp0 & Hi0 & Hq0).
  { unfold get_or_create_contract in Ec. destruct (scalar _ _ _); by injection Ec as _ <-. }
  set (contract1 := if _ notin? _ then _ else contract0) in Hr. clearbody contract1. clear Ec.
  set (db1 := put billing_contracts contract1 db0) in Hr.
  assert (tenant_subscriptions (mem db1) = tenant_subscriptions d /\ billing_invoices (mem db1) = billing_invoices d /\
    billing_invoices (sql db1) = billing_invoices d) as (Hp1 & Hi1 & Hq1) by done.
  clearbody db1. clear Hp0 Hi0 Hq0. cbv zeta in Hr.
  apply rbind_ok in Hr as ([[[i contract] c1] db2] & Hinv & Hr).
  assert (tenant_subscriptions (mem db2) = tenant_subscriptions d /\
    forall inv, i = Some inv -> inv ∈ billing_invoices (mem db2) /\ subscription_invoice s inv = true) as [Hp2 Hin].
  { destruct (scalar billing_invoices (subscription_invoice s) db1) as [i0|] eqn:Ei.
    - injection Hinv as <- <- <- <-. split; [done|]. intros ? [= <-].
      apply scalar_some in Ei; [done|by unfold synced; rewrite Hq1, Hi1|by rewrite Hi1].
    - destruct (_ && _ && _); [|by injection Hinv as <- _ _ <-].
      apply rbind_ok in Hinv as ([[i1 contract2] db3] & Hg & [= <- <- _ <-]).
      apply generate_contract_invoice_keeps in Hg as (Hsub & Hi & _ & _ & _ & Hown); [|done].
      split; [by rewrite Hsub|]. intros ? [= <-]. split; [|done]. rewrite Hi. apply elem_of_app. right. by apply list_elem_of_singleton. }
  clear Hinv. assert (find_row (key s) (tenant_subscriptions (mem db2)) = Some s) as Hfind
    by (rewrite Hp2; by apply find_row_nodup).
  assert (Hput : forall s2, key s2 = key s ->
    find_row (key s) (tenant_subscriptions (mem (put tenant_subscriptions s2 db2))) = Some s2).
  { intros s2 Hk. rewrite <- Hk. apply (find_put_same s2). rewrite Hk, Hp2. by apply list_elem_of_fmap_2. }
  bdestruct (now <? TenantSubscription.current_period_end s).
  { injection Hr as _ <-. exists contract, i, s. split; [by constructor|done]. }
  destruct (TenantSubscription.cancel_at_period_end s || negb (BillingContract.auto_renew contract)) eqn:Ecan.
  { injection Hr as _ <-. eexists contract, i, _. split; [apply Step_canceled; [done|]|split; [by apply Hput|done]].
    apply orb_true_iff in Ecan as [?|?%negb_true_iff]; auto. }
  apply orb_false_iff in Ecan as [Ecan Erenew%negb_false_iff].
  destruct (match i with Some i => _ | None => false end) eqn:Epaid.
  - destruct i as [inv|]; [|done]. apply bool_decide_eq_true in Epaid.
    apply renew_step in Hr as (s' & Hf & H1 & H2 & H3 & H4 & H5); [|by rewrite Hp2|done].
    exists contract, (Some inv), s'. split; [by eapply Step_renewed|]. split; [done|]. by rewrite H5.
  - assert (forall inv, i = Some inv -> BillingInvoice.status inv <> InvoiceStatus.paid) as Hun.
    { intros inv ->. by apply bool_decide_eq_false in Epaid. }
    bdestruct (TenantSubscription.status s !=? SubscriptionStatus.past_due); injection Hr as _ <-;
      eexists contract, i, _; (split; [|split; [by apply Hput || exact Hfind|done]]).
    + by apply Step_past_due.
    + by apply Step_unpaid.
Qed.

(** ** A tenant whose period ends on day 365 *)
Definition demo_grow : BillingPlan := plan_grow 2 0.
Definition demo_contract : BillingContract :=
  BillingContract.new_BillingContract 90 0 <| BillingContract.tenant_id := 9 |>
    <| BillingContract.discount_percent := 10 |> <| BillingContract.credit_balance_minor := 5000 |>.
Definition demo_yearly : TenantSubscription :=
  demo_subscription <| TenantSubscription.base_plan_id := Some 1 |>
    <| TenantSubscription.current_period_end := days 365 |>.
Definition demo_contract_db : Db :=
  demo_catalog_db <| billing_plans := [demo_plan; demo_grow] |> <| tenant_subscriptions := [demo_yearly] |>
    <| billing_contracts := [demo_contract] |> <| billing_invoices := [] |>.
Definition demo_cycle_ids (k : nat) : CycleIds :=
  let k := Z.of_nat k in mk_CycleIds (1000 + k) (2000 + k) (3000 + k) "X" (5000 + k).

Lemma contract_invoice_sound_witness :
  exists i c s, generate_contract_invoice (open_session demo_contract_db) 91 92 "AB" (days 360) demo_yearly demo_contract = Ok (i, c, s) /\
    BillingInvoice.total_minor i = 18500 * 12 * 9 / 10 - 5000 /\ BillingContract.credit_balance_minor c = 0 /\
    generate_contract_invoice s 93 94 "CD" (days 361) demo_yearly c = Ok (i, c, s).
Proof.
  destruct (generate_contract_invoice (open_session demo_contract_db) 91 92 "AB" (days 360) demo_yearly demo_contract)
    as [[[i c] s]|x] eqn:E; [|exfalso; vm_compute in E; discriminate].
  destruct (contract_invoice_sound demo_contract_db 91 92 "AB" (days 360) demo_yearly demo_contract i c s
    ltac:(apply NoDup_nil_2) ltac:(apply not_elem_of_nil) eq_refl E) as [_ Hagain].
  exists i, c, s. split; [reflexivity|].
  assert (BillingInvoice.total_minor i = 18500 * 12 * 9 / 10 - 5000 /\ BillingContract.credit_balance_minor c = 0) as [H1 H2]
    by (vm_compute in E; injection E as <- <- _; split; reflexivity).
  split; [exact H1|]. split; [exact H2|]. apply Hagain.
Defined.

Lemma request_plan_change_sound_witness :
  exists mode s, request_plan_change (open_session demo_contract_db) 95 demo_yearly demo_grow 100 = Ok (mode, s) /\
    mode = Immediate 100 /\ forall f, f ∈ CAPACITY_FIELDS -> f demo_plan <= f demo_grow.
Proof.
  destruct (request_plan_change (open_session demo_contract_db) 95 demo_yearly demo_grow 100) as [[mode s]|x] eqn:E;
    [|exfalso; vm_compute in E; discriminate].
  destruct (request_plan_change_sound (open_session demo_contract_db) 95 demo_yearly demo_grow 100 mode s
    ltac:(apply list_elem_of_singleton; reflexivity) E) as (_ & _ & _ & current & Hc & Hmode).
  vm_compute in Hc. injection Hc as <-.
  assert (mode = Immediate 100) as -> by (vm_compute in E; injection E as <- _; reflexivity).
  exists (Immediate 100), s. split; [reflexivity|]. split; [reflexivity|]. exact (proj2 Hmode).
Defined.

Lemma bill_subscription_step_witness :
  let paid := contract_invoice 96 "Z" 0 demo_yearly demo_contract demo_plan (UsageSnapshot.new_UsageSnapshot 97 0)
    (calculate_overage demo_plan (tenant_usage (open_session demo_contract_db) 9)) (Amounts.mk 0 0 0 0 0 0) in
  let d := demo_contract_db <| billing_invoices := [paid] |> in
  exists c s contract i s', bill_subscription (open_session d) (demo_cycle_ids 0) demo_yearly (days 366) (mk_CycleCounters 0 0 0 0 0 0 0)
      = Ok (c, s) /\ cycle_step (days 366) contract i demo_yearly s' /\
    find_row 5 (tenant_subscriptions (mem s)) = Some s' /\ TenantSubscription.current_period_end s' = days 730.
Proof.
  intros paid d.
  destruct (bill_subscription (open_session d) (demo_cycle_ids 0) demo_yearly (days 366) (mk_CycleCounters 0 0 0 0 0 0 0))
    as [[c s]|x] eqn:E; [|exfalso; vm_compute in E; discriminate].
  destruct (bill_subscription_step d (demo_cycle_ids 0) demo_yearly (days 366) (mk_CycleCounters 0 0 0 0 0 0 0) c s
    ltac:(apply NoDup_singleton) ltac:(apply NoDup_singleton) ltac:(apply list_elem_of_singleton; reflexivity) E)
    as (contract & i & s' & Hstep & Hf & _).
  exists c, s, contract, i, s'. split; [reflexivity|]. split; [exact Hstep|]. split; [exact Hf|].
  vm_compute in E. injection E as _ <-. vm_compute in Hf. injection Hf as <-. reflexivity.
Defined.

(** ** Two unflushed assignments

    [rebuild_effective_plan] reads the base package and the add-ons from the
    database, and the callers have not flushed what they assigned. *)

(** An immediate upgrade leaves the tenant on its old plan. *)
Lemma immediate_upgrade_keeps_old_plan :
  match request_plan_change (open_session demo_contract_db) 95 demo_yearly demo_grow 100 with
  | Ok (mode, s) => mode = Immediate 100 /\
      map (fun u => (TenantSubscription.base_plan_id u, option_map BillingPlan.name
        (find_row (TenantSubscription.plan_id u) (billing_plans (sql (commit s)))))) (tenant_subscriptions (sql (commit s)))
      = [(Some 2, Some "Ithute Start + add-ons")]
  | Err _ => False
  end.
Proof. vm_compute. split; reflexivity. Qed.

(** An add-on canceled at the end of its period is still part of the plan. *)
Lemma canceled_addon_still_counted :
  let d := demo_contract_db <| tenant_addons := [demo_assignment 71 61 2 <| TenantAddon.cancel_at_period_end := true |>] |>
    <| billing_contracts := [demo_contract <| BillingContract.discount_percent := 100 |>] |> in
  match run_billing_cycle (open_session d) demo_cycle_ids (days 366) with
  | Ok (c, s) => (renewed c, addons_canceled c) = (1, 1) /\
      map TenantAddon.status (tenant_addons (sql s)) = ["canceled"] /\
      map (fun u => option_map BillingPlan.included_mailboxes (find_row (TenantSubscription.plan_id u) (billing_plans (sql s))))
        (tenant_subscriptions (sql s)) = [Some (10 + 2 * 5)]
  | Err _ => False
  end.
Proof. vm_compute. split; [reflexivity|]. split; reflexivity. Qed.
