(* ===== verification/Approvals.v ===== *)
(** [app/services/security_approvals.py] and [app/api/v1/security_approvals.py]:
    security changes that a second platform owner has to approve. *)
From S2P Require Import Prelude PyFloat Json Calendar Models Session.
#[local] Open Scope string_scope.
#[local] Open Scope list_scope.
#[local] Open Scope Z_scope.

(** ** Validation of [ApprovalCreate] *)

(** The pattern [[a-z0-9._:-]+] on the whole string. *)
Definition slug_char (c : ascii) : bool :=
  let n := ord c in
  ((97 <=? n) && (n <=? 122)) || is_digit c || (n =? 46) || (n =? 95) || (n =? 58) || (n =? 45).
Definition slug (lo hi : Z) (s : string) : bool :=
  let n := Z.of_nat (String.length s) in
  (lo <=? n) && (n <=? hi) && forallb slug_char (list_ascii_of_string s).

Module ApprovalCreate.
Record ApprovalCreate : Type := mk {
  action : string;
  resource_type : string;
  resource_id : string;
  payload : list (string * Json)
}.
End ApprovalCreate.
Notation ApprovalCreate := ApprovalCreate.ApprovalCreate.
Definition valid_create (p : ApprovalCreate) : bool :=
  let n := Z.of_nat (String.length (ApprovalCreate.resource_id p)) in
  slug 3 80 (ApprovalCreate.action p) && slug 2 80 (ApprovalCreate.resource_type p) && (1 <=? n) && (n <=? 160).

(** ** The endpoints; [current] is the platform owner who calls *)
Definition approval_audit (new_id : uuid) (now : time) (current : uuid) (action : string) (row : SecurityApprovalRequest)
    : AuditLog :=
  AuditLog.new_AuditLog new_id now
    <| AuditLog.actor_user_id := Some current |> <| AuditLog.action := action |>
    <| AuditLog.resource_type := SecurityApprovalRequest.resource_type row |>
    <| AuditLog.resource_id := Some (SecurityApprovalRequest.resource_id row) |>
    <| AuditLog.metadata_json := Some (json_dumps_sorted
         (JObj [("approval_id", JStr (str_of_uuid (SecurityApprovalRequest.id row)));
                ("action", JStr (SecurityApprovalRequest.action row))])) |>.

Definition requested_row (new_id : uuid) (now : time) (ttl_minutes : Z) (current : uuid) (p : ApprovalCreate)
    : SecurityApprovalRequest :=
  SecurityApprovalRequest.new_SecurityApprovalRequest new_id now
    <| SecurityApprovalRequest.action := ApprovalCreate.action p |>
    <| SecurityApprovalRequest.resource_type := ApprovalCreate.resource_type p |>
    <| SecurityApprovalRequest.resource_id := ApprovalCreate.resource_id p |>
    <| SecurityApprovalRequest.payload_json := dumps true "," ":" (JObj (ApprovalCreate.payload p)) |>
    <| SecurityApprovalRequest.requested_by_user_id := current |>
    <| SecurityApprovalRequest.expires_at := now + seconds (60 * ttl_minutes) |>.
Definition request_security_approval (db : Session Db) (new_id audit_id : uuid) (now : time) (ttl_minutes : Z) (current : uuid)
    (p : ApprovalCreate) : result (SecurityApprovalRequest * Session Db) :=
  ensure valid_create p else_raise HTTPException 422 "validation error";
  let row := requested_row new_id now ttl_minutes current p in
  let db := flush (add security_approval_requests row db) in
  Ok (row, commit (add audit_logs (approval_audit audit_id now current "security.approval.request" row) db)).

(** An endpoint that raises after a commit has changed the database. *)
Definition approve_security_approval (db : Session Db) (audit_id : uuid) (now : time) (current approval_id : uuid)
    : result SecurityApprovalRequest * Session Db :=
  match get security_approval_requests approval_id db with
  | None => (Err (HTTPException 404 "security approval not found"), db)
  | Some row =>
      if SecurityApprovalRequest.status row !=? "pending" then
        (Err (HTTPException 409 "security approval is no longer pending"), db)
      else if SecurityApprovalRequest.expires_at row <=? now then
        (Err (HTTPException 409 "security approval expired"),
         commit (put security_approval_requests (row <| SecurityApprovalRequest.status := "expired" |>) db))
      else if SecurityApprovalRequest.requested_by_user_id row =? current then
        (Err (HTTPException 409 "requester cannot approve their own security change"), db)
      else
        let row := row <| SecurityApprovalRequest.status := "approved" |>
          <| SecurityApprovalRequest.approved_by_user_id := Some current |>
          <| SecurityApprovalRequest.approved_at := Some now |> in
        (Ok row, commit (add audit_logs (approval_audit audit_id now current "security.approval.approve" row)
                   (put security_approval_requests row db)))
  end.

Definition reject_security_approval (db : Session Db) (audit_id : uuid) (now : time) (current approval_id : uuid)
    : result SecurityApprovalRequest * Session Db :=
  match get security_approval_requests approval_id db with
  | None => (Err (HTTPException 404 "security approval not found"), db)
  | Some row =>
      if SecurityApprovalRequest.status row !=? "pending" then
        (Err (HTTPException 409 "security approval is no longer pending"), db)
      else
        let row := row <| SecurityApprovalRequest.status := "rejected" |>
          <| SecurityApprovalRequest.approved_by_user_id := Some current |>
          <| SecurityApprovalRequest.approved_at := Some now |> in
        (Ok row, commit (add audit_logs (approval_audit audit_id now current "security.approval.reject" row)
                   (put security_approval_requests row db)))
  end.

(** ** [consume_security_approval]: inside the transaction of the change itself *)
Definition SecurityApprovalError (message : string) : exn := RuntimeError message.

(** The loop over [payload_match]. *)
Definition payload_agrees (approved : list (string * Json)) (payload_match : list (string * string)) : bool :=
  forallb (fun '(key, value) => String.eqb (py_str (jor (jget key approved) (JStr EmptyString))) value) payload_match.
Definition check_payload (row : SecurityApprovalRequest) (payload_match : list (string * string)) : result unit :=
  match payload_match with
  | [] => Ok tt
  | _ =>
      match json_loads (str_or (SecurityApprovalRequest.payload_json row) "{}") with
      | Some (JObj approved) =>
          ensure payload_agrees approved payload_match
            else_raise SecurityApprovalError "security approval payload does not match this operation"; Ok tt
      | _ => Err (SecurityApprovalError "security approval payload is invalid")
      end
  end.

Definition consume_security_approval (db : Session Db) (now : time) (approval_id : uuid)
    (action resource_type resource_id : string) (payload_match : list (string * string))
    : result SecurityApprovalRequest * Session Db :=
  let fail message := (Err (SecurityApprovalError message), db) in
  match get security_approval_requests approval_id db with
  | None => fail "security approval not found"
  | Some row =>
      if (SecurityApprovalRequest.status row !=? "approved") || (SecurityApprovalRequest.approved_at row ==? None)
      then fail "security approval is not approved"
      else if SecurityApprovalRequest.expires_at row <=? now then
        (Err (SecurityApprovalError "security approval expired"),
         put security_approval_requests (row <| SecurityApprovalRequest.status := "expired" |>) db)
      else if SecurityApprovalRequest.consumed_at row !=? None then fail "security approval was already consumed"
      else if (SecurityApprovalRequest.action row !=? action) ||
              (SecurityApprovalRequest.resource_type row !=? resource_type) ||
              (SecurityApprovalRequest.resource_id row !=? resource_id)
      then fail "security approval does not match this operation"
      else
        match check_payload row payload_match with
        | Err e => (Err e, db)
        | Ok _ =>
            let row := row <| SecurityApprovalRequest.consumed_at := Some now |>
              <| SecurityApprovalRequest.status := "consumed" |> in
            (Ok row, put security_approval_requests row db)
        end
  end.

(** ** Committed requests, in any order and at any time *)
Definition requests (d : Db) : list SecurityApprovalRequest := security_approval_requests d.

Inductive approval_step (d : Db) : Db -> Prop :=
| Do_request new_id audit_id now ttl current p row s :
    new_id ∉ keys (requests d) ->
    request_security_approval (open_session d) new_id audit_id now ttl current p = Ok (row, s) -> approval_step d (sql s)
| Do_approve audit_id now current k r s :
    approve_security_approval (open_session d) audit_id now current k = (r, s) -> approval_step d (sql s)
| Do_reject audit_id now current k r s :
    reject_security_approval (open_session d) audit_id now current k = (r, s) -> approval_step d (sql s)
| Do_consume now k a t i m r s :
    consume_security_approval (open_session d) now k a t i m = (r, s) -> approval_step d (sql (commit s)).

(** The life cycle of a row. *)
Inductive approval_move (row : SecurityApprovalRequest) : SecurityApprovalRequest -> Prop :=
| Move_approve u t :
    SecurityApprovalRequest.status row = "pending" -> u <> SecurityApprovalRequest.requested_by_user_id row ->
    t < SecurityApprovalRequest.expires_at row ->
    approval_move row (row <| SecurityApprovalRequest.status := "approved" |>
      <| SecurityApprovalRequest.approved_by_user_id := Some u |> <| SecurityApprovalRequest.approved_at := Some t |>)
| Move_reject u t :
    SecurityApprovalRequest.status row = "pending" ->
    approval_move row (row <| SecurityApprovalRequest.status := "rejected" |>
      <| SecurityApprovalRequest.approved_by_user_id := Some u |> <| SecurityApprovalRequest.approved_at := Some t |>)
| Move_expire t :
    SecurityApprovalRequest.status row = "pending" \/ SecurityApprovalRequest.status row = "approved" ->
    SecurityApprovalRequest.expires_at row <= t ->
    approval_move row (row <| SecurityApprovalRequest.status := "expired" |>)
| Move_consume t :
    SecurityApprovalRequest.status row = "approved" -> SecurityApprovalRequest.consumed_at row = None ->
    t < SecurityApprovalRequest.expires_at row ->
    approval_move row (row <| SecurityApprovalRequest.consumed_at := Some t |>
      <| SecurityApprovalRequest.status := "consumed" |>).

(** What is true of every stored request. *)
Record wf_approval (row : SecurityApprovalRequest) : Prop := {
  wf_pending : SecurityApprovalRequest.status row = "pending" -> SecurityApprovalRequest.consumed_at row = None;
  wf_approved : SecurityApprovalRequest.status row = "approved" \/ SecurityApprovalRequest.status row = "consumed" ->
    exists u t, SecurityApprovalRequest.approved_by_user_id row = Some u /\
      u <> SecurityApprovalRequest.requested_by_user_id row /\
      SecurityApprovalRequest.approved_at row = Some t /\ t < SecurityApprovalRequest.expires_at row;
  wf_consumed : forall t, SecurityApprovalRequest.consumed_at row = Some t ->
    SecurityApprovalRequest.status row = "consumed" /\ t < SecurityApprovalRequest.expires_at row
}.
Definition wf_approvals (d : Db) : Prop := NoDup (keys (requests d)) /\ Forall wf_approval (requests d).

Lemma approval_move_wf row row' : wf_approval row -> approval_move row row' -> wf_approval row' /\ key row' = key row.
Proof.
  intros [Hp Ha Hc] Hm. split; [|by destruct Hm].
  assert (Hnot : SecurityApprovalRequest.status row <> "consumed" ->
    forall t, SecurityApprovalRequest.consumed_at row <> Some t) by (intros Hs t Ht; by apply Hc in Ht as [? _]).
  destruct Hm as [u t Hs Hu Ht|u t Hs|t Hs Ht|t Hs Hn Ht]; split; cbn; try done; try (intros [?|?]; done).
  - intros _. by exists u, t.
  - intros t' Ht'. exfalso. apply (Hnot ltac:(congruence) t' Ht').
  - intros t' Ht'. exfalso. apply (Hnot ltac:(congruence) t' Ht').
  - intros t' Ht'. exfalso. apply (Hnot ltac:(destruct Hs; congruence) t' Ht').
  - intros _. apply Ha. by left.
  - by intros t' [= <-].
Qed.

(** A transaction adds a pending request, moves one row, or changes none. *)
Lemma approval_step_cases d d' : NoDup (keys (requests d)) -> approval_step d d' ->
  requests d' = requests d \/
  (exists row, key row ∉ keys (requests d) /\ wf_approval row /\ SecurityApprovalRequest.status row = "pending" /\
     requests d' = requests d ++ [row]) \/
  (exists row row', row ∈ requests d /\ approval_move row row' /\ requests d' = put_row row' (requests d)).
Proof.
  intros Hn Hs.
  assert (Hget : forall k row, get security_approval_requests k (open_session d) = Some row -> row ∈ requests d).
  { intros k row Hg. rewrite get_synced in Hg by done. by apply find_row_elem in Hg. }
  destruct Hs as [new_id audit_id now ttl current p row s Hf Hr|audit_id now current k r s Hr|audit_id now current k r s Hr
    |now k a t i m r s Hr].
  - unfold request_security_approval in Hr. destruct (valid_create p); [|done]. injection Hr as <- <-.
    right; left. exists (requested_row new_id now ttl current p). split_and!; [exact Hf| |done..].
    split; cbn; [done| |done]. by intros [?|?].
  - unfold approve_security_approval in Hr. destruct (get _ _ _) as [row|] eqn:Eg; [|injection Hr as _ <-; by left].
    apply Hget in Eg. bdestruct (SecurityApprovalRequest.status row !=? "pending"); [injection Hr as _ <-; by left|].
    bdestruct (SecurityApprovalRequest.expires_at row <=? now).
    { injection Hr as _ <-. right; right. exists row. eexists. split_and!; [done|apply (Move_expire row now); auto|done]. }
    bdestruct (SecurityApprovalRequest.requested_by_user_id row =? current); [injection Hr as _ <-; by left|].
    injection Hr as _ <-. right; right. exists row. eexists. split_and!; [done|by apply (Move_approve row current now)|done].
  - unfold reject_security_approval in Hr. destruct (get _ _ _) as [row|] eqn:Eg; [|injection Hr as _ <-; by left].
    apply Hget in Eg. bdestruct (SecurityApprovalRequest.status row !=? "pending"); [injection Hr as _ <-; by left|].
    injection Hr as _ <-. right; right. exists row. eexists. split_and!; [done|by apply (Move_reject row current now)|done].
  - unfold consume_security_approval in Hr. destruct (get _ _ _) as [row|] eqn:Eg; [|injection Hr as _ <-; by left].
    apply Hget in Eg. destruct (_ || _) eqn:Ea in Hr; [injection Hr as _ <-; by left|].
    apply orb_false_iff in Ea as [Ea%negb_false_iff%bool_decide_eq_true _].
    bdestruct (SecurityApprovalRequest.expires_at row <=? now).
    { injection Hr as _ <-. right; right. exists row. eexists. split_and!; [done|apply (Move_expire row now); auto|done]. }
    bdestruct (SecurityApprovalRequest.consumed_at row !=? None); [injection Hr as _ <-; by left|].
    destruct (_ || _ || _) in Hr; [injection Hr as _ <-; by left|].
    destruct (check_payload row m); injection Hr as _ <-; [|by left].
    right; right. exists row. eexists. split_and!; [done|by apply (Move_consume row now)|done].
Qed.

Lemma approval_step_wf d d' : wf_approvals d -> approval_step d d' -> wf_approvals d'.
Proof.
  intros [Hn Hw] Hs. destruct (approval_step_cases d d' Hn Hs) as
    [He|[(row & Hf & Hr & _ & He)|(row & row' & Hin & Hm & He)]]; unfold wf_approvals; rewrite He; [done| |].
  - split; [|apply Forall_app; split; [done|by apply Forall_singleton]].
    unfold keys. rewrite map_app. apply NoDup_app. split_and!; [done| |apply NoDup_singleton].
    by intros x Hx ->%list_elem_of_singleton.
  - split; [by rewrite keys_put|]. apply put_row_Forall; [|done].
    rewrite Forall_forall in Hw. by destruct (approval_move_wf row row' (Hw row Hin) Hm).
Qed.
Lemma approval_run_wf d d' : wf_approvals d -> rtc approval_step d d' -> wf_approvals d'.
Proof. intros Hw Hr. induction Hr; [done|]. apply IHHr. by eapply approval_step_wf. Qed.

(** C40.  Two persons: after any sequence of committed requests, approvals,
    rejections and consumptions, a consumption succeeds only for a request that
    somebody other than its requester approved before it expired, that has not
    expired and has never been consumed, and that names exactly the action, the
    resource and the payload of the operation. *)
Theorem approvals_four_eyes d0 d now k action rtype rid payload row s :
  wf_approvals d0 -> rtc approval_step d0 d ->
  consume_security_approval (open_session d) now k action rtype rid payload = (Ok row, s) ->
  exists before approver t, before ∈ requests d /\ key before = k /\
    SecurityApprovalRequest.status before = "approved" /\ SecurityApprovalRequest.consumed_at before = None /\
    SecurityApprovalRequest.approved_by_user_id row = Some approver /\
    approver <> SecurityApprovalRequest.requested_by_user_id row /\
    SecurityApprovalRequest.approved_at row = Some t /\ t < SecurityApprovalRequest.expires_at row /\
    now < SecurityApprovalRequest.expires_at row /\
    SecurityApprovalRequest.action row = action /\ SecurityApprovalRequest.resource_type row = rtype /\
    SecurityApprovalRequest.resource_id row = rid /\
    (payload = [] \/ exists approved,
       json_loads (str_or (SecurityApprovalRequest.payload_json row) "{}") = Some (JObj approved) /\
       payload_agrees approved payload = true).
Proof.
  intros Hw0 Hrun Hc. destruct (approval_run_wf d0 d Hw0 Hrun) as [Hn Hw].
  unfold consume_security_approval in Hc. destruct (get _ _ _) as [before|] eqn:Eg; [|done].
  apply get_key in Eg as Hk. rewrite get_synced in Eg by done. apply find_row_elem in Eg.
  destruct (_ || _) eqn:Ea in Hc; [done|]. apply orb_false_iff in Ea as [Ea%negb_false_iff%bool_decide_eq_true _].
  bdestruct (SecurityApprovalRequest.expires_at before <=? now); [done|].
  bdestruct (SecurityApprovalRequest.consumed_at before !=? None); [done|].
  destruct (_ || _ || _) eqn:Em in Hc; [done|].
  rewrite !orb_false_iff, !negb_false_iff, !bool_decide_eq_true in Em. destruct Em as [[Em1 Em2] Em3].
  destruct (check_payload before payload) eqn:Ep; [|done]. injection Hc as <- <-.
  rewrite Forall_forall in Hw. destruct (wf_approved before (Hw before Eg) ltac:(auto)) as (u & t & Hu & Hne & Ht & Hlt).
  exists before, u, t. split_and!; try done.
  unfold check_payload in Ep. destruct payload as [|p payload]; [by left|right].
  destruct (json_loads _) as [[| | | | | |approved]|] eqn:El in Ep; try done. exists approved. split; [exact El|].
  by destruct (payload_agrees approved _).
Qed.

Lemma approval_move_final row row' :
  approval_move row row' -> SecurityApprovalRequest.status row <> "rejected" /\
  SecurityApprovalRequest.status row <> "expired" /\ SecurityApprovalRequest.status row <> "consumed".
Proof. intros [u t Hs _ _|u t Hs|t [Hs|Hs] _|t Hs _ _]; rewrite Hs; done. Qed.

(**  Requests live a fixed life: none disappears, each only moves along
    [approval_move] (pending to approved, rejected or expired, approved to
    consumed or expired), and a rejected, expired or consumed request stays as it
    is, so an approval is consumed at most once. *)
Theorem approval_lifecycle d0 d row :
  wf_approvals d0 -> rtc approval_step d0 d -> row ∈ requests d0 ->
  (exists row', row' ∈ requests d /\ key row' = key row /\ rtc approval_move row row') /\
  (SecurityApprovalRequest.status row ∈ ["rejected"; "expired"; "consumed"] -> row ∈ requests d).
Proof.
  intros Hw Hrun. assert (Hlife : forall row, row ∈ requests d0 ->
    exists row', row' ∈ requests d /\ key row' = key row /\ rtc approval_move row row').
  { clear row. induction Hrun as [d|d d1 d2 Hs Hrun IH]; intros row Hin; [by exists row|].
    assert (exists row1, row1 ∈ requests d1 /\ key row1 = key row /\ rtc approval_move row row1) as (row1 & Hin1 & Hk1 & Hm1).
    { pose proof Hw as [Hn Hall].
      destruct (approval_step_cases d d1 Hn Hs) as [He|[(new & _ & _ & _ & He)|(r & r' & Hr & Hm & He)]]; rewrite He.
      - by exists row.
      - exists row. split; [apply elem_of_app; by left|done].
      - rewrite Forall_forall in Hall. destruct (approval_move_wf r r' (Hall r Hr) Hm) as [_ Hk].
        destruct (decide (key row = key r)) as [Heq|Hne].
        + assert (row = r) as -> by by apply (key_inj (requests d)).
          exists r'. split_and!; [|done|by apply rtc_once].
          apply put_row_in. rewrite Hk. by apply list_elem_of_fmap_2.
        + exists row. split_and!; [|done|done]. unfold put_row. apply list_elem_of_fmap. exists row.
          split; [|done]. by rewrite (proj2 (Z.eqb_neq _ _)) by (rewrite Hk; done). }
    destruct (IH (approval_step_wf d d1 Hw Hs) row1 Hin1) as (row2 & Hin2 & Hk2 & Hm2).
    exists row2. split_and!; [done|by rewrite Hk2|by transitivity row1]. }
  intros Hin. split; [by apply Hlife|]. intros Hst. destruct (Hlife row Hin) as (row' & Hin' & _ & Hm).
  destruct Hm as [row|row row1 row2 Hm _]; [done|]. exfalso. apply approval_move_final in Hm as (H1 & H2 & H3).
  rewrite !elem_of_cons in Hst. destruct Hst as [?|[?|[?|?%not_elem_of_nil]]]; done.
Qed.

(** ** A failover approved by a second owner *)
Definition demo_create : ApprovalCreate :=
  ApprovalCreate.mk "mail_node.failover" "mail_node" "7" [("target_node_id", JStr "8")].
Definition demo_requested : Db := sql (match request_security_approval (open_session empty_Db) 1 2 0 30 100 demo_create with
  | Ok (_, s) => s | Err _ => open_session empty_Db end).
Definition demo_approved : Db := sql (snd (approve_security_approval (open_session demo_requested) 3 10 200 1)).

Lemma demo_run : rtc approval_step empty_Db demo_approved.
Proof.
  apply (rtc_l _ _ demo_requested).
  - eapply (Do_request empty_Db 1 2 0 30 100 demo_create); [apply not_elem_of_nil|reflexivity].
  - apply rtc_once. exact (Do_approve demo_requested 3 10 200 1 _ _ (surjective_pairing _)).
Defined.
Lemma demo_empty_wf : wf_approvals empty_Db.
Proof. split; [apply NoDup_nil_2|apply Forall_nil_2]. Defined.

Lemma approvals_four_eyes_witness :
  exists row s approver, consume_security_approval (open_session demo_approved) 20 1 "mail_node.failover" "mail_node" "7"
      [("target_node_id", "8")] = (Ok row, s) /\
    SecurityApprovalRequest.approved_by_user_id row = Some approver /\ approver <> SecurityApprovalRequest.requested_by_user_id row.
Proof.
  destruct (consume_security_approval (open_session demo_approved) 20 1 "mail_node.failover" "mail_node" "7"
    [("target_node_id", "8")]) as [[row|e] s] eqn:E; [|exfalso; vm_compute in E; discriminate].
  destruct (approvals_four_eyes _ _ _ _ _ _ _ _ _ _ demo_empty_wf demo_run E)
    as (before & approver & t & _ & _ & _ & _ & Hu & Hne & _).
  exists row, s, approver. split; [reflexivity|]. split; [exact Hu|exact Hne].
Defined.

Lemma approval_lifecycle_witness :
  let d := sql (snd (reject_security_approval (open_session demo_requested) 3 10 200 1)) in
  let d' := sql (snd (approve_security_approval (open_session d) 4 11 300 1)) in
  exists row, row ∈ requests d /\ SecurityApprovalRequest.status row = "rejected" /\ row ∈ requests d'.
Proof.
  intros d d'.
  assert (rtc approval_step empty_Db d) as Hd.
  { apply (rtc_l _ _ demo_requested).
    - eapply (Do_request empty_Db 1 2 0 30 100 demo_create); [apply not_elem_of_nil|reflexivity].
    - apply rtc_once. exact (Do_reject demo_requested 3 10 200 1 _ _ (surjective_pairing _)). }
  assert (rtc approval_step d d') as Hd' by (apply rtc_once; exact (Do_approve d 4 11 300 1 _ _ (surjective_pairing _))).
  destruct (requests d) as [|row l] eqn:Er; [vm_compute in Er; discriminate|].
  assert (row ∈ requests d) as Hin by (rewrite Er; left).
  assert (SecurityApprovalRequest.status row = "rejected") as Hst by (vm_compute in Er; injection Er as <- _; reflexivity).
  exists row. split; [left|]. split; [exact Hst|].
  refine (proj2 (approval_lifecycle d d' row (approval_run_wf _ _ demo_empty_wf Hd) Hd' Hin) _).
  rewrite Hst. left.
Defined.
