(* ===== verification/AuditChain.v ===== *)
(** The signed audit log: [services/audit_integrity.py] (the mapper events that
    sign each row and link it to its predecessor), [services/security_event_rules.py]
    and [services/security_operations.py] (verification of the chain and the
    security posture). *)
From S2P Require Import Prelude PyFloat Json JsonFacts Calendar Models Session Sha256 Engines.
#[local] Open Scope string_scope.
#[local] Open Scope list_scope.
#[local] Open Scope Z_scope.

(** ** Strings *)

(** A lone surrogate, which [json.loads] can produce and UTF-8 cannot encode:
    the byte 0xED followed by one of 0xA0 or more. *)
Fixpoint lone_surrogate (s : string) : bool :=
  match s with
  | String a s' => match s' with
      | String b _ => ((ord a =? 237) && (160 <=? ord b)) || lone_surrogate s'
      | EmptyString => false end
  | EmptyString => false
  end.
(** [s.encode("utf-8")]; [UnicodeEncodeError] is a [ValueError]. *)
Definition encode_utf8 (s : string) : result (list Z) :=
  ensure negb (lone_surrogate s) else_raise ValueError "surrogates not allowed";
  Ok (bytes_of s).
(** [s[:n]] counts characters: every byte but the continuation bytes begins one. *)
Fixpoint char_take (n : nat) (s : string) : string :=
  match s with
  | EmptyString => EmptyString
  | String c s' =>
      if (128 <=? ord c) && (ord c <? 192) then String c (char_take n s')
      else match n with O => EmptyString | S n => String c (char_take n s') end
  end.
(** [item in value] *)
Definition str_contains (item value : string) : bool := bytes_contains (bytes_of item) (bytes_of value).

(** ** [security_event_rules.py] *)
Definition severity_of (value : string) : option SecuritySeverity :=
  let any l := existsb (fun item => str_contains item value) l in
  if any ["failover.complete"; "security.approval.approve"; "security.approval.reject"; "tenant.delete";
          "domain.transfer"; "dnssec.disable"; "backup.delete"] then Some SecuritySeverity.critical
  else if any ["password"; "mfa"; "api_key"; "smtp_credential"; "agent-token"; "token.rotate"; "auth.ithute.unlink";
               "mail_node.failover"; "security.approval.request"; "role"; "membership"] then Some SecuritySeverity.high
  else if any ["login"; "session"; "revoke"; "dkim"; "dmarc"; "dns."; "domain."; "mail_node"; "backup"; "security"]
    then Some SecuritySeverity.medium
  else None.
Definition audit_security_severity (action : string) : option SecuritySeverity := severity_of (lower (strip action)).

(** ** Metadata *)
Definition INTEGRITY_VERSION : Z := 1.
Definition dict := list (string * Json).
Definition metadata_of (value : option string) : dict :=
  match value with
  | None | Some EmptyString => []
  | Some s => match json_loads s with
      | None => [("_raw", JStr s)]
      | Some (JObj parsed) => parsed
      | Some parsed => [("_value", parsed)]
      end
  end.
Definition integrity_key (k : string) : bool :=
  match after_prefix "_audit_integrity_" k with Some _ => true | None => false end.
Definition without_integrity (metadata : dict) : dict := List.filter (fun kv => negb (integrity_key (fst kv))) metadata.
Definition json_opt (o : option string) : Json := match o with Some s => JStr s | None => JNull end.
Definition canonical_value (row : AuditLog) (metadata : dict) (prev_signature : string) : Json :=
  JObj [("tenant_id", json_opt (option_map str_of_uuid (AuditLog.tenant_id row)));
        ("actor_user_id", json_opt (option_map str_of_uuid (AuditLog.actor_user_id row)));
        ("action", JStr (AuditLog.action row));
        ("resource_type", JStr (AuditLog.resource_type row));
        ("resource_id", json_opt (AuditLog.resource_id row));
        ("metadata", JObj (without_integrity metadata));
        ("prev_signature", JStr prev_signature);
        ("version", JInt INTEGRITY_VERSION)].
Definition canonical (row : AuditLog) (metadata : dict) (prev_signature : string) : result (list Z) :=
  encode_utf8 (json_dumps_canonical (canonical_value row metadata prev_signature)).

(** The newest row: [ORDER BY created_at DESC, id DESC]. *)
Definition newest_first : AuditLog -> AuditLog -> comparison := lex_cmp (desc AuditLog.created_at) (desc AuditLog.id).
Definition latest_anchor (db : Db) : string :=
  match head (sort_cmp newest_first (audit_logs db)) with
  | None => "genesis"
  | Some last =>
      let signature := jget "_audit_integrity_signature" (metadata_of (AuditLog.metadata_json last)) in
      if truthy signature then py_str signature else ("legacy:" ++ str_of_uuid (AuditLog.id last))%string
  end.
(** [version == 1]: Python's equality identifies [1], [1.0] and [True]. *)
Definition is_version (v : Json) : bool :=
  match v with
  | JInt z => z =? INTEGRITY_VERSION
  | JBool b => b
  | JFloat f => bool_decide (f = of_Z INTEGRITY_VERSION)
  | _ => false
  end.

Record Verification : Type := {
  v_signed : bool; v_valid : bool; v_signature : option string; v_prev_signature : option string }.

Section Integrity.
(** The native libraries found at run time and [settings.secret_key]. *)
Context (libs : Libraries) (secret_key : string).

Definition sign (payload : list Z) : result string :=
  let* digest := execute_binary libs "crypto.sha256" (bytes_of (secret_key ++ "|ithute-audit-integrity-v1")) in
  match fst digest with
  | VDigest key_hex => let* key := fromhex key_hex in Ok (fst (execute_hmac_sha256 libs key payload))
  | _ => Err (TypeError "the digest is a string")
  end.

Definition before_insert (db : Db) (target : AuditLog) : result AuditLog :=
  let metadata := metadata_of (AuditLog.metadata_json target) in
  let prev_signature := latest_anchor db in
  let metadata := without_integrity metadata in
  let metadata := dict_set "_audit_integrity_version" (JInt INTEGRITY_VERSION) metadata in
  let metadata := dict_set "_audit_integrity_prev" (JStr prev_signature) metadata in
  let* payload := canonical target metadata prev_signature in
  let* signature := sign payload in
  let metadata := dict_set "_audit_integrity_signature" (JStr signature) metadata in
  Ok (target <| AuditLog.metadata_json := Some (json_dumps_canonical (JObj metadata)) |>).

Definition or_none (s : string) : option string := if str_truthy s then Some s else None.
Definition verify_audit_row (row : AuditLog) : result Verification :=
  let metadata := metadata_of (AuditLog.metadata_json row) in
  let signature := py_str (jor (jget "_audit_integrity_signature" metadata) (JStr EmptyString)) in
  let prev_signature := py_str (jor (jget "_audit_integrity_prev" metadata) (JStr EmptyString)) in
  let version := jget "_audit_integrity_version" metadata in
  if negb (str_truthy signature) || negb (str_truthy prev_signature) || negb (is_version version) then
    Ok {| v_signed := false; v_valid := false; v_signature := or_none signature; v_prev_signature := or_none prev_signature |}
  else
    let* payload := canonical row metadata prev_signature in
    let* expected := sign payload in
    let* valid := compare_digest signature expected in
    Ok {| v_signed := true; v_valid := valid; v_signature := Some signature; v_prev_signature := Some prev_signature |}.

(** The row that [_after_insert] adds to the security events. *)
Definition security_event (event_id : uuid) (now : time) (severity : SecuritySeverity) (target : AuditLog) : IthuteSecurityEvent :=
  let metadata := metadata_of (AuditLog.metadata_json target) in
  let source_ip := jget "client_ip" metadata in
  IthuteSecurityEvent.new_IthuteSecurityEvent event_id now
    <| IthuteSecurityEvent.product_id := None |> <| IthuteSecurityEvent.severity := severity |>
    <| IthuteSecurityEvent.event_type := char_take 160 ("audit." ++ AuditLog.action target) |>
    <| IthuteSecurityEvent.actor_ref := option_map str_of_uuid (AuditLog.actor_user_id target) |>
    <| IthuteSecurityEvent.subject_ref := Some ("audit:" ++ str_of_uuid (AuditLog.id target))%string |>
    <| IthuteSecurityEvent.source_ip := if truthy source_ip then Some (char_take 64 (py_str source_ip)) else None |>
    <| IthuteSecurityEvent.details_json := JObj [
         ("audit_log_id", JStr (str_of_uuid (AuditLog.id target)));
         ("action", JStr (AuditLog.action target));
         ("resource_type", JStr (AuditLog.resource_type target));
         ("resource_id", json_opt (AuditLog.resource_id target));
         ("tenant_id", json_opt (option_map str_of_uuid (AuditLog.tenant_id target)));
         ("product", JStr "mailbox-dns");
         ("integrity_signature", jget "_audit_integrity_signature" metadata)] |>.
Definition after_insert (now : time) (db : Db) (entry : AuditLog * uuid) : Db :=
  let '(target, event_id) := entry in
  match audit_security_severity (AuditLog.action target) with
  | None => db
  | Some severity => db <| ithute_security_events ::= fun t => t ++ [security_event event_id now severity target] |>
  end.

(** A flush of pending audit rows: the unit of work fires [before_insert] for
    the whole batch, then emits the INSERTs, then fires [after_insert]; each
    entry carries the id its security event would get. *)
Fixpoint sign_all (db : Db) (batch : list (AuditLog * uuid)) : result (list (AuditLog * uuid)) :=
  match batch with
  | [] => Ok []
  | (row, event_id) :: batch =>
      let* row := before_insert db row in
      let* batch := sign_all db batch in Ok ((row, event_id) :: batch)
  end.
Definition flush_audit (now : time) (db : Db) (batch : list (AuditLog * uuid)) : result Db :=
  let* signed := sign_all db batch in
  let db := db <| audit_logs ::= fun t => t ++ map fst signed |> in
  Ok (fold_left (after_insert now) signed db).

(** ** [security_operations.py] *)
Record IntegrityStatus : Type := {
  healthy : bool; checked_rows : Z; signed_rows : Z; invalid_signatures : Z; broken_links : Z;
  unsigned_after_chain : Z; latest_signature : option string }.
(** The variables of the loop. *)
Record Scan : Type := mk_Scan {
  signed_started : bool; previous_signature : option string; s_signed : Z; s_unsigned_after_chain : Z;
  s_invalid : Z; s_broken : Z; s_latest : option string }.
Definition scan_start : Scan := mk_Scan false None 0 0 0 0 None.
Definition scan_row (s : Scan) (r : Verification) : Scan :=
  if negb (v_signed r) then
    if signed_started s then
      mk_Scan true (previous_signature s) (s_signed s) (s_unsigned_after_chain s + 1) (s_invalid s) (s_broken s) (s_latest s)
    else s
  else
    mk_Scan true (v_signature r) (s_signed s + 1) (s_unsigned_after_chain s)
      (if v_valid r then s_invalid s else s_invalid s + 1)
      (match previous_signature s with
       | Some previous => if v_prev_signature r !=? Some previous then s_broken s + 1 else s_broken s
       | None => s_broken s
       end)
      (v_signature r).
Fixpoint scan_rows (s : Scan) (rows : list AuditLog) : result Scan :=
  match rows with
  | [] => Ok s
  | row :: rows => let* r := verify_audit_row row in scan_rows (scan_row s r) rows
  end.
Definition status_of (checked : Z) (s : Scan) : IntegrityStatus := {|
  healthy := (s_invalid s =? 0) && (s_broken s =? 0) && (s_unsigned_after_chain s =? 0);
  checked_rows := checked; signed_rows := s_signed s; invalid_signatures := s_invalid s; broken_links := s_broken s;
  unsigned_after_chain := s_unsigned_after_chain s; latest_signature := s_latest s |}.
Definition checked_window (db : Db) (limit : Z) : list AuditLog :=
  rev (take (Z.to_nat (Z.max 1 (Z.min limit 5000))) (sort_cmp newest_first (audit_logs db))).
Definition audit_integrity_status (db : Db) (limit : Z) : result IntegrityStatus :=
  let rows := checked_window db limit in
  let* s := scan_rows scan_start rows in Ok (status_of (zlen rows) s).

Definition severity_rank (s : SecuritySeverity) : Z :=
  match s with SecuritySeverity.info => 0 | SecuritySeverity.low => 1 | SecuritySeverity.medium => 2
  | SecuritySeverity.high => 3 | SecuritySeverity.critical => 4 end.
Record SecuritySummary : Type := {
  posture : string; events_total : Z; severity_counts : list (SecuritySeverity * Z); unresolved_actionable : Z;
  audit_integrity : IntegrityStatus }.
Definition severities : list SecuritySeverity :=
  [SecuritySeverity.info; SecuritySeverity.low; SecuritySeverity.medium; SecuritySeverity.high; SecuritySeverity.critical].
Definition count_severity (s : SecuritySeverity) (events : list IthuteSecurityEvent) : Z :=
  zlen (List.filter (fun e => IthuteSecurityEvent.severity e ==? s) events).
Definition actionable (e : IthuteSecurityEvent) : bool :=
  bool_decide (IthuteSecurityEvent.resolved_at e = None) &&
  (severity_rank SecuritySeverity.medium <=? severity_rank (IthuteSecurityEvent.severity e)).
Definition security_operations_summary (db : Db) (now : time) : result SecuritySummary :=
  let since := now - seconds (24 * 3600) in
  let events := take 2000 (sort_cmp (desc IthuteSecurityEvent.created_at)
    (List.filter (fun e => since <=? IthuteSecurityEvent.created_at e) (ithute_security_events db))) in
  let unresolved := zlen (List.filter actionable events) in
  let* integrity := audit_integrity_status db 1000 in
  let posture :=
    if negb (healthy integrity) || (0 <? count_severity SecuritySeverity.critical events) then "critical"
    else if (0 <? count_severity SecuritySeverity.high events) || (0 <? unresolved) then "attention"
    else "healthy" in
  Ok {| posture := posture; events_total := zlen events;
        severity_counts := map (fun s => (s, count_severity s events)) severities;
        unresolved_actionable := unresolved; audit_integrity := integrity |}.
End Integrity.

(** [resolve_event] of [api/v1/security_operations.py]; [current] is the
    platform owner, and the commit flushes the audit row through the events above. *)
Definition resolve_audit (audit_id : uuid) (now : time) (current : uuid) (item : IthuteSecurityEvent) : AuditLog :=
  AuditLog.new_AuditLog audit_id now
    <| AuditLog.actor_user_id := Some current |> <| AuditLog.action := "security.event.resolve" |>
    <| AuditLog.resource_type := "security_event" |>
    <| AuditLog.resource_id := Some (str_of_uuid (IthuteSecurityEvent.id item)) |>
    <| AuditLog.metadata_json := Some (quoted "{'outcome':'resolved'}") |>.
Definition resolve_event (libs : Libraries) (secret_key : string) (db : Db) (audit_id event_row_id : uuid) (now : time)
    (current event_id : uuid) : result (IthuteSecurityEvent * Db) :=
  match find_row event_id (ithute_security_events db) with
  | None => Err (HTTPException 404 "security event not found")
  | Some item =>
      match IthuteSecurityEvent.resolved_at item with
      | Some _ => Ok (item, db)
      | None =>
          let item := item <| IthuteSecurityEvent.resolved_at := Some now |> in
          let db := db <| ithute_security_events ::= put_row item |> in
          let* db := flush_audit libs secret_key now db [(resolve_audit audit_id now current item, event_row_id)] in
          Ok (item, db)
      end
  end.

Lemma encode_ok s payload : encode_utf8 s = Ok payload -> payload = bytes_of s.
Proof. unfold encode_utf8. destruct (lone_surrogate s); cbn; congruence. Qed.
Lemma without_integrity_idem m : without_integrity (without_integrity m) = without_integrity m.
Proof.
  unfold without_integrity. induction m as [|kv m IH]; [done|]. cbn. destruct (negb (integrity_key (fst kv))) eqn:E; cbn; [|done].
  by rewrite E, IH.
Qed.
Lemma without_integrity_set k v m : integrity_key k = true -> without_integrity (dict_set k v m) = without_integrity m.
Proof.
  intros Hk. unfold without_integrity. induction m as [|[k' v'] m IH]; cbn; [by rewrite Hk|].
  destruct (String.eqb_spec k k') as [<-|]; cbn; [by rewrite Hk|]. by rewrite IH.
Qed.
Lemma without_integrity_fresh k m : integrity_key k = true -> k ∉ map fst (without_integrity m).
Proof.
  intros Hk. unfold without_integrity. change (k ∉ fst <$> List.filter (fun kv => negb (integrity_key (fst kv))) m).
  rewrite list_elem_of_fmap. intros (kv & -> & Hin). apply list_elem_of_In, filter_In in Hin as [_ Hn]. by rewrite Hk in Hn.
Qed.
Definition plain_dict (m : dict) : bool := plain (JObj m).
Lemma plain_dict_spec m : plain_dict m = true <-> forallb (fun kv => plain (snd kv)) m = true /\ NoDup (map fst m).
Proof. unfold plain_dict. cbn [plain]. rewrite andb_true_iff. unfold nodup_keys. by rewrite bool_decide_eq_true. Qed.
Lemma plain_without m : plain_dict m = true -> plain_dict (without_integrity m) = true.
Proof.
  rewrite !plain_dict_spec. intros [Hp Hn]. unfold without_integrity. split.
  - rewrite forallb_forall in *. intros x [Hx _]%filter_In. auto.
  - clear Hp. induction m as [|kv m IH]; cbn in *; [constructor|]. apply NoDup_cons in Hn as [Hk Hn].
    destruct (negb _); cbn; [|auto]. constructor; [|auto]. intros Hin. apply Hk.
    change (fst kv ∈ fst <$> List.filter (fun kv => negb (integrity_key (fst kv))) m) in Hin.
    apply list_elem_of_fmap in Hin as (x & Hx & Hin). apply list_elem_of_In, filter_In in Hin as [Hin _].
    change (fst kv ∈ fst <$> m). rewrite Hx. by apply list_elem_of_fmap_2, list_elem_of_In.
Qed.

(** A stored object reads back with its keys in order. *)
Lemma metadata_stored m : plain_dict m = true ->
  metadata_of (Some (json_dumps_canonical (JObj m))) = map (fun kv => (fst kv, sort_json (snd kv))) (sort_cmp by_key m).
Proof.
  intros Hp. unfold metadata_of. pose proof (json_loads_canonical (JObj m) Hp) as Hl.
  destruct (canonical_head (JObj m) Hp) as (c & r & Hc & _). rewrite Hl, Hc, sort_json_obj. done.
Qed.
Lemma without_sorted m : without_integrity (map (fun kv => (fst kv, sort_json (snd kv))) (sort_cmp by_key m)) =
  map (fun kv => (fst kv, sort_json (snd kv))) (sort_cmp by_key (without_integrity m)).
Proof.
  unfold without_integrity. rewrite <- sort_cmp_filter by apply by_key_order.
  induction (sort_cmp by_key m) as [|kv l IH]; [done|]. cbn. destruct (negb _); cbn; by rewrite IH.
Qed.
Lemma canonical_metadata row m1 m2 prev :
  sort_json (JObj (without_integrity m1)) = sort_json (JObj (without_integrity m2)) -> canonical row m1 prev = canonical row m2 prev.
Proof.
  intros Hs. unfold canonical. f_equal.
  rewrite <- (dumps_sort (canonical_value row m1 prev)), <- (dumps_sort (canonical_value row m2 prev)). f_equal.
  unfold canonical_value. cbn [sort_json map fst snd] in *. by rewrite Hs.
Qed.
Lemma canonical_sorted row m prev :
  canonical row (map (fun kv => (fst kv, sort_json (snd kv))) (sort_cmp by_key m)) prev = canonical row m prev.
Proof. apply canonical_metadata. rewrite without_sorted, <- sort_json_obj. apply sort_json_idem. Qed.
Lemma canonical_without row m prev : canonical row (without_integrity m) prev = canonical row m prev.
Proof. unfold canonical, canonical_value. by rewrite without_integrity_idem. Qed.

(** [_sign] computes HMAC-SHA256 under the derived key, whatever the engines. *)
Definition signature_of (secret_key : string) (payload : list Z) : string :=
  python_hmac_sha256 (sha256 (bytes_of (secret_key ++ "|ithute-audit-integrity-v1"))) payload.
Lemma sign_exact libs secret_key payload : sign libs secret_key payload = Ok (signature_of secret_key payload).
Proof.
  unfold sign, execute_binary, BINARY_OPERATIONS. cbn [dict_get String.eqb Ascii.eqb Bool.eqb].
  rewrite sha256_digest_exact. cbn [rbind tag fst]. unfold python_sha256. rewrite fromhex_hex by apply sha256_is_byte.
  cbn [rbind]. by rewrite hmac_sha256_exact.
Qed.
Lemma signature_ascii secret_key payload : is_ascii (signature_of secret_key payload) = true.
Proof. apply hex_ascii. unfold hmac_sha256. apply sha256_is_byte. Qed.
Lemma hex_nonempty data : data <> [] -> str_truthy (hex_of data) = true.
Proof. by destruct data. Qed.
Lemma signature_nonempty secret_key payload : str_truthy (signature_of secret_key payload) = true.
Proof. apply hex_nonempty. intros He. apply (f_equal length) in He. unfold hmac_sha256 in He. by rewrite length_sha256 in He. Qed.

(** A true value never prints as the empty string. *)
Lemma truthy_app a b : str_truthy b = true -> str_truthy (a ++ b) = true.
Proof. by destruct a. Qed.
Lemma truthy_of_Z z : str_truthy (str_of_Z z) = true.
Proof. destruct (int_head z EmptyString) as (c & r & He & _). rewrite append_nil_r in He. by rewrite He. Qed.
Lemma truthy_repr_float f : str_truthy (float_repr f) = true.
Proof.
  unfold float_repr. destruct f as [[]|[]| |[] m e]; try done; destruct (to_ratio _) as [n d], (shortest_decimal _ _ _ _) as [m' e']; [done|].
  destruct (_ && _); [repeat case_match|]; repeat first [done|apply truthy_app].
Qed.
Lemma truthy_py_str v : truthy v = true -> str_truthy (py_str v) = true.
Proof.
  destruct v as [|[]|z|f|s|l|l]; try done; intros _; cbn [py_str py_repr].
  - apply truthy_of_Z.
  - apply truthy_repr_float.
Qed.
Lemma anchor_truthy db : str_truthy (latest_anchor db) = true.
Proof. unfold latest_anchor. destruct (head _); [|done]. destruct (truthy _) eqn:E; [by apply truthy_py_str|done]. Qed.

(** ** One signed row *)
Definition signed_dict (m : dict) (prev_signature signature : string) : dict :=
  m ++ [("_audit_integrity_version", JInt INTEGRITY_VERSION); ("_audit_integrity_prev", JStr prev_signature);
        ("_audit_integrity_signature", JStr signature)].
Definition content_of (row : AuditLog) : dict := without_integrity (metadata_of (AuditLog.metadata_json row)).
Lemma signed_dict_plain m prev s : plain_dict (without_integrity m) = true -> plain_dict (signed_dict (without_integrity m) prev s) = true.
Proof.
  rewrite !plain_dict_spec. unfold signed_dict. rewrite forallb_app, map_app. intros [-> Hn]. split; [done|]. apply NoDup_app.
  split; [done|]. split; [|apply (bool_decide_unpack _); by vm_compute].
  intros k Hk Hin. assert (integrity_key k = true) as Hi by (cbn [map fst] in Hin; rewrite !elem_of_cons in Hin; destruct Hin as [->|[->|[->|[]%not_elem_of_nil]]]; done).
  by apply (without_integrity_fresh k m).
Qed.
Lemma signed_dict_content m prev s : without_integrity (signed_dict (without_integrity m) prev s) = without_integrity m.
Proof. unfold signed_dict, without_integrity. rewrite List.filter_app. cbn. rewrite app_nil_r. apply without_integrity_idem. Qed.
Section Row.
Context (libs : Libraries) (secret_key : string).
Notation signature row prev := (signature_of secret_key (bytes_of (json_dumps_canonical (canonical_value row (content_of row) prev)))).
(** The row that the insert event leaves. *)
Definition signed_row (row : AuditLog) (prev : string) : AuditLog :=
  row <| AuditLog.metadata_json := Some (json_dumps_canonical (JObj (signed_dict (content_of row) prev (signature row prev)))) |>.
Lemma set_after m k v m' : integrity_key k = true -> k ∉ map fst m' ->
  dict_set k v (without_integrity m ++ m') = without_integrity m ++ (m' ++ [(k, v)]).
Proof.
  intros Hk Hm. rewrite dict_set_fresh; [by rewrite app_assoc|]. rewrite map_app, not_elem_of_app.
  split; [by apply without_integrity_fresh|done].
Qed.
Lemma set_signed m prev s :
  dict_set "_audit_integrity_signature" (JStr s) (dict_set "_audit_integrity_prev" (JStr prev)
    (dict_set "_audit_integrity_version" (JInt INTEGRITY_VERSION) (without_integrity m))) = signed_dict (without_integrity m) prev s.
Proof.
  rewrite <- (app_nil_r (without_integrity m)) at 1.
  do 3 (rewrite set_after; [|done|apply (bool_decide_unpack _); by vm_compute]; cbn [app]). done.
Qed.
Lemma before_insert_ok db row row' : before_insert libs secret_key db row = Ok row' ->
  row' = signed_row row (latest_anchor db) /\
  canonical row (content_of row) (latest_anchor db) = Ok (bytes_of (json_dumps_canonical (canonical_value row (content_of row) (latest_anchor db)))).
Proof.
  unfold before_insert. cbv zeta. intros (payload & Hc & Hs)%rbind_ok. rewrite sign_exact in Hs. cbn [rbind] in Hs.
  rewrite set_signed in Hs. injection Hs as <-. fold (content_of row) in Hc |- *.
  rewrite (canonical_metadata _ _ (content_of row)) in Hc.
  2: { rewrite !without_integrity_set by done. done. }
  unfold canonical in Hc |- *. pose proof (encode_ok _ _ Hc) as ->. done.
Qed.
Lemma jget_signed k m prev s : integrity_key k = true ->
  jget k (signed_dict (without_integrity m) prev s) = jget k [("_audit_integrity_version", JInt INTEGRITY_VERSION);
    ("_audit_integrity_prev", JStr prev); ("_audit_integrity_signature", JStr s)].
Proof.
  intros Hk. pose proof (without_integrity_fresh k m Hk) as Hf. unfold jget, signed_dict.
  induction (without_integrity m) as [|[k' v'] l IH]; [done|]. cbn in Hf |- *. apply not_elem_of_cons in Hf as [Hne Hf].
  rewrite (proj2 (String.eqb_neq _ _)) by done. by apply IH.
Qed.
Definition valid_link (prev s : string) : Verification :=
  {| v_signed := true; v_valid := true; v_signature := Some s; v_prev_signature := Some prev |}.
Lemma stored_signed row prev : plain_dict (metadata_of (AuditLog.metadata_json row)) = true ->
  metadata_of (AuditLog.metadata_json (signed_row row prev)) =
  map (fun kv => (fst kv, sort_json (snd kv))) (sort_cmp by_key (signed_dict (content_of row) prev (signature row prev))).
Proof. intros Hp. unfold signed_row. cbn [AuditLog.metadata_json]. apply metadata_stored, signed_dict_plain, plain_without, Hp. Qed.
Lemma verify_signed row prev : plain_dict (metadata_of (AuditLog.metadata_json row)) = true -> str_truthy prev = true ->
  canonical row (content_of row) prev = Ok (bytes_of (json_dumps_canonical (canonical_value row (content_of row) prev))) ->
  verify_audit_row libs secret_key (signed_row row prev) = Ok (valid_link prev (signature row prev)).
Proof.
  intros Hp Hprev Hc. unfold verify_audit_row. cbv zeta. rewrite stored_signed by done.
  set (m := content_of row) in *. set (s := signature_of _ _).
  assert (plain_dict (signed_dict m prev s) = true) as Hps by (by apply signed_dict_plain, plain_without).
  apply plain_dict_spec in Hps as [_ Hn]. rewrite !jget_sorted by done. subst m. unfold content_of. rewrite !jget_signed by done.
  fold (content_of row). assert (str_truthy s = true) as Hs by apply signature_nonempty.
  assert (jor (JStr s) (JStr EmptyString) = JStr s) as Hjs by (unfold jor; cbn [truthy]; by rewrite Hs).
  assert (jor (JStr prev) (JStr EmptyString) = JStr prev) as Hjp by (unfold jor; cbn [truthy]; by rewrite Hprev).
  cbn [jget dict_get String.eqb Ascii.eqb Bool.eqb sort_json]. rewrite Hjs, Hjp. cbn [py_str]. rewrite Hs, Hprev.
  cbn [is_version negb orb]. change (1 =? INTEGRITY_VERSION) with true. cbv iota.
  rewrite canonical_sorted.
  change (canonical (signed_row row prev) ?m prev) with (canonical row m prev).
  assert (without_integrity (signed_dict (content_of row) prev s) = content_of row) as Hw by apply signed_dict_content.
  rewrite <- canonical_without, Hw, Hc. cbn [rbind]. rewrite sign_exact. cbn [rbind].
  fold s. unfold compare_digest. subst s. rewrite signature_ascii. cbn [andb rbind]. by rewrite String.eqb_refl.
Qed.
End Row.

(** * Tampering *)


(** A row signed by the insert event, on whatever engines, verifies on
    every other deployment with the same secret: it is signed and valid, its
    predecessor link is the anchor the database had, and nothing but the
    metadata column changed, whose own content reads back unchanged (with the
    keys in order). *)
Theorem signed_row_verifies libs libs' secret_key db row row' :
  before_insert libs secret_key db row = Ok row' -> plain_dict (metadata_of (AuditLog.metadata_json row)) = true ->
  (exists s, verify_audit_row libs' secret_key row' = Ok (valid_link (latest_anchor db) s) /\
             jget "_audit_integrity_signature" (metadata_of (AuditLog.metadata_json row')) = JStr s) /\
  row' <| AuditLog.metadata_json := AuditLog.metadata_json row |> = row /\
  sort_json (JObj (content_of row')) = sort_json (JObj (content_of row)) /\
  forall k, integrity_key k = false -> jget k (content_of row') = sort_json (jget k (content_of row)).
Proof.
  intros [-> Hc]%before_insert_ok Hp. pose proof (plain_without _ Hp) as Hpc. fold (content_of row) in Hpc.
  set (prev := latest_anchor db) in *. set (s := signature_of secret_key (bytes_of (json_dumps_canonical (canonical_value row (content_of row) prev)))).
  assert (content_of (signed_row secret_key row prev) = map (fun kv => (fst kv, sort_json (snd kv))) (sort_cmp by_key (content_of row))) as Hcont.
  { unfold content_of at 1. rewrite stored_signed by done. rewrite without_sorted. unfold content_of at 1. by rewrite signed_dict_content. }
  split_and!.
  - exists s. split; [apply verify_signed; [done|apply anchor_truthy|done]|].
    rewrite stored_signed by done. rewrite jget_sorted; [|apply plain_dict_spec, signed_dict_plain, Hpc].
    unfold content_of at 1. by rewrite jget_signed.
  - by destruct row.
  - rewrite Hcont, <- sort_json_obj. apply sort_json_idem.
  - intros k Hk. rewrite Hcont. apply jget_sorted. by apply plain_dict_spec in Hpc as [_ Hn].
Qed.


Section Chain.
Context (secret_key : string).
Notation verify libs := (verify_audit_row libs secret_key).


End Chain.

(** * Examples *)
Definition no_libs : Libraries := {| rust := false; cpp := false |}.
Definition with_libs : Libraries := {| rust := true; cpp := true |}.
Definition sample_row (id : uuid) (at_ : time) (action : string) : AuditLog :=
  AuditLog.new_AuditLog id at_ <| AuditLog.tenant_id := Some 7 |> <| AuditLog.action := action |>
    <| AuditLog.resource_type := "api_key" |> <| AuditLog.resource_id := Some "key-1" |>
    <| AuditLog.metadata_json := Some (quoted "{'z': [1, null], 'client_ip': '10.0.0.9', '_audit_integrity_prev': 'forged'}") |>.
Definition legacy_db : Db := empty_Db <| audit_logs := [AuditLog.new_AuditLog 1 10 <| AuditLog.action := "legacy" |>] |>.
Definition ok_or {A} (d : A) (r : result A) : A := match r with Ok a => a | Err _ => d end.
Definition first_db : Db := Eval vm_compute in ok_or empty_Db (flush_audit no_libs "k" 20 legacy_db [(sample_row 2 20 "api_key.create", 90)]).
Definition second_db : Db := Eval vm_compute in ok_or empty_Db (flush_audit with_libs "k" 30 first_db [(sample_row 3 30 "tenant.list", 91)]).
Definition signed_sample : AuditLog := Eval vm_compute in ok_or (sample_row 2 20 "api_key.create") (before_insert no_libs "k" legacy_db (sample_row 2 20 "api_key.create")).
Definition signature_in (r : result Verification) : string :=
  match r with Ok v => opt_str (v_signature v) | Err _ => EmptyString end.
Definition sample_signature : string := Eval vm_compute in signature_in (verify_audit_row no_libs "k" signed_sample).
Definition sample_prev : string := Eval vm_compute in latest_anchor legacy_db.

Example security_events_example :
  (length (ithute_security_events second_db), map IthuteSecurityEvent.severity (ithute_security_events second_db),
   map IthuteSecurityEvent.source_ip (ithute_security_events second_db)) = (1%nat, [SecuritySeverity.high], [Some "10.0.0.9"]).
Proof. vm_compute. reflexivity. Qed.
(** Changing the action of a signed row is detected. *)
Example altered_action :
  verify_audit_row no_libs "k" (signed_sample <| AuditLog.action := "api_key.delete" |>) =
  Ok {| v_signed := true; v_valid := false; v_signature := Some sample_signature; v_prev_signature := Some sample_prev |}.
Proof. vm_compute. reflexivity. Qed.

(** Two rows of one instant, flushed one after the other, the second with the
    smaller identifier: the anchor of the third row is not the last one written, and
    the integrity check, which reads the rows by time and identifier, reports a
    broken link. *)
Definition tied_db : Db := Eval vm_compute in
  let db := ok_or empty_Db (flush_audit no_libs "k" 20 legacy_db [(sample_row 5 20 "api_key.create", 90)]) in
  ok_or empty_Db (flush_audit no_libs "k" 20 db [(sample_row 3 20 "api_key.delete", 91)]).
Lemma same_instant_breaks_chain :
  (let* db := flush_audit no_libs "k" 20 legacy_db [(sample_row 5 20 "api_key.create", 90)] in
   flush_audit no_libs "k" 20 db [(sample_row 3 20 "api_key.delete", 91)]) = Ok tied_db /\
  exists st, audit_integrity_status no_libs "k" tied_db 1000 = Ok st /\ healthy st = false /\ broken_links st = 1.
Proof. split; [vm_compute; reflexivity|]. eexists. split; [vm_compute; reflexivity|]. by vm_compute. Qed.
(** Two rows flushed together read the same anchor, because every
    [before_insert] of the batch runs before the first INSERT: the chain forks,
    and the check reports a broken link on an untouched log. *)
Definition forked_db : Db := Eval vm_compute in
  ok_or empty_Db (flush_audit no_libs "k" 20 legacy_db [(sample_row 2 20 "api_key.create", 90); (sample_row 3 20 "api_key.delete", 91)]).
Lemma batch_forks_chain :
  flush_audit no_libs "k" 20 legacy_db [(sample_row 2 20 "api_key.create", 90); (sample_row 3 20 "api_key.delete", 91)] = Ok forked_db /\
  exists st, audit_integrity_status no_libs "k" forked_db 1000 = Ok st /\ healthy st = false /\ signed_rows st = 2 /\
    invalid_signatures st = 0 /\ broken_links st = 1.
Proof. split; [vm_compute; reflexivity|]. eexists. split; [vm_compute; reflexivity|]. repeat split. Qed.

Lemma signed_row_verifies_witness :
  let row := sample_row 2 20 "api_key.create" in
  before_insert no_libs "k" legacy_db row = Ok signed_sample /\
  exists s, verify_audit_row with_libs "k" signed_sample = Ok (valid_link "legacy:00000000-0000-0000-0000-000000000001" s).
Proof.
  intros row. assert (before_insert no_libs "k" legacy_db row = Ok signed_sample) as H by (vm_compute; reflexivity). split; [exact H|].
  destruct (signed_row_verifies no_libs with_libs "k" legacy_db row signed_sample H ltac:(vm_compute; reflexivity)) as [(s & Hs & _) _].
  exists s. exact Hs.
Defined.
