(* ===== verification/FinanceModels.v ===== *)
(** The relational data model of the finance component: a record per SQLAlchemy
    class with all its columns, and the record [FinanceDb] of its tables. *)
From S2P Require Import Prelude PyFloat Json Models.
#[local] Open Scope string_scope.
#[local] Open Scope Z_scope.

(** ** [apps/backend/app/models/finance.py] *)

(** [finance.py]: [class FinanceClient], every column. *)
Module FinanceClient.
Record FinanceClient : Type := mk {
  id : uuid;
  name : string;
  email : string;
  address : string;
  phone : string;
  default_service : string;
  default_details : string;
  default_quantity : Z;
  default_rate_minor : Z;
  default_tax_minor : Z;
  payment_terms_days : Z;
  active : bool;
  notes : string;
  created_by_user_id : option uuid;
  created_at : time;
  updated_at : time
}.
(** A row with its column defaults, as the first flush writes it. *)
Definition new_FinanceClient (new_id : uuid) (now : time) : FinanceClient := {|
  id := new_id;
  name := EmptyString;
  email := EmptyString;
  address := EmptyString;
  phone := EmptyString;
  default_service := EmptyString;
  default_details := EmptyString;
  default_quantity := 1;
  default_rate_minor := 0;
  default_tax_minor := 0;
  payment_terms_days := 7;
  active := true;
  notes := EmptyString;
  created_by_user_id := None;
  created_at := now;
  updated_at := now
|}.
End FinanceClient.
Notation FinanceClient := FinanceClient.FinanceClient.
#[export] Instance eta_FinanceClient : Eta FinanceClient := fun r =>
  FinanceClient.mk (FinanceClient.id r) (FinanceClient.name r) (FinanceClient.email r) (FinanceClient.address r) (FinanceClient.phone r) (FinanceClient.default_service r) (FinanceClient.default_details r) (FinanceClient.default_quantity r) (FinanceClient.default_rate_minor r) (FinanceClient.default_tax_minor r) (FinanceClient.payment_terms_days r) (FinanceClient.active r) (FinanceClient.notes r) (FinanceClient.created_by_user_id r) (FinanceClient.created_at r) (FinanceClient.updated_at r).
#[export] Instance keyed_FinanceClient : Keyed FinanceClient := FinanceClient.id.

(** [finance.py]: [class FinanceInvoice], every column. *)
Module FinanceInvoice.
Record FinanceInvoice : Type := mk {
  id : uuid;
  invoice_number : string;
  client_id : option uuid;
  client_name : string;
  recipient_email : string;
  client_address : string;
  description : string;
  details : string;
  service_period : string;
  quantity : Z;
  rate_minor : Z;
  tax_minor : Z;
  subtotal_minor : Z;
  total_minor : Z;
  currency : string;
  due_date : date;
  status : string;
  email_subject : string;
  email_body : string;
  created_by_user_id : option uuid;
  sent_at : option time;
  cancelled_at : option time;
  last_error : option string;
  created_at : time;
  updated_at : time
}.
(** A row with its column defaults, as the first flush writes it. *)
Definition new_FinanceInvoice (new_id : uuid) (now : time) : FinanceInvoice := {|
  id := new_id;
  invoice_number := EmptyString;
  client_id := None;
  client_name := EmptyString;
  recipient_email := EmptyString;
  client_address := EmptyString;
  description := EmptyString;
  details := EmptyString;
  service_period := EmptyString;
  quantity := 1;
  rate_minor := 0;
  tax_minor := 0;
  subtotal_minor := 0;
  total_minor := 0;
  currency := "LSL"%string;
  due_date := 0;
  status := "draft"%string;
  email_subject := EmptyString;
  email_body := EmptyString;
  created_by_user_id := None;
  sent_at := None;
  cancelled_at := None;
  last_error := None;
  created_at := now;
  updated_at := now
|}.
End FinanceInvoice.
Notation FinanceInvoice := FinanceInvoice.FinanceInvoice.
#[export] Instance eta_FinanceInvoice : Eta FinanceInvoice := fun r =>
  FinanceInvoice.mk (FinanceInvoice.id r) (FinanceInvoice.invoice_number r) (FinanceInvoice.client_id r) (FinanceInvoice.client_name r) (FinanceInvoice.recipient_email r) (FinanceInvoice.client_address r) (FinanceInvoice.description r) (FinanceInvoice.details r) (FinanceInvoice.service_period r) (FinanceInvoice.quantity r) (FinanceInvoice.rate_minor r) (FinanceInvoice.tax_minor r) (FinanceInvoice.subtotal_minor r) (FinanceInvoice.total_minor r) (FinanceInvoice.currency r) (FinanceInvoice.due_date r) (FinanceInvoice.status r) (FinanceInvoice.email_subject r) (FinanceInvoice.email_body r) (FinanceInvoice.created_by_user_id r) (FinanceInvoice.sent_at r) (FinanceInvoice.cancelled_at r) (FinanceInvoice.last_error r) (FinanceInvoice.created_at r) (FinanceInvoice.updated_at r).
#[export] Instance keyed_FinanceInvoice : Keyed FinanceInvoice := FinanceInvoice.id.

(** [finance.py]: [class FinanceInvoiceItem], every column. *)
Module FinanceInvoiceItem.
Record FinanceInvoiceItem : Type := mk {
  id : uuid;
  invoice_id : uuid;
  position : Z;
  description : string;
  details : string;
  quantity : Z;
  rate_minor : Z;
  tax_minor : Z;
  created_at : time
}.
(** A row with its column defaults, as the first flush writes it. *)
Definition new_FinanceInvoiceItem (new_id : uuid) (now : time) : FinanceInvoiceItem := {|
  id := new_id;
  invoice_id := 0;
  position := 1;
  description := EmptyString;
  details := EmptyString;
  quantity := 1;
  rate_minor := 0;
  tax_minor := 0;
  created_at := now
|}.
End FinanceInvoiceItem.
Notation FinanceInvoiceItem := FinanceInvoiceItem.FinanceInvoiceItem.
#[export] Instance eta_FinanceInvoiceItem : Eta FinanceInvoiceItem := fun r =>
  FinanceInvoiceItem.mk (FinanceInvoiceItem.id r) (FinanceInvoiceItem.invoice_id r) (FinanceInvoiceItem.position r) (FinanceInvoiceItem.description r) (FinanceInvoiceItem.details r) (FinanceInvoiceItem.quantity r) (FinanceInvoiceItem.rate_minor r) (FinanceInvoiceItem.tax_minor r) (FinanceInvoiceItem.created_at r).
#[export] Instance keyed_FinanceInvoiceItem : Keyed FinanceInvoiceItem := FinanceInvoiceItem.id.

(** [finance.py]: [class FinancePayment], every column. *)
Module FinancePayment.
Record FinancePayment : Type := mk {
  id : uuid;
  invoice_id : uuid;
  amount_minor : Z;
  payment_date : date;
  method : string;
  reference : string;
  note : string;
  recorded_by_user_id : option uuid;
  created_at : time
}.
(** A row with its column defaults, as the first flush writes it. *)
Definition new_FinancePayment (new_id : uuid) (now : time) : FinancePayment := {|
  id := new_id;
  invoice_id := 0;
  amount_minor := 0;
  payment_date := 0;
  method := "bank_transfer"%string;
  reference := EmptyString;
  note := EmptyString;
  recorded_by_user_id := None;
  created_at := now
|}.
End FinancePayment.
Notation FinancePayment := FinancePayment.FinancePayment.
#[export] Instance eta_FinancePayment : Eta FinancePayment := fun r =>
  FinancePayment.mk (FinancePayment.id r) (FinancePayment.invoice_id r) (FinancePayment.amount_minor r) (FinancePayment.payment_date r) (FinancePayment.method r) (FinancePayment.reference r) (FinancePayment.note r) (FinancePayment.recorded_by_user_id r) (FinancePayment.created_at r).
#[export] Instance keyed_FinancePayment : Keyed FinancePayment := FinancePayment.id.

(** [finance.py]: [class FinanceCreditNote], every column. *)
Module FinanceCreditNote.
Record FinanceCreditNote : Type := mk {
  id : uuid;
  credit_number : string;
  invoice_id : uuid;
  amount_minor : Z;
  reason : string;
  created_by_user_id : option uuid;
  created_at : time
}.
(** A row with its column defaults, as the first flush writes it. *)
Definition new_FinanceCreditNote (new_id : uuid) (now : time) : FinanceCreditNote := {|
  id := new_id;
  credit_number := EmptyString;
  invoice_id := 0;
  amount_minor := 0;
  reason := EmptyString;
  created_by_user_id := None;
  created_at := now
|}.
End FinanceCreditNote.
Notation FinanceCreditNote := FinanceCreditNote.FinanceCreditNote.
#[export] Instance eta_FinanceCreditNote : Eta FinanceCreditNote := fun r =>
  FinanceCreditNote.mk (FinanceCreditNote.id r) (FinanceCreditNote.credit_number r) (FinanceCreditNote.invoice_id r) (FinanceCreditNote.amount_minor r) (FinanceCreditNote.reason r) (FinanceCreditNote.created_by_user_id r) (FinanceCreditNote.created_at r).
#[export] Instance keyed_FinanceCreditNote : Keyed FinanceCreditNote := FinanceCreditNote.id.

(** [finance.py]: [class FinanceDocument], every column. *)
Module FinanceDocument.
Record FinanceDocument : Type := mk {
  id : uuid;
  document_number : string;
  document_type : string;
  status : string;
  client_id : option uuid;
  client_name : string;
  recipient_email : string;
  client_address : string;
  currency : string;
  subtotal_minor : Z;
  tax_minor : Z;
  total_minor : Z;
  valid_until : option date;
  payment_terms_days : Z;
  notes : string;
  converted_invoice_id : option uuid;
  created_by_user_id : option uuid;
  sent_at : option time;
  accepted_at : option time;
  rejected_at : option time;
  converted_at : option time;
  created_at : time;
  updated_at : time
}.
(** A row with its column defaults, as the first flush writes it. *)
Definition new_FinanceDocument (new_id : uuid) (now : time) : FinanceDocument := {|
  id := new_id;
  document_number := EmptyString;
  document_type := EmptyString;
  status := "draft"%string;
  client_id := None;
  client_name := EmptyString;
  recipient_email := EmptyString;
  client_address := EmptyString;
  currency := "LSL"%string;
  subtotal_minor := 0;
  tax_minor := 0;
  total_minor := 0;
  valid_until := None;
  payment_terms_days := 7;
  notes := EmptyString;
  converted_invoice_id := None;
  created_by_user_id := None;
  sent_at := None;
  accepted_at := None;
  rejected_at := None;
  converted_at := None;
  created_at := now;
  updated_at := now
|}.
End FinanceDocument.
Notation FinanceDocument := FinanceDocument.FinanceDocument.
#[export] Instance eta_FinanceDocument : Eta FinanceDocument := fun r =>
  FinanceDocument.mk (FinanceDocument.id r) (FinanceDocument.document_number r) (FinanceDocument.document_type r) (FinanceDocument.status r) (FinanceDocument.client_id r) (FinanceDocument.client_name r) (FinanceDocument.recipient_email r) (FinanceDocument.client_address r) (FinanceDocument.currency r) (FinanceDocument.subtotal_minor r) (FinanceDocument.tax_minor r) (FinanceDocument.total_minor r) (FinanceDocument.valid_until r) (FinanceDocument.payment_terms_days r) (FinanceDocument.notes r) (FinanceDocument.converted_invoice_id r) (FinanceDocument.created_by_user_id r) (FinanceDocument.sent_at r) (FinanceDocument.accepted_at r) (FinanceDocument.rejected_at r) (FinanceDocument.converted_at r) (FinanceDocument.created_at r) (FinanceDocument.updated_at r).
#[export] Instance keyed_FinanceDocument : Keyed FinanceDocument := FinanceDocument.id.

(** [finance.py]: [class FinanceDocumentItem], every column. *)
Module FinanceDocumentItem.
Record FinanceDocumentItem : Type := mk {
  id : uuid;
  document_id : uuid;
  position : Z;
  description : string;
  details : string;
  quantity : Z;
  rate_minor : Z;
  tax_minor : Z;
  created_at : time
}.
(** A row with its column defaults, as the first flush writes it. *)
Definition new_FinanceDocumentItem (new_id : uuid) (now : time) : FinanceDocumentItem := {|
  id := new_id;
  document_id := 0;
  position := 1;
  description := EmptyString;
  details := EmptyString;
  quantity := 1;
  rate_minor := 0;
  tax_minor := 0;
  created_at := now
|}.
End FinanceDocumentItem.
Notation FinanceDocumentItem := FinanceDocumentItem.FinanceDocumentItem.
#[export] Instance eta_FinanceDocumentItem : Eta FinanceDocumentItem := fun r =>
  FinanceDocumentItem.mk (FinanceDocumentItem.id r) (FinanceDocumentItem.document_id r) (FinanceDocumentItem.position r) (FinanceDocumentItem.description r) (FinanceDocumentItem.details r) (FinanceDocumentItem.quantity r) (FinanceDocumentItem.rate_minor r) (FinanceDocumentItem.tax_minor r) (FinanceDocumentItem.created_at r).
#[export] Instance keyed_FinanceDocumentItem : Keyed FinanceDocumentItem := FinanceDocumentItem.id.

(** [finance.py]: [class FinanceInvoiceSchedule], every column. *)
Module FinanceInvoiceSchedule.
Record FinanceInvoiceSchedule : Type := mk {
  id : uuid;
  client_id : option uuid;
  client_name : string;
  recipient_email : string;
  client_address : string;
  description : string;
  details : string;
  quantity : Z;
  rate_minor : Z;
  tax_minor : Z;
  currency : string;
  send_day : Z;
  due_days : Z;
  enabled : bool;
  last_sent_period : option string;
  last_error : option string;
  created_by_user_id : option uuid;
  created_at : time;
  updated_at : time
}.
(** A row with its column defaults, as the first flush writes it. *)
Definition new_FinanceInvoiceSchedule (new_id : uuid) (now : time) : FinanceInvoiceSchedule := {|
  id := new_id;
  client_id := None;
  client_name := EmptyString;
  recipient_email := EmptyString;
  client_address := EmptyString;
  description := EmptyString;
  details := EmptyString;
  quantity := 1;
  rate_minor := 0;
  tax_minor := 0;
  currency := "LSL"%string;
  send_day := 0;
  due_days := 7;
  enabled := true;
  last_sent_period := None;
  last_error := None;
  created_by_user_id := None;
  created_at := now;
  updated_at := now
|}.
End FinanceInvoiceSchedule.
Notation FinanceInvoiceSchedule := FinanceInvoiceSchedule.FinanceInvoiceSchedule.
#[export] Instance eta_FinanceInvoiceSchedule : Eta FinanceInvoiceSchedule := fun r =>
  FinanceInvoiceSchedule.mk (FinanceInvoiceSchedule.id r) (FinanceInvoiceSchedule.client_id r) (FinanceInvoiceSchedule.client_name r) (FinanceInvoiceSchedule.recipient_email r) (FinanceInvoiceSchedule.client_address r) (FinanceInvoiceSchedule.description r) (FinanceInvoiceSchedule.details r) (FinanceInvoiceSchedule.quantity r) (FinanceInvoiceSchedule.rate_minor r) (FinanceInvoiceSchedule.tax_minor r) (FinanceInvoiceSchedule.currency r) (FinanceInvoiceSchedule.send_day r) (FinanceInvoiceSchedule.due_days r) (FinanceInvoiceSchedule.enabled r) (FinanceInvoiceSchedule.last_sent_period r) (FinanceInvoiceSchedule.last_error r) (FinanceInvoiceSchedule.created_by_user_id r) (FinanceInvoiceSchedule.created_at r) (FinanceInvoiceSchedule.updated_at r).
#[export] Instance keyed_FinanceInvoiceSchedule : Keyed FinanceInvoiceSchedule := FinanceInvoiceSchedule.id.

(** ** [apps/backend/app/models/finance_accounting.py] *)

(** [finance_accounting.py]: [class FinanceExpense], every column. *)
Module FinanceExpense.
Record FinanceExpense : Type := mk {
  id : uuid;
  expense_date : date;
  vendor : string;
  category : string;
  description : string;
  amount_minor : Z;
  tax_minor : Z;
  payment_method : string;
  reference : string;
  recurring : bool;
  status : string;
  created_by_user_id : option uuid;
  created_at : time;
  updated_at : time
}.
(** A row with its column defaults, as the first flush writes it. *)
Definition new_FinanceExpense (new_id : uuid) (now : time) : FinanceExpense := {|
  id := new_id;
  expense_date := 0;
  vendor := EmptyString;
  category := EmptyString;
  description := EmptyString;
  amount_minor := 0;
  tax_minor := 0;
  payment_method := "bank_transfer"%string;
  reference := EmptyString;
  recurring := false;
  status := "posted"%string;
  created_by_user_id := None;
  created_at := now;
  updated_at := now
|}.
End FinanceExpense.
Notation FinanceExpense := FinanceExpense.FinanceExpense.
#[export] Instance eta_FinanceExpense : Eta FinanceExpense := fun r =>
  FinanceExpense.mk (FinanceExpense.id r) (FinanceExpense.expense_date r) (FinanceExpense.vendor r) (FinanceExpense.category r) (FinanceExpense.description r) (FinanceExpense.amount_minor r) (FinanceExpense.tax_minor r) (FinanceExpense.payment_method r) (FinanceExpense.reference r) (FinanceExpense.recurring r) (FinanceExpense.status r) (FinanceExpense.created_by_user_id r) (FinanceExpense.created_at r) (FinanceExpense.updated_at r).
#[export] Instance keyed_FinanceExpense : Keyed FinanceExpense := FinanceExpense.id.

(** [finance_accounting.py]: [class FinanceBankTransaction], every column. *)
Module FinanceBankTransaction.
Record FinanceBankTransaction : Type := mk {
  id : uuid;
  transaction_date : date;
  amount_minor : Z;
  description : string;
  reference : string;
  source_name : string;
  import_batch : string;
  fingerprint : string;
  status : string;
  matched_invoice_id : option uuid;
  matched_payment_id : option uuid;
  created_by_user_id : option uuid;
  created_at : time;
  reconciled_at : option time
}.
(** A row with its column defaults, as the first flush writes it. *)
Definition new_FinanceBankTransaction (new_id : uuid) (now : time) : FinanceBankTransaction := {|
  id := new_id;
  transaction_date := 0;
  amount_minor := 0;
  description := EmptyString;
  reference := EmptyString;
  source_name := "LPB"%string;
  import_batch := "manual"%string;
  fingerprint := EmptyString;
  status := "unmatched"%string;
  matched_invoice_id := None;
  matched_payment_id := None;
  created_by_user_id := None;
  created_at := now;
  reconciled_at := None
|}.
End FinanceBankTransaction.
Notation FinanceBankTransaction := FinanceBankTransaction.FinanceBankTransaction.
#[export] Instance eta_FinanceBankTransaction : Eta FinanceBankTransaction := fun r =>
  FinanceBankTransaction.mk (FinanceBankTransaction.id r) (FinanceBankTransaction.transaction_date r) (FinanceBankTransaction.amount_minor r) (FinanceBankTransaction.description r) (FinanceBankTransaction.reference r) (FinanceBankTransaction.source_name r) (FinanceBankTransaction.import_batch r) (FinanceBankTransaction.fingerprint r) (FinanceBankTransaction.status r) (FinanceBankTransaction.matched_invoice_id r) (FinanceBankTransaction.matched_payment_id r) (FinanceBankTransaction.created_by_user_id r) (FinanceBankTransaction.created_at r) (FinanceBankTransaction.reconciled_at r).
#[export] Instance keyed_FinanceBankTransaction : Keyed FinanceBankTransaction := FinanceBankTransaction.id.

(** ** [apps/backend/app/models/finance_control.py] *)

(** [finance_control.py]: [class FinanceAccountingPeriod], every column. *)
Module FinanceAccountingPeriod.
Record FinanceAccountingPeriod : Type := mk {
  id : uuid;
  year : Z;
  month : Z;
  status : string;
  note : string;
  locked_at : option time;
  locked_by_user_id : option uuid;
  created_at : time;
  updated_at : time
}.
(** A row with its column defaults, as the first flush writes it. *)
Definition new_FinanceAccountingPeriod (new_id : uuid) (now : time) : FinanceAccountingPeriod := {|
  id := new_id;
  year := 0;
  month := 0;
  status := "open"%string;
  note := EmptyString;
  locked_at := None;
  locked_by_user_id := None;
  created_at := now;
  updated_at := now
|}.
End FinanceAccountingPeriod.
Notation FinanceAccountingPeriod := FinanceAccountingPeriod.FinanceAccountingPeriod.
#[export] Instance eta_FinanceAccountingPeriod : Eta FinanceAccountingPeriod := fun r =>
  FinanceAccountingPeriod.mk (FinanceAccountingPeriod.id r) (FinanceAccountingPeriod.year r) (FinanceAccountingPeriod.month r) (FinanceAccountingPeriod.status r) (FinanceAccountingPeriod.note r) (FinanceAccountingPeriod.locked_at r) (FinanceAccountingPeriod.locked_by_user_id r) (FinanceAccountingPeriod.created_at r) (FinanceAccountingPeriod.updated_at r).
#[export] Instance keyed_FinanceAccountingPeriod : Keyed FinanceAccountingPeriod := FinanceAccountingPeriod.id.

(** [finance_control.py]: [class FinanceTaxRate], every column. *)
Module FinanceTaxRate.
Record FinanceTaxRate : Type := mk {
  id : uuid;
  name : string;
  rate_basis_points : Z;
  inclusive : bool;
  active : bool;
  effective_from : option date;
  effective_to : option date;
  created_by_user_id : option uuid;
  created_at : time;
  updated_at : time
}.
(** A row with its column defaults, as the first flush writes it. *)
Definition new_FinanceTaxRate (new_id : uuid) (now : time) : FinanceTaxRate := {|
  id := new_id;
  name := EmptyString;
  rate_basis_points := 0;
  inclusive := false;
  active := true;
  effective_from := None;
  effective_to := None;
  created_by_user_id := None;
  created_at := now;
  updated_at := now
|}.
End FinanceTaxRate.
Notation FinanceTaxRate := FinanceTaxRate.FinanceTaxRate.
#[export] Instance eta_FinanceTaxRate : Eta FinanceTaxRate := fun r =>
  FinanceTaxRate.mk (FinanceTaxRate.id r) (FinanceTaxRate.name r) (FinanceTaxRate.rate_basis_points r) (FinanceTaxRate.inclusive r) (FinanceTaxRate.active r) (FinanceTaxRate.effective_from r) (FinanceTaxRate.effective_to r) (FinanceTaxRate.created_by_user_id r) (FinanceTaxRate.created_at r) (FinanceTaxRate.updated_at r).
#[export] Instance keyed_FinanceTaxRate : Keyed FinanceTaxRate := FinanceTaxRate.id.

(** [finance_control.py]: [class FinanceRefund], every column. *)
Module FinanceRefund.
Record FinanceRefund : Type := mk {
  id : uuid;
  invoice_id : uuid;
  payment_id : uuid;
  amount_minor : Z;
  refund_date : date;
  method : string;
  reference : string;
  reason : string;
  status : string;
  created_by_user_id : option uuid;
  created_at : time
}.
(** A row with its column defaults, as the first flush writes it. *)
Definition new_FinanceRefund (new_id : uuid) (now : time) : FinanceRefund := {|
  id := new_id;
  invoice_id := 0;
  payment_id := 0;
  amount_minor := 0;
  refund_date := 0;
  method := "bank_transfer"%string;
  reference := EmptyString;
  reason := EmptyString;
  status := "processed"%string;
  created_by_user_id := None;
  created_at := now
|}.
End FinanceRefund.
Notation FinanceRefund := FinanceRefund.FinanceRefund.
#[export] Instance eta_FinanceRefund : Eta FinanceRefund := fun r =>
  FinanceRefund.mk (FinanceRefund.id r) (FinanceRefund.invoice_id r) (FinanceRefund.payment_id r) (FinanceRefund.amount_minor r) (FinanceRefund.refund_date r) (FinanceRefund.method r) (FinanceRefund.reference r) (FinanceRefund.reason r) (FinanceRefund.status r) (FinanceRefund.created_by_user_id r) (FinanceRefund.created_at r).
#[export] Instance keyed_FinanceRefund : Keyed FinanceRefund := FinanceRefund.id.

(** ** [apps/backend/app/models/finance_governance.py] *)

(** [finance_governance.py]: [class FinanceGovernanceSetting], every column. *)
Module FinanceGovernanceSetting.
Record FinanceGovernanceSetting : Type := mk {
  id : uuid;
  approval_enabled : bool;
  invoice_approval_threshold_minor : Z;
  updated_by_user_id : option uuid;
  created_at : time;
  updated_at : time
}.
(** A row with its column defaults, as the first flush writes it. *)
Definition new_FinanceGovernanceSetting (new_id : uuid) (now : time) : FinanceGovernanceSetting := {|
  id := new_id;
  approval_enabled := true;
  invoice_approval_threshold_minor := 500000;
  updated_by_user_id := None;
  created_at := now;
  updated_at := now
|}.
End FinanceGovernanceSetting.
Notation FinanceGovernanceSetting := FinanceGovernanceSetting.FinanceGovernanceSetting.
#[export] Instance eta_FinanceGovernanceSetting : Eta FinanceGovernanceSetting := fun r =>
  FinanceGovernanceSetting.mk (FinanceGovernanceSetting.id r) (FinanceGovernanceSetting.approval_enabled r) (FinanceGovernanceSetting.invoice_approval_threshold_minor r) (FinanceGovernanceSetting.updated_by_user_id r) (FinanceGovernanceSetting.created_at r) (FinanceGovernanceSetting.updated_at r).
#[export] Instance keyed_FinanceGovernanceSetting : Keyed FinanceGovernanceSetting := FinanceGovernanceSetting.id.

(** [finance_governance.py]: [class FinanceApprovalRequest], every column. *)
Module FinanceApprovalRequest.
Record FinanceApprovalRequest : Type := mk {
  id : uuid;
  resource_type : string;
  resource_id : uuid;
  status : string;
  request_note : string;
  decision_note : string;
  requested_by_user_id : option uuid;
  decided_by_user_id : option uuid;
  requested_at : time;
  decided_at : option time;
  updated_at : time
}.
(** A row with its column defaults, as the first flush writes it. *)
Definition new_FinanceApprovalRequest (new_id : uuid) (now : time) : FinanceApprovalRequest := {|
  id := new_id;
  resource_type := EmptyString;
  resource_id := 0;
  status := "pending"%string;
  request_note := EmptyString;
  decision_note := EmptyString;
  requested_by_user_id := None;
  decided_by_user_id := None;
  requested_at := now;
  decided_at := None;
  updated_at := now
|}.
End FinanceApprovalRequest.
Notation FinanceApprovalRequest := FinanceApprovalRequest.FinanceApprovalRequest.
#[export] Instance eta_FinanceApprovalRequest : Eta FinanceApprovalRequest := fun r =>
  FinanceApprovalRequest.mk (FinanceApprovalRequest.id r) (FinanceApprovalRequest.resource_type r) (FinanceApprovalRequest.resource_id r) (FinanceApprovalRequest.status r) (FinanceApprovalRequest.request_note r) (FinanceApprovalRequest.decision_note r) (FinanceApprovalRequest.requested_by_user_id r) (FinanceApprovalRequest.decided_by_user_id r) (FinanceApprovalRequest.requested_at r) (FinanceApprovalRequest.decided_at r) (FinanceApprovalRequest.updated_at r).
#[export] Instance keyed_FinanceApprovalRequest : Keyed FinanceApprovalRequest := FinanceApprovalRequest.id.

(** ** [apps/backend/app/models/finance_completion.py] *)

(** [finance_completion.py]: [class FinanceDeliveryEvent], every column. *)
Module FinanceDeliveryEvent.
Record FinanceDeliveryEvent : Type := mk {
  id : uuid;
  invoice_id : uuid;
  event_type : string;
  source : string;
  provider_message_id : string;
  detail : string;
  occurred_at : time;
  created_at : time
}.
(** A row with its column defaults, as the first flush writes it. *)
Definition new_FinanceDeliveryEvent (new_id : uuid) (now : time) : FinanceDeliveryEvent := {|
  id := new_id;
  invoice_id := 0;
  event_type := EmptyString;
  source := "finance_smtp"%string;
  provider_message_id := EmptyString;
  detail := EmptyString;
  occurred_at := 0;
  created_at := now
|}.
End FinanceDeliveryEvent.
Notation FinanceDeliveryEvent := FinanceDeliveryEvent.FinanceDeliveryEvent.
#[export] Instance eta_FinanceDeliveryEvent : Eta FinanceDeliveryEvent := fun r =>
  FinanceDeliveryEvent.mk (FinanceDeliveryEvent.id r) (FinanceDeliveryEvent.invoice_id r) (FinanceDeliveryEvent.event_type r) (FinanceDeliveryEvent.source r) (FinanceDeliveryEvent.provider_message_id r) (FinanceDeliveryEvent.detail r) (FinanceDeliveryEvent.occurred_at r) (FinanceDeliveryEvent.created_at r).
#[export] Instance keyed_FinanceDeliveryEvent : Keyed FinanceDeliveryEvent := FinanceDeliveryEvent.id.

(** * The database: one list of rows per table *)

Record FinanceDb : Type := mk_FinanceDb {
  finance_clients : list FinanceClient;
  finance_invoices : list FinanceInvoice;
  finance_invoice_items : list FinanceInvoiceItem;
  finance_payments : list FinancePayment;
  finance_credit_notes : list FinanceCreditNote;
  finance_documents : list FinanceDocument;
  finance_document_items : list FinanceDocumentItem;
  finance_invoice_schedules : list FinanceInvoiceSchedule;
  finance_expenses : list FinanceExpense;
  finance_bank_transactions : list FinanceBankTransaction;
  finance_accounting_periods : list FinanceAccountingPeriod;
  finance_tax_rates : list FinanceTaxRate;
  finance_refunds : list FinanceRefund;
  finance_governance_settings : list FinanceGovernanceSetting;
  finance_approval_requests : list FinanceApprovalRequest;
  finance_delivery_events : list FinanceDeliveryEvent;
  audits : list AuditLog
}.
#[export] Instance eta_FinanceDb : Eta FinanceDb := fun r =>
  mk_FinanceDb (finance_clients r) (finance_invoices r) (finance_invoice_items r) (finance_payments r) (finance_credit_notes r) (finance_documents r) (finance_document_items r) (finance_invoice_schedules r) (finance_expenses r) (finance_bank_transactions r) (finance_accounting_periods r) (finance_tax_rates r) (finance_refunds r) (finance_governance_settings r) (finance_approval_requests r) (finance_delivery_events r) (audits r).
Definition empty_FinanceDb : FinanceDb := mk_FinanceDb [] [] [] [] [] [] [] [] [] [] [] [] [] [] [] [] [].

