(* ===== verification/FinanceWork.v ===== *)
(** The finance component's unit of work: the schema's constraints as the
    database enforces them at a flush, the guard of
    [app/services/finance_periods.py] on locked accounting periods, the
    activity log of [app/services/finance_audit.py], and the texts and numbers
    of [app/services/finance_invoices.py] and [finance_documents.py]. *)
From S2P Require Import Prelude PyFloat Json Calendar Models Session Schema FinanceModels.
#[local] Open Scope string_scope.
#[local] Open Scope list_scope.
#[local] Open Scope Z_scope.

(** ** The objects a flush writes *)

(** [_accounting_date] and the [Integer] columns of an object.  A pending object
    has its [created_at] from the server clock, so [date.today()] is its day. *)
Class FinanceRow (R : Type) := {
  accounting_date : R -> option date;
  integer_columns : R -> list Z
}.
#[export] Instance row_FinancePayment : FinanceRow FinancePayment := {|
  accounting_date r := Some (FinancePayment.payment_date r);
  integer_columns r := [FinancePayment.amount_minor r] |}.
#[export] Instance row_FinanceExpense : FinanceRow FinanceExpense := {|
  accounting_date r := Some (FinanceExpense.expense_date r);
  integer_columns r := [FinanceExpense.amount_minor r; FinanceExpense.tax_minor r] |}.
#[export] Instance row_FinanceBankTransaction : FinanceRow FinanceBankTransaction := {|
  accounting_date r := Some (FinanceBankTransaction.transaction_date r);
  integer_columns r := [FinanceBankTransaction.amount_minor r] |}.
#[export] Instance row_FinanceRefund : FinanceRow FinanceRefund := {|
  accounting_date r := Some (FinanceRefund.refund_date r);
  integer_columns r := [FinanceRefund.amount_minor r] |}.
#[export] Instance row_FinanceInvoice : FinanceRow FinanceInvoice := {|
  accounting_date r := Some (date_of_time (FinanceInvoice.created_at r));
  integer_columns r := [FinanceInvoice.quantity r; FinanceInvoice.rate_minor r; FinanceInvoice.tax_minor r;
                        FinanceInvoice.subtotal_minor r; FinanceInvoice.total_minor r] |}.
#[export] Instance row_FinanceCreditNote : FinanceRow FinanceCreditNote := {|
  accounting_date r := Some (date_of_time (FinanceCreditNote.created_at r));
  integer_columns r := [FinanceCreditNote.amount_minor r] |}.
#[export] Instance row_FinanceInvoiceItem : FinanceRow FinanceInvoiceItem := {|
  accounting_date r := None;
  integer_columns r := [FinanceInvoiceItem.position r; FinanceInvoiceItem.quantity r;
                        FinanceInvoiceItem.rate_minor r; FinanceInvoiceItem.tax_minor r] |}.
#[export] Instance row_FinanceDocument : FinanceRow FinanceDocument := {|
  accounting_date r := None;
  integer_columns r := [FinanceDocument.subtotal_minor r; FinanceDocument.tax_minor r;
                        FinanceDocument.total_minor r; FinanceDocument.payment_terms_days r] |}.
#[export] Instance row_FinanceDocumentItem : FinanceRow FinanceDocumentItem := {|
  accounting_date r := None;
  integer_columns r := [FinanceDocumentItem.position r; FinanceDocumentItem.quantity r;
                        FinanceDocumentItem.rate_minor r; FinanceDocumentItem.tax_minor r] |}.
#[export] Instance row_FinanceInvoiceSchedule : FinanceRow FinanceInvoiceSchedule := {|
  accounting_date r := None;
  integer_columns r := [FinanceInvoiceSchedule.quantity r; FinanceInvoiceSchedule.rate_minor r;
                        FinanceInvoiceSchedule.tax_minor r; FinanceInvoiceSchedule.send_day r;
                        FinanceInvoiceSchedule.due_days r] |}.
#[export] Instance row_FinanceTaxRate : FinanceRow FinanceTaxRate := {|
  accounting_date r := None; integer_columns r := [FinanceTaxRate.rate_basis_points r] |}.
#[export] Instance row_FinanceAccountingPeriod : FinanceRow FinanceAccountingPeriod := {|
  accounting_date r := None;
  integer_columns r := [FinanceAccountingPeriod.year r; FinanceAccountingPeriod.month r] |}.
#[export] Instance row_FinanceGovernanceSetting : FinanceRow FinanceGovernanceSetting := {|
  accounting_date r := None; integer_columns r := [FinanceGovernanceSetting.invoice_approval_threshold_minor r] |}.
#[export] Instance row_FinanceApprovalRequest : FinanceRow FinanceApprovalRequest := {|
  accounting_date r := None; integer_columns r := [] |}.
#[export] Instance row_FinanceDeliveryEvent : FinanceRow FinanceDeliveryEvent := {|
  accounting_date r := None; integer_columns r := [] |}.
#[export] Instance row_AuditLog : FinanceRow AuditLog := {| accounting_date r := None; integer_columns r := [] |}.

(** ** The constraints of the schema *)
Definition check_schema (d : FinanceDb) : result unit :=
  let* _ := unique_column "finance_invoices_pkey" (keys (finance_invoices d)) in
  let* _ := unique_column "finance_invoice_items_pkey" (keys (finance_invoice_items d)) in
  let* _ := unique_column "finance_payments_pkey" (keys (finance_payments d)) in
  let* _ := unique_column "finance_credit_notes_pkey" (keys (finance_credit_notes d)) in
  let* _ := unique_column "finance_documents_pkey" (keys (finance_documents d)) in
  let* _ := unique_column "finance_document_items_pkey" (keys (finance_document_items d)) in
  let* _ := unique_column "finance_invoice_schedules_pkey" (keys (finance_invoice_schedules d)) in
  let* _ := unique_column "finance_expenses_pkey" (keys (finance_expenses d)) in
  let* _ := unique_column "finance_bank_transactions_pkey" (keys (finance_bank_transactions d)) in
  let* _ := unique_column "finance_accounting_periods_pkey" (keys (finance_accounting_periods d)) in
  let* _ := unique_column "finance_tax_rates_pkey" (keys (finance_tax_rates d)) in
  let* _ := unique_column "finance_refunds_pkey" (keys (finance_refunds d)) in
  let* _ := unique_column "finance_governance_settings_pkey" (keys (finance_governance_settings d)) in
  let* _ := unique_column "finance_approval_requests_pkey" (keys (finance_approval_requests d)) in
  let* _ := unique_column "invoice_number" (map FinanceInvoice.invoice_number (finance_invoices d)) in
  let* _ := unique_column "credit_number" (map FinanceCreditNote.credit_number (finance_credit_notes d)) in
  let* _ := unique_column "document_number" (map FinanceDocument.document_number (finance_documents d)) in
  let* _ := unique_column "fingerprint" (map FinanceBankTransaction.fingerprint (finance_bank_transactions d)) in
  let* _ := unique_column "uq_finance_accounting_period"
    (map (fun r => (FinanceAccountingPeriod.year r, FinanceAccountingPeriod.month r)) (finance_accounting_periods d)) in
  let* _ := unique_column "name" (map FinanceTaxRate.name (finance_tax_rates d)) in
  let* _ := unique_column "uq_finance_approval_resource"
    (map (fun r => (FinanceApprovalRequest.resource_type r, FinanceApprovalRequest.resource_id r))
       (finance_approval_requests d)) in
  let* _ := foreign_key "invoice_item_invoice"
    (map FinanceInvoiceItem.invoice_id (finance_invoice_items d)) (keys (finance_invoices d)) in
  let* _ := foreign_key "payment_invoice" (map FinancePayment.invoice_id (finance_payments d)) (keys (finance_invoices d)) in
  let* _ := foreign_key "credit_note_invoice"
    (map FinanceCreditNote.invoice_id (finance_credit_notes d)) (keys (finance_invoices d)) in
  let* _ := foreign_key "refund_invoice" (map FinanceRefund.invoice_id (finance_refunds d)) (keys (finance_invoices d)) in
  let* _ := foreign_key "refund_payment" (map FinanceRefund.payment_id (finance_refunds d)) (keys (finance_payments d)) in
  foreign_key "document_item_document"
    (map FinanceDocumentItem.document_id (finance_document_items d)) (keys (finance_documents d)).

(** ** Locked periods *)

(** [period_key] *)
Definition period_key (value : date) : Z * Z := let '(y, m, _) := civil_of value in (y, m).
(** [f"{year:04d}-{month:02d}"] *)
Definition period_label (key : Z * Z) : string :=
  (zero_pad 4 (str_of_Z (fst key)) ++ "-" ++ zero_pad 2 (str_of_Z (snd key)))%string.
Definition in_period (key : Z * Z) (r : FinanceAccountingPeriod) : bool :=
  (FinanceAccountingPeriod.year r =? fst key) && (FinanceAccountingPeriod.month r =? snd key).
Definition locked_row (key : Z * Z) (r : FinanceAccountingPeriod) : bool :=
  in_period key r && (FinanceAccountingPeriod.status r ==? "locked").
Definition locked (d : FinanceDb) (key : Z * Z) : bool := existsb (locked_row key) (finance_accounting_periods d).

(** ** The unit of work: a session and what its pending writes touch *)
Record Work : Type := mk_Work {
  session : Session FinanceDb;
  touched : list date;
  integers : list Z
}.
#[export] Instance eta_Work : Eta Work := fun w => mk_Work (session w) (touched w) (integers w).
(** A request opens a session on the committed database. *)
Definition begin (d : FinanceDb) : Work := mk_Work (open_session d) [] [].

(** [r] becomes new, dirty or deleted: an assignment counts even when it keeps
    the value. *)
Definition touch {R} `{FinanceRow R} (r : R) (w : Work) : Work :=
  w <| touched ::= (fun l => l ++ opt_list (accounting_date r)) |> <| integers ::= (fun l => l ++ integer_columns r) |>.
Definition w_add {R} `{Keyed R, FinanceRow R} (T : FinanceDb -> list R) `{!Setter T} (r : R) (w : Work) : Work :=
  touch r (w <| session ::= add T r |>).
Definition w_put {R} `{Keyed R, FinanceRow R} (T : FinanceDb -> list R) `{!Setter T} (r : R) (w : Work) : Work :=
  touch r (w <| session ::= put T r |>).
(** Statements on the database itself, such as the cascades of its foreign keys. *)
Definition w_mem (f : FinanceDb -> FinanceDb) (w : Work) : Work :=
  w <| session ::= (fun s => mk_Session (sql s) (f (mem s))) |>.

Definition locked_detail (value : date) : string :=
  ("Accounting period " ++ period_label (period_key value) ++
   " is locked; financial records in that period are read-only")%string.
Definition int4 (z : Z) : bool := (-2147483648 <=? z) && (z <=? 2147483647).
(** [_guard_locked_finance_periods], then the SQL of the flush. *)
Definition w_flush (w : Work) : result Work :=
  match List.find (fun value => locked (sql (session w)) (period_key value)) (touched w) with
  | Some value => Err (HTTPException 409 (locked_detail value))
  | None =>
      ensure forallb int4 (integers w) else_raise DataError "integer out of range";
      let* _ := check_schema (mem (session w)) in
      Ok (mk_Work (flush (session w)) [] [])
  end.
Definition w_commit (w : Work) : result FinanceDb := let* w := w_flush w in Ok (sql (session w)).

(** [get_period], [period_is_locked], [ensure_period_open] *)
Definition get_period (w : Work) (value : date) : option FinanceAccountingPeriod :=
  scalar finance_accounting_periods (in_period (period_key value)) (session w).
Definition period_is_locked (w : Work) (value : date) : bool :=
  match get_period w value with Some row => FinanceAccountingPeriod.status row ==? "locked" | None => false end.
Definition ensure_period_open (w : Work) (value : date) (operation : string) : result unit :=
  ensure negb (period_is_locked w value)
    else_raise ValueError ("Accounting period " ++ period_label (period_key value) ++ " is locked; " ++
      operation ++ " is not allowed")%string;
  Ok tt.
Definition lock_period (now : time) (user_id : uuid) (note : string) (row : FinanceAccountingPeriod) : FinanceAccountingPeriod :=
  row <| FinanceAccountingPeriod.status := "locked" |> <| FinanceAccountingPeriod.note := strip note |>
      <| FinanceAccountingPeriod.locked_at := Some now |> <| FinanceAccountingPeriod.locked_by_user_id := Some user_id |>.
Definition reopen_period (note : string) (row : FinanceAccountingPeriod) : FinanceAccountingPeriod :=
  row <| FinanceAccountingPeriod.status := "open" |> <| FinanceAccountingPeriod.note := strip note |>
      <| FinanceAccountingPeriod.locked_at := None |> <| FinanceAccountingPeriod.locked_by_user_id := None |>.

(** ** [log_finance_action] *)
Definition finance_action (audit_id : uuid) (now : time) (actor_user_id : option uuid) (action resource_type : string)
    (resource_id : option string) (metadata : list (string * Json)) : AuditLog :=
  AuditLog.new_AuditLog audit_id now
    <| AuditLog.tenant_id := None |> <| AuditLog.actor_user_id := actor_user_id |> <| AuditLog.action := action |>
    <| AuditLog.resource_type := resource_type |> <| AuditLog.resource_id := resource_id |>
    <| AuditLog.metadata_json := Some (dumps false "," ":" (JObj metadata)) |>.
Definition log_finance_action (audit_id : uuid) (now : time) (actor_user_id : option uuid) (action resource_type : string)
    (resource_id : option string) (metadata : list (string * Json)) (w : Work) : Work :=
  w_add audits (finance_action audit_id now actor_user_id action resource_type resource_id metadata) w.
Definition finance_action_exists (w : Work) (action resource_type resource_id : string) : bool :=
  existsb (fun r => (AuditLog.action r ==? action) && (AuditLog.resource_type r ==? resource_type) &&
                    (AuditLog.resource_id r ==? Some resource_id)) (audits (sql (session w))).

(** ** Document numbers *)
Definition number_prefix (prefix : string) (now : time) : string :=
  let '(y, _, _) := civil_of (date_of_time now) in (prefix ++ "-" ++ str_of_Z y ++ "-")%string.
(** [s.rsplit("-", 1)[1]]; [None] where there is no dash. *)
Fixpoint after_last_dash (s : string) : option string :=
  match s with
  | EmptyString => None
  | String c rest =>
      match after_last_dash rest with
      | Some t => Some t
      | None => if ord c =? 45 then Some rest else None
      end
  end.
Definition sequence_after (latest : option string) : Z :=
  match latest with
  | None | Some EmptyString => 1
  | Some s => match after_last_dash s with
      | Some t => match int_of_str t with Some n => n + 1 | None => 1 end
      | None => 1
      end
  end.
(** [ORDER BY column DESC LIMIT 1] among the numbers with the year's prefix. *)
Definition latest_number (prefix : string) (numbers : list string) : option string :=
  head (sort_cmp (fun a b => String.compare b a)
    (List.filter (fun s => match after_prefix prefix s with Some _ => true | None => false end) numbers)).
Definition next_number (prefix : string) (now : time) (numbers : list string) : string :=
  let prefix := number_prefix prefix now in
  (prefix ++ zero_pad 4 (str_of_Z (sequence_after (latest_number prefix numbers))))%string.
Definition next_invoice_number (now : time) (w : Work) : string :=
  next_number "IM" now (map FinanceInvoice.invoice_number (finance_invoices (sql (session w)))).
Definition next_credit_number (now : time) (w : Work) : string :=
  next_number "CN" now (map FinanceCreditNote.credit_number (finance_credit_notes (sql (session w)))).
Definition next_document_number (now : time) (document_type : string) (w : Work) : string :=
  next_number (if document_type ==? "quotation" then "QT" else "PF") now
    (map FinanceDocument.document_number (finance_documents (sql (session w)))).

(** ** Texts *)
Definition nl : string := String (ascii_of_nat 10) EmptyString.

(** Digits in groups of three: [format(n, ",")] of [n >= 0]. *)
Fixpoint thousands (fuel : nat) (n : Z) : string :=
  match fuel with
  | O => EmptyString
  | S fuel =>
      if n <? 1000 then str_of_Z n
      else (thousands fuel (n / 1000) ++ "," ++ zero_pad 3 (str_of_Z (n mod 1000)))%string
  end.
(** [f"{x:,.2f}"] of a finite float *)
Definition format_2f (x : float) : string :=
  match x with
  | S754_nan => "nan"
  | S754_infinity s => if s then "-inf" else "inf"
  | _ =>
      let '(n, d) := to_ratio x in
      let k := div_half_even (Z.abs n * 100) d in
      let s := (thousands (S (Z.to_nat (Z.log2 (k / 100)))) (k / 100) ++ "." ++ zero_pad 2 (str_of_Z (k mod 100)))%string in
      match x with
      | S754_zero true | S754_finite true _ _ => String "-" s
      | _ => s
      end
  end.
Definition money (minor : Z) (currency : string) : string :=
  let prefix := if upper currency ==? "LSL" then "M" else upper currency in
  (prefix ++ " " ++ format_2f (of_ratio minor 100))%string.

Definition month_name (m : Z) : string :=
  match m with
  | 1 => "January" | 2 => "February" | 3 => "March" | 4 => "April" | 5 => "May" | 6 => "June" | 7 => "July"
  | 8 => "August" | 9 => "September" | 10 => "October" | 11 => "November" | _ => "December"
  end.
(** [strftime("%d %B %Y")] and [strftime("%B %Y")] *)
Definition long_date (value : date) : string :=
  let '(y, m, d) := civil_of value in (zero_pad 2 (str_of_Z d) ++ " " ++ month_name m ++ " " ++ str_of_Z y)%string.
Definition month_year (value : date) : string :=
  let '(y, m, _) := civil_of value in (month_name m ++ " " ++ str_of_Z y)%string.

Definition FINANCE_SENDER := "invoices@ithute.co.ls".
Definition BANK_NAME := "LPB".
Definition BANK_ACCOUNT_NAME := "Koetlisi Theko".
Definition BANK_ACCOUNT_NUMBER := "1035927000011".
Definition AUTHORISED_NAME := "Koetlisi Theko Mofoka".
Definition AUTHORISED_TITLE := "CEO, Ithute Digital Solutions".
Definition COMPANY_NAME := "Ithute Digital Solutions".
Definition MPESA_NUMBER := "59001394".
Definition MPESA_NAME := "Koetlisi Theko".

Definition build_default_subject (invoice_number client_name : string) : string :=
  ("Ithute Invoice " ++ invoice_number ++ " - " ++ client_name)%string.
Definition build_default_email_body (invoice_number client_name description : string) (total_minor : Z) (currency : string)
    (due_date : date) : string :=
  join EmptyString [
    "Dear "; client_name; ","; nl; nl;
    "Please find attached invoice "; invoice_number; " from "; COMPANY_NAME; " for "; description; "."; nl; nl;
    "Amount due: "; money total_minor currency; nl;
    "Due date: "; long_date due_date; nl; nl;
    "Payment details:"; nl;
    "Bank: "; BANK_NAME; nl;
    "Account Name: "; BANK_ACCOUNT_NAME; nl;
    "Account Number: "; BANK_ACCOUNT_NUMBER; nl;
    "M-Pesa: "; MPESA_NUMBER; " (Name: "; MPESA_NAME; ")"; nl;
    "Payment Reference: "; invoice_number; nl; nl;
    "Please use the invoice number as the payment reference. If you have any questions, ";
    "please reply to "; FINANCE_SENDER; "."; nl; nl;
    "Kind regards,"; nl; AUTHORISED_NAME; nl; AUTHORISED_TITLE; nl; COMPANY_NAME].

Example finance_texts :
  (money 123456789 "lsl", money (-5) "USD", money 0 "LSL", money 100000 "LSL", long_date 19782, month_year 19782)
  = ("M 1,234,567.89", "USD -0.05", "M 0.00", "M 1,000.00", "29 February 2024", "February 2024").
Proof. vm_compute. reflexivity. Qed.
Example finance_numbers :
  map (next_number "IM" 0) [[]; ["IM-1970-0001"; "IM-1970-0041"; "IM-1969-0300"]; ["IM-1970-x"; "IM-1970-0007"]]
  = ["IM-1970-0001"; "IM-1970-0042"; "IM-1970-0001"].
Proof. vm_compute. reflexivity. Qed.

(** * Flushes *)

(** What the ledger uses of the schema. *)
Record schema_ok (d : FinanceDb) : Prop := {
  so_invoices : NoDup (keys (finance_invoices d));
  so_items : NoDup (keys (finance_invoice_items d));
  so_payments : NoDup (keys (finance_payments d));
  so_credits : NoDup (keys (finance_credit_notes d));
  so_expenses : NoDup (keys (finance_expenses d));
  so_bank : NoDup (keys (finance_bank_transactions d));
  so_periods : NoDup (keys (finance_accounting_periods d));
  so_rates : NoDup (keys (finance_tax_rates d));
  so_refunds : NoDup (keys (finance_refunds d));
  so_schedules : NoDup (keys (finance_invoice_schedules d));
  so_documents : NoDup (keys (finance_documents d));
  so_settings : NoDup (keys (finance_governance_settings d));
  so_approvals : NoDup (keys (finance_approval_requests d));
  so_numbers : NoDup (map FinanceInvoice.invoice_number (finance_invoices d));
  so_period_keys : NoDup (map (fun r => (FinanceAccountingPeriod.year r, FinanceAccountingPeriod.month r))
                            (finance_accounting_periods d));
  so_resources : NoDup (map (fun r => (FinanceApprovalRequest.resource_type r, FinanceApprovalRequest.resource_id r))
                          (finance_approval_requests d));
  so_item_invoice : forall k, k ∈ map FinanceInvoiceItem.invoice_id (finance_invoice_items d) -> k ∈ keys (finance_invoices d);
  so_payment_invoice : forall k, k ∈ map FinancePayment.invoice_id (finance_payments d) -> k ∈ keys (finance_invoices d);
  so_credit_invoice : forall k, k ∈ map FinanceCreditNote.invoice_id (finance_credit_notes d) -> k ∈ keys (finance_invoices d);
  so_refund_invoice : forall k, k ∈ map FinanceRefund.invoice_id (finance_refunds d) -> k ∈ keys (finance_invoices d);
  so_refund_payment : forall k, k ∈ map FinanceRefund.payment_id (finance_refunds d) -> k ∈ keys (finance_payments d)
}.
Lemma check_schema_ok d u : check_schema d = Ok u -> schema_ok d.
Proof.
  unfold check_schema. intros H.
  repeat (apply rbind_ok in H as (? & ?%unique_column_ok & H)).
  repeat (apply rbind_ok in H as (? & ?Hk & H)). by constructor; eauto using foreign_key_ok.
Qed.

Lemma w_flush_ok w w' : w_flush w = Ok w' ->
  w' = mk_Work (flush (session w)) [] [] /\ schema_ok (mem (session w)) /\
  Forall (fun x => locked (sql (session w)) (period_key x) = false) (touched w) /\ Forall (fun z => int4 z = true) (integers w).
Proof.
  unfold w_flush. destruct (List.find _ _) eqn:E; [done|]. destruct (forallb _ _) eqn:Ei; [|done].
  intros H. apply rbind_ok in H as (u & Hs & [= <-]). split; [done|]. split; [by eapply check_schema_ok|]. split.
  - apply Forall_forall. intros x Hx. apply (List.find_none _ _ E x). by apply list_elem_of_In.
  - apply Forall_forall. intros x Hx. rewrite forallb_forall in Ei. apply Ei. by apply list_elem_of_In.
Qed.
Lemma w_commit_ok w d : w_commit w = Ok d ->
  d = mem (session w) /\ schema_ok d /\
  Forall (fun x => locked (sql (session w)) (period_key x) = false) (touched w) /\ Forall (fun z => int4 z = true) (integers w).
Proof.
  unfold w_commit. intros H. apply rbind_ok in H as (w' & (-> & Hs & Ht & Hi)%w_flush_ok & [= <-]). done.
Qed.
