(* ===== verification/FinanceLedger.v ===== *)
(** [app/services/finance_ledger.py] and the endpoints that post to the ledger:
    invoices and payments of [app/api/v1/finance.py] and [finance_ops.py],
    credit notes of [finance_documents.py], periods, tax and refunds of
    [finance_control.py], expenses, bank reconciliation and profit of
    [finance_accounting.py].

    An endpoint maps the committed database to its answer and the database it
    commits; an exception rolls the request back.  The answers are the rows;
    their rendering as JSON is left to [invoice_financial_out] and the like. *)
From S2P Require Import Prelude PyFloat Json Calendar Models Session Schema Sha256 Engines FinanceModels FinanceWork.
#[local] Open Scope string_scope.
#[local] Open Scope list_scope.
#[local] Open Scope Z_scope.

(** ** The ledger of an invoice *)
Definition payments_of (w : Work) (invoice_id : uuid) : list FinancePayment :=
  select finance_payments (fun p => FinancePayment.invoice_id p =? invoice_id) (session w).
Definition credit_notes_of (w : Work) (invoice_id : uuid) : list FinanceCreditNote :=
  select finance_credit_notes (fun c => FinanceCreditNote.invoice_id c =? invoice_id) (session w).
Definition items_of (w : Work) (invoice_id : uuid) : list FinanceInvoiceItem :=
  select_ordered finance_invoice_items (asc FinanceInvoiceItem.position)
    (fun i => FinanceInvoiceItem.invoice_id i =? invoice_id) (session w).

Definition payment_refunded_minor (w : Work) (row : FinancePayment) : Z :=
  sql_sum finance_refunds (fun r => FinanceRefund.payment_id r =? FinancePayment.id row) FinanceRefund.amount_minor (session w).
Definition refunded_minor (w : Work) (invoice : FinanceInvoice) : Z :=
  sql_sum finance_refunds (fun r => FinanceRefund.invoice_id r =? FinanceInvoice.id invoice) FinanceRefund.amount_minor (session w).
Definition gross_paid_minor (w : Work) (invoice : FinanceInvoice) : Z :=
  sum_by (fun p => Z.max 0 (FinancePayment.amount_minor p)) (payments_of w (FinanceInvoice.id invoice)).
Definition paid_minor (w : Work) (invoice : FinanceInvoice) : Z :=
  Z.max 0 (gross_paid_minor w invoice - refunded_minor w invoice).
Definition credited_minor (w : Work) (invoice : FinanceInvoice) : Z :=
  sum_by (fun n => Z.max 0 (FinanceCreditNote.amount_minor n)) (credit_notes_of w (FinanceInvoice.id invoice)).
Definition adjusted_total_minor (w : Work) (invoice : FinanceInvoice) : Z :=
  Z.max 0 (FinanceInvoice.total_minor invoice - credited_minor w invoice).

Definition effective_invoice_status (w : Work) (today : date) (invoice : FinanceInvoice) : string :=
  let paid := paid_minor w invoice in
  let adjusted := adjusted_total_minor w invoice in
  if FinanceInvoice.status invoice ==? "cancelled" then "cancelled"
  else if (adjusted =? 0) && (0 <? credited_minor w invoice) then "credited"
  else if (adjusted <=? paid) && (0 <? adjusted) then "paid"
  else if 0 <? paid then "partial"
  else if (FinanceInvoice.due_date invoice <? today) && (FinanceInvoice.status invoice notin? ["draft"; "failed"]) then "overdue"
  else FinanceInvoice.status invoice.

(** The amounts and the status of [invoice_financial_out]. *)
Record Financial : Type := {
  gross_paid : Z; refunded : Z; paid : Z; credited : Z; adjusted_total : Z; outstanding : Z; status : string }.
Definition invoice_financial_out (w : Work) (today : date) (invoice : FinanceInvoice) : Financial :=
  let adjusted := Z.max 0 (FinanceInvoice.total_minor invoice - credited_minor w invoice) in
  {| gross_paid := gross_paid_minor w invoice; refunded := refunded_minor w invoice; paid := paid_minor w invoice;
     credited := credited_minor w invoice; adjusted_total := adjusted;
     outstanding := Z.max 0 (adjusted - paid_minor w invoice); status := effective_invoice_status w today invoice |}.

(** [_settlement_totals]: SQL aggregates over the flushed rows. *)
Definition settlement_totals (w : Work) (invoice : FinanceInvoice) : Z * Z :=
  let i := FinanceInvoice.id invoice in
  let gross_paid := sql_sum finance_payments (fun p => FinancePayment.invoice_id p =? i) FinancePayment.amount_minor (session w) in
  let refunded := sql_sum finance_refunds (fun r => FinanceRefund.invoice_id r =? i) FinanceRefund.amount_minor (session w) in
  let credited := sql_sum finance_credit_notes (fun c => FinanceCreditNote.invoice_id c =? i) FinanceCreditNote.amount_minor (session w) in
  (Z.max 0 (gross_paid - refunded), credited).
(** The status [sync_invoice_payment_status] assigns, if it assigns one. *)
Definition synced_status (w : Work) (invoice : FinanceInvoice) : option string :=
  if FinanceInvoice.status invoice ==? "cancelled" then None
  else
    let '(paid, credited) := settlement_totals w invoice in
    let adjusted := Z.max 0 (FinanceInvoice.total_minor invoice - credited) in
    if (adjusted =? 0) && (0 <? credited) then Some "credited"
    else if (adjusted <=? paid) && (0 <? adjusted) then Some "paid"
    else if 0 <? paid then Some "partial"
    else if FinanceInvoice.sent_at invoice !=? None then Some "sent"
    else if FinanceInvoice.status invoice in? ["paid"; "partial"; "credited"] then Some "draft"
    else None.
Definition sync_invoice_payment_status (invoice : FinanceInvoice) (w : Work) : Work :=
  match synced_status w invoice with
  | Some status => w_put finance_invoices (invoice <| FinanceInvoice.status := status |>) w
  | None => w
  end.

(** ** Validated payloads *)
Definition within (lo hi : Z) (s : string) : bool :=
  let n := Z.of_nat (String.length s) in (lo <=? n) && (n <=? hi).
Definition in_range (lo hi z : Z) : bool := (lo <=? z) && (z <=? hi).

Module FinanceInvoiceCreate.
Record FinanceInvoiceCreate : Type := mk {
  client_id : option uuid;
  client_name : string;
  recipient_email : string;
  client_address : string;
  description : string;
  details : string;
  service_period : string;
  quantity : Z;
  rate_minor : Z;
  tax_minor : Z;
  currency : string;
  due_date : date;
  email_subject : option string;
  email_body : option string
}.
End FinanceInvoiceCreate.
Notation FinanceInvoiceCreate := FinanceInvoiceCreate.FinanceInvoiceCreate.
Definition valid_invoice (p : FinanceInvoiceCreate) : bool :=
  within 2 180 (FinanceInvoiceCreate.client_name p) && within 0 500 (FinanceInvoiceCreate.client_address p) &&
  within 2 500 (FinanceInvoiceCreate.description p) && within 0 1200 (FinanceInvoiceCreate.details p) &&
  within 0 160 (FinanceInvoiceCreate.service_period p) && in_range 1 10000 (FinanceInvoiceCreate.quantity p) &&
  in_range 0 2000000000 (FinanceInvoiceCreate.rate_minor p) && in_range 0 2000000000 (FinanceInvoiceCreate.tax_minor p) &&
  within 3 3 (FinanceInvoiceCreate.currency p) && within 0 300 (opt_str (FinanceInvoiceCreate.email_subject p)) &&
  within 0 10000 (opt_str (FinanceInvoiceCreate.email_body p)).

Module FinancePaymentCreate.
Record FinancePaymentCreate : Type := mk {
  amount_minor : Z;
  payment_date : date;
  method : string;
  reference : string;
  note : string
}.
End FinancePaymentCreate.
Notation FinancePaymentCreate := FinancePaymentCreate.FinancePaymentCreate.
Definition valid_payment (p : FinancePaymentCreate) : bool :=
  in_range 1 2000000000 (FinancePaymentCreate.amount_minor p) && within 2 80 (FinancePaymentCreate.method p) &&
  within 0 180 (FinancePaymentCreate.reference p) && within 0 1000 (FinancePaymentCreate.note p).

Module RefundCreate.
Record RefundCreate : Type := mk {
  payment_id : uuid;
  amount_minor : Z;
  refund_date : date;
  method : string;
  reference : string;
  reason : string
}.
End RefundCreate.
Notation RefundCreate := RefundCreate.RefundCreate.
Definition valid_refund (p : RefundCreate) : bool :=
  in_range 1 2000000000 (RefundCreate.amount_minor p) && within 2 80 (RefundCreate.method p) &&
  within 0 180 (RefundCreate.reference p) && within 2 1000 (RefundCreate.reason p).
Definition valid_credit (amount_minor : Z) (reason : string) : bool :=
  in_range 1 2000000000 amount_minor && within 2 1000 reason.
Definition validation_error : exn := HTTPException 422 "validation error".

(** ** Invoices *)

(** [_invoice] *)
Definition load_invoice (w : Work) (invoice_id : uuid) : result FinanceInvoice :=
  match scalar finance_invoices (fun r => FinanceInvoice.id r =? invoice_id) (session w) with
  | Some row => Ok row
  | None => Err (HTTPException 404 "Invoice not found")
  end.
(** [_client] *)
Definition check_client (w : Work) (client_id : option uuid) : result unit :=
  match client_id with
  | None => Ok tt
  | Some k => match get finance_clients k (session w) with
      | Some _ => Ok tt
      | None => Err (HTTPException 404 "Finance client not found")
      end
  end.

Definition invoice_row (new_id : uuid) (now : time) (current : uuid) (invoice_number : string) (p : FinanceInvoiceCreate)
    : FinanceInvoice :=
  let currency := upper (strip (FinanceInvoiceCreate.currency p)) in
  let client_name := strip (FinanceInvoiceCreate.client_name p) in
  let description := strip (FinanceInvoiceCreate.description p) in
  let subtotal_minor := FinanceInvoiceCreate.quantity p * FinanceInvoiceCreate.rate_minor p in
  let total_minor := subtotal_minor + FinanceInvoiceCreate.tax_minor p in
  FinanceInvoice.new_FinanceInvoice new_id now
    <| FinanceInvoice.invoice_number := invoice_number |> <| FinanceInvoice.client_id := FinanceInvoiceCreate.client_id p |>
    <| FinanceInvoice.client_name := client_name |>
    <| FinanceInvoice.recipient_email := lower (FinanceInvoiceCreate.recipient_email p) |>
    <| FinanceInvoice.client_address := strip (FinanceInvoiceCreate.client_address p) |>
    <| FinanceInvoice.description := description |> <| FinanceInvoice.details := strip (FinanceInvoiceCreate.details p) |>
    <| FinanceInvoice.service_period := strip (FinanceInvoiceCreate.service_period p) |>
    <| FinanceInvoice.quantity := FinanceInvoiceCreate.quantity p |>
    <| FinanceInvoice.rate_minor := FinanceInvoiceCreate.rate_minor p |>
    <| FinanceInvoice.tax_minor := FinanceInvoiceCreate.tax_minor p |>
    <| FinanceInvoice.subtotal_minor := subtotal_minor |> <| FinanceInvoice.total_minor := total_minor |>
    <| FinanceInvoice.currency := currency |> <| FinanceInvoice.due_date := FinanceInvoiceCreate.due_date p |>
    <| FinanceInvoice.status := "draft" |>
    <| FinanceInvoice.email_subject := str_or (strip (opt_str (FinanceInvoiceCreate.email_subject p)))
         (build_default_subject invoice_number client_name) |>
    <| FinanceInvoice.email_body := str_or (strip (opt_str (FinanceInvoiceCreate.email_body p)))
         (build_default_email_body invoice_number client_name description total_minor currency
            (FinanceInvoiceCreate.due_date p)) |>
    <| FinanceInvoice.created_by_user_id := Some current |>.
Definition invoice_item (item_id : uuid) (now : time) (invoice_id : uuid) (position : Z) (description details : string)
    (quantity rate_minor tax_minor : Z) : FinanceInvoiceItem :=
  FinanceInvoiceItem.new_FinanceInvoiceItem item_id now
    <| FinanceInvoiceItem.invoice_id := invoice_id |> <| FinanceInvoiceItem.position := position |>
    <| FinanceInvoiceItem.description := description |> <| FinanceInvoiceItem.details := details |>
    <| FinanceInvoiceItem.quantity := quantity |> <| FinanceInvoiceItem.rate_minor := rate_minor |>
    <| FinanceInvoiceItem.tax_minor := tax_minor |>.
(** [except IntegrityError: raise HTTPException(409, message)] *)
Definition on_integrity {A} (message : string) (r : result A) : result A :=
  match r with Err (IntegrityError _) => Err (HTTPException 409 message) | _ => r end.

Definition create_finance_invoice (d : FinanceDb) (new_id item_id : uuid) (now : time) (current : uuid)
    (p : FinanceInvoiceCreate) : result (FinanceInvoice * FinanceDb) :=
  ensure valid_invoice p else_raise validation_error;
  ensure upper (strip (FinanceInvoiceCreate.currency p)) ==? "LSL"
    else_raise HTTPException 422 "Finance invoices currently use LSL";
  let w := begin d in
  let* _ := check_client w (FinanceInvoiceCreate.client_id p) in
  let invoice := invoice_row new_id now current (next_invoice_number now w) p in
  let w := w_add finance_invoices invoice w in
  on_integrity "Invoice number collision; please create the invoice again" (
    let* w := w_flush w in
    let item := invoice_item item_id now new_id 1 (FinanceInvoice.description invoice) (FinanceInvoice.details invoice)
      (FinanceInvoice.quantity invoice) (FinanceInvoice.rate_minor invoice) (FinanceInvoice.tax_minor invoice) in
    let* d := w_commit (w_add finance_invoice_items item w) in
    Ok (invoice, d)).

(** [edit_draft_invoice] of [finance_ops.py]; [InvoiceEdit] has the fields of a
    creation without client and currency. *)
Definition edited_invoice (p : FinanceInvoiceCreate) (invoice : FinanceInvoice) : FinanceInvoice :=
  let subtotal := FinanceInvoiceCreate.quantity p * FinanceInvoiceCreate.rate_minor p in
  let total := subtotal + FinanceInvoiceCreate.tax_minor p in
  let client_name := strip (FinanceInvoiceCreate.client_name p) in
  let description := strip (FinanceInvoiceCreate.description p) in
  invoice
    <| FinanceInvoice.client_name := client_name |>
    <| FinanceInvoice.recipient_email := lower (FinanceInvoiceCreate.recipient_email p) |>
    <| FinanceInvoice.client_address := strip (FinanceInvoiceCreate.client_address p) |>
    <| FinanceInvoice.description := description |> <| FinanceInvoice.details := strip (FinanceInvoiceCreate.details p) |>
    <| FinanceInvoice.service_period := strip (FinanceInvoiceCreate.service_period p) |>
    <| FinanceInvoice.quantity := FinanceInvoiceCreate.quantity p |>
    <| FinanceInvoice.rate_minor := FinanceInvoiceCreate.rate_minor p |>
    <| FinanceInvoice.tax_minor := FinanceInvoiceCreate.tax_minor p |>
    <| FinanceInvoice.subtotal_minor := subtotal |> <| FinanceInvoice.total_minor := total |>
    <| FinanceInvoice.due_date := FinanceInvoiceCreate.due_date p |>
    <| FinanceInvoice.email_subject := str_or (strip (opt_str (FinanceInvoiceCreate.email_subject p)))
         (build_default_subject (FinanceInvoice.invoice_number invoice) client_name) |>
    <| FinanceInvoice.email_body := str_or (strip (opt_str (FinanceInvoiceCreate.email_body p)))
         (build_default_email_body (FinanceInvoice.invoice_number invoice) client_name description total
            (FinanceInvoice.currency invoice) (FinanceInvoiceCreate.due_date p)) |>
    <| FinanceInvoice.status := "draft" |> <| FinanceInvoice.last_error := None |>.
Definition edited_item (invoice : FinanceInvoice) (item : FinanceInvoiceItem) : FinanceInvoiceItem :=
  item <| FinanceInvoiceItem.position := 1 |>
    <| FinanceInvoiceItem.description := FinanceInvoice.description invoice |>
    <| FinanceInvoiceItem.details := FinanceInvoice.details invoice |>
    <| FinanceInvoiceItem.quantity := FinanceInvoice.quantity invoice |>
    <| FinanceInvoiceItem.rate_minor := FinanceInvoice.rate_minor invoice |>
    <| FinanceInvoiceItem.tax_minor := FinanceInvoice.tax_minor invoice |>.
Definition edit_draft_invoice (d : FinanceDb) (item_id audit_id : uuid) (now : time) (current invoice_id : uuid)
    (p : FinanceInvoiceCreate) : result (FinanceInvoice * FinanceDb) :=
  ensure valid_invoice p else_raise validation_error;
  let w := begin d in
  let* invoice := load_invoice w invoice_id in
  ensure (FinanceInvoice.sent_at invoice ==? None) && (FinanceInvoice.status invoice in? ["draft"; "failed"])
    else_raise HTTPException 409 "Sent or financially active invoices are locked. Use a credit note or replacement invoice instead.";
  ensure (zlen (payments_of w invoice_id) =? 0) && (zlen (credit_notes_of w invoice_id) =? 0)
    else_raise HTTPException 409 "Invoices with payments or credit notes are locked";
  ensure zlen (items_of w invoice_id) <=? 1
    else_raise HTTPException 409 "Multi-item converted invoices are locked; edit the source quotation/pro-forma before conversion";
  let invoice := edited_invoice p invoice in
  let w' := w_put finance_invoices invoice w in
  let w' := match items_of w invoice_id with
    | item :: _ => w_put finance_invoice_items (edited_item invoice item) w'
    | [] => w_add finance_invoice_items (edited_item invoice
              (invoice_item item_id now invoice_id 1 EmptyString EmptyString 0 0 0)) w'
    end in
  let* d := w_commit (log_finance_action audit_id now (Some current) "finance.invoice.edited" "finance_invoice"
    (Some (str_of_uuid invoice_id))
    [("invoice_number", JStr (FinanceInvoice.invoice_number invoice)); ("total_minor", JInt (FinanceInvoice.total_minor invoice));
     ("due_date", JStr (isoformat (FinanceInvoice.due_date invoice)))] w') in
  Ok (invoice, d).

(** The rows the deletion of an invoice or a payment takes along: the loaded
    collections through the session, the rest through the foreign keys. *)
Definition delete_invoice_rows (invoice_id : uuid) (d : FinanceDb) : FinanceDb :=
  let gone p := (FinancePayment.invoice_id p =? invoice_id) in
  let gone_payment k := existsb (fun p => gone p && (FinancePayment.id p =? k)) (finance_payments d) in
  d <| finance_invoices ::= List.filter (fun r => negb (FinanceInvoice.id r =? invoice_id)) |>
    <| finance_invoice_items ::= List.filter (fun r => negb (FinanceInvoiceItem.invoice_id r =? invoice_id)) |>
    <| finance_payments ::= List.filter (fun r => negb (gone r)) |>
    <| finance_credit_notes ::= List.filter (fun r => negb (FinanceCreditNote.invoice_id r =? invoice_id)) |>
    <| finance_refunds ::= List.filter (fun r =>
         negb (FinanceRefund.invoice_id r =? invoice_id) && negb (gone_payment (FinanceRefund.payment_id r))) |>
    <| finance_delivery_events ::= List.filter (fun r => negb (FinanceDeliveryEvent.invoice_id r =? invoice_id)) |>
    <| finance_documents ::= map (fun r =>
         if FinanceDocument.converted_invoice_id r ==? Some invoice_id
         then r <| FinanceDocument.converted_invoice_id := None |> else r) |>
    <| finance_bank_transactions ::= map (fun r =>
         let r := if FinanceBankTransaction.matched_invoice_id r ==? Some invoice_id
           then r <| FinanceBankTransaction.matched_invoice_id := None |> else r in
         match FinanceBankTransaction.matched_payment_id r with
         | Some k => if gone_payment k then r <| FinanceBankTransaction.matched_payment_id := None |> else r
         | None => r
         end) |>.
Definition delete_payment_rows (payment_id : uuid) (d : FinanceDb) : FinanceDb :=
  d <| finance_payments ::= List.filter (fun r => negb (FinancePayment.id r =? payment_id)) |>
    <| finance_refunds ::= List.filter (fun r => negb (FinanceRefund.payment_id r =? payment_id)) |>
    <| finance_bank_transactions ::= map (fun r =>
         if FinanceBankTransaction.matched_payment_id r ==? Some payment_id
         then r <| FinanceBankTransaction.matched_payment_id := None |> else r) |>.

Definition touch_all {R} `{FinanceRow R} (rows : list R) (w : Work) : Work := fold_left (fun w r => touch r w) rows w.
Definition delete_finance_invoice (d : FinanceDb) (invoice_id : uuid) : result FinanceDb :=
  let w := begin d in
  let* invoice := load_invoice w invoice_id in
  let w' := touch_all (credit_notes_of w invoice_id) (touch_all (payments_of w invoice_id) (touch invoice w)) in
  w_commit (w_mem (delete_invoice_rows invoice_id) w').

Definition cancel_finance_invoice (d : FinanceDb) (now : time) (invoice_id : uuid) : result (FinanceInvoice * FinanceDb) :=
  let w := begin d in
  let* invoice := load_invoice w invoice_id in
  ensure FinanceInvoice.status invoice notin? ["paid"; "credited"]
    else_raise HTTPException 409 "A settled invoice cannot be cancelled; use the credit-note record and audit trail instead";
  let invoice := invoice <| FinanceInvoice.status := "cancelled" |> <| FinanceInvoice.cancelled_at := Some now |> in
  let* d := w_commit (w_put finance_invoices invoice w) in
  Ok (invoice, d).

(** ** Payments *)
Definition payment_row (new_id : uuid) (now : time) (current invoice_id : uuid) (p : FinancePaymentCreate) : FinancePayment :=
  FinancePayment.new_FinancePayment new_id now
    <| FinancePayment.invoice_id := invoice_id |> <| FinancePayment.amount_minor := FinancePaymentCreate.amount_minor p |>
    <| FinancePayment.payment_date := FinancePaymentCreate.payment_date p |>
    <| FinancePayment.method := lower (strip (FinancePaymentCreate.method p)) |>
    <| FinancePayment.reference := strip (FinancePaymentCreate.reference p) |>
    <| FinancePayment.note := strip (FinancePaymentCreate.note p) |>
    <| FinancePayment.recorded_by_user_id := Some current |>.
Definition record_invoice_payment (d : FinanceDb) (new_id : uuid) (now : time) (current invoice_id : uuid)
    (p : FinancePaymentCreate) : result (FinancePayment * FinanceDb) :=
  ensure valid_payment p else_raise validation_error;
  let w := begin d in
  let* invoice := load_invoice w invoice_id in
  ensure FinanceInvoice.status invoice !=? "cancelled"
    else_raise HTTPException 409 "Cannot record a payment against a cancelled invoice";
  let already_paid := sum_by FinancePayment.amount_minor (payments_of w invoice_id) in
  let outstanding := Z.max 0 (adjusted_total_minor w invoice - already_paid) in
  ensure 0 <? outstanding else_raise HTTPException 409 "Invoice is already fully settled";
  ensure FinancePaymentCreate.amount_minor p <=? outstanding
    else_raise HTTPException 422 ("Payment exceeds outstanding balance of " ++ str_of_Z outstanding ++ " minor units")%string;
  let payment := payment_row new_id now current invoice_id p in
  let* w := w_flush (w_add finance_payments payment w) in
  let* d := w_commit (sync_invoice_payment_status invoice w) in
  Ok (payment, d).

Definition delete_finance_payment (d : FinanceDb) (payment_id : uuid) : result FinanceDb :=
  let w := begin d in
  match get finance_payments payment_id (session w) with
  | None => Err (HTTPException 404 "Payment not found")
  | Some payment =>
      let* w := w_flush (w_mem (delete_payment_rows payment_id) (touch payment w)) in
      let* invoice := load_invoice w (FinancePayment.invoice_id payment) in
      w_commit (sync_invoice_payment_status invoice w)
  end.

(** ** Credit notes and refunds *)
Definition credit_row (new_id : uuid) (now : time) (current invoice_id : uuid) (credit_number : string) (amount_minor : Z)
    (reason : string) : FinanceCreditNote :=
  FinanceCreditNote.new_FinanceCreditNote new_id now
    <| FinanceCreditNote.credit_number := credit_number |> <| FinanceCreditNote.invoice_id := invoice_id |>
    <| FinanceCreditNote.amount_minor := amount_minor |> <| FinanceCreditNote.reason := strip reason |>
    <| FinanceCreditNote.created_by_user_id := Some current |>.
Definition create_credit_note (d : FinanceDb) (new_id : uuid) (now : time) (current invoice_id : uuid) (amount_minor : Z)
    (reason : string) : result (FinanceCreditNote * FinanceDb) :=
  ensure valid_credit amount_minor reason else_raise validation_error;
  let w := begin d in
  let* invoice := load_invoice w invoice_id in
  ensure FinanceInvoice.status invoice !=? "cancelled"
    else_raise HTTPException 409 "Cannot issue a credit note against a cancelled invoice";
  let credited := sum_by FinanceCreditNote.amount_minor (credit_notes_of w invoice_id) in
  let remaining_creditable := Z.max 0 (FinanceInvoice.total_minor invoice - credited) in
  ensure amount_minor <=? remaining_creditable
    else_raise HTTPException 422 "Credit amount cannot exceed the uncredited invoice total";
  let row := credit_row new_id now current invoice_id (next_credit_number now w) amount_minor reason in
  let* w := w_flush (w_add finance_credit_notes row w) in
  let* d := w_commit (sync_invoice_payment_status invoice w) in
  Ok (row, d).

Definition refund_row (new_id : uuid) (now : time) (current : uuid) (payment : FinancePayment) (p : RefundCreate) : FinanceRefund :=
  FinanceRefund.new_FinanceRefund new_id now
    <| FinanceRefund.invoice_id := FinancePayment.invoice_id payment |> <| FinanceRefund.payment_id := FinancePayment.id payment |>
    <| FinanceRefund.amount_minor := RefundCreate.amount_minor p |> <| FinanceRefund.refund_date := RefundCreate.refund_date p |>
    <| FinanceRefund.method := lower (strip (RefundCreate.method p)) |>
    <| FinanceRefund.reference := strip (RefundCreate.reference p) |> <| FinanceRefund.reason := strip (RefundCreate.reason p) |>
    <| FinanceRefund.created_by_user_id := Some current |>.
(** [except ValueError: raise HTTPException(409, ..)] *)
Definition value_error_409 {A} (r : result A) : result A :=
  match r with Err (ValueError m) => Err (HTTPException 409 m) | _ => r end.
Definition create_refund (d : FinanceDb) (new_id audit_id : uuid) (now : time) (current : uuid) (p : RefundCreate)
    : result (FinanceRefund * FinanceDb) :=
  ensure valid_refund p else_raise validation_error;
  let w := begin d in
  match get finance_payments (RefundCreate.payment_id p) (session w) with
  | None => Err (HTTPException 404 "Payment not found")
  | Some payment =>
      let* _ := value_error_409 (ensure_period_open w (RefundCreate.refund_date p) "recording a refund") in
      let already_refunded := payment_refunded_minor w payment in
      let available := Z.max 0 (FinancePayment.amount_minor payment - already_refunded) in
      ensure RefundCreate.amount_minor p <=? available
        else_raise HTTPException 422
          ("Refund exceeds refundable payment balance of " ++ str_of_Z available ++ " minor units")%string;
      let row := refund_row new_id now current payment p in
      let* w := w_flush (w_add finance_refunds row w) in
      let* invoice := load_invoice w (FinancePayment.invoice_id payment) in
      let w := sync_invoice_payment_status invoice w in
      let* d := w_commit (log_finance_action audit_id now (Some current) "finance.refund.processed" "finance_invoice"
        (Some (str_of_uuid (FinanceInvoice.id invoice)))
        [("payment_id", JStr (str_of_uuid (FinancePayment.id payment))); ("refund_id", JStr (str_of_uuid new_id));
         ("amount_minor", JInt (FinanceRefund.amount_minor row)); ("reason", JStr (FinanceRefund.reason row))] w) in
      Ok (row, d)
  end.

(** ** Accounting periods *)
Definition period_row (new_id : uuid) (now : time) (year month : Z) : FinanceAccountingPeriod :=
  FinanceAccountingPeriod.new_FinanceAccountingPeriod new_id now
    <| FinanceAccountingPeriod.year := year |> <| FinanceAccountingPeriod.month := month |>
    <| FinanceAccountingPeriod.status := "open" |>.
Definition period_of (w : Work) (year month : Z) : option FinanceAccountingPeriod :=
  scalar finance_accounting_periods (in_period (year, month)) (session w).
Definition period_action (audit_id : uuid) (now : time) (current : uuid) (action : string) (year month : Z) (note : string)
    (row : FinanceAccountingPeriod) (w : Work) : Work :=
  log_finance_action audit_id now (Some current) action "finance_accounting_period"
    (Some (str_of_uuid (FinanceAccountingPeriod.id row)))
    [("period", JStr (period_label (year, month))); ("note", JStr note)] w.
Definition close_period (d : FinanceDb) (new_id audit_id : uuid) (now : time) (current : uuid) (year month : Z) (note : string)
    : result (FinanceAccountingPeriod * FinanceDb) :=
  ensure within 0 1000 note else_raise validation_error;
  ensure in_range 2000 2100 year && in_range 1 12 month else_raise HTTPException 422 "Invalid accounting period";
  let w := begin d in
  let* (row, w) :=
    match period_of w year month with
    | Some row => Ok (row, w)
    | None => let row := period_row new_id now year month in
        let* w := w_flush (w_add finance_accounting_periods row w) in Ok (row, w)
    end in
  if FinanceAccountingPeriod.status row ==? "locked" then Ok (row, d)
  else
    let row := lock_period now current note row in
    let w := w_put finance_accounting_periods row w in
    let* d := w_commit (period_action audit_id now current "finance.period.locked" year month note row w) in
    Ok (row, d).
Definition open_period (d : FinanceDb) (audit_id : uuid) (now : time) (current : uuid) (year month : Z) (note : string)
    : result (FinanceAccountingPeriod * FinanceDb) :=
  ensure within 0 1000 note else_raise validation_error;
  let w := begin d in
  match period_of w year month with
  | None => Err (HTTPException 404 "Accounting period not found")
  | Some row =>
      let row := reopen_period note row in
      let w := w_put finance_accounting_periods row w in
      let* d := w_commit (period_action audit_id now current "finance.period.reopened" year month note row w) in
      Ok (row, d)
  end.

(** ** Tax *)
Definition tax_rate_row (new_id : uuid) (now : time) (current : uuid) (name : string) (rate_percent : float)
    (inclusive active : bool) (effective_from effective_to : option date) : FinanceTaxRate :=
  FinanceTaxRate.new_FinanceTaxRate new_id now
    <| FinanceTaxRate.name := strip name |>
    <| FinanceTaxRate.rate_basis_points := round_int (fmul rate_percent (of_Z 100)) |>
    <| FinanceTaxRate.inclusive := inclusive |> <| FinanceTaxRate.active := active |>
    <| FinanceTaxRate.effective_from := effective_from |> <| FinanceTaxRate.effective_to := effective_to |>
    <| FinanceTaxRate.created_by_user_id := Some current |>.
Definition create_tax_rate (d : FinanceDb) (new_id : uuid) (now : time) (current : uuid) (name : string) (rate_percent : float)
    (inclusive active : bool) (effective_from effective_to : option date) : result (FinanceTaxRate * FinanceDb) :=
  ensure within 1 120 name && fle fzero rate_percent && fle rate_percent (of_Z 100) else_raise validation_error;
  ensure match effective_from, effective_to with Some a, Some b => a <=? b | _, _ => true end
    else_raise HTTPException 422 "Tax effective-to date must be on or after effective-from date";
  let row := tax_rate_row new_id now current name rate_percent inclusive active effective_from effective_to in
  let* d := on_integrity "A tax rate with that name already exists" (w_commit (w_add finance_tax_rates row (begin d))) in
  Ok (row, d).

Record Tax : Type := { net_minor : Z; tax_minor : Z; total_minor : Z }.
(** [round(a / b)]: one rounding of the quotient to a float, one to an integer. *)
Definition round_ratio (a b : Z) : Z := round_int (of_ratio a b).
Definition tax_of (inclusive : bool) (rate_basis_points subtotal_minor : Z) : Tax :=
  if inclusive then
    let tax := if rate_basis_points =? 0 then 0
      else round_ratio (subtotal_minor * rate_basis_points) (10000 + rate_basis_points) in
    {| net_minor := subtotal_minor - tax; tax_minor := tax; total_minor := subtotal_minor |}
  else
    let tax := round_ratio (subtotal_minor * rate_basis_points) 10000 in
    {| net_minor := subtotal_minor; tax_minor := tax; total_minor := subtotal_minor + tax |}.
Definition calculate_tax (d : FinanceDb) (tax_rate_id : uuid) (subtotal_minor : Z) : result Tax :=
  ensure in_range 0 2000000000 subtotal_minor else_raise validation_error;
  match get finance_tax_rates tax_rate_id (open_session d) with
  | Some row =>
      ensure FinanceTaxRate.active row else_raise HTTPException 404 "Active tax rate not found";
      Ok (tax_of (FinanceTaxRate.inclusive row) (FinanceTaxRate.rate_basis_points row) subtotal_minor)
  | None => Err (HTTPException 404 "Active tax rate not found")
  end.

(** ** Expenses *)
Module ExpenseCreate.
Record ExpenseCreate : Type := mk {
  expense_date : date;
  vendor : string;
  category : string;
  description : string;
  amount_minor : Z;
  tax_minor : Z;
  payment_method : string;
  reference : string;
  recurring : bool
}.
End ExpenseCreate.
Notation ExpenseCreate := ExpenseCreate.ExpenseCreate.
Definition valid_expense (p : ExpenseCreate) : bool :=
  within 1 180 (ExpenseCreate.vendor p) && within 1 120 (ExpenseCreate.category p) &&
  within 0 1000 (ExpenseCreate.description p) && (0 <=? ExpenseCreate.amount_minor p) &&
  (0 <=? ExpenseCreate.tax_minor p) && within 0 80 (ExpenseCreate.payment_method p) &&
  within 0 180 (ExpenseCreate.reference p).
Definition expense_row (new_id : uuid) (now : time) (current : uuid) (p : ExpenseCreate) : FinanceExpense :=
  FinanceExpense.new_FinanceExpense new_id now
    <| FinanceExpense.expense_date := ExpenseCreate.expense_date p |> <| FinanceExpense.vendor := ExpenseCreate.vendor p |>
    <| FinanceExpense.category := ExpenseCreate.category p |> <| FinanceExpense.description := ExpenseCreate.description p |>
    <| FinanceExpense.amount_minor := ExpenseCreate.amount_minor p |> <| FinanceExpense.tax_minor := ExpenseCreate.tax_minor p |>
    <| FinanceExpense.payment_method := ExpenseCreate.payment_method p |>
    <| FinanceExpense.reference := ExpenseCreate.reference p |> <| FinanceExpense.recurring := ExpenseCreate.recurring p |>
    <| FinanceExpense.created_by_user_id := Some current |>.
Definition create_expense (d : FinanceDb) (new_id audit_id : uuid) (now : time) (current : uuid) (p : ExpenseCreate)
    : result (FinanceExpense * FinanceDb) :=
  ensure valid_expense p else_raise validation_error;
  let row := expense_row new_id now current p in
  let* w := w_flush (w_add finance_expenses row (begin d)) in
  let* d := w_commit (log_finance_action audit_id now (Some current) "finance.expense.created" "finance_expense"
    (Some (str_of_uuid new_id))
    [("amount_minor", JInt (FinanceExpense.amount_minor row)); ("vendor", JStr (FinanceExpense.vendor row))] w) in
  Ok (row, d).
Definition void_expense (d : FinanceDb) (audit_id : uuid) (now : time) (current expense_id : uuid)
    : result (FinanceExpense * FinanceDb) :=
  let w := begin d in
  match get finance_expenses expense_id (session w) with
  | None => Err (HTTPException 404 "Expense not found")
  | Some row =>
      let row := row <| FinanceExpense.status := "void" |> in
      let* d := w_commit (log_finance_action audit_id now (Some current) "finance.expense.voided" "finance_expense"
        (Some (str_of_uuid expense_id)) [] (w_put finance_expenses row w)) in
      Ok (row, d)
  end.

(** ** Bank transactions *)
Module BankRow.
Record BankRow : Type := mk {
  transaction_date : date;
  amount_minor : Z;
  description : string;
  reference : string
}.
End BankRow.
Notation BankRow := BankRow.BankRow.
Definition valid_bank_row (p : BankRow) : bool :=
  within 0 1000 (BankRow.description p) && within 0 255 (BankRow.reference p).
Definition bank_fingerprint (source_name : string) (p : BankRow) : string :=
  python_sha256 (bytes_of (join "|" [source_name; isoformat (BankRow.transaction_date p); str_of_Z (BankRow.amount_minor p);
    strip (BankRow.reference p); strip (BankRow.description p)])).
Definition bank_row (new_id : uuid) (now : time) (current : uuid) (source_name import_batch : string) (p : BankRow)
    : FinanceBankTransaction :=
  FinanceBankTransaction.new_FinanceBankTransaction new_id now
    <| FinanceBankTransaction.transaction_date := BankRow.transaction_date p |>
    <| FinanceBankTransaction.amount_minor := BankRow.amount_minor p |>
    <| FinanceBankTransaction.description := strip (BankRow.description p) |>
    <| FinanceBankTransaction.reference := strip (BankRow.reference p) |>
    <| FinanceBankTransaction.source_name := str_or (strip source_name) "LPB" |>
    <| FinanceBankTransaction.import_batch := str_or (strip import_batch) "manual" |>
    <| FinanceBankTransaction.fingerprint := bank_fingerprint source_name p |>
    <| FinanceBankTransaction.created_by_user_id := Some current |>.
(** The loop: the query sees flushed rows only. *)
Definition import_row (now : time) (current : uuid) (source_name import_batch : string)
    (acc : Work * Z * Z) (item : uuid * BankRow) : Work * Z * Z :=
  let '(w, imported, duplicates) := acc in
  let fingerprint := bank_fingerprint source_name (snd item) in
  match scalar finance_bank_transactions (fun r => FinanceBankTransaction.fingerprint r ==? fingerprint) (session w) with
  | Some _ => (w, imported, duplicates + 1)
  | None => (w_add finance_bank_transactions (bank_row (fst item) now current source_name import_batch (snd item)) w,
             imported + 1, duplicates)
  end.
Definition import_bank_rows (d : FinanceDb) (audit_id : uuid) (now : time) (current : uuid) (source_name import_batch : string)
    (rows : list (uuid * BankRow)) : result (Z * Z * FinanceDb) :=
  ensure within 0 120 source_name && within 0 120 import_batch && in_range 1 5000 (zlen rows) &&
         forallb (fun r => valid_bank_row (snd r)) rows else_raise validation_error;
  let '(w, imported, duplicates) := fold_left (import_row now current source_name import_batch) rows (begin d, 0, 0) in
  let* d := w_commit (log_finance_action audit_id now (Some current) "finance.bank.imported" "finance_bank_import"
    (Some import_batch) [("imported", JInt imported); ("duplicates", JInt duplicates); ("source_name", JStr source_name)] w) in
  Ok (imported, duplicates, d).

Definition reconciled_payment (new_id : uuid) (now : time) (current invoice_id : uuid) (amount : Z)
    (row : FinanceBankTransaction) : FinancePayment :=
  FinancePayment.new_FinancePayment new_id now
    <| FinancePayment.invoice_id := invoice_id |> <| FinancePayment.amount_minor := amount |>
    <| FinancePayment.payment_date := FinanceBankTransaction.transaction_date row |>
    <| FinancePayment.method := "bank_transfer" |>
    <| FinancePayment.reference := str_or (FinanceBankTransaction.reference row)
         (str_take 180 (FinanceBankTransaction.description row)) |>
    <| FinancePayment.note := ("Reconciled from " ++ FinanceBankTransaction.source_name row ++ " import " ++
         FinanceBankTransaction.import_batch row)%string |>
    <| FinancePayment.recorded_by_user_id := Some current |>.
Definition matched_row (now : time) (invoice_id payment_id : uuid) (row : FinanceBankTransaction) : FinanceBankTransaction :=
  row <| FinanceBankTransaction.status := "matched" |> <| FinanceBankTransaction.matched_invoice_id := Some invoice_id |>
    <| FinanceBankTransaction.matched_payment_id := Some payment_id |> <| FinanceBankTransaction.reconciled_at := Some now |>.
Definition reconcile_bank_row (d : FinanceDb) (new_id audit_id : uuid) (now : time) (current transaction_id invoice_id : uuid)
    : result (FinanceBankTransaction * FinancePayment * FinanceDb) :=
  let w := begin d in
  match get finance_bank_transactions transaction_id (session w) with
  | None => Err (HTTPException 404 "Bank transaction not found")
  | Some row =>
      ensure FinanceBankTransaction.status row !=? "matched" else_raise HTTPException 409 "Transaction already reconciled";
      ensure 0 <? FinanceBankTransaction.amount_minor row
        else_raise HTTPException 400 "Only positive bank credits can be reconciled to invoices";
      let* invoice := load_invoice w invoice_id in
      let outstanding := outstanding (invoice_financial_out w (date_of_time now) invoice) in
      ensure 0 <? outstanding else_raise HTTPException 409 "Invoice has no outstanding balance";
      let amount := Z.min (FinanceBankTransaction.amount_minor row) outstanding in
      let payment := reconciled_payment new_id now current invoice_id amount row in
      let* w := w_flush (w_add finance_payments payment w) in
      let row := matched_row now invoice_id new_id row in
      let w := sync_invoice_payment_status invoice (w_put finance_bank_transactions row w) in
      let* d := w_commit (log_finance_action audit_id now (Some current) "finance.bank.reconciled" "finance_invoice"
        (Some (str_of_uuid invoice_id))
        [("transaction_id", JStr (str_of_uuid (FinanceBankTransaction.id row))); ("payment_id", JStr (str_of_uuid new_id));
         ("amount_minor", JInt amount)] w) in
      Ok (row, payment, d)
  end.
Definition ignore_bank_row (d : FinanceDb) (audit_id : uuid) (now : time) (current transaction_id : uuid)
    : result (FinanceBankTransaction * FinanceDb) :=
  let w := begin d in
  match get finance_bank_transactions transaction_id (session w) with
  | None => Err (HTTPException 404 "Bank transaction not found")
  | Some row =>
      ensure FinanceBankTransaction.status row !=? "matched"
        else_raise HTTPException 409 "Matched transactions cannot be ignored";
      let row := row <| FinanceBankTransaction.status := "ignored" |> in
      let* d := w_commit (log_finance_action audit_id now (Some current) "finance.bank.ignored" "finance_bank_transaction"
        (Some (str_of_uuid transaction_id)) [] (w_put finance_bank_transactions row w)) in
      Ok (row, d)
  end.

(** ** Reports *)
Record Dashboard : Type := {
  active_clients : Z; invoice_count : Z; total_invoiced : Z; collected : Z; refunds : Z; credits : Z;
  outstanding_total : Z; overdue : Z; overdue_count : Z; month_invoiced : Z; month_collected : Z }.
Definition balance_of (w : Work) (invoice : FinanceInvoice) : Z :=
  Z.max 0 (adjusted_total_minor w invoice - paid_minor w invoice).
Definition counted (w : Work) : list FinanceInvoice :=
  List.filter (fun i => FinanceInvoice.status i !=? "cancelled") (select finance_invoices (fun _ => true) (session w)).
Definition overdue_now (w : Work) (today : date) (invoice : FinanceInvoice) : bool :=
  (0 <? balance_of w invoice) && (FinanceInvoice.due_date invoice <? today) &&
  (FinanceInvoice.status invoice notin? ["draft"; "failed"]).
Definition month_start (today : date) : date := let '(y, m, _) := civil_of today in date_of y m 1.
Definition dashboard_out (w : Work) (today : date) : Dashboard :=
  let invoices := counted w in
  let start := month_start today in
  let late := List.filter (overdue_now w today) invoices in
  let month_collected := sum_by (fun i => sum_by FinancePayment.amount_minor
    (List.filter (fun p => start <=? FinancePayment.payment_date p) (payments_of w (FinanceInvoice.id i)))) invoices in
  let month_refunds := sql_sum finance_refunds (fun r => start <=? FinanceRefund.refund_date r)
    FinanceRefund.amount_minor (session w) in
  {| active_clients := sql_count finance_clients FinanceClient.active (session w);
     invoice_count := zlen (select finance_invoices (fun _ => true) (session w));
     total_invoiced := sum_by FinanceInvoice.total_minor invoices; collected := sum_by (paid_minor w) invoices;
     refunds := sum_by (refunded_minor w) invoices; credits := sum_by (credited_minor w) invoices;
     outstanding_total := sum_by (balance_of w) invoices; overdue := sum_by (balance_of w) late;
     overdue_count := zlen late;
     month_invoiced := sum_by FinanceInvoice.total_minor
       (List.filter (fun i => start <=? date_of_time (FinanceInvoice.created_at i)) invoices);
     month_collected := Z.max 0 (month_collected - month_refunds) |}.

Definition aging_bucket (days : Z) : string :=
  if days <=? 0 then "current" else if days <=? 30 then "1_30" else if days <=? 60 then "31_60"
  else if days <=? 90 then "61_90" else "90_plus".
Definition buckets : list string := ["current"; "1_30"; "31_60"; "61_90"; "90_plus"].
Record AgingRow : Type := { aged_invoice : FinanceInvoice; balance : Z; days_overdue : Z; bucket : string }.
Definition aging_rows (w : Work) (today : date) (invoices : list FinanceInvoice) : list AgingRow :=
  omap (fun i =>
    if FinanceInvoice.status i in? ["cancelled"; "draft"; "failed"] then None
    else
      let b := balance_of w i in
      if b <=? 0 then None
      else
        let days := today - FinanceInvoice.due_date i in
        Some {| aged_invoice := i; balance := b; days_overdue := Z.max 0 days; bucket := aging_bucket days |}) invoices.
(** Count and amount of every bucket, and the rows. *)
Definition aging_out (w : Work) (today : date) (invoices : list FinanceInvoice) : list (string * Z * Z) * list AgingRow :=
  let rows := aging_rows w today invoices in
  (map (fun key => let of_key := List.filter (fun r => bucket r ==? key) rows in (key, zlen of_key, sum_by balance of_key))
     buckets, rows).

Definition add_category (acc : list (string * Z)) (row : FinanceExpense) : list (string * Z) :=
  let previous := default 0 (dict_get (FinanceExpense.category row) acc) in
  dict_set (FinanceExpense.category row) (previous + FinanceExpense.amount_minor row + FinanceExpense.tax_minor row) acc.
Record Pnl : Type := { revenue_minor : Z; expense_minor : Z; net_profit_minor : Z; expense_by_category : list (string * Z) }.
(** [datetime.min.time()] and [datetime.max.time()]: the last microsecond of the
    last day is left out. *)
Definition management_pnl (w : Work) (first last : date) : result Pnl :=
  ensure first <=? last else_raise HTTPException 400 "End date must be on or after start date";
  let invoices := select finance_invoices (fun i =>
    (days first <=? FinanceInvoice.created_at i) && (FinanceInvoice.created_at i <? days (last + 1) - 1)) (session w) in
  let revenue := sum_by (adjusted_total_minor w)
    (List.filter (fun i => FinanceInvoice.status i !=? "cancelled") invoices) in
  let expenses := select finance_expenses (fun r =>
    (first <=? FinanceExpense.expense_date r) && (FinanceExpense.expense_date r <=? last) &&
    (FinanceExpense.status r ==? "posted")) (session w) in
  let expense_total := sum_by (fun r => FinanceExpense.amount_minor r + FinanceExpense.tax_minor r) expenses in
  Ok {| revenue_minor := revenue; expense_minor := expense_total; net_profit_minor := revenue - expense_total;
        expense_by_category := fold_left add_category expenses [] |}.

Record Close : Type := {
  close_count : Z; gross_invoiced : Z; net_invoiced : Z; gross_collected : Z; close_refunded : Z; net_collected : Z;
  close_outstanding : Z; unsettled : Z }.
Definition period_close_summary (w : Work) (year month : Z) : result Close :=
  ensure in_range 1 12 month else_raise HTTPException 422 "Invalid month";
  ensure in_range 1 9999 (if month =? 12 then year + 1 else year) && in_range 1 9999 year
    else_raise ValueError "year is out of range";
  let start := date_of year month 1 in
  let next := if month =? 12 then date_of (year + 1) 1 1 else date_of year (month + 1) 1 in
  let last := date_of year month (days_in_month year month) in
  let invoices := List.filter (fun i => FinanceInvoice.status i !=? "cancelled") (select finance_invoices (fun i =>
    (days start <=? FinanceInvoice.created_at i) && (FinanceInvoice.created_at i <? days next)) (session w)) in
  let payments := select finance_payments (fun p =>
    (start <=? FinancePayment.payment_date p) && (FinancePayment.payment_date p <=? last)) (session w) in
  let refunds := select finance_refunds (fun r =>
    (start <=? FinanceRefund.refund_date r) && (FinanceRefund.refund_date r <=? last)) (session w) in
  let gross_collected := sum_by FinancePayment.amount_minor payments in
  let refunded := sum_by FinanceRefund.amount_minor refunds in
  Ok {| close_count := zlen invoices; gross_invoiced := sum_by FinanceInvoice.total_minor invoices;
        net_invoiced := sum_by (adjusted_total_minor w) invoices; gross_collected := gross_collected;
        close_refunded := refunded; net_collected := Z.max 0 (gross_collected - refunded);
        close_outstanding := sum_by (balance_of w) invoices;
        unsettled := zlen (List.filter (fun i => 0 <? balance_of w i) invoices) |}.
