(* ===== verification/FinanceBooks.v ===== *)
(** The books kept by the ledger endpoints of [FinanceLedger]: over any sequence
    of requests the credits stay within an invoice's total, the refunds within
    their payment and the net payments within the total; a locked accounting
    period keeps its records; the stored status of an invoice agrees with the
    computed one; numbers do not repeat. *)
From S2P Require Import Prelude PyFloat FloatFacts Json JsonFacts Calendar Models Session Schema Sha256 Engines FinanceModels FinanceWork FinanceLedger.
#[local] Open Scope string_scope.
#[local] Open Scope list_scope.
#[local] Open Scope Z_scope.

(** ** Requests *)
Inductive Posting : Type :=
| CreateInvoice (new_id item_id : uuid) (now : time) (current : uuid) (p : FinanceInvoiceCreate)
| EditInvoice (item_id audit_id : uuid) (now : time) (current invoice_id : uuid) (p : FinanceInvoiceCreate)
| DeleteInvoice (invoice_id : uuid)
| CancelInvoice (now : time) (invoice_id : uuid)
| RecordPayment (new_id : uuid) (now : time) (current invoice_id : uuid) (p : FinancePaymentCreate)
| DeletePayment (payment_id : uuid)
| CreateCredit (new_id : uuid) (now : time) (current invoice_id : uuid) (amount : Z) (reason : string)
| CreateRefund (new_id audit_id : uuid) (now : time) (current : uuid) (p : RefundCreate)
| ClosePeriod (new_id audit_id : uuid) (now : time) (current : uuid) (year month : Z) (note : string)
| OpenPeriod (audit_id : uuid) (now : time) (current : uuid) (year month : Z) (note : string)
| CreateExpense (new_id audit_id : uuid) (now : time) (current : uuid) (p : ExpenseCreate)
| VoidExpense (audit_id : uuid) (now : time) (current expense_id : uuid)
| ImportBank (audit_id : uuid) (now : time) (current : uuid) (source_name import_batch : string) (rows : list (uuid * BankRow))
| Reconcile (new_id audit_id : uuid) (now : time) (current transaction_id invoice_id : uuid)
| IgnoreBank (audit_id : uuid) (now : time) (current transaction_id : uuid).

Definition committed {A} (r : result (A * FinanceDb)) : result FinanceDb := let* (_, d) := r in Ok d.
Definition post (d : FinanceDb) (op : Posting) : result FinanceDb :=
  match op with
  | CreateInvoice a b c u p => committed (create_finance_invoice d a b c u p)
  | EditInvoice a b c u k p => committed (edit_draft_invoice d a b c u k p)
  | DeleteInvoice k => delete_finance_invoice d k
  | CancelInvoice t k => committed (cancel_finance_invoice d t k)
  | RecordPayment a t u k p => committed (record_invoice_payment d a t u k p)
  | DeletePayment k => delete_finance_payment d k
  | CreateCredit a t u k z r => committed (create_credit_note d a t u k z r)
  | CreateRefund a b t u p => committed (create_refund d a b t u p)
  | ClosePeriod a b t u y m n => committed (close_period d a b t u y m n)
  | OpenPeriod b t u y m n => committed (open_period d b t u y m n)
  | CreateExpense a b t u p => committed (create_expense d a b t u p)
  | VoidExpense b t u k => committed (void_expense d b t u k)
  | ImportBank b t u s i rows => committed (import_bank_rows d b t u s i rows)
  | Reconcile a b t u x k => committed (reconcile_bank_row d a b t u x k)
  | IgnoreBank b t u x => committed (ignore_bank_row d b t u x)
  end.
(** A request that raises leaves the committed database as it was. *)
Definition handle (d : FinanceDb) (op : Posting) : FinanceDb := match post d op with Ok d' => d' | Err _ => d end.
Definition run (ops : list Posting) (d : FinanceDb) : FinanceDb := fold_left handle ops d.

(** ** The books of a database *)
Definition gross_of (k : uuid) (t : list FinancePayment) : Z :=
  sum_by FinancePayment.amount_minor (List.filter (fun p => FinancePayment.invoice_id p =? k) t).
Definition refunded_of (k : uuid) (t : list FinanceRefund) : Z :=
  sum_by FinanceRefund.amount_minor (List.filter (fun r => FinanceRefund.invoice_id r =? k) t).
Definition refunds_on (k : uuid) (t : list FinanceRefund) : Z :=
  sum_by FinanceRefund.amount_minor (List.filter (fun r => FinanceRefund.payment_id r =? k) t).
Definition credit_of (k : uuid) (t : list FinanceCreditNote) : Z :=
  sum_by FinanceCreditNote.amount_minor (List.filter (fun c => FinanceCreditNote.invoice_id c =? k) t).

Record View : Type := mk_View {
  v_totals : list (uuid * Z); v_payments : list FinancePayment;
  v_credits : list FinanceCreditNote; v_refunds : list FinanceRefund }.
Definition totals (t : list FinanceInvoice) : list (uuid * Z) := map (fun i => (FinanceInvoice.id i, FinanceInvoice.total_minor i)) t.
Definition view (d : FinanceDb) : View :=
  mk_View (totals (finance_invoices d)) (finance_payments d) (finance_credit_notes d) (finance_refunds d).
Record books (v : View) : Prop := {
  b_payments : forall p, p ∈ v_payments v -> 0 < FinancePayment.amount_minor p;
  b_credits : forall c, c ∈ v_credits v -> 0 < FinanceCreditNote.amount_minor c;
  b_refunds : forall r, r ∈ v_refunds v -> 0 < FinanceRefund.amount_minor r;
  b_refund_of : forall r, r ∈ v_refunds v -> exists p, p ∈ v_payments v /\
    FinancePayment.id p = FinanceRefund.payment_id r /\ FinancePayment.invoice_id p = FinanceRefund.invoice_id r;
  b_refunds_on : forall p, p ∈ v_payments v -> refunds_on (FinancePayment.id p) (v_refunds v) <= FinancePayment.amount_minor p;
  b_balance : forall k t, (k, t) ∈ v_totals v ->
    0 <= t /\ credit_of k (v_credits v) <= t /\ gross_of k (v_payments v) - refunded_of k (v_refunds v) <= t
}.
Definition books_ok (d : FinanceDb) : Prop := schema_ok d /\ books (view d).

(** ** Sums over tables *)
Section Tables.
Context {R : Type} (f : R -> Z).
Implicit Types (p q : R -> bool) (t : list R).

Lemma sum_filter_snoc p r t :
  sum_by f (List.filter p (t ++ [r])) = sum_by f (List.filter p t) + (if p r then f r else 0).
Proof. rewrite List.filter_app, sum_by_app. simpl. destruct (p r); unfold sum_by; simpl; lia. Qed.
Lemma sum_filter_none p t : (forall r, r ∈ t -> p r = false) -> sum_by f (List.filter p t) = 0.
Proof.
  induction t as [|a t IH]; intros H; [done|]. simpl. rewrite (H a) by left. apply IH. intros r Hr. apply H. by right.
Qed.
Lemma sum_filter_pos p t : (forall r, r ∈ t -> 0 < f r) -> 0 <= sum_by f (List.filter p t).
Proof.
  intros H. apply sum_by_nonneg, Forall_forall. intros r Hr%list_elem_of_In%filter_In. destruct Hr as [Hr _].
  apply list_elem_of_In in Hr. by apply Z.lt_le_incl, H.
Qed.
Lemma filter_filter_keep p q t : (forall r, r ∈ t -> p r = true -> q r = true) ->
  List.filter p (List.filter q t) = List.filter p t.
Proof.
  induction t as [|a t IH]; intros H; [done|]. simpl. destruct (q a) eqn:Eq; simpl.
  - rewrite IH; [done|]. intros r Hr. apply H. by right.
  - rewrite IH by (intros r Hr; apply H; by right). destruct (p a) eqn:Ep; [|done].
    rewrite (H a) in Eq; [done|left|done].
Qed.
Lemma sum_filter_split p q t :
  sum_by f (List.filter p t) =
  sum_by f (List.filter p (List.filter q t)) + sum_by f (List.filter p (List.filter (fun r => negb (q r)) t)).
Proof. induction t as [|a t IH]; [done|]. simpl. destruct (q a); simpl; destruct (p a); unfold sum_by in *; simpl in *; lia. Qed.
End Tables.

(** Refunds grouped by payment. *)
Lemma sum_group {R P} (f : R -> Z) (g : R -> uuid) (k : P -> uuid) (l : list R) (ps : list P) :
  (forall r, r ∈ l -> 0 < f r) -> (forall r, r ∈ l -> exists p, p ∈ ps /\ k p = g r) ->
  sum_by f l <= sum_by (fun p => sum_by f (List.filter (fun r => g r =? k p) l)) ps.
Proof.
  induction l as [|r l IH]; intros Hf Hg.
  - apply (sum_by_nonneg (fun _ => 0)), Forall_forall. done.
  - assert (sum_by f l <= sum_by (fun p => sum_by f (List.filter (fun r => g r =? k p) l)) ps) as HI.
    { apply IH; intros; [apply Hf|apply Hg]; by right. }
    assert (sum_by (fun p => sum_by f (List.filter (fun r => g r =? k p) (r :: l))) ps =
            sum_by (fun p => (if g r =? k p then f r else 0) + sum_by f (List.filter (fun r => g r =? k p) l)) ps) as ->.
    { apply sum_by_ext, Forall_forall. intros p _. simpl. destruct (g r =? k p); unfold sum_by; simpl; lia. }
    rewrite sum_by_add. unfold sum_by at 1. simpl. fold (sum_by f l).
    assert (f r <= sum_by (fun p => if g r =? k p then f r else 0) ps); [|lia].
    assert (0 < f r) as Hr by (apply Hf; left). destruct (Hg r) as (p & Hp & Ek); [left|].
    apply list_elem_of_split in Hp as (l1 & l2 & ->). rewrite sum_by_app. unfold sum_by at 2. simpl.
    fold (sum_by (fun p => if g r =? k p then f r else 0) l2). rewrite Ek, Z.eqb_refl.
    assert (forall l', 0 <= sum_by (fun p => if g r =? k p then f r else 0) l') as Hnn.
    { intros l'. apply sum_by_nonneg, Forall_forall. intros x _. destruct (_ =? _); lia. }
    pose proof (Hnn l1). pose proof (Hnn l2). lia.
Qed.

(** ** The moves of the books *)
Lemma gross_of_nil v k : books v -> (forall p, p ∈ v_payments v -> FinancePayment.invoice_id p <> k) ->
  gross_of k (v_payments v) = 0 /\ refunded_of k (v_refunds v) = 0.
Proof.
  intros H Hp. split; apply sum_filter_none; intros r Hr; apply Z.eqb_neq; [by apply Hp|].
  destruct (b_refund_of v H r Hr) as (p & Hin & _ & <-). by apply Hp.
Qed.

Lemma books_totals v l : books v ->
  (forall k t, (k, t) ∈ l -> (k, t) ∈ v_totals v \/ 0 <= t /\
    (forall p, p ∈ v_payments v -> FinancePayment.invoice_id p <> k) /\
    (forall c, c ∈ v_credits v -> FinanceCreditNote.invoice_id c <> k)) ->
  books (mk_View l (v_payments v) (v_credits v) (v_refunds v)).
Proof.
  intros H Hl. destruct (H) as [H1 H2 H3 H4 H5 H6]. constructor; simpl; [done..|].
  intros k t [Ht|(Ht & Hp & Hc)]%Hl; [by apply H6|]. destruct (gross_of_nil v k H Hp) as [-> ->].
  unfold credit_of. rewrite sum_filter_none; [lia|]. intros c Hin. by apply Z.eqb_neq, Hc.
Qed.

Lemma books_add_payment v p : books v -> 0 < FinancePayment.amount_minor p ->
  (forall q, q ∈ v_payments v -> FinancePayment.id q <> FinancePayment.id p) ->
  (forall t, (FinancePayment.invoice_id p, t) ∈ v_totals v ->
     gross_of (FinancePayment.invoice_id p) (v_payments v) + FinancePayment.amount_minor p
       - refunded_of (FinancePayment.invoice_id p) (v_refunds v) <= t) ->
  books (mk_View (v_totals v) (v_payments v ++ [p]) (v_credits v) (v_refunds v)).
Proof.
  intros [H1 H2 H3 H4 H5 H6] Hp Hn Hb. constructor; simpl; [|done|done| | |].
  - intros q [Hq | ->%list_elem_of_singleton]%elem_of_app; [by apply H1|done].
  - intros r (q & Hq & E)%H4. exists q. split; [apply elem_of_app; by left|done].
  - intros q [Hq | ->%list_elem_of_singleton]%elem_of_app; [by apply H5|].
    unfold refunds_on. rewrite sum_filter_none; [lia|]. intros r (q & Hq & <- & _)%H4. by apply Z.eqb_neq, Hn.
  - intros k t Hk. destruct (H6 k t Hk) as (? & ? & ?). split_and!; [done..|].
    unfold gross_of. rewrite sum_filter_snoc. fold (gross_of k (v_payments v)). bdestruct (FinancePayment.invoice_id p =? k); [|lia].
    rewrite <- E in *. specialize (Hb t Hk). lia.
Qed.

Lemma books_add_credit v c : books v -> 0 < FinanceCreditNote.amount_minor c ->
  (forall t, (FinanceCreditNote.invoice_id c, t) ∈ v_totals v ->
     credit_of (FinanceCreditNote.invoice_id c) (v_credits v) + FinanceCreditNote.amount_minor c <= t) ->
  books (mk_View (v_totals v) (v_payments v) (v_credits v ++ [c]) (v_refunds v)).
Proof.
  intros [H1 H2 H3 H4 H5 H6] Hc Hb. constructor; simpl; [done| |done..|].
  - intros q [Hq | ->%list_elem_of_singleton]%elem_of_app; [by apply H2|done].
  - intros k t Hk. destruct (H6 k t Hk) as (? & ? & ?). split_and!; [done| |done].
    unfold credit_of. rewrite sum_filter_snoc. fold (credit_of k (v_credits v)).
    bdestruct (FinanceCreditNote.invoice_id c =? k); [|lia]. rewrite <- E in *. specialize (Hb t Hk). lia.
Qed.

Lemma books_add_refund v r p : books v -> 0 < FinanceRefund.amount_minor r -> NoDup (map FinancePayment.id (v_payments v)) ->
  p ∈ v_payments v -> FinancePayment.id p = FinanceRefund.payment_id r -> FinancePayment.invoice_id p = FinanceRefund.invoice_id r ->
  refunds_on (FinancePayment.id p) (v_refunds v) + FinanceRefund.amount_minor r <= FinancePayment.amount_minor p ->
  books (mk_View (v_totals v) (v_payments v) (v_credits v) (v_refunds v ++ [r])).
Proof.
  intros [H1 H2 H3 H4 H5 H6] Hr Hn Hp Ei Ek Hb. constructor; simpl; [done|done| | | |].
  - intros q [Hq | ->%list_elem_of_singleton]%elem_of_app; [by apply H3|done].
  - intros q [Hq | ->%list_elem_of_singleton]%elem_of_app; [by apply H4|by exists p].
  - intros q Hq. unfold refunds_on. rewrite sum_filter_snoc. fold (refunds_on (FinancePayment.id q) (v_refunds v)).
    bdestruct (FinanceRefund.payment_id r =? FinancePayment.id q).
    + assert (q = p) as -> by (apply (key_inj (v_payments v)); [done..|unfold key, keyed_FinancePayment; congruence]). lia.
    + specialize (H5 q Hq). lia.
  - intros k t Hk. destruct (H6 k t Hk) as (? & ? & ?). split_and!; [done..|].
    unfold refunded_of. rewrite sum_filter_snoc. fold (refunded_of k (v_refunds v)). destruct (_ =? k); lia.
Qed.

Lemma books_delete_payment v p : books v -> NoDup (map FinancePayment.id (v_payments v)) -> p ∈ v_payments v ->
  books (mk_View (v_totals v) (List.filter (fun q => negb (FinancePayment.id q =? FinancePayment.id p)) (v_payments v))
    (v_credits v) (List.filter (fun r => negb (FinanceRefund.payment_id r =? FinancePayment.id p)) (v_refunds v))).
Proof.
  intros [H1 H2 H3 H4 H5 H6] Hn Hp.
  assert (forall (T : Type) (q : T -> bool) l x, x ∈ List.filter q l <-> x ∈ l /\ q x = true) as Hfl.
  { intros. by rewrite !list_elem_of_In, filter_In. }
  constructor; simpl.
  - intros q [Hq _]%Hfl. by apply H1.
  - done.
  - intros q [Hq _]%Hfl. by apply H3.
  - intros r [Hr Hx]%Hfl. destruct (H4 r Hr) as (q & Hq & E1 & E2). exists q. rewrite Hfl, E1. done.
  - intros q [Hq Hx]%Hfl. unfold refunds_on. rewrite filter_filter_keep; [by apply H5|].
    intros r _ Er%Z.eqb_eq. by rewrite Er.
  - intros k t Hk. destruct (H6 k t Hk) as (? & ? & Hb). split_and!; [done..|].
    unfold gross_of, refunded_of in *.
    rewrite (sum_filter_split _ _ (fun q => FinancePayment.id q =? FinancePayment.id p)) in Hb.
    rewrite (sum_filter_split _ _ (fun r => FinanceRefund.payment_id r =? FinancePayment.id p) (v_refunds v)) in Hb.
    set (refs := List.filter (fun r => FinanceRefund.payment_id r =? FinancePayment.id p) (v_refunds v)) in *.
    set (pays := List.filter (fun q => FinancePayment.id q =? FinancePayment.id p) (v_payments v)) in *.
    assert (forall q, q ∈ pays -> q = p) as Hone.
    { intros q [Hq Eq%Z.eqb_eq]%Hfl. by apply (key_inj (v_payments v)). }
    assert (p ∈ pays) as Hpin by (apply Hfl; rewrite Z.eqb_refl; done).
    assert (forall r, r ∈ refs -> FinanceRefund.invoice_id r = FinancePayment.invoice_id p) as Hinv.
    { intros r [Hr Er%Z.eqb_eq]%Hfl. destruct (H4 r Hr) as (q & Hq & E1 & <-). f_equal.
      apply (key_inj (v_payments v)); [done..|]. unfold key, keyed_FinancePayment. congruence. }
    assert (sum_by FinanceRefund.amount_minor refs <= FinancePayment.amount_minor p) as Hbound by by apply H5.
    cut (sum_by FinanceRefund.amount_minor (List.filter (fun r => FinanceRefund.invoice_id r =? k) refs)
         <= sum_by FinancePayment.amount_minor (List.filter (fun q => FinancePayment.invoice_id q =? k) pays)); [lia|].
    bdestruct (FinancePayment.invoice_id p =? k).
    + transitivity (sum_by FinanceRefund.amount_minor refs).
      { apply sum_by_filter_le, Forall_forall. intros r [Hr _]%Hfl. by apply Z.lt_le_incl, H3. }
      transitivity (FinancePayment.amount_minor p); [done|].
      assert (p ∈ List.filter (fun q => FinancePayment.invoice_id q =? k) pays) as Hin.
      { apply Hfl. rewrite E, Z.eqb_refl. done. }
      apply list_elem_of_split in Hin as (l1 & l2 & Hsplit).
      assert (forall q, q ∈ l1 ++ p :: l2 -> 0 <= FinancePayment.amount_minor q) as Hpos.
      { rewrite <- Hsplit. intros q [[Hq _]%Hfl _]%Hfl. by apply Z.lt_le_incl, H1. }
      rewrite Hsplit, sum_by_app. unfold sum_by at 2. simpl. fold (sum_by FinancePayment.amount_minor l2).
      assert (0 <= sum_by FinancePayment.amount_minor l1 /\ 0 <= sum_by FinancePayment.amount_minor l2) as []; [|lia].
      split; apply sum_by_nonneg, Forall_forall; intros q Hq; apply Hpos; rewrite elem_of_app, elem_of_cons; auto.
    + rewrite !sum_filter_none; [done|..].
      * intros q ->%Hone. by apply Z.eqb_neq.
      * intros r ->%Hinv. by apply Z.eqb_neq.
Qed.

Lemma elem_filter {T} (q : T -> bool) l x : x ∈ List.filter q l <-> x ∈ l /\ q x = true.
Proof. by rewrite !list_elem_of_In, filter_In. Qed.
Lemma filter_map {A B} (f : A -> B) (q : B -> bool) l : List.filter q (map f l) = map f (List.filter (fun x => q (f x)) l).
Proof. induction l as [|a l IH]; [done|]. simpl. destruct (q (f a)); simpl; by rewrite IH. Qed.
Lemma filter_ext_elem {A} (p q : A -> bool) l : (forall x, x ∈ l -> p x = q x) -> List.filter p l = List.filter q l.
Proof. intros H. apply filter_ext_in. intros x Hx%list_elem_of_In. by apply H. Qed.

Lemma books_delete_invoice v k : books v -> NoDup (map FinancePayment.id (v_payments v)) ->
  books (mk_View (List.filter (fun kt => negb (fst kt =? k)) (v_totals v))
    (List.filter (fun p => negb (FinancePayment.invoice_id p =? k)) (v_payments v))
    (List.filter (fun c => negb (FinanceCreditNote.invoice_id c =? k)) (v_credits v))
    (List.filter (fun r => negb (FinanceRefund.invoice_id r =? k) &&
       negb (existsb (fun p => (FinancePayment.invoice_id p =? k) && (FinancePayment.id p =? FinanceRefund.payment_id r)) (v_payments v)))
       (v_refunds v))).
Proof.
  intros H Hn. destruct (H) as [H1 H2 H3 H4 H5 H6].
  assert (forall r p, r ∈ v_refunds v -> p ∈ v_payments v -> FinancePayment.id p = FinanceRefund.payment_id r ->
    FinancePayment.invoice_id p = FinanceRefund.invoice_id r) as Hsame.
  { intros r p Hr Hp E. destruct (H4 r Hr) as (q & Hq & Eq & <-). f_equal.
    apply (key_inj (v_payments v)); [done..|]. unfold key, keyed_FinancePayment. congruence. }
  rewrite (filter_ext_elem _ (fun r => negb (FinanceRefund.invoice_id r =? k)) (v_refunds v)).
  2:{ intros r Hr. bdestruct (FinanceRefund.invoice_id r =? k); [done|]. simpl. apply negb_true_iff, not_true_is_false.
      intros (p & Hp%list_elem_of_In & [E1%Z.eqb_eq E2%Z.eqb_eq]%andb_true_iff)%existsb_exists.
      apply E. rewrite <- E1. symmetry. by apply Hsame. }
  constructor; simpl.
  - intros p [Hp _]%elem_filter. by apply H1.
  - intros p [Hp _]%elem_filter. by apply H2.
  - intros p [Hp _]%elem_filter. by apply H3.
  - intros r [Hr E]%elem_filter. destruct (H4 r Hr) as (q & Hq & E1 & E2). exists q. by rewrite elem_filter, E2.
  - intros p [Hp E]%elem_filter. unfold refunds_on. rewrite filter_filter_keep; [by apply H5|].
    intros r Hr Er%Z.eqb_eq. rewrite <- (Hsame r p); done.
  - intros i t [Hi E]%elem_filter. simpl in E. destruct (H6 i t Hi) as (? & ? & ?).
    unfold credit_of, gross_of, refunded_of in *.
    rewrite !filter_filter_keep; [done|..]; intros r _ Er%Z.eqb_eq; by rewrite Er.
Qed.

(** ** The requests keep the books *)
Lemma totals_put i i0 t : NoDup (keys t) -> i0 ∈ t -> FinanceInvoice.id i = FinanceInvoice.id i0 ->
  FinanceInvoice.total_minor i = FinanceInvoice.total_minor i0 -> totals (put_row i t) = totals t.
Proof.
  intros Hn Hi Ek Et. unfold totals, put_row. rewrite map_map. apply map_ext_in. intros x Hx%list_elem_of_In.
  unfold key, keyed_FinanceInvoice. bdestruct (FinanceInvoice.id x =? FinanceInvoice.id i); [|done].
  assert (x = i0) as -> by (apply (key_inj t); [done..|unfold key, keyed_FinanceInvoice; congruence]). by rewrite Et, Ek.
Qed.

Lemma load_invoice_in w k i : synced finance_invoices (session w) -> NoDup (keys (finance_invoices (mem (session w)))) ->
  load_invoice w k = Ok i -> i ∈ finance_invoices (mem (session w)) /\ FinanceInvoice.id i = k.
Proof.
  unfold load_invoice. intros Hs Hn. destruct (scalar _ _ _) as [x|] eqn:E; [|done]. intros [= <-].
  apply scalar_some in E as [Hx Ek]; [|done..]. by apply Z.eqb_eq in Ek.
Qed.

(** Setting the status of a loaded invoice. *)
Lemma sync_mem i w : mem (session (sync_invoice_payment_status i w)) = mem (session w) \/
  exists st, mem (session (sync_invoice_payment_status i w)) =
    (mem (session w)) <| finance_invoices ::= put_row (i <| FinanceInvoice.status := st |>) |>.
Proof. unfold sync_invoice_payment_status. destruct (synced_status w i) as [st|]; [right; by exists st|by left]. Qed.
Lemma sync_view i w : NoDup (keys (finance_invoices (mem (session w)))) -> i ∈ finance_invoices (mem (session w)) ->
  view (mem (session (sync_invoice_payment_status i w))) = view (mem (session w)).
Proof.
  intros Hn Hi. destruct (sync_mem i w) as [->|[st ->]]; [done|]. unfold view. simpl. f_equal. by apply (totals_put _ i).
Qed.
Lemma log_view a t u ac rt ri m w : view (mem (session (log_finance_action a t u ac rt ri m w))) = view (mem (session w)).
Proof. done. Qed.
Lemma committed_ok {A} (r : result (A * FinanceDb)) d : committed r = Ok d -> exists a, r = Ok (a, d).
Proof. unfold committed. intros H. apply rbind_ok in H as ([a d'] & -> & [= <-]). by exists a. Qed.
Lemma begin_synced {R} (T : FinanceDb -> list R) d : synced T (session (begin d)).
Proof. done. Qed.

Lemma totals_in k t i l : NoDup (keys l) -> (k, t) ∈ totals l -> i ∈ l -> FinanceInvoice.id i = k -> t = FinanceInvoice.total_minor i.
Proof.
  intros Hn Ht Hi Hk. unfold totals in Ht. apply list_elem_of_fmap in Ht as (j & [= -> ->] & Hj). f_equal.
  by apply (key_inj l).
Qed.
Lemma in_totals i l : i ∈ l -> (FinanceInvoice.id i, FinanceInvoice.total_minor i) ∈ totals l.
Proof. intros H. by apply (list_elem_of_fmap_2 (fun i => (FinanceInvoice.id i, FinanceInvoice.total_minor i))). Qed.
Lemma keys_snoc_fresh {R} `{Keyed R} (t : list R) r : NoDup (keys (t ++ [r])) -> forall q, q ∈ t -> key q <> key r.
Proof.
  unfold keys. rewrite map_app, NoDup_app. intros (_ & Hd & _) q Hq E. apply (Hd (key q)); [by apply list_elem_of_fmap_2|].
  simpl. rewrite E. left.
Qed.

Section Loaded.
(** An invoice of a committed database with sound books, read by a new session. *)
Context (d : FinanceDb) (Hok : books_ok d) (i : FinanceInvoice) (Hi : i ∈ finance_invoices d).
Let k := FinanceInvoice.id i.

Lemma payments_of_begin x : payments_of (begin d) x = List.filter (fun p => FinancePayment.invoice_id p =? x) (finance_payments d).
Proof using Hok. unfold payments_of. by rewrite select_synced; [|done|apply so_payments, Hok]. Qed.
Lemma credits_of_begin x : credit_notes_of (begin d) x =
  List.filter (fun c => FinanceCreditNote.invoice_id c =? x) (finance_credit_notes d).
Proof using Hok. unfold credit_notes_of. by rewrite select_synced; [|done|apply so_credits, Hok]. Qed.
Lemma gross_begin : gross_paid_minor (begin d) i = gross_of k (finance_payments d).
Proof using Hok.
  unfold gross_paid_minor, gross_of. rewrite payments_of_begin. apply sum_by_ext, Forall_forall.
  intros p [Hp _]%elem_filter. apply (b_payments _ (proj2 Hok)) in Hp. lia.
Qed.
Lemma credited_begin : credited_minor (begin d) i = credit_of k (finance_credit_notes d).
Proof using Hok.
  unfold credited_minor, credit_of. rewrite credits_of_begin. apply sum_by_ext, Forall_forall.
  intros c [Hc _]%elem_filter. apply (b_credits _ (proj2 Hok)) in Hc. lia.
Qed.
Lemma refunded_begin : refunded_minor (begin d) i = refunded_of k (finance_refunds d).
Proof. done. Qed.
Lemma credit_nonneg x : 0 <= credit_of x (finance_credit_notes d).
Proof using Hok. apply sum_filter_pos, (b_credits _ (proj2 Hok)). Qed.
Lemma refunded_nonneg x : 0 <= refunded_of x (finance_refunds d).
Proof using Hok. apply sum_filter_pos, (b_refunds _ (proj2 Hok)). Qed.
Lemma balance_begin : 0 <= FinanceInvoice.total_minor i /\ credit_of k (finance_credit_notes d) <= FinanceInvoice.total_minor i /\
  gross_of k (finance_payments d) - refunded_of k (finance_refunds d) <= FinanceInvoice.total_minor i.
Proof using Hok Hi. apply (b_balance _ (proj2 Hok)), in_totals, Hi. Qed.
Lemma refunded_within_gross : refunded_of k (finance_refunds d) <= gross_of k (finance_payments d).
Proof using Hok.
  destruct Hok as [Hs Hb]. unfold refunded_of, gross_of.
  set (refs := List.filter _ (finance_refunds d)). set (pays := List.filter _ (finance_payments d)).
  etransitivity; [apply (sum_group FinanceRefund.amount_minor FinanceRefund.payment_id FinancePayment.id refs pays)|].
  - intros r [Hr _]%elem_filter. by apply (b_refunds _ Hb).
  - intros r [Hr E%Z.eqb_eq]%elem_filter. destruct (b_refund_of _ Hb r Hr) as (p & Hp & E1 & E2). exists p. split; [|done].
    apply elem_filter. split; [done|]. apply Z.eqb_eq. congruence.
  - apply sum_by_le, Forall_forall. intros p [Hp _]%elem_filter.
    etransitivity; [|by apply (b_refunds_on _ Hb)]. unfold refunds_on, refs.
    assert (forall (f : FinanceRefund -> Z) p q l, (forall x, x ∈ l -> 0 <= f x) ->
      sum_by f (List.filter p (List.filter q l)) <= sum_by f (List.filter p l)) as Hle.
    { intros f p' q l Hf. rewrite (sum_filter_split f p' q l).
      assert (0 <= sum_by f (List.filter p' (List.filter (fun r => negb (q r)) l))); [|lia].
      apply sum_by_nonneg, Forall_forall. intros x [[Hx _]%elem_filter _]%elem_filter. by apply Hf. }
    apply Hle. intros r Hr. by apply Z.lt_le_incl, (b_refunds _ Hb).
Qed.
Lemma paid_begin : paid_minor (begin d) i = gross_of k (finance_payments d) - refunded_of k (finance_refunds d).
Proof using Hok. unfold paid_minor. rewrite gross_begin, refunded_begin. pose proof refunded_within_gross. lia. Qed.
Lemma adjusted_begin : adjusted_total_minor (begin d) i = FinanceInvoice.total_minor i - credit_of k (finance_credit_notes d).
Proof using Hok Hi. unfold adjusted_total_minor. rewrite credited_begin. pose proof balance_begin. lia. Qed.
End Loaded.

Lemma on_integrity_ok {A} m (r : result A) a : on_integrity m r = Ok a -> r = Ok a.
Proof. by destruct r as [|[]]. Qed.
Lemma value_error_ok {A} (r : result A) a : value_error_409 r = Ok a -> r = Ok a.
Proof. by destruct r as [|[]]. Qed.

(** Running a handler backwards: its guards held and its flushes passed. *)
Ltac back H :=
  repeat first
    [ progress cbv zeta in H
    | match type of H with
      | Ok _ = Ok _ => injection H; clear H; intros; subst
      | Err _ = Ok _ => discriminate H
      | (if ?c then _ else Err _) = Ok _ => let E := fresh "G" in destruct c eqn:E; [|discriminate H]
      | rbind ?m _ = Ok _ => apply rbind_ok in H; let x := fresh "x" in let E := fresh "M" in destruct H as (x & E & H)
      | match ?m with Some _ => _ | None => _ end = Ok _ => let E := fresh "S" in destruct m eqn:E; [|discriminate H]
      | on_integrity _ ?m = Ok _ => apply on_integrity_ok in H
      | value_error_409 ?m = Ok _ => apply value_error_ok in H
      end ].
Lemma commit_books w d : w_commit w = Ok d -> books (view (mem (session w))) -> books_ok d.
Proof. intros (-> & Hs & _)%w_commit_ok Hb. by split. Qed.
Lemma sync_books i w d' : schema_ok (mem (session w)) -> i ∈ finance_invoices (mem (session w)) ->
  books (view (mem (session w))) -> w_commit (sync_invoice_payment_status i w) = Ok d' -> books_ok d'.
Proof. intros Hs Hi Hb H. eapply commit_books; [done|]. rewrite sync_view; [done|apply Hs|done]. Qed.

Lemma new_payment_books d p i w : books_ok d -> i ∈ finance_invoices d -> FinancePayment.invoice_id p = FinanceInvoice.id i ->
  0 < FinancePayment.amount_minor p ->
  gross_of (FinanceInvoice.id i) (finance_payments d) + FinancePayment.amount_minor p
    - refunded_of (FinanceInvoice.id i) (finance_refunds d) <= FinanceInvoice.total_minor i ->
  w_flush (w_add finance_payments p (begin d)) = Ok w ->
  schema_ok (mem (session w)) /\ i ∈ finance_invoices (mem (session w)) /\ books (view (mem (session w))).
Proof.
  intros [Hs Hb] Hi Ei Hp Ht (-> & Hs' & _)%w_flush_ok. split; [done|]. split; [done|].
  apply (books_add_payment (view d)); simpl; [done|done|apply (keys_snoc_fresh (finance_payments d)), Hs'|].
  intros t Hin. rewrite Ei in *. rewrite (totals_in _ _ i _ (so_invoices _ Hs) Hin Hi); done.
Qed.

Lemma record_books d d' a t u k p x : books_ok d -> record_invoice_payment d a t u k p = Ok (x, d') -> books_ok d'.
Proof.
  intros Hok H. unfold record_invoice_payment in H. back H. rename x1 into w.
  apply load_invoice_in in M as [Hi Ek]; [|done|apply Hok]. simpl in Hi. subst k.
  destruct (new_payment_books d (payment_row a t u (FinanceInvoice.id x0) p) x0 w) as (Hs & Hin & Hb); try done.
  - unfold valid_payment, in_range in G. bdestruct (1 <=? FinancePaymentCreate.amount_minor p); [simpl; lia|done].
  - rewrite adjusted_begin in G1, G2 by done. rewrite payments_of_begin in G1, G2 by done.
    fold (gross_of (FinanceInvoice.id x0) (finance_payments d)) in G1, G2. apply Z.ltb_lt in G1. apply Z.leb_le in G2.
    pose proof (credit_nonneg d Hok (FinanceInvoice.id x0)). pose proof (refunded_nonneg d Hok (FinanceInvoice.id x0)). simpl. lia.
  - by apply (sync_books x0 w).
Qed.

Lemma reconcile_books d d' a b t u r k x : books_ok d -> reconcile_bank_row d a b t u r k = Ok (x, d') -> books_ok d'.
Proof.
  intros Hok H. unfold reconcile_bank_row in H. back H. rename x1 into w.
  apply load_invoice_in in M as [Hi Ek]; [|done|apply Hok]. simpl in Hi. subst k.
  destruct (new_payment_books d (reconciled_payment a t u (FinanceInvoice.id x0)
    (Z.min (FinanceBankTransaction.amount_minor f) (outstanding (invoice_financial_out (begin d) (date_of_time t) x0))) f) x0 w)
    as (Hs & Hin & Hb); try done; simpl in *.
  - apply Z.ltb_lt in G0, G1. lia.
  - apply Z.ltb_lt in G0, G1. rewrite credited_begin, paid_begin in * by done.
    pose proof (credit_nonneg d Hok (FinanceInvoice.id x0)). pose proof (balance_begin d Hok x0 Hi). lia.
  - eapply commit_books; [done|]. rewrite log_view, sync_view; [done|apply Hs|done].
Qed.

Lemma credit_books d d' a t u k z r x : books_ok d -> create_credit_note d a t u k z r = Ok (x, d') -> books_ok d'.
Proof.
  intros Hok H. unfold create_credit_note in H. back H. rename x1 into w.
  apply load_invoice_in in M as [Hi Ek]; [|done|apply Hok]. simpl in Hi. subst k.
  apply w_flush_ok in M0 as (-> & Hs & _).
  apply (sync_books x0 (mk_Work (flush (session (w_add finance_credit_notes
    (credit_row a t u (FinanceInvoice.id x0) (next_credit_number t (begin d)) z r) (begin d)))) [] [])); [done|done| |done].
  rewrite credits_of_begin in G1 by done. apply Z.leb_le in G1.
  unfold valid_credit, in_range in G. assert (1 <= z) by (bdestruct (1 <=? z); [done|done]).
  apply (books_add_credit (view d)); simpl; [apply Hok|lia|].
  intros y Hy. rewrite (totals_in _ _ x0 _ (so_invoices _ (proj1 Hok)) Hy Hi) by done.
  fold (credit_of (FinanceInvoice.id x0) (finance_credit_notes d)) in G1. lia.
Qed.

Lemma get_begin {R} `{Keyed R} (T : FinanceDb -> list R) k d r : NoDup (keys (T d)) ->
  get T k (session (begin d)) = Some r -> r ∈ T d /\ key r = k.
Proof.
  intros Hn Hg. pose proof (get_key T _ _ _ Hg). rewrite get_synced in Hg by done. by apply find_row_elem in Hg.
Qed.

Lemma refund_books d d' a b t u p x : books_ok d -> create_refund d a b t u p = Ok (x, d') -> books_ok d'.
Proof.
  intros Hok H. unfold create_refund in H. back H. rename f into q.
  apply get_begin in S as [Hq Ek]; [|apply Hok]. apply w_flush_ok in M0 as (-> & Hs & _).
  apply load_invoice_in in M1 as [Hi Ei]; [|done|apply Hs].
  eapply commit_books; [done|]. rewrite log_view, sync_view; [|apply Hs|done].
  unfold valid_refund, in_range in G. assert (1 <= RefundCreate.amount_minor p) by (bdestruct (1 <=? RefundCreate.amount_minor p); done).
  apply Z.leb_le in G0. unfold payment_refunded_minor, sql_sum in G0. simpl in G0.
  apply (books_add_refund (view d) _ q); simpl; [apply Hok|lia|apply Hok|done|done|done|].
  unfold refunds_on. lia.
Qed.

Lemma delete_payment_books d d' k : books_ok d -> delete_finance_payment d k = Ok d' -> books_ok d'.
Proof.
  intros Hok H. unfold delete_finance_payment in H. back H. rename f into q.
  apply get_begin in S as [Hq Ek]; [|apply Hok]. apply w_flush_ok in M as (-> & Hs & _).
  apply load_invoice_in in M0 as [Hi Ei]; [|done|apply Hs].
  eapply commit_books; [done|]. rewrite sync_view; [|apply Hs|done].
  rewrite <- Ek. apply (books_delete_payment (view d)); [apply Hok|apply Hok|done].
Qed.

Lemma delete_invoice_books d d' k : books_ok d -> delete_finance_invoice d k = Ok d' -> books_ok d'.
Proof.
  intros Hok H. unfold delete_finance_invoice in H. back H. eapply commit_books; [done|].
  assert (forall R (HF : FinanceRow R) (l : list R) w, mem (session (touch_all l w)) = mem (session w)) as Ht.
  { intros R HF l. induction l as [|r l IH]; intros w; [done|]. simpl. by rewrite IH. }
  assert (forall l, totals (List.filter (fun r => negb (FinanceInvoice.id r =? k)) l) =
    List.filter (fun kt => negb (fst kt =? k)) (totals l)) as Hf by (intros l; unfold totals; by rewrite filter_map).
  simpl. rewrite !Ht. unfold view. simpl. rewrite Hf.
  apply (books_delete_invoice (view d)); apply Hok.
Qed.

Lemma create_books d d' a b t u p x : books_ok d -> create_finance_invoice d a b t u p = Ok (x, d') -> books_ok d'.
Proof.
  intros Hok H. unfold create_finance_invoice in H. back H.
  destruct Hok as [Hs Hb]. apply w_flush_ok in M0 as (-> & Hs' & _). eapply commit_books; [done|].
  pose proof (keys_snoc_fresh (finance_invoices d) _ (so_invoices _ Hs')) as Hf.
  assert (forall k, k ∈ keys (finance_invoices d) -> k <> a) as Hfresh.
  { unfold keys. intros k (j & -> & Hj)%list_elem_of_fmap. by apply Hf. }
  unfold view. simpl. unfold totals. rewrite map_app. apply (books_totals (view d)); [done|]. simpl.
  intros k z [Hk | [= -> ->]%list_elem_of_singleton]%elem_of_app; [by left|right].
  unfold valid_invoice, in_range in G. repeat (apply andb_true_iff in G as [G ?]). split_and!.
  - simpl in *. repeat match goal with Hr : _ && _ = true |- _ => apply andb_true_iff in Hr as [] end.
    repeat match goal with Hr : (_ <=? _) = true |- _ => apply Z.leb_le in Hr end. nia.
  - intros q Hq E. apply (Hfresh a); [|done]. apply (so_payment_invoice _ Hs). rewrite <- E.
    by apply list_elem_of_fmap_2.
  - intros q Hq E. apply (Hfresh a); [|done]. apply (so_credit_invoice _ Hs). rewrite <- E.
    by apply list_elem_of_fmap_2.
Qed.

(** Rows that carry no amounts leave the books alone. *)
Lemma same_view_books d w d' : books_ok d -> view (mem (session w)) = view d -> w_commit w = Ok d' -> books_ok d'.
Proof. intros [_ Hb] E H. eapply commit_books; [done|]. by rewrite E. Qed.

Lemma zlen_zero {A} (l : list A) : zlen l = 0 -> l = [].
Proof. destruct l; [done|]. unfold zlen. simpl. lia. Qed.
Lemma filter_nil {A} (p : A -> bool) l : List.filter p l = [] -> forall x, x ∈ l -> p x = false.
Proof.
  intros E x Hx. destruct (p x) eqn:Ep; [|done]. assert (x ∈ List.filter p l) as Hin by by apply elem_filter.
  rewrite E in Hin. by apply not_elem_of_nil in Hin.
Qed.

Lemma edit_books d d' a b t u k p x : books_ok d -> edit_draft_invoice d a b t u k p = Ok (x, d') -> books_ok d'.
Proof.
  intros Hok H. unfold edit_draft_invoice in H. back H. apply load_invoice_in in M as [Hi Ek]; [|done|apply Hok]. subst k.
  eapply commit_books; [done|]. rewrite log_view.
  assert (forall (w : Work), view (mem (session match items_of (begin d) (FinanceInvoice.id x0) with
     | [] => w_add finance_invoice_items (edited_item (edited_invoice p x0)
              (invoice_item a t (FinanceInvoice.id x0) 1 EmptyString EmptyString 0 0 0)) w
     | item :: _ => w_put finance_invoice_items (edited_item (edited_invoice p x0) item) w end)) = view (mem (session w))) as ->.
  { intros w. by destruct (items_of _ _). }
  apply andb_true_iff in G1 as [Hp Hc]. apply Z.eqb_eq, zlen_zero in Hp, Hc.
  rewrite payments_of_begin in Hp by done. rewrite credits_of_begin in Hc by done.
  pose proof (filter_nil _ _ Hp) as Hp'. pose proof (filter_nil _ _ Hc) as Hc'.
  apply (books_totals (view d)); [apply Hok|]. simpl. intros k z Hk. unfold totals in Hk.
  apply list_elem_of_fmap in Hk as (j & [= -> ->] & [-> | Hj]%put_row_elem); [right|left; by apply in_totals].
  unfold valid_invoice, in_range in G. repeat (apply andb_true_iff in G as [G ?]). split_and!.
  - simpl. repeat match goal with Hr : _ && _ = true |- _ => apply andb_true_iff in Hr as [] end.
    repeat match goal with Hr : (_ <=? _) = true |- _ => apply Z.leb_le in Hr end. nia.
  - intros q Hq E. specialize (Hp' q Hq). by apply Z.eqb_neq in Hp'.
  - intros q Hq E. specialize (Hc' q Hq). by apply Z.eqb_neq in Hc'.
Qed.

Lemma cancel_books d d' t k x : books_ok d -> cancel_finance_invoice d t k = Ok (x, d') -> books_ok d'.
Proof.
  intros Hok H. unfold cancel_finance_invoice in H. back H. apply load_invoice_in in M as [Hi Ek]; [|done|apply Hok].
  eapply same_view_books; [done| |done]. unfold view. simpl. f_equal. apply (totals_put _ x0); [apply Hok|done..].
Qed.
Lemma import_view t u s i rows acc :
  view (mem (session (fst (fst (fold_left (import_row t u s i) rows acc))))) = view (mem (session (fst (fst acc)))).
Proof.
  revert acc. induction rows as [|r rows IH]; intros acc; [done|]. simpl. rewrite IH.
  destruct acc as [[w n] m]. simpl. by destruct (scalar _ _ _).
Qed.
Lemma import_books d d' b t u s i rows x : books_ok d -> import_bank_rows d b t u s i rows = Ok (x, d') -> books_ok d'.
Proof.
  intros Hok H. unfold import_bank_rows in H. destruct (_ && _) in H; [|done].
  pose proof (import_view t u s i rows (begin d, 0, 0)) as Hv. destruct (fold_left _ _ _) as [[w n] m]. back H.
  eapply same_view_books; [done| |done]. by rewrite log_view.
Qed.
Lemma close_books d d' a b t u y m n x : books_ok d -> close_period d a b t u y m n = Ok (x, d') -> books_ok d'.
Proof.
  intros Hok H. unfold close_period in H. back H. destruct x0 as [row w]. simpl in H.
  assert (view (mem (session w)) = view d) as Hv.
  { destruct (period_of (begin d) y m); back M; [done|].
    apply w_flush_ok in M0 as (-> & _). reflexivity. }
  destruct (_ ==? _) in H; back H; [done|].
  eapply same_view_books; [done| |eassumption]. exact Hv.
Qed.

Lemma post_books d op d' : books_ok d -> post d op = Ok d' -> books_ok d'.
Proof.
  destruct op; simpl; intros Hok H; try (apply committed_ok in H as [x H]).
  - by eapply create_books.
  - by eapply edit_books.
  - by eapply delete_invoice_books.
  - by eapply cancel_books.
  - by eapply record_books.
  - by eapply delete_payment_books.
  - by eapply credit_books.
  - by eapply refund_books.
  - by eapply close_books.
  - unfold open_period in H. back H. eapply same_view_books; [done| |eassumption]. reflexivity.
  - unfold create_expense in H. back H. apply w_flush_ok in M as (-> & _).
    eapply same_view_books; [done| |eassumption]. reflexivity.
  - unfold void_expense in H. back H. eapply same_view_books; [done| |eassumption]. reflexivity.
  - by eapply import_books.
  - by eapply reconcile_books.
  - unfold ignore_bank_row in H. back H. eapply same_view_books; [done| |eassumption]. reflexivity.
Qed.
Lemma run_books ops d : books_ok d -> books_ok (run ops d).
Proof.
  revert d. induction ops as [|op ops IH]; intros d Hok; [done|]. simpl. apply IH. unfold handle.
  destruct (post d op) eqn:E; [by eapply post_books|done].
Qed.
Lemma books_empty : books_ok empty_FinanceDb.
Proof.
  split; [apply (check_schema_ok _ tt); vm_compute; reflexivity|].
  constructor; simpl; intros; match goal with Hin : _ ∈ [] |- _ => by apply not_elem_of_nil in Hin end.
Qed.

(** C29. Whatever requests the ledger serves, in any order, starting from an
    empty database or any database with sound books: on every invoice the
    credit notes stay within its total and the payments net of refunds stay
    between zero and its total, and on every payment the refunds stay within its
    amount; the amounts that the code clips at zero never need clipping. *)
Theorem ledger_balanced (ops : list Posting) (d : FinanceDb) :
  books_ok d ->
  let d' := run ops d in
  (forall i, i ∈ finance_invoices d' ->
     0 <= credit_of (FinanceInvoice.id i) (finance_credit_notes d') <= FinanceInvoice.total_minor i /\
     0 <= gross_of (FinanceInvoice.id i) (finance_payments d') - refunded_of (FinanceInvoice.id i) (finance_refunds d')
       <= FinanceInvoice.total_minor i /\
     paid_minor (begin d') i =
       gross_of (FinanceInvoice.id i) (finance_payments d') - refunded_of (FinanceInvoice.id i) (finance_refunds d') /\
     adjusted_total_minor (begin d') i = FinanceInvoice.total_minor i - credit_of (FinanceInvoice.id i) (finance_credit_notes d')) /\
  (forall p, p ∈ finance_payments d' ->
     0 <= payment_refunded_minor (begin d') p <= FinancePayment.amount_minor p).
Proof.
  intros Hok d'. assert (books_ok d') as Hok' by by apply run_books. clearbody d'. split.
  - intros i Hi. rewrite paid_begin, adjusted_begin by done. pose proof (balance_begin d' Hok' i Hi).
    pose proof (refunded_within_gross d' Hok' i). pose proof (credit_nonneg d' Hok' (FinanceInvoice.id i)). lia.
  - intros p Hp. split; [apply sum_filter_pos, (b_refunds _ (proj2 Hok'))|by apply (b_refunds_on _ (proj2 Hok'))].
Qed.

(** ** Locked periods *)
Definition dated {R} `{FinanceRow R} (key : Z * Z) (r : R) : bool :=
  match accounting_date r with Some x => period_key x ==? key | None => false end.
Definition of_period {R} `{FinanceRow R} (key : Z * Z) (t : list R) : list R := List.filter (dated key) t.
(** The bank transaction without its links to the ledger. *)
Definition unlinked (r : FinanceBankTransaction) : FinanceBankTransaction :=
  r <| FinanceBankTransaction.matched_invoice_id := None |> <| FinanceBankTransaction.matched_payment_id := None |>.

(** [r'] is [r], but a link may have been cleared: it is never set or moved. *)
Record link_kept (r r' : FinanceBankTransaction) : Prop := {
  lk_unlinked : unlinked r' = unlinked r;
  lk_invoice : FinanceBankTransaction.matched_invoice_id r' = FinanceBankTransaction.matched_invoice_id r \/
    FinanceBankTransaction.matched_invoice_id r' = None;
  lk_payment : FinanceBankTransaction.matched_payment_id r' = FinanceBankTransaction.matched_payment_id r \/
    FinanceBankTransaction.matched_payment_id r' = None
}.
#[export] Instance link_kept_preorder : PreOrder link_kept.
Proof.
  split; [by split; [|left|left]|]. intros a b c [E1 I1 P1] [E2 I2 P2].
  split; [by rewrite E2|destruct I2 as [->|?]; auto|destruct P2 as [->|?]; auto].
Qed.
Definition bank_kept : list FinanceBankTransaction -> list FinanceBankTransaction -> Prop := Forall2 link_kept.
#[export] Instance bank_kept_preorder : PreOrder bank_kept.
Proof. split; unfold bank_kept; apply _. Qed.

Record frozen (k : Z * Z) (d d' : FinanceDb) : Prop := {
  f_locked : locked d k = true -> locked d' k = true;
  f_invoices : of_period k (finance_invoices d') = of_period k (finance_invoices d);
  f_payments : of_period k (finance_payments d') = of_period k (finance_payments d);
  f_credits : of_period k (finance_credit_notes d') = of_period k (finance_credit_notes d);
  f_expenses : of_period k (finance_expenses d') = of_period k (finance_expenses d);
  f_bank : bank_kept (of_period k (finance_bank_transactions d)) (of_period k (finance_bank_transactions d'));
  f_refunds : sublist (of_period k (finance_refunds d')) (of_period k (finance_refunds d))
}.
#[export] Instance frozen_preorder k : PreOrder (frozen k).
Proof.
  split; [by constructor|]. intros a b c [] []. constructor; try (etransitivity; eassumption). auto.
Qed.

Section Frozen.
Context {R : Type} `{Keyed R, FinanceRow R} (k : Z * Z).
Implicit Types (t : list R) (r : R).

End Frozen.


Lemma locked_ext d d' k : finance_accounting_periods d' = finance_accounting_periods d -> locked d' k = locked d k.
Proof. unfold locked. by intros ->. Qed.


(** [b] extends [a] in what it touched. *)
Lemma commit_frozen k d w d' : w_commit w = Ok d' -> frozen k d (mem (session w)) -> frozen k d d'.
Proof. by intros (-> & _)%w_commit_ok. Qed.











(** ** The stored and the computed status *)
Lemma settlement_begin d i : books_ok d ->
  settlement_totals (begin d) i = (paid_minor (begin d) i, credited_minor (begin d) i).
Proof.
  intros Hok. rewrite paid_begin, credited_begin by done. unfold settlement_totals. f_equal.
  pose proof (refunded_within_gross d Hok i). unfold sql_sum. simpl.
  fold (gross_of (FinanceInvoice.id i) (finance_payments d)) (refunded_of (FinanceInvoice.id i) (finance_refunds d)). lia.
Qed.
Definition with_synced_status (w : Work) (i : FinanceInvoice) : FinanceInvoice :=
  match synced_status w i with Some s => i <| FinanceInvoice.status := s |> | None => i end.
Definition is_overdue (w : Work) (today : date) (i : FinanceInvoice) : bool :=
  (paid_minor w i =? 0) && (0 <? adjusted_total_minor w i) && (FinanceInvoice.due_date i <? today) &&
  (FinanceInvoice.status i notin? ["draft"; "failed"; "cancelled"]).

(** The status that [sync_invoice_payment_status] stores is the one
    [effective_invoice_status] computes on any day, except that an unpaid invoice
    past its due date is shown as overdue; this holds for any invoice with an
    amount in sound books. *)
Theorem synced_status_effective (d : FinanceDb) (i : FinanceInvoice) (today : date) :
  books_ok d -> i ∈ finance_invoices d -> 0 < FinanceInvoice.total_minor i ->
  let i' := with_synced_status (begin d) i in
  effective_invoice_status (begin d) today i' =
    if is_overdue (begin d) today i' then "overdue" else FinanceInvoice.status i'.
Proof.
  intros Hok Hi Ht i'. pose proof (balance_begin d Hok i Hi) as Hb. pose proof (credit_nonneg d Hok (FinanceInvoice.id i)) as Hc.
  pose proof (refunded_within_gross d Hok i) as Hr.
  pose proof (paid_begin d Hok i) as Ep. pose proof (adjusted_begin d Hok i Hi) as Ea. pose proof (credited_begin d Hok i) as Ec.
  assert (paid_minor (begin d) i' = paid_minor (begin d) i /\ adjusted_total_minor (begin d) i' = adjusted_total_minor (begin d) i /\
    credited_minor (begin d) i' = credited_minor (begin d) i /\ FinanceInvoice.due_date i' = FinanceInvoice.due_date i) as (E1 & E2 & E3 & E4).
  { unfold i', with_synced_status. by destruct (synced_status (begin d) i). }
  unfold effective_invoice_status, is_overdue. rewrite E1, E2, E3, E4. unfold i', with_synced_status, synced_status.
  rewrite (settlement_begin d i Hok). fold (adjusted_total_minor (begin d) i).
  revert Ep Ea Ec. generalize (paid_minor (begin d) i) (adjusted_total_minor (begin d) i) (credited_minor (begin d) i).
  intros pd adj cr -> -> ->. set (g := gross_of _ _ - _) in *. set (c := credit_of _ _) in *. set (t := FinanceInvoice.total_minor i) in *.
  destruct (FinanceInvoice.status i ==? "cancelled") eqn:Ecan.
  { apply bool_decide_eq_true in Ecan. rewrite Ecan. simpl. by rewrite andb_false_r. }
  destruct ((t - c =? 0) && (0 <? c)) eqn:E5; simpl.
  { apply andb_true_iff in E5 as [E5 _]. apply Z.eqb_eq in E5. rewrite E5. simpl. by rewrite andb_false_r. }
  destruct ((t - c <=? g) && (0 <? t - c)) eqn:E6; simpl.
  { apply andb_true_iff in E6 as [E6 E7]. apply Z.leb_le in E6. apply Z.ltb_lt in E7.
    rewrite (proj2 (Z.eqb_neq g 0)) by lia. done. }
  destruct (0 <? g) eqn:E8; simpl.
  { apply Z.ltb_lt in E8. rewrite (proj2 (Z.eqb_neq g 0)) by lia. done. }
  apply Z.ltb_ge in E8. assert (g = 0) as Eg by lia. rewrite Eg. simpl.
  assert (0 <? t - c = true) as Hpos.
  { apply Z.ltb_lt. destruct (Z.eqb_spec (t - c) 0) as [E0|]; [|lia]. simpl in E5. apply Z.ltb_ge in E5. lia. }
  rewrite Hpos. simpl.
  destruct (FinanceInvoice.sent_at i !=? None); simpl; [by destruct (_ <? today)|].
  destruct (_ || _) eqn:E9; simpl; [by rewrite andb_false_r|]. rewrite Ecan. simpl.
  destruct (_ <? today); simpl; [|done]. by rewrite !orb_false_r.
Qed.

(** ** Document numbers *)
Definition pad4 (n : Z) : string := zero_pad 4 (str_of_Z n).
Definition pad4_ok (n : Z) : bool :=
  (String.compare (pad4 n) (pad4 (n + 1)) ==? Lt) && (int_of_str (pad4 n) ==? Some n) && (after_last_dash (pad4 n) ==? None).
Lemma pad4_table : forallb (fun n => pad4_ok (Z.of_nat n)) (seq 0 (Z.to_nat 9999)) = true.
Proof. vm_compute. reflexivity. Qed.
Lemma pad4_ok_at n : 0 <= n < 9999 -> String.compare (pad4 n) (pad4 (n + 1)) = Lt /\ int_of_str (pad4 n) = Some n /\
  after_last_dash (pad4 n) = None.
Proof.
  intros Hn. pose proof pad4_table as Ht. rewrite forallb_forall in Ht. specialize (Ht (Z.to_nat n)).
  rewrite in_seq, Z2Nat.id in Ht by lia.
  assert (pad4_ok n = true) as H by (apply Ht; lia). unfold pad4_ok in H.
  rewrite !andb_true_iff, !bool_decide_eq_true in H. naive_solver.
Qed.
Lemma compare_lt_trans a b c : String.compare a b = Lt -> String.compare b c = Lt -> String.compare a c = Lt.
Proof.
  intros H1 H2. destruct (String.compare a c) eqn:E; [|done|].
  - apply String.compare_eq_iff in E as ->. rewrite String.compare_antisym, H2 in H1. done.
  - exfalso. apply (cmp_trans _ string_cmp_order a b c); congruence.
Qed.
Lemma pad4_mono a b : 0 <= a -> a < b -> b <= 9999 -> String.compare (pad4 a) (pad4 b) = Lt.
Proof.
  intros Ha Hab Hb. assert (exists n, b = a + 1 + Z.of_nat n) as [n ->] by (exists (Z.to_nat (b - a - 1)); lia). clear Hab.
  induction n as [|n IH]; [rewrite Z.add_0_r; apply pad4_ok_at; lia|].
  apply (compare_lt_trans _ (pad4 (a + 1 + Z.of_nat n))); [apply IH; lia|].
  replace (a + 1 + Z.of_nat (S n)) with (a + 1 + Z.of_nat n + 1) by lia. apply pad4_ok_at. lia.
Qed.
Lemma compare_self s : String.compare s s = Eq.
Proof. induction s as [|c s IH]; [done|]. simpl. unfold Ascii.compare. by rewrite N.compare_refl. Qed.
Lemma compare_common p a b : String.compare (p ++ a) (p ++ b) = String.compare a b.
Proof.
  induction p as [|c p IH]; [done|]. simpl. unfold Ascii.compare. by rewrite N.compare_refl.
Qed.
Lemma after_prefix_append p s : after_prefix p (p ++ s) = Some s.
Proof. induction p as [|c p IH]; [done|]. simpl. by rewrite Ascii.eqb_refl. Qed.
Lemma after_last_dash_append p s : after_last_dash s = None -> after_last_dash ((p ++ "-") ++ s) = Some s.
Proof.
  intros Hs. induction p as [|c p IH].
  - simpl. replace (EmptyString ++ s)%string with s by done. by rewrite Hs.
  - simpl. by rewrite IH.
Qed.

(** As long as a year has fewer than 9999 numbers of a kind, all issued as
    the prefix with four digits, the next number is not among them. *)
Theorem next_number_fresh (prefix : string) (now : time) (numbers : list string) :
  (forall s, s ∈ numbers -> is_Some (after_prefix (number_prefix prefix now) s) ->
     exists n, 1 <= n < 9999 /\ s = (number_prefix prefix now ++ pad4 n)%string) ->
  next_number prefix now numbers ∉ numbers /\
  exists n, 1 <= n <= 9999 /\ next_number prefix now numbers = (number_prefix prefix now ++ pad4 n)%string /\
    forall s m, s ∈ numbers -> 1 <= m <= 9999 -> s = (number_prefix prefix now ++ pad4 m)%string -> m < n.
Proof.
  intros Hn. unfold next_number. fold (pad4 (sequence_after (latest_number (number_prefix prefix now) numbers))).
  assert (exists p, number_prefix prefix now = (p ++ "-")%string) as [p0 Ep0].
  { unfold number_prefix. destruct (civil_of _) as [[y m] dd]. exists (prefix ++ "-" ++ str_of_Z y)%string.
    by rewrite !append_assoc. }
  set (pre := number_prefix prefix now) in *. clearbody pre.
  set (n := sequence_after (latest_number pre numbers)).
  assert (1 <= n <= 9999 /\ forall s m, s ∈ numbers -> 1 <= m <= 9999 -> s = (pre ++ pad4 m)%string -> m < n) as [Hrange Hmax].
  { unfold n, latest_number. set (q := fun s => match after_prefix pre s with Some _ => true | None => false end).
    assert (forall s, s ∈ numbers -> q s = true -> exists n, 1 <= n < 9999 /\ s = (pre ++ pad4 n)%string) as Hq.
    { intros s Hs Eq. apply Hn; [done|]. unfold q in Eq. by destruct (after_prefix pre s). }
    assert (forall s m, s = (pre ++ pad4 m)%string -> q s = true) as Hqm.
    { intros s m ->. unfold q. by rewrite after_prefix_append. }
    destruct (sort_cmp _ _) as [|x l] eqn:Es; simpl.
    - split; [lia|]. intros s m Hs Hm E. exfalso.
      assert (s ∈ sort_cmp (fun a b => String.compare b a) (List.filter q numbers)) as Hin.
      { unfold sort_cmp. rewrite sort_by_elem, elem_filter. eauto. }
      rewrite Es in Hin. by apply not_elem_of_nil in Hin.
    - assert (x ∈ numbers /\ q x = true) as [Hx Eqx].
      { apply elem_filter. rewrite <- (sort_by_elem (cmp_leb (fun a b => String.compare b a))).
        change (x ∈ sort_cmp (fun a b => String.compare b a) (List.filter q numbers)). rewrite Es. left. }
      destruct (Hq x Hx Eqx) as (k & Hk & Ex). destruct (pad4_ok_at k) as (_ & Hint & Hdash); [lia|].
      assert (sequence_after (Some x) = k + 1) as Eseq.
      { assert (after_last_dash x = Some (pad4 k)) as E by (rewrite Ex, Ep0; by apply after_last_dash_append).
        unfold sequence_after. rewrite E, Hint. destruct x; [|done]. by destruct p0; rewrite Ep0 in Ex. }
      unfold sequence_after in Eseq. rewrite Eseq. split; [lia|]. intros s m Hs Hm E.
      pose proof (sort_cmp_sorted (fun a b => String.compare b a) (List.filter q numbers)) as Hsort.
      rewrite Es in Hsort. apply StronglySorted_inv in Hsort as [_ Hall].
      2:{ destruct string_cmp_order as [S T]. split; [intros; apply S|]. intros a b c H1 H2. by apply (T c b a). }
      assert (s ∈ x :: l) as Hin.
      { rewrite <- Es. unfold sort_cmp. rewrite sort_by_elem, elem_filter. eauto. }
      apply elem_of_cons in Hin as [->|Hin].
      + assert (String.compare (pad4 k) (pad4 m) = Eq) as Hc.
        { rewrite <- (compare_common pre), <- E, <- Ex. apply compare_self. } destruct (Z.lt_trichotomy m k) as [H|[H|H]]; [lia|lia|].
        rewrite (pad4_mono k m) in Hc; [done|lia..].
      + rewrite Forall_forall in Hall. specialize (Hall s Hin). rewrite E, Ex, compare_common in Hall.
        destruct (Z.le_gt_cases m k); [lia|]. exfalso. apply Hall.
        rewrite String.compare_antisym, (pad4_mono k m); [done|lia..]. }
  clearbody n. split; [|by exists n].
  intros Hin. specialize (Hmax _ n Hin ltac:(lia) eq_refl). lia.
Qed.

(** * Witnesses *)
Definition demo_invoice : FinanceInvoiceCreate := FinanceInvoiceCreate.mk None "Lerato" "lerato@example.com" EmptyString
  "Hosting" EmptyString EmptyString 1 10000 0 "LSL" 20030 None None.
Definition demo_payment (amount : Z) (day : date) : FinancePaymentCreate :=
  FinancePaymentCreate.mk amount day "bank_transfer" EmptyString EmptyString.
(** October 2024: an invoice of M100, half of it paid, part of the payment
    refunded in November, part of the rest credited. *)
Definition october : time := days 20000.
Definition demo_ops : list Posting :=
  [CreateInvoice 1 2 october 9 demo_invoice;
   RecordPayment 3 october 9 1 (demo_payment 5000 20001);
   CreateRefund 4 5 (days 20040) 9 (RefundCreate.mk 3 1000 20040 "cash" EmptyString "overpaid");
   CreateCredit 6 (days 20041) 9 1 2000 "goodwill"].
Definition demo_books : FinanceDb := run demo_ops empty_FinanceDb.
Lemma demo_books_ok : books_ok demo_books.
Proof. apply run_books, books_empty. Qed.
Definition lock_november : Posting := ClosePeriod 7 8 (days 20090) 9 2024 11 "closed".
Definition closed_books : FinanceDb := run [lock_november] demo_books.

Lemma ledger_balanced_witness :
  map (fun i => (credited_minor (begin demo_books) i, paid_minor (begin demo_books) i, FinanceInvoice.status i))
    (finance_invoices demo_books) = [(2000, 4000, "partial")] /\
  (let d' := run demo_ops empty_FinanceDb in
   (forall i, i ∈ finance_invoices d' ->
     0 <= credit_of (FinanceInvoice.id i) (finance_credit_notes d') <= FinanceInvoice.total_minor i /\
     0 <= gross_of (FinanceInvoice.id i) (finance_payments d') - refunded_of (FinanceInvoice.id i) (finance_refunds d')
       <= FinanceInvoice.total_minor i /\
     paid_minor (begin d') i =
       gross_of (FinanceInvoice.id i) (finance_payments d') - refunded_of (FinanceInvoice.id i) (finance_refunds d') /\
     adjusted_total_minor (begin d') i = FinanceInvoice.total_minor i - credit_of (FinanceInvoice.id i) (finance_credit_notes d')) /\
   (forall p, p ∈ finance_payments d' ->
     0 <= payment_refunded_minor (begin d') p <= FinancePayment.amount_minor p)).
Proof. split; [vm_compute; reflexivity|]. exact (ledger_balanced demo_ops empty_FinanceDb books_empty). Defined.


(** The deletion of the October payment erases the refund of the locked
    November: the foreign key removes it without passing the guard. *)
Theorem cascade_erases_locked_refund :
  locked closed_books (2024, 11) = true /\
  map FinanceRefund.amount_minor (of_period (2024, 11) (finance_refunds closed_books)) = [1000] /\
  (let* d := post closed_books (DeletePayment 3) in Ok (of_period (2024, 11) (finance_refunds d))) = Ok [].
Proof. split_and!; vm_compute; reflexivity. Qed.

Definition the_invoice (d : FinanceDb) : FinanceInvoice := default (FinanceInvoice.new_FinanceInvoice 0 0) (head (finance_invoices d)).
Lemma the_invoice_in d : 0 <? zlen (finance_invoices d) = true -> the_invoice d ∈ finance_invoices d.
Proof. unfold the_invoice. destruct (finance_invoices d); [done|]. left. Qed.
Lemma synced_status_effective_witness :
  FinanceInvoice.status (with_synced_status (begin demo_books) (the_invoice demo_books)) = "partial" /\
  effective_invoice_status (begin demo_books) 20100 (with_synced_status (begin demo_books) (the_invoice demo_books)) =
    if is_overdue (begin demo_books) 20100 (with_synced_status (begin demo_books) (the_invoice demo_books)) then "overdue"
    else FinanceInvoice.status (with_synced_status (begin demo_books) (the_invoice demo_books)).
Proof.
  split; [vm_compute; reflexivity|].
  exact (synced_status_effective demo_books (the_invoice demo_books) 20100 demo_books_ok
    (the_invoice_in demo_books ltac:(vm_compute; reflexivity)) ltac:(vm_compute; reflexivity)).
Defined.

Definition numbers_2024 : list string := ["IM-2024-0001"; "IM-2024-0417"; "IM-2023-9000"].
Lemma next_number_fresh_witness :
  next_number "IM" october numbers_2024 = "IM-2024-0418" /\
  (next_number "IM" october numbers_2024 ∉ numbers_2024 /\
   exists n, 1 <= n <= 9999 /\ next_number "IM" october numbers_2024 = (number_prefix "IM" october ++ pad4 n)%string /\
     forall s m, s ∈ numbers_2024 -> 1 <= m <= 9999 -> s = (number_prefix "IM" october ++ pad4 m)%string -> m < n).
Proof.
  split; [vm_compute; reflexivity|]. apply (next_number_fresh "IM" october numbers_2024).
  intros s Hs [r Hr]. pose proof (Forall_forall (fun s => after_prefix (number_prefix "IM" october) s <> None ->
    exists n, 1 <= n < 9999 /\ s = (number_prefix "IM" october ++ pad4 n)%string) numbers_2024) as [Hall _].
  apply Hall; [|exact Hs|by rewrite Hr]. clear. replace (number_prefix "IM" october) with "IM-2024-" by (vm_compute; reflexivity).
  repeat constructor; [exists 1|exists 417|]; [split; [lia|vm_compute; reflexivity]..|done].
Defined.

(** After number 9999 the order of strings is no longer the one of numbers: the
    next number after 10000 is 10000 again, and every creation collides. *)
Theorem number_10000_repeats :
  next_number "IM" october ["IM-2024-9998"; "IM-2024-9999"; "IM-2024-10000"] = "IM-2024-10000".
Proof. vm_compute. reflexivity. Qed.

(** A fully paid and then fully refunded invoice has its whole total outstanding,
    and no payment can be recorded for it. *)
Definition refunded_books : FinanceDb := run
  [CreateInvoice 1 2 october 9 demo_invoice; RecordPayment 3 october 9 1 (demo_payment 10000 20001);
   CreateRefund 4 5 october 9 (RefundCreate.mk 3 10000 20002 "cash" EmptyString "cancelled card")] empty_FinanceDb.
Theorem refunded_invoice_unpayable :
  outstanding (invoice_financial_out (begin refunded_books) 20003 (the_invoice refunded_books)) = 10000 /\
  record_invoice_payment refunded_books 5 october 9 1 (demo_payment 10000 20003) =
    Err (HTTPException 409 "Invoice is already fully settled").
Proof. split; vm_compute; reflexivity. Qed.

(** The bank reconciliation pays a cancelled invoice, which the payment endpoint
    refuses. *)
Definition cancelled_books : FinanceDb := run
  [CreateInvoice 1 2 october 9 demo_invoice; CancelInvoice october 1;
   ImportBank 3 october 9 "LPB" "manual" [(4, BankRow.mk 20002 10000 "transfer" "IM-2024-0001")]] empty_FinanceDb.
Theorem reconcile_pays_cancelled_invoice :
  record_invoice_payment cancelled_books 5 october 9 1 (demo_payment 10000 20003) =
    Err (HTTPException 409 "Cannot record a payment against a cancelled invoice") /\
  (let* d := post cancelled_books (Reconcile 5 6 october 9 4 1) in
   Ok (map FinanceInvoice.status (finance_invoices d), map FinancePayment.amount_minor (finance_payments d))) =
    Ok (["cancelled"], [10000]).
Proof. split; vm_compute; reflexivity. Qed.

(** Two equal lines in one import: the duplicate check does not see the pending
    row, and the whole import fails on the unique fingerprint. *)
Definition twice : list (uuid * BankRow) := [(4, BankRow.mk 20002 500 "card" "POS"); (5, BankRow.mk 20002 500 "card" "POS")].
Theorem duplicate_in_batch_fails :
  post empty_FinanceDb (ImportBank 3 october 9 "LPB" "manual" twice) = Err (IntegrityError "fingerprint").
Proof. vm_compute. reflexivity. Qed.

(** A valid payload whose total does not fit the [Integer] column: the database
    refuses it with an error the endpoint does not translate. *)
Theorem valid_invoice_overflows :
  let p := FinanceInvoiceCreate.mk None "Lerato" "lerato@example.com" EmptyString "Hosting" EmptyString EmptyString
    10000 2000000000 0 "LSL" 20030 None None in
  valid_invoice p = true /\ post empty_FinanceDb (CreateInvoice 1 2 october 9 p) = Err (DataError "integer out of range").
Proof. split; vm_compute; reflexivity. Qed.

(** ** Tax *)

(** For a rate of at most 100% and any subtotal the endpoint accepts, the
    tax is the exact share [subtotal * rate / 10000], or [subtotal * rate /
    (10000 + rate)] for an inclusive rate, rounded half-even once, although the code divides in floating
    point and rounds twice; net and tax are non-negative and make up the total. *)
Theorem calculate_tax_exact (d : FinanceDb) (k : uuid) (row : FinanceTaxRate) (subtotal : Z) :
  get finance_tax_rates k (open_session d) = Some row -> FinanceTaxRate.active row = true ->
  0 <= FinanceTaxRate.rate_basis_points row <= 10000 -> 0 <= subtotal <= 2000000000 ->
  let bp := FinanceTaxRate.rate_basis_points row in
  exists t, calculate_tax d k subtotal = Ok t /\
    tax_minor t = div_half_even (subtotal * bp) (if FinanceTaxRate.inclusive row then 10000 + bp else 10000) /\
    net_minor t + tax_minor t = total_minor t /\ 0 <= tax_minor t /\ 0 <= net_minor t /\
    (if FinanceTaxRate.inclusive row then total_minor t else net_minor t) = subtotal.
Proof.
  intros Hg Ha Hbp Hs bp. fold bp in Hbp. unfold calculate_tax, in_range.
  rewrite (proj2 (Z.leb_le 0 subtotal)), (proj2 (Z.leb_le subtotal 2000000000)), Hg, Ha by lia.
  eexists. split; [reflexivity|]. fold bp. unfold tax_of, round_ratio. destruct (FinanceTaxRate.inclusive row); simpl.
  - pose proof (div_half_even_bounds (subtotal * bp) (10000 + bp) ltac:(lia)) as Hb.
    assert ((if bp =? 0 then 0 else round_int (of_ratio (subtotal * bp) (10000 + bp))) =
      div_half_even (subtotal * bp) (10000 + bp)) as ->.
    { destruct (Z.eqb_spec bp 0) as [E|_]; [|apply round_div_exact; nia].
      rewrite E, Z.mul_0_r. rewrite E, Z.mul_0_r in Hb. nia. }
    split_and!; nia.
  - pose proof (div_half_even_bounds (subtotal * bp) 10000 ltac:(lia)) as Hb. rewrite round_div_exact by nia.
    split_and!; nia.
Qed.

Definition vat_books : FinanceDb := empty_FinanceDb <| finance_tax_rates :=
  [FinanceTaxRate.new_FinanceTaxRate 1 october <| FinanceTaxRate.rate_basis_points := 1500 |> <| FinanceTaxRate.inclusive := true |>] |>.
Definition vat_row : FinanceTaxRate := default (FinanceTaxRate.new_FinanceTaxRate 0 0) (head (finance_tax_rates vat_books)).
Lemma calculate_tax_exact_witness :
  calculate_tax vat_books 1 11500 = Ok {| net_minor := 10000; tax_minor := 1500; total_minor := 11500 |} /\
  exists t, calculate_tax vat_books 1 11500 = Ok t /\
    tax_minor t = div_half_even (11500 * FinanceTaxRate.rate_basis_points vat_row)
      (if FinanceTaxRate.inclusive vat_row then 10000 + FinanceTaxRate.rate_basis_points vat_row else 10000) /\
    net_minor t + tax_minor t = total_minor t /\ 0 <= tax_minor t /\ 0 <= net_minor t /\
    (if FinanceTaxRate.inclusive vat_row then total_minor t else net_minor t) = 11500.
Proof.
  split; [vm_compute; reflexivity|].
  apply (calculate_tax_exact vat_books 1 vat_row 11500);
    [vm_compute; reflexivity|vm_compute; reflexivity|split; vm_compute; discriminate|lia].
Defined.
