(* ===== verification/FinanceDelivery.v ===== *)
(** Sending invoices: the approval threshold of
    [app/services/finance_governance.py] and its endpoints, [send_invoice] of
    [finance_delivery.py] and its callers ([api/v1/finance.py], the bulk send of
    [finance_control.py]), and the monthly schedules of [finance_recurring.py].
    Rendering a PDF and talking to the SMTP server are arguments. *)
From S2P Require Import Prelude PyFloat FloatFacts Json JsonFacts Calendar Models Session Schema Sha256 Engines FinanceModels FinanceWork FinanceLedger FinanceBooks.
#[local] Open Scope string_scope.
#[local] Open Scope list_scope.
#[local] Open Scope Z_scope.

(** ** Governance *)

(** [FinanceApprovalRequiredError], a subclass of [ValueError]. *)
Definition FinanceApprovalRequiredError (message : string) : exn := ApprovalRequiredError message.
Definition get_governance_setting (new_id : uuid) (now : time) (w : Work) : result (FinanceGovernanceSetting * Work) :=
  match scalar_ordered finance_governance_settings (asc FinanceGovernanceSetting.created_at) (fun _ => true) (session w) with
  | Some row => Ok (row, w)
  | None =>
      let row := FinanceGovernanceSetting.new_FinanceGovernanceSetting new_id now in
      let* w := w_flush (w_add finance_governance_settings row w) in Ok (row, w)
  end.
Definition over_threshold (setting : FinanceGovernanceSetting) (invoice : FinanceInvoice) : bool :=
  FinanceGovernanceSetting.approval_enabled setting &&
  (FinanceGovernanceSetting.invoice_approval_threshold_minor setting <=? FinanceInvoice.total_minor invoice).
Definition invoice_requires_approval (new_id : uuid) (now : time) (invoice : FinanceInvoice) (w : Work) : result (bool * Work) :=
  let* (setting, w) := get_governance_setting new_id now w in
  Ok (over_threshold setting invoice, w).
Definition invoice_approval (w : Work) (invoice_id : uuid) : option FinanceApprovalRequest :=
  scalar finance_approval_requests (fun r => (FinanceApprovalRequest.resource_type r ==? "invoice") &&
    (FinanceApprovalRequest.resource_id r =? invoice_id)) (session w).
Definition ensure_invoice_approved_for_send (new_id : uuid) (now : time) (invoice : FinanceInvoice) (w : Work) : result Work :=
  let* (required, w) := invoice_requires_approval new_id now invoice w in
  if negb required then Ok w
  else
    let number := FinanceInvoice.invoice_number invoice in
    match invoice_approval w (FinanceInvoice.id invoice) with
    | None => Err (FinanceApprovalRequiredError ("Invoice " ++ number ++
        " requires approval before sending because it exceeds the configured approval threshold")%string)
    | Some approval =>
        ensure FinanceApprovalRequest.status approval ==? "approved"
          else_raise FinanceApprovalRequiredError ("Invoice " ++ number ++ " approval status is " ++
            FinanceApprovalRequest.status approval ++ "; it cannot be sent until approved")%string;
        Ok w
    end.

Definition requested_approval (now : time) (user_id : uuid) (note : string) (row : FinanceApprovalRequest) : FinanceApprovalRequest :=
  row <| FinanceApprovalRequest.status := "pending" |> <| FinanceApprovalRequest.request_note := strip note |>
    <| FinanceApprovalRequest.decision_note := EmptyString |> <| FinanceApprovalRequest.requested_by_user_id := Some user_id |>
    <| FinanceApprovalRequest.decided_by_user_id := None |> <| FinanceApprovalRequest.requested_at := now |>
    <| FinanceApprovalRequest.decided_at := None |>.
Definition new_approval (new_id : uuid) (now : time) (invoice_id user_id : uuid) (note : string) : FinanceApprovalRequest :=
  FinanceApprovalRequest.new_FinanceApprovalRequest new_id now
    <| FinanceApprovalRequest.resource_type := "invoice" |> <| FinanceApprovalRequest.resource_id := invoice_id |>
    <| FinanceApprovalRequest.status := "pending" |> <| FinanceApprovalRequest.request_note := strip note |>
    <| FinanceApprovalRequest.requested_by_user_id := Some user_id |>.
Definition request_invoice_approval (new_id : uuid) (now : time) (invoice_id user_id : uuid) (note : string) (w : Work)
    : result (FinanceApprovalRequest * Work) :=
  let '(row, w) :=
    match invoice_approval w invoice_id with
    | None => let row := new_approval new_id now invoice_id user_id note in (row, w_add finance_approval_requests row w)
    | Some row => let row := requested_approval now user_id note row in (row, w_put finance_approval_requests row w)
    end in
  let* w := w_flush w in Ok (row, w).
Definition decide_invoice_approval (now : time) (approved : bool) (user_id : uuid) (note : string) (row : FinanceApprovalRequest)
    : FinanceApprovalRequest :=
  row <| FinanceApprovalRequest.status := if approved then "approved" else "rejected" |>
    <| FinanceApprovalRequest.decision_note := strip note |> <| FinanceApprovalRequest.decided_by_user_id := Some user_id |>
    <| FinanceApprovalRequest.decided_at := Some now |>.

(** The endpoints of [api/v1/finance_governance.py]. *)
Definition update_settings (d : FinanceDb) (new_id audit_id : uuid) (now : time) (current : uuid) (approval_enabled : bool)
    (threshold : Z) : result (FinanceGovernanceSetting * FinanceDb) :=
  ensure in_range 0 2000000000 threshold else_raise validation_error;
  let* (row, w) := get_governance_setting new_id now (begin d) in
  let row := row <| FinanceGovernanceSetting.approval_enabled := approval_enabled |>
    <| FinanceGovernanceSetting.invoice_approval_threshold_minor := threshold |>
    <| FinanceGovernanceSetting.updated_by_user_id := Some current |> in
  let* d := w_commit (log_finance_action audit_id now (Some current) "finance.governance.updated" "finance_governance"
    (Some (str_of_uuid (FinanceGovernanceSetting.id row)))
    [("approval_enabled", JBool approval_enabled); ("invoice_approval_threshold_minor", JInt threshold)]
    (w_put finance_governance_settings row w)) in
  Ok (row, d).
Definition request_approval (d : FinanceDb) (new_id setting_id audit_id : uuid) (now : time) (current invoice_id : uuid) (note : string)
    : result (FinanceApprovalRequest * FinanceDb) :=
  ensure within 0 2000 note else_raise validation_error;
  let w := begin d in
  let* invoice := load_invoice w invoice_id in
  ensure FinanceInvoice.status invoice notin? ["paid"; "cancelled"; "credited"]
    else_raise HTTPException 409 ("Invoice is " ++ FinanceInvoice.status invoice ++ " and cannot enter approval")%string;
  let* (row, w) := request_invoice_approval new_id now (FinanceInvoice.id invoice) current note w in
  let* (required, w) := invoice_requires_approval setting_id now invoice w in
  let* d := w_commit (log_finance_action audit_id now (Some current) "finance.invoice.approval_requested" "finance_invoice"
    (Some (str_of_uuid (FinanceInvoice.id invoice)))
    [("invoice_number", JStr (FinanceInvoice.invoice_number invoice)); ("total_minor", JInt (FinanceInvoice.total_minor invoice));
     ("required_by_threshold", JBool required)] w) in
  Ok (row, d).
Definition decide_approval (d : FinanceDb) (audit_id : uuid) (now : time) (current approval_id : uuid) (approved : bool) (note : string)
    : result (FinanceApprovalRequest * FinanceDb) :=
  ensure within 0 2000 note else_raise validation_error;
  let w := begin d in
  match get finance_approval_requests approval_id (session w) with
  | None => Err (HTTPException 404 "Approval request not found")
  | Some row =>
      let* invoice := load_invoice w (FinanceApprovalRequest.resource_id row) in
      let row := decide_invoice_approval now approved current note row in
      let* d := w_commit (log_finance_action audit_id now (Some current)
        (if approved then "finance.invoice.approved" else "finance.invoice.rejected") "finance_invoice"
        (Some (str_of_uuid (FinanceInvoice.id invoice)))
        [("invoice_number", JStr (FinanceInvoice.invoice_number invoice));
         ("approval_id", JStr (str_of_uuid (FinanceApprovalRequest.id row))); ("note", JStr note)]
        (w_put finance_approval_requests row w)) in
      Ok (row, d)
  end.

(** ** Sending *)
Definition escape_char (c : ascii) : string :=
  let n := ord c in
  if n =? 38 then "&amp;" else if n =? 60 then "&lt;" else if n =? 62 then "&gt;" else if n =? 34 then "&quot;"
  else if n =? 39 then "&#x27;" else String c EmptyString.
Fixpoint escape_html (s : string) : string :=
  match s with EmptyString => EmptyString | String c s => (escape_char c ++ escape_html s)%string end.
(** [s.split("\n\n")] *)
Fixpoint split_blank (fuel : nat) (s acc : string) : list string :=
  match fuel with
  | O => [acc]
  | S fuel =>
      match s with
      | EmptyString => [acc]
      | String a rest =>
          match rest with
          | String b rest' => if (ord a =? 10) && (ord b =? 10) then acc :: split_blank fuel rest' EmptyString
              else split_blank fuel rest (acc ++ String a EmptyString)%string
          | EmptyString => [(acc ++ String a EmptyString)%string]
          end
      end
  end.
Definition attribute (name value : string) : string := (" " ++ name ++ "=" ++ dq ++ value ++ dq)%string.
Definition build_email_html (invoice : FinanceInvoice) : string :=
  let body := FinanceInvoice.email_body invoice in
  let lines := List.filter (fun line => str_truthy (strip line)) (split_blank (String.length body) body EmptyString) in
  let paragraphs := join EmptyString (map (fun line => "<p>" ++ escape_html line ++ "</p>")%string lines) in
  join EmptyString ["<div"; attribute "style" "font-family:Arial,sans-serif;color:#142d50;line-height:1.55;max-width:680px"; ">";
    "<div"; attribute "style" "border-top:5px solid #087743;padding-top:18px"; ">";
    "<h2"; attribute "style" "color:#082b58;margin:0 0 14px"; ">Invoice "; escape_html (FinanceInvoice.invoice_number invoice); "</h2>";
    paragraphs;
    "<p"; attribute "style" "font-size:12px;color:#66778c;margin-top:24px"; ">";
    "Ithute Digital Solutions "; String (chr 194) (String (chr 183) EmptyString); " iMail ";
    String (chr 194) (String (chr 183) EmptyString); " ithute.co.ls</p></div></div>"].

Record Mail : Type := mk_Mail {
  recipient : string; subject : string; text_body : string; html_body : string;
  attachment_filename : string; attachment_data : list Z }.
Definition delivery_event (event_id : uuid) (now : time) (invoice_id : uuid) (event_type message_id detail : string)
    : FinanceDeliveryEvent :=
  FinanceDeliveryEvent.new_FinanceDeliveryEvent event_id now
    <| FinanceDeliveryEvent.invoice_id := invoice_id |> <| FinanceDeliveryEvent.event_type := event_type |>
    <| FinanceDeliveryEvent.source := "finance_smtp" |> <| FinanceDeliveryEvent.provider_message_id := message_id |>
    <| FinanceDeliveryEvent.detail := detail |> <| FinanceDeliveryEvent.occurred_at := now |>.

(** What a call does to the outside and to its session: the mails the server
    accepted, and the outcome; a failed call leaves the session to be rolled back. *)
Record Sending (A : Type) : Type := mk_Sending { mails : list Mail; outcome : result A }.
Arguments mk_Sending {A} _ _.
Arguments mails {A} _.
Arguments outcome {A} _.

Section Sending.
(** The renderer and the SMTP server: a provider's message id (empty when it
    gives none) or the exception raised. *)
Context (render_invoice_pdf : FinanceDb -> FinanceInvoice -> result (list Z)) (send_finance_message : FinanceDb -> Mail -> result string).

Definition invoice_mail (invoice : FinanceInvoice) (pdf : list Z) : Mail :=
  mk_Mail (FinanceInvoice.recipient_email invoice) (FinanceInvoice.email_subject invoice) (FinanceInvoice.email_body invoice)
    (build_email_html invoice) (FinanceInvoice.invoice_number invoice ++ ".pdf")%string pdf.
Definition sent_invoice (now : time) (invoice : FinanceInvoice) : FinanceInvoice :=
  invoice <| FinanceInvoice.status := "sent" |> <| FinanceInvoice.sent_at := Some now |> <| FinanceInvoice.last_error := None |>.
(** [send_invoice].  On an exception of the mailing the code marks the invoice
    failed and adds an event and a log row to the session before raising again;
    every caller then rolls that session back. *)
Definition send_invoice (setting_id event_id audit_id : uuid) (now : time) (invoice : FinanceInvoice) (w : Work) : Sending Work :=
  match (let* w := ensure_invoice_approved_for_send setting_id now invoice w in
         let* pdf := render_invoice_pdf (mem (session w)) invoice in Ok (w, pdf)) with
  | Err e => mk_Sending [] (Err e)
  | Ok (w, pdf) =>
      let mail := invoice_mail invoice pdf in
      match send_finance_message (mem (session w)) mail with
      | Err e => mk_Sending [] (Err e)
      | Ok message_id =>
          let w := w_put finance_invoices (sent_invoice now invoice) w in
          let w := w_add finance_delivery_events (delivery_event event_id now (FinanceInvoice.id invoice) "accepted" message_id
            "SMTP server accepted the outbound message for delivery") w in
          mk_Sending [mail] (Ok (log_finance_action audit_id now None "finance.invoice.sent" "finance_invoice"
            (Some (str_of_uuid (FinanceInvoice.id invoice)))
            [("invoice_number", JStr (FinanceInvoice.invoice_number invoice));
             ("recipient", JStr (FinanceInvoice.recipient_email invoice)); ("delivery_state", JStr "accepted");
             ("provider_message_id", JStr message_id)] w))
      end
  end.

(** [_persist_send_failure], after the rollback *)
Definition persist_send_failure (d : FinanceDb) (invoice_id : uuid) (error : exn) : result FinanceDb :=
  let w := begin d in
  match get finance_invoices invoice_id (session w) with
  | None => Ok d
  | Some failed =>
      w_commit (w_put finance_invoices (failed <| FinanceInvoice.status := "failed" |>
        <| FinanceInvoice.last_error := Some (str_take 2000 (exn_str error)) |>) w)
  end.
Definition send_error (e : exn) : exn :=
  match e with
  | ValueError m => HTTPException 409 m
  | _ => HTTPException 502 ("Invoice email could not be sent: " ++ str_take 300 (exn_str e))
  end.
(** The mails, the answer and the committed database. *)
Definition send_finance_invoice (d : FinanceDb) (setting_id event_id audit_id : uuid) (now : time) (invoice_id : uuid) (resend : bool)
    : list Mail * result FinanceInvoice * FinanceDb :=
  let w := begin d in
  match load_invoice w invoice_id with
  | Err e => ([], Err e, d)
  | Ok invoice =>
      let status := FinanceInvoice.status invoice in
      if status in? ["paid"; "cancelled"; "credited"] then
        ([], Err (HTTPException 409 ("Invoice is " ++ status ++ " and cannot be sent")), d)
      else if (status ==? "sent") && negb resend then
        ([], Err (HTTPException 409 "Invoice has already been sent; explicitly request a resend if required"), d)
      else
        let s := send_invoice setting_id event_id audit_id now invoice w in
        match (let* w := outcome s in w_commit w) with
        | Ok d' => (mails s, Ok (sent_invoice now invoice), d')
        | Err (ApprovalRequiredError m) => (mails s, Err (HTTPException 409 m), d)
        | Err e => match persist_send_failure d invoice_id e with
            | Ok d' => (mails s, Err (send_error e), d')
            | Err e' => (mails s, Err e', d)
            end
        end
  end.

(** One turn of [bulk_send_invoices]; [fresh] gives the new primary keys. *)
Definition bulk_turn (setting_id : uuid) (fresh : uuid -> Z -> uuid) (now : time) (resend : bool)
    (acc : list Mail * list uuid * list (uuid * string) * FinanceDb) (invoice_id : uuid)
    : list Mail * list uuid * list (uuid * string) * FinanceDb :=
  let '(out, sent, failed, d) := acc in
  let refuse message := (out, sent, failed ++ [(invoice_id, message)], d) in
  match scalar finance_invoices (fun r => FinanceInvoice.id r =? invoice_id) (session (begin d)) with
  | None => refuse "Invoice not found"
  | Some invoice =>
      let status := FinanceInvoice.status invoice in
      if status in? ["paid"; "cancelled"; "credited"] then refuse ("Invoice is " ++ status)%string
      else if (status ==? "sent") && negb resend then refuse "Already sent"
      else
        let s := send_invoice setting_id (fresh invoice_id 0) (fresh invoice_id 1) now invoice (begin d) in
        match (let* w := outcome s in w_commit w) with
        | Ok d' => (out ++ mails s, sent ++ [invoice_id], failed, d')
        | Err e => (out ++ mails s, sent, failed ++ [(invoice_id, str_take 300 (exn_str e))], d)
        end
  end.
Definition bulk_send_invoices (d : FinanceDb) (setting_id audit_id : uuid) (fresh : uuid -> Z -> uuid) (now : time) (current : uuid)
    (invoice_ids : list uuid) (resend : bool) : list Mail * result (list uuid * list (uuid * string) * FinanceDb) :=
  if negb (in_range 1 100 (zlen invoice_ids)) then ([], Err validation_error)
  else
    let '(out, sent, failed, d) := fold_left (bulk_turn setting_id fresh now resend) invoice_ids ([], [], [], d) in
    (out, let* d := w_commit (log_finance_action audit_id now (Some current) "finance.bulk.invoice_send" "finance_bulk"
        (Some "invoice-send")
        [("requested", JInt (zlen invoice_ids)); ("sent", JInt (zlen sent)); ("failed", JInt (zlen failed)); ("resend", JBool resend)]
        (begin d)) in Ok (sent, failed, d)).

(** ** Monthly schedules *)
Definition effective_send_day (year month requested_day : Z) : Z := Z.min (Z.max 1 requested_day) (days_in_month year month).
Definition schedule_invoice (new_id : uuid) (now : time) (number : string) (schedule : FinanceInvoiceSchedule) (issue_date : date)
    : FinanceInvoice :=
  let subtotal := FinanceInvoiceSchedule.quantity schedule * FinanceInvoiceSchedule.rate_minor schedule in
  let total := subtotal + FinanceInvoiceSchedule.tax_minor schedule in
  let due_date := issue_date + FinanceInvoiceSchedule.due_days schedule in
  FinanceInvoice.new_FinanceInvoice new_id now
    <| FinanceInvoice.invoice_number := number |> <| FinanceInvoice.client_id := FinanceInvoiceSchedule.client_id schedule |>
    <| FinanceInvoice.client_name := FinanceInvoiceSchedule.client_name schedule |>
    <| FinanceInvoice.recipient_email := FinanceInvoiceSchedule.recipient_email schedule |>
    <| FinanceInvoice.client_address := FinanceInvoiceSchedule.client_address schedule |>
    <| FinanceInvoice.description := FinanceInvoiceSchedule.description schedule |>
    <| FinanceInvoice.details := FinanceInvoiceSchedule.details schedule |>
    <| FinanceInvoice.service_period := month_year issue_date |>
    <| FinanceInvoice.quantity := FinanceInvoiceSchedule.quantity schedule |>
    <| FinanceInvoice.rate_minor := FinanceInvoiceSchedule.rate_minor schedule |>
    <| FinanceInvoice.tax_minor := FinanceInvoiceSchedule.tax_minor schedule |>
    <| FinanceInvoice.subtotal_minor := subtotal |> <| FinanceInvoice.total_minor := total |>
    <| FinanceInvoice.currency := FinanceInvoiceSchedule.currency schedule |> <| FinanceInvoice.due_date := due_date |>
    <| FinanceInvoice.status := "draft" |>
    <| FinanceInvoice.email_subject := build_default_subject number (FinanceInvoiceSchedule.client_name schedule) |>
    <| FinanceInvoice.email_body := build_default_email_body number (FinanceInvoiceSchedule.client_name schedule)
         (FinanceInvoiceSchedule.description schedule) total (FinanceInvoiceSchedule.currency schedule) due_date |>
    <| FinanceInvoice.created_by_user_id := FinanceInvoiceSchedule.created_by_user_id schedule |>.
Definition make_invoice (new_id item_id : uuid) (now : time) (schedule : FinanceInvoiceSchedule) (issue_date : date) (w : Work)
    : result (FinanceInvoice * Work) :=
  let invoice := schedule_invoice new_id now (next_invoice_number now w) schedule issue_date in
  let* w := w_flush (w_add finance_invoices invoice w) in
  let item := invoice_item item_id now new_id 1 (FinanceInvoiceSchedule.description schedule) (FinanceInvoiceSchedule.details schedule)
    (FinanceInvoiceSchedule.quantity schedule) (FinanceInvoiceSchedule.rate_minor schedule) (FinanceInvoiceSchedule.tax_minor schedule) in
  let* w := w_flush (w_add finance_invoice_items item w) in
  Ok (invoice, w).

(** [strftime("%Y-%m")] *)
Definition period_string (value : date) : string := period_label (period_key value).
Definition schedule_due (today : date) (schedule : FinanceInvoiceSchedule) : bool :=
  let '(y, m, day) := civil_of today in
  (FinanceInvoiceSchedule.last_sent_period schedule !=? Some (period_string today)) &&
  (effective_send_day y m (FinanceInvoiceSchedule.send_day schedule) <=? day).
(** The body of the loop; [fresh] gives the primary keys of the new rows. *)
Definition schedule_attempt (fresh : uuid -> Z -> uuid) (now : time) (schedule : FinanceInvoiceSchedule) (d : FinanceDb)
    : Sending FinanceDb :=
  let today := date_of_time now in
  let k := FinanceInvoiceSchedule.id schedule in
  match make_invoice (fresh k 0) (fresh k 1) now schedule today (begin d) with
  | Err e => mk_Sending [] (Err e)
  | Ok (invoice, w) =>
      let s := send_invoice (fresh k 2) (fresh k 3) (fresh k 4) now invoice w in
      mk_Sending (mails s)
        (let* w := outcome s in
         w_commit (w_put finance_invoice_schedules (schedule
           <| FinanceInvoiceSchedule.last_sent_period := Some (period_string today) |>
           <| FinanceInvoiceSchedule.last_error := None |>) w))
  end.
Record Batch : Type := mk_Batch { b_mails : list Mail; b_sent : Z; b_db : FinanceDb }.
Definition schedule_turn (fresh : uuid -> Z -> uuid) (now : time) (acc : Batch) (schedule_id : uuid) : result Batch :=
  let d := b_db acc in
  match find_row schedule_id (finance_invoice_schedules d) with
  | None => Ok acc
  | Some schedule =>
      if negb (schedule_due (date_of_time now) schedule) then Ok acc
      else
        let s := schedule_attempt fresh now schedule d in
        match outcome s with
        | Ok d' => Ok (mk_Batch (b_mails acc ++ mails s) (b_sent acc + 1) d')
        | Err e =>
            let* d' := w_commit (w_put finance_invoice_schedules
              (schedule <| FinanceInvoiceSchedule.last_error := Some (str_take 2000 (exn_str e)) |>) (begin d)) in
            Ok (mk_Batch (b_mails acc ++ mails s) (b_sent acc) d')
        end
  end.
Fixpoint schedule_loop (fresh : uuid -> Z -> uuid) (now : time) (acc : Batch) (ids : list uuid) : result Batch :=
  match ids with
  | [] => Ok acc
  | k :: ids => let* acc := schedule_turn fresh now acc k in schedule_loop fresh now acc ids
  end.
(** [process_due_finance_schedules]; [lock] is the answer of the advisory lock. *)
Definition process_due_finance_schedules (fresh : uuid -> Z -> uuid) (now : time) (lock : bool) (d : FinanceDb) : result Batch :=
  if negb lock then Ok (mk_Batch [] 0 d)
  else
    schedule_loop fresh now (mk_Batch [] 0 d)
      (map FinanceInvoiceSchedule.id (select_ordered finance_invoice_schedules (asc FinanceInvoiceSchedule.created_at)
         FinanceInvoiceSchedule.enabled (session (begin d)))).
End Sending.

(** * Properties *)

(** ** What a flush keeps *)
Definition clean (w : Work) : Prop :=
  touched w = [] /\ integers w = [] /\ sql (session w) = mem (session w) /\ check_schema (mem (session w)) = Ok tt.
Lemma flush_clean w w' : w_flush w = Ok w' -> clean w' /\ mem (session w') = mem (session w) /\
  forallb int4 (integers w) = true /\ Forall (fun x => locked (sql (session w)) (period_key x) = false) (touched w).
Proof.
  intros H. pose proof (w_flush_ok _ _ H) as (-> & _ & Ht & Hi). unfold w_flush in H.
  destruct (List.find _ _); [done|]. destruct (forallb _ _) eqn:Ei; [|done]. apply rbind_ok in H as ([] & Hs & _). by split_and!.
Qed.
Lemma commit_clean w : Forall (fun x => locked (sql (session w)) (period_key x) = false) (touched w) ->
  forallb int4 (integers w) = true -> check_schema (mem (session w)) = Ok tt -> w_commit w = Ok (mem (session w)).
Proof.
  intros Ht Hi Hs. unfold w_commit, w_flush.
  assert (List.find (fun value => locked (sql (session w)) (period_key value)) (touched w) = None) as ->.
  { induction Ht as [|x l Hx _ IH]; [done|]. simpl. by rewrite Hx. }
  by rewrite Hi, Hs.
Qed.

(** The schema looks at keys, numbers and references only. *)
Lemma check_schema_ext d d' :
  keys (finance_invoices d') = keys (finance_invoices d) ->
  map FinanceInvoice.invoice_number (finance_invoices d') = map FinanceInvoice.invoice_number (finance_invoices d) ->
  keys (finance_invoice_schedules d') = keys (finance_invoice_schedules d) ->
  d' = d <| finance_invoices := finance_invoices d' |> <| finance_invoice_schedules := finance_invoice_schedules d' |>
         <| finance_delivery_events := finance_delivery_events d' |> <| audits := audits d' |> ->
  check_schema d' = check_schema d.
Proof.
  intros E1 E2 E3 ->. destruct d, d'. simpl in *. unfold check_schema. simpl. by rewrite E1, E2, E3.
Qed.
Lemma map_put_same {R B} `{Keyed R} (f : R -> B) r r0 t : NoDup (keys t) -> r0 ∈ t -> key r = key r0 -> f r = f r0 ->
  map f (put_row r t) = map f t.
Proof.
  intros Hn Hr Ek Ef. unfold put_row. rewrite map_map. apply map_ext_in. intros x Hx%list_elem_of_In.
  bdestruct (key x =? key r); [|done]. assert (x = r0) as -> by (apply (key_inj t); [done..|congruence]). done.
Qed.
Lemma map_put_none {R B} `{Keyed R} (f : R -> B) r t : key r ∉ keys t -> map f (put_row r t) = map f t.
Proof. intros Hk. by rewrite put_row_notin. Qed.

Section Facts.
Context (render_invoice_pdf : FinanceDb -> FinanceInvoice -> result (list Z)) (send_finance_message : FinanceDb -> Mail -> result string).
Notation send := (send_invoice render_invoice_pdf send_finance_message).

Lemma setting_keeps a t w row w' : clean w -> get_governance_setting a t w = Ok (row, w') ->
  clean w' /\ mem (session w') = (mem (session w)) <| finance_governance_settings := finance_governance_settings (mem (session w')) |>.
Proof.
  intros Hc. unfold get_governance_setting. destruct (scalar_ordered _ _ _ _).
  - intros [= _ <-]. split; [done|]. by destruct (mem (session w)).
  - intros H. apply rbind_ok in H as (x & (Hx & Em & _)%flush_clean & [= _ <-]). split; [done|]. rewrite Em. done.
Qed.
Lemma approved_keeps a t i w w' : clean w -> ensure_invoice_approved_for_send a t i w = Ok w' ->
  clean w' /\ mem (session w') = (mem (session w)) <| finance_governance_settings := finance_governance_settings (mem (session w')) |>.
Proof.
  intros Hc H. unfold ensure_invoice_approved_for_send, invoice_requires_approval in H.
  apply rbind_ok in H as ([required w1] & H1 & H). apply rbind_ok in H1 as ([row w2] & H1 & [= _ <-]).
  apply setting_keeps in H1 as Hk; [|done]. destruct (negb required); [by injection H as <-|].
  destruct (invoice_approval w2 _); [|done]. destruct (_ ==? _) in H; [|done]. by injection H as <-.
Qed.
Lemma send_ok a b c t i w w' : clean w -> outcome (send a b c t i w) = Ok w' ->
  exists w1 pdf, clean w1 /\ mails (send a b c t i w) = [invoice_mail i pdf] /\
    mem (session w1) = (mem (session w)) <| finance_governance_settings := finance_governance_settings (mem (session w1)) |> /\
    sql (session w') = mem (session w1) /\ touched w' = [date_of_time (FinanceInvoice.created_at i)] /\
    integers w' = integer_columns i /\
    mem (session w') = (mem (session w1)) <| finance_invoices ::= put_row (sent_invoice t i) |>
      <| finance_delivery_events := finance_delivery_events (mem (session w')) |> <| audits := audits (mem (session w')) |>.
Proof.
  intros Hc. unfold send_invoice. destruct (rbind _ _) as [[w1 pdf]|e] eqn:E; [|done]. simpl.
  apply rbind_ok in E as (w2 & E1 & E2). apply rbind_ok in E2 as (p & _ & [= -> ->]).
  apply approved_keeps in E1 as [Hc1 Hm1]; [|done].
  destruct (send_finance_message _ _) as [id|e]; [|done]. simpl. intros [= <-]. exists w1, pdf.
  destruct Hc1 as (Ht & Hi & Hs & Hk). simpl. rewrite Ht, Hi, Hs. split_and!; done.
Qed.
Lemma send_no_mail a b c t i w e : outcome (send a b c t i w) = Err e -> mails (send a b c t i w) = [].
Proof.
  unfold send_invoice. destruct (rbind _ _) as [[w1 pdf]|e'] eqn:E; [|done]. simpl. by destruct (send_finance_message _ _).
Qed.
End Facts.

Definition schedule_ok (s : FinanceInvoiceSchedule) : bool := forallb int4 (integer_columns s).
(** A committed database whose constraints hold. *)
Definition stored (d : FinanceDb) : Prop :=
  check_schema d = Ok tt /\ Forall (fun s => schedule_ok s = true) (finance_invoice_schedules d).
Definition marked (period : string) (s : FinanceInvoiceSchedule) : FinanceInvoiceSchedule :=
  s <| FinanceInvoiceSchedule.last_sent_period := Some period |> <| FinanceInvoiceSchedule.last_error := None |>.

Lemma make_invoice_ok a b t s x d i w : check_schema d = Ok tt -> make_invoice a b t s x (begin d) = Ok (i, w) ->
  clean w /\ i = schedule_invoice a t (next_invoice_number t (begin d)) s x /\ finance_invoices (mem (session w)) = finance_invoices d ++ [i] /\
  forallb int4 (integer_columns i) = true /\ locked d (period_key (date_of_time t)) = false /\
  mem (session w) = d <| finance_invoices := finance_invoices (mem (session w)) |>
    <| finance_invoice_items := finance_invoice_items (mem (session w)) |>.
Proof.
  intros Hd H. unfold make_invoice in H. apply rbind_ok in H as (w1 & H1 & H). apply rbind_ok in H as (w2 & H2 & [= <- <-]).
  apply flush_clean in H1 as (_ & Em1 & Hi & Ht). apply flush_clean in H2 as (Hc & Em2 & _ & _). split; [done|]. split; [done|].
  rewrite Em2. simpl. rewrite Em1. split; [done|]. split; [done|]. split.
  - by apply Forall_cons_1 in Ht as [Ht _].
  - by destruct d.
Qed.

Section Schedules.
Context (render_invoice_pdf : FinanceDb -> FinanceInvoice -> result (list Z)) (send_finance_message : FinanceDb -> Mail -> result string).
Context (fresh : uuid -> Z -> uuid).
Notation attempt := (schedule_attempt render_invoice_pdf send_finance_message fresh).

Lemma clean_schema w : clean w -> schema_ok (mem (session w)).
Proof. intros (_ & _ & _ & H). by eapply check_schema_ok. Qed.

(** The commit after an accepted mail passes the guard and the constraints. *)
Lemma commit_marked d i s s' t w1 w' : stored d -> s ∈ finance_invoice_schedules d -> key s' = key s -> schedule_ok s' = true ->
  clean w1 -> finance_invoice_schedules (mem (session w1)) = finance_invoice_schedules d ->
  finance_accounting_periods (mem (session w1)) = finance_accounting_periods d ->
  i ∈ finance_invoices (mem (session w1)) -> forallb int4 (integer_columns i) = true ->
  locked d (period_key (date_of_time (FinanceInvoice.created_at i))) = false ->
  sql (session w') = mem (session w1) -> touched w' = [date_of_time (FinanceInvoice.created_at i)] ->
  integers w' = integer_columns i ->
  mem (session w') = (mem (session w1)) <| finance_invoices ::= put_row (sent_invoice t i) |>
      <| finance_delivery_events := finance_delivery_events (mem (session w')) |> <| audits := audits (mem (session w')) |> ->
  let w2 := w_put finance_invoice_schedules s' w' in
  w_commit w2 = Ok (mem (session w2)) /\ stored (mem (session w2)) /\
  finance_invoice_schedules (mem (session w2)) = put_row s' (finance_invoice_schedules d) /\
  finance_invoices (mem (session w2)) = put_row (sent_invoice t i) (finance_invoices (mem (session w1))).
Proof.
  intros [Hd Hss] Hs Ek Hso Hc1 Esch Eper Hin Hint Hlock Esql Et Ei Emem w2.
  pose proof (clean_schema _ Hc1) as Hs1.
  assert (finance_invoice_schedules (mem (session w2)) = put_row s' (finance_invoice_schedules d)) as E2.
  { unfold w2. simpl. rewrite Emem. simpl. by rewrite Esch. }
  assert (check_schema (mem (session w2)) = Ok tt) as Hck.
  { destruct Hc1 as (_ & _ & _ & <-). apply check_schema_ext.
    - unfold w2. simpl. rewrite Emem. apply keys_put.
    - unfold w2. simpl. rewrite Emem. simpl. by apply (map_put_same _ _ i); [apply Hs1|..].
    - rewrite E2, Esch. apply keys_put.
    - unfold w2. simpl. rewrite Emem. by destruct (mem (session w1)). }
  split; [|split; [split; [done|]|split; [done|]]].
  - apply commit_clean; [..|done]; unfold w2; simpl.
    + rewrite Esql, Et. simpl. constructor; [|done]. by rewrite (locked_ext d).
    + rewrite Ei, forallb_app, Hint. exact Hso.
  - rewrite E2. by apply put_row_Forall.
  - unfold w2. simpl. by rewrite Emem.
Qed.
Lemma put_row_last {R} `{Keyed R} (t : list R) r r' : NoDup (keys (t ++ [r])) -> key r' = key r -> put_row r' (t ++ [r]) = t ++ [r'].
Proof.
  intros Hn Ek. unfold put_row. rewrite map_app. simpl. rewrite Ek, Z.eqb_refl. f_equal. rewrite <- Ek.
  apply put_row_notin. unfold keys in *. rewrite map_app in Hn. apply NoDup_app in Hn as (_ & Hn & _). intros Hin. apply (Hn _ Hin). rewrite Ek. left.
Qed.

(** The invoice of a schedule, as it is after it has been sent. *)
Record invoice_of (s : FinanceInvoiceSchedule) (i : FinanceInvoice) : Prop := {
  io_client : FinanceInvoice.client_id i = FinanceInvoiceSchedule.client_id s;
  io_name : FinanceInvoice.client_name i = FinanceInvoiceSchedule.client_name s;
  io_recipient : FinanceInvoice.recipient_email i = FinanceInvoiceSchedule.recipient_email s;
  io_description : FinanceInvoice.description i = FinanceInvoiceSchedule.description s;
  io_total : FinanceInvoice.total_minor i =
    FinanceInvoiceSchedule.quantity s * FinanceInvoiceSchedule.rate_minor s + FinanceInvoiceSchedule.tax_minor s;
  io_currency : FinanceInvoice.currency i = FinanceInvoiceSchedule.currency s;
  io_status : FinanceInvoice.status i = "sent"
}.
(** [mail] is to the recipient of [s], and about an invoice of [s] that is stored as sent. *)
Definition billed (d : FinanceDb) (s : FinanceInvoiceSchedule) (mail : Mail) : Prop :=
  recipient mail = FinanceInvoiceSchedule.recipient_email s /\
  exists i, i ∈ finance_invoices d /\ invoice_of s i /\ subject mail = FinanceInvoice.email_subject i /\
    text_body mail = FinanceInvoice.email_body i /\ attachment_filename mail = (FinanceInvoice.invoice_number i ++ ".pdf")%string.

(** An accepted mail is always followed by a commit that marks the schedule. *)
Lemma attempt_cases t s d : stored d -> s ∈ finance_invoice_schedules d ->
  (mails (attempt t s d) = [] /\ exists e, outcome (attempt t s d) = Err e) \/
  (exists mail d', mails (attempt t s d) = [mail] /\ outcome (attempt t s d) = Ok d' /\ stored d' /\
     finance_invoice_schedules d' = put_row (marked (period_string (date_of_time t)) s) (finance_invoice_schedules d) /\
     finance_invoices d ⊆ finance_invoices d' /\ billed d' s mail).
Proof.
  intros Hst Hs. unfold schedule_attempt. set (k := FinanceInvoiceSchedule.id s).
  destruct (make_invoice _ _ _ _ _ _) as [[i w]|e] eqn:Em; [|left; by split; [|exists e]]. cbv zeta. cbn [mails outcome].
  apply make_invoice_ok in Em as (Hc & Ei & Hin & Hint & Hlock & Hmem); [|apply Hst].
  assert (FinanceInvoice.created_at i = t) as Edate by by rewrite Ei. rewrite <- Edate in Hlock.
  destruct (outcome (send_invoice _ _ _ _ _ _ _ _)) as [w'|e] eqn:Es.
  2:{ left. apply send_no_mail in Es as ->. split; [done|by exists e]. }
  right. apply send_ok in Es as (w1 & pdf & Hc1 & Hm & Em1 & Esql & Et & Eint & Emem); [|done].
  assert (finance_invoices (mem (session w1)) = finance_invoices d ++ [i]) as Einv by by rewrite Em1.
  destruct (commit_marked d i s (marked (period_string (date_of_time t)) s) t w1 w') as (H1 & H2 & H3 & H4); try done.
  - destruct Hst as [_ Hss]. rewrite Forall_forall in Hss. exact (Hss s Hs).
  - by rewrite Em1, Hmem.
  - by rewrite Em1, Hmem.
  - rewrite Einv. apply elem_of_app. right. left.
  - exists (invoice_mail i pdf), (mem (session (w_put finance_invoice_schedules (marked (period_string (date_of_time t)) s) w'))).
    split; [done|]. split; [exact H1|]. split; [done|]. split; [done|].
    rewrite Einv, put_row_last in H4; [|rewrite <- Einv; apply (clean_schema _ Hc1)|done]. rewrite H4.
    split; [apply list_subseteq_app_l; done|]. split; [by rewrite Ei|].
    exists (sent_invoice t i). rewrite H4. split; [apply elem_of_app; right; left|]. split; [|done]. rewrite Ei. by split.
Qed.

(** ** Runs within one month *)
Definition unsent (period : string) (d : FinanceDb) : Z :=
  zlen (List.filter (fun s => FinanceInvoiceSchedule.last_sent_period s !=? Some period) (finance_invoice_schedules d)).
Fixpoint hourly (times : list time) (acc : Batch) : result Batch :=
  match times with
  | [] => Ok acc
  | t :: times =>
      let* b := process_due_finance_schedules render_invoice_pdf send_finance_message fresh t true (b_db acc) in
      hourly times (mk_Batch (b_mails acc ++ b_mails b) (b_sent acc + b_sent b) (b_db b))
  end.
(** What the scheduler reads of a schedule. *)
Definition terms (s : FinanceInvoiceSchedule) : FinanceInvoiceSchedule :=
  s <| FinanceInvoiceSchedule.last_sent_period := None |> <| FinanceInvoiceSchedule.last_error := None |>.
(** The mails of [b] are those of the schedules [sent], which had not been sent before. *)
Record sent_once (period : string) (d0 : FinanceDb) (sent : list FinanceInvoiceSchedule) (b : Batch) : Prop := {
  so_mails : Forall2 (billed (b_db b)) sent (b_mails b);
  so_once : NoDup (keys sent);
  so_unsent : forall s, s ∈ sent -> s ∈ finance_invoice_schedules d0 /\ FinanceInvoiceSchedule.last_sent_period s <> Some period;
  so_marked : forall s0 s, s0 ∈ finance_invoice_schedules d0 -> s ∈ finance_invoice_schedules (b_db b) -> key s = key s0 ->
    FinanceInvoiceSchedule.last_sent_period s = Some period <-> FinanceInvoiceSchedule.last_sent_period s0 = Some period \/ s0 ∈ sent
}.
Record accounts (period : string) (d0 : FinanceDb) (b : Batch) : Prop := {
  ac_stored : stored (b_db b);
  ac_mails : zlen (b_mails b) = b_sent b;
  ac_unsent : b_sent b = unsent period d0 - unsent period (b_db b);
  ac_terms : map terms (finance_invoice_schedules (b_db b)) = map terms (finance_invoice_schedules d0);
  ac_sent : exists sent, sent_once period d0 sent b
}.

Lemma unsent_put period s s' (t : list FinanceInvoiceSchedule) : NoDup (keys t) -> s ∈ t -> key s' = key s ->
  zlen (List.filter (fun x => FinanceInvoiceSchedule.last_sent_period x !=? Some period) (put_row s' t)) =
  zlen (List.filter (fun x => FinanceInvoiceSchedule.last_sent_period x !=? Some period) t)
  - (if FinanceInvoiceSchedule.last_sent_period s !=? Some period then 1 else 0)
  + (if FinanceInvoiceSchedule.last_sent_period s' !=? Some period then 1 else 0).
Proof.
  intros Hn Hs Ek. pose proof (find_row_nodup t s Hn Hs) as Hf. rewrite <- Ek in Hf.
  pose proof (sum_filter_put (fun x => FinanceInvoiceSchedule.last_sent_period x !=? Some period) (fun _ => 1) s' s t Hn Hf) as H.
  rewrite !sum_by_const in H. lia.
Qed.

(** The error of a failed attempt is always stored. *)
Lemma store_error d s message : stored d -> s ∈ finance_invoice_schedules d ->
  let s' := s <| FinanceInvoiceSchedule.last_error := Some message |> in
  exists d', w_commit (w_put finance_invoice_schedules s' (begin d)) = Ok d' /\ stored d' /\
    finance_invoice_schedules d' = put_row s' (finance_invoice_schedules d) /\ finance_invoices d' = finance_invoices d.
Proof.
  intros [Hd Hss] Hs s'. set (w := w_put _ _ _).
  assert (schedule_ok s' = true) as Hso by (rewrite Forall_forall in Hss; exact (Hss s Hs)).
  assert (check_schema (mem (session w)) = Ok tt) as Hck.
  { rewrite <- Hd. apply check_schema_ext; [done|done|apply keys_put|by destruct d]. }
  exists (mem (session w)). split; [by apply commit_clean|]. split; [|done]. split; [done|]. by apply put_row_Forall.
Qed.
Lemma billed_more d d' s mail : finance_invoices d ⊆ finance_invoices d' -> billed d s mail -> billed d' s mail.
Proof. intros Hd (Hr & i & Hi & Hio). split; [done|]. exists i. split; [by apply Hd|done]. Qed.
Lemma billed_terms d s s0 mail : terms s = terms s0 -> billed d s mail -> billed d s0 mail.
Proof.
  intros E (Hr & i & Hi & Hio & Hm). destruct s, s0. unfold terms in E. cbn in E. injection E; intros; subst.
  split; [exact Hr|]. exists i. split; [done|]. split; [by destruct Hio; split|done].
Qed.
Lemma map_terms_put s s' t : NoDup (keys t) -> s ∈ t -> key s' = key s -> terms s' = terms s -> map terms (put_row s' t) = map terms t.
Proof. intros Hn Hs Ek E. by apply (map_put_same terms s' s). Qed.
Lemma put_row_cases (r x : FinanceInvoiceSchedule) t : x ∈ put_row r t -> x = r \/ x ∈ t /\ key x <> key r.
Proof.
  unfold put_row. intros (y & -> & Hy)%list_elem_of_fmap. destruct (key y =? key r) eqn:E; [by left|right]. by apply Z.eqb_neq in E.
Qed.
Lemma keys_terms (t t' : list FinanceInvoiceSchedule) : map terms t = map terms t' -> keys t = keys t'.
Proof. intros E%(f_equal (map key)). rewrite !map_map in E. exact E. Qed.
(** The schedule of [d0] that [s] comes from. *)
Lemma origin d0 d s : map terms (finance_invoice_schedules d) = map terms (finance_invoice_schedules d0) -> s ∈ finance_invoice_schedules d ->
  exists s0, s0 ∈ finance_invoice_schedules d0 /\ terms s = terms s0 /\ key s0 = key s.
Proof.
  intros E Hs. assert (terms s ∈ map terms (finance_invoice_schedules d)) as Hin by by apply (list_elem_of_fmap_2 terms).
  rewrite E in Hin. apply list_elem_of_fmap in Hin as (s0 & Et & Hs0). exists s0. split_and!; [done..|].
  by apply (f_equal key) in Et.
Qed.
Lemma sent_more period d0 sent b d' : sent_once period d0 sent b ->
  finance_invoices (b_db b) ⊆ finance_invoices d' ->
  (forall s, s ∈ finance_invoice_schedules d' -> exists s1, s1 ∈ finance_invoice_schedules (b_db b) /\ key s = key s1 /\
     FinanceInvoiceSchedule.last_sent_period s = FinanceInvoiceSchedule.last_sent_period s1) ->
  sent_once period d0 sent (mk_Batch (b_mails b) (b_sent b) d').
Proof.
  intros [Hm Ho Hu Hk] Hi Hs. split; [|done|done|].
  - eapply Forall2_impl; [exact Hm|]. intros x y. by apply billed_more.
  - intros s0 s H0 (s1 & H1 & E1 & E2)%Hs Ek. rewrite E2. apply Hk; [done|done|congruence].
Qed.
Lemma turn_accounts t d0 acc k : stored d0 -> let period := period_string (date_of_time t) in accounts period d0 acc ->
  exists b, schedule_turn render_invoice_pdf send_finance_message fresh t acc k = Ok b /\ accounts period d0 b.
Proof.
  intros Hst0 period Hacc. pose proof Hacc as [Hst Hm Hb Hterms (sent & Hsent)]. unfold schedule_turn.
  destruct (find_row k _) as [s|] eqn:Ef; [|by exists acc]. pose proof (find_row_elem _ _ _ Ef) as Hs.
  pose proof (check_schema_ok _ _ (proj1 Hst)) as Hsch. pose proof (check_schema_ok _ _ (proj1 Hst0)) as Hsch0.
  destruct (negb (schedule_due _ s)) eqn:Ed; [by exists acc|].
  assert (FinanceInvoiceSchedule.last_sent_period s !=? Some period = true) as Hdue.
  { unfold schedule_due in Ed. destruct (civil_of _) as [[y m] dd]. apply negb_false_iff, andb_true_iff in Ed as [Ed _]. exact Ed. }
  destruct (attempt_cases t s (b_db acc) Hst Hs) as [[E1 [e E2]]|(mail & d' & E1 & E2 & Hst' & Esch & Einv & Hbill)]; rewrite E1, E2.
  - destruct (store_error (b_db acc) s (str_take 2000 (exn_str e)) Hst Hs) as (d' & -> & Hst' & Esch & Einv).
    eexists. split; [reflexivity|]. rewrite app_nil_r. split; simpl; [done|done|..].
    + rewrite Hb. unfold unsent. rewrite Esch, (unsent_put period s); [|apply Hsch|done|done]. simpl. destruct (negb _); lia.
    + rewrite <- Hterms, Esch. by apply (map_terms_put s); [apply Hsch|..].
    + exists sent. apply sent_more; [done|by rewrite Einv|]. intros x. rewrite Esch. intros [ -> |[Hx _]]%put_row_cases; [by exists s|by exists x].
  - eexists. split; [reflexivity|]. destruct (origin d0 _ s Hterms Hs) as (s0 & Hs0 & Et & Ek0).
    pose proof Hsent as [Hmails Honce Hun Hmark]. apply negb_true_iff, bool_decide_eq_false in Hdue.
    assert (FinanceInvoiceSchedule.last_sent_period s0 <> Some period /\ s0 ∉ sent) as [Hn1 Hn2].
    { split; intros Hc; apply Hdue, (Hmark s0 s Hs0 Hs (eq_sym Ek0)); auto. }
    split; simpl; [done|..].
    + unfold zlen in *. rewrite length_app. simpl. lia.
    + rewrite Hb. unfold unsent. rewrite Esch, (unsent_put period s); [|apply Hsch|done|done]. rewrite (bool_decide_eq_false_2 _ Hdue). simpl.
      rewrite bool_decide_eq_true_2 by done. simpl. fold period. lia.
    + rewrite <- Hterms, Esch. by apply (map_terms_put s); [apply Hsch|..].
    + exists (sent ++ [s0]). split; simpl.
      * apply Forall2_app; [eapply Forall2_impl; [exact Hmails|intros x y; by apply billed_more]|]. constructor; [|constructor].
        by apply (billed_terms _ s).
      * unfold keys. rewrite map_app. apply NoDup_app. split; [done|]. split; [|apply NoDup_singleton].
        intros x Hx ->%list_elem_of_singleton. apply list_elem_of_fmap in Hx as (s1 & Ek & Hs1). apply Hn2.
        assert (s0 = s1) as ->; [|done]. apply (key_inj (finance_invoice_schedules d0)); [apply Hsch0|done|by apply Hun|done].
      * intros x [Hx| ->%list_elem_of_singleton]%elem_of_app; [by apply Hun|done].
      * intros x x' Hx Hx' Ek. rewrite Esch in Hx'. rewrite elem_of_app, list_elem_of_singleton.
        apply put_row_cases in Hx' as [ -> |[Hx' Hne]].
        -- assert (x = s0) as -> by (apply (key_inj (finance_invoice_schedules d0)); [apply Hsch0|done|done|]; change (key s = key x) in Ek; congruence).
           split; [auto|done].
        -- rewrite (Hmark x x') by done. assert (x <> s0) as Hxs by (intros ->; apply Hne; change (key x' = key s); congruence). naive_solver.
Qed.
Lemma loop_accounts t d0 ks acc : stored d0 -> let period := period_string (date_of_time t) in accounts period d0 acc ->
  exists b, schedule_loop render_invoice_pdf send_finance_message fresh t acc ks = Ok b /\ accounts period d0 b.
Proof.
  intros Hst period. revert acc. induction ks as [|k ks IH]; intros acc Ha; [by exists acc|]. simpl.
  destruct (turn_accounts t d0 acc k Hst Ha) as (acc' & -> & Ha'). simpl. by apply IH.
Qed.
Lemma accounts_nil period d : stored d -> accounts period d (mk_Batch [] 0 d).
Proof.
  intros Hst. split; simpl; [done|done|lia|done|]. exists []. split; [constructor|constructor|by intros s Hs%not_elem_of_nil|].
  intros s0 s H0 Hs Ek. assert (s = s0) as -> by (by apply (key_inj (finance_invoice_schedules d)); [apply (check_schema_ok _ _ (proj1 Hst))|..]).
  split; [by left|by intros [Hx|Hx%not_elem_of_nil]].
Qed.
(** A run adds to what has been sent before it. *)
Lemma loop_prefix t m0 n0 ks acc b : schedule_loop render_invoice_pdf send_finance_message fresh t acc ks = Ok b ->
  schedule_loop render_invoice_pdf send_finance_message fresh t (mk_Batch (m0 ++ b_mails acc) (n0 + b_sent acc) (b_db acc)) ks =
  Ok (mk_Batch (m0 ++ b_mails b) (n0 + b_sent b) (b_db b)).
Proof.
  revert acc. induction ks as [|k ks IH]; intros acc; simpl; [by intros [= <-]|].
  intros (acc' & Ht & Hl)%rbind_ok. apply IH in Hl. unfold schedule_turn in *. cbn [b_db b_mails b_sent].
  destruct (find_row k _) as [s|]; [|injection Ht as <-; exact Hl]. destruct (negb _); [injection Ht as <-; exact Hl|].
  destruct (outcome _).
  - injection Ht as <-. cbn [rbind]. rewrite <- Hl. cbn [b_mails b_sent b_db]. by rewrite app_assoc, Z.add_assoc.
  - apply rbind_ok in Ht as (d' & -> & [= <-]). cbn [rbind]. rewrite <- Hl. cbn [b_mails b_sent b_db]. by rewrite app_assoc.
Qed.
Lemma hourly_accounts period d0 times acc : stored d0 -> Forall (fun t => period_string (date_of_time t) = period) times ->
  accounts period d0 acc -> exists b, hourly times acc = Ok b /\ accounts period d0 b.
Proof.
  intros Hst Ht. revert acc. induction Ht as [|t times Et _ IH]; intros acc Ha; [by exists acc|]. cbn [hourly]. subst period.
  unfold process_due_finance_schedules. cbn [negb]. set (ks := map _ _).
  destruct (loop_accounts t (b_db acc) ks (mk_Batch [] 0 (b_db acc)) (ac_stored _ _ _ Ha)) as (b & Hb & _).
  { by apply accounts_nil, Ha. }
  rewrite Hb. cbn [rbind]. apply IH. apply (loop_prefix t (b_mails acc) (b_sent acc)) in Hb. cbn [b_mails b_sent b_db] in Hb. rewrite app_nil_r, Z.add_0_r in Hb.
  destruct (loop_accounts t d0 ks acc Hst Ha) as (b' & Hb' & Hacc'). destruct acc as [m n d]. cbn [b_mails b_sent b_db] in *.
  rewrite Hb in Hb'. by injection Hb' as <-.
Qed.

(** C31. However often the scheduler wakes up within one month, whatever the mail
    server and the renderer answer, it ends normally, and the mails accepted are
    exactly those of the schedules that became sent in this period, one each: a
    mail goes to the recipient of its schedule, about an invoice of the schedule's
    terms that is stored as sent, and a schedule is marked sent exactly if it was
    before or its mail is among them; no accepted mail is lost by a failing
    commit. *)
Theorem schedules_sent_once (times : list time) (period : string) (d : FinanceDb) :
  stored d -> Forall (fun t => period_string (date_of_time t) = period) times ->
  exists b sent, hourly times (mk_Batch [] 0 d) = Ok b /\ zlen (b_mails b) = b_sent b /\
    b_sent b = unsent period d - unsent period (b_db b) /\
    Forall2 (billed (b_db b)) sent (b_mails b) /\ NoDup (keys sent) /\
    (forall s, s ∈ sent -> s ∈ finance_invoice_schedules d /\ FinanceInvoiceSchedule.last_sent_period s <> Some period) /\
    map terms (finance_invoice_schedules (b_db b)) = map terms (finance_invoice_schedules d) /\
    (forall s s', s ∈ finance_invoice_schedules d -> s' ∈ finance_invoice_schedules (b_db b) -> key s' = key s ->
       FinanceInvoiceSchedule.last_sent_period s' = Some period <-> FinanceInvoiceSchedule.last_sent_period s = Some period \/ s ∈ sent).
Proof.
  intros Hst Ht. destruct (hourly_accounts period d times (mk_Batch [] 0 d) Hst Ht) as (b & Hb & [_ H1 H2 H3 (sent & [])]).
  { by apply accounts_nil. }
  exists b, sent. by split_and!.
Qed.
End Schedules.

(** ** Approval *)
Definition setting_in_force (d : FinanceDb) (new_id : uuid) (now : time) : FinanceGovernanceSetting :=
  default (FinanceGovernanceSetting.new_FinanceGovernanceSetting new_id now)
    (scalar_ordered finance_governance_settings (asc FinanceGovernanceSetting.created_at) (fun _ => true) (session (begin d))).
Definition approved_in (d : FinanceDb) (invoice_id : uuid) : Prop :=
  exists r, r ∈ finance_approval_requests d /\ FinanceApprovalRequest.resource_type r = "invoice" /\
    FinanceApprovalRequest.resource_id r = invoice_id /\ FinanceApprovalRequest.status r = "approved".

Lemma setting_row a t w row w' : clean w -> get_governance_setting a t w = Ok (row, w') -> row = setting_in_force (mem (session w)) a t.
Proof.
  intros (_ & _ & Es & _). unfold get_governance_setting, setting_in_force.
  assert (scalar_ordered finance_governance_settings (asc FinanceGovernanceSetting.created_at) (fun _ => true) (session w) =
    scalar_ordered finance_governance_settings (asc FinanceGovernanceSetting.created_at) (fun _ => true)
      (session (begin (mem (session w))))) as -> by (unfold scalar_ordered, select_ordered; simpl; by rewrite Es).
  destruct (scalar_ordered _ _ _ _); simpl; [by intros [= -> _]|]. intros H. by apply rbind_ok in H as (x & _ & [= <- _]).
Qed.
Lemma approved_spec a t i w w' : clean w -> ensure_invoice_approved_for_send a t i w = Ok w' ->
  over_threshold (setting_in_force (mem (session w)) a t) i = false \/ approved_in (mem (session w)) (FinanceInvoice.id i).
Proof.
  intros Hc H. unfold ensure_invoice_approved_for_send, invoice_requires_approval in H.
  apply rbind_ok in H as ([required w1] & H1 & H). apply rbind_ok in H1 as ([row w2] & H1 & [= <- <-]).
  apply setting_keeps in H1 as Hk; [|done]. apply setting_row in H1 as ->; [|done]. destruct Hk as [Hc2 Em].
  destruct (over_threshold _ i); [right|by left]. simpl in H. unfold invoice_approval in H.
  destruct (scalar _ _ _) as [r|] eqn:E; [|done]. destruct (FinanceApprovalRequest.status r ==? "approved") eqn:Est; [|done].
  apply scalar_some in E as [Hr Hp]; [|by destruct Hc2 as (_ & _ & Hs & _); unfold synced; rewrite Hs|by apply so_approvals, clean_schema].
  rewrite Em in Hr. apply andb_true_iff in Hp as [Ht%bool_decide_eq_true Hi%Z.eqb_eq]. apply bool_decide_eq_true in Est.
  by exists r.
Qed.

Section Approval.
Context (render_invoice_pdf : FinanceDb -> FinanceInvoice -> result (list Z)) (send_finance_message : FinanceDb -> Mail -> result string).
Context (fresh : uuid -> Z -> uuid).

Lemma mails_approved a b c t i w : clean w -> mails (send_invoice render_invoice_pdf send_finance_message a b c t i w) <> [] ->
  over_threshold (setting_in_force (mem (session w)) a t) i = false \/ approved_in (mem (session w)) (FinanceInvoice.id i).
Proof.
  intros Hc. unfold send_invoice. destruct (rbind _ _) as [[w1 pdf]|e] eqn:E; [|done]. intros _.
  apply rbind_ok in E as (w2 & E1 & _). by apply (approved_spec a t i w w2).
Qed.
Lemma begin_clean d : check_schema d = Ok tt -> clean (begin d).
Proof. intros H. by repeat split. Qed.

(** C32. The send endpoint mails an invoice only if it is neither paid nor
    cancelled nor credited, is a resend if it was sent before, and is below the
    threshold in force or has an approved request; an answer without an error
    means that exactly one mail was accepted and the invoice is stored as sent. *)
Theorem send_endpoint_safe (d : FinanceDb) (setting_id event_id audit_id : uuid) (now : time) (invoice_id : uuid) (resend : bool) :
  check_schema d = Ok tt ->
  let '(out, answer, d') := send_finance_invoice render_invoice_pdf send_finance_message d setting_id event_id audit_id now invoice_id resend in
  (out <> [] -> exists i, i ∈ finance_invoices d /\ FinanceInvoice.id i = invoice_id /\
     FinanceInvoice.status i ∉ ["paid"; "cancelled"; "credited"] /\ (FinanceInvoice.status i = "sent" -> resend = true) /\
     (over_threshold (setting_in_force d setting_id now) i = false \/ approved_in d invoice_id)) /\
  (forall i, answer = Ok i -> zlen out = 1 /\ FinanceInvoice.status i = "sent" /\ i ∈ finance_invoices d').
Proof.
  intros Hd. pose proof (begin_clean d Hd) as Hc. pose proof (check_schema_ok _ _ Hd) as Hs. unfold send_finance_invoice.
  destruct (load_invoice (begin d) invoice_id) as [i|e] eqn:El; [|by split].
  apply load_invoice_in in El as [Hi Ek]; [|done|apply Hs].
  destruct (existsb _ _) eqn:Est; [by split|]. destruct (_ && negb resend) eqn:Ers; [by split|]. simpl in Est.
  set (s := send_invoice _ _ _ _ _ _ _ _).
  assert (mails s <> [] -> exists i, i ∈ finance_invoices d /\ FinanceInvoice.id i = invoice_id /\
     FinanceInvoice.status i ∉ ["paid"; "cancelled"; "credited"] /\ (FinanceInvoice.status i = "sent" -> resend = true) /\
     (over_threshold (setting_in_force d setting_id now) i = false \/ approved_in d invoice_id)) as Hsafe.
  { intros Hm. exists i. split; [done|]. split; [done|]. split; [|split].
    - rewrite !orb_false_iff, !bool_decide_eq_false in Est. rewrite !not_elem_of_cons. destruct Est as (? & ? & ? & _).
      split_and!; [done..|apply not_elem_of_nil].
    - intros E. destruct resend; [done|]. by rewrite E in Ers.
    - rewrite <- Ek. by apply (mails_approved setting_id event_id audit_id now i (begin d) Hc). }
  destruct (let* w := outcome s in w_commit w) as [d'|e] eqn:Ec.
  - split; [done|]. apply rbind_ok in Ec as (w & Es & Hcom). apply w_commit_ok in Hcom as (-> & _).
    apply send_ok in Es as (w1 & mail & Hc1 & Hm & Em1 & _ & _ & _ & Emem); [|done].
    intros j [= <-]. unfold s. rewrite Hm. split; [done|]. split; [done|]. rewrite Emem. simpl. rewrite Em1. simpl.
    apply put_row_in. change (FinanceInvoice.id i ∈ map FinanceInvoice.id (finance_invoices d)). by apply list_elem_of_fmap_2.
  - destruct e; try (destruct (persist_send_failure _ _ _) as [d'|e'] eqn:Ep; by split); by split.
Qed.

(** A schedule whose amount reaches the approval threshold is never sent:
    the invoice made for it is new, so no approval names it, the sending fails,
    and the rollback removes the invoice that would have to be approved. *)
Theorem scheduled_over_threshold_never_sent (d : FinanceDb) (now : time) (s : FinanceInvoiceSchedule) (setting : FinanceGovernanceSetting) :
  check_schema d = Ok tt ->
  scalar_ordered finance_governance_settings (asc FinanceGovernanceSetting.created_at) (fun _ => true) (session (begin d)) = Some setting ->
  FinanceGovernanceSetting.approval_enabled setting = true ->
  FinanceGovernanceSetting.invoice_approval_threshold_minor setting <=
    FinanceInvoiceSchedule.quantity s * FinanceInvoiceSchedule.rate_minor s + FinanceInvoiceSchedule.tax_minor s ->
  fresh (FinanceInvoiceSchedule.id s) 0 ∉ map FinanceApprovalRequest.resource_id (finance_approval_requests d) ->
  mails (schedule_attempt render_invoice_pdf send_finance_message fresh now s d) = [] /\
  exists e, outcome (schedule_attempt render_invoice_pdf send_finance_message fresh now s d) = Err e.
Proof.
  intros Hd Hset Hen Hth Hfresh. unfold schedule_attempt.
  destruct (make_invoice _ _ _ _ _ _) as [[i w]|e] eqn:Em; [|by split; [|exists e]]. cbv zeta. cbn [mails outcome].
  apply make_invoice_ok in Em as (Hc & Ei & _ & _ & _ & Hmem); [|done].
  assert (FinanceInvoice.id i = fresh (FinanceInvoiceSchedule.id s) 0) as Eid by by rewrite Ei.
  assert (over_threshold setting i = true) as Hover.
  { unfold over_threshold. rewrite Hen, Ei. apply Z.leb_le. exact Hth. }
  clear Ei.
  assert (forall a b c, mails (send_invoice render_invoice_pdf send_finance_message a b c now i w) = []) as Hnone.
  { intros a b c. destruct (mails _) as [|m l] eqn:E; [done|exfalso].
    destruct (mails_approved a b c now i w Hc) as [Hf|(r & Hr & _ & Hid & _)]; [by rewrite E| |].
    - unfold setting_in_force in Hf. rewrite Hmem in Hf. unfold scalar_ordered, select_ordered in *. simpl in *. rewrite Hset in Hf.
      simpl in Hf. congruence.
    - apply Hfresh. rewrite <- Eid, <- Hid. rewrite Hmem in Hr. by apply (list_elem_of_fmap_2 FinanceApprovalRequest.resource_id). }
  split; [by rewrite Hnone|]. destruct (outcome (send_invoice _ _ _ _ _ _ _ _)) as [w'|e] eqn:Es; [exfalso|by exists e].
  apply send_ok in Es as (w1 & mail & _ & Hm & _); [|done]. by rewrite Hnone in Hm.
Qed.
End Approval.

(** * Witnesses *)

(** A server that accepts every mail, but one address. *)
Definition demo_send (d : FinanceDb) (m : Mail) : result string :=
  if recipient m ==? "full@example.com" then Err (RuntimeError "mailbox full") else Ok "250 queued".
Definition demo_render (d : FinanceDb) (i : FinanceInvoice) : result (list Z) := Ok [37; 80; 68; 70].
Definition demo_fresh (k : uuid) (slot : Z) : uuid := 1000 * k + slot.
Definition demo_schedule (k : uuid) (email : string) (rate send_day : Z) : FinanceInvoiceSchedule :=
  FinanceInvoiceSchedule.new_FinanceInvoiceSchedule k october
    <| FinanceInvoiceSchedule.client_name := "Thabo" |> <| FinanceInvoiceSchedule.recipient_email := email |>
    <| FinanceInvoiceSchedule.description := "Hosting" |> <| FinanceInvoiceSchedule.rate_minor := rate |>
    <| FinanceInvoiceSchedule.send_day := send_day |>.
(** Sent on the 4th; on the 31st (not yet); failing; above the threshold of M5000. *)
Definition scheduled_books : FinanceDb := empty_FinanceDb
  <| finance_governance_settings := [FinanceGovernanceSetting.new_FinanceGovernanceSetting 50 october] |>
  <| finance_invoice_schedules := [demo_schedule 1 "a@example.com" 10000 1; demo_schedule 2 "b@example.com" 10000 31;
       demo_schedule 3 "full@example.com" 10000 1; demo_schedule 4 "c@example.com" 500000 1] |>.
Definition october_hours : list time := [october; october + seconds 3600; october + seconds 7200; days 20027].
Definition october_run : result Batch := hourly demo_render demo_send demo_fresh october_hours (mk_Batch [] 0 scheduled_books).
Lemma scheduled_books_stored : stored scheduled_books.
Proof. split; [vm_compute; reflexivity|]. repeat constructor; vm_compute; reflexivity. Qed.

Lemma schedules_sent_once_witness :
  (let* b := october_run in Ok (map recipient (b_mails b), b_sent b, unsent "2024-10" (b_db b))) =
    Ok (["a@example.com"; "b@example.com"], 2, 2) /\
  exists b sent, hourly demo_render demo_send demo_fresh october_hours (mk_Batch [] 0 scheduled_books) = Ok b /\
    Forall2 (billed (b_db b)) sent (b_mails b) /\ b_sent b = unsent "2024-10" scheduled_books - unsent "2024-10" (b_db b).
Proof.
  split; [vm_compute; reflexivity|].
  assert (Forall (fun t => period_string (date_of_time t) = "2024-10") october_hours) as Ht by (repeat constructor; vm_compute; reflexivity).
  destruct (schedules_sent_once demo_render demo_send demo_fresh october_hours "2024-10" scheduled_books scheduled_books_stored Ht)
    as (b & sent & Hb & _ & Hn & Hm & _). exists b, sent. split; [exact Hb|]. split; [exact Hm|exact Hn].
Defined.

Lemma scheduled_over_threshold_never_sent_witness :
  mails (schedule_attempt demo_render demo_send demo_fresh october (demo_schedule 4 "c@example.com" 500000 1) scheduled_books) = [] /\
  exists e, outcome (schedule_attempt demo_render demo_send demo_fresh october (demo_schedule 4 "c@example.com" 500000 1) scheduled_books)
    = Err e.
Proof.
  apply (scheduled_over_threshold_never_sent demo_render demo_send demo_fresh scheduled_books october
    (demo_schedule 4 "c@example.com" 500000 1) (FinanceGovernanceSetting.new_FinanceGovernanceSetting 50 october)).
  - vm_compute. reflexivity.
  - vm_compute. reflexivity.
  - reflexivity.
  - vm_compute. discriminate.
  - vm_compute. intros H. inversion H.
Defined.

(** A draft approved at M6000 and edited to M60000 keeps its approval. *)
Definition large_invoice (rate : Z) : FinanceInvoiceCreate := FinanceInvoiceCreate.mk None "Lerato" "lerato@example.com" EmptyString
  "Hosting" EmptyString EmptyString 1 rate 0 "LSL" 20030 None None.
Definition approved_books : result FinanceDb :=
  let* d := post empty_FinanceDb (CreateInvoice 1 2 october 9 (large_invoice 600000)) in
  let* d := committed (request_approval d 3 4 5 october 9 1 "please") in
  committed (decide_approval d 6 october 9 3 true "ok").
Definition edited_books : result FinanceDb :=
  let* d := approved_books in post d (EditInvoice 7 8 october 9 1 (large_invoice 6000000)).
Theorem edited_invoice_keeps_approval :
  (let* d := edited_books in
   let '(out, answer, _) := send_finance_invoice demo_render demo_send d 10 11 12 october 1 false in
   let* i := answer in Ok (zlen out, FinanceInvoice.total_minor i, FinanceInvoice.status i)) = Ok (1, 6000000, "sent").
Proof. vm_compute. reflexivity. Qed.

Definition approved_db : FinanceDb := match approved_books with Ok d => d | Err _ => empty_FinanceDb end.
Lemma send_endpoint_safe_witness :
  (let '(out, answer, _) := send_finance_invoice demo_render demo_send approved_db 10 11 12 october 1 false in
   (zlen out, is_ok answer)) = (1, true) /\
  let '(out, answer, d') := send_finance_invoice demo_render demo_send approved_db 10 11 12 october 1 false in
  (out <> [] -> exists i, i ∈ finance_invoices approved_db /\ FinanceInvoice.id i = 1 /\
     FinanceInvoice.status i ∉ ["paid"; "cancelled"; "credited"] /\ (FinanceInvoice.status i = "sent" -> false = true) /\
     (over_threshold (setting_in_force approved_db 10 october) i = false \/ approved_in approved_db 1)) /\
  (forall i, answer = Ok i -> zlen out = 1 /\ FinanceInvoice.status i = "sent" /\ i ∈ finance_invoices d').
Proof.
  split; [vm_compute; reflexivity|].
  exact (send_endpoint_safe demo_render demo_send approved_db 10 11 12 october 1 false ltac:(vm_compute; reflexivity)).
Defined.
