(* ===== verification/IdentityModels.v ===== *)
(** The relational data model of the identity server [platform/ithute-auth]:
    a record per SQLAlchemy class of [app/models.py] with all its columns, the
    record [IdentityDb] of its tables, and the constraints the columns declare. *)
From S2P Require Import Prelude Session Schema.
#[local] Open Scope string_scope.
#[local] Open Scope Z_scope.

(** ** [platform/ithute-auth/app/models.py] *)

(** [models.py]: [class User], every column. *)
Module User.
Record User : Type := mk {
  id : uuid;
  email : option string;
  phone : option string;
  display_name : string;
  password_hash : string;
  is_active : bool;
  is_platform_admin : bool;
  email_verified : bool;
  phone_verified : bool;
  totp_enabled : bool;
  totp_secret_encrypted : option string;
  failed_login_attempts : Z;
  security_version : Z;
  locked_until : option time;
  last_login_at : option time;
  last_login_ip : option string;
  password_changed_at : time;
  created_at : time;
  updated_at : time
}.
(** A row with its column defaults, as the first flush writes it. *)
Definition new_User (new_id : uuid) (now : time) : User := {|
  id := new_id;
  email := None;
  phone := None;
  display_name := EmptyString;
  password_hash := EmptyString;
  is_active := true;
  is_platform_admin := false;
  email_verified := false;
  phone_verified := false;
  totp_enabled := false;
  totp_secret_encrypted := None;
  failed_login_attempts := 0;
  security_version := 1;
  locked_until := None;
  last_login_at := None;
  last_login_ip := None;
  password_changed_at := now;
  created_at := now;
  updated_at := now
|}.
End User.
Notation User := User.User.
#[export] Instance eta_User : Eta User := fun r =>
  User.mk (User.id r) (User.email r) (User.phone r) (User.display_name r) (User.password_hash r) (User.is_active r) (User.is_platform_admin r) (User.email_verified r) (User.phone_verified r) (User.totp_enabled r) (User.totp_secret_encrypted r) (User.failed_login_attempts r) (User.security_version r) (User.locked_until r) (User.last_login_at r) (User.last_login_ip r) (User.password_changed_at r) (User.created_at r) (User.updated_at r).
#[export] Instance keyed_User : Keyed User := User.id.

(** [models.py]: [class Application], every column. *)
Module Application.
Record Application : Type := mk {
  id : uuid;
  client_id : string;
  name : string;
  is_active : bool;
  created_at : time
}.
(** A row with its column defaults, as the first flush writes it. *)
Definition new_Application (new_id : uuid) (now : time) : Application := {|
  id := new_id;
  client_id := EmptyString;
  name := EmptyString;
  is_active := true;
  created_at := now
|}.
End Application.
Notation Application := Application.Application.
#[export] Instance eta_Application : Eta Application := fun r =>
  Application.mk (Application.id r) (Application.client_id r) (Application.name r) (Application.is_active r) (Application.created_at r).
#[export] Instance keyed_Application : Keyed Application := Application.id.

(** [models.py]: [class ApplicationRedirectURI], every column. *)
Module ApplicationRedirectURI.
Record ApplicationRedirectURI : Type := mk {
  id : uuid;
  application_id : uuid;
  redirect_uri : string;
  created_at : time
}.
(** A row with its column defaults, as the first flush writes it. *)
Definition new_ApplicationRedirectURI (new_id : uuid) (now : time) : ApplicationRedirectURI := {|
  id := new_id;
  application_id := 0;
  redirect_uri := EmptyString;
  created_at := now
|}.
End ApplicationRedirectURI.
Notation ApplicationRedirectURI := ApplicationRedirectURI.ApplicationRedirectURI.
#[export] Instance eta_ApplicationRedirectURI : Eta ApplicationRedirectURI := fun r =>
  ApplicationRedirectURI.mk (ApplicationRedirectURI.id r) (ApplicationRedirectURI.application_id r) (ApplicationRedirectURI.redirect_uri r) (ApplicationRedirectURI.created_at r).
#[export] Instance keyed_ApplicationRedirectURI : Keyed ApplicationRedirectURI := ApplicationRedirectURI.id.

(** [models.py]: [class AuthorizationCode], every column. *)
Module AuthorizationCode.
Record AuthorizationCode : Type := mk {
  id : uuid;
  code_hash : string;
  user_id : uuid;
  client_id : string;
  redirect_uri : string;
  code_challenge : string;
  nonce : string;
  scope : string;
  auth_method : string;
  expires_at : time;
  consumed_at : option time;
  created_at : time
}.
(** A row with its column defaults, as the first flush writes it. *)
Definition new_AuthorizationCode (new_id : uuid) (now : time) : AuthorizationCode := {|
  id := new_id;
  code_hash := EmptyString;
  user_id := 0;
  client_id := EmptyString;
  redirect_uri := EmptyString;
  code_challenge := EmptyString;
  nonce := EmptyString;
  scope := "openid"%string;
  auth_method := "password"%string;
  expires_at := 0;
  consumed_at := None;
  created_at := now
|}.
End AuthorizationCode.
Notation AuthorizationCode := AuthorizationCode.AuthorizationCode.
#[export] Instance eta_AuthorizationCode : Eta AuthorizationCode := fun r =>
  AuthorizationCode.mk (AuthorizationCode.id r) (AuthorizationCode.code_hash r) (AuthorizationCode.user_id r) (AuthorizationCode.client_id r) (AuthorizationCode.redirect_uri r) (AuthorizationCode.code_challenge r) (AuthorizationCode.nonce r) (AuthorizationCode.scope r) (AuthorizationCode.auth_method r) (AuthorizationCode.expires_at r) (AuthorizationCode.consumed_at r) (AuthorizationCode.created_at r).
#[export] Instance keyed_AuthorizationCode : Keyed AuthorizationCode := AuthorizationCode.id.

(** [models.py]: [class AuthSession], every column. *)
Module AuthSession.
Record AuthSession : Type := mk {
  id : uuid;
  user_id : uuid;
  client_id : string;
  refresh_token_hash : string;
  user_agent : option string;
  ip_address : option string;
  expires_at : time;
  revoked_at : option time;
  revoked_reason : option string;
  last_seen_at : time;
  auth_method : string;
  risk_score : Z;
  risk_reasons_json : string;
  step_up_at : option time;
  device_id : option uuid;
  created_at : time
}.
(** A row with its column defaults, as the first flush writes it. *)
Definition new_AuthSession (new_id : uuid) (now : time) : AuthSession := {|
  id := new_id;
  user_id := 0;
  client_id := EmptyString;
  refresh_token_hash := EmptyString;
  user_agent := None;
  ip_address := None;
  expires_at := 0;
  revoked_at := None;
  revoked_reason := None;
  last_seen_at := now;
  auth_method := "password"%string;
  risk_score := 0;
  risk_reasons_json := "[]"%string;
  step_up_at := None;
  device_id := None;
  created_at := now
|}.
End AuthSession.
Notation AuthSession := AuthSession.AuthSession.
#[export] Instance eta_AuthSession : Eta AuthSession := fun r =>
  AuthSession.mk (AuthSession.id r) (AuthSession.user_id r) (AuthSession.client_id r) (AuthSession.refresh_token_hash r) (AuthSession.user_agent r) (AuthSession.ip_address r) (AuthSession.expires_at r) (AuthSession.revoked_at r) (AuthSession.revoked_reason r) (AuthSession.last_seen_at r) (AuthSession.auth_method r) (AuthSession.risk_score r) (AuthSession.risk_reasons_json r) (AuthSession.step_up_at r) (AuthSession.device_id r) (AuthSession.created_at r).
#[export] Instance keyed_AuthSession : Keyed AuthSession := AuthSession.id.

(** [models.py]: [class Device], every column. *)
Module Device.
Record Device : Type := mk {
  id : uuid;
  user_id : uuid;
  device_key : string;
  platform : string;
  label : option string;
  is_active : bool;
  trusted_at : option time;
  revoked_at : option time;
  first_seen_ip : option string;
  last_seen_ip : option string;
  user_agent_hash : option string;
  risk_score : Z;
  last_seen_at : time;
  created_at : time
}.
(** A row with its column defaults, as the first flush writes it. *)
Definition new_Device (new_id : uuid) (now : time) : Device := {|
  id := new_id;
  user_id := 0;
  device_key := EmptyString;
  platform := EmptyString;
  label := None;
  is_active := true;
  trusted_at := None;
  revoked_at := None;
  first_seen_ip := None;
  last_seen_ip := None;
  user_agent_hash := None;
  risk_score := 0;
  last_seen_at := now;
  created_at := now
|}.
End Device.
Notation Device := Device.Device.
#[export] Instance eta_Device : Eta Device := fun r =>
  Device.mk (Device.id r) (Device.user_id r) (Device.device_key r) (Device.platform r) (Device.label r) (Device.is_active r) (Device.trusted_at r) (Device.revoked_at r) (Device.first_seen_ip r) (Device.last_seen_ip r) (Device.user_agent_hash r) (Device.risk_score r) (Device.last_seen_at r) (Device.created_at r).
#[export] Instance keyed_Device : Keyed Device := Device.id.

(** [models.py]: [class SecurityToken], every column. *)
Module SecurityToken.
Record SecurityToken : Type := mk {
  id : uuid;
  user_id : uuid;
  purpose : string;
  token_hash : string;
  target : option string;
  expires_at : time;
  consumed_at : option time;
  created_at : time
}.
(** A row with its column defaults, as the first flush writes it. *)
Definition new_SecurityToken (new_id : uuid) (now : time) : SecurityToken := {|
  id := new_id;
  user_id := 0;
  purpose := EmptyString;
  token_hash := EmptyString;
  target := None;
  expires_at := 0;
  consumed_at := None;
  created_at := now
|}.
End SecurityToken.
Notation SecurityToken := SecurityToken.SecurityToken.
#[export] Instance eta_SecurityToken : Eta SecurityToken := fun r =>
  SecurityToken.mk (SecurityToken.id r) (SecurityToken.user_id r) (SecurityToken.purpose r) (SecurityToken.token_hash r) (SecurityToken.target r) (SecurityToken.expires_at r) (SecurityToken.consumed_at r) (SecurityToken.created_at r).
#[export] Instance keyed_SecurityToken : Keyed SecurityToken := SecurityToken.id.

(** [models.py]: [class MfaRecoveryCode], every column. *)
Module MfaRecoveryCode.
Record MfaRecoveryCode : Type := mk {
  id : uuid;
  user_id : uuid;
  code_hash : string;
  used_at : option time;
  created_at : time
}.
(** A row with its column defaults, as the first flush writes it. *)
Definition new_MfaRecoveryCode (new_id : uuid) (now : time) : MfaRecoveryCode := {|
  id := new_id;
  user_id := 0;
  code_hash := EmptyString;
  used_at := None;
  created_at := now
|}.
End MfaRecoveryCode.
Notation MfaRecoveryCode := MfaRecoveryCode.MfaRecoveryCode.
#[export] Instance eta_MfaRecoveryCode : Eta MfaRecoveryCode := fun r =>
  MfaRecoveryCode.mk (MfaRecoveryCode.id r) (MfaRecoveryCode.user_id r) (MfaRecoveryCode.code_hash r) (MfaRecoveryCode.used_at r) (MfaRecoveryCode.created_at r).
#[export] Instance keyed_MfaRecoveryCode : Keyed MfaRecoveryCode := MfaRecoveryCode.id.

(** [models.py]: [class PasskeyCredential], every column. *)
Module PasskeyCredential.
Record PasskeyCredential : Type := mk {
  id : uuid;
  user_id : uuid;
  credential_id : string;
  public_key : string;
  sign_count : Z;
  device_type : option string;
  backed_up : bool;
  transports_json : option string;
  label : option string;
  last_used_at : option time;
  created_at : time
}.
(** A row with its column defaults, as the first flush writes it. *)
Definition new_PasskeyCredential (new_id : uuid) (now : time) : PasskeyCredential := {|
  id := new_id;
  user_id := 0;
  credential_id := EmptyString;
  public_key := EmptyString;
  sign_count := 0;
  device_type := None;
  backed_up := false;
  transports_json := None;
  label := None;
  last_used_at := None;
  created_at := now
|}.
End PasskeyCredential.
Notation PasskeyCredential := PasskeyCredential.PasskeyCredential.
#[export] Instance eta_PasskeyCredential : Eta PasskeyCredential := fun r =>
  PasskeyCredential.mk (PasskeyCredential.id r) (PasskeyCredential.user_id r) (PasskeyCredential.credential_id r) (PasskeyCredential.public_key r) (PasskeyCredential.sign_count r) (PasskeyCredential.device_type r) (PasskeyCredential.backed_up r) (PasskeyCredential.transports_json r) (PasskeyCredential.label r) (PasskeyCredential.last_used_at r) (PasskeyCredential.created_at r).
#[export] Instance keyed_PasskeyCredential : Keyed PasskeyCredential := PasskeyCredential.id.

(** [models.py]: [class WebAuthnChallenge], every column. *)
Module WebAuthnChallenge.
Record WebAuthnChallenge : Type := mk {
  id : uuid;
  user_id : option uuid;
  purpose : string;
  challenge : string;
  expires_at : time;
  consumed_at : option time;
  created_at : time
}.
(** A row with its column defaults, as the first flush writes it. *)
Definition new_WebAuthnChallenge (new_id : uuid) (now : time) : WebAuthnChallenge := {|
  id := new_id;
  user_id := None;
  purpose := EmptyString;
  challenge := EmptyString;
  expires_at := 0;
  consumed_at := None;
  created_at := now
|}.
End WebAuthnChallenge.
Notation WebAuthnChallenge := WebAuthnChallenge.WebAuthnChallenge.
#[export] Instance eta_WebAuthnChallenge : Eta WebAuthnChallenge := fun r =>
  WebAuthnChallenge.mk (WebAuthnChallenge.id r) (WebAuthnChallenge.user_id r) (WebAuthnChallenge.purpose r) (WebAuthnChallenge.challenge r) (WebAuthnChallenge.expires_at r) (WebAuthnChallenge.consumed_at r) (WebAuthnChallenge.created_at r).
#[export] Instance keyed_WebAuthnChallenge : Keyed WebAuthnChallenge := WebAuthnChallenge.id.

(** [models.py]: [class AuditEvent], every column. *)
Module AuditEvent.
Record AuditEvent : Type := mk {
  id : uuid;
  user_id : option uuid;
  event_type : string;
  success : bool;
  client_id : option string;
  ip_address : option string;
  user_agent : option string;
  details_json : option string;
  created_at : time
}.
(** A row with its column defaults, as the first flush writes it. *)
Definition new_AuditEvent (new_id : uuid) (now : time) : AuditEvent := {|
  id := new_id;
  user_id := None;
  event_type := EmptyString;
  success := true;
  client_id := None;
  ip_address := None;
  user_agent := None;
  details_json := None;
  created_at := now
|}.
End AuditEvent.
Notation AuditEvent := AuditEvent.AuditEvent.
#[export] Instance eta_AuditEvent : Eta AuditEvent := fun r =>
  AuditEvent.mk (AuditEvent.id r) (AuditEvent.user_id r) (AuditEvent.event_type r) (AuditEvent.success r) (AuditEvent.client_id r) (AuditEvent.ip_address r) (AuditEvent.user_agent r) (AuditEvent.details_json r) (AuditEvent.created_at r).
#[export] Instance keyed_AuditEvent : Keyed AuditEvent := AuditEvent.id.

(** [models.py]: [class AuthEventOutbox], every column. *)
Module AuthEventOutbox.
Record AuthEventOutbox : Type := mk {
  id : uuid;
  event_type : string;
  subject_user_id : option uuid;
  session_id : option uuid;
  client_id : option string;
  payload_json : string;
  attempts : Z;
  next_attempt_at : time;
  last_error : option string;
  delivered_at : option time;
  created_at : time
}.
(** A row with its column defaults, as the first flush writes it. *)
Definition new_AuthEventOutbox (new_id : uuid) (now : time) : AuthEventOutbox := {|
  id := new_id;
  event_type := EmptyString;
  subject_user_id := None;
  session_id := None;
  client_id := None;
  payload_json := "{}"%string;
  attempts := 0;
  next_attempt_at := now;
  last_error := None;
  delivered_at := None;
  created_at := now
|}.
End AuthEventOutbox.
Notation AuthEventOutbox := AuthEventOutbox.AuthEventOutbox.
#[export] Instance eta_AuthEventOutbox : Eta AuthEventOutbox := fun r =>
  AuthEventOutbox.mk (AuthEventOutbox.id r) (AuthEventOutbox.event_type r) (AuthEventOutbox.subject_user_id r) (AuthEventOutbox.session_id r) (AuthEventOutbox.client_id r) (AuthEventOutbox.payload_json r) (AuthEventOutbox.attempts r) (AuthEventOutbox.next_attempt_at r) (AuthEventOutbox.last_error r) (AuthEventOutbox.delivered_at r) (AuthEventOutbox.created_at r).
#[export] Instance keyed_AuthEventOutbox : Keyed AuthEventOutbox := AuthEventOutbox.id.

(** [models.py]: [class DeveloperAccessRequest], every column. *)
Module DeveloperAccessRequest.
Record DeveloperAccessRequest : Type := mk {
  id : uuid;
  user_id : uuid;
  product : string;
  justification : string;
  status : string;
  created_at : time
}.
(** A row with its column defaults, as the first flush writes it. *)
Definition new_DeveloperAccessRequest (new_id : uuid) (now : time) : DeveloperAccessRequest := {|
  id := new_id;
  user_id := 0;
  product := EmptyString;
  justification := EmptyString;
  status := "pending"%string;
  created_at := now
|}.
End DeveloperAccessRequest.
Notation DeveloperAccessRequest := DeveloperAccessRequest.DeveloperAccessRequest.
#[export] Instance eta_DeveloperAccessRequest : Eta DeveloperAccessRequest := fun r =>
  DeveloperAccessRequest.mk (DeveloperAccessRequest.id r) (DeveloperAccessRequest.user_id r) (DeveloperAccessRequest.product r) (DeveloperAccessRequest.justification r) (DeveloperAccessRequest.status r) (DeveloperAccessRequest.created_at r).
#[export] Instance keyed_DeveloperAccessRequest : Keyed DeveloperAccessRequest := DeveloperAccessRequest.id.

(** * The database: one list of rows per table *)

Record IdentityDb : Type := mk_IdentityDb {
  users : list User;
  applications : list Application;
  application_redirect_uris : list ApplicationRedirectURI;
  authorization_codes : list AuthorizationCode;
  auth_sessions : list AuthSession;
  devices : list Device;
  security_tokens : list SecurityToken;
  mfa_recovery_codes : list MfaRecoveryCode;
  passkey_credentials : list PasskeyCredential;
  webauthn_challenges : list WebAuthnChallenge;
  audit_events : list AuditEvent;
  auth_event_outbox : list AuthEventOutbox;
  developer_access_requests : list DeveloperAccessRequest
}.
#[export] Instance eta_IdentityDb : Eta IdentityDb := fun r =>
  mk_IdentityDb (users r) (applications r) (application_redirect_uris r) (authorization_codes r) (auth_sessions r) (devices r) (security_tokens r) (mfa_recovery_codes r) (passkey_credentials r) (webauthn_challenges r) (audit_events r) (auth_event_outbox r) (developer_access_requests r).
Definition empty_IdentityDb : IdentityDb := mk_IdentityDb [] [] [] [] [] [] [] [] [] [] [] [] [].

(** * The constraints of the schema *)


Definition valid_User (r : User) : bool :=
  uuid_column (User.id r) && forallb (text_column 320) (opt_list (User.email r)) && forallb (text_column 32) (opt_list (User.phone r)) && text_column 160 (User.display_name r) && text_column 255 (User.password_hash r) && int_column (User.failed_login_attempts r) && int_column (User.security_version r) && forallb (text_column 64) (opt_list (User.last_login_ip r)).
Definition valid_Application (r : Application) : bool :=
  uuid_column (Application.id r) && text_column 120 (Application.client_id r) && text_column 160 (Application.name r).
Definition valid_ApplicationRedirectURI (r : ApplicationRedirectURI) : bool :=
  uuid_column (ApplicationRedirectURI.id r) && uuid_column (ApplicationRedirectURI.application_id r).
Definition valid_AuthorizationCode (r : AuthorizationCode) : bool :=
  uuid_column (AuthorizationCode.id r) && text_column 64 (AuthorizationCode.code_hash r) && uuid_column (AuthorizationCode.user_id r) && text_column 120 (AuthorizationCode.client_id r) && text_column 128 (AuthorizationCode.code_challenge r) && text_column 512 (AuthorizationCode.nonce r) && text_column 512 (AuthorizationCode.scope r) && text_column 32 (AuthorizationCode.auth_method r).
Definition valid_AuthSession (r : AuthSession) : bool :=
  uuid_column (AuthSession.id r) && uuid_column (AuthSession.user_id r) && text_column 120 (AuthSession.client_id r) && text_column 64 (AuthSession.refresh_token_hash r) && forallb (text_column 64) (opt_list (AuthSession.ip_address r)) && forallb (text_column 160) (opt_list (AuthSession.revoked_reason r)) && text_column 32 (AuthSession.auth_method r) && int_column (AuthSession.risk_score r) && forallb uuid_column (opt_list (AuthSession.device_id r)).
Definition valid_Device (r : Device) : bool :=
  uuid_column (Device.id r) && uuid_column (Device.user_id r) && text_column 200 (Device.device_key r) && text_column 32 (Device.platform r) && forallb (text_column 160) (opt_list (Device.label r)) && forallb (text_column 64) (opt_list (Device.first_seen_ip r)) && forallb (text_column 64) (opt_list (Device.last_seen_ip r)) && forallb (text_column 64) (opt_list (Device.user_agent_hash r)) && int_column (Device.risk_score r).
Definition valid_SecurityToken (r : SecurityToken) : bool :=
  uuid_column (SecurityToken.id r) && uuid_column (SecurityToken.user_id r) && text_column 40 (SecurityToken.purpose r) && text_column 64 (SecurityToken.token_hash r) && forallb (text_column 320) (opt_list (SecurityToken.target r)).
Definition valid_MfaRecoveryCode (r : MfaRecoveryCode) : bool :=
  uuid_column (MfaRecoveryCode.id r) && uuid_column (MfaRecoveryCode.user_id r) && text_column 64 (MfaRecoveryCode.code_hash r).
Definition valid_PasskeyCredential (r : PasskeyCredential) : bool :=
  uuid_column (PasskeyCredential.id r) && uuid_column (PasskeyCredential.user_id r) && text_column 1024 (PasskeyCredential.credential_id r) && int_column (PasskeyCredential.sign_count r) && forallb (text_column 80) (opt_list (PasskeyCredential.device_type r)) && forallb (text_column 160) (opt_list (PasskeyCredential.label r)).
Definition valid_WebAuthnChallenge (r : WebAuthnChallenge) : bool :=
  uuid_column (WebAuthnChallenge.id r) && forallb uuid_column (opt_list (WebAuthnChallenge.user_id r)) && text_column 32 (WebAuthnChallenge.purpose r) && text_column 256 (WebAuthnChallenge.challenge r).
Definition valid_AuditEvent (r : AuditEvent) : bool :=
  uuid_column (AuditEvent.id r) && forallb uuid_column (opt_list (AuditEvent.user_id r)) && text_column 80 (AuditEvent.event_type r) && forallb (text_column 120) (opt_list (AuditEvent.client_id r)) && forallb (text_column 64) (opt_list (AuditEvent.ip_address r)).
Definition valid_AuthEventOutbox (r : AuthEventOutbox) : bool :=
  uuid_column (AuthEventOutbox.id r) && text_column 80 (AuthEventOutbox.event_type r) && forallb uuid_column (opt_list (AuthEventOutbox.subject_user_id r)) && forallb uuid_column (opt_list (AuthEventOutbox.session_id r)) && forallb (text_column 120) (opt_list (AuthEventOutbox.client_id r)) && int_column (AuthEventOutbox.attempts r) && forallb (text_column 500) (opt_list (AuthEventOutbox.last_error r)).
Definition valid_DeveloperAccessRequest (r : DeveloperAccessRequest) : bool :=
  uuid_column (DeveloperAccessRequest.id r) && uuid_column (DeveloperAccessRequest.user_id r) && text_column 40 (DeveloperAccessRequest.product r) && text_column 1000 (DeveloperAccessRequest.justification r) && text_column 24 (DeveloperAccessRequest.status r).
Definition valid_rows (d : IdentityDb) : bool :=
  forallb valid_User (users d) &&
  forallb valid_Application (applications d) &&
  forallb valid_ApplicationRedirectURI (application_redirect_uris d) &&
  forallb valid_AuthorizationCode (authorization_codes d) &&
  forallb valid_AuthSession (auth_sessions d) &&
  forallb valid_Device (devices d) &&
  forallb valid_SecurityToken (security_tokens d) &&
  forallb valid_MfaRecoveryCode (mfa_recovery_codes d) &&
  forallb valid_PasskeyCredential (passkey_credentials d) &&
  forallb valid_WebAuthnChallenge (webauthn_challenges d) &&
  forallb valid_AuditEvent (audit_events d) &&
  forallb valid_AuthEventOutbox (auth_event_outbox d) &&
  forallb valid_DeveloperAccessRequest (developer_access_requests d).
Definition check_schema (d : IdentityDb) : result unit :=
  ensure valid_rows d else_raise DataError "value out of range";
  let* _ := unique_column "users_pkey" (keys (users d)) in
  let* _ := unique_column "ix_users_email" (flat_map (fun r => opt_list (User.email r)) (users d)) in
  let* _ := unique_column "ix_users_phone" (flat_map (fun r => opt_list (User.phone r)) (users d)) in
  let* _ := unique_column "applications_pkey" (keys (applications d)) in
  let* _ := unique_column "ix_applications_client_id" (map Application.client_id (applications d)) in
  let* _ := unique_column "application_redirect_uris_pkey" (keys (application_redirect_uris d)) in
  let* _ := unique_column "uq_app_redirect_uri" (map (fun r => (ApplicationRedirectURI.application_id r, ApplicationRedirectURI.redirect_uri r)) (application_redirect_uris d)) in
  let* _ := unique_column "authorization_codes_pkey" (keys (authorization_codes d)) in
  let* _ := unique_column "ix_authorization_codes_code_hash" (map AuthorizationCode.code_hash (authorization_codes d)) in
  let* _ := unique_column "auth_sessions_pkey" (keys (auth_sessions d)) in
  let* _ := unique_column "ix_auth_sessions_refresh_token_hash" (map AuthSession.refresh_token_hash (auth_sessions d)) in
  let* _ := unique_column "devices_pkey" (keys (devices d)) in
  let* _ := unique_column "uq_device_user_key" (map (fun r => (Device.user_id r, Device.device_key r)) (devices d)) in
  let* _ := unique_column "security_tokens_pkey" (keys (security_tokens d)) in
  let* _ := unique_column "ix_security_tokens_token_hash" (map SecurityToken.token_hash (security_tokens d)) in
  let* _ := unique_column "mfa_recovery_codes_pkey" (keys (mfa_recovery_codes d)) in
  let* _ := unique_column "uq_mfa_recovery_user_code" (map (fun r => (MfaRecoveryCode.user_id r, MfaRecoveryCode.code_hash r)) (mfa_recovery_codes d)) in
  let* _ := unique_column "passkey_credentials_pkey" (keys (passkey_credentials d)) in
  let* _ := unique_column "ix_passkey_credentials_credential_id" (map PasskeyCredential.credential_id (passkey_credentials d)) in
  let* _ := unique_column "webauthn_challenges_pkey" (keys (webauthn_challenges d)) in
  let* _ := unique_column "ix_webauthn_challenges_challenge" (map WebAuthnChallenge.challenge (webauthn_challenges d)) in
  let* _ := unique_column "audit_events_pkey" (keys (audit_events d)) in
  let* _ := unique_column "auth_event_outbox_pkey" (keys (auth_event_outbox d)) in
  let* _ := unique_column "developer_access_requests_pkey" (keys (developer_access_requests d)) in
  let* _ := foreign_key "application_redirect_uris_application_id_fkey" (map ApplicationRedirectURI.application_id (application_redirect_uris d)) (keys (applications d)) in
  let* _ := foreign_key "authorization_codes_user_id_fkey" (map AuthorizationCode.user_id (authorization_codes d)) (keys (users d)) in
  let* _ := foreign_key "auth_sessions_user_id_fkey" (map AuthSession.user_id (auth_sessions d)) (keys (users d)) in
  let* _ := foreign_key "auth_sessions_device_id_fkey" (flat_map (fun r => opt_list (AuthSession.device_id r)) (auth_sessions d)) (keys (devices d)) in
  let* _ := foreign_key "devices_user_id_fkey" (map Device.user_id (devices d)) (keys (users d)) in
  let* _ := foreign_key "security_tokens_user_id_fkey" (map SecurityToken.user_id (security_tokens d)) (keys (users d)) in
  let* _ := foreign_key "mfa_recovery_codes_user_id_fkey" (map MfaRecoveryCode.user_id (mfa_recovery_codes d)) (keys (users d)) in
  let* _ := foreign_key "passkey_credentials_user_id_fkey" (map PasskeyCredential.user_id (passkey_credentials d)) (keys (users d)) in
  let* _ := foreign_key "webauthn_challenges_user_id_fkey" (flat_map (fun r => opt_list (WebAuthnChallenge.user_id r)) (webauthn_challenges d)) (keys (users d)) in
  let* _ := foreign_key "audit_events_user_id_fkey" (flat_map (fun r => opt_list (AuditEvent.user_id r)) (audit_events d)) (keys (users d)) in
  foreign_key "developer_access_requests_user_id_fkey" (map DeveloperAccessRequest.user_id (developer_access_requests d)) (keys (users d)).
