(* ===== verification/IdentityCore.v ===== *)
(** The foundations of the identity server [platform/ithute-auth]: its settings
    and third-party providers, the helpers of [app/security.py], the session of
    [app/db.py] as a state-and-error monad with the [before_flush] event of
    [app/models.py], and the services of [app/security_service.py]. *)
From S2P Require Import Prelude Json Calendar Session Schema Sha256 Engines Base64 IdentityModels.
#[local] Open Scope string_scope.
#[local] Open Scope list_scope.
#[local] Open Scope Z_scope.

(** * Settings and requests *)

(** [class Settings]: the settings the modelled endpoints read; [redirect_uris]
    and [service_client_secrets] are the parsed properties. *)
Record Settings : Type := mk_Settings {
  issuer : string;
  access_token_minutes : Z;
  refresh_token_days : Z;
  push_user_token_minutes : Z;
  service_token_minutes : Z;
  authorization_code_minutes : Z;
  browser_session_hours : Z;
  browser_cookie_name : string;
  password_reset_minutes : Z;
  verification_code_minutes : Z;
  recovery_rate_window_seconds : Z;
  recovery_max_requests_per_ip : Z;
  recovery_max_requests_per_user : Z;
  verification_rate_window_seconds : Z;
  verification_max_requests_per_user : Z;
  verification_confirm_rate_window_seconds : Z;
  verification_confirm_max_failures_per_user : Z;
  max_login_failures : Z;
  login_lock_minutes : Z;
  login_rate_window_seconds : Z;
  login_rate_max_failures_per_ip : Z;
  trusted_proxy_cidrs : string;
  totp_issuer_name : string;
  totp_encryption_key : string;
  account_base_url : string;
  jwt_key_id : string;
  private_key : string;
  public_key : string;
  previous_jwks : list (list (string * string));
  redirect_uris : list (string * list string);
  service_client_secrets : list (string * string);
  push_event_lease_seconds : Z;
  system_owner_email : string;
  system_owner_password : string
}.

(** What an endpoint reads of the HTTP request. *)
Record Request : Type := mk_Request {
  peer : option string;
  forwarded_for : option string;
  user_agent : option string;
  device_header : option string;
  browser_cookie : option string;
  bearer : option string
}.

(** A verification key: the configured PEM, or a retained JWK. *)
Inductive Key : Type := Pem (text : string) | Jwk (fields : list (string * string)).

(** Third-party code and services: [passlib], [pyotp], [cryptography.fernet],
    [PyJWT], [ipaddress], and the mail and SMS gateways. *)
Class Providers : Type := {
  (** [ipaddress.ip_address(candidate)] in a network of the setting; [None] is
      the [ValueError] of a text that is no address. *)
  ip_in_networks : string -> string -> option bool;
  (** [password_context.hash] with its salt, and [verify]. *)
  bcrypt_hash : string -> string -> string;
  bcrypt_verify : string -> string -> bool;
  (** [Fernet(key)] with an initialisation vector; [None] is an invalid key, and
      for the decryption an invalid token. *)
  fernet_key : string -> bool;
  fernet_encrypt : string -> string -> string -> string;
  fernet_decrypt : string -> string -> option string;
  (** [pyotp.TOTP(secret).verify(code, valid_window=1)] at a time. *)
  totp_verify : string -> string -> time -> bool;
  (** [jwt.encode(payload, key, "RS256", {"kid": kid, "typ": "JWT"})],
      [jwt.get_unverified_header], and [jwt.decode] with the issuer, the audience
      if it is verified and the required claims; [None] is a [PyJWTError]. *)
  jwt_encode : string -> string -> list (string * Json) -> string;
  jwt_header : string -> option (list (string * Json));
  jwt_decode : Key -> string -> option string -> list string -> time -> string -> option (list (string * Json));
  (** [send_email] and [send_sms] return, or raise. *)
  delivers : string -> string -> bool
}.

(** What a request draws from its surroundings: the clock, [uuid.uuid4] in the
    order of the draws, and the random values of [secrets]. *)
Record Env : Type := mk_Env {
  settings : Settings;
  request : Request;
  now : time;
  uuid4 : nat -> uuid;
  random_token : string;
  random_code : Z;
  random_hex : nat -> string;
  random_base32 : string;
  random_salt : string
}.
#[export] Instance eta_Env : Eta Env := fun e =>
  mk_Env (settings e) (request e) (now e) (uuid4 e) (random_token e) (random_code e) (random_hex e) (random_base32 e) (random_salt e).

Definition minutes (n : Z) : Z := seconds (n * 60).

(** * [app/security.py] *)
Definition normalize_email (value : option string) : option string :=
  match value with
  | None => None
  | Some value => let normalized := lower (strip value) in if str_truthy normalized then Some normalized else None
  end.
Fixpoint only_digits (s : string) : string :=
  match s with EmptyString => EmptyString | String c s => if is_digit c then String c (only_digits s) else only_digits s end.
Definition starts_with (prefix s : string) : bool := match after_prefix prefix s with Some _ => true | None => false end.
Definition normalize_phone (value : option string) : option string :=
  match value with
  | None => None
  | Some value =>
      let raw := strip value in
      if negb (str_truthy raw) then None
      else
        let digits := only_digits raw in
        if str_truthy digits then Some (if starts_with "+" raw then ("+" ++ digits)%string else digits) else None
  end.
Definition is_system_owner (s : Settings) (email : option string) : bool :=
  if negb (str_truthy (system_owner_password s)) then false
  else match normalize_email (Some (system_owner_email s)) with
       | None => false
       | Some configured => normalize_email email ==? Some configured
       end.

(** [hash_refresh_token], [hash_authorization_code], [hash_security_token] *)
Definition hash_token (token : string) : string := python_sha256 (bytes_of token).
Fixpoint no_blanks (s : string) : string :=
  match s with EmptyString => EmptyString | String c s => if ord c =? 32 then no_blanks s else String c (no_blanks s) end.
Definition hash_recovery_code (code : string) : string := hash_token (no_blanks (lower (strip code))).
(** [new_numeric_code], [new_recovery_codes] *)
Definition new_numeric_code (e : Env) : string := zero_pad 6 (str_of_Z (random_code e)).
Definition new_recovery_codes (e : Env) : list string :=
  map (fun k => (random_hex e (2 * k) ++ "-" ++ random_hex e (2 * k + 1))%string) (seq 0 10).
(** [pkce_s256] of an ASCII verifier *)
Definition pkce_s256 (verifier : string) : string := b64url (sha256 (bytes_of verifier)).

Section Security.
Context `{Providers}.
Definition verify_totp (secret code : string) (t : time) : bool :=
  let normalized := only_digits code in
  if negb (Z.of_nat (String.length normalized) =? 6) then false else totp_verify secret normalized t.
(** [_fernet] *)
Definition fernet (s : Settings) : result string :=
  ensure str_truthy (totp_encryption_key s) else_raise RuntimeError "AUTH_TOTP_ENCRYPTION_KEY is required for MFA";
  ensure fernet_key (totp_encryption_key s) else_raise RuntimeError "AUTH_TOTP_ENCRYPTION_KEY must be a valid Fernet key";
  Ok (totp_encryption_key s).
Definition encrypt_totp_secret (iv secret : string) (s : Settings) : result string :=
  let* k := fernet s in Ok (fernet_encrypt k iv secret).
Definition decrypt_totp_secret (value : string) (s : Settings) : result string :=
  let* k := fernet s in
  match fernet_decrypt k value with
  | Some secret => Ok secret
  | None => Err (RuntimeError "stored MFA secret cannot be decrypted")
  end.

(** *** Tokens *)
Definition timestamp (t : time) : Z := t / 1000000.
Definition is_text (s : string) (v : Json) : bool := match v with JStr t => t ==? s | _ => false end.
Definition encode (e : Env) (payload : list (string * Json)) : string :=
  jwt_encode (private_key (settings e)) (jwt_key_id (settings e)) payload.
Definition verification_key (s : Settings) (token : string) : option Key :=
  match jwt_header token with
  | None => None
  | Some header =>
      match jget "kid" header with
      | JStr kid =>
          if negb (str_truthy kid) then None
          else if kid ==? jwt_key_id s then Some (Pem (public_key s))
          else match List.find (fun jwk => dict_get "kid" jwk ==? Some kid) (previous_jwks s) with
               | Some jwk => Some (Jwk jwk)
               | None => None
               end
      | _ => None
      end
  end.
Definition access_payload (e : Env) (user_id : uuid) (client_id : string) (session_id : uuid) (email phone : option string)
    : list (string * Json) := [
  ("iss", JStr (rstrip_slash (issuer (settings e)))); ("sub", JStr (str_of_uuid user_id)); ("aud", JStr client_id);
  ("sid", JStr (str_of_uuid session_id)); ("iat", JInt (timestamp (now e))); ("nbf", JInt (timestamp (now e)));
  ("exp", JInt (timestamp (now e + minutes (access_token_minutes (settings e)))));
  ("email", opt_json email); ("phone_number", opt_json phone);
  ("is_platform_admin", JBool (is_system_owner (settings e) email)); ("token_use", JStr "access")].
Definition create_access_token (e : Env) (user_id : uuid) (client_id : string) (session_id : uuid) (email phone : option string)
    : string := encode e (access_payload e user_id client_id session_id email phone).
Definition create_push_access_token (e : Env) (jti : uuid) (user_id : uuid) (client_id : string) (session_id : uuid) : string :=
  encode e [
    ("iss", JStr (rstrip_slash (issuer (settings e)))); ("sub", JStr (str_of_uuid user_id)); ("aud", JStr "ithute-push");
    ("azp", JStr client_id); ("sid", JStr (str_of_uuid session_id)); ("scope", JStr "push.device");
    ("token_use", JStr "push_access"); ("jti", JStr (str_of_uuid jti)); ("iat", JInt (timestamp (now e)));
    ("nbf", JInt (timestamp (now e)));
    ("exp", JInt (timestamp (now e + minutes (push_user_token_minutes (settings e)))))].
Definition create_id_token (e : Env) (user_id : uuid) (client_id : string) (session_id : uuid) (nonce : string)
    (email phone : option string) (display_name : string) (email_verified phone_verified : bool) : string :=
  encode e [
    ("iss", JStr (rstrip_slash (issuer (settings e)))); ("sub", JStr (str_of_uuid user_id)); ("aud", JStr client_id);
    ("sid", JStr (str_of_uuid session_id)); ("iat", JInt (timestamp (now e)));
    ("exp", JInt (timestamp (now e + minutes (access_token_minutes (settings e)))));
    ("nonce", JStr nonce); ("name", JStr display_name); ("email", opt_json email); ("email_verified", JBool email_verified);
    ("phone_number", opt_json phone); ("phone_number_verified", JBool phone_verified);
    ("is_platform_admin", JBool (is_system_owner (settings e) email)); ("token_use", JStr "id")].
Definition create_browser_session_token (e : Env) (user_id : uuid) (security_version : Z) (auth_method : string) : string :=
  encode e [
    ("iss", JStr (rstrip_slash (issuer (settings e)))); ("sub", JStr (str_of_uuid user_id)); ("aud", JStr "ithute-auth-browser");
    ("iat", JInt (timestamp (now e))); ("nbf", JInt (timestamp (now e)));
    ("exp", JInt (timestamp (now e + minutes (60 * browser_session_hours (settings e)))));
    ("token_use", JStr "browser_session"); ("sv", JInt security_version); ("amr", JStr auth_method)].
Definition decode_browser_session_token (e : Env) (token : string) : option (list (string * Json)) :=
  match verification_key (settings e) token with
  | None => None
  | Some k =>
      match jwt_decode k (rstrip_slash (issuer (settings e))) (Some "ithute-auth-browser")
              ["iss"; "sub"; "aud"; "iat"; "nbf"; "exp"; "token_use"; "sv"] (now e) token with
      | None => None
      | Some claims => if is_text "browser_session" (jget "token_use" claims) then Some claims else None
      end
  end.
Definition decode_access_token (e : Env) (token : string) : option (list (string * Json)) :=
  match verification_key (settings e) token with
  | None => None
  | Some k => jwt_decode k (rstrip_slash (issuer (settings e))) None [] (now e) token
  end.

(** * [client_ip] of [app/security_service.py] *)
Definition trusted_proxy (s : Settings) (value : option string) : bool :=
  match value with
  | Some value => str_truthy value && (ip_in_networks (trusted_proxy_cidrs s) value ==? Some true)
  | None => false
  end.
Definition request_peer (r : Request) : option string :=
  match peer r with Some host => Some (str_take 64 host) | None => None end.
Definition forwarded_values (forwarded : string) : list string :=
  List.filter str_truthy (map strip (split_char 44 forwarded)).
Definition client_ip (e : Env) : option string :=
  let peer := request_peer (request e) in
  match forwarded_for (request e) with
  | Some forwarded =>
      if str_truthy forwarded && trusted_proxy (settings e) peer then
        match List.find (fun value => ip_in_networks (trusted_proxy_cidrs (settings e)) value ==? Some false)
                (map (str_take 64) (rev (forwarded_values forwarded))) with
        | Some candidate => Some candidate
        | None => peer
        end
      else peer
  | None => peer
  end.
End Security.

(** * The database session *)

(** A connection: the committed database, and the session's rows as the
    transaction has flushed them ([sql]) and as the mapped objects hold them
    ([mem]).  [SessionLocal] is built with [autoflush=False] and
    [expire_on_commit=False]. *)
Record Conn : Type := mk_Conn {
  committed : IdentityDb;
  session : Session IdentityDb;
  drawn : nat
}.
#[export] Instance eta_Conn : Eta Conn := fun c => mk_Conn (committed c) (session c) (drawn c).
Definition connect (d : IdentityDb) : Conn := mk_Conn d (open_session d) 0.

(** A computation of an endpoint: it may raise, and then keeps what it has
    committed so far. *)
Definition M (A : Type) : Type := Conn -> result A * Conn.
Definition ret {A} (a : A) : M A := fun c => (Ok a, c).
Definition raise {A} (x : exn) : M A := fun c => (Err x, c).
Definition bind {A B} (m : M A) (k : A -> M B) : M B := fun c =>
  match m c with (Ok a, c) => k a c | (Err x, c) => (Err x, c) end.
Notation "'let!' x := m 'in' k" := (bind m (fun x => k))
  (at level 10, x pattern, m at level 100, k at level 200) : py_scope.
Notation "m ;; k" := (bind m (fun _ => k)) (at level 100, k at level 200, right associativity) : py_scope.
Notation "'when' b 'then!' m" := (if b then m else ret tt) (at level 10, b at level 100, m at level 99) : py_scope.
Definition lift {A} (r : result A) : M A := fun c => (r, c).
(** [if not b: raise x] *)
Definition require (b : bool) (x : exn) : M unit := if b then ret tt else raise x.
Definition some_or {A} (o : option A) (x : exn) : M A := match o with Some a => ret a | None => raise x end.

Definition query {A} (f : Session IdentityDb -> A) : M A := fun c => (Ok (f (session c)), c).
Definition modify (f : Session IdentityDb -> Session IdentityDb) : M unit := fun c => (Ok tt, c <| session ::= f |>).
(** Attribute assignments on the mapped object of [r], or of every row of [rs]:
    [f] acts on the object as it is. *)
Definition assign_keys {R} `{Keyed R} (T : IdentityDb -> list R) `{!Setter T} (f : R -> R) (ks : list uuid) : M unit :=
  modify (fun s => mk_Session (sql s) ((mem s) <| T ::= map (fun x => if key x in? ks then f x else x) |>)).
Definition assign {R} `{Keyed R} (T : IdentityDb -> list R) `{!Setter T} (f : R -> R) (r : R) : M R :=
  bind (assign_keys T f [key r]) (fun _ => ret (f r)).
Definition assign_all {R} `{Keyed R} (T : IdentityDb -> list R) `{!Setter T} (f : R -> R) (rs : list R) : M unit :=
  assign_keys T f (keys rs).
(** [db.add(r)], where [r] has the next drawn identifier. *)
Definition insert {R} `{Keyed R} (T : IdentityDb -> list R) `{!Setter T} (e : Env) (mk : uuid -> R) : M R := fun c =>
  let r := mk (uuid4 e (drawn c)) in (Ok r, c <| session ::= add T r |> <| drawn ::= S |>).
Definition draw_uuid (e : Env) : M uuid := fun c => (Ok (uuid4 e (drawn c)), c <| drawn ::= S |>).
(** [db.execute(delete(T).where(p))]: the rows of the database that match, and
    the objects mapped to them. *)
Definition delete_where {R} `{Keyed R} (T : IdentityDb -> list R) `{!Setter T} (p : R -> bool) : M unit := modify (fun s =>
  let gone := keys (List.filter p (T (sql s))) in
  mk_Session ((sql s) <| T ::= List.filter (fun r => key r notin? gone) |>) ((mem s) <| T ::= List.filter (fun r => key r notin? gone) |>)).
(** [db.delete(r)] of a mapped object. *)
Definition delete_row {R} `{Keyed R} (T : IdentityDb -> list R) `{!Setter T} (k : uuid) : M unit := modify (fun s =>
  mk_Session (sql s) ((mem s) <| T ::= List.filter (fun r => negb (key r =? k)) |>)).
(** [db.execute(update(T).where(p).values(f))]: it bypasses the mapped objects'
    history, which are then brought in line. *)
Definition update_where {R} `{Keyed R} (T : IdentityDb -> list R) `{!Setter T} (p : R -> bool) (f : R -> R) : M unit := modify (fun s =>
  let hit := keys (List.filter p (T (sql s))) in
  let change := map (fun r => if key r in? hit then f r else r) in
  mk_Session ((sql s) <| T ::= change |>) ((mem s) <| T ::= change |>)).

(** ** [_queue_identity_status_events], the [before_flush] event *)

(** [json.dumps(details, separators=(",", ":"), sort_keys=True)] *)
Definition compact (details : list (string * Json)) : string := dumps true "," ":" (JObj details).

Definition revoked_event (e : Env) (reason : string) (at_ : time) (row : AuthSession) (id : uuid) : AuthEventOutbox :=
  AuthEventOutbox.new_AuthEventOutbox id (now e)
    <| AuthEventOutbox.event_type := "session.revoked" |>
    <| AuthEventOutbox.subject_user_id := Some (AuthSession.user_id row) |>
    <| AuthEventOutbox.session_id := Some (AuthSession.id row) |>
    <| AuthEventOutbox.client_id := Some (AuthSession.client_id row) |>
    <| AuthEventOutbox.payload_json := compact [("reason", JStr reason); ("revoked_at", JStr (iso_time at_))] |>.
Definition account_event (e : Env) (u : User) (id : uuid) : AuthEventOutbox :=
  AuthEventOutbox.new_AuthEventOutbox id (now e)
    <| AuthEventOutbox.event_type := if User.is_active u then "account.enabled" else "account.disabled" |>
    <| AuthEventOutbox.subject_user_id := Some (User.id u) |>
    <| AuthEventOutbox.payload_json := compact [("active", JBool (User.is_active u))] |>.
Definition application_event (e : Env) (a : Application) (id : uuid) : AuthEventOutbox :=
  AuthEventOutbox.new_AuthEventOutbox id (now e)
    <| AuthEventOutbox.event_type := if Application.is_active a then "application.enabled" else "application.disabled" |>
    <| AuthEventOutbox.client_id := Some (Application.client_id a) |>
    <| AuthEventOutbox.payload_json := compact [("active", JBool (Application.is_active a))] |>.

Definition is_none {A} (o : option A) : bool := match o with None => true | Some _ => false end.
(** [for x in xs: f(x)] *)
Fixpoint for_each {A} (f : A -> M unit) (l : list A) : M unit :=
  match l with [] => ret tt | x :: l => f x ;; for_each f l end.

(** [_revoke_scope_sessions] *)
Definition revoked (e : Env) (reason : string) (row : AuthSession) : AuthSession :=
  row <| AuthSession.revoked_at := Some (now e) |> <| AuthSession.revoked_reason := Some (str_take 160 reason) |>.
Definition revoke_scope_session (e : Env) (reason : string) (row : AuthSession) : M unit :=
  if negb (is_none (AuthSession.revoked_at row)) then ret tt
  else
    assign auth_sessions (revoked e reason) row ;;
    insert auth_event_outbox e (revoked_event e (str_take 160 reason) (now e) row) ;;
    ret tt.
Definition revoke_scope_sessions (e : Env) (p : AuthSession -> bool) (reason : string) : M unit :=
  let! rows := query (select auth_sessions (fun r => p r && is_none (AuthSession.revoked_at r))) in
  for_each (revoke_scope_session e reason) rows.

(** The attribute of a mapped object differs from the one last flushed. *)
Definition changed {R B} `{Keyed R, EqDecision B} (T : IdentityDb -> list R) (f : R -> B) (s : Session IdentityDb) (r : R) : bool :=
  match find_row (key r) (T (sql s)) with Some old => negb (bool_decide (f old = f r)) | None => false end.
Definition changed_rows {R B} `{Keyed R, EqDecision B} (T : IdentityDb -> list R) (f : R -> B) (s : Session IdentityDb) : list R :=
  List.filter (changed T f s) (T (mem s)).

#[export] Instance AuthSession_eq_dec : EqDecision AuthSession.
Proof. solve_decision. Defined.
Definition user_status_event (e : Env) (u : User) : M unit :=
  insert auth_event_outbox e (account_event e u) ;;
  when negb (User.is_active u) then! revoke_scope_sessions e (fun r => AuthSession.user_id r =? User.id u) "account disabled".
Definition application_status_event (e : Env) (a : Application) : M unit :=
  insert auth_event_outbox e (application_event e a) ;;
  when negb (Application.is_active a) then!
    revoke_scope_sessions e (fun r => AuthSession.client_id r ==? Application.client_id a) "application disabled".
Definition session_revoked_event (e : Env) (dirty : AuthSession) : M unit :=
  let r := fun s => live (auth_sessions (mem s)) dirty in
  let! has_changes := query (fun s => changed auth_sessions AuthSession.revoked_at s (r s)) in
  let! r := query r in
  match AuthSession.revoked_at r with
  | Some at_ =>
      let reason := match AuthSession.revoked_reason r with Some s => str_or s "revoked" | None => "revoked" end in
      when has_changes then! (insert auth_event_outbox e (revoked_event e reason at_ r) ;; ret tt)
  | None => ret tt
  end.
(** Over the dirty objects: accounts, applications, sessions (the order of
    [session.dirty] is not specified). *)
Definition queue_identity_status_events (e : Env) : M unit :=
  let! dirty_users := query (changed_rows users User.is_active) in
  let! dirty_applications := query (changed_rows applications Application.is_active) in
  let! dirty_sessions := query (changed_rows auth_sessions (fun r => r)) in
  for_each (user_status_event e) dirty_users ;;
  for_each (application_status_event e) dirty_applications ;;
  for_each (session_revoked_event e) dirty_sessions.

(** [db.flush()], [db.commit()], [db.rollback()] *)
Definition flush (e : Env) : M unit :=
  queue_identity_status_events e ;;
  let! d := query mem in
  lift (check_schema d) ;;
  modify (@Session.flush IdentityDb).
Definition commit (e : Env) : M unit := flush e ;; (fun c => (Ok tt, c <| committed := mem (session c) |>)).
Definition rollback : M unit := fun c => (Ok tt, c <| session := open_session (committed c) |>).
(** [try: m except IntegrityError: handler] *)
Definition except_integrity {A} (m handler : M A) : M A := fun c =>
  match m c with (Err (IntegrityError _), c) => handler c | r => r end.

(** A request of its own session. *)
Definition run {A} (m : M A) (d : IdentityDb) : result A * IdentityDb :=
  let '(r, c) := m (connect d) in (r, committed c).

(** * [app/security_service.py] *)
Section Services.
Context `{Providers}.

Definition FAILED_LOGIN_EVENT_TYPES : list string :=
  ["login_failed"; "mfa_challenge_failed"; "oidc_login_failed"; "oidc_mfa_failed"].

(** [record_audit]; [client_id] is not given by every caller. *)
Definition audit_event (e : Env) (event_type : string) (user : option User) (success : bool) (client_id : option string)
    (details : list (string * Json)) (id : uuid) : AuditEvent :=
  AuditEvent.new_AuditEvent id (now e)
    <| AuditEvent.user_id := match user with Some u => Some (User.id u) | None => None end |>
    <| AuditEvent.event_type := event_type |> <| AuditEvent.success := success |> <| AuditEvent.client_id := client_id |>
    <| AuditEvent.ip_address := client_ip e |>
    <| AuditEvent.user_agent := match user_agent (request e) with
         | Some s => if str_truthy s then Some (str_take 2000 s) else None
         | None => None
         end |>
    <| AuditEvent.details_json := match details with [] => None | _ => Some (compact details) end |>.
Definition record_audit (e : Env) (event_type : string) (user : option User) (success : bool) (client_id : option string)
    (details : list (string * Json)) : M unit :=
  insert audit_events e (audit_event e event_type user success client_id details) ;; ret tt.

(** The rate limits count audit events since a cutoff. *)
Definition count_events (p : AuditEvent -> bool) (cutoff : time) : M Z :=
  query (sql_count audit_events (fun r => p r && (cutoff <=? AuditEvent.created_at r))).
Definition failed_login (ip : string) (r : AuditEvent) : bool :=
  (AuditEvent.ip_address r ==? Some ip) && negb (AuditEvent.success r) && (AuditEvent.event_type r in? FAILED_LOGIN_EVENT_TYPES).
Definition login_rate_limited (e : Env) : M bool :=
  let s := settings e in
  match client_ip e with
  | Some ip =>
      if negb (str_truthy ip) || (login_rate_max_failures_per_ip s <=? 0) then ret false
      else
        let! failures := count_events (failed_login ip) (now e - seconds (login_rate_window_seconds s)) in
        ret (login_rate_max_failures_per_ip s <=? failures)
  | None => ret false
  end.
Definition recovery_request_rate_limited (e : Env) (user : option User) : M bool :=
  let s := settings e in
  let cutoff := now e - seconds (recovery_rate_window_seconds s) in
  let! by_ip := match client_ip e with
    | Some ip =>
        if str_truthy ip && (0 <? recovery_max_requests_per_ip s) then
          let! n := count_events (fun r => (AuditEvent.ip_address r ==? Some ip) && (AuditEvent.event_type r ==? "password_reset_requested")) cutoff in
          ret (recovery_max_requests_per_ip s <=? n)
        else ret false
    | None => ret false
    end in
  if by_ip then ret true
  else match user with
    | Some u =>
        if 0 <? recovery_max_requests_per_user s then
          let! n := count_events (fun r => (AuditEvent.user_id r ==? Some (User.id u)) && (AuditEvent.event_type r ==? "password_reset_requested")) cutoff in
          ret (recovery_max_requests_per_user s <=? n)
        else ret false
    | None => ret false
    end.
Definition verification_request_rate_limited (e : Env) (user : User) : M bool :=
  let s := settings e in
  if verification_max_requests_per_user s <=? 0 then ret false
  else
    let! n := count_events (fun r => (AuditEvent.user_id r ==? Some (User.id user)) &&
        (AuditEvent.event_type r in? ["email_verification_requested"; "phone_verification_requested"]))
      (now e - seconds (verification_rate_window_seconds s)) in
    ret (verification_max_requests_per_user s <=? n).
Definition failed_confirmation (user_id : uuid) (r : AuditEvent) : bool :=
  (AuditEvent.user_id r ==? Some user_id) && negb (AuditEvent.success r) &&
  (AuditEvent.event_type r in? ["email_verification_failed"; "phone_verification_failed"]).
Definition verification_confirmation_rate_limited (e : Env) (user_id : uuid) : M bool :=
  let s := settings e in
  if verification_confirm_max_failures_per_user s <=? 0 then ret false
  else
    let! n := count_events (failed_confirmation user_id) (now e - seconds (verification_confirm_rate_window_seconds s)) in
    ret (verification_confirm_max_failures_per_user s <=? n).

(** [verify_second_factor] *)
Definition recovery_matches (user_id : uuid) (code_hash : string) (r : MfaRecoveryCode) : bool :=
  (MfaRecoveryCode.user_id r =? user_id) && (MfaRecoveryCode.code_hash r ==? code_hash) && is_none (MfaRecoveryCode.used_at r).
Definition use_recovery_code (e : Env) (user : User) (code : string) : M bool :=
  let! recovery := query (scalar mfa_recovery_codes (recovery_matches (User.id user) (hash_recovery_code code))) in
  match recovery with
  | None => ret false
  | Some recovery => assign mfa_recovery_codes (fun r => r <| MfaRecoveryCode.used_at := Some (now e) |>) recovery ;; ret true
  end.
Definition truthy_opt (o : option string) : bool := match o with Some s => str_truthy s | None => false end.
Definition verify_second_factor (e : Env) (user : User) (code : option string) : M bool :=
  if negb (User.totp_enabled user) then ret true
  else match code with
    | None => ret false
    | Some code =>
        if negb (str_truthy code) then ret false
        else
          let! by_totp := match User.totp_secret_encrypted user with
            | Some value =>
                if str_truthy value then
                  let! secret := lift (decrypt_totp_secret value (settings e)) in
                  ret (verify_totp secret code (now e))
                else ret false
            | None => ret false
            end in
          if by_totp then ret true else use_recovery_code e user code
    end.

(** [revoke_sessions]; it returns the number of sessions it revoked. *)
Definition revoke_sessions (e : Env) (user_id : uuid) (reason : string) (except_session_id : option uuid) : M Z :=
  let! rows := query (select auth_sessions (fun r => (AuthSession.user_id r =? user_id) && is_none (AuthSession.revoked_at r))) in
  let rows := List.filter (fun r => negb (Some (AuthSession.id r) ==? except_session_id)) rows in
  assign_all auth_sessions (revoked e reason) rows ;;
  ret (zlen rows).

(** The account with the e-mail address or phone number an identifier
    normalizes to; [column == None] is [IS NULL]. *)
Definition identified (identifier : string) (u : User) : bool :=
  (User.email u ==? normalize_email (Some identifier)) || (User.phone u ==? normalize_phone (Some identifier)).
Definition find_active_user (identifier : string) : M (option User) :=
  query (scalar users (fun u => identified identifier u && User.is_active u)).
(** A failed password or second factor counts, and locks the account. *)
Definition failed_attempt (e : Env) (user : User) : User :=
  let attempts := User.failed_login_attempts user + 1 in
  let user := user <| User.failed_login_attempts := attempts |> in
  if max_login_failures (settings e) <=? attempts
  then user <| User.locked_until := Some (now e + minutes (login_lock_minutes (settings e))) |> else user.
Definition locked_at (t : time) (user : User) : bool :=
  match User.locked_until user with Some until => t <? until | None => false end.
Definition attempts_detail (user : User) : list (string * Json) := [("failed_attempts", JInt (User.failed_login_attempts user))].
(** A completed sign-in. *)
Definition signed_in (e : Env) (user : User) : User :=
  user <| User.failed_login_attempts := 0 |> <| User.locked_until := None |> <| User.last_login_at := Some (now e) |>
       <| User.last_login_ip := client_ip e |>.
(** [raise] after the session has been committed. *)
Definition commit_and_raise {A} (e : Env) (status_code : Z) (detail : string) : M A :=
  commit e ;; raise (HTTPException status_code detail).
End Services.
