(* ===== verification/IdentityLogin.v ===== *)
(** Sign-in, tokens and devices of the identity server: the endpoints of
    [platform/ithute-auth/app/main.py], [oauth.py] and
    [platform_admin_authorize.py], with [zero_trust.py]. *)
From S2P Require Import Prelude Json Calendar Session Schema Sha256 Engines Base64 IdentityModels IdentityCore.
#[local] Open Scope string_scope.
#[local] Open Scope list_scope.
#[local] Open Scope Z_scope.

Record TokenResponse : Type := mk_TokenResponse {
  access_token : string;
  refresh_token : option string;
  id_token : option string;
  expires_in : Z
}.
Record LoginRequest : Type := mk_LoginRequest {
  identifier : string;
  password : string;
  login_client : string;
  mfa_code : option string
}.

(** * [app/zero_trust.py] *)
Section ZeroTrust.
Context `{Providers}.
Definition user_agent_hash (e : Env) : option string :=
  let value := strip (opt_str (user_agent (request e))) in
  if str_truthy value then Some (hash_token value) else None.
Definition requested_device_key (e : Env) : option string :=
  let value := strip (opt_str (device_header (request e))) in
  if 8 <=? Z.of_nat (String.length value) then Some (str_take 200 value) else None.
Definition is_device (user_id : uuid) (device_key : string) (r : Device) : bool :=
  (Device.user_id r =? user_id) && (Device.device_key r ==? device_key).
Definition device_seen (e : Env) (device : Device) : Device :=
  let device := device <| Device.last_seen_at := now e |> <| Device.last_seen_ip := client_ip e |> in
  match user_agent_hash e with
  | Some ua_hash => device <| Device.user_agent_hash := if truthy_opt (Device.user_agent_hash device)
                                                        then Device.user_agent_hash device else Some ua_hash |>
  | None => device
  end.
Definition resolve_device (e : Env) (user : User) : M (option Device) :=
  match requested_device_key e with
  | None => ret None
  | Some k =>
      let! device := query (scalar devices (is_device (User.id user) k)) in
      match device with
      | None => ret None
      | Some device =>
          if negb (Device.is_active device) || negb (is_none (Device.revoked_at device)) then ret None
          else
            let! device := assign devices (device_seen e) device in ret (Some device)
      end
  end.
(** [RiskAssessment] *)
Record RiskAssessment : Type := mk_Risk { score : Z; reasons : list string }.
Definition risk_level (r : RiskAssessment) : string :=
  if 70 <=? score r then "high" else if 35 <=? score r then "medium" else "low".
Definition reasons_json (r : RiskAssessment) : string := dumps true "," ":" (JArr (map JStr (reasons r))).
Definition assess_login_risk (e : Env) (user : User) (device : option Device) (auth_method : string) : RiskAssessment :=
  let new_ip := truthy_opt (User.last_login_ip user) && truthy_opt (client_ip e) && negb (User.last_login_ip user ==? client_ip e) in
  let unknown := is_none device in
  let untrusted := match device with Some d => is_none (Device.trusted_at d) | None => false end in
  let by_password := auth_method !=? "passkey" in
  let privileged := User.is_platform_admin user && by_password in
  let parts := [(new_ip, 25, "new_ip"); (unknown, 20, "unrecognized_device"); (untrusted, 15, "untrusted_device");
                (by_password, 15, "password_auth"); (privileged, 50, "privileged_without_passkey")] in
  let hit := List.filter (fun '(b, _, _) => b) parts in
  mk_Risk (Z.min (sum_by (fun '(_, n, _) => n) hit) 100) (map (fun '(_, _, s) => s) hit).
Definition initialize_device (e : Env) (user : User) (device_key platform : string) (label : option string) : M Device :=
  let! device := query (scalar devices (is_device (User.id user) device_key)) in
  let ip := client_ip e in
  let ua_hash := user_agent_hash e in
  match device with
  | None => insert devices e (fun id => Device.new_Device id (now e)
      <| Device.user_id := User.id user |> <| Device.device_key := device_key |> <| Device.platform := platform |>
      <| Device.label := label |> <| Device.first_seen_ip := ip |> <| Device.last_seen_ip := ip |>
      <| Device.user_agent_hash := ua_hash |>)
  | Some device =>
      assign devices (fun device =>
        let device := device <| Device.platform := platform |> <| Device.label := label |> <| Device.is_active := true |>
          <| Device.revoked_at := None |> <| Device.last_seen_at := now e |> <| Device.last_seen_ip := ip |> in
        match ua_hash with Some _ => device <| Device.user_agent_hash := ua_hash |> | None => device end) device
  end.
End ZeroTrust.

(** * [app/main.py] *)
Section Main.
Context `{Providers}.

Definition active_application (client_id : string) (a : Application) : bool :=
  (Application.client_id a ==? client_id) && Application.is_active a.
(** [require_client]; [oauth.py] and [passkeys.py] have the same query with
    another detail. *)
Definition require_client (client_id detail : string) : M Application :=
  let! client := query (scalar applications (active_application client_id)) in
  some_or client (HTTPException 400 detail).

Definition invalid_token {A} : M A := raise (HTTPException 401 "invalid token").
(** The claims of a product session's access token: subject, session, audience. *)
Definition access_claims (e : Env) (token : string) : option (uuid * uuid * Json) :=
  match decode_access_token e token with
  | None => None
  | Some claims =>
      if negb (is_text "access" (jget "token_use" claims)) then None
      else match dict_get "sub" claims, dict_get "sid" claims with
        | Some sub, Some sid =>
            match uuid_of_str (py_str sub), uuid_of_str (py_str sid) with
            | Ok user_id, Ok session_id => Some (user_id, session_id, jget "aud" claims)
            | _, _ => None
            end
        | _, _ => None
        end
  end.
Definition live_session (e : Env) (user_id : uuid) (client_id : string) (s : AuthSession) : bool :=
  (AuthSession.user_id s =? user_id) && (AuthSession.client_id s ==? client_id) && is_none (AuthSession.revoked_at s) &&
  (now e <? AuthSession.expires_at s).
Definition session_seen (e : Env) (s : AuthSession) : AuthSession := s <| AuthSession.last_seen_at := now e |>.
(** [_product_session] *)
Definition product_session (e : Env) : M (User * AuthSession * string) :=
  match bearer (request e) with
  | None => raise (HTTPException 401 "missing bearer token")
  | Some token =>
      match access_claims e token with
      | Some (user_id, session_id, JStr audience) =>
          if negb (str_truthy audience) then invalid_token
          else
            let! auth_session := query (get auth_sessions session_id) in
            let! auth_session := some_or auth_session (HTTPException 401 "session expired") in
            require (live_session e user_id audience auth_session) (HTTPException 401 "session expired") ;;
            require_client audience "unknown client" ;;
            let! user := query (get users user_id) in
            let! user := some_or user (HTTPException 401 "user unavailable") in
            require (User.is_active user) (HTTPException 401 "user unavailable") ;;
            let! auth_session := assign auth_sessions (session_seen e) auth_session in
            ret (user, auth_session, audience)
      | _ => invalid_token
      end
  end.
Definition current_user (e : Env) : M User :=
  let! (user, _, _) := product_session e in commit e ;; ret user.

(** [register]; the payload has an e-mail address or a phone number. *)
Definition register (e : Env) (email phone : option string) (display_name password : string) : M User :=
  let! user := insert users e (fun id => User.new_User id (now e)
    <| User.email := normalize_email email |> <| User.phone := normalize_phone phone |>
    <| User.display_name := strip display_name |> <| User.password_hash := bcrypt_hash (random_salt e) password |>) in
  except_integrity
    (flush e ;; record_audit e "account_registered" (Some user) true None [] ;; commit e ;; ret user)
    (rollback ;; raise (HTTPException 409 "email or phone already registered")).

(** The session of a completed sign-in. *)
Definition new_session (e : Env) (user : User) (client_id : string) (id : uuid) : AuthSession :=
  AuthSession.new_AuthSession id (now e)
    <| AuthSession.user_id := User.id user |> <| AuthSession.client_id := client_id |>
    <| AuthSession.refresh_token_hash := hash_token (random_token e) |>
    <| AuthSession.user_agent := user_agent (request e) |> <| AuthSession.ip_address := client_ip e |>
    <| AuthSession.expires_at := now e + days (refresh_token_days (settings e)) |>.
Definition token_response (e : Env) (user : User) (client_id : string) (session_id : uuid) (id_token : option string) : TokenResponse :=
  mk_TokenResponse (create_access_token e (User.id user) client_id session_id (User.email user) (User.phone user))
    (Some (random_token e)) id_token (access_token_minutes (settings e) * 60).

Definition login (e : Env) (payload : LoginRequest) : M TokenResponse :=
  let client := Some (login_client payload) in
  require_client (login_client payload) "unknown client" ;;
  let! limited := login_rate_limited e in
  if limited then
    record_audit e "login_rate_limited" None false client [] ;; commit_and_raise e 429 "too many login attempts"
  else
    let! user := find_active_user (identifier payload) in
    match user with
    | None => record_audit e "login_failed" None false client [] ;; commit_and_raise e 401 "invalid credentials"
    | Some user =>
        if locked_at (now e) user then
          record_audit e "login_blocked" (Some user) false client [] ;; commit_and_raise e 401 "invalid credentials"
        else if negb (bcrypt_verify (password payload) (User.password_hash user)) then
          let! user := assign users (failed_attempt e) user in
          record_audit e "login_failed" (Some user) false client (attempts_detail user) ;;
          commit_and_raise e 401 "invalid credentials"
        else
          let! second := verify_second_factor e user (mfa_code payload) in
          if negb second then
            let! user := assign users (failed_attempt e) user in
            record_audit e "mfa_challenge_failed" (Some user) false client (attempts_detail user) ;;
            commit_and_raise e 401 "MFA required or invalid code"
          else
            let! user := assign users (signed_in e) user in
            let! auth_session := insert auth_sessions e (new_session e user (login_client payload)) in
            flush e ;;
            record_audit e "login_succeeded" (Some user) true client [("session_id", JStr (str_of_uuid (AuthSession.id auth_session)))] ;;
            commit e ;;
            ret (token_response e user (login_client payload) (AuthSession.id auth_session) None)
    end.

Definition push_token (e : Env) : M (string * Z) :=
  let! (user, auth_session, client_id) := product_session e in
  let! jti := draw_uuid e in
  commit e ;;
  ret (create_push_access_token e jti (User.id user) client_id (AuthSession.id auth_session), push_user_token_minutes (settings e) * 60).

Definition with_refresh_token (token_hash : string) (r : AuthSession) : bool := AuthSession.refresh_token_hash r ==? token_hash.
(** The rotation both refresh endpoints perform, with their own error. *)
Definition rotate (e : Env) (client_id token : string) (invalid unavailable : exn) : M TokenResponse :=
  let! auth_session := query (scalar auth_sessions (with_refresh_token (hash_token token))) in
  let! auth_session := some_or auth_session invalid in
  require (live_session e (AuthSession.user_id auth_session) client_id auth_session) invalid ;;
  let! user := query (get users (AuthSession.user_id auth_session)) in
  let! user := some_or user unavailable in
  require (User.is_active user) unavailable ;;
  assign auth_sessions (fun s => s <| AuthSession.refresh_token_hash := hash_token (random_token e) |>
                                   <| AuthSession.last_seen_at := now e |>) auth_session ;;
  commit e ;;
  ret (token_response e user client_id (AuthSession.id auth_session) None).
Definition refresh (e : Env) (client_id token : string) : M TokenResponse :=
  require_client client_id "unknown client" ;;
  rotate e client_id token (HTTPException 401 "invalid refresh token") (HTTPException 401 "user unavailable").

Definition logout (e : Env) (token : string) : M unit :=
  let! auth_session := query (scalar auth_sessions (with_refresh_token (hash_token token))) in
  match auth_session with
  | Some s => if is_none (AuthSession.revoked_at s) then assign auth_sessions (revoked e "logout") s ;; commit e else ret tt
  | None => ret tt
  end.

Definition register_device (e : Env) (device_key platform : string) (label : option string) : M Device :=
  let! user := current_user e in
  let! device := initialize_device e user device_key platform label in
  commit e ;; ret device.
Definition device_revoked (e : Env) (d : Device) : Device :=
  d <| Device.is_active := false |> <| Device.revoked_at := Some (now e) |>.
Definition revoke_device (e : Env) (device_key : string) : M unit :=
  let! user := current_user e in
  let! device := query (scalar devices (is_device (User.id user) device_key)) in
  match device with
  | Some device => assign devices (device_revoked e) device ;; commit e
  | None => ret tt
  end.
End Main.

(** * [app/oauth.py] *)
Definition ALLOWED_SCOPES : list string := ["openid"; "profile"; "email"; "phone"].
Definition pkce_char (c : ascii) : bool :=
  let n := ord c in
  ((65 <=? n) && (n <=? 90)) || ((97 <=? n) && (n <=? 122)) || is_digit c || (n in? [45; 46; 95; 126]).
Definition valid_pkce_value (value : string) : bool :=
  let n := Z.of_nat (String.length value) in
  (43 <=? n) && (n <=? 128) && forallb pkce_char (list_ascii_of_string value).
(** [dict.fromkeys] *)
Fixpoint unique_from (seen l : list string) : list string :=
  match l with [] => [] | x :: l => if x in? seen then unique_from seen l else x :: unique_from (x :: seen) l end.

(** The parameters of an authorization request. *)
Record AuthorizationRequest : Type := mk_AuthorizationRequest {
  response_type : string;
  client_id : string;
  redirect_uri : string;
  code_challenge : string;
  code_challenge_method : string;
  state : string;
  nonce : string;
  scope : string
}.
(** The answers of the authorization endpoints: the redirect with the code and
    the browser cookie it sets, or the sign-in page with its error and status. *)
Inductive AuthorizeResponse : Type :=
| RedirectWithCode (uri code state : string) (cookie : option string)
| LoginPage (scope : string) (error : option string) (status_code : Z).

Section OAuth.
Context `{Providers}.

Definition require_client_redirect (e : Env) (client_id redirect_uri : string) : M Application :=
  let! client := require_client client_id "invalid_client" in
  let! managed := query (select application_redirect_uris (fun r => ApplicationRedirectURI.application_id r =? Application.id client)) in
  let managed := map ApplicationRedirectURI.redirect_uri managed in
  let approved := match managed with
    | [] => match dict_get client_id (redirect_uris (settings e)) with Some l => l | None => [] end
    | _ => managed
    end in
  require (redirect_uri in? approved) (HTTPException 400 "invalid_redirect_uri") ;;
  ret client.
Definition bad_request (detail : string) : exn := HTTPException 400 detail.
Definition validate_authorization_request (e : Env) (a : AuthorizationRequest) : M string :=
  require_client_redirect e (client_id a) (redirect_uri a) ;;
  require (response_type a ==? "code") (bad_request "unsupported_response_type") ;;
  require (code_challenge_method a ==? "S256") (bad_request "code_challenge_method_must_be_S256") ;;
  require (valid_pkce_value (code_challenge a)) (bad_request "invalid_code_challenge") ;;
  require (str_truthy (state a) && (Z.of_nat (String.length (state a)) <=? 512)) (bad_request "state_required") ;;
  require ((16 <=? Z.of_nat (String.length (nonce a))) && (Z.of_nat (String.length (nonce a)) <=? 512)) (bad_request "nonce_required") ;;
  let requested := List.filter str_truthy (str_split (scope a)) in
  let requested := match requested with [] => ["openid"] | _ => requested end in
  require (("openid" in? requested) && forallb (fun v => v in? ALLOWED_SCOPES) requested) (bad_request "invalid_scope") ;;
  ret (join " " (unique_from [] requested)).

Definition new_code (e : Env) (user : User) (a : AuthorizationRequest) (normalized_scope auth_method : string) (id : uuid) : AuthorizationCode :=
  AuthorizationCode.new_AuthorizationCode id (now e)
    <| AuthorizationCode.code_hash := hash_token (random_token e) |> <| AuthorizationCode.user_id := User.id user |>
    <| AuthorizationCode.client_id := client_id a |> <| AuthorizationCode.redirect_uri := redirect_uri a |>
    <| AuthorizationCode.code_challenge := code_challenge a |> <| AuthorizationCode.nonce := nonce a |>
    <| AuthorizationCode.scope := normalized_scope |> <| AuthorizationCode.auth_method := auth_method |>
    <| AuthorizationCode.expires_at := now e + minutes (authorization_code_minutes (settings e)) |>.
Definition issue_authorization_code (e : Env) (user : User) (a : AuthorizationRequest) (normalized_scope auth_method : string) : M string :=
  insert authorization_codes e (new_code e user a normalized_scope auth_method) ;;
  commit e ;;
  ret (random_token e).

(** [_browser_session]: the account and method of a valid browser cookie. *)
Definition browser_claims (claims : list (string * Json)) : result (option (uuid * Z * string)) :=
  match dict_get "sub" claims, dict_get "sv" claims with
  | Some sub, Some sv =>
      match uuid_of_str (py_str sub), py_int sv with
      | Ok user_id, Ok v => Ok (Some (user_id, v, py_str (jor (jget "amr" claims) (JStr "password"))))
      | Err (OverflowError m), _ => Err (OverflowError m)
      | Ok _, Err (OverflowError m) => Err (OverflowError m)
      | _, _ => Ok None
      end
  | _, _ => Ok None
  end.
Definition browser_session (e : Env) : M (option (User * string)) :=
  match browser_cookie (request e) with
  | None => ret None
  | Some raw =>
      if negb (str_truthy raw) then ret None
      else match decode_browser_session_token e raw with
        | None => ret None
        | Some claims =>
            let! c := lift (browser_claims claims) in
            match c with
            | None => ret None
            | Some (user_id, version, auth_method) =>
                let! user := query (get users user_id) in
                match user with
                | None => ret None
                | Some user =>
                    if negb (User.is_active user) || negb (User.security_version user =? version) then ret None
                    else if User.is_platform_admin user && (auth_method !=? "passkey") then ret None
                    else ret (Some (user, auth_method))
                end
            end
        end
  end.

Definition authorize_get (e : Env) (a : AuthorizationRequest) : M AuthorizeResponse :=
  let! normalized_scope := validate_authorization_request e a in
  let! browser := browser_session e in
  match browser with
  | Some (user, auth_method) =>
      let! code := issue_authorization_code e user a normalized_scope auth_method in
      ret (RedirectWithCode (redirect_uri a) code (state a) None)
  | None => ret (LoginPage normalized_scope None 200)
  end.

Definition login_page (e : Env) (normalized_scope error : string) (status_code : Z) : M AuthorizeResponse :=
  commit e ;; ret (LoginPage normalized_scope (Some error) status_code).
Definition authorize_post (e : Env) (a : AuthorizationRequest) (who pass mfa : string) : M AuthorizeResponse :=
  let! normalized_scope := validate_authorization_request e a in
  let client := Some (client_id a) in
  let wrong := "The email or password is incorrect." in
  let! limited := login_rate_limited e in
  if limited then
    record_audit e "oidc_login_rate_limited" None false client [] ;;
    login_page e normalized_scope "Too many sign-in attempts. Wait a few minutes and try again." 429
  else
    let! user := find_active_user who in
    match user with
    | None => record_audit e "oidc_login_failed" None false client [] ;; login_page e normalized_scope wrong 401
    | Some user =>
        if locked_at (now e) user then
          record_audit e "oidc_login_blocked" (Some user) false client [] ;; login_page e normalized_scope wrong 401
        else if negb (bcrypt_verify pass (User.password_hash user)) then
          let! user := assign users (failed_attempt e) user in
          record_audit e "oidc_login_failed" (Some user) false client (attempts_detail user) ;;
          login_page e normalized_scope wrong 401
        else if User.is_platform_admin user then
          let! passkey := query (scalar passkey_credentials (fun p => PasskeyCredential.user_id p =? User.id user)) in
          record_audit e "privileged_password_login_blocked" (Some user) false client
            [("passkey_registered", JBool (negb (is_none passkey)))] ;;
          login_page e normalized_scope "Privileged accounts must sign in with a passkey." 403
        else
          let! second := verify_second_factor e user (if str_truthy mfa then Some mfa else None) in
          if negb second then
            let! user := assign users (failed_attempt e) user in
            record_audit e "oidc_mfa_failed" (Some user) false client (attempts_detail user) ;;
            login_page e normalized_scope "Enter a valid authenticator or recovery code." 401
          else
            let! user := assign users (signed_in e) user in
            record_audit e "oidc_login_succeeded" (Some user) true client [] ;;
            let! code := issue_authorization_code e user a normalized_scope "password" in
            ret (RedirectWithCode (redirect_uri a) code (state a)
              (Some (create_browser_session_token e (User.id user) (User.security_version user) "password")))
    end.

(** [app/platform_admin_authorize.py]: the console's own sign-in. *)
Definition step_up_post (e : Env) (a : AuthorizationRequest) (who pass mfa : string) : M AuthorizeResponse :=
  let! normalized_scope := validate_authorization_request e a in
  let client := Some (client_id a) in
  require (client_id a ==? "mailbox-dns") (bad_request "platform_admin_console_client_required") ;;
  let! limited := login_rate_limited e in
  if limited then
    record_audit e "platform_admin_step_up_rate_limited" None false client [] ;; commit_and_raise e 429 "too_many_login_attempts"
  else
    let! user := find_active_user who in
    match List.filter (fun u => negb (locked_at (now e) u) && bcrypt_verify pass (User.password_hash u)) (opt_list user) with
    | [] =>
        record_audit e "platform_admin_step_up_failed" user false client [] ;;
        login_page e normalized_scope "Unable to authorize this platform admin." 401
    | user :: _ =>
        if negb (User.is_platform_admin user) then
          record_audit e "platform_admin_step_up_denied" (Some user) false client [] ;;
          login_page e normalized_scope "This !thute account is not a platform admin." 403
        else if negb (User.totp_enabled user) then
          record_audit e "platform_admin_step_up_mfa_required" (Some user) false client [] ;;
          login_page e normalized_scope "Platform administration requires MFA. Enable MFA on your !thute account first." 403
        else
          let! second := verify_second_factor e user (Some mfa) in
          if negb second then
            assign users (failed_attempt e) user ;;
            record_audit e "platform_admin_step_up_mfa_failed" (Some user) false client [] ;;
            login_page e normalized_scope "Unable to authorize this platform admin." 401
          else
            let! user := assign users (fun u => u <| User.failed_login_attempts := 0 |> <| User.locked_until := None |>
                                                  <| User.last_login_at := Some (now e) |>) user in
            record_audit e "platform_admin_step_up_succeeded" (Some user) true client [] ;;
            let! code := issue_authorization_code e user a normalized_scope "password" in
            ret (RedirectWithCode (redirect_uri a) code (state a) None)
    end.

Definition invalid_grant : exn := bad_request "invalid_grant".
Definition with_code (code_hash : string) (r : AuthorizationCode) : bool := AuthorizationCode.code_hash r ==? code_hash.
(** The conditions on a redeemed code but the verifier. *)
Definition redeemable (e : Env) (client_id redirect_uri : string) (r : AuthorizationCode) : bool :=
  (AuthorizationCode.client_id r ==? client_id) && (AuthorizationCode.redirect_uri r ==? redirect_uri) &&
  is_none (AuthorizationCode.consumed_at r) && (now e <? AuthorizationCode.expires_at r).
Definition redeem (e : Env) (client_id code redirect_uri code_verifier : string) : M TokenResponse :=
  require_client_redirect e client_id redirect_uri ;;
  require (valid_pkce_value code_verifier) (bad_request "invalid_code_verifier") ;;
  let! row := query (scalar authorization_codes (with_code (hash_token code))) in
  let! row := some_or row invalid_grant in
  require (redeemable e client_id redirect_uri row) invalid_grant ;;
  let! same := lift (compare_digest (pkce_s256 code_verifier) (AuthorizationCode.code_challenge row)) in
  require same invalid_grant ;;
  let! user := query (get users (AuthorizationCode.user_id row)) in
  let! user := some_or user invalid_grant in
  require (User.is_active user) invalid_grant ;;
  assign authorization_codes (fun r => r <| AuthorizationCode.consumed_at := Some (now e) |>) row ;;
  let! device := resolve_device e user in
  let auth_method := AuthorizationCode.auth_method row in
  let risk := assess_login_risk e user device auth_method in
  let! auth_session := insert auth_sessions e (fun id => new_session e user client_id id
    <| AuthSession.auth_method := auth_method |> <| AuthSession.risk_score := score risk |>
    <| AuthSession.risk_reasons_json := reasons_json risk |>
    <| AuthSession.step_up_at := if auth_method ==? "passkey" then Some (now e) else None |>
    <| AuthSession.device_id := match device with Some d => Some (Device.id d) | None => None end |>) in
  commit e ;;
  let id_token := create_id_token e (User.id user) client_id (AuthSession.id auth_session) (AuthorizationCode.nonce row)
    (User.email user) (User.phone user) (User.display_name user) (User.email_verified user) (User.phone_verified user) in
  ret (token_response e user client_id (AuthSession.id auth_session) (Some id_token)).

(** The form of the token endpoint. *)
Record TokenForm : Type := mk_TokenForm {
  grant_type : string;
  form_client : string;
  form_code : option string;
  form_redirect : option string;
  form_verifier : option string;
  form_refresh : option string
}.
Definition token (e : Env) (f : TokenForm) : M TokenResponse :=
  require_client (form_client f) "invalid_client" ;;
  if grant_type f ==? "authorization_code" then
    match form_code f, form_redirect f, form_verifier f with
    | Some code, Some redirect_uri, Some verifier =>
        require (str_truthy code && str_truthy redirect_uri && str_truthy verifier) (bad_request "invalid_request") ;;
        redeem e (form_client f) code redirect_uri verifier
    | _, _, _ => raise (bad_request "invalid_request")
    end
  else if grant_type f ==? "refresh_token" then
    match form_refresh f with
    | Some t =>
        require (str_truthy t) (bad_request "invalid_request") ;;
        rotate e (form_client f) t invalid_grant invalid_grant
    | None => raise (bad_request "invalid_request")
    end
  else raise (bad_request "unsupported_grant_type").
End OAuth.
