(* ===== verification/IdentityAccount.v ===== *)
(** Account security and administration of the identity server: the endpoints
    of [platform/ithute-auth/app/account.py] and [admin.py], with
    [application_registry.py], [redirect_uri_policy.py] and [system_owner.py]. *)
From S2P Require Import Prelude Json Calendar Session Schema Sha256 Engines Base64 IdentityModels IdentityCore IdentityLogin.
#[local] Open Scope string_scope.
#[local] Open Scope list_scope.
#[local] Open Scope Z_scope.

(** * [app/account.py] *)

(** A message with a link or code that [send_email] or [send_sms] accepted. *)
Record Message : Type := mk_Message { channel : string; address : string; secret : string }.
Definition Context_ : Type := User * AuthSession.

Section Account.
Context `{Providers}.

Definition authenticated_context (e : Env) : M Context_ :=
  match bearer (request e) with
  | None => raise (HTTPException 401 "missing bearer token")
  | Some token =>
      match access_claims e token with
      | None => invalid_token
      | Some (user_id, session_id, audience) =>
          let! auth_session := query (get auth_sessions session_id) in
          let! auth_session := some_or auth_session (HTTPException 401 "session expired") in
          require (live_session e user_id (AuthSession.client_id auth_session) auth_session &&
                   is_text (AuthSession.client_id auth_session) audience) (HTTPException 401 "session expired") ;;
          let! user := query (get users user_id) in
          let! user := some_or user (HTTPException 401 "user unavailable") in
          require (User.is_active user) (HTTPException 401 "user unavailable") ;;
          let! auth_session := assign auth_sessions (session_seen e) auth_session in
          commit e ;;
          ret (user, auth_session)
      end
  end.

Definition revoke_current_session (e : Env) : M unit :=
  let! (_, auth_session) := authenticated_context e in
  assign auth_sessions (fun s => s <| AuthSession.revoked_at := Some (now e) |>) auth_session ;; commit e.

Definition own_request (user : User) (r : DeveloperAccessRequest) : bool := DeveloperAccessRequest.user_id r =? User.id user.
Definition request_developer_access (e : Env) (product justification : string) : M DeveloperAccessRequest :=
  let! (user, _) := authenticated_context e in
  require (truthy_opt (User.email user) && User.email_verified user) (HTTPException 403 "verified email required") ;;
  let! recent := query (select developer_access_requests (fun r =>
    own_request user r && (now e - seconds (24 * 3600) <=? DeveloperAccessRequest.created_at r))) in
  require (negb (5 <=? zlen (take 5 recent))) (HTTPException 429 "daily request limit reached") ;;
  let! pending := query (scalar developer_access_requests (fun r =>
    own_request user r && (DeveloperAccessRequest.product r ==? product) && (DeveloperAccessRequest.status r ==? "pending"))) in
  require (is_none pending) (HTTPException 409 "request already pending") ;;
  let! item := insert developer_access_requests e (fun id => DeveloperAccessRequest.new_DeveloperAccessRequest id (now e)
    <| DeveloperAccessRequest.user_id := User.id user |> <| DeveloperAccessRequest.product := product |>
    <| DeveloperAccessRequest.justification := strip justification |> <| DeveloperAccessRequest.status := "pending" |>) in
  commit e ;; ret item.

Definition current_session_status (e : Env) : M bool :=
  let! (_, auth_session) := authenticated_context e in
  let! enabled := query (scalar applications (fun a => Application.client_id a ==? AuthSession.client_id auth_session)) in
  require (match enabled with Some a => Application.is_active a | None => false end)
    (HTTPException 401 "application unavailable") ;;
  ret true.

(** [_find_user], [_active_token], [_consume_active_tokens] *)
Definition find_user (identifier : string) : M (option User) := query (scalar users (identified identifier)).
Definition active_token (e : Env) (token_hash purpose : string) : M (option SecurityToken) :=
  let! row := query (scalar security_tokens (fun r => (SecurityToken.token_hash r ==? token_hash) && (SecurityToken.purpose r ==? purpose))) in
  ret (match row with
       | Some r => if is_none (SecurityToken.consumed_at r) && (now e <? SecurityToken.expires_at r) then Some r else None
       | None => None
       end).
Definition consumed (e : Env) (r : SecurityToken) : SecurityToken := r <| SecurityToken.consumed_at := Some (now e) |>.
Definition consume_active_tokens (e : Env) (user_id : uuid) (purpose : string) : M unit :=
  let! rows := query (select security_tokens (fun r =>
    (SecurityToken.user_id r =? user_id) && (SecurityToken.purpose r ==? purpose) && is_none (SecurityToken.consumed_at r))) in
  assign_all security_tokens (consumed e) rows.
Definition new_token (e : Env) (user : User) (purpose token_hash : string) (target : option string) (lifetime : Z) (id : uuid) : SecurityToken :=
  SecurityToken.new_SecurityToken id (now e)
    <| SecurityToken.user_id := User.id user |> <| SecurityToken.purpose := purpose |> <| SecurityToken.token_hash := token_hash |>
    <| SecurityToken.target := target |> <| SecurityToken.expires_at := now e + minutes lifetime |>.

(** [hash_password] and its time, with the security version. *)
Definition set_password (e : Env) (new_password : string) (user : User) : User :=
  user <| User.password_hash := bcrypt_hash (random_salt e) new_password |> <| User.password_changed_at := now e |>
       <| User.security_version ::= Z.add 1 |>.
Definition change_password (e : Env) (current_password new_password : string) : M unit :=
  let! (user, auth_session) := authenticated_context e in
  if negb (bcrypt_verify current_password (User.password_hash user)) then
    record_audit e "password_change" (Some user) false None [] ;; commit_and_raise e 401 "invalid credentials"
  else
    let! user := assign users (set_password e new_password) user in
    revoke_sessions e (User.id user) "password changed" (Some (AuthSession.id auth_session)) ;;
    record_audit e "password_change" (Some user) true None [] ;;
    commit e.

(** [_deliver_reset]: by e-mail if the account has one, else by SMS. *)
Definition or_opt (a b : option string) : option string := if truthy_opt a then a else b.
Definition deliver_reset (user : User) (raw : string) : option Message :=
  if truthy_opt (User.email user) then
    let to := opt_str (User.email user) in if delivers "email" to then Some (mk_Message "email" to raw) else None
  else if truthy_opt (User.phone user) then
    let to := opt_str (User.phone user) in if delivers "phone" to then Some (mk_Message "phone" to raw) else None
  else None.
(** Always accepted; the result is the messages sent. *)
Definition request_password_reset (e : Env) (who : string) : M (list Message) :=
  let! user := find_user who in
  let! limited := recovery_request_rate_limited e user in
  if limited then record_audit e "password_reset_rate_limited" user false None [] ;; commit e ;; ret []
  else
    record_audit e "password_reset_requested" user true None [] ;;
    match user with
    | None => commit e ;; ret []
    | Some user =>
        if negb (User.is_active user) then commit e ;; ret []
        else
          consume_active_tokens e (User.id user) "password_reset" ;;
          let! row := insert security_tokens e (new_token e user "password_reset" (hash_token (random_token e))
            (or_opt (User.email user) (User.phone user)) (password_reset_minutes (settings e))) in
          commit e ;;
          match deliver_reset user (random_token e) with
          | Some m => ret [m]
          | None =>
              assign security_tokens (consumed e) row ;;
              record_audit e "password_reset_delivery" (Some user) false None [] ;;
              commit e ;; ret []
          end
    end.
Definition bad_reset {A} : M A := raise (HTTPException 400 "invalid or expired reset token").
Definition confirm_password_reset (e : Env) (raw new_password : string) : M unit :=
  let! row := active_token e (hash_token raw) "password_reset" in
  match row with
  | None => bad_reset
  | Some row =>
      let! user := query (get users (SecurityToken.user_id row)) in
      match user with
      | None => bad_reset
      | Some user =>
          if negb (User.is_active user) then bad_reset
          else
            assign security_tokens (consumed e) row ;;
            let! user := assign users (fun u =>
              set_password e new_password u <| User.failed_login_attempts := 0 |> <| User.locked_until := None |>) user in
            revoke_sessions e (User.id user) "password reset" None ;;
            record_audit e "password_reset_completed" (Some user) true None [] ;;
            commit e
      end
  end.

(** The two channels, ["email"] and ["phone"]. *)
Inductive Channel : Type := Email | Phone.
Definition channel_name (c : Channel) : string := match c with Email => "email" | Phone => "phone" end.
Definition channel_target (c : Channel) (u : User) : option string := match c with Email => User.email u | Phone => User.phone u end.
Definition channel_verified (c : Channel) (u : User) : bool := match c with Email => User.email_verified u | Phone => User.phone_verified u end.
Definition verification_event (c : Channel) (suffix : string) : string := (channel_name c ++ suffix)%string.
Definition verification_hash (user_id : uuid) (code : string) : string := hash_token (str_of_uuid user_id ++ ":" ++ code)%string.
Definition request_verification (e : Env) (c : Channel) : M (string * list Message) :=
  let! (user, _) := authenticated_context e in
  let target := channel_target c user in
  require (truthy_opt target) (HTTPException 400 ("no " ++ channel_name c ++ " on account")%string) ;;
  if channel_verified c user then ret ("already_verified", [])
  else
    let! limited := verification_request_rate_limited e user in
    if limited then
      record_audit e (verification_event c "_verification_rate_limited") (Some user) false None [] ;;
      commit_and_raise e 429 "too many verification requests"
    else
      let code := new_numeric_code e in
      let purpose := ("verify_" ++ channel_name c)%string in
      consume_active_tokens e (User.id user) purpose ;;
      insert security_tokens e (new_token e user purpose (verification_hash (User.id user) code) target
        (verification_code_minutes (settings e))) ;;
      record_audit e (verification_event c "_verification_requested") (Some user) true None [] ;;
      commit e ;;
      if delivers (channel_name c) (opt_str target) then ret ("sent", [mk_Message (channel_name c) (opt_str target) code])
      else
        record_audit e (verification_event c "_verification_delivery") (Some user) false None [] ;;
        commit_and_raise e 503 "verification delivery is unavailable".
Definition confirm_verification (e : Env) (c : Channel) (code : string) : M unit :=
  let! (user, _) := authenticated_context e in
  let! limited := verification_confirmation_rate_limited e (User.id user) in
  if limited then
    record_audit e (verification_event c "_verification_confirm_rate_limited") (Some user) false None [] ;;
    commit_and_raise e 429 "too many verification attempts"
  else
    let! row := active_token e (verification_hash (User.id user) (strip code)) ("verify_" ++ channel_name c)%string in
    match List.filter (fun r => SecurityToken.user_id r =? User.id user) (opt_list row) with
    | [] =>
        record_audit e (verification_event c "_verification_failed") (Some user) false None [] ;;
        commit_and_raise e 400 "invalid or expired verification code"
    | row :: _ =>
        assign security_tokens (consumed e) row ;;
        let! user := assign users (fun u => match c with
          | Email => u <| User.email_verified := true |>
          | Phone => u <| User.phone_verified := true |>
          end) user in
        record_audit e (verification_event c "_verified") (Some user) true None [] ;;
        commit e
    end.

(** ** Second factors *)
Definition enroll_mfa (e : Env) (password : string) : M string :=
  let! (user, _) := authenticated_context e in
  require (negb (User.totp_enabled user))
    (HTTPException 409 "MFA is already enabled; disable it with fresh password and MFA proof before replacing it") ;;
  if negb (bcrypt_verify password (User.password_hash user)) then
    record_audit e "mfa_enrollment_started" (Some user) false None [] ;; commit_and_raise e 401 "invalid credentials"
  else
    let secret := random_base32 e in
    let! value := lift (encrypt_totp_secret (random_salt e) secret (settings e)) in
    assign users (fun u => u <| User.totp_secret_encrypted := Some value |>) user ;;
    record_audit e "mfa_enrollment_started" (Some user) true None [] ;;
    commit e ;; ret secret.
(** [delete] of the account's recovery codes, then the new ones. *)
Definition replace_recovery_codes (e : Env) (user_id : uuid) (codes : list string) : M unit :=
  delete_where mfa_recovery_codes (fun r => MfaRecoveryCode.user_id r =? user_id) ;;
  for_each (fun code =>
    insert mfa_recovery_codes e (fun id => MfaRecoveryCode.new_MfaRecoveryCode id (now e)
      <| MfaRecoveryCode.user_id := user_id |> <| MfaRecoveryCode.code_hash := hash_recovery_code code |>) ;; ret tt) codes.
Definition confirm_mfa (e : Env) (code : string) : M (list string) :=
  let! (user, auth_session) := authenticated_context e in
  require (negb (User.totp_enabled user)) (HTTPException 409 "MFA is already enabled") ;;
  require (truthy_opt (User.totp_secret_encrypted user)) (HTTPException 400 "MFA enrollment has not started") ;;
  let! secret := lift (decrypt_totp_secret (opt_str (User.totp_secret_encrypted user)) (settings e)) in
  if negb (verify_totp secret code (now e)) then
    record_audit e "mfa_enrollment_confirmed" (Some user) false None [] ;; commit_and_raise e 400 "invalid authenticator code"
  else
    let codes := new_recovery_codes e in
    replace_recovery_codes e (User.id user) codes ;;
    let! user := assign users (fun u => u <| User.totp_enabled := true |> <| User.security_version ::= Z.add 1 |>) user in
    revoke_sessions e (User.id user) "MFA enabled" (Some (AuthSession.id auth_session)) ;;
    record_audit e "mfa_enabled" (Some user) true None [] ;;
    commit e ;; ret codes.
Definition regenerate_recovery_codes (e : Env) (code : string) : M (list string) :=
  let! (user, _) := authenticated_context e in
  require (User.totp_enabled user && truthy_opt (User.totp_secret_encrypted user)) (HTTPException 400 "MFA is not enabled") ;;
  let! secret := lift (decrypt_totp_secret (opt_str (User.totp_secret_encrypted user)) (settings e)) in
  require (verify_totp secret code (now e)) (HTTPException 400 "invalid authenticator code") ;;
  let codes := new_recovery_codes e in
  replace_recovery_codes e (User.id user) codes ;;
  record_audit e "mfa_recovery_codes_regenerated" (Some user) true None [] ;;
  commit e ;; ret codes.
Definition disable_mfa (e : Env) (password code : string) : M unit :=
  let! (user, auth_session) := authenticated_context e in
  require (bcrypt_verify password (User.password_hash user)) (HTTPException 401 "invalid credentials") ;;
  let! second := (if User.totp_enabled user then verify_second_factor e user (Some code) else ret true) in
  require second (HTTPException 401 "invalid MFA code") ;;
  let! user := assign users (fun u => u <| User.totp_enabled := false |> <| User.totp_secret_encrypted := None |>
                                        <| User.security_version ::= Z.add 1 |>) user in
  delete_where mfa_recovery_codes (fun r => MfaRecoveryCode.user_id r =? User.id user) ;;
  revoke_sessions e (User.id user) "MFA disabled" (Some (AuthSession.id auth_session)) ;;
  record_audit e "mfa_disabled" (Some user) true None [] ;;
  commit e.

(** ** Sessions and devices *)
Definition revoke_session (e : Env) (session_id : uuid) : M unit :=
  let! (user, _) := authenticated_context e in
  let! row := query (get auth_sessions session_id) in
  let! row := some_or row (HTTPException 404 "session not found") in
  require (AuthSession.user_id row =? User.id user) (HTTPException 404 "session not found") ;;
  when is_none (AuthSession.revoked_at row) then! (assign auth_sessions (revoked e "revoked by user") row ;; ret tt) ;;
  record_audit e "session_revoked" (Some user) true (Some (AuthSession.client_id row))
    [("session_id", JStr (str_of_uuid (AuthSession.id row)))] ;;
  commit e.
Definition revoke_other_sessions (e : Env) : M Z :=
  let! (user, auth_session) := authenticated_context e in
  let! count := revoke_sessions e (User.id user) "logout other devices" (Some (AuthSession.id auth_session)) in
  record_audit e "other_sessions_revoked" (Some user) true None [("count", JInt count)] ;;
  commit e ;; ret count.
(** [_require_recent_passkey] *)
Definition recent_passkey (e : Env) (s : AuthSession) : bool :=
  (AuthSession.auth_method s ==? "passkey") &&
  match AuthSession.step_up_at s with
  | Some at_ => (0 <=? now e - at_) && (now e - at_ <=? seconds 600)
  | None => false
  end.
Definition trust_device (e : Env) (device_id : uuid) : M Device :=
  let! (user, auth_session) := authenticated_context e in
  require (recent_passkey e auth_session) (HTTPException 403 "fresh passkey authentication required") ;;
  let! row := query (get devices device_id) in
  let! row := some_or row (HTTPException 404 "device not found") in
  require ((Device.user_id row =? User.id user) && Device.is_active row && is_none (Device.revoked_at row)) (HTTPException 404 "device not found") ;;
  let! row := assign devices (fun d => d <| Device.trusted_at := Some (now e) |> <| Device.risk_score := 0 |>) row in
  record_audit e "device_trusted" (Some user) true None [("device_id", JStr (str_of_uuid (Device.id row)))] ;;
  commit e ;; ret row.
Definition revoke_trusted_device (e : Env) (device_id : uuid) : M unit :=
  let! (user, auth_session) := authenticated_context e in
  require (recent_passkey e auth_session) (HTTPException 403 "fresh passkey authentication required") ;;
  let! row := query (get devices device_id) in
  let! row := some_or row (HTTPException 404 "device not found") in
  require (Device.user_id row =? User.id user) (HTTPException 404 "device not found") ;;
  assign devices (device_revoked e) row ;;
  let! sessions := query (select auth_sessions (fun r => (AuthSession.user_id r =? User.id user) &&
    (AuthSession.device_id r ==? Some (Device.id row)) && is_none (AuthSession.revoked_at r))) in
  let others := List.filter (fun r => negb (AuthSession.id r =? AuthSession.id auth_session)) sessions in
  assign_all auth_sessions (revoked e "trusted device revoked") others ;;
  record_audit e "device_revoked" (Some user) true None
    [("device_id", JStr (str_of_uuid (Device.id row))); ("sessions_revoked", JInt (zlen others))] ;;
  commit e.
End Account.
