(* ===== verification/IdentityAdmin.v ===== *)
(** Administration of the identity server: [platform/ithute-auth/app/admin.py]
    with [admin_delegation.py], [application_registry.py] and
    [redirect_uri_policy.py], the owner synchronisation of [system_owner.py],
    and the requests of the whole server as one step function. *)
From S2P Require Import Prelude Json Calendar Session Schema Sha256 Engines Base64 IdentityModels IdentityCore IdentityLogin IdentityAccount.
#[local] Open Scope string_scope.
#[local] Open Scope list_scope.
#[local] Open Scope Z_scope.

(** [urllib.parse.urlsplit] with [hostname] and [port]; [None] is a [ValueError]. *)
Record UrlParts : Type := mk_Url {
  scheme : string;
  hostname : option string;
  port : option Z;
  credentials : bool;
  fragment : string
}.

Section Admin.
Context `{Providers} (urlsplit : string -> option UrlParts).

Definition require_admin (e : Env) : M Context_ :=
  let! (user, auth_session) := authenticated_context e in
  require (User.is_platform_admin user) (HTTPException 403 "platform admin required") ;;
  ret (user, auth_session).

(** * [app/redirect_uri_policy.py] *)
Definition forbidden_char (c : ascii) : bool := ord c in? [42; 92; 13; 10].
Definition allowed_url (raw : string) (parts : UrlParts) : result unit :=
  let host := opt_str (hostname parts) in
  ensure str_truthy host && negb (credentials parts) && negb (str_truthy (fragment parts))
    else_raise ValueError "Redirect URL must have a host and no credentials or fragment";
  ensure negb (existsb forbidden_char (list_ascii_of_string raw))
    else_raise ValueError "Redirect URL cannot contain wildcards or control characters";
  let is_https := (scheme parts ==? "https") && (port parts !=? Some 0) in
  let is_loopback := (scheme parts ==? "http") && (host in? ["localhost"; "127.0.0.1"; "::1"]) &&
    negb (is_none (port parts)) && (port parts !=? Some 0) in
  ensure is_https || is_loopback else_raise ValueError "HTTPS required, except explicit localhost development redirect URLs";
  Ok tt.
Fixpoint check_urls (values unique : list string) : result (list string) :=
  match values with
  | [] => Ok (rev unique)
  | raw :: rest =>
      ensure str_truthy raw && (strip raw ==? raw) && (Z.of_nat (String.length raw) <=? 2048) else_raise ValueError "Invalid redirect URL";
      match urlsplit raw with
      | None => Err (ValueError "Invalid redirect URL")
      | Some parts => let* _ := allowed_url raw parts in check_urls rest (if raw in? unique then unique else raw :: unique)
      end
  end.
Definition validate_redirect_uris (values : list string) : result (list string) :=
  ensure (1 <=? zlen values) && (zlen values <=? 10) else_raise ValueError "Provide between 1 and 10 redirect URLs";
  check_urls values [].

(** * [app/application_registry.py] *)
Definition client_id_char (c : ascii) : bool := let n := ord c in ((97 <=? n) && (n <=? 122)) || is_digit c || (n =? 45).
(** [^[a-z][a-z0-9-]{2,59}$] *)
Definition valid_client_id (s : string) : bool :=
  match s with
  | EmptyString => false
  | String c rest =>
      let n := Z.of_nat (String.length rest) in
      ((97 <=? ord c) && (ord c <=? 122)) && (2 <=? n) && (n <=? 59) && forallb client_id_char (list_ascii_of_string rest)
  end.
Definition add_redirects (e : Env) (a : Application) (urls : list string) : M unit :=
  for_each (fun uri => insert application_redirect_uris e (fun id =>
    ApplicationRedirectURI.new_ApplicationRedirectURI id (now e)
      <| ApplicationRedirectURI.application_id := Application.id a |> <| ApplicationRedirectURI.redirect_uri := uri |>) ;; ret tt) urls.
Definition register_application (e : Env) (client_id name : string) (redirects : list string) : M Application :=
  require (valid_client_id client_id) (ValueError "Client ID must use 3-60 lowercase letters, digits or hyphens") ;;
  let name := strip name in
  require (str_truthy name && (Z.of_nat (String.length name) <=? 160)) (ValueError "Invalid application name") ;;
  let! urls := lift (validate_redirect_uris redirects) in
  let! existing := query (scalar applications (fun a => Application.client_id a ==? client_id)) in
  require (is_none existing) (ValueError "Application client ID already exists") ;;
  let! a := insert applications e (fun id => Application.new_Application id (now e)
    <| Application.client_id := client_id |> <| Application.name := name |> <| Application.is_active := false |>) in
  flush e ;;
  add_redirects e a urls ;;
  ret a.
Definition replace_redirect_uris (e : Env) (a : Application) (redirects : list string) : M unit :=
  let! urls := lift (validate_redirect_uris redirects) in
  let! previous := query (select application_redirect_uris (fun r => ApplicationRedirectURI.application_id r =? Application.id a)) in
  for_each (fun r => delete_row application_redirect_uris (ApplicationRedirectURI.id r)) previous ;;
  flush e ;;
  add_redirects e a urls.
(** [try: m except ValueError as error: raise HTTPException(422, str(error))] *)
Definition value_error_422 {A} (m : M A) : M A := fun c =>
  match m c with (Err (ValueError msg), c) => (Err (HTTPException 422 msg), c) | r => r end.

(** * [app/admin.py] *)
Definition create_application (e : Env) (client_id name : string) (redirects : list string) : M Application :=
  let! (user, _) := require_admin e in
  let! a := value_error_422 (register_application e client_id name redirects) in
  record_audit e "admin_application_created" (Some user) true (Some (Application.client_id a))
    [("active", JBool false); ("redirect_count", JInt (zlen redirects))] ;;
  commit e ;; ret a.
Definition by_client_id (client_id : string) : M Application :=
  let! a := query (scalar applications (fun a => Application.client_id a ==? client_id)) in
  some_or a (HTTPException 404 "application not found").
Definition set_application_redirects (e : Env) (client_id : string) (redirects : list string) : M (list string) :=
  let! (user, _) := require_admin e in
  let! a := by_client_id client_id in
  let! validated := value_error_422 (lift (validate_redirect_uris redirects)) in
  value_error_422 (replace_redirect_uris e a validated) ;;
  record_audit e "admin_application_redirects_updated" (Some user) true (Some client_id) [("redirect_count", JInt (zlen validated))] ;;
  commit e ;; ret validated.
Definition update_application (e : Env) (client_id : string) (name : option string) (is_active : option bool) : M Application :=
  let! (user, _) := require_admin e in
  let! a := by_client_id client_id in
  let renamed := match name with Some n => negb (strip n ==? Application.name a) | None => false end in
  let! a := assign applications (fun a => if renamed then a <| Application.name := strip (opt_str name) |> else a) a in
  let! stored := query (scalar application_redirect_uris (fun r => ApplicationRedirectURI.application_id r =? Application.id a)) in
  let legacy := match dict_get (Application.client_id a) (redirect_uris (settings e)) with Some l => l | None => [] end in
  require (negb ((is_active ==? Some true) && is_none stored && (zlen legacy =? 0)))
    (HTTPException 409 "Register at least one approved callback URL before activation") ;;
  let switched := match is_active with Some b => negb (bool_decide (b = Application.is_active a)) | None => false end in
  let on := match is_active with Some b => b | None => Application.is_active a end in
  let! a := assign applications (fun a => if switched then a <| Application.is_active := on |> else a) a in
  when (switched && negb on) then! (
    let! rows := query (select auth_sessions (fun r =>
      (AuthSession.client_id r ==? Application.client_id a) && is_none (AuthSession.revoked_at r))) in
    assign_all auth_sessions (revoked e "application disabled") rows) ;;
  let changes := (if renamed then [("name", JStr (Application.name a))] else []) ++
                 (if switched then [("is_active", JBool on)] else []) in
  record_audit e "admin_application_updated" (Some user) true (Some (Application.client_id a))
    (match changes with [] => [("no_change", JBool true)] | _ => changes end) ;;
  commit e ;; ret a.

Definition update_user_security (e : Env) (user_id : uuid) (is_active : option bool) (unlock : bool) : M User :=
  let! (admin, _) := require_admin e in
  let! user := query (get users user_id) in
  let! user := some_or user (HTTPException 404 "user not found") in
  require (negb ((User.id user =? User.id admin) && (is_active ==? Some false)))
    (HTTPException 400 "cannot disable your own admin account") ;;
  let switched := match is_active with Some b => negb (bool_decide (User.is_active user = b)) | None => false end in
  let on := match is_active with Some b => b | None => User.is_active user end in
  let! user := assign users (fun u => if switched then u <| User.is_active := on |> else u) user in
  when (switched && negb on) then! (revoke_sessions e (User.id user) "account disabled by platform admin" None ;; ret tt) ;;
  let! user := assign users (fun u => if switched && negb on then u <| User.security_version ::= Z.add 1 |> else u) user in
  let! user := assign users (fun u =>
    if unlock then u <| User.failed_login_attempts := 0 |> <| User.locked_until := None |> else u) user in
  record_audit e "admin_user_security_updated" (Some admin) true None
    (("target_user_id", JStr (str_of_uuid (User.id user))) ::
     (if switched then [("is_active", JBool on)] else []) ++ (if unlock then [("unlocked", JBool true)] else [])) ;;
  commit e ;; ret user.
Definition admin_revoke_user_sessions (e : Env) (user_id : uuid) : M Z :=
  let! (admin, auth_session) := require_admin e in
  let! user := query (get users user_id) in
  let! user := some_or user (HTTPException 404 "user not found") in
  let! count := revoke_sessions e (User.id user) "revoked by platform admin"
    (if User.id user =? User.id admin then Some (AuthSession.id auth_session) else None) in
  record_audit e "admin_sessions_revoked" (Some admin) true None
    [("target_user_id", JStr (str_of_uuid (User.id user))); ("count", JInt count)] ;;
  commit e ;; ret count.
(** [issue_push_admin_token] with [create_push_admin_token] *)
Definition PUSH_ADMIN_CLIENT_ID := "mailbox-dns".
Definition PUSH_ADMIN_TOKEN_MINUTES := 2.
Definition push_admin_payload (e : Env) (jti user_id : uuid) (client_id : string) (session_id : uuid) : list (string * Json) := [
  ("iss", JStr (rstrip_slash (issuer (settings e)))); ("sub", JStr (str_of_uuid user_id)); ("aud", JStr "ithute-push");
  ("azp", JStr client_id); ("sid", JStr (str_of_uuid session_id)); ("scope", JStr "push.admin");
  ("token_use", JStr "push_admin"); ("jti", JStr (str_of_uuid jti)); ("iat", JInt (timestamp (now e)));
  ("nbf", JInt (timestamp (now e))); ("exp", JInt (timestamp (now e + minutes PUSH_ADMIN_TOKEN_MINUTES)))].
Definition issue_push_admin_token (e : Env) : M string :=
  let! (user, auth_session) := require_admin e in
  require (AuthSession.client_id auth_session ==? PUSH_ADMIN_CLIENT_ID)
    (HTTPException 403 "central admin step-up must originate from the platform console") ;;
  let! jti := draw_uuid e in
  record_audit e "admin_push_delegation_issued" (Some user) true (Some (AuthSession.client_id auth_session))
    [("audience", JStr "ithute-push"); ("scope", JStr "push.admin")] ;;
  commit e ;;
  ret (encode e (push_admin_payload e jti (User.id user) (AuthSession.client_id auth_session) (AuthSession.id auth_session))).
Definition decide_developer_access_request (e : Env) (request_id : uuid) (decision : string) : M DeveloperAccessRequest :=
  let! (user, _) := require_admin e in
  let! item := query (get developer_access_requests request_id) in
  let! item := some_or item (HTTPException 404 "request not found") in
  require (DeveloperAccessRequest.status item ==? "pending") (HTTPException 409 "request already decided") ;;
  let! item := assign developer_access_requests (fun r => r <| DeveloperAccessRequest.status := decision |>) item in
  record_audit e "developer_access_request_decided" (Some user) true None
    [("request_id", JStr (str_of_uuid (DeveloperAccessRequest.id item))); ("decision", JStr decision);
     ("product", JStr (DeveloperAccessRequest.product item))] ;;
  commit e ;; ret item.
End Admin.

(** * [synchronize_system_owner] *)
Section Owner.
Context `{Providers}.
Definition DISPLAY_NAME := "Ithute System Owner".
Definition synchronize_system_owner (e : Env) : M (option User) :=
  let s := settings e in
  match normalize_email (Some (system_owner_email s)) with
  | None => if str_truthy (system_owner_password s)
            then raise (RuntimeError "AUTH_SYSTEM_OWNER_EMAIL is required when the system owner password is configured")
            else ret None
  | Some email =>
      let password := system_owner_password s in
      if negb (str_truthy password) then ret None
      else
        require (12 <=? Z.of_nat (String.length password)) (RuntimeError "AUTH_SYSTEM_OWNER_PASSWORD must contain at least 12 characters") ;;
        let! owner := query (scalar users (fun u => User.email u ==? Some email)) in
        let! (owner, rotated) := match owner with
          | None =>
              let! owner := insert users e (fun id => User.new_User id (now e)
                <| User.email := Some email |> <| User.display_name := DISPLAY_NAME |>
                <| User.password_hash := bcrypt_hash (random_salt e) password |> <| User.is_active := true |>
                <| User.is_platform_admin := true |> <| User.email_verified := true |> <| User.phone_verified := false |>
                <| User.password_changed_at := now e |>) in
              flush e ;; ret (owner, false)
          | Some owner =>
              let rotated := negb (bcrypt_verify password (User.password_hash owner)) in
              let! owner := assign users (fun u =>
                let u := u <| User.display_name := str_or (strip (User.display_name u)) DISPLAY_NAME |>
                  <| User.is_active := true |> <| User.is_platform_admin := true |> <| User.email_verified := true |> in
                if rotated then set_password e password u else u) owner in
              ret (owner, rotated)
          end in
        update_where users (fun u => negb (User.id u =? User.id owner) && User.is_platform_admin u)
          (fun u => u <| User.is_platform_admin := false |>) ;;
        when rotated then!
          update_where auth_sessions (fun r => (AuthSession.user_id r =? User.id owner) && is_none (AuthSession.revoked_at r))
            (fun r => r <| AuthSession.revoked_at := Some (now e) |> <| AuthSession.revoked_reason := Some "system_owner_password_rotated" |>) ;;
        commit e ;; ret (Some owner)
  end.
End Owner.

(** * The server: one request after the other *)

(** The requests that read or change the database, with their payloads. *)
Inductive Call : Type :=
| Register (email phone : option string) (display_name password : string)
| Login (payload : LoginRequest)
| CurrentUser
| PushToken
| Refresh (client_id token : string)
| Logout (token : string)
| RegisterDevice (device_key platform : string) (label : option string)
| RevokeDevice (device_key : string)
| AuthorizeGet (a : AuthorizationRequest)
| AuthorizePost (a : AuthorizationRequest) (who pass mfa : string)
| StepUpPost (a : AuthorizationRequest) (who pass mfa : string)
| Token (f : TokenForm)
| RevokeCurrentSession
| RequestDeveloperAccess (product justification : string)
| SessionStatus
| ChangePassword (current_password new_password : string)
| RequestPasswordReset (who : string)
| ConfirmPasswordReset (raw new_password : string)
| RequestVerification (c : Channel)
| ConfirmVerification (c : Channel) (code : string)
| EnrollMfa (password : string)
| ConfirmMfa (code : string)
| RegenerateRecoveryCodes (code : string)
| DisableMfa (password code : string)
| RevokeSession (session_id : uuid)
| RevokeOtherSessions
| TrustDevice (device_id : uuid)
| RevokeTrustedDevice (device_id : uuid)
| CreateApplication (client_id name : string) (redirects : list string)
| SetApplicationRedirects (client_id : string) (redirects : list string)
| UpdateApplication (client_id : string) (name : option string) (is_active : option bool)
| UpdateUserSecurity (user_id : uuid) (is_active : option bool) (unlock : bool)
| AdminRevokeUserSessions (user_id : uuid)
| IssuePushAdminToken
| DecideDeveloperAccessRequest (request_id : uuid) (decision : string)
| SynchronizeSystemOwner.

(** What a call answers. *)
Inductive Answer : Type :=
| Tokens (r : TokenResponse)
| Authorized (r : AuthorizeResponse)
| Delegated (token : string)
| Sent (l : list Message)
| Secrets (l : list string)
| Account (u : User)
| Done.

Section Server.
Context `{Providers} (urlsplit : string -> option UrlParts).

Definition answer {A} (m : M A) (f : A -> Answer) : M Answer := let! a := m in ret (f a).
Definition done_with {A} (m : M A) : M Answer := answer m (fun _ => Done).
Definition endpoint (e : Env) (q : Call) : M Answer :=
  match q with
  | Register email phone name pw => answer (register e email phone name pw) Account
  | Login p => answer (login e p) Tokens
  | CurrentUser => answer (current_user e) Account
  | PushToken => answer (push_token e) (fun r => Delegated (fst r))
  | Refresh c t => answer (refresh e c t) Tokens
  | Logout t => done_with (logout e t)
  | RegisterDevice k p l => done_with (register_device e k p l)
  | RevokeDevice k => done_with (revoke_device e k)
  | AuthorizeGet a => answer (authorize_get e a) Authorized
  | AuthorizePost a who pw mfa => answer (authorize_post e a who pw mfa) Authorized
  | StepUpPost a who pw mfa => answer (step_up_post e a who pw mfa) Authorized
  | Token f => answer (token e f) Tokens
  | RevokeCurrentSession => done_with (revoke_current_session e)
  | RequestDeveloperAccess p j => done_with (request_developer_access e p j)
  | SessionStatus => done_with (current_session_status e)
  | ChangePassword c n => done_with (change_password e c n)
  | RequestPasswordReset who => answer (request_password_reset e who) Sent
  | ConfirmPasswordReset raw pw => done_with (confirm_password_reset e raw pw)
  | RequestVerification c => answer (request_verification e c) (fun r => Sent (snd r))
  | ConfirmVerification c code => done_with (confirm_verification e c code)
  | EnrollMfa pw => answer (enroll_mfa e pw) (fun s => Secrets [s])
  | ConfirmMfa code => answer (confirm_mfa e code) Secrets
  | RegenerateRecoveryCodes code => answer (regenerate_recovery_codes e code) Secrets
  | DisableMfa pw code => done_with (disable_mfa e pw code)
  | RevokeSession k => done_with (revoke_session e k)
  | RevokeOtherSessions => done_with (revoke_other_sessions e)
  | TrustDevice k => done_with (trust_device e k)
  | RevokeTrustedDevice k => done_with (revoke_trusted_device e k)
  | CreateApplication c n l => done_with (create_application urlsplit e c n l)
  | SetApplicationRedirects c l => done_with (set_application_redirects urlsplit e c l)
  | UpdateApplication c n b => done_with (update_application e c n b)
  | UpdateUserSecurity k b u => answer (update_user_security e k b u) Account
  | AdminRevokeUserSessions k => done_with (admin_revoke_user_sessions e k)
  | IssuePushAdminToken => answer (issue_push_admin_token e) Delegated
  | DecideDeveloperAccessRequest k s => done_with (decide_developer_access_request e k s)
  | SynchronizeSystemOwner => done_with (synchronize_system_owner e)
  end.

(** A served call, and the database after a sequence of them. *)
Definition serve (d : IdentityDb) (r : Env * Call) : result Answer * IdentityDb := run (endpoint (fst r) (snd r)) d.
Definition serve_all (d : IdentityDb) (l : list (Env * Call)) : IdentityDb := fold_left (fun d r => snd (serve d r)) l d.
End Server.
