(* ===== verification/IdentityOutbox.v ===== *)
(** The worker of the identity server that hands the queued lifecycle events to
    the notification service: [app/push_event_worker.py], with
    [create_service_token] of [app/security.py].

    Claiming an event, and settling it, are transactions of their own; the HTTP
    call lies between them.  A cycle runs on the committed database and on the
    state of whatever answers the calls. *)
From S2P Require Import Prelude Json Calendar Session Schema Sha256 Engines Base64 IdentityModels IdentityCore.
#[local] Open Scope string_scope.
#[local] Open Scope list_scope.
#[local] Open Scope Z_scope.

Definition BATCH_SIZE : nat := 100.
Definition MAX_BACKOFF_SECONDS : Z := 300.

Record ClaimedEvent : Type := mk_ClaimedEvent {
  event_id : uuid;
  payload : list (string * Json);
  attempts : Z
}.
Definition backoff_seconds (attempts : Z) : Z := Z.min MAX_BACKOFF_SECONDS (Z.max 2 (2 ^ Z.min attempts 8)).

(** [str(x) if x else None] of an optional identifier: a UUID is always true. *)
Definition opt_uuid (o : option uuid) : Json := match o with Some k => JStr (str_of_uuid k) | None => JNull end.
(** [_payload] *)
Definition event_payload (row : AuthEventOutbox) : list (string * Json) :=
  let details := match json_loads (str_or (AuthEventOutbox.payload_json row) "{}") with Some (JObj d) => d | _ => [] end in [
  ("event_id", JStr (str_of_uuid (AuthEventOutbox.id row)));
  ("type", JStr (AuthEventOutbox.event_type row));
  ("sub", opt_uuid (AuthEventOutbox.subject_user_id row));
  ("sid", opt_uuid (AuthEventOutbox.session_id row));
  ("client_id", opt_json (AuthEventOutbox.client_id row));
  ("occurred_at", JStr (iso_time (AuthEventOutbox.created_at row)));
  ("details", JObj details)].

(** [_claim_next]: the oldest due event is leased. *)
Definition undelivered (row : AuthEventOutbox) : bool := is_none (AuthEventOutbox.delivered_at row).
Definition due (t : time) (row : AuthEventOutbox) : bool := undelivered row && (AuthEventOutbox.next_attempt_at row <=? t).
Definition lease_until (e : Env) : time := now e + seconds (Z.max 5 (push_event_lease_seconds (settings e))).
Definition leased (e : Env) (row : AuthEventOutbox) : AuthEventOutbox := row <| AuthEventOutbox.next_attempt_at := lease_until e |>.
Definition claim_next (e : Env) : M (option ClaimedEvent) :=
  let! row := query (scalar_ordered auth_event_outbox (asc AuthEventOutbox.created_at) (due (now e))) in
  match row with
  | None => ret None
  | Some row =>
      let! row := assign auth_event_outbox (leased e) row in
      let claimed := mk_ClaimedEvent (AuthEventOutbox.id row) (event_payload row) (AuthEventOutbox.attempts row) in
      commit e ;; ret (Some claimed)
  end.
(** [_settle_success], [_settle_failure]: an event that is gone or was delivered
    meanwhile is left alone. *)
Definition succeeded (e : Env) (row : AuthEventOutbox) : AuthEventOutbox :=
  row <| AuthEventOutbox.attempts ::= Z.add 1 |> <| AuthEventOutbox.last_error := None |>
      <| AuthEventOutbox.delivered_at := Some (now e) |>.
Definition failed (e : Env) (error : string) (row : AuthEventOutbox) : AuthEventOutbox :=
  let attempts := AuthEventOutbox.attempts row + 1 in
  row <| AuthEventOutbox.attempts := attempts |> <| AuthEventOutbox.last_error := Some (str_take 500 error) |>
      <| AuthEventOutbox.next_attempt_at := now e + seconds (backoff_seconds attempts) |>.
Definition settle_success (e : Env) (event_id : uuid) : M bool :=
  let! row := query (get auth_event_outbox event_id) in
  match row with
  | Some row =>
      if undelivered row then let! _ := assign auth_event_outbox (succeeded e) row in commit e ;; ret true else ret false
  | None => ret false
  end.
Definition settle_failure (e : Env) (event_id : uuid) (error : string) : M unit :=
  let! row := query (get auth_event_outbox event_id) in
  match row with
  | Some row =>
      if undelivered row then let! _ := assign auth_event_outbox (failed e error) row in commit e ;; ret tt else ret tt
  | None => ret tt
  end.

(** [create_service_token] *)
Definition create_service_token `{Providers} (e : Env) (jti : uuid) (client_id audience scope : string) : string :=
  encode e [
    ("iss", JStr (rstrip_slash (issuer (settings e)))); ("sub", JStr ("service:" ++ client_id)%string);
    ("aud", JStr audience); ("azp", JStr client_id); ("scope", JStr scope); ("token_use", JStr "service");
    ("jti", JStr (str_of_uuid jti)); ("iat", JInt (timestamp (now e))); ("nbf", JInt (timestamp (now e)));
    ("exp", JInt (timestamp (now e + minutes (service_token_minutes (settings e)))))].

(** [run_once]: [post token payload] is the HTTP call with its
    [raise_for_status]; [Some error] is the exception it raises.  The clock is
    read when an event is claimed and when it is settled: in turn [k] at
    [clock (2 * k)] and [clock (2 * k + 1)]. *)
Section Cycle.
Context {W : Type} (post : string -> list (string * Json) -> W -> option string * W) (clock : nat -> Env) (token : string).
Fixpoint deliver_batch (turns k : nat) (delivered : Z) (d : IdentityDb) (w : W) : result Z * IdentityDb * W :=
  match turns with
  | O => (Ok delivered, d, w)
  | S turns =>
      match run (claim_next (clock (2 * k))) d with
      | (Err x, d) => (Err x, d, w)
      | (Ok None, d) => (Ok delivered, d, w)
      | (Ok (Some claimed), d) =>
          let e := clock (2 * k + 1)%nat in
          match post token (payload claimed) w with
          | (Some error, w) =>
              match run (settle_failure e (event_id claimed) error) d with
              | (Err x, d) => (Err x, d, w)
              | (Ok _, d) => deliver_batch turns (S k) delivered d w
              end
          | (None, w) =>
              match run (settle_success e (event_id claimed)) d with
              | (Err x, d) => (Err x, d, w)
              | (Ok settled, d) => deliver_batch turns (S k) (delivered + Z.b2z settled) d w
              end
          end
      end
  end.
End Cycle.
Definition run_once `{Providers} {W} (post : string -> list (string * Json) -> W -> option string * W)
    (e : Env) (clock : nat -> Env) (d : IdentityDb) (w : W) : result Z * IdentityDb * W :=
  let token := create_service_token e (uuid4 e 0) "ithute-auth" "ithute-push" "push.lifecycle" in
  deliver_batch post clock token BATCH_SIZE 0 0 d w.
