(* ===== verification/IdentityFacts.v ===== *)
(** Reasoning about the identity server's computations: how the database may
    evolve ([evolves]: accounts, sessions, authorization codes, security tokens,
    the audit trail and the event outbox are never lost or rolled back), the
    computations that respect it ([grows]), and the outcome of a commit. *)
From S2P Require Import Prelude Json Calendar Session Schema Sha256 Engines Base64 IdentityModels IdentityCore IdentityLogin IdentityAccount IdentityAdmin.
#[local] Open Scope string_scope.
#[local] Open Scope list_scope.
#[local] Open Scope Z_scope.

(** * Evolution of rows and tables *)
Class Evolve (R : Type) := evolve : R -> R -> Prop.
Class EvolveOrder R `{Evolve R} : Prop := {
  evolve_refl x : evolve x x;
  evolve_trans x y z : evolve x y -> evolve y z -> evolve x z
}.
(** A mark that once set stays set. *)
Definition stays {A} (x y : option A) : Prop := is_none x = false -> is_none y = false.

#[export] Instance evolve_user : Evolve User := fun x y =>
  User.id x = User.id y /\ User.security_version x <= User.security_version y.
#[export] Instance evolve_session : Evolve AuthSession := fun x y =>
  AuthSession.id x = AuthSession.id y /\ AuthSession.user_id x = AuthSession.user_id y /\
  AuthSession.client_id x = AuthSession.client_id y /\ AuthSession.expires_at x = AuthSession.expires_at y /\
  AuthSession.auth_method x = AuthSession.auth_method y /\ stays (AuthSession.revoked_at x) (AuthSession.revoked_at y).
#[export] Instance evolve_code : Evolve AuthorizationCode := fun x y =>
  AuthorizationCode.id x = AuthorizationCode.id y /\ AuthorizationCode.code_hash x = AuthorizationCode.code_hash y /\
  AuthorizationCode.user_id x = AuthorizationCode.user_id y /\ AuthorizationCode.code_challenge x = AuthorizationCode.code_challenge y /\
  AuthorizationCode.client_id x = AuthorizationCode.client_id y /\ AuthorizationCode.redirect_uri x = AuthorizationCode.redirect_uri y /\
  stays (AuthorizationCode.consumed_at x) (AuthorizationCode.consumed_at y).
#[export] Instance evolve_token : Evolve SecurityToken := fun x y =>
  SecurityToken.id x = SecurityToken.id y /\ SecurityToken.token_hash x = SecurityToken.token_hash y /\
  SecurityToken.purpose x = SecurityToken.purpose y /\ SecurityToken.user_id x = SecurityToken.user_id y /\
  stays (SecurityToken.consumed_at x) (SecurityToken.consumed_at y).
#[export] Instance evolve_audit : Evolve AuditEvent := fun x y => x = y.
#[export] Instance evolve_outbox : Evolve AuthEventOutbox := fun x y =>
  AuthEventOutbox.id x = AuthEventOutbox.id y /\ AuthEventOutbox.event_type x = AuthEventOutbox.event_type y /\
  AuthEventOutbox.subject_user_id x = AuthEventOutbox.subject_user_id y /\ AuthEventOutbox.session_id x = AuthEventOutbox.session_id y /\
  AuthEventOutbox.client_id x = AuthEventOutbox.client_id y /\ AuthEventOutbox.payload_json x = AuthEventOutbox.payload_json y /\
  AuthEventOutbox.created_at x = AuthEventOutbox.created_at y /\
  stays (AuthEventOutbox.delivered_at x) (AuthEventOutbox.delivered_at y).
#[export] Instance order_user : EvolveOrder User.
Proof. split; unfold evolve, evolve_user; [intuition lia|]. intros ? ? ? [] []. split; [congruence|lia]. Qed.
#[export] Instance order_session : EvolveOrder AuthSession.
Proof. split; unfold evolve, evolve_session, stays; intuition congruence. Qed.
#[export] Instance order_code : EvolveOrder AuthorizationCode.
Proof. split; unfold evolve, evolve_code, stays; intuition congruence. Qed.
#[export] Instance order_token : EvolveOrder SecurityToken.
Proof. split; unfold evolve, evolve_token, stays; intuition congruence. Qed.
#[export] Instance order_audit : EvolveOrder AuditEvent.
Proof. split; unfold evolve, evolve_audit; congruence. Qed.
#[export] Instance order_outbox : EvolveOrder AuthEventOutbox.
Proof. split; unfold evolve, evolve_outbox, stays; intuition congruence. Qed.

(** Every row goes on. *)
Definition rows_le {R} `{Evolve R} (t t' : list R) : Prop := forall r, r ∈ t -> exists r', r' ∈ t' /\ evolve r r'.
Section Rows.
Context {R : Type} `{Keyed R} `{EvolveOrder R}.
Implicit Types t : list R.
Lemma rows_le_refl t : rows_le t t.
Proof. intros r Hr. exists r. split; [done|apply evolve_refl]. Qed.
Lemma rows_le_trans t1 t2 t3 : rows_le t1 t2 -> rows_le t2 t3 -> rows_le t1 t3.
Proof.
  intros H12 H23 r Hr. destruct (H12 r Hr) as (y & Hy & Hle). destruct (H23 y Hy) as (z & Hz & Hle').
  exists z. split; [done|]. by eapply evolve_trans.
Qed.
Lemma rows_le_app t r : rows_le t (t ++ [r]).
Proof. intros x Hx. exists x. split; [by apply elem_of_app; left|apply evolve_refl]. Qed.
Lemma rows_le_map f t : (forall x, evolve x (f x)) -> rows_le t (map f t).
Proof. intros Hf x Hx. exists (f x). split; [by apply list_elem_of_fmap_2|done]. Qed.
Lemma rows_le_assign (f : R -> R) ks t : (forall x, evolve x (f x)) ->
  rows_le t (map (fun x => if key x in? ks then f x else x) t).
Proof. intros Hf. apply rows_le_map. intros x. destruct (_ in? _); [done|apply evolve_refl]. Qed.
End Rows.

Record evolves (d d' : IdentityDb) : Prop := {
  ev_users : rows_le (users d) (users d');
  ev_sessions : rows_le (auth_sessions d) (auth_sessions d');
  ev_codes : rows_le (authorization_codes d) (authorization_codes d');
  ev_tokens : rows_le (security_tokens d) (security_tokens d');
  ev_audits : rows_le (audit_events d) (audit_events d');
  ev_outbox : rows_le (auth_event_outbox d) (auth_event_outbox d')
}.
#[export] Instance evolves_preorder : PreOrder evolves.
Proof.
  split.
  - intros d. split; apply rows_le_refl.
  - intros d1 d2 d3 [] []. split; by eapply rows_le_trans.
Qed.

(** * Computations that respect a preorder on databases *)
Definition view (c : Conn) : IdentityDb := mem (session c).
Definition schema_ok (d : IdentityDb) : Prop := check_schema d = Ok tt.

Section Respect.
Context (R : IdentityDb -> IdentityDb -> Prop) `{!PreOrder R}.

(** From [c] to [c']: the committed database stays checked and goes on to one
    that the session's rows go on from. *)
Definition keeps (c c' : Conn) : Prop :=
  (schema_ok (committed c) -> schema_ok (committed c')) /\
  (R (committed c) (view c) -> R (committed c) (committed c') /\ R (committed c') (view c')).
Definition grows {A} (m : M A) : Prop := forall c, R (view c) (view (snd (m c))) /\ keeps c (snd (m c)).

Lemma keeps_refl c : keeps c c.
Proof. split; [done|]. intros H. split; [reflexivity|done]. Qed.
Lemma keeps_trans c1 c2 c3 : keeps c1 c2 -> keeps c2 c3 -> keeps c1 c3.
Proof.
  intros [S1 H12] [S2 H23]. split; [tauto|]. intros H.
  destruct (H12 H) as [Ha Hb]. destruct (H23 Hb) as [Hc Hd]. split; [by etrans|done].
Qed.
Lemma keeps_view c c' : committed c' = committed c -> R (view c) (view c') -> keeps c c'.
Proof. intros E Hv. unfold keeps. rewrite E. split; [done|]. intros H. split; [reflexivity|by etrans]. Qed.
Lemma keeps_bind {A B} (m : M A) (k : A -> M B) c :
  (forall c, keeps c (snd (m c))) -> (forall a c, keeps c (snd (k a c))) -> keeps c (snd (bind m k c)).
Proof.
  intros Hm Hk. unfold bind. specialize (Hm c). destruct (m c) as [[a|x] c1]; [|done]. eapply keeps_trans; [done|apply Hk].
Qed.
Lemma keeps_grows {A} (m : M A) c : grows m -> keeps c (snd (m c)).
Proof. intros Hm. apply Hm. Qed.

Lemma grows_bind {A B} (m : M A) (k : A -> M B) : grows m -> (forall a, grows (k a)) -> grows (bind m k).
Proof.
  intros Hm Hk c. unfold bind. destruct (Hm c) as [Hv Hc]. destruct (m c) as [[a|x] c1]; simpl in *; [|done].
  destruct (Hk a c1) as [Hv' Hc']. split; [by etrans|by eapply keeps_trans].
Qed.
Lemma grows_still {A} (m : M A) : (forall c, snd (m c) = c) -> grows m.
Proof. intros H c. rewrite H. split; [reflexivity|apply keeps_refl]. Qed.
Lemma grows_ret {A} (a : A) : grows (ret a).
Proof. by apply grows_still. Qed.
Lemma grows_raise {A} x : grows (@raise A x).
Proof. by apply grows_still. Qed.
Lemma grows_lift {A} (r : result A) : grows (lift r).
Proof. by apply grows_still. Qed.
Lemma grows_query {A} (f : Session IdentityDb -> A) : grows (query f).
Proof. by apply grows_still. Qed.
Lemma grows_some_or {A} (o : option A) x : grows (some_or o x).
Proof. destruct o; by apply grows_still. Qed.
Lemma grows_require b x : grows (require b x).
Proof. destruct b; by apply grows_still. Qed.
Lemma grows_value_error_422 {A} (m : M A) : grows m -> grows (value_error_422 m).
Proof. intros Hm c. specialize (Hm c). unfold value_error_422. destruct (m c) as [[a|[]] c1]; done. Qed.
Lemma grows_draw e : grows (draw_uuid e).
Proof. intros c. split; [reflexivity|]. by apply keeps_view. Qed.
Lemma grows_modify f : (forall s, R (mem s) (mem (f s))) -> grows (modify f).
Proof. intros Hf c. split; [apply Hf|]. apply keeps_view; [done|apply Hf]. Qed.
Lemma grows_for_each {A} (f : A -> M unit) l : (forall x, grows (f x)) -> grows (for_each f l).
Proof. intros Hf. induction l; simpl; [apply grows_ret|]. by apply grows_bind. Qed.

(** What the operations on a table do to the session's rows. *)
Definition on_keys {K} `{Keyed K} (f : K -> K) (ks : list uuid) (t : list K) : list K := map (fun x => if key x in? ks then f x else x) t.
Lemma grows_insert {K} `{Keyed K} (T : IdentityDb -> list K) `{!Setter T} e mk :
  (forall d id, R d (d <| T ::= (fun t => t ++ [mk id]) |>)) -> grows (insert T e mk).
Proof.
  intros Hr c. assert (R (view c) (view (snd (insert T e mk c)))) as Hv by apply Hr. split; [done|by apply keeps_view].
Qed.
Lemma grows_assign {K} `{Keyed K} (T : IdentityDb -> list K) `{!Setter T} f r :
  (forall d, R d (d <| T ::= on_keys f [key r] |>)) -> grows (assign T f r).
Proof. intros Hr. apply grows_bind; [|intros; apply grows_ret]. apply grows_modify. intros s. apply Hr. Qed.
Lemma grows_assign_all {K} `{Keyed K} (T : IdentityDb -> list K) `{!Setter T} f rs :
  (forall d, R d (d <| T ::= on_keys f (keys rs) |>)) -> grows (assign_all T f rs).
Proof. intros Hr. apply grows_modify. intros s. apply Hr. Qed.
Lemma grows_update_where {K} `{Keyed K} (T : IdentityDb -> list K) `{!Setter T} p f :
  (forall d ks, R d (d <| T ::= on_keys f ks |>)) -> grows (update_where T p f).
Proof. intros Hr. apply grows_modify. intros s. apply Hr. Qed.
Lemma grows_delete_where {K} `{Keyed K} (T : IdentityDb -> list K) `{!Setter T} p :
  (forall d q, R d (d <| T ::= List.filter q |>)) -> grows (delete_where T p).
Proof. intros Hr. apply grows_modify. intros s. apply Hr. Qed.
Lemma grows_delete_row {K} `{Keyed K} (T : IdentityDb -> list K) `{!Setter T} k :
  (forall d q, R d (d <| T ::= List.filter q |>)) -> grows (delete_row T k).
Proof. intros Hr. apply grows_modify. intros s. apply Hr. Qed.

Lemma grows_flush e : grows (queue_identity_status_events e) -> grows (flush e).
Proof.
  intros Hq. apply grows_bind; [done|intros _]. apply grows_bind; [apply grows_query|intros d].
  apply grows_bind; [apply grows_lift|intros _]. apply grows_modify. intros s. cbn. reflexivity.
Qed.
Lemma flush_ok e c u c' : flush e c = (Ok u, c') -> schema_ok (view c').
Proof.
  unfold flush, bind, query, lift, modify. destruct (queue_identity_status_events e c) as [[v|x] c1]; [|done].
  destruct (check_schema (mem (session c1))) as [[]|x] eqn:Hs; [|done]. intros [= _ <-]. exact Hs.
Qed.
Lemma grows_commit e : grows (queue_identity_status_events e) -> grows (commit e).
Proof.
  intros Hq c. unfold commit, bind. destruct (grows_flush e Hq c) as [Hv Hk].
  destruct (flush e c) as [[u|x] c1] eqn:Ef; [|done]. simpl in *. split; [done|]. destruct Hk as [_ Hk].
  split; cbn; [intros _; by eapply flush_ok|]. intros Hc. destruct (Hk Hc) as [H1 H2]. split; [by etrans|reflexivity].
Qed.
(** What a successful commit leaves. *)
Lemma commit_ok e c u c' : grows (queue_identity_status_events e) -> commit e c = (Ok u, c') ->
  committed c' = view c' /\ schema_ok (committed c') /\ R (view c) (committed c').
Proof.
  intros Hq Hc. destruct (grows_commit e Hq c) as [Hv _]. rewrite Hc in Hv. revert Hc. unfold commit, bind.
  destruct (flush e c) as [[v|x] c1] eqn:Ef; [|done]. intros [= _ <-]. split; [done|]. split; [by eapply flush_ok|exact Hv].
Qed.

(** The registration rolls back what it added. *)
Lemma keeps_except_integrity {A} (m h : M A) c :
  grows m -> (forall c, keeps c (snd (h c))) -> keeps c (snd (except_integrity m h c)).
Proof.
  intros Hm Hh. unfold except_integrity. destruct (Hm c) as [_ Hk]. destruct (m c) as [[a|[]] c1]; try done.
  eapply keeps_trans; [done|]. apply Hh.
Qed.
Lemma keeps_rollback {A} x c : keeps c (snd ((rollback ;; raise x : M A) c)).
Proof. split; [done|]. intros _. split; cbn; reflexivity. Qed.

(** A computation served on its own connection. *)
Lemma run_respects {A} (m : M A) d : (forall c, keeps c (snd (m c))) ->
  R d (snd (run m d)) /\ (schema_ok d -> schema_ok (snd (run m d))).
Proof.
  intros Hm. destruct (Hm (connect d)) as [Hs Hk]. unfold run. destruct (m (connect d)) as [a c]. simpl in *.
  split; [by apply Hk|done].
Qed.
End Respect.

(** ** Walking through a computation *)

(** One step along its structure; what a table operation does to the rows is
    left to prove.  A defined computation is unfolded. *)
Ltac head_of t := lazymatch t with ?f _ => head_of f | _ => t end.
Ltac grow_step :=
  cbv zeta;
  lazymatch goal with
  | |- grows _ (bind _ _) => apply (grows_bind _); [|intros ?]
  | |- grows _ (ret _) => apply (grows_ret _)
  | |- grows _ (raise _) => apply (grows_raise _)
  | |- grows _ (lift _) => apply (grows_lift _)
  | |- grows _ (query _) => apply (grows_query _)
  | |- grows _ (some_or _ _) => apply (grows_some_or _)
  | |- grows _ (require _ _) => apply (grows_require _)
  | |- grows _ (draw_uuid _) => apply (grows_draw _)
  | |- grows _ (value_error_422 _) => apply (grows_value_error_422 _)
  | |- grows _ (for_each _ _) => apply (grows_for_each _); intros ?
  | |- grows _ (insert _ _ _) => apply (grows_insert _); intros ? ?
  | |- grows _ (assign _ _ _) => apply (grows_assign _); intros ?
  | |- grows _ (assign_all _ _ _) => apply (grows_assign_all _); intros ?
  | |- grows _ (update_where _ _ _) => apply (grows_update_where _); intros ? ?
  | |- grows _ (delete_where _ _) => apply (grows_delete_where _); intros ? ?
  | |- grows _ (delete_row _ _) => apply (grows_delete_row _); intros ? ?
  | |- grows _ (match ?x with _ => _ end) => destruct x
  | |- grows _ ?m => first [solve [auto 2 with grows] | let h := head_of m in unfold h]
  end.
Ltac grow := repeat grow_step.
Create HintDb grows.

(** * Evolution respected by every call *)
Lemma evolve_failed_attempt e u : evolve u (failed_attempt e u).
Proof. unfold failed_attempt. cbv zeta. case_match; hnf; split; cbn; reflexivity || lia. Qed.
Lemma rows_le_on_keys {K} `{Keyed K, EvolveOrder K} (f : K -> K) ks t : (forall x, evolve x (f x)) -> rows_le t (on_keys f ks t).
Proof. apply rows_le_assign. Qed.
Ltac solve_evolve :=
  intros; first [apply evolve_failed_attempt | cbv zeta; repeat case_match];
  try (hnf; repeat split; cbn; first [reflexivity | lia | (unfold stays; cbn; by auto)]).
(** Tables outside the relation may change freely. *)
Ltac solve_evolves :=
  split; cbn; try apply rows_le_refl;
  first [apply rows_le_app | apply rows_le_on_keys; solve_evolve | idtac].

Section Evolution.
Context `{Providers} (urlsplit : string -> option UrlParts).
Lemma evolves_queue e : grows evolves (queue_identity_status_events e).
Proof. grow. all: solve_evolves. Qed.
#[local] Hint Resolve evolves_queue : grows.
Lemma evolves_flush e : grows evolves (flush e).
Proof. by apply (grows_flush _), evolves_queue. Qed.
Lemma evolves_commit e : grows evolves (commit e).
Proof. by apply (grows_commit _), evolves_queue. Qed.
#[local] Hint Resolve evolves_flush evolves_commit : grows.
Lemma evolves_record_audit e t u b c d : grows evolves (record_audit e t u b c d).
Proof. grow. all: solve_evolves. Qed.
Lemma evolves_authenticated_context e : grows evolves (authenticated_context e).
Proof. grow. all: solve_evolves. Qed.
Lemma evolves_product_session e : grows evolves (product_session e).
Proof. grow. all: solve_evolves. Qed.
#[local] Hint Resolve evolves_record_audit evolves_authenticated_context evolves_product_session : grows.

(** Every call. *)
Lemma evolves_endpoint e q c : keeps evolves c (snd (endpoint urlsplit e q c)).
Proof.
  destruct q; [|apply (keeps_grows _); grow; solve_evolves..].
  apply (keeps_bind _); [clear c; intros c|intros; apply (keeps_refl _)].
  apply (keeps_bind _); [clear c; intros c; apply (keeps_grows _); grow; solve_evolves|clear c; intros u c].
  apply (keeps_except_integrity _); [grow; solve_evolves|intros; apply (keeps_rollback _)].
Qed.
Lemma serve_evolves d r : evolves d (snd (serve urlsplit d r)).
Proof. exact (proj1 (run_respects evolves _ d (evolves_endpoint (fst r) (snd r)))). Qed.
Lemma serve_schema d r : schema_ok d -> schema_ok (snd (serve urlsplit d r)).
Proof. exact (proj2 (run_respects evolves _ d (evolves_endpoint (fst r) (snd r)))). Qed.
Lemma serve_all_evolves l d : evolves d (serve_all urlsplit d l).
Proof. revert d. induction l as [|r l IH]; intros d; simpl; [reflexivity|]. etrans; [apply serve_evolves|apply IH]. Qed.
Lemma serve_all_schema l d : schema_ok d -> schema_ok (serve_all urlsplit d l).
Proof. revert d. induction l as [|r l IH]; intros d Hd; simpl; [done|]. by apply IH, serve_schema. Qed.
End Evolution.

(** * Following a successful computation *)
Lemma bind_ok {A B} (m : M A) (k : A -> M B) c b c' :
  bind m k c = (Ok b, c') <-> exists a c1, m c = (Ok a, c1) /\ k a c1 = (Ok b, c').
Proof. unfold bind. destruct (m c) as [[a|x] c1]; naive_solver. Qed.
Lemma require_ok b x c u c' : require b x c = (Ok u, c') <-> b = true /\ c' = c.
Proof. destruct b; simpl; unfold ret, raise; destruct u; naive_solver. Qed.
Lemma some_or_ok {A} (o : option A) x c a c' : some_or o x c = (Ok a, c') <-> o = Some a /\ c' = c.
Proof. destruct o; simpl; unfold ret, raise; naive_solver. Qed.
Lemma lift_ok {A} (r : result A) c a c' : lift r c = (Ok a, c') <-> r = Ok a /\ c' = c.
Proof. unfold lift. naive_solver. Qed.
Lemma ret_ok {A} (a b : A) c c' : ret a c = (Ok b, c') <-> b = a /\ c' = c.
Proof. unfold ret. naive_solver. Qed.
Lemma query_ok {A} (f : Session IdentityDb -> A) c a c' : query f c = (Ok a, c') <-> a = f (session c) /\ c' = c.
Proof. unfold query. naive_solver. Qed.
Lemma raise_ok {A} x c (a : A) c' : raise x c = (Ok a, c') <-> False.
Proof. unfold raise. naive_solver. Qed.
Definition assigned {K} `{Keyed K} (T : IdentityDb -> list K) `{!Setter T} (f : K -> K) (ks : list uuid) (c : Conn) : Conn :=
  c <| session ::= (fun s => mk_Session (sql s) ((mem s) <| T ::= on_keys f ks |>)) |>.
Lemma assign_ok {K} `{Keyed K} (T : IdentityDb -> list K) `{!Setter T} f r c a c' :
  assign T f r c = (Ok a, c') <-> a = f r /\ c' = assigned T f [key r] c.
Proof. unfold assign, bind, assign_keys, modify, ret. unfold assigned, on_keys. naive_solver. Qed.
Lemma assign_all_ok {K} `{Keyed K} (T : IdentityDb -> list K) `{!Setter T} f rs c a c' :
  assign_all T f rs c = (Ok a, c') <-> c' = assigned T f (keys rs) c.
Proof. destruct a. unfold assign_all, assign_keys, modify, ret. unfold assigned, on_keys. naive_solver. Qed.
Definition inserted {K} `{Keyed K} (T : IdentityDb -> list K) `{!Setter T} (r : K) (c : Conn) : Conn :=
  c <| session ::= add T r |> <| drawn ::= S |>.
Lemma insert_ok {K} `{Keyed K} (T : IdentityDb -> list K) `{!Setter T} e mk c a c' :
  insert T e mk c = (Ok a, c') <-> a = mk (uuid4 e (drawn c)) /\ c' = inserted T a c.
Proof. unfold insert, inserted. naive_solver. Qed.
(** Simplifies the equations of the steps a computation has taken. *)
Ltac steps0 H :=
  repeat match goal with
  | E : ?m = (Ok _, _) |- _ =>
      lazymatch m with
      | bind _ _ _ => rewrite bind_ok in E; destruct E as (? & ? & ? & E)
      | require _ _ _ => apply require_ok in E as [? ->]
      | some_or _ _ _ => apply some_or_ok in E as [? ->]
      | lift _ _ => apply lift_ok in E as [? ->]
      | ret _ _ => apply ret_ok in E as [? ->]; try discriminate; subst
      | query _ _ => apply query_ok in E as [-> ->]
      | raise _ _ => by apply raise_ok in E
      | assign _ _ _ _ => apply assign_ok in E as [-> ->]
      | assign_all _ _ _ _ => apply assign_all_ok in E as ->
      | insert _ _ _ _ => apply insert_ok in E as [-> ->]
      end
  end.
(** Looking a client up, or an account, changes nothing. *)
Lemma require_client_ok cl s c a c' : require_client cl s c = (Ok a, c') ->
  scalar applications (active_application cl) (session c) = Some a /\ c' = c.
Proof. unfold require_client. intros H. steps0 H. done. Qed.
Lemma find_active_user_ok s c a c' : find_active_user s c = (Ok a, c') ->
  a = scalar users (fun u => identified s u && User.is_active u) (session c) /\ c' = c.
Proof. unfold find_active_user. intros H. steps0 H. done. Qed.
Lemma login_rate_limited_ok `{Providers} e c b c' : login_rate_limited e c = (Ok b, c') -> c' = c.
Proof. unfold login_rate_limited, count_events. intros Hc. repeat case_match; steps0 Hc; done. Qed.
(** An active client; the redirect URIs approved for it; what the validation
    of an authorization request has checked. *)
Definition registered (s : Session IdentityDb) (cl : string) (a : Application) : Prop :=
  scalar applications (active_application cl) s = Some a.
Definition approved_uris (s : Session IdentityDb) (e : Env) (cl : string) (a : Application) : list string :=
  match select application_redirect_uris (fun r => ApplicationRedirectURI.application_id r =? Application.id a) s with
  | [] => match dict_get cl (redirect_uris (settings e)) with Some l => l | None => [] end
  | managed => map ApplicationRedirectURI.redirect_uri managed
  end.
Definition approved (s : Session IdentityDb) (e : Env) (cl uri : string) : Prop :=
  exists a, registered s cl a /\ uri ∈ approved_uris s e cl a.
Lemma require_client_redirect_ok e cl uri c a c' : require_client_redirect e cl uri c = (Ok a, c') ->
  approved (session c) e cl uri /\ c' = c.
Proof.
  unfold require_client_redirect. intros Hc. steps0 Hc.
  match goal with E : require_client _ _ _ = _ |- _ => apply require_client_ok in E as [Ha ->] end.
  split; [|done]. match goal with E : (_ in? _) = true |- _ => apply in_elem in E; rename E into Hin end.
  eexists. split; [exact Ha|]. revert Hin. unfold approved_uris. by destruct (select application_redirect_uris _ _).
Qed.
Definition validated (s : Session IdentityDb) (e : Env) (a : AuthorizationRequest) : Prop :=
  approved s e (client_id a) (redirect_uri a) /\ code_challenge_method a = "S256" /\ valid_pkce_value (code_challenge a) = true.
Lemma validate_ok e a c s c' : validate_authorization_request e a c = (Ok s, c') -> validated (session c) e a /\ c' = c.
Proof.
  unfold validate_authorization_request. intros Hc. steps0 Hc.
  match goal with E : require_client_redirect _ _ _ _ = _ |- _ => apply require_client_redirect_ok in E as [Ha ->] end.
  split; [|done]. split; [done|]. split; [|done].
  match goal with E : (code_challenge_method a ==? _) = true |- _ => by apply bool_decide_eq_true in E end.
Qed.

Ltac steps H :=
  repeat match goal with
  | E : ?m = (Ok _, _) |- _ =>
      lazymatch m with
      | bind _ _ _ => rewrite bind_ok in E; destruct E as (? & ? & ? & E)
      | require _ _ _ => apply require_ok in E as [? ->]
      | some_or _ _ _ => apply some_or_ok in E as [? ->]
      | lift _ _ => apply lift_ok in E as [? ->]
      | ret _ _ => apply ret_ok in E as [? ->]; try discriminate; subst
      | query _ _ => apply query_ok in E as [-> ->]
      | raise _ _ => by apply raise_ok in E
      | assign _ _ _ _ => apply assign_ok in E as [-> ->]
      | assign_all _ _ _ _ => apply assign_all_ok in E as ->
      | require_client _ _ _ => apply require_client_ok in E as [? ->]
      | require_client_redirect _ _ _ _ => apply require_client_redirect_ok in E as [? ->]
      | validate_authorization_request _ _ _ => apply validate_ok in E as [? ->]
      | find_active_user _ _ => apply find_active_user_ok in E as [-> ->]
      | login_rate_limited _ _ => apply login_rate_limited_ok in E as ->
      | insert _ _ _ _ => apply insert_ok in E as [-> ->]
      end
  end.
(** * The keys of a checked database *)
Record unique_keys (d : IdentityDb) : Prop := {
  uk_users : NoDup (keys (users d));
  uk_applications : NoDup (keys (applications d));
  uk_client_ids : NoDup (map Application.client_id (applications d));
  uk_codes : NoDup (keys (authorization_codes d));
  uk_code_hashes : NoDup (map AuthorizationCode.code_hash (authorization_codes d));
  uk_sessions : NoDup (keys (auth_sessions d));
  uk_refresh_hashes : NoDup (map AuthSession.refresh_token_hash (auth_sessions d));
  uk_tokens : NoDup (keys (security_tokens d));
  uk_token_hashes : NoDup (map SecurityToken.token_hash (security_tokens d));
  uk_recovery : NoDup (keys (mfa_recovery_codes d));
  uk_audits : NoDup (keys (audit_events d));
  uk_outbox : NoDup (keys (auth_event_outbox d))
}.
Lemma schema_unique d : schema_ok d -> unique_keys d.
Proof.
  unfold schema_ok, check_schema. destruct (valid_rows d); [|done]. intros H.
  repeat (apply rbind_ok in H as (? & ?%unique_column_ok & H)). clear H. by constructor.
Qed.

(** What a query of a fresh connection returns. *)
Section Reads.
Context {K : Type} `{Keyed K} (T : IdentityDb -> list K).
Lemma fresh_scalar p d r : NoDup (keys (T d)) -> scalar T p (session (connect d)) = Some r -> r ∈ T d /\ p r = true.
Proof. intros Hn. by apply scalar_some. Qed.
Lemma fresh_get k d : NoDup (keys (T d)) -> get T k (session (connect d)) = find_row k (T d).
Proof. intros Hn. by apply get_synced. Qed.
End Reads.
