(* ===== verification/IdentityEvents.v ===== *)
(** No revocation goes unannounced: whatever the identity server answers, every
    session it has revoked has a [session.revoked] event in the outbox, as long
    as the revocation went through the mapped objects (the bulk update of
    [system_owner.py] does not: the sessions it has revoked are excused). *)
From S2P Require Import Prelude Json Calendar Session Schema Sha256 Engines Base64 IdentityModels IdentityCore IdentityLogin IdentityAccount IdentityAdmin IdentityFacts.
#[local] Open Scope string_scope.
#[local] Open Scope list_scope.
#[local] Open Scope Z_scope.

(** The events that announce the revocation of a session. *)
Definition announces (k : uuid) (ev : AuthEventOutbox) : Prop :=
  AuthEventOutbox.event_type ev = "session.revoked" /\ AuthEventOutbox.session_id ev = Some k.
Definition is_revoked (s : AuthSession) : Prop := AuthSession.revoked_at s <> None.

Section Excused.
Context (excused : list uuid).
Definition announced (d : IdentityDb) (k : uuid) : Prop := k ∈ excused \/ exists ev, ev ∈ auth_event_outbox d /\ announces k ev.
Definition all_announced (d : IdentityDb) : Prop := forall s, s ∈ auth_sessions d -> is_revoked s -> announced d (AuthSession.id s).

(** * The state of a connection *)

(** A revoked session object is announced, or the next flush will see the change:
    its row is not revoked. *)
Definition visible (c : Conn) (k : uuid) : Prop :=
  exists old, find_row k (auth_sessions (sql (session c))) = Some old /\ AuthSession.revoked_at old = None.
Record tracked (c : Conn) : Prop := {
  tr_objects : forall s, s ∈ auth_sessions (view c) -> is_revoked s -> announced (view c) (AuthSession.id s) \/ visible c (AuthSession.id s);
  tr_rows : forall s, s ∈ auth_sessions (sql (session c)) -> is_revoked s -> announced (view c) (AuthSession.id s);
  tr_committed : all_announced (committed c)
}.
(** Every session object has a row. *)
Definition flushed (c : Conn) : Prop := keys (auth_sessions (view c)) ⊆ keys (auth_sessions (sql (session c))).

Definition settled (c : Conn) : Prop := tracked c /\ flushed c.

(** A computation keeps that, or raises and leaves every revocation announced. *)
Definition sound {A} (m : M A) : Prop := forall c, settled c ->
  match m c with (Ok _, c') => settled c' | (Err _, c') => all_announced (committed c') end.
Lemma sound_bind {A B} (m : M A) (k : A -> M B) : sound m -> (forall a, sound (k a)) -> sound (bind m k).
Proof.
  intros Hm Hk c Hc. unfold bind. specialize (Hm c Hc). destruct (m c) as [[a|x] c1]; [|done]. by apply Hk.
Qed.
Lemma sound_still {A} (m : M A) : (forall c, snd (m c) = c) -> sound m.
Proof. intros H c Hc. specialize (H c). destruct (m c) as [[a|x] c1]; simpl in *; subst; [done|apply Hc]. Qed.
Lemma sound_ret {A} (a : A) : sound (ret a).
Proof. by apply sound_still. Qed.
Lemma sound_raise {A} x : sound (@raise A x).
Proof. by apply sound_still. Qed.
Lemma sound_lift {A} (r : result A) : sound (lift r).
Proof. by apply sound_still. Qed.
Lemma sound_query {A} (f : Session IdentityDb -> A) : sound (query f).
Proof. by apply sound_still. Qed.
Lemma sound_some_or {A} (o : option A) x : sound (some_or o x).
Proof. destruct o; by apply sound_still. Qed.
Lemma sound_require b x : sound (require b x).
Proof. destruct b; by apply sound_still. Qed.
Lemma sound_value_error_422 {A} (m : M A) : sound m -> sound (value_error_422 m).
Proof. intros Hm c Hc. specialize (Hm c Hc). unfold value_error_422. destruct (m c) as [[a|[]] c1]; done. Qed.
Lemma sound_for_each {A} (f : A -> M unit) l : (forall x, sound (f x)) -> sound (for_each f l).
Proof. intros Hf. induction l; simpl; [apply sound_ret|]. by apply sound_bind. Qed.
Lemma sound_draw e : sound (draw_uuid e).
Proof. intros c [[] Hf]. by split. Qed.

(** ** Changes to other tables *)
Definition apart (d d' : IdentityDb) : Prop :=
  auth_sessions d' = auth_sessions d /\ forall k, announced d k -> announced d' k.
Lemma announced_more d d' k : auth_event_outbox d ⊆ auth_event_outbox d' -> announced d k -> announced d' k.
Proof. intros Hs [?|(ev & Hev & Ha)]; [by left|]. right. exists ev. auto. Qed.
Lemma tracked_apart c s n : tracked c -> apart (view c) (mem s) -> auth_sessions (sql s) = auth_sessions (sql (session c)) ->
  tracked (mk_Conn (committed c) s n).
Proof.
  intros [Ho Hr Hc] [Es Eo] Eq. split; cbn; [|rewrite Eq; auto|done].
  intros x. unfold view. cbn. rewrite Es. intros Hx Hv. unfold visible. cbn. rewrite Eq.
  destruct (Ho x Hx Hv); auto.
Qed.
Lemma settled_apart c s n : settled c -> apart (view c) (mem s) -> auth_sessions (sql s) = auth_sessions (sql (session c)) ->
  settled (mk_Conn (committed c) s n).
Proof.
  intros [Ht Hf] Ha Hq. split; [by apply tracked_apart|]. unfold flushed, view in *. cbn. by rewrite (proj1 Ha), Hq.
Qed.
Section Tables.
Context {K : Type} `{Keyed K} (T : IdentityDb -> list K) `{!Setter T}.
Lemma sound_insert e mk : (forall d id, apart d (d <| T ::= (fun t => t ++ [mk id]) |>)) -> sound (insert T e mk).
Proof. intros Ha c Hc. apply (settled_apart c (add T _ (session c)) (S (drawn c))); [done|apply Ha|done]. Qed.
Lemma sound_assign f r : (forall d, apart d (d <| T ::= on_keys f [key r] |>)) -> sound (assign T f r).
Proof. intros Ha c Hc. apply (settled_apart c (mk_Session _ _) (drawn c)); [done|apply Ha|done]. Qed.
Lemma sound_assign_all f rs : (forall d, apart d (d <| T ::= on_keys f (keys rs) |>)) -> sound (assign_all T f rs).
Proof. intros Ha c Hc. apply (settled_apart c (mk_Session _ _) (drawn c)); [done|apply Ha|done]. Qed.
Lemma sound_update_where p f : (forall d ks, apart d (d <| T ::= on_keys f ks |>)) -> sound (update_where T p f).
Proof. intros Ha c Hc. apply (settled_apart c (mk_Session _ _) (drawn c)); [done|apply Ha|cbn; apply Ha]. Qed.
Lemma sound_delete_where p : (forall d q, apart d (d <| T ::= List.filter q |>)) -> sound (delete_where T p).
Proof. intros Ha c Hc. apply (settled_apart c (mk_Session _ _) (drawn c)); [done|apply Ha|cbn; apply Ha]. Qed.
Lemma sound_delete_row k : (forall d q, apart d (d <| T ::= List.filter q |>)) -> sound (delete_row T k).
Proof. intros Ha c Hc. apply (settled_apart c (mk_Session _ _) (drawn c)); [done|apply Ha|done]. Qed.
End Tables.

(** ** Assignments to session objects *)
Lemma announced_row c k old : tracked c -> find_row k (auth_sessions (sql (session c))) = Some old ->
  announced (view c) k \/ visible c k.
Proof.
  intros Ht Hf. destruct (AuthSession.revoked_at old) as [t|] eqn:E; [left|right; by exists old].
  rewrite <- (find_row_key _ _ _ Hf). apply (tr_rows _ Ht); [by eapply find_row_elem|]. unfold is_revoked. by rewrite E.
Qed.
Lemma on_keys_elem {K} `{Keyed K} (f : K -> K) ks t x : x ∈ on_keys f ks t -> exists y, y ∈ t /\ (x = y \/ x = f y).
Proof. unfold on_keys. intros (y & -> & Hy)%list_elem_of_fmap. exists y. split; [done|]. destruct (_ in? _); auto. Qed.
Lemma keys_on_keys {K} `{Keyed K} (f : K -> K) ks t : (forall x, key (f x) = key x) -> keys (on_keys f ks t) = keys t.
Proof. intros Hf. unfold keys, on_keys. rewrite map_map. apply map_ext. intros x. by destruct (_ in? _). Qed.
Lemma settled_session f ks c : (forall s, AuthSession.id (f s) = AuthSession.id s) -> settled c ->
  settled (assigned auth_sessions f ks c).
Proof.
  intros Hf [Ht Hfl]. split.
  - destruct Ht as [Ho Hr Hc]. split; [|exact Hr|exact Hc].
    intros x (y & Hy & [->| ->])%on_keys_elem Hx; [by apply Ho|]. rewrite Hf.
    assert (AuthSession.id y ∈ keys (auth_sessions (sql (session c)))) as Hk by (apply Hfl, list_elem_of_fmap_2, Hy).
    destruct (find_row (AuthSession.id y) (auth_sessions (sql (session c)))) as [old|] eqn:E.
    + by apply (announced_row c _ old).
    + by apply find_row_none in E.
  - change (keys (on_keys f ks (auth_sessions (view c))) ⊆ keys (auth_sessions (sql (session c)))). by rewrite keys_on_keys.
Qed.
Lemma sound_assign_session f r : (forall s, AuthSession.id (f s) = AuthSession.id s) -> sound (assign auth_sessions f r).
Proof. intros Hf c Hc. by apply settled_session. Qed.
Lemma sound_assign_sessions f rs : (forall s, AuthSession.id (f s) = AuthSession.id s) -> sound (assign_all auth_sessions f rs).
Proof. intros Hf c Hc. by apply settled_session. Qed.

(** * The flush *)

(** Within [queue_identity_status_events]: a revoked object is announced, or it
    is still to be looked at and its row is not revoked. *)
Definition announcing (todo : list uuid) (c : Conn) : Prop := NoDup (keys (auth_sessions (view c))) ->
  forall s, s ∈ auth_sessions (view c) -> is_revoked s ->
  announced (view c) (AuthSession.id s) \/ visible c (AuthSession.id s) /\ AuthSession.id s ∈ todo.
(** The rows and the committed database stay. *)
Definition queueing (c c' : Conn) : Prop :=
  sql (session c') = sql (session c) /\ committed c' = committed c /\ keys (auth_sessions (view c')) = keys (auth_sessions (view c)).
#[local] Instance queueing_preorder : PreOrder queueing.
Proof. split; [done|]. intros c1 c2 c3 (A1 & A2 & A3) (B1 & B2 & B3). repeat split; congruence. Qed.
(** What a step of it does, from one set of objects to look at to another. *)
Definition queues {A} (todo todo' : list uuid) (m : M A) : Prop := forall c, announcing todo c ->
  exists a c', m c = (Ok a, c') /\ announcing todo' c' /\ queueing c c'.
Lemma queues_bind {A B} t1 t2 t3 (m : M A) (k : A -> M B) : queues t1 t2 m -> (forall a, queues t2 t3 (k a)) -> queues t1 t3 (bind m k).
Proof.
  intros Hm Hk c Hc. destruct (Hm c Hc) as (a & c1 & E1 & H1 & Q1). destruct (Hk a c1 H1) as (b & c2 & E2 & H2 & Q2).
  exists b, c2. unfold bind. rewrite E1. split; [done|]. split; [done|]. by etrans.
Qed.
Lemma queues_ret {A} t (a : A) : queues t t (ret a).
Proof. intros c Hc. by exists a, c. Qed.
Lemma queues_query {A} t (f : Session IdentityDb -> A) : queues t t (query f).
Proof. intros c Hc. by exists (f (session c)), c. Qed.
Lemma queues_for_each {A} t (f : A -> M unit) l : (forall x, queues t t (f x)) -> queues t t (for_each f l).
Proof. intros Hf. induction l as [|x l IH]; simpl; [apply queues_ret|]. by eapply queues_bind. Qed.
Lemma queues_event t e mk : queues t t (insert auth_event_outbox e mk).
Proof.
  intros c Ho. exists (mk (uuid4 e (drawn c))), (inserted auth_event_outbox (mk (uuid4 e (drawn c))) c).
  split; [done|]. split; [|done]. intros Hu. specialize (Ho Hu). intros s Hs Hr. destruct (Ho s Hs Hr) as [Ha|Hv]; [left|by right]. eapply announced_more, Ha. intros ev. cbn. rewrite elem_of_app. auto.
Qed.
Lemma queues_revoke t e reason row : queues t t (revoke_scope_session e reason row).
Proof.
  unfold revoke_scope_session. destruct (negb _); [apply queues_ret|]. intros c Ho.
  eexists tt, (inserted auth_event_outbox _ (assigned auth_sessions (revoked e reason) [key row] c)). split; [done|].
  set (ev := revoked_event _ _ _ _ _). assert (keys (on_keys (revoked e reason) [key row] (auth_sessions (view c))) = keys (auth_sessions (view c))) as Hk
    by by apply keys_on_keys. split; [|by split; [|split]].
  change (NoDup (keys (on_keys (revoked e reason) [key row] (auth_sessions (view c)))) -> forall s,
    s ∈ on_keys (revoked e reason) [key row] (auth_sessions (view c)) -> is_revoked s ->
    announced (view (inserted auth_event_outbox ev c)) (AuthSession.id s) \/ visible c (AuthSession.id s) /\ AuthSession.id s ∈ t).
  rewrite Hk. intros Hu. specialize (Ho Hu). intros s Hs Hr. apply list_elem_of_fmap in Hs as (x & -> & Hx).
  destruct (key x in? [key row]) eqn:E.
  - left. right. exists ev. split; [apply elem_of_app; right; by left|]. split; [done|].
    apply in_elem, list_elem_of_singleton in E. cbn in *. f_equal. exact (eq_sym E).
  - destruct (Ho x Hx Hr) as [Ha|Hv]; [left|by right]. eapply announced_more, Ha. intros y. cbn. rewrite elem_of_app. auto.
Qed.
Lemma queues_revoke_scope t e p reason : queues t t (revoke_scope_sessions e p reason).
Proof. eapply queues_bind; [apply queues_query|]. intros rows. apply queues_for_each. intros. apply queues_revoke. Qed.
Lemma queues_user t e u : queues t t (user_status_event e u).
Proof. eapply queues_bind; [apply queues_event|]. intros _. destruct (negb _); [apply queues_revoke_scope|apply queues_ret]. Qed.
Lemma queues_application t e a : queues t t (application_status_event e a).
Proof. eapply queues_bind; [apply queues_event|]. intros _. destruct (negb _); [apply queues_revoke_scope|apply queues_ret]. Qed.
Lemma queues_session t e s : queues (AuthSession.id s :: t) t (session_revoked_event e s).
Proof.
  intros c Ho. unfold session_revoked_event, bind at 1 2, query. cbv beta iota.
  set (r := live (auth_sessions (mem (session c))) s).
  (* an object still to be looked at is another one, or this one *)
  assert (NoDup (keys (auth_sessions (view c))) -> forall x, x ∈ auth_sessions (view c) -> AuthSession.id x ∈ AuthSession.id s :: t -> x = r \/ AuthSession.id x ∈ t) as Hin.
  { intros Hu x Hx [E|?]%elem_of_cons; [left|by right]. unfold r, live. change (key s) with (AuthSession.id s). rewrite <- E.
    change (AuthSession.id x) with (key x). by rewrite find_row_nodup. }
  destruct (AuthSession.revoked_at r) as [at_|] eqn:Er.
  - destruct (changed auth_sessions AuthSession.revoked_at (session c) r) eqn:Ec.
    + eexists tt, (inserted auth_event_outbox _ c). split; [done|]. split; [|done].
      set (ev := revoked_event _ _ _ _ _). intros Hu. specialize (Ho Hu). specialize (Hin Hu). intros x Hx Hr. destruct (Ho x Hx Hr) as [Ha|[Hv Hi]].
      * left. eapply announced_more, Ha. intros y. cbn. rewrite elem_of_app. auto.
      * destruct (Hin x Hx Hi) as [->|?]; [left|by right]. right. exists ev. split; [apply elem_of_app; right; by left|done].
    + exists tt, c. split; [done|]. split; [|done]. intros Hu. specialize (Ho Hu). specialize (Hin Hu). intros x Hx Hr. destruct (Ho x Hx Hr) as [Ha|[Hv Hi]]; [by left|right].
      split; [done|]. destruct (Hin x Hx Hi) as [->|?]; [|done]. exfalso. destruct Hv as (old & Hf & Hn).
      unfold changed in Ec. change (key r) with (AuthSession.id r) in Ec. rewrite Hf, Hn, Er in Ec. done.
  - exists tt, c. split; [done|]. split; [|done]. intros Hu. specialize (Ho Hu). specialize (Hin Hu). intros x Hx Hr. destruct (Ho x Hx Hr) as [Ha|[Hv Hi]]; [by left|right].
    split; [done|]. destruct (Hin x Hx Hi) as [->|?]; [|done]. by destruct Hr.
Qed.
Lemma queues_sessions e l : queues (keys l) [] (for_each (session_revoked_event e) l).
Proof. induction l as [|s l IH]; simpl; [apply queues_ret|]. eapply queues_bind; [apply queues_session|]. by intros _. Qed.

(** The hook announces every revocation, and a flush leaves rows that are what
    the objects are. *)
Lemma queue_announces e c : tracked c -> exists c', queue_identity_status_events e c = (Ok tt, c') /\ queueing c c' /\
  (NoDup (keys (auth_sessions (view c'))) -> all_announced (view c')).
Proof.
  intros [Ho _ _]. set (dirty := changed_rows auth_sessions (fun r => r) (session c)).
  assert (announcing (keys dirty) c) as Hc.
  { intros Hu s Hs Hr. destruct (Ho s Hs Hr) as [?|(old & Hf & Hn)]; [by left|right]. split; [by exists old|].
    apply (list_elem_of_fmap_2 AuthSession.id), list_elem_of_In, filter_In. split; [by apply list_elem_of_In|].
    unfold changed. change (key s) with (AuthSession.id s). rewrite Hf. apply negb_true_iff, bool_decide_eq_false.
    intros ->. by apply Hr. }
  assert (queues (keys dirty) [] (for_each (user_status_event e) (changed_rows users User.is_active (session c)) ;;
    for_each (application_status_event e) (changed_rows applications Application.is_active (session c)) ;;
    for_each (session_revoked_event e) dirty)) as Hq.
  { eapply queues_bind; [apply queues_for_each; intros; apply queues_user|intros _].
    eapply queues_bind; [apply queues_for_each; intros; apply queues_application|intros _]. apply queues_sessions. }
  destruct (Hq c Hc) as ([] & c' & E & Ha & Hk). exists c'. split; [exact E|]. split; [done|].
  intros Hu s Hs Hr. destruct (Ha Hu s Hs Hr) as [?|[_ []%not_elem_of_nil]]. done.
Qed.
Lemma settled_synced d d0 n : all_announced d -> all_announced d0 -> settled (mk_Conn d0 (mk_Session d d) n).
Proof. intros Hd H0. split; [split|by intros k]; [intros s Hs Hr; left; by apply Hd|exact Hd|done]. Qed.
Lemma flush_settles e c : tracked c ->
  match flush e c with (Ok _, c') => settled c' /\ all_announced (view c') | (Err _, c') => all_announced (committed c') end.
Proof.
  intros Ht. unfold flush. destruct (queue_announces e c Ht) as (c1 & E & (_ & Ec & _) & Ha).
  unfold bind at 1. rewrite E. unfold bind, query, lift, modify. cbv beta iota.
  destruct (check_schema (mem (session c1))) as [[]|x] eqn:Es; [|rewrite Ec; apply Ht].
  apply schema_unique in Es. specialize (Ha (uk_sessions _ Es)). split; [|exact Ha].
  apply settled_synced; [exact Ha|]. rewrite Ec. apply Ht.
Qed.
Lemma commit_settles e c : tracked c ->
  match commit e c with (Ok _, c') => settled c' | (Err _, c') => all_announced (committed c') end.
Proof.
  intros Ht. unfold commit, bind. pose proof (flush_settles e c Ht) as Hf. destruct (flush e c) as [[u|x] c1]; [|done].
  destruct Hf as [[[Ho Hr _] Hk] Ha]. by split; [split|].
Qed.
Lemma sound_flush e : sound (flush e).
Proof. intros c [Ht _]. pose proof (flush_settles e c Ht) as H. destruct (flush e c) as [[u|x] c1]; [apply H|done]. Qed.
Lemma sound_commit e : sound (commit e).
Proof. intros c [Ht _]. by apply commit_settles. Qed.

(** * Every endpoint *)

(** A sign-in adds a session, which the next flush or commit writes. *)
Lemma tracked_insert_session e mk c : (forall id, AuthSession.revoked_at (mk id) = None) -> settled c ->
  tracked (inserted auth_sessions (mk (uuid4 e (drawn c))) c).
Proof.
  intros Hn [[Ho Hr Hc] _]. split; [|exact Hr|exact Hc].
  intros s [Hs| ->%list_elem_of_singleton]%elem_of_app Hv; [by apply Ho|]. by destruct Hv.
Qed.
Lemma sound_new_session {A} e mk (m : M unit) (k : AuthSession -> M A) : (forall id, AuthSession.revoked_at (mk id) = None) ->
  m = flush e \/ m = commit e -> (forall s, sound (k s)) ->
  sound (let! s := insert auth_sessions e mk in m ;; k s).
Proof.
  intros Hn Hm Hk c Hc. pose proof (tracked_insert_session e mk c Hn Hc) as Ht.
  set (s := mk _) in Ht. unfold bind at 1. change (insert auth_sessions e mk c) with (@Ok AuthSession s, inserted auth_sessions s c).
  cbv beta iota. unfold bind. destruct Hm as [-> | ->].
  - pose proof (flush_settles e _ Ht) as Hf. destruct (flush e _) as [[u|x] c1]; [|exact Hf]. apply Hk, Hf.
  - pose proof (commit_settles e _ Ht) as Hf. destruct (commit e _) as [[u|x] c1]; [|exact Hf]. apply Hk, Hf.
Qed.
Ltac sound_step :=
  cbv zeta;
  lazymatch goal with
  | |- sound (bind (insert auth_sessions _ _) _) => apply sound_new_session; [done|auto|intros ?]
  | |- sound (bind _ _) => apply sound_bind; [|intros ?]
  | |- sound (ret _) => apply sound_ret
  | |- sound (raise _) => apply sound_raise
  | |- sound (lift _) => apply sound_lift
  | |- sound (query _) => apply sound_query
  | |- sound (some_or _ _) => apply sound_some_or
  | |- sound (require _ _) => apply sound_require
  | |- sound (draw_uuid _) => apply sound_draw
  | |- sound (flush _) => apply sound_flush
  | |- sound (commit _) => apply sound_commit
  | |- sound (value_error_422 _) => apply sound_value_error_422
  | |- sound (for_each _ _) => apply sound_for_each; intros ?
  | |- sound (assign auth_sessions _ _) => apply sound_assign_session; done
  | |- sound (assign_all auth_sessions _ _) => apply sound_assign_sessions; done
  | |- sound (insert _ _ _) => apply sound_insert; intros ? ?; by split
  | |- sound (assign _ _ _) => apply sound_assign; intros ?; by split
  | |- sound (assign_all _ _ _) => apply sound_assign_all; intros ?; by split
  | |- sound (update_where _ _ _) => apply sound_update_where; intros ? ?; by split
  | |- sound (delete_where _ _) => apply sound_delete_where; intros ? ?; by split
  | |- sound (delete_row _ _) => apply sound_delete_row; intros ? ?; by split
  | |- sound (match ?x with _ => _ end) => destruct x
  | |- sound ?m => first [solve [auto 2 with sound] | let h := head_of m in unfold h]
  end.
Create HintDb sound.

Section Announced.
Context `{Providers} (urlsplit : string -> option UrlParts).
Lemma sound_record_audit e t u b c d : sound (record_audit e t u b c d).
Proof. repeat sound_step. Qed.
#[local] Hint Resolve sound_record_audit : sound.
Lemma sound_except_integrity {A} (m : M A) x : sound m -> sound (except_integrity m (rollback ;; raise x)).
Proof.
  intros Hm c Hc. specialize (Hm c Hc). unfold except_integrity. destruct (m c) as [[a|[]] c1]; try done.
Qed.
Lemma sound_endpoint e q : q <> SynchronizeSystemOwner -> sound (endpoint urlsplit e q).
Proof.
  destruct q; try done; intros _; [|repeat sound_step..].
  apply sound_bind; [|intros; apply sound_ret]. apply sound_bind; [repeat sound_step|intros u].
  apply sound_except_integrity. repeat sound_step.
Qed.
(** Served on its own connection. *)
Lemma run_announced {A} (m : M A) d : sound m -> all_announced d -> all_announced (snd (run m d)).
Proof.
  intros Hm Hd. assert (settled (connect d)) as Hc by by apply settled_synced.
  specialize (Hm _ Hc). unfold run. destruct (m (connect d)) as [[a|x] c]; cbn; [apply Hm|done].
Qed.
Lemma serve_announced d r : snd r <> SynchronizeSystemOwner -> all_announced d -> all_announced (snd (serve urlsplit d r)).
Proof. intros Hq. by apply run_announced, sound_endpoint. Qed.
End Announced.
End Excused.
