(* ===== verification/IdentityRelay.v ===== *)
(** The event worker of the identity server: what claiming and settling an event
    do to the database, and that a cycle whose calls all succeed delivers every
    due event. *)
From S2P Require Import Prelude Json Calendar Session Schema Sha256 Engines Base64 IdentityModels IdentityCore IdentityLogin IdentityAccount IdentityAdmin IdentityOutbox IdentityFacts IdentityEvents.
#[local] Open Scope string_scope.
#[local] Open Scope list_scope.
#[local] Open Scope Z_scope.

(** * A transaction that assigns to one event *)

(** Nothing else is dirty, so the hook queues nothing. *)
Lemma unchanged_rows {R B} `{Keyed R, EqDecision B} (T : IdentityDb -> list R) (f : R -> B) s :
  T (mem s) = T (sql s) -> NoDup (keys (T (sql s))) -> changed_rows T f s = [].
Proof.
  intros E Hn. unfold changed_rows. rewrite E. assert (forall r, r ∈ T (sql s) -> changed T f s r = false) as Hc.
  { intros r Hr. unfold changed. rewrite find_row_nodup by done. by rewrite bool_decide_eq_true_2. }
  induction (T (sql s)) as [|r l IH] in Hc |- *; simpl; [done|]. rewrite (Hc r) by left. apply IH. intros x Hx. apply Hc. by right.
Qed.
Definition set_event (f : AuthEventOutbox -> AuthEventOutbox) (k : uuid) (d : IdentityDb) : IdentityDb :=
  d <| auth_event_outbox ::= on_keys f [k] |>.
Lemma commit_event e f k d : schema_ok d -> commit e (assigned auth_event_outbox f [k] (connect d)) =
  match check_schema (set_event f k d) with
  | Ok _ => (Ok tt, mk_Conn (set_event f k d) (open_session (set_event f k d)) 0)
  | Err x => (Err x, assigned auth_event_outbox f [k] (connect d))
  end.
Proof.
  intros Hd%schema_unique. unfold commit, flush, queue_identity_status_events, query, bind at 1 2 3 4 5 6 7 8 9.
  rewrite !unchanged_rows; try done; try apply Hd. cbn [for_each]. unfold ret, bind, lift, modify. cbv beta iota.
  change (mem (session (assigned auth_event_outbox f [k] (connect d)))) with (set_event f k d).
  by destruct (check_schema (set_event f k d)) as [[]|x].
Qed.
(** The checks on the other tables have passed before. *)
Lemma set_event_schema f k d : schema_ok d -> (forall r, AuthEventOutbox.id (f r) = AuthEventOutbox.id r) ->
  (forall r, r ∈ auth_event_outbox d -> AuthEventOutbox.id r = k -> valid_AuthEventOutbox (f r) = true) ->
  schema_ok (set_event f k d).
Proof.
  intros Hd Hf Hv. unfold schema_ok, check_schema in *. change (keys (auth_event_outbox (set_event f k d)))
    with (keys (on_keys f [k] (auth_event_outbox d))). rewrite keys_on_keys by done.
  destruct (valid_rows d) eqn:E; [|done]. assert (valid_rows (set_event f k d) = true) as ->; [|exact Hd].
  unfold valid_rows in *. rewrite !andb_true_iff in *. 
  assert (forallb valid_AuthEventOutbox (auth_event_outbox (set_event f k d)) = true) as Ho; [|tauto].
  destruct E as [[_ E] _]. rewrite forallb_forall in E. apply forallb_forall.
  intros x (r & -> & Hr)%list_elem_of_In%list_elem_of_fmap. destruct (key r in? [k]) eqn:Ek.
  - apply in_elem, list_elem_of_singleton in Ek. by apply Hv.
  - by apply E, list_elem_of_In.
Qed.

(** * Claiming and settling *)

(** What the worker does to an event changes none of what it announces. *)
Lemma evolve_leased e r : evolve r (leased e r).
Proof. hnf. repeat split; by intros ?. Qed.
Lemma evolve_succeeded e r : evolve r (succeeded e r).
Proof. hnf. repeat split; by intros ?. Qed.
Lemma evolve_failed e x r : evolve r (failed e x r).
Proof. hnf. repeat split; by intros ?. Qed.
Lemma set_event_evolves f k d : (forall r, evolve r (f r)) -> evolves d (set_event f k d).
Proof. intros Hf. split; cbn; try apply rows_le_refl. by apply rows_le_on_keys. Qed.
Lemma announced_evolves excused d d' k : evolves d d' -> announced excused d k -> announced excused d' k.
Proof.
  intros He [?|(ev & Hev & Ht & Hi)]; [by left|right]. destruct (ev_outbox _ _ He ev Hev) as (ev' & Hev' & _ & E1 & _ & E2 & _).
  exists ev'. split; [done|]. split; congruence.
Qed.
Lemma set_event_announced excused f k d : (forall r, evolve r (f r)) -> all_announced excused d -> all_announced excused (set_event f k d).
Proof. intros Hf Hd s Hs Hr. eapply announced_evolves, Hd; [by apply set_event_evolves|done..]. Qed.
(** A transaction on one event: it changes the event, or it raises and changes
    nothing. *)
Definition touches {A} (f : AuthEventOutbox -> AuthEventOutbox) (row : AuthEventOutbox) (a : A) (d : IdentityDb) (r : result A * IdentityDb) : Prop :=
  match check_schema (set_event f (AuthEventOutbox.id row) d) with
  | Ok _ => r = (Ok a, set_event f (AuthEventOutbox.id row) d)
  | Err x => r = (Err x, d)
  end.
Lemma touches_run {A} e f row (a : A) d : schema_ok d ->
  touches f row a d (run (let! _ := assign auth_event_outbox f row in commit e ;; ret a) d).
Proof.
  intros Hd. unfold touches, run, bind.
  change (assign auth_event_outbox f row (connect d)) with (Ok (f row), assigned auth_event_outbox f [AuthEventOutbox.id row] (connect d)).
  cbv beta iota. rewrite commit_event by done. by destruct (check_schema _) as [[]|x].
Qed.
Definition claim_of (row : AuthEventOutbox) : ClaimedEvent :=
  mk_ClaimedEvent (AuthEventOutbox.id row) (event_payload row) (AuthEventOutbox.attempts row).
Lemma claim_run e d : schema_ok d ->
  run (claim_next e) d = (Ok None, d) /\ (forall r, r ∈ auth_event_outbox d -> due (now e) r = false) \/
  exists row, row ∈ auth_event_outbox d /\ due (now e) row = true /\
    (forall r, r ∈ auth_event_outbox d -> due (now e) r = true -> AuthEventOutbox.created_at row <= AuthEventOutbox.created_at r) /\
    touches (leased e) row (Some (claim_of row)) d (run (claim_next e) d).
Proof.
  intros Hd. pose proof (uk_outbox _ (schema_unique _ Hd)) as Hn.
  assert (scalar_ordered auth_event_outbox (asc AuthEventOutbox.created_at) (due (now e)) (session (connect d)) =
    head (sort_cmp (asc AuthEventOutbox.created_at) (List.filter (due (now e)) (auth_event_outbox d)))) as Eq.
  { unfold scalar_ordered. by rewrite select_ordered_synced. }
  destruct (sort_cmp (asc AuthEventOutbox.created_at) (List.filter (due (now e)) (auth_event_outbox d))) as [|row l] eqn:Es.
  - left. split.
    + unfold run, claim_next, query, bind. rewrite Eq. done.
    + intros r Hr. destruct (due (now e) r) eqn:E; [|done]. exfalso.
      assert (r ∈ sort_cmp (asc AuthEventOutbox.created_at) (List.filter (due (now e)) (auth_event_outbox d))) as Hin.
      { apply sort_by_elem, list_elem_of_In, filter_In. by rewrite <- list_elem_of_In. }
      rewrite Es in Hin. by apply not_elem_of_nil in Hin.
  - right. exists row.
    assert (forall r, r ∈ row :: l <-> r ∈ auth_event_outbox d /\ due (now e) r = true) as Hin.
    { intros r. rewrite <- Es. unfold sort_cmp. by rewrite sort_by_elem, !list_elem_of_In, filter_In. }
    split; [apply Hin; left|]. split; [apply Hin; left|]. split.
    + intros r Hr He. assert (r ∈ row :: l) as Hl by by apply Hin.
      pose proof (sort_cmp_sorted (asc AuthEventOutbox.created_at) (List.filter (due (now e)) (auth_event_outbox d))) as Hs.
      rewrite Es in Hs. apply StronglySorted_inv in Hs as [_ Hs]; [|apply (map_cmp_order AuthEventOutbox.created_at), Z_cmp_order].
      apply elem_of_cons in Hl as [->|Hl]; [done|]. rewrite Forall_forall in Hs. by specialize (Hs r Hl).
    + assert (run (claim_next e) d = run (let! _ := assign auth_event_outbox (leased e) row in commit e ;; ret (Some (claim_of row))) d) as ->;
        [|by apply touches_run].
      unfold run, claim_next, query, bind at 1. rewrite Eq. reflexivity.
Qed.

Lemma settle_run e d k (f : AuthEventOutbox -> AuthEventOutbox) {A} (a b : A) : schema_ok d ->
  let r := run (let! row := query (get auth_event_outbox k) in
    match row with
    | Some row => if undelivered row then let! _ := assign auth_event_outbox f row in commit e ;; ret a else ret b
    | None => ret b
    end) d in
  match find_row k (auth_event_outbox d) with
  | Some row => if undelivered row then touches f row a d r else r = (Ok b, d)
  | None => r = (Ok b, d)
  end.
Proof.
  intros Hd r. subst r. pose proof (uk_outbox _ (schema_unique _ Hd)) as Hn.
  assert (get auth_event_outbox k (session (connect d)) = find_row k (auth_event_outbox d)) as Eg by by apply get_synced.
  destruct (find_row k (auth_event_outbox d)) as [row|] eqn:Ef.
  - destruct (undelivered row) eqn:Eu.
    + pose proof (touches_run e f row a d Hd) as Ht. unfold run, query, bind at 1. rewrite Eg, Eu. exact Ht.
    + unfold run, query, bind. by rewrite Eg, Eu.
  - unfold run, query, bind. by rewrite Eg.
Qed.

(** * A cycle whose calls succeed *)
Definition pending_events (d : IdentityDb) : list AuthEventOutbox := List.filter undelivered (auth_event_outbox d).
Lemma pending_elem d r : r ∈ pending_events d <-> r ∈ auth_event_outbox d /\ undelivered r = true.
Proof. unfold pending_events. by rewrite list_elem_of_In, filter_In, <- list_elem_of_In. Qed.

(** A delivered event is one pending event less. *)
Lemma on_keys_cons {K} `{Keyed K} (f : K -> K) k x l :
  on_keys f [k] (x :: l) = (if bool_decide (key x = k) then f x else x) :: on_keys f [k] l.
Proof. unfold on_keys. simpl. by rewrite orb_false_r. Qed.
Lemma on_keys_absent {K} `{Keyed K} (f : K -> K) k l : k ∉ keys l -> on_keys f [k] l = l.
Proof.
  induction l as [|x l IH]; [done|]. intros [Hx Hl]%not_elem_of_cons. rewrite on_keys_cons, IH by done.
  by rewrite bool_decide_eq_false_2 by done.
Qed.
Lemma filter_one_less f row l : NoDup (keys l) -> row ∈ l -> undelivered row = true -> undelivered (f row) = false ->
  length (List.filter undelivered l) = S (length (List.filter undelivered (on_keys f [AuthEventOutbox.id row] l))).
Proof.
  intros Hn Hr Hu Hf. induction l as [|x l IH]; [by apply not_elem_of_nil in Hr|].
  apply NoDup_cons in Hn as [Hx Hn]. rewrite on_keys_cons. apply elem_of_cons in Hr as [->|Hr].
  - rewrite bool_decide_eq_true_2, on_keys_absent by done. cbn [List.filter]. by rewrite Hu, Hf.
  - assert (AuthEventOutbox.id row <> AuthEventOutbox.id x) as Hne.
    { intros E. apply Hx. change (key x) with (AuthEventOutbox.id x). rewrite <- E. by apply (list_elem_of_fmap_2 AuthEventOutbox.id). }
    rewrite bool_decide_eq_false_2 by by intros ?%eq_sym. specialize (IH Hn Hr). cbn [List.filter]. destruct (undelivered x); simpl; congruence.
Qed.
Lemma on_keys_twice (f g : AuthEventOutbox -> AuthEventOutbox) k l : (forall r, AuthEventOutbox.id (f r) = AuthEventOutbox.id r) ->
  on_keys g [k] (on_keys f [k] l) = on_keys (fun r => g (f r)) [k] l.
Proof.
  intros Hf. unfold on_keys. rewrite map_map. apply map_ext. intros r. destruct (key r in? [k]) eqn:E.
  - change (key (f r)) with (AuthEventOutbox.id (f r)). rewrite Hf. change (AuthEventOutbox.id r) with (key r). by rewrite E.
  - by rewrite E.
Qed.
Lemma valid_leased e r : valid_AuthEventOutbox (leased e r) = valid_AuthEventOutbox r.
Proof. done. Qed.
Lemma valid_succeeded e r : valid_AuthEventOutbox r = true -> AuthEventOutbox.attempts r < 2147483647 ->
  valid_AuthEventOutbox (succeeded e r) = true.
Proof.
  unfold valid_AuthEventOutbox, int_column. cbn -[text_column uuid_column]. rewrite !andb_true_iff, !Z.leb_le. intuition lia.
Qed.
Lemma valid_event d r : schema_ok d -> r ∈ auth_event_outbox d -> valid_AuthEventOutbox r = true.
Proof.
  unfold schema_ok, check_schema. destruct (valid_rows d) eqn:E; [|done]. intros _ Hr. unfold valid_rows in E.
  rewrite !andb_true_iff in E. destruct E as [[_ E] _]. rewrite forallb_forall in E. by apply E, list_elem_of_In.
Qed.

Section Cycle.
Context {W : Type} (post : string -> list (string * Json) -> W -> option string * W) (clock : nat -> Env) (token : string) (t0 : time).
Context (P : W -> Prop).
Hypothesis Hclock : forall n, t0 <= now (clock n).

(** An event that can be delivered at once: its lease or back-off is over, its
    counter has room, and whoever is called takes it. *)
Definition deliverable (r : AuthEventOutbox) : Prop :=
  AuthEventOutbox.next_attempt_at r <= t0 /\ AuthEventOutbox.attempts r < 2147483647 /\
  forall w, P w -> exists w', post token (event_payload r) w = (None, w') /\ P w'.
Definition all_deliverable (d : IdentityDb) : Prop := forall r, r ∈ pending_events d -> deliverable r.

(** A turn of the loop. *)
Definition delivered_at (e e' : Env) (row : AuthEventOutbox) (d : IdentityDb) : IdentityDb :=
  set_event (succeeded e') (AuthEventOutbox.id row) (set_event (leased e) (AuthEventOutbox.id row) d).
Lemma turn_ok e e' d row : schema_ok d -> all_deliverable d -> row ∈ pending_events d ->
  let d' := delivered_at e e' row d in
  schema_ok d' /\ evolves d d' /\ all_deliverable d' /\ length (pending_events d) = S (length (pending_events d')) /\
  touches (leased e) row (Some (claim_of row)) d (Ok (Some (claim_of row)), set_event (leased e) (AuthEventOutbox.id row) d) /\
  run (settle_success e' (AuthEventOutbox.id row)) (set_event (leased e) (AuthEventOutbox.id row) d) = (Ok true, d').
Proof.
  intros Hd Ha Hp d'. pose proof Hp as [Hr Hu]%pending_elem. destruct (Ha row Hp) as (_ & Hat & _).
  pose proof (uk_outbox _ (schema_unique _ Hd)) as Hn. set (k := AuthEventOutbox.id row) in *. set (d1 := set_event (leased e) k d) in *.
  assert (forall r, r ∈ auth_event_outbox d -> AuthEventOutbox.id r = k -> r = row) as Hk by (intros r Hr' E; by apply (key_inj _ _ _ Hn)).
  assert (schema_ok d1) as Hd1.
  { apply set_event_schema; [done|done|]. intros r Hr' _. rewrite valid_leased. by apply (valid_event d). }
  assert (auth_event_outbox d' = on_keys (fun r => succeeded e' (leased e r)) [k] (auth_event_outbox d)) as Eo by by apply on_keys_twice.
  assert (schema_ok d') as Hd'.
  { apply (set_event_schema (succeeded e') k d1); [done|done|]. intros x Hx E.
    apply (on_keys_elem (leased e) [k] (auth_event_outbox d)) in Hx as (r & Hr' & [->| ->]);
      (apply valid_succeeded; [rewrite ?valid_leased; exact (valid_event d r Hd Hr')|rewrite (Hk r Hr' E); exact Hat]). }
  assert (find_row k (auth_event_outbox d1) = Some (leased e row)) as Ef.
  { pose proof (find_row_nodup (auth_event_outbox d1) (leased e row) (uk_outbox _ (schema_unique _ Hd1))) as F.
    change (key (leased e row)) with k in F. apply F, list_elem_of_fmap. exists row. split; [|exact Hr].
    cbn. by rewrite (bool_decide_eq_true_2 (_ = _)). }
  split; [done|]. split.
  { etrans; [by apply (set_event_evolves (leased e) k), evolve_leased|by apply set_event_evolves, evolve_succeeded]. }
  split; [|split; [|split]].
  - intros x [Hx Hux]%pending_elem. rewrite Eo in Hx. apply list_elem_of_fmap in Hx as (r & -> & Hr').
    destruct (key r in? [k]); [by discriminate Hux|]. apply Ha, pending_elem. done.
  - unfold pending_events. rewrite Eo. apply (filter_one_less (fun r => succeeded e' (leased e r))); done.
  - unfold touches. fold k. change (check_schema (set_event (leased e) k d)) with (check_schema d1). by rewrite Hd1.
  - pose proof (settle_run e' d1 k (succeeded e') true false Hd1) as Hs. cbv zeta in Hs. rewrite Ef in Hs.
    change (undelivered (leased e row)) with (undelivered row) in Hs. rewrite Hu in Hs. revert Hs. unfold touches.
    change (AuthEventOutbox.id (leased e row)) with k. change (set_event (succeeded e') k d1) with d'. by rewrite Hd'.
Qed.
Lemma batch_delivers turns k n d w : schema_ok d -> all_deliverable d -> P w ->
  exists d' w', deliver_batch post clock token turns k n d w = (Ok (n + Z.min (Z.of_nat turns) (zlen (pending_events d))), d', w') /\
    schema_ok d' /\ all_deliverable d' /\ P w' /\ evolves d d' /\
    zlen (pending_events d') = Z.max 0 (zlen (pending_events d) - Z.of_nat turns).
Proof.
  revert k n d w. induction turns as [|turns IH]; intros k n d w Hd Ha Hp.
  { exists d, w. rewrite Z.min_l, Z.add_0_r by (unfold zlen; lia). do 5 (split; [done|]). unfold zlen. lia. }
  cbn [deliver_batch]. set (e := clock (2 * k)). set (e' := clock (2 * k + 1)%nat).
  destruct (claim_run e d Hd) as [[-> Hnone]|(row & Hr & Hdue & _ & Ht)].
  - assert (pending_events d = []) as E0.
    { destruct (pending_events d) as [|r l] eqn:E; [done|]. assert (r ∈ pending_events d) as Hin by (rewrite E; left).
      destruct (Ha r Hin) as (Hnext & _). apply pending_elem in Hin as [Hin Hu]. specialize (Hnone r Hin). unfold due in Hnone.
      rewrite Hu in Hnone. simpl in Hnone. specialize (Hclock (2 * k)). fold e in Hclock. lia. }
    exists d, w. rewrite E0. change (zlen []) with 0. rewrite Z.min_r, Z.add_0_r by lia. do 5 (split; [done|]). lia.
  - assert (row ∈ pending_events d) as Hin by (apply pending_elem; split; [done|]; by apply andb_true_iff in Hdue as [? _]).
    destruct (turn_ok e e' d row Hd Ha Hin) as (Hd' & Hev & Ha' & Hlen & Ht' & Hs). set (d' := delivered_at e e' row d) in *.
    assert (run (claim_next e) d = (Ok (Some (claim_of row)), set_event (leased e) (AuthEventOutbox.id row) d)) as ->.
    { revert Ht Ht'. unfold touches. destruct (check_schema _); [by intros ->|]. intros _ [=]. }
    destruct (Ha row Hin) as (_ & _ & Hpost). destruct (Hpost w Hp) as (w1 & Ew & Hw1).
    change (payload (claim_of row)) with (event_payload row). rewrite Ew. change (event_id (claim_of row)) with (AuthEventOutbox.id row).
    rewrite Hs. destruct (IH (S k) (n + Z.b2z true) d' w1 Hd' Ha' Hw1) as (d2 & w2 & E & H1 & H2 & H3 & H4 & H5).
    exists d2, w2. split; [|split; [done|split; [done|split; [done|split; [by etrans|]]]]].
    + rewrite E. do 2 f_equal. f_equal. unfold zlen. rewrite Hlen. simpl Z.b2z. lia.
    + rewrite H5. unfold zlen. rewrite Hlen. lia.
Qed.
End Cycle.

(** A request delivers no event. *)
Definition delivers_none (d d' : IdentityDb) : Prop :=
  forall ev, ev ∈ auth_event_outbox d' -> undelivered ev = false -> ev ∈ auth_event_outbox d.
#[export] Instance delivers_none_preorder : PreOrder delivers_none.
Proof. split; [by intros d ev|]. intros d1 d2 d3 H12 H23 ev H3 Hu. apply H12; [by apply H23|done]. Qed.
Ltac solve_delivers :=
  let ev := fresh in let Hin := fresh in let Hu := fresh in
  intros ev Hin Hu; first [exact Hin | apply elem_of_app in Hin as [?|Hin]; [done|]; apply list_elem_of_singleton in Hin; by subst].
Section Delivers.
Context `{Providers} (urlsplit : string -> option UrlParts).
Lemma delivers_queue e : grows delivers_none (queue_identity_status_events e).
Proof. grow. all: solve_delivers. Qed.
#[local] Hint Resolve delivers_queue : grows.
Lemma delivers_flush e : grows delivers_none (flush e).
Proof. by apply (grows_flush _), delivers_queue. Qed.
Lemma delivers_commit e : grows delivers_none (commit e).
Proof. by apply (grows_commit _), delivers_queue. Qed.
#[local] Hint Resolve delivers_flush delivers_commit : grows.
Lemma delivers_record_audit e t u b c d : grows delivers_none (record_audit e t u b c d).
Proof. grow. all: solve_delivers. Qed.
#[local] Hint Resolve delivers_record_audit : grows.
Lemma delivers_endpoint e q c : keeps delivers_none c (snd (endpoint urlsplit e q c)).
Proof.
  destruct q; [|apply (keeps_grows _); grow; solve_delivers..].
  apply (keeps_bind _); [clear c; intros c|intros; apply (keeps_refl _)].
  apply (keeps_bind _); [clear c; intros c; apply (keeps_grows _); grow; solve_delivers|clear c; intros u c].
  apply (keeps_except_integrity _); [grow; solve_delivers|intros; apply (keeps_rollback _)].
Qed.
Lemma serve_delivers_none d r : delivers_none d (snd (serve urlsplit d r)).
Proof. exact (proj1 (run_respects delivers_none _ d (delivers_endpoint (fst r) (snd r)))). Qed.
End Delivers.
