(* ===== verification/IdentityDemo.v ===== *)
(** A concrete identity server: third-party code replaced by simple functions
    with the documented behaviour, and a small database, on which the
    hypotheses of the theorems hold. *)
From S2P Require Import Prelude Json Calendar Session Schema Sha256 Engines Base64 IdentityModels IdentityCore IdentityLogin IdentityAccount IdentityAdmin IdentityFacts.
#[local] Open Scope string_scope.
#[local] Open Scope list_scope.
#[local] Open Scope Z_scope.

(** Tokens are their payload as JSON text; a hash marks its password. *)
Definition demo_claims (t : time) (token : string) : option (list (string * Json)) :=
  match json_loads token with
  | Some (JObj claims) =>
      match jget "exp" claims with JInt exp => if t <? seconds exp then Some claims else None | _ => None end
  | _ => None
  end.
#[export] Instance demo_providers : Providers := {|
  ip_in_networks _ _ := Some false;
  bcrypt_hash salt pw := ("h:" ++ pw)%string;
  bcrypt_verify pw hash := bool_decide (hash = ("h:" ++ pw)%string);
  fernet_key := str_truthy;
  fernet_encrypt _ _ secret := secret;
  fernet_decrypt _ value := Some value;
  totp_verify _ code _ := bool_decide (code = "123456");
  jwt_encode _ kid payload := json_dumps (JObj (("kid", JStr kid) :: payload));
  jwt_header token := match json_loads token with Some (JObj h) => Some h | _ => None end;
  jwt_decode _ _ _ _ t token := demo_claims t token;
  delivers _ _ := true
|}.
Definition demo_url (s : string) : option UrlParts := None.
Definition demo_settings : Settings := {|
  issuer := "https://id.example"; access_token_minutes := 15; refresh_token_days := 30; push_user_token_minutes := 5;
  service_token_minutes := 5; authorization_code_minutes := 5; browser_session_hours := 12; browser_cookie_name := "browser";
  password_reset_minutes := 30; verification_code_minutes := 10; recovery_rate_window_seconds := 3600;
  recovery_max_requests_per_ip := 10; recovery_max_requests_per_user := 5; verification_rate_window_seconds := 3600;
  verification_max_requests_per_user := 5; verification_confirm_rate_window_seconds := 600;
  verification_confirm_max_failures_per_user := 5; max_login_failures := 5; login_lock_minutes := 15;
  login_rate_window_seconds := 300; login_rate_max_failures_per_ip := 20; trusted_proxy_cidrs := EmptyString;
  totp_issuer_name := "Ithute"; totp_encryption_key := "key"; account_base_url := "https://id.example"; jwt_key_id := "k1";
  private_key := "private"; public_key := "public"; previous_jwks := [];
  redirect_uris := [("shop", ["https://shop.example/callback"])]; service_client_secrets := [];
  push_event_lease_seconds := 30; system_owner_email := EmptyString; system_owner_password := EmptyString
|}.
Definition demo_request : Request := {|
  peer := Some "10.0.0.1"; forwarded_for := None; user_agent := None; device_header := None; browser_cookie := None; bearer := None
|}.
(** A request at a second of a day, with its draws from a base. *)
Definition demo_now (sec : Z) : time := days 20000 + seconds sec.
Definition demo_env (sec base : Z) (token : string) : Env := {|
  settings := demo_settings; request := demo_request; now := demo_now sec; uuid4 n := base + Z.of_nat n;
  random_token := token; random_code := 1; random_hex n := "ab"; random_base32 := "SECRET"; random_salt := "salt"
|}.
Definition with_bearer (e : Env) (t : string) : Env :=
  mk_Env (settings e) (mk_Request (peer (request e)) None None None None (Some t)) (now e) (uuid4 e) (random_token e)
    (random_code e) (random_hex e) (random_base32 e) (random_salt e).

Definition demo_verifier : string := "abcdefghijklmnopqrstuvwxyz0123456789-._~ABCDE".
Definition demo_user : User := User.new_User 1 0
  <| User.email := Some "ada@example.org" |> <| User.phone := Some "5550100" |> <| User.password_hash := "h:right" |>
  <| User.is_platform_admin := false |>.
Definition demo_session (id : uuid) (refresh : string) (at_ : option time) : AuthSession :=
  AuthSession.new_AuthSession id 0 <| AuthSession.user_id := 1 |> <| AuthSession.client_id := "shop" |>
    <| AuthSession.refresh_token_hash := hash_token refresh |> <| AuthSession.expires_at := demo_now 86400 |>
    <| AuthSession.revoked_at := at_ |>.
Definition demo_code : AuthorizationCode := AuthorizationCode.new_AuthorizationCode 31 0
  <| AuthorizationCode.code_hash := hash_token "code" |> <| AuthorizationCode.user_id := 1 |>
  <| AuthorizationCode.client_id := "shop" |> <| AuthorizationCode.redirect_uri := "https://shop.example/callback" |>
  <| AuthorizationCode.code_challenge := pkce_s256 demo_verifier |> <| AuthorizationCode.expires_at := demo_now 300 |>.
Definition demo_reset : SecurityToken := SecurityToken.new_SecurityToken 41 0
  <| SecurityToken.user_id := 1 |> <| SecurityToken.purpose := "password_reset" |>
  <| SecurityToken.token_hash := hash_token "reset" |> <| SecurityToken.expires_at := demo_now 300 |>.
(** An account with a live and a revoked session, a pending code and a pending reset. *)
Definition demo_db : IdentityDb := empty_IdentityDb
  <| users := [demo_user] |>
  <| applications := [Application.new_Application 11 0 <| Application.client_id := "shop" |> <| Application.name := "Shop" |>] |>
  <| auth_sessions := [demo_session 21 "live" None; demo_session 22 "gone" (Some 5)] |>
  <| authorization_codes := [demo_code] |> <| security_tokens := [demo_reset] |>.
Lemma demo_ok : schema_ok demo_db.
Proof. vm_compute. reflexivity. Qed.

Definition demo_redeem : TokenForm := {|
  grant_type := "authorization_code"; form_client := "shop"; form_code := Some "code";
  form_redirect := Some "https://shop.example/callback"; form_verifier := Some demo_verifier; form_refresh := None
|}.
Definition demo_login (pass : string) : LoginRequest := mk_LoginRequest "Ada@example.org" pass "shop" None.
Definition demo_authorize : AuthorizationRequest := {|
  response_type := "code"; client_id := "shop"; redirect_uri := "https://shop.example/callback";
  code_challenge := pkce_s256 demo_verifier; code_challenge_method := "S256"; state := "s1";
  nonce := "0123456789abcdef"; scope := "openid email"
|}.
(** An access token of the revoked session. *)
Definition demo_token : string := create_access_token (demo_env 0 100 "t") 1 "shop" 22 None None.
