(* ===== verification/IdentitySafety.v ===== *)
(** Safety of sessions and authorization codes: a revoked session never works
    again, and a code is redeemed at most once and only by its client's
    verifier. *)
From S2P Require Import Prelude Json Calendar Session Schema Sha256 Engines Base64 IdentityModels IdentityCore IdentityLogin IdentityAccount IdentityAdmin IdentityFacts IdentityDemo.
#[local] Open Scope string_scope.
#[local] Open Scope list_scope.
#[local] Open Scope Z_scope.

(** The calls that act for the bearer of an access token. *)
Definition needs_session (q : Call) : bool :=
  match q with
  | CurrentUser | PushToken | RegisterDevice _ _ _ | RevokeDevice _ | RevokeCurrentSession | RequestDeveloperAccess _ _
  | SessionStatus | ChangePassword _ _ | RequestVerification _ | ConfirmVerification _ _ | EnrollMfa _ | ConfirmMfa _
  | RegenerateRecoveryCodes _ | DisableMfa _ _ | RevokeSession _ | RevokeOtherSessions | TrustDevice _
  | RevokeTrustedDevice _ | CreateApplication _ _ _ | SetApplicationRedirects _ _ | UpdateApplication _ _ _
  | UpdateUserSecurity _ _ _ | AdminRevokeUserSessions _ | IssuePushAdminToken | DecideDeveloperAccessRequest _ _ => true
  | _ => false
  end.
Definition revoked_in (d : IdentityDb) (k : uuid) : Prop :=
  exists s, s ∈ auth_sessions d /\ AuthSession.id s = k /\ is_none (AuthSession.revoked_at s) = false.

Section Safety.
Context `{Providers} (urlsplit : string -> option UrlParts).

Lemma revoked_stays d d' k : evolves d d' -> revoked_in d k -> revoked_in d' k.
Proof.
  intros Hd (s & Hs & <- & Hr). destruct (ev_sessions _ _ Hd s Hs) as (s' & Hs' & Hid & _ & _ & _ & _ & Hst).
  exists s'. split; [done|]. split; [done|by apply Hst].
Qed.
Lemma revoked_found d k : schema_ok d -> revoked_in d k ->
  exists s, find_row k (auth_sessions d) = Some s /\ is_none (AuthSession.revoked_at s) = false.
Proof. intros Hd%schema_unique (s & Hs & <- & Hr). exists s. split; [apply find_row_nodup; [apply Hd|done]|done]. Qed.
Lemma revoked_not_live e u cl s : is_none (AuthSession.revoked_at s) = false -> live_session e u cl s = false.
Proof. unfold live_session. intros ->. by rewrite andb_false_r. Qed.

(** The two ways a token is authenticated. *)
Definition fails {A} (m : M A) (c : Conn) (x : exn) : Prop := m c = (Err x, c).
Lemma fails_bind {A B} (m : M A) (k : A -> M B) c x : fails m c x -> fails (bind m k) c x.
Proof. unfold fails, bind. by intros ->. Qed.
Ltac first_step := repeat (apply fails_bind || match goal with |- fails ?m _ _ => let h := head_of m in unfold h end).

Section Bearer.
Context (d : IdentityDb) (e : Env) (t : string) (u k : uuid) (aud : Json).
Hypothesis Hd : schema_ok d.
Hypothesis Hk : revoked_in d k.
Hypothesis Ht : bearer (request e) = Some t.
Hypothesis Hc : access_claims e t = Some (u, k, aud).
Lemma refused_context : fails (authenticated_context e) (connect d) (HTTPException 401 "session expired").
Proof.
  destruct (revoked_found d k Hd Hk) as (s & Hs & Hr). unfold fails, authenticated_context. rewrite Ht, Hc. unfold bind, query.
  cbn beta iota. rewrite fresh_get by apply (schema_unique d Hd). rewrite Hs. cbn [some_or]. unfold ret. cbn beta iota.
  by rewrite revoked_not_live by done.
Qed.
Lemma refused_product : exists m, fails (product_session e) (connect d) (HTTPException 401 m).
Proof.
  destruct (revoked_found d k Hd Hk) as (s & Hs & Hr). unfold fails, product_session. rewrite Ht, Hc.
  destruct aud; try (by eexists). destruct (str_truthy _); [|by eexists]. unfold bind, query. cbn [negb]. cbn beta iota.
  rewrite fresh_get by apply (schema_unique d Hd). rewrite Hs. cbn [some_or]. unfold ret. cbn beta iota.
  rewrite revoked_not_live by done. by eexists.
Qed.
Lemma refused_call q : needs_session q = true -> exists m, fails (endpoint urlsplit e q) (connect d) (HTTPException 401 m).
Proof.
  destruct refused_product as [m Hp]. pose proof refused_context as Ha.
  destruct q; try done; intros _; first [exists m; first_step; exact Hp | eexists; first_step; exact Ha].
Qed.
End Bearer.

(** A refresh token of a revoked session rotates nothing. *)
Lemma refused_rotation d e cl t x y s : schema_ok d -> s ∈ auth_sessions d -> is_none (AuthSession.revoked_at s) = false ->
  AuthSession.refresh_token_hash s = hash_token t -> fails (rotate e cl t x y) (connect d) x.
Proof.
  intros Hd%schema_unique Hs Hr Hh. unfold fails, rotate, bind, query. cbn beta iota.
  destruct (scalar _ _ _) as [s'|] eqn:E; [|done]. apply fresh_scalar in E as [Hin Hw]; [|apply Hd].
  apply bool_decide_eq_true in Hw. cbn [some_or]. unfold ret. cbn beta iota.
  assert (s' = s) as -> by (apply (map_inj_elem _ _ _ _ (uk_refresh_hashes _ Hd)); congruence).
  by rewrite revoked_not_live by done.
Qed.

(** The two grants. *)
Lemma token_refresh e f t : grant_type f = "refresh_token" -> form_refresh f = Some t ->
  token e f = (require_client (form_client f) "invalid_client" ;; require (str_truthy t) (bad_request "invalid_request") ;;
               rotate e (form_client f) t invalid_grant invalid_grant).
Proof. intros Hg Hf. unfold token. by rewrite Hg, Hf. Qed.
Lemma token_code e f code uri v : grant_type f = "authorization_code" ->
  form_code f = Some code -> form_redirect f = Some uri -> form_verifier f = Some v ->
  token e f = (require_client (form_client f) "invalid_client" ;;
               require (str_truthy code && str_truthy uri && str_truthy v) (bad_request "invalid_request") ;;
               redeem e (form_client f) code uri v).
Proof. intros Hg Hc Hu Hv. unfold token. by rewrite Hg, Hc, Hu, Hv. Qed.
(** An answered call. *)
Lemma served d e q a : fst (serve urlsplit d (e, q)) = Ok a ->
  exists c, endpoint urlsplit e q (connect d) = (Ok a, c) /\ snd (serve urlsplit d (e, q)) = committed c.
Proof. unfold serve, run. cbn [fst snd]. destruct (endpoint _ _ _ _) as [r c]. cbn. intros ->. by exists c. Qed.
Lemma not_served d e q : (forall a c, endpoint urlsplit e q (connect d) = (Ok a, c) -> False) ->
  is_ok (fst (serve urlsplit d (e, q))) = false.
Proof. intros Hn. destruct (fst _) as [a|x] eqn:E; [|done]. apply served in E as (c & Hc & _). by apply Hn in Hc. Qed.

(** C13. A revocation is final: whatever is served afterwards, no call is
    authenticated by a token of the session, and its refresh token is refused. *)
Theorem revocation_final d k l : schema_ok d -> revoked_in d k ->
  let d' := serve_all urlsplit d l in
  (forall e q t u aud, needs_session q = true -> bearer (request e) = Some t -> access_claims e t = Some (u, k, aud) ->
     exists m, serve urlsplit d' (e, q) = (Err (HTTPException 401 m), d')) /\
  (forall e s t, s ∈ auth_sessions d' -> AuthSession.id s = k -> AuthSession.refresh_token_hash s = hash_token t ->
     (forall cl, is_ok (fst (serve urlsplit d' (e, Refresh cl t))) = false) /\
     (forall f, grant_type f = "refresh_token" -> form_refresh f = Some t -> is_ok (fst (serve urlsplit d' (e, Token f))) = false)).
Proof.
  intros Hd Hk d'. assert (schema_ok d') as Hd' by by apply serve_all_schema.
  assert (revoked_in d' k) as Hk' by (eapply revoked_stays; [apply serve_all_evolves|done]). clearbody d'. split.
  - intros e q t u aud Hq Ht Hc. destruct (refused_call d' e t u k aud Hd' Hk' Ht Hc q Hq) as [m Hm].
    exists m. unfold serve, run. cbn [fst snd]. by rewrite Hm.
  - intros e s t Hs <- Hh. destruct Hk' as (s' & Hs' & Hid & Hr).
    assert (s' = s) as -> by (by apply (key_inj (auth_sessions d')); [apply (schema_unique _ Hd')|..]).
    assert (forall cl x y, rotate e cl t x y (connect d') = (Err x, connect d')) as Hrot by (intros; by eapply refused_rotation).
    split.
    + intros cl. apply not_served. intros a c Ha. cbn [endpoint answer] in Ha. unfold answer, refresh in Ha. steps Ha.
      congruence.
    + intros f Hg Hf. apply not_served. intros a c Ha. cbn [endpoint answer] in Ha. unfold answer in Ha. rewrite (token_refresh _ _ t) in Ha by done.
      steps Ha. congruence.
Qed.

(** * Authorization codes *)
Lemma compare_digest_ok a b : compare_digest a b = Ok true -> a = b.
Proof. unfold compare_digest. destruct (_ && _); [|done]. intros [= E]. by apply String.eqb_eq in E. Qed.
Lemma assigned_elem {K} `{Keyed K} (f : K -> K) r t : r ∈ t -> f r ∈ on_keys f [key r] t.
Proof.
  intros Hr. unfold on_keys. apply list_elem_of_fmap. exists r. split; [|done].
  cbn. by rewrite (bool_decide_eq_true_2 _ (eq_refl (key r))).
Qed.
(** The steps of a computation that grows, seen from its end. *)
Lemma grows_ok {A} (m : M A) c a c' : grows evolves m -> m c = (Ok a, c') -> evolves (view c) (view c').
Proof. intros Hm E. specialize (Hm c). rewrite E in Hm. apply Hm. Qed.
Lemma commit_evolves e c u c' : commit e c = (Ok u, c') -> schema_ok (committed c') /\ evolves (view c) (committed c').
Proof. intros Hc. by apply (commit_ok evolves), proj2 in Hc; [|apply evolves_queue]. Qed.

Definition consumed_code (d : IdentityDb) (code : string) : Prop :=
  exists r, r ∈ authorization_codes d /\ AuthorizationCode.code_hash r = hash_token code /\
            is_none (AuthorizationCode.consumed_at r) = false.
Lemma consumed_stays d d' code : evolves d d' -> consumed_code d code -> consumed_code d' code.
Proof.
  intros Hd (r & Hr & Hh & Hc). destruct (ev_codes _ _ Hd r Hr) as (r' & Hr' & _ & Hh' & _ & _ & _ & _ & Hs).
  exists r'. split; [done|]. split; [congruence|by apply Hs].
Qed.

(** What a redemption has checked, and leaves. *)
Lemma redeem_spec d e cl code uri v resp c' : schema_ok d -> redeem e cl code uri v (connect d) = (Ok resp, c') ->
  consumed_code (committed c') code /\
  exists row u s idt,
    (row ∈ authorization_codes d /\ AuthorizationCode.code_hash row = hash_token code /\
     redeemable e cl uri row = true /\ pkce_s256 v = AuthorizationCode.code_challenge row) /\
    (u ∈ users d /\ User.id u = AuthorizationCode.user_id row /\ User.is_active u = true) /\
    (s ∈ auth_sessions (committed c') /\ AuthSession.user_id s = User.id u /\ AuthSession.client_id s = cl) /\
    resp = token_response e u cl (AuthSession.id s) (Some idt).
Proof.
  intros Hd%schema_unique Hr. unfold redeem in Hr. steps Hr.
  match goal with E : scalar authorization_codes _ _ = Some ?r |- _ => rename r into row; apply fresh_scalar in E as [Hrow Hh]; [|apply Hd] end.
  match goal with E : get users _ _ = Some ?u |- _ => rename u into user; rewrite fresh_get in E by apply Hd; rename E into Hu end.
  apply bool_decide_eq_true in Hh.
  match goal with E : commit e (inserted auth_sessions ?s ?c) = _, E2 : resolve_device _ _ _ = _ |- _ =>
    set (s0 := s) in *; apply commit_evolves in E as [_ Hc]; apply (grows_ok (resolve_device e user)) in E2; [|grow; solve_evolves];
    rename E2 into Hv end.
  split.
  - apply (consumed_stays _ _ _ Hc). apply (consumed_stays _ _ _ Hv). 
    eexists. split; [by apply assigned_elem|]. done.
  - destruct (ev_sessions _ _ Hc s0) as (s & Hs & Hid & Huid & Hcl & _); [apply elem_of_app; right; by left|].
    exists row, user, s. eexists. split; [|split; [|split]].
    + subst. split; [done|]. split; [done|]. split; [done|]. by apply compare_digest_ok.
    + split; [by eapply find_row_elem|]. split; [by apply find_row_key in Hu|done].
    + split; [done|]. split; [by rewrite <- Huid|by rewrite <- Hcl].
    + by rewrite <- Hid.
Qed.

(** A redeemed code at the token endpoint. *)
Lemma token_code_served d e f code a : grant_type f = "authorization_code" -> form_code f = Some code ->
  fst (serve urlsplit d (e, Token f)) = Ok a ->
  exists uri v resp c, form_redirect f = Some uri /\ form_verifier f = Some v /\ a = Tokens resp /\
    redeem e (form_client f) code uri v (connect d) = (Ok resp, c) /\ snd (serve urlsplit d (e, Token f)) = committed c.
Proof.
  intros Hg Hc Ha. apply served in Ha as (c & Hs & ->). cbn [endpoint] in Hs. unfold answer in Hs.
  destruct (form_redirect f) as [uri|] eqn:Hu; [|unfold token in Hs; rewrite Hg, Hc, Hu in Hs; by steps Hs].
  destruct (form_verifier f) as [v|] eqn:Hv; [|unfold token in Hs; rewrite Hg, Hc, Hu, Hv in Hs; by steps Hs].
  rewrite (token_code _ _ code uri v) in Hs by done. steps Hs. by repeat eexists.
Qed.

(** C14. An authorization code gives tokens only to its client, with its redirect
    URI and a verifier of its challenge, before it expires and for the active
    account it was issued to; and only once, whatever is served in between. *)
Theorem code_redeemed_once d e f code a : schema_ok d -> grant_type f = "authorization_code" -> form_code f = Some code ->
  fst (serve urlsplit d (e, Token f)) = Ok a ->
  let d' := snd (serve urlsplit d (e, Token f)) in
  (exists row u s uri v idt, form_redirect f = Some uri /\ form_verifier f = Some v /\
     (row ∈ authorization_codes d /\ AuthorizationCode.code_hash row = hash_token code /\
      redeemable e (form_client f) uri row = true /\ pkce_s256 v = AuthorizationCode.code_challenge row) /\
     (u ∈ users d /\ User.id u = AuthorizationCode.user_id row /\ User.is_active u = true) /\
     (s ∈ auth_sessions d' /\ AuthSession.user_id s = User.id u /\ AuthSession.client_id s = form_client f) /\
     a = Tokens (token_response e u (form_client f) (AuthSession.id s) (Some idt))) /\
  consumed_code d' code /\
  (forall l e2 f2, grant_type f2 = "authorization_code" -> form_code f2 = Some code ->
     is_ok (fst (serve urlsplit (serve_all urlsplit d' l) (e2, Token f2))) = false).
Proof.
  intros Hd Hg Hc Ha. apply token_code_served with (code := code) in Ha as (uri & v & resp & c & Hu & Hv & -> & Hr & Hd'); [|done..].
  cbv zeta. pose proof (serve_schema urlsplit d (e, Token f) Hd) as Hs'. rewrite Hd' in *.
  apply redeem_spec in Hr as (Hcons & row & u & s & idt & H1 & H2 & H3 & ->); [|done]. split.
  { exists row, u, s, uri, v, idt. done. }
  split; [exact Hcons|]. intros l e2 f2 Hg2 Hc2. apply (consumed_stays _ _ _ (serve_all_evolves urlsplit l _)) in Hcons.
  apply (serve_all_schema urlsplit l) in Hs'. set (d2 := serve_all urlsplit (committed c) l) in *. clearbody d2.
  destruct (fst _) as [b|] eqn:E; [|done]. exfalso.
  apply token_code_served with (code := code) in E as (uri2 & v2 & resp2 & c2 & _ & _ & _ & Hr & _); [|done..].
  apply redeem_spec in Hr as (_ & row2 & _ & _ & _ & (Hin & Hh & Hred & _) & _); [|done].
  destruct Hcons as (r & Hrin & Hrh & Hrc).
  assert (row2 = r) as -> by (apply (map_inj_elem _ _ _ _ (uk_code_hashes _ (schema_unique _ Hs'))); congruence).
  unfold redeemable in Hred. rewrite Hrc in Hred. by rewrite andb_false_r in Hred.
Qed.
End Safety.

Lemma is_ok_ex {A} (r : result A) : is_ok r = true -> exists a, r = Ok a.
Proof. destruct r as [a|]; [by exists a|done]. Qed.
Lemma revocation_final_witness :
  revoked_in demo_db 22 /\
  forall l, exists m, serve demo_url (serve_all demo_url demo_db l) (with_bearer (demo_env 10 100 "t") demo_token, CurrentUser) =
    (Err (HTTPException 401 m), serve_all demo_url demo_db l).
Proof.
  assert (revoked_in demo_db 22) as Hk by (exists (demo_session 22 "gone" (Some 5)); vm_compute; split; [right; left|done]).
  split; [exact Hk|]. intros l.
  apply (proj1 (revocation_final demo_url demo_db 22 l demo_ok Hk)) with (t := demo_token) (u := 1) (aud := JStr "shop");
    [reflexivity|reflexivity|vm_compute; reflexivity].
Defined.
Lemma code_redeemed_once_witness :
  is_ok (fst (serve demo_url demo_db (demo_env 10 100 "t", Token demo_redeem))) = true /\
  forall l e, is_ok (fst (serve demo_url (serve_all demo_url (snd (serve demo_url demo_db (demo_env 10 100 "t", Token demo_redeem))) l)
    (e, Token demo_redeem))) = false.
Proof.
  assert (is_ok (fst (serve demo_url demo_db (demo_env 10 100 "t", Token demo_redeem))) = true) as Hok by (vm_compute; reflexivity).
  split; [exact Hok|]. destruct (is_ok_ex _ Hok) as [a Ha]. intros l e.
  exact (proj2 (proj2 (code_redeemed_once demo_url demo_db _ demo_redeem "code" a demo_ok eq_refl eq_refl Ha)) l e demo_redeem eq_refl eq_refl).
Defined.
