(* ===== verification/IdentitySignIn.v ===== *)
(** Sign-in: what the calls that sign an account in have checked, and what the
    authorization endpoints answer with. *)
From S2P Require Import Prelude Json Calendar Session Schema Sha256 Engines Base64 IdentityModels IdentityCore IdentityLogin IdentityAccount IdentityAdmin IdentityFacts IdentityDemo IdentitySafety.
#[local] Open Scope string_scope.
#[local] Open Scope list_scope.
#[local] Open Scope Z_scope.

Section SignIn.
Context `{Providers} (urlsplit : string -> option UrlParts).

(** The second factor of an account: none enabled, a code of its authenticator,
    or one of its unused recovery codes. *)
Definition by_authenticator (e : Env) (u : User) (code : string) : Prop :=
  exists value secret, User.totp_secret_encrypted u = Some value /\ decrypt_totp_secret value (settings e) = Ok secret /\
    verify_totp secret code (now e) = true.
Definition recovery_code (d : IdentityDb) (u : User) (code : string) (unused : bool) : Prop :=
  exists r, r ∈ mfa_recovery_codes d /\ MfaRecoveryCode.user_id r = User.id u /\
    MfaRecoveryCode.code_hash r = hash_recovery_code code /\ is_none (MfaRecoveryCode.used_at r) = unused.
Definition second_factor (d d' : IdentityDb) (e : Env) (u : User) (code : option string) : Prop :=
  User.totp_enabled u = false \/
  exists s, code = Some s /\ (by_authenticator e u s \/ recovery_code d u s true /\ recovery_code d' u s false).

(** Recovery codes that are not replaced stay, and stay used. *)
#[local] Instance evolve_recovery : Evolve MfaRecoveryCode := fun x y =>
  MfaRecoveryCode.user_id x = MfaRecoveryCode.user_id y /\ MfaRecoveryCode.code_hash x = MfaRecoveryCode.code_hash y /\
  stays (MfaRecoveryCode.used_at x) (MfaRecoveryCode.used_at y).
#[local] Instance order_recovery : EvolveOrder MfaRecoveryCode.
Proof. split; unfold evolve, evolve_recovery, stays; intuition congruence. Qed.
Definition keeps_codes (d d' : IdentityDb) : Prop := rows_le (mfa_recovery_codes d) (mfa_recovery_codes d').
#[local] Instance keeps_codes_preorder : PreOrder keeps_codes.
Proof. split; [intros d; apply rows_le_refl|intros d1 d2 d3; apply rows_le_trans]. Qed.
Ltac solve_codes := hnf; cbn; apply rows_le_refl.
Lemma codes_ok {A} (m : M A) c a c' : grows keeps_codes m -> m c = (Ok a, c') -> keeps_codes (view c) (view c').
Proof. intros Hm E. specialize (Hm c). rewrite E in Hm. apply Hm. Qed.
Lemma codes_commit e c u c' : commit e c = (Ok u, c') -> keeps_codes (view c) (committed c').
Proof. intros Hc. apply (commit_ok keeps_codes) in Hc; [apply Hc|]. grow. all: solve_codes. Qed.
Lemma used_kept d d' u code : keeps_codes d d' -> recovery_code d u code false -> recovery_code d' u code false.
Proof.
  intros Hk (r & Hr & Hu & Hc & Hn). destruct (Hk r Hr) as (r' & Hr' & Hu' & Hc' & Hs).
  exists r'. split; [done|]. split; [congruence|]. split; [congruence|by apply Hs].
Qed.

Lemma verify_second_factor_ok d e u code c' : schema_ok d ->
  verify_second_factor e u code (connect d) = (Ok true, c') ->
  forall d', keeps_codes (view c') d' -> second_factor d d' e u code.
Proof.
  intros Hd%schema_unique Hv d' Hk. unfold verify_second_factor in Hv. destruct (User.totp_enabled u) eqn:Ht; [|by left].
  right. cbn [negb] in Hv. destruct code as [s|]; [|by steps Hv]. exists s. split; [done|].
  destruct (str_truthy s); [|by steps Hv]. cbn [negb] in Hv. rewrite bind_ok in Hv. destruct Hv as (by_totp & c1 & H1 & Hv).
  assert (c1 = connect d /\ (by_totp = true -> by_authenticator e u s)) as [-> Hb].
  { destruct (User.totp_secret_encrypted u) as [value|] eqn:Hsec; [|by steps H1].
    destruct (str_truthy value); [|by steps H1]. steps H1. split; [done|]. intros Hb. by exists value, x. }
  destruct by_totp; [left; by apply Hb|]. right. unfold use_recovery_code in Hv. steps Hv.
  destruct (scalar _ _ _) as [r|] eqn:E; [|by steps Hv]. steps Hv. apply fresh_scalar in E as [Hr Hm]; [|apply Hd].
  unfold recovery_matches in Hm. apply andb_true_iff in Hm as [Hm Hn]. apply andb_true_iff in Hm as [Hu%Z.eqb_eq Hc%bool_decide_eq_true].
  split; [by exists r|]. apply (used_kept _ _ _ _ Hk). eexists. split; [by apply (assigned_elem _ r)|]. done.
Qed.

(** The account, its state and what the caller has shown of it. *)
Definition credentials (d d' : IdentityDb) (e : Env) (who pass : string) (code : option string) (u : User) : Prop :=
  u ∈ users d /\ identified who u = true /\ User.is_active u = true /\ locked_at (now e) u = false /\
  bcrypt_verify pass (User.password_hash u) = true /\ second_factor d d' e u code.
Definition session_for (d' : IdentityDb) (u : User) (cl : string) (s : AuthSession) : Prop :=
  s ∈ auth_sessions d' /\ AuthSession.user_id s = User.id u /\ AuthSession.client_id s = cl.
Definition code_for (d' : IdentityDb) (u : User) (a : AuthorizationRequest) (code : string) : Prop :=
  exists r, r ∈ authorization_codes d' /\ AuthorizationCode.code_hash r = hash_token code /\
    AuthorizationCode.user_id r = User.id u /\ AuthorizationCode.code_challenge r = code_challenge a /\
    AuthorizationCode.client_id r = client_id a /\ AuthorizationCode.redirect_uri r = redirect_uri a.

Lemma active_user_found who d u : schema_ok d ->
  scalar users (fun u => identified who u && User.is_active u) (session (connect d)) = Some u ->
  u ∈ users d /\ identified who u = true /\ User.is_active u = true.
Proof. intros Hd%schema_unique E. by apply fresh_scalar in E as [Hu [? ?]%andb_true_iff]; [|apply Hd]. Qed.
Lemma commit_and_raise_ok {A} e n m c (a : A) c' : commit_and_raise e n m c = (Ok a, c') <-> False.
Proof. split; [|done]. unfold commit_and_raise. intros Hc. by steps Hc. Qed.
(** The next branch, where the ones that end in an error are closed. *)
Ltac no_answer := exfalso; steps H; match goal with E : commit_and_raise _ _ _ _ = (Ok _, _) |- _ => by apply commit_and_raise_ok in E end.
Ltac branch :=
  match goal with
  | E : (if ?b then _ else _) _ = (Ok _, _) |- _ => let Hb := fresh "Hb" in destruct b eqn:Hb
  | E : (match ?o with Some _ => _ | None => _ end) _ = (Ok _, _) |- _ => let Ho := fresh "Ho" in destruct o eqn:Ho
  end; try no_answer; steps H.

(** What the remaining steps keep. *)
Definition both (d d' : IdentityDb) : Prop := evolves d d' /\ keeps_codes d d'.
#[local] Instance both_preorder : PreOrder both.
Proof. split; [intros d; split; reflexivity|]. intros d1 d2 d3 [] []. split; by etrans. Qed.
Ltac solve_both := split; [solve_evolves|solve_codes].
Lemma both_ok {A} (m : M A) c a c' : grows both m -> m c = (Ok a, c') -> both (view c) (view c').
Proof. intros Hm E. specialize (Hm c). rewrite E in Hm. apply Hm. Qed.
Lemma both_queue e : grows both (queue_identity_status_events e).
Proof. grow. all: solve_both. Qed.
Lemma both_commit e c u c' : commit e c = (Ok u, c') -> both (view c) (committed c').
Proof. intros Hc. apply (commit_ok both) in Hc; [apply Hc|apply both_queue]. Qed.
Lemma both_flush e c u c' : flush e c = (Ok u, c') -> both (view c) (view c').
Proof. apply both_ok, (grows_flush both), both_queue. Qed.
Lemma both_audit e t u b cl l c a c' : record_audit e t u b cl l c = (Ok a, c') -> both (view c) (view c').
Proof. apply both_ok. grow. all: solve_both. Qed.
Ltac forward :=
  repeat match goal with
  | E : commit _ _ = (Ok _, _) |- _ => apply both_commit in E
  | E : flush _ _ = (Ok _, _) |- _ => apply both_flush in E
  | E : record_audit _ _ _ _ _ _ _ = (Ok _, _) |- _ => apply both_audit in E
  end.
(** What is kept on the way to the end. *)
Ltac chain := repeat match goal with Ha : both ?a ?b, Hb : both ?b ?c |- _ => pose proof (transitivity Ha Hb); clear Ha Hb end.
Lemma both_session d d' s u cl : both d d' -> s ∈ auth_sessions d -> AuthSession.user_id s = User.id u -> AuthSession.client_id s = cl ->
  exists s', session_for d' u cl s' /\ AuthSession.id s' = AuthSession.id s.
Proof.
  intros [He _] Hs Hu Hc. destruct (ev_sessions _ _ He s Hs) as (s' & Hs' & Hid & Hu' & Hc' & _).
  exists s'. split; [|done]. split; [done|]. split; congruence.
Qed.
Lemma both_code d d' r u a code : both d d' -> r ∈ authorization_codes d -> AuthorizationCode.code_hash r = hash_token code ->
  AuthorizationCode.user_id r = User.id u -> AuthorizationCode.code_challenge r = code_challenge a ->
  AuthorizationCode.client_id r = client_id a -> AuthorizationCode.redirect_uri r = redirect_uri a -> code_for d' u a code.
Proof.
  intros [He _] Hr Hh Hu Hc Hcl Huri. destruct (ev_codes _ _ He r Hr) as (r' & Hr' & _ & Hh' & Hu' & Hc' & Hcl' & Huri' & _).
  exists r'. repeat (split; [done || congruence|]). congruence.
Qed.
Lemma issue_code_ok e u a sc m c code c' : issue_authorization_code e u a sc m c = (Ok code, c') ->
  code_for (committed c') u a code /\ both (view c) (committed c').
Proof.
  unfold issue_authorization_code. intros Hi. steps Hi. forward. split.
  - eapply both_code; [eassumption|apply elem_of_app; right; by left|done..].
  - etrans; [|eassumption]. split; [solve_evolves|solve_codes].
Qed.

Lemma login_spec d e p resp c : schema_ok d -> login e p (connect d) = (Ok resp, c) ->
  exists u s, credentials d (committed c) e (identifier p) (password p) (mfa_code p) u /\
    session_for (committed c) u (login_client p) s /\ resp = token_response e u (login_client p) (AuthSession.id s) None.
Proof.
  intros Hd Hl. unfold login in Hl. steps Hl. repeat branch.
  match goal with E : scalar users _ _ = Some _ |- _ => apply active_user_found in E as (Hu & Hid & Hact); [|done] end.
  destruct (bcrypt_verify _ _) eqn:Hpw; [|done]. match goal with E : negb ?b = false |- _ => destruct b; [|done] end.
  forward. chain.
  match goal with Hb : both (view (inserted auth_sessions ?s0 ?c1)) _ |- _ =>
    destruct (both_session _ _ s0 u (login_client p) Hb) as (s & Hs & Hsid); [apply elem_of_app; right; by left|done..|] end.
  exists u, s. rewrite Hsid. split; [|done]. do 5 (split; [done|]).
  eapply verify_second_factor_ok; [done|eassumption|].
  match goal with Hb : both _ (committed _) |- _ => destruct Hb as [_ Hb]; exact Hb end.
Qed.

(** ** The authorization endpoints *)

(** The account of a browser cookie, whose security version is current. *)
Definition by_cookie (e : Env) (u : User) : Prop :=
  exists raw claims method, browser_cookie (request e) = Some raw /\ decode_browser_session_token e raw = Some claims /\
    browser_claims claims = Ok (Some (User.id u, User.security_version u, method)) /\
    User.is_active u = true /\ (User.is_platform_admin u = true -> method = "passkey").
Definition given_mfa (mfa : string) : option string := if str_truthy mfa then Some mfa else None.
(** What entitles an account to a code, for each endpoint. *)
Definition entitled (d d' : IdentityDb) (e : Env) (q : Call) (a : AuthorizationRequest) (u : User) : Prop :=
  match q with
  | AuthorizeGet b => b = a /\ u ∈ users d /\ by_cookie e u
  | AuthorizePost b who pass mfa =>
      b = a /\ credentials d d' e who pass (given_mfa mfa) u /\ User.is_platform_admin u = false
  | StepUpPost b who pass mfa =>
      b = a /\ credentials d d' e who pass (Some mfa) u /\ User.is_platform_admin u = true /\ User.totp_enabled u = true /\
      client_id a = "mailbox-dns"
  | _ => False
  end.
(** The redirect of an authorization request: to its own approved URI, with its
    state, and a code stored for its client, challenge and account. *)
Definition redirected (d d' : IdentityDb) (e : Env) (a : AuthorizationRequest) (u : User) (uri code st : string) : Prop :=
  uri = redirect_uri a /\ st = state a /\ validated (session (connect d)) e a /\ code_for d' u a code.

Lemma page_no_redirect e sc er n c uri code st ck c' : login_page e sc er n c = (Ok (RedirectWithCode uri code st ck), c') <-> False.
Proof. split; [|done]. unfold login_page. intros Hc. by steps Hc. Qed.
(** The branches that show the sign-in page. *)
Ltac no_page := exfalso; match goal with H : _ = (Ok (RedirectWithCode _ _ _ _), _) |- _ => steps H end;
  match goal with
  | E : login_page _ _ _ _ _ = _ |- _ => by apply page_no_redirect in E
  | E : commit_and_raise _ _ _ _ = _ |- _ => by apply commit_and_raise_ok in E
  end.
Ltac answered :=
  match goal with
  | E : (if ?b then _ else _) _ = (Ok (RedirectWithCode _ _ _ _), _) |- _ => let Hb := fresh "Hb" in destruct b eqn:Hb
  | E : (match ?o with Some _ => _ | None => _ end) _ = (Ok (RedirectWithCode _ _ _ _), _) |- _ => let Ho := fresh "Ho" in destruct o eqn:Ho
  | E : (match ?o with [] => _ | _ :: _ => _ end) _ = (Ok (RedirectWithCode _ _ _ _), _) |- _ => let Ho := fresh "Ho" in destruct o eqn:Ho
  end; try solve [no_page].

Lemma authorize_get_redirects d e a uri code st ck c : schema_ok d ->
  authorize_get e a (connect d) = (Ok (RedirectWithCode uri code st ck), c) ->
  exists u, redirected d (committed c) e a u uri code st /\ u ∈ users d /\ by_cookie e u.
Proof.
  intros Hd Hg. unfold authorize_get in Hg. steps Hg.
  match goal with E : browser_session e _ = (Ok ?o, ?c1) |- _ => destruct o as [[u method]|]; [|by steps Hg]; rename E into Hs end.
  steps Hg. match goal with E : issue_authorization_code _ _ _ _ _ _ = _ |- _ => apply issue_code_ok in E as [Hcode _] end.
  simplify_eq. exists u. split; [by do 3 (split; [done|])|]. unfold browser_session in Hs.
  destruct (browser_cookie (request e)) as [raw|] eqn:Hraw; [|by steps Hs].
  destruct (negb (str_truthy raw)); [by steps Hs|].
  destruct (decode_browser_session_token e raw) as [claims|] eqn:Hdec; [|by steps Hs].
  steps Hs. match goal with E : browser_claims _ = Ok ?o |- _ => destruct o as [[[k v] m]|]; [|by steps Hs]; rename E into Hcl end.
  steps Hs. destruct (get users k (session (connect d))) as [u'|] eqn:Hu; [|by steps Hs].
  destruct (negb (User.is_active u') || _) eqn:Hact; [by steps Hs|].
  destruct (User.is_platform_admin u' && _) eqn:Hadm; [by steps Hs|]. steps Hs. simplify_eq.
  rewrite fresh_get in Hu by apply (schema_unique d Hd).
  apply orb_false_iff in Hact as [Hact%negb_false_iff Hv%negb_false_iff]. apply Z.eqb_eq in Hv as <-.
  pose proof (find_row_key _ _ _ Hu) as <-. split; [by eapply find_row_elem|].
  exists raw, claims, m. repeat (split; [done|]). intros Hp. rewrite Hp in Hadm. cbn in Hadm.
  apply negb_false_iff, bool_decide_eq_true in Hadm. done.
Qed.
Lemma authorize_post_redirects d e a who pass mfa uri code st ck c : schema_ok d ->
  authorize_post e a who pass mfa (connect d) = (Ok (RedirectWithCode uri code st ck), c) ->
  exists u, redirected d (committed c) e a u uri code st /\
    credentials d (committed c) e who pass (given_mfa mfa) u /\ User.is_platform_admin u = false /\
    ck = Some (create_browser_session_token e (User.id u) (User.security_version u) "password").
Proof.
  intros Hd Hg. unfold authorize_post in Hg. steps Hg. answered. steps Hg.
  do 4 answered. steps Hg. answered. steps Hg.
  match goal with E : issue_authorization_code _ _ _ _ _ _ = _ |- _ => apply issue_code_ok in E as [Hcode ?] end.
  forward.
  match goal with E : scalar users _ _ = Some ?v |- _ => apply active_user_found in E as (Hu & Hid & Hact); [|done]; rename v into u end.
  destruct (bcrypt_verify _ _) eqn:Hpw; [|done].
  match goal with E : negb ?b = false |- _ => destruct b; [|done] end.
  simplify_eq. exists u. split; [by do 3 (split; [done|])|]. split; [|split; [done|]].
  - do 5 (split; [done|]). eapply verify_second_factor_ok; [done|eassumption|].
    chain. match goal with Hb : both _ (committed _) |- _ => destruct Hb as [_ Hb]; exact Hb end.
  - done.
Qed.
Lemma filter_single {A} (p : A -> bool) o x l : List.filter p (opt_list o) = x :: l -> o = Some x /\ p x = true.
Proof. destruct o as [y|]; simpl; [|done]. destruct (p y) eqn:Hp; [|done]. intros [= <- _]. done. Qed.
Lemma step_up_redirects d e a who pass mfa uri code st ck c : schema_ok d ->
  step_up_post e a who pass mfa (connect d) = (Ok (RedirectWithCode uri code st ck), c) ->
  exists u, redirected d (committed c) e a u uri code st /\
    credentials d (committed c) e who pass (Some mfa) u /\ User.is_platform_admin u = true /\ User.totp_enabled u = true /\
    client_id a = "mailbox-dns".
Proof.
  intros Hd Hg. unfold step_up_post in Hg. steps Hg. answered. steps Hg.
  answered.
  match goal with E : List.filter _ _ = ?v :: _ |- _ => apply filter_single in E as [Hf Hp%andb_true_iff]; rename v into u end.
  do 2 answered. steps Hg. answered. steps Hg.
  match goal with E : issue_authorization_code _ _ _ _ _ _ = _ |- _ => apply issue_code_ok in E as [Hcode ?] end.
  forward. apply active_user_found in Hf as (Hu & Hid & Hact); [|done].
  destruct Hp as [Hl%negb_true_iff Hpw].
  match goal with E : negb ?b = false |- _ => match b with User.is_platform_admin _ => fail 1 | User.totp_enabled _ => fail 1 | _ => destruct b; [|done] end end.
  simplify_eq. exists u. split; [by do 3 (split; [done|])|]. split.
  - do 5 (split; [done|]). eapply verify_second_factor_ok; [done|eassumption|].
    chain. match goal with Hb : both _ (committed _) |- _ => destruct Hb as [_ Hb]; exact Hb end.
  - split; [by apply negb_false_iff|]. split; [by apply negb_false_iff|].
    match goal with E : (client_id a ==? _) = true |- _ => by apply bool_decide_eq_true in E end.
Qed.

(** A sign-in at the login endpoint needs an active account of the identifier
    that is not locked, its password and its second factor, a recovery code of
    which is used up; the tokens are those of a session of this account. *)
Theorem login_needs_credentials d e p a : schema_ok d -> fst (serve urlsplit d (e, Login p)) = Ok a ->
  let d' := snd (serve urlsplit d (e, Login p)) in
  exists u s, credentials d d' e (identifier p) (password p) (mfa_code p) u /\ session_for d' u (login_client p) s /\
    a = Tokens (token_response e u (login_client p) (AuthSession.id s) None).
Proof.
  intros Hd Ha. cbv zeta. apply served in Ha as (c & Hs & ->). cbn [endpoint] in Hs. unfold answer in Hs. steps Hs.
  match goal with E : login _ _ _ = _ |- _ => apply login_spec in E as (u & s & Hu & Hse & ->); [|done] end.
  by exists u, s.
Qed.

(** C16. Whatever authorization endpoint answers with a redirect, it goes to a URI
    approved for the client, with the state of the request and a code stored for
    this client, URI, challenge and account; and the account is entitled to it:
    by a browser cookie of its current security version, by its credentials if
    it is no platform administrator, or by the console's step-up. *)
Theorem authorization_safe d e q uri code st ck : schema_ok d ->
  fst (serve urlsplit d (e, q)) = Ok (Authorized (RedirectWithCode uri code st ck)) ->
  let d' := snd (serve urlsplit d (e, q)) in
  exists a u, redirected d d' e a u uri code st /\ entitled d d' e q a u.
Proof.
  intros Hd Ha. cbv zeta. apply served in Ha as (c & Hs & ->).
  destruct q; cbn [endpoint] in Hs; unfold done_with, answer in Hs; rewrite bind_ok in Hs; destruct Hs as (x & c1 & Hs & Hr);
    apply ret_ok in Hr as [Hr ->]; try discriminate Hr.
  - injection Hr as <-. apply authorize_get_redirects in Hs as (u & Hred & Hin & Hck); [|done]. by exists a, u.
  - injection Hr as <-. apply authorize_post_redirects in Hs as (u & Hred & Hcr & Hadm & _); [|done]. by exists a, u.
  - injection Hr as <-. apply step_up_redirects in Hs as (u & Hred & Hcr & Hadm & Ht & Hcl); [|done]. by exists a, u.
Qed.
End SignIn.

Lemma login_needs_credentials_witness :
  exists u d', credentials demo_db d' (demo_env 10 100 "t") "Ada@example.org" "right" None u.
Proof.
  assert (is_ok (fst (serve demo_url demo_db (demo_env 10 100 "t", Login (demo_login "right")))) = true) as Hok by (vm_compute; reflexivity).
  destruct (is_ok_ex _ Hok) as [a Ha].
  destruct (login_needs_credentials demo_url demo_db _ (demo_login "right") a demo_ok Ha) as (u & s & Hc & _).
  exists u. eexists. exact Hc.
Defined.
Lemma authorization_safe_witness :
  exists a u d', redirected demo_db d' (demo_env 10 100 "t") a u "https://shop.example/callback" "t" "s1".
Proof.
  set (q := AuthorizePost demo_authorize "ada@example.org" "right" EmptyString).
  assert (exists ck, fst (serve demo_url demo_db (demo_env 10 100 "t", q)) =
    Ok (Authorized (RedirectWithCode "https://shop.example/callback" "t" "s1" ck))) as [ck Hok]
    by (eexists; vm_compute; reflexivity).
  destruct (authorization_safe demo_url demo_db _ q _ _ _ ck demo_ok Hok) as (a & u & Hr & _).
  exists a, u. eexists. exact Hr.
Defined.
