(* ===== verification/IdentityRecovery.v ===== *)
(** Password reset and refresh rotation: a reset token is used once, by the
    account it was sent for, and ends every session and browser cookie of the
    account; a rotated refresh token is refused from then on. *)
From S2P Require Import Prelude Json Calendar Session Schema Sha256 Engines Base64 IdentityModels IdentityCore IdentityLogin IdentityAccount IdentityAdmin IdentityFacts IdentityDemo IdentitySafety IdentitySignIn.
#[local] Open Scope string_scope.
#[local] Open Scope list_scope.
#[local] Open Scope Z_scope.

(** * What a commit does to accounts, sessions and security tokens *)
Definition closing (s s' : AuthSession) : Prop :=
  evolve s s' /\ AuthSession.refresh_token_hash s' = AuthSession.refresh_token_hash s.
#[export] Instance closing_preorder : PreOrder closing.
Proof.
  split; [intros s; split; [apply evolve_refl|done]|].
  intros s1 s2 s3 [H12 E12] [H23 E23]. split; [by eapply evolve_trans|congruence].
Qed.
Definition settles (d d' : IdentityDb) : Prop :=
  users d' = users d /\ security_tokens d' = security_tokens d /\ Forall2 closing (auth_sessions d) (auth_sessions d').
#[export] Instance settles_preorder : PreOrder settles.
Proof.
  split; [by intros d|].
  intros d1 d2 d3 (Hu & Ht & Hs) (Hu' & Ht' & Hs'). split; [congruence|]. split; [congruence|by etrans].
Qed.
Lemma closing_on_keys (f : AuthSession -> AuthSession) ks t : (forall x, closing x (f x)) -> Forall2 closing t (on_keys f ks t).
Proof. intros Hf. induction t as [|x t IH]; simpl; constructor; [|done]. by destruct (_ in? _). Qed.
Lemma closing_back (t t' : list AuthSession) y : Forall2 closing t t' -> y ∈ t' -> exists x, x ∈ t /\ closing x y.
Proof.
  intros Hf (i & Hi)%list_elem_of_lookup. destruct (Forall2_lookup_r _ _ _ _ _ Hf Hi) as (x & Hx & Hc).
  exists x. split; [by eapply list_elem_of_lookup_2|done].
Qed.
Lemma closing_on (t t' : list AuthSession) x : Forall2 closing t t' -> x ∈ t -> exists y, y ∈ t' /\ closing x y.
Proof.
  intros Hf (i & Hi)%list_elem_of_lookup. destruct (Forall2_lookup_l _ _ _ _ _ Hf Hi) as (y & Hy & Hc).
  exists y. split; [by eapply list_elem_of_lookup_2|done].
Qed.
Ltac solve_settles :=
  split; [done|split; [done|cbn; first [reflexivity | apply closing_on_keys; intros; split; [solve_evolve|done]]]].

(** The rows a fresh query selects, assigned as a whole. *)
Lemma on_keys_filter {K} `{Keyed K} (T : IdentityDb -> list K) (p : K -> bool) (f : K -> K) d : NoDup (keys (T d)) ->
  on_keys f (keys (List.filter p (T d))) (T d) = map (fun x => if p x then f x else x) (T d).
Proof.
  intros Hn. apply map_ext_in. intros x Hx%list_elem_of_In. destruct (p x) eqn:Hp.
  - destruct (key x in? _) eqn:E; [done|]. exfalso. apply not_true_iff_false in E. apply E, existsb_exists.
    exists (key x). split; [|by apply bool_decide_eq_true]. apply in_map, filter_In. split; [by apply list_elem_of_In|done].
  - destruct (key x in? _) eqn:E; [|done]. apply in_elem in E.
    apply list_elem_of_fmap in E as (y & Hk & Hy). apply list_elem_of_In, filter_In in Hy as [Hy%list_elem_of_In Hpy].
    assert (x = y) as -> by by apply (key_inj (T d)). congruence.
Qed.

Section Recovery.
Context `{Providers} (urlsplit : string -> option UrlParts).

Lemma settles_queue e : grows settles (queue_identity_status_events e).
Proof. grow. all: solve_settles. Qed.
Lemma settles_commit e c u c' : commit e c = (Ok u, c') -> settles (view c) (committed c').
Proof. intros Hc. apply (commit_ok settles) in Hc; [apply Hc|apply settles_queue]. Qed.
Lemma settles_audit e t u b cl l c a c' : record_audit e t u b cl l c = (Ok a, c') -> settles (view c) (view c').
Proof.
  intros E. assert (grows settles (record_audit e t u b cl l)) as Hg by (grow; solve_settles).
  specialize (Hg c). rewrite E in Hg. apply Hg.
Qed.

(** ** Password reset *)
Definition reset_row (d : IdentityDb) (e : Env) (raw : string) (r : SecurityToken) : Prop :=
  r ∈ security_tokens d /\ SecurityToken.token_hash r = hash_token raw /\ SecurityToken.purpose r = "password_reset" /\
  is_none (SecurityToken.consumed_at r) = true /\ now e < SecurityToken.expires_at r.
Definition reset_user (e : Env) (pw : string) (u : User) : User :=
  set_password e pw u <| User.failed_login_attempts := 0 |> <| User.locked_until := None |>.

Lemma active_token_ok e h p c o c' : active_token e h p c = (Ok o, c') -> c' = c /\
  forall r, o = Some r -> scalar security_tokens (fun r => (SecurityToken.token_hash r ==? h) && (SecurityToken.purpose r ==? p)) (session c) = Some r /\
    is_none (SecurityToken.consumed_at r) = true /\ now e < SecurityToken.expires_at r.
Proof.
  unfold active_token. intros Ha. steps Ha. split; [done|]. intros r. case_match; [|done].
  destruct (_ && _) eqn:E; [|done]. intros [= <-]. apply andb_true_iff in E as [? ?%Z.ltb_lt]. done.
Qed.
Lemma revoke_sessions_ok e k reason ex c n c' : revoke_sessions e k reason ex c = (Ok n, c') ->
  c' = assigned auth_sessions (revoked e reason)
    (keys (List.filter (fun r => negb (Some (AuthSession.id r) ==? ex))
      (select auth_sessions (fun r => (AuthSession.user_id r =? k) && is_none (AuthSession.revoked_at r)) (session c)))) c.
Proof. unfold revoke_sessions. intros Hr. steps Hr. done. Qed.
Lemma filter_all {A} (p : A -> bool) l : (forall x, p x = true) -> List.filter p l = l.
Proof. intros Hp. induction l as [|x l IH]; simpl; [done|]. by rewrite Hp, IH. Qed.

(** What a completed reset leaves. *)
Definition sessions_ended (d : IdentityDb) (k : uuid) : Prop :=
  forall s, s ∈ auth_sessions d -> AuthSession.user_id s = k -> is_none (AuthSession.revoked_at s) = false.
Definition consumed_token (d : IdentityDb) (raw : string) : Prop :=
  exists r, r ∈ security_tokens d /\ SecurityToken.token_hash r = hash_token raw /\ is_none (SecurityToken.consumed_at r) = false.
Lemma consumed_token_stays d d' raw : evolves d d' -> consumed_token d raw -> consumed_token d' raw.
Proof.
  intros Hd (r & Hr & Hh & Hc). destruct (ev_tokens _ _ Hd r Hr) as (r' & Hr' & _ & Hh' & _ & _ & Hs).
  exists r'. split; [done|]. split; [congruence|by apply Hs].
Qed.
Lemma ended_settles d d' k : settles d d' -> sessions_ended d k -> sessions_ended d' k.
Proof.
  intros (_ & _ & Hs) He s' Hin Hk. destruct (closing_back _ _ _ Hs Hin) as (s & Hs' & (_ & Hu & _ & _ & _ & Hst) & _).
  apply Hst, He; [done|congruence].
Qed.

Lemma on_keys_other (f : User -> User) k l x : x ∈ l -> User.id x <> k -> x ∈ on_keys f [k] l.
Proof.
  intros Hx Hk. apply list_elem_of_fmap. exists x. split; [|done]. cbn. by rewrite (bool_decide_eq_false_2 (key x = k)).
Qed.
Lemma confirm_password_reset_spec d e raw pw a c : schema_ok d -> confirm_password_reset e raw pw (connect d) = (Ok a, c) ->
  exists r u, reset_row d e raw r /\ SecurityToken.user_id r = User.id u /\ u ∈ users d /\ User.is_active u = true /\
    users (committed c) = on_keys (reset_user e pw) [User.id u] (users d) /\ reset_user e pw u ∈ users (committed c) /\
    sessions_ended (committed c) (User.id u) /\ consumed_token (committed c) raw.
Proof.
  intros Hd%schema_unique Hr. unfold confirm_password_reset in Hr. steps Hr.
  match goal with E : active_token _ _ _ _ = _ |- _ => apply active_token_ok in E as [-> Hrow] end.
  match goal with E : (match ?o with Some _ => _ | None => _ end) _ = _ |- _ => destruct o as [r|]; [|unfold bad_reset in E; by steps E] end.
  destruct (Hrow r eq_refl) as (Hsc & Hn & Hexp). clear Hrow. apply fresh_scalar in Hsc as [Hrin Hm]; [|apply Hd].
  apply andb_true_iff in Hm as [Hh%bool_decide_eq_true Hp%bool_decide_eq_true]. steps Hr.
  destruct (get users _ _) as [u|] eqn:Hu; [|unfold bad_reset in Hr; by steps Hr]. rewrite fresh_get in Hu by apply Hd.
  destruct (User.is_active u) eqn:Hact; cbn [negb] in Hr; [|unfold bad_reset in Hr; by steps Hr]. steps Hr.
  match goal with E : revoke_sessions _ _ _ _ _ = _ |- _ => apply revoke_sessions_ok in E; rename E into Hv end.
  match goal with E : record_audit _ _ _ _ _ _ _ = _ |- _ => apply settles_audit in E; rename E into Ha end.
  apply settles_commit in Hr. pose proof (transitivity Ha Hr) as Hset. clear Ha Hr.
  pose proof (find_row_elem _ _ _ Hu) as Huin. pose proof (find_row_key _ _ _ Hu) as Hk. cbn in Hk.
  exists r, u. split; [done|]. split; [done|]. split; [done|]. split; [done|].
  pose proof Hset as (Hus & Htk & _). rewrite Hv in Hus, Htk. cbn in Hus, Htk.
  split; [exact Hus|]. split; [rewrite Hus; by apply (assigned_elem (reset_user e pw))|]. split.
  - apply (ended_settles _ _ _ Hset). rewrite Hv. intros s Hs Hsu. rewrite filter_all in Hs by done.
    rewrite select_synced in Hs; [|done|apply Hd]. 
    change (s ∈ on_keys (revoked e "password reset") (keys (List.filter (fun r => (AuthSession.user_id r =? User.id u) &&
      is_none (AuthSession.revoked_at r)) (auth_sessions d))) (auth_sessions d)) in Hs.
    rewrite (on_keys_filter auth_sessions) in Hs by apply Hd.
    apply list_elem_of_fmap in Hs as (s0 & -> & Hs0). destruct (_ && _) eqn:E; [done|].
    rewrite Hsu, Z.eqb_refl in E. exact E.
  - exists (consumed e r). split; [rewrite Htk; by apply (assigned_elem (consumed e))|done].
Qed.

(** C15. A completed reset has used a pending, unexpired reset token of an active
    account: it stores the bcrypt hash of the new password, lifts the lock, moves
    the security version on, changes nothing else of the account and no other
    account, and ends every session of the account.  The token never works
    again, and no cookie of the account's former version opens a session,
    whatever is served in between. *)
Theorem password_reset_final d e raw pw a : schema_ok d -> fst (serve urlsplit d (e, ConfirmPasswordReset raw pw)) = Ok a ->
  let d' := snd (serve urlsplit d (e, ConfirmPasswordReset raw pw)) in
  exists r u, (reset_row d e raw r /\ SecurityToken.user_id r = User.id u /\ u ∈ users d /\ User.is_active u = true) /\
    (u <| User.password_hash := bcrypt_hash (random_salt e) pw |> <| User.password_changed_at := now e |>
       <| User.security_version := User.security_version u + 1 |> <| User.failed_login_attempts := 0 |> <| User.locked_until := None |>
       ∈ users d' /\ (forall x, x ∈ users d -> User.id x <> User.id u -> x ∈ users d') /\ sessions_ended d' (User.id u)) /\
    (forall l e2 pw2, is_ok (fst (serve urlsplit (serve_all urlsplit d' l) (e2, ConfirmPasswordReset raw pw2))) = false) /\
    (forall l e2 b cookie claims v m, browser_cookie (request e2) = Some cookie ->
       decode_browser_session_token e2 cookie = Some claims ->
       browser_claims claims = Ok (Some (User.id u, v, m)) -> v <= User.security_version u ->
       forall uri code st ck, fst (serve urlsplit (serve_all urlsplit d' l) (e2, AuthorizeGet b)) <> Ok (Authorized (RedirectWithCode uri code st ck))).
Proof.
  intros Hd Ha. cbv zeta. pose proof (serve_schema urlsplit d (e, ConfirmPasswordReset raw pw) Hd) as Hd'.
  apply served in Ha as (c & Hs & E). rewrite E in *. clear E. set (d1 := committed c) in *. cbn [endpoint] in Hs. unfold done_with, answer in Hs. steps Hs.
  match goal with Hr : confirm_password_reset _ _ _ _ = _ |- _ =>
    apply confirm_password_reset_spec in Hr as (r & u & Hrow & Hru & Hu & Hact & Hall & Hu' & Hend & Hcons); [|done] end.
  fold d1 in Hall, Hu', Hend, Hcons. clearbody d1.
  exists r, u. split; [done|]. split.
  { split; [by rewrite (Z.add_comm (User.security_version u))|]. split; [|done]. intros y Hy Hk. rewrite Hall. by apply on_keys_other. }
  split.
  - intros l e2 pw2. apply (consumed_token_stays _ _ _ (serve_all_evolves urlsplit l _)) in Hcons.
    apply (serve_all_schema urlsplit l) in Hd'. apply not_served. intros b c2 Hs2.
    cbn [endpoint] in Hs2. unfold done_with, answer in Hs2. steps Hs2.
    match goal with Hr : confirm_password_reset _ _ _ _ = _ |- _ => apply confirm_password_reset_spec in Hr as (r2 & _ & (Hin & Hh & _ & Hn & _) & _); [|done] end.
    destruct Hcons as (r3 & Hin3 & Hh3 & Hn3).
    assert (r2 = r3) as -> by (apply (map_inj_elem _ _ _ _ (uk_token_hashes _ (schema_unique _ Hd'))); congruence). congruence.
  - intros l e2 b cookie claims v m Hck Hdec Hcl Hv uri code st ck Hok.
    destruct (ev_users _ _ (serve_all_evolves urlsplit l d1) _ Hu') as (u2 & Hu2 & Hid & Hle).
    apply (serve_all_schema urlsplit l) in Hd'. apply served in Hok as (c2 & Hs2 & _). cbn [endpoint] in Hs2. unfold answer in Hs2. steps Hs2. simplify_eq.
    match goal with Hg : authorize_get _ _ _ = _ |- _ =>
      apply authorize_get_redirects in Hg as (u3 & _ & Hu3 & raw3 & claims3 & m3 & Hck3 & Hdec3 & Hcl3 & _); [|done] end.
    assert (claims3 = claims) as -> by congruence. rewrite Hcl in Hcl3. simplify_eq.
    assert (u3 = u2) as -> by (apply (key_inj (users (serve_all urlsplit d1 l))); [apply (schema_unique _ Hd')|done..|];
      change (User.id u3 = User.id u2); change (User.id u = User.id u2) in Hid; congruence).
    change (1 + User.security_version u <= User.security_version u2) in Hle. lia.
Qed.
(** ** Refresh rotation *)
Definition without_hash (h : string) (d : IdentityDb) : Prop :=
  forall s, s ∈ auth_sessions d -> AuthSession.refresh_token_hash s <> h.
Definition keeps_out (h : string) (d d' : IdentityDb) : Prop := without_hash h d -> without_hash h d'.
#[local] Instance keeps_out_preorder h : PreOrder (keeps_out h).
Proof. split; [by intros d ?|]. intros d1 d2 d3 H12 H23 Hd. auto. Qed.
Lemma out_on_keys h f ks t : (forall x, AuthSession.refresh_token_hash (f x) = AuthSession.refresh_token_hash x \/ AuthSession.refresh_token_hash (f x) <> h) ->
  (forall s, s ∈ t -> AuthSession.refresh_token_hash s <> h) -> forall s, s ∈ on_keys f ks t -> AuthSession.refresh_token_hash s <> h.
Proof.
  intros Hf Ht s Hs. apply list_elem_of_fmap in Hs as (x & -> & Hx). destruct (_ in? _); [|by apply Ht].
  destruct (Hf x) as [->|?]; [by apply Ht|done].
Qed.
Lemma out_app h t r : AuthSession.refresh_token_hash r <> h ->
  (forall s, s ∈ t -> AuthSession.refresh_token_hash s <> h) -> forall s, s ∈ t ++ [r] -> AuthSession.refresh_token_hash s <> h.
Proof. intros Hr Ht s [Hs| ->%list_elem_of_singleton]%elem_of_app; [by apply Ht|done]. Qed.
Ltac solve_out :=
  unfold keeps_out, without_hash; cbn; intros Hw; first [exact Hw | apply out_on_keys; [intros ?; first [by left | by right]|exact Hw] | apply out_app; [done|exact Hw]].
Section Fresh.
Context (e : Env) (h : string).
Hypothesis Hfresh : hash_token (random_token e) <> h.
Lemma out_queue : grows (keeps_out h) (queue_identity_status_events e).
Proof. grow. all: solve_out. Qed.
Lemma out_commit : grows (keeps_out h) (commit e).
Proof. apply (grows_commit _), out_queue. Qed.
Lemma out_flush : grows (keeps_out h) (flush e).
Proof. apply (grows_flush _), out_queue. Qed.
#[local] Hint Resolve out_commit out_flush : grows.
Lemma out_record_audit t u b c d : grows (keeps_out h) (record_audit e t u b c d).
Proof. grow. all: solve_out. Qed.
Lemma out_context : grows (keeps_out h) (authenticated_context e).
Proof. grow. all: solve_out. Qed.
Lemma out_product : grows (keeps_out h) (product_session e).
Proof. grow. all: solve_out. Qed.
#[local] Hint Resolve out_record_audit out_context out_product : grows.
Lemma out_endpoint q c : keeps (keeps_out h) c (snd (endpoint urlsplit e q c)).
Proof.
  destruct q; [|apply (keeps_grows _); grow; solve_out..].
  apply (keeps_bind _); [clear c; intros c|intros; apply (keeps_refl _)].
  apply (keeps_bind _); [clear c; intros c; apply (keeps_grows _); grow; solve_out|clear c; intros u c].
  apply (keeps_except_integrity _); [grow; solve_out|intros; apply (keeps_rollback _)].
Qed.
End Fresh.
Lemma serve_out h d r : hash_token (random_token (fst r)) <> h -> without_hash h d -> without_hash h (snd (serve urlsplit d r)).
Proof. intros Hf. exact (proj1 (run_respects (keeps_out h) _ d (out_endpoint (fst r) h Hf (snd r)))). Qed.
Lemma serve_all_out h l d : Forall (fun r => hash_token (random_token (fst r)) <> h) l -> without_hash h d -> without_hash h (serve_all urlsplit d l).
Proof. intros Hl. revert d. induction Hl as [|r l Hr Hl IH]; intros d Hd; simpl; [done|]. by apply IH, serve_out. Qed.

Lemma rotate_spec e d cl t x y resp c : schema_ok d -> rotate e cl t x y (connect d) = (Ok resp, c) ->
  exists s u s', (s ∈ auth_sessions d /\ AuthSession.refresh_token_hash s = hash_token t /\ live_session e (User.id u) cl s = true) /\
    (u ∈ users d /\ User.is_active u = true) /\
    (s' ∈ auth_sessions (committed c) /\ AuthSession.id s' = AuthSession.id s /\ AuthSession.refresh_token_hash s' = hash_token (random_token e)) /\
    resp = token_response e u cl (AuthSession.id s) None /\
    (hash_token (random_token e) <> hash_token t -> without_hash (hash_token t) (committed c)).
Proof.
  intros Hd%schema_unique Hr. unfold rotate in Hr. steps Hr.
  match goal with E : scalar auth_sessions _ _ = Some ?v |- _ => rename v into s; apply fresh_scalar in E as [Hs Hh]; [|apply Hd] end.
  match goal with E : get users _ _ = Some ?v |- _ => rename v into u; rewrite fresh_get in E by apply Hd; rename E into Hu end.
  apply bool_decide_eq_true in Hh. pose proof (find_row_key _ _ _ Hu) as Hk. change (User.id u = AuthSession.user_id s) in Hk.
  match goal with E : commit _ _ = _ |- _ => pose proof (settles_commit _ _ _ _ E) as (_ & _ & Hset); rename E into Hc end.
  set (f := fun s => s <| AuthSession.refresh_token_hash := hash_token (random_token e) |> <| AuthSession.last_seen_at := now e |>) in *.
  destruct (closing_on _ _ (f s) Hset) as (s' & Hs' & (Hid & _) & Hh'); [by apply (assigned_elem f)|].
  exists s, u, s'. rewrite Hk. split; [done|]. split; [split; [by eapply find_row_elem|done]|]. split; [done|].
  split; [done|]. intros Hne z Hz.
  destruct (closing_back _ _ _ Hset Hz) as (z0 & Hz0 & _ & ->). change (z0 ∈ on_keys f [key s] (auth_sessions d)) in Hz0.
  apply list_elem_of_fmap in Hz0 as (w & -> & Hw). destruct (key w in? _) eqn:Hin; [done|]. intros E.
  assert (w = s) as -> by (apply (map_inj_elem _ _ _ _ (uk_refresh_hashes _ Hd)); congruence).
  cbn in Hin. by rewrite (bool_decide_eq_true_2 _ eq_refl) in Hin.
Qed.

(** C36. A refresh gives new tokens for a live session of the client and its active
    account, and a new refresh token to the session; unless a later request draws
    its random value again, the old refresh token is refused from then on,
    whatever is served in between, at both endpoints. *)
Theorem refresh_rotates d e cl t a : schema_ok d -> fst (serve urlsplit d (e, Refresh cl t)) = Ok a ->
  hash_token (random_token e) <> hash_token t ->
  let d' := snd (serve urlsplit d (e, Refresh cl t)) in
  (exists s u s', (s ∈ auth_sessions d /\ AuthSession.refresh_token_hash s = hash_token t /\ live_session e (User.id u) cl s = true) /\
    (u ∈ users d /\ User.is_active u = true) /\
    (s' ∈ auth_sessions d' /\ AuthSession.id s' = AuthSession.id s /\ AuthSession.refresh_token_hash s' = hash_token (random_token e)) /\
    a = Tokens (token_response e u cl (AuthSession.id s) None)) /\
  without_hash (hash_token t) d' /\
  (forall l e2, Forall (fun r => hash_token (random_token (fst r)) <> hash_token t) l ->
     (forall cl2, is_ok (fst (serve urlsplit (serve_all urlsplit d' l) (e2, Refresh cl2 t))) = false) /\
     (forall f, grant_type f = "refresh_token" -> form_refresh f = Some t ->
        is_ok (fst (serve urlsplit (serve_all urlsplit d' l) (e2, Token f))) = false)).
Proof.
  intros Hd Ha Hne. cbv zeta. pose proof (serve_schema urlsplit d (e, Refresh cl t) Hd) as Hd'.
  apply served in Ha as (c & Hs & E). rewrite E in *. clear E. set (d1 := committed c) in *.
  cbn [endpoint] in Hs. unfold answer, refresh in Hs. steps Hs.
  match goal with Hr : rotate _ _ _ _ _ _ = _ |- _ => apply rotate_spec in Hr as (s & u & s' & Hrow & Hu & Hs' & -> & Hout); [|done] end.
  specialize (Hout Hne). fold d1 in Hs', Hout. clearbody d1. split; [by exists s, u, s'|]. split; [exact Hout|]. intros l e2 Hl.
  apply (serve_all_out _ l) in Hout; [|done]. apply (serve_all_schema urlsplit l) in Hd'.
  set (d2 := serve_all urlsplit d1 l) in *. clearbody d2.
  split; [intros cl2|intros f Hg Hf]; apply not_served; intros b c2 Hs2; cbn [endpoint] in Hs2; unfold answer, refresh in Hs2;
    [|rewrite (token_refresh _ _ t) in Hs2 by done]; steps Hs2;
    match goal with Hr : rotate _ _ _ _ _ _ = _ |- _ => apply rotate_spec in Hr as (z & _ & _ & (Hz & Hzh & _) & _); [|done] end;
    by apply (Hout z).
Qed.
End Recovery.

Lemma password_reset_final_witness :
  is_ok (fst (serve demo_url demo_db (demo_env 10 100 "t", ConfirmPasswordReset "reset" "new"))) = true /\
  exists u, u ∈ users demo_db /\ sessions_ended (snd (serve demo_url demo_db (demo_env 10 100 "t", ConfirmPasswordReset "reset" "new"))) (User.id u).
Proof.
  assert (is_ok (fst (serve demo_url demo_db (demo_env 10 100 "t", ConfirmPasswordReset "reset" "new"))) = true) as Hok
    by (vm_compute; reflexivity).
  split; [exact Hok|]. destruct (is_ok_ex _ Hok) as [a Ha].
  destruct (password_reset_final demo_url demo_db _ "reset" "new" a demo_ok Ha) as (r & u & (_ & _ & Hu & _) & (_ & _ & He) & _).
  exists u. split; [exact Hu|exact He].
Defined.
Lemma refresh_rotates_witness :
  is_ok (fst (serve demo_url demo_db (demo_env 10 100 "t", Refresh "shop" "live"))) = true /\
  forall l e, Forall (fun r => hash_token (random_token (fst r)) <> hash_token "live") l ->
    is_ok (fst (serve demo_url (serve_all demo_url (snd (serve demo_url demo_db (demo_env 10 100 "t", Refresh "shop" "live"))) l) (e, Refresh "shop" "live"))) = false.
Proof.
  assert (is_ok (fst (serve demo_url demo_db (demo_env 10 100 "t", Refresh "shop" "live"))) = true) as Hok by (vm_compute; reflexivity).
  split; [exact Hok|]. destruct (is_ok_ex _ Hok) as [a Ha].
  assert (hash_token (random_token (demo_env 10 100 "t")) <> hash_token "live") as Hne by (vm_compute; discriminate).
  intros l e Hl. exact (proj1 (proj2 (proj2 (refresh_rotates demo_url demo_db _ "shop" "live" a demo_ok Ha Hne)) l e Hl) "shop").
Defined.
