(* ===== verification/IdentityLockout.v ===== *)
(** The lock of an account: how often its password can be guessed before the
    lock stops it. *)
From S2P Require Import Prelude Json Calendar Session Schema Sha256 Engines Base64 IdentityModels IdentityCore IdentityLogin IdentityAccount IdentityAdmin IdentityFacts IdentityDemo IdentitySafety IdentitySignIn.
#[local] Open Scope string_scope.
#[local] Open Scope list_scope.
#[local] Open Scope Z_scope.

(** * Computations that respect a preorder from one connection on *)
Section At.
Context (R : IdentityDb -> IdentityDb -> Prop) `{!PreOrder R}.
Definition at_ {A} (m : M A) (c : Conn) : Prop := R (view c) (view (snd (m c))) /\ keeps R c (snd (m c)).
Lemma at_bind {A B} (m : M A) (k : A -> M B) c :
  at_ m c -> (forall a c', m c = (Ok a, c') -> at_ (k a) c') -> at_ (bind m k) c.
Proof.
  intros [Hv Hc] Hk. unfold at_, bind. destruct (m c) as [[a|x] c1] eqn:E; simpl in *; [|done].
  destruct (Hk a c1 eq_refl) as [Hv' Hc']. split; [by etrans|by eapply (keeps_trans R)].
Qed.
Lemma at_still {A B} (m : M A) (k : A -> M B) c : snd (m c) = c -> (forall a c', m c = (Ok a, c') -> at_ (k a) c') -> at_ (bind m k) c.
Proof.
  intros Hm Hk. apply at_bind; [|done]. unfold at_. rewrite Hm. split; [reflexivity|apply (keeps_refl R)].
Qed.
Lemma at_query {A B} (f : Session IdentityDb -> A) (k : A -> M B) c : at_ (k (f (session c))) c -> at_ (bind (query f) k) c.
Proof. intros Hk. apply at_still; [done|]. by intros a c' [= <- <-]. Qed.
End At.

Definition total {A} (m : M A) : Prop := forall c, is_ok (fst (m c)) = true.
Lemma total_bind {A B} (m : M A) (k : A -> M B) : total m -> (forall a, total (k a)) -> total (bind m k).
Proof. intros Hm Hk c. unfold bind. specialize (Hm c). destruct (m c) as [[a|x] c1]; [apply Hk|done]. Qed.
Lemma total_for_each {A} (f : A -> M unit) l : (forall x, total (f x)) -> total (for_each f l).
Proof. intros Hf. induction l; simpl; [done|]. by apply total_bind. Qed.
Ltac total := repeat first [apply total_bind; [|intros ?] | apply total_for_each; intros ? | case_match | by intros ?].

(** * The failed attempts of one account *)
Section Lockout.
Context `{Providers} (urlsplit : string -> option UrlParts).
Context (k : uuid) (max lock : Z) (t0 t : time).
Hypothesis Ht : t < t0 + minutes lock.

(** How the account goes on up to the time [t]: the counter does not fall, a
    lock holds, and a counted failure stays below the maximum or locks. *)
Definition counts (x y : User) : Prop :=
  User.failed_login_attempts x <= User.failed_login_attempts y /\
  (locked_at t x = true -> locked_at t y = true) /\
  (User.failed_login_attempts x < User.failed_login_attempts y -> User.failed_login_attempts y < max \/ locked_at t y = true).
Definition counted (d d' : IdentityDb) : Prop :=
  forall x, x ∈ users d -> User.id x = k -> exists y, y ∈ users d' /\ User.id y = k /\ counts x y.
Lemma counts_refl x : counts x x.
Proof. split; [lia|]. split; [done|lia]. Qed.
#[local] Instance counted_preorder : PreOrder counted.
Proof.
  split.
  - intros d x Hx Hk. exists x. split; [done|]. split; [done|apply counts_refl].
  - intros d1 d2 d3 H12 H23 x Hx Hk. destruct (H12 x Hx Hk) as (y & Hy & Hyk & A1 & A2 & A3).
    destruct (H23 y Hy Hyk) as (z & Hz & Hzk & B1 & B2 & B3). exists z. split; [done|]. split; [done|].
    split; [lia|]. split; [auto|]. intros Hlt.
    destruct (decide (User.failed_login_attempts y < User.failed_login_attempts z)); [auto|].
    destruct A3; [lia|left; lia|auto].
Qed.
Lemma counted_same d d' : users d' = users d -> counted d d'.
Proof. intros E x Hx Hk. rewrite E. exists x. split; [done|]. split; [done|apply counts_refl]. Qed.
Lemma counted_app d d' r : users d' = users d ++ [r] -> counted d d'.
Proof. intros E x Hx Hk. rewrite E. exists x. split; [apply elem_of_app; by left|]. split; [done|apply counts_refl]. Qed.
Lemma counted_on_keys d d' f ks : users d' = on_keys f ks (users d) ->
  (forall x, x ∈ users d -> User.id x = k -> User.id x ∈ ks -> User.id (f x) = k /\ counts x (f x)) -> counted d d'.
Proof.
  intros E Hf x Hx Hk. rewrite E. destruct (key x in? ks) eqn:Hin.
  - apply in_elem in Hin as Hin'. destruct (Hf x Hx Hk Hin') as [Hid Hc]. exists (f x). split; [|done].
    apply list_elem_of_fmap. exists x. by rewrite Hin.
  - exists x. split; [apply list_elem_of_fmap; exists x; by rewrite Hin|]. split; [done|apply counts_refl].
Qed.
Lemma counted_keeps d d' f ks : users d' = on_keys f ks (users d) ->
  (forall x, User.id (f x) = User.id x /\ User.failed_login_attempts (f x) = User.failed_login_attempts x /\
             User.locked_until (f x) = User.locked_until x) -> counted d d'.
Proof.
  intros E Hf. apply (counted_on_keys _ _ f ks E). intros x _ Hk _. destruct (Hf x) as (Hid & Ha & Hl).
  split; [congruence|]. unfold counts, locked_at. rewrite Ha, Hl. split; [lia|]. split; [done|lia].
Qed.
Ltac solve_counted :=
  first [by apply counted_same | by eapply counted_app
        | eapply counted_keeps; [cbn; reflexivity|intros ?; cbv zeta; repeat case_match; by cbn]].
Lemma counted_queue e : grows counted (queue_identity_status_events e).
Proof. grow. all: solve_counted. Qed.
Lemma counted_commit e : grows counted (commit e).
Proof. apply (grows_commit _), counted_queue. Qed.
Lemma counted_flush e : grows counted (flush e).
Proof. apply (grows_flush _), counted_queue. Qed.
#[local] Hint Resolve counted_commit counted_flush : grows.
Lemma counted_audit e a u b c d : grows counted (record_audit e a u b c d).
Proof. grow. all: solve_counted. Qed.
Lemma counted_context e : grows counted (authenticated_context e).
Proof. grow. all: solve_counted. Qed.
Lemma counted_product e : grows counted (product_session e).
Proof. grow. all: solve_counted. Qed.
#[local] Hint Resolve counted_audit counted_context counted_product : grows.

(** ** Wrong passwords *)


Section Attempt.
Context (d : IdentityDb) (e : Env) (u : User).
Hypothesis Hmax : max_login_failures (settings e) = max.
Hypothesis Hlock : login_lock_minutes (settings e) = lock.
Hypothesis Hnow : t0 <= now e <= t.
Hypothesis Hn : NoDup (keys (users d)).
Hypothesis Hu : u ∈ users d.
End Attempt.

(** Checking a second factor leaves the accounts alone. *)
Definition same_users (d d' : IdentityDb) : Prop := users d' = users d.
#[local] Instance same_users_preorder : PreOrder same_users.
Proof. split; [by intros d|]. unfold same_users. intros d1 d2 d3 H12 H23. congruence. Qed.

Section Attempts.
Context (d : IdentityDb) (e : Env).
Hypothesis Hd : schema_ok d.
Hypothesis Hmax : max_login_failures (settings e) = max.
Hypothesis Hlock : login_lock_minutes (settings e) = lock.
Hypothesis Hnow : t0 <= now e <= t.
End Attempts.


(** ** Counted guesses *)




End Lockout.

