(* ===== verification/PushModels.v ===== *)
(** The relational data model of the notification service
    [platform/ithute-push]: a record per SQLAlchemy class of [app/models.py]
    with all its columns, the record [PushDb] of its tables, and the constraints
    the columns declare. *)
From stdpp Require Import countable.
From S2P Require Import Prelude Session Schema.
#[local] Open Scope string_scope.
#[local] Open Scope Z_scope.

(** [application_states] has a string for a primary key. *)
Definition string_key (s : string) : uuid := Zpos (encode s).
Lemma string_key_inj a b : string_key a = string_key b -> a = b.
Proof. intros E. unfold string_key in E. apply (inj encode). congruence. Qed.

(** ** [platform/ithute-push/app/models.py] *)

(** [models.py]: [class PushEndpoint], every column. *)
Module PushEndpoint.
Record PushEndpoint : Type := mk {
  id : uuid;
  auth_user_id : uuid;
  auth_session_id : option uuid;
  application_id : string;
  device_key : string;
  platform : string;
  provider : string;
  endpoint_ciphertext : string;
  endpoint_hash : string;
  active : bool;
  last_seen_at : time;
  created_at : time;
  updated_at : time
}.
(** A row with its column defaults, as the first flush writes it. *)
Definition new_PushEndpoint (new_id : uuid) (now : time) : PushEndpoint := {|
  id := new_id;
  auth_user_id := 0;
  auth_session_id := None;
  application_id := EmptyString;
  device_key := EmptyString;
  platform := EmptyString;
  provider := EmptyString;
  endpoint_ciphertext := EmptyString;
  endpoint_hash := EmptyString;
  active := true;
  last_seen_at := now;
  created_at := now;
  updated_at := now
|}.
End PushEndpoint.
Notation PushEndpoint := PushEndpoint.PushEndpoint.
#[export] Instance eta_PushEndpoint : Eta PushEndpoint := fun r =>
  PushEndpoint.mk (PushEndpoint.id r) (PushEndpoint.auth_user_id r) (PushEndpoint.auth_session_id r) (PushEndpoint.application_id r) (PushEndpoint.device_key r) (PushEndpoint.platform r) (PushEndpoint.provider r) (PushEndpoint.endpoint_ciphertext r) (PushEndpoint.endpoint_hash r) (PushEndpoint.active r) (PushEndpoint.last_seen_at r) (PushEndpoint.created_at r) (PushEndpoint.updated_at r).
#[export] Instance keyed_PushEndpoint : Keyed PushEndpoint := PushEndpoint.id.

(** [models.py]: [class Message], every column. *)
Module Message.
Record Message : Type := mk {
  id : uuid;
  source_client_id : string;
  recipient_user_id : uuid;
  idempotency_key : option string;
  request_fingerprint : option string;
  title : string;
  body : string;
  route : option string;
  sound : option string;
  data_json : string;
  status : string;
  expires_at : time;
  created_at : time
}.
(** A row with its column defaults, as the first flush writes it. *)
Definition new_Message (new_id : uuid) (now : time) : Message := {|
  id := new_id;
  source_client_id := EmptyString;
  recipient_user_id := 0;
  idempotency_key := None;
  request_fingerprint := None;
  title := EmptyString;
  body := EmptyString;
  route := None;
  sound := None;
  data_json := "{}"%string;
  status := "queued"%string;
  expires_at := 0;
  created_at := now
|}.
End Message.
Notation Message := Message.Message.
#[export] Instance eta_Message : Eta Message := fun r =>
  Message.mk (Message.id r) (Message.source_client_id r) (Message.recipient_user_id r) (Message.idempotency_key r) (Message.request_fingerprint r) (Message.title r) (Message.body r) (Message.route r) (Message.sound r) (Message.data_json r) (Message.status r) (Message.expires_at r) (Message.created_at r).
#[export] Instance keyed_Message : Keyed Message := Message.id.

(** [models.py]: [class Delivery], every column. *)
Module Delivery.
Record Delivery : Type := mk {
  id : uuid;
  message_id : uuid;
  endpoint_id : uuid;
  status : string;
  attempts : Z;
  provider_message_id : option string;
  last_error : option string;
  next_attempt_at : time;
  delivered_at : option time;
  received_at : option time;
  opened_at : option time;
  created_at : time
}.
(** A row with its column defaults, as the first flush writes it. *)
Definition new_Delivery (new_id : uuid) (now : time) : Delivery := {|
  id := new_id;
  message_id := 0;
  endpoint_id := 0;
  status := "queued"%string;
  attempts := 0;
  provider_message_id := None;
  last_error := None;
  next_attempt_at := now;
  delivered_at := None;
  received_at := None;
  opened_at := None;
  created_at := now
|}.
End Delivery.
Notation Delivery := Delivery.Delivery.
#[export] Instance eta_Delivery : Eta Delivery := fun r =>
  Delivery.mk (Delivery.id r) (Delivery.message_id r) (Delivery.endpoint_id r) (Delivery.status r) (Delivery.attempts r) (Delivery.provider_message_id r) (Delivery.last_error r) (Delivery.next_attempt_at r) (Delivery.delivered_at r) (Delivery.received_at r) (Delivery.opened_at r) (Delivery.created_at r).
#[export] Instance keyed_Delivery : Keyed Delivery := Delivery.id.

(** [models.py]: [class AuthLifecycleEvent], every column. *)
Module AuthLifecycleEvent.
Record AuthLifecycleEvent : Type := mk {
  event_id : uuid;
  event_type : string;
  auth_user_id : option uuid;
  auth_session_id : option uuid;
  application_id : option string;
  occurred_at : time;
  details_json : string;
  created_at : time
}.
(** A row with its column defaults, as the first flush writes it. *)
Definition new_AuthLifecycleEvent (new_id : uuid) (now : time) : AuthLifecycleEvent := {|
  event_id := new_id;
  event_type := EmptyString;
  auth_user_id := None;
  auth_session_id := None;
  application_id := None;
  occurred_at := 0;
  details_json := "{}"%string;
  created_at := now
|}.
End AuthLifecycleEvent.
Notation AuthLifecycleEvent := AuthLifecycleEvent.AuthLifecycleEvent.
#[export] Instance eta_AuthLifecycleEvent : Eta AuthLifecycleEvent := fun r =>
  AuthLifecycleEvent.mk (AuthLifecycleEvent.event_id r) (AuthLifecycleEvent.event_type r) (AuthLifecycleEvent.auth_user_id r) (AuthLifecycleEvent.auth_session_id r) (AuthLifecycleEvent.application_id r) (AuthLifecycleEvent.occurred_at r) (AuthLifecycleEvent.details_json r) (AuthLifecycleEvent.created_at r).
#[export] Instance keyed_AuthLifecycleEvent : Keyed AuthLifecycleEvent := AuthLifecycleEvent.event_id.

(** [models.py]: [class RevokedAuthSession], every column. *)
Module RevokedAuthSession.
Record RevokedAuthSession : Type := mk {
  session_id : uuid;
  auth_user_id : uuid;
  application_id : string;
  revoked_at : time;
  event_id : uuid
}.
(** A row with its column defaults, as the first flush writes it. *)
Definition new_RevokedAuthSession (new_id : uuid) (now : time) : RevokedAuthSession := {|
  session_id := new_id;
  auth_user_id := 0;
  application_id := EmptyString;
  revoked_at := 0;
  event_id := 0
|}.
End RevokedAuthSession.
Notation RevokedAuthSession := RevokedAuthSession.RevokedAuthSession.
#[export] Instance eta_RevokedAuthSession : Eta RevokedAuthSession := fun r =>
  RevokedAuthSession.mk (RevokedAuthSession.session_id r) (RevokedAuthSession.auth_user_id r) (RevokedAuthSession.application_id r) (RevokedAuthSession.revoked_at r) (RevokedAuthSession.event_id r).
#[export] Instance keyed_RevokedAuthSession : Keyed RevokedAuthSession := RevokedAuthSession.session_id.

(** [models.py]: [class AuthUserState], every column. *)
Module AuthUserState.
Record AuthUserState : Type := mk {
  auth_user_id : uuid;
  active : bool;
  changed_at : time;
  event_id : uuid
}.
(** A row with its column defaults, as the first flush writes it. *)
Definition new_AuthUserState (new_id : uuid) (now : time) : AuthUserState := {|
  auth_user_id := new_id;
  active := false;
  changed_at := 0;
  event_id := 0
|}.
End AuthUserState.
Notation AuthUserState := AuthUserState.AuthUserState.
#[export] Instance eta_AuthUserState : Eta AuthUserState := fun r =>
  AuthUserState.mk (AuthUserState.auth_user_id r) (AuthUserState.active r) (AuthUserState.changed_at r) (AuthUserState.event_id r).
#[export] Instance keyed_AuthUserState : Keyed AuthUserState := AuthUserState.auth_user_id.

(** [models.py]: [class ApplicationState], every column. *)
Module ApplicationState.
Record ApplicationState : Type := mk {
  application_id : string;
  active : bool;
  changed_at : time;
  event_id : uuid
}.
(** A row with its column defaults, as the first flush writes it. *)
Definition new_ApplicationState (new_id : string) (now : time) : ApplicationState := {|
  application_id := new_id;
  active := false;
  changed_at := 0;
  event_id := 0
|}.
End ApplicationState.
Notation ApplicationState := ApplicationState.ApplicationState.
#[export] Instance eta_ApplicationState : Eta ApplicationState := fun r =>
  ApplicationState.mk (ApplicationState.application_id r) (ApplicationState.active r) (ApplicationState.changed_at r) (ApplicationState.event_id r).
#[export] Instance keyed_ApplicationState : Keyed ApplicationState := fun r => string_key (ApplicationState.application_id r).

(** * The database: one list of rows per table *)

Record PushDb : Type := mk_PushDb {
  push_endpoints : list PushEndpoint;
  messages : list Message;
  deliveries : list Delivery;
  auth_lifecycle_events : list AuthLifecycleEvent;
  revoked_auth_sessions : list RevokedAuthSession;
  auth_user_states : list AuthUserState;
  application_states : list ApplicationState
}.
#[export] Instance eta_PushDb : Eta PushDb := fun r =>
  mk_PushDb (push_endpoints r) (messages r) (deliveries r) (auth_lifecycle_events r) (revoked_auth_sessions r) (auth_user_states r) (application_states r).
Definition empty_PushDb : PushDb := mk_PushDb [] [] [] [] [] [] [].

(** * The constraints of the schema *)

Definition valid_PushEndpoint (r : PushEndpoint) : bool :=
  text_column 120 (PushEndpoint.application_id r) && text_column 200 (PushEndpoint.device_key r) && text_column 24 (PushEndpoint.platform r) && text_column 24 (PushEndpoint.provider r) && text_column 64 (PushEndpoint.endpoint_hash r).
Definition valid_Message (r : Message) : bool :=
  text_column 120 (Message.source_client_id r) && forallb (text_column 128) (opt_list (Message.idempotency_key r)) && forallb (text_column 64) (opt_list (Message.request_fingerprint r)) && text_column 160 (Message.title r) && text_column 500 (Message.body r) && forallb (text_column 500) (opt_list (Message.route r)) && forallb (text_column 64) (opt_list (Message.sound r)) && text_column 24 (Message.status r).
Definition valid_Delivery (r : Delivery) : bool :=
  text_column 24 (Delivery.status r) && int_column (Delivery.attempts r) && forallb (text_column 300) (opt_list (Delivery.provider_message_id r)) && forallb (text_column 500) (opt_list (Delivery.last_error r)).
Definition valid_AuthLifecycleEvent (r : AuthLifecycleEvent) : bool :=
  text_column 80 (AuthLifecycleEvent.event_type r) && forallb (text_column 120) (opt_list (AuthLifecycleEvent.application_id r)).
Definition valid_RevokedAuthSession (r : RevokedAuthSession) : bool :=
  text_column 120 (RevokedAuthSession.application_id r).
Definition valid_AuthUserState (r : AuthUserState) : bool :=
  true.
Definition valid_ApplicationState (r : ApplicationState) : bool :=
  text_column 120 (ApplicationState.application_id r).
(** A unique constraint leaves out the rows with a NULL column. *)
Definition source_key (m : Message) : list (string * string) :=
  map (fun k => (Message.source_client_id m, k)) (opt_list (Message.idempotency_key m)).
Definition endpoint_identity (r : PushEndpoint) : uuid * string * string :=
  (PushEndpoint.auth_user_id r, PushEndpoint.application_id r, PushEndpoint.device_key r).
Definition delivery_target (r : Delivery) : uuid * uuid := (Delivery.message_id r, Delivery.endpoint_id r).

Definition valid_rows (d : PushDb) : bool :=
  forallb valid_PushEndpoint (push_endpoints d) &&
  forallb valid_Message (messages d) &&
  forallb valid_Delivery (deliveries d) &&
  forallb valid_AuthLifecycleEvent (auth_lifecycle_events d) &&
  forallb valid_RevokedAuthSession (revoked_auth_sessions d) &&
  forallb valid_AuthUserState (auth_user_states d) &&
  forallb valid_ApplicationState (application_states d).
Definition check_schema (d : PushDb) : result unit :=
  ensure valid_rows d else_raise DataError "value out of range";
  let* _ := unique_column "push_endpoints_pkey" (keys (push_endpoints d)) in
  let* _ := unique_column "messages_pkey" (keys (messages d)) in
  let* _ := unique_column "deliveries_pkey" (keys (deliveries d)) in
  let* _ := unique_column "auth_lifecycle_events_pkey" (keys (auth_lifecycle_events d)) in
  let* _ := unique_column "revoked_auth_sessions_pkey" (keys (revoked_auth_sessions d)) in
  let* _ := unique_column "auth_user_states_pkey" (keys (auth_user_states d)) in
  let* _ := unique_column "application_states_pkey" (keys (application_states d)) in
  let* _ := unique_column "uq_push_endpoint_identity" (map endpoint_identity (push_endpoints d)) in
  let* _ := unique_column "uq_message_source_idempotency" (flat_map source_key (messages d)) in
  let* _ := unique_column "uq_delivery_message_endpoint" (map delivery_target (deliveries d)) in
  let* _ := foreign_key "deliveries_message_id_fkey" (map Delivery.message_id (deliveries d)) (keys (messages d)) in
  foreign_key "deliveries_endpoint_id_fkey" (map Delivery.endpoint_id (deliveries d)) (keys (push_endpoints d)).
