(* ===== verification/PushAuth.v ===== *)
(** The principals of the notification service [platform/ithute-push]: the
    verification of central tokens ([app/auth.py]) with the settings it reads
    ([app/config.py]), the request bodies and their validators
    ([app/schemas.py]), and the endpoint cipher ([app/crypto.py]). *)
From S2P Require Import Prelude Json Calendar Session Schema WebApi Sha256 Engines PushModels.
#[local] Open Scope string_scope.
#[local] Open Scope list_scope.
#[local] Open Scope Z_scope.

(** * [app/config.py] *)
Record Settings : Type := mk_Settings {
  auth_issuer : string;
  allowed_user_clients : string;
  allowed_service_clients : string;
  delegated_service_clients : string;
  allowed_admin_clients : string;
  auth_clock_skew_seconds : Z;
  auth_max_push_access_seconds : Z;
  auth_max_service_token_seconds : Z;
  auth_max_admin_token_seconds : Z;
  endpoint_encryption_key : string;
  max_attempts : Z
}.
Definition user_clients (s : Settings) : list string := csv_items (allowed_user_clients s).
Definition service_clients (s : Settings) : list string := csv_items (allowed_service_clients s).
Definition delegated_clients (s : Settings) : list string := csv_items (delegated_service_clients s).
Definition admin_clients (s : Settings) : list string := csv_items (allowed_admin_clients s).

(** * Third-party code *)
Class Providers := {
  (** [PyJWKClient.get_signing_key_from_jwt], and [jwt.decode] of RS256 with the
      issuer, the audience, the leeway and the required claims, at a time;
      [None] is a [PyJWTError], a [ValueError] or a [TypeError]. *)
  signing_key : string -> option string;
  jwt_decode : string -> string -> string -> Z -> list string -> time -> string -> option (list (string * Json));
  (** [Fernet(key)], [encrypt] with its initialisation vector, [decrypt]. *)
  fernet_key : string -> bool;
  fernet_encrypt : string -> string -> string -> string;
  fernet_decrypt : string -> string -> option string
}.

(** What a request draws from its surroundings. *)
Record Env : Type := mk_Env {
  settings : Settings;
  now : time;
  uuid4 : nat -> uuid;
  random_iv : string
}.

(** * [app/auth.py] *)
Record UserPrincipal : Type := mk_UserPrincipal {
  up_sub : string;
  up_client_id : string;
  up_session_id : string
}.
Record ServicePrincipal : Type := mk_ServicePrincipal {
  sp_client_id : string;
  sp_scopes : list string;
  sp_managed : bool
}.
Record AdminPrincipal : Type := mk_AdminPrincipal {
  ap_sub : string;
  ap_client_id : string;
  ap_session_id : string
}.

Section Verifier.
Context `{Providers}.
Definition claim : Type := string * Json.
(** [isinstance(v, int)]: booleans are integers. *)
Definition as_int (v : Json) : option Z :=
  match v with JInt z => Some z | JBool b => Some (Z.b2z b) | _ => None end.
Definition user_claims : list string :=
  ["iss"; "sub"; "aud"; "azp"; "sid"; "scope"; "token_use"; "jti"; "iat"; "nbf"; "exp"].
Definition service_claims : list string := ["iss"; "sub"; "aud"; "azp"; "scope"; "token_use"; "jti"; "iat"; "nbf"; "exp"].
Definition skew (s : Settings) : Z := Z.max 0 (auth_clock_skew_seconds s).

(** [_decode]: the claims with their [iat] and [exp]. *)
Definition decode (e : Env) (required : list string) (token : string) : result (list claim * Z * Z) :=
  match signing_key token with
  | None => AuthError "invalid central Auth token"
  | Some key =>
      match jwt_decode key (rstrip_slash (auth_issuer (settings e))) "ithute-push" (skew (settings e)) required (now e) token with
      | None => AuthError "invalid central Auth token"
      | Some claims =>
          match as_int (jget "iat" claims), as_int (jget "exp" claims) with
          | Some issued_at, Some expires_at =>
              ensure issued_at <=? now e / seconds 1 + skew (settings e)
                else_raise ValueError "token issued-at time is in the future";
              ensure issued_at <? expires_at else_raise ValueError "token lifetime is invalid";
              Ok (claims, issued_at, expires_at)
          | _, _ => AuthError "token timestamps are invalid"
          end
      end
  end.
(** [_scope] *)
Definition scope_of (claims : list claim) : result (list string) :=
  match jget "scope" claims with
  | JStr raw => Ok (List.filter str_truthy (str_split raw))
  | _ => AuthError "token scope is invalid"
  end.
Definition require_uuid_claim (claims : list claim) (name : string) : result string :=
  match jget name claims with
  | JStr value =>
      ensure str_truthy value else_raise ValueError ("missing " ++ name)%string;
      match uuid_of_str value with Ok _ => Ok value | Err _ => AuthError ("invalid " ++ name)%string end
  | _ => AuthError ("missing " ++ name)%string
  end.
(** [claims.get('azp')], approved for the purpose. *)
Definition approved_client (clients : list string) (claims : list claim) (msg : string) : result string :=
  match jget "azp" claims with
  | JStr client_id => ensure client_id in? clients else_raise ValueError msg; Ok client_id
  | _ => AuthError msg
  end.

(** [AuthVerifier.user] *)
Definition verify_user (e : Env) (token : string) : result UserPrincipal :=
  let* (claims, issued_at, expires_at) := decode e user_claims token in
  ensure is_str "push_access" (jget "token_use" claims) else_raise ValueError "Push access token required";
  let* scopes := scope_of claims in
  ensure "push.device" in? scopes else_raise ValueError "push.device scope required";
  let* client_id := approved_client (user_clients (settings e)) claims "unapproved product client" in
  let* sub := require_uuid_claim claims "sub" in
  let* sid := require_uuid_claim claims "sid" in
  ensure match jget "jti" claims with JStr jti => str_truthy jti | _ => false end else_raise ValueError "missing token id";
  ensure expires_at - issued_at <=? auth_max_push_access_seconds (settings e)
    else_raise ValueError "Push access token lifetime exceeds policy";
  Ok (mk_UserPrincipal sub client_id sid).
(** [AuthVerifier.service] *)
Definition verify_service (e : Env) (required_scope token : string) : result ServicePrincipal :=
  let* (claims, issued_at, expires_at) := decode e service_claims token in
  ensure is_str "service" (jget "token_use" claims) else_raise ValueError "service token required";
  let* scopes := scope_of claims in
  ensure required_scope in? scopes else_raise ValueError (required_scope ++ " scope required")%string;
  let* client_id := approved_client (service_clients (settings e)) claims "unapproved service client" in
  ensure is_str ("service:" ++ client_id) (jget "sub" claims)
    else_raise ValueError "service subject does not match authorized party";
  ensure expires_at - issued_at <=? auth_max_service_token_seconds (settings e)
    else_raise ValueError "service token lifetime exceeds policy";
  Ok (mk_ServicePrincipal client_id scopes (is_str "managed" (jget "service_auth" claims))).
(** [AuthVerifier.lifecycle] *)
Definition verify_lifecycle (e : Env) (token : string) : result unit :=
  let* (claims, issued_at, expires_at) := decode e service_claims token in
  ensure is_str "service" (jget "token_use" claims) else_raise ValueError "service token required";
  ensure is_str "ithute-auth" (jget "azp" claims) && is_str "service:ithute-auth" (jget "sub" claims)
    else_raise ValueError "Auth lifecycle principal required";
  let* scopes := scope_of claims in
  ensure "push.lifecycle" in? scopes else_raise ValueError "push.lifecycle scope required";
  ensure expires_at - issued_at <=? auth_max_service_token_seconds (settings e)
    else_raise ValueError "lifecycle token lifetime exceeds policy";
  Ok tt.
(** [AuthVerifier.admin] *)
Definition verify_admin (e : Env) (token : string) : result AdminPrincipal :=
  let* (claims, issued_at, expires_at) := decode e user_claims token in
  ensure is_str "push_admin" (jget "token_use" claims) else_raise ValueError "Push admin token required";
  let* scopes := scope_of claims in
  ensure "push.admin" in? scopes else_raise ValueError "push.admin scope required";
  let* client_id := approved_client (admin_clients (settings e)) claims "unapproved Push admin client" in
  let* sub := require_uuid_claim claims "sub" in
  let* sid := require_uuid_claim claims "sid" in
  ensure expires_at - issued_at <=? auth_max_admin_token_seconds (settings e)
    else_raise ValueError "Push admin token lifetime exceeds policy";
  Ok (mk_AdminPrincipal sub client_id sid).

(** ** The dependencies of the endpoints *)

Definition user_principal (e : Env) (credentials : option string) : result UserPrincipal :=
  let* token := bearer_token "missing bearer token" credentials in unauthorized (verify_user e token).
Definition service_principal (e : Env) (credentials : option string) : result ServicePrincipal :=
  let* token := bearer_token "missing bearer token" credentials in unauthorized (verify_service e "push.send" token).
Definition lifecycle_principal (e : Env) (credentials : option string) : result unit :=
  let* token := bearer_token "missing bearer token" credentials in unauthorized (verify_lifecycle e token).
Definition admin_principal (e : Env) (credentials : option string) : result AdminPrincipal :=
  let* token := bearer_token "missing admin bearer token" credentials in unauthorized (verify_admin e token).
Definition delegated_principal (e : Env) (credentials : option string) : result ServicePrincipal :=
  let* token := bearer_token "missing bearer token" credentials in
  let* principal := unauthorized (verify_service e "push.send.delegated" token) in
  ensure sp_client_id principal in? delegated_clients (settings e)
    else_raise HTTPException 403 "delegated push is restricted to approved platform services";
  ensure negb ((sp_client_id principal ==? "ithute-notification") && negb (sp_managed principal))
    else_raise HTTPException 401 "managed Ithute Notification service token required";
  Ok principal.

(** * [app/crypto.py] *)
Definition endpoint_encrypt (e : Env) (value : string) : result string :=
  let key := endpoint_encryption_key (settings e) in
  ensure fernet_key key else_raise ValueError "Fernet key must be 32 url-safe base64-encoded bytes.";
  Ok (fernet_encrypt key (random_iv e) value).
Definition endpoint_hash (value : string) : string := python_sha256 (bytes_of value).
End Verifier.

(** * [app/schemas.py] *)

Record DeviceRequest : Type := mk_DeviceRequest {
  dr_device_key : string;
  dr_platform : string;
  dr_provider_endpoint : string
}.
Definition valid_DeviceRequest (p : DeviceRequest) : bool :=
  between 8 200 (str_len (dr_device_key p)) && (dr_platform p in? ["android"; "ios"; "web"]) &&
  between 8 8192 (str_len (dr_provider_endpoint p)).

Record MessageRequest : Type := mk_MessageRequest {
  mr_recipient_sub : uuid;
  mr_title : string;
  mr_body : string;
  mr_route : option string;
  mr_sound : option string;
  mr_data : list (string * Json);
  mr_ttl_seconds : Z
}.
Definition valid_MessageRequest (p : MessageRequest) : bool :=
  between 1 160 (str_len (mr_title p)) && between 1 500 (str_len (mr_body p)) && opt_max 500 (mr_route p) &&
  opt_max 64 (mr_sound p) && (encoded_size (mr_data p) <=? 2048) && between 60 604800 (mr_ttl_seconds p).
Record DelegatedMessageRequest : Type := mk_DelegatedMessageRequest {
  dm_request : MessageRequest;
  dm_source_client_id : string
}.
Definition valid_DelegatedMessageRequest (p : DelegatedMessageRequest) : bool :=
  valid_MessageRequest (dm_request p) && between 2 120 (str_len (dm_source_client_id p)).

Definition event_types : list string :=
  ["session.revoked"; "account.disabled"; "account.enabled"; "application.disabled"; "application.enabled"].
Record AuthLifecycleEventRequest : Type := mk_AuthLifecycleEventRequest {
  le_event_id : uuid;
  le_type : string;
  le_sub : option uuid;
  le_sid : option uuid;
  le_client_id : option string;
  le_occurred_at : time;
  le_details : list (string * Json)
}.
(** [required_identifiers] *)
Definition required_identifiers (p : AuthLifecycleEventRequest) : bool :=
  if le_type p ==? "session.revoked" then is_some (le_sub p) && is_some (le_sid p) && is_some (le_client_id p)
  else if le_type p in? ["account.disabled"; "account.enabled"] then
    is_some (le_sub p) && negb (is_some (le_sid p)) && negb (is_some (le_client_id p))
  else is_some (le_client_id p) && negb (is_some (le_sub p)) && negb (is_some (le_sid p)).
Definition valid_AuthLifecycleEventRequest (at_ : time) (p : AuthLifecycleEventRequest) : bool :=
  (le_type p in? event_types) && forallb (fun s => between 1 120 (str_len s)) (opt_list (le_client_id p)) &&
  (le_occurred_at p <=? at_ + seconds 300) && (encoded_size (le_details p) <=? 4096) && required_identifiers p.
