(* ===== verification/PushService.v ===== *)
(** The endpoints of the notification service: [app/main.py],
    [app/platform_api.py] and [app/admin.py].

    An endpoint runs on a session it opens on the committed database and commits
    at most once, as its last write; an exception leaves the database as it was.
    Queueing a notification has two parts, around the flush that can meet a row
    another request has committed since: [begin_message] and [finish_message]. *)
From S2P Require Import Prelude Json Calendar Session Schema WebApi Sha256 Engines PushModels PushAuth.
#[local] Open Scope string_scope.
#[local] Open Scope list_scope.
#[local] Open Scope Z_scope.

#[export] Instance PushEndpoint_eq_dec : EqDecision PushEndpoint.
Proof. solve_decision. Defined.

(** * The unit of work *)

(** [onupdate=utcnow] of a row the flush writes. *)
Definition touch_updated (e : Env) (s : Session PushDb) : PushDb :=
  let touched r :=
    match find_row (key r) (push_endpoints (sql s)) with
    | Some old =>
        if (old !=? r) && (PushEndpoint.updated_at old =? PushEndpoint.updated_at r)
        then r <| PushEndpoint.updated_at := now e |> else r
    | None => r
    end in
  mem s <| push_endpoints ::= map touched |>.
Definition commit (e : Env) (s : Session PushDb) : result (Session PushDb) :=
  let d := touch_updated e s in
  let* _ := check_schema d in
  Ok (open_session d).

(** * [app/main.py] *)
Definition disabled_user (s : Session PushDb) (user_id : uuid) : bool :=
  match get auth_user_states user_id s with Some st => negb (AuthUserState.active st) | None => false end.
Definition disabled_application (s : Session PushDb) (client_id : string) : bool :=
  match get application_states (string_key client_id) s with Some st => negb (ApplicationState.active st) | None => false end.
Definition revoked_session (s : Session PushDb) (session_id : uuid) : bool := is_some (get revoked_auth_sessions session_id s).

(** [principal_uuid], [principal_session_uuid] *)
Definition principal_uuid (value msg : string) : result uuid :=
  match uuid_of_str value with Ok u => Ok u | Err _ => Err (HTTPException 401 msg) end.
Definition require_live_user_state (s : Session PushDb) (principal : UserPrincipal) : result (uuid * uuid) :=
  let* user_id := principal_uuid (up_sub principal) "central subject is not a UUID" in
  let* session_id := principal_uuid (up_session_id principal) "central session is not a UUID" in
  ensure negb (disabled_user s user_id) else_raise HTTPException 401 "central account disabled";
  ensure negb (disabled_application s (up_client_id principal)) else_raise HTTPException 401 "product disabled";
  ensure negb (revoked_session s session_id) else_raise HTTPException 401 "central session revoked";
  Ok (user_id, session_id).
Definition require_live_service_state (s : Session PushDb) (client_id : string) : result unit :=
  ensure negb (disabled_application s client_id) else_raise HTTPException 403 "product disabled"; Ok tt.

Definition provider_for (platform : string) : result string :=
  if platform ==? "android" then Ok "fcm" else if platform ==? "ios" then Ok "apns"
  else if platform ==? "web" then Ok "webpush" else Err (LookupError platform).

(** [payload.model_dump(mode='json')] *)
Definition dump_message (p : MessageRequest) : list (string * Json) := [
  ("recipient_sub", JStr (str_of_uuid (mr_recipient_sub p))); ("title", JStr (mr_title p)); ("body", JStr (mr_body p));
  ("route", opt_json (mr_route p)); ("sound", opt_json (mr_sound p)); ("data", JObj (mr_data p));
  ("ttl_seconds", JInt (mr_ttl_seconds p))].
Definition dump_delegated (p : DelegatedMessageRequest) : list (string * Json) :=
  dump_message (dm_request p) ++ [("source_client_id", JStr (dm_source_client_id p))].
(** [message_fingerprint], and [_fingerprint] of [platform_api.py] *)
Definition message_fingerprint (payload : list (string * Json)) : string :=
  python_sha256 (bytes_of (json_dumps_canonical (JObj payload))).
(** [clean_idempotency_key], [_clean_key] *)
Definition clean_idempotency_key (value : option string) : result (option string) :=
  match value with
  | None => Ok None
  | Some value =>
      let value := strip value in
      ensure str_truthy value && (str_len value <=? 128)
        else_raise HTTPException 422 "Idempotency-Key must contain 1 to 128 characters";
      Ok (Some value)
  end.

Record MessageResponse : Type := mk_MessageResponse {
  rs_id : uuid;
  rs_status : string;
  rs_delivery_count : Z;
  rs_deduplicated : bool
}.
Definition deliveries_of (d : PushDb) (message_id : uuid) : list Delivery :=
  List.filter (fun r => Delivery.message_id r =? message_id) (deliveries d).
(** [existing_message_response], [_existing] *)
Definition existing_message_response (d : PushDb) (existing : Message) (fingerprint : string) : result MessageResponse :=
  ensure Message.request_fingerprint existing ==? Some fingerprint
    else_raise HTTPException 409 "Idempotency-Key was already used for a different notification";
  Ok (mk_MessageResponse (Message.id existing) (Message.status existing) (zlen (deliveries_of d (Message.id existing))) true).

(** ** [apply_auth_event] *)
Record AuthLifecycleEventResponse : Type := mk_AuthLifecycleEventResponse {
  ls_event_id : uuid;
  ls_applied : bool;
  ls_deduplicated : bool
}.
Definition deactivate (r : PushEndpoint) : PushEndpoint := r <| PushEndpoint.active := false |>.
(** [for endpoint in db.scalars(select(PushEndpoint).where(p)): endpoint.active = False] *)
Definition deactivate_where (p : PushEndpoint -> bool) (s : Session PushDb) : Session PushDb :=
  put_all push_endpoints (map deactivate (select push_endpoints p s)) s.
(** [assert payload.x is not None] *)
Definition asserted {A} (o : option A) : result A := match o with Some a => Ok a | None => Err AssertionError end.

Definition apply_session_revoked (p : AuthLifecycleEventRequest) (s : Session PushDb) : result (bool * Session PushDb) :=
  let* sub := asserted (le_sub p) in
  let* sid := asserted (le_sid p) in
  let* client_id := asserted (le_client_id p) in
  let '(applied, s) :=
    match get revoked_auth_sessions sid s with
    | None => (true, add revoked_auth_sessions (RevokedAuthSession.mk sid sub client_id (le_occurred_at p) (le_event_id p)) s)
    | Some revoked => (negb (le_occurred_at p <? RevokedAuthSession.revoked_at revoked), s)
    end in
  Ok (applied, deactivate_where (fun r => PushEndpoint.auth_session_id r ==? Some sid) s).
Definition apply_account_state (p : AuthLifecycleEventRequest) (s : Session PushDb) : result (bool * Session PushDb) :=
  let* sub := asserted (le_sub p) in
  let desired_active := le_type p ==? "account.enabled" in
  let '(applied, s) :=
    match get auth_user_states sub s with
    | None => (true, add auth_user_states (AuthUserState.mk sub desired_active (le_occurred_at p) (le_event_id p)) s)
    | Some state =>
        if AuthUserState.changed_at state <=? le_occurred_at p
        then (true, put auth_user_states (AuthUserState.mk (AuthUserState.auth_user_id state) desired_active
                                            (le_occurred_at p) (le_event_id p)) s)
        else (false, s)
    end in
  Ok (applied, if applied && negb desired_active then deactivate_where (fun r => PushEndpoint.auth_user_id r =? sub) s else s).
Definition apply_application_state (p : AuthLifecycleEventRequest) (s : Session PushDb) : result (bool * Session PushDb) :=
  let* client_id := asserted (le_client_id p) in
  let desired_active := le_type p ==? "application.enabled" in
  let '(applied, s) :=
    match get application_states (string_key client_id) s with
    | None => (true, add application_states (ApplicationState.mk client_id desired_active (le_occurred_at p) (le_event_id p)) s)
    | Some state =>
        if ApplicationState.changed_at state <=? le_occurred_at p
        then (true, put application_states (ApplicationState.mk (ApplicationState.application_id state) desired_active
                                              (le_occurred_at p) (le_event_id p)) s)
        else (false, s)
    end in
  Ok (applied, if applied && negb desired_active
               then deactivate_where (fun r => PushEndpoint.application_id r ==? client_id) s else s).
Definition received_event (e : Env) (p : AuthLifecycleEventRequest) : AuthLifecycleEvent :=
  AuthLifecycleEvent.mk (le_event_id p) (le_type p) (le_sub p) (le_sid p) (le_client_id p) (le_occurred_at p)
    (dumps true "," ":" (JObj (le_details p))) (now e).
Definition apply_auth_event (e : Env) (p : AuthLifecycleEventRequest) (s : Session PushDb)
    : result (AuthLifecycleEventResponse * Session PushDb) :=
  if is_some (get auth_lifecycle_events (le_event_id p) s)
  then Ok (mk_AuthLifecycleEventResponse (le_event_id p) true true, s)
  else
    let s := add auth_lifecycle_events (received_event e p) s in
    let* (applied, s) :=
      if le_type p ==? "session.revoked" then apply_session_revoked p s
      else if le_type p in? ["account.disabled"; "account.enabled"] then apply_account_state p s
      else if le_type p in? ["application.disabled"; "application.enabled"] then apply_application_state p s
      else Ok (true, s) in
    let* s := commit e s in
    Ok (mk_AuthLifecycleEventResponse (le_event_id p) applied false, s).

(** ** Devices *)
Record DeviceResponse : Type := mk_DeviceResponse {
  ds_device_key : string;
  ds_application_id : string;
  ds_platform : string;
  ds_active : bool;
  ds_last_seen_at : time
}.
Definition device_response (r : PushEndpoint) : DeviceResponse :=
  mk_DeviceResponse (PushEndpoint.device_key r) (PushEndpoint.application_id r) (PushEndpoint.platform r)
    (PushEndpoint.active r) (PushEndpoint.last_seen_at r).
Definition own_device (user_id : uuid) (client_id device_key : string) (r : PushEndpoint) : bool :=
  (PushEndpoint.auth_user_id r =? user_id) && (PushEndpoint.application_id r ==? client_id) &&
  (PushEndpoint.device_key r ==? device_key).
Definition same_endpoint (client_id digest : string) (r : PushEndpoint) : bool :=
  (PushEndpoint.application_id r ==? client_id) && (PushEndpoint.endpoint_hash r ==? digest) && PushEndpoint.active r.
Definition register_device (e : Env) (payload : DeviceRequest) (principal : UserPrincipal) `{Providers} (s : Session PushDb)
    : result (DeviceResponse * Session PushDb) :=
  let* (user_id, session_id) := require_live_user_state s principal in
  let client_id := up_client_id principal in
  let endpoint := scalar push_endpoints (own_device user_id client_id (dr_device_key payload)) s in
  let* encrypted := endpoint_encrypt e (dr_provider_endpoint payload) in
  let digest := endpoint_hash (dr_provider_endpoint payload) in
  let duplicates := select push_endpoints (same_endpoint client_id digest) s in
  let other r := match endpoint with Some own => negb (PushEndpoint.id r =? PushEndpoint.id own) | None => true end in
  let s := put_all push_endpoints (map deactivate (List.filter other duplicates)) s in
  let* provider := provider_for (dr_platform payload) in
  let '(endpoint, s) :=
    match endpoint with
    | None =>
        let r := PushEndpoint.new_PushEndpoint (uuid4 e 0) (now e)
          <| PushEndpoint.auth_user_id := user_id |> <| PushEndpoint.auth_session_id := Some session_id |>
          <| PushEndpoint.application_id := client_id |> <| PushEndpoint.device_key := dr_device_key payload |>
          <| PushEndpoint.platform := dr_platform payload |> <| PushEndpoint.provider := provider |>
          <| PushEndpoint.endpoint_ciphertext := encrypted |> <| PushEndpoint.endpoint_hash := digest |> in
        (r, add push_endpoints r s)
    | Some own =>
        let r := own
          <| PushEndpoint.auth_session_id := Some session_id |> <| PushEndpoint.platform := dr_platform payload |>
          <| PushEndpoint.provider := provider |> <| PushEndpoint.endpoint_ciphertext := encrypted |>
          <| PushEndpoint.endpoint_hash := digest |> <| PushEndpoint.active := true |>
          <| PushEndpoint.last_seen_at := now e |> in
        (r, put push_endpoints r s)
    end in
  let* s := commit e s in
  Ok (device_response endpoint, s).
Definition list_devices (principal : UserPrincipal) (s : Session PushDb) : result (list DeviceResponse) :=
  let* (user_id, _) := require_live_user_state s principal in
  Ok (map device_response (select_ordered push_endpoints (desc PushEndpoint.last_seen_at)
    (fun r => (PushEndpoint.auth_user_id r =? user_id) && (PushEndpoint.application_id r ==? up_client_id principal)) s)).
Definition revoke_device (e : Env) (device_key : string) (principal : UserPrincipal) (s : Session PushDb)
    : result (Session PushDb) :=
  let* (user_id, _) := require_live_user_state s principal in
  match scalar push_endpoints (own_device user_id (up_client_id principal) device_key) s with
  | Some endpoint => commit e (put push_endpoints (deactivate endpoint) s)
  | None => Ok s
  end.

(** ** [queue_message], [delegated_message] *)

(** A notification that has passed the checks of its request, with the rows the
    request has read, before the flush. *)
Record Flight : Type := mk_Flight {
  fl_source : string;
  fl_key : option string;
  fl_fingerprint : string;
  fl_message : Message;
  fl_endpoints : list PushEndpoint;
  fl_ids : list uuid;
  fl_at : time
}.
Definition idempotent_message (source key : string) (m : Message) : bool :=
  (Message.source_client_id m ==? source) && (Message.idempotency_key m ==? Some key).
Definition new_flight (e : Env) (source : string) (key : option string) (fingerprint : string) (p : MessageRequest)
    (endpoints : list PushEndpoint) : Flight :=
  let m := Message.new_Message (uuid4 e 0) (now e)
    <| Message.source_client_id := source |> <| Message.recipient_user_id := mr_recipient_sub p |>
    <| Message.idempotency_key := key |>
    <| Message.request_fingerprint := match key with Some _ => Some fingerprint | None => None end |>
    <| Message.title := mr_title p |> <| Message.body := mr_body p |> <| Message.route := mr_route p |>
    <| Message.sound := mr_sound p |> <| Message.data_json := compact_raw (JObj (mr_data p)) |>
    <| Message.status := match endpoints with [] => "no_endpoints" | _ => "queued" end |>
    <| Message.expires_at := now e + seconds (mr_ttl_seconds p) |> in
  mk_Flight source key fingerprint m endpoints (map (fun i => uuid4 e (S i)) (seq 0 (length endpoints))) (now e).
(** A request answered at once, or one about to write. *)
Definition begun : Type := MessageResponse + Flight.
Definition begin_message (e : Env) (source : string) (key : option string) (fingerprint : string) (p : MessageRequest)
    (endpoints : list PushEndpoint) (s : Session PushDb) : result begun :=
  match (match key with Some key => scalar messages (idempotent_message source key) s | None => None end) with
  | Some existing => let* r := existing_message_response (sql s) existing fingerprint in Ok (inl r)
  | None => Ok (inr (new_flight e source key fingerprint p endpoints))
  end.
(** What [queue_message] notifies. *)
Definition live_endpoint (s : Session PushDb) (recipient : uuid) (client_id : string) (r : PushEndpoint) : bool :=
  (PushEndpoint.auth_user_id r =? recipient) && (PushEndpoint.application_id r ==? client_id) &&
  match PushEndpoint.auth_session_id r with
  | Some sid => negb (sid in? map RevokedAuthSession.session_id (revoked_auth_sessions (sql s)))
  | None => false
  end && PushEndpoint.active r.
Definition queue_message (e : Env) (p : MessageRequest) (principal : ServicePrincipal) (idempotency_key : option string)
    (s : Session PushDb) : result begun :=
  let client_id := sp_client_id principal in
  let* _ := require_live_service_state s client_id in
  let* key := clean_idempotency_key idempotency_key in
  let endpoints :=
    if disabled_user s (mr_recipient_sub p) then []
    else select push_endpoints (live_endpoint s (mr_recipient_sub p) client_id) s in
  begin_message e client_id key (message_fingerprint (dump_message p)) p endpoints s.
(** What [delegated_message] notifies. *)
Definition active_endpoint (recipient : uuid) (client_id : string) (r : PushEndpoint) : bool :=
  (PushEndpoint.auth_user_id r =? recipient) && (PushEndpoint.application_id r ==? client_id) && PushEndpoint.active r.
Definition delegated_message (e : Env) (p : DelegatedMessageRequest) (idempotency_key : option string) (s : Session PushDb)
    : result begun :=
  let source := strip (dm_source_client_id p) in
  ensure source in? user_clients (settings e) else_raise HTTPException 422 "unapproved target product namespace";
  let* key := clean_idempotency_key idempotency_key in
  let recipient := mr_recipient_sub (dm_request p) in
  begin_message e source key (message_fingerprint (dump_delegated p)) (dm_request p)
    (select push_endpoints (active_endpoint recipient source) s) s.

Definition new_deliveries (f : Flight) : list Delivery :=
  zip_with (fun id endpoint => Delivery.new_Delivery id (fl_at f)
    <| Delivery.message_id := Message.id (fl_message f) |> <| Delivery.endpoint_id := PushEndpoint.id endpoint |>)
    (fl_ids f) (fl_endpoints f).
(** [db.add(message)] and [db.flush()] on the database as it is by then; the
    deliveries and [db.commit()], or the rollback and the request that came first. *)
Definition finish_message (f : Flight) (d : PushDb) : result (MessageResponse * PushDb) :=
  let written := d <| messages ::= (fun l => l ++ [fl_message f]) |> in
  match check_schema written with
  | Err (IntegrityError c) =>
      match fl_key f with
      | None => Err (IntegrityError c)
      | Some key =>
          match scalar messages (idempotent_message (fl_source f) key) (open_session d) with
          | None => Err (IntegrityError c)
          | Some existing => let* r := existing_message_response d existing (fl_fingerprint f) in Ok (r, d)
          end
      end
  | Err x => Err x
  | Ok _ =>
      let written := written <| deliveries ::= (fun l => l ++ new_deliveries f) |> in
      let* _ := check_schema written in
      Ok (mk_MessageResponse (Message.id (fl_message f)) (Message.status (fl_message f)) (zlen (fl_endpoints f)) false, written)
  end.

(** ** [acknowledge_delivery], [message_summary] *)
Record DeliveryAckResponse : Type := mk_DeliveryAckResponse {
  as_id : uuid;
  as_state : string;
  as_received_at : option time;
  as_opened_at : option time
}.
(** [delivery.endpoint] and [delivery.message] *)
Definition related {R} `{Keyed R} (T : PushDb -> list R) (k : uuid) (s : Session PushDb) : result R :=
  match get T k s with Some r => Ok r | None => Err (AttributeError "'NoneType' object has no attribute") end.
Definition acknowledged (e : Env) (state : string) (r : Delivery) : Delivery :=
  let first o := match o with None => Some (now e) | Some t => Some t end in
  if state ==? "received" then r <| Delivery.received_at ::= first |>
  else if state ==? "opened" then r <| Delivery.received_at ::= first |> <| Delivery.opened_at ::= first |>
  else r.
Definition acknowledge_delivery (e : Env) (delivery_id : uuid) (state : string) (principal : UserPrincipal) (s : Session PushDb)
    : result (DeliveryAckResponse * Session PushDb) :=
  let* (user_id, _) := require_live_user_state s principal in
  let not_found := HTTPException 404 "delivery not found" in
  match get deliveries delivery_id s with
  | None => Err not_found
  | Some delivery =>
      let* endpoint := related push_endpoints (Delivery.endpoint_id delivery) s in
      ensure PushEndpoint.auth_user_id endpoint =? user_id else_raise not_found;
      ensure PushEndpoint.application_id endpoint ==? up_client_id principal else_raise not_found;
      let* message := related messages (Delivery.message_id delivery) s in
      ensure Message.source_client_id message ==? up_client_id principal else_raise not_found;
      let delivery := acknowledged e state delivery in
      let* s := commit e (put deliveries delivery s) in
      Ok (mk_DeliveryAckResponse (Delivery.id delivery) state (Delivery.received_at delivery) (Delivery.opened_at delivery), s)
  end.

Record MessageSummary : Type := mk_MessageSummary {
  sm_id : uuid;
  sm_source_client_id : string;
  sm_recipient_sub : uuid;
  sm_status : string;
  sm_deliveries : list (string * Z);
  sm_received_count : Z;
  sm_opened_count : Z
}.
(** [sorted(Counter(values).items())] *)
Definition sorted_counts (values : list string) : list (string * Z) :=
  map (fun k => (k, zlen (List.filter (fun v => v ==? k) values))) (sort_cmp String.compare (remove_dups values)).
Definition message_summary (message_id : uuid) (principal : ServicePrincipal) (s : Session PushDb) : result MessageSummary :=
  let* _ := require_live_service_state s (sp_client_id principal) in
  match get messages message_id s with
  | None => Err (HTTPException 404 "message not found")
  | Some message =>
      ensure Message.source_client_id message ==? sp_client_id principal else_raise HTTPException 404 "message not found";
      let rows := deliveries_of (mem s) message_id in
      Ok (mk_MessageSummary (Message.id message) (Message.source_client_id message) (Message.recipient_user_id message)
            (Message.status message) (sorted_counts (map Delivery.status rows))
            (zlen (List.filter (fun r => is_some (Delivery.received_at r)) rows))
            (zlen (List.filter (fun r => is_some (Delivery.opened_at r)) rows)))
  end.

(** * [app/admin.py] *)
Definition require_live_admin (s : Session PushDb) (principal : AdminPrincipal) : result unit :=
  let* user_id := uuid_of_str (ap_sub principal) in
  let* session_id := uuid_of_str (ap_session_id principal) in
  ensure negb (revoked_session s session_id) else_raise HTTPException 401 "central admin session revoked";
  ensure negb (disabled_user s user_id) else_raise HTTPException 401 "central admin account disabled";
  ensure negb (disabled_application s (ap_client_id principal)) else_raise HTTPException 403 "platform console disabled";
  Ok tt.
Definition count_of {R} `{Keyed R} (T : PushDb -> list R) (p : R -> bool) (s : Session PushDb) : Json := JInt (sql_count T p s).
Definition any {R} (_ : R) : bool := true.
Definition overview (e : Env) (principal : AdminPrincipal) (s : Session PushDb) : result Json :=
  let* _ := require_live_admin s principal in
  let since := now e - seconds (24 * 3600) in
  Ok (JObj [
    ("service", JStr "ithute-push");
    ("admin", JObj [("sub", JStr (ap_sub principal)); ("session_id", JStr (ap_session_id principal));
                    ("client_id", JStr (ap_client_id principal))]);
    ("endpoints", JObj [("total", count_of push_endpoints any s); ("active", count_of push_endpoints PushEndpoint.active s)]);
    ("messages", JObj [
      ("total", count_of messages any s);
      ("last_24h", count_of messages (fun r => since <=? Message.created_at r) s);
      ("queued", count_of messages (fun r => Message.status r ==? "queued") s);
      ("no_endpoints", count_of messages (fun r => Message.status r ==? "no_endpoints") s)]);
    ("deliveries", JObj [
      ("queued", count_of deliveries (fun r => Delivery.status r ==? "queued") s);
      ("failed", count_of deliveries (fun r => Delivery.status r ==? "failed") s);
      ("delivered", count_of deliveries (fun r => is_some (Delivery.delivered_at r)) s);
      ("opened", count_of deliveries (fun r => is_some (Delivery.opened_at r)) s)]);
    ("identity_projection", JObj [
      ("lifecycle_events", count_of auth_lifecycle_events any s);
      ("revoked_sessions", count_of revoked_auth_sessions any s);
      ("disabled_users", count_of auth_user_states (fun r => negb (AuthUserState.active r)) s);
      ("disabled_applications", count_of application_states (fun r => negb (ApplicationState.active r)) s)])]).
(** [recent_messages] *)
Definition recent_messages (principal : AdminPrincipal) (limit : Z) (s : Session PushDb)
    : result (list (uuid * string * uuid * string * time * time * Z)) :=
  let* _ := require_live_admin s principal in
  Ok (map (fun r => (Message.id r, Message.source_client_id r, Message.recipient_user_id r, Message.status r,
                     Message.created_at r, Message.expires_at r, zlen (deliveries_of (mem s) (Message.id r))))
        (take (Z.to_nat limit) (select_ordered messages (desc Message.created_at) any s))).
(** [applications]: client, active, endpoints, active endpoints, messages *)
Record ApplicationRow : Type := mk_ApplicationRow {
  ar_client_id : string;
  ar_active : bool;
  ar_endpoints : Z;
  ar_active_endpoints : Z;
  ar_messages : Z
}.
Definition application_row (s : Session PushDb) (client_id : string) : ApplicationRow :=
  let own r := PushEndpoint.application_id r ==? client_id in
  mk_ApplicationRow client_id (negb (disabled_application s client_id))
    (sql_count push_endpoints own s) (sql_count push_endpoints (fun r => own r && PushEndpoint.active r) s)
    (sql_count messages (fun r => Message.source_client_id r ==? client_id) s).
Definition applications (principal : AdminPrincipal) (s : Session PushDb) : result (list ApplicationRow) :=
  let* _ := require_live_admin s principal in
  let known := remove_dups (map PushEndpoint.application_id (push_endpoints (sql s))) in
  let others := List.filter (fun c => c notin? known) (remove_dups (map Message.source_client_id (messages (sql s)))) in
  Ok (sort_cmp (asc_str ar_client_id) (map (application_row s) (known ++ others))).

(** * The server *)
Inductive Call : Type :=
| AuthEvents (credentials : option string) (payload : AuthLifecycleEventRequest)
| PostDevices (credentials : option string) (payload : DeviceRequest)
| GetDevices (credentials : option string)
| DeleteDevice (credentials : option string) (device_key : string)
| PostMessages (credentials : option string) (payload : MessageRequest) (idempotency_key : option string)
| PostPlatformMessages (credentials : option string) (payload : DelegatedMessageRequest) (idempotency_key : option string)
| PostAck (credentials : option string) (delivery_id : uuid) (state : string)
| GetMessage (credentials : option string) (message_id : uuid)
| AdminOverview (credentials : option string)
| AdminApplications (credentials : option string)
| AdminMessages (credentials : option string) (limit : Z).
Inductive Reply : Type :=
| EventReply (r : AuthLifecycleEventResponse)
| DeviceReply (r : DeviceResponse)
| DevicesReply (r : list DeviceResponse)
| NoContent
| MessageReply (r : MessageResponse)
| AckReply (r : DeliveryAckResponse)
| SummaryReply (r : MessageSummary)
| JsonReply (r : Json)
| ApplicationsReply (r : list ApplicationRow)
| MessagesReply (r : list (uuid * string * uuid * string * time * time * Z)).

Section Serve.
Context `{Providers}.
(** What a request for a notification does before its flush. *)
Definition begin_call (e : Env) (c : Call) (d : PushDb) : option (result begun) :=
  match c with
  | PostMessages credentials payload key => Some (
      let* principal := service_principal e credentials in
      let* _ := validated (valid_MessageRequest payload) in
      queue_message e payload principal key (open_session d))
  | PostPlatformMessages credentials payload key => Some (
      let* _ := delegated_principal e credentials in
      let* _ := validated (valid_DelegatedMessageRequest payload) in
      delegated_message e payload key (open_session d))
  | _ => None
  end.
Definition complete (b : begun) (d : PushDb) : result (MessageResponse * PushDb) :=
  match b with inl r => Ok (r, d) | inr f => finish_message f d end.
Definition answer (e : Env) (c : Call) (d : PushDb) : result (Reply * PushDb) :=
  let s := open_session d in
  let reply {A} (mk : A -> Reply) (r : result (A * Session PushDb)) := let* (a, s) := r in Ok (mk a, sql s) in
  let read {A} (mk : A -> Reply) (r : result A) := let* a := r in Ok (mk a, d) in
  match c with
  | AuthEvents credentials payload =>
      let* _ := lifecycle_principal e credentials in
      let* _ := validated (valid_AuthLifecycleEventRequest (now e) payload) in
      reply EventReply (apply_auth_event e payload s)
  | PostDevices credentials payload =>
      let* principal := user_principal e credentials in
      let* _ := validated (valid_DeviceRequest payload) in
      reply DeviceReply (register_device e payload principal s)
  | GetDevices credentials => let* principal := user_principal e credentials in read DevicesReply (list_devices principal s)
  | DeleteDevice credentials device_key =>
      let* principal := user_principal e credentials in
      let* s := revoke_device e device_key principal s in Ok (NoContent, sql s)
  | PostMessages _ _ _ | PostPlatformMessages _ _ _ =>
      match begin_call e c d with
      | Some begun => let* b := begun in let* (r, d) := complete b d in Ok (MessageReply r, d)
      | None => Err AssertionError
      end
  | PostAck credentials delivery_id state =>
      let* principal := user_principal e credentials in
      let* _ := validated (state in? ["received"; "opened"]) in
      reply AckReply (acknowledge_delivery e delivery_id state principal s)
  | GetMessage credentials message_id =>
      let* principal := service_principal e credentials in read SummaryReply (message_summary message_id principal s)
  | AdminOverview credentials => let* principal := admin_principal e credentials in read JsonReply (overview e principal s)
  | AdminApplications credentials =>
      let* principal := admin_principal e credentials in read ApplicationsReply (applications principal s)
  | AdminMessages credentials limit =>
      let* principal := admin_principal e credentials in
      let* _ := validated (between 1 100 limit) in
      read MessagesReply (recent_messages principal limit s)
  end.
(** An exception rolls back. *)
Definition serve (e : Env) (c : Call) (d : PushDb) : result Reply * PushDb :=
  match answer e c d with Ok (r, d') => (Ok r, d') | Err x => (Err x, d) end.
End Serve.
