(* ===== verification/PushProviders.v ===== *)
(** The notification providers of [app/providers.py]: what is sent to FCM, APNs
    and Web Push, and how their answers become the errors the worker handles.
    The HTTP client, the credential libraries and [pywebpush] are parameters. *)
From S2P Require Import Prelude Json Calendar WebApi PushModels PushAuth.
#[local] Open Scope string_scope.
#[local] Open Scope list_scope.
#[local] Open Scope Z_scope.

(** The provider settings of [app/config.py]. *)
Record ProviderSettings : Type := mk_ProviderSettings {
  fcm_project_id : option string;
  fcm_android_channel_id : string;
  apns_team_id : option string;
  apns_key_id : option string;
  apns_bundle_id : option string;
  apns_use_sandbox : bool;
  vapid_subject : string;
  vapid_public_key : option string
}.

(** The exceptions of a delivery; [Unexpected] is any other, by its class. *)
Inductive provider_error : Type :=
| ProviderNotConfigured (msg : string)
| InvalidEndpointError (msg : string)
| PermanentProviderError (msg : string)
| RetryableProviderError (msg : string)
| Unexpected (type_name : string).
#[export] Instance provider_error_eq_dec : EqDecision provider_error.
Proof. solve_decision. Defined.
(** [ProviderResult]'s [provider_message_id], or an exception. *)
Definition outcome : Type := option string + provider_error.

(** [httpx.Response]: [response.json()] is [None] when the body is not JSON. *)
Record Response : Type := mk_Response {
  status_code : Z;
  json_body : option Json;
  apns_id : option string
}.
Definition is_error (r : Response) : bool := between 400 599 (status_code r).

(** Service-account credentials, up to their refreshed token. *)
Inductive credentials : Type :=
| MissingFile
| InvalidFile
| RefreshFails
| Token (token : string).
Inductive webpush_result : Type :=
| Pushed
| PushValueError
| WebPushException (response_status : option Z).

(** The world a delivery runs in. *)
Class Transports := {
  at_ : time;
  fcm_credentials : credentials;
  (** [read_secret_file] of the APNs and VAPID keys: [None] is [FileNotFoundError]. *)
  apns_private_key : option string;
  vapid_private_key : option string;
  (** [jwt.encode(claims, key, "ES256", {"kid": kid})]; [None] when it raises. *)
  es256_token : list (string * Json) -> string -> string -> option string;
  (** [client.post(url, headers, json)]: [None] is an [httpx.HTTPError]. *)
  http_post : string -> list (string * string) -> Json -> option Response;
  (** [webpush(subscription_info, data, vapid_private_key, vapid_claims, ttl)] *)
  webpush : Json -> string -> string -> list (string * Json) -> Z -> webpush_result
}.

(** * Payloads *)
(** [d.setdefault(k, v)] *)
Definition setdefault (k : string) (v : Json) (d : list (string * Json)) : list (string * Json) :=
  match dict_get k d with Some _ => d | None => dict_set k v d end.
(** [_payload], or the class of the exception when [data_json] is no JSON object. *)
Definition payload (m : Message) (delivery_id : string) : list (string * Json) + string :=
  match json_loads (str_or (Message.data_json m) "{}") with
  | Some (JObj data) =>
      let data := match Message.route m with
                  | Some route => if str_truthy route then setdefault "route" (JStr route) data else data
                  | None => data end in
      let data := setdefault "ithute_message_id" (JStr (str_of_uuid (Message.id m))) data in
      inl (if str_truthy delivery_id then setdefault "ithute_delivery_id" (JStr delivery_id) data else data)
  | Some _ => inr "AttributeError"
  | None => inr "JSONDecodeError"
  end.
(** [_string_data] *)
Definition string_data (data : list (string * Json)) : list (string * Json) :=
  map (fun '(k, v) => (k, JStr match v with JStr s => s | v => compact_raw v end)) data.
Definition sound_or_default (m : Message) : Json :=
  JStr (match Message.sound m with Some s => str_or s "default" | None => "default" end).
Definition filled (o : option string) : bool := match o with Some s => str_truthy s | None => false end.

Section Send.
Context `{Transports} (settings : ProviderSettings).
(** [_ttl_seconds] *)
Definition ttl_seconds (m : Message) : Z := Z.max 0 (Z.quot (Message.expires_at m - at_) (seconds 1)).

(** ** FCM *)

(** The codes of [error["details"]]; [None] when it cannot be iterated. *)
Definition error_codes (details : Json) : option (list string) :=
  let code detail := match detail with
    | JObj d => let code := jget "errorCode" d in if truthy code then [upper (py_str code)] else []
    | _ => [] end in
  match details with
  | JArr l => Some (flat_map code l)
  | JObj _ | JStr _ => Some []
  | v => if truthy v then None else Some []
  end.
(** [_fcm_error]: the status and the codes, or the class of an exception. *)
Definition fcm_error (r : Response) : (string * list string) + string :=
  match json_body r with
  | Some (JObj body) =>
      match match dict_get "error" body with Some error => error | None => JObj [] end with
      | JObj error =>
          let status := upper (match jget "status" error with v => if truthy v then py_str v else EmptyString end) in
          match error_codes (jget "details" error) with
          | Some codes => inl (status, codes)
          | None => inr "TypeError"
          end
      | _ => inr "AttributeError"
      end
  | _ => inl (EmptyString, [])
  end.
Definition fcm_answer (r : Response) : outcome :=
  match fcm_error r with
  | inr type_name => inr (Unexpected type_name)
  | inl (status, codes) =>
      let shown := str_or status (str_of_Z (status_code r)) in
      if ("UNREGISTERED" in? codes) || (status ==? "UNREGISTERED") || (status_code r =? 410)
      then inr (InvalidEndpointError "FCM registration token is no longer registered")
      else if status ==? "NOT_FOUND" then inr (ProviderNotConfigured "FCM project or messaging resource was not found")
      else if ("SENDER_ID_MISMATCH" in? codes) || ("THIRD_PARTY_AUTH_ERROR" in? codes) ||
              (status in? ["PERMISSION_DENIED"; "UNAUTHENTICATED"])
      then inr (ProviderNotConfigured ("FCM project credentials rejected the request (" ++ shown ++ ")")%string)
      else if (status_code r =? 429) || (500 <=? status_code r) || (status in? ["RESOURCE_EXHAUSTED"; "UNAVAILABLE"; "INTERNAL"])
      then inr (RetryableProviderError ("FCM temporary error " ++ shown)%string)
      else if is_error r then inr (PermanentProviderError ("FCM rejected message: " ++ shown)%string)
      else match json_body r with
           | Some (JObj body) => inl match jget "name" body with JStr name => Some name | _ => None end
           | Some _ => inr (Unexpected "AttributeError")
           | None => inr (Unexpected "JSONDecodeError")
           end
  end.
Definition fcm_body (token : string) (m : Message) (data : list (string * Json)) : Json :=
  JObj [("message", JObj [
    ("token", JStr token);
    ("notification", JObj [("title", JStr (Message.title m)); ("body", JStr (Message.body m))]);
    ("data", JObj (string_data data));
    ("android", JObj [
      ("priority", JStr "HIGH"); ("ttl", JStr (str_of_Z (ttl_seconds m) ++ "s")%string);
      ("notification", JObj [("sound", sound_or_default m); ("channel_id", JStr (fcm_android_channel_id settings))])])])].
Definition send_fcm (token : string) (m : Message) (delivery_id : string) : outcome :=
  match fcm_project_id settings with
  | None | Some EmptyString => inr (ProviderNotConfigured "FCM project is not configured")
  | Some project =>
      match fcm_credentials with
      | MissingFile => inr (ProviderNotConfigured "FCM credential file is missing")
      | InvalidFile => inr (ProviderNotConfigured "FCM service-account credentials are invalid")
      | RefreshFails => inr (RetryableProviderError "FCM credential refresh failed")
      | Token access =>
          if ttl_seconds m <=? 0 then inr (PermanentProviderError "notification expired before FCM delivery")
          else match payload m delivery_id with
          | inr type_name => inr (Unexpected type_name)
          | inl data =>
              match http_post ("https://fcm.googleapis.com/v1/projects/" ++ project ++ "/messages:send")%string
                      [("Authorization", ("Bearer " ++ access)%string)] (fcm_body token m data) with
              | None => inr (RetryableProviderError "FCM network request failed")
              | Some r => fcm_answer r
              end
          end
      end
  end.

(** ** APNs *)
Definition apns_answer (r : Response) : outcome :=
  match match json_body r with
        | Some (JObj body) => inl match jget "reason" body with v => if truthy v then py_str v else EmptyString end
        | Some _ => inr tt
        | None => inl EmptyString
        end with
  | inr _ => inr (Unexpected "AttributeError")
  | inl reason =>
      let shown := str_or reason (str_of_Z (status_code r)) in
      if (status_code r =? 410) || (reason in? ["BadDeviceToken"; "Unregistered"; "DeviceTokenNotForTopic"])
      then inr (InvalidEndpointError ("APNs endpoint is invalid: " ++ shown)%string)
      else if (status_code r =? 403) || (reason in? ["ExpiredProviderToken"; "InvalidProviderToken"; "MissingProviderToken"])
      then inr (ProviderNotConfigured ("APNs provider authentication failed: " ++ shown)%string)
      else if (status_code r =? 429) || (500 <=? status_code r)
      then inr (RetryableProviderError ("APNs temporary error " ++ str_of_Z (status_code r))%string)
      else if is_error r then inr (PermanentProviderError ("APNs rejected message: " ++ shown)%string)
      else inl (apns_id r)
  end.
Definition send_apns (token : string) (m : Message) (delivery_id : string) : outcome :=
  if negb (filled (apns_team_id settings) && filled (apns_key_id settings) && filled (apns_bundle_id settings))
  then inr (ProviderNotConfigured "APNs identity is not configured")
  else match apns_private_key with
  | None => inr (ProviderNotConfigured "APNs private key is missing")
  | Some private_key =>
      let now_seconds := at_ / seconds 1 in
      match es256_token [("iss", opt_json (apns_team_id settings)); ("iat", JInt now_seconds)] private_key
              (opt_str (apns_key_id settings)) with
      | None => inr (Unexpected "ValueError")
      | Some provider_token =>
          let host := if apns_use_sandbox settings then "https://api.sandbox.push.apple.com" else "https://api.push.apple.com" in
          if ttl_seconds m <=? 0 then inr (PermanentProviderError "notification expired before APNs delivery")
          else match payload m delivery_id with
          | inr type_name => inr (Unexpected type_name)
          | inl data =>
              match http_post (host ++ "/3/device/" ++ token)%string
                      [("authorization", ("bearer " ++ provider_token)%string); ("apns-topic", opt_str (apns_bundle_id settings));
                       ("apns-push-type", "alert"); ("apns-priority", "10");
                       ("apns-expiration", str_of_Z (now_seconds + ttl_seconds m))]
                      (JObj [("aps", JObj [("alert", JObj [("title", JStr (Message.title m)); ("body", JStr (Message.body m))]);
                                           ("sound", sound_or_default m)]);
                             ("data", JObj data)]) with
              | None => inr (RetryableProviderError "APNs network request failed")
              | Some r => apns_answer r
              end
          end
      end
  end.

(** ** Web Push *)
Definition webpush_answer (r : webpush_result) : outcome :=
  match r with
  | Pushed => inl None
  | PushValueError => inr (InvalidEndpointError "Web Push subscription is invalid")
  | WebPushException status =>
      if match status with Some c => c in? [404; 410] | None => false end
      then inr (InvalidEndpointError "Web Push subscription is no longer registered")
      else if match status with Some c => (c =? 429) || (500 <=? c) | None => false end
      then inr (RetryableProviderError ("Web Push temporary error " ++ match status with Some c => str_of_Z c | None => "None" end)%string)
      else inr (PermanentProviderError "Web Push delivery was rejected")
  end.
Definition send_webpush (subscription_json : string) (m : Message) (delivery_id : string) : outcome :=
  if negb (filled (vapid_public_key settings)) then inr (ProviderNotConfigured "Web Push VAPID is not configured")
  else match vapid_private_key with
  | None => inr (ProviderNotConfigured "VAPID private key is missing")
  | Some private_key =>
      match json_loads subscription_json, payload m delivery_id with
      | Some subscription, inl data =>
          webpush_answer (webpush subscription
            (json_dumps (JObj [("title", JStr (Message.title m)); ("body", JStr (Message.body m)); ("route", opt_json (Message.route m));
                               ("sound", opt_json (Message.sound m)); ("data", JObj data)]))
            private_key [("sub", JStr (vapid_subject settings))] (ttl_seconds m))
      | None, _ | _, inr "JSONDecodeError" => inr (InvalidEndpointError "Web Push subscription is invalid")
      | _, inr type_name => inr (Unexpected type_name)
      end
  end.

(** [deliver] *)
Definition deliver (provider endpoint : string) (m : Message) (delivery_id : string) : outcome :=
  if provider ==? "fcm" then send_fcm endpoint m delivery_id
  else if provider ==? "apns" then send_apns endpoint m delivery_id
  else if provider ==? "webpush" then send_webpush endpoint m delivery_id
  else inr (PermanentProviderError ("unsupported provider " ++ provider)%string).
End Send.
