(* ===== verification/PushWorker.v ===== *)
(** The delivery worker of the notification service, [app/worker.py]: one batch
    of due deliveries, each handed to its provider, and the status of the
    messages they belong to. *)
From S2P Require Import Prelude Json Calendar Session Schema WebApi PushModels PushAuth PushService PushProviders.
#[local] Open Scope string_scope.
#[local] Open Scope list_scope.
#[local] Open Scope Z_scope.

Definition BACKOFF_SECONDS : list Z := [60; 300; 1800; 7200].
Definition subset (l k : list string) : bool := forallb (fun x => x in? k) l.
Definition message_status (statuses : list string) : string :=
  match statuses with
  | [] => "no_endpoints"
  | _ =>
      if subset statuses ["delivered"] then "delivered"
      else if subset statuses ["failed"; "configuration_error"; "expired"] then "failed"
      else if ("delivered" in? statuses) && negb (("queued" in? statuses) || ("retry" in? statuses)) then "partial"
      else "processing"
  end.
(** The mapped object of the message is assigned its status. *)
Definition refresh_message_status (message_id : uuid) (s : Session PushDb) : Session PushDb :=
  match get messages message_id s with
  | Some m => put messages (m <| Message.status := message_status (map Delivery.status (deliveries_of (mem s) message_id)) |>) s
  | None => s
  end.

(** What the worker draws from its surroundings: the clock when the batch is
    selected, when a delivery is looked at and when its provider has answered,
    and the providers. *)
Record Shift : Type := mk_Shift {
  wk_settings : Settings;
  wk_select : time;
  wk_seen : uuid -> time;
  wk_done : uuid -> time;
  (** [cipher.decrypt]: [None] is its [RuntimeError] *)
  wk_decrypt : string -> option string;
  (** [deliver(settings, provider, endpoint, message, delivery_id)] *)
  wk_deliver : string -> string -> Message -> uuid -> outcome
}.
(** A call of a provider. *)
Record Sent : Type := mk_Sent {
  st_delivery : uuid;
  st_endpoint : PushEndpoint;
  st_message : Message
}.

Definition pending (r : Delivery) : bool := Delivery.status r in? ["queued"; "retry"].
Definition due (at_ : time) (r : Delivery) : bool := pending r && (Delivery.next_attempt_at r <=? at_).
Definition backoff (attempts : Z) : Z := nth (Z.to_nat (Z.min (attempts - 1) 3)) BACKOFF_SECONDS 0.

(** The call of [deliver] inside the [try]. *)
Definition attempt (w : Shift) (endpoint : PushEndpoint) (m : Message) (id : uuid) : outcome :=
  match wk_decrypt w (PushEndpoint.endpoint_ciphertext endpoint) with
  | Some value => wk_deliver w (PushEndpoint.provider endpoint) value m id
  | None => inr (Unexpected "RuntimeError")
  end.
Definition failed (msg : string) (r : Delivery) : Delivery :=
  r <| Delivery.status := "failed" |> <| Delivery.last_error := Some (str_take 500 msg) |>.
Definition retry_later (w : Shift) (delay : Z) (msg : string) (r : Delivery) : Delivery :=
  let r := r <| Delivery.last_error := Some (str_take 500 msg) |> in
  if max_attempts (wk_settings w) <=? Delivery.attempts r then r <| Delivery.status := "failed" |>
  else r <| Delivery.status := "retry" |> <| Delivery.next_attempt_at := wk_done w (Delivery.id r) + seconds delay |>.
(** The [except] and [else] branches, on the delivery with its attempt counted. *)
Definition settle (w : Shift) (o : outcome) (r : Delivery) : Delivery :=
  match o with
  | inl provider_message_id =>
      r <| Delivery.status := "delivered" |> <| Delivery.provider_message_id := provider_message_id |>
        <| Delivery.delivered_at := Some (wk_done w (Delivery.id r)) |> <| Delivery.last_error := None |>
  | inr (ProviderNotConfigured msg) =>
      r <| Delivery.status := "configuration_error" |> <| Delivery.last_error := Some (str_take 500 msg) |>
  | inr (InvalidEndpointError msg) | inr (PermanentProviderError msg) => failed msg r
  | inr (RetryableProviderError msg) => retry_later w (backoff (Delivery.attempts r)) msg r
  | inr (Unexpected type_name) =>
      retry_later w (nth 0 BACKOFF_SECONDS 0) ("unexpected provider failure: " ++ type_name)%string r
  end.
Definition invalidates (o : outcome) : bool := match o with inr (InvalidEndpointError _) => true | _ => false end.

(** The body of the loop, on the mapped objects. *)
Definition process (w : Shift) (item : Delivery) (s : Session PushDb) : result (list Sent * Session PushDb) :=
  let* message := related messages (Delivery.message_id item) s in
  let* endpoint := related push_endpoints (Delivery.endpoint_id item) s in
  let item := live (deliveries (mem s)) item in
  let close r s := refresh_message_status (Delivery.message_id r) (put deliveries r s) in
  if Message.expires_at message <=? wk_seen w (Delivery.id item)
  then Ok ([], close (item <| Delivery.status := "expired" |>) s)
  else if negb (PushEndpoint.active endpoint)
  then Ok ([], close (failed "endpoint inactive" item) s)
  else
    let o := attempt w endpoint message (Delivery.id item) in
    let s := if invalidates o then put push_endpoints (deactivate endpoint) s else s in
    Ok ([mk_Sent (Delivery.id item) endpoint message],
        close (settle w o (item <| Delivery.attempts ::= Z.succ |>)) s).
Fixpoint process_all (w : Shift) (items : list Delivery) (s : Session PushDb) : result (list Sent * Session PushDb) :=
  match items with
  | [] => Ok ([], s)
  | item :: items =>
      let* (sent, s) := process w item s in
      let* (more, s) := process_all w items s in
      Ok (sent ++ more, s)
  end.
(** [select ... order_by(next_attempt_at).with_for_update(skip_locked).limit(20)] *)
Definition batch (w : Shift) (s : Session PushDb) : list Delivery :=
  take 20 (select_ordered deliveries (asc Delivery.next_attempt_at) (due (wk_select w)) s).
(** [run_once]: the calls made, how many deliveries were processed, and the
    database; an exception rolls the batch back. *)
Definition run_once (e : Env) (w : Shift) (d : PushDb) : result (list Sent * Z) * PushDb :=
  let s := open_session d in
  match (let* (sent, s2) := process_all w (batch w s) s in let* s3 := commit e s2 in Ok (sent, s3)) with
  | Ok (sent, s) => (Ok (sent, zlen (batch w (open_session d))), sql s)
  | Err x => (Err x, d)
  end.
