(* ===== verification/PushFacts.v ===== *)
(** Facts the proofs about the notification service share: what its schema
    guarantees, and what each of its operations does to each table. *)
From S2P Require Import Prelude Json Calendar Session Schema WebApi Sha256 Engines PushModels PushAuth PushService PushProviders PushWorker.
#[local] Open Scope string_scope.
#[local] Open Scope list_scope.
#[local] Open Scope Z_scope.

(** * The schema *)
Record schema (d : PushDb) : Prop := {
  sc_valid : valid_rows d = true;
  sc_endpoints : NoDup (keys (push_endpoints d));
  sc_messages : NoDup (keys (messages d));
  sc_deliveries : NoDup (keys (deliveries d));
  sc_events : NoDup (keys (auth_lifecycle_events d));
  sc_revoked : NoDup (keys (revoked_auth_sessions d));
  sc_users : NoDup (keys (auth_user_states d));
  sc_applications : NoDup (keys (application_states d));
  sc_identity : NoDup (map endpoint_identity (push_endpoints d));
  sc_idempotency : NoDup (flat_map source_key (messages d));
  sc_target : NoDup (map delivery_target (deliveries d));
  sc_fk_message : forall k, k ∈ map Delivery.message_id (deliveries d) -> k ∈ keys (messages d);
  sc_fk_endpoint : forall k, k ∈ map Delivery.endpoint_id (deliveries d) -> k ∈ keys (push_endpoints d)
}.
Lemma check_schema_iff d : check_schema d = Ok tt <-> schema d.
Proof.
  split.
  - unfold check_schema. destruct (valid_rows d) eqn:Hv; [|done]. intros H.
    repeat (apply rbind_ok in H as (? & ?%unique_column_ok & H)).
    apply rbind_ok in H as (? & ?Hk & Hk2). constructor; eauto using foreign_key_ok.
  - intros [Hv ? ? ? ? ? ? ? ? ? ? Hm He]. unfold check_schema. rewrite Hv.
    repeat (rewrite unique_column_intro by done; cbn [rbind]).
    rewrite foreign_key_intro by done. cbn [rbind]. by apply foreign_key_intro.
Qed.
Lemma empty_schema : schema empty_PushDb.
Proof. by apply check_schema_iff. Qed.
Lemma commit_inv e s s' : commit e s = Ok s' ->
  s' = open_session (touch_updated e s) /\ schema (touch_updated e s).
Proof.
  unfold commit. destruct (check_schema _) as [[]|] eqn:E; [|done]. intros [= <-]. by rewrite check_schema_iff in E.
Qed.

(** * Rows of a freshly opened session *)
Section Fresh.
Context {R : Type} `{Keyed R} (T : PushDb -> list R).
Lemma get_open_session k d : get T k (open_session d) = find_row k (T d).
Proof. by apply get_synced. Qed.
Lemma scalar_open_session p d r : NoDup (keys (T d)) -> scalar T p (open_session d) = Some r -> r ∈ T d /\ p r = true.
Proof. intros. by apply (scalar_some T p (open_session d)). Qed.
Lemma scalar_open_none p d : NoDup (keys (T d)) ->
  scalar T p (open_session d) = None -> forall r, r ∈ T d -> p r = false.
Proof. intros Hn. by apply (scalar_none T p (open_session d)). Qed.
Lemma fresh_select p d : NoDup (keys (T d)) -> select T p (open_session d) = List.filter p (T d).
Proof. intros. by apply (select_synced T p (open_session d)). Qed.
End Fresh.
Lemma Forall2_compose {A B C} (P : A -> B -> Prop) (Q : B -> C -> Prop) (R : A -> C -> Prop) l k m :
  (forall x y z, P x y -> Q y z -> R x z) -> Forall2 P l k -> Forall2 Q k m -> Forall2 R l m.
Proof. intros HR H. revert m. induction H; inversion 1; subst; constructor; eauto. Qed.

(** * Endpoints that are only silenced *)
Definition quieter (r r' : PushEndpoint) : Prop := exists b t,
  r' = r <| PushEndpoint.active := b |> <| PushEndpoint.updated_at := t |> /\ (b = true -> PushEndpoint.active r = true).
#[export] Instance quieter_preorder : PreOrder quieter.
Proof.
  split.
  - intros []. by eexists _, _.
  - intros r r' r'' (b & t & -> & Hb) (b2 & t2 & -> & Hb2). exists b2, t2. split; [done|]. intros ->. by apply Hb, Hb2.
Qed.
Lemma quieter_key r r' : quieter r r' -> key r' = key r.
Proof. by intros (? & ? & -> & _). Qed.
Lemma quieter_deactivate r : quieter r (deactivate r).
Proof. exists false, (PushEndpoint.updated_at r). by destruct r. Qed.
(** Tables: every endpoint keeps its place. *)
Definition silenced : list PushEndpoint -> list PushEndpoint -> Prop := Forall2 quieter.
#[export] Instance silenced_preorder : PreOrder silenced.
Proof.
  unfold silenced. split.
  - intros l. induction l; by constructor.
  - intros l1 l2 l3 H12. revert l3. induction H12; inversion 1; subst; constructor; [by etrans|auto].
Qed.
Lemma silenced_map f l : (forall r, quieter r (f r)) -> silenced l (map f l).
Proof. intros Hf. induction l; constructor; auto. Qed.
Lemma silenced_elem l l' r' : silenced l l' -> r' ∈ l' -> exists r, r ∈ l /\ quieter r r'.
Proof.
  induction 1 as [|r x l l' Hq _ IH]; [by intros ?%not_elem_of_nil|].
  intros [->|Hr]%elem_of_cons; [exists r; split; [left|done]|].
  destruct (IH Hr) as (y & ? & ?). exists y. split; [by right|done].
Qed.
Lemma silenced_elem_l l l' r : silenced l l' -> r ∈ l -> exists r', r' ∈ l' /\ quieter r r'.
Proof.
  induction 1 as [|x r' l l' Hq _ IH]; [by intros ?%not_elem_of_nil|].
  intros [->|Hr]%elem_of_cons; [exists r'; split; [left|done]|].
  destruct (IH Hr) as (y & ? & ?). exists y. split; [by right|done].
Qed.
Lemma silenced_keys l l' : silenced l l' -> keys l' = keys l.
Proof. induction 1 as [|r r' l l' Hr _ IH]; simpl; [done|]. by rewrite IH, (quieter_key _ _ Hr). Qed.
Lemma touch_silenced e s : silenced (push_endpoints (mem s)) (push_endpoints (touch_updated e s)).
Proof.
  apply silenced_map. intros r. destruct (find_row _ _) as [old|]; [|done].
  destruct (_ && _); [|done]. exists (PushEndpoint.active r), (now e). by destruct r.
Qed.
Lemma put_silenced f r l : (forall x, quieter x (f x)) -> r ∈ l -> NoDup (keys l) -> silenced l (put_row (f r) l).
Proof.
  intros Hf Hr Hn. unfold put_row, silenced. rewrite <- (map_id l) at 1. apply Forall2_fmap_2, Forall_Forall2_diag, Forall_forall.
  intros x Hx. cbn beta. rewrite (quieter_key _ _ (Hf r)). bdestruct (key x =? key r); [|done].
  by rewrite (key_inj l x r).
Qed.

(** [deactivate_where] on a session whose endpoints are as committed. *)
Lemma deactivate_where_mem p s : synced push_endpoints s -> NoDup (keys (push_endpoints (mem s))) ->
  mem (deactivate_where p s) = mem s <| push_endpoints ::= map (fun r => if p r then deactivate r else r) |>.
Proof.
  intros Hs Hn. unfold deactivate_where, put_all. cbn. rewrite select_synced by done.
  pose proof (put_rows_filter p deactivate _ Hn (fun x => eq_refl)) as E.
  destruct (mem s). unfold set. cbn in *. exact (f_equal (fun l => mk_PushDb l _ _ _ _ _ _) E).
Qed.

(** The endpoints of [d'] are those of [d], some silenced; the rest is the same. *)
Definition hushed (d d' : PushDb) : Prop := exists l, d' = d <| push_endpoints := l |> /\ silenced (push_endpoints d) l.
#[export] Instance hushed_preorder : PreOrder hushed.
Proof.
  split.
  - intros d. exists (push_endpoints d). by destruct d.
  - intros d1 d2 d3 (l2 & -> & H12) (l3 & -> & H23). exists l3. split; [done|]. etrans; [done|exact H23].
Qed.
Lemma touch_hushed e s : hushed (mem s) (touch_updated e s).
Proof. eexists. split; [|apply (touch_silenced e s)]. unfold touch_updated. by destruct (mem s). Qed.
Lemma commit_hushed e s s' : commit e s = Ok s' -> exists d', s' = open_session d' /\ schema d' /\ hushed (mem s) d'.
Proof. intros [-> Hs]%commit_inv. exists (touch_updated e s). eauto using touch_hushed. Qed.

Section Rows.
Context {R : Type} `{Keyed R}.
Implicit Types (t : list R).
Lemma find_row_in_keys k t r : find_row k t = Some r -> k ∈ keys t.
Proof. intros E. rewrite <- (find_row_key _ _ _ E). apply list_elem_of_fmap_2. by eapply find_row_elem. Qed.
Lemma find_put_key k r t : key r = k -> k ∈ keys t -> find_row k (put_row r t) = Some r.
Proof. intros <-. apply find_put_same. Qed.
Lemma find_row_snoc k r t : key r = k -> find_row k t = None -> find_row k (t ++ [r]) = Some r.
Proof. intros <- E. rewrite find_app, E. cbn [find_row]. by rewrite Z.eqb_refl. Qed.
Lemma find_row_snoc_other k r t : key r <> k -> find_row k (t ++ [r]) = find_row k t.
Proof. intros Hn. rewrite find_app. cbn [find_row]. rewrite (proj2 (Z.eqb_neq _ _)) by done. by destruct (find_row k t). Qed.
Lemma keys_find k t : k ∈ keys t -> exists r, find_row k t = Some r.
Proof. intros Hk. destruct (find_row k t) as [r|] eqn:E; [eauto|]. by apply find_row_none in E. Qed.
End Rows.
