(* ===== verification/PushLifecycle.v ===== *)
(** The identity state the notification service keeps: the revoked sessions and
    the status of accounts and products are the projection of the events it has
    received, each status a last-writer-wins register. *)
From S2P Require Import Prelude Json Calendar Session Schema WebApi Sha256 Engines PushModels PushAuth PushService PushProviders PushWorker PushFacts.
#[local] Open Scope string_scope.
#[local] Open Scope list_scope.
#[local] Open Scope Z_scope.

(** * Specification: registers over the log of events *)

(** The latest event of a log; of two at the same time, the one received last. *)
Definition newer (current : option AuthLifecycleEvent) (ev : AuthLifecycleEvent) : option AuthLifecycleEvent :=
  match current with
  | None => Some ev
  | Some c => if AuthLifecycleEvent.occurred_at c <=? AuthLifecycleEvent.occurred_at ev then Some ev else Some c
  end.
Definition latest (l : list AuthLifecycleEvent) : option AuthLifecycleEvent := fold_left newer l None.
Definition concerns_account (user_id : uuid) (ev : AuthLifecycleEvent) : bool :=
  (AuthLifecycleEvent.event_type ev in? ["account.disabled"; "account.enabled"]) &&
  (AuthLifecycleEvent.auth_user_id ev ==? Some user_id).
Definition concerns_application (client_id : string) (ev : AuthLifecycleEvent) : bool :=
  (AuthLifecycleEvent.event_type ev in? ["application.disabled"; "application.enabled"]) &&
  (AuthLifecycleEvent.application_id ev ==? Some client_id).
Definition revokes (session_id : uuid) (ev : AuthLifecycleEvent) : bool :=
  (AuthLifecycleEvent.event_type ev ==? "session.revoked") && (AuthLifecycleEvent.auth_session_id ev ==? Some session_id).
Definition account_register (user_id : uuid) (log : list AuthLifecycleEvent) : option AuthUserState :=
  option_map (fun ev => AuthUserState.mk user_id (AuthLifecycleEvent.event_type ev ==? "account.enabled")
                          (AuthLifecycleEvent.occurred_at ev) (AuthLifecycleEvent.event_id ev))
    (latest (List.filter (concerns_account user_id) log)).
Definition application_register (client_id : string) (log : list AuthLifecycleEvent) : option ApplicationState :=
  option_map (fun ev => ApplicationState.mk client_id (AuthLifecycleEvent.event_type ev ==? "application.enabled")
                          (AuthLifecycleEvent.occurred_at ev) (AuthLifecycleEvent.event_id ev))
    (latest (List.filter (concerns_application client_id) log)).

Record projected (d : PushDb) : Prop := {
  pj_accounts : forall u, find_row u (auth_user_states d) = account_register u (auth_lifecycle_events d);
  pj_applications : forall c,
    find_row (string_key c) (application_states d) = application_register c (auth_lifecycle_events d);
  pj_sessions : forall k, k ∈ keys (revoked_auth_sessions d) <-> existsb (revokes k) (auth_lifecycle_events d) = true
}.

(** * Facts of the registers *)
Lemma latest_snoc l ev : latest (l ++ [ev]) = newer (latest l) ev.
Proof. unfold latest. by rewrite fold_left_app. Qed.
Lemma latest_elem l ev : latest l = Some ev -> ev ∈ l.
Proof.
  revert ev. induction l as [|x l IH] using rev_ind; intros ev; [done|].
  rewrite latest_snoc, elem_of_app, list_elem_of_singleton. destruct (latest l) as [c|]; simpl; [|intros [= ->]; auto].
  destruct (_ <=? _); intros [= ->]; auto.
Qed.
Lemma latest_none l : latest l = None -> l = [].
Proof.
  induction l as [|x l IH] using rev_ind; [done|]. rewrite latest_snoc.
  destruct (latest l); simpl; [|done]. by destruct (_ <=? _).
Qed.
Lemma latest_max l ev x : latest l = Some ev -> x ∈ l ->
  AuthLifecycleEvent.occurred_at x <= AuthLifecycleEvent.occurred_at ev.
Proof.
  revert ev. induction l as [|y l IH] using rev_ind; intros ev; [done|].
  rewrite latest_snoc, elem_of_app, list_elem_of_singleton. destruct (latest l) as [c|] eqn:E; simpl.
  - bdestruct (AuthLifecycleEvent.occurred_at c <=? AuthLifecycleEvent.occurred_at y); intros [= <-] [Hx| ->];
      try specialize (IH _ eq_refl Hx); lia.
  - apply latest_none in E as ->. intros [= ->] [?%not_elem_of_nil| ->]; [done|lia].
Qed.
(** Events at distinct times: the latest does not depend on the order. *)
Lemma latest_perm l k : l ≡ₚ k -> NoDup (map AuthLifecycleEvent.occurred_at l) -> latest l = latest k.
Proof.
  intros Hp Hn. destruct (latest l) as [a|] eqn:Ea, (latest k) as [b|] eqn:Eb.
  - f_equal. apply (map_inj_elem _ l _ _ Hn); [by apply latest_elem|rewrite Hp; by apply latest_elem|].
    assert (b ∈ l) as Hb by (rewrite Hp; by apply latest_elem). assert (a ∈ k) as Ha by (rewrite <- Hp; by apply latest_elem).
    pose proof (latest_max _ _ _ Ea Hb). pose proof (latest_max _ _ _ Eb Ha). lia.
  - apply latest_none in Eb as ->. by apply Permutation_nil_r in Hp as ->.
  - apply latest_none in Ea as ->. apply Permutation_nil_l in Hp. by subst.
  - done.
Qed.

(** * What an event does *)

(** The row of an account, or of a product, after an event about it, and
    whether the event was not older than the row. *)
Definition account_table (p : AuthLifecycleEventRequest) (u : uuid) (t : list AuthUserState) : list AuthUserState :=
  let row := AuthUserState.mk u (le_type p ==? "account.enabled") (le_occurred_at p) (le_event_id p) in
  match find_row u t with
  | None => t ++ [row]
  | Some st => if AuthUserState.changed_at st <=? le_occurred_at p then put_row row t else t
  end.
Definition account_applied (p : AuthLifecycleEventRequest) (u : uuid) (t : list AuthUserState) : bool :=
  match find_row u t with None => true | Some st => AuthUserState.changed_at st <=? le_occurred_at p end.
Definition application_table (p : AuthLifecycleEventRequest) (c : string) (t : list ApplicationState) : list ApplicationState :=
  let row := ApplicationState.mk c (le_type p ==? "application.enabled") (le_occurred_at p) (le_event_id p) in
  match find_row (string_key c) t with
  | None => t ++ [row]
  | Some st => if ApplicationState.changed_at st <=? le_occurred_at p then put_row row t else t
  end.
Definition application_applied (p : AuthLifecycleEventRequest) (c : string) (t : list ApplicationState) : bool :=
  match find_row (string_key c) t with None => true | Some st => ApplicationState.changed_at st <=? le_occurred_at p end.
Definition session_table (p : AuthLifecycleEventRequest) (sub sid : uuid) (c : string) (t : list RevokedAuthSession)
    : list RevokedAuthSession :=
  match find_row sid t with
  | None => t ++ [RevokedAuthSession.mk sid sub c (le_occurred_at p) (le_event_id p)]
  | Some _ => t
  end.
Definition silence (q : PushEndpoint -> bool) : list PushEndpoint -> list PushEndpoint :=
  map (fun r => if q r then deactivate r else r).
Lemma silence_silenced q l : silenced l (silence q l).
Proof. apply silenced_map. intros r. destruct (q r); [apply quieter_deactivate|done]. Qed.
Lemma silence_none q l : (forall r, q r = false) -> silence q l = l.
Proof. intros Hq. unfold silence. rewrite <- (map_id l) at 2. apply map_ext. intros r. by rewrite Hq. Qed.
Lemma deactivate_when (c : bool) (q : PushEndpoint -> bool) s : synced push_endpoints s -> NoDup (keys (push_endpoints (mem s))) ->
  mem (if c then deactivate_where q s else s) = mem s <| push_endpoints ::= silence (fun r => c && q r) |>.
Proof.
  intros Hs Hn. destruct c; [by apply deactivate_where_mem|].
  destruct s as [? []]. unfold set. cbn. by rewrite silence_none.
Qed.

Section Effects.
Context (p : AuthLifecycleEventRequest) (d : PushDb) (log : list AuthLifecycleEvent) (Hd : schema d).
Let s : Session PushDb := mk_Session d (d <| auth_lifecycle_events := log |>).
Let done_with (d' : PushDb) : PushDb := d' <| auth_lifecycle_events := log |>.

Lemma session_revoked_shape b s' : apply_session_revoked p s = Ok (b, s') -> exists sub sid c,
  le_sub p = Some sub /\ le_sid p = Some sid /\ le_client_id p = Some c /\
  mem s' = done_with (d <| revoked_auth_sessions ::= session_table p sub sid c |>
    <| push_endpoints ::= silence (fun r => PushEndpoint.auth_session_id r ==? Some sid) |>).
Proof.
  unfold apply_session_revoked, session_table, done_with.
  destruct (le_sub p) as [sub|], (le_sid p) as [sid|], (le_client_id p) as [c|]; try done.
  simpl. rewrite (get_synced revoked_auth_sessions sid s eq_refl). intros H. exists sub, sid, c. do 3 (split; [done|]).
  cbn in *. destruct (find_row sid (revoked_auth_sessions d)) eqn:E; injection H as <- <-;
    (rewrite deactivate_where_mem; [|done|exact (sc_endpoints d Hd)]); destruct d; cbn in *; unfold set; cbn; by rewrite E.
Qed.
Lemma account_state_shape b s' : apply_account_state p s = Ok (b, s') -> exists sub,
  le_sub p = Some sub /\ b = account_applied p sub (auth_user_states d) /\
  mem s' = done_with (d <| auth_user_states ::= account_table p sub |>
    <| push_endpoints ::= silence (fun r => b && negb (le_type p ==? "account.enabled") && (PushEndpoint.auth_user_id r =? sub)) |>).
Proof.
  unfold apply_account_state, account_table, account_applied, done_with. destruct (le_sub p) as [sub|]; [|done].
  simpl. rewrite (get_synced auth_user_states sub s eq_refl). intros H. exists sub. split; [done|]. unfold s in H. cbn in H.
  destruct (find_row sub (auth_user_states d)) as [st|] eqn:E;
    [apply find_row_key in E as Hk; change (key st) with (AuthUserState.auth_user_id st) in Hk;
     rewrite Hk in H; destruct (_ <=? _) eqn:Ec|]; injection H as <- <-; (split; [done|]);
    try (rewrite deactivate_when; [|done|exact (sc_endpoints d Hd)]);
    destruct d; cbn in *; unfold set; cbn; rewrite E, ?Ec; first [done|by rewrite silence_none].
Qed.
Lemma application_state_shape b s' : apply_application_state p s = Ok (b, s') -> exists c,
  le_client_id p = Some c /\ b = application_applied p c (application_states d) /\
  mem s' = done_with (d <| application_states ::= application_table p c |>
    <| push_endpoints ::= silence (fun r => b && negb (le_type p ==? "application.enabled") && (PushEndpoint.application_id r ==? c)) |>).
Proof.
  unfold apply_application_state, application_table, application_applied, done_with. destruct (le_client_id p) as [c|]; [|done].
  simpl. rewrite (get_synced application_states (string_key c) s eq_refl). intros H. exists c. split; [done|]. unfold s in H. cbn in H.
  destruct (find_row (string_key c) (application_states d)) as [st|] eqn:E;
    [apply find_row_key in E as Hk; change (key st) with (string_key (ApplicationState.application_id st)) in Hk;
     apply string_key_inj in Hk; rewrite Hk in H; destruct (_ <=? _) eqn:Ec|];
    injection H as <- <-; (split; [done|]);
    try (rewrite deactivate_when; [|done|exact (sc_endpoints d Hd)]);
    destruct d; cbn in *; unfold set; cbn; rewrite E, ?Ec; first [done|by rewrite silence_none].
Qed.
End Effects.

(** The database after an event that was not received before, up to endpoints
    silenced at the flush. *)
Definition account_types : list string := ["account.disabled"; "account.enabled"].
Definition application_types : list string := ["application.disabled"; "application.enabled"].
Inductive received (p : AuthLifecycleEventRequest) (d : PushDb) : PushDb -> Prop :=
| Received_session sub sid c : le_type p = "session.revoked" ->
    le_sub p = Some sub -> le_sid p = Some sid -> le_client_id p = Some c ->
    received p d (d <| revoked_auth_sessions ::= session_table p sub sid c |>
      <| push_endpoints ::= silence (fun r => PushEndpoint.auth_session_id r ==? Some sid) |>)
| Received_account sub : le_type p ∈ account_types -> le_sub p = Some sub ->
    received p d (d <| auth_user_states ::= account_table p sub |>
      <| push_endpoints ::= silence (fun r => account_applied p sub (auth_user_states d) &&
           negb (le_type p ==? "account.enabled") && (PushEndpoint.auth_user_id r =? sub)) |>)
| Received_application c : le_type p ∈ application_types -> le_client_id p = Some c ->
    received p d (d <| application_states ::= application_table p c |>
      <| push_endpoints ::= silence (fun r => application_applied p c (application_states d) &&
           negb (le_type p ==? "application.enabled") && (PushEndpoint.application_id r ==? c)) |>).
Lemma apply_auth_event_shape e p d r s' : schema d -> valid_AuthLifecycleEventRequest (now e) p = true ->
  apply_auth_event e p (open_session d) = Ok (r, s') ->
  is_some (find_row (le_event_id p) (auth_lifecycle_events d)) = true /\ s' = open_session d \/
  find_row (le_event_id p) (auth_lifecycle_events d) = None /\ exists d1 d', s' = open_session d' /\ schema d' /\
    received p d d1 /\ hushed (d1 <| auth_lifecycle_events := auth_lifecycle_events d ++ [received_event e p] |>) d'.
Proof.
  intros Hd Hv. unfold apply_auth_event. rewrite get_open_session. destruct (find_row _ _) as [ev|] eqn:Ef; [intros [= <- <-]; auto|].
  cbn [is_some]. intros H. right. split; [done|].
  apply rbind_ok in H as ([b s1] & H1 & H). apply rbind_ok in H as (s2 & Hc & [= <- <-]).
  apply commit_hushed in Hc as (d' & -> & Hs & Hh). unfold valid_AuthLifecycleEventRequest in Hv.
  rewrite !andb_true_iff in Hv. destruct Hv as [[[[Ht%in_elem _] _] _] _].
  revert H1. case_bool_decide as Er; [|destruct (_ in? _) eqn:Ea; [|destruct (le_type p in? ["application.disabled"; _]) eqn:Eb]].
  - intros (sub & sid & c & H1 & H2 & H3 & Em)%(session_revoked_shape _ _ _ Hd). rewrite Em in Hh. eauto 8 using received.
  - intros (sub & H1 & -> & Em)%(account_state_shape _ _ _ Hd). rewrite Em in Hh. apply in_elem in Ea. eauto 8 using received.
  - intros (c & H1 & -> & Em)%(application_state_shape _ _ _ Hd). rewrite Em in Hh. apply in_elem in Eb. eauto 8 using received.
  - exfalso. assert (forall l, (le_type p in? l) = false -> le_type p ∉ l) as Hn.
    { intros l E H. apply elem_in in H. congruence. }
    apply Hn in Ea, Eb. unfold event_types in Ht. rewrite !elem_of_cons in *. naive_solver.
Qed.

(** * The projection is kept *)
Lemma account_types_only t : t ∈ account_types -> t ∉ application_types /\ t <> "session.revoked".
Proof. intros [->|[->|[]%elem_of_nil]%elem_of_cons]%elem_of_cons; (split; [by apply (bool_decide_unpack _)|done]). Qed.
Lemma application_types_only t : t ∈ application_types -> t ∉ account_types /\ t <> "session.revoked".
Proof. intros [->|[->|[]%elem_of_nil]%elem_of_cons]%elem_of_cons; (split; [by apply (bool_decide_unpack _)|done]). Qed.
Lemma filter_snoc {A} (q : A -> bool) l x : List.filter q (l ++ [x]) = List.filter q l ++ (if q x then [x] else []).
Proof. by rewrite List.filter_app. Qed.
Section Registers.
Context (e : Env) (p : AuthLifecycleEventRequest) (log : list AuthLifecycleEvent).
Let ev := received_event e p.
Lemma account_other u : le_sub p <> Some u \/ le_type p ∉ account_types ->
  account_register u (log ++ [ev]) = account_register u log.
Proof.
  intros Hu. unfold account_register. rewrite filter_snoc. replace (concerns_account u ev) with false; [by rewrite app_nil_r|].
  symmetry. unfold concerns_account. destruct (_ in? _) eqn:E; [|done]. apply in_elem in E.
  apply bool_decide_eq_false. by destruct Hu.
Qed.
Lemma account_same u t : le_type p ∈ account_types -> le_sub p = Some u ->
  find_row u t = account_register u log -> find_row u (account_table p u t) = account_register u (log ++ [ev]).
Proof.
  intros Ht Hu Hf. unfold account_register in *. rewrite filter_snoc.
  replace (concerns_account u ev) with true.
  2: { symmetry. apply andb_true_iff. split; [by apply elem_in|by apply bool_decide_eq_true_2]. }
  rewrite latest_snoc. unfold account_table, newer. destruct (latest _) as [c|]; simpl in *; rewrite Hf; simpl.
  - destruct (_ <=? _); [|done]. simpl.
    apply find_put_key; [done|by eapply find_row_in_keys].
  - by apply find_row_snoc.
Qed.
Lemma account_table_other u u' t : u' <> u -> find_row u' (account_table p u t) = find_row u' t.
Proof.
  intros Hn. unfold account_table. destruct (find_row u t) as [st|].
  - destruct (_ <=? _); [|done]. by apply find_put_other.
  - apply find_row_snoc_other. by apply not_eq_sym.
Qed.
Lemma application_other c : le_client_id p <> Some c \/ le_type p ∉ application_types ->
  application_register c (log ++ [ev]) = application_register c log.
Proof.
  intros Hu. unfold application_register. rewrite filter_snoc.
  replace (concerns_application c ev) with false; [by rewrite app_nil_r|].
  symmetry. unfold concerns_application. destruct (_ in? _) eqn:E; [|done]. apply in_elem in E.
  apply bool_decide_eq_false. by destruct Hu.
Qed.
Lemma application_same c t : le_type p ∈ application_types -> le_client_id p = Some c ->
  find_row (string_key c) t = application_register c log ->
  find_row (string_key c) (application_table p c t) = application_register c (log ++ [ev]).
Proof.
  intros Ht Hu Hf. unfold application_register in *. rewrite filter_snoc.
  replace (concerns_application c ev) with true.
  2: { symmetry. apply andb_true_iff. split; [by apply elem_in|by apply bool_decide_eq_true_2]. }
  rewrite latest_snoc. unfold application_table, newer. destruct (latest _) as [x|]; simpl in *; rewrite Hf; simpl.
  - destruct (_ <=? _); [|done]. simpl.
    apply find_put_key; [done|by eapply find_row_in_keys].
  - by apply find_row_snoc.
Qed.
Lemma application_table_other c c' t : c' <> c ->
  find_row (string_key c') (application_table p c t) = find_row (string_key c') t.
Proof.
  intros Hn. assert (string_key c' <> string_key c) as Hk by (by intros ?%string_key_inj).
  unfold application_table. destruct (find_row _ t) as [st|].
  - destruct (_ <=? _); [|done]. by apply find_put_other.
  - apply find_row_snoc_other. by apply not_eq_sym.
Qed.
Lemma session_table_keys sub sid c t k : k ∈ keys (session_table p sub sid c t) <-> k = sid \/ k ∈ keys t.
Proof.
  unfold session_table. destruct (find_row sid t) as [r|] eqn:E.
  - split; [by right|]. intros [->|]; [|done]. by eapply find_row_in_keys.
  - unfold keys. rewrite map_app. cbn [map]. rewrite elem_of_app, list_elem_of_singleton. change (key _) with sid. tauto.
Qed.
End Registers.

Lemma received_projected e p d d1 d' : projected d -> received p d d1 ->
  hushed (d1 <| auth_lifecycle_events := auth_lifecycle_events d ++ [received_event e p] |>) d' -> projected d'.
Proof.
  intros [Ha Hb Hc] Hr (l & -> & _). assert (forall k, le_type p <> "session.revoked" ->
    existsb (revokes k) (auth_lifecycle_events d ++ [received_event e p]) = existsb (revokes k) (auth_lifecycle_events d)) as Hk.
  { intros k Hn. rewrite existsb_app. simpl. unfold revokes at 2. simpl. rewrite bool_decide_eq_false_2 by done. apply orb_false_r. }
  destruct Hr as [sub sid c Ht H1 H2 H3|sub Ht H1|c Ht H1]; split; cbn -[keys find_row existsb]; intros.
  - rewrite account_other; [done|]. right. rewrite Ht. by apply (bool_decide_unpack _).
  - rewrite application_other; [done|]. right. rewrite Ht. by apply (bool_decide_unpack _).
  - rewrite session_table_keys, Hc, existsb_app. simpl. unfold revokes at 3. simpl.
    rewrite Ht, H2, orb_false_r, orb_true_iff. rewrite (bool_decide_eq_true_2 (_ = _)) by done. simpl.
    rewrite bool_decide_eq_true. naive_solver.
  - destruct (decide (u = sub)) as [->|Hn]; [by apply account_same|].
    rewrite account_table_other, account_other by naive_solver. done.
  - rewrite application_other; [done|]. right. by apply account_types_only.
  - rewrite Hk; [done|]. by apply account_types_only.
  - rewrite account_other; [done|]. right. by apply application_types_only.
  - destruct (decide (c0 = c)) as [->|Hn]; [by apply application_same|].
    rewrite application_table_other, application_other by naive_solver. done.
  - rewrite Hk; [done|]. by apply application_types_only.
Qed.
Lemma quieter_checks r r' : quieter r r' -> valid_PushEndpoint r' = valid_PushEndpoint r /\ endpoint_identity r' = endpoint_identity r.
Proof. by intros (b & t & -> & _). Qed.
Lemma hushed_schema d d' : hushed d d' -> schema d -> schema d'.
Proof.
  intros (l & -> & Hl) [Hv ? ? ? ? ? ? ? Hi ? ? ? Hf]. assert (map endpoint_identity l = map endpoint_identity (push_endpoints d) /\
    forallb valid_PushEndpoint l = forallb valid_PushEndpoint (push_endpoints d)) as [Ei Ev].
  { clear -Hl. induction Hl as [|r r' k k' [E1 E2]%quieter_checks _ [IH1 IH2]]; simpl; [done|]. split; congruence. }
  pose proof (silenced_keys _ _ Hl) as Ek. split; cbn [push_endpoints messages deliveries auth_lifecycle_events revoked_auth_sessions
    auth_user_states application_states set]; try done.
  - unfold valid_rows in *. cbn -[valid_PushEndpoint]. by rewrite Ev.
  - change (NoDup (keys l)). by rewrite Ek.
  - change (NoDup (map endpoint_identity l)). by rewrite Ei.
  - change (forall k, k ∈ map Delivery.endpoint_id (deliveries d) -> k ∈ keys l). by rewrite Ek.
Qed.
(** A row added under a new key, or put in the place of one. *)
Lemma NoDup_snoc_row {R} `{Keyed R} (t : list R) r : NoDup (keys t) -> find_row (key r) t = None -> NoDup (keys (t ++ [r])).
Proof.
  intros Hn Hf%find_row_none. unfold keys in *. rewrite map_app. apply NoDup_app. split; [done|]. split.
  - intros k Hk [= ->]%list_elem_of_singleton. by apply Hf.
  - apply NoDup_singleton.
Qed.
Lemma forallb_snoc {A} (p : A -> bool) l x : forallb p l = true -> p x = true -> forallb p (l ++ [x]) = true.
Proof. intros Hl Hx. rewrite forallb_app, Hl. simpl. by rewrite Hx. Qed.
Lemma forallb_put {R} `{Keyed R} (p : R -> bool) t r : forallb p t = true -> p r = true -> forallb p (put_row r t) = true.
Proof.
  rewrite !forallb_forall. intros Ht Hr x Hx%list_elem_of_In. apply put_row_elem in Hx as [->|Hx]; [done|]. by apply Ht, list_elem_of_In.
Qed.
Lemma received_schema e p d d1 : schema d -> received p d d1 -> valid_AuthLifecycleEventRequest (now e) p = true ->
  find_row (le_event_id p) (auth_lifecycle_events d) = None ->
  schema (d1 <| auth_lifecycle_events := auth_lifecycle_events d ++ [received_event e p] |>).
Proof.
  intros Hd Hr Hv Hf. unfold valid_AuthLifecycleEventRequest in Hv. rewrite !andb_true_iff in Hv. destruct Hv as [[[[Ht%in_elem Hc] _] _] _].
  assert (text_column 80 (le_type p) = true) as Ht80
    by (unfold event_types in Ht; repeat (apply elem_of_cons in Ht as [->|Ht]; [done|]); by apply not_elem_of_nil in Ht).
  assert (forall c, le_client_id p = Some c -> text_column 120 c = true) as Hc120.
  { intros c E. rewrite E in Hc. cbn in Hc. rewrite andb_true_r in Hc. unfold between in Hc. by apply andb_true_iff in Hc as [_ ?]. }
  assert (schema (d <| auth_lifecycle_events := auth_lifecycle_events d ++ [received_event e p] |>)) as Hd2.
  { destruct Hd as [Hv ? ? ? He ? ? ? ? ? ? ? ?]. split; try done.
    - unfold valid_rows in *. rewrite !andb_true_iff in *. cbn -[valid_AuthLifecycleEvent]. repeat split; try tauto.
      apply forallb_snoc; [tauto|]. unfold valid_AuthLifecycleEvent. cbn. rewrite Ht80. destruct (le_client_id p) as [c|] eqn:E; [|done].
      cbn. by rewrite (Hc120 c).
    - by apply (NoDup_snoc_row (auth_lifecycle_events d) (received_event e p)). }
  set (log := auth_lifecycle_events d ++ [received_event e p]) in *. clearbody log.
  destruct Hr as [sub sid c Ety E1 E2 E3|sub Ety E1|c Ety E1].
  - apply (hushed_schema (d <| revoked_auth_sessions ::= session_table p sub sid c |> <| auth_lifecycle_events := log |>)).
    { eexists. split; [reflexivity|]. apply silence_silenced. }
    unfold set. cbn. destruct Hd2 as [Hv ? ? ? ? Hrv ? ? ? ? ? ? ?]. split; try done; unfold session_table.
    + unfold valid_rows in *. rewrite !andb_true_iff in *. cbn in *. repeat split; try tauto.
      destruct (find_row sid _); [tauto|]. apply forallb_snoc; [tauto|]. by apply Hc120.
    + cbn -[keys find_row]. destruct (find_row sid (revoked_auth_sessions d)) eqn:E; [done|]. by apply NoDup_snoc_row.
  - apply (hushed_schema (d <| auth_user_states ::= account_table p sub |> <| auth_lifecycle_events := log |>)).
    { eexists. split; [reflexivity|]. apply silence_silenced. }
    unfold set. cbn. destruct Hd2 as [Hv ? ? ? ? ? Hu ? ? ? ? ? ?]. split; try done; unfold account_table.
    + unfold valid_rows in *. rewrite !andb_true_iff in *. cbn in *. repeat split; try tauto. by apply forallb_forall.
    + cbn -[keys find_row]. destruct (find_row sub (auth_user_states d)) eqn:E; [|by apply NoDup_snoc_row].
      destruct (_ <=? _); [by rewrite keys_put|done].
  - apply (hushed_schema (d <| application_states ::= application_table p c |> <| auth_lifecycle_events := log |>)).
    { eexists. split; [reflexivity|]. apply silence_silenced. }
    unfold set. cbn. destruct Hd2 as [Hv ? ? ? ? ? ? Ha ? ? ? ? ?]. split; try done; unfold application_table.
    + unfold valid_rows in *. rewrite !andb_true_iff in *. cbn in *. repeat split; try tauto.
      destruct (find_row (string_key c) (application_states d)) as [st|]; [destruct (_ <=? _)|].
      * apply forallb_put; [tauto|by apply Hc120].
      * tauto.
      * apply forallb_snoc; [tauto|by apply Hc120].
    + cbn -[keys find_row]. destruct (find_row (string_key c) (application_states d)) eqn:E; [|by apply NoDup_snoc_row].
      destruct (_ <=? _); [by rewrite keys_put|done].
Qed.
Lemma commit_total e s : schema (mem s) -> commit e s = Ok (open_session (touch_updated e s)).
Proof. intros Hs. unfold commit. by rewrite (proj2 (check_schema_iff _) (hushed_schema _ _ (touch_hushed e s) Hs)). Qed.
Lemma apply_auth_event_total e p d : schema d -> valid_AuthLifecycleEventRequest (now e) p = true ->
  exists r s', apply_auth_event e p (open_session d) = Ok (r, s').
Proof.
  intros Hd Hv. unfold apply_auth_event. rewrite get_open_session. destruct (find_row _ _) as [ev|] eqn:Ef; [by eexists _, _|].
  cbn [is_some]. set (log := auth_lifecycle_events d ++ [received_event e p]).
  change (add auth_lifecycle_events (received_event e p) (open_session d)) with (mk_Session d (d <| auth_lifecycle_events := log |>)).
  assert (forall b s' d1, received p d d1 -> mem s' = d1 <| auth_lifecycle_events := log |> ->
    exists r s2, (let* s := commit e s' in Ok (mk_AuthLifecycleEventResponse (le_event_id p) b false, s)) = Ok (r, s2)) as Hc.
  { intros b s' d1 Hr Em. rewrite commit_total; [by eexists _, _|]. rewrite Em. by apply received_schema. }
  pose proof Hv as Hv'. unfold valid_AuthLifecycleEventRequest in Hv'. rewrite !andb_true_iff in Hv'. destruct Hv' as [[[[Ht%in_elem _] _] _] Hi].
  unfold required_identifiers in Hi. case_bool_decide as Er.
  - rewrite !andb_true_iff in Hi. destruct Hi as [[H1 H2] H3].
    destruct (apply_session_revoked p _) as [[b s']|x] eqn:E.
    + apply (session_revoked_shape p d log Hd) in E as (sub & sid & c & E1 & E2 & E3 & Em). eapply Hc, Em. by constructor.
    + exfalso. unfold apply_session_revoked in E. destruct (le_sub p), (le_sid p), (le_client_id p); try done.
      cbn in E. by destruct (get _ _ _).
  - destruct (le_type p in? ["account.disabled"; "account.enabled"]) eqn:Ea.
    + rewrite !andb_true_iff in Hi. destruct Hi as [[H1 _] _]. apply in_elem in Ea.
      destruct (apply_account_state p _) as [[b s']|x] eqn:E.
      * apply (account_state_shape p d log Hd) in E as (sub & E1 & -> & Em). eapply Hc, Em. by constructor.
      * exfalso. unfold apply_account_state in E. destruct (le_sub p); [|done]. cbn in E. destruct (get _ _ _); [|done].
        by destruct (_ <=? _).
    + rewrite !andb_true_iff in Hi. destruct Hi as [[H1 _] _].
      destruct (le_type p in? ["application.disabled"; "application.enabled"]) eqn:Eb.
      * apply in_elem in Eb. destruct (apply_application_state p _) as [[b s']|x] eqn:E.
        -- apply (application_state_shape p d log Hd) in E as (c & E1 & -> & Em). eapply Hc, Em. by constructor.
        -- exfalso. unfold apply_application_state in E. destruct (le_client_id p); [|done]. cbn in E. destruct (get _ _ _); [|done].
           by destruct (_ <=? _).
      * exfalso. assert (forall l, (le_type p in? l) = false -> le_type p ∉ l) as Hn.
        { intros l E H. apply elem_in in H. congruence. }
        apply Hn in Ea, Eb. unfold event_types in Ht. rewrite !elem_of_cons in *. naive_solver.
Qed.
