(* ===== verification/PushDevices.v ===== *)
(** The devices of the notification service: an active endpoint belongs to a
    live session of an enabled account in an enabled product, and no two active
    endpoints of a product are the same provider endpoint. *)
From S2P Require Import Prelude Json Calendar Session Schema WebApi Sha256 Engines PushModels PushAuth PushService PushProviders PushWorker PushFacts PushLifecycle.
#[local] Open Scope string_scope.
#[local] Open Scope list_scope.
#[local] Open Scope Z_scope.

Definition endpoint_live (d : PushDb) (r : PushEndpoint) : Prop := exists sid,
  PushEndpoint.auth_session_id r = Some sid /\ find_row sid (revoked_auth_sessions d) = None /\
  disabled_user (open_session d) (PushEndpoint.auth_user_id r) = false /\
  disabled_application (open_session d) (PushEndpoint.application_id r) = false.
Record devices_ok (d : PushDb) : Prop := {
  dv_live : forall r, r ∈ push_endpoints d -> PushEndpoint.active r = true -> endpoint_live d r;
  dv_unique : forall r1 r2, r1 ∈ push_endpoints d -> r2 ∈ push_endpoints d ->
    PushEndpoint.active r1 = true -> PushEndpoint.active r2 = true ->
    PushEndpoint.application_id r1 = PushEndpoint.application_id r2 ->
    PushEndpoint.endpoint_hash r1 = PushEndpoint.endpoint_hash r2 -> PushEndpoint.id r1 = PushEndpoint.id r2
}.

(** Liveness in terms of the events received. *)
Lemma disabled_user_log d u : projected d ->
  disabled_user (open_session d) u =
  match latest (List.filter (concerns_account u) (auth_lifecycle_events d)) with
  | Some ev => negb (AuthLifecycleEvent.event_type ev ==? "account.enabled")
  | None => false
  end.
Proof.
  intros Hp. unfold disabled_user. rewrite get_open_session, (pj_accounts _ Hp). unfold account_register. by destruct (latest _).
Qed.
Lemma disabled_application_log d c : projected d ->
  disabled_application (open_session d) c =
  match latest (List.filter (concerns_application c) (auth_lifecycle_events d)) with
  | Some ev => negb (AuthLifecycleEvent.event_type ev ==? "application.enabled")
  | None => false
  end.
Proof.
  intros Hp. unfold disabled_application. rewrite get_open_session, (pj_applications _ Hp). unfold application_register. by destruct (latest _).
Qed.
Lemma revoked_log d k : projected d -> find_row k (revoked_auth_sessions d) = None ->
  forall ev, ev ∈ auth_lifecycle_events d -> revokes k ev = false.
Proof.
  intros Hp Hn ev Hev. destruct (revokes k ev) eqn:E; [|done]. exfalso. apply find_row_none in Hn. apply Hn.
  apply (pj_sessions _ Hp), existsb_exists. exists ev. by rewrite <- list_elem_of_In.
Qed.

(** ** Silencing endpoints *)
Lemma quieter_live d r r' : quieter r r' -> endpoint_live d r -> endpoint_live d r'.
Proof. by intros (? & ? & -> & _). Qed.
Lemma quieter_active r r' : quieter r r' -> PushEndpoint.active r' = true -> PushEndpoint.active r = true.
Proof. intros (b & t & -> & Hb). apply Hb. Qed.
Lemma hushed_devices d d' : hushed d d' -> devices_ok d -> devices_ok d'.
Proof.
  intros (l & -> & Hl) [Hv Hu]. split.
  - intros r Hr Ha. destruct (silenced_elem _ _ _ Hl Hr) as (r0 & Hr0 & Hq).
    apply (quieter_live _ _ _ Hq). by apply (Hv r0 Hr0), (quieter_active _ _ Hq).
  - intros r1 r2 H1 H2 A1 A2. destruct (silenced_elem _ _ _ Hl H1) as (q1 & Q1 & Hq1), (silenced_elem _ _ _ Hl H2) as (q2 & Q2 & Hq2).
    apply (quieter_active _ _ Hq1) in A1. apply (quieter_active _ _ Hq2) in A2.
    specialize (Hu _ _ Q1 Q2 A1 A2). destruct Hq1 as (? & ? & -> & _), Hq2 as (? & ? & -> & _). exact Hu.
Qed.
Lemma silence_hushed q d : hushed d (d <| push_endpoints ::= silence q |>).
Proof. exists (silence q (push_endpoints d)). split; [by destruct d|apply silence_silenced]. Qed.
Lemma silence_elem q l r : r ∈ silence q l -> PushEndpoint.active r = true -> r ∈ l /\ q r = false.
Proof.
  unfold silence. rewrite list_elem_of_fmap. intros (x & -> & Hx). destruct (q x) eqn:E; [discriminate|auto].
Qed.

(** ** Events *)
Definition inactive_account (u : uuid) (t : list AuthUserState) : bool :=
  match find_row u t with Some st => negb (AuthUserState.active st) | None => false end.
Definition inactive_application (c : string) (t : list ApplicationState) : bool :=
  match find_row (string_key c) t with Some st => negb (ApplicationState.active st) | None => false end.
Lemma disabled_user_row d u : disabled_user (open_session d) u = inactive_account u (auth_user_states d).
Proof. unfold disabled_user. by rewrite get_open_session. Qed.
Lemma disabled_application_row d c : disabled_application (open_session d) c = inactive_application c (application_states d).
Proof. unfold disabled_application. by rewrite get_open_session. Qed.
Lemma account_disabled_step p sub u t :
  account_applied p sub t && negb (le_type p ==? "account.enabled") && (u =? sub) = false ->
  inactive_account u t = false -> inactive_account u (account_table p sub t) = false.
Proof.
  unfold inactive_account. destruct (decide (u = sub)) as [->|Hne]; [|by rewrite account_table_other].
  rewrite Z.eqb_refl, andb_true_r. unfold account_table, account_applied. destruct (find_row sub t) as [st|] eqn:E; intros Hq.
  - destruct (_ <=? _); [|by rewrite E]. rewrite find_put_key; [done|done|by eapply find_row_in_keys].
  - by rewrite find_row_snoc.
Qed.
Lemma application_disabled_step p c c' t :
  application_applied p c t && negb (le_type p ==? "application.enabled") && (c' ==? c) = false ->
  inactive_application c' t = false -> inactive_application c' (application_table p c t) = false.
Proof.
  unfold inactive_application. destruct (decide (c' = c)) as [->|Hne]; [|by rewrite application_table_other].
  rewrite (bool_decide_eq_true_2 (c = c)), andb_true_r by done. unfold application_table, application_applied.
  destruct (find_row (string_key c) t) as [st|] eqn:E; intros Hq.
  - destruct (_ <=? _); [|by rewrite E]. rewrite find_put_key; [done|done|by eapply find_row_in_keys].
  - by rewrite find_row_snoc.
Qed.
Lemma received_devices e p d d1 d' : devices_ok d -> received p d d1 ->
  hushed (d1 <| auth_lifecycle_events := auth_lifecycle_events d ++ [received_event e p] |>) d' -> devices_ok d'.
Proof.
  intros Hd Hr Hh. eapply hushed_devices; [exact Hh|]. clear Hh.
  assert (forall q t1 t2 t3, (forall r, r ∈ push_endpoints d -> q r = false -> endpoint_live d r ->
      endpoint_live (d <| revoked_auth_sessions := t1 |> <| auth_user_states := t2 |> <| application_states := t3 |>) r) ->
    devices_ok (d <| revoked_auth_sessions := t1 |> <| auth_user_states := t2 |> <| application_states := t3 |>
                  <| push_endpoints ::= silence q |> <| auth_lifecycle_events := auth_lifecycle_events d ++ [received_event e p] |>)) as Hgen.
  { intros q t1 t2 t3 Hq. destruct (hushed_devices _ _ (silence_hushed q d) Hd) as [_ Hu]. split; [|exact Hu].
    intros r Hin Ha. apply silence_elem in Hin as [Hin Hs]; [|done]. exact (Hq r Hin Hs (dv_live _ Hd r Hin Ha)). }
  destruct Hr as [sub sid c Ht H1 H2 H3|sub Ht H1|c Ht H1].
  - apply (Hgen _ _ (auth_user_states d) (application_states d)). intros r Hin Hq (k & Hk & Hn & ? & ?). exists k.
    split; [done|]. split; [|done]. apply find_row_none. change (k ∉ keys (session_table p sub sid c (revoked_auth_sessions d))). rewrite session_table_keys.
    intros [->|Hi]; [by rewrite Hk, bool_decide_eq_true_2 in Hq|by apply find_row_none in Hn].
  - apply (Hgen _ (revoked_auth_sessions d) _ (application_states d)). intros r Hin Hq (k & Hk & Hn & Hu & Ha). exists k.
    do 2 (split; [done|]). split; [|done]. rewrite disabled_user_row in *. by apply (account_disabled_step p sub).
  - apply (Hgen _ (revoked_auth_sessions d) (auth_user_states d)). intros r Hin Hq (k & Hk & Hn & Hu & Ha). exists k.
    do 3 (split; [done|]). rewrite disabled_application_row in *. by apply (application_disabled_step p c).
Qed.

(** ** Devices *)
Lemma require_live_ok d principal u k : require_live_user_state (open_session d) principal = Ok (u, k) ->
  disabled_user (open_session d) u = false /\ disabled_application (open_session d) (up_client_id principal) = false /\
  find_row k (revoked_auth_sessions d) = None.
Proof.
  unfold require_live_user_state, revoked_session. intros (u' & _ & H)%rbind_ok. apply rbind_ok in H as (k' & _ & H).
  destruct (disabled_user _ u') eqn:E1; [done|]. destruct (disabled_application _ _) eqn:E2; [done|].
  rewrite get_open_session in H. destruct (find_row k' _) eqn:E3; [done|]. by injection H as <- <-.
Qed.
Lemma filter_filter {A} (p q : A -> bool) l : List.filter p (List.filter q l) = List.filter (fun x => q x && p x) l.
Proof. induction l as [|x l IH]; simpl; [done|]. destruct (q x); simpl; [destruct (p x)|]; by rewrite IH. Qed.

(** A table where the other owners of a provider endpoint are silenced before
    [r] takes it over. *)
Lemma taken_over d client digest other r l :
  devices_ok d -> endpoint_live d r -> PushEndpoint.application_id r = client -> PushEndpoint.endpoint_hash r = digest ->
  (forall x, x ∈ push_endpoints d -> other x = false -> PushEndpoint.id x = PushEndpoint.id r) ->
  (forall x, x ∈ l -> x = r \/ x ∈ silence (fun x => same_endpoint client digest x && other x) (push_endpoints d)) ->
  devices_ok (d <| push_endpoints := l |>).
Proof.
  intros Hd Hr <- <- Ho Hl.
  assert (forall x, x ∈ l -> PushEndpoint.active x = true -> x = r \/ x ∈ push_endpoints d /\
    (same_endpoint (PushEndpoint.application_id r) (PushEndpoint.endpoint_hash r) x = true -> PushEndpoint.id x = PushEndpoint.id r)) as Hx.
  { intros x Hin Ha. destruct (Hl x Hin) as [->|Hs]; [auto|]. right. apply silence_elem in Hs as [Hs Hq]; [|done].
    split; [done|]. intros Hsame. rewrite Hsame in Hq. by apply Ho. }
  assert (forall x, PushEndpoint.active x = true -> PushEndpoint.application_id x = PushEndpoint.application_id r ->
    PushEndpoint.endpoint_hash x = PushEndpoint.endpoint_hash r ->
    same_endpoint (PushEndpoint.application_id r) (PushEndpoint.endpoint_hash r) x = true) as Hsame.
  { intros x Ha E1 E2. unfold same_endpoint. by rewrite Ha, !bool_decide_eq_true_2. }
  split.
  - intros x Hin Ha. destruct (Hx x Hin Ha) as [->|[Hi _]]; [done|by apply (dv_live _ Hd)].
  - intros x y Hxi Hyi Hxa Hya E1 E2.
    destruct (Hx x Hxi Hxa) as [->|[Hi Hs]], (Hx y Hyi Hya) as [->|[Hi' Hs']]; [done|symmetry; by apply Hs', Hsame|by apply Hs, Hsame|].
    by apply (dv_unique _ Hd).
Qed.

Lemma register_device_shape e payload principal `{Providers} d r s' : schema d ->
  register_device e payload principal (open_session d) = Ok (r, s') -> exists l d',
  s' = open_session d' /\ schema d' /\ hushed (d <| push_endpoints := l |>) d' /\
  (forall x, x ∈ push_endpoints d -> exists x', x' ∈ l /\ endpoint_identity x' = endpoint_identity x /\ PushEndpoint.id x' = PushEndpoint.id x) /\
  (devices_ok d -> devices_ok (d <| push_endpoints := l |>)).
Proof.
  intros Hd Hreg. apply rbind_ok in Hreg as ([u k] & (Hu & Ha & Hk)%require_live_ok & Hreg).
  apply rbind_ok in Hreg as (encrypted & _ & Hreg). apply rbind_ok in Hreg as (prov & _ & Hreg).
  rewrite fresh_select in Hreg by apply Hd. rewrite filter_filter in Hreg.
  set (client := up_client_id principal) in *. set (digest := endpoint_hash (dr_provider_endpoint payload)) in *.
  set (own := scalar push_endpoints (own_device u client (dr_device_key payload)) (open_session d)) in *.
  set (other := fun r => match own with Some own => negb (PushEndpoint.id r =? PushEndpoint.id own) | None => true end) in *.
  set (l1 := silence (fun x => same_endpoint client digest x && other x) (push_endpoints d)).
  assert (forall x, x ∈ push_endpoints d -> exists x', x' ∈ l1 /\ endpoint_identity x' = endpoint_identity x /\
    PushEndpoint.id x' = PushEndpoint.id x) as Hkeep.
  { intros x (x' & Hx' & b & t & -> & _)%(silenced_elem_l _ l1); [|apply silence_silenced]. eauto. }
  match type of Hreg with context [put_all push_endpoints ?rows ?s] => set (s1 := put_all push_endpoints rows s) in * end.
  assert (mem s1 = d <| push_endpoints := l1 |>) as Es1.
  { unfold s1, put_all. cbn [mem open_session]. unfold l1, silence. rewrite <- put_rows_filter by (apply Hd || done).
    destruct d. done. }
  assert (forall x, endpoint_live d x -> PushEndpoint.application_id x = client -> PushEndpoint.endpoint_hash x = digest ->
    (forall y, y ∈ push_endpoints d -> other y = false -> PushEndpoint.id y = PushEndpoint.id x) -> forall l,
    (forall y, y ∈ l -> y = x \/ y ∈ l1) -> devices_ok d -> devices_ok (d <| push_endpoints := l |>)) as Htake.
  { intros x Hx E1 E2 Ho l Hl Hv. by eapply taken_over. }
  destruct own as [o|] eqn:Eo.
  - apply scalar_open_session in Eo as [Hin Hp]; [|apply Hd].
    unfold own_device in Hp. rewrite !andb_true_iff, Z.eqb_eq, !bool_decide_eq_true in Hp. destruct Hp as [[Hp1 Hp2] Hp3].
    cbn beta iota zeta in Hreg. match type of Hreg with context [put push_endpoints ?row s1] => set (x := row) in * end.
    apply rbind_ok in Hreg as (s2 & (d' & -> & Hs' & Hh)%commit_hushed & [= _ <-]).
    exists (put_row x l1), d'. split; [done|]. split; [done|]. split; [unfold put in Hh; cbn [mem] in Hh; by rewrite Es1 in Hh|].
    split.
    + intros y Hy. destruct (Hkeep y Hy) as (y' & Hy' & E1 & E2). bdestruct (PushEndpoint.id y =? PushEndpoint.id o).
      * exists x. split; [apply put_row_in; rewrite <- (E : key y = key x), <- (E2 : key y' = key y); by apply list_elem_of_fmap_2|].
        by rewrite (key_inj (push_endpoints d) y o) by (apply Hd || done).
      * exists y'. split; [|done]. unfold put_row. apply list_elem_of_fmap. exists y'. split; [|done].
        rewrite (proj2 (Z.eqb_neq _ _)); [done|]. change (PushEndpoint.id y' <> PushEndpoint.id o). congruence.
    + apply (Htake x); [|done..| |intros y; apply put_row_elem].
      * exists k. cbn. by rewrite Hp1, Hp2.
      * intros y _ Hy. unfold other in Hy. by apply negb_false_iff, Z.eqb_eq in Hy.
  - cbn beta iota zeta in Hreg. match type of Hreg with context [add push_endpoints ?row s1] => set (x := row) in * end.
    apply rbind_ok in Hreg as (s2 & (d' & -> & Hs' & Hh)%commit_hushed & [= _ <-]).
    exists (l1 ++ [x]), d'. split; [done|]. split; [done|]. split; [unfold add in Hh; cbn [mem] in Hh; by rewrite Es1 in Hh|].
    split.
    + intros y (y' & Hy' & ?)%Hkeep. exists y'. split; [|done]. apply elem_of_app. by left.
    + apply (Htake x); [by exists k|done..|].
      intros y. rewrite elem_of_app, list_elem_of_singleton. tauto.
Qed.
