(* ===== verification/PushMessages.v ===== *)
(** Notifications and their deliveries: who a delivery is for, its life cycle,
    and the status of a message. *)
From S2P Require Import Prelude Json Calendar Session Schema WebApi Sha256 Engines PushModels PushAuth PushService PushProviders PushWorker PushFacts.
#[local] Open Scope string_scope.
#[local] Open Scope list_scope.
#[local] Open Scope Z_scope.

(** * Invariants *)

(** The statuses of the deliveries of a message. *)
Definition statuses (k : uuid) (l : list Delivery) : list string :=
  map Delivery.status (List.filter (fun r => Delivery.message_id r =? k) l).
(** The status is the one of the deliveries, or no delivery has been looked at. *)
Definition status_agrees (l : list Delivery) (m : Message) : Prop :=
  Message.status m = message_status (statuses (Message.id m) l) \/
  Message.status m = "queued" /\ statuses (Message.id m) l <> [] /\ Forall (fun st => st = "queued") (statuses (Message.id m) l).
(** A delivery is for a device of the recipient, in the product of the sender. *)
Definition addressed (d : PushDb) (v : Delivery) : Prop := exists m r,
  m ∈ messages d /\ r ∈ push_endpoints d /\ Message.id m = Delivery.message_id v /\ PushEndpoint.id r = Delivery.endpoint_id v /\
  PushEndpoint.auth_user_id r = Message.recipient_user_id m /\ PushEndpoint.application_id r = Message.source_client_id m.

Section Messages.
(** The [max_attempts] of the workers. *)
Context (attempts_limit : Z).
Record delivery_ok (v : Delivery) : Prop := {
  do_status : Delivery.status v ∈ ["queued"; "retry"; "delivered"; "failed"; "configuration_error"; "expired"];
  do_attempts : 0 <= Delivery.attempts v <= Z.max 1 attempts_limit;
  do_queued : Delivery.status v = "queued" -> Delivery.attempts v = 0;
  do_retry : Delivery.status v = "retry" -> 0 < Delivery.attempts v < attempts_limit;
  do_delivered : is_some (Delivery.delivered_at v) = (Delivery.status v ==? "delivered");
  do_opened : is_some (Delivery.opened_at v) = true -> is_some (Delivery.received_at v) = true
}.
Record messages_ok (d : PushDb) : Prop := {
  mo_addressed : forall v, v ∈ deliveries d -> addressed d v;
  mo_status : forall m, m ∈ messages d -> status_agrees (deliveries d) m;
  mo_delivery : forall v, v ∈ deliveries d -> delivery_ok v
}.

(** ** Endpoints change in place *)
Definition identities_kept (d d' : PushDb) : Prop := forall r, r ∈ push_endpoints d -> exists r',
  r' ∈ push_endpoints d' /\ endpoint_identity r' = endpoint_identity r /\ PushEndpoint.id r' = PushEndpoint.id r.
#[export] Instance identities_kept_preorder : PreOrder identities_kept.
Proof.
  split; [by intros d r Hr; eauto|]. intros d1 d2 d3 H12 H23 r (r2 & H2 & E2 & K2)%H12.
  destruct (H23 r2 H2) as (r3 & H3 & E3 & K3). exists r3. split; [done|]. split; congruence.
Qed.
Lemma hushed_identities d d' : hushed d d' -> identities_kept d d'.
Proof.
  intros (l & -> & Hl) r Hr. destruct (silenced_elem_l _ _ _ Hl Hr) as (r' & Hr' & b & t & -> & _). eauto.
Qed.
Lemma identities_messages d d' : messages d' = messages d -> deliveries d' = deliveries d ->
  identities_kept d d' -> messages_ok d -> messages_ok d'.
Proof.
  intros Em Ev Hk [Ha Hs Hd]. split; rewrite ?Em, ?Ev; [|done..]. intros v Hv.
  destruct (Ha v Hv) as (m & r & Hm & Hr & E1 & E2 & E3 & E4). destruct (Hk r Hr) as (r' & Hr' & Ei & Ek).
  injection Ei as Eu Ec _. exists m, r'. rewrite Em. do 3 (split; [done|]). repeat split; congruence.
Qed.
Lemma hushed_messages d d' : hushed d d' -> messages_ok d -> messages_ok d'.
Proof.
  intros Hh. apply identities_messages; [..|by apply hushed_identities]; destruct Hh as (l & -> & _); done.
Qed.

(** ** One delivery changes *)
Lemma statuses_put k v v' l : NoDup (keys l) -> v ∈ l -> key v' = key v -> Delivery.message_id v' = Delivery.message_id v ->
  k <> Delivery.message_id v \/ Delivery.status v' = Delivery.status v -> statuses k (put_row v' l) = statuses k l.
Proof.
  intros Hn Hv Hk Hm Hst. unfold statuses, put_row.
  assert (forall x, x ∈ l -> key x = key v' -> x = v) as Hx by (intros x Hx E; apply (key_inj l); [done..|congruence]).
  clear Hn Hv. induction l as [|x l IH]; simpl; [done|].
  assert (forall y, y ∈ l -> key y = key v' -> y = v) as Hx' by (intros y Hy; apply Hx; by right). specialize (IH Hx').
  bdestruct (key x =? key v').
  - rewrite (Hx x) by (done || left). rewrite Hm. bdestruct (Delivery.message_id v =? k); simpl; [|done].
    rewrite IH. f_equal. by destruct Hst.
  - destruct (_ =? k); simpl; [f_equal|]; done.
Qed.
(** [v'] takes the place of [v]; the status of its message is brought in line
    unless the status of the delivery is the same. *)
Definition redelivered (d : PushDb) (v' : Delivery) (refresh : bool) : PushDb :=
  let l := put_row v' (deliveries d) in
  d <| deliveries := l |> <| messages ::= map (fun m =>
    if refresh && (Message.id m =? Delivery.message_id v') then m <| Message.status := message_status (statuses (Message.id m) l) |> else m) |>.
Definition same_target (v v' : Delivery) : Prop :=
  Delivery.id v' = Delivery.id v /\ Delivery.message_id v' = Delivery.message_id v /\ Delivery.endpoint_id v' = Delivery.endpoint_id v.
Lemma redelivered_ok d v v' refresh : NoDup (keys (deliveries d)) -> messages_ok d -> v ∈ deliveries d -> same_target v v' -> delivery_ok v' ->
  (refresh = false -> Delivery.status v' = Delivery.status v) -> messages_ok (redelivered d v' refresh).
Proof.
  intros Hsc [Ha Hs Hd] Hv (Ek & Em & Ee) Hok Hst. split.
  - intros x Hx. assert (exists y, y ∈ deliveries d /\ Delivery.message_id y = Delivery.message_id x /\
      Delivery.endpoint_id y = Delivery.endpoint_id x) as (y & Hy & E1 & E2).
    { apply put_row_elem in Hx as [->|Hx]; [exists v|exists x]; auto. }
    destruct (Ha y Hy) as (m & r & Hm & Hr & F1 & F2 & F3 & F4).
    eexists _, r. split; [by apply (list_elem_of_fmap_2 (fun m => if refresh && _ then _ else m))|].
    cbn. destruct (_ && _); cbn; repeat split; congruence.
  - intros m' Hm'. apply list_elem_of_fmap in Hm' as (m & -> & Hm). unfold redelivered. cbn [deliveries set].
    destruct (refresh && _) eqn:E; [by left|]. cbn. unfold status_agrees.
    rewrite (statuses_put _ v) by (done ||
      (destruct refresh; [left; simpl in E; apply Z.eqb_neq in E; congruence|right; by apply Hst])).
    by apply Hs.
  - intros x [->|Hx]%put_row_elem; auto.
Qed.
Lemma redelivered_false d v' : redelivered d v' false = d <| deliveries ::= put_row v' |>.
Proof. unfold redelivered. cbn [andb]. destruct d. unfold set. cbn. f_equal. apply map_id. Qed.

(** ** A notification is queued *)
Record flight_ok (d : PushDb) (f : Flight) : Prop := {
  fo_endpoints : forall r, r ∈ fl_endpoints f -> exists r', r' ∈ push_endpoints d /\ PushEndpoint.id r' = PushEndpoint.id r /\
    PushEndpoint.auth_user_id r' = Message.recipient_user_id (fl_message f) /\
    PushEndpoint.application_id r' = Message.source_client_id (fl_message f);
  fo_status : Message.status (fl_message f) = match fl_endpoints f with [] => "no_endpoints" | _ => "queued" end;
  fo_ids : length (fl_ids f) = length (fl_endpoints f);
  fo_source : Message.source_client_id (fl_message f) = fl_source f;
  fo_key : Message.idempotency_key (fl_message f) = fl_key f;
  fo_fingerprint : Message.request_fingerprint (fl_message f) = match fl_key f with Some _ => Some (fl_fingerprint f) | None => None end
}.
Lemma flight_kept d d' f : identities_kept d d' -> flight_ok d f -> flight_ok d' f.
Proof.
  intros Hk [He ? ? ? ? ?]. split; [|done..]. intros r Hr. destruct (He r Hr) as (r1 & H1 & E1 & E2 & E3).
  destruct (Hk r1 H1) as (r2 & H2 & Ei & Ek). injection Ei as Eu Ec _. exists r2. repeat split; congruence || done.
Qed.
Lemma new_flight_ok e d source key fingerprint p endpoints :
  (forall r, r ∈ endpoints -> r ∈ push_endpoints d /\ PushEndpoint.auth_user_id r = mr_recipient_sub p /\ PushEndpoint.application_id r = source) ->
  flight_ok d (new_flight e source key fingerprint p endpoints).
Proof.
  intros Hr. split; try done.
  - intros r (H1 & H2 & H3)%Hr. exists r. done.
  - cbn. by rewrite length_map, length_seq.
Qed.
Lemma new_deliveries_elem f v : v ∈ new_deliveries f -> exists id r, r ∈ fl_endpoints f /\
  v = Delivery.new_Delivery id (fl_at f) <| Delivery.message_id := Message.id (fl_message f) |> <| Delivery.endpoint_id := PushEndpoint.id r |>.
Proof.
  unfold new_deliveries. intros Hv. apply elem_of_lookup_zip_with in Hv as (i & id & r & -> & _ & Hr).
  exists id, r. split; [by eapply list_elem_of_lookup_2|done].
Qed.
Lemma statuses_app k l l' : statuses k (l ++ l') = statuses k l ++ statuses k l'.
Proof. unfold statuses. by rewrite List.filter_app, map_app. Qed.
Lemma statuses_none k l : (forall v, v ∈ l -> Delivery.message_id v <> k) -> statuses k l = [].
Proof.
  intros Hl. unfold statuses. induction l as [|v l IH]; simpl; [done|].
  rewrite (proj2 (Z.eqb_neq _ _)) by (apply Hl; left). apply IH. intros x Hx. apply Hl. by right.
Qed.
Lemma statuses_new f : length (fl_ids f) = length (fl_endpoints f) ->
  statuses (Message.id (fl_message f)) (new_deliveries f) = map (fun _ => "queued") (fl_endpoints f).
Proof.
  unfold new_deliveries. generalize (fl_ids f), (fl_endpoints f). intros ids. induction ids as [|i ids IH]; intros [|r l]; try done.
  intros [= Hl]. unfold statuses in *. cbn. rewrite Z.eqb_refl. cbn. f_equal. by apply IH.
Qed.
Definition queued (d : PushDb) (f : Flight) : PushDb :=
  d <| messages ::= (fun l => l ++ [fl_message f]) |> <| deliveries ::= (fun l => l ++ new_deliveries f) |>.
Lemma queued_ok d f : schema (queued d f) -> flight_ok d f -> messages_ok d -> messages_ok (queued d f).
Proof.
  intros Hsc Hf [Ha Hs Hd]. assert (forall m, m ∈ messages d -> Message.id m <> Message.id (fl_message f)) as Hfresh.
  { intros m Hm E. pose proof (sc_messages _ Hsc) as Hn. cbn in Hn. rewrite map_app in Hn.
    apply NoDup_app in Hn as (_ & Hn & _). apply (Hn (Message.id m)); [by apply (list_elem_of_fmap_2 Message.id)|].
    rewrite E. left. }
  split.
  - intros v [Hv|Hv]%elem_of_app.
    + destruct (Ha v Hv) as (m & r & Hm & ?). exists m, r. split; [|done]. apply elem_of_app. by left.
    + apply new_deliveries_elem in Hv as (id & r & Hr & ->). destruct (fo_endpoints _ _ Hf r Hr) as (r' & Hr' & ? & ? & ?).
      exists (fl_message f), r'. split; [apply elem_of_app; right; left|]. done.
  - intros m [Hm| ->%list_elem_of_singleton]%elem_of_app.
    + change (status_agrees (deliveries d ++ new_deliveries f) m). unfold status_agrees. rewrite statuses_app, (statuses_none _ (new_deliveries f)), app_nil_r; [by apply Hs|].
      intros v (id & r & _ & ->)%new_deliveries_elem. cbn. by apply not_eq_sym, Hfresh.
    + change (status_agrees (deliveries d ++ new_deliveries f) (fl_message f)). unfold status_agrees.
      rewrite statuses_app, statuses_none, statuses_new; cbn [app];
        [|by apply (fo_ids _ _ Hf)|intros v Hv E; destruct (Ha v Hv) as (m & r & Hm & _ & Em & _); apply (Hfresh m Hm); congruence].
      rewrite (fo_status _ _ Hf). destruct (fl_endpoints f) as [|r l]; [by left|]. right. repeat split; [done|].
      apply Forall_fmap, Forall_true. done.
  - intros v [Hv|Hv]%elem_of_app; [auto|]. apply new_deliveries_elem in Hv as (id & r & _ & ->). split; cbn; try done.
    + repeat constructor.
    + lia.
Qed.
(** The answer to a request whose key was used before, or the rows it writes. *)
Lemma finish_message_shape f d r d' : schema d -> finish_message f d = Ok (r, d') ->
  d' = d /\ (exists k m, fl_key f = Some k /\ m ∈ messages d /\ idempotent_message (fl_source f) k m = true /\
              Message.request_fingerprint m = Some (fl_fingerprint f) /\ rs_id r = Message.id m /\ rs_deduplicated r = true) \/
  d' = queued d f /\ schema d' /\ rs_id r = Message.id (fl_message f) /\ rs_deduplicated r = false.
Proof.
  intros Hd. unfold finish_message. destruct (check_schema _) as [[]|x] eqn:E.
  - intros ([] & Hs%check_schema_iff & [= <- <-])%rbind_ok. right. done.
  - destruct x; try done. destruct (fl_key f) as [k|]; [|done].
    destruct (scalar _ _ _) as [m|] eqn:Em; [|done]. apply scalar_open_session in Em as [Hm Hi]; [|apply Hd].
    unfold existing_message_response. case_bool_decide as Ef; [|done]. intros [= <- <-]. left. split; [done|]. exists k, m. done.
Qed.

(** ** A delivery is acknowledged *)
Lemma acknowledged_ok e state v : delivery_ok v -> delivery_ok (acknowledged e state v).
Proof.
  intros [? ? ? ? ? Ho]. unfold acknowledged. destruct (state ==? _); [|destruct (state ==? _)]; split; cbn; try done.
  - intros Hop. specialize (Ho Hop). by destruct (Delivery.received_at v).
  - intros _. by destruct (Delivery.received_at v).
Qed.
Lemma acknowledge_shape e id state principal d r s' : acknowledge_delivery e id state principal (open_session d) = Ok (r, s') ->
  exists v d', s' = open_session d' /\ schema d' /\ v ∈ deliveries d /\ hushed (redelivered d (acknowledged e state v) false) d'.
Proof.
  unfold acknowledge_delivery. intros ([u k] & _ & H)%rbind_ok. rewrite get_open_session in H.
  destruct (find_row id (deliveries d)) as [v|] eqn:E; [|done]. apply rbind_ok in H as (ep & _ & H).
  destruct (_ =? u); [|done]. destruct (_ ==? _); [|done]. apply rbind_ok in H as (m & _ & H). destruct (_ ==? _); [|done].
  apply rbind_ok in H as (s1 & (d' & -> & Hs & Hh)%commit_hushed & [= _ <-]).
  exists v, d'. do 2 (split; [done|]). split; [by eapply find_row_elem|]. by rewrite redelivered_false.
Qed.
Lemma acknowledged_target e state v : same_target v (acknowledged e state v) /\ Delivery.status (acknowledged e state v) = Delivery.status v.
Proof. unfold acknowledged. by repeat case_bool_decide. Qed.
End Messages.
