(* ===== verification/PushBatch.v ===== *)
(** A batch of the delivery worker: what it does to each delivery, what it hands
    to the providers, and that it keeps the invariants of the messages. *)
From S2P Require Import Prelude Json JsonFacts Calendar Session Schema WebApi Sha256 Engines PushModels PushAuth PushService PushProviders PushWorker PushFacts PushMessages.
#[local] Open Scope string_scope.
#[local] Open Scope list_scope.
#[local] Open Scope Z_scope.

(** * One delivery *)

(** Both the database and the mapped objects have the row. *)
Lemma get_mem {R} `{Keyed R} (T : PushDb -> list R) k s : keys (T (mem s)) = keys (T (sql s)) ->
  get T k s = find_row k (T (mem s)).
Proof.
  intros Ek. unfold get. destruct (find_row k (T (sql s))) as [r|] eqn:E.
  - apply find_row_in_keys in E as Hk. rewrite <- Ek in Hk. apply keys_find in Hk as [x Hx].
    unfold live. by rewrite (find_row_key _ _ _ E), Hx.
  - apply find_row_none in E. rewrite <- Ek in E. symmetry. by apply find_row_none.
Qed.

(** How a delivery leaves the loop body: [v'] is settled, or due again. *)
Record worked (w : Shift) (v v' : Delivery) : Prop := {
  wd_target : same_target v v';
  wd_attempts : Delivery.attempts v <= Delivery.attempts v' <= Delivery.attempts v + 1;
  wd_retry : pending v' = true ->
    Delivery.attempts v' = Delivery.attempts v + 1 /\ Delivery.attempts v' < max_attempts (wk_settings w) /\
    Delivery.next_attempt_at v' <= wk_done w (Delivery.id v) + seconds 7200;
  wd_acknowledged : Delivery.received_at v' = Delivery.received_at v /\ Delivery.opened_at v' = Delivery.opened_at v
}.
Lemma backoff_bound n : 0 <= backoff n <= 7200.
Proof.
  unfold backoff. destruct (Z.to_nat _) as [|[|[|[|k]]]]; cbn; try lia. destruct k; cbn; lia.
Qed.
Ltac settled := intros; split; cbn in *; try done; try (by split); try lia.
Lemma retry_later_worked w delay msg v : 0 <= delay <= 7200 ->
  worked w v (retry_later w delay msg (v <| Delivery.attempts ::= Z.succ |>)).
Proof.
  intros Hd. unfold retry_later. destruct (max_attempts _ <=? _) eqn:E; [settled|].
  cbn in E. apply Z.leb_gt in E. settled. intros _. unfold seconds. lia.
Qed.
Lemma settle_worked w o v : worked w v (settle w o (v <| Delivery.attempts ::= Z.succ |>)).
Proof.
  destruct o as [i|[msg|msg|msg|msg|name]]; simpl settle; try by settled.
  - apply retry_later_worked, backoff_bound.
  - apply retry_later_worked. cbn. lia.
Qed.

Section Limit.
Context (limit : Z).
Lemma settle_ok w o v : max_attempts (wk_settings w) = limit -> pending v = true -> delivery_ok limit v ->
  delivery_ok limit (settle w o (v <| Delivery.attempts ::= Z.succ |>)).
Proof.
  intros Hw Hp Hok. pose proof (do_attempts _ _ Hok) as Ha. pose proof (do_opened _ _ Hok) as Ho.
  assert (0 <= Z.succ (Delivery.attempts v) <= Z.max 1 limit /\ is_some (Delivery.delivered_at v) = false) as [Hs Hn].
  { unfold pending in Hp. apply in_elem in Hp. rewrite !elem_of_cons, elem_of_nil in Hp. rewrite (do_delivered _ _ Hok).
    destruct Hp as [E|[E|[]]]; rewrite E.
    - rewrite (do_queued _ _ Hok E). split; [lia|done].
    - pose proof (do_retry _ _ Hok E). split; [lia|done]. }
  assert (forall delay msg, delivery_ok limit (retry_later w delay msg (v <| Delivery.attempts ::= Z.succ |>))) as Hr.
  { intros. unfold retry_later. rewrite Hw. destruct (limit <=? _) eqn:E; cbn in E; split; cbn; try done; try (by repeat constructor).
    apply Z.leb_gt in E. intros _. lia. }
  destruct o as [i|[msg|msg|msg|msg|name]]; simpl settle; try apply Hr; split; cbn; try done; by repeat constructor.
Qed.
Lemma closed_ok st err v : st ∈ ["expired"; "failed"] -> pending v = true -> delivery_ok limit v ->
  delivery_ok limit (v <| Delivery.status := st |> <| Delivery.last_error := err |>).
Proof.
  intros Hst Hp Hok. assert (is_some (Delivery.delivered_at v) = false) as Hn.
  { rewrite (do_delivered _ _ Hok). apply in_elem in Hp. rewrite !elem_of_cons, elem_of_nil in Hp. by destruct Hp as [->|[->|[]]]. }
  rewrite !elem_of_cons, elem_of_nil in Hst. split; cbn; try apply Hok.
  - destruct Hst as [->|[->|[]]]; repeat constructor.
  - by destruct Hst as [->|[->|[]]].
  - by destruct Hst as [->|[->|[]]].
  - rewrite Hn. by destruct Hst as [->|[->|[]]].
Qed.
End Limit.

(** What the loop body makes of a delivery of message [m] to endpoint [r]. *)
Inductive outcome_of (w : Shift) (v : Delivery) (m : Message) (r : PushEndpoint) : list Sent -> Delivery -> Prop :=
| Out_expired : Message.expires_at m <= wk_seen w (Delivery.id v) ->
    outcome_of w v m r [] (v <| Delivery.status := "expired" |>)
| Out_inactive : PushEndpoint.active r = false -> outcome_of w v m r [] (failed "endpoint inactive" v)
| Out_sent : wk_seen w (Delivery.id v) < Message.expires_at m -> PushEndpoint.active r = true ->
    outcome_of w v m r [mk_Sent (Delivery.id v) r m]
      (settle w (attempt w r m (Delivery.id v)) (v <| Delivery.attempts ::= Z.succ |>)).
Lemma outcome_worked w v m r sent v' : pending v = true -> outcome_of w v m r sent v' -> worked w v v'.
Proof. intros Hp [H|H|H1 H2]; [by settled..|apply settle_worked]. Qed.
Lemma outcome_ok limit w v m r sent v' : max_attempts (wk_settings w) = limit -> pending v = true ->
  delivery_ok limit v -> outcome_of w v m r sent v' -> delivery_ok limit v'.
Proof.
  intros Hw Hp Hok [H|H|H1 H2]; [|apply closed_ok; [by repeat constructor|done..]|by apply settle_ok].
  assert (delivery_ok limit (v <| Delivery.status := "expired" |> <| Delivery.last_error := Delivery.last_error v |>)) as Hc;
    [apply closed_ok; [by repeat constructor|done..]|by destruct v].
Qed.

(** * The batch *)
Definition restated (m m' : Message) : Prop := m' = m \/ exists l, m' = m <| Message.status := message_status l |>.
Record mapped (d : PushDb) (s : Session PushDb) : Prop := {
  mp_sql : sql s = d;
  mp_texts : Forall2 restated (messages d) (messages (mem s));
  mp_endpoints : silenced (push_endpoints d) (push_endpoints (mem s));
  mp_deliveries : keys (deliveries (mem s)) = keys (deliveries d);
  mp_rest : auth_lifecycle_events (mem s) = auth_lifecycle_events d /\ revoked_auth_sessions (mem s) = revoked_auth_sessions d /\
            auth_user_states (mem s) = auth_user_states d /\ application_states (mem s) = application_states d
}.
Lemma Forall2_map_same {A B C} (R : A -> B -> Prop) (f : A -> C) (g : B -> C) l k :
  (forall x y, R x y -> g y = f x) -> Forall2 R l k -> map g k = map f l.
Proof. intros HR. induction 1; simpl; [done|]. f_equal; auto. Qed.
Lemma Forall2_in_r {A B} (R : A -> B -> Prop) l k y : Forall2 R l k -> y ∈ k -> exists x, x ∈ l /\ R x y.
Proof.
  induction 1 as [|x z l k Hxz _ IH]; [by intros ?%not_elem_of_nil|].
  intros [->|Hy]%elem_of_cons; [exists x; split; [left|done]|]. destruct (IH Hy) as (w & ? & ?). exists w. split; [by right|done].
Qed.
Lemma Forall2_in_l {A B} (R : A -> B -> Prop) l k x : Forall2 R l k -> x ∈ l -> exists y, y ∈ k /\ R x y.
Proof.
  induction 1 as [|z y l k Hxz _ IH]; [by intros ?%not_elem_of_nil|].
  intros [->|Hy]%elem_of_cons; [exists y; split; [left|done]|]. destruct (IH Hy) as (w & ? & ?). exists w. split; [by right|done].
Qed.
Lemma mp_messages d s : mapped d s -> keys (messages (mem s)) = keys (messages d).
Proof. intros Hm. eapply Forall2_map_same, (mp_texts _ _ Hm). by intros m m' [->|[l ->]]. Qed.
Lemma refresh_messages k t (l : list Message) m : NoDup (keys l) -> find_row k l = Some m ->
  put_row (m <| Message.status := message_status (statuses k t) |>) l =
  map (fun m => if Message.id m =? k then m <| Message.status := message_status (statuses (Message.id m) t) |> else m) l.
Proof.
  intros Hn Hf. apply find_row_elem in Hf as Hin. apply find_row_key in Hf as <-. unfold put_row. apply map_ext_in.
  intros x Hx%list_elem_of_In. change (key (set _ _ m)) with (key m).
  change (Message.id x) with (key x). bdestruct (key x =? key m); [|done]. by rewrite (key_inj l x m).
Qed.
Lemma process_shape d w v s sent s' : schema d -> mapped d s -> find_row (key v) (deliveries (mem s)) = Some v ->
  process w v s = Ok (sent, s') -> exists m r l v',
  m ∈ messages (mem s) /\ Message.id m = Delivery.message_id v /\
  r ∈ push_endpoints (mem s) /\ PushEndpoint.id r = Delivery.endpoint_id v /\
  outcome_of w v m r sent v' /\ silenced (push_endpoints (mem s)) l /\
  sql s' = d /\ mem s' = redelivered (mem s <| push_endpoints := l |>) v' true.
Proof.
  intros Hd Hm Hv. unfold process, related.
  rewrite (get_mem messages) by by rewrite (mp_messages _ _ Hm), (mp_sql _ _ Hm).
  rewrite (get_mem push_endpoints) by by rewrite (silenced_keys _ _ (mp_endpoints _ _ Hm)), (mp_sql _ _ Hm).
  destruct (find_row (Delivery.message_id v) _) as [m|] eqn:Em; [|done].
  destruct (find_row (Delivery.endpoint_id v) _) as [r|] eqn:Er; [|done]. cbn [rbind]. unfold live. rewrite Hv.
  assert (forall l v' s1 k, same_target v v' -> k = Delivery.message_id v -> sql s1 = d -> mem s1 = mem s <| push_endpoints := l |> ->
    let s2 := refresh_message_status k (put deliveries v' s1) in
    sql s2 = d /\ mem s2 = redelivered (mem s <| push_endpoints := l |>) v' true) as Hclose.
  { intros l v' s1 k (_ & Ek & _) -> Hq Hs1. unfold refresh_message_status. rewrite (get_mem messages);
      [|cbn; rewrite Hs1, Hq; apply (mp_messages _ _ Hm)]. cbn. rewrite Hs1. cbn. rewrite Em. cbn. rewrite Hq, Hs1.
    split; [done|]. pose proof (refresh_messages (Delivery.message_id v) (put_row v' (deliveries (mem s))) _ m
      (eq_ind_r NoDup (sc_messages _ Hd) (mp_messages _ _ Hm)) Em) as Er2.
    unfold redelivered. cbn [andb]. rewrite Ek. destruct (mem s) as [q1 q2 q3 q4 q5 q6 q7]. unfold set. cbn in *.
    exact (f_equal (fun l => mk_PushDb _ l _ _ _ _ _) Er2). }
  assert (mem s = mem s <| push_endpoints := push_endpoints (mem s) |>) as Eself by by destruct (mem s).
  pose proof (find_row_elem _ _ _ Em) as Hmin. pose proof (find_row_elem _ _ _ Er) as Hrin.
  pose proof (find_row_key _ _ _ Em : Message.id m = _) as Hmk. pose proof (find_row_key _ _ _ Er : PushEndpoint.id r = _) as Hrk.
  destruct (Message.expires_at m <=? _) eqn:Ex; [|destruct (PushEndpoint.active r) eqn:Eact]; cbn [negb]; intros [= <- <-].
  - exists m, r, (push_endpoints (mem s)). eexists. do 4 (split; [done|]). split; [apply Out_expired; lia|]. split; [done|].
    apply (Hclose _ (v <| Delivery.status := "expired" |>)); [done|done|apply Hm|done].
  - apply Z.leb_gt in Ex. set (o := attempt w r m (Delivery.id v)).
    exists m, r, (if invalidates o then put_row (deactivate r) (push_endpoints (mem s)) else push_endpoints (mem s)). eexists.
    do 4 (split; [done|]). split; [by apply Out_sent|]. split.
    { destruct (invalidates o); [|done]. apply put_silenced; [apply quieter_deactivate|done|].
      rewrite (silenced_keys _ _ (mp_endpoints _ _ Hm)). apply Hd. }
    apply (Hclose _ (settle w o (v <| Delivery.attempts ::= Z.succ |>))); [apply (settle_worked w o v)|apply (settle_worked w o v)|by destruct (invalidates o); apply Hm|].
    destruct (invalidates o); [done|exact Eself].
  - exists m, r, (push_endpoints (mem s)). eexists. do 4 (split; [done|]). split; [by apply Out_inactive|]. split; [done|].
    apply (Hclose _ (failed "endpoint inactive" v)); [done|done|apply Hm|done].
Qed.

(** What was handed to a provider. *)
Record notified (d : PushDb) (w : Shift) (x : Sent) : Prop := {
  nt_delivery : exists v, v ∈ deliveries d /\ due (wk_select w) v = true /\ Delivery.id v = st_delivery x /\
    Delivery.message_id v = Message.id (st_message x) /\ Delivery.endpoint_id v = PushEndpoint.id (st_endpoint x);
  nt_message : exists m, m ∈ messages d /\ restated m (st_message x);
  nt_expires : wk_seen w (st_delivery x) < Message.expires_at (st_message x);
  nt_endpoint : exists r, r ∈ push_endpoints d /\ quieter r (st_endpoint x);
  nt_active : PushEndpoint.active (st_endpoint x) = true
}.
Definition progressed (w : Shift) (items : list Delivery) (v v' : Delivery) : Prop :=
  v ∈ items /\ (exists m r sent, outcome_of w v m r sent v') \/ v ∉ items /\ v' = v.

Section Loop.
Context (limit : Z) (d : PushDb) (w : Shift) (Hd : schema d) (Hw : max_attempts (wk_settings w) = limit).
Record looping (items : list Delivery) (s : Session PushDb) : Prop := {
  lp_mapped : mapped d s;
  lp_ok : messages_ok limit (mem s);
  lp_items : forall v, v ∈ items -> find_row (key v) (deliveries (mem s)) = Some v /\ v ∈ deliveries d /\ due (wk_select w) v = true;
  lp_nodup : NoDup (keys items)
}.
Lemma redelivered_mapped s l v' s' : mapped d s -> silenced (push_endpoints (mem s)) l ->
  sql s' = d -> mem s' = redelivered (mem s <| push_endpoints := l |>) v' true -> mapped d s'.
Proof.
  intros [Hq Ht He Hv Hr] Hl Hs' Em. split; [done|..]; rewrite Em.
  - change (messages (redelivered _ _ _)) with (map (fun m => if true && (Message.id m =? Delivery.message_id v')
      then m <| Message.status := message_status (statuses (Message.id m) (put_row v' (deliveries (mem s)))) |> else m) (messages (mem s))).
    apply Forall2_fmap_r. eapply Forall2_impl; [exact Ht|]. intros m m' Hmm. cbn. destruct (_ =? _); [|done].
    right. eexists. destruct Hmm as [->|[l' ->]]; done.
  - etrans; [exact He|exact Hl].
  - etrans; [apply keys_put|exact Hv].
  - exact Hr.
Qed.
Lemma process_step v items s sent s' : looping (v :: items) s -> process w v s = Ok (sent, s') ->
  looping items s' /\ Forall (notified d w) sent /\ Forall2 (progressed w [v]) (deliveries (mem s)) (deliveries (mem s')).
Proof.
  intros [Hm Hok Hi Hn] Hp. destruct (Hi v) as (Hf & Hvd & Hdue); [left|].
  destruct (process_shape d w v s sent s' Hd Hm Hf Hp) as (m & r & l & v' & Hmin & Hmk & Hrin & Hrk & Hout & Hl & Hs' & Em).
  assert (pending v = true) as Hpend by by apply andb_true_iff in Hdue as [? _].
  pose proof (outcome_worked _ _ _ _ _ _ Hpend Hout) as Hwd. apply NoDup_cons in Hn as [Hnv Hn].
  assert (NoDup (keys (deliveries (mem s)))) as Hnd by (rewrite (mp_deliveries _ _ Hm); apply Hd).
  assert (key v' = key v) as Ek by apply Hwd. pose proof (find_row_elem _ _ _ Hf) as Hvm.
  split; [|split].
  - split; [by eapply redelivered_mapped| |intros x Hx; destruct (Hi x) as (Hfx & ? & ?); [by right|split; [|done]]|done].
    + rewrite Em. eapply redelivered_ok; [done| |exact Hvm|apply Hwd|by eapply outcome_ok, Hout; [..|by apply (mo_delivery _ _ Hok)]|done].
      apply (identities_messages limit (mem s)); [done|done| |exact Hok]. apply (hushed_identities (mem s)). exists l. split; [by destruct (mem s)|done].
    + rewrite Em. change (find_row (key x) (put_row v' (deliveries (mem s))) = Some x). rewrite find_put_other; [done|]. rewrite Ek. intros E. apply Hnv. rewrite <- E. by apply list_elem_of_fmap_2.
  - destruct Hout as [He|He|He Ha]; [constructor..|]. constructor; [|constructor]. split; cbn.
    + exists v. done.
    + by apply (Forall2_in_r _ _ _ _ (mp_texts _ _ Hm)).
    + done.
    + destruct (silenced_elem _ _ _ (mp_endpoints _ _ Hm) Hrin) as (r0 & ? & ?). eauto.
    + done.
  - rewrite Em. change (Forall2 (progressed w [v]) (deliveries (mem s)) (put_row v' (deliveries (mem s)))).
    unfold put_row. rewrite <- (map_id (deliveries (mem s))) at 1. apply Forall2_fmap_2, Forall_Forall2_diag, Forall_forall.
    intros x Hx. cbn beta. rewrite Ek. bdestruct (key x =? key v).
    + rewrite (key_inj _ x v Hnd Hx Hvm E). left. split; [left|eauto].
    + right. split; [|done]. rewrite list_elem_of_singleton. by intros ->.
Qed.
Lemma process_all_shape items s sent s' : looping items s -> process_all w items s = Ok (sent, s') ->
  looping [] s' /\ Forall (notified d w) sent /\ Forall2 (progressed w items) (deliveries (mem s)) (deliveries (mem s')).
Proof.
  revert s sent. induction items as [|v items IH]; intros s sent Hl; cbn [process_all].
  - intros [= <- <-]. split; [done|]. split; [constructor|]. apply Forall_Forall2_diag, Forall_forall. intros x _. right.
    split; [apply not_elem_of_nil|done].
  - intros ([sent1 s1] & H1 & H)%rbind_ok. apply rbind_ok in H as ([more s2] & H2 & [= <- <-]).
    pose proof (lp_nodup _ _ Hl) as Hnd. apply NoDup_cons in Hnd as [Hnv _].
    destruct (process_step _ _ _ _ _ Hl H1) as (Hl1 & Hs1 & Hp1). destruct (IH _ _ Hl1 H2) as (Hl2 & Hs2 & Hp2).
    split; [done|]. split; [by apply Forall_app|]. eapply Forall2_compose; [|exact Hp1|exact Hp2].
    intros x y z [[->%list_elem_of_singleton (m & r & se & Ho)]|[Hx ->]] Hyz.
    + left. split; [left|]. destruct Hyz as [[Hy _]|[_ ->]]; [|eauto]. exfalso. apply Hnv.
      assert (pending v = true) as Hpend by (destruct (lp_items _ _ Hl v) as (_ & _ & [? _]%andb_true_iff); [left|done]).
      pose proof (outcome_worked _ _ _ _ _ _ Hpend Ho) as [[Ek _] _ _ _]. change (key y = key v) in Ek. rewrite <- Ek. by apply list_elem_of_fmap_2.
    + rewrite list_elem_of_singleton in Hx. destruct Hyz as [[Hy ?]|[Hy ->]]; [left; split; [by right|done]|right].
      split; [|done]. rewrite elem_of_cons. naive_solver.
Qed.
End Loop.

(** * The batch is written *)

(** The identifiers the providers answer with fit their column. *)
Definition answers_fit (w : Shift) : Prop := forall r m id i, attempt w r m id = inl (Some i) -> str_len i <= 300.
Lemma outcome_valid limit w v m r sent v' : answers_fit w -> max_attempts (wk_settings w) = limit -> limit <= 2147483647 ->
  delivery_ok limit v -> valid_Delivery v = true -> outcome_of w v m r sent v' -> pending v = true -> valid_Delivery v' = true.
Proof.
  intros Hf Hw Hl Hok Hv Hout Hp. pose proof (do_attempts _ _ (outcome_ok _ _ _ _ _ _ _ Hw Hp Hok Hout)) as Ha.
  unfold valid_Delivery in *. rewrite !andb_true_iff in *. destruct Hv as [[[Hs Hi] Hpm] Herr].
  assert (forall msg, forallb (text_column 500) (opt_list (Some (str_take 500 msg))) = true) as Htake.
  { intros msg. cbn. rewrite andb_true_r. unfold text_column. pose proof (str_take_len 500 msg). lia. }
  assert (int_column (Delivery.attempts v') = true) as Hint by (unfold int_column; lia).
  destruct Hout as [H|H|H1 H2]; [done|do 3 (split; [|done]); done|].
  assert (forall delay msg, text_column 24 (Delivery.status (retry_later w delay msg (v <| Delivery.attempts ::= Z.succ |>))) = true /\
    forallb (text_column 300) (opt_list (Delivery.provider_message_id (retry_later w delay msg (v <| Delivery.attempts ::= Z.succ |>)))) = true /\
    forallb (text_column 500) (opt_list (Delivery.last_error (retry_later w delay msg (v <| Delivery.attempts ::= Z.succ |>)))) = true) as Hr.
  { intros. unfold retry_later. destruct (_ <=? _); cbn; (split; [done|]); (split; [exact Hpm|]); apply Htake. }
  destruct (attempt w r m (Delivery.id v)) as [[i|]|[msg|msg|msg|msg|name]] eqn:E; simpl settle in *;
    try (destruct (Hr (backoff (Delivery.attempts (v <| Delivery.attempts ::= Z.succ |>))) msg) as (? & ? & ?); by repeat split);
    try (destruct (Hr 60 ("unexpected provider failure: " ++ name)%string) as (? & ? & ?); by repeat split);
    cbn in *; repeat split; try done; try apply Htake.
  apply Hf in E. unfold text_column. rewrite andb_true_r. lia.
Qed.
Lemma quieter_valid r r' : quieter r r' -> valid_PushEndpoint r' = valid_PushEndpoint r.
Proof. by intros (? & ? & -> & _). Qed.
Lemma message_status_valid m l : valid_Message m = true -> valid_Message (m <| Message.status := message_status l |>) = true.
Proof.
  unfold valid_Message. rewrite !andb_true_iff. intros [[[[[[[? ?] ?] ?] ?] ?] ?] ?]. repeat split; try done.
  unfold message_status. destruct l; [done|]. by repeat case_match.
Qed.

Section Run.
Context (limit : Z) (d : PushDb) (w : Shift) (Hd : schema d) (Hw : max_attempts (wk_settings w) = limit).
Lemma batch_elem v : v ∈ batch w (open_session d) -> v ∈ deliveries d /\ due (wk_select w) v = true.
Proof.
  unfold batch. rewrite (select_ordered_synced deliveries) by (done || apply Hd). intros Hv.
  apply elem_of_take in Hv as (i & Hv%list_elem_of_lookup_2 & _). unfold sort_cmp in Hv. rewrite sort_by_elem in Hv. by apply elem_of_filter.
Qed.
Lemma batch_nodup : NoDup (keys (batch w (open_session d))).
Proof.
  unfold batch. rewrite (select_ordered_synced deliveries) by (done || apply Hd). unfold keys. rewrite <- firstn_map.
  apply (sublist_NoDup _ (map key (sort_cmp (asc Delivery.next_attempt_at) (List.filter (due (wk_select w)) (deliveries d))))); [|apply sublist_take].
  rewrite (sort_cmp_perm _ (List.filter _ _)). apply NoDup_map_filter, (sc_deliveries _ Hd).
Qed.
Lemma mapped_start : mapped d (open_session d).
Proof. split; try done. apply Forall_Forall2_diag, Forall_forall. by left. Qed.
Lemma looping_start : messages_ok limit d -> looping limit d w (batch w (open_session d)) (open_session d).
Proof.
  intros Hok. split; [apply mapped_start|done| |apply batch_nodup]. intros v [Hv Hdue]%batch_elem.
  split; [|done]. apply find_row_nodup; [apply Hd|done].
Qed.
(** The rows a delivery refers to exist. *)
Lemma process_total v s : mapped d s -> v ∈ deliveries d -> is_ok (process w v s) = true.
Proof.
  intros Hm Hv. unfold process, related.
  rewrite (get_mem messages) by by rewrite (mp_messages _ _ Hm), (mp_sql _ _ Hm).
  rewrite (get_mem push_endpoints) by by rewrite (silenced_keys _ _ (mp_endpoints _ _ Hm)), (mp_sql _ _ Hm).
  destruct (keys_find (Delivery.message_id v) (messages (mem s))) as [m ->].
  { rewrite (mp_messages _ _ Hm). apply (sc_fk_message _ Hd). by apply (list_elem_of_fmap_2 Delivery.message_id). }
  destruct (keys_find (Delivery.endpoint_id v) (push_endpoints (mem s))) as [r ->].
  { rewrite (silenced_keys _ _ (mp_endpoints _ _ Hm)). apply (sc_fk_endpoint _ Hd). by apply (list_elem_of_fmap_2 Delivery.endpoint_id). }
  cbn [rbind]. destruct (_ <=? _); [done|]. by destruct (PushEndpoint.active r).
Qed.
Lemma process_all_total items s : looping limit d w items s -> is_ok (process_all w items s) = true.
Proof.
  revert s. induction items as [|v items IH]; intros s Hl; cbn [process_all]; [done|].
  assert (is_ok (process w v s) = true) as Ht.
  { apply process_total; [apply (lp_mapped _ _ _ _ _ Hl)|]. apply (lp_items _ _ _ _ _ Hl). left. }
  destruct (process w v s) as [[sent s1]|x] eqn:E; [|done].
  destruct (process_step limit d w Hd Hw _ _ _ _ _ Hl E) as (Hl1 & _). specialize (IH s1 Hl1). cbn [rbind].
  by destruct (process_all w items s1) as [[]|].
Qed.
(** The result of a batch satisfies the constraints of the schema. *)
Lemma batch_schema s : answers_fit w -> limit <= 2147483647 -> messages_ok limit d -> looping limit d w [] s ->
  Forall2 (progressed w (batch w (open_session d))) (deliveries d) (deliveries (mem s)) -> schema (mem s).
Proof.
  intros Hf Hl Hok Hlp Hp. destruct (lp_mapped _ _ _ _ _ Hlp) as [Hq Ht He Hv (R1 & R2 & R3 & R4)].
  assert (forall v', v' ∈ deliveries (mem s) -> exists v, v ∈ deliveries d /\ progressed w (batch w (open_session d)) v v') as Hrow.
  { clear -Hp. induction Hp as [|v v' l l' Hv _ IH]; [by intros v' ?%not_elem_of_nil|].
    intros x [->|Hx]%elem_of_cons; [exists v; split; [left|done]|]. destruct (IH x Hx) as (y & ? & ?). exists y. split; [by right|done]. }
  assert (forall v', v' ∈ deliveries (mem s) -> valid_Delivery v' = true) as Hvalid.
  { intros v' Hin. pose proof (sc_valid _ Hd) as Hvr. unfold valid_rows in Hvr. rewrite !andb_true_iff in Hvr.
    destruct Hvr as [[[[[[_ _] Hvd] _] _] _] _]. rewrite forallb_forall in Hvd.
    destruct (Hrow v' Hin) as (v & Hin2 & [[Hb (m & r & sent & Ho)]|[_ ->]]); [|by apply Hvd, list_elem_of_In].
    apply batch_elem in Hb as [_ Hdue]. apply andb_true_iff in Hdue as [Hpend _].
    eapply (outcome_valid limit); [done..|by apply (mo_delivery _ _ Hok)|by apply Hvd, list_elem_of_In|done|done]. }
  assert (map delivery_target (deliveries (mem s)) = map delivery_target (deliveries d) /\
          map Delivery.message_id (deliveries (mem s)) = map Delivery.message_id (deliveries d) /\
          map Delivery.endpoint_id (deliveries (mem s)) = map Delivery.endpoint_id (deliveries d)) as (T1 & T2 & T3).
  { assert (Forall2 same_target (deliveries d) (deliveries (mem s))) as Hst.
    { eapply Forall2_impl; [exact Hp|]. intros v v' [[Hb (m & r & sent & Ho)]|[_ ->]]; [|done].
      apply batch_elem in Hb as [_ [Hpend _]%andb_true_iff]. apply (outcome_worked _ _ _ _ _ _ Hpend Ho). }
    clear -Hst. induction Hst as [|v v' l l' (E1 & E2 & E3) _ (I1 & I2 & I3)]; [done|].
    cbn. unfold delivery_target. rewrite E2, E3. repeat split; f_equal; done. }
  pose proof Hd as [V K1 K2 K3 K4 K5 K6 K7 I1 I2 I3 F1 F2]. unfold valid_rows in V. rewrite !andb_true_iff in V.
  destruct V as [[[[[[V1 V2] V3] V4] V5] V6] V7]. rewrite forallb_forall in V1, V2.
  assert (keys (messages (mem s)) = keys (messages d)) as Em by by apply mp_messages, (lp_mapped _ _ _ _ _ Hlp).
  pose proof (silenced_keys _ _ He) as Ee.
  split; rewrite ?Em, ?Ee, ?Hv, ?R1, ?R2, ?R3, ?R4, ?T1, ?T2, ?T3; try done.
  - unfold valid_rows. rewrite R1, R2, R3, R4, !andb_true_iff, !forallb_forall. repeat split; try by rewrite <- forallb_forall.
    + intros r' (r & Hr & Hq')%list_elem_of_In%(silenced_elem _ _ _ He). rewrite (quieter_valid _ _ Hq'). by apply V1, list_elem_of_In.
    + intros m' (m & Hm & Hmm)%list_elem_of_In%(Forall2_in_r _ _ _ _ Ht).
      destruct Hmm as [->|[l ->]]; [|apply message_status_valid]; by apply V2, list_elem_of_In.
    + intros v' Hin%list_elem_of_In. by apply Hvalid.
  - erewrite (Forall2_map_same quieter); [exact I1| |exact He]. by intros r r' (? & ? & -> & _).
  - assert (flat_map source_key (messages (mem s)) = flat_map source_key (messages d)) as ->; [|exact I2].
    rewrite !flat_map_concat_map. f_equal. eapply Forall2_map_same, Ht. by intros m m' [->|[l ->]].
Qed.
Lemma schema_hushed d1 d2 : schema d1 -> hushed d1 d2 -> schema d2.
Proof.
  intros Hs (l & -> & Hl). destruct Hs as [V K1 K2 K3 K4 K5 K6 K7 I1 I2 I3 F1 F2]. pose proof (silenced_keys _ _ Hl) as Ek.
  unfold valid_rows in V. rewrite !andb_true_iff, forallb_forall in V. destruct V as [[[[[[V1 V2] V3] V4] V5] V6] V7].
  split; try done.
  - unfold valid_rows. rewrite !andb_true_iff, forallb_forall. repeat split; try done.
    intros r' (r & Hr & Hq)%list_elem_of_In%(silenced_elem _ _ _ Hl). rewrite (quieter_valid _ _ Hq). by apply V1, list_elem_of_In.
  - by rewrite <- Ek in K1.
  - cbn. erewrite (Forall2_map_same quieter); [exact I1| |exact Hl]. by intros r r' (? & ? & -> & _).
  - intros k Hk. specialize (F2 k Hk). by rewrite <- Ek in F2.
Qed.

(** ** [run_once] *)
Record ran (e : Env) (sent : list Sent) (d' : PushDb) : Prop := {
  rn_schema : schema d';
  rn_ok : messages_ok limit d';
  rn_sent : Forall (notified d w) sent;
  rn_progress : Forall2 (progressed w (batch w (open_session d))) (deliveries d) (deliveries d');
  rn_endpoints : silenced (push_endpoints d) (push_endpoints d');
  rn_messages : Forall2 restated (messages d) (messages d');
  rn_rest : auth_lifecycle_events d' = auth_lifecycle_events d /\ revoked_auth_sessions d' = revoked_auth_sessions d /\
            auth_user_states d' = auth_user_states d /\ application_states d' = application_states d
}.
Lemma run_once_ran e sent n d' : messages_ok limit d -> run_once e w d = (Ok (sent, n), d') ->
  n = zlen (batch w (open_session d)) /\ ran e sent d'.
Proof.
  intros Hok. unfold run_once. destruct (rbind _ _) as [[sent' s3]|] eqn:E; [|done]. intros [= -> <- <-]. split; [done|].
  apply rbind_ok in E as ([sent2 s2] & H1 & H2). apply rbind_ok in H2 as (s4 & (d' & -> & Hs & Hh)%commit_hushed & [= -> <-]).
  destruct (process_all_shape limit d w Hd Hw _ _ _ _ (looping_start Hok) H1) as (Hlp & Hsent & Hp).
  pose proof (lp_mapped _ _ _ _ _ Hlp) as Hm. pose proof (hushed_messages limit _ _ Hh (lp_ok _ _ _ _ _ Hlp)) as Hok'.
  destruct Hh as (l & E & Hl). cbn [sql open_session] in *. subst d'. split; try done.
  - etrans; [apply (mp_endpoints _ _ Hm)|exact Hl].
  - apply (mp_texts _ _ Hm).
  - apply (mp_rest _ _ Hm).
Qed.
(** The batch is committed whatever the providers answer. *)
Lemma run_once_total e : answers_fit w -> limit <= 2147483647 -> messages_ok limit d -> is_ok (fst (run_once e w d)) = true.
Proof.
  intros Hf Hl Hok. pose proof (process_all_total _ _ (looping_start Hok)) as Ht. unfold run_once.
  destruct (process_all w (batch w (open_session d)) (open_session d)) as [[sent s]|] eqn:E; [|done]. cbn [rbind].
  destruct (process_all_shape limit d w Hd Hw _ _ _ _ (looping_start Hok) E) as (Hlp & _ & Hp).
  pose proof (batch_schema s Hf Hl Hok Hlp Hp) as Hs. unfold commit.
  by rewrite (proj2 (check_schema_iff (touch_updated e s)) (schema_hushed _ _ Hs (touch_hushed e s))).
Qed.
End Run.
