(* ===== verification/PushSafety.v ===== *)
(** The notification service as a system of requests, notifications in flight
    and worker batches: its invariant, and what it promises. *)
From S2P Require Import Prelude Json Calendar Session Schema WebApi Sha256 Engines PushModels PushAuth PushService PushProviders PushWorker PushFacts PushLifecycle PushDevices PushMessages PushBatch.
#[local] Open Scope string_scope.
#[local] Open Scope list_scope.
#[local] Open Scope Z_scope.

(** * The system *)

(** The committed database, and the requests between their checks and their flush. *)
Record System : Type := mk_System {
  sys_db : PushDb;
  sys_flights : list Flight
}.
Section System.
Context `{Providers} (limit : Z).
Inductive step : System -> System -> Prop :=
| Step_serve e c d fs : step (mk_System d fs) (mk_System (snd (serve e c d)) fs)
| Step_begin e c d fs f : begin_call e c d = Some (Ok (inr f)) -> step (mk_System d fs) (mk_System d (fs ++ [f]))
| Step_finish d fs1 f fs2 r d' : finish_message f d = Ok (r, d') ->
    step (mk_System d (fs1 ++ f :: fs2)) (mk_System d' (fs1 ++ fs2))
| Step_abandon d fs1 f fs2 : step (mk_System d (fs1 ++ f :: fs2)) (mk_System d (fs1 ++ fs2))
| Step_worker e w d fs : max_attempts (wk_settings w) = limit -> step (mk_System d fs) (mk_System (snd (run_once e w d)) fs).
Definition reachable (s : System) : Prop := rtc step (mk_System empty_PushDb []) s.

(** * The invariant *)
Record push_ok (d : PushDb) : Prop := {
  ok_schema : schema d;
  ok_projected : projected d;
  ok_devices : devices_ok d;
  ok_messages : messages_ok limit d
}.
Lemma empty_ok : push_ok empty_PushDb.
Proof.
  split; [apply empty_schema|..]; split; cbn; try (by intros ? ?%not_elem_of_nil); try (by intros ? ? ?%not_elem_of_nil); try done.
  intros k. split; [by intros ?%not_elem_of_nil|done].
Qed.

(** What becomes of a delivery. *)
Record kept (v v' : Delivery) : Prop := {
  kp_target : same_target v v';
  kp_attempts : Delivery.attempts v <= Delivery.attempts v';
  kp_settled : pending v = false -> Delivery.status v' = Delivery.status v /\ Delivery.attempts v' = Delivery.attempts v /\
    Delivery.delivered_at v' = Delivery.delivered_at v;
  kp_received : forall t, Delivery.received_at v = Some t -> Delivery.received_at v' = Some t;
  kp_opened : forall t, Delivery.opened_at v = Some t -> Delivery.opened_at v' = Some t
}.
#[export] Instance kept_preorder : PreOrder kept.
Proof.
  split; [by split|]. intros v1 v2 v3 [(A1 & A2 & A3) B1 C1 D1 E1] [(A4 & A5 & A6) B2 C2 D2 E2].
  split; [by repeat split; etrans|lia| |by eauto|by eauto].
  intros Hp. destruct (C1 Hp) as (S1 & S2 & S3). assert (pending v2 = false) as Hp2 by (unfold pending in *; by rewrite S1).
  destruct (C2 Hp2) as (S4 & S5 & S6). repeat split; congruence.
Qed.
Record evolves (d d' : PushDb) : Prop := {
  ev_identities : identities_kept d d';
  ev_deliveries : forall v, v ∈ deliveries d -> exists v', v' ∈ deliveries d' /\ kept v v'
}.
#[export] Instance evolves_preorder : PreOrder evolves.
Proof.
  split; [intros d; split; [done|intros v Hv; by exists v]|]. intros d1 d2 d3 [I1 D1] [I2 D2]. split; [by etrans|].
  intros v (v2 & H2 & K2)%D1. destruct (D2 v2 H2) as (v3 & H3 & K3). exists v3. split; [done|]. by etrans.
Qed.
Lemma hushed_evolves d d' : hushed d d' -> evolves d d'.
Proof. intros Hh. split; [by apply hushed_identities|]. destruct Hh as (l & -> & _). intros v Hv. by exists v. Qed.
Lemma hushed_ok d d' : push_ok d -> hushed d d' -> schema d' -> push_ok d'.
Proof.
  intros [_ Hp Hd Hm] Hh Hs. split; [done| |by eapply hushed_devices|by eapply hushed_messages].
  destruct Hh as (l & -> & _). by destruct Hp.
Qed.
Definition goes (d d' : PushDb) : Prop := push_ok d' /\ evolves d d'.

(** ** Each operation keeps it *)
Lemma silence_keeps q l r : r ∈ l -> exists r', r' ∈ silence q l /\ endpoint_identity r' = endpoint_identity r /\ PushEndpoint.id r' = PushEndpoint.id r.
Proof. intros (r' & ? & b & t & -> & _)%(silenced_elem_l _ _ _ (silence_silenced q l)). eauto. Qed.
Lemma event_goes e p d r s' : push_ok d -> valid_AuthLifecycleEventRequest (now e) p = true ->
  apply_auth_event e p (open_session d) = Ok (r, s') -> goes d (sql s').
Proof.
  intros Hok Hv Ha. destruct (apply_auth_event_shape e p d r s' (ok_schema _ Hok) Hv Ha)
    as [[_ ->]|(_ & d1 & d' & -> & Hs & Hr & Hh)]; [done|].
  assert (messages d1 = messages d /\ deliveries d1 = deliveries d /\ identities_kept d d1) as (E1 & E2 & Hi).
  { destruct Hr; do 2 (split; [done|]); exact (silence_keeps _ _). }
  set (d2 := d1 <| auth_lifecycle_events := auth_lifecycle_events d ++ [received_event e p] |>) in *.
  assert (identities_kept d d2) as Hi2 by exact Hi. split.
  - split; [done|by eapply received_projected, Hh; [apply Hok|]|by eapply received_devices; [apply Hok|..]|].
    eapply hushed_messages; [exact Hh|]. by eapply (identities_messages _ d); [..|apply Hok].
  - etrans; [|by apply hushed_evolves]. split; [done|]. intros v Hv'. exists v. split; [by rewrite <- E2 in Hv'|done].
Qed.
Lemma register_goes e payload principal d r s' : push_ok d ->
  register_device e payload principal (open_session d) = Ok (r, s') -> goes d (sql s').
Proof.
  intros Hok (l & d' & -> & Hs & Hh & Hi & Hd)%register_device_shape; [|apply Hok]. split.
  - split; [done| |by eapply hushed_devices; [|apply Hd, Hok]|].
    + destruct Hh as (l' & -> & _). by destruct (ok_projected _ Hok).
    + eapply hushed_messages; [exact Hh|]. by eapply (identities_messages _ d); [..|apply Hok].
  - etrans; [|by apply hushed_evolves]. split; [exact Hi|intros v Hv; by exists v].
Qed.
Lemma revoke_goes e key principal d s' : push_ok d -> revoke_device e key principal (open_session d) = Ok s' -> goes d (sql s').
Proof.
  intros Hok. unfold revoke_device. intros ([u k] & _ & H1)%rbind_ok.
  destruct (scalar _ _ _) as [r|] eqn:E; [|injection H1 as <-; done].
  apply scalar_open_session in E as [Hr _]; [|apply Hok]. apply commit_hushed in H1 as (d' & -> & Hs & Hh).
  assert (hushed d d') as Hd; [|split; [by eapply hushed_ok|by apply hushed_evolves]].
  etrans; [|exact Hh]. exists (put_row (deactivate r) (push_endpoints d)). split; [by destruct d|].
  apply put_silenced; [apply quieter_deactivate|done|apply Hok].
Qed.
Lemma queued_goes d f : push_ok d -> flight_ok d f -> schema (queued d f) -> goes d (queued d f).
Proof.
  intros Hok Hf Hs. split.
  - split; [done|by destruct (ok_projected _ Hok)|by destruct (ok_devices _ Hok)|by apply queued_ok; [..|apply Hok]].
  - split; [intros r Hr; by exists r|]. intros v Hv. exists v. split; [apply elem_of_app; by left|done].
Qed.
Lemma acknowledged_kept e state v : kept v (acknowledged e state v).
Proof.
  destruct (acknowledged_target e state v) as [Ht Hs]. unfold acknowledged in *.
  destruct (state ==? "received"); [|destruct (state ==? "opened")]; split; try done; cbn; intros t ->; done.
Qed.
Lemma acknowledge_goes e id state principal d r s' : push_ok d ->
  acknowledge_delivery e id state principal (open_session d) = Ok (r, s') -> goes d (sql s').
Proof.
  intros Hok (v & d' & -> & Hs & Hv & Hh)%acknowledge_shape. destruct (acknowledged_target e state v) as [Ht Hst]. split.
  - split; [done| | |].
    + destruct Hh as (l & -> & _). by destruct (ok_projected _ Hok).
    + eapply hushed_devices; [exact Hh|]. by destruct (ok_devices _ Hok).
    + eapply hushed_messages; [exact Hh|]. eapply redelivered_ok; [apply Hok|apply Hok|exact Hv|done|by apply acknowledged_ok, Hok|done].
  - etrans; [|by apply hushed_evolves]. split; [intros x Hx; by exists x|]. intros x Hx.
    destruct (decide (key x = key v)) as [E|E].
    + rewrite (key_inj _ _ _ (sc_deliveries _ (ok_schema _ Hok)) Hx Hv E). exists (acknowledged e state v).
      split; [|apply acknowledged_kept]. apply put_row_in. change (key (acknowledged e state v)) with (Delivery.id (acknowledged e state v)).
      rewrite (proj1 Ht). by apply (list_elem_of_fmap_2 Delivery.id).
    + exists x. split; [|done]. apply list_elem_of_fmap. exists x. split; [|done].
      rewrite (proj2 (Z.eqb_neq _ _)); [done|]. change (key (acknowledged e state v)) with (Delivery.id (acknowledged e state v)). by rewrite (proj1 Ht).
Qed.
Lemma begin_flight e c d f : schema d -> begin_call e c d = Some (Ok (inr f)) -> flight_ok d f.
Proof.
  intros Hd. assert (forall source key fp p endpoints, (forall r, r ∈ endpoints -> r ∈ push_endpoints d /\
      PushEndpoint.auth_user_id r = mr_recipient_sub p /\ PushEndpoint.application_id r = source) ->
    begin_message e source key fp p endpoints (open_session d) = Ok (inr f) -> flight_ok d f) as Hb.
  { intros source key fp p endpoints Hr. unfold begin_message. destruct (match key with Some _ => _ | None => _ end) as [m|].
    - unfold existing_message_response. by destruct (_ ==? _).
    - intros [= <-]. by apply new_flight_ok. }
  destruct c; try done; cbn [begin_call]; intros [= Hc].
  - apply rbind_ok in Hc as (principal & _ & Hc). apply rbind_ok in Hc as ([] & _ & Hc). unfold queue_message in Hc.
    apply rbind_ok in Hc as ([] & _ & Hc). apply rbind_ok in Hc as (key & _ & Hc). eapply Hb, Hc.
    intros r Hr. destruct (disabled_user _ _); [by apply not_elem_of_nil in Hr|]. rewrite fresh_select in Hr by apply Hd.
    apply elem_of_filter in Hr as [Hr Hl]. unfold live_endpoint in Hl. rewrite !andb_true_iff, Z.eqb_eq, bool_decide_eq_true in Hl. naive_solver.
  - apply rbind_ok in Hc as (principal & _ & Hc). apply rbind_ok in Hc as ([] & _ & Hc). unfold delegated_message in Hc.
    destruct (_ in? _); [|done]. apply rbind_ok in Hc as (key & _ & Hc). eapply Hb, Hc.
    intros r Hr. rewrite fresh_select in Hr by apply Hd.
    apply elem_of_filter in Hr as [Hr Hl]. unfold active_endpoint in Hl. rewrite !andb_true_iff, Z.eqb_eq, bool_decide_eq_true in Hl. naive_solver.
Qed.
Lemma finish_goes f d r d' : push_ok d -> flight_ok d f -> finish_message f d = Ok (r, d') -> goes d d'.
Proof.
  intros Hok Hf [[-> _]|(-> & Hs & _)]%finish_message_shape; [done|by apply queued_goes|apply Hok].
Qed.
Lemma answer_goes e c d r d' : push_ok d -> answer e c d = Ok (r, d') -> goes d d'.
Proof.
  intros Hok. assert (forall A (mk : A -> Reply) (x : result A), (let* a := x in Ok (mk a, d)) = Ok (r, d') -> goes d d') as Hread.
  { intros A mk x (a & _ & [= _ <-])%rbind_ok. done. }
  destruct c; cbn [answer]; intros Ha.
  - apply rbind_ok in Ha as ([] & _ & Ha). apply rbind_ok in Ha as ([] & Hv & Ha). apply rbind_ok in Ha as ([a s] & Ha & [= _ <-]).
    unfold validated in Hv. destruct (valid_AuthLifecycleEventRequest _ _) eqn:E; [|done]. by eapply event_goes.
  - apply rbind_ok in Ha as (p & _ & Ha). apply rbind_ok in Ha as ([] & _ & Ha). apply rbind_ok in Ha as ([a s] & Ha & [= _ <-]).
    by eapply register_goes.
  - apply rbind_ok in Ha as (p & _ & Ha). by eapply Hread.
  - apply rbind_ok in Ha as (p & _ & Ha). apply rbind_ok in Ha as (s & Ha & [= _ <-]). by eapply revoke_goes.
  - destruct (begin_call _ _ _) as [b|] eqn:Eb; [|done]. apply rbind_ok in Ha as ([x|f] & -> & Ha);
      apply rbind_ok in Ha as ([a d2] & Ha & [= _ <-]); [by injection Ha as _ <-|]. apply begin_flight in Eb; [|apply Hok]. by eapply finish_goes.
  - destruct (begin_call _ _ _) as [b|] eqn:Eb; [|done]. apply rbind_ok in Ha as ([x|f] & -> & Ha);
      apply rbind_ok in Ha as ([a d2] & Ha & [= _ <-]); [by injection Ha as _ <-|]. apply begin_flight in Eb; [|apply Hok]. by eapply finish_goes.
  - apply rbind_ok in Ha as (p & _ & Ha). apply rbind_ok in Ha as ([] & _ & Ha). apply rbind_ok in Ha as ([a s] & Ha & [= _ <-]).
    by eapply acknowledge_goes.
  - apply rbind_ok in Ha as (p & _ & Ha). by eapply Hread.
  - apply rbind_ok in Ha as (p & _ & Ha). by eapply Hread.
  - apply rbind_ok in Ha as (p & _ & Ha). by eapply Hread.
  - apply rbind_ok in Ha as (p & _ & Ha). apply rbind_ok in Ha as ([] & _ & Ha). by eapply Hread.
Qed.
Lemma serve_goes e c d : push_ok d -> goes d (snd (serve e c d)).
Proof. intros Hok. unfold serve. destruct (answer e c d) as [[r d']|] eqn:E; [by eapply answer_goes|done]. Qed.

Lemma progressed_kept w items v v' : (forall x, x ∈ items -> pending x = true) -> progressed w items v v' -> kept v v'.
Proof.
  intros Hp [[Hv (m & r & sent & Ho)]|[_ ->]]; [|done]. specialize (Hp v Hv).
  destruct (outcome_worked _ _ _ _ _ _ Hp Ho) as [Ht Ha _ [Hr Hop]].
  split; [done|lia|congruence|by intros t <-|by intros t <-].
Qed.
Lemma run_goes e w d : max_attempts (wk_settings w) = limit -> push_ok d -> goes d (snd (run_once e w d)).
Proof.
  intros Hw Hok. destruct (run_once e w d) as [[[sent n]|x] d'] eqn:E; cbn [snd].
  2: { unfold run_once in E. destruct (rbind _ _) as [[]|]; [done|]. by injection E as _ <-. }
  apply (run_once_ran limit) in E as [_ Hr]; [|apply Hok|done|apply Hok]. destruct Hr as [Hs Hm _ Hp He Hmm (R1 & R2 & R3 & R4)].
  assert (hushed d (d <| push_endpoints := push_endpoints d' |>)) as Hh by by exists (push_endpoints d'). split.
  - split; [done| | |done].
    + destruct (ok_projected _ Hok) as [P1 P2 P3]. split; intros; rewrite R1, ?R2, ?R3, ?R4; auto.
    + destruct (hushed_devices _ _ Hh (ok_devices _ Hok)) as [L U]. split; [|exact U]. intros r Hr Ha.
      destruct (L r Hr Ha) as (k & E1 & E2 & E3 & E4). exists k. rewrite disabled_user_row, disabled_application_row in *.
      cbn in E2, E3, E4. rewrite R2, R3, R4. done.
  - split; [exact (ev_identities _ _ (hushed_evolves _ _ Hh))|]. intros v Hv.
    eapply Forall2_in_l in Hp as (v' & Hv' & Hpr); [|exact Hv]. exists v'. split; [done|].
    eapply progressed_kept, Hpr. intros x [_ [? _]%andb_true_iff]%batch_elem; [done|apply Hok].
Qed.

Record sys_ok (s : System) : Prop := {
  sy_db : push_ok (sys_db s);
  sy_flights : forall f, f ∈ sys_flights s -> flight_ok (sys_db s) f
}.
Lemma step_ok s s' : step s s' -> sys_ok s -> sys_ok s' /\ evolves (sys_db s) (sys_db s').
Proof.
  assert (forall d d' (fs fs' : list Flight), goes d d' -> (forall f, f ∈ fs -> flight_ok d f) -> (forall f, f ∈ fs' -> f ∈ fs) ->
    sys_ok (mk_System d' fs') /\ evolves d d') as Hgo.
  { intros d d' fs fs' [Hok Hev] Hfs Hin. split; [|done]. split; [done|]. intros f Hf%Hin%Hfs. by eapply flight_kept, Hf; apply Hev. }
  intros [e c d fs|e c d fs f Hb|d fs1 f fs2 r d' Hf|d fs1 f fs2|e w d fs Hw] [Hok Hfl]; cbn [sys_db sys_flights] in *.
  - by eapply Hgo; [apply serve_goes|..].
  - split; [|done]. split; [done|]. intros g [Hg| ->%list_elem_of_singleton]%elem_of_app; [auto|]. eapply begin_flight; [apply Hok|done].
  - eapply Hgo; [eapply finish_goes; [done| |done]|exact Hfl|].
    + apply Hfl. apply elem_of_app. right. left.
    + intros g. rewrite !elem_of_app, elem_of_cons. tauto.
  - split; [|done]. split; [done|]. intros g Hg. apply Hfl. cbn [sys_flights] in Hg. rewrite elem_of_app, elem_of_cons. rewrite elem_of_app in Hg. tauto.
  - by eapply Hgo; [apply run_goes|..].
Qed.
Lemma steps_ok s s' : rtc step s s' -> sys_ok s -> sys_ok s' /\ evolves (sys_db s) (sys_db s').
Proof.
  induction 1 as [s|s1 s2 s3 H12 _ IH]; intros Hok; [done|]. destruct (step_ok _ _ H12 Hok) as [Hok2 He].
  destruct (IH Hok2) as [Hok3 He3]. split; [done|]. by etrans.
Qed.
Lemma reachable_ok s : reachable s -> sys_ok s.
Proof. intros Hr. eapply steps_ok; [exact Hr|]. split; [apply empty_ok|]. intros f ?%not_elem_of_nil. done. Qed.
End System.
