(* ===== verification/PushGuarantees.v ===== *)
(** What the notification service promises: who is notified, what becomes of a
    delivery and of a repeated request, and that the order in which the
    lifecycle events arrive does not matter. *)
From S2P Require Import Prelude Json Calendar Session Schema WebApi Sha256 Engines PushModels PushAuth PushService PushProviders PushWorker PushFacts PushLifecycle PushDevices PushMessages PushBatch PushSafety.
#[local] Open Scope string_scope.
#[local] Open Scope list_scope.
#[local] Open Scope Z_scope.

(** * The status of a message *)
Definition known_statuses : list string := ["queued"; "retry"; "delivered"; "failed"; "configuration_error"; "expired"].
Definition some_status (l statuses : list string) : bool := existsb (fun st => st in? l) statuses.
(** A message is processing while a delivery is open; then it is delivered,
    partial or failed. *)
Definition summary (statuses : list string) : string :=
  match statuses with
  | [] => "no_endpoints"
  | _ =>
      if some_status ["queued"; "retry"] statuses then "processing"
      else if some_status ["delivered"] statuses
           then if some_status ["failed"; "configuration_error"; "expired"] statuses then "partial" else "delivered"
      else "failed"
  end.
Lemma subset_not_other (l k : list string) statuses : (forall st, st ∈ known_statuses -> (st in? l) = negb (st in? k)) ->
  Forall (fun st => st ∈ known_statuses) statuses -> subset statuses l = negb (some_status k statuses).
Proof.
  intros Hlk. unfold subset, some_status. induction 1 as [|st statuses Hst _ IH]; simpl; [done|].
  by rewrite IH, Hlk, negb_orb.
Qed.
Lemma some_status_in st statuses : (st in? statuses) = some_status [st] statuses.
Proof.
  unfold some_status. induction statuses as [|x l IH]; simpl; [done|]. rewrite IH, orb_false_r. f_equal.
  apply bool_decide_ext. by split; intros ->.
Qed.
Lemma some_status_app l k statuses : some_status (l ++ k) statuses = some_status l statuses || some_status k statuses.
Proof.
  unfold some_status. induction statuses as [|x s IH]; simpl; [done|]. rewrite IH, existsb_app.
  repeat match goal with |- context [existsb ?f ?l] => destruct (existsb f l) end; done.
Qed.
Lemma message_status_summary statuses : Forall (fun st => st ∈ known_statuses) statuses -> message_status statuses = summary statuses.
Proof.
  intros Hk. unfold message_status, summary. destruct statuses as [|x l]; [done|]. set (s := x :: l) in *.
  assert (forall (l k : list string), Forall (fun st => (st in? l) = negb (st in? k)) known_statuses -> subset s l = negb (some_status k s)) as Hs.
  { intros l1 k1 Hf. apply subset_not_other; [|done]. by rewrite Forall_forall in Hf. }
  rewrite (Hs ["delivered"] (["queued"; "retry"] ++ ["failed"; "configuration_error"; "expired"])) by by repeat constructor.
  rewrite (Hs ["failed"; "configuration_error"; "expired"] (["queued"; "retry"] ++ ["delivered"])) by by repeat constructor.
  rewrite !some_status_app, !some_status_in. rewrite <- (some_status_app ["queued"] ["retry"]). cbn [app].
  assert (some_status known_statuses s = true) as Hall.
  { unfold s in *. inversion Hk as [|? ? Hx]; subst. apply elem_in in Hx.
    change ((x in? known_statuses) || some_status known_statuses l = true). by rewrite Hx. }
  change known_statuses with (["queued"; "retry"] ++ ["delivered"] ++ ["failed"; "configuration_error"; "expired"]) in Hall.
  rewrite !some_status_app in Hall. destruct (some_status ["queued"; "retry"] s), (some_status ["delivered"] s),
    (some_status ["failed"; "configuration_error"; "expired"] s); done.
Qed.

(** A value listed under one row only. *)
Lemma flat_map_inj {A B} (f : A -> list B) l x y b : NoDup (flat_map f l) -> x ∈ l -> y ∈ l -> b ∈ f x -> b ∈ f y -> x = y.
Proof.
  induction l as [|a l IH]; simpl; [by intros _ ?%not_elem_of_nil|].
  intros (_ & Hn & Hl)%NoDup_app Hx Hy Hbx Hby.
  assert (forall z, z ∈ l -> b ∈ f z -> b ∈ flat_map f l) as Hin.
  { intros z Hz Hb. apply list_elem_of_In, in_flat_map. exists z. by rewrite <- !list_elem_of_In. }
  apply elem_of_cons in Hx as [->|Hx], Hy as [->|Hy]; [done| | |by auto]; exfalso; apply (Hn b); eauto.
Qed.
Lemma filter_Permutation {A} (p : A -> bool) l k : l ≡ₚ k -> List.filter p l ≡ₚ List.filter p k.
Proof.
  induction 1 as [|x l k _ IH|x y l|l1 l2 l3 _ I1 _ I2]; simpl; [done| | |by etrans].
  - destruct (p x); [by f_equiv|done].
  - destruct (p x), (p y); try done. apply perm_swap.
Qed.
Section Guarantees.
Context `{Providers} (limit : Z).

(** C24. Whatever requests and batches came before, the worker hands a
    notification to a provider only for an active device of the recipient in the
    sender's product, before the notification expires; the device was registered
    from a central session of which no revocation has been received, the latest
    lifecycle events received about the account and the product do not disable
    them, and no other active device of the product has the same provider
    endpoint. *)
Theorem notifications_reach_live_devices s e w sent n d' :
  reachable limit s -> max_attempts (wk_settings w) = limit -> run_once e w (sys_db s) = (Ok (sent, n), d') ->
  forall x, x ∈ sent -> let r := st_endpoint x in let m := st_message x in let log := auth_lifecycle_events (sys_db s) in
    PushEndpoint.auth_user_id r = Message.recipient_user_id m /\ PushEndpoint.application_id r = Message.source_client_id m /\
    wk_seen w (st_delivery x) < Message.expires_at m /\ PushEndpoint.active r = true /\
    (exists sid, PushEndpoint.auth_session_id r = Some sid /\ forall ev, ev ∈ log -> revokes sid ev = false) /\
    (forall ev, latest (List.filter (concerns_account (PushEndpoint.auth_user_id r)) log) = Some ev ->
      AuthLifecycleEvent.event_type ev = "account.enabled") /\
    (forall ev, latest (List.filter (concerns_application (PushEndpoint.application_id r)) log) = Some ev ->
      AuthLifecycleEvent.event_type ev = "application.enabled") /\
    (forall r', r' ∈ push_endpoints (sys_db s) -> PushEndpoint.active r' = true ->
      PushEndpoint.application_id r' = PushEndpoint.application_id r -> PushEndpoint.endpoint_hash r' = PushEndpoint.endpoint_hash r ->
      PushEndpoint.id r' = PushEndpoint.id r).
Proof.
  intros [Hok _]%reachable_ok Hw Hrun x Hx r m log. subst log. destruct Hok as [Hsc Hpj Hdv Hms].
  apply (run_once_ran limit) in Hrun as [_ Hran]; [|done..]. pose proof (rn_sent _ _ _ _ _ _ Hran) as Hs.
  rewrite Forall_forall in Hs. destruct (Hs x Hx) as [(v & Hv & _ & _ & Em & Ee) (m0 & Hm0 & Hre) Hexp (r0 & Hr0 & Hq) Ha].
  assert (PushEndpoint.active r0 = true) as Ha0 by by eapply quieter_active.
  destruct (dv_live _ Hdv r0 Hr0 Ha0) as (sid & Es & Hrev & Hu & Hap). pose proof (dv_unique _ Hdv) as Huq.
  destruct (mo_addressed _ _ Hms v Hv) as (m1 & r1 & Hm1 & Hr1 & E1 & E2 & E3 & E4).
  assert (m1 = m0) as ->.
  { apply (key_inj (messages (sys_db s))); [apply Hsc|done..|]. change (Message.id m1 = Message.id m0).
    rewrite E1, Em. unfold m. by destruct Hre as [->|[l ->]]. }
  assert (r1 = r0) as ->.
  { apply (key_inj (push_endpoints (sys_db s))); [apply Hsc|done..|]. change (PushEndpoint.id r1 = PushEndpoint.id r0).
    rewrite E2, Ee. apply (quieter_key _ _ Hq). }
  rewrite disabled_user_log in Hu by done. rewrite disabled_application_log in Hap by done.
  pose proof (quieter_live _ _ _ Hq (dv_live _ Hdv r0 Hr0 Ha0)) as Hlive. fold r in Hq, Ha, Hlive. fold m in Hre, Hexp.
  destruct Hq as (b & t & -> & _). cbn in *.
  split; [by destruct Hre as [->|[l ->]]|]. split; [by destruct Hre as [->|[l ->]]|]. do 2 (split; [done|]).
  split; [exists sid; split; [done|by apply revoked_log]|].
  split; [intros ev Hev; rewrite Hev in Hu; by apply negb_false_iff, bool_decide_eq_true in Hu|].
  split; [intros ev Hev; rewrite Hev in Hap; by apply negb_false_iff, bool_decide_eq_true in Hap|].
  intros r' Hr' Ha' Ea Eh. by apply (Huq r' r0).
Qed.
(** C27. The life of deliveries and messages: a delivery is tried at most
    [max_attempts] times (once at least), has a delivery time exactly when its
    status says so, and is opened only if received; the status of a message is
    the summary of its deliveries, or the initial one while none has been
    looked at; and whatever happens next, every delivery keeps its target and
    loses no attempt, a settled one keeps its status, its attempts and its
    delivery time, and the times of receipt and of opening are set once: an
    acknowledgement may still set them after the delivery. *)
Theorem delivery_lifecycle s : reachable limit s ->
  (forall v, v ∈ deliveries (sys_db s) ->
    0 <= Delivery.attempts v <= Z.max 1 limit /\
    is_some (Delivery.delivered_at v) = (Delivery.status v ==? "delivered") /\
    (is_some (Delivery.opened_at v) = true -> is_some (Delivery.received_at v) = true)) /\
  (forall m, m ∈ messages (sys_db s) -> let sts := statuses (Message.id m) (deliveries (sys_db s)) in
    Message.status m = summary sts \/ Message.status m = "queued" /\ sts <> [] /\ Forall (fun st => st = "queued") sts) /\
  (forall s', rtc (step limit) s s' -> forall v, v ∈ deliveries (sys_db s) -> exists v', v' ∈ deliveries (sys_db s') /\ kept v v').
Proof.
  intros Hr. pose proof (reachable_ok _ _ Hr) as Hsys. pose proof Hsys as [[Hsc _ _ Hms] _]. split; [|split].
  - intros v Hv. destruct (mo_delivery _ _ Hms v Hv). done.
  - intros m Hm sts. destruct (mo_status _ _ Hms m Hm) as [->|?]; [left|by right]. apply message_status_summary, Forall_forall.
    intros st (v & -> & Hv)%list_elem_of_fmap. apply elem_of_filter in Hv as [Hv _]. apply (do_status _ _ (mo_delivery _ _ Hms v Hv)).
  - intros s' Hs v Hv. destruct (steps_ok _ _ _ Hs Hsys) as [_ Hev]. by apply (ev_deliveries _ _ Hev).
Qed.

Lemma check_schema_integrity d x : valid_rows d = true -> check_schema d = Err x -> exists c, x = IntegrityError c.
Proof.
  intros Hv. unfold check_schema. rewrite Hv. intros Hc.
  repeat (apply rbind_err in Hc as [Hc|(? & _ & Hc)]; [(by eapply unique_column_integrity) || (by eapply foreign_key_integrity)|]). by eapply foreign_key_integrity.
Qed.
(** The notification a key stands for is found. *)
Lemma keyed_message d source k m : schema d -> m ∈ messages d -> idempotent_message source k m = true ->
  scalar messages (idempotent_message source k) (open_session d) = Some m.
Proof.
  intros Hsc Hm Hi. pose proof Hi as [Hi1%bool_decide_eq_true Hi2%bool_decide_eq_true]%andb_true_iff. destruct (scalar _ _ _) as [m'|] eqn:Es.
  - apply scalar_open_session in Es as [Hm' [Hj1%bool_decide_eq_true Hj2%bool_decide_eq_true]%andb_true_iff]; [|apply Hsc]. f_equal.
    apply (flat_map_inj source_key (messages d) m' m (source, k)); [apply Hsc|done..| |]; unfold source_key; [rewrite Hj1, Hj2|rewrite Hi1, Hi2]; left.
  - apply (scalar_open_none messages _ d) with (r := m) in Es; [|apply Hsc|done]. by rewrite Hi in Es.
Qed.
(** The answer to a request with a key that stands for [m]. *)
Definition repeated (d : PushDb) (m : Message) (fingerprint : string) : result MessageResponse :=
  if Message.request_fingerprint m ==? Some fingerprint
  then Ok (mk_MessageResponse (Message.id m) (Message.status m) (zlen (deliveries_of d (Message.id m))) true)
  else Err (HTTPException 409 "Idempotency-Key was already used for a different notification").
Lemma begin_repeated e source k fp p endpoints d m : schema d -> m ∈ messages d -> idempotent_message source k m = true ->
  begin_message e source (Some k) fp p endpoints (open_session d) = rbind (repeated d m fp) (fun r => Ok (inl r)).
Proof.
  intros Hsc Hm Hi. unfold begin_message. rewrite (keyed_message d source k m) by done. unfold existing_message_response, repeated. by destruct (_ ==? _).
Qed.

(** C28. An idempotency key stands for one notification: a request whose key its
    source has already used is answered with the first notification if its body is
    the same (by its fingerprint) and refused with 409 otherwise, and in neither
    case is anything written.  This holds for the requests of a product
    ([queue_message]) and of the realtime service ([delegated_message]) that find
    the notification, and for a request that has passed its checks before the
    first one committed ([finish_message] of a flight). *)
Theorem repeated_request_one_message s source k m :
  reachable limit s -> m ∈ messages (sys_db s) -> idempotent_message source k m = true ->
  (forall e p principal key, sp_client_id principal = source -> clean_idempotency_key key = Ok (Some k) ->
     require_live_service_state (open_session (sys_db s)) source = Ok tt ->
     queue_message e p principal key (open_session (sys_db s)) =
     rbind (repeated (sys_db s) m (message_fingerprint (dump_message p))) (fun r => Ok (inl r))) /\
  (forall e p key, strip (dm_source_client_id p) = source -> clean_idempotency_key key = Ok (Some k) -> (source in? user_clients (settings e)) = true ->
     delegated_message e p key (open_session (sys_db s)) =
     rbind (repeated (sys_db s) m (message_fingerprint (dump_delegated p))) (fun r => Ok (inl r))) /\
  (forall f, f ∈ sys_flights s -> valid_Message (fl_message f) = true -> fl_source f = source -> fl_key f = Some k ->
     finish_message f (sys_db s) = rbind (repeated (sys_db s) m (fl_fingerprint f)) (fun r => Ok (r, sys_db s))).
Proof.
  intros [[Hsc _ _ _] Hfl]%reachable_ok Hm Hi. set (d := sys_db s) in *.
  split; [|split].
  - intros e p principal key Hp Hk Hl. unfold queue_message. cbv zeta. rewrite Hp, Hl, Hk. by apply begin_repeated.
  - intros e p key Hp Hk Hs. unfold delegated_message. cbv zeta. rewrite Hp, Hs, Hk. by apply begin_repeated.
  - intros f Hf Hval Hs Hk. specialize (Hfl f Hf). subst source. pose proof Hi as [Hi1%bool_decide_eq_true Hi2%bool_decide_eq_true]%andb_true_iff.
    unfold finish_message. destruct (check_schema _) as [[]|x] eqn:E.
    + exfalso. apply check_schema_iff in E. pose proof (sc_idempotency _ E) as Hn. cbn in Hn. rewrite flat_map_app in Hn.
      apply NoDup_app in Hn as (_ & Hn & _). apply (Hn (fl_source f, k)).
      * apply list_elem_of_In, in_flat_map. exists m. split; [by apply list_elem_of_In|]. unfold source_key. rewrite Hi1, Hi2. by left.
      * simpl. unfold source_key. rewrite (fo_source _ _ Hfl), (fo_key _ _ Hfl), Hk. left.
    + apply check_schema_integrity in E as [c ->].
      2: { pose proof (sc_valid _ Hsc) as V. unfold valid_rows in *. cbn. rewrite !andb_true_iff in *. rewrite forallb_app. cbn.
           by rewrite Hval, andb_true_r. }
      rewrite Hk, (keyed_message d (fl_source f) k m) by done. unfold existing_message_response, repeated. by destruct (_ ==? _).
Qed.

(** C26. The status of an account and of a product is the one its latest lifecycle
    event gives, of events at the same time the one that arrived last. So the
    order in which events arrive matters for ties only: two servers that have
    received the same events agree on every account, and on every product, of
    which no two events happened at the same time, with the time and the event
    the status comes from; and on every revoked session. *)
Theorem lifecycle_order_irrelevant s1 s2 : reachable limit s1 -> reachable limit s2 ->
  let log1 := auth_lifecycle_events (sys_db s1) in let log2 := auth_lifecycle_events (sys_db s2) in
  log1 ≡ₚ log2 ->
  (forall u, find_row u (auth_user_states (sys_db s1)) = account_register u log1 /\
    (NoDup (map AuthLifecycleEvent.occurred_at (List.filter (concerns_account u) log1)) ->
     find_row u (auth_user_states (sys_db s1)) = find_row u (auth_user_states (sys_db s2)))) /\
  (forall c, find_row (string_key c) (application_states (sys_db s1)) = application_register c log1 /\
    (NoDup (map AuthLifecycleEvent.occurred_at (List.filter (concerns_application c) log1)) ->
     find_row (string_key c) (application_states (sys_db s1)) = find_row (string_key c) (application_states (sys_db s2)))) /\
  (forall k, k ∈ keys (revoked_auth_sessions (sys_db s1)) <-> k ∈ keys (revoked_auth_sessions (sys_db s2))).
Proof.
  intros [[_ [A1 B1 C1] _ _] _]%reachable_ok [[_ [A2 B2 C2] _ _] _]%reachable_ok log1 log2 Hp.
  assert (forall q, List.filter q log1 ≡ₚ List.filter q log2) as Hf by (intros q; by apply filter_Permutation).
  split; [|split].
  - intros u. split; [apply A1|]. intros Hu. rewrite A1, A2. unfold account_register.
    f_equal. apply latest_perm; [apply Hf|apply Hu].
  - intros c. split; [apply B1|]. intros Hc. rewrite B1, B2. unfold application_register.
    f_equal. apply latest_perm; [apply Hf|apply Hc].
  - intros k. rewrite C1, C2, !existsb_exists. fold log1 log2.
    split; intros (ev & Hin%list_elem_of_In & Hr); exists ev; (split; [|done]); apply list_elem_of_In; [by rewrite <- Hp|by rewrite Hp].
Qed.
End Guarantees.
