(* ===== verification/PushProgress.v ===== *)
(** Progress of the delivery worker: batch after batch, every delivery is
    settled, whatever the providers answer. *)
From S2P Require Import Prelude Json Calendar Session Schema WebApi Sha256 Engines PushModels PushAuth PushService PushProviders PushWorker PushFacts PushLifecycle PushDevices PushMessages PushBatch PushSafety.
#[local] Open Scope string_scope.
#[local] Open Scope list_scope.
#[local] Open Scope Z_scope.

(** The attempts a delivery has left, and those of a database. *)
Definition weight (limit : Z) (v : Delivery) : Z := if pending v then Z.max 1 limit - Delivery.attempts v else 0.
Definition backlog (limit : Z) (d : PushDb) : Z := sum_by (weight limit) (deliveries d).
Definition unsettled (d : PushDb) : list Delivery := List.filter pending (deliveries d).

(** The worker's loop: a shift per cycle. *)
Fixpoint work (l : list (Env * Shift)) (d : PushDb) : PushDb :=
  match l with [] => d | (e, w) :: l => work l (snd (run_once e w d)) end.
(** Every shift starts after the longest back-off from what the one before did. *)
Definition after (w w' : Shift) : Prop :=
  wk_select w <= wk_select w' /\ forall id, wk_done w id + seconds 7200 <= wk_select w'.
Fixpoint paced (l : list (Env * Shift)) : Prop :=
  match l with
  | (_, w) :: l => match l with (_, w') :: _ => after w w' | [] => True end /\ paced l
  | [] => True
  end.
(** Every open delivery is due at [t]. *)
Definition all_due (t : time) (d : PushDb) : Prop := forall v, v ∈ deliveries d -> pending v = true -> Delivery.next_attempt_at v <= t.

Section Progress.
Context (limit : Z).
Lemma weight_pos v : delivery_ok limit v -> pending v = true -> 1 <= weight limit v.
Proof.
  intros Hok Hp. unfold weight. rewrite Hp. apply in_elem in Hp. rewrite !elem_of_cons, elem_of_nil in Hp.
  destruct Hp as [E|[E|[]]]; [rewrite (do_queued _ _ Hok E)|pose proof (do_retry _ _ Hok E)]; lia.
Qed.
Lemma weight_nonneg v : delivery_ok limit v -> 0 <= weight limit v.
Proof. intros Hok. destruct (pending v) eqn:Hp; [pose proof (weight_pos v Hok Hp); lia|unfold weight; rewrite Hp; lia]. Qed.
Lemma worked_weight w v v' : max_attempts (wk_settings w) = limit -> delivery_ok limit v -> pending v = true -> worked w v v' ->
  weight limit v' + 1 <= weight limit v.
Proof.
  intros Hw Hok Hp Hwd. pose proof (weight_pos v Hok Hp) as Hpos. unfold weight in *. rewrite Hp in *.
  destruct (pending v') eqn:Hp'; [|lia]. destruct (wd_retry _ _ _ Hwd Hp') as (E & _ & _). lia.
Qed.

Section Cycle.
Context (d : PushDb) (e : Env) (w : Shift) (Hok : push_ok limit d) (Hw : max_attempts (wk_settings w) = limit)
  (Hfit : answers_fit w) (Hlimit : limit <= 2147483647).
Lemma cycle_ran : exists sent, ran limit d w e sent (snd (run_once e w d)).
Proof.
  pose proof (run_once_total limit d w (ok_schema _ _ Hok) Hw e Hfit Hlimit (ok_messages _ _ Hok)) as Ht.
  destruct (run_once e w d) as [[[sent n]|x] d'] eqn:E; [|done]. exists sent. cbn.
  by apply (run_once_ran limit) in E; [apply E|apply Hok|done|apply Hok].
Qed.
(** No cycle adds to the backlog, and one with something to do uses an attempt up. *)
Lemma progress_weight items l l' : Forall2 (progressed w items) l l' ->
  (forall v, v ∈ l -> delivery_ok limit v) -> (forall v, v ∈ items -> pending v = true) ->
  zsum (map (weight limit) l') <= zsum (map (weight limit) l) /\
  ((exists v, v ∈ l /\ v ∈ items) -> zsum (map (weight limit) l') + 1 <= zsum (map (weight limit) l)).
Proof.
  intros Hp Hd Hi. induction Hp as [|v v' l l' Hv Hp IH]; simpl; [split; [done|by intros (? & ?%not_elem_of_nil & _)]|].
  destruct IH as [I1 I2]; [intros x Hx; apply Hd; by right|].
  assert (weight limit v' <= weight limit v /\ (v ∈ items -> weight limit v' + 1 <= weight limit v)) as [W1 W2].
  { destruct Hv as [[Hb (m & r & se & Ho)]|[Hb ->]]; [|split; [done|by intros ?%Hb]].
    assert (weight limit v' + 1 <= weight limit v); [|split; [lia|done]].
    eapply worked_weight; [done|apply Hd; left|by apply Hi|eapply outcome_worked; [by apply Hi|done]]. }
  split; [lia|]. intros (x & [->|Hx]%elem_of_cons & Hb); [specialize (W2 Hb); lia|].
  assert (exists x, x ∈ l /\ x ∈ items) as Hex by eauto. specialize (I2 Hex). lia.
Qed.
Lemma batch_nonempty : all_due (wk_select w) d -> unsettled d <> [] -> exists v, v ∈ batch w (open_session d).
Proof.
  intros Hdue Hne. destruct (unsettled d) as [|v l] eqn:E; [done|].
  assert (v ∈ unsettled d) as [Hv Hpv]%elem_of_filter by (rewrite E; left).
  assert (v ∈ sort_cmp (asc Delivery.next_attempt_at) (List.filter (due (wk_select w)) (deliveries d))) as Hin.
  { unfold sort_cmp. rewrite sort_by_elem, elem_of_filter. split; [done|]. unfold due. rewrite Hpv. apply Z.leb_le. by apply Hdue. }
  unfold batch. rewrite (select_ordered_synced deliveries) by (done || apply (ok_schema _ _ Hok)).
  destruct (sort_cmp _ _) as [|y k]; [by apply not_elem_of_nil in Hin|]. exists y. left.
Qed.
Lemma cycle_backlog : all_due (wk_select w) d ->
  backlog limit (snd (run_once e w d)) <= backlog limit d /\
  (unsettled d <> [] -> backlog limit (snd (run_once e w d)) + 1 <= backlog limit d).
Proof.
  intros Hdue. destruct cycle_ran as [sent [_ _ _ Hp _ _ _]].
  destruct (progress_weight _ _ _ Hp) as [H1 H2]; [apply (ok_messages _ _ Hok)| |split; [exact H1|]].
  - intros v [_ [? _]%andb_true_iff]%batch_elem; [done|apply Hok].
  - intros (v & Hv)%batch_nonempty; [|done]. apply H2. exists v. split; [|done]. by apply batch_elem in Hv as [? _]; [|apply Hok].
Qed.
Lemma cycle_due t : (forall id, wk_done w id + seconds 7200 <= t) -> wk_select w <= t ->
  all_due (wk_select w) d -> all_due t (snd (run_once e w d)).
Proof.
  intros Hdone Ht Hdue v' Hv' Hp'. destruct cycle_ran as [sent [_ _ _ Hp _ _ _]].
  destruct (Forall2_in_r _ _ _ _ Hp Hv') as (v & Hv & [[Hb (m & r & se & Ho)]|[_ ->]]).
  - apply batch_elem in Hb as [_ [Hpv _]%andb_true_iff]; [|apply Hok].
    destruct (wd_retry _ _ _ (outcome_worked _ _ _ _ _ _ Hpv Ho) Hp') as (_ & _ & Hn). specialize (Hdone (Delivery.id v)). lia.
  - specialize (Hdue v Hv Hp'). lia.
Qed.
End Cycle.

Lemma backlog_zero d : messages_ok limit d -> backlog limit d <= 0 -> unsettled d = [].
Proof.
  intros Hok. unfold backlog, unsettled, sum_by.
  assert (forall v, v ∈ deliveries d -> delivery_ok limit v) as Hd by apply Hok. revert Hd.
  induction (deliveries d) as [|v l IH]; simpl; [done|]. intros Hd Hb.
  assert (0 <= zsum (map (weight limit) l)).
  { apply (sum_by_nonneg (weight limit)), Forall_forall. intros x Hx. apply weight_nonneg, Hd. by right. }
  destruct (pending v) eqn:Hp; [pose proof (weight_pos v (Hd v ltac:(left)) Hp); lia|].
  pose proof (weight_nonneg v (Hd v ltac:(left))). apply IH; [intros x Hx; apply Hd; by right|lia].
Qed.
Lemma backlog_bound d : messages_ok limit d -> backlog limit d <= Z.max 1 limit * zlen (unsettled d).
Proof.
  intros Hok. unfold backlog, unsettled, sum_by, zlen.
  assert (forall v, v ∈ deliveries d -> delivery_ok limit v) as Hd by apply Hok. revert Hd.
  induction (deliveries d) as [|v l IH]; intros Hd; simpl; [lia|].
  assert (zsum (map (weight limit) l) <= Z.max 1 limit * Z.of_nat (length (List.filter pending l))) by (apply IH; intros x Hx; apply Hd; by right).
  unfold weight at 1. pose proof (do_attempts _ _ (Hd v ltac:(left))). destruct (pending v); cbn [length]; [rewrite Nat2Z.inj_succ, Z.mul_succ_r|]; lia.
Qed.

(** C25. No delivery stays open for ever: from any reachable state whose open
    deliveries are due, cycles of the worker that are at least the longest
    back-off apart settle every delivery within [max_attempts] cycles for each
    open delivery, whatever the providers answer, as long as the identifiers
    they return fit their column ([answers_fit], 300 characters): a longer one
    rolls the batch back. *)
Theorem deliveries_settle `{Providers} s l :
  reachable limit s -> limit <= 2147483647 ->
  Forall (fun ew => max_attempts (wk_settings (snd ew)) = limit /\ answers_fit (snd ew)) l ->
  paced l -> (forall e w l', l = (e, w) :: l' -> all_due (wk_select w) (sys_db s)) ->
  Z.max 1 limit * zlen (unsettled (sys_db s)) <= zlen l ->
  unsettled (work l (sys_db s)) = [].
Proof.
  intros [Hok _]%reachable_ok Hlimit Hl Hpaced Hdue Hlen. pose proof (backlog_bound _ (ok_messages _ _ Hok)) as Hb.
  assert (backlog limit (sys_db s) <= zlen l) as Hm by lia. clear Hb Hlen. revert Hok Hpaced Hdue Hm.
  generalize (sys_db s). clear s. induction Hl as [|[e w] l [Hw Hfit] Hl IH]; intros d Hok Hpaced Hdue Hm; cbn [work].
  - apply backlog_zero; [apply Hok|exact Hm].
  - cbn [snd] in *. assert (all_due (wk_select w) d) as Hd by by eapply Hdue. destruct (run_goes limit e w d Hw Hok) as [Hok' _].
    destruct Hpaced as [Ha Hpaced]. apply IH; [done|done| |].
    + intros e' w' l' ->. destruct Ha as [Hs Hda]. by apply cycle_due.
    + destruct (cycle_backlog d e w Hok Hw Hfit Hlimit Hd) as [H1 H2]. unfold zlen in *. simpl length in Hm.
      destruct (unsettled d) as [|x u] eqn:Eu; [|specialize (H2 ltac:(done)); lia].
      pose proof (backlog_bound _ (ok_messages _ _ Hok)) as Hb. rewrite Eu in Hb. change (zlen []) with 0 in Hb. lia.
Qed.
End Progress.
