(* ===== verification/PushDemo.v ===== *)
(** A small notification service on which the theorems are instantiated: one
    product, a user with a phone, a notification, a worker. *)
From S2P Require Import Prelude Json Calendar Session Schema WebApi Sha256 Engines PushModels PushAuth PushService PushProviders PushWorker PushFacts PushLifecycle PushDevices PushMessages PushBatch PushSafety PushGuarantees PushProgress.
#[local] Open Scope string_scope.
#[local] Open Scope list_scope.
#[local] Open Scope Z_scope.

(** Tokens that carry their claims in clear, and a cipher that hides nothing. *)
#[export] Instance demo_providers : Providers := {
  signing_key _ := Some "key";
  jwt_decode _ iss aud _ required _ token :=
    match json_loads token with
    | Some (JObj claims) =>
        if forallb (fun k => is_some (dict_get k claims)) required && is_str iss (jget "iss" claims) && is_str aud (jget "aud" claims)
        then Some claims else None
    | _ => None
    end;
  fernet_key _ := true;
  fernet_encrypt _ _ value := value;
  fernet_decrypt _ value := Some value
}.
Definition demo_settings : Settings :=
  mk_Settings "https://auth.example/" "shop, tutor" "shop,ithute-notification" "ithute-notification" "panel" 30 600 600 180 "k" 2.
Definition demo_push_env (n : Z) : Env := mk_Env demo_settings (seconds (1000 + n)) (fun i => 100 * n + Z.of_nat i) "iv".
Definition demo_token (extra : list (string * Json)) : string := json_dumps (JObj ([
  ("iss", JStr "https://auth.example"); ("aud", JStr "ithute-push"); ("jti", JStr "j"); ("iat", JInt 1000); ("nbf", JInt 1000);
  ("exp", JInt 1300)] ++ extra)).
Definition demo_user (u sid : uuid) : option string := Some (demo_token [
  ("sub", JStr (str_of_uuid u)); ("sid", JStr (str_of_uuid sid)); ("azp", JStr "shop"); ("scope", JStr "openid push.device");
  ("token_use", JStr "push_access")]).
Definition demo_service (client scope : string) : option string := Some (demo_token [
  ("sub", JStr ("service:" ++ client)%string); ("azp", JStr client); ("scope", JStr scope); ("token_use", JStr "service")]).
Definition demo_event (id : uuid) (type : string) (u : uuid) (t : time) : Call :=
  AuthEvents (demo_service "ithute-auth" "push.lifecycle") (mk_AuthLifecycleEventRequest id type (Some u) None None t []).

Definition demo_device : Call := PostDevices (demo_user 7 70) (mk_DeviceRequest "phone-0001" "android" "fcm-token-1").
Definition demo_message : Call :=
  PostMessages (demo_service "shop" "push.send") (mk_MessageRequest 7 "Hello" "Your order" None (Some "default") [] 36000) (Some " order-1 ").
Definition demo_db1 : PushDb := Eval vm_compute in snd (serve (demo_push_env 1) demo_device empty_PushDb).
Definition demo_db2 : PushDb := Eval vm_compute in snd (serve (demo_push_env 2) demo_message demo_db1).
(** The same request, checked before the first one was written. *)
Definition demo_flight : Flight := Eval vm_compute in
  match begin_call (demo_push_env 3) demo_message demo_db1 with
  | Some (Ok (inr f)) => f | _ => mk_Flight EmptyString None EmptyString (Message.new_Message 0 0) [] [] 0 end.
Definition demo_state : System := mk_System demo_db2 [demo_flight].
(** A provider that is down, and one that answers. *)
Definition demo_shift (n : Z) (o : outcome) : Shift :=
  mk_Shift demo_settings (seconds n) (fun _ => seconds n) (fun _ => seconds n) Some (fun _ _ _ _ => o).
Definition demo_down : Shift := demo_shift 1100 (inr (RetryableProviderError "FCM network request failed")).

Example demo_runs :
  (length (push_endpoints demo_db1), map Message.status (messages demo_db2), map Delivery.status (deliveries demo_db2)) =
  (1%nat, ["queued"], ["queued"]).
Proof. vm_compute. reflexivity. Qed.
Example demo_retry : let d := snd (run_once (demo_push_env 4) demo_down demo_db2) in
  (map Message.status (messages d), map Delivery.status (deliveries d), map Delivery.next_attempt_at (deliveries d)) =
  (["processing"], ["retry"], [seconds 1160]).
Proof. vm_compute. reflexivity. Qed.
Example demo_delivered : let d := snd (run_once (demo_push_env 4) (demo_shift 1100 (inl (Some "m/1"))) demo_db2) in
  (map Message.status (messages d), map Delivery.attempts (deliveries d)) = (["delivered"], [1]).
Proof. vm_compute. reflexivity. Qed.

Lemma demo_reachable1 : reachable 2 (mk_System demo_db1 []).
Proof.
  eapply rtc_r; [constructor|]. replace demo_db1 with (snd (serve (demo_push_env 1) demo_device empty_PushDb)) by (vm_compute; reflexivity).
  apply Step_serve.
Qed.
Lemma demo_reachable : reachable 2 demo_state.
Proof.
  eapply rtc_r; [eapply rtc_r; [exact demo_reachable1|apply (Step_begin 2 (demo_push_env 3) demo_message demo_db1 [] demo_flight)]|].
  - vm_compute. reflexivity.
  - unfold demo_state. replace demo_db2 with (snd (serve (demo_push_env 2) demo_message demo_db1)) by (vm_compute; reflexivity).
    apply Step_serve.
Qed.

(** * The theorems on the demonstration *)
Definition demo_answer := Eval vm_compute in run_once (demo_push_env 4) demo_down demo_db2.
Definition demo_sent : list Sent := Eval vm_compute in match fst demo_answer with Ok (sent, _) => sent | Err _ => [] end.
Lemma notifications_reach_live_devices_witness :
  exists x, demo_sent = [x] /\ PushEndpoint.auth_user_id (st_endpoint x) = Message.recipient_user_id (st_message x).
Proof.
  destruct demo_sent as [|x l] eqn:E; [discriminate|]. exists x.
  assert (demo_sent = [x]) as Hx by (rewrite E; vm_compute in E; injection E as _ <-; reflexivity).
  split; [rewrite <- E; exact Hx|].
  apply (notifications_reach_live_devices 2 demo_state (demo_push_env 4) demo_down demo_sent 1 (snd demo_answer) demo_reachable).
  - reflexivity.
  - vm_compute. reflexivity.
  - rewrite Hx. left.
Defined.
Lemma delivery_lifecycle_witness :
  map Delivery.status (deliveries (sys_db demo_state)) = ["queued"] /\
  forall v, v ∈ deliveries (sys_db demo_state) -> 0 <= Delivery.attempts v <= Z.max 1 2.
Proof. split; [vm_compute; reflexivity|]. intros v Hv. apply (delivery_lifecycle 2 demo_state demo_reachable). exact Hv. Defined.
Definition demo_first : Message := Eval vm_compute in
  match messages demo_db2 with m :: _ => m | [] => Message.new_Message 0 0 end.
(** The request that raced with the first one gets its notification; a later request
    with the same key and another body is refused. *)
Lemma repeated_request_one_message_witness :
  finish_message demo_flight demo_db2 = Ok (mk_MessageResponse (Message.id demo_first) "queued" 1 true, demo_db2) /\
  queue_message (demo_push_env 3) (mk_MessageRequest 7 "Hello" "Another order" None (Some "default") [] 36000) (mk_ServicePrincipal "shop" ["push.send"] false)
    (Some "order-1") (open_session demo_db2) = Err (HTTPException 409 "Idempotency-Key was already used for a different notification").
Proof.
  destruct (repeated_request_one_message 2 demo_state "shop" "order-1" demo_first demo_reachable) as (Hq & _ & Hf); [left|by vm_compute|]. split.
  - etransitivity; [apply (Hf demo_flight); [left|vm_compute; reflexivity..]|]. vm_compute. reflexivity.
  - etransitivity; [apply (Hq (demo_push_env 3)); vm_compute; reflexivity|]. vm_compute. reflexivity.
Defined.

(** The account is disabled and enabled again; the events arrive in either order. *)
Definition demo_disabled : Call := demo_event 501 "account.disabled" 7 (seconds 900).
Definition demo_enabled : Call := demo_event 502 "account.enabled" 7 (seconds 950).
Definition demo_in_order : PushDb := Eval vm_compute in
  snd (serve (demo_push_env 6) demo_enabled (snd (serve (demo_push_env 5) demo_disabled empty_PushDb))).
Definition demo_out_of_order : PushDb := Eval vm_compute in
  snd (serve (demo_push_env 5) demo_disabled (snd (serve (demo_push_env 6) demo_enabled empty_PushDb))).
Lemma demo_two_events (e1 e2 : Env) c1 c2 d : d = snd (serve e2 c2 (snd (serve e1 c1 empty_PushDb))) -> reachable 2 (mk_System d []).
Proof. intros ->. eapply rtc_r; [eapply rtc_r; [constructor|apply Step_serve]|apply Step_serve]. Qed.
Lemma lifecycle_order_irrelevant_witness :
  find_row 7 (auth_user_states demo_in_order) = find_row 7 (auth_user_states demo_out_of_order) /\
  find_row 7 (auth_user_states demo_in_order) = Some (AuthUserState.mk 7 true (seconds 950) 502).
Proof.
  split; [|vm_compute; reflexivity].
  apply (lifecycle_order_irrelevant 2 (mk_System demo_in_order []) (mk_System demo_out_of_order [])
    (demo_two_events (demo_push_env 5) (demo_push_env 6) demo_disabled demo_enabled demo_in_order ltac:(vm_compute; reflexivity))
    (demo_two_events (demo_push_env 6) (demo_push_env 5) demo_enabled demo_disabled demo_out_of_order ltac:(vm_compute; reflexivity))).
  - cbn. apply perm_swap.
  - apply (NoDup_map_filter AuthLifecycleEvent.occurred_at). by apply (bool_decide_unpack _).
Defined.

(** Two cycles, the provider down in both. *)
Definition demo_cycles : list (Env * Shift) :=
  [(demo_push_env 4, demo_down); (demo_push_env 5, demo_shift 9000 (inr (RetryableProviderError "FCM network request failed")))].
Lemma demo_answers_fit n msg : answers_fit (demo_shift n (inr (RetryableProviderError msg))).
Proof. intros r m id i. unfold attempt. cbn. discriminate. Qed.
Lemma deliveries_settle_witness :
  map Delivery.status (deliveries (work demo_cycles demo_db2)) = ["failed"] /\ unsettled (work demo_cycles demo_db2) = [].
Proof.
  split; [vm_compute; reflexivity|].
  apply (deliveries_settle 2 demo_state demo_cycles demo_reachable).
  - lia.
  - repeat constructor; apply demo_answers_fit.
  - cbn. repeat split; intros; vm_compute; discriminate.
  - intros e w l' [= <- <- _] v Hv _. cbn in Hv. apply list_elem_of_singleton in Hv as ->. vm_compute. discriminate.
  - vm_compute. discriminate.
Defined.
