(* ===== verification/IdentityPush.v ===== *)
(** The identity server and the notification service together: the outbox of the
    one, its worker, and the endpoint of the other that receives the events.

    Any number of workers run.  A claimed event is in the hands of one of them,
    which may post it, see the answer or not, settle it or die; a lease that
    expires lets another one post it again.  All of this interleaves with the
    requests and batches of both services. *)
From S2P Require Import Prelude Json Calendar Session Schema WebApi Sha256 Engines Base64 PushModels PushAuth PushService PushProviders PushWorker PushFacts PushLifecycle PushDevices PushMessages PushBatch PushSafety IdentityModels IdentityCore IdentityLogin IdentityAccount IdentityAdmin IdentityOutbox IdentityFacts IdentityEvents IdentityRelay.
#[local] Open Scope string_scope.
#[local] Open Scope list_scope.
#[local] Open Scope Z_scope.

(** What the notification service's framework reads from the JSON of an event: its
    identifiers and its type are those of the text ([pydantic] reads a UUID from
    its canonical text). *)
Class Wire : Type := {
  read_event : list (string * Json) -> option AuthLifecycleEventRequest;
  read_event_spec : forall row req, valid_AuthEventOutbox row = true -> read_event (event_payload row) = Some req ->
    le_event_id req = AuthEventOutbox.id row /\ le_type req = AuthEventOutbox.event_type row /\
    le_sid req = AuthEventOutbox.session_id row
}.

(** * The system *)
Record Platform : Type := mk_Platform {
  identity : IdentityDb;
  push : System;
  claimed : list ClaimedEvent;
  accepted : list uuid;
  unannounced : list uuid
}.
#[export] Instance eta_Platform : Eta Platform :=
  fun p => mk_Platform (identity p) (push p) (claimed p) (accepted p) (unannounced p).

Section Platform.
Context `{Hip : IdentityCore.Providers, Hpp : PushAuth.Providers, Hw : Wire} (urlsplit : string -> option UrlParts) (limit : Z).

(** [POST /v1/internal/auth-events] with an event in the body. *)
Definition received_by (pe : PushAuth.Env) (credentials : option string) (req : AuthLifecycleEventRequest) (p : System) : result Reply * System :=
  let '(r, d) := PushService.serve pe (AuthEvents credentials req) (sys_db p) in (r, mk_System d (sys_flights p)).

(** The claims of the identity server's own service, which it signs for its
    worker only. *)
Record speaks_for_auth (claims : list PushAuth.claim) : Prop := {
  sa_use : jget "token_use" claims = JStr "service";
  sa_client : jget "azp" claims = JStr "ithute-auth";
  sa_subject : jget "sub" claims = JStr "service:ithute-auth";
  sa_scope : exists raw, jget "scope" claims = JStr raw /\ "push.lifecycle" ∈ str_split raw
}.
(** A token whose signature verifies at the notification service and that holds them. *)
Definition auth_token (pe : PushAuth.Env) (token : string) : Prop := exists key claims, PushAuth.signing_key token = Some key /\
  PushAuth.jwt_decode key (rstrip_slash (auth_issuer (PushAuth.settings pe))) "ithute-push" (skew (PushAuth.settings pe)) service_claims
    (PushAuth.now pe) token = Some claims /\ speaks_for_auth claims.
(** The requests of anybody else: any request at all, with any token but such a
    one in the lifecycle endpoint. *)
Definition foreign (pe : PushAuth.Env) (c : PushService.Call) : Prop :=
  match c with AuthEvents (Some token) _ => ~ auth_token pe token | _ => True end.
(** What goes on in the notification service besides the posts of the workers. *)
Inductive traffic : System -> System -> Prop :=
| Traffic_serve pe c d fs : foreign pe c -> traffic (mk_System d fs) (mk_System (snd (PushService.serve pe c d)) fs)
| Traffic_begin pe c d fs f : begin_call pe c d = Some (Ok (inr f)) -> traffic (mk_System d fs) (mk_System d (fs ++ [f]))
| Traffic_finish d fs1 f fs2 r d' : finish_message f d = Ok (r, d') ->
    traffic (mk_System d (fs1 ++ f :: fs2)) (mk_System d' (fs1 ++ fs2))
| Traffic_abandon d fs1 f fs2 : traffic (mk_System d (fs1 ++ f :: fs2)) (mk_System d (fs1 ++ fs2))
| Traffic_worker pe w d fs : max_attempts (wk_settings w) = limit ->
    traffic (mk_System d fs) (mk_System (snd (PushWorker.run_once pe w d)) fs).

(** The sessions that a request revoked in bulk: the owner synchronisation
    updates their rows without an event. *)
Definition bulk_revoked (q : Call) (d d' : IdentityDb) : list uuid :=
  match q with
  | SynchronizeSystemOwner =>
      let revoked_in t k := existsb (fun s => (AuthSession.id s =? k) && is_some (AuthSession.revoked_at s)) (auth_sessions t) in
      List.filter (fun k => revoked_in d' k && negb (revoked_in d k)) (map AuthSession.id (auth_sessions d'))
  | _ => []
  end.

(** [accepted] are the events whose post was answered with success, and
    [unannounced] the sessions the owner synchronisation has revoked. *)
Inductive step : Platform -> Platform -> Prop :=
| Step_request p r d : d = snd (IdentityAdmin.serve urlsplit (identity p) r) ->
    step p (p <| identity := d |> <| unannounced ::= (fun l => l ++ bulk_revoked (snd r) (identity p) d) |>)
| Step_push p s : traffic (push p) s -> step p (p <| push := s |>)
| Step_claim p e c d : run (claim_next e) (identity p) = (Ok (Some c), d) ->
    step p (p <| identity := d |> <| claimed ::= (fun l => l ++ [c]) |>)
| Step_post p c pe credentials req r s : c ∈ claimed p -> read_event (payload c) = Some req ->
    received_by pe credentials req (push p) = (r, s) ->
    step p (p <| push := s |> <| accepted ::= (fun l => if is_ok r then l ++ [event_id c] else l) |>)
| Step_success p e k : k ∈ accepted p -> step p (p <| identity := snd (run (settle_success e k) (identity p)) |>)
| Step_failure p e c error : c ∈ claimed p ->
    step p (p <| identity := snd (run (settle_failure e (event_id c) error) (identity p)) |>).

(** It starts with an empty notification service and an identity server that
    has revoked nothing unannounced and delivered nothing. *)
Record initial (p : Platform) : Prop := {
  in_schema : schema_ok (identity p);
  in_announced : all_announced [] (identity p);
  in_undelivered : forall ev, ev ∈ auth_event_outbox (identity p) -> undelivered ev = true;
  in_push : push p = mk_System empty_PushDb [];
  in_claimed : claimed p = [];
  in_accepted : accepted p = [];
  in_unannounced : unannounced p = []
}.
Definition reachable (p : Platform) : Prop := exists p0, initial p0 /\ rtc step p0 p.

(** * The requests of others leave the log alone *)

(** Only a token of the identity server's own service opens the endpoint. *)
Lemma lifecycle_principal_token pe credentials : lifecycle_principal pe credentials = Ok tt ->
  exists token, credentials = Some token /\ auth_token pe token.
Proof.
  unfold lifecycle_principal. intros (token & Hc & Hv)%rbind_ok. exists token.
  split; [by destruct credentials; [injection Hc as ->|]|].
  unfold unauthorized in Hv. destruct (verify_lifecycle pe token) as [[]|x] eqn:E; [clear Hv|by destruct x].
  unfold verify_lifecycle in E. apply rbind_ok in E as ([[claims iat] exp] & Hd & E).
  unfold decode in Hd. destruct (PushAuth.signing_key token) as [key|] eqn:Ek; [|done].
  destruct (PushAuth.jwt_decode _ _ _ _ _ _ _) as [claims'|] eqn:Ej; [|done].
  assert (claims' = claims) as ->.
  { destruct (as_int _); [|done]. destruct (as_int _); [|done]. destruct (_ <=? _); [|done]. destruct (_ <? _); [|done]. by injection Hd. }
  exists key, claims. do 2 (split; [done|]). destruct (is_str "service" _) eqn:E1; [|done].
  destruct (is_str "ithute-auth" _ && _) eqn:E2; [|done]. apply andb_true_iff in E2 as [E2 E3].
  apply rbind_ok in E as (scopes & Hs & E). destruct (_ in? scopes) eqn:E4; [|done]. apply in_elem in E4.
  unfold scope_of in Hs. destruct (jget "scope" claims) as [| | | |raw| |] eqn:Er; try done. injection Hs as <-.
  assert (forall x v, is_str x v = true -> v = JStr x) as Hstr by (intros x [] Hx; try done; f_equal; by apply bool_decide_eq_true in Hx).
  split; [by apply Hstr..|]. exists raw. split; [done|]. by apply list_elem_of_In, filter_In, proj1, list_elem_of_In in E4.
Qed.
Lemma hushed_log d d' : hushed d d' -> auth_lifecycle_events d' = auth_lifecycle_events d.
Proof. by intros (l & -> & _). Qed.
Lemma answer_log pe c d r d' : schema d -> foreign pe c -> PushService.answer pe c d = Ok (r, d') ->
  auth_lifecycle_events d' = auth_lifecycle_events d.
Proof.
  intros Hd Hf. assert (forall A (mk : A -> Reply) (x : result A), (let* a := x in Ok (mk a, d)) = Ok (r, d') ->
    auth_lifecycle_events d' = auth_lifecycle_events d) as Hread by by intros A mk x (a & _ & [= _ <-])%rbind_ok.
  destruct c; cbn [PushService.answer]; intros Ha.
  - apply rbind_ok in Ha as ([] & (token & -> & Ht)%lifecycle_principal_token & _). by destruct Hf.
  - apply rbind_ok in Ha as (p & _ & Ha). apply rbind_ok in Ha as ([] & _ & Ha). apply rbind_ok in Ha as ([a s] & Ha & [= _ <-]).
    apply register_device_shape in Ha as (l & d2 & -> & _ & Hh & _); [|done]. exact (hushed_log _ _ Hh).
  - apply rbind_ok in Ha as (p & _ & Ha). by eapply Hread.
  - apply rbind_ok in Ha as (p & _ & Ha). apply rbind_ok in Ha as (s & Ha & [= _ <-]). revert Ha. unfold PushService.revoke_device.
    intros ([u k] & _ & H1)%rbind_ok. destruct (scalar _ _ _) as [x|]; [|by injection H1 as <-].
    apply commit_hushed in H1 as (d2 & -> & _ & Hh). exact (hushed_log _ _ Hh).
  - destruct (begin_call _ _ _) as [b|]; [|done]. apply rbind_ok in Ha as ([x|f] & -> & Ha);
      apply rbind_ok in Ha as ([a d2] & Ha & [= _ <-]); [by injection Ha as _ <-|].
    by apply finish_message_shape in Ha as [[-> _]|[-> _]].
  - destruct (begin_call _ _ _) as [b|]; [|done]. apply rbind_ok in Ha as ([x|f] & -> & Ha);
      apply rbind_ok in Ha as ([a d2] & Ha & [= _ <-]); [by injection Ha as _ <-|].
    by apply finish_message_shape in Ha as [[-> _]|[-> _]].
  - apply rbind_ok in Ha as (p & _ & Ha). apply rbind_ok in Ha as ([] & _ & Ha). apply rbind_ok in Ha as ([a s] & Ha & [= _ <-]).
    apply acknowledge_shape in Ha as (v & d2 & -> & _ & _ & Hh). exact (hushed_log _ _ Hh).
  - apply rbind_ok in Ha as (p & _ & Ha). by eapply Hread.
  - apply rbind_ok in Ha as (p & _ & Ha). by eapply Hread.
  - apply rbind_ok in Ha as (p & _ & Ha). by eapply Hread.
  - apply rbind_ok in Ha as (p & _ & Ha). apply rbind_ok in Ha as ([] & _ & Ha). by eapply Hread.
Qed.
Lemma traffic_step s s' : traffic s s' -> PushSafety.step limit s s'.
Proof. destruct 1; by econstructor. Qed.
Lemma traffic_log s s' : sys_ok limit s -> traffic s s' -> auth_lifecycle_events (sys_db s') = auth_lifecycle_events (sys_db s).
Proof.
  intros Hok Ht. destruct Ht as [pe c d fs Hf|pe c d fs f _|d fs1 f fs2 r d' Hf|d fs1 f fs2|pe w d fs Hmax]; destruct Hok as [Hd _]; cbn [sys_db] in *; try done.
  - unfold PushService.serve. destruct (PushService.answer pe c d) as [[r d']|] eqn:E; [|done].
    eapply answer_log; [apply Hd|done..].
  - by apply finish_message_shape in Hf as [[-> _]|[-> _]]; [..|apply Hd].
  - destruct (PushWorker.run_once pe w d) as [[[sent n]|x] d'] eqn:E; cbn [snd].
    + by apply (run_once_ran limit) in E as [_ [_ _ _ _ _ _ [-> _]]]; [..|apply Hd|exact Hmax|apply Hd].
    + unfold PushWorker.run_once in E. destruct (rbind _ _) as [[]|]; [done|]. by injection E as _ <-.
Qed.

(** * The invariant *)

(** An entry of the log is the event. *)
Definition entry_of (ev : AuthEventOutbox) (le : AuthLifecycleEvent) : Prop :=
  AuthLifecycleEvent.event_id le = AuthEventOutbox.id ev /\ AuthLifecycleEvent.event_type le = AuthEventOutbox.event_type ev /\
  AuthLifecycleEvent.auth_session_id le = AuthEventOutbox.session_id ev.
Definition log_of (p : Platform) : list AuthLifecycleEvent := auth_lifecycle_events (sys_db (push p)).
Record linked (p : Platform) : Prop := {
  ln_schema : schema_ok (identity p);
  ln_announced : all_announced (unannounced p) (identity p);
  ln_push : sys_ok limit (push p);
  ln_claimed : forall c, c ∈ claimed p -> exists ev, ev ∈ auth_event_outbox (identity p) /\
    event_id c = AuthEventOutbox.id ev /\ payload c = event_payload ev;
  ln_log : forall le, le ∈ log_of p -> exists ev, ev ∈ auth_event_outbox (identity p) /\ entry_of ev le;
  ln_accepted : forall k, k ∈ accepted p -> exists le, le ∈ log_of p /\ AuthLifecycleEvent.event_id le = k;
  ln_delivered : forall ev, ev ∈ auth_event_outbox (identity p) -> undelivered ev = false ->
    exists le, le ∈ log_of p /\ AuthLifecycleEvent.event_id le = AuthEventOutbox.id ev
}.

Lemma evolve_payload (ev ev' : AuthEventOutbox) : evolve ev ev' -> event_payload ev' = event_payload ev.
Proof. intros (E1 & E2 & E3 & E4 & E5 & E6 & E7 & _). unfold event_payload. by rewrite <- E1, <- E2, <- E3, <- E4, <- E5, <- E6, <- E7. Qed.
Lemma evolve_entry ev ev' le : evolve ev ev' -> entry_of ev le -> entry_of ev' le.
Proof. intros (E1 & E2 & _ & E4 & _) (A1 & A2 & A3). unfold entry_of. by rewrite <- E1, <- E2, <- E4. Qed.

(** The identity server goes on, and only accepted events become delivered. *)
Lemma linked_identity p d u : linked p -> evolves (identity p) d -> schema_ok d -> all_announced u d ->
  (forall ev, ev ∈ auth_event_outbox d -> undelivered ev = false -> AuthEventOutbox.id ev ∈ accepted p \/
     exists ev0, ev0 ∈ auth_event_outbox (identity p) /\ undelivered ev0 = false /\ AuthEventOutbox.id ev0 = AuthEventOutbox.id ev) ->
  linked (p <| identity := d |> <| unannounced := u |>).
Proof.
  intros [_ _ Hp Hc Hl Ha Hd] Hev Hs Han Hdel. split; try done.
  - intros c Hin. destruct (Hc c Hin) as (ev & Hev' & E1 & E2). destruct (ev_outbox _ _ Hev ev Hev') as (ev2 & H2 & He).
    exists ev2. split; [done|]. rewrite (evolve_payload _ _ He). split; [|done]. rewrite E1. by destruct He.
  - intros le Hin. destruct (Hl le Hin) as (ev & Hev' & E). destruct (ev_outbox _ _ Hev ev Hev') as (ev2 & H2 & He).
    exists ev2. split; [done|]. by eapply evolve_entry.
  - intros ev Hin Hu. destruct (Hdel ev Hin Hu) as [Hacc|(ev0 & Hin0 & Hu0 & <-)]; [by apply Ha|by apply Hd].
Qed.

(** What the owner synchronisation revokes is listed. *)
Lemma request_announced d r u : schema_ok d -> all_announced u d ->
  let d' := snd (IdentityAdmin.serve urlsplit d r) in all_announced (u ++ bulk_revoked (snd r) d d') d'.
Proof.
  intros Hsc Hu d'. assert (snd r = SynchronizeSystemOwner \/ snd r <> SynchronizeSystemOwner) as [Er|Er] by (destruct (snd r); auto).
  2: { replace (bulk_revoked _ _ _) with (@nil uuid) by by destruct (snd r). rewrite app_nil_r. by apply serve_announced. }
  rewrite Er. intros s Hs Hr. assert (evolves d d') as Hev by by apply serve_evolves.
  set (revoked_in := fun t k => existsb (fun s => (AuthSession.id s =? k) && is_some (AuthSession.revoked_at s)) (auth_sessions t)).
  assert (revoked_in d' (AuthSession.id s) = true) as Hnow.
  { apply existsb_exists. exists s. split; [by apply list_elem_of_In|]. rewrite Z.eqb_refl. unfold is_revoked in Hr. by destruct (AuthSession.revoked_at s). }
  destruct (revoked_in d (AuthSession.id s)) eqn:E.
  - apply existsb_exists in E as (s0 & Hs0%list_elem_of_In & [Ek%Z.eqb_eq Ev]%andb_true_iff).
    assert (is_revoked s0) as Hr0 by (unfold is_revoked; by destruct (AuthSession.revoked_at s0)).
    rewrite <- Ek. destruct (announced_evolves _ _ _ _ Hev (Hu s0 Hs0 Hr0)) as [?|?]; [left|by right]. apply elem_of_app. by left.
  - left. apply elem_of_app. right. apply list_elem_of_In, filter_In. split; [apply list_elem_of_In; by apply list_elem_of_fmap_2|].
    unfold revoked_in in *. by rewrite Hnow, E.
Qed.
(** The worker's own transactions. *)
Lemma linked_event p f row {A} (a : A) r : linked p -> row ∈ auth_event_outbox (identity p) -> (forall x, evolve x (f x)) ->
  (AuthEventOutbox.id row ∈ accepted p \/ forall x, undelivered (f x) = undelivered x) ->
  touches f row a (identity p) r -> linked (p <| identity := snd r |>).
Proof.
  intros Hp Hrow Hf Hdel. unfold touches. destruct (check_schema _) as [[]|x] eqn:Es; intros ->; [|by destruct p].
  apply (linked_identity p _ (unannounced p)); [done|by apply set_event_evolves|done|by apply set_event_announced, Hp|].
  intros ev Hin Hu. apply list_elem_of_fmap in Hin as (x & -> & Hx). destruct (key x in? _) eqn:E; [|right; by exists x].
  apply in_elem, list_elem_of_singleton in E. destruct Hdel as [Hacc|Hdel].
  - left. destruct (Hf x) as [<- _]. change (AuthEventOutbox.id x) with (key x). by rewrite E.
  - right. exists x. split; [done|]. rewrite Hdel in Hu. split; [done|]. by destruct (Hf x).
Qed.
Lemma linked_settle p e k (f : AuthEventOutbox -> AuthEventOutbox) {A} (a b : A) : linked p -> (forall x, evolve x (f x)) ->
  (k ∈ accepted p \/ forall x, undelivered (f x) = undelivered x) ->
  linked (p <| identity := snd (run (let! row := query (get auth_event_outbox k) in
    match row with
    | Some row => if undelivered row then let! _ := assign auth_event_outbox f row in commit e ;; ret a else ret b
    | None => ret b
    end) (identity p)) |>).
Proof.
  intros Hp Hf Hdel. pose proof (settle_run e (identity p) k f a b (ln_schema _ Hp)) as Hr. cbv zeta in Hr.
  assert (p <| identity := identity p |> = p) as Ep by by destruct p.
  destruct (find_row k (auth_event_outbox (identity p))) as [row|] eqn:E; [|by rewrite Hr; cbn [snd]; rewrite Ep].
  destruct (undelivered row); [|by rewrite Hr; cbn [snd]; rewrite Ep].
  eapply linked_event; [done|by eapply find_row_elem|done| |exact Hr]. apply find_row_key in E.
  change (AuthEventOutbox.id row) with (key row). by rewrite E.
Qed.

(** What the notification service does with a posted event. *)
Lemma received_log pe credentials req s r s' : schema (sys_db s) -> received_by pe credentials req s = (r, s') ->
  (auth_lifecycle_events (sys_db s') = auth_lifecycle_events (sys_db s) /\
     (is_ok r = true -> is_some (find_row (le_event_id req) (auth_lifecycle_events (sys_db s))) = true)) \/
  auth_lifecycle_events (sys_db s') = auth_lifecycle_events (sys_db s) ++ [received_event pe req].
Proof.
  intros Hs. unfold received_by, PushService.serve, PushService.answer.
  destruct (lifecycle_principal pe credentials) as [u|x]; cbn [rbind]; [|intros [= <- <-]; by left].
  destruct (WebApi.validated _) as [v|x] eqn:Ev; cbn [rbind]; [|intros [= <- <-]; by left].
  destruct (apply_auth_event pe req (open_session (sys_db s))) as [[a s2]|x] eqn:Ea; cbn [rbind]; [|intros [= <- <-]; by left].
  intros [= <- <-]. cbn [sys_db]. apply apply_auth_event_shape in Ea as [[Hf ->]|(_ & d1 & d' & -> & _ & _ & l & -> & _)]; [by left|by right|done|].
  unfold WebApi.validated in Ev. by destruct (valid_AuthLifecycleEventRequest _ _).
Qed.
Lemma received_step pe credentials req s r s' : received_by pe credentials req s = (r, s') -> PushSafety.step limit s s'.
Proof.
  unfold received_by. destruct (PushService.serve _ _ _) as [r1 d'] eqn:E. intros [= <- <-]. destruct s as [d fs]. cbn in *.
  replace d' with (snd (PushService.serve pe (AuthEvents credentials req) d)) by by rewrite E. constructor.
Qed.

Lemma step_linked p p' : step p p' -> linked p -> linked p'.
Proof.
  intros Hst Hp. pose proof Hp as [Hsc Han Hpu Hcl Hlog Hacc Hdel].
  destruct Hst as [p r d ->|p s Hs|p e c d Hc|p c pe cr req r s Hc Hreq Hrcv|p e k Hk|p e c error Hc].
  - apply (linked_identity p _ (unannounced p ++ _)); [done|apply serve_evolves|by apply serve_schema|by apply request_announced|].
    intros ev Hin Hu. right. exists ev. split; [|done]. by eapply serve_delivers_none.
  - pose proof (traffic_log _ _ Hpu Hs) as El. apply traffic_step, PushSafety.step_ok in Hs as [Hok _]; [|done].
    split; try done; unfold log_of in *; cbn [push set identity claimed accepted]; by rewrite ?El.
  - destruct (claim_run e (identity p) Hsc) as [[E _]|(row & Hrow & _ & _ & Ht)]; [by rewrite E in Hc|].
    assert (linked (p <| identity := d |>)) as Hl.
    { replace d with (snd (run (claim_next e) (identity p))) by by rewrite Hc. eapply linked_event; [done|exact Hrow| | |exact Ht].
      - apply evolve_leased.
      - by right. }
    assert (c = claim_of row) as -> by (revert Ht; unfold touches; rewrite Hc; by destruct (check_schema _); intros [=]).
    pose proof Hl as [? ? ? Hcl' ? ? ?]. split; try done. cbn. intros c [Hin| ->%list_elem_of_singleton]%elem_of_app; [by apply Hcl'|].
    assert (evolves (identity p) d) as Hev.
    { revert Ht. unfold touches. rewrite Hc. destruct (check_schema _); [|done]. intros [= ->]. apply set_event_evolves, evolve_leased. }
    destruct (ev_outbox _ _ Hev row Hrow) as (row' & Hr' & He). exists row'. split; [done|].
    split; [by destruct He|]. symmetry. by apply evolve_payload.
  - destruct (Hcl c Hc) as (ev & Hev & Eid & Epl). rewrite Epl in Hreq.
    apply read_event_spec in Hreq as (E1 & E2 & E3); [|by apply (valid_event (identity p))].
    pose proof (received_step _ _ _ _ _ _ Hrcv) as Hstep. apply PushSafety.step_ok in Hstep as [Hok _]; [|done].
    assert (schema (sys_db (push p))) as Hpsc by apply Hpu.
    assert (forall le, le ∈ auth_lifecycle_events (sys_db s) -> exists ev, ev ∈ auth_event_outbox (identity p) /\ entry_of ev le) as Hlog'.
    { intros le Hin. destruct (received_log _ _ _ _ _ _ Hpsc Hrcv) as [[E _]|E]; rewrite E in Hin; [by apply Hlog|].
      apply elem_of_app in Hin as [Hin| ->%list_elem_of_singleton]; [by apply Hlog|]. by exists ev. }
    assert (forall le, le ∈ log_of p -> le ∈ auth_lifecycle_events (sys_db s)) as Hkeep.
    { intros le Hin. destruct (received_log _ _ _ _ _ _ Hpsc Hrcv) as [[-> _]| ->]; [done|]. apply elem_of_app. by left. }
    split; try done; unfold log_of in *; cbn [push set identity claimed accepted].
    + intros k Hk. assert (k ∈ accepted p \/ k = event_id c /\ is_ok r = true) as [Hk'|[-> Hr]].
      { destruct (is_ok r); [|by left]. apply elem_of_app in Hk as [?| ->%list_elem_of_singleton]; auto. }
      * destruct (Hacc k Hk') as (le & Hin & <-). exists le. auto.
      * destruct (received_log _ _ _ _ _ _ Hpsc Hrcv) as [[E Hf]|E].
        -- specialize (Hf Hr). destruct (find_row _ _) as [le|] eqn:Efd; [|done]. exists le. rewrite E. split; [by eapply find_row_elem|].
           apply find_row_key in Efd. by rewrite Eid, <- E1.
        -- exists (received_event pe req). rewrite E. split; [apply elem_of_app; right; by left|]. cbn. by rewrite Eid.
    + intros ev' Hev' Hu'. destruct (Hdel ev' Hev' Hu') as (le & Hin & <-). exists le. auto.
  - apply (linked_settle p e k (succeeded e) true false); [done|apply evolve_succeeded|by left].
  - apply (linked_settle p e (event_id c) (failed e error) tt tt); [done|apply evolve_failed|by right].
Qed.
Lemma reachable_linked p : reachable p -> linked p.
Proof.
  intros (p0 & [Hs Ha Hu Hp Hc Hk Hn] & Hst). assert (linked p0) as Hl.
  { split; [done|by rewrite Hn| | | | |].
    - rewrite Hp. split; [apply empty_ok|]. by intros ? ?%not_elem_of_nil.
    - rewrite Hc. by intros ? ?%not_elem_of_nil.
    - unfold log_of. rewrite Hp. by intros ? ?%not_elem_of_nil.
    - rewrite Hk. by intros ? ?%not_elem_of_nil.
    - intros ev Hev E. by rewrite Hu in E. }
  clear -Hst Hl. induction Hst as [|p1 p2 p3 H12 _ IH]; [done|]. by apply IH, (step_linked p1).
Qed.

(** * What the two services promise together *)

(** Once an event is delivered the notification service has it. *)
Lemma delivered_received p ev : linked p -> ev ∈ auth_event_outbox (identity p) -> undelivered ev = false ->
  exists le, le ∈ log_of p /\ entry_of ev le.
Proof.
  intros Hp Hev Hu. destruct (ln_delivered _ Hp ev Hev Hu) as (le & Hle & E). exists le. split; [done|].
  destruct (ln_log _ Hp le Hle) as (ev' & Hev' & He).
  replace ev with ev'; [done|]. apply (key_inj _ _ _ (uk_outbox _ (schema_unique _ (ln_schema _ Hp))) Hev' Hev).
  destruct He as [E' _]. change (AuthEventOutbox.id ev' = AuthEventOutbox.id ev). congruence.
Qed.
Definition silent (s : System) (k : uuid) : Prop := forall r, r ∈ push_endpoints (sys_db s) ->
  PushEndpoint.auth_session_id r = Some k -> PushEndpoint.active r = false.
Lemma received_silent p k le : linked p -> le ∈ log_of p -> revokes k le = true -> silent (push p) k.
Proof.
  intros Hp Hle Hr r Hin Hk. destruct (PushEndpoint.active r) eqn:Ea; [|done]. exfalso.
  destruct (dv_live _ (ok_devices _ _ (sy_db _ _ (ln_push _ Hp))) r Hin Ea) as (k' & Ek & Hn & _).
  assert (k' = k) as -> by congruence. apply find_row_none in Hn. apply Hn, (pj_sessions _ (ok_projected _ _ (sy_db _ _ (ln_push _ Hp)))).
  apply existsb_exists. exists le. split; [by apply list_elem_of_In|done].
Qed.
Lemma announcement_entry k ev le : announces k ev -> entry_of ev le -> revokes k le = true.
Proof.
  intros [Ht Hs] (_ & E2 & E3). unfold revokes. rewrite E2, E3, Ht, Hs. by rewrite !bool_decide_eq_true_2.
Qed.

(** C17. The outbox is a reliable channel, however the workers, their crashes and
    the requests to both services interleave, as long as nobody but the identity
    server holds a token of its own service: the notification service has
    received only events the identity server queued, each at most once, and
    every event marked delivered; so a revoked session still has its
    announcement pending, or has no active device left, or the owner
    synchronisation has revoked it, which announces nothing. *)
Theorem outbox_reliable p : reachable p ->
  NoDup (map AuthLifecycleEvent.event_id (log_of p)) /\
  (forall le, le ∈ log_of p -> exists ev, ev ∈ auth_event_outbox (identity p) /\ entry_of ev le) /\
  (forall ev, ev ∈ auth_event_outbox (identity p) -> undelivered ev = false -> exists le, le ∈ log_of p /\ entry_of ev le) /\
  (forall s, s ∈ auth_sessions (identity p) -> is_revoked s ->
     (exists ev, ev ∈ pending_events (identity p) /\ announces (AuthSession.id s) ev) \/
     silent (push p) (AuthSession.id s) \/ AuthSession.id s ∈ unannounced p).
Proof.
  intros Hp%reachable_linked. split; [exact (sc_events _ (ok_schema _ _ (sy_db _ _ (ln_push _ Hp))))|].
  split; [apply Hp|]. split; [intros ev; by apply delivered_received|]. intros s Hs Hr.
  destruct (ln_announced _ Hp s Hs Hr) as [Hu|(ev & Hev & Ha)]; [by right; right|]. destruct (undelivered ev) eqn:Hu.
  - left. exists ev. by rewrite pending_elem.
  - right. left. destruct (delivered_received p ev Hp Hev Hu) as (le & Hle & He). eapply received_silent; [done..|].
    by eapply announcement_entry.
Qed.

(** ** A cycle of the worker *)

(** The post of an event in environment [envs i], [i] counting the posts. *)
Definition push_post (envs : nat -> PushAuth.Env) (explain : exn -> string) (token : string) (body : list (string * Json))
    (w : nat * System) : option string * (nat * System) :=
  let '(i, s) := w in
  match read_event body with
  | None => (Some (explain (HTTPException 422 "validation error")), (S i, s))
  | Some req =>
      let '(r, s) := received_by (envs i) (Some token) req s in
      (match r with Ok _ => None | Err x => Some (explain x) end, (S i, s))
  end.
(** A cycle is a sequence of the system's steps. *)
Definition ends_in {A} (p : Platform) (r : A * IdentityDb * (nat * System)) : Prop := exists p' j,
  rtc step p p' /\ snd (fst r) = identity p' /\ snd r = (j, push p').
Lemma ends_in_step {A} p p' (r : A * IdentityDb * (nat * System)) : step p p' -> ends_in p' r -> ends_in p r.
Proof. intros Hs (p2 & j & Hr & H2). exists p2, j. split; [by eapply rtc_l|done]. Qed.
(** After an event is settled the loop goes on, or an error of the database ends it. *)
Lemma ends_in_settled {A} p j (r : result A * IdentityDb) (next : A -> IdentityDb -> result Z * IdentityDb * (nat * System)) : linked p ->
  step p (p <| identity := snd r |>) ->
  (forall a p', linked p' -> push p' = push p -> ends_in p' (next a (identity p'))) ->
  ends_in p (match r with (Err x, d) => (Err x, d, (j, push p)) | (Ok a, d) => next a d end).
Proof.
  intros Hp Hs Hn. pose proof (step_linked _ _ Hs Hp) as Hp'. apply (ends_in_step _ _ _ Hs). destruct r as [[a|x] d].
  - exact (Hn a (p <| identity := d |>) Hp' eq_refl).
  - by exists (p <| identity := d |>), j.
Qed.
Lemma batch_steps envs explain (clock : nat -> Env) token turns k n p i : linked p ->
  ends_in p (deliver_batch (push_post envs explain) clock token turns k n (identity p) (i, push p)).
Proof.
  revert k n p i. induction turns as [|turns IH]; intros k n p i Hp; [by exists p, i|]. cbn [deliver_batch].
  set (e := clock (2 * k)%nat). set (e' := clock (2 * k + 1)%nat).
  assert (forall p' j m k', linked p' -> ends_in p' (deliver_batch (push_post envs explain) clock token turns k' m (identity p') (j, push p'))) as Hnext
    by auto. clear IH.
  destruct (claim_run e (identity p) (ln_schema _ Hp)) as [[-> _]|(row & _ & _ & _ & Ht)]; [by exists p, i|].
  unfold touches in Ht. destruct (check_schema _); [|by rewrite Ht; exists p, i]. rewrite Ht. cbv iota beta.
  set (c := claim_of row) in *. set (d := set_event _ _ _) in *.
  set (p1 := p <| identity := d |> <| claimed ::= (fun l => l ++ [c]) |>).
  assert (step p p1) as H1 by by eapply Step_claim. pose proof (step_linked _ _ H1 Hp) as Hp1. apply (ends_in_step _ _ _ H1).
  assert (c ∈ claimed p1) as Hc by (apply elem_of_app; right; by left).
  assert (forall p2 error j, linked p2 -> c ∈ claimed p2 -> ends_in p2
    match run (settle_failure e' (event_id c) error) (identity p2) with
    | (Err x, d) => (Err x, d, (j, push p2))
    | (Ok _, d) => deliver_batch (push_post envs explain) clock token turns (S k) n d (j, push p2)
    end) as Hfail.
  { intros p2 error j Hp2 Hc2. apply (ends_in_settled p2 j _ (fun _ d => deliver_batch _ clock token turns (S k) n d (j, push p2)));
      [done|by apply Step_failure|]. intros _ p3 Hp3 <-. by apply Hnext. }
  unfold push_post at 1. destruct (read_event (payload c)) as [req|] eqn:Er; [|by apply (Hfail p1)].
  destruct (received_by (envs i) (Some token) req (push p)) as [r s] eqn:Ep.
  set (p2 := p1 <| push := s |> <| accepted ::= (fun l => if is_ok r then l ++ [event_id c] else l) |>).
  assert (step p1 p2) as H2 by (by apply (Step_post p1 c (envs i) (Some token) req r s)).
  pose proof (step_linked _ _ H2 Hp1) as Hp2. apply (ends_in_step _ _ _ H2). destruct r as [rep|x]; [|by apply (Hfail p2)].
  apply (ends_in_settled p2 (S i) _ (fun settled d => deliver_batch _ clock token turns (S k) (n + Z.b2z settled) d (S i, push p2)));
    [done|apply Step_success; apply elem_of_app; right; by left|]. intros b p3 Hp3 <-. by apply Hnext.
Qed.

(** A valid event from the worker's token is received. *)
Lemma post_accepted envs explain token ev req w : sys_ok limit (snd w) ->
  (forall i, lifecycle_principal (envs i) (Some token) = Ok tt) -> read_event (event_payload ev) = Some req ->
  (forall i, valid_AuthLifecycleEventRequest (PushAuth.now (envs i)) req = true) ->
  exists w', push_post envs explain token (event_payload ev) w = (None, w') /\ sys_ok limit (snd w').
Proof.
  destruct w as [i s]. intros Hs Hlp Hread Hv. unfold push_post. rewrite Hread.
  destruct (received_by (envs i) (Some token) req s) as [r s'] eqn:Er.
  pose proof (received_step _ _ _ _ _ _ Er) as Hst. apply PushSafety.step_ok in Hst as [Hok _]; [|done].
  exists (S i, s'). split; [|done]. revert Er. unfold received_by, PushService.serve, PushService.answer. rewrite Hlp. cbn [rbind].
  unfold WebApi.validated. rewrite Hv. cbn [rbind].
  destruct (apply_auth_event_total (envs i) req (sys_db s)) as (a & s2 & ->); [apply Hs|done|]. by intros [= <- <-].
Qed.

(** C18. A revocation takes effect: when the token is accepted and the pending
    events are valid requests whose leases and back-offs are over, a cycle of the
    worker delivers as many of them as its batch holds; and when it holds them
    all, no session the identity server has revoked has an active device, unless
    the owner synchronisation revoked it, which announces nothing. *)
Theorem revocations_take_effect p e (clock : nat -> Env) envs explain t0 : reachable p ->
  let token := create_service_token e (uuid4 e 0) "ithute-auth" "ithute-push" "push.lifecycle" in
  let n := zlen (pending_events (identity p)) in
  (forall k, t0 <= now (clock k)) -> (forall i, lifecycle_principal (envs i) (Some token) = Ok tt) ->
  (forall ev, ev ∈ pending_events (identity p) ->
     AuthEventOutbox.next_attempt_at ev <= t0 /\ AuthEventOutbox.attempts ev < 2147483647 /\
     exists req, read_event (event_payload ev) = Some req /\
       forall i, valid_AuthLifecycleEventRequest (PushAuth.now (envs i)) req = true) ->
  exists p' j, rtc step p p' /\
    run_once (push_post envs explain) e clock (identity p) (0%nat, push p) = (Ok (Z.min 100 n), identity p', (j, push p')) /\
    zlen (pending_events (identity p')) = Z.max 0 (n - 100) /\
    (n <= 100 -> forall s, s ∈ auth_sessions (identity p) -> is_revoked s ->
     AuthSession.id s ∉ unannounced p -> silent (push p') (AuthSession.id s)).
Proof.
  intros Hp token n Hclock Hlp Hev. pose proof (reachable_linked _ Hp) as Hl.
  destruct (batch_steps envs explain clock token BATCH_SIZE 0 0 p 0%nat Hl) as (p' & j & Hst & Ed & Ew).
  destruct (batch_delivers (push_post envs explain) clock token t0 (fun w => sys_ok limit (snd w)) Hclock BATCH_SIZE 0 0
    (identity p) (0%nat, push p)) as (d' & w' & Erun & Hd' & _ & _ & Hev' & Hlen); [apply Hl| |apply Hl|].
  { intros ev Hin. destruct (Hev ev Hin) as (H1 & H2 & req & H3 & H4). do 2 (split; [done|]). intros w Hw'. by eapply post_accepted. }
  rewrite Erun in Ed, Ew. cbn [fst snd] in Ed, Ew. subst d' w'. exists p', j. split; [done|]. split; [exact Erun|]. split; [exact Hlen|].
  intros Hn s Hs Hr Hann. assert (reachable p') as Hp' by (destruct Hp as (p0 & Hi & Hr0); exists p0; split; [done|by etrans]).
  apply reachable_linked in Hp'.
  destruct (announced_evolves _ _ _ _ Hev' (ln_announced _ Hl s Hs Hr)) as [?|(ev & Hin & Ha)]; [done|]. destruct (undelivered ev) eqn:Hu.
  - exfalso. assert (ev ∈ pending_events (identity p')) as Hpe by by apply pending_elem. 
    destruct (pending_events (identity p')) as [|x l]; [by apply not_elem_of_nil in Hpe|]. unfold zlen in Hlen. simpl in Hlen. 
    change (Z.of_nat BATCH_SIZE) with 100 in Hlen. fold n in Hlen. unfold n, zlen in Hn. lia.
  - destruct (delivered_received p' ev Hp' Hin Hu) as (le & Hle & He). eapply received_silent; [done..|].
    by eapply announcement_entry.
Qed.
End Platform.
