(* ===== verification/IdentityPushDemo.v ===== *)
(** The two services of the demonstrations joined: a user with a phone signs
    out, and the worker tells the notification service. *)
From S2P Require Import Prelude Json JsonFacts Calendar Session Schema WebApi Sha256 Engines Base64 PushModels PushAuth PushService PushProviders PushWorker PushFacts PushLifecycle PushDevices PushMessages PushBatch PushSafety PushDemo IdentityModels IdentityCore IdentityLogin IdentityAccount IdentityAdmin IdentityOutbox IdentityFacts IdentityDemo IdentityEvents IdentityRelay IdentityPush.
#[local] Open Scope string_scope.
#[local] Open Scope list_scope.
#[local] Open Scope Z_scope.

(** * Reading an event from its JSON *)

(** Identifiers in canonical text, times as [isoformat] writes them. *)
Definition canonical_uuid (v : Json) : option (option uuid) :=
  match v with
  | JNull => Some None
  | JStr s =>
      match uuid_of_str s with
      | Ok u => if (0 <=? u) && (u <? 2 ^ 128) && (str_of_uuid u ==? s) then Some (Some u) else None
      | Err _ => None
      end
  | _ => None
  end.
Definition digits_at (s : string) (i n : nat) : Z :=
  fold_left (fun acc c => 10 * acc + (ord c - 48)) (list_ascii_of_string (substring i n s)) 0.
Definition time_of_iso (s : string) : time :=
  days (date_of (digits_at s 0 4) (digits_at s 5 2) (digits_at s 8 2)) +
  seconds (3600 * digits_at s 11 2 + 60 * digits_at s 14 2 + digits_at s 17 2) +
  (if (String.length s =? 32)%nat then digits_at s 20 6 else 0).
Definition demo_read (p : list (string * Json)) : option AuthLifecycleEventRequest :=
  match canonical_uuid (jget "event_id" p), jget "type" p, canonical_uuid (jget "sub" p), canonical_uuid (jget "sid" p),
        jget "occurred_at" p, jget "details" p with
  | Some (Some id), JStr type, Some sub, Some sid, JStr at_, JObj details =>
      Some (mk_AuthLifecycleEventRequest id type sub sid (match jget "client_id" p with JStr c => Some c | _ => None end)
              (time_of_iso at_) details)
  | _, _, _, _, _, _ => None
  end.
Lemma canonical_uuid_opt o r : forallb uuid_column (opt_list o) = true -> canonical_uuid (opt_uuid o) = Some r -> r = o.
Proof.
  destruct o as [k|]; [|by intros _ [= <-]]. cbn -[uuid_of_str str_of_uuid]. rewrite andb_true_r. unfold uuid_column.
  intros [H1%Z.leb_le H2%Z.ltb_lt]%andb_true_iff. destruct (uuid_of_str _) as [u|]; [|done].
  destruct (_ && _) eqn:E; [|done]. intros [= <-]. rewrite !andb_true_iff in E. destruct E as [[E1%Z.leb_le E2%Z.ltb_lt] E3%bool_decide_eq_true].
  f_equal. by apply str_of_uuid_inj.
Qed.
#[export] Instance demo_wire : Wire.
Proof.
  refine {| read_event := demo_read |}. intros row req Hv. unfold valid_AuthEventOutbox in Hv. rewrite !andb_true_iff in Hv.
  destruct Hv as [[[[[[Hi _] _] Hs] _] _] _]. unfold demo_read.
  change (jget "event_id" (event_payload row)) with (opt_uuid (Some (AuthEventOutbox.id row))).
  change (jget "type" (event_payload row)) with (JStr (AuthEventOutbox.event_type row)).
  change (jget "sid" (event_payload row)) with (opt_uuid (AuthEventOutbox.session_id row)).
  destruct (canonical_uuid (opt_uuid (Some _))) as [[id|]|] eqn:E1; try done.
  apply canonical_uuid_opt in E1; [|cbn; by rewrite Hi]. injection E1 as ->.
  destruct (canonical_uuid (jget "sub" _)); [|done]. destruct (canonical_uuid (opt_uuid (AuthEventOutbox.session_id row))) as [sid|] eqn:E3; [|done].
  apply canonical_uuid_opt in E3 as ->; [|done]. destruct (jget "occurred_at" _); try done. destruct (jget "details" _); try done.
  by intros [= <-].
Defined.

(** * The run *)
Definition demo_start_db : IdentityDb := empty_IdentityDb <| users := [demo_user] |>
  <| applications := [Application.new_Application 11 0 <| Application.client_id := "shop" |> <| Application.name := "Shop" |>] |>
  <| auth_sessions := [demo_session 21 "live" None] |>.
Definition demo_start : Platform := mk_Platform demo_start_db (mk_System empty_PushDb []) [] [] [].
Definition demo_push_settings : PushAuth.Settings :=
  PushAuth.mk_Settings "https://id.example" "shop" "shop" EmptyString "panel" 30 600 600 180 "k" 2.
Definition push_env (sec : Z) : PushAuth.Env := PushAuth.mk_Env demo_push_settings (demo_now sec) (fun i => 500 + Z.of_nat i) "iv".

(** The phone is registered with the token of the session; then the session ends. *)
Definition demo_phone : PushService.Call :=
  PostDevices (Some (create_push_access_token (demo_env 0 100 "t") 7 1 "shop" 21)) (mk_DeviceRequest "phone-0001" "android" "fcm-token-1").
Definition demo_phone_db : PushDb := Eval vm_compute in snd (PushService.serve (push_env 1) demo_phone empty_PushDb).
Definition demo_out_db : IdentityDb := Eval vm_compute in snd (serve demo_url demo_start_db (demo_env 2 200 "t", Logout "live")).
Definition demo_signed_out : Platform := mk_Platform demo_out_db (mk_System demo_phone_db []) [] [] [].
Example demo_signed_out_runs :
  (map PushEndpoint.active (push_endpoints demo_phone_db), map AuthEventOutbox.event_type (pending_events demo_out_db)) =
  ([true], ["session.revoked"]).
Proof. vm_compute. reflexivity. Qed.
Lemma demo_signed_out_reachable : reachable demo_url 2 demo_signed_out.
Proof.
  exists demo_start. split.
  - split; try done; try (vm_compute; reflexivity).
    + intros s Hs%list_elem_of_singleton. by subst.
    + by intros ev ?%not_elem_of_nil.
  - eapply rtc_l; [apply (Step_push demo_url 2 demo_start (mk_System demo_phone_db []))|].
    + replace demo_phone_db with (snd (PushService.serve (push_env 1) demo_phone empty_PushDb)) by (vm_compute; reflexivity). by constructor.
    + eapply rtc_l; [apply (Step_request demo_url 2 _ (demo_env 2 200 "t", Logout "live") demo_out_db); vm_compute; reflexivity|].
      apply rtc_refl.
Qed.

(** The cycle ten seconds later. *)
Definition demo_revoked : AuthSession := Eval vm_compute in match auth_sessions demo_out_db with s :: _ => s | [] => demo_session 0 "x" None end.
Lemma demo_revoked_in : demo_revoked ∈ auth_sessions (identity demo_signed_out) /\ is_revoked demo_revoked.
Proof. split; [left|done]. Qed.
Definition demo_clock (k : nat) : Env := demo_env (10 + Z.of_nat k) 300 "t".

Lemma outbox_reliable_witness :
  exists ev, ev ∈ pending_events (identity demo_signed_out) /\ announces 21 ev.
Proof.
  destruct (proj2 (proj2 (proj2 (outbox_reliable demo_url 2 demo_signed_out demo_signed_out_reachable))) demo_revoked
    (proj1 demo_revoked_in) (proj2 demo_revoked_in)) as [H|[H|H]]; [exact H| |by apply not_elem_of_nil in H].
  exfalso. specialize (H (List.hd (PushEndpoint.new_PushEndpoint 0 0) (push_endpoints demo_phone_db)) ltac:(left) eq_refl). vm_compute in H. discriminate.
Defined.
Lemma revocations_take_effect_witness : exists p' j, rtc (step demo_url 2) demo_signed_out p' /\
  run_once (push_post (fun _ => push_env 10) (fun _ => "error")) (demo_env 9 300 "t") demo_clock demo_out_db (0%nat, mk_System demo_phone_db []) =
    (Ok 1, identity p', (j, push p')) /\ silent (push p') 21.
Proof.
  destruct (revocations_take_effect demo_url 2 demo_signed_out (demo_env 9 300 "t") demo_clock (fun _ => push_env 10) (fun _ => "error")
    (demo_now 10) demo_signed_out_reachable) as (p' & j & Hst & Hrun & _ & Hs).
  - intros k. change (now (demo_clock k)) with (demo_now (10 + Z.of_nat k)). unfold demo_now, seconds. lia.
  - intros i. vm_compute. reflexivity.
  - intros ev Hev. replace (pending_events (identity demo_signed_out)) with (auth_event_outbox demo_out_db) in Hev by (vm_compute; reflexivity).
    apply list_elem_of_singleton in Hev as ->. split; [vm_compute; discriminate|]. split; [vm_compute; reflexivity|].
    eexists. split; [vm_compute; reflexivity|]. intros i. vm_compute. reflexivity.
  - exists p', j. split; [exact Hst|]. split; [exact Hrun|]. apply (Hs ltac:(vm_compute; discriminate) demo_revoked); [apply demo_revoked_in..|apply not_elem_of_nil].
Defined.
