(* ===== verification/RealtimeModels.v ===== *)
(** The relational data model of the realtime service
    [platform/ithute-realtime]: a record per SQLAlchemy class of
    [app/models.py] with all its columns, the record [RealtimeDb] of its
    tables, and the constraints the columns declare. *)
From S2P Require Import Prelude Session Schema.
#[local] Open Scope string_scope.
#[local] Open Scope Z_scope.

(** ** [platform/ithute-realtime/app/models.py] *)

(** [models.py]: [class Conversation], every column. *)
Module Conversation.
Record Conversation : Type := mk {
  id : uuid;
  application_id : string;
  kind : string;
  title : option string;
  description : option string;
  room_key : option string;
  archived : bool;
  created_by_sub : option uuid;
  created_at : time;
  updated_at : time
}.
(** A row with its column defaults, as the first flush writes it. *)
Definition new_Conversation (new_id : uuid) (now : time) : Conversation := {|
  id := new_id;
  application_id := EmptyString;
  kind := "group"%string;
  title := None;
  description := None;
  room_key := None;
  archived := false;
  created_by_sub := None;
  created_at := now;
  updated_at := now
|}.
End Conversation.
Notation Conversation := Conversation.Conversation.
#[export] Instance eta_Conversation : Eta Conversation := fun r =>
  Conversation.mk (Conversation.id r) (Conversation.application_id r) (Conversation.kind r) (Conversation.title r) (Conversation.description r) (Conversation.room_key r) (Conversation.archived r) (Conversation.created_by_sub r) (Conversation.created_at r) (Conversation.updated_at r).
#[export] Instance keyed_Conversation : Keyed Conversation := Conversation.id.

(** [models.py]: [class ConversationMember], every column. *)
Module ConversationMember.
Record ConversationMember : Type := mk {
  id : uuid;
  conversation_id : uuid;
  auth_user_id : uuid;
  role : string;
  joined_at : time;
  last_read_message_id : option uuid;
  muted : bool
}.
(** A row with its column defaults, as the first flush writes it. *)
Definition new_ConversationMember (new_id : uuid) (now : time) : ConversationMember := {|
  id := new_id;
  conversation_id := 0;
  auth_user_id := 0;
  role := "member"%string;
  joined_at := now;
  last_read_message_id := None;
  muted := false
|}.
End ConversationMember.
Notation ConversationMember := ConversationMember.ConversationMember.
#[export] Instance eta_ConversationMember : Eta ConversationMember := fun r =>
  ConversationMember.mk (ConversationMember.id r) (ConversationMember.conversation_id r) (ConversationMember.auth_user_id r) (ConversationMember.role r) (ConversationMember.joined_at r) (ConversationMember.last_read_message_id r) (ConversationMember.muted r).
#[export] Instance keyed_ConversationMember : Keyed ConversationMember := ConversationMember.id.

(** [models.py]: [class Message], every column. *)
Module Message.
Record Message : Type := mk {
  id : uuid;
  conversation_id : uuid;
  application_id : string;
  sender_sub : option uuid;
  sender_client_id : string;
  sender_kind : string;
  message_type : string;
  version : Z;
  priority : string;
  body : string;
  data_json : string;
  mentions_json : string;
  attachments_json : string;
  reply_to_message_id : option uuid;
  forwarded_from_message_id : option uuid;
  client_message_id : option string;
  created_at : time;
  edited_at : option time;
  deleted_at : option time
}.
(** A row with its column defaults, as the first flush writes it. *)
Definition new_Message (new_id : uuid) (now : time) : Message := {|
  id := new_id;
  conversation_id := 0;
  application_id := EmptyString;
  sender_sub := None;
  sender_client_id := EmptyString;
  sender_kind := "user"%string;
  message_type := "chat.message"%string;
  version := 1;
  priority := "normal"%string;
  body := EmptyString;
  data_json := "{}"%string;
  mentions_json := "[]"%string;
  attachments_json := "[]"%string;
  reply_to_message_id := None;
  forwarded_from_message_id := None;
  client_message_id := None;
  created_at := now;
  edited_at := None;
  deleted_at := None
|}.
End Message.
Notation Message := Message.Message.
#[export] Instance eta_Message : Eta Message := fun r =>
  Message.mk (Message.id r) (Message.conversation_id r) (Message.application_id r) (Message.sender_sub r) (Message.sender_client_id r) (Message.sender_kind r) (Message.message_type r) (Message.version r) (Message.priority r) (Message.body r) (Message.data_json r) (Message.mentions_json r) (Message.attachments_json r) (Message.reply_to_message_id r) (Message.forwarded_from_message_id r) (Message.client_message_id r) (Message.created_at r) (Message.edited_at r) (Message.deleted_at r).
#[export] Instance keyed_Message : Keyed Message := Message.id.

(** [models.py]: [class MessageReceipt], every column. *)
Module MessageReceipt.
Record MessageReceipt : Type := mk {
  id : uuid;
  message_id : uuid;
  auth_user_id : uuid;
  state : string;
  device_key : option string;
  delivered_at : option time;
  read_at : option time;
  updated_at : time
}.
(** A row with its column defaults, as the first flush writes it. *)
Definition new_MessageReceipt (new_id : uuid) (now : time) : MessageReceipt := {|
  id := new_id;
  message_id := 0;
  auth_user_id := 0;
  state := "accepted"%string;
  device_key := None;
  delivered_at := None;
  read_at := None;
  updated_at := now
|}.
End MessageReceipt.
Notation MessageReceipt := MessageReceipt.MessageReceipt.
#[export] Instance eta_MessageReceipt : Eta MessageReceipt := fun r =>
  MessageReceipt.mk (MessageReceipt.id r) (MessageReceipt.message_id r) (MessageReceipt.auth_user_id r) (MessageReceipt.state r) (MessageReceipt.device_key r) (MessageReceipt.delivered_at r) (MessageReceipt.read_at r) (MessageReceipt.updated_at r).
#[export] Instance keyed_MessageReceipt : Keyed MessageReceipt := MessageReceipt.id.

(** [models.py]: [class MessageReaction], every column. *)
Module MessageReaction.
Record MessageReaction : Type := mk {
  id : uuid;
  message_id : uuid;
  auth_user_id : uuid;
  emoji : string;
  created_at : time
}.
(** A row with its column defaults, as the first flush writes it. *)
Definition new_MessageReaction (new_id : uuid) (now : time) : MessageReaction := {|
  id := new_id;
  message_id := 0;
  auth_user_id := 0;
  emoji := EmptyString;
  created_at := now
|}.
End MessageReaction.
Notation MessageReaction := MessageReaction.MessageReaction.
#[export] Instance eta_MessageReaction : Eta MessageReaction := fun r =>
  MessageReaction.mk (MessageReaction.id r) (MessageReaction.message_id r) (MessageReaction.auth_user_id r) (MessageReaction.emoji r) (MessageReaction.created_at r).
#[export] Instance keyed_MessageReaction : Keyed MessageReaction := MessageReaction.id.

(** [models.py]: [class ConversationPin], every column. *)
Module ConversationPin.
Record ConversationPin : Type := mk {
  id : uuid;
  conversation_id : uuid;
  message_id : uuid;
  pinned_by_sub : option uuid;
  created_at : time
}.
(** A row with its column defaults, as the first flush writes it. *)
Definition new_ConversationPin (new_id : uuid) (now : time) : ConversationPin := {|
  id := new_id;
  conversation_id := 0;
  message_id := 0;
  pinned_by_sub := None;
  created_at := now
|}.
End ConversationPin.
Notation ConversationPin := ConversationPin.ConversationPin.
#[export] Instance eta_ConversationPin : Eta ConversationPin := fun r =>
  ConversationPin.mk (ConversationPin.id r) (ConversationPin.conversation_id r) (ConversationPin.message_id r) (ConversationPin.pinned_by_sub r) (ConversationPin.created_at r).
#[export] Instance keyed_ConversationPin : Keyed ConversationPin := ConversationPin.id.

(** [models.py]: [class RealtimeEvent], every column. *)
Module RealtimeEvent.
Record RealtimeEvent : Type := mk {
  id : uuid;
  cursor : string;
  application_id : string;
  source_client_id : string;
  event_type : string;
  version : Z;
  priority : string;
  audience_label : option string;
  idempotency_key : option string;
  request_fingerprint : option string;
  payload_json : string;
  broadcast_connected : bool;
  push_enabled : bool;
  status : string;
  attempts : Z;
  max_attempts : Z;
  last_error : option string;
  deliver_at : time;
  expires_at : time;
  delivered_at : option time;
  created_at : time
}.
(** A row with its column defaults, as the first flush writes it. *)
Definition new_RealtimeEvent (new_id : uuid) (now : time) : RealtimeEvent := {|
  id := new_id;
  cursor := EmptyString;
  application_id := EmptyString;
  source_client_id := EmptyString;
  event_type := EmptyString;
  version := 1;
  priority := "normal"%string;
  audience_label := None;
  idempotency_key := None;
  request_fingerprint := None;
  payload_json := "{}"%string;
  broadcast_connected := false;
  push_enabled := false;
  status := "queued"%string;
  attempts := 0;
  max_attempts := 5;
  last_error := None;
  deliver_at := now;
  expires_at := 0;
  delivered_at := None;
  created_at := now
|}.
End RealtimeEvent.
Notation RealtimeEvent := RealtimeEvent.RealtimeEvent.
#[export] Instance eta_RealtimeEvent : Eta RealtimeEvent := fun r =>
  RealtimeEvent.mk (RealtimeEvent.id r) (RealtimeEvent.cursor r) (RealtimeEvent.application_id r) (RealtimeEvent.source_client_id r) (RealtimeEvent.event_type r) (RealtimeEvent.version r) (RealtimeEvent.priority r) (RealtimeEvent.audience_label r) (RealtimeEvent.idempotency_key r) (RealtimeEvent.request_fingerprint r) (RealtimeEvent.payload_json r) (RealtimeEvent.broadcast_connected r) (RealtimeEvent.push_enabled r) (RealtimeEvent.status r) (RealtimeEvent.attempts r) (RealtimeEvent.max_attempts r) (RealtimeEvent.last_error r) (RealtimeEvent.deliver_at r) (RealtimeEvent.expires_at r) (RealtimeEvent.delivered_at r) (RealtimeEvent.created_at r).
#[export] Instance keyed_RealtimeEvent : Keyed RealtimeEvent := RealtimeEvent.id.

(** [models.py]: [class EventRecipient], every column. *)
Module EventRecipient.
Record EventRecipient : Type := mk {
  id : uuid;
  event_id : uuid;
  auth_user_id : uuid;
  received_at : option time;
  opened_at : option time;
  push_requested_at : option time
}.
(** A row with its column defaults, as the first flush writes it. *)
Definition new_EventRecipient (new_id : uuid) (now : time) : EventRecipient := {|
  id := new_id;
  event_id := 0;
  auth_user_id := 0;
  received_at := None;
  opened_at := None;
  push_requested_at := None
|}.
End EventRecipient.
Notation EventRecipient := EventRecipient.EventRecipient.
#[export] Instance eta_EventRecipient : Eta EventRecipient := fun r =>
  EventRecipient.mk (EventRecipient.id r) (EventRecipient.event_id r) (EventRecipient.auth_user_id r) (EventRecipient.received_at r) (EventRecipient.opened_at r) (EventRecipient.push_requested_at r).
#[export] Instance keyed_EventRecipient : Keyed EventRecipient := EventRecipient.id.

(** [models.py]: [class AuditEvent], every column. *)
Module AuditEvent.
Record AuditEvent : Type := mk {
  id : uuid;
  application_id : string;
  actor_kind : string;
  actor_sub : option uuid;
  actor_client_id : string;
  action : string;
  target_type : string;
  target_id : string;
  details_json : string;
  created_at : time
}.
(** A row with its column defaults, as the first flush writes it. *)
Definition new_AuditEvent (new_id : uuid) (now : time) : AuditEvent := {|
  id := new_id;
  application_id := EmptyString;
  actor_kind := EmptyString;
  actor_sub := None;
  actor_client_id := EmptyString;
  action := EmptyString;
  target_type := EmptyString;
  target_id := EmptyString;
  details_json := "{}"%string;
  created_at := now
|}.
End AuditEvent.
Notation AuditEvent := AuditEvent.AuditEvent.
#[export] Instance eta_AuditEvent : Eta AuditEvent := fun r =>
  AuditEvent.mk (AuditEvent.id r) (AuditEvent.application_id r) (AuditEvent.actor_kind r) (AuditEvent.actor_sub r) (AuditEvent.actor_client_id r) (AuditEvent.action r) (AuditEvent.target_type r) (AuditEvent.target_id r) (AuditEvent.details_json r) (AuditEvent.created_at r).
#[export] Instance keyed_AuditEvent : Keyed AuditEvent := AuditEvent.id.

(** * The database: one list of rows per table *)

Record RealtimeDb : Type := mk_RealtimeDb {
  conversations : list Conversation;
  conversation_members : list ConversationMember;
  messages : list Message;
  message_receipts : list MessageReceipt;
  message_reactions : list MessageReaction;
  conversation_pins : list ConversationPin;
  realtime_events : list RealtimeEvent;
  event_recipients : list EventRecipient;
  audit_events : list AuditEvent
}.
#[export] Instance eta_RealtimeDb : Eta RealtimeDb := fun r =>
  mk_RealtimeDb (conversations r) (conversation_members r) (messages r) (message_receipts r) (message_reactions r) (conversation_pins r) (realtime_events r) (event_recipients r) (audit_events r).
Definition empty_RealtimeDb : RealtimeDb := mk_RealtimeDb [] [] [] [] [] [] [] [] [].

(** * The constraints of the schema *)

Definition valid_Conversation (r : Conversation) : bool :=
  uuid_column (Conversation.id r) && text_column 120 (Conversation.application_id r) && text_column 24 (Conversation.kind r) && forallb (text_column 200) (opt_list (Conversation.title r)) && forallb (text_column 1000) (opt_list (Conversation.description r)) && forallb (text_column 120) (opt_list (Conversation.room_key r)).
Definition valid_ConversationMember (r : ConversationMember) : bool :=
  uuid_column (ConversationMember.id r) && uuid_column (ConversationMember.auth_user_id r) && text_column 24 (ConversationMember.role r).
Definition valid_Message (r : Message) : bool :=
  uuid_column (Message.id r) && text_column 120 (Message.application_id r) && text_column 120 (Message.sender_client_id r) && text_column 24 (Message.sender_kind r) && text_column 80 (Message.message_type r) && int_column (Message.version r) && text_column 16 (Message.priority r) && forallb (text_column 120) (opt_list (Message.client_message_id r)).
Definition valid_MessageReceipt (r : MessageReceipt) : bool :=
  uuid_column (MessageReceipt.id r) && uuid_column (MessageReceipt.auth_user_id r) && text_column 24 (MessageReceipt.state r) && forallb (text_column 200) (opt_list (MessageReceipt.device_key r)).
Definition valid_MessageReaction (r : MessageReaction) : bool :=
  uuid_column (MessageReaction.id r) && uuid_column (MessageReaction.auth_user_id r) && text_column 32 (MessageReaction.emoji r).
Definition valid_ConversationPin (r : ConversationPin) : bool :=
  uuid_column (ConversationPin.id r).
Definition valid_RealtimeEvent (r : RealtimeEvent) : bool :=
  uuid_column (RealtimeEvent.id r) && text_column 64 (RealtimeEvent.cursor r) && text_column 120 (RealtimeEvent.application_id r) && text_column 120 (RealtimeEvent.source_client_id r) && text_column 80 (RealtimeEvent.event_type r) && int_column (RealtimeEvent.version r) && text_column 16 (RealtimeEvent.priority r) && forallb (text_column 160) (opt_list (RealtimeEvent.audience_label r)) && forallb (text_column 160) (opt_list (RealtimeEvent.idempotency_key r)) && forallb (text_column 64) (opt_list (RealtimeEvent.request_fingerprint r)) && text_column 24 (RealtimeEvent.status r) && int_column (RealtimeEvent.attempts r) && int_column (RealtimeEvent.max_attempts r) && forallb (text_column 1000) (opt_list (RealtimeEvent.last_error r)).
Definition valid_EventRecipient (r : EventRecipient) : bool :=
  uuid_column (EventRecipient.id r) && uuid_column (EventRecipient.auth_user_id r).
Definition valid_AuditEvent (r : AuditEvent) : bool :=
  uuid_column (AuditEvent.id r) && text_column 120 (AuditEvent.application_id r) && text_column 24 (AuditEvent.actor_kind r) && text_column 120 (AuditEvent.actor_client_id r) && text_column 120 (AuditEvent.action r) && text_column 80 (AuditEvent.target_type r) && text_column 160 (AuditEvent.target_id r).
(** A unique constraint leaves out the rows with a NULL column. *)
Definition room (r : Conversation) : list (string * string) :=
  map (fun k => (Conversation.application_id r, k)) (opt_list (Conversation.room_key r)).
Definition membership (r : ConversationMember) : uuid * uuid :=
  (ConversationMember.conversation_id r, ConversationMember.auth_user_id r).
Definition client_message (r : Message) : list (uuid * string) :=
  map (fun k => (Message.conversation_id r, k)) (opt_list (Message.client_message_id r)).
Definition receipt_of (r : MessageReceipt) : uuid * uuid := (MessageReceipt.message_id r, MessageReceipt.auth_user_id r).
Definition reaction_of (r : MessageReaction) : uuid * uuid * string :=
  (MessageReaction.message_id r, MessageReaction.auth_user_id r, MessageReaction.emoji r).
Definition pin_of (r : ConversationPin) : uuid * uuid := (ConversationPin.conversation_id r, ConversationPin.message_id r).
Definition event_key (r : RealtimeEvent) : list (string * string) :=
  map (fun k => (RealtimeEvent.application_id r, k)) (opt_list (RealtimeEvent.idempotency_key r)).
Definition recipient_of (r : EventRecipient) : uuid * uuid := (EventRecipient.event_id r, EventRecipient.auth_user_id r).

Definition valid_rows (d : RealtimeDb) : bool :=
  forallb valid_Conversation (conversations d) &&
  forallb valid_ConversationMember (conversation_members d) &&
  forallb valid_Message (messages d) &&
  forallb valid_MessageReceipt (message_receipts d) &&
  forallb valid_MessageReaction (message_reactions d) &&
  forallb valid_ConversationPin (conversation_pins d) &&
  forallb valid_RealtimeEvent (realtime_events d) &&
  forallb valid_EventRecipient (event_recipients d) &&
  forallb valid_AuditEvent (audit_events d).
Definition check_schema (d : RealtimeDb) : result unit :=
  ensure valid_rows d else_raise DataError "value out of range";
  let* _ := unique_column "conversations_pkey" (keys (conversations d)) in
  let* _ := unique_column "conversation_members_pkey" (keys (conversation_members d)) in
  let* _ := unique_column "messages_pkey" (keys (messages d)) in
  let* _ := unique_column "message_receipts_pkey" (keys (message_receipts d)) in
  let* _ := unique_column "message_reactions_pkey" (keys (message_reactions d)) in
  let* _ := unique_column "conversation_pins_pkey" (keys (conversation_pins d)) in
  let* _ := unique_column "realtime_events_pkey" (keys (realtime_events d)) in
  let* _ := unique_column "event_recipients_pkey" (keys (event_recipients d)) in
  let* _ := unique_column "audit_events_pkey" (keys (audit_events d)) in
  let* _ := unique_column "uq_conversation_application_room" (flat_map room (conversations d)) in
  let* _ := unique_column "uq_conversation_member" (map membership (conversation_members d)) in
  let* _ := unique_column "uq_conversation_client_message" (flat_map client_message (messages d)) in
  let* _ := unique_column "uq_message_receipt_user" (map receipt_of (message_receipts d)) in
  let* _ := unique_column "uq_message_reaction_user_emoji" (map reaction_of (message_reactions d)) in
  let* _ := unique_column "uq_conversation_pin" (map pin_of (conversation_pins d)) in
  let* _ := unique_column "realtime_events_cursor_key" (map RealtimeEvent.cursor (realtime_events d)) in
  let* _ := unique_column "uq_realtime_event_idempotency" (flat_map event_key (realtime_events d)) in
  let* _ := unique_column "uq_event_recipient" (map recipient_of (event_recipients d)) in
  let* _ := foreign_key "conversation_members_conversation_id_fkey" (map ConversationMember.conversation_id (conversation_members d)) (keys (conversations d)) in
  let* _ := foreign_key "messages_conversation_id_fkey" (map Message.conversation_id (messages d)) (keys (conversations d)) in
  let* _ := foreign_key "messages_reply_to_message_id_fkey" (flat_map (fun r => opt_list (Message.reply_to_message_id r)) (messages d)) (keys (messages d)) in
  let* _ := foreign_key "messages_forwarded_from_message_id_fkey" (flat_map (fun r => opt_list (Message.forwarded_from_message_id r)) (messages d)) (keys (messages d)) in
  let* _ := foreign_key "message_receipts_message_id_fkey" (map MessageReceipt.message_id (message_receipts d)) (keys (messages d)) in
  let* _ := foreign_key "message_reactions_message_id_fkey" (map MessageReaction.message_id (message_reactions d)) (keys (messages d)) in
  let* _ := foreign_key "conversation_pins_conversation_id_fkey" (map ConversationPin.conversation_id (conversation_pins d)) (keys (conversations d)) in
  let* _ := foreign_key "conversation_pins_message_id_fkey" (map ConversationPin.message_id (conversation_pins d)) (keys (messages d)) in
  foreign_key "event_recipients_event_id_fkey" (map EventRecipient.event_id (event_recipients d)) (keys (realtime_events d)).
