(* ===== verification/RealtimeCore.v ===== *)
(** The foundations of the realtime service [platform/ithute-realtime]: its
    settings ([app/config.py]), the verification of central tokens
    ([app/auth.py]), and the computations its code runs: the session of
    [app/db.py], the sockets of the process and the servers it calls, as one
    state-and-error monad. *)
From S2P Require Import Prelude PyFloat Json Calendar Session Schema WebApi Sha256 Engines RealtimeModels.
#[local] Open Scope string_scope.
#[local] Open Scope list_scope.
#[local] Open Scope Z_scope.

(** * [app/config.py] *)
Record Settings : Type := mk_Settings {
  auth_issuer : string;
  allowed_user_clients : string;
  allowed_service_clients : string;
  disabled_clients : string;
  platform_client_id : string;
  platform_client_secret : string;
  push_enabled : bool;
  websocket_presence_ttl_seconds : Z;
  max_connections_per_user : Z;
  max_connections_per_device : Z;
  max_group_members : Z;
  max_history_page_size : Z;
  max_event_recipients : Z;
  max_replay_page_size : Z;
  user_send_rate_limit : Z;
  user_send_rate_window_seconds : Z;
  activity_rate_limit : Z;
  activity_rate_window_seconds : Z;
  service_publish_rate_limit : Z;
  service_publish_rate_window_seconds : Z;
  event_max_attempts : Z;
  event_retry_seconds : Z
}.
Definition user_clients (s : Settings) : list string := csv_items (allowed_user_clients s) ++ ["nbros"].
Definition service_clients (s : Settings) : list string := csv_items (allowed_service_clients s) ++ ["nbros"].
Definition disabled_client_set (s : Settings) : list string := csv_items (disabled_clients s).

(** * Third-party code *)
Class Providers := {
  (** [PyJWKClient.get_signing_key_from_jwt], and [jwt.decode] of RS256 with the
      issuer and without the audience, at a time; [None] is a [PyJWTError]. *)
  signing_key : string -> option string;
  jwt_decode : string -> string -> time -> string -> option (list (string * Json))
}.
(** What a request draws from its surroundings: one instant, identifiers in the
    order of the draws, and the sockets that accept a frame in time. *)
Record Env : Type := mk_Env {
  settings : Settings;
  now : time;
  uuid4 : nat -> uuid;
  accepts : Z -> bool
}.

(** * [app/auth.py] *)
Record UserPrincipal : Type := mk_UserPrincipal { up_sub : string; up_client_id : string }.
Record ServicePrincipal : Type := mk_ServicePrincipal { sp_client_id : string; sp_scopes : list string }.

Section Verifier.
Context `{Providers}.
Definition decode (e : Env) (token : string) : option (list (string * Json)) :=
  match signing_key token with
  | None => None
  | Some key => jwt_decode key (rstrip_slash (auth_issuer (settings e))) (now e) token
  end.
(** [_audience] *)
Definition audience (claims : list (string * Json)) : result string :=
  match jget "aud" claims with
  | JStr aud => Ok aud
  | JArr [JStr aud] => Ok aud
  | _ => AuthError "token must contain one audience"
  end.
(** [AuthVerifier.user] *)
Definition verify_user (e : Env) (token : string) : result UserPrincipal :=
  match decode e token with
  | None => AuthError "invalid central auth token"
  | Some claims =>
      ensure is_str "access" (jget "token_use" claims) else_raise ValueError "user access token required";
      let* client_id := audience claims in
      ensure client_id in? user_clients (settings e) else_raise ValueError "unapproved product audience";
      match jget "sub" claims with
      | JStr sub => ensure str_truthy sub else_raise ValueError "missing subject"; Ok (mk_UserPrincipal sub client_id)
      | _ => AuthError "missing subject"
      end
  end.
(** [AuthVerifier.service]; [claims.get('scope', '')] defaults to the empty text. *)
Definition scopes_of (claims : list (string * Json)) : list string :=
  str_split (match dict_get "scope" claims with Some v => py_str v | None => EmptyString end).
Definition verify_service (e : Env) (required_scope token : string) : result ServicePrincipal :=
  match decode e token with
  | None => AuthError "invalid central service token"
  | Some claims =>
      ensure is_str "service" (jget "token_use" claims) else_raise ValueError "service token required";
      let* aud := audience claims in
      ensure aud ==? "ithute-realtime" else_raise ValueError "wrong service audience";
      ensure required_scope in? scopes_of claims else_raise ValueError (required_scope ++ " scope required")%string;
      match jget "azp" claims with
      | JStr client_id =>
          ensure client_id in? service_clients (settings e) else_raise ValueError "unapproved service client";
          Ok (mk_ServicePrincipal client_id (scopes_of claims))
      | _ => AuthError "unapproved service client"
      end
  end.
(** ** The dependencies of the endpoints, [_ensure_enabled], [user_principal],
    [_service] *)
Definition ensure_enabled (e : Env) (client_id : string) : result unit :=
  ensure client_id notin? disabled_client_set (settings e)
    else_raise HTTPException 503 "realtime access is disabled for this application"; Ok tt.
Definition user_principal (e : Env) (credentials : option string) : result UserPrincipal :=
  let* token := bearer_token "missing bearer token" credentials in
  let* principal := unauthorized (verify_user e token) in
  let* _ := ensure_enabled e (up_client_id principal) in Ok principal.
Definition service_principal (e : Env) (required_scope : string) (credentials : option string) : result ServicePrincipal :=
  let* token := bearer_token "missing bearer token" credentials in
  let* principal := unauthorized (verify_service e required_scope token) in
  let* _ := ensure_enabled e (sp_client_id principal) in Ok principal.
End Verifier.
(** [_user_uuid] *)
Definition user_uuid (principal : UserPrincipal) : result uuid :=
  match uuid_of_str (up_sub principal) with Ok u => Ok u | Err _ => Err (HTTPException 401 "central subject is not a UUID") end.

(** * The state of the service *)

(** [class ConnectionRecord]; a socket is known by a number. *)
Record ConnectionRecord : Type := mk_ConnectionRecord { websocket : Z; device_key : string; connected_at : string }.
(** What a socket is sent. *)
Inductive Frame : Type := Text (payload : string) | Close (code : Z) (reason : string).
(** [class CachedToken] *)
Record CachedToken : Type := mk_CachedToken { token_value : string; expires_at : time }.

(** The servers the process talks to, as a state [X]: Redis, by the commands
    the code issues ([redis.asyncio]); an error is the one the client raises. *)
Class RedisServer (X : Type) := {
  redis_get : time -> string -> X -> result (option string) * X;
  (** [SET key value EX seconds] *)
  redis_set : time -> string -> string -> Z -> X -> result unit * X;
  redis_delete : time -> string -> X -> result unit * X;
  (** [scan_iter(match=pattern)] *)
  redis_scan : time -> string -> X -> result (list string) * X;
  redis_incr : time -> string -> X -> result Z * X;
  redis_expire : time -> string -> Z -> X -> result unit * X;
  redis_hincrby : time -> string -> string -> Z -> X -> result unit * X;
  redis_hgetall : time -> string -> X -> result (list (string * string)) * X;
  redis_publish : time -> string -> string -> X -> result unit * X
}.
(** The notification service, and the identity server that issues the token for
    it, as [app/push.py] calls them over HTTP. *)
Class PushGateway (X : Type) := {
  (** [client.post(auth_service_token_url, json)]: the token and its lifetime in
      seconds, or the error of the transport or of [raise_for_status]. *)
  service_token : time -> list (string * Json) -> X -> result (string * Z) * X;
  (** [client.post(push_url + '/v1/platform/messages')] with the bearer token and
      the idempotency key, then [raise_for_status]. *)
  post_message : time -> string -> string -> list (string * Json) -> X -> result unit * X
}.

(** The committed database and the session of the running request, the drawn
    identifiers, the sockets of the process ([RealtimeHub.connections]), the
    frames sent to each socket, the cached token, the servers outside, and how
    many more calls to the outside or commits the process completes before it is
    killed, if it is. *)
Record World (X : Type) : Type := mk_World {
  committed : RealtimeDb;
  session : Session RealtimeDb;
  drawn : nat;
  connections : list ((string * string) * list (string * ConnectionRecord));
  frames : list (Z * Frame);
  token : CachedToken;
  outside : X;
  credit : option nat
}.
Arguments mk_World {X} _ _ _ _ _ _ _ _.
Arguments committed {X} _.
Arguments session {X} _.
Arguments drawn {X} _.
Arguments connections {X} _.
Arguments frames {X} _.
Arguments token {X} _.
Arguments outside {X} _.
Arguments credit {X} _.
#[export] Instance eta_World X : Eta (World X) := fun w =>
  mk_World (committed w) (session w) (drawn w) (connections w) (frames w) (token w) (outside w) (credit w).

(** A computation of an endpoint: it may raise, keeping what it has written so
    far, and the process may be killed ([None]). *)
Definition M (X A : Type) : Type := World X -> option (result A) * World X.

Section Monad.
Context {X : Type}.
Implicit Types w : World X.
Definition ret {A} (a : A) : M X A := fun w => (Some (Ok a), w).
Definition raise {A} (x : exn) : M X A := fun w => (Some (Err x), w).
Definition bind {A B} (m : M X A) (k : A -> M X B) : M X B := fun w =>
  match m w with
  | (Some (Ok a), w) => k a w
  | (Some (Err x), w) => (Some (Err x), w)
  | (None, w) => (None, w)
  end.
Definition lift {A} (r : result A) : M X A := fun w => (Some r, w).
(** [try: m except Exception as exc: h(exc)], and [except IntegrityError]. *)
Definition catch {A} (m : M X A) (h : exn -> M X A) : M X A := fun w =>
  match m w with (Some (Err x), w) => h x w | r => r end.
Definition except_integrity {A} (m : M X A) (h : exn -> M X A) : M X A :=
  catch m (fun x => match x with IntegrityError _ => h x | _ => raise x end).
(** [if not b: raise x] *)
Definition require (b : bool) (x : exn) : M X unit := if b then ret tt else raise x.
Definition some_or {A} (o : option A) (x : exn) : M X A := match o with Some a => ret a | None => raise x end.
Definition update (f : World X -> World X) : M X unit := fun w => (Some (Ok tt), f w).
(** The next write outside of the process. *)
Definition tick : M X unit := fun w =>
  match credit w with
  | None => (Some (Ok tt), w)
  | Some O => (None, w)
  | Some (S n) => (Some (Ok tt), w <| credit := Some n |>)
  end.
End Monad.
Notation "'let!' x := m 'in' k" := (bind m (fun x => k))
  (at level 10, x pattern, m at level 100, k at level 200) : py_scope.
Notation "m ;; k" := (bind m (fun _ => k)) (at level 100, k at level 200, right associativity) : py_scope.
Notation "'when' b 'then!' m" := (if b then m else ret tt) (at level 10, b at level 100, m at level 99) : py_scope.
(** [for x in xs: f(x)] *)
Fixpoint for_each {X A} (f : A -> M X unit) (l : list A) : M X unit :=
  match l with [] => ret tt | x :: l => f x ;; for_each f l end.
Fixpoint map_each {X A B} (f : A -> M X B) (l : list A) : M X (list B) :=
  match l with [] => ret [] | x :: l => let! y := f x in let! ys := map_each f l in ret (y :: ys) end.

(** ** The session of [app/db.py]: [autoflush=False], [expire_on_commit=False] *)
#[export] Instance Conversation_eq_dec : EqDecision Conversation.
Proof. solve_decision. Defined.
#[export] Instance MessageReceipt_eq_dec : EqDecision MessageReceipt.
Proof. solve_decision. Defined.
(** [onupdate=utcnow] of the rows the flush writes. *)
Definition touch {R} `{Keyed R, EqDecision R} (updated_at : R -> time) (stamp : R -> R) (old : list R) (r : R) : R :=
  match find_row (key r) old with
  | Some o => if (o !=? r) && (updated_at o =? updated_at r) then stamp r else r
  | None => r
  end.
Definition touch_updated (e : Env) (s : Session RealtimeDb) : RealtimeDb :=
  mem s <| conversations ::= map (touch Conversation.updated_at (fun r => r <| Conversation.updated_at := now e |>) (conversations (sql s))) |>
        <| message_receipts ::= map (touch MessageReceipt.updated_at (fun r => r <| MessageReceipt.updated_at := now e |>) (message_receipts (sql s))) |>.

Section Db.
Context {X : Type}.
Implicit Types w : World X.
Definition query {A} (f : Session RealtimeDb -> A) : M X A := fun w => (Some (Ok (f (session w))), w).
Definition modify (f : Session RealtimeDb -> Session RealtimeDb) : M X unit := update (fun w => w <| session ::= f |>).
Definition draw (e : Env) : M X uuid := fun w => (Some (Ok (uuid4 e (drawn w))), w <| drawn ::= S |>).
Section Table.
Context {R : Type} `{Keyed R} (T : RealtimeDb -> list R) `{!Setter T}.
(** Attribute assignments on the mapped object of [r]. *)
Definition assign (f : R -> R) (r : R) : M X R :=
  modify (fun s => mk_Session (sql s) (mem s <| T ::= map (fun x => if key x =? key r then f x else x) |>)) ;; ret (f r).
(** [db.add(r)], where [r] has the next drawn identifier. *)
Definition insert (e : Env) (mk : uuid -> R) : M X R :=
  let! id := draw e in modify (add T (mk id)) ;; ret (mk id).
(** [db.execute(delete(T).where(p))]: the rows of the database that match and
    the objects mapped to them. *)
Definition delete_where (p : R -> bool) : M X unit := modify (fun s =>
  let gone := keys (List.filter p (T (sql s))) in
  let left := List.filter (fun r => key r notin? gone) in
  mk_Session (sql s <| T ::= left |>) (mem s <| T ::= left |>)).
(** [db.delete(r)] of a mapped object. *)
Definition delete_row (r : R) : M X unit := modify (fun s =>
  mk_Session (sql s) (mem s <| T ::= List.filter (fun x => negb (key x =? key r)) |>)).
(** [db.refresh(r)] of a row that has just been committed. *)
Definition refresh (r : R) : M X R := query (fun s => live (T (sql s)) r).
End Table.
(** [db.flush()], [db.commit()], [db.rollback()] *)
Definition flush (e : Env) : M X unit :=
  let! d := query (touch_updated e) in
  lift (check_schema d) ;; modify (fun _ => open_session d).
Definition commit (e : Env) : M X unit :=
  tick ;; flush e ;; update (fun w => w <| committed := mem (session w) |>).
Definition rollback : M X unit := update (fun w => w <| session := open_session (committed w) |>).
End Db.

(** ** The outside *)
Section Outside.
Context {X : Type}.
(** A call to a server. *)
Definition call {A} (f : X -> result A * X) : M X A :=
  tick ;; fun w => (Some (fst (f (outside w))), w <| outside := snd (f (outside w)) |>).
Definition send (socket : Z) (f : Frame) : M X unit := update (fun w => w <| frames ::= fun l => l ++ [(socket, f)] |>).
(** [websocket.send_json] *)
Definition send_json (socket : Z) (v : list (string * Json)) : M X unit := send socket (Text (compact_raw (JObj v))).
End Outside.
