(* ===== verification/RealtimeHub.v ===== *)
(** The socket hub of the realtime service: [app/hub.py] with the presence keys
    it keeps in Redis, the fan-out of what other processes publish, and the rate
    limits of [app/rate_limit.py]. *)
From S2P Require Import Prelude PyFloat Json Calendar Session Schema WebApi Sha256 Engines RealtimeModels RealtimeCore.
#[local] Open Scope string_scope.
#[local] Open Scope list_scope.
#[local] Open Scope Z_scope.

(** [json.dumps(value, separators=(',', ':'), default=str)] of a value made of
    JSON types *)
Definition compact_ascii (v : Json) : string := dumps false "," ":" v.
Definition texts (l : list string) : string := String.concat EmptyString l.
(** [list(dict.fromkeys(l))] *)
Definition fromkeys {A} `{EqDecision A} (l : list A) : list A := rev (remove_dups (rev l)).
(** A dictionary: assignment keeps the place of a key. *)
Fixpoint map_set {K V} `{EqDecision K} (k : K) (v : V) (l : list (K * V)) : list (K * V) :=
  match l with
  | [] => [(k, v)]
  | (k', v') :: l => if k ==? k' then (k', v) :: l else (k', v') :: map_set k v l
  end.
Fixpoint map_get {K V} `{EqDecision K} (k : K) (l : list (K * V)) : option V :=
  match l with [] => None | (k', v) :: l => if k ==? k' then Some v else map_get k l end.
Definition map_pop {K V} `{EqDecision K} (k : K) (l : list (K * V)) : list (K * V) := List.filter (fun x => fst x !=? k) l.

(** [_presence_key], [_last_seen_key] *)
Definition presence_key (application_id sub connection_id : string) : string :=
  texts ["ithute:realtime:presence:"; application_id; ":"; sub; ":"; connection_id].
Definition last_seen_key (application_id sub : string) : string :=
  texts ["ithute:realtime:lastseen:"; application_id; ":"; sub].
Definition metrics_key : string := "ithute:realtime:metrics".
(** [item.get(k)] of a value that may not be a dictionary. *)
Definition item_get (k : string) (v : Json) : result Json :=
  match v with JObj d => Ok (jget k d) | _ => Err (AttributeError "object has no attribute 'get'") end.

Section Hub.
Context {X : Type} `{RedisServer X}.
Definition Subject : Type := string * string.
(** [_remote_presence] *)
Fixpoint read_presence (e : Env) (ks : list string) : M X (list Json) :=
  match ks with
  | [] => ret []
  | k :: ks =>
      let! raw := call (redis_get (now e) k) in
      let row := match raw with Some raw => if str_truthy raw then json_loads raw else None | None => None end in
      let! rows := read_presence e ks in
      ret (opt_list row ++ rows)
  end.
Definition remote_presence (e : Env) (application_id sub : string) : M X (list Json) :=
  let! ks := call (redis_scan (now e) (presence_key application_id sub "*")) in read_presence e ks.
(** [hincrby(metrics, name, 1)] *)
Definition count_metric (e : Env) (name : string) : M X unit := call (redis_hincrby (now e) metrics_key name 1).

(** [self.connections[subject]], a [defaultdict] *)
Definition bucket_of (subject : Subject) (w : World X) : list (string * ConnectionRecord) :=
  match map_get subject (connections w) with Some b => b | None => [] end.
Definition refresh_presence (e : Env) (application_id sub connection_id : string) : M X unit := fun w =>
  match map_get connection_id (bucket_of (application_id, sub) w) with
  | None => ret tt w
  | Some record =>
      call (redis_set (now e) (presence_key application_id sub connection_id)
        (compact_ascii (JObj [("device_key", JStr (device_key record)); ("connected_at", JStr (connected_at record));
                              ("state", JStr "online")]))
        (websocket_presence_ttl_seconds (settings e))) w
  end.
(** The [ConnectionLimitError] of a refused connection is [inl] of its message. *)
Definition connect (e : Env) (application_id sub : string) (socket : Z) (key : string) : M X (string + string) :=
  let! existing := remote_presence e application_id sub in
  if max_connections_per_user (settings e) <=? zlen existing then ret (inl "maximum concurrent connections reached")
  else
    let! keys := map_each (fun item => lift (item_get "device_key" item)) existing in
    if max_connections_per_device (settings e) <=? zlen (List.filter (is_str key) keys) then
      ret (inl "maximum device connections reached")
    else
      let! id := draw e in
      let connection_id := str_of_uuid id in
      let subject := (application_id, sub) in
      update (fun w => w <| connections ::= map_set subject
        (map_set connection_id (mk_ConnectionRecord socket key (iso_time (now e))) (bucket_of subject w)) |>) ;;
      refresh_presence e application_id sub connection_id ;;
      count_metric e "connections_opened" ;;
      ret (inr connection_id).
Definition disconnect (e : Env) (application_id sub connection_id : string) : M X unit :=
  let subject := (application_id, sub) in
  update (fun w =>
    match map_get subject (connections w) with
    | Some (_ :: _ as bucket) =>
        match map_pop connection_id bucket with
        | [] => w <| connections ::= map_pop subject |>
        | bucket => w <| connections ::= map_set subject bucket |>
        end
    | _ => w
    end) ;;
  call (redis_delete (now e) (presence_key application_id sub connection_id)) ;;
  call (redis_set (now e) (last_seen_key application_id sub) (iso_time (now e)) 2592000) ;;
  count_metric e "connections_closed".
Definition is_online (e : Env) (application_id sub : string) : M X bool :=
  let! rows := remote_presence e application_id sub in ret (match rows with [] => false | _ => true end).

Record Presence : Type := mk_Presence {
  pr_online : bool;
  pr_connection_count : Z;
  pr_device_keys : list string;
  pr_last_seen_at : option string
}.
(** [str(item.get('device_key') or '')] of the items that have one, as a sorted set *)
Definition presence (e : Env) (application_id sub : string) : M X Presence :=
  let! rows := remote_presence e application_id sub in
  let! raw_last := call (redis_get (now e) (last_seen_key application_id sub)) in
  let! keys := map_each (fun item => lift (item_get "device_key" item)) rows in
  ret (mk_Presence (match rows with [] => false | _ => true end) (zlen rows)
    (sort_cmp String.compare (remove_dups (map py_str (List.filter truthy keys)))) raw_last).

Definition channel_of (application_id : string) : string := texts ["ithute:realtime:events:"; application_id].
Definition publish (e : Env) (application_id : string) (event : list (string * Json)) : M X unit :=
  call (redis_publish (now e) (channel_of application_id) (compact_ascii (JObj event))) ;;
  count_metric e "events_published".
(** [RealtimeHub.metrics] *)
Definition hub_metrics (e : Env) : M X (list (string * Z)) :=
  let! raw := call (redis_hgetall (now e) metrics_key) in
  let! counts := map_each (fun kv => match int_of_str (snd kv) with
    | Some n => ret (fst kv, n)
    | None => raise (ValueError "invalid literal for int() with base 10") end) raw in
  fun w => (Some (Ok (dict_set "local_connections" (sum_by (fun b => zlen (snd b)) (connections w)) counts)), w).

(** [_send] *)
Definition send_frame (e : Env) (application_id recipient connection_id : string) (record : ConnectionRecord) (payload : string)
    : M X unit :=
  if accepts e (websocket record) then send (websocket record) (Text payload) ;; count_metric e "frames_delivered"
  else count_metric e "slow_or_failed_clients" ;; disconnect e application_id recipient connection_id.

(** ** [_listen]: one item of the subscription *)

(** [for value in v], of a text its characters (ASCII) *)
Definition iterate (v : Json) : option (list Json) :=
  match v with
  | JArr l => Some l
  | JObj d => Some (map (fun kv => JStr (fst kv)) d)
  | JStr s => Some (map (fun c => JStr (String c EmptyString)) (list_ascii_of_string s))
  | _ => None
  end.
Record Fanout : Type := mk_Fanout {
  fo_event : Json;
  fo_application_id : string;
  fo_recipients : list string;
  fo_broadcast : bool
}.
(** The body of the [try]: [Ok None] is a [continue] after an error it catches. *)
Definition parse_item (data : string) : result (option Fanout) :=
  match json_loads data with
  | None => Ok None
  | Some (JObj d as event) =>
      let application_id := py_str (jor (jget "application_id" d) (JStr EmptyString)) in
      match iterate (match dict_get "recipients" d with Some v => v | None => JArr [] end) with
      | None => Ok None
      | Some values =>
          Ok (Some (mk_Fanout event application_id (remove_dups (map py_str values)) (truthy (jget "broadcast_connected" d))))
      end
  | Some _ => Err (AttributeError "object has no attribute 'get'")
  end.
Definition Target : Type := string * string * ConnectionRecord.
Definition bucket_targets (sub : string) (bucket : list (string * ConnectionRecord)) : list Target :=
  map (fun kv => (sub, fst kv, snd kv)) bucket.
Definition targets (f : Fanout) (w : World X) : list Target :=
  if fo_broadcast f then
    flat_map (fun b => if fst (fst b) ==? fo_application_id f then bucket_targets (snd (fst b)) (snd b) else []) (connections w)
  else flat_map (fun recipient => bucket_targets recipient (bucket_of (fo_application_id f, recipient) w)) (fo_recipients f).
(** The sends are gathered; here one after the other, an error of one of them
    leaving the others to go on. *)
Definition on_message (e : Env) (data : string) : M X unit :=
  let! parsed := lift (parse_item data) in
  match parsed with
  | None => ret tt
  | Some f =>
      if negb (str_truthy (fo_application_id f)) then ret tt
      else fun w =>
        for_each (fun '(recipient, connection_id, record) =>
          catch (send_frame e (fo_application_id f) recipient connection_id record (compact_ascii (fo_event f))) (fun _ => ret tt))
          (targets f w) w
  end.

(** * [app/rate_limit.py] *)

(** [enforce_rate_limit], and the 429 its callers answer with. *)
Definition enforce_rate_limit (e : Env) (namespace identity : string) (limit window_seconds : Z) : M X unit :=
  if limit <=? 0 then ret tt
  else
    let bucket := now e / seconds 1 / Z.max 1 window_seconds in
    let k := texts ["ithute:realtime:ratelimit:"; namespace; ":"; identity; ":"; str_of_Z bucket] in
    let! value := call (redis_incr (now e) k) in
    when value =? 1 then! call (redis_expire (now e) k (window_seconds + 2)) ;;
    require (value <=? limit) (HTTPException 429 ("rate limit exceeded for " ++ namespace)%string).
End Hub.
