(* ===== verification/RealtimeEvents.v ===== *)
(** Durable events of the realtime service: [app/events.py] (queueing with
    idempotency keys, delivery with retries, the worker's round, replay) and the
    bridge to the notification service, [app/push.py]. *)
From S2P Require Import Prelude PyFloat Json Calendar Session Schema WebApi Sha256 Engines RealtimeModels RealtimeCore RealtimeHub.
#[local] Open Scope string_scope.
#[local] Open Scope list_scope.
#[local] Open Scope Z_scope.

(** * [app/push.py] *)

(** [s[:n]]: a slice of a text counts characters. *)
Fixpoint char_take (n : nat) (s : string) : string :=
  match s with
  | EmptyString => EmptyString
  | String c s' =>
      if (128 <=? ord c) && (ord c <? 192) then String c (char_take n s')
      else match n with O => EmptyString | S n => String c (char_take n s') end
  end.
Section Bridge.
Context {X : Type} `{PushGateway X}.
(** [_service_token]: a cached token is used until 30 seconds before it expires. *)
Definition get_service_token (e : Env) : M X string := fun w =>
  let s := settings e in
  if str_truthy (token_value (token w)) && (now e <? expires_at (token w) - seconds 30) then ret (token_value (token w)) w
  else
    (require (str_truthy (platform_client_secret s)) (RuntimeError "REALTIME_PLATFORM_CLIENT_SECRET is required for Push integration") ;;
     let! (value, expires_in) := call (service_token (now e) [
       ("client_id", JStr (platform_client_id s)); ("client_secret", JStr (platform_client_secret s));
       ("audience", JStr "ithute-push"); ("scope", JStr "push.send.delegated")]) in
     update (fun w => w <| token := mk_CachedToken value (now e + seconds expires_in) |>) ;;
     ret value) w.
Record Notice : Type := mk_Notice {
  no_source_client_id : string;
  no_recipient_sub : uuid;
  no_event_id : uuid;
  no_event_type : string;
  no_title : string;
  no_body : string;
  no_route : Json;
  no_data : list (string * Json);
  no_ttl_seconds : Z;
  no_priority : string
}.
Definition notice_key (n : Notice) : string :=
  texts ["realtime:"; no_source_client_id n; ":"; str_of_uuid (no_event_id n); ":"; str_of_uuid (no_recipient_sub n)].
Definition notice_data (n : Notice) : list (string * Json) :=
  dict_set "priority" (JStr (no_priority n))
    (dict_set "event_id" (JStr (str_of_uuid (no_event_id n)))
      (dict_set "type" (JStr (no_event_type n)) (no_data n))).
Definition notice_json (n : Notice) : list (string * Json) := [
  ("source_client_id", JStr (no_source_client_id n)); ("recipient_sub", JStr (str_of_uuid (no_recipient_sub n)));
  ("title", JStr (char_take 160 (no_title n))); ("body", JStr (char_take 500 (no_body n))); ("route", no_route n);
  ("sound", JStr "default"); ("data", JObj (notice_data n));
  ("ttl_seconds", JInt (Z.max 60 (Z.min (no_ttl_seconds n) 604800)))].
Definition notify_event (e : Env) (n : Notice) : M X unit :=
  if negb (push_enabled (settings e)) then ret tt
  else
    let! bearer := get_service_token e in
    call (post_message (now e) bearer (notice_key n) (notice_json n)).
End Bridge.

(** * [app/events.py] *)

Definition EventConflict (msg : string) : exn := Prelude.EventConflict msg.
(** [int(instant.timestamp() * 1_000_000)]: a floating-point product *)
Definition micros (t : time) : result Z := int_of_float (fmul (of_ratio t 1000000) (of_Z 1000000)).
Definition uuid_hex (u : uuid) : string := hex_digits 32 u EmptyString.
Definition event_cursor {X} (e : Env) : M X string :=
  let! us := lift (micros (now e)) in
  let! u := draw e in
  ret (texts [zero_pad 20 (str_of_Z us); "-"; uuid_hex u]).
(** [_fingerprint] *)
Definition event_fingerprint (payload : list (string * Json)) : string :=
  python_sha256 (bytes_of (json_dumps_canonical (JObj payload))).
(** [json.loads(text or '{}')], a dictionary or else an empty one *)
Definition payload_dict (text : string) : list (string * Json) :=
  match json_loads (str_or text "{}") with Some (JObj d) => d | _ => [] end.

(** [{**payload, k: v, ...}] *)
Definition merge_dict (l base : list (string * Json)) : list (string * Json) :=
  fold_left (fun d kv => dict_set (fst kv) (snd kv) d) l base.
Definition protocol_fields (event : RealtimeEvent) (recipients : list EventRecipient) : list (string * Json) := [
  ("type", JStr (RealtimeEvent.event_type event)); ("version", JInt (RealtimeEvent.version event));
  ("event_id", JStr (str_of_uuid (RealtimeEvent.id event))); ("cursor", JStr (RealtimeEvent.cursor event));
  ("application_id", JStr (RealtimeEvent.application_id event)); ("priority", JStr (RealtimeEvent.priority event));
  ("audience_label", opt_json (RealtimeEvent.audience_label event));
  ("recipients", JArr (map (fun r => JStr (str_of_uuid (EventRecipient.auth_user_id r))) recipients));
  ("broadcast_connected", JBool (RealtimeEvent.broadcast_connected event));
  ("created_at", JStr (iso_time (RealtimeEvent.created_at event))); ("expires_at", JStr (iso_time (RealtimeEvent.expires_at event)))].
Definition event_wire (event : RealtimeEvent) (recipients : list EventRecipient) : list (string * Json) :=
  merge_dict (protocol_fields event recipients) (payload_dict (RealtimeEvent.payload_json event)).
(** [event.recipients] *)
Definition recipients_of (event_id : uuid) (s : Session RealtimeDb) : list EventRecipient :=
  select event_recipients (fun r => EventRecipient.event_id r =? event_id) s.

(** ** [queue_event] *)

(** A [datetime] with its offset in minutes, or without one (then the instant is
    the one it has in UTC). *)
Record Moment : Type := mk_Moment { instant : time; offset : option Z }.
Definition isoformat_moment (m : Moment) : string :=
  match offset m with
  | None => clock_text "T" (instant m)
  | Some off =>
      let a := Z.abs off in
      texts [clock_text "T" (instant m + seconds (off * 60)); if off <? 0 then "-" else "+";
             zero_pad 2 (str_of_Z (a / 60)); ":"; zero_pad 2 (str_of_Z (a mod 60))]
  end.
Record EventSpec : Type := mk_EventSpec {
  es_application_id : string;
  es_source_client_id : string;
  es_event_type : string;
  es_version : Z;
  es_priority : string;
  es_recipients : list uuid;
  es_payload : list (string * Json);
  es_ttl_seconds : Z;
  es_deliver_at : option Moment;
  es_push_enabled : bool;
  es_broadcast_connected : bool;
  es_audience_label : option string;
  es_idempotency_key : option string
}.
Definition fingerprint_payload (q : EventSpec) : list (string * Json) := [
  ("application_id", JStr (es_application_id q)); ("event_type", JStr (es_event_type q)); ("version", JInt (es_version q));
  ("priority", JStr (es_priority q));
  ("recipients", JArr (map JStr (sort_cmp String.compare (map str_of_uuid (es_recipients q)))));
  ("payload", JObj (es_payload q)); ("ttl_seconds", JInt (es_ttl_seconds q));
  ("deliver_at", match es_deliver_at q with Some m => JStr (isoformat_moment m) | None => JNull end);
  ("push_enabled", JBool (es_push_enabled q)); ("broadcast_connected", JBool (es_broadcast_connected q));
  ("audience_label", opt_json (es_audience_label q))].
Definition fingerprint_of (q : EventSpec) : string := event_fingerprint (fingerprint_payload q).
(** [if idempotency_key:] *)
Definition truthy_key (o : option string) : option string :=
  match o with Some k => if str_truthy k then Some k else None | None => None end.

Section Events.
Context {X : Type}.
(** [_existing_idempotent_event] *)
Definition has_key (application_id k : string) (r : RealtimeEvent) : bool :=
  (RealtimeEvent.application_id r ==? application_id) && (RealtimeEvent.idempotency_key r ==? Some k).
Definition existing_idempotent_event (application_id k fingerprint : string) : M X (option RealtimeEvent) :=
  let! existing := query (scalar realtime_events (has_key application_id k)) in
  match existing with
  | Some r =>
      require (RealtimeEvent.request_fingerprint r ==? Some fingerprint)
        (EventConflict "Idempotency-Key was already used for a different event") ;;
      ret (Some r)
  | None => ret None
  end.
Definition new_event (e : Env) (q : EventSpec) (cursor : string) (id : uuid) : RealtimeEvent :=
  let scheduled := match es_deliver_at q with Some m => instant m | None => now e end in
  RealtimeEvent.new_RealtimeEvent id (now e)
    <| RealtimeEvent.cursor := cursor |> <| RealtimeEvent.application_id := es_application_id q |>
    <| RealtimeEvent.source_client_id := es_source_client_id q |> <| RealtimeEvent.event_type := es_event_type q |>
    <| RealtimeEvent.version := es_version q |> <| RealtimeEvent.priority := es_priority q |>
    <| RealtimeEvent.audience_label := es_audience_label q |> <| RealtimeEvent.idempotency_key := es_idempotency_key q |>
    <| RealtimeEvent.request_fingerprint := match truthy_key (es_idempotency_key q) with Some _ => Some (fingerprint_of q) | None => None end |>
    <| RealtimeEvent.payload_json := compact_raw (JObj (es_payload q)) |>
    <| RealtimeEvent.broadcast_connected := es_broadcast_connected q |> <| RealtimeEvent.push_enabled := es_push_enabled q |>
    <| RealtimeEvent.status := if now e <? scheduled then "scheduled" else "queued" |>
    <| RealtimeEvent.max_attempts := event_max_attempts (settings e) |>
    <| RealtimeEvent.deliver_at := scheduled |> <| RealtimeEvent.expires_at := scheduled + seconds (es_ttl_seconds q) |>.
Definition new_recipient (event_id auth_user_id id : uuid) : EventRecipient :=
  EventRecipient.new_EventRecipient id 0
    <| EventRecipient.event_id := event_id |> <| EventRecipient.auth_user_id := auth_user_id |>.
(** [db.add(event)], the flush, the recipients and the commit; or the event of the
    request that came first. *)
Definition store_event (e : Env) (q : EventSpec) : M X RealtimeEvent :=
  let! cursor := event_cursor e in
  let! event := insert realtime_events e (new_event e q cursor) in
  except_integrity
    (flush e ;;
     for_each (fun recipient => insert event_recipients e (new_recipient (RealtimeEvent.id event) recipient) ;; ret tt)
       (fromkeys (es_recipients q)) ;;
     commit e ;;
     refresh realtime_events event)
    (fun exc =>
      rollback ;;
      match truthy_key (es_idempotency_key q) with
      | None => raise exc
      | Some k =>
          let! existing := existing_idempotent_event (es_application_id q) k (fingerprint_of q) in
          some_or existing exc
      end).
Definition queue_event (e : Env) (q : EventSpec) : M X RealtimeEvent :=
  require (zlen (es_recipients q) <=? max_event_recipients (settings e)) (ValueError "event recipient limit exceeded") ;;
  let! existing := match truthy_key (es_idempotency_key q) with
    | Some k => existing_idempotent_event (es_application_id q) k (fingerprint_of q)
    | None => ret None
    end in
  match existing with Some r => ret r | None => store_event e q end.

(** ** [deliver_event] *)
Context `{RedisServer X, PushGateway X}.
Definition with_status (status : string) (r : RealtimeEvent) : RealtimeEvent := r <| RealtimeEvent.status := status |>.
Definition expired (r : RealtimeEvent) : RealtimeEvent :=
  with_status "expired" r <| RealtimeEvent.last_error := Some "event TTL expired before delivery" |>.
Definition publishing (r : RealtimeEvent) : RealtimeEvent := with_status "publishing" r <| RealtimeEvent.attempts ::= Z.succ |>.
Definition delivered (e : Env) (r : RealtimeEvent) : RealtimeEvent :=
  with_status "delivered" r <| RealtimeEvent.delivered_at := Some (now e) |> <| RealtimeEvent.last_error := None |>.
Definition failed (e : Env) (exc : exn) (r : RealtimeEvent) : RealtimeEvent :=
  let r := r <| RealtimeEvent.last_error := Some (char_take 1000 (exn_str exc)) |> in
  if RealtimeEvent.max_attempts r <=? RealtimeEvent.attempts r then with_status "dead_letter" r
  else with_status "retry" r
         <| RealtimeEvent.deliver_at := now e + seconds (event_retry_seconds (settings e) * RealtimeEvent.attempts r) |>.
(** What an offline recipient is notified of. *)
Definition notice_of (e : Env) (event : RealtimeEvent) (recipient : EventRecipient) : Notice :=
  let payload := payload_dict (RealtimeEvent.payload_json event) in
  mk_Notice (RealtimeEvent.application_id event) (EventRecipient.auth_user_id recipient) (RealtimeEvent.id event)
    (RealtimeEvent.event_type event) (py_str (jor (jget "title" payload) (JStr "Ithute notification")))
    (py_str (jor (jget "body" payload) (JStr "You have a new update"))) (jget "route" payload) (as_dict (jget "data" payload))
    (Z.max 60 ((RealtimeEvent.expires_at event - now e) / seconds 1)) (RealtimeEvent.priority event).
Definition push_recipient (e : Env) (event : RealtimeEvent) (recipient : EventRecipient) : M X unit :=
  let! online := is_online e (RealtimeEvent.application_id event) (str_of_uuid (EventRecipient.auth_user_id recipient)) in
  if online then ret tt
  else
    notify_event e (notice_of e event recipient) ;;
    assign event_recipients (fun r => r <| EventRecipient.push_requested_at := Some (now e) |>) recipient ;;
    ret tt.
(** The body of the [try]. *)
Definition attempt (e : Env) (event : RealtimeEvent) : M X RealtimeEvent :=
  let! recipients := query (recipients_of (RealtimeEvent.id event)) in
  publish e (RealtimeEvent.application_id event) (event_wire event recipients) ;;
  when RealtimeEvent.push_enabled event then! for_each (push_recipient e event) recipients ;;
  assign realtime_events (delivered e) event.
Definition deliver_event (e : Env) (event : RealtimeEvent) : M X RealtimeEvent :=
  if RealtimeEvent.expires_at event <=? now e then
    let! event := assign realtime_events expired event in commit e ;; ret event
  else if now e <? RealtimeEvent.deliver_at event then
    let! event := assign realtime_events (with_status "scheduled") event in commit e ;; ret event
  else
    let! event := assign realtime_events publishing event in
    commit e ;;
    let! event := catch (attempt e event) (fun exc => assign realtime_events (failed e exc) event) in
    commit e ;;
    refresh realtime_events event.

(** ** [process_due_events] *)
Definition due (t : time) (r : RealtimeEvent) : bool :=
  (RealtimeEvent.status r in? ["queued"; "scheduled"; "retry"]) && (RealtimeEvent.deliver_at r <=? t).
Definition process_due_events (e : Env) (limit : nat) : M X Z :=
  let! rows := query (fun s => take limit (select_ordered realtime_events (asc RealtimeEvent.deliver_at) (due (now e)) s)) in
  for_each (fun event => deliver_event e event ;; ret tt) rows ;;
  ret (zlen rows).
End Events.

(** ** [replay_events], [pending_or_dead_counts] *)
Definition replayable (t : time) (application_id : string) (r : RealtimeEvent) : bool :=
  (RealtimeEvent.application_id r ==? application_id) && (t <? RealtimeEvent.expires_at r) &&
  (RealtimeEvent.status r in? ["delivered"; "publishing"; "retry"]).
(** The join: an event has one recipient row per user. *)
Definition addressed_to (auth_user_id : uuid) (s : Session RealtimeDb) (r : RealtimeEvent) : bool :=
  existsb (fun x => (EventRecipient.event_id x =? RealtimeEvent.id r) && (EventRecipient.auth_user_id x =? auth_user_id))
    (event_recipients (sql s)).
(** [if after:] *)
Definition later_than (after : option string) (r : RealtimeEvent) : bool :=
  match truthy_key after with
  | Some after => match String.compare after (RealtimeEvent.cursor r) with Lt => true | _ => false end
  | None => true
  end.
Definition replay_events (e : Env) (application_id : string) (auth_user_id : uuid) (after : option string) (limit : nat)
    (s : Session RealtimeDb) : list RealtimeEvent :=
  take limit (select_ordered realtime_events (asc_str RealtimeEvent.cursor)
    (fun r => replayable (now e) application_id r && addressed_to auth_user_id s r && later_than after r) s).
Definition pending_or_dead_counts (application_id : string) (s : Session RealtimeDb) : list (string * Z) :=
  map (fun status => (status, sql_count realtime_events
        (fun r => (RealtimeEvent.application_id r ==? application_id) && (RealtimeEvent.status r ==? status)) s))
    ["queued"; "scheduled"; "retry"; "dead_letter"; "expired"; "delivered"].
