(* ===== verification/RealtimeSchemas.v ===== *)
(** The request and response bodies of the realtime service, with their
    validators: [app/schemas.py]. *)
From S2P Require Import Prelude PyFloat Json Calendar Session Schema WebApi Sha256 Engines RealtimeModels RealtimeCore RealtimeHub RealtimeEvents.
#[local] Open Scope string_scope.
#[local] Open Scope list_scope.
#[local] Open Scope Z_scope.

(** ** Field constraints *)
Definition lower_alnum (c : ascii) : bool := is_digit c || ((97 <=? ord c) && (ord c <=? 122)).
(** [_EVENT_RE]: labels of lower-case letters and digits joined by [.], [_] or
    [-], at least two of them, the first one starting with a letter; [labels]
    scans what follows a character of a label. *)
Fixpoint labels (s : string) (many : bool) : bool :=
  match s with
  | EmptyString => many
  | String c s =>
      if lower_alnum c then labels s many
      else match s with
           | String c' s' => ((ord c =? 46) || (ord c =? 95) || (ord c =? 45)) && lower_alnum c' && labels s' true
           | EmptyString => false
           end
  end.
Definition event_name (s : string) : bool :=
  match s with String c s => (97 <=? ord c) && (ord c <=? 122) && labels s false | EmptyString => false end.
Fixpoint all_chars (p : ascii -> bool) (s : string) : bool := match s with EmptyString => true | String c s => p c && all_chars p s end.
Definition is_letter (c : ascii) : bool := ((97 <=? ord c) && (ord c <=? 122)) || ((65 <=? ord c) && (ord c <=? 90)).
Definition room_char (c : ascii) : bool :=
  is_digit c || is_letter c || (ord c =? 46) || (ord c =? 95) || (ord c =? 58) || (ord c =? 45).
Definition starts (prefix s : string) : bool := is_some (after_prefix prefix s).
(** [_bounded_json] *)
Definition bounded_json (value : list (string * Json)) : bool := encoded_size value <=? 16384.
Definition text_between (lo hi : Z) (s : string) : bool := between lo hi (str_len s).
Definition opt_between (lo hi : Z) (o : option string) : bool := forallb (text_between lo hi) (opt_list o).
Definition priorities : list string := ["low"; "normal"; "high"; "critical"].

Record AttachmentRef : Type := mk_AttachmentRef {
  at_url : string;
  at_name : string;
  at_content_type : string;
  at_size_bytes : Z;
  at_sha256 : option string;
  at_thumbnail_url : option string
}.
(** [safe_reference] *)
Definition safe_reference (value : string) : bool := starts "https://" value || starts "/" value.
Definition valid_AttachmentRef (a : AttachmentRef) : bool :=
  text_between 1 2048 (at_url a) && text_between 1 255 (at_name a) && text_between 1 120 (at_content_type a) &&
  between 0 (100 * 1024 * 1024) (at_size_bytes a) &&
  forallb (fun s => (str_len s =? 64) && all_chars (fun c => is_some (hex_val c)) s) (opt_list (at_sha256 a)) &&
  opt_max 2048 (at_thumbnail_url a) && safe_reference (at_url a) && forallb safe_reference (opt_list (at_thumbnail_url a)).
(** [model_dump(mode='json')], and [model_validate] of such a dump *)
Definition dump_attachment (a : AttachmentRef) : Json := JObj [
  ("url", JStr (at_url a)); ("name", JStr (at_name a)); ("content_type", JStr (at_content_type a));
  ("size_bytes", JInt (at_size_bytes a)); ("sha256", opt_json (at_sha256 a)); ("thumbnail_url", opt_json (at_thumbnail_url a))].
Definition opt_text (v : Json) : option (option string) :=
  match v with JStr s => Some (Some s) | JNull => Some None | _ => None end.
Definition read_attachment (d : list (string * Json)) : result AttachmentRef :=
  match jget "url" d, jget "name" d, jget "content_type" d, jget "size_bytes" d, opt_text (jget "sha256" d), opt_text (jget "thumbnail_url" d) with
  | JStr url, JStr name, JStr content_type, JInt size, Some sha, Some thumbnail =>
      let a := mk_AttachmentRef url name content_type size sha thumbnail in
      ensure valid_AttachmentRef a else_raise ValueError "validation error"; Ok a
  | _, _, _, _, _, _ => Err (ValueError "validation error")
  end.

(** ** Conversations *)
Record ConversationCreate : Type := mk_ConversationCreate {
  cc_participant_subs : list uuid;
  cc_title : option string;
  cc_description : option string;
  cc_room_key : option string;
  cc_kind : string
}.
Definition conversation_kinds : list string := ["direct"; "group"; "channel"; "system"].
Definition valid_ConversationCreate (p : ConversationCreate) : bool :=
  (zlen (cc_participant_subs p) <=? 500) && opt_max 200 (cc_title p) && opt_max 1000 (cc_description p) &&
  forallb (fun s => text_between 1 120 s && all_chars room_char s) (opt_list (cc_room_key p)) && (cc_kind p in? conversation_kinds).
Definition roles : list string := ["owner"; "admin"; "member"; "viewer"].
Record MemberMutation : Type := mk_MemberMutation {
  mm_auth_user_id : uuid;
  mm_action : string;
  mm_role : option string;
  mm_muted : option bool
}.
Definition valid_MemberMutation (m : MemberMutation) : bool :=
  (mm_action m in? ["add"; "remove"; "update"]) && forallb (fun r => r in? roles) (opt_list (mm_role m)).
Definition valid_MemberMutationRequest (members : list MemberMutation) : bool :=
  between 1 500 (zlen members) && forallb valid_MemberMutation members.
(** [item.model_dump(mode='json')] *)
Definition dump_mutation (m : MemberMutation) : Json := JObj [
  ("auth_user_id", JStr (str_of_uuid (mm_auth_user_id m))); ("action", JStr (mm_action m)); ("role", opt_json (mm_role m));
  ("muted", match mm_muted m with Some b => JBool b | None => JNull end)].
Record MemberOut : Type := mk_MemberOut {
  mo_auth_user_id : uuid;
  mo_role : string;
  mo_muted : bool;
  mo_last_read_message_id : option uuid
}.
Record ConversationOut : Type := mk_ConversationOut {
  co_id : uuid;
  co_application_id : string;
  co_kind : string;
  co_title : option string;
  co_description : option string;
  co_room_key : option string;
  co_archived : bool;
  co_created_at : time;
  co_updated_at : time;
  co_members : list MemberOut
}.

(** ** Messages *)
Record MessageCreate : Type := mk_MessageCreate {
  mc_body : string;
  mc_client_message_id : option string;
  mc_data : list (string * Json);
  mc_reply_to_message_id : option uuid;
  mc_forward_message_id : option uuid;
  mc_mention_subs : list uuid;
  mc_attachments : list AttachmentRef;
  mc_priority : string
}.
(** [body_or_attachment] *)
Definition body_or_attachment (p : MessageCreate) : bool :=
  str_truthy (strip (mc_body p)) || (match mc_attachments p with [] => false | _ => true end) || is_some (mc_forward_message_id p).
Definition valid_MessageCreate (p : MessageCreate) : bool :=
  text_between 0 4000 (mc_body p) && opt_between 1 120 (mc_client_message_id p) && bounded_json (mc_data p) &&
  (zlen (mc_mention_subs p) <=? 100) && forallb uuid_column (mc_mention_subs p) && (zlen (mc_attachments p) <=? 10) &&
  forallb valid_AttachmentRef (mc_attachments p) && (mc_priority p in? priorities) && body_or_attachment p.
Record MessageEditRequest : Type := mk_MessageEditRequest { me_body : string; me_data : option (list (string * Json)) }.
Definition valid_MessageEditRequest (p : MessageEditRequest) : bool :=
  text_between 1 4000 (me_body p) && forallb bounded_json (opt_list (me_data p)).
Record PlatformConversationEventCreate : Type := mk_PlatformConversationEventCreate {
  pc_event_type : string;
  pc_version : Z;
  pc_body : string;
  pc_data : list (string * Json);
  pc_client_message_id : option string;
  pc_priority : string
}.
Definition valid_PlatformConversationEventCreate (p : PlatformConversationEventCreate) : bool :=
  text_between 3 80 (pc_event_type p) && event_name (pc_event_type p) && between 1 99 (pc_version p) && text_between 0 4000 (pc_body p) &&
  bounded_json (pc_data p) && opt_between 1 120 (pc_client_message_id p) && (pc_priority p in? priorities).
Record MessageOut : Type := mk_MessageOut {
  ms_id : uuid;
  ms_conversation_id : uuid;
  ms_application_id : string;
  ms_sender_sub : option uuid;
  ms_sender_client_id : string;
  ms_sender_kind : string;
  ms_message_type : string;
  ms_version : Z;
  ms_priority : string;
  ms_body : string;
  ms_data : list (string * Json);
  ms_mentions : list uuid;
  ms_attachments : list AttachmentRef;
  ms_reply_to_message_id : option uuid;
  ms_forwarded_from_message_id : option uuid;
  ms_client_message_id : option string;
  ms_created_at : time;
  ms_edited_at : option time;
  ms_deleted_at : option time
}.
Definition uuid_json (u : uuid) : Json := JStr (str_of_uuid u).
Definition opt_uuid_json (o : option uuid) : Json := match o with Some u => uuid_json u | None => JNull end.
Definition opt_time_json (o : option time) : Json := match o with Some t => JStr (json_time t) | None => JNull end.
(** [model_dump(mode='json')] *)
Definition dump_message_out (m : MessageOut) : Json := JObj [
  ("id", uuid_json (ms_id m)); ("conversation_id", uuid_json (ms_conversation_id m)); ("application_id", JStr (ms_application_id m));
  ("sender_sub", opt_uuid_json (ms_sender_sub m)); ("sender_client_id", JStr (ms_sender_client_id m));
  ("sender_kind", JStr (ms_sender_kind m)); ("message_type", JStr (ms_message_type m)); ("version", JInt (ms_version m));
  ("priority", JStr (ms_priority m)); ("body", JStr (ms_body m)); ("data", JObj (ms_data m));
  ("mentions", JArr (map uuid_json (ms_mentions m))); ("attachments", JArr (map dump_attachment (ms_attachments m)));
  ("reply_to_message_id", opt_uuid_json (ms_reply_to_message_id m));
  ("forwarded_from_message_id", opt_uuid_json (ms_forwarded_from_message_id m));
  ("client_message_id", opt_json (ms_client_message_id m)); ("created_at", JStr (json_time (ms_created_at m)));
  ("edited_at", opt_time_json (ms_edited_at m)); ("deleted_at", opt_time_json (ms_deleted_at m))].

(** ** Receipts, reactions, pins, presence *)
Record ReceiptRequest : Type := mk_ReceiptRequest { rr_state : string; rr_device_key : option string }.
Definition valid_ReceiptRequest (p : ReceiptRequest) : bool := (rr_state p in? ["delivered"; "read"]) && opt_max 200 (rr_device_key p).
Record ReceiptOut : Type := mk_ReceiptOut {
  ro_message_id : uuid;
  ro_auth_user_id : uuid;
  ro_state : string;
  ro_delivered_at : option time;
  ro_read_at : option time
}.
Record ReactionOut : Type := mk_ReactionOut {
  rx_message_id : uuid;
  rx_auth_user_id : uuid;
  rx_emoji : string;
  rx_created_at : time
}.
Record PinOut : Type := mk_PinOut {
  po_conversation_id : uuid;
  po_message_id : uuid;
  po_pinned_by_sub : option uuid;
  po_created_at : time
}.
Definition valid_activity (activity state : string) : bool :=
  (activity in? ["typing"; "recording"; "uploading"; "viewing"]) && (state in? ["start"; "stop"]).
Record PresenceOut : Type := mk_PresenceOut {
  px_auth_user_id : uuid;
  px_online : bool;
  px_connection_count : Z;
  px_device_keys : list string;
  px_last_seen_at : option time
}.

(** ** Events *)
Record PlatformEventRequest : Type := mk_PlatformEventRequest {
  pe_event_type : string;
  pe_version : Z;
  pe_recipient_subs : list uuid;
  pe_title : option string;
  pe_body : string;
  pe_route : option string;
  pe_data : list (string * Json);
  pe_priority : string;
  pe_ttl_seconds : Z;
  pe_deliver_at : option Moment;
  pe_push : bool;
  pe_broadcast_connected : bool;
  pe_audience_label : option string;
  pe_idempotency_key : option string
}.
(** [validate_audience] is the last conjunct. *)
Definition valid_PlatformEventRequest (p : PlatformEventRequest) : bool :=
  text_between 3 80 (pe_event_type p) && event_name (pe_event_type p) && between 1 99 (pe_version p) &&
  (zlen (pe_recipient_subs p) <=? 5000) && opt_max 160 (pe_title p) && text_between 0 1000 (pe_body p) && opt_max 500 (pe_route p) &&
  bounded_json (pe_data p) && (pe_priority p in? priorities) && between 30 604800 (pe_ttl_seconds p) &&
  opt_max 160 (pe_audience_label p) && opt_between 1 160 (pe_idempotency_key p) &&
  ((match pe_recipient_subs p with [] => false | _ => true end) || pe_broadcast_connected p).
Record EventRecipientOut : Type := mk_EventRecipientOut {
  eo_auth_user_id : uuid;
  eo_received_at : option time;
  eo_opened_at : option time
}.
Record EventOut : Type := mk_EventOut {
  ev_id : uuid;
  ev_cursor : string;
  ev_application_id : string;
  ev_event_type : string;
  ev_version : Z;
  ev_priority : string;
  ev_audience_label : option string;
  ev_payload : list (string * Json);
  ev_status : string;
  ev_deliver_at : time;
  ev_expires_at : time;
  ev_delivered_at : option time;
  ev_created_at : time;
  ev_recipients : list EventRecipientOut
}.
Record EventAckOut : Type := mk_EventAckOut {
  ek_event_id : uuid;
  ek_state : string;
  ek_received_at : option time;
  ek_opened_at : option time
}.
Definition valid_ack (state : string) : bool := state in? ["received"; "opened"].
Record AuditOut : Type := mk_AuditOut {
  ao_id : uuid;
  ao_application_id : string;
  ao_actor_kind : string;
  ao_actor_sub : option uuid;
  ao_actor_client_id : string;
  ao_action : string;
  ao_target_type : string;
  ao_target_id : string;
  ao_details : list (string * Json);
  ao_created_at : time
}.
