(* ===== verification/RealtimeService.v ===== *)
(** The endpoints of the realtime service: [app/main.py]. *)
From S2P Require Import Prelude PyFloat Json Calendar Session Schema WebApi Sha256 Engines RealtimeModels RealtimeCore RealtimeHub RealtimeEvents RealtimeSchemas.
#[local] Open Scope string_scope.
#[local] Open Scope list_scope.
#[local] Open Scope Z_scope.

Definition not_found (what : string) : exn := HTTPException 404 (what ++ " not found")%string.

(** * Reading *)
(** [_members] *)
Definition members_of (conversation_id : uuid) (s : Session RealtimeDb) : list ConversationMember :=
  select_ordered conversation_members (asc ConversationMember.joined_at)
    (fun r => ConversationMember.conversation_id r =? conversation_id) s.
(** [_message_recipients] *)
Definition message_recipients (conversation_id : uuid) (s : Session RealtimeDb) : list uuid :=
  map ConversationMember.auth_user_id (members_of conversation_id s).
Definition is_member (conversation_id user_id : uuid) (r : ConversationMember) : bool :=
  (ConversationMember.conversation_id r =? conversation_id) && (ConversationMember.auth_user_id r =? user_id).
(** [_member] *)
Definition require_member {X} (conversation : Conversation) (principal : UserPrincipal) : M X ConversationMember :=
  let! user_id := lift (user_uuid principal) in
  let! row := query (scalar conversation_members (is_member (Conversation.id conversation) user_id)) in
  require (Conversation.application_id conversation ==? up_client_id principal) (not_found "conversation") ;;
  some_or row (not_found "conversation").
Definition member_out (r : ConversationMember) : MemberOut :=
  mk_MemberOut (ConversationMember.auth_user_id r) (ConversationMember.role r) (ConversationMember.muted r)
    (ConversationMember.last_read_message_id r).
(** [_conversation_out] *)
Definition conversation_out (s : Session RealtimeDb) (c : Conversation) : ConversationOut :=
  mk_ConversationOut (Conversation.id c) (Conversation.application_id c) (Conversation.kind c) (Conversation.title c)
    (Conversation.description c) (Conversation.room_key c) (Conversation.archived c) (Conversation.created_at c)
    (Conversation.updated_at c) (map member_out (members_of (Conversation.id c) s)).
(** [_safe_json] *)
Definition safe_json (raw : string) (fallback : Json) : Json := match json_loads raw with Some v => v | None => fallback end.
Fixpoint collect {A B} (f : A -> result B) (l : list A) : result (list B) :=
  match l with [] => Ok [] | x :: l => let* y := f x in let* ys := collect f l in Ok (y :: ys) end.
(** [[uuid.UUID(str(value)) for value in mentions if value]] *)
Definition read_mentions (v : Json) : result (list uuid) :=
  match iterate v with
  | Some values => collect (fun v => uuid_of_str (py_str v)) (List.filter truthy values)
  | None => Err (TypeError "object is not iterable")
  end.
(** [[AttachmentRef.model_validate(item) for item in attachments if isinstance(item, dict)]] *)
Definition read_attachments (v : Json) : result (list AttachmentRef) :=
  match iterate v with
  | Some items => collect read_attachment (flat_map (fun v => match v with JObj d => [d] | _ => [] end) items)
  | None => Err (TypeError "object is not iterable")
  end.
(** [_message_out] *)
Definition message_out (m : Message) : result MessageOut :=
  let deleted := is_some (Message.deleted_at m) in
  let data := if deleted then JObj [] else safe_json (Message.data_json m) (JObj []) in
  let attachments := if deleted then JArr [] else safe_json (Message.attachments_json m) (JArr []) in
  let body := if deleted then EmptyString else Message.body m in
  let* mentions := read_mentions (safe_json (Message.mentions_json m) (JArr [])) in
  let* attachments := read_attachments attachments in
  Ok (mk_MessageOut (Message.id m) (Message.conversation_id m) (Message.application_id m) (Message.sender_sub m)
    (Message.sender_client_id m) (Message.sender_kind m) (Message.message_type m) (Message.version m) (Message.priority m)
    body (as_dict data) mentions attachments (Message.reply_to_message_id m) (Message.forwarded_from_message_id m)
    (Message.client_message_id m) (Message.created_at m) (Message.edited_at m) (Message.deleted_at m)).
(** [_event_out] *)
Definition event_out (s : Session RealtimeDb) (r : RealtimeEvent) : EventOut :=
  mk_EventOut (RealtimeEvent.id r) (RealtimeEvent.cursor r) (RealtimeEvent.application_id r) (RealtimeEvent.event_type r)
    (RealtimeEvent.version r) (RealtimeEvent.priority r) (RealtimeEvent.audience_label r)
    (as_dict (safe_json (RealtimeEvent.payload_json r) (JObj []))) (RealtimeEvent.status r) (RealtimeEvent.deliver_at r)
    (RealtimeEvent.expires_at r) (RealtimeEvent.delivered_at r) (RealtimeEvent.created_at r)
    (map (fun x => mk_EventRecipientOut (EventRecipient.auth_user_id x) (EventRecipient.received_at x) (EventRecipient.opened_at x))
      (recipients_of (RealtimeEvent.id r) s)).
Definition audit_out (r : AuditEvent) : result AuditOut :=
  match safe_json (AuditEvent.details_json r) (JObj []) with
  | JObj details =>
      Ok (mk_AuditOut (AuditEvent.id r) (AuditEvent.application_id r) (AuditEvent.actor_kind r) (AuditEvent.actor_sub r)
        (AuditEvent.actor_client_id r) (AuditEvent.action r) (AuditEvent.target_type r) (AuditEvent.target_id r) details
        (AuditEvent.created_at r))
  | _ => Err (ValueError "validation error")
  end.
(** [datetime.fromisoformat] of a text [datetime.isoformat] has printed in UTC *)
Definition read_time (text : string) : option time :=
  let field i n := match int_of_str (String.substring i n text) with Some z => z | None => 0 end in
  let t := days (date_of (field 0%nat 4%nat) (field 5%nat 2%nat) (field 8%nat 2%nat)) +
    seconds (field 11%nat 2%nat * 3600 + field 14%nat 2%nat * 60 + field 17%nat 2%nat) +
    (if starts "." (String.substring 19 1 text) then field 20%nat 6%nat else 0) in
  if iso_time t ==? text then Some t else None.

Section Service.
Context {X : Type} `{RedisServer X, PushGateway X}.
Implicit Types (e : Env) (principal : UserPrincipal).

(** * Writing *)
(** [_audit] *)
Record Audit : Type := mk_Audit {
  au_application_id : string;
  au_actor_kind : string;
  au_actor_sub : option uuid;
  au_action : string;
  au_target_type : string;
  au_target_id : string;
  au_details : list (string * Json)
}.
Definition audit_row (e : Env) (a : Audit) (id : uuid) : AuditEvent :=
  AuditEvent.new_AuditEvent id (now e)
    <| AuditEvent.application_id := au_application_id a |> <| AuditEvent.actor_kind := au_actor_kind a |>
    <| AuditEvent.actor_sub := au_actor_sub a |> <| AuditEvent.actor_client_id := au_application_id a |>
    <| AuditEvent.action := au_action a |> <| AuditEvent.target_type := au_target_type a |>
    <| AuditEvent.target_id := au_target_id a |> <| AuditEvent.details_json := compact_raw (JObj (au_details a)) |>.
Definition audit e (a : Audit) : M X unit := insert audit_events e (audit_row e a) ;; ret tt.
Definition user_audit e principal (actor : uuid) (action target_type : string) (target : uuid) (details : list (string * Json)) : M X unit :=
  audit e (mk_Audit (up_client_id principal) "user" (Some actor) action target_type (str_of_uuid target) details).
Definition service_audit e (client_id action target_type : string) (target : uuid) (details : list (string * Json)) : M X unit :=
  audit e (mk_Audit client_id "service" None action target_type (str_of_uuid target) details).

(** [_create_conversation] *)
Definition participants (creator : option uuid) (p : ConversationCreate) : list uuid :=
  let ids := fromkeys (cc_participant_subs p) in
  match creator with Some c => if c in? ids then ids else c :: ids | None => ids end.
Definition new_conversation e (application_id : string) (creator : option uuid) (p : ConversationCreate) (id : uuid) : Conversation :=
  Conversation.new_Conversation id (now e)
    <| Conversation.application_id := application_id |> <| Conversation.kind := cc_kind p |> <| Conversation.title := cc_title p |>
    <| Conversation.description := cc_description p |> <| Conversation.room_key := cc_room_key p |>
    <| Conversation.created_by_sub := creator |>.
Definition new_member e (conversation_id user_id : uuid) (role : string) (muted : bool) (id : uuid) : ConversationMember :=
  ConversationMember.new_ConversationMember id (now e)
    <| ConversationMember.conversation_id := conversation_id |> <| ConversationMember.auth_user_id := user_id |>
    <| ConversationMember.role := role |> <| ConversationMember.muted := muted |>.
Definition in_room (application_id k : string) (r : Conversation) : bool :=
  (Conversation.application_id r ==? application_id) && (Conversation.room_key r ==? Some k).
Definition create_conversation_row e (application_id : string) (creator : option uuid) (p : ConversationCreate) : M X Conversation :=
  let ids := participants creator p in
  require (match ids with [] => false | _ => true end) (HTTPException 422 "at least one conversation member is required") ;;
  require (zlen ids <=? max_group_members (settings e)) (HTTPException 422 "conversation member limit exceeded") ;;
  require (negb ((cc_kind p ==? "direct") && negb (zlen ids =? 2))) (HTTPException 422 "direct conversations require exactly two members") ;;
  require (negb ((cc_kind p in? ["channel"; "system"]) && negb (is_some (truthy_key (cc_room_key p)))))
    (HTTPException 422 "channel/system conversations require room_key") ;;
  let! row := insert conversations e (new_conversation e application_id creator p) in
  except_integrity
    (flush e ;;
     for_each (fun member_id =>
       insert conversation_members e (new_member e (Conversation.id row) member_id
         (if Some member_id ==? creator then "owner" else "member") false) ;; ret tt) ids ;;
     commit e ;;
     refresh conversations row)
    (fun _ =>
      rollback ;;
      let conflict := HTTPException 409 "conversation already exists" in
      match truthy_key (cc_room_key p) with
      | Some k => let! existing := query (scalar conversations (in_room application_id k)) in some_or existing conflict
      | None => raise conflict
      end).

(** [_emit_message_event] *)
Definition message_event (m : Message) (out : MessageOut) (recipients : list uuid) (event_type : string) (push : bool)
    (title body : option string) : EventSpec :=
  let stamp := match Message.edited_at m, Message.deleted_at m with
    | Some t, _ => t | None, Some t => t | None, None => Message.created_at m end in
  mk_EventSpec (Message.application_id m) (Message.sender_client_id m) event_type (Message.version m) (Message.priority m) recipients
    [("conversation_id", uuid_json (Message.conversation_id m)); ("message", dump_message_out out); ("title", opt_json title);
     ("body", JStr (match body with Some b => b | None => Message.body m end));
     ("route", JStr (texts ["/chat/"; str_of_uuid (Message.conversation_id m)]));
     ("data", JObj [("conversation_id", uuid_json (Message.conversation_id m)); ("message_id", uuid_json (Message.id m))])]
    3600 None push false None (Some (texts [event_type; ":"; str_of_uuid (Message.id m); ":"; str_time stamp])).
Definition emit_message_event e (m : Message) (event_type : string) (push : bool) (title body : option string) : M X unit :=
  let! recipients := query (message_recipients (Message.conversation_id m)) in
  let! out := lift (message_out m) in
  let! event := queue_event e (message_event m out recipients event_type push title body) in
  when RealtimeEvent.status event in? ["queued"; "retry"] then! (deliver_event e event ;; ret tt).
(** [_emit_ephemeral]: [{..., **payload}] *)
Definition emit_ephemeral e (application_id : string) (recipients : list uuid) (event_type : string) (payload : list (string * Json))
    : M X unit :=
  publish e application_id (merge_dict payload [
    ("type", JStr event_type); ("version", JInt 1); ("application_id", JStr application_id); ("recipients", JArr (map uuid_json recipients))]).
(** ... to the members of a conversation. *)
Definition emit_to_members e principal (c : Conversation) (event_type : string) (payload : list (string * Json)) : M X unit :=
  let! recipients := query (message_recipients (Conversation.id c)) in
  emit_ephemeral e (up_client_id principal) recipients event_type (("conversation_id", uuid_json (Conversation.id c)) :: payload).

(** * Conversations *)
Definition list_conversations principal : M X (list ConversationOut) :=
  let! user_id := lift (user_uuid principal) in
  query (fun s => map (conversation_out s)
    (select_ordered conversations (desc Conversation.updated_at) (fun c =>
      (Conversation.application_id c ==? up_client_id principal) &&
      existsb (is_member (Conversation.id c) user_id) (conversation_members (sql s)) && negb (Conversation.archived c)) s)).
Definition subject_text principal : string := texts [up_client_id principal; ":"; up_sub principal].
Definition create_conversation e (p : ConversationCreate) principal : M X ConversationOut :=
  enforce_rate_limit e "conversation-create" (subject_text principal) 30 60 ;;
  let! creator := lift (user_uuid principal) in
  let! row := create_conversation_row e (up_client_id principal) (Some creator) p in
  user_audit e principal creator "conversation.created" "conversation" (Conversation.id row) [] ;;
  commit e ;;
  query (fun s => conversation_out s row).
Definition find_conversation (conversation_id : uuid) : M X Conversation :=
  let! c := query (get conversations conversation_id) in some_or c (not_found "conversation").

(** * Messages *)
Definition list_messages e (conversation_id : uuid) principal (before : option time) (limit : Z) : M X (list MessageOut) :=
  let! conversation := find_conversation conversation_id in
  require_member conversation principal ;;
  let limit := Z.min limit (max_history_page_size (settings e)) in
  let! rows := query (fun s => take (Z.to_nat limit) (select_ordered messages (desc Message.created_at) (fun m =>
    (Message.conversation_id m =? Conversation.id conversation) &&
    match before with Some t => Message.created_at m <? t | None => true end) s)) in
  map_each (fun m => lift (message_out m)) (rev rows).

Definition same_client_message (conversation_id : uuid) (k : string) (m : Message) : bool :=
  (Message.conversation_id m =? conversation_id) && (Message.client_message_id m ==? Some k).
(** A message sent before with the same identifier of the client. *)
Definition sent_before (conversation_id : uuid) (client_message_id : option string) : M X (option Message) :=
  match truthy_key client_message_id with
  | Some k => query (scalar messages (same_client_message conversation_id k))
  | None => ret None
  end.
(** The message that is replied to. *)
Definition reply_target (conversation : Conversation) (reply_to : option uuid) : M X unit :=
  match reply_to with
  | None => ret tt
  | Some k =>
      let! reply := query (get messages k) in
      let! reply := some_or reply (not_found "reply target") in
      require (Message.conversation_id reply =? Conversation.id conversation)
        (HTTPException 422 "reply target must be in this conversation")
  end.
Definition forward_source principal (forward : option uuid) : M X (option Message) :=
  match forward with
  | None => ret None
  | Some k =>
      let! forwarded := query (get messages k) in
      let! forwarded := some_or forwarded (not_found "forward source") in
      require (Message.application_id forwarded ==? up_client_id principal) (not_found "forward source") ;;
      let! source := query (get conversations (Message.conversation_id forwarded)) in
      let! source := some_or source (not_found "forward source") in
      require_member source principal ;;
      ret (Some forwarded)
  end.
(** The content of the message, that of the forwarded one where it has none. *)
Record Content : Type := mk_Content { ct_body : string; ct_attachments : Json; ct_data : list (string * Json) }.
Definition content_of (p : MessageCreate) (forwarded : option Message) : Content :=
  let body := strip (mc_body p) in
  let attachments := map dump_attachment (mc_attachments p) in
  match forwarded with
  | None => mk_Content body (JArr attachments) (mc_data p)
  | Some f =>
      mk_Content (str_or body (Message.body f))
        (match attachments with [] => safe_json (Message.attachments_json f) (JArr []) | _ => JArr attachments end)
        (match mc_data p with [] => as_dict (safe_json (Message.data_json f) (JObj [])) | data => data end)
  end.
Definition new_user_message e (conversation_id : uuid) principal (sender : uuid) (p : MessageCreate) (c : Content) (id : uuid) : Message :=
  Message.new_Message id (now e)
    <| Message.conversation_id := conversation_id |> <| Message.application_id := up_client_id principal |>
    <| Message.sender_sub := Some sender |> <| Message.sender_client_id := up_client_id principal |> <| Message.sender_kind := "user" |>
    <| Message.message_type := "chat.message" |> <| Message.version := 1 |> <| Message.priority := mc_priority p |>
    <| Message.body := ct_body c |> <| Message.data_json := compact_raw (JObj (ct_data c)) |>
    <| Message.mentions_json := json_dumps (JArr (map uuid_json (fromkeys (mc_mention_subs p)))) |>
    <| Message.attachments_json := compact_raw (ct_attachments c) |>
    <| Message.reply_to_message_id := mc_reply_to_message_id p |> <| Message.forwarded_from_message_id := mc_forward_message_id p |>
    <| Message.client_message_id := mc_client_message_id p |>.
Definition new_receipt e (message_id sender recipient id : uuid) : MessageReceipt :=
  let own := recipient =? sender in
  MessageReceipt.new_MessageReceipt id (now e)
    <| MessageReceipt.message_id := message_id |> <| MessageReceipt.auth_user_id := recipient |>
    <| MessageReceipt.state := if own then "read" else "accepted" |>
    <| MessageReceipt.delivered_at := if own then Some (now e) else None |>
    <| MessageReceipt.read_at := if own then Some (now e) else None |>.
Definition stamped e (c : Conversation) : Conversation := c <| Conversation.updated_at := now e |>.
(** The checks of [send_message], and the message sent before if there is one. *)
Definition check_message e (conversation : Conversation) (p : MessageCreate) principal (member_ids : list uuid) : M X Content :=
  require (forallb (fun v => v in? member_ids) (mc_mention_subs p)) (HTTPException 422 "mentions must reference conversation members") ;;
  reply_target conversation (mc_reply_to_message_id p) ;;
  let! forwarded := forward_source principal (mc_forward_message_id p) in
  ret (content_of p forwarded).
(** From [db.add(message)] to [db.refresh(message)]: [inl] is a message that
    another request has stored first. *)
Definition store_message e (conversation : Conversation) (p : MessageCreate) principal (sender : uuid) (member_ids : list uuid)
    (content : Content) : M X (Message + Message) :=
  let! message := insert messages e (new_user_message e (Conversation.id conversation) principal sender p content) in
  assign conversations (stamped e) conversation ;;
  except_integrity
    (flush e ;;
     for_each (fun recipient => insert message_receipts e (new_receipt e (Message.id message) sender recipient) ;; ret tt) member_ids ;;
     user_audit e principal sender "message.sent" "message" (Message.id message)
       [("conversation_id", uuid_json (Conversation.id conversation)); ("priority", JStr (Message.priority message))] ;;
     commit e ;;
     let! message := refresh messages message in ret (inr message))
    (fun exc =>
      rollback ;;
      let! existing := sent_before (Conversation.id conversation) (mc_client_message_id p) in
      let! existing := some_or existing exc in ret (inl existing)).
Definition send_message e (conversation_id : uuid) (p : MessageCreate) principal : M X MessageOut :=
  enforce_rate_limit e "chat-send" (subject_text principal) (user_send_rate_limit (settings e)) (user_send_rate_window_seconds (settings e)) ;;
  let! conversation := find_conversation conversation_id in
  require (negb (Conversation.archived conversation)) (not_found "conversation") ;;
  let! member := require_member conversation principal in
  require (ConversationMember.role member !=? "viewer") (HTTPException 403 "viewer cannot send messages") ;;
  let! existing := sent_before (Conversation.id conversation) (mc_client_message_id p) in
  match existing with
  | Some m => lift (message_out m)
  | None =>
      let! member_ids := query (fun s => remove_dups (message_recipients (Conversation.id conversation) s)) in
      let! content := check_message e conversation p principal member_ids in
      let! sender := lift (user_uuid principal) in
      let! stored := store_message e conversation p principal sender member_ids content in
      match stored with
      | inl existing => lift (message_out existing)
      | inr message =>
          emit_message_event e message "chat.message" true
            (Some (match Conversation.title conversation with Some t => str_or t "New message" | None => "New message" end))
            (Some (str_or (Message.body message) "You have a new message")) ;;
          lift (message_out message)
      end
  end.

(** The message an endpoint names, with its conversation and the caller's
    membership. *)
Definition find_message (message_id : uuid) principal (visible : Message -> bool) : M X (Message * Conversation * ConversationMember) :=
  let! message := query (get messages message_id) in
  let! message := some_or message (not_found "message") in
  require ((Message.application_id message ==? up_client_id principal) && visible message) (not_found "message") ;;
  let! conversation := query (get conversations (Message.conversation_id message)) in
  let! conversation := some_or conversation (not_found "message") in
  let! member := require_member conversation principal in
  ret (message, conversation, member).
Definition any_message (_ : Message) : bool := true.
Definition manages (member : ConversationMember) : bool := ConversationMember.role member in? ["owner"; "admin"].
Definition own_or_managed (message : Message) (member : ConversationMember) (actor : uuid) : bool :=
  (Message.sender_sub message ==? Some actor) || manages member.
Definition edited e (p : MessageEditRequest) (m : Message) : Message :=
  let m := m <| Message.body := strip (me_body p) |> <| Message.edited_at := Some (now e) |> in
  match me_data p with Some data => m <| Message.data_json := compact_raw (JObj data) |> | None => m end.
Definition edit_message e (message_id : uuid) (p : MessageEditRequest) principal : M X MessageOut :=
  let! (message, _, member) := find_message message_id principal (fun m => negb (is_some (Message.deleted_at m))) in
  let! actor := lift (user_uuid principal) in
  require (own_or_managed message member actor) (HTTPException 403 "message cannot be edited by this user") ;;
  let! message := assign messages (edited e p) message in
  user_audit e principal actor "message.edited" "message" (Message.id message) [] ;;
  commit e ;;
  let! message := refresh messages message in
  emit_message_event e message "chat.message.edited" false None None ;;
  lift (message_out message).
Definition delete_message e (message_id : uuid) principal : M X unit :=
  let! (message, _, member) := find_message message_id principal any_message in
  let! actor := lift (user_uuid principal) in
  require (own_or_managed message member actor) (HTTPException 403 "message cannot be deleted by this user") ;;
  when negb (is_some (Message.deleted_at message)) then!
    (let! message := assign messages (fun m => m <| Message.deleted_at := Some (now e) |>) message in
     user_audit e principal actor "message.deleted" "message" (Message.id message) [] ;;
     commit e ;;
     emit_message_event e message "chat.message.deleted" false None None).

(** * Receipts *)
Definition own_receipt (message_id user_id : uuid) (r : MessageReceipt) : bool :=
  (MessageReceipt.message_id r =? message_id) && (MessageReceipt.auth_user_id r =? user_id).
Definition first_time (o : option time) (t : time) : option time := match o with Some t0 => Some t0 | None => Some t end.
Definition received_receipt e (r : MessageReceipt) : MessageReceipt :=
  let r := r <| MessageReceipt.delivered_at ::= fun o => first_time o (now e) |> in
  if MessageReceipt.state r ==? "read" then r else r <| MessageReceipt.state := "delivered" |>.
Definition read_receipt e (r : MessageReceipt) : MessageReceipt :=
  r <| MessageReceipt.delivered_at ::= fun o => first_time o (now e) |> <| MessageReceipt.read_at := Some (now e) |>
    <| MessageReceipt.state := "read" |>.
Definition blank_receipt e (message_id user_id id : uuid) : MessageReceipt :=
  MessageReceipt.new_MessageReceipt id (now e)
    <| MessageReceipt.message_id := message_id |> <| MessageReceipt.auth_user_id := user_id |>.
(** The caller's receipt, added if there is none. *)
Definition find_receipt e (message_id user_id : uuid) : M X MessageReceipt :=
  let! receipt := query (scalar message_receipts (own_receipt message_id user_id)) in
  match receipt with Some r => ret r | None => insert message_receipts e (blank_receipt e message_id user_id) end.
Definition mark_last_read (message_id : uuid) (member : ConversationMember) : M X unit :=
  assign conversation_members (fun r => r <| ConversationMember.last_read_message_id := Some message_id |>) member ;; ret tt.
Definition acknowledge_message e (message_id : uuid) (p : ReceiptRequest) principal : M X ReceiptOut :=
  let! (message, conversation, member) := find_message message_id principal any_message in
  let! user_id := lift (user_uuid principal) in
  let! receipt := find_receipt e (Message.id message) user_id in
  let! receipt :=
    if rr_state p ==? "delivered" then assign message_receipts (received_receipt e) receipt
    else
      let! receipt := assign message_receipts (read_receipt e) receipt in
      mark_last_read (Message.id message) member ;; ret receipt in
  let! receipt := assign message_receipts (fun r => r <| MessageReceipt.device_key := rr_device_key p |>) receipt in
  commit e ;;
  emit_to_members e principal conversation "chat.receipt"
    [("message_id", uuid_json (Message.id message)); ("actor_sub", JStr (up_sub principal)); ("state", JStr (MessageReceipt.state receipt))] ;;
  ret (mk_ReceiptOut (Message.id message) user_id (MessageReceipt.state receipt) (MessageReceipt.delivered_at receipt)
    (MessageReceipt.read_at receipt)).
Definition mark_read e (conversation_id message_id : uuid) principal : M X unit :=
  let! conversation := find_conversation conversation_id in
  let! member := require_member conversation principal in
  let! message := query (get messages message_id) in
  let! message := some_or message (not_found "message") in
  require (Message.conversation_id message =? Conversation.id conversation) (not_found "message") ;;
  mark_last_read (Message.id message) member ;;
  let! user_id := lift (user_uuid principal) in
  let! receipt := find_receipt e (Message.id message) user_id in
  assign message_receipts (read_receipt e) receipt ;;
  commit e ;;
  emit_to_members e principal conversation "chat.read"
    [("reader_sub", JStr (up_sub principal)); ("message_id", uuid_json (Message.id message))].

(** * Reactions and pins *)
Definition own_reaction (message_id user_id : uuid) (emoji : string) (r : MessageReaction) : bool :=
  (MessageReaction.message_id r =? message_id) && (MessageReaction.auth_user_id r =? user_id) && (MessageReaction.emoji r ==? emoji).
Definition add_reaction e (message_id : uuid) (emoji : string) principal : M X ReactionOut :=
  let! (message, conversation, _) := find_message message_id principal any_message in
  let! user_id := lift (user_uuid principal) in
  let! reaction := query (scalar message_reactions (own_reaction (Message.id message) user_id emoji)) in
  let! reaction := match reaction with
    | Some r => ret r
    | None =>
        let! r := insert message_reactions e (fun id => MessageReaction.new_MessageReaction id (now e)
          <| MessageReaction.message_id := Message.id message |> <| MessageReaction.auth_user_id := user_id |>
          <| MessageReaction.emoji := emoji |>) in
        commit e ;; refresh message_reactions r
    end in
  emit_to_members e principal conversation "chat.reaction.added"
    [("message_id", uuid_json (Message.id message)); ("actor_sub", JStr (up_sub principal)); ("emoji", JStr emoji)] ;;
  ret (mk_ReactionOut (Message.id message) user_id (MessageReaction.emoji reaction) (MessageReaction.created_at reaction)).
Definition remove_reaction e (message_id : uuid) (emoji : string) principal : M X unit :=
  let! (message, conversation, _) := find_message message_id principal any_message in
  let! user_id := lift (user_uuid principal) in
  delete_where message_reactions (own_reaction (Message.id message) user_id emoji) ;;
  commit e ;;
  emit_to_members e principal conversation "chat.reaction.removed"
    [("message_id", uuid_json (Message.id message)); ("actor_sub", JStr (up_sub principal)); ("emoji", JStr emoji)].
Definition pinned (conversation_id message_id : uuid) (r : ConversationPin) : bool :=
  (ConversationPin.conversation_id r =? conversation_id) && (ConversationPin.message_id r =? message_id).
Definition pin_message e (conversation_id message_id : uuid) principal : M X PinOut :=
  let! conversation := find_conversation conversation_id in
  let! member := require_member conversation principal in
  require (manages member) (HTTPException 403 "only conversation owners/admins can pin") ;;
  let! message := query (get messages message_id) in
  let! message := some_or message (not_found "message") in
  require (Message.conversation_id message =? Conversation.id conversation) (not_found "message") ;;
  let! pin := query (scalar conversation_pins (pinned (Conversation.id conversation) (Message.id message))) in
  let! pin := match pin with
    | Some r => ret r
    | None =>
        let! user_id := lift (user_uuid principal) in
        let! r := insert conversation_pins e (fun id => ConversationPin.new_ConversationPin id (now e)
          <| ConversationPin.conversation_id := Conversation.id conversation |> <| ConversationPin.message_id := Message.id message |>
          <| ConversationPin.pinned_by_sub := Some user_id |>) in
        commit e ;; refresh conversation_pins r
    end in
  emit_to_members e principal conversation "chat.pin.added"
    [("message_id", uuid_json (Message.id message)); ("actor_sub", JStr (up_sub principal))] ;;
  ret (mk_PinOut (Conversation.id conversation) (Message.id message) (ConversationPin.pinned_by_sub pin) (ConversationPin.created_at pin)).
Definition unpin_message e (conversation_id message_id : uuid) principal : M X unit :=
  let! conversation := find_conversation conversation_id in
  let! member := require_member conversation principal in
  require (manages member) (HTTPException 403 "only conversation owners/admins can unpin") ;;
  delete_where conversation_pins (pinned (Conversation.id conversation) message_id) ;;
  commit e ;;
  emit_to_members e principal conversation "chat.pin.removed"
    [("message_id", uuid_json message_id); ("actor_sub", JStr (up_sub principal))].

(** * Activity and presence; [typing] calls [activity] *)
Definition activity e (conversation_id : uuid) (kind state : string) principal : M X unit :=
  enforce_rate_limit e "activity" (subject_text principal) (activity_rate_limit (settings e)) (activity_rate_window_seconds (settings e)) ;;
  let! conversation := find_conversation conversation_id in
  require_member conversation principal ;;
  emit_to_members e principal conversation (texts ["chat."; kind; "."; state]) [("actor_sub", JStr (up_sub principal))].
Definition conversation_presence e (conversation_id : uuid) principal : M X (list PresenceOut) :=
  let! conversation := find_conversation conversation_id in
  require_member conversation principal ;;
  let! members := query (members_of (Conversation.id conversation)) in
  map_each (fun item =>
    let! state := presence e (up_client_id principal) (str_of_uuid (ConversationMember.auth_user_id item)) in
    let last_seen := match truthy_key (pr_last_seen_at state) with Some raw => read_time raw | None => None end in
    ret (mk_PresenceOut (ConversationMember.auth_user_id item) (pr_online state) (pr_connection_count state) (pr_device_keys state) last_seen))
    members.

(** * Events of a user *)
Definition replay e principal (after : option string) (limit : Z) : M X (list EventOut) :=
  let! user_id := lift (user_uuid principal) in
  query (fun s => map (event_out s)
    (replay_events e (up_client_id principal) user_id after (Z.to_nat (Z.min limit (max_replay_page_size (settings e)))) s)).
Definition own_delivery (application_id : string) (event_id user_id : uuid) (s : Session RealtimeDb) (r : EventRecipient) : bool :=
  (EventRecipient.event_id r =? event_id) && (EventRecipient.auth_user_id r =? user_id) &&
  existsb (fun ev => (RealtimeEvent.id ev =? EventRecipient.event_id r) && (RealtimeEvent.application_id ev ==? application_id))
    (realtime_events (sql s)).
Definition event_acknowledged e (state : string) (r : EventRecipient) : EventRecipient :=
  let r := r <| EventRecipient.received_at ::= fun o => first_time o (now e) |> in
  if state ==? "opened" then r <| EventRecipient.opened_at := Some (now e) |> else r.
(** The recipient row, acknowledged, or [None]. *)
Definition record_ack e (application_id : string) (event_id user_id : uuid) (state : string) : M X (option EventRecipient) :=
  let! recipient := query (fun s => scalar event_recipients (own_delivery application_id event_id user_id s) s) in
  match recipient with
  | None => ret None
  | Some r => let! r := assign event_recipients (event_acknowledged e state) r in commit e ;; ret (Some r)
  end.
Definition acknowledge_event e (event_id : uuid) (state : string) principal : M X EventAckOut :=
  let! user_id := lift (user_uuid principal) in
  let! recipient := record_ack e (up_client_id principal) event_id user_id state in
  let! r := some_or recipient (not_found "event") in
  ret (mk_EventAckOut event_id state (EventRecipient.received_at r) (EventRecipient.opened_at r)).
End Service.
