(* ===== verification/RealtimeServer.v ===== *)
(** The realtime service as a server: the endpoints of the products' backends
    and the socket of [app/main.py], what a call of either kind does to the state
    of a process, and the rounds of [app/worker.py]. *)
From S2P Require Import Prelude PyFloat Json Calendar Session Schema WebApi Sha256 Engines RealtimeModels RealtimeCore RealtimeHub RealtimeEvents RealtimeSchemas RealtimeService.
#[local] Open Scope string_scope.
#[local] Open Scope list_scope.
#[local] Open Scope Z_scope.

Section Server.
Context {X : Type} `{RedisServer X, PushGateway X}.
Implicit Types e : Env.

(** * [/v1/platform] *)
Definition platform_create_conversation e (p : ConversationCreate) (principal : ServicePrincipal) : M X ConversationOut :=
  let client_id := sp_client_id principal in
  let! row := create_conversation_row e client_id None p in
  service_audit e client_id "conversation.platform_created" "conversation" (Conversation.id row)
    [("room_key", opt_json (Conversation.room_key row)); ("kind", JStr (Conversation.kind row))] ;;
  commit e ;;
  query (fun s => conversation_out s row).
(** The product's own conversation. *)
Definition own_conversation (conversation_id : uuid) (client_id : string) : M X Conversation :=
  let! conversation := find_conversation conversation_id in
  require (Conversation.application_id conversation ==? client_id) (not_found "conversation") ;;
  ret conversation.
Definition updated_member (m : MemberMutation) (r : ConversationMember) : ConversationMember :=
  let r := match mm_role m with Some role => r <| ConversationMember.role := role |> | None => r end in
  match mm_muted m with Some muted => r <| ConversationMember.muted := muted |> | None => r end.
(** One mutation, against the members there were before all of them. *)
Definition mutate_member e (conversation_id : uuid) (current : list ConversationMember) (m : MemberMutation) : M X unit :=
  let row := List.find (fun r => ConversationMember.auth_user_id r =? mm_auth_user_id m) (rev current) in
  if mm_action m ==? "add" then
    match row with
    | None =>
        insert conversation_members e (new_member e conversation_id (mm_auth_user_id m)
          (match mm_role m with Some role => str_or role "member" | None => "member" end)
          (match mm_muted m with Some muted => muted | None => false end)) ;; ret tt
    | Some _ => ret tt
    end
  else if mm_action m ==? "remove" then
    match row with Some r => delete_row conversation_members r | None => ret tt end
  else
    match row with Some r => assign conversation_members (updated_member m) r ;; ret tt | None => ret tt end.
Definition platform_manage_members e (conversation_id : uuid) (mutations : list MemberMutation) (principal : ServicePrincipal)
    : M X ConversationOut :=
  let client_id := sp_client_id principal in
  let! conversation := own_conversation conversation_id client_id in
  let! current := query (members_of (Conversation.id conversation)) in
  for_each (mutate_member e (Conversation.id conversation) current) mutations ;;
  let! conversation := assign conversations (stamped e) conversation in
  service_audit e client_id "conversation.members_changed" "conversation" (Conversation.id conversation)
    [("changes", JArr (map dump_mutation mutations))] ;;
  commit e ;;
  let! recipients := query (message_recipients (Conversation.id conversation)) in
  emit_ephemeral e client_id recipients "chat.members.updated" [("conversation_id", uuid_json (Conversation.id conversation))] ;;
  query (fun s => conversation_out s conversation).
Definition new_service_message e (conversation_id : uuid) (client_id : string) (p : PlatformConversationEventCreate) (id : uuid) : Message :=
  Message.new_Message id (now e)
    <| Message.conversation_id := conversation_id |> <| Message.application_id := client_id |> <| Message.sender_sub := None |>
    <| Message.sender_client_id := client_id |> <| Message.sender_kind := "service" |> <| Message.message_type := pc_event_type p |>
    <| Message.version := pc_version p |> <| Message.priority := pc_priority p |> <| Message.body := pc_body p |>
    <| Message.data_json := compact_raw (JObj (pc_data p)) |> <| Message.client_message_id := pc_client_message_id p |>.
Definition platform_publish_conversation_event e (conversation_id : uuid) (p : PlatformConversationEventCreate) (principal : ServicePrincipal)
    : M X MessageOut :=
  let client_id := sp_client_id principal in
  let! conversation := own_conversation conversation_id client_id in
  let! existing := sent_before (Conversation.id conversation) (pc_client_message_id p) in
  match existing with
  | Some m => lift (message_out m)
  | None =>
      let! message := insert messages e (new_service_message e (Conversation.id conversation) client_id p) in
      assign conversations (stamped e) conversation ;;
      commit e ;;
      let! message := refresh messages message in
      emit_message_event e message (pc_event_type p) false None None ;;
      lift (message_out message)
  end.
Definition event_spec (p : PlatformEventRequest) (client_id : string) : EventSpec :=
  mk_EventSpec client_id client_id (pe_event_type p) (pe_version p) (pe_priority p) (fromkeys (pe_recipient_subs p))
    [("title", opt_json (pe_title p)); ("body", JStr (pe_body p)); ("route", opt_json (pe_route p)); ("data", JObj (pe_data p))]
    (pe_ttl_seconds p) (pe_deliver_at p) (pe_push p) (pe_broadcast_connected p) (pe_audience_label p) (pe_idempotency_key p).
(** [except EventConflict as exc: raise HTTPException(409, str(exc))] *)
Definition conflict_409 {A} (m : M X A) : M X A :=
  catch m (fun x => match x with Prelude.EventConflict msg => raise (HTTPException 409 msg) | _ => raise x end).
Definition platform_publish_event e (p : PlatformEventRequest) (principal : ServicePrincipal) : M X EventOut :=
  let client_id := sp_client_id principal in
  let broadcast := starts "broadcast." (pe_event_type p) in
  require (negb (broadcast && ("realtime.broadcast" notin? sp_scopes principal))) (HTTPException 403 "realtime.broadcast scope required") ;;
  enforce_rate_limit e "service-publish" client_id (service_publish_rate_limit (settings e)) (service_publish_rate_window_seconds (settings e)) ;;
  let spec := event_spec p client_id in
  require (zlen (es_recipients spec) <=? max_event_recipients (settings e)) (HTTPException 422 "event recipient limit exceeded") ;;
  let! event := conflict_409 (queue_event e spec) in
  service_audit e client_id (if broadcast then "broadcast.queued" else "event.queued") "event" (RealtimeEvent.id event)
    [("event_type", JStr (pe_event_type p)); ("recipient_count", JInt (zlen (es_recipients spec)));
     ("audience_label", opt_json (pe_audience_label p)); ("broadcast_connected", JBool (pe_broadcast_connected p));
     ("scheduled", JBool (is_some (pe_deliver_at p)))] ;;
  commit e ;;
  let! event := if RealtimeEvent.status event ==? "queued" then deliver_event e event else ret event in
  query (fun s => event_out s event).
Definition platform_event_status (event_id : uuid) (principal : ServicePrincipal) : M X EventOut :=
  let! event := query (get realtime_events event_id) in
  let! event := some_or event (not_found "event") in
  require (RealtimeEvent.application_id event ==? sp_client_id principal) (not_found "event") ;;
  query (fun s => event_out s event).
Definition platform_metrics e (principal : ServicePrincipal) : M X (list (string * Z) * list (string * Z)) :=
  let! socket := hub_metrics e in
  let! events := query (pending_or_dead_counts (sp_client_id principal)) in
  ret (socket, events).
Definition platform_audit (principal : ServicePrincipal) (limit : Z) : M X (list AuditOut) :=
  let! rows := query (fun s => take (Z.to_nat limit) (select_ordered audit_events (desc AuditEvent.created_at)
    (fun r => AuditEvent.application_id r ==? sp_client_id principal) s)) in
  map_each (fun r => lift (audit_out r)) rows.

(** * The server *)
Inductive Call : Type :=
| GetConversations (credentials : option string)
| PostConversation (credentials : option string) (p : ConversationCreate)
| GetMessages (credentials : option string) (conversation_id : uuid) (before : option time) (limit : Z)
| PostMessage (credentials : option string) (conversation_id : uuid) (p : MessageCreate)
| PatchMessage (credentials : option string) (message_id : uuid) (p : MessageEditRequest)
| DeleteMessage (credentials : option string) (message_id : uuid)
| PostReceipt (credentials : option string) (message_id : uuid) (p : ReceiptRequest)
| PostRead (credentials : option string) (conversation_id message_id : uuid)
| PutReaction (credentials : option string) (message_id : uuid) (emoji : string)
| DeleteReaction (credentials : option string) (message_id : uuid) (emoji : string)
| PutPin (credentials : option string) (conversation_id message_id : uuid)
| DeletePin (credentials : option string) (conversation_id message_id : uuid)
| PostActivity (credentials : option string) (conversation_id : uuid) (kind state : string)
| GetPresence (credentials : option string) (conversation_id : uuid)
| GetReplay (credentials : option string) (after : option string) (limit : Z)
| PostEventAck (credentials : option string) (event_id : uuid) (state : string)
| PlatformConversations (credentials : option string) (p : ConversationCreate)
| PlatformMembers (credentials : option string) (conversation_id : uuid) (members : list MemberMutation)
| PlatformConversationEvents (credentials : option string) (conversation_id : uuid) (p : PlatformConversationEventCreate)
| PlatformEvents (credentials : option string) (p : PlatformEventRequest)
| PlatformEventStatus (credentials : option string) (event_id : uuid)
| PlatformMetrics (credentials : option string)
| PlatformAudit (credentials : option string) (limit : Z).
Inductive Reply : Type :=
| ConversationsReply (r : list ConversationOut)
| ConversationReply (r : ConversationOut)
| MessagesReply (r : list MessageOut)
| MessageReply (r : MessageOut)
| ReceiptReply (r : ReceiptOut)
| ReactionReply (r : ReactionOut)
| PinReply (r : PinOut)
| PresenceReply (r : list PresenceOut)
| EventsReply (r : list EventOut)
| EventReply (r : EventOut)
| AckReply (r : EventAckOut)
| MetricsReply (socket events : list (string * Z))
| AuditReply (r : list AuditOut)
| Accepted.

Context `{Providers}.
(** [Depends(user_principal)] and [Depends(_service(scope))], then the body. *)
Definition as_user {A} e (credentials : option string) (valid : bool) (mk : A -> Reply) (m : UserPrincipal -> M X A) : M X Reply :=
  let! principal := lift (user_principal e credentials) in
  lift (validated valid) ;;
  let! a := m principal in ret (mk a).
Definition as_service {A} e (scope : string) (credentials : option string) (valid : bool) (mk : A -> Reply)
    (m : ServicePrincipal -> M X A) : M X Reply :=
  let! principal := lift (service_principal e scope credentials) in
  lift (validated valid) ;;
  let! a := m principal in ret (mk a).
Definition done_ (_ : unit) : Reply := Accepted.
Definition endpoint e (c : Call) : M X Reply :=
  match c with
  | GetConversations cr => as_user e cr true ConversationsReply list_conversations
  | PostConversation cr p => as_user e cr (valid_ConversationCreate p) ConversationReply (create_conversation e p)
  | GetMessages cr k before limit => as_user e cr (1 <=? limit) MessagesReply (fun u => list_messages e k u before limit)
  | PostMessage cr k p => as_user e cr (valid_MessageCreate p) MessageReply (send_message e k p)
  | PatchMessage cr k p => as_user e cr (valid_MessageEditRequest p) MessageReply (edit_message e k p)
  | DeleteMessage cr k => as_user e cr true done_ (delete_message e k)
  | PostReceipt cr k p => as_user e cr (valid_ReceiptRequest p) ReceiptReply (acknowledge_message e k p)
  | PostRead cr k m => as_user e cr true done_ (mark_read e k m)
  | PutReaction cr k emoji => as_user e cr (text_between 1 32 emoji) ReactionReply (add_reaction e k emoji)
  | DeleteReaction cr k emoji => as_user e cr true done_ (remove_reaction e k emoji)
  | PutPin cr k m => as_user e cr true PinReply (pin_message e k m)
  | DeletePin cr k m => as_user e cr true done_ (unpin_message e k m)
  | PostActivity cr k kind state => as_user e cr (valid_activity kind state) done_ (activity e k kind state)
  | GetPresence cr k => as_user e cr true PresenceReply (conversation_presence e k)
  | GetReplay cr after limit => as_user e cr (opt_max 64 after && (1 <=? limit)) EventsReply (fun u => replay e u after limit)
  | PostEventAck cr k state => as_user e cr (valid_ack state) AckReply (acknowledge_event e k state)
  | PlatformConversations cr p =>
      as_service e "realtime.manage" cr (valid_ConversationCreate p) ConversationReply (platform_create_conversation e p)
  | PlatformMembers cr k members =>
      as_service e "realtime.manage" cr (valid_MemberMutationRequest members) ConversationReply (platform_manage_members e k members)
  | PlatformConversationEvents cr k p =>
      as_service e "realtime.publish" cr (valid_PlatformConversationEventCreate p) MessageReply (platform_publish_conversation_event e k p)
  | PlatformEvents cr p => as_service e "realtime.publish" cr (valid_PlatformEventRequest p) EventReply (platform_publish_event e p)
  | PlatformEventStatus cr k => as_service e "realtime.publish" cr true EventReply (platform_event_status k)
  | PlatformMetrics cr => as_service e "realtime.metrics" cr true (fun r => MetricsReply (fst r) (snd r)) (platform_metrics e)
  | PlatformAudit cr limit => as_service e "realtime.metrics" cr (between 1 500 limit) AuditReply (fun u => platform_audit u limit)
  end.

(** * The socket *)

(** [websocket_endpoint] from the first frame to the replay: a connection is
    open, or the socket is closed. *)
Definition receive_get (frame : Json) (k : string) : result Json := item_get k frame.
Definition ws_authenticate e (socket : Z) (frame : Json) : M X (option UserPrincipal) :=
  let! type := lift (receive_get frame "type") in
  let! access_token := lift (receive_get frame "access_token") in
  match is_str "auth" type, access_token with
  | true, JStr access_token =>
      match (let* principal := verify_user e access_token in let* _ := ensure_enabled e (up_client_id principal) in Ok principal) with
      | Ok principal => ret (Some principal)
      | Err _ => send socket (Close 4401 "invalid or disabled central auth token") ;; ret None
      end
  | _, _ => send socket (Close 4401 "authentication frame required") ;; ret None
  end.
Definition ready_frame e principal (connection_id : string) : list (string * Json) := [
  ("type", JStr "ready"); ("version", JInt 2); ("application_id", JStr (up_client_id principal)); ("sub", JStr (up_sub principal));
  ("connection_id", JStr connection_id); ("heartbeat_seconds", JInt (Z.max 15 (websocket_presence_ttl_seconds (settings e) / 2)));
  ("replay_endpoint", JStr "/v1/events/replay")].
Definition ws_replay e (socket : Z) principal (after : Json) : M X unit :=
  match after with
  | JStr after =>
      if negb (str_truthy after) then ret tt
      else
        let! user_id := lift (uuid_of_str (up_sub principal)) in
        let! rows := query (fun s => map (fun r => (r, recipients_of (RealtimeEvent.id r) s))
          (replay_events e (up_client_id principal) user_id (Some after) (Z.to_nat (max_replay_page_size (settings e))) s)) in
        for_each (fun '(event, recipients) =>
          send_json socket [("type", JStr "replay"); ("event", JObj (event_wire event recipients))]) rows
  | _ => ret tt
  end.
(** [try: m; ... finally: await hub.disconnect(...)] when [m] raises. *)
Definition or_disconnect {A} e principal (connection_id : string) (m : M X A) : M X A :=
  catch m (fun x => disconnect e (up_client_id principal) (up_sub principal) connection_id ;; raise x).
Definition ws_open e (socket : Z) (frame : Json) : M X (option (UserPrincipal * string)) :=
  let! user := ws_authenticate e socket frame in
  match user with
  | None => ret None
  | Some principal =>
      let! requested := lift (receive_get frame "device_key") in
      let! legacy := if truthy requested then ret EmptyString else let! u := draw e in ret (texts ["legacy:"; str_of_uuid u]) in
      let key := if truthy requested then py_str requested else legacy in
      if 200 <? str_len key then send socket (Close 4400 "device_key is too long") ;; ret None
      else
        let! connected := connect e (up_client_id principal) (up_sub principal) socket key in
        match connected with
        | inl msg => send socket (Close 4429 msg) ;; ret None
        | inr connection_id =>
            or_disconnect e principal connection_id (
              send_json socket (ready_frame e principal connection_id) ;;
              let! after := lift (receive_get frame "after") in
              ws_replay e socket principal after) ;;
            ret (Some (principal, connection_id))
        end
  end.
Definition ws_error (socket : Z) (detail : string) : M X unit := send_json socket [("type", JStr "error"); ("detail", JStr detail)].
(** One turn of the loop. *)
Definition ws_frame e (socket : Z) principal (connection_id : string) (frame : Json) : M X unit :=
  or_disconnect e principal connection_id (
    let! type := lift (receive_get frame "type") in
    if is_str "ping" type then
      refresh_presence e (up_client_id principal) (up_sub principal) connection_id ;;
      send_json socket [("type", JStr "pong"); ("connection_id", JStr connection_id)]
    else
      match is_str "ack" type, receive_get frame "event_id" with
      | true, Ok (JStr text) =>
          match uuid_of_str text with
          | Err _ => ws_error socket "invalid event_id"
          | Ok event_id =>
              let! state := lift (receive_get frame "state") in
              match state with
              | JStr state =>
                  if negb (valid_ack state) then ws_error socket "ack state must be received or opened"
                  else
                    let! user_id := lift (uuid_of_str (up_sub principal)) in
                    let! recipient := record_ack e (up_client_id principal) event_id user_id state in
                    match recipient with
                    | None => ws_error socket "event not found"
                    | Some _ =>
                        send_json socket [("type", JStr "ack.accepted"); ("event_id", uuid_json event_id); ("state", JStr state)]
                    end
              | JArr _ | JObj _ => raise (TypeError "unhashable type")
              | _ => ws_error socket "ack state must be received or opened"
              end
          end
      | _, _ => ws_error socket "use REST endpoints for persistent commands; socket accepts ping and event acknowledgements"
      end).
(** The socket is closed by the client, or after [websocket_idle_timeout_seconds]. *)
Definition ws_close e (socket : Z) principal (connection_id : string) (timed_out : bool) : M X unit :=
  when timed_out then! send socket (Close 4408 "heartbeat timeout") ;;
  disconnect e (up_client_id principal) (up_sub principal) connection_id.

(** * A process *)

(** What it is asked to do: a request, a frame on a socket, an item of its
    subscription, a round of the worker. *)
Inductive Job : Type :=
| Request (c : Call)
| Opening (socket : Z) (frame : Json)
| Incoming (socket : Z) (principal : UserPrincipal) (connection_id : string) (frame : Json)
| Closing (socket : Z) (principal : UserPrincipal) (connection_id : string) (timed_out : bool)
| Item (data : string)
| Round.
Inductive Outcome : Type :=
| Replied (r : Reply)
| Opened (c : option (UserPrincipal * string))
| Finished.
Definition job e (j : Job) : M X Outcome :=
  match j with
  | Request c => let! r := endpoint e c in ret (Replied r)
  | Opening socket frame => let! c := ws_open e socket frame in ret (Opened c)
  | Incoming socket principal connection_id frame => ws_frame e socket principal connection_id frame ;; ret Finished
  | Closing socket principal connection_id timed_out => ws_close e socket principal connection_id timed_out ;; ret Finished
  | Item data => on_message e data ;; ret Finished
  | Round => process_due_events e 100 ;; ret Finished
  end.
(** It runs on a session of its own; [credit] is how far the process gets, a
    killed process having lost its sockets and its cached token. *)
Definition start (credit_ : option nat) (w : World X) : World X :=
  w <| session := open_session (committed w) |> <| drawn := 0%nat |> <| credit := credit_ |>.
Definition no_token : CachedToken := mk_CachedToken EmptyString 0.
Definition serve e (credit_ : option nat) (j : Job) (w : World X) : option (result Outcome) * World X :=
  match job e j (start credit_ w) with
  | (None, w) => (None, w <| connections := [] |> <| token := no_token |>)
  | r => r
  end.
End Server.
