(* ===== verification/RealtimeFacts.v ===== *)
(** Facts the proofs about the realtime service share: what its schema
    guarantees, and a logic for its computations: a triple for an invariant of
    the running session and a relation between the databases it commits. *)
From S2P Require Import Prelude PyFloat Json Calendar Session Schema WebApi Sha256 Engines RealtimeModels RealtimeCore RealtimeHub RealtimeEvents RealtimeSchemas RealtimeService RealtimeServer.
#[local] Open Scope string_scope.
#[local] Open Scope list_scope.
#[local] Open Scope Z_scope.

(** * The schema *)
Record schema (d : RealtimeDb) : Prop := {
  sc_valid : valid_rows d = true;
  sc_conversations : NoDup (keys (conversations d));
  sc_members : NoDup (keys (conversation_members d));
  sc_messages : NoDup (keys (messages d));
  sc_receipts : NoDup (keys (message_receipts d));
  sc_reactions : NoDup (keys (message_reactions d));
  sc_pins : NoDup (keys (conversation_pins d));
  sc_events : NoDup (keys (realtime_events d));
  sc_recipients : NoDup (keys (event_recipients d));
  sc_audits : NoDup (keys (audit_events d));
  sc_room : NoDup (flat_map room (conversations d));
  sc_membership : NoDup (map membership (conversation_members d));
  sc_client_message : NoDup (flat_map client_message (messages d));
  sc_receipt : NoDup (map receipt_of (message_receipts d));
  sc_reaction : NoDup (map reaction_of (message_reactions d));
  sc_pin : NoDup (map pin_of (conversation_pins d));
  sc_cursor : NoDup (map RealtimeEvent.cursor (realtime_events d));
  sc_event_key : NoDup (flat_map event_key (realtime_events d));
  sc_recipient : NoDup (map recipient_of (event_recipients d));
  sc_fk_member : forall k, k ∈ map ConversationMember.conversation_id (conversation_members d) -> k ∈ keys (conversations d);
  sc_fk_message : forall k, k ∈ map Message.conversation_id (messages d) -> k ∈ keys (conversations d);
  sc_fk_reply : forall k, k ∈ (flat_map (fun r => opt_list (Message.reply_to_message_id r)) (messages d)) -> k ∈ keys (messages d);
  sc_fk_forward : forall k, k ∈ (flat_map (fun r => opt_list (Message.forwarded_from_message_id r)) (messages d)) -> k ∈ keys (messages d);
  sc_fk_receipt : forall k, k ∈ map MessageReceipt.message_id (message_receipts d) -> k ∈ keys (messages d);
  sc_fk_reaction : forall k, k ∈ map MessageReaction.message_id (message_reactions d) -> k ∈ keys (messages d);
  sc_fk_pin : forall k, k ∈ map ConversationPin.conversation_id (conversation_pins d) -> k ∈ keys (conversations d);
  sc_fk_pinned : forall k, k ∈ map ConversationPin.message_id (conversation_pins d) -> k ∈ keys (messages d);
  sc_fk_recipient : forall k, k ∈ map EventRecipient.event_id (event_recipients d) -> k ∈ keys (realtime_events d)
}.
Lemma schema_checked d : check_schema d = Ok tt <-> schema d.
Proof.
  split.
  - unfold check_schema. destruct (valid_rows d) eqn:Hv; [|done]. intros H.
    do 18 (apply rbind_ok in H as (? & ?%unique_column_ok & H)).
    do 8 (apply rbind_ok in H as (? & ?H & H)). constructor; eauto using foreign_key_ok.
  - intros []. unfold check_schema. rewrite sc_valid0.
    do 18 (apply rbind_ok; exists tt; split; [by apply unique_column_intro|]).
    do 8 (apply rbind_ok; exists tt; split; [by apply foreign_key_intro|]). by apply foreign_key_intro.
Qed.
Lemma check_schema_tt d u : check_schema d = Ok u -> schema d.
Proof. destruct u. apply schema_checked. Qed.

(** * The triple *)
Section Triple.
Context {X : Type} (Inv : World X -> Prop) (Out : World X -> World X -> Prop).
Context (Out_refl : forall w, Inv w -> Out w w) (Out_trans : forall w1 w2 w3, Out w1 w2 -> Out w2 w3 -> Out w1 w3).

(** From a state of the invariant, [m] ends where [Out] leads in any case, and
    when it returns, in a state of the invariant that satisfies [Q]. *)
Definition triple {A} (P : World X -> Prop) (m : M X A) (Q : A -> World X -> Prop) : Prop :=
  forall w, Inv w -> P w -> Out w (snd (m w)) /\
    forall a, fst (m w) = Some (Ok a) -> Inv (snd (m w)) /\ Q a (snd (m w)).
Definition anywhere (_ : World X) : Prop := True.
Definition anything {A} (_ : A) (_ : World X) : Prop := True.
(** It keeps the invariant, and nothing else matters. *)
Definition keeps {A} (m : M X A) : Prop := triple anywhere m anything.

Lemma triple_bind {A B} P (m : M X A) Q (k : A -> M X B) R :
  triple P m Q -> (forall a, triple (Q a) (k a) R) -> triple P (bind m k) R.
Proof.
  intros Hm Hk w Hw HP. destruct (Hm w Hw HP) as [Ho Hq]. unfold bind.
  destruct (m w) as [[[a|x]|] w1]; cbn [fst snd] in *; [|by split..].
  destruct (Hq a eq_refl) as [Hi HQ]. destruct (Hk a w1 Hi HQ) as [Ho' Hq']. split; [by eapply Out_trans|done].
Qed.
Lemma triple_weaken {A} (P P' : World X -> Prop) (m : M X A) (Q Q' : A -> World X -> Prop) :
  (forall w, Inv w -> P' w -> P w) -> (forall a w, Inv w -> Q a w -> Q' a w) -> triple P m Q -> triple P' m Q'.
Proof. intros HP HQ Hm w Hw Hp. destruct (Hm w Hw (HP w Hw Hp)) as [Ho Hq]. split; [done|]. intros a Ha. destruct (Hq a Ha). auto. Qed.
Lemma triple_case {A} (P : World X -> Prop) (m : M X A) Q : (forall w, Inv w -> P w -> triple (eq w) m Q) -> triple P m Q.
Proof. intros Hm w Hw Hp. by apply (Hm w Hw Hp). Qed.
Lemma triple_still {A} P (m : M X A) Q : (forall w, snd (m w) = w) ->
  (forall w a, Inv w -> P w -> fst (m w) = Some (Ok a) -> Q a w) -> triple P m Q.
Proof. intros Hs HQ w Hw HP. rewrite Hs. split; [by apply Out_refl|]. intros a Ha. split; [done|]. by apply HQ. Qed.
Lemma triple_ret {A} (P : World X -> Prop) (a : A) (Q : A -> World X -> Prop) : (forall w, Inv w -> P w -> Q a w) -> triple P (ret a) Q.
Proof. intros HQ. apply triple_still; [done|]. intros w b Hw HP [= <-]. auto. Qed.
Lemma triple_raise {A} P x (Q : A -> World X -> Prop) : triple P (raise x) Q.
Proof. by apply triple_still. Qed.
Lemma triple_lift {A} (P : World X -> Prop) (r : result A) (Q : A -> World X -> Prop) :
  (forall a w, r = Ok a -> Inv w -> P w -> Q a w) -> triple P (lift r) Q.
Proof. intros HQ. apply triple_still; [done|]. intros w a Hw HP [= E]. by apply HQ. Qed.
Lemma triple_query {A} (P : World X -> Prop) (f : Session RealtimeDb -> A) (Q : A -> World X -> Prop) :
  (forall w, Inv w -> P w -> Q (f (session w)) w) -> triple P (query f) Q.
Proof. intros HQ. apply triple_still; [done|]. intros w a Hw HP [= <-]. auto. Qed.
Lemma triple_require (P : World X -> Prop) b x (Q : unit -> World X -> Prop) :
  (b = true -> forall w, Inv w -> P w -> Q tt w) -> triple P (require b x) Q.
Proof. intros HQ. destruct b; [by apply triple_ret, HQ|apply triple_raise]. Qed.
Lemma triple_some_or {A} (P : World X -> Prop) (o : option A) x (Q : A -> World X -> Prop) :
  (forall a, o = Some a -> forall w, Inv w -> P w -> Q a w) -> triple P (some_or o x) Q.
Proof. intros HQ. destruct o; [by apply triple_ret, HQ|apply triple_raise]. Qed.
Lemma triple_for_each {A} (P : World X -> Prop) (f : A -> M X unit) l :
  (forall x, x ∈ l -> triple P (f x) (fun _ => P)) -> triple P (for_each f l) (fun _ => P).
Proof.
  induction l as [|x l IH]; intros Hf; cbn [for_each]; [by apply triple_ret|].
  apply triple_bind with (fun _ => P); [apply Hf; left|intros []; apply IH; intros y Hy; apply Hf; by right].
Qed.
Lemma triple_map_each {A B} (P : World X -> Prop) (f : A -> M X B) l (R : B -> Prop) :
  (forall x, x ∈ l -> triple P (f x) (fun b w => P w /\ R b)) -> triple P (map_each f l) (fun bs w => P w /\ Forall R bs).
Proof.
  induction l as [|x l IH]; intros Hf; cbn [map_each]; [by apply triple_ret|].
  apply triple_bind with (fun b w => P w /\ R b); [apply Hf; left|]. intros b. apply triple_case. intros w0 _ [Hp Hr].
  eapply triple_weaken with (P := P); [by intros ? _ <-|intros a w _ Hx; exact Hx|].
  apply triple_bind with (fun bs w => P w /\ Forall R bs); [apply IH; intros y Hy; apply Hf; by right|].
  intros bs. apply triple_ret. intros w _ [Hw HR]. by constructor; [|constructor].
Qed.
Lemma triple_catch {A} P (m : M X A) (h : exn -> M X A) (Q : A -> World X -> Prop) :
  triple P m Q ->
  (forall x w w', Inv w -> P w -> Out w w' -> Out w (snd (h x w')) /\
     forall a, fst (h x w') = Some (Ok a) -> Inv (snd (h x w')) /\ Q a (snd (h x w'))) ->
  triple P (catch m h) Q.
Proof.
  intros Hm Hh w Hw HP. destruct (Hm w Hw HP) as [Ho Hq]. unfold catch.
  destruct (m w) as [[[a|x]|] w1]; cbn [fst snd] in *; [by split|by apply Hh|by split].
Qed.
End Triple.

(** * Computations and a table *)

(** Nothing is committed, and the session keeps the rows of the table. *)
Section Offline.
Context {X R : Type} (T : RealtimeDb -> list R).
Definition offline {A} (m : M X A) : Prop := forall w,
  committed (snd (m w)) = committed w /\ T (sql (session (snd (m w)))) = T (sql (session w)) /\
  T (mem (session (snd (m w)))) = T (mem (session w)).
Lemma offline_bind {A B} (m : M X A) (k : A -> M X B) : offline m -> (forall a, offline (k a)) -> offline (bind m k).
Proof.
  intros Hm Hk w. destruct (Hm w) as (H1 & H2 & H3). unfold bind. destruct (m w) as [[[a|x]|] w1]; cbn [fst snd] in *; [|by split_and!..].
  destruct (Hk a w1) as (H4 & H5 & H6). rewrite H4, H5, H6. by split_and!.
Qed.
Lemma offline_still {A} (m : M X A) : (forall w, snd (m w) = w) -> offline m.
Proof. intros Hm w. by rewrite Hm. Qed.
Lemma offline_catch {A} (m : M X A) h : offline m -> (forall x, offline (h x)) -> offline (catch m h).
Proof.
  intros Hm Hh w. destruct (Hm w) as (H1 & H2 & H3). unfold catch. destruct (m w) as [[[a|x]|] w1]; cbn [fst snd] in *; [by split_and!| |by split_and!].
  destruct (Hh x w1) as (H4 & H5 & H6). rewrite H4, H5, H6. by split_and!.
Qed.
Lemma offline_at {A} (m : World X -> M X A) : (forall w, offline (m w)) -> offline (fun w => m w w).
Proof. intros Hm w. apply Hm. Qed.
Lemma offline_tick : offline (@tick X).
Proof. intros w. unfold tick. by destruct (credit w) as [[]|]. Qed.
Lemma offline_call {A} (f : X -> result A * X) : offline (call f).
Proof. apply offline_bind; [apply offline_tick|done]. Qed.
Lemma offline_for_each {A} (f : A -> M X unit) l : (forall x, offline (f x)) -> offline (for_each f l).
Proof. intros Hf. induction l; cbn [for_each]; [done|]. by apply offline_bind. Qed.
Lemma offline_map_each {A B} (f : A -> M X B) l : (forall x, offline (f x)) -> offline (map_each f l).
Proof. intros Hf. induction l; cbn [map_each]; [done|]. apply offline_bind; [done|intros]. by apply offline_bind. Qed.
Lemma offline_read_presence `{RedisServer X} e ks : offline (read_presence e ks).
Proof. induction ks; cbn [read_presence]; [done|]. apply offline_bind; [apply offline_call|intros]. by apply offline_bind. Qed.
End Offline.
Create HintDb offline.
#[export] Hint Resolve offline_tick offline_call offline_read_presence : offline.

(** One step along the structure of a computation; a defined one is unfolded. *)
Ltac head_of t := lazymatch t with ?f _ => head_of f | _ => t end.
Ltac offline_step :=
  cbv zeta;
  lazymatch goal with
  | |- offline _ (bind _ _) => apply offline_bind; [|intros ?]
  | |- offline _ (catch _ _) => apply offline_catch; [|intros ?]
  | |- offline _ (for_each _ _) => apply offline_for_each; intros ?
  | |- offline _ (map_each _ _) => apply offline_map_each; intros ?
  | |- offline _ (ret _) => by apply offline_still
  | |- offline _ (raise _) => by apply offline_still
  | |- offline _ (lift _) => by apply offline_still
  | |- offline _ (query _) => by apply offline_still
  | |- offline _ (match ?x with _ => _ end) => destruct x
  | |- offline _ (fun w => _) => intros ?w; cbv beta; repeat case_match
  | |- committed (snd (?c ?w)) = _ /\ ?T (sql _) = _ /\ _ => refine ((_ : offline T c) w)
  | |- offline _ ?m => first [solve [auto 2 with offline] | let h := head_of m in unfold h]
  end.
Ltac offline := repeat first [offline_step | by intros ?w | by split_and!].
