(* ===== verification/RealtimeDelivery.v ===== *)
(** The life of a durable event: how the events of the database evolve under
    every job of a process, killed or not, and what the worker's rounds bring
    about. *)
From S2P Require Import Prelude PyFloat Json JsonFacts Calendar Session Schema WebApi Sha256 Engines RealtimeModels RealtimeCore RealtimeHub RealtimeEvents RealtimeSchemas RealtimeService RealtimeServer RealtimeFacts.
#[local] Open Scope string_scope.
#[local] Open Scope list_scope.
#[local] Open Scope Z_scope.

(** * The states of an event *)
Definition pending (r : RealtimeEvent) : bool := RealtimeEvent.status r in? ["queued"; "scheduled"; "retry"].
(** Its attempts are within bounds, and its status says what has happened. *)
Definition event_ok (r : RealtimeEvent) : bool :=
  let attempts := RealtimeEvent.attempts r in
  let most := RealtimeEvent.max_attempts r in
  let status := RealtimeEvent.status r in
  if pending r || (status ==? "expired") then (0 <=? attempts) && (attempts <? most)
  else if status ==? "publishing" then (1 <=? attempts) && (attempts <=? most)
  else if status ==? "delivered" then (1 <=? attempts) && (attempts <=? most) && is_some (RealtimeEvent.delivered_at r)
  else (status ==? "dead_letter") && (1 <=? attempts) && (attempts =? most) && is_some (RealtimeEvent.last_error r).
(** [event_ok] of an event whose status is known. *)
Ltac event_ok :=
  unfold event_ok, pending; cbn -[char_take];
  repeat match goal with |- context [?a ==? ?b] => let v := eval vm_compute in (a ==? b) in change (a ==? b) with v end;
  cbn [orb andb]; rewrite ?andb_true_r, ?andb_true_iff, ?Z.leb_le, ?Z.ltb_lt, ?Z.eqb_eq; lia.
(** What of an event never changes. *)
Definition core (r : RealtimeEvent) : RealtimeEvent :=
  r <| RealtimeEvent.status := EmptyString |> <| RealtimeEvent.attempts := 0 |> <| RealtimeEvent.last_error := None |>
    <| RealtimeEvent.deliver_at := 0 |> <| RealtimeEvent.delivered_at := None |>.
(** An event goes on while it is pending or being published; then it is final. *)
Definition publishes (r : RealtimeEvent) : bool := RealtimeEvent.status r ==? "publishing".
Definition event_le (r r' : RealtimeEvent) : Prop :=
  if pending r || publishes r then core r' = core r /\ RealtimeEvent.attempts r <= RealtimeEvent.attempts r' else r' = r.
Lemma event_le_refl r : event_le r r.
Proof. unfold event_le. by case_match. Qed.
Lemma event_le_trans r1 r2 r3 : event_le r1 r2 -> event_le r2 r3 -> event_le r1 r3.
Proof.
  unfold event_le. destruct (pending r1 || publishes r1) eqn:E; [|by intros ->; rewrite E]. intros [E1 L1].
  destruct (pending r2 || publishes r2); [|by intros ->; split]. intros [E2 L2]. split; [congruence|lia].
Qed.
Lemma event_le_key r r' : event_le r r' -> key r' = key r.
Proof. unfold event_le. case_match; [|by intros ->]. intros [E _]. exact (f_equal RealtimeEvent.id E). Qed.

Lemma event_ok_bounds r : event_ok r = true -> 0 <= RealtimeEvent.attempts r <= RealtimeEvent.max_attempts r.
Proof. unfold event_ok. cbv zeta. repeat case_match; rewrite ?andb_true_iff, ?Z.leb_le, ?Z.ltb_lt, ?Z.eqb_eq; lia. Qed.
Lemma final_not_open r : RealtimeEvent.status r in? ["delivered"; "expired"; "dead_letter"] = true -> pending r || publishes r = false.
Proof.
  intros Hs%in_elem. unfold pending, publishes.
  assert (RealtimeEvent.status r = "delivered" \/ RealtimeEvent.status r = "expired" \/ RealtimeEvent.status r = "dead_letter") as [->|[->| ->]] by set_solver; done.
Qed.

Definition log_le (l l' : list RealtimeEvent) : Prop := forall r, r ∈ l -> exists r', r' ∈ l' /\ event_le r r'.
#[export] Instance log_le_preorder : PreOrder log_le.
Proof.
  split.
  - intros l r Hr. exists r. split; [done|apply event_le_refl].
  - intros l1 l2 l3 H12 H23 r Hr. destruct (H12 r Hr) as (r2 & Hr2 & L2). destruct (H23 r2 Hr2) as (r3 & Hr3 & L3).
    exists r3. split; [done|]. by eapply event_le_trans.
Qed.
Lemma log_le_app l k : log_le l (l ++ k).
Proof. intros r Hr. exists r. split; [apply elem_of_app; by left|apply event_le_refl]. Qed.
Lemma log_le_put event r' l : NoDup (keys l) -> event ∈ l -> event_le event r' -> log_le l (put_row r' l).
Proof.
  intros Hn He Hle r Hr. pose proof (event_le_key _ _ Hle) as Hk. bdestruct (key r =? key event).
  - rewrite (key_inj l r event) in * by done. exists r'. split; [|done]. apply put_row_in. rewrite Hk. by apply list_elem_of_fmap_2.
  - exists r. split; [|apply event_le_refl]. unfold put_row. apply list_elem_of_fmap. exists r. split; [|done].
    rewrite Hk. by rewrite (proj2 (Z.eqb_neq _ _)).
Qed.

(** * The session between two commits *)
Definition events {X} (w : World X) : list RealtimeEvent := realtime_events (committed w).
Definition log_ok (l : list RealtimeEvent) : Prop := Forall (fun r => event_ok r = true) l.

(** [frozen]: events that were being published when the job began. *)
Section Life.
Context {X : Type} `{RedisServer X, PushGateway X}.
Context (frozen : list RealtimeEvent) (Hfrozen : forall r, r ∈ frozen -> publishes r = true).

Record settled (w : World X) : Prop := {
  st_schema : schema (committed w);
  st_ok : log_ok (events w);
  st_sql : realtime_events (sql (session w)) = events w;
  st_mem : realtime_events (mem (session w)) = events w;
  st_frozen : frozen ⊆ events w
}.
Record goes (w w' : World X) : Prop := {
  go_schema : schema (committed w');
  go_ok : log_ok (events w');
  go_log : log_le (events w) (events w');
  go_frozen : frozen ⊆ events w'
}.
Lemma settled_keys (w : World X) : settled w -> NoDup (keys (events w)).
Proof. intros Hw. apply sc_events, Hw. Qed.
Lemma goes_refl (w : World X) : settled w -> goes w w.
Proof. intros []. by split. Qed.
Lemma goes_trans (w1 w2 w3 : World X) : goes w1 w2 -> goes w2 w3 -> goes w1 w3.
Proof. intros [] []. split; [done|done|by etrans|done]. Qed.
Lemma goes_committed (w w1 w2 : World X) : goes w w1 -> committed w2 = committed w1 -> goes w w2.
Proof. intros [] E. split; unfold events in *; by rewrite E. Qed.

#[local] Notation trip := (@triple X settled goes _).
#[local] Notation keep m := (@keeps X settled goes _ m).
(** The events stay what they are. *)
Definition steady {A} (m : M X A) : Prop := forall l, trip (fun w => events w = l) m (fun _ w => events w = l).

Lemma steady_keeps {A} (m : M X A) : steady m -> keep m.
Proof. intros Hm w Hw _. destruct (Hm (events w) w Hw eq_refl) as [Ho Hq]. split; [done|]. intros a Ha. destruct (Hq a Ha). done. Qed.
Lemma steady_offline {A} (m : M X A) : offline realtime_events m -> steady m.
Proof.
  intros Hm l w Hw El. destruct (Hm w) as (H1 & H2 & H3). unfold events. split.
  - apply goes_committed with w; [by apply goes_refl|done].
  - intros a _. rewrite H1. split; [|done]. destruct Hw as [? ? ? ? ?]. split; unfold events in *; by rewrite ?H1, ?H2, ?H3.
Qed.
Lemma steady_bind {A B} (m : M X A) (k : A -> M X B) : steady m -> (forall a, steady (k a)) -> steady (bind m k).
Proof. intros Hm Hk l. eapply (triple_bind _ _ goes_trans); [apply Hm|intros a; apply Hk]. Qed.
Lemma steady_for_each {A} (f : A -> M X unit) l : (forall x, steady (f x)) -> steady (for_each f l).
Proof. intros Hf k. apply (triple_for_each _ _ goes_refl goes_trans). intros x _. apply Hf. Qed.

(** ** Commits *)
Lemma commit_cases e (w : World X) :
  let w' := snd (commit e w) in
  (fst (commit e w) = Some (Ok tt) /\ committed w' = touch_updated e (session w) /\ session w' = open_session (committed w') /\
     check_schema (committed w') = Ok tt /\ drawn w' = drawn w) \/
  ((forall a, fst (commit e w) <> Some (Ok a)) /\ committed w' = committed w).
Proof.
  cbv zeta. unfold commit, bind.
  assert (forall w : World X, fst (tick w) = None \/ fst (tick w) = Some (Ok tt)) as Ht by (intros v; unfold tick; destruct (credit v) as [[]|]; auto).
  assert (forall w : World X, committed (snd (tick w)) = committed w /\ session (snd (tick w)) = session w /\ drawn (snd (tick w)) = drawn w) as Hs
    by (intros v; unfold tick; destruct (credit v) as [[]|]; auto).
  specialize (Ht w). specialize (Hs w). destruct (tick w) as [o w1]. cbn [fst snd] in *. destruct Hs as (E1 & E2 & E3).
  destruct Ht as [->| ->]; [by right|]. unfold flush, bind, query, lift, modify, update. rewrite E2.
  destruct (check_schema (touch_updated e (session w))) as [[]|x] eqn:Es; cbn; [left; by rewrite Es|by right].
Qed.
Lemma touch_events e s : realtime_events (touch_updated e s) = realtime_events (mem s).
Proof. done. Qed.
(** A commit of a session whose events are [l]. *)
Lemma commit_events e (w : World X) l : schema (committed w) -> log_ok (events w) -> frozen ⊆ events w ->
  realtime_events (mem (session w)) = l -> log_ok l -> log_le (events w) l -> frozen ⊆ l ->
  goes w (snd (commit e w)) /\ (forall a, fst (commit e w) = Some (Ok a) -> settled (snd (commit e w)) /\ events (snd (commit e w)) = l) /\
  (events (snd (commit e w)) = l \/ events (snd (commit e w)) = events w).
Proof.
  intros Hs Hok Hf El Hl Hle Hfl. destruct (commit_cases e w) as [(Er & Ec & Ese & Hc & _)|(Hn & Ec)]; cbv zeta in *.
  - assert (events (snd (commit e w)) = l) as Ev by (unfold events; by rewrite Ec, touch_events). apply schema_checked in Hc.
    split; [split; [done|by rewrite Ev..]|]. split; [|by left]. intros a _. split; [|done].
    split; [done|by rewrite Ev| | |by rewrite Ev]; rewrite Ese; done.
  - split; [|split; [intros a Ha; by destruct (Hn a)|right; unfold events; by rewrite Ec]].
    split; unfold events in *; rewrite ?Ec; done.
Qed.
Lemma steady_commit e : steady (commit e).
Proof.
  intros l w Hw <-. destruct (commit_events e w (events w)) as (Hg & Ho & _); [apply Hw..|reflexivity|apply Hw|]. split; [exact Hg|exact Ho].
Qed.
Lemma steady_flush e : steady (flush e).
Proof.
  intros l w Hw El. unfold flush, bind, query, lift, modify, update.
  destruct (check_schema (touch_updated e (session w))) as [[]|x]; cbn [fst snd].
  - split; [apply goes_committed with w; [by apply goes_refl|done]|]. intros a _. split; [|done].
    destruct Hw as [? ? Hq Hm ?]. split; [done|done|exact Hm|exact Hm|done].
  - by split; [apply goes_refl|].
Qed.
Lemma keep_except_rollback {A} P (m : M X A) (h : exn -> M X A) Q : trip P m Q -> (forall x, trip anywhere (h x) Q) ->
  trip P (except_integrity m (fun x => rollback ;; h x)) Q.
Proof.
  intros Hm Hh. apply triple_catch; [done|]. intros x w w' _ _ Hg. destruct x; try done.
  unfold bind, rollback, update. set (w0 := w' <| session := open_session (committed w') |>).
  assert (settled w0) as Hw0 by (by destruct Hg; split). destruct (Hh (IntegrityError constraint) w0 Hw0 I) as [Ho Hq]. split; [|done].
  destruct Ho as [? ? Hl ?]. split; [done|done| |done]. etrans; [apply Hg|exact Hl].
Qed.
Lemma keep_catch_raise {A} P (m : M X A) (h : exn -> M X A) Q : trip P m Q ->
  (forall x w, committed (snd (h x w)) = committed w /\ forall a, fst (h x w) <> Some (Ok a)) -> trip P (catch m h) Q.
Proof.
  intros Hm Hh. apply triple_catch; [done|]. intros x w w' _ _ Hg. destruct (Hh x w') as [E Hn].
  split; [by eapply goes_committed|]. intros a Ha. by destruct (Hn a).
Qed.

(** * Between two commits: the events of the session are [k], the committed ones [l] *)
Record sound (w : World X) : Prop := { so_schema : schema (committed w); so_ok : log_ok (events w); so_frozen : frozen ⊆ events w }.
Definition holding (k l : list RealtimeEvent) (w : World X) : Prop := realtime_events (mem (session w)) = k /\ events w = l.
Definition writes {A} (P : World X -> Prop) (m : M X A) (Q : A -> World X -> Prop) : Prop := triple sound goes P m Q.

Lemma sound_refl (w : World X) : sound w -> goes w w.
Proof. intros []. by split. Qed.
Lemma settled_sound (w : World X) : settled w -> sound w.
Proof. intros []. by split. Qed.
Lemma settled_holding (w : World X) : settled w -> holding (events w) (events w) w.
Proof. intros []. by split. Qed.
Lemma writes_settled {A} P (m : M X A) Q : writes P m (fun a w => settled w /\ Q a w) -> triple settled goes P m Q.
Proof. intros Hm w Hw HP. destruct (Hm w (settled_sound w Hw) HP) as [Hg Hq]. split; [done|]. intros a Ha. by destruct (Hq a Ha). Qed.
Lemma writes_bind {A B} P (m : M X A) Q (k : A -> M X B) R :
  writes P m Q -> (forall a, writes (Q a) (k a) R) -> writes P (bind m k) R.
Proof. apply (triple_bind _ _ goes_trans). Qed.
Lemma writes_offline {A} (m : M X A) k l : offline realtime_events m -> writes (holding k l) m (fun _ => holding k l).
Proof.
  intros Hm w Hw [Hk Hl]. destruct (Hm w) as (H1 & H2 & H3). split; [apply goes_committed with w; [by apply sound_refl|done]|].
  intros a _. split; [by destruct Hw; split; unfold events in *; rewrite ?H1|]. split; [by rewrite H3|]. unfold events in *. by rewrite H1.
Qed.
Lemma writes_flush e k l : writes (holding k l) (flush e) (fun _ => holding k l).
Proof.
  intros w Hw [Hk Hl]. unfold flush, bind, query, lift, modify, update.
  destruct (check_schema (touch_updated e (session w))) as [[]|x]; cbn [fst snd]; (split; [apply goes_committed with w; [by apply sound_refl|done]|]); [|done].
  intros a _. split; [by destruct Hw|done].
Qed.
Lemma writes_commit e k l : log_ok k -> log_le l k -> frozen ⊆ k -> writes (holding k l) (commit e) (fun _ w => settled w /\ events w = k).
Proof.
  intros Hok Hle Hf w [Hs Ho Hfw] [Hk Hl]. destruct (commit_events e w k) as (Hg & Hq & _); [done..|by rewrite Hl|done|].
  split; [done|]. intros a Ha. destruct (Hq a Ha). split; [by apply settled_sound|done].
Qed.
Lemma writes_assign f event k l : NoDup (keys k) -> event ∈ k -> key (f event) = key event ->
  writes (holding k l) (assign realtime_events f event) (fun r w => r = f event /\ holding (put_row (f event) k) l w).
Proof.
  intros Hn He Hf w Hw [Hk Hl]. split; [apply goes_committed with w; [by apply sound_refl|done]|].
  intros a [= <-]. split; [by destruct Hw|]. split; [done|]. split; [|done].
  transitivity (map (fun x => if key x =? key event then f x else x) (realtime_events (mem (session w)))); [done|].
  rewrite Hk. unfold put_row. rewrite Hf. apply map_ext_in. intros x Hx%list_elem_of_In. bdestruct (key x =? key event); [|done].
  by rewrite (key_inj k x event).
Qed.

Lemma put_twice (r r' : RealtimeEvent) l : key r' = key r -> put_row r' (put_row r l) = put_row r' l.
Proof.
  intros E. unfold put_row. rewrite map_map. apply map_ext. intros x. rewrite E. bdestruct (key x =? key r); [by rewrite Z.eqb_refl|].
  by rewrite (proj2 (Z.eqb_neq _ _)).
Qed.
Lemma log_ok_put r l : event_ok r = true -> log_ok l -> log_ok (put_row r l).
Proof. intros Hr Hl. apply Forall_forall. intros x [->|Hx]%put_row_elem; [done|]. by eapply Forall_forall in Hl. Qed.

(** * [deliver_event] *)

(** What becomes of a pending event. *)
Inductive outcome (e : Env) (r : RealtimeEvent) : RealtimeEvent -> Prop :=
| Outcome_expired : RealtimeEvent.expires_at r <= now e -> outcome e r (expired r)
| Outcome_scheduled : now e < RealtimeEvent.deliver_at r -> outcome e r (with_status "scheduled" r)
| Outcome_delivered : outcome e r (delivered e (publishing r))
| Outcome_failed x : outcome e r (failed e x (publishing r)).
Lemma failed_core e x r : core (failed e x r) = core r.
Proof. unfold failed. cbv zeta. by case_match. Qed.
Lemma failed_attempts e x r : RealtimeEvent.attempts (failed e x r) = RealtimeEvent.attempts r.
Proof. unfold failed. cbv zeta. by case_match. Qed.
Lemma event_ok_pending r : pending r = true -> event_ok r = true -> 0 <= RealtimeEvent.attempts r < RealtimeEvent.max_attempts r.
Proof. intros Hp. unfold event_ok. rewrite Hp. cbn [orb]. lia. Qed.
Lemma publishing_ok r : pending r = true -> event_ok r = true -> event_ok (publishing r) = true.
Proof. intros Hp Ho. pose proof (event_ok_pending r Hp Ho). event_ok. Qed.
Lemma outcome_event_ok e r r' : pending r = true -> event_ok r = true -> outcome e r r' -> event_ok r' = true.
Proof.
  intros Hp Ho. pose proof (event_ok_pending r Hp Ho). destruct 1 as [| | |x]; [event_ok..|].
  unfold failed. cbn -[char_take]. bdestruct (RealtimeEvent.max_attempts r <=? Z.succ (RealtimeEvent.attempts r)); event_ok.
Qed.
Lemma outcome_le e r r' : pending r = true -> outcome e r r' -> event_le r r'.
Proof.
  intros Hp Ho. unfold event_le. rewrite Hp. destruct Ho as [| | |x]; [by split..|split; cbn; [done|lia]|].
  rewrite failed_core, failed_attempts. split; cbn; [done|lia].
Qed.

Lemma offline_push_recipient e event r : offline realtime_events (push_recipient (X:=X) e event r).
Proof. offline. Qed.
Lemma offline_publish e a v : offline realtime_events (publish (X:=X) e a v).
Proof. offline. Qed.
#[local] Hint Resolve offline_push_recipient offline_publish : offline.

(** The [try]: it returns with the event delivered, or raises having left it. *)
Lemma attempt_outcome e event k l (w : World X) : NoDup (keys k) -> event ∈ k -> sound w -> holding k l w ->
  match attempt e event w with
  | (Some (Ok r), w') => sound w' /\ r = delivered e event /\ holding (put_row r k) l w'
  | (Some (Err _), w') => sound w' /\ holding k l w'
  | (None, w') => events w' = l
  end /\ goes w (snd (attempt e event w)).
Proof.
  intros Hn He Hw Hk. unfold attempt.
  set (m := fun recipients => publish e (RealtimeEvent.application_id event) (event_wire event recipients) ;;
    when RealtimeEvent.push_enabled event then! for_each (push_recipient e event) recipients).
  assert (forall w, (let! recipients := query (recipients_of (RealtimeEvent.id event)) in
    publish e (RealtimeEvent.application_id event) (event_wire event recipients) ;;
    when RealtimeEvent.push_enabled event then! for_each (push_recipient e event) recipients ;;
    assign realtime_events (delivered e) event) w =
    ((let! recipients := query (recipients_of (RealtimeEvent.id event)) in m recipients) ;; assign realtime_events (delivered e) event) w) as Em.
  { intros w1. unfold m, bind, query. destruct (publish _ _ _ w1) as [[[]|] w2]; done. }
  rewrite Em. clear Em. set (m' := bind (query _) m). assert (offline realtime_events m') as Ho by (unfold m', m; offline).
  destruct (Ho w) as (H1 & H2 & H3). unfold bind. destruct Hk as [Hk Hl]. destruct (m' w) as [o w1]. cbn [snd] in *.
  assert (sound w1) as Hw1 by (destruct Hw; split; unfold events in *; by rewrite H1).
  assert (holding k l w1) as Hk1 by (split; [by rewrite H3|unfold events in *; by rewrite H1]).
  assert (goes w w1) as Hg by (apply goes_committed with w; [by apply sound_refl|done]).
  destruct o as [[a|x]|]; [|by split_and!|by split; [apply Hk1|]].
  destruct (writes_assign (delivered e) event k l Hn He eq_refl w1 Hw1 Hk1) as [Hg' Hq].
  destruct (Hq (delivered e event) eq_refl) as [Hs [_ Hh]].
  change (assign realtime_events (delivered e) event w1) with (Some (Ok (delivered e event)), snd (assign realtime_events (delivered e) event w1)).
  cbn [snd]. split; [done|]. by eapply goes_trans.
Qed.
Lemma writes_deliver e event l : NoDup (keys l) -> log_ok l -> frozen ⊆ l -> event ∈ l -> pending event = true ->
  writes (holding l l) (deliver_event (X:=X) e event) (fun _ w => settled w /\ exists r', events w = put_row r' l /\ outcome e event r').
Proof.
  intros Hn Hl Hfl He Hp. assert (event_ok event = true) as Hok by by eapply Forall_forall in Hl.
  assert (forall r', key r' = key event -> frozen ⊆ put_row r' l) as Hfr.
  { intros r' Hk r Hr. unfold put_row. apply list_elem_of_fmap. exists r. split; [|by apply Hfl]. rewrite Hk.
    rewrite (proj2 (Z.eqb_neq _ _)); [done|]. intros Ek. assert (r = event) as -> by (by apply (key_inj l); [|apply Hfl| |]).
    apply Hfrozen in Hr. unfold publishes, pending in *. apply bool_decide_eq_true in Hr. by rewrite Hr in Hp. }
  assert (forall r', outcome e event r' -> log_ok (put_row r' l) /\ log_le l (put_row r' l) /\ frozen ⊆ put_row r' l) as Hout.
  { intros r' Ho. pose proof (outcome_le e event r' Hp Ho) as Hle. split; [by apply log_ok_put; [eapply outcome_event_ok|]|].
    split; [by eapply log_le_put|]. by apply Hfr, event_le_key. }
  assert (forall f, key (f event) = key event -> outcome e event (f event) ->
    writes (holding l l) (let! r := assign realtime_events f event in commit e ;; ret r)
      (fun _ w => settled w /\ exists r', events w = put_row r' l /\ outcome e event r')) as Hsimple.
  { intros f Hf Ho. destruct (Hout _ Ho) as (? & ? & ?). eapply writes_bind; [by apply (writes_assign f event l l)|]. intros r. cbn beta.
    eapply triple_weaken with (P := holding (put_row (f event) l) l); [by intros w _ [_ Hw]|intros a w _ Hx; exact Hx|].
    eapply writes_bind; [by apply writes_commit|]. intros []. apply (triple_ret _ _ sound_refl). intros w _ [Hs Ev]. split; [done|]. by exists (f event). }
  unfold deliver_event. bdestruct (RealtimeEvent.expires_at event <=? now e); [by apply (Hsimple expired); [|constructor]|].
  bdestruct (now e <? RealtimeEvent.deliver_at event); [by apply (Hsimple (with_status "scheduled")); [|constructor]|].
  set (event1 := publishing event). set (l1 := put_row event1 l).
  assert (event_ok event1 = true) as Hok1 by by apply publishing_ok.
  assert (log_le l l1) as Hle1. { eapply log_le_put; [done|done|]. unfold event_le. rewrite Hp. split; cbn; [done|lia]. }
  assert (NoDup (keys l1)) as Hn1 by (unfold l1; by rewrite keys_put).
  assert (event1 ∈ l1) as He1 by (apply put_row_in; by apply (list_elem_of_fmap_2 key l event)).
  eapply writes_bind; [by apply (writes_assign publishing event l l)|]. intros r. cbn beta. apply (triple_case _ _). intros w0 Hw0 [-> Hh0].
  eapply triple_weaken with (P := holding l1 l); [by intros w _ <-|intros a w _ Hx; exact Hx|]. fold event1.
  eapply writes_bind; [apply writes_commit; [by apply log_ok_put|done|by apply Hfr]|]. intros [].
  eapply writes_bind with (Q := fun r w => exists r', outcome e event r' /\ event_le event1 r' /\ holding (put_row r' l) l1 w).
  - intros w Hw [Hs Ev]. assert (holding l1 l1 w) as Hh by (rewrite <- Ev; by apply settled_holding).
    destruct (attempt_outcome e event1 l1 l1 w Hn1 He1 Hw Hh) as [Ha Hg]. unfold catch.
    destruct (attempt e event1 w) as [[[a|x]|] w1]; cbn [fst snd] in *; [| |by split].
    + split; [done|]. intros b [= <-]. destruct Ha as (Hs1 & -> & Hh1). split; [done|]. exists (delivered e event1). split; [constructor|]. split; [by split|].
      unfold l1 in Hh1 at 1. by rewrite put_twice in Hh1.
    + destruct Ha as (Hs1 & Hh1).
      assert (key (failed e x event1) = key event1) as Ek by exact (f_equal RealtimeEvent.id (failed_core e x event1)).
      destruct (writes_assign (failed e x) event1 l1 l1 Hn1 He1 Ek w1 Hs1 Hh1) as [Hg' Hq].
      split; [by eapply goes_trans|]. intros b Hb. destruct (Hq b Hb) as (Hs2 & -> & Hh2). split; [done|].
      exists (failed e x event1). split; [constructor|].
      split; [split; [apply failed_core|rewrite failed_attempts; done]|]. unfold l1 in Hh2 at 1. by rewrite put_twice in Hh2.
  - intros r1. apply (triple_case _ _). intros w1 Hw1 (r' & Ho & Hle & Hh1). destruct (Hout r' Ho) as (Hok' & _ & Hf').
    eapply triple_weaken with (P := holding (put_row r' l) l1); [by intros w _ <-|intros a w _ Hx; exact Hx|].
    eapply writes_bind; [apply writes_commit; [done| |done]|].
    + assert (put_row r' l = put_row r' l1) as ->; [|by apply log_le_put with event1].
      symmetry. apply put_twice. by rewrite (event_le_key event1 r' Hle).
    + intros []. apply (triple_query _ _ sound_refl). intros w _ [Hs Ev]. split; [done|]. by exists r'.
Qed.
End Life.
