(* ===== verification/RealtimeLife.v ===== *)
(** Every job of a process respects the life of the durable events: nothing is
    lost, attempts stay within their bound, and an event leaves the pending
    states once. *)
From S2P Require Import Prelude PyFloat Json JsonFacts Calendar Session Schema WebApi Sha256 Engines RealtimeModels RealtimeCore RealtimeHub RealtimeEvents RealtimeSchemas RealtimeService RealtimeServer RealtimeFacts RealtimeDelivery.
#[local] Open Scope string_scope.
#[local] Open Scope list_scope.
#[local] Open Scope Z_scope.

Section Life.
Context {X : Type} `{RedisServer X, PushGateway X}.
Context (frozen : list RealtimeEvent) (Hfrozen : forall r, r ∈ frozen -> publishes r = true).
Implicit Types e : Env.
#[local] Notation settled := (settled frozen).
#[local] Notation goes := (goes frozen).
#[local] Notation trip := (@triple X settled goes _).
#[local] Notation keep m := (@keeps X settled goes _ m).
#[local] Notation steady := (steady frozen).
#[local] Notation writes := (writes frozen).
#[local] Notation goes_refl := (goes_refl frozen).
#[local] Notation goes_trans := (goes_trans frozen).

Lemma steady_elem {A} r (m : M X A) : steady m -> trip (fun w => r ∈ events w) m (fun _ w => r ∈ events w).
Proof.
  intros Hm w Hw Hr. destruct (Hm (events w) w Hw eq_refl) as [Hg Hq]. split; [done|]. intros a Ha.
  destruct (Hq a Ha) as [Hs Ev]. split; [done|]. by rewrite Ev.
Qed.
Lemma trip_bind {A B} P (m : M X A) Q (k : A -> M X B) R : trip P m Q -> (forall a, trip (Q a) (k a) R) -> trip P (bind m k) R.
Proof. apply (triple_bind _ _ goes_trans). Qed.
Lemma keep_bind {A B} (m : M X A) (k : A -> M X B) : keep m -> (forall a, keep (k a)) -> keep (bind m k).
Proof. intros Hm Hk. eapply trip_bind; [exact Hm|]. intros a. eapply triple_weaken; [| |apply (Hk a)]; done. Qed.
Lemma keep_offline {A} (m : M X A) : offline realtime_events m -> keep m.
Proof. intros Hm. by apply steady_keeps, steady_offline. Qed.
Lemma keep_for_each {A} (f : A -> M X unit) l : (forall x, keep (f x)) -> keep (for_each f l).
Proof. intros Hf. induction l; cbn [for_each]; [by apply (triple_ret _ _ goes_refl)|]. by apply keep_bind. Qed.
Lemma keep_commit e : keep (commit e).
Proof. apply steady_keeps, steady_commit. Qed.
Lemma keep_flush e : keep (flush e).
Proof. apply steady_keeps, steady_flush. Qed.
Lemma writes_except {A} P (m : M X A) (h : exn -> M X A) (Q : A -> World X -> Prop) :
  writes P m (fun a w => settled w /\ Q a w) -> (forall x, trip anywhere (h x) Q) ->
  writes P (except_integrity m (fun x => rollback ;; h x)) (fun a w => settled w /\ Q a w).
Proof.
  intros Hm Hh. apply triple_catch; [done|]. intros x w w' _ _ Hg. destruct x; try done.
  unfold bind, rollback, update. set (w0 := w' <| session := open_session (committed w') |>).
  assert (settled w0) as Hw0 by (by destruct Hg; split). destruct (Hh (IntegrityError constraint) w0 Hw0 I) as [Ho Hq].
  split.
  - destruct Ho as [? ? Hl ?]. split; [done|done| |done]. etrans; [apply Hg|exact Hl].
  - intros a Ha. destruct (Hq a Ha) as [Hs HQ]. by split; [apply settled_sound|].
Qed.

(** * [queue_event] *)
Lemma existing_event a k fp : trip anywhere (existing_idempotent_event a k fp) (fun o w => forall r, o = Some r -> r ∈ events w).
Proof.
  unfold existing_idempotent_event. eapply trip_bind with (Q := fun o w => forall r, o = Some r -> r ∈ events w).
  - apply (triple_query _ _ goes_refl). intros w Hw _ r Hr. pose proof (settled_keys _ _ Hw) as Hn. destruct Hw as [_ _ Hq Hm _].
    apply scalar_some in Hr as [Hr _]; [by rewrite Hm in Hr|unfold synced; congruence|by rewrite Hm].
  - intros [r|]; [|apply (triple_ret _ _ goes_refl); done]. eapply trip_bind with (Q := fun _ w => r ∈ events w).
    + apply (triple_require _ _ goes_refl). intros _ w _ Hr. by apply Hr.
    + intros _. apply (triple_ret _ _ goes_refl). by intros w _ Hr r' [= <-].
Qed.
Lemma new_event_ok e q cursor id : 0 < event_max_attempts (settings e) -> event_ok (new_event e q cursor id) = true.
Proof.
  intros Hm. set (r := new_event e q cursor id).
  assert (pending r = true) as Hp by (unfold r, new_event, pending; cbn -[fingerprint_of compact_raw]; by case_match).
  unfold event_ok. rewrite Hp. cbn [orb]. change (RealtimeEvent.attempts r) with 0.
  change (RealtimeEvent.max_attempts r) with (event_max_attempts (settings e)). lia.
Qed.
Lemma offline_cursor e : offline realtime_events (@event_cursor X e).
Proof. offline. Qed.
Lemma store_event_in e q : 0 < event_max_attempts (settings e) -> trip anywhere (store_event e q) (fun r w => r ∈ events w).
Proof.
  intros Hmax. unfold store_event.
  eapply trip_bind with (Q := fun _ => anywhere); [apply keep_offline, offline_cursor|]. intros cursor.
  apply triple_case. intros w0 Hw0 _. set (l := events w0).
  apply writes_settled. eapply triple_weaken with (P := holding l l); [intros w _ <-; by eapply settled_holding|intros a w _ Hx; exact Hx|].
  eapply writes_bind with (Q := fun r w => (exists id, r = new_event e q cursor id) /\ holding (l ++ [r]) l w).
  { intros w Hw [Hk Hl]. split; [apply goes_committed with w; [by apply sound_refl|done]|]. intros r [= <-].
    split; [by destruct Hw|]. split; [by eexists|]. split; [|done]. rewrite <- Hk. done. }
  intros event. apply triple_case. intros w1 Hw1 [[id Eid] Hh]. subst event. set (event := new_event e q cursor id) in *.
  eapply triple_weaken with (P := holding (l ++ [event]) l); [by intros w _ <-|intros a w _ Hx; exact Hx|].
  apply writes_except.
  - eapply writes_bind; [apply writes_flush|]. intros [].
    eapply writes_bind; [apply writes_offline; offline|]. intros [].
    eapply writes_bind; [apply writes_commit|].
    + apply Forall_app. split; [apply Hw0|]. constructor; [by apply new_event_ok|done].
    + apply log_le_app.
    + intros r Hr. apply elem_of_app. left. by apply Hw0.
    + intros []. apply (triple_query _ _ (sound_refl frozen)). intros w _ [Hs Ev]. split; [done|]. pose proof (settled_keys _ _ Hs) as Hn.
      assert (event ∈ events w) as Hin by (rewrite Ev; apply elem_of_app; right; by left). destruct Hs as [_ _ -> _ _]. by rewrite live_self.
  - intros x. destruct (truthy_key _) as [k|]; [|apply triple_raise, goes_refl].
    eapply trip_bind; [apply existing_event|]. intros o. apply (triple_some_or _ _ goes_refl). intros r -> w _ Hr. by apply Hr.
Qed.
Lemma queue_event_in e q : 0 < event_max_attempts (settings e) -> trip anywhere (queue_event e q) (fun r w => r ∈ events w).
Proof.
  intros Hmax. unfold queue_event. eapply trip_bind with (Q := fun _ => anywhere); [by apply (triple_require _ _ goes_refl)|]. intros _.
  eapply trip_bind with (Q := fun o w => forall r, o = Some r -> r ∈ events w).
  - destruct (truthy_key _); [apply existing_event|]. by apply (triple_ret _ _ goes_refl).
  - intros [r|].
    + apply (triple_ret _ _ goes_refl). intros w _ Hr. by apply Hr.
    + eapply triple_weaken; [| |by apply store_event_in]; done.
Qed.

(** * Deliveries *)
Lemma deliver_trip e r : pending r = true -> trip (fun w => r ∈ events w) (deliver_event e r)
  (fun _ w => exists l r', events w = put_row r' l /\ outcome e r r').
Proof.
  intros Hp. apply triple_case. intros w0 Hw0 Hr. apply writes_settled.
  eapply triple_weaken with (P := holding (events w0) (events w0)); [intros w _ <-; by eapply settled_holding| |].
  2: { eapply writes_deliver; [exact Hfrozen|by eapply settled_keys|apply Hw0|apply Hw0|exact Hr|done]. }
  intros a w _ [Hs (r' & Ev & Ho)]. eauto.
Qed.
Lemma keep_deliver e r : pending r = true -> trip (fun w => r ∈ events w) (deliver_event e r) anything.
Proof. intros Hp. eapply triple_weaken; [| |by apply deliver_trip]; done. Qed.
Lemma keep_emit_message e m t p title body : 0 < event_max_attempts (settings e) -> keep (emit_message_event e m t p title body).
Proof.
  intros Hmax. unfold emit_message_event. apply keep_bind; [apply keep_offline; offline|intros].
  apply keep_bind; [apply keep_offline; offline|intros out]. eapply trip_bind; [by apply queue_event_in|]. intros r.
  destruct (RealtimeEvent.status r in? _) eqn:E; [|by apply (triple_ret _ _ goes_refl)].
  eapply trip_bind; [apply keep_deliver|intros; by apply (triple_ret _ _ goes_refl)].
  apply in_elem in E. apply elem_in. set_solver.
Qed.
Lemma keep_publish_event e p u : 0 < event_max_attempts (settings e) -> keep (platform_publish_event e p u).
Proof.
  intros Hmax. unfold platform_publish_event. cbv zeta. do 2 (apply keep_bind; [apply keep_offline; offline|intros []]).
  apply keep_bind; [apply keep_offline; offline|intros []].
  eapply trip_bind with (Q := fun r w => r ∈ events w).
  { apply keep_catch_raise; [by apply queue_event_in|]. intros [] w; done. }
  intros r. eapply trip_bind with (Q := fun _ w => r ∈ events w); [apply steady_elem, steady_offline; offline|]. intros [].
  eapply trip_bind with (Q := fun _ w => r ∈ events w); [apply steady_elem, steady_commit|]. intros [].
  eapply trip_bind with (Q := anything); [|intros; by apply (triple_query _ _ goes_refl)].
  destruct (RealtimeEvent.status r ==? "queued") eqn:E; [|by apply (triple_ret _ _ goes_refl)].
  apply keep_deliver. unfold pending. apply bool_decide_eq_true in E. by rewrite E.
Qed.

(** The worker's rows: distinct pending events of the log. *)
Definition batch (rows : list RealtimeEvent) (w : World X) : Prop := forall r, r ∈ rows -> r ∈ events w.
Lemma due_batch e limit (w : World X) : settled w ->
  let rows := take limit (select_ordered realtime_events (asc RealtimeEvent.deliver_at) (due (now e)) (session w)) in
  rows = take limit (sort_cmp (asc RealtimeEvent.deliver_at) (List.filter (due (now e)) (events w))) /\
  NoDup (keys rows) /\ (forall r, r ∈ rows -> r ∈ events w /\ due (now e) r = true).
Proof.
  intros Hw rows. pose proof (settled_keys _ _ Hw) as Hn. destruct Hw as [_ _ Hq Hm _].
  assert (rows = take limit (sort_cmp (asc RealtimeEvent.deliver_at) (List.filter (due (now e)) (events w)))) as Er.
  { unfold rows. rewrite select_ordered_synced; [by rewrite Hm|unfold synced; congruence|by rewrite Hm]. }
  split; [done|]. rewrite Er. split.
  - unfold keys. rewrite <- firstn_map.
    apply (sublist_NoDup _ (map key (sort_cmp (asc RealtimeEvent.deliver_at) (List.filter (due (now e)) (events w))))); [|apply sublist_take].
    rewrite (sort_cmp_perm _ (List.filter _ _)). by apply NoDup_map_filter.
  - intros r Hr%subseteq_take. unfold sort_cmp in Hr. rewrite sort_by_elem in Hr. by apply elem_of_filter.
Qed.
Lemma due_pending t r : due t r = true -> pending r = true.
Proof. unfold due, pending. by intros [? _]%andb_true_iff. Qed.
Lemma keep_batch e rows : NoDup (keys rows) -> (forall r, r ∈ rows -> pending r = true) ->
  trip (batch rows) (for_each (fun event => deliver_event e event ;; ret tt) rows) anything.
Proof.
  induction rows as [|r rows IH]; intros Hn Hp; cbn [for_each]; [by apply (triple_ret _ _ goes_refl)|].
  apply NoDup_cons in Hn as [Hr Hn]. apply triple_case. intros w0 Hw0 Hb.
  eapply trip_bind with (Q := fun _ => batch rows); [|intros []; apply IH; [done|intros x Hx; apply Hp; by right]].
  eapply trip_bind with (Q := fun _ => batch rows); [|intros; by apply (triple_ret _ _ goes_refl)].
  apply writes_settled. eapply triple_weaken with (P := holding (events w0) (events w0)); [intros w _ <-; by eapply settled_holding| |].
  2: { eapply writes_deliver; [exact Hfrozen|by eapply settled_keys|apply Hw0|apply Hw0|apply Hb; left|apply Hp; left]. }
  intros a w _ [Hs (r' & Ev & Ho)]. split; [done|]. intros x Hx. rewrite Ev. unfold put_row. apply list_elem_of_fmap. exists x.
  split; [|apply Hb; by right]. apply outcome_le, event_le_key in Ho; [|apply Hp; left]. rewrite Ho.
  rewrite (proj2 (Z.eqb_neq _ _)); [done|]. intros Ek. apply Hr. rewrite <- Ek. by apply list_elem_of_fmap_2.
Qed.
Lemma keep_round e : keep (process_due_events e 100).
Proof.
  unfold process_due_events. eapply trip_bind with (Q := fun rows w => batch rows w /\ NoDup (keys rows) /\ forall r, r ∈ rows -> pending r = true).
  - apply (triple_query _ _ goes_refl). intros w Hw _. destruct (due_batch e 100 w Hw) as (_ & Hn & Hr).
    split; [intros r Hin; by apply Hr|]. split; [done|]. intros r Hin. by eapply due_pending, Hr.
  - intros rows. eapply trip_bind with (Q := anything); [|intros; by apply (triple_ret _ _ goes_refl)].
    apply triple_case. intros w0 _ (Hb & Hn & Hp). eapply triple_weaken with (P := batch rows); [by intros w _ <-|done|]. by apply keep_batch.
Qed.
End Life.

Create HintDb keep.
(** One step along the structure of a computation that leaves the events to their
    life, as [offline_step] does for those that leave them alone. *)
Ltac keep_step :=
  cbv zeta;
  lazymatch goal with
  | |- keeps _ _ (bind _ _) => apply keep_bind; [|intros ?]
  | |- keeps _ _ (for_each _ _) => apply keep_for_each; intros ?
  | |- keeps _ _ (except_integrity _ (fun _ => bind rollback _)) => apply keep_except_rollback; [|intros ?]
  | |- triple ?I ?O anywhere ?m anything => change (keeps I O m)
  | |- keeps _ _ (match ?x with _ => _ end) => destruct x
  | |- keeps _ _ (?m : M _ _) => first [solve [auto 2 with keep] | solve [apply keep_offline; offline] | let h := head_of m in unfold h]
  end.
Section Jobs.
Context {X : Type} `{RedisServer X, PushGateway X, Providers}.
Context (frozen : list RealtimeEvent) (Hfrozen : forall r, r ∈ frozen -> publishes r = true).
Implicit Types e : Env.
#[local] Notation settled := (settled frozen).
#[local] Notation goes := (goes frozen).
#[local] Notation keep m := (@keeps X settled goes _ m).
#[local] Hint Resolve keep_commit keep_flush keep_round : keep.
(** * Every endpoint, the socket and the worker *)
Lemma keep_create_row e a c p : keep (create_conversation_row e a c p).
Proof. repeat keep_step. Qed.
Lemma keep_mutate e k l m : keep (mutate_member (X:=X) e k l m).
Proof. repeat keep_step. Qed.
Context (e : Env) (Hmax : 0 < event_max_attempts (settings e)).
Lemma keep_emit m t p title body : keep (emit_message_event e m t p title body).
Proof. by apply keep_emit_message. Qed.
Lemma keep_publish p u : keep (platform_publish_event e p u).
Proof. by apply keep_publish_event. Qed.
#[local] Hint Resolve keep_create_row keep_mutate keep_emit keep_publish : keep.
Lemma keep_store_message c p u k l ct : keep (store_message e c p u k l ct).
Proof. repeat keep_step. Qed.
#[local] Hint Resolve keep_store_message : keep.
Lemma keep_send k p u : keep (send_message e k p u).
Proof. repeat keep_step. Qed.
#[local] Hint Resolve keep_send : keep.
Lemma keep_endpoint c : keep (endpoint e c).
Proof. unfold endpoint, as_user, as_service. repeat keep_step. Qed.
Lemma keep_or_disconnect {A} u c (m : M X A) : keep m -> keep (or_disconnect e u c m).
Proof.
  intros Hm. apply keep_catch_raise; [done|]. intros x w.
  assert (forall A, offline realtime_events (disconnect e (up_client_id u) (up_sub u) c ;; @raise X A x)) as Hd by (intros; offline).
  split; [apply Hd|]. intros a. unfold bind. by destruct (disconnect _ _ _ _ w) as [[[]|] ?].
Qed.
#[local] Hint Resolve keep_endpoint : keep.
Lemma keep_job j : keep (job e j).
Proof. destruct j; cbn [job]; repeat first [apply keep_or_disconnect | keep_step]. Qed.
End Jobs.
