(* ===== verification/RealtimeDemo.v ===== *)
(** A concrete outside for the realtime service (Redis as a store of keys, a
    notification service that answers as it is told), and runs of the service
    on it. *)
From S2P Require Import Prelude PyFloat Json Calendar Session Schema WebApi Sha256 Engines RealtimeModels RealtimeCore RealtimeHub RealtimeEvents RealtimeSchemas RealtimeService RealtimeServer.
#[local] Open Scope string_scope.
#[local] Open Scope list_scope.
#[local] Open Scope Z_scope.

(** Redis: its keys with value and expiry, counters, what was published; and
    the notification service: the notices taken, and how many it takes before it
    fails. *)
Record Servers : Type := mk_Servers {
  store : list (string * (string * option time));
  counters : list (string * Z);
  published : list (string * string);
  redis_up : bool;
  notices : list (string * list (string * Json));
  patience : nat
}.
#[export] Instance eta_Servers : Eta Servers := fun s =>
  mk_Servers (store s) (counters s) (published s) (redis_up s) (notices s) (patience s).
Definition answered {A} (s : Servers) (f : Servers -> A * Servers) : result A * Servers :=
  if redis_up s then (Ok (fst (f s)), snd (f s)) else (Err (RuntimeError "connection refused"), s).
Definition unexpired (t : time) (x : string * (string * option time)) : bool :=
  match snd (snd x) with Some until => t <? until | None => true end.
Definition live_keys (t : time) (s : Servers) : list (string * (string * option time)) := List.filter (unexpired t) (store s).
#[export] Instance demo_redis : RedisServer Servers := {
  redis_get t k s := answered s (fun s => (option_map fst (dict_get k (live_keys t s)), s));
  redis_set t k v ttl s := answered s (fun s => (tt, s <| store ::= dict_set k (v, Some (t + seconds ttl)) |>));
  redis_delete t k s := answered s (fun s => (tt, s <| store ::= List.filter (fun x => fst x !=? k) |>));
  redis_scan t pattern s := answered s (fun s =>
    (List.filter (fun k => starts (String.substring 0 (String.length pattern - 1) pattern) k) (map fst (live_keys t s)), s));
  redis_incr t k s := answered s (fun s =>
    let '(n, until) := match dict_get k (live_keys t s) with
      | Some (text, until) => (match int_of_str text with Some n => n + 1 | None => 1 end, until) | None => (1, None) end in
    (n, s <| store ::= dict_set k (str_of_Z n, until) |>));
  redis_expire t k ttl s := answered s (fun s =>
    (tt, s <| store ::= map (fun x => if fst x ==? k then (k, (fst (snd x), Some (t + seconds ttl))) else x) |>));
  redis_hincrby t h k n s := answered s (fun s =>
    (tt, s <| counters ::= dict_set k (match dict_get k (counters s) with Some m => m + n | None => n end) |>));
  redis_hgetall t h s := answered s (fun s => (map (fun kv => (fst kv, str_of_Z (snd kv))) (counters s), s));
  redis_publish t channel text s := answered s (fun s => (tt, s <| published ::= fun l => l ++ [(channel, text)] |>))
}.
#[export] Instance demo_push : PushGateway Servers := {
  service_token t request s := (Ok ("push-token", 300), s);
  post_message t bearer k body s :=
    match patience s with
    | O => (Err (RuntimeError "Server error '503 Service Unavailable'"), s)
    | S n => (Ok tt, s <| patience := n |> <| notices ::= fun l => l ++ [(k, body)] |>)
    end
}.
Definition quiet : Servers := mk_Servers [] [] [] true [] 100.

(** Tokens are their claims. *)
Definition user_claims (sub client : string) : list (string * Json) :=
  [("token_use", JStr "access"); ("aud", JStr client); ("sub", JStr sub)].
Definition service_claims (client scope : string) : list (string * Json) :=
  [("token_use", JStr "service"); ("aud", JStr "ithute-realtime"); ("azp", JStr client); ("scope", JStr scope)].
#[export] Instance demo_providers : Providers := {
  signing_key token := Some "key";
  jwt_decode key issuer t token := match json_loads token with Some (JObj d) => Some d | _ => None end
}.
Definition credentials (claims : list (string * Json)) : option string := Some (compact_raw (JObj claims)).
Definition demo_settings : Settings :=
  mk_Settings "https://auth.ithute.co.ls" "loanhub,ithute-pay" "loanhub,ithute-pay" "" "ithute-realtime" "secret" true 90 8 3 500 200 5000 500
    120 60 180 60 1000 60 5 10.
Definition demo_env (n : Z) (t : time) : Env := mk_Env demo_settings t (fun k => n * 1000 + Z.of_nat k) (fun _ => true).
Definition t0 : time := 1767225600000000.
Definition world0 : World Servers := mk_World empty_RealtimeDb (open_session empty_RealtimeDb) 0 [] [] no_token quiet None.

Definition ana : uuid := 1.
Definition bob : uuid := 2.
Definition ana_token : option string := credentials (user_claims (str_of_uuid ana) "loanhub").
Definition bob_token : option string := credentials (user_claims (str_of_uuid bob) "loanhub").
Definition group_of (others : list uuid) : ConversationCreate := mk_ConversationCreate others (Some "Team") None None "group".
Definition hello (k : option string) (text : string) : MessageCreate := mk_MessageCreate text k [] None None [] [] "normal".

(** A product's backend sends a notice to a user. *)
Definition loan_token : option string := credentials (service_claims "loanhub" "realtime.publish").
Definition notice : PlatformEventRequest :=
  mk_PlatformEventRequest "loan.approved" 1 [bob] (Some "Loan approved") "Your loan has been approved" None [] "normal" 3600 None true false
    None (Some "loan-7").
Definition publish_at (n : Z) (t : time) (credit : option nat) (w : World Servers) : World Servers :=
  snd (serve (demo_env n t) credit (Request (PlatformEvents loan_token notice)) w).
(** The process is killed while it publishes the event: the fifth write is the
    commit of the status [publishing]. *)
Definition interrupted : World Servers := Eval vm_compute in publish_at 1 t0 (Some 5%nat) world0.
