(* ===== verification/RealtimeProcess.v ===== *)
(** A process of the realtime service as a transition system whose steps are its
    jobs, each of which may be cut short: what holds of the durable events in
    every state it reaches. *)
From S2P Require Import Prelude PyFloat Json JsonFacts Calendar Session Schema WebApi Sha256 Engines RealtimeModels RealtimeCore RealtimeHub RealtimeEvents RealtimeSchemas RealtimeService RealtimeServer RealtimeFacts RealtimeDelivery RealtimeLife RealtimeDemo.
#[local] Open Scope string_scope.
#[local] Open Scope list_scope.
#[local] Open Scope Z_scope.

(** [Settings] are read once, so that the bound of the attempts is positive for
    all jobs; a job may be killed wherever it writes. *)
Inductive step {X} `{RedisServer X, PushGateway X, Providers} (w : World X) : World X -> Prop :=
| Step e credit j : 0 < event_max_attempts (settings e) -> step w (snd (serve e credit j w)).
(** The empty database. *)
Definition initial {X} (o : X) : World X := mk_World empty_RealtimeDb (open_session empty_RealtimeDb) 0 [] [] no_token o None.

Record lawful {X} (w : World X) : Prop := { lw_schema : schema (committed w); lw_ok : log_ok (events w) }.

Section Process.
Context {X : Type} `{RedisServer X, PushGateway X, Providers}.
Implicit Types (e : Env) (w : World X).

Lemma lawful_initial (o : X) : lawful (initial o).
Proof. split; [|constructor]. apply schema_checked. by vm_compute. Qed.
(** What one job does to the committed events. *)
Lemma serve_life e c j w : 0 < event_max_attempts (settings e) -> lawful w ->
  let w' := snd (serve e c j w) in
  lawful w' /\ log_le (events w) (events w') /\ List.filter publishes (events w) ⊆ events w'.
Proof.
  intros Hmax [Hs Ho] w'. set (frozen := List.filter publishes (events w)).
  assert (forall r, r ∈ frozen -> publishes r = true) as Hf by by (intros r [_ Hr]%elem_of_filter).
  assert (settled frozen (start c w)) as Hst. { split; try done. by intros r [Hr _]%elem_of_filter. }
  destruct (keep_job frozen Hf e Hmax j (start c w) Hst I) as [[Hs' Ho' Hl Hfr] _].
  assert (committed w' = committed (snd (job e j (start c w)))) as Ec.
  { unfold w', serve. by destruct (job e j (start c w)) as [[|] ?]. }
  split; [split|split]; unfold events in *; by rewrite Ec.
Qed.
Lemma steps_life w w' : lawful w -> rtc step w w' ->
  lawful w' /\ log_le (events w) (events w') /\ List.filter publishes (events w) ⊆ events w'.
Proof.
  intros Hw Hr. revert Hw. induction Hr as [w|w w1 w2 [e c j Hmax] _ IH]; intros Hw.
  - split; [done|]. split; [done|]. by intros r [Hr _]%elem_of_filter.
  - destruct (serve_life e c j w Hmax Hw) as (Hw1 & L1 & F1). destruct (IH Hw1) as (Hw2 & L2 & F2).
    split; [done|]. split; [by etrans|]. intros r Hr. apply F2, elem_of_filter. split; [by apply F1|]. by apply elem_of_filter in Hr as [_ ?].
Qed.
(** Events are told apart by their identifier. *)
Lemma later_event w w' r : lawful w' -> log_le (events w) (events w') -> r ∈ events w ->
  forall x, x ∈ events w' -> key x = key r -> event_le r x.
Proof.
  intros Hw' Hl Hr x Hx Ek. destruct (Hl r Hr) as (r' & Hr' & Hle).
  assert (x = r') as ->; [|done]. apply (key_inj (events w')); [apply sc_events, Hw'|done..|]. by rewrite (event_le_key r r').
Qed.
End Process.

(** C19. The life of a durable event in every reachable state of the service,
    whatever the jobs, the answers of Redis and of the notification service,
    and the points at which the process is killed: the database satisfies its
    schema; an event is never lost; its content (recipients apart, the type,
    payload, keys, times of creation and expiry) never changes; the attempts
    grow and never exceed [max_attempts]; an event that is delivered, expired or
    in the dead letters stays exactly what it is; and the status says what
    has happened ([event_ok]: a delivered event has a delivery time and at
    least one attempt, a dead letter has used all its attempts and has an
    error, a pending one has an attempt left). *)
Theorem event_life {X} `{RedisServer X, PushGateway X, Providers} (o : X) (w w' : World X) :
  rtc step (initial o) w -> rtc step w w' ->
  schema (committed w') /\ Forall (fun r => event_ok r = true) (events w') /\
  forall r, r ∈ events w -> exists r', r' ∈ events w' /\ core r' = core r /\
    RealtimeEvent.attempts r <= RealtimeEvent.attempts r' <= RealtimeEvent.max_attempts r /\
    (RealtimeEvent.status r in? ["delivered"; "expired"; "dead_letter"] = true -> r' = r).
Proof.
  intros Hw Hw'. destruct (steps_life _ _ (lawful_initial o) Hw) as (Lw & _ & _).
  destruct (steps_life _ _ Lw Hw') as ([Hs Ho] & Hl & _). split; [done|]. split; [done|].
  intros r Hr. destruct (Hl r Hr) as (r' & Hr' & Hle). exists r'. split; [done|].
  assert (event_ok r' = true) as Ho' by by eapply Forall_forall in Ho.
  apply event_ok_bounds in Ho'. unfold event_le in Hle. destruct (pending r || publishes r) eqn:E.
  - destruct Hle as [Ec La]. split; [done|]. split.
    + split; [done|]. replace (RealtimeEvent.max_attempts r) with (RealtimeEvent.max_attempts r'); [lia|].
      exact (f_equal RealtimeEvent.max_attempts Ec).
    + intros Hf. by rewrite (final_not_open r Hf) in E.
  - subst r'. split; [done|]. split; [lia|done].
Qed.

(** A notice is stored by a process that is killed at once; the next one delivers
    it in its first round. *)
Lemma event_life_witness :
  let w := publish_at 1 t0 (Some 4%nat) (initial quiet) in
  let w' := snd (serve (demo_env 2 (t0 + seconds 60)) None Round w) in
  rtc step (initial quiet) w /\ rtc step w w' /\
  map RealtimeEvent.status (events w) = ["queued"] /\ map RealtimeEvent.status (events w') = ["delivered"] /\
  Forall (fun r => event_ok r = true) (events w').
Proof.
  intros w w'. assert (rtc step (initial quiet) w) as H1 by (by apply rtc_once; constructor).
  assert (rtc step w w') as H2 by (by apply rtc_once; constructor).
  destruct (event_life quiet w w' H1 H2) as (_ & Hok & _). split; [done|]. split; [done|]. split; [by vm_compute|]. split; [by vm_compute|done].
Defined.

(** C23. An event whose publication is interrupted stays where it is for ever: no
    job of the service (a worker's round selects [queued], [scheduled] and
    [retry] rows only, and so does everything else that delivers) ever touches
    a row whose status is [publishing] when the job starts. *)
Theorem publishing_final {X} `{RedisServer X, PushGateway X, Providers} (w w' : World X) r :
  lawful w -> rtc step w w' -> r ∈ events w -> RealtimeEvent.status r = "publishing" -> r ∈ events w'.
Proof.
  intros Hw Hs Hr Hp. destruct (steps_life w w' Hw Hs) as (_ & _ & Hf). apply Hf, elem_of_filter. split; [done|].
  unfold publishes. by rewrite Hp.
Qed.
(** The notice of a product is stored and accepted, the process is killed before
    it has published it, and a round an hour later leaves it there, one of its
    five attempts used. *)
Lemma publishing_final_witness : exists r,
  lawful interrupted /\ rtc step (initial quiet) interrupted /\ events interrupted = [r] /\ RealtimeEvent.status r = "publishing" /\
  RealtimeEvent.attempts r = 1 /\ r ∈ events (snd (serve (demo_env 2 (t0 + seconds 3600)) None Round interrupted)).
Proof.
  set (r := hd (RealtimeEvent.new_RealtimeEvent 0 0) (events interrupted)). exists r.
  assert (rtc step (initial quiet) interrupted) as Hs.
  { apply rtc_once. change interrupted with (snd (serve (demo_env 1 t0) (Some 5%nat) (Request (PlatformEvents loan_token notice)) (initial quiet))). by constructor. }
  assert (lawful interrupted) as Hl by exact (proj1 (steps_life _ _ (lawful_initial quiet) Hs)).
  split; [done|]. split; [done|]. split; [done|]. split; [done|]. split; [done|].
  apply (publishing_final interrupted); [done| |by left|done]. apply rtc_once. by constructor.
Defined.
