(* ===== verification/RealtimeWorker.v ===== *)
(** The worker of the realtime service: its rounds run to the end whatever Redis
    and the notification service answer, and settle every pending event. *)
From S2P Require Import Prelude PyFloat Json JsonFacts Calendar Session Schema WebApi Sha256 Engines RealtimeModels RealtimeCore RealtimeHub RealtimeEvents RealtimeSchemas RealtimeService RealtimeServer RealtimeFacts RealtimeDelivery RealtimeLife RealtimeDemo.
#[local] Open Scope string_scope.
#[local] Open Scope list_scope.
#[local] Open Scope Z_scope.

(** * Rows an event may be replaced by *)
Definition unasked (r : EventRecipient) : EventRecipient := r <| EventRecipient.push_requested_at := None |>.
Lemma char_take_len n s : str_len (char_take n s) <= Z.of_nat n.
Proof.
  revert n. induction s as [|c s IH]; intros n; cbn [char_take str_len]; [lia|].
  destruct ((128 <=? ord c) && (ord c <? 192)) eqn:E.
  - cbn [str_len]. rewrite (proj2 (Z.eqb_eq _ _)); [apply IH|]. rewrite andb_true_iff in E.
    assert (2 * 64 <= ord c < 3 * 64) by lia. symmetry. apply Z.div_unique with (ord c - 128); lia.
  - destruct n as [|n]; cbn [str_len]; [lia|]. specialize (IH n). destruct (_ =? _); lia.
Qed.
Lemma map_put_row {A} (g : RealtimeEvent -> A) r l : (forall x, x ∈ l -> key x = key r -> g x = g r) -> map g (put_row r l) = map g l.
Proof.
  intros Hg. unfold put_row. rewrite map_map. apply map_ext_in. intros x Hx%list_elem_of_In. bdestruct (key x =? key r); [|done].
  symmetry. by apply Hg.
Qed.
Lemma core_map {A} (g : RealtimeEvent -> A) event r l : (forall x, g (core x) = g x) -> NoDup (keys l) -> event ∈ l -> core r = core event ->
  map g (put_row r l) = map g l.
Proof.
  intros Hg Hn He Ec. apply map_put_row. intros x Hx Ek. assert (key r = key event) as Ek' by exact (f_equal RealtimeEvent.id Ec).
  assert (x = event) as -> by (apply (key_inj l); [done..|congruence]). by rewrite <- (Hg event), <- Ec, Hg.
Qed.
Lemma valid_outcome r r' : valid_RealtimeEvent r = true -> core r' = core r -> event_ok r' = true ->
  str_len (RealtimeEvent.status r') <= 24 -> forallb (text_column 1000) (opt_list (RealtimeEvent.last_error r')) = true ->
  valid_RealtimeEvent r' = true.
Proof.
  intros Hv Ec Ho Hs Hl. apply event_ok_bounds in Ho. unfold valid_RealtimeEvent in *.
  assert (forall A (g : RealtimeEvent -> A), (forall x, g (core x) = g x) -> g r' = g r) as Hc by (intros A g Hg; by rewrite <- (Hg r'), Ec).
  rewrite Hl, !andb_true_r. clear Hl.
  rewrite (Hc _ RealtimeEvent.id), (Hc _ RealtimeEvent.cursor), (Hc _ RealtimeEvent.application_id), (Hc _ RealtimeEvent.source_client_id),
    (Hc _ RealtimeEvent.event_type), (Hc _ RealtimeEvent.version), (Hc _ RealtimeEvent.priority), (Hc _ RealtimeEvent.audience_label),
    (Hc _ RealtimeEvent.idempotency_key), (Hc _ RealtimeEvent.request_fingerprint), (Hc _ RealtimeEvent.max_attempts) by done.
  rewrite (Hc _ RealtimeEvent.max_attempts) in Ho by done.
  unfold text_column, int_column in *. rewrite !andb_true_iff, !Z.leb_le in *. intuition lia.
Qed.
Lemma unasked_map {A} (g : EventRecipient -> A) rs rs' : (forall x, g (unasked x) = g x) -> map unasked rs' = map unasked rs -> map g rs' = map g rs.
Proof.
  intros Hg E. rewrite (map_ext g (fun x => g (unasked x)) (fun x => eq_sym (Hg x)) rs').
  rewrite (map_ext g (fun x => g (unasked x)) (fun x => eq_sym (Hg x)) rs). rewrite <- !(map_map unasked g). by rewrite E.
Qed.
Lemma forallb_map {A} (p : A -> bool) l : forallb p l = forallb id (map p l).
Proof. induction l as [|x l IH]; cbn; [done|]. by rewrite IH. Qed.
(** The database of a delivery: one event replaced, some notices requested. *)
Definition with_event (r : RealtimeEvent) (rs : list EventRecipient) (d : RealtimeDb) : RealtimeDb :=
  d <| realtime_events ::= put_row r |> <| event_recipients := rs |>.
Lemma schema_with_event d event r rs : schema d -> event ∈ realtime_events d -> core r = core event -> valid_RealtimeEvent r = true ->
  map unasked rs = map unasked (event_recipients d) -> schema (with_event r rs d).
Proof.
  intros Hs He Ec Hv Er. pose proof (sc_events d Hs) as Hn.
  pose proof (fun A g Hg => @core_map A g event r (realtime_events d) Hg Hn He Ec) as Hm.
  pose proof (fun A g Hg => @unasked_map A g _ _ Hg Er) as Hu.
  assert (keys (put_row r (realtime_events d)) = keys (realtime_events d)) as Ek by apply keys_put. unfold keys in Ek.
  destruct Hs. constructor; cbn; try done.
  - unfold valid_rows in *. cbn. rewrite !andb_true_iff in *. destruct sc_valid as [[[Hr Hev] Hrs] Ha].
    split; [split; [split; [exact Hr|]|by rewrite forallb_map, (Hu _ valid_EventRecipient), <- forallb_map]|exact Ha].
    apply forallb_forall. intros x Hx%list_elem_of_In. apply put_row_elem in Hx as [->|Hx]; [exact Hv|].
    by apply (proj1 (forallb_forall _ _) Hev), list_elem_of_In.
  - by rewrite Ek.
  - by rewrite (Hu _ key).
  - by rewrite (Hm _ RealtimeEvent.cursor).
  - rewrite flat_map_concat_map, (Hm _ event_key), <- flat_map_concat_map; done.
  - by rewrite (Hu _ recipient_of).
  - intros k Hk. rewrite Ek. rewrite (Hu _ EventRecipient.event_id) in Hk by done. auto.
Qed.
Lemma touch_id {R} `{Keyed R, EqDecision R} updated_at stamp (l : list R) : NoDup (keys l) -> map (touch updated_at stamp l) l = l.
Proof.
  intros Hn. rewrite <- (map_id l) at 3. apply map_ext_in. intros r Hr%list_elem_of_In. unfold touch. rewrite find_row_nodup by done.
  by rewrite bool_decide_true.
Qed.
(** Nothing is touched but what the session has changed. *)
Lemma touch_with_event e d r rs : schema d -> touch_updated e (mk_Session d (with_event r rs d)) = with_event r rs d.
Proof.
  intros Hs. unfold touch_updated. cbn [sql mem]. destruct d. unfold with_event, set. cbn. rewrite !touch_id; [done|apply Hs..].
Qed.

(** * Total correctness *)
Section Runs.
Context {X : Type}.
(** From [P], it returns in [Q]. *)
Definition runs {A} (P : World X -> Prop) (m : M X A) (Q : A -> World X -> Prop) : Prop :=
  forall w, P w -> exists a, fst (m w) = Some (Ok a) /\ Q a (snd (m w)).
Lemma runs_bind {A B} P (m : M X A) Q (k : A -> M X B) R : runs P m Q -> (forall a, runs (Q a) (k a) R) -> runs P (bind m k) R.
Proof.
  intros Hm Hk w HP. destruct (Hm w HP) as (a & Ea & Ha). unfold bind. destruct (m w) as [o w1]. cbn [fst snd] in *. subst o. by apply Hk.
Qed.
Lemma runs_weaken {A} (P P' : World X -> Prop) (m : M X A) (Q Q' : A -> World X -> Prop) :
  (forall w, P' w -> P w) -> (forall a w, Q a w -> Q' a w) -> runs P m Q -> runs P' m Q'.
Proof. intros HP HQ Hm w Hw. destruct (Hm w (HP w Hw)) as (a & Ea & Ha). eauto. Qed.
(** It ends in [J], with a result or an error. *)
Definition ends_in (J : World X -> Prop) {A} (m : M X A) : Prop := forall w, J w -> fst (m w) <> None /\ J (snd (m w)).
Lemma ends_bind J {A B} (m : M X A) (k : A -> M X B) : ends_in J m -> (forall a, ends_in J (k a)) -> ends_in J (bind m k).
Proof.
  intros Hm Hk w Hw. destruct (Hm w Hw) as [Hn Hj]. unfold bind. destruct (m w) as [[[a|x]|] w1]; [by apply Hk|done..].
Qed.
Lemma ends_still J {A} (m : M X A) : (forall w, fst (m w) <> None /\ snd (m w) = w) -> ends_in J m.
Proof. intros Hm w Hw. by destruct (Hm w) as [? ->]. Qed.
Lemma ends_catch J {A} (m : M X A) h : ends_in J m -> (forall x, ends_in J (h x)) -> ends_in J (catch m h).
Proof.
  intros Hm Hh w Hw. destruct (Hm w Hw) as [Hn Hj]. unfold catch. destruct (m w) as [[[a|x]|] w1]; [done|by apply Hh|done].
Qed.
Lemma ends_for_each J {A} (f : A -> M X unit) l : (forall x, ends_in J (f x)) -> ends_in J (for_each f l).
Proof. intros Hf. induction l; cbn [for_each]; [by apply ends_still|]. by apply ends_bind. Qed.
End Runs.

(** * A delivery returns *)
Section Deliver.
Context {X : Type} `{RedisServer X, PushGateway X}.
Implicit Types (e : Env) (w : World X).
(** Between two deliveries, in a process nobody kills. *)
Record clean (w : World X) : Prop := {
  cl_credit : credit w = None;
  cl_schema : schema (committed w);
  cl_session : session w = open_session (committed w)
}.
(** The session has [r] for an event of the database [d], not committed yet. *)
Definition staged (d : RealtimeDb) (r : RealtimeEvent) (w : World X) : Prop :=
  credit w = None /\ committed w = d /\
  exists rs, session w = mk_Session d (with_event r rs d) /\ map unasked rs = map unasked (event_recipients d).

Lemma clean_staged event w : clean w -> event ∈ events w -> staged (committed w) event w.
Proof.
  intros [Hc Hs Ho] He. split; [done|]. split; [done|]. exists (event_recipients (committed w)). split; [|done].
  rewrite Ho. unfold open_session. f_equal. pose proof (sc_events _ Hs) as Hn. unfold events in He. destruct (committed w). unfold with_event, set. cbn -[put_row] in *.
  by rewrite put_row_same.
Qed.
Lemma runs_assign d f r : key (f r) = key r ->
  runs (staged d r) (assign realtime_events f r) (fun a w => a = f r /\ staged d (f r) w).
Proof.
  intros Hk w (Hc & Hd & rs & Hs & Er). eexists. split; [done|]. split; [done|]. split; [done|]. split; [done|]. exists rs. split; [|done].
  unfold assign, modify, bind, update, set. cbn [snd session committed]. cbn. rewrite Hs. cbn. f_equal. destruct d. unfold with_event, set. cbn -[put_row]. f_equal.
  unfold put_row. rewrite map_map, Hk. apply map_ext. intros x. bdestruct (key x =? key r); [by rewrite Z.eqb_refl|]. by rewrite (proj2 (Z.eqb_neq _ _)).
Qed.
Lemma runs_commit e d event r : schema d -> event ∈ realtime_events d -> core r = core event -> valid_RealtimeEvent r = true ->
  runs (staged d r) (commit e) (fun _ w => clean w /\ exists rs, committed w = with_event r rs d).
Proof.
  intros Hs He Ec Hv w (Hc & Hd & rs & Hss & Er). exists tt.
  pose proof (schema_with_event d event r rs Hs He Ec Hv Er) as Hs'. pose proof (proj2 (schema_checked _) Hs') as Hck.
  assert (commit e w = (Some (Ok tt), w <| session := open_session (with_event r rs d) |> <| committed := with_event r rs d |>)) as ->.
  { unfold commit, bind, tick. rewrite Hc. unfold flush, bind, query, lift. rewrite Hss, touch_with_event, Hck by done. done. }
  split; [done|]. split; [by split|]. by exists rs.
Qed.

Lemma ends_tick d r : ends_in (staged d r) (@tick X).
Proof. intros w (Hc & Hw). unfold tick. rewrite Hc. by split; [|split]. Qed.
Lemma ends_call d r {A} (f : X -> result A * X) : ends_in (staged d r) (call f).
Proof. apply ends_bind; [apply ends_tick|]. intros _ w Hw. by split. Qed.
Lemma ends_presence d r e ks : ends_in (staged d r) (read_presence e ks).
Proof. induction ks; cbn [read_presence]; [by apply ends_still|]. apply ends_bind; [apply ends_call|intros]. apply ends_bind; [done|intros; by apply ends_still]. Qed.
Lemma ends_online d r e a s : ends_in (staged d r) (is_online e a s).
Proof.
  unfold is_online, remote_presence. apply ends_bind; [|intros; by apply ends_still]. apply ends_bind; [apply ends_call|intros; apply ends_presence].
Qed.
Lemma ends_publish d r e a v : ends_in (staged d r) (publish e a v).
Proof. unfold publish, count_metric. apply ends_bind; [apply ends_call|intros; apply ends_call]. Qed.
Lemma ends_token d r e : ends_in (staged d r) (get_service_token e).
Proof.
  intros w Hw. unfold get_service_token. cbv zeta. destruct (_ && _); [split; [by cbn|exact Hw]|]. revert w Hw.
  apply ends_bind; [unfold require; case_match; by apply ends_still|intros _].
  apply ends_bind; [apply ends_call|]. intros [value expires]. apply ends_bind; [|intros; by apply ends_still]. intros w Hw. by split.
Qed.
Lemma ends_notify d r e n : ends_in (staged d r) (notify_event e n).
Proof. unfold notify_event. case_match; [by apply ends_still|]. apply ends_bind; [apply ends_token|intros; apply ends_call]. Qed.
Lemma ends_requested d r e x :
  ends_in (staged d r) (assign event_recipients (fun x => x <| EventRecipient.push_requested_at := Some (now e) |>) x).
Proof.
  intros w (Hc & Hd & rs & Hs & Er). split; [done|]. split; [done|]. split; [done|].
  eexists (map (fun y => if key y =? key x then y <| EventRecipient.push_requested_at := Some (now e) |> else y) rs). split.
  - unfold assign, modify, bind, update, set. cbn [snd session committed]. cbn. rewrite Hs. cbn. destruct d. unfold with_event, set. reflexivity.
  - rewrite map_map, <- Er. apply map_ext. intros y. by case_match.
Qed.
Lemma ends_push d r e event x : ends_in (staged d r) (push_recipient e event x).
Proof.
  unfold push_recipient. apply ends_bind; [apply ends_online|]. intros []; [by apply ends_still|].
  apply ends_bind; [apply ends_notify|intros]. apply ends_bind; [apply ends_requested|intros; by apply ends_still].
Qed.
(** Publishing and notifying succeed or raise; the event is delivered or has failed. *)
Lemma runs_attempt e d event : event ∈ realtime_events d ->
  runs (staged d event) (catch (attempt e event) (fun exc => assign realtime_events (failed e exc) event))
    (fun r w => staged d r w /\ (r = delivered e event \/ exists x, r = failed e x event)).
Proof.
  intros He w Hw. unfold catch.
  set (m := fun recipients => publish e (RealtimeEvent.application_id event) (event_wire event recipients) ;;
    when RealtimeEvent.push_enabled event then! for_each (push_recipient e event) recipients).
  set (l := recipients_of (RealtimeEvent.id event) (session w)).
  assert (attempt e event w = (m l ;; assign realtime_events (delivered e) event) w) as ->.
  { unfold attempt, m, bind, query. fold l. by destruct (publish _ _ _ w) as [[[]|] w2]. }
  assert (ends_in (staged d event) (m l)) as Hm.
  { unfold m. apply ends_bind; [apply ends_publish|intros _]. case_match; [|by apply ends_still]. apply ends_for_each. intros. apply ends_push. }
  destruct (Hm w Hw) as [Hn Hj]. unfold bind. destruct (m l w) as [[[[]|x]|] w1]; cbn [fst snd] in *; [| |done].
  - destruct (runs_assign d (delivered e) event eq_refl w1 Hj) as (a & Ea & -> & Hs).
    destruct (assign realtime_events (delivered e) event w1) as [o w2]. cbn [fst snd] in *. subst o. eexists. split; [done|].
    split; [exact Hs|]. by left.
  - destruct (runs_assign d (failed e x) event (f_equal RealtimeEvent.id (failed_core e x event)) w1 Hj) as (a & Ea & -> & Hs). eexists. split; [exact Ea|].
    split; [exact Hs|]. eauto.
Qed.
Lemma storable_event d r : schema d -> r ∈ realtime_events d -> valid_RealtimeEvent r = true.
Proof.
  intros Hs Hr. pose proof (sc_valid d Hs) as Hv. unfold valid_rows in Hv. rewrite !andb_true_iff in Hv. destruct Hv as [[[_ Hv] _] _].
  by apply (proj1 (forallb_forall _ _) Hv), list_elem_of_In.
Qed.
Lemma valid_settled e event r : valid_RealtimeEvent event = true -> pending event = true -> event_ok event = true ->
  outcome e event r -> valid_RealtimeEvent r = true.
Proof.
  intros Hv Hp Ho Hr. apply (valid_outcome event); [done| |by eapply outcome_event_ok| |].
  - pose proof (outcome_le e event r Hp Hr) as Hle. unfold event_le in Hle. rewrite Hp in Hle. apply Hle.
  - destruct Hr as [| | |x]; try done. unfold failed. cbv zeta. by case_match.
  - destruct Hr as [|_| |x]; try done.
    + unfold valid_RealtimeEvent in Hv. by apply andb_true_iff in Hv as [_ Hv].
    + unfold failed. cbv zeta. case_match; cbn -[char_take]; rewrite andb_true_r; apply Z.leb_le, char_take_len.
Qed.
Lemma deliver_runs e event d : schema d -> event ∈ realtime_events d -> pending event = true -> event_ok event = true ->
  runs (fun w => clean w /\ committed w = d) (deliver_event e event) (fun _ => clean).
Proof.
  intros Hs He Hp Ho w [Hw Ed]. pose proof (storable_event d event Hs He) as Hv. pose proof (event_ok_pending event Hp Ho) as Hb.
  assert (staged d event w) as Hst by (rewrite <- Ed; apply clean_staged; [done|unfold events; by rewrite Ed]).
  assert (forall f, key (f event) = key event -> outcome e event (f event) ->
    exists a, fst ((let! r := assign realtime_events f event in commit e ;; ret r) w) = Some (Ok a) /\
      clean (snd ((let! r := assign realtime_events f event in commit e ;; ret r) w))) as Hone.
  { intros f Hf Hof. refine (runs_bind (staged d event) _ _ _ (fun _ => clean) (runs_assign d f event Hf) _ w Hst).
    intros a w1 [-> Hst1]. pose proof (outcome_le e event _ Hp Hof) as Hle. unfold event_le in Hle. rewrite Hp in Hle.
    refine (runs_bind _ _ _ _ (fun _ => clean) (runs_commit e d event (f event) Hs He (proj1 Hle) _) _ w1 Hst1).
    - by apply (valid_settled e event).
    - intros [] w2 [Hc _]. eexists. split; [reflexivity|exact Hc]. }
  unfold deliver_event. bdestruct (RealtimeEvent.expires_at event <=? now e); [by apply (Hone expired); [|constructor]|].
  bdestruct (now e <? RealtimeEvent.deliver_at event); [by apply (Hone (with_status "scheduled")); [|constructor]|]. clear Hone.
  set (event1 := publishing event).
  assert (valid_RealtimeEvent event1 = true) as Hv1.
  { apply (valid_outcome event); [done|done|by apply publishing_ok|done|]. unfold valid_RealtimeEvent in Hv. by apply andb_true_iff in Hv as [_ Hv]. }
  refine (runs_bind (staged d event) _ _ _ (fun _ => clean) (runs_assign d publishing event eq_refl) _ w Hst). intros a w1 [-> Hst1]. fold event1 in Hst1 |- *.
  refine (runs_bind _ _ _ _ (fun _ => clean) (runs_commit e d event event1 Hs He eq_refl Hv1) _ w1 Hst1). intros [] w2 (Hc2 & rs & Ed2).
  assert (event1 ∈ realtime_events (committed w2)) as He1 by (rewrite Ed2; apply put_row_in; by apply (list_elem_of_fmap_2 key (realtime_events d) event)).
  refine (runs_bind (staged (committed w2) event1) _ _ _ (fun _ => clean) (runs_attempt e (committed w2) event1 He1) _ w2 (clean_staged event1 w2 Hc2 He1)).
  intros r w3 [Hst3 Hr].
  assert (outcome e event r) as Hor by (destruct Hr as [->|[x ->]]; constructor).
  pose proof (outcome_le e event r Hp Hor) as Hle. unfold event_le in Hle. rewrite Hp in Hle.
  refine (runs_bind _ _ _ _ (fun _ => clean) (runs_commit e (committed w2) event1 r (cl_schema w2 Hc2) He1 (proj1 Hle) _) _ w3 Hst3).
  - by apply (valid_settled e event).
  - intros [] w4 [Hc4 _]. eexists. split; [reflexivity|exact Hc4].
Qed.
(** A delivery in a process that is not killed: it returns, and the event has one
    of its outcomes. *)
Lemma deliver_done e event w : clean w -> log_ok (events w) -> event ∈ events w -> pending event = true ->
  exists a r, fst (deliver_event e event w) = Some (Ok a) /\ clean (snd (deliver_event e event w)) /\
    events (snd (deliver_event e event w)) = put_row r (events w) /\ outcome e event r.
Proof.
  intros Hw Hl He Hp. assert (event_ok event = true) as Ho by by eapply Forall_forall in Hl.
  destruct (deliver_runs e event (committed w) (cl_schema w Hw) He Hp Ho w) as (a & Ea & Hc); [done|].
  set (frozen := List.filter publishes (events w)).
  assert (forall r, r ∈ frozen -> publishes r = true) as Hf by by (intros r [_ Hr]%elem_of_filter).
  assert (frozen ⊆ events w) as Hfl by by (intros r [Hr _]%elem_of_filter).
  assert (sound frozen w) as Hsd by (destruct Hw; by split).
  assert (holding (events w) (events w) w) as Hh. { split; [|done]. by rewrite (cl_session w Hw). }
  destruct (writes_deliver frozen Hf e event (events w) (sc_events _ (cl_schema w Hw)) Hl Hfl He Hp w Hsd Hh) as [_ Hq].
  destruct (Hq a Ea) as [_ [_ (r & Er & Hr)]]. by exists a, r.
Qed.
End Deliver.

(** * Rounds *)

(** The attempts the pending events have left. *)
Definition attempts_left (r : RealtimeEvent) : Z := RealtimeEvent.max_attempts r - RealtimeEvent.attempts r.
Definition work (l : list RealtimeEvent) : Z := sum_by attempts_left (List.filter pending l).
Lemma work_nonneg l : log_ok l -> 0 <= work l.
Proof.
  intros Hl. apply sum_by_nonneg, Forall_forall. intros r [Hr Hp]%elem_of_filter. eapply Forall_forall in Hl; [|done].
  pose proof (event_ok_pending r Hp Hl). unfold attempts_left. lia.
Qed.
Lemma outcome_work e r r' : event_ok r = true -> pending r = true -> RealtimeEvent.deliver_at r <= now e -> outcome e r r' ->
  (if pending r' then attempts_left r' else 0) + 1 <= attempts_left r.
Proof.
  intros Ho Hp Hd Hr. pose proof (event_ok_pending r Hp Ho) as Hb. unfold attempts_left. destruct Hr as [| | |x].
  1: { change (pending (expired r)) with false. cbv iota. lia. }
  1: lia.
  1: { change (pending (delivered e (publishing r))) with false. cbv iota. lia. }
  rewrite failed_attempts. replace (RealtimeEvent.max_attempts (failed e x (publishing r))) with (RealtimeEvent.max_attempts r)
    by exact (eq_sym (f_equal RealtimeEvent.max_attempts (failed_core e x (publishing r)))).
  change (RealtimeEvent.attempts (publishing r)) with (Z.succ (RealtimeEvent.attempts r)). case_match; lia.
Qed.
Lemma work_put e l r r' : NoDup (keys l) -> log_ok l -> r ∈ l -> pending r = true -> RealtimeEvent.deliver_at r <= now e -> outcome e r r' ->
  work (put_row r' l) + 1 <= work l.
Proof.
  intros Hn Hl Hr Hp Hd Ho. assert (event_ok r = true) as Hok by by eapply Forall_forall in Hl.
  pose proof (outcome_work e r r' Hok Hp Hd Ho) as Hw. unfold work. rewrite (sum_filter_put pending attempts_left r' r), Hp; [lia|done|].
  rewrite (event_le_key r r') by by eapply outcome_le. by apply find_row_nodup.
Qed.
Lemma outcome_published e r r' : outcome e r r' -> publishes r' = false.
Proof. destruct 1 as [| | |x]; try done. unfold failed. cbv zeta. by case_match. Qed.
(** A retry is not later than [T]. *)
Lemma outcome_deliver_at e B T r r' : RealtimeEvent.max_attempts r <= B -> 0 <= event_retry_seconds (settings e) ->
  now e + seconds (event_retry_seconds (settings e) * B) <= T -> event_ok r = true -> pending r = true ->
  RealtimeEvent.deliver_at r <= T -> outcome e r r' -> pending r' = true -> RealtimeEvent.deliver_at r' <= T.
Proof.
  intros HB Hs HT Ho Hp Hd Hr Hp'. pose proof (event_ok_pending r Hp Ho) as Hb. destruct Hr as [| | |x]; [done..|].
  unfold failed in *. cbv zeta in *. case_match; [done|]. cbn -[seconds Z.mul]. unfold seconds in *. nia.
Qed.

(** There is one or there is none. *)
Lemma filter_cases {A} (p : A -> bool) l : (exists x, x ∈ l /\ p x = true) \/ (List.filter p l = [] /\ forall x, x ∈ l -> p x = false).
Proof.
  destruct (List.filter p l) as [|x k] eqn:E; [right; split; [done|]|left; exists x; apply elem_of_filter; rewrite E; left].
  intros x Hx. destruct (p x) eqn:Hp; [|done]. assert (x ∈ List.filter p l) as Hin by by apply elem_of_filter. rewrite E in Hin. by apply elem_of_nil in Hin.
Qed.
Lemma work_cons r l : work (r :: l) = (if pending r then attempts_left r else 0) + work l.
Proof. unfold work, sum_by. cbn [List.filter]. by destruct (pending r). Qed.
Lemma work_pos l r : log_ok l -> r ∈ l -> pending r = true -> 0 < work l.
Proof.
  induction 1 as [|x l Ho Hl IH]; intros Hr Hp; [by apply elem_of_nil in Hr|]. rewrite work_cons. pose proof (work_nonneg l Hl).
  assert (pending x = true -> 0 < attempts_left x) as Hx by (intros Hpx; pose proof (event_ok_pending x Hpx Ho); unfold attempts_left; lia).
  apply elem_of_cons in Hr as [->|Hr]; [rewrite Hp in *; specialize (Hx eq_refl); lia|specialize (IH Hr Hp)].
  destruct (pending x); [specialize (Hx eq_refl)|]; lia.
Qed.

Section Rounds.
Context {X : Type} `{RedisServer X, PushGateway X, Providers}.
Implicit Types (e : Env) (w : World X).
Context (B : Z).
(** Every pending event is due at [T], and none may be attempted more than [B] times. *)
Record calm (T : time) (w : World X) : Prop := {
  ca_ok : log_ok (events w);
  ca_bound : forall r, r ∈ events w -> RealtimeEvent.max_attempts r <= B;
  ca_due : forall r, r ∈ events w -> pending r = true -> RealtimeEvent.deliver_at r <= T
}.
(** What a delivery and a round keep, besides. *)
Record onward (w w' : World X) : Prop := {
  on_log : log_le (events w) (events w');
  on_publishing : forall r, r ∈ events w' -> publishes r = true -> r ∈ events w
}.
Lemma onward_refl w : onward w w.
Proof. by split. Qed.
Lemma onward_trans w1 w2 w3 : onward w1 w2 -> onward w2 w3 -> onward w1 w3.
Proof. intros [L1 P1] [L2 P2]. split; [by etrans|auto]. Qed.

Lemma deliver_due e T event w : 0 <= event_retry_seconds (settings e) -> now e + seconds (event_retry_seconds (settings e) * B) <= T ->
  clean w -> calm T w -> event ∈ events w -> pending event = true -> RealtimeEvent.deliver_at event <= now e ->
  let w' := snd (deliver_event e event w) in
  (exists a, fst (deliver_event e event w) = Some (Ok a)) /\ clean w' /\ calm T w' /\ onward w w' /\ work (events w') + 1 <= work (events w) /\
  forall x, x ∈ events w -> key x <> key event -> x ∈ events w'.
Proof.
  intros Hretry HT Hw [Hl HB Hd] He Hp Hdue w'. destruct (deliver_done e event w Hw Hl He Hp) as (a & r & Ea & Hc & Ev & Hr). fold w' in Hc, Ev.
  assert (event_ok event = true) as Ho by by eapply Forall_forall in Hl.
  pose proof (sc_events _ (cl_schema w Hw)) as Hn. fold (events w) in Hn. pose proof (outcome_le e event r Hp Hr) as Hle.
  split; [by exists a|]. split; [done|]. rewrite Ev. split; [split|split; [split|split]]; rewrite ?Ev.
  - by apply log_ok_put; [eapply outcome_event_ok|].
  - intros x [->|Hx]%put_row_elem; [|auto]. unfold event_le in Hle. rewrite Hp in Hle. cbn [orb] in Hle.
    rewrite (f_equal RealtimeEvent.max_attempts (proj1 Hle) : RealtimeEvent.max_attempts r = RealtimeEvent.max_attempts event). auto.
  - intros x [->|Hx]%put_row_elem Hpx; [|auto]. eapply (outcome_deliver_at e B T event r); auto.
  - by eapply log_le_put.
  - intros x [->|Hx]%put_row_elem Hpx; [|done]. by rewrite (outcome_published e event r Hr) in Hpx.
  - by eapply work_put.
  - intros x Hx Hk. unfold put_row. apply list_elem_of_fmap. exists x. split; [|done]. rewrite (event_le_key event r Hle).
    by rewrite (proj2 (Z.eqb_neq _ _)).
Qed.
Lemma batch_due e T rows w : 0 <= event_retry_seconds (settings e) -> now e + seconds (event_retry_seconds (settings e) * B) <= T ->
  clean w -> calm T w -> NoDup (keys rows) -> (forall r, r ∈ rows -> r ∈ events w /\ due (now e) r = true) ->
  let m := for_each (fun event => deliver_event e event ;; ret tt) rows in
  fst (m w) = Some (Ok tt) /\ clean (snd (m w)) /\ calm T (snd (m w)) /\ onward w (snd (m w)) /\
  work (events (snd (m w))) + zlen rows <= work (events w).
Proof.
  intros Hretry HT. revert w. induction rows as [|r rows IH]; intros w Hw Hca Hn Hrows; cbn [for_each].
  { split; [done|]. split; [done|]. split; [done|]. split; [apply onward_refl|]. unfold zlen. cbn. lia. }
  apply NoDup_cons in Hn as [Hr Hn]. destruct (Hrows r) as [He Hdue]; [by left|].
  assert (RealtimeEvent.deliver_at r <= now e) as Ht by (unfold due in Hdue; apply andb_true_iff in Hdue as [_ ?]; lia).
  destruct (deliver_due e T r w Hretry HT Hw Hca He (due_pending _ _ Hdue) Ht) as ((a & Ea) & Hw1 & Hca1 & Hon & Hwork & Hkeep).
  cbv zeta. unfold bind. destruct (deliver_event e r w) as [o w1]. cbn [fst snd] in *. subst o. cbn [ret].
  destruct (IH w1 Hw1 Hca1 Hn) as (E & Hw2 & Hca2 & Hon2 & Hwork2).
  { intros x Hx. destruct (Hrows x) as [Hx1 Hx2]; [by right|]. split; [|done]. apply Hkeep; [done|]. intros Ek. apply Hr. rewrite <- Ek. by apply list_elem_of_fmap_2. }
  split; [done|]. split; [done|]. split; [done|]. split; [by eapply onward_trans|]. unfold zlen in *. cbn [List.length].
  etrans; [|exact Hwork]. rewrite Nat2Z.inj_succ, <- Z.add_1_r, Z.add_assoc. apply Zplus_le_compat_r, Hwork2.
Qed.
Lemma onward_committed w w1 w2 : committed w2 = committed w1 -> onward w w1 -> onward w w2.
Proof. intros E [L P]. split; unfold events in *; by rewrite E. Qed.
(** One round on every event that was due. *)
Lemma round_due e T w : 0 <= event_retry_seconds (settings e) -> now e + seconds (event_retry_seconds (settings e) * B) <= T ->
  schema (committed w) -> calm (now e) w ->
  let w' := snd (serve e None Round w) in
  fst (serve e None Round w) = Some (Ok Finished) /\ schema (committed w') /\ calm T w' /\ onward w w' /\
  (work (events w') + 1 <= work (events w) \/ forall r, r ∈ events w -> pending r = false) /\ work (events w') <= work (events w).
Proof.
  intros Hretry HT Hs Hca w'. set (w0 := start None w).
  assert (clean w0) as Hw0 by by split.
  assert (now e <= T \/ forall r, r ∈ events w -> pending r = false) as HnT.
  { destruct (filter_cases pending (events w)) as [(r & Hr & Hp)|[_ Hno]]; [left|by right].
    pose proof (ca_bound _ _ Hca r Hr). pose proof (proj1 (Forall_forall _ _) (ca_ok _ _ Hca) r Hr) as Ho.
    pose proof (event_ok_pending r Hp Ho). unfold seconds in HT. nia. }
  assert (calm T w0) as Hca0.
  { destruct Hca as [Hl HB Hd]. split; [done|done|]. intros r Hr Hp. destruct HnT as [Hle|Hno]; [specialize (Hd r Hr Hp); lia|].
    by rewrite (Hno r Hr) in Hp. }
  set (rows := take 100 (select_ordered realtime_events (asc RealtimeEvent.deliver_at) (due (now e)) (session w0))).
  assert (settled [] w0) as Hst. { split; try done; [by apply Hca|]. by intros r ?%elem_of_nil. }
  destruct (due_batch [] e 100 w0 Hst) as (Er & Hn & Hrows). fold rows in Er, Hn, Hrows.
  destruct (batch_due e T rows w0 Hretry HT Hw0 Hca0 Hn Hrows) as (E & Hw1 & Hca1 & Hon & Hwork).
  set (m := for_each (fun event => deliver_event e event ;; ret tt) rows) in *.
  assert (serve e None Round w = (Some (Ok Finished), snd (m w0))) as Es.
  { enough (job e Round w0 = (Some (Ok Finished), snd (m w0))) as Ej by (unfold serve; fold w0; by rewrite Ej).
    change (job e Round w0) with (bind (bind m (fun _ => ret (zlen rows))) (fun _ => ret Finished) w0). unfold bind.
    destruct (m w0) as [o w1]. cbn [fst snd] in *. by subst o. }
  unfold w'. rewrite Es. cbn [snd fst]. split; [done|]. split; [apply Hw1|]. split; [done|]. split; [by destruct Hon; split|].
  assert (0 <= zlen rows) by (unfold zlen; lia). split; [|change (events w) with (events w0); lia].
  change (events w0) with (events w) in Hwork. destruct (decide (rows = [])) as [E0|Hne]; [right|left; destruct rows; unfold zlen in *; cbn [List.length] in *; [done|lia]].
  intros r Hr. destruct (pending r) eqn:Hp; [|done]. exfalso.
  assert (r ∈ List.filter (due (now e)) (events w)) as Hin.
  { apply elem_of_filter. split; [done|]. unfold due, pending in *. rewrite Hp. apply Z.leb_le. by apply (ca_due _ _ Hca). }
  rewrite <- (sort_cmp_perm (asc RealtimeEvent.deliver_at)) in Hin. rewrite E0 in Er.
  change (events w0) with (events w) in Er. destruct (sort_cmp _ _); [by apply elem_of_nil in Hin|done].
Qed.

(** Rounds one after the other, each at its time. *)
Fixpoint rounds (es : list Env) (w : World X) : World X :=
  match es with [] => w | e :: es => rounds es (snd (serve e None Round w)) end.
(** A worker with settings [s], whose rounds are as far apart as the longest
    delay of a retry. *)
Fixpoint spaced (s : Settings) (T : time) (es : list Env) : Prop :=
  match es with
  | [] => True
  | e :: es => settings e = s /\ T <= now e /\ spaced s (now e + seconds (event_retry_seconds s * B)) es
  end.
Lemma calm_later T T' w : T <= T' -> calm T w -> calm T' w.
Proof. intros HT [Hl HB Hd]. split; [done|done|]. intros r Hr Hp. specialize (Hd r Hr Hp). lia. Qed.
Lemma rounds_due s T es w : 0 <= event_retry_seconds s -> spaced s T es -> schema (committed w) -> calm T w -> work (events w) <= zlen es ->
  schema (committed (rounds es w)) /\ log_ok (events (rounds es w)) /\ onward w (rounds es w) /\
  forall r, r ∈ events (rounds es w) -> pending r = false.
Proof.
  intros Hretry. revert T w. induction es as [|e es IH]; intros T w Hsp Hs Hca Hwork; cbn [rounds spaced] in *.
  - split; [done|]. split; [apply Hca|]. split; [apply onward_refl|]. intros r Hr. destruct (pending r) eqn:Hp; [|done].
    pose proof (work_pos _ r (ca_ok _ _ Hca) Hr Hp). unfold zlen in Hwork. cbn in Hwork. lia.
  - destruct Hsp as (<- & HT & Hsp).
    destruct (round_due e _ w Hretry (Z.le_refl _) Hs (calm_later T (now e) w HT Hca)) as (_ & Hs1 & Hca1 & Hon & Hless & Hmono).
    unfold zlen in *. cbn [List.length] in Hwork.
    destruct (IH _ _ Hsp Hs1 Hca1) as (Hs2 & Hl2 & Hon2 & Hp2).
    { destruct Hless as [?|Hno]; [lia|]. destruct (filter_cases pending (events w)) as [(r & Hr & Hp)|[E _]]; [by rewrite (Hno r Hr) in Hp|].
      assert (work (events w) = 0) by (unfold work; by rewrite E). lia. }
    split; [done|]. split; [done|]. split; [by eapply onward_trans|done].
Qed.
End Rounds.
(** [log_ok] leaves no other status. *)
Lemma closed_status r : event_ok r = true -> pending r = false -> publishes r = false ->
  RealtimeEvent.status r in? ["delivered"; "expired"; "dead_letter"] = true.
Proof.
  unfold event_ok, publishes. intros Ho Hp Hq. rewrite Hp, Hq in Ho. cbn [orb] in Ho. apply elem_in.
  destruct (RealtimeEvent.status r ==? "expired") eqn:E1; [apply bool_decide_eq_true in E1 as ->; set_solver|].
  destruct (RealtimeEvent.status r ==? "delivered") eqn:E2; [apply bool_decide_eq_true in E2 as ->; set_solver|].
  rewrite !andb_true_iff in Ho. destruct Ho as [[[E3 _] _] _]. apply bool_decide_eq_true in E3 as ->. set_solver.
Qed.

(** C22. The worker settles every event, whatever Redis and the notification
    service answer: from any lawful state, as many rounds as the pending events
    have attempts left, each at a time when the delays of the previous ones are
    over, run to the end, and then no event is pending: each event that was is
    delivered, expired or a dead letter, with its content unchanged. *)
Theorem worker_settles {X} `{RedisServer X, PushGateway X, Providers} (s : Settings) (B : Z) (T : time) (es : list Env) (w : World X) :
  schema (committed w) -> Forall (fun r => event_ok r = true) (events w) ->
  (forall r, r ∈ events w -> RealtimeEvent.max_attempts r <= B /\ (pending r = true -> RealtimeEvent.deliver_at r <= T)) ->
  0 <= event_retry_seconds s -> spaced B s T es -> work (events w) <= zlen es ->
  (forall r, r ∈ events (rounds es w) -> pending r = false) /\
  forall r, r ∈ events w -> pending r = true -> exists r', r' ∈ events (rounds es w) /\ core r' = core r /\
    RealtimeEvent.status r' in? ["delivered"; "expired"; "dead_letter"] = true.
Proof.
  intros Hs Hl Hb Hretry Hsp Hwork. assert (calm B T w) as Hca by (split; [done|intros r Hr; by apply Hb..]).
  destruct (rounds_due B s T es w Hretry Hsp Hs Hca Hwork) as (Hs' & Hl' & [Hlog Hpub] & Hp). split; [done|].
  intros r Hr Hpr. destruct (Hlog r Hr) as (r' & Hr' & Hle). exists r'. split; [done|].
  pose proof (event_le_key r r' Hle) as Hk. unfold event_le in Hle. rewrite Hpr in Hle. split; [apply Hle|].
  apply closed_status; [by eapply Forall_forall in Hl'|by apply Hp|]. destruct (publishes r') eqn:Hq; [|done].
  assert (r' = r) as -> by (apply (key_inj (events w)); [apply sc_events, Hs|by apply Hpub|done..]). specialize (Hp r Hr'). congruence.
Qed.
(** A notice is stored, the process restarts before it delivers it, and the
    notification service is down: after five rounds it is a dead letter. *)
Definition push_down : Servers := quiet <| patience := 0%nat |>.
Definition stored : World Servers := Eval vm_compute in publish_at 1 t0 (Some 4%nat) (world0 <| outside := push_down |>).
Definition five_rounds : list Env := map (fun n => demo_env n (t0 + seconds (60 * n))) [2; 3; 4; 5; 6].
Lemma worker_settles_witness :
  (exists r', r' ∈ events (rounds five_rounds stored) /\
    RealtimeEvent.status r' in? ["delivered"; "expired"; "dead_letter"] = true) /\
  map RealtimeEvent.status (events stored) = ["queued"] /\
  map (fun r => (RealtimeEvent.status r, RealtimeEvent.attempts r, RealtimeEvent.last_error r)) (events (rounds five_rounds stored)) =
    [("dead_letter", 5, Some "Server error '503 Service Unavailable'")].
Proof.
  split; [|by vm_compute]. set (r := hd (RealtimeEvent.new_RealtimeEvent 0 0) (events stored)).
  destruct (worker_settles demo_settings 5 (t0 + seconds 60) five_rounds stored) as [_ Hq].
  - apply schema_checked. by vm_compute.
  - by repeat constructor.
  - intros r' Hr'. assert (r' = r) as -> by (by apply list_elem_of_singleton in Hr'). by vm_compute.
  - done.
  - by vm_compute.
  - by vm_compute.
  - destruct (Hq r) as (r' & Hr' & _ & Hst); [by left|done|]. by exists r'.
Defined.
