(* ===== verification/RealtimeFanout.v ===== *)
(** From the database to the sockets: a durable event that one process publishes
    reaches, through the JSON text on Redis, exactly the sockets it is meant for
    in every other process. *)
From S2P Require Import Prelude PyFloat Json JsonFacts JsonText Calendar Session Schema WebApi Sha256 Engines RealtimeModels RealtimeCore RealtimeHub RealtimeEvents RealtimeSchemas RealtimeService RealtimeServer RealtimeFacts RealtimeDemo RealtimeDelivery RealtimeLife RealtimeProcess.
#[local] Open Scope string_scope.
#[local] Open Scope list_scope.
#[local] Open Scope Z_scope.

(** * Dictionaries *)
Lemma dict_get_update {V} k k' (v : V) d : dict_get k (dict_set k' v d) = if k ==? k' then Some v else dict_get k d.
Proof.
  induction d as [|[k0 v0] d IH]; cbn.
  - destruct (String.eqb_spec k k') as [->|Hne]; [by rewrite bool_decide_true|by rewrite bool_decide_false].
  - destruct (String.eqb_spec k' k0) as [->|Hne0]; cbn.
    + destruct (String.eqb_spec k k0) as [->|Hne]; [by rewrite bool_decide_true|by rewrite bool_decide_false].
    + rewrite IH. destruct (String.eqb_spec k k0) as [->|Hne]; [by rewrite bool_decide_false by congruence|done].
Qed.
(** Protocol fields win over what the payload says. *)
Lemma wire_field event recipients k v : (k, v) ∈ protocol_fields event recipients -> jget k (event_wire event recipients) = v.
Proof.
  unfold event_wire, merge_dict, jget. unfold protocol_fields. intros Hin. cbn [fold_left fst snd]. rewrite !dict_get_update.
  repeat (apply elem_of_cons in Hin as [[= -> ->]|Hin]; [reflexivity|]). by apply elem_of_nil in Hin.
Qed.

(** * The sockets of a process *)

(** [connections] is a dictionary: a subject has one bucket. *)
Definition tidy {X} (w : World X) : Prop := NoDup (map fst (connections w)).
Lemma map_set_keys {K V} `{EqDecision K} (k : K) (v : V) l : NoDup (map fst l) -> NoDup (map fst (map_set k v l)) /\
  forall x, x ∈ map fst (map_set k v l) -> x = k \/ x ∈ map fst l.
Proof.
  induction l as [|[k' v'] l IH]; cbn; intros Hn.
  - split; [apply NoDup_singleton|]. intros x Hx. left. by apply list_elem_of_singleton in Hx.
  - apply NoDup_cons in Hn as [Hk Hn]. destruct (k ==? k') eqn:E; cbn.
    + split; [by constructor|]. intros x Hx. by right.
    + destruct (IH Hn) as [Hn' Hin]. split.
      * constructor; [|done]. intros Hx. destruct (Hin _ Hx) as [->|?]; [|done]. by rewrite bool_decide_true in E.
      * intros x [->|Hx]%elem_of_cons; [right; left|]. destruct (Hin _ Hx); [by left|right; by right].
Qed.
Lemma map_get_elem {K V} `{EqDecision K} (k : K) (v : V) l : NoDup (map fst l) -> map_get k l = Some v <-> (k, v) ∈ l.
Proof.
  induction l as [|[k' v'] l IH]; cbn; intros Hn; [split; [done|by intros ?%elem_of_nil]|]. apply NoDup_cons in Hn as [Hk Hn].
  destruct (k ==? k') eqn:E.
  - apply bool_decide_eq_true in E as ->. split; [intros [= ->]; left|]. intros [[= ->]|Hin]%elem_of_cons; [done|].
    exfalso. apply Hk. by apply (list_elem_of_fmap_2 fst) in Hin.
  - apply bool_decide_eq_false in E. rewrite (IH Hn), elem_of_cons. naive_solver.
Qed.

Section Tidy.
Context {X : Type} `{RedisServer X, PushGateway X, Providers}.
Definition keeps_tidy {A} (m : M X A) : Prop := forall w, tidy w -> tidy (snd (m w)).
Lemma tidy_bind {A B} (m : M X A) (k : A -> M X B) : keeps_tidy m -> (forall a, keeps_tidy (k a)) -> keeps_tidy (bind m k).
Proof. intros Hm Hk w Hw. specialize (Hm w Hw). unfold bind. destruct (m w) as [[[a|x]|] w1]; [by apply Hk|done..]. Qed.
Lemma tidy_same {A} (m : M X A) : (forall w, connections (snd (m w)) = connections w) -> keeps_tidy m.
Proof. intros Hm w Hw. unfold tidy. by rewrite Hm. Qed.
Lemma tidy_catch {A} (m : M X A) h : keeps_tidy m -> (forall x, keeps_tidy (h x)) -> keeps_tidy (catch m h).
Proof. intros Hm Hh w Hw. specialize (Hm w Hw). unfold catch. destruct (m w) as [[[a|x]|] w1]; [done|by apply Hh|done]. Qed.
Lemma tidy_for_each {A} (f : A -> M X unit) l : (forall x, keeps_tidy (f x)) -> keeps_tidy (for_each f l).
Proof. intros Hf. induction l; cbn [for_each]; [by apply tidy_same|]. by apply tidy_bind. Qed.
Lemma tidy_map_each {A B} (f : A -> M X B) l : (forall x, keeps_tidy (f x)) -> keeps_tidy (map_each f l).
Proof. intros Hf. induction l; cbn [map_each]; [by apply tidy_same|]. apply tidy_bind; [done|intros]. apply tidy_bind; [done|intros; by apply tidy_same]. Qed.
Lemma tidy_tick : keeps_tidy (@tick X).
Proof. apply tidy_same. intros w. unfold tick. by destruct (credit w) as [[]|]. Qed.
Lemma tidy_call {A} (f : X -> result A * X) : keeps_tidy (call f).
Proof. apply tidy_bind; [apply tidy_tick|intros; by apply tidy_same]. Qed.
Lemma tidy_presence e ks : keeps_tidy (read_presence e ks).
Proof. induction ks; cbn [read_presence]; [by apply tidy_same|]. apply tidy_bind; [apply tidy_call|intros]. apply tidy_bind; [done|intros; by apply tidy_same]. Qed.
Lemma tidy_connect subject id record :
  keeps_tidy (update (fun w => w <| connections ::= map_set subject (map_set id record (bucket_of subject w)) |>)).
Proof. intros w Hw. apply (map_set_keys (V := list (string * ConnectionRecord))), Hw. Qed.
Lemma tidy_disconnect e a s c : keeps_tidy (disconnect (X:=X) e a s c).
Proof.
  unfold disconnect. apply tidy_bind; [|intros; apply tidy_bind; [apply tidy_call|intros; apply tidy_bind; [apply tidy_call|intros; apply tidy_call]]].
  intros w Hw. unfold update. cbn [snd]. destruct (map_get _ _) as [[|b bucket]|]; [done| |done].
  destruct (map_pop _ _) as [|b' l']; [by apply NoDup_map_filter|]. by apply (map_set_keys (V := list (string * ConnectionRecord))).
Qed.
End Tidy.
#[local] Hint Resolve tidy_tick tidy_call tidy_presence tidy_connect tidy_disconnect : tidy.
Ltac tidy_step :=
  cbv zeta;
  lazymatch goal with
  | |- keeps_tidy (bind _ _) => apply tidy_bind; [|intros ?]
  | |- keeps_tidy (catch _ _) => apply tidy_catch; [|intros ?]
  | |- keeps_tidy (for_each _ _) => apply tidy_for_each; intros ?
  | |- keeps_tidy (map_each _ _) => apply tidy_map_each; intros ?
  | |- keeps_tidy (match ?x with _ => _ end) => destruct x
  | |- keeps_tidy ?m => first [solve [auto 2 with tidy] | by apply tidy_same | let h := head_of m in unfold h]
  | |- tidy (snd (?c ?w)) => refine ((_ : keeps_tidy c) w _); [|assumption]
  end.
Ltac tidy := repeat first [tidy_step | intros ?w ?; cbv beta; repeat case_match].
Section TidyJob.
Context {X : Type} `{RedisServer X, PushGateway X, Providers}.
Lemma tidy_endpoint e c : keeps_tidy (endpoint (X:=X) e c).
Proof. unfold endpoint, as_user, as_service. tidy. Qed.
Lemma tidy_job e j : keeps_tidy (job (X:=X) e j).
Proof. destruct j; cbn [job]; tidy. Qed.
Lemma tidy_steps (w w' : World X) : tidy w -> rtc step w w' -> tidy w'.
Proof.
  intros Hw Hs. revert Hw. induction Hs as [|w w1 w2 [e c j _] _ IH]; [done|]. intros Hw. apply IH. unfold serve.
  pose proof (tidy_job e j (start c w) Hw) as Hj. destruct (job e j (start c w)) as [[r|] w']; [done|]. apply NoDup_nil_2.
Qed.
End TidyJob.

(** * One item of the subscription *)
Section Item.
Context {X : Type} `{RedisServer X, PushGateway X, Providers}.
Implicit Types (e : Env) (w : World X).

(** What a computation appends to the frames in a process nobody kills, whether it
    returns or raises. *)
Definition emits (l : list (Z * Frame)) {A} (m : M X A) : Prop := forall w, credit w = None ->
  fst (m w) <> None /\ credit (snd (m w)) = None /\ frames (snd (m w)) = frames w ++ l.
Lemma emits_call {A} (f : X -> result A * X) : emits [] (call f).
Proof. intros w Hw. unfold call, bind, tick. rewrite Hw. cbn. by rewrite app_nil_r. Qed.
Lemma emits_bind {A B} l (m : M X A) (k : A -> M X B) : emits l m -> (forall a, emits [] (k a)) -> emits l (bind m k).
Proof.
  intros Hm Hk w Hw. destruct (Hm w Hw) as (Hn & Hc & Hf). unfold bind. destruct (m w) as [[[a|x]|] w1]; [|done..].
  cbn [snd] in *. destruct (Hk a w1 Hc) as (Hn' & Hc' & Hf'). by rewrite Hf', Hf, app_nil_r.
Qed.
Lemma emits_disconnect e a s c : emits [] (disconnect e a s c).
Proof.
  unfold disconnect. apply emits_bind; [|intros; apply emits_bind; [apply emits_call|intros; apply emits_bind; [apply emits_call|intros; apply emits_call]]].
  intros w Hw. unfold update. cbn [snd fst]. rewrite app_nil_r. split; [done|].
  destruct (map_get _ _) as [[|b k]|]; [by split| |by split]. destruct (map_pop _ _); (split; [exact Hw|reflexivity]).
Qed.
Definition frame_to (e : Env) (payload : string) (record : ConnectionRecord) : list (Z * Frame) :=
  if accepts e (websocket record) then [(websocket record, Text payload)] else [].
Lemma emits_send e a s c record payload : emits (frame_to e payload record) (send_frame e a s c record payload).
Proof.
  unfold send_frame, frame_to. destruct (accepts e (websocket record)).
  - apply emits_bind; [|intros; apply emits_call]. intros w Hw. split; [done|]. split; [exact Hw|reflexivity].
  - apply emits_bind; [apply emits_call|intros; apply emits_disconnect].
Qed.
Lemma send_all e a payload l w : credit w = None ->
  let m := for_each (fun '(recipient, connection_id, record) =>
    catch (send_frame e a recipient connection_id record payload) (fun _ => ret tt)) l in
  fst (m w) = Some (Ok tt) /\ frames (snd (m w)) = frames w ++ flat_map (fun t => frame_to e payload (snd t)) l.
Proof.
  revert w. induction l as [|[[s c] record] l IH]; intros w Hw; cbn [for_each flat_map]; [by rewrite app_nil_r|].
  destruct (emits_send e a s c record payload w Hw) as (Hn & Hc & Hf). unfold bind, catch. cbn [snd].
  destruct (send_frame e a s c record payload w) as [[[[]|x]|] w1]; cbn [fst snd] in *; [| |done]; cbn [ret];
    (destruct (IH w1 Hc) as [E1 E2]; split; [exact E1|]; etrans; [exact E2|]; by rewrite Hf, <- app_assoc).
Qed.

(** The socket [socket] is open for [sub] in the application. *)
Definition listens (w : World X) (application_id sub : string) (socket : Z) : Prop :=
  exists bucket connection_id record, ((application_id, sub), bucket) ∈ connections w /\
    (connection_id, record) ∈ bucket /\ websocket record = socket.
Lemma targets_spec f w socket : tidy w ->
  (exists t, t ∈ targets f w /\ websocket (snd t) = socket) <->
  exists sub, listens w (fo_application_id f) sub socket /\ (fo_broadcast f = true \/ sub ∈ fo_recipients f).
Proof.
  intros Hw. unfold targets, listens, bucket_targets. destruct (fo_broadcast f).
  - split.
    + intros (t & Ht & <-). apply list_elem_of_In, in_flat_map in Ht as ([[app sub] bucket] & Hb & Ht). cbn [fst snd] in Ht.
      destruct (app ==? fo_application_id f) eqn:E; [|done]. apply bool_decide_eq_true in E as ->.
      apply in_map_iff in Ht as ([c record] & <- & Hr). exists sub. split; [|by left]. exists bucket, c, record. by rewrite !list_elem_of_In.
    + intros (sub & (bucket & c & record & Hb & Hr & <-) & _). exists (sub, c, record). split; [|done].
      apply list_elem_of_In, in_flat_map. exists ((fo_application_id f, sub), bucket). split; [by apply list_elem_of_In|]. cbn [fst snd].
      rewrite bool_decide_true by done. apply in_map_iff. exists (c, record). by rewrite <- list_elem_of_In.
  - split.
    + intros (t & Ht & <-). apply list_elem_of_In, in_flat_map in Ht as (sub & Hs & Ht). unfold bucket_of in Ht. cbv beta in Ht.
      match type of Ht with context [@map_get ?A ?B ?D ?k ?l] => destruct (@map_get A B D k l) as [bucket|] eqn:E end; [|by cbn in Ht].
      apply (map_get_elem _ _ _ Hw) in E. apply in_map_iff in Ht as ([c record] & <- & Hr). exists sub.
      split; [|right; by apply list_elem_of_In]. exists bucket, c, record. by rewrite !list_elem_of_In in *.
    + intros (sub & (bucket & c & record & Hb & Hr & <-) & [?|Hs]); [done|]. exists (sub, c, record). split; [|done].
      apply list_elem_of_In, in_flat_map. exists sub. split; [by apply list_elem_of_In|]. unfold bucket_of.
      
      match goal with |- context [@map_get ?A ?B ?D ?k ?l] => assert (@map_get A B D k l = Some bucket) as -> by (by apply map_get_elem) end.
      apply in_map_iff. exists (c, record). by rewrite <- list_elem_of_In.
Qed.
End Item.

(** What a process reads from the text of a durable event. *)
Lemma parse_wire event recipients :
  plain (JObj (event_wire event recipients)) = true -> texts_ok utf8_text (JObj (event_wire event recipients)) = true ->
  parse_item (compact_ascii (JObj (event_wire event recipients))) =
  Ok (Some (mk_Fanout (JObj (event_wire event recipients)) (RealtimeEvent.application_id event)
    (remove_dups (map (fun r => str_of_uuid (EventRecipient.auth_user_id r)) recipients)) (RealtimeEvent.broadcast_connected event))).
Proof.
  intros Hp Ht. unfold parse_item. pose proof (json_loads_dumps EmptyString _ (or_introl eq_refl) Hp Ht) as Hl.
  change (dumps false ("," ++ EmptyString) (":" ++ EmptyString) (JObj (event_wire event recipients)))%string
    with (compact_ascii (JObj (event_wire event recipients))) in Hl. rewrite Hl.
  assert (forall k v, (k, v) ∈ protocol_fields event recipients -> jget k (event_wire event recipients) = v) as Hf by apply wire_field.
  rewrite (Hf "application_id" (JStr (RealtimeEvent.application_id event))) by (apply list_elem_of_In; cbn; auto 20).
  rewrite (Hf "broadcast_connected" (JBool (RealtimeEvent.broadcast_connected event))) by (apply list_elem_of_In; cbn; auto 20).
  pose proof (Hf "recipients" (JArr (map (fun r => JStr (str_of_uuid (EventRecipient.auth_user_id r))) recipients))) as Hr.
  unfold jget in Hr. destruct (dict_get "recipients" (event_wire event recipients)) as [v|] eqn:E.
  2: { exfalso. discriminate Hr. apply list_elem_of_In. cbn. auto 20. }
  rewrite Hr by (apply list_elem_of_In; cbn; auto 20). cbn [iterate]. rewrite map_map. do 3 f_equal.
  unfold jor. cbn [truthy]. by destruct (RealtimeEvent.application_id event).
Qed.

(** C20. A durable event reaches exactly the sockets it is meant for: when a
    process reads from Redis the text [deliver_event] publishes, it sends that
    text, unchanged, to every socket that is connected to the application of the
    event for a recipient (for anybody, if the event is a broadcast) and that
    takes it in time, and to no other: fields of the product's payload such as
    [recipients] or [application_id] have no effect on this, and neither have
    failures of Redis or of other sockets. *)
Theorem fanout_exact {X} `{RedisServer X, PushGateway X, Providers} (e : Env) (o : X) (w : World X) event recipients :
  let wire := JObj (event_wire event recipients) in
  let w' := snd (serve e None (Item (compact_ascii wire)) w) in
  rtc step (initial o) w -> RealtimeEvent.application_id event <> EmptyString -> plain wire = true -> texts_ok utf8_text wire = true ->
  exists l, frames w' = frames w ++ l /\ (forall f, f ∈ l -> snd f = Text (compact_ascii wire)) /\
    forall socket, socket ∈ map fst l <-> accepts e socket = true /\
      exists sub, listens w (RealtimeEvent.application_id event) sub socket /\
        (RealtimeEvent.broadcast_connected event = true \/ exists r, r ∈ recipients /\ sub = str_of_uuid (EventRecipient.auth_user_id r)).
Proof.
  intros wire w' Hs Ha Hp Ht. assert (tidy w) as Hw by (apply (tidy_steps (initial o)); [apply NoDup_nil_2|done]).
  set (f := mk_Fanout wire (RealtimeEvent.application_id event) (remove_dups (map (fun r => str_of_uuid (EventRecipient.auth_user_id r)) recipients))
    (RealtimeEvent.broadcast_connected event)).
  assert (str_truthy (fo_application_id f) = true) as Hf by (cbn; by destruct (RealtimeEvent.application_id event)).
  set (m := for_each (fun '(recipient, connection_id, record) =>
    catch (send_frame e (fo_application_id f) recipient connection_id record (compact_ascii (fo_event f))) (fun _ => ret tt)) (targets f w)).
  destruct (send_all e (fo_application_id f) (compact_ascii (fo_event f)) (targets f w) (start None w) eq_refl) as [E1 E2]. fold m in E1, E2.
  assert (w' = snd (m (start None w))) as ->.
  { unfold w', serve. cbn [job]. unfold on_message, bind at 1. unfold bind at 1, lift at 1, wire. rewrite parse_wire by done. fold wire f.
    cbv beta iota. rewrite Hf. cbn [negb]. change (targets f (start None w)) with (targets f w). fold m. revert E1. by destruct (m (start None w)) as [[[[]|]|] w1]. }
  eexists. split; [exact E2|]. split.
  - intros x Hx. apply list_elem_of_In, in_flat_map in Hx as (t & _ & Hx). unfold frame_to in Hx. case_match; [|done]. by destruct Hx as [<-|[]].
  - intros socket. pose proof (targets_spec f w socket Hw) as Hsp.
    assert (forall sub, sub ∈ fo_recipients f <-> exists r, r ∈ recipients /\ sub = str_of_uuid (EventRecipient.auth_user_id r)) as Hr.
    { intros sub. cbn [f fo_recipients]. rewrite elem_of_remove_dups, list_elem_of_fmap. naive_solver. }
    rewrite list_elem_of_fmap. split.
    + intros (x & -> & Hx). apply list_elem_of_In, in_flat_map in Hx as (t & Hin & Hx). unfold frame_to in Hx. case_match; [|done].
      destruct Hx as [<-|[]]. split; [done|]. destruct (proj1 Hsp) as (sub & Hl & Hor); [exists t; split; [by apply list_elem_of_In|done]|].
      exists sub. split; [done|]. rewrite <- Hr. done.
    + intros [Hacc (sub & Hl & Hor)]. destruct (proj2 Hsp) as (t & Hin & Hso); [exists sub; split; [done|by rewrite Hr]|].
      exists (socket, Text (compact_ascii wire)). split; [done|]. apply list_elem_of_In, in_flat_map. exists t. split; [by apply list_elem_of_In|].
      unfold frame_to. rewrite Hso, Hacc. by left.
Qed.
(** Ana and Bob are connected; the product's notice for Bob reaches his socket. *)
Definition auth_frame (token : option string) : Json :=
  JObj [("type", JStr "auth"); ("access_token", match token with Some t => JStr t | None => JNull end); ("device_key", JStr "phone")].
Definition opened (n : Z) (socket : Z) (token : option string) (w : World Servers) : World Servers :=
  snd (serve (demo_env n t0) None (Opening socket (auth_frame token)) w).
Definition connected : World Servers := Eval vm_compute in opened 2 12 bob_token (opened 1 11 ana_token (initial quiet)).
Definition noticed : World Servers := Eval vm_compute in publish_at 3 t0 None world0.
Lemma fanout_exact_witness : exists event recipients l,
  realtime_events (committed noticed) = [event] /\ event_recipients (committed noticed) = recipients /\
  last (published (outside noticed)) = Some (channel_of "loanhub", compact_ascii (JObj (event_wire event recipients))) /\
  frames (snd (serve (demo_env 4 t0) None (Item (compact_ascii (JObj (event_wire event recipients)))) connected)) = frames connected ++ l /\
  12 ∈ map fst l /\ 11 ∉ map fst l.
Proof.
  set (event := hd (RealtimeEvent.new_RealtimeEvent 0 0) (realtime_events (committed noticed))).
  set (recipients := event_recipients (committed noticed)).
  assert (rtc step (initial quiet) connected) as Hs.
  { eapply rtc_l; [by apply (Step _ (demo_env 1 t0) None (Opening 11 (auth_frame ana_token)))|]. apply rtc_once.
    change connected with (snd (serve (demo_env 2 t0) None (Opening 12 (auth_frame bob_token)) (opened 1 11 ana_token (initial quiet)))). by constructor. }
  destruct (fanout_exact (demo_env 4 t0) quiet connected event recipients Hs) as (l & El & _ & Hl); [done|by vm_compute|by vm_compute|].
  exists event, recipients, l. split; [done|]. split; [done|]. split; [by vm_compute|]. split; [exact El|]. rewrite !Hl. split.
  - split; [done|]. exists (str_of_uuid bob). split; [|right; exists (hd (EventRecipient.new_EventRecipient 0 0) recipients); split; [by left|by vm_compute]].
    eexists _, _, _. split; [by right; left|]. split; [by left|done].
  - intros [_ (sub & (bucket & c & record & Hb & Hr & Hk) & [?|(r & Hin & ->)])]; [done|]. apply list_elem_of_singleton in Hin as ->.
    repeat (apply elem_of_cons in Hb as [Hb|Hb]; [|]); [by vm_compute in Hb| |by apply elem_of_nil in Hb].
    injection Hb as ->. by apply list_elem_of_singleton in Hr as [= -> ->].
Defined.
