(* ===== verification/RealtimeTypes.v ===== *)
(** Well-typed databases of the realtime service: what the rows of every table
    satisfy, and rules to show that a computation keeps the database, and what its
    session has of it, well typed. *)
From S2P Require Import Prelude PyFloat Json JsonFacts JsonText UuidText Calendar Session Schema WebApi Sha256 Engines RealtimeModels RealtimeCore RealtimeHub RealtimeEvents RealtimeSchemas RealtimeService RealtimeServer RealtimeFacts.
#[local] Open Scope string_scope.
#[local] Open Scope list_scope.
#[local] Open Scope Z_scope.

(** * Rows *)
Definition good_conversation (r : Conversation) : bool :=
  (Conversation.kind r in? conversation_kinds) &&
  implb (Conversation.kind r in? ["channel"; "system"]) (is_some (truthy_key (Conversation.room_key r))).
Definition good_member (r : ConversationMember) : bool := ConversationMember.role r in? roles.
(** A message is a user's or the product's. *)
Definition good_sender (r : Message) : bool :=
  (Message.priority r in? priorities) && (Message.sender_client_id r ==? Message.application_id r) &&
  (((Message.sender_kind r ==? "user") && is_some (Message.sender_sub r) && (Message.message_type r ==? "chat.message") && (Message.version r =? 1)) ||
   ((Message.sender_kind r ==? "service") && negb (is_some (Message.sender_sub r)) && event_name (Message.message_type r) && between 1 99 (Message.version r))).
(** Its mentions and attachments parse. *)
Definition mentions_of (r : Message) : Json := safe_json (Message.mentions_json r) (JArr []).
Definition attachments_of (r : Message) : Json := safe_json (Message.attachments_json r) (JArr []).
Definition readable (r : Message) : Prop := exists users files,
  mentions_of r = JArr (map uuid_json users) /\ forallb uuid_column users = true /\
  attachments_of r = JArr (map dump_attachment files) /\ forallb valid_AttachmentRef files = true.
Definition good_message (r : Message) : Prop := good_sender r = true /\ readable r.
(** The times of a receipt go with its state. *)
Definition good_receipt (r : MessageReceipt) : bool :=
  match MessageReceipt.delivered_at r, MessageReceipt.read_at r with
  | None, None => MessageReceipt.state r ==? "accepted"
  | Some _, None => MessageReceipt.state r ==? "delivered"
  | Some _, Some _ => MessageReceipt.state r ==? "read"
  | None, Some _ => false
  end.
Definition good_delivery (r : EventRecipient) : bool := implb (is_some (EventRecipient.opened_at r)) (is_some (EventRecipient.received_at r)).
Definition good_audit (r : AuditEvent) : Prop := exists details, safe_json (AuditEvent.details_json r) (JObj []) = JObj details.

(** * Databases *)

(** What stays true of a conversation and of a message: neither is ever removed. *)
Inductive Fact : Type :=
| ConvFact (id : uuid) (application_id : string)
| MsgFact (id conversation_id : uuid) (application_id : string).
Definition sat (d : RealtimeDb) (f : Fact) : Prop :=
  match f with
  | ConvFact k a => exists c, c ∈ conversations d /\ Conversation.id c = k /\ Conversation.application_id c = a
  | MsgFact k c a => exists m, m ∈ messages d /\ Message.id m = k /\ Message.conversation_id m = c /\ Message.application_id m = a
  end.
Record well (d : RealtimeDb) : Prop := {
  we_conversation : forall r, r ∈ conversations d -> good_conversation r = true;
  we_member : forall r, r ∈ conversation_members d -> good_member r = true;
  we_message : forall r, r ∈ messages d -> good_message r;
  we_receipt : forall r, r ∈ message_receipts d -> good_receipt r = true;
  we_delivery : forall r, r ∈ event_recipients d -> good_delivery r = true;
  we_audit : forall r, r ∈ audit_events d -> good_audit r;
  (** A message is in a conversation of its application, *)
  we_scope : forall r, r ∈ messages d -> sat d (ConvFact (Message.conversation_id r) (Message.application_id r));
  (** it replies to one of the same conversation, *)
  we_reply : forall r k, r ∈ messages d -> Message.reply_to_message_id r = Some k ->
    exists a, sat d (MsgFact k (Message.conversation_id r) a);
  (** forwards one of the same application, *)
  we_forward : forall r k, r ∈ messages d -> Message.forwarded_from_message_id r = Some k ->
    exists c, sat d (MsgFact k c (Message.application_id r));
  (** and is pinned in its own. *)
  we_pin : forall r, r ∈ conversation_pins d -> exists a, sat d (MsgFact (ConversationPin.message_id r) (ConversationPin.conversation_id r) a)
}.

(** * States *)
Section Types.
Context {X : Type}.
(** [K]: what the running request knows of the rows its session has. *)
Record typed (K : list Fact) (w : World X) : Prop := {
  ty_committed : well (committed w);
  ty_sql : well (sql (session w));
  ty_mem : well (mem (session w));
  ty_covers : forall f, sat (sql (session w)) f -> sat (mem (session w)) f;
  ty_known : forall f, f ∈ K -> sat (mem (session w)) f
}.
(** From [typed K] to [typed K'], whether it returns, raises or is killed. *)
Definition moves (K K' : list Fact) {A} (m : M X A) : Prop := forall w, typed K w -> typed K' (snd (m w)).
#[local] Notation stays K m := (moves K K m).

Lemma typed_weaken K K' w : K' ⊆ K -> typed K w -> typed K' w.
Proof. intros HK []. split; [done..|]. auto. Qed.
Lemma typed_same K w w' : committed w' = committed w -> session w' = session w -> typed K w -> typed K w'.
Proof. intros E1 E2 []. split; by rewrite ?E1, ?E2. Qed.
Lemma moves_bind K K' {A B} (m : M X A) (k : A -> M X B) : K' ⊆ K -> stays K m -> (forall a, moves K K' (k a)) -> moves K K' (bind m k).
Proof.
  intros HK Hm Hk w Hw. specialize (Hm w Hw). unfold bind.
  destruct (m w) as [[[a|x]|] w1]; [by apply Hk|by eapply typed_weaken..].
Qed.
(** After [m], what was known is no longer used. *)
Lemma moves_forget K {A B} (m : M X A) (k : A -> M X B) : moves K [] m -> (forall a, moves [] [] (k a)) -> moves K [] (bind m k).
Proof. intros Hm Hk w Hw. specialize (Hm w Hw). unfold bind. destruct (m w) as [[[a|x]|] w1]; [by apply Hk|done..]. Qed.
Lemma moves_still K {A} (m : M X A) : (forall w, committed (snd (m w)) = committed w /\ session (snd (m w)) = session w) -> stays K m.
Proof. intros Hm w Hw. destruct (Hm w). by eapply typed_same. Qed.
Lemma moves_subset K K' {A} (m : M X A) : K' ⊆ K -> stays K m -> moves K K' m.
Proof. intros HK Hm w Hw. eapply typed_weaken; [exact HK|]. by apply Hm. Qed.
Lemma moves_require K K' {B} b x (k : unit -> M X B) : K' ⊆ K -> (b = true -> moves K K' (k tt)) -> moves K K' (bind (require b x) k).
Proof. intros HK Hk w Hw. destruct b; [by apply Hk|by eapply typed_weaken]. Qed.
Lemma moves_some_or K K' {A B} (o : option A) x (k : A -> M X B) : K' ⊆ K -> (forall a, o = Some a -> moves K K' (k a)) -> moves K K' (bind (some_or o x) k).
Proof. intros HK Hk w Hw. destruct o; [by apply Hk|by eapply typed_weaken]. Qed.
Lemma moves_lift K K' {A B} (r : result A) (k : A -> M X B) : K' ⊆ K -> (forall a, r = Ok a -> moves K K' (k a)) -> moves K K' (bind (lift r) k).
Proof. intros HK Hk w Hw. destruct r; [by apply Hk|by eapply typed_weaken]. Qed.
(** What a query returns is well typed, and may be known from then on. *)
Lemma moves_query K K' {A B} (f : Session RealtimeDb -> A) (k : A -> M X B) :
  (forall w, typed K w -> exists K1, typed K1 w /\ moves K1 K' (k (f (session w)))) -> moves K K' (bind (query f) k).
Proof. intros Hf w Hw. destruct (Hf w Hw) as (K1 & H1 & Hm). by apply Hm. Qed.
Lemma moves_catch K {A} (m : M X A) h : stays K m -> (forall x, stays K (h x)) -> stays K (catch m h).
Proof. intros Hm Hh w Hw. specialize (Hm w Hw). unfold catch. destruct (m w) as [[[a|x]|] w1]; [done|by apply Hh|done]. Qed.
Lemma moves_for_each K {A} (f : A -> M X unit) l : (forall x, x ∈ l -> stays K (f x)) -> stays K (for_each f l).
Proof.
  induction l as [|x l IH]; intros Hf; cbn [for_each]; [by apply moves_still|].
  apply moves_bind; [done|apply Hf; left|intros; apply IH; intros y Hy; apply Hf; by right].
Qed.
Lemma moves_map_each K {A B} (f : A -> M X B) l : (forall x, stays K (f x)) -> stays K (map_each f l).
Proof.
  intros Hf. induction l; cbn [map_each]; [by apply moves_still|]. apply moves_bind; [done|done|intros]. apply moves_bind; [done|done|intros; by apply moves_still].
Qed.
Lemma moves_except K {A} (m : M X A) (h : exn -> M X A) : stays K m -> (forall x, moves [] [] (h x)) ->
  moves K [] (except_integrity m (fun x => rollback ;; h x)).
Proof.
  intros Hm Hh w Hw. specialize (Hm w Hw). unfold except_integrity, catch.
  destruct (m w) as [[[a|x]|] w1]; [by eapply typed_weaken; [|exact Hm]; apply list_subseteq_nil| |by eapply typed_weaken; [|exact Hm]; apply list_subseteq_nil].
  destruct x; try (by eapply typed_weaken; [|exact Hm]; apply list_subseteq_nil). apply (Hh (IntegrityError constraint)).
  destruct Hm as [Hc _ _ _ _]. by split; [..|intros f ?%elem_of_nil].
Qed.
Lemma moves_tick K : stays K (@tick X).
Proof. apply moves_still. intros w. unfold tick. by destruct (credit w) as [[]|]. Qed.
Lemma moves_call K {A} (f : X -> result A * X) : stays K (call f).
Proof. apply moves_bind; [done|apply moves_tick|]. intros _. by apply moves_still. Qed.
Lemma moves_presence K `{RedisServer X} e ks : stays K (read_presence e ks).
Proof.
  induction ks; cbn [read_presence]; [by apply moves_still|]. apply moves_bind; [done|apply moves_call|intros]. apply moves_bind; [done|done|intros; by apply moves_still].
Qed.

(** ** The session *)
(** A change of the objects the session has. *)
Lemma moves_mem K (f : RealtimeDb -> RealtimeDb) (g : Session RealtimeDb -> Session RealtimeDb) :
  (forall s, sql (g s) = sql s /\ mem (g s) = f (mem s)) ->
  (forall d, well d -> (forall k, k ∈ K -> sat d k) -> well (f d) /\ forall k, sat d k -> sat (f d) k) -> stays K (modify g).
Proof.
  intros Hg Hf w [Hc Hs Hm Hcov Hk]. unfold modify, update. cbn [snd]. destruct (Hg (session w)) as [Eq Em]. destruct (Hf (mem (session w)) Hm Hk) as [Hw Hsat].
  set (w' := w <| session ::= g |>). change (session w') with (g (session w)) in *.
  assert (committed w' = committed w) as Ec by done. assert (session w' = g (session w)) as Es by done.
  split; rewrite ?Ec, ?Es, ?Eq, ?Em; auto.
Qed.
End Types.

(** * Changes of a well-typed database *)
Definition fits (d : RealtimeDb) (r : Message) : Prop :=
  sat d (ConvFact (Message.conversation_id r) (Message.application_id r)) /\
  (forall k, Message.reply_to_message_id r = Some k -> exists a, sat d (MsgFact k (Message.conversation_id r) a)) /\
  (forall k, Message.forwarded_from_message_id r = Some k -> exists c, sat d (MsgFact k c (Message.application_id r))).
Lemma well_fits d r : well d -> r ∈ messages d -> fits d r.
Proof. intros Hw Hr. split; [by apply Hw|]. split; intros k Hk; [by apply (we_reply d Hw)|by apply (we_forward d Hw)]. Qed.
Lemma fits_mono d d' r : (forall f, sat d f -> sat d' f) -> fits d r -> fits d' r.
Proof. intros Hm (Hc & Hr & Hf). split; [auto|]. split; intros k Hk; [destruct (Hr k Hk)|destruct (Hf k Hk)]; eauto. Qed.
(** A change that keeps the facts, and whose new rows are well typed. *)
Lemma well_update d d' : well d -> (forall f, sat d f -> sat d' f) ->
  (forall r, r ∈ conversations d' -> r ∈ conversations d \/ good_conversation r = true) ->
  (forall r, r ∈ conversation_members d' -> r ∈ conversation_members d \/ good_member r = true) ->
  (forall r, r ∈ messages d' -> r ∈ messages d \/ good_message r /\ fits d' r) ->
  (forall r, r ∈ message_receipts d' -> r ∈ message_receipts d \/ good_receipt r = true) ->
  (forall r, r ∈ event_recipients d' -> r ∈ event_recipients d \/ good_delivery r = true) ->
  (forall r, r ∈ audit_events d' -> r ∈ audit_events d \/ good_audit r) ->
  (forall r, r ∈ conversation_pins d' -> r ∈ conversation_pins d \/ exists a, sat d' (MsgFact (ConversationPin.message_id r) (ConversationPin.conversation_id r) a)) ->
  well d'.
Proof.
  intros Hw Hsat H1 H2 H3 H4 H5 H6 H7.
  assert (forall r, r ∈ messages d' -> good_message r /\ fits d' r) as Hm.
  { intros r Hr. destruct (H3 r Hr) as [Hin|?]; [|done]. split; [by apply Hw|]. by apply (fits_mono d), well_fits. }
  split.
  - intros r Hr. destruct (H1 r Hr); [by apply Hw|done].
  - intros r Hr. destruct (H2 r Hr); [by apply Hw|done].
  - intros r Hr. by apply Hm.
  - intros r Hr. destruct (H4 r Hr); [by apply Hw|done].
  - intros r Hr. destruct (H5 r Hr); [by apply Hw|done].
  - intros r Hr. destruct (H6 r Hr); [by apply Hw|done].
  - intros r Hr. by apply Hm.
  - intros r k Hr Hk. by apply (Hm r Hr).
  - intros r k Hr Hk. by apply (Hm r Hr).
  - intros r Hr. destruct (H7 r Hr) as [Hin|?]; [|done]. destruct (we_pin d Hw r Hin) as [a Ha]. exists a. auto.
Qed.
Lemma sat_mono d d' : (forall c, c ∈ conversations d -> exists c', c' ∈ conversations d' /\ Conversation.id c' = Conversation.id c /\
    Conversation.application_id c' = Conversation.application_id c) ->
  (forall m, m ∈ messages d -> exists m', m' ∈ messages d' /\ Message.id m' = Message.id m /\
    Message.conversation_id m' = Message.conversation_id m /\ Message.application_id m' = Message.application_id m) ->
  forall f, sat d f -> sat d' f.
Proof.
  intros Hc Hm [k a|k c a]; cbn.
  - intros (x & Hx & <- & <-). destruct (Hc x Hx) as (x' & ? & ? & ?). eauto.
  - intros (x & Hx & <- & <- & <-). destruct (Hm x Hx) as (x' & ? & ? & ? & ?). eauto 6.
Qed.
(** Rows of a table to which one is added, or whose rows with a key are mapped. *)
Lemma elem_add {R} (t : list R) r x : x ∈ t ++ [r] -> x ∈ t \/ x = r.
Proof. rewrite elem_of_app, list_elem_of_singleton. done. Qed.
Lemma elem_assign {R} `{Keyed R} (f : R -> R) r (t : list R) x : x ∈ map (fun y => if key y =? key r then f y else y) t -> x ∈ t \/ exists y, y ∈ t /\ x = f y.
Proof. intros (y & -> & Hy)%list_elem_of_fmap. destruct (key y =? key r); eauto. Qed.
Lemma assign_elem {R} `{Keyed R} (f : R -> R) r (t : list R) y : y ∈ t -> exists x, x ∈ map (fun y => if key y =? key r then f y else y) t /\ (x = y \/ x = f y).
Proof.
  intros Hy. exists (if key y =? key r then f y else y). split; [by apply (list_elem_of_fmap_2 (fun y => if key y =? key r then f y else y))|].
  destruct (key y =? key r); auto.
Qed.

Section Operations.
Context {X : Type}.
#[local] Notation stays K m := (moves (X:=X) K K m).
(** One table changes, and not one a fact is about. *)
#[local] Ltac other_table := split; [apply (well_update _ _ ltac:(eassumption)); [by intros []|..]; try (intros ? ?; left; assumption)|by intros []].
Lemma moves_insert K {R} (T : RealtimeDb -> list R) `{!Setter T} e mk :
  (forall id d, well d -> (forall k, k ∈ K -> sat d k) ->
     well (d <| T ::= (fun t => t ++ [mk id]) |>) /\ forall k, sat d k -> sat (d <| T ::= (fun t => t ++ [mk id]) |>) k) ->
  stays K (insert T e mk).
Proof.
  intros Hf. apply moves_bind; [done|by apply moves_still|]. intros id. apply moves_bind; [done| |intros; by apply moves_still].
  apply (moves_mem K (fun d => d <| T ::= (fun t => t ++ [mk id]) |>)); [done|apply Hf].
Qed.
Lemma moves_assign K {R} `{Keyed R} (T : RealtimeDb -> list R) `{!Setter T} f r :
  (forall d, well d -> (forall k, k ∈ K -> sat d k) ->
     let d' := d <| T ::= map (fun x => if key x =? key r then f x else x) |> in well d' /\ forall k, sat d k -> sat d' k) ->
  stays K (assign T f r).
Proof.
  intros Hf. apply moves_bind; [done| |intros; by apply moves_still].
  apply (moves_mem K (fun d => d <| T ::= map (fun x => if key x =? key r then f x else x) |>)); [done|apply Hf].
Qed.
Lemma insert_conversation K e mk : (forall id, good_conversation (mk id) = true) -> stays K (insert conversations e mk).
Proof.
  intros Hg. apply moves_insert. intros id d Hw _.
  assert (forall k, sat d k -> sat (d <| conversations ::= (fun t => t ++ [mk id]) |>) k) as Hs.
  { apply sat_mono; cbn; [intros c Hc; exists c; split; [apply elem_of_app; by left|done]|eauto]. }
  split; [|done]. apply (well_update d); [done|done|..]; cbn; try (by intros r Hr; left). intros r [?| ->]%elem_add; auto.
Qed.
Lemma insert_message K e mk : (forall id, good_message (mk id)) ->
  (forall id, ConvFact (Message.conversation_id (mk id)) (Message.application_id (mk id)) ∈ K) ->
  (forall id k, Message.reply_to_message_id (mk id) = Some k -> exists a, MsgFact k (Message.conversation_id (mk id)) a ∈ K) ->
  (forall id k, Message.forwarded_from_message_id (mk id) = Some k -> exists c, MsgFact k c (Message.application_id (mk id)) ∈ K) ->
  stays K (insert messages e mk).
Proof.
  intros Hg Hc Hr Hf. apply moves_insert. intros id d Hw Hk.
  assert (forall k, sat d k -> sat (d <| messages ::= (fun t => t ++ [mk id]) |>) k) as Hs.
  { apply sat_mono; cbn; [eauto|intros m Hm; exists m; split; [apply elem_of_app; by left|done]]. }
  split; [|done]. apply (well_update d); [done|done|..]; try (by intros r Hin; left). intros r [?| ->]%elem_add; [by left|right].
  split; [done|]. split; [by apply Hs, Hk|]. split; intros k E; [destruct (Hr id k E) as [a Ha]|destruct (Hf id k E) as [a Ha]]; exists a; by apply Hs, Hk.
Qed.
Lemma insert_member K e mk : (forall id, good_member (mk id) = true) -> stays K (insert conversation_members e mk).
Proof. intros Hg. apply moves_insert. intros id d Hw _. other_table. intros r [?| ->]%elem_add; [by left|right; apply Hg]. Qed.
Lemma insert_receipt K e mk : (forall id, good_receipt (mk id) = true) -> stays K (insert message_receipts e mk).
Proof. intros Hg. apply moves_insert. intros id d Hw _. other_table. intros r [?| ->]%elem_add; [by left|right; apply Hg]. Qed.
Lemma insert_delivery K e mk : (forall id, good_delivery (mk id) = true) -> stays K (insert event_recipients e mk).
Proof. intros Hg. apply moves_insert. intros id d Hw _. other_table. intros r [?| ->]%elem_add; [by left|right; apply Hg]. Qed.
Lemma insert_audit K e mk : (forall id, good_audit (mk id)) -> stays K (insert audit_events e mk).
Proof. intros Hg. apply moves_insert. intros id d Hw _. other_table. intros r [?| ->]%elem_add; [by left|right; apply Hg]. Qed.
Lemma insert_pin K e mk : (forall id, exists a, MsgFact (ConversationPin.message_id (mk id)) (ConversationPin.conversation_id (mk id)) a ∈ K) ->
  stays K (insert conversation_pins e mk).
Proof.
  intros Hg. apply moves_insert. intros id d Hw Hk. other_table. intros r [?| ->]%elem_add; [by left|right]. destruct (Hg id) as [a Ha]. exists a. by apply (Hk _ Ha).
Qed.
Lemma insert_event K e mk : stays K (insert realtime_events e mk).
Proof. apply moves_insert. intros id d Hw _. by other_table. Qed.
Lemma insert_reaction K e mk : stays K (insert message_reactions e mk).
Proof. apply moves_insert. intros id d Hw _. by other_table. Qed.

Lemma assign_conversation K f r : (forall x, good_conversation x = true -> good_conversation (f x) = true /\ Conversation.id (f x) = Conversation.id x /\
  Conversation.application_id (f x) = Conversation.application_id x) -> stays K (assign conversations f r).
Proof.
  intros Hf. apply moves_assign. intros d Hw _ d'.
  assert (forall k, sat d k -> sat d' k) as Hs.
  { apply sat_mono; cbn; [|eauto]. intros c Hc. destruct (assign_elem f r _ c Hc) as (x & Hx & Ex). exists x. split; [done|].
    destruct Ex as [-> | ->]; [done|]. by destruct (Hf c) as (_ & ? & ?); [apply Hw|]. }
  split; [|done]. apply (well_update d); [done|done|..]; cbn; try (by intros x Hx; left).
  intros x [?|(y & Hy & ->)]%elem_assign; [by left|right]. apply Hf. by apply Hw.
Qed.
Lemma assign_message K f r : (forall x, good_message x -> good_message (f x) /\ Message.id (f x) = Message.id x /\
    Message.conversation_id (f x) = Message.conversation_id x /\ Message.application_id (f x) = Message.application_id x /\
    Message.reply_to_message_id (f x) = Message.reply_to_message_id x /\ Message.forwarded_from_message_id (f x) = Message.forwarded_from_message_id x) ->
  stays K (assign messages f r).
Proof.
  intros Hf. apply moves_assign. intros d Hw _ d'.
  assert (forall k, sat d k -> sat d' k) as Hs.
  { apply sat_mono; cbn; [eauto|]. intros m Hm. destruct (assign_elem f r _ m Hm) as (x & Hx & Ex). exists x. split; [done|].
    destruct Ex as [-> | ->]; [done|]. by destruct (Hf m) as (_ & ? & ? & ? & _); [apply Hw|]. }
  split; [|done]. apply (well_update d); [done|done|..]; try (by intros x Hx; left).
  intros x [?|(y & Hy & ->)]%elem_assign; [by left|right]. destruct (Hf y) as (Hg & _ & E2 & E3 & E4 & E5); [by apply Hw|].
  split; [done|]. unfold fits. rewrite E2, E3, E4, E5. by apply (fits_mono d), well_fits.
Qed.
Lemma assign_member K f r : (forall x, good_member x = true -> good_member (f x) = true) -> stays K (assign conversation_members f r).
Proof. intros Hf. apply moves_assign. intros d Hw _. cbv zeta. other_table. intros x [?|(y & Hy & ->)]%elem_assign; [by left|right]. by apply Hf, Hw. Qed.
Lemma assign_receipt K f r : (forall x, good_receipt x = true -> good_receipt (f x) = true) -> stays K (assign message_receipts f r).
Proof. intros Hf. apply moves_assign. intros d Hw _. cbv zeta. other_table. intros x [?|(y & Hy & ->)]%elem_assign; [by left|right]. by apply Hf, Hw. Qed.
Lemma assign_delivery K f r : (forall x, good_delivery x = true -> good_delivery (f x) = true) -> stays K (assign event_recipients f r).
Proof. intros Hf. apply moves_assign. intros d Hw _. cbv zeta. other_table. intros x [?|(y & Hy & ->)]%elem_assign; [by left|right]. by apply Hf, Hw. Qed.
Lemma assign_event K f r : stays K (assign realtime_events f r).
Proof. apply moves_assign. intros d Hw _. cbv zeta. by other_table. Qed.
End Operations.

(** * Deletions, flushes and commits *)
Section Session.
Context {X : Type}.
#[local] Notation stays K m := (moves (X:=X) K K m).
Lemma moves_session K (g : Session RealtimeDb -> Session RealtimeDb) :
  (forall s, well (sql s) -> well (mem s) -> well (sql (g s)) /\ well (mem (g s)) /\
     (forall f, sat (sql (g s)) f -> sat (sql s) f) /\ (forall f, sat (mem s) f -> sat (mem (g s)) f)) -> stays K (modify g).
Proof.
  intros Hg w [Hc Hs Hm Hcov Hk]. unfold modify, update. cbn [snd]. destruct (Hg (session w) Hs Hm) as (H1 & H2 & H3 & H4).
  set (w' := w <| session ::= g |>). assert (committed w' = committed w) as Ec by done. assert (session w' = g (session w)) as Es by done.
  split; rewrite ?Ec, ?Es; auto.
Qed.
Lemma well_sublist d d' : well d -> conversations d' = conversations d -> messages d' = messages d ->
  conversation_members d' ⊆ conversation_members d -> message_receipts d' = message_receipts d -> event_recipients d' = event_recipients d ->
  audit_events d' = audit_events d -> conversation_pins d' ⊆ conversation_pins d -> well d'.
Proof.
  intros Hw E1 E2 H3 E4 E5 E6 H7. apply (well_update d); [done|intros []; cbn; by rewrite ?E1, ?E2|..]; intros r Hr; left; try congruence; auto.
Qed.
Lemma delete_reactions K p : stays K (delete_where message_reactions p).
Proof. apply moves_session. intros s Hs Hm. cbn. split; [by apply (well_sublist (sql s))|]. split; [by apply (well_sublist (mem s))|]. by split; intros []. Qed.
Lemma filter_subset {R} (p : R -> bool) l : List.filter p l ⊆ l.
Proof. by intros x [? _]%elem_of_filter. Qed.
Lemma delete_pins K p : stays K (delete_where conversation_pins p).
Proof.
  apply moves_session. intros s Hs Hm. cbn. split; [apply (well_sublist (sql s)); try done; apply filter_subset|].
  split; [apply (well_sublist (mem s)); try done; apply filter_subset|]. by split; intros [].
Qed.
Lemma delete_member K r : stays K (delete_row conversation_members r).
Proof.
  apply moves_session. intros s Hs Hm. cbn. split; [done|]. split; [apply (well_sublist (mem s)); try done; apply filter_subset|]. by split; intros [].
Qed.

Lemma touch_cases {R} `{Keyed R, EqDecision R} updated_at stamp (old : list R) r :
  touch updated_at stamp old r = r \/ touch updated_at stamp old r = stamp r.
Proof. unfold touch. destruct (find_row _ _); [|by left]. case_match; auto. Qed.
Lemma touch_map {R} `{Keyed R, EqDecision R} updated_at stamp (old l : list R) x :
  x ∈ map (touch updated_at stamp old) l -> x ∈ l \/ exists y, y ∈ l /\ x = stamp y.
Proof. intros (y & -> & Hy)%list_elem_of_fmap. destruct (touch_cases updated_at stamp old y) as [-> | ->]; eauto. Qed.
Lemma touch_well e s : well (mem s) -> well (touch_updated e s) /\ forall f, sat (mem s) f -> sat (touch_updated e s) f.
Proof.
  intros Hw. assert (forall f, sat (mem s) f -> sat (touch_updated e s) f) as Hs.
  { apply sat_mono; cbn; [|eauto]. intros c Hc. eexists. split; [by apply (list_elem_of_fmap_2 (touch _ _ _)), Hc|].
    match goal with |- context [touch ?a ?b ?c ?d] => destruct (touch_cases a b c d) as [-> | ->] end; done. }
  split; [|done]. apply (well_update (mem s)); [done|done|..]; try (intros ? ?; left; assumption).
  - intros r [?|(y & Hy & ->)]%touch_map; [by left|right]. by apply (we_conversation _ Hw y).
  - intros r [?|(y & Hy & ->)]%touch_map; [by left|right]. by apply (we_receipt _ Hw y).
Qed.
Lemma moves_flush K e : stays K (flush e).
Proof.
  intros w Hw. unfold flush, bind, query, lift. destruct (check_schema _); [|done]. destruct Hw as [Hc Hs Hm Hcov Hk].
  destruct (touch_well e (session w) Hm) as [Hw Hsat]. split; cbn; auto.
Qed.
Lemma moves_commit K e : stays K (commit e).
Proof.
  unfold commit. apply moves_bind; [done|apply moves_tick|intros _]. apply moves_bind; [done|apply moves_flush|intros _].
  intros w []. by split.
Qed.

(** * Rows a query returns *)
Definition from_session {R} (T : RealtimeDb -> list R) (s : Session RealtimeDb) (r : R) : Prop := r ∈ T (mem s) \/ r ∈ T (sql s).
Lemma live_row {R} `{Keyed R} (T : RealtimeDb -> list R) (s : Session RealtimeDb) r : r ∈ T (sql s) -> from_session T s (live (T (mem s)) r).
Proof. intros Hr. unfold live. destruct (find_row _ _) eqn:E; [left; by eapply find_row_elem|by right]. Qed.
Lemma get_row {R} `{Keyed R} (T : RealtimeDb -> list R) s k r : get T k s = Some r -> from_session T s r.
Proof. unfold get. destruct (find_row _ _) eqn:E; [|done]. intros [= <-]. apply live_row. by eapply find_row_elem. Qed.
Lemma scalar_row {R} `{Keyed R} (T : RealtimeDb -> list R) s p r : scalar T p s = Some r -> from_session T s r.
Proof.
  intros Hr%scalar_select. unfold select in Hr. apply list_elem_of_fmap in Hr as (x & -> & [Hx _]%elem_of_filter). by apply live_row.
Qed.
Definition msg_facts (o : option Message) : list Fact :=
  match o with Some r => [MsgFact (Message.id r) (Message.conversation_id r) (Message.application_id r)] | None => [] end.
Definition conv_facts (o : option Conversation) : list Fact :=
  match o with Some r => [ConvFact (Conversation.id r) (Conversation.application_id r)] | None => [] end.
Lemma moves_any K K' {A B} (f : Session RealtimeDb -> A) (k : A -> M X B) : (forall a, moves K K' (k a)) -> moves K K' (bind (query f) k).
Proof. intros Hk. apply moves_query. intros w Hw. by exists K. Qed.
Lemma query_message K K' (P : Message -> Prop) {B} (f : Session RealtimeDb -> option Message) (k : option Message -> M X B) :
  (forall s r, f s = Some r -> from_session messages s r /\ P r) ->
  (forall o, (forall r, o = Some r -> good_message r /\ P r) -> moves (msg_facts o ++ K) K' (k o)) -> moves K K' (bind (query f) k).
Proof.
  intros Hf Hk. apply moves_query. intros w Hw. exists (msg_facts (f (session w)) ++ K). split.
  - destruct Hw as [Hc Hs Hm Hcov Hkn]. split; [done..|]. intros x [Hx|Hx]%elem_of_app; [|auto].
    destruct (f (session w)) as [r|] eqn:E; [|by apply elem_of_nil in Hx]. apply list_elem_of_singleton in Hx as ->.
    destruct (Hf _ _ E) as [[Hr|Hr] _]; [|apply Hcov]; by exists r.
  - apply Hk. intros r Hr. destruct (Hf _ _ Hr) as [[Hin|Hin] HP]; (split; [|exact HP]).
    + by apply (we_message _ (ty_mem _ _ Hw)).
    + by apply (we_message _ (ty_sql _ _ Hw)).
Qed.
Lemma query_get K K' {B} k0 (k : option Message -> M X B) :
  (forall o, (forall r, o = Some r -> good_message r /\ Message.id r = k0) -> moves (msg_facts o ++ K) K' (k o)) -> moves K K' (bind (query (get messages k0)) k).
Proof. apply query_message. intros s r Hr. split; [by eapply get_row|]. by eapply (get_key messages). Qed.
Lemma query_scalar K K' {B} p (k : option Message -> M X B) :
  (forall o, (forall r, o = Some r -> good_message r /\ True) -> moves (msg_facts o ++ K) K' (k o)) -> moves K K' (bind (query (scalar messages p)) k).
Proof. apply query_message. intros s r Hr. split; [by eapply scalar_row|done]. Qed.
Lemma query_conversation K K' {B} (f : Session RealtimeDb -> option Conversation) (k : option Conversation -> M X B) :
  (forall s r, f s = Some r -> from_session conversations s r) ->
  (forall o, moves (conv_facts o ++ K) K' (k o)) -> moves K K' (bind (query f) k).
Proof.
  intros Hf Hk. apply moves_query. intros w Hw. exists (conv_facts (f (session w)) ++ K). split; [|done].
  destruct Hw as [Hc Hs Hm Hcov Hkn]. split; [done..|]. intros x [Hx|Hx]%elem_of_app; [|auto].
  destruct (f (session w)) as [r|] eqn:E; [|by apply elem_of_nil in Hx]. apply list_elem_of_singleton in Hx as ->.
  destruct (Hf _ _ E) as [Hr|Hr]; [|apply Hcov]; by exists r.
Qed.
Lemma moves_assoc K K' {A B C} (m : M X A) (f : A -> M X B) (k : B -> M X C) :
  moves K K' (bind m (fun a => bind (f a) k)) -> moves K K' (bind (bind m f) k).
Proof. intros Hm w Hw. specialize (Hm w Hw). unfold bind in *. destruct (m w) as [[[a|x]|] w1]; done. Qed.
Lemma moves_ret K K' {A B} (a : A) (k : A -> M X B) : moves K K' (k a) -> moves K K' (bind (ret a) k).
Proof. done. Qed.
Lemma moves_raise K K' {A B} x (k : A -> M X B) : K' ⊆ K -> moves K K' (bind (raise x) k).
Proof. intros HK w Hw. by eapply typed_weaken. Qed.
End Session.
Create HintDb moves.
#[export] Hint Resolve moves_tick moves_call moves_presence moves_flush moves_commit insert_event insert_reaction assign_event
  delete_reactions delete_pins delete_member : moves.
