(* ===== verification/RealtimeTyping.v ===== *)
(** Every job of the realtime service keeps its database well typed: every
    message and audit row that is stored can be read back, and rows refer to each
    other within one conversation and one application. *)
From S2P Require Import Prelude PyFloat Json JsonFacts JsonText UuidText Calendar Session Schema WebApi Sha256 Engines RealtimeModels RealtimeCore RealtimeHub RealtimeEvents RealtimeSchemas RealtimeService RealtimeServer RealtimeFacts RealtimeTypes RealtimeDelivery RealtimeLife RealtimeDemo RealtimeProcess.
#[local] Open Scope string_scope.
#[local] Open Scope list_scope.
#[local] Open Scope Z_scope.

(** * Texts that are read back *)
Lemma digits_of_length fuel n acc : (String.length (digits_of fuel n acc) <= fuel + String.length acc)%nat.
Proof. revert n acc. induction fuel as [|fuel IH]; intros n acc; cbn [digits_of]; [lia|]. case_match; [cbn; lia|]. etrans; [apply IH|]. cbn. lia. Qed.
Lemma digits_count_small n : 0 <= n < 2 ^ 64 -> digits_count n <=? 4300 = true.
Proof.
  intros Hn. apply Z.leb_le. unfold digits_count, str_of_Z. rewrite Z.abs_eq by lia. rewrite (proj2 (Z.ltb_ge n 0)) by lia.
  assert (0 <= Z.log2 n < 65) as Hl.
  { split; [apply Z.log2_nonneg|]. destruct (Z.eq_dec n 0) as [->|]; [done|]. apply Z.log2_lt_pow2; lia. }
  pose proof (digits_of_length (S (Z.to_nat (Z.log2 n))) n EmptyString) as Hd. cbn [String.length] in Hd. lia.
Qed.
Lemma safe_json_raw v d : plain v = true -> safe_json (compact_raw v) d = v.
Proof. intros Hp. unfold safe_json, compact_raw. by rewrite (json_loads_raw false v Hp). Qed.
Lemma safe_json_uuids us d : safe_json (json_dumps (JArr (map uuid_json us))) d = JArr (map uuid_json us).
Proof.
  unfold safe_json. pose proof (json_loads_dumps " " (JArr (map uuid_json us))) as Hl.
  change (dumps false ("," ++ " ") (":" ++ " ") (JArr (map uuid_json us)))%string with (json_dumps (JArr (map uuid_json us))) in Hl.
  rewrite Hl; [done|by right|..]; cbn; apply forallb_forall; intros x (u & <- & _)%in_map_iff; [done|apply uuid_text_utf8].
Qed.
Lemma read_mentions_uuids us : forallb uuid_column us = true -> read_mentions (JArr (map uuid_json us)) = Ok us.
Proof.
  unfold read_mentions. cbn [iterate]. induction us as [|u us IH]; [done|]. cbn [map forallb List.filter]. rewrite andb_true_iff. intros [Hu Hus].
  assert (truthy (uuid_json u) = true) as ->.
  { unfold uuid_json. cbn. assert (String.length (str_of_uuid u) = 36%nat) as Hl by (unfold str_of_uuid; by rewrite !length_append, !hex_digits_length).
    by destruct (str_of_uuid u). }
  cbn [collect]. change (py_str (uuid_json u)) with (str_of_uuid u). unfold uuid_column in Hu. rewrite uuid_of_str_of_uuid by lia.
  cbn [rbind]. by rewrite (IH Hus).
Qed.
Lemma plain_attachment a : valid_AttachmentRef a = true -> plain (dump_attachment a) = true.
Proof.
  intros Hv. unfold valid_AttachmentRef in Hv. rewrite !andb_true_iff in Hv. assert (0 <= at_size_bytes a <= 100 * 1024 * 1024) as Hs by (unfold between in Hv; lia).
  unfold dump_attachment. cbn -[nodup_keys Z.mul]. rewrite Z.abs_eq, digits_count_small by lia.
  by destruct (at_sha256 a), (at_thumbnail_url a).
Qed.
Lemma read_attachments_dump l : forallb valid_AttachmentRef l = true -> read_attachments (JArr (map dump_attachment l)) = Ok l.
Proof.
  unfold read_attachments. cbn [iterate]. induction l as [|a l IH]; [done|]. cbn [map forallb flat_map]. rewrite andb_true_iff. intros [Ha Hl].
  cbn [app]. unfold dump_attachment at 1. cbn [app collect]. unfold read_attachment at 1.
  assert (mk_AttachmentRef (at_url a) (at_name a) (at_content_type a) (at_size_bytes a) (at_sha256 a) (at_thumbnail_url a) = a) as Ea by by destruct a.
  cbn -[valid_AttachmentRef collect]. destruct (at_sha256 a) eqn:E1, (at_thumbnail_url a) eqn:E2; cbn -[valid_AttachmentRef collect]; rewrite Ea, Ha;
    cbn -[valid_AttachmentRef collect]; by rewrite (IH Hl).
Qed.
Lemma message_out_readable m : readable m -> exists out, message_out m = Ok out.
Proof.
  intros (users & files & Hu & Hvu & Hf & Hvf). unfold message_out. cbv zeta. fold (mentions_of m) (attachments_of m). rewrite Hu, read_mentions_uuids by done. cbn [rbind].
  destruct (is_some (Message.deleted_at m)); [by eexists|]. rewrite Hf, read_attachments_dump by done. by eexists.
Qed.

(** * Steps along a computation *)
Ltac subset := first [apply list_subseteq_nil | done | set_solver].
Ltac known := solve [auto 2 with moves].
(** A computation that changes one table. *)
Ltac change_table :=
  lazymatch goal with
  | |- moves _ _ (insert conversations _ _) => apply insert_conversation; intros ?
  | |- moves _ _ (insert messages _ _) => apply insert_message; intros ?
  | |- moves _ _ (insert conversation_members _ _) => apply insert_member; intros ?
  | |- moves _ _ (insert message_receipts _ _) => apply insert_receipt; intros ?
  | |- moves _ _ (insert event_recipients _ _) => apply insert_delivery; intros ?
  | |- moves _ _ (insert audit_events _ _) => apply insert_audit; intros ?
  | |- moves _ _ (insert conversation_pins _ _) => apply insert_pin; intros ?
  | |- moves _ _ (assign conversations _ _) => apply assign_conversation; intros ? ?
  | |- moves _ _ (assign messages _ _) => apply assign_message; intros ? ?
  | |- moves _ _ (assign conversation_members _ _) => apply assign_member; intros ? ?
  | |- moves _ _ (assign message_receipts _ _) => apply assign_receipt; intros ? ?
  | |- moves _ _ (assign event_recipients _ _) => apply assign_delivery; intros ? ?
  | |- moves _ _ (for_each _ _) => apply moves_for_each; intros ? ?
  | |- moves _ _ (map_each _ _) => apply moves_map_each; intros ?
  | |- moves _ _ (catch _ _) => apply moves_catch; [|intros ?]
  | |- moves _ _ (update _) => by apply moves_still
  | |- moves _ _ (send _ _) => by apply moves_still
  end.
Ltac moves_step :=
  cbv zeta; cbn [fst snd];
  lazymatch goal with
  | |- moves _ _ (bind (bind _ _) _) => apply moves_assoc
  | |- moves _ _ (bind (ret _) _) => apply moves_ret
  | |- moves _ _ (bind (raise _) _) => apply moves_raise; subset
  | |- moves _ _ (bind (require _ _) _) => apply moves_require; [subset|intros ?]
  | |- moves _ _ (bind (some_or _ _) _) => let E := fresh in apply moves_some_or; [subset|intros ? E; first [discriminate E | injection E as <- | subst | idtac]]
  | |- moves _ _ (bind (lift _) _) => apply moves_lift; [subset|intros ? ?]
  | |- moves _ _ (bind (query (get messages _)) _) => apply query_get; intros ? ?
  | |- moves _ _ (bind (query (scalar messages _)) _) => apply query_scalar; intros ? ?
  | |- moves _ _ (bind (query (get conversations _)) _) => apply query_conversation; [intros ? ?; apply get_row|intros ?]
  | |- moves _ _ (bind (query (scalar conversations _)) _) => apply query_conversation; [intros ? ?; apply scalar_row|intros ?]
  | |- moves _ _ (bind (query _) _) => apply moves_any; intros ?
  | |- moves _ _ (bind (match ?x with _ => _ end) _) => destruct x eqn:?
  | |- moves _ _ (bind (except_integrity _ (fun _ => bind rollback _)) _) => apply moves_forget; [apply moves_except; [|intros ?]|intros ?]
  | |- moves _ _ (bind (fun w => _) _) => apply moves_bind; [subset| |intros ?]
  | |- moves _ _ (bind _ _) =>
      first [apply moves_bind; [subset|first [known | change_table]|intros ?] | apply moves_forget; [known|intros ?]
            | lazymatch goal with |- moves _ _ (bind ?m _) => let h := head_of m in unfold h end]
  | |- moves _ _ (match ?x with _ => _ end) => destruct x eqn:?
  | |- moves _ _ (except_integrity _ (fun _ => bind rollback _)) => apply moves_except; [|intros ?]
  | |- moves _ _ (ret _) => apply moves_subset; [subset|by apply moves_still]
  | |- moves _ _ (raise _) => apply moves_subset; [subset|by apply moves_still]
  | |- moves _ _ (lift _) => apply moves_subset; [subset|by apply moves_still]
  | |- moves _ _ (query _) => apply moves_subset; [subset|by apply moves_still]
  | |- moves _ _ (require _ _) => apply moves_subset; [subset|unfold require; repeat case_match; by apply moves_still]
  | |- moves _ _ (some_or _ _) => apply moves_subset; [subset|unfold some_or; repeat case_match; by apply moves_still]
  | |- moves _ _ (fun w => _) => let w := fresh "w" in let Hw := fresh "Hw" in intros w Hw; cbv beta; repeat case_match
  | |- moves _ _ ?m => first [known | apply moves_subset; [subset|first [known | change_table]] | let h := head_of m in unfold h]
  | |- typed ?K (snd (?c ?w)) => refine ((_ : moves K K c) w _); [|assumption]
  end.
Ltac moves := repeat moves_step.

Section Typing.
Context {X : Type} `{RedisServer X, PushGateway X, Providers}.
Implicit Types e : Env.
Lemma moves_draw K e : moves (X:=X) K K (draw e).
Proof. by apply moves_still. Qed.
#[local] Hint Resolve moves_draw : moves.
Lemma moves_publish K e a v : moves (X:=X) K K (publish e a v).
Proof. moves. Qed.
Lemma moves_rate_limit K e n i l s : moves (X:=X) K K (enforce_rate_limit e n i l s).
Proof. moves. Qed.
Lemma moves_disconnect K e a s c : moves (X:=X) K K (disconnect e a s c).
Proof. unfold disconnect. apply moves_bind; [done| |intros; moves]. apply moves_still. intros w. unfold update. cbn [snd]. repeat case_match; done. Qed.
Lemma moves_notify K e n : moves (X:=X) K K (notify_event e n).
Proof. moves. Qed.
#[local] Hint Resolve moves_publish moves_rate_limit moves_disconnect moves_notify : moves.
Lemma moves_deliver K e r : moves (X:=X) K K (deliver_event e r).
Proof. by moves. Qed.
#[local] Hint Resolve moves_deliver : moves.
Lemma moves_queue K e q : moves (X:=X) K [] (queue_event e q).
Proof. by moves. Qed.
#[local] Hint Resolve moves_queue : moves.
Lemma moves_emit K e m t p title body : moves (X:=X) K [] (emit_message_event e m t p title body).
Proof. moves. Qed.
#[local] Hint Resolve moves_emit : moves.
Lemma moves_ephemeral K e a l t p : moves (X:=X) K K (emit_ephemeral e a l t p).
Proof. moves. Qed.
#[local] Hint Resolve moves_ephemeral : moves.
Lemma good_audit_row e a id : plain (JObj (au_details a)) = true -> good_audit (audit_row e a id).
Proof. intros Hp. exists (au_details a). exact (safe_json_raw _ _ Hp). Qed.
Lemma moves_audit K e a : plain (JObj (au_details a)) = true -> moves (X:=X) K K (audit e a).
Proof. intros Hp. moves. by apply good_audit_row. Qed.
Lemma good_new_conversation e a c p id : valid_ConversationCreate p = true ->
  negb ((cc_kind p in? ["channel"; "system"]) && negb (is_some (truthy_key (cc_room_key p)))) = true -> good_conversation (new_conversation e a c p id) = true.
Proof.
  unfold valid_ConversationCreate. rewrite !andb_true_iff. intros [_ Hk] Hr.
  change (good_conversation _) with ((cc_kind p in? conversation_kinds) && implb (cc_kind p in? ["channel"; "system"]) (is_some (truthy_key (cc_room_key p)))).
  rewrite Hk. revert Hr. generalize (is_some (truthy_key (cc_room_key p))), (cc_kind p in? ["channel"; "system"]). by intros [] [].
Qed.
Lemma moves_create_row K e a c p : valid_ConversationCreate p = true -> moves (X:=X) K [] (create_conversation_row e a c p).
Proof. intros Hv. moves; [by apply good_new_conversation|by match goal with |- context [if ?b then _ else _] => destruct b end]. Qed.
Lemma good_updated_member m r : valid_MemberMutation m = true -> good_member r = true -> good_member (updated_member m r) = true.
Proof. unfold valid_MemberMutation, updated_member, good_member. rewrite andb_true_iff. intros [_ Hv] Hr. destruct (mm_role m), (mm_muted m); cbn -[roles] in *; rewrite ?andb_true_r in *; done. Qed.
Lemma moves_mutate K e k l m : valid_MemberMutation m = true -> moves (X:=X) K K (mutate_member e k l m).
Proof.
  intros Hv. moves; [|by apply good_updated_member]. unfold valid_MemberMutation in Hv. apply andb_true_iff in Hv as [_ Hv]. unfold good_member. cbn -[roles].
  destruct (mm_role m) as [role|]; [|done]. cbn -[roles] in *. rewrite andb_true_r in Hv. unfold str_or. by case_match.
Qed.
Lemma moves_mutations K e k cur l : (forall m, m ∈ l -> valid_MemberMutation m = true) -> moves (X:=X) K K (for_each (mutate_member e k cur) l).
Proof. intros Hl. apply moves_for_each. intros m Hm. by apply moves_mutate, Hl. Qed.
#[local] Hint Resolve moves_create_row moves_mutations moves_audit : moves.
Lemma elem_of_fromkeys {A} `{EqDecision A} (x : A) l : x ∈ fromkeys l <-> x ∈ l.
Proof. unfold fromkeys. by rewrite list_elem_of_In, <- in_rev, <- list_elem_of_In, elem_of_remove_dups, list_elem_of_In, <- in_rev, <- list_elem_of_In. Qed.
Lemma zlen_fromkeys {A} `{EqDecision A} (l : list A) : 0 <= zlen (fromkeys l) <= zlen l.
Proof.
  unfold fromkeys, zlen. rewrite length_rev, <- (length_rev l). split; [lia|]. apply Nat2Z.inj_le. induction (rev l) as [|x r IH]; [done|].
  cbn. destruct (decide_rel _ x r); cbn; lia.
Qed.
Lemma readable_new e k u sender p c id files : forallb uuid_column (mc_mention_subs p) = true ->
  ct_attachments c = JArr (map dump_attachment files) -> forallb valid_AttachmentRef files = true -> readable (new_user_message e k u sender p c id).
Proof.
  intros Hu Ec Hf. exists (fromkeys (mc_mention_subs p)), files. split; [by apply safe_json_uuids|]. split.
  { rewrite forallb_forall in *. intros x Hx. apply Hu. apply list_elem_of_In in Hx. apply list_elem_of_In. by apply elem_of_fromkeys. }
  split; [|done]. unfold attachments_of. cbn. rewrite Ec. apply safe_json_raw. cbn [plain]. rewrite forallb_forall in *. intros x (a & <- & Ha)%in_map_iff. by apply plain_attachment, Hf.
Qed.
Lemma content_attachments p f : valid_MessageCreate p = true -> (forall r, f = Some r -> good_message r) ->
  exists files, ct_attachments (content_of p f) = JArr (map dump_attachment files) /\ forallb valid_AttachmentRef files = true.
Proof.
  intros Hv Hf. assert (forallb valid_AttachmentRef (mc_attachments p) = true) as Ha by (unfold valid_MessageCreate in Hv; rewrite !andb_true_iff in Hv; tauto).
  destruct f as [f|]; [|by exists (mc_attachments p)]. destruct (Hf f eq_refl) as [_ (_ & files & _ & _ & Ef & Hfiles)]. unfold content_of.
  destruct (mc_attachments p) as [|a l] eqn:E; [exists files|exists (a :: l)]; done.
Qed.
Lemma good_new_message e k u sender p f id : valid_MessageCreate p = true -> (forall r, f = Some r -> good_message r) ->
  good_message (new_user_message e k u sender p (content_of p f) id).
Proof.
  intros Hv Hf. destruct (content_attachments p f Hv Hf) as (files & Ec & Hfiles). split.
  - unfold good_sender. cbn -[priorities]. unfold valid_MessageCreate in Hv. rewrite !andb_true_iff in Hv. destruct Hv as [[_ Hp] _]. rewrite Hp. by rewrite bool_decide_true.
  - eapply readable_new; [|done..]. unfold valid_MessageCreate in Hv. rewrite !andb_true_iff in Hv. tauto.
Qed.
Lemma moves_store K e c p u sender ids content : (forall id, good_message (new_user_message e (Conversation.id c) u sender p content id)) ->
  ConvFact (Conversation.id c) (up_client_id u) ∈ K ->
  (forall k, mc_reply_to_message_id p = Some k -> exists a, MsgFact k (Conversation.id c) a ∈ K) ->
  (forall k, mc_forward_message_id p = Some k -> exists c, MsgFact k c (up_client_id u) ∈ K) ->
  moves (X:=X) K [] (store_message e c p u sender ids content).
Proof.
  intros Hg Hc Hr Hf. moves; try done.
  unfold new_receipt. by destruct (x =? sender).
Qed.
(** A fact of a row that has been found. *)
Ltac found :=
  intros; simplify_eq/=; repeat match goal with
    | Hm : forall r, Some ?m = Some r -> _ /\ _ |- _ => destruct (Hm m eq_refl) as [? ?]; clear Hm
    | E : (_ ==? _) = true |- _ => apply bool_decide_eq_true in E
    | E : (_ =? _) = true |- _ => apply Z.eqb_eq in E
    end; subst; try eexists;
  cbn [msg_facts conv_facts app]; repeat lazymatch goal with
    | |- _ ∈ _ :: _ => first [apply elem_of_cons; left; first [apply (f_equal2 ConvFact) | apply (f_equal3 MsgFact)]; first [reflexivity | congruence]
                             | apply list_elem_of_further]
    end.
Ltac found_good := intros; simplify_eq; match goal with Hm : forall r, Some ?m = Some r -> _ |- good_message ?m => apply (Hm m eq_refl) end.
#[local] Opaque store_message.
Lemma moves_send e k p u : valid_MessageCreate p = true -> moves (X:=X) [] [] (send_message e k p u).
Proof.
  intros Hv. moves; (apply moves_forget; [apply moves_store; [intros; apply good_new_message; [done|found_good]|found..]|intros; moves]).
Qed.
#[local] Hint Resolve moves_send : moves.
(** The rows that the other endpoints change. *)
Lemma good_edited e p x : good_message x -> good_message (edited e p x).
Proof. unfold edited. by destruct (me_data p). Qed.
Lemma good_received e x : good_receipt x = true -> good_receipt (received_receipt e x) = true.
Proof.
  destruct x as [? ? ? state ? delivered_at read_at ?]. unfold good_receipt. cbn.
  destruct delivered_at, read_at; try done; by intros ->%bool_decide_eq_true.
Qed.
Lemma good_read e x : good_receipt x = true -> good_receipt (read_receipt e x) = true.
Proof. unfold read_receipt, good_receipt. cbn. by destruct (MessageReceipt.delivered_at x). Qed.
Lemma good_acknowledged e st x : good_delivery x = true -> good_delivery (event_acknowledged e st x) = true.
Proof. unfold event_acknowledged, good_delivery. intros Hx. destruct (st ==? "opened"); cbn; destruct (EventRecipient.received_at x), (EventRecipient.opened_at x); done. Qed.
Lemma edited_row e p x : good_message x -> good_message (edited e p x) /\ Message.id (edited e p x) = Message.id x /\
  Message.conversation_id (edited e p x) = Message.conversation_id x /\ Message.application_id (edited e p x) = Message.application_id x /\
  Message.reply_to_message_id (edited e p x) = Message.reply_to_message_id x /\
  Message.forwarded_from_message_id (edited e p x) = Message.forwarded_from_message_id x.
Proof. intros Hx. split; [by apply good_edited|]. unfold edited. by destruct (me_data p). Qed.
#[local] Hint Resolve good_audit_row good_received good_read good_acknowledged edited_row : rows.
Ltac endpoint := moves; try done; auto with rows; try solve [found].
Lemma moves_edit e k p u : moves (X:=X) [] [] (edit_message e k p u).
Proof. endpoint. Qed.
Lemma moves_delete e k u : moves (X:=X) [] [] (delete_message e k u).
Proof. endpoint. Qed.
Lemma moves_receipt e k p u : moves (X:=X) [] [] (acknowledge_message e k p u).
Proof. endpoint. Qed.
Lemma moves_read e k m u : moves (X:=X) [] [] (mark_read e k m u).
Proof. endpoint. Qed.
Lemma moves_react e k m u : moves (X:=X) [] [] (add_reaction e k m u).
Proof. endpoint. Qed.
Lemma moves_unreact e k m u : moves (X:=X) [] [] (remove_reaction e k m u).
Proof. endpoint. Qed.
Lemma moves_pin e k m u : moves (X:=X) [] [] (pin_message e k m u).
Proof. endpoint. Qed.
Lemma moves_unpin e k m u : moves (X:=X) [] [] (unpin_message e k m u).
Proof. endpoint. Qed.
Lemma moves_activity e k a b u : moves (X:=X) [] [] (activity e k a b u).
Proof. endpoint. Qed.
Lemma moves_shown e k u : moves (X:=X) [] [] (conversation_presence e k u).
Proof. endpoint. Qed.
Lemma moves_list e k u t n : moves (X:=X) [] [] (list_messages e k u t n).
Proof. endpoint. Qed.
Lemma moves_ack e a k u st : moves (X:=X) [] [] (record_ack e a k u st).
Proof. endpoint. Qed.
#[local] Hint Resolve moves_ack : moves.
Lemma plain_mutation m : plain (dump_mutation m) = true.
Proof. by destruct m as [? ? [] []]. Qed.
Lemma good_service_message e k a p id : valid_PlatformConversationEventCreate p = true -> good_message (new_service_message e k a p id).
Proof.
  intros Hv. split.
  - unfold valid_PlatformConversationEventCreate in Hv. rewrite !andb_true_iff in Hv. destruct Hv as [[[[[[_ Ht] Hn] _] _] _] Hp]. unfold good_sender.
    cbn -[priorities event_name]. rewrite Hp, Ht, Hn. by rewrite bool_decide_true.
  - by exists [], [].
Qed.
#[local] Hint Resolve good_service_message : rows.
Lemma moves_create e p u : valid_ConversationCreate p = true -> moves (X:=X) [] [] (create_conversation e p u).
Proof. intros Hv. endpoint. Qed.
Lemma moves_platform_create e p u : valid_ConversationCreate p = true -> moves (X:=X) [] [] (platform_create_conversation e p u).
Proof. intros Hv. endpoint. apply good_audit_row. by destruct (Conversation.room_key _). Qed.
Lemma moves_platform_members e k l u : valid_MemberMutationRequest l = true -> moves (X:=X) [] [] (platform_manage_members e k l u).
Proof.
  intros Hv. unfold valid_MemberMutationRequest in Hv. apply andb_true_iff in Hv as [_ Hv]. rewrite forallb_forall in Hv.
  assert (forall m, m ∈ l -> valid_MemberMutation m = true) as Hl by (intros m Hm; by apply Hv, list_elem_of_In). endpoint.
  apply good_audit_row. cbn [au_details plain snd map fst forallb]. rewrite andb_true_r. apply andb_true_iff. split; [|done]. apply forallb_forall. intros x (m & <- & _)%in_map_iff.
  apply plain_mutation.
Qed.
Lemma moves_platform_message e k p u : valid_PlatformConversationEventCreate p = true -> moves (X:=X) [] [] (platform_publish_conversation_event e k p u).
Proof. intros Hv. endpoint. Qed.
Lemma moves_platform_event e p u : valid_PlatformEventRequest p = true -> moves (X:=X) [] [] (platform_publish_event e p u).
Proof.
  intros Hv. endpoint. apply good_audit_row. cbn -[digits_count Z.leb].
  assert (0 <= zlen (fromkeys (pe_recipient_subs p)) <= zlen (pe_recipient_subs p)) as Hl by apply zlen_fromkeys.
  assert (zlen (pe_recipient_subs p) <=? 5000 = true) as H5 by (unfold valid_PlatformEventRequest in Hv; rewrite !andb_true_iff in Hv; tauto).
  rewrite Z.abs_eq, digits_count_small by lia. by destruct (pe_audience_label p).
Qed.
Lemma moves_open e k v : moves (X:=X) [] [] (ws_open e k v).
Proof. endpoint. Qed.
Lemma moves_frame e k u c v : moves (X:=X) [] [] (ws_frame e k u c v).
Proof. endpoint. Qed.
Lemma moves_item e v : moves (X:=X) [] [] (on_message e v).
Proof. endpoint. Qed.
Lemma moves_round e n : moves (X:=X) [] [] (process_due_events e n).
Proof. endpoint. Qed.
#[local] Hint Resolve moves_edit moves_delete moves_receipt moves_read moves_react moves_unreact moves_pin moves_unpin moves_activity moves_shown moves_list
  moves_create moves_platform_create moves_platform_members moves_platform_message moves_platform_event moves_open moves_frame moves_item moves_round : moves.
Lemma validated_ok b u : validated b = Ok u -> b = true.
Proof. by destruct b. Qed.
Lemma moves_user {A} e cr b (mk : A -> Reply) m : (b = true -> forall u, moves (X:=X) [] [] (m u)) -> moves (X:=X) [] [] (as_user e cr b mk m).
Proof. intros Hm. unfold as_user. apply moves_lift; [done|]. intros u _. apply moves_lift; [done|]. intros v Hb%validated_ok. apply moves_bind; [done|auto|]. intros. moves. Qed.
Lemma moves_service {A} e sc cr b (mk : A -> Reply) m : (b = true -> forall u, moves (X:=X) [] [] (m u)) -> moves (X:=X) [] [] (as_service e sc cr b mk m).
Proof. intros Hm. unfold as_service. apply moves_lift; [done|]. intros u _. apply moves_lift; [done|]. intros v Hb%validated_ok. apply moves_bind; [done|auto|]. intros. moves. Qed.
Lemma moves_endpoint e c : moves (X:=X) [] [] (endpoint e c).
Proof. destruct c; cbn [endpoint]; first [apply moves_user | apply moves_service]; intros Hb u; first [known | moves]. done. Qed.
#[local] Hint Resolve moves_endpoint : moves.
Lemma moves_job e j : moves (X:=X) [] [] (job e j).
Proof. destruct j; cbn [job]; moves. Qed.
Lemma well_serve e c j (w : World X) : well (committed w) -> well (committed (snd (serve e c j w))).
Proof.
  intros Hw. assert (typed [] (start c w)) as Ht by (by split; [..|intros f ?%elem_of_nil]).
  apply (moves_job e j) in Ht as [Hc _ _ _ _]. unfold serve. by destruct (job e j (start c w)) as [[|] ?].
Qed.
Lemma well_steps (w w' : World X) : well (committed w) -> rtc step w w' -> well (committed w').
Proof. intros Hw Hs. revert Hw. induction Hs as [|w w1 w2 [e c j _] _ IH]; intros Hw; [done|]. by apply IH, well_serve. Qed.
End Typing.
Lemma well_empty : well empty_RealtimeDb.
Proof. by split; intros; match goal with Hr : _ ∈ _ |- _ => apply elem_of_nil in Hr end. Qed.

(** C21. The database of the service is well typed in every reachable state, whatever
    the jobs, the answers of the servers outside and the points at which the
    process is killed: every stored message renders (its mentions and attachments,
    those it has from a forwarded message included, parse again) and so does every
    audit row, so that no page of the history or of the audit fails on a row; the
    sender, kind and priority of a message are as declared; a message
    is in a conversation of its own application, replies to a message of the same
    conversation and forwards one of the same application; a pin is of a message of
    its conversation; a receipt has the times of its state; an event that a user
    has opened has been received. *)
Theorem database_well_typed {X} `{RedisServer X, PushGateway X, Providers} (o : X) (w : World X) :
  rtc step (initial o) w -> let d := committed w in
  (forall m, m ∈ messages d -> (exists out, message_out m = Ok out) /\ good_sender m = true /\
     (exists c, c ∈ conversations d /\ Conversation.id c = Message.conversation_id m /\ Conversation.application_id c = Message.application_id m) /\
     (forall k, Message.reply_to_message_id m = Some k ->
        exists r, r ∈ messages d /\ Message.id r = k /\ Message.conversation_id r = Message.conversation_id m) /\
     (forall k, Message.forwarded_from_message_id m = Some k ->
        exists r, r ∈ messages d /\ Message.id r = k /\ Message.application_id r = Message.application_id m)) /\
  (forall a, a ∈ audit_events d -> exists out, audit_out a = Ok out) /\
  (forall p, p ∈ conversation_pins d -> exists m, m ∈ messages d /\ Message.id m = ConversationPin.message_id p /\
     Message.conversation_id m = ConversationPin.conversation_id p) /\
  (forall c, c ∈ conversations d -> good_conversation c = true) /\ (forall r, r ∈ conversation_members d -> good_member r = true) /\
  (forall r, r ∈ message_receipts d -> good_receipt r = true) /\ (forall r, r ∈ event_recipients d -> good_delivery r = true).
Proof.
  intros Hs d. assert (well d) as Hw by exact (well_steps (initial o) w well_empty Hs). repeat split; try by apply Hw.
  - apply message_out_readable. by apply Hw.
  - intros k Hk. destruct (we_reply d Hw m k) as (a & r & ? & ? & ? & _); [done..|]. by exists r.
  - intros k Hk. destruct (we_forward d Hw m k) as (c & r & ? & ? & _ & ?); [done..|]. by exists r.
  - intros a Ha. destruct (we_audit d Hw a Ha) as [details Ed]. unfold audit_out. rewrite Ed. by eexists.
  - intros p Hp. destruct (we_pin d Hw p Hp) as (a & m & ? & ? & ? & _). by exists m.
Qed.

(** Ana creates a group with Bob and sends a message with an attachment; Bob
    replies to it, mentioning her; the message and the reply render. *)
Definition asks (n : Z) (c : Call) (w : World Servers) : World Servers := snd (serve (demo_env n t0) None (Request c) w).
Definition photo : AttachmentRef := mk_AttachmentRef "https://files.ithute.co.ls/1" "photo.jpg" "image/jpeg" 2048 None None.
Definition group_run : World Servers := asks 1 (PostConversation ana_token (group_of [bob])) (initial quiet).
Definition group_id : uuid := hd 0 (map Conversation.id (conversations (committed group_run))).
Definition sent_run : World Servers :=
  asks 2 (PostMessage ana_token group_id (mk_MessageCreate "Look" (Some "m1") [] None None [] [photo] "normal")) group_run.
Definition message_1 : uuid := hd 0 (map Message.id (messages (committed sent_run))).
Definition reply_run : World Servers :=
  asks 3 (PostMessage bob_token group_id (mk_MessageCreate "Nice" (Some "m2") [] (Some message_1) None [ana] [] "normal")) sent_run.
Lemma database_well_typed_witness : exists m1 m2 o1 o2,
  messages (committed reply_run) = [m1; m2] /\ message_out m1 = Ok o1 /\ ms_attachments o1 = [photo] /\ message_out m2 = Ok o2 /\
  ms_mentions o2 = [ana] /\ Message.reply_to_message_id m2 = Some (Message.id m1) /\
  exists r, r ∈ messages (committed reply_run) /\ Message.id r = Message.id m1 /\ Message.conversation_id r = Message.conversation_id m2.
Proof.
  assert (rtc step (initial quiet) reply_run) as Hs.
  { apply (rtc_l _ _ group_run); [by constructor|]. apply (rtc_l _ _ sent_run); [by constructor|]. apply rtc_once. by constructor. }
  set (none := Message.new_Message 0 0). set (m1 := nth 0 (messages (committed reply_run)) none). set (m2 := nth 1 (messages (committed reply_run)) none).
  assert (messages (committed reply_run) = [m1; m2]) as Em by by vm_compute.
  destruct (database_well_typed quiet reply_run Hs) as [Hm _]. cbv zeta in Hm.
  destruct (Hm m1) as ((o1 & E1) & _); [rewrite Em; by left|]. destruct (Hm m2) as ((o2 & E2) & _ & _ & Hr & _); [rewrite Em; right; by left|].
  assert ((let* o := message_out m1 in Ok (ms_attachments o)) = Ok [photo]) as A1 by by vm_compute.
  assert ((let* o := message_out m2 in Ok (ms_mentions o)) = Ok [ana]) as A2 by by vm_compute.
  assert (Message.reply_to_message_id m2 = Some (Message.id m1)) as A3 by by vm_compute.
  rewrite E1 in A1. rewrite E2 in A2. injection A1 as A1. injection A2 as A2. exists m1, m2, o1, o2. repeat (split; [assumption|]). exact (Hr _ A3).
Defined.
